(* ===== verification/_CoqProject ===== *)
-Q . S2P
Prelude.v
Errors.v
Precise.v
Stake.v
Registry.v
Weights.v
Fees.v
Snapshots.v
Voting.v
EpochStates.v
Routes.v
NcnRouter.v
OperatorRouter.v
Backing.v
Consensus.v
Accounts.v
Machine.v
Lamports.v
Cells.v
VoteHandlers.v
AdminHandlers.v
SnapshotHandlers.v
RewardHandlers.v
CloseHandlers.v
Program.v
Frames.v
Authority.v
Chain.v
Elections.v
Frozen.v
Majority.v
Electorate.v
Polls.v
Turnout.v
Payouts.v
Conservation.v
Gains.v
Solvency.v
Interface.v
Lingering.v
Client.v
Builders.v
ClientErrors.v
Wire.v
Invocations.v
Getters.v
Commands.v
Tickets.v
Metrics.v
Keeper.v
Handler.v
Sends.v
Idl.v
Cranks.v
KeeperRuns.v
Routing.v
Creation.v
Scenario.v
Deviations.v
Examples.v
Node.v
Walkthrough.v
