(* ===== verification/Prelude.v ===== *)
(** * The NCN program: verification development

    The program of this repository runs the vote of a node consensus network
    (NCN) on Solana, epoch by epoch. For every epoch it copies the NCN's vaults
    and mints into a weight table, snapshots the stake of every operator, lets
    the operators vote in a ballot box, records the outcome, splits the rewards
    that arrive between the protocol, the NCN, the operators and their vaults,
    and closes the epoch's accounts. This development models the two crates that
    are the program: [core/src], the data of every account with its operations,
    and [program/src], the thirty-one instructions that work on the accounts; and
    the client that operates it: [clients/rust], the generated instructions, and
    [cli/src], the commands that send them, the keeper that drives every epoch
    through its phases, and the operator's loop that votes.

    ** The files

    Every module below is named after the Rust type it models and every
    definition after the Rust function; a record has the fields of the struct.

    - [Prelude]: machine integers as integers with their checked operations, the
      state and error monad [M] of a method called on [&mut self], and the lists.
      [Routes] is the theory of an array of slots with a key and an amount, which
      both reward routers use.
    - The core types, one file each: [Errors] ([error.rs]), [Precise]
      ([constants.rs] and the interface to fixed-point numbers), [Stake]
      ([stake_weight.rs]), [Registry] ([vault_registry.rs]), [Weights]
      ([weight_entry.rs], [weight_table.rs]), [Fees] ([fees.rs]), [Snapshots]
      ([epoch_snapshot.rs]), [Voting] ([ballot_box.rs]), [EpochStates]
      ([epoch_state.rs]), [NcnRouter] ([ncn_reward_router.rs]), [OperatorRouter]
      ([operator_vault_reward_router.rs]), [Consensus] ([consensus_result.rs],
      [config.rs]).
    - The accounts: [Accounts] is their addresses and the checks before one is
      trusted ([loaders.rs], [utils.rs], [discriminators.rs], [epoch_marker.rs],
      and [seeds], [find_program_address], [load] and [load_to_close] of every
      account type); [Machine] the store of accounts, with structs inside their
      data and the services of the runtime; [Lamports] the creation, growth and
      closing of accounts ([account_payer.rs]) and the reward receivers.
    - The instructions, a handler per file of [program/src]: [VoteHandlers],
      [AdminHandlers], [SnapshotHandlers], [RewardHandlers], [CloseHandlers];
      [Program] dispatches them ([instruction.rs], [lib.rs]).
    - What holds of all of them: [Frames] (what a run leaves alone), [Authority]
      (who may change what), [Chain] (sequences of transactions), [Elections]
      (ballot boxes on the ledger), [Frozen] (snapshots and weight tables on the
      ledger), [Majority] (both together), [Electorate] (an automaton of an epoch's
      snapshots and the census of its operators), [Polls] (the votes of a box
      against the census), [Turnout] (both on the ledger), [Payouts],
      [Conservation] and [Gains] (lamports), [Backing] (what a router owes and has in transit, for both
      routers through the class [Router]) and [Solvency] (routers and receivers on
      the ledger).
    - The two sides of an instruction: [Interface] has, in one table, which
      accounts every instruction wants and which of them it writes, with the proof
      that the program accepts no others; [Lingering] what keeps an epoch's state
      from being closed.
    - The generated client: [Client] is what it puts in a transaction, [Builders]
      the builders that collect the accounts and arguments, [Invocations] the
      cross-program invocations, [Wire] the bytes of the data and what the program
      reads from them, [ClientErrors] its error enum, [Idl] the accounts that the
      instruction enum announces ([core/src/instruction.rs]), which the client
      passes and the program keeps to.
    - The commands: [Getters] and [Tickets] how the chain is read ([getters.rs]), [Commands] the
      transactions and the cranks ([instructions.rs]), [Metrics] what is reported
      to the telemetry ([keeper_metrics.rs], [operator_metrics.rs]), [Keeper] the
      two loops ([keeper_state.rs], [keeper_loop.rs], [operator_state.rs],
      [operator_loop.rs]), [Handler] the settings and the commands of the command
      line ([args.rs], [handler.rs], [main.rs]). [Sends] says which instructions a
      piece of the client can send and what the node can make of them; [Cranks]
      proves it for every command and loop, [KeeperRuns] which epochs the keeper
      visits, [Routing] that its routing loops end, [Creation] that its creation
      of the ballot box leaves the box on the ledger.
    - Concrete runs: [Cells] is a memory the handlers can be evaluated on,
      [Scenario] an epoch from the first instruction to the last, [Deviations]
      runs that show the code doing something else than it says, [Examples] the
      theorems about the ledger applied to the scenario; [Node] a node that
      executes what the client sends, [Walkthrough] the keeper and the operator on
      it, and the theorems about the client there.

    ** How the code is translated

    A method on [&mut self] is a function in [M]: from a state to a result and
    the state after it, which on an error is the state with every assignment made
    before the error. A result is [Ok], [Err] or [Panic]; an index out of range
    and [data[0]] of an empty account panic. An instruction handler is in the
    same monad with the store as its state: a function from keys to accounts, so
    that a key passed twice is one account, read and written through both. The
    borrows of an account's data are followed: a second [borrow] of data that is
    held panics, a [try_borrow] fails. Fixed arrays are lists of the array's
    length. Loops over arrays are structural recursions, so there is no fuel in
    the program.

    The client's functions are in the same monad, over everything outside the
    client; an error is an answer of the node, an error of the program's code that
    the client runs itself, or a message. The loops carry their variables beside
    the world ([Keeper.t]); [Keeper.round] is one turn of the keeper's infinite
    [loop] and [Keeper.rounds] a number of them. The two [while still_routing] loops
    wait for the node's answer and have fuel; without fuel left they panic, which
    covers the loop that never ends. What is proved of the client holds for every
    amount of fuel, and [Routing] that 257 are enough on a node that tells the
    truth. Waiting and logging have no effect in the model.

    ** What is outside, and what is assumed of it

    - [spl_math]'s [PreciseNumber]: the class [Precise.PreciseNumber] with its
      laws, given by the concrete numbers [Precise.fixed_point] in the witnesses.
    - The bytes of an account: [Accounts.AccountData], [Machine.AccountBytes] and
      [Machine.Stored] (reading a struct in place and assigning to it), with laws
      that an assignment is read back and keeps the length and the first byte.
    - The derivation of addresses, [Accounts.Runtime]: theorems about different
      accounts assume that it has no collisions.
    - The restaking and vault programs' accounts and methods, the sysvars and the
      system program: [Machine.Externals] and [Machine.System]. The laws used are
      that a transfer moves lamports, an allocation gives zeros, an assignment
      changes the owner, an operator's account is not this program's and a system
      account is empty. [Turnout] also assumes that the operators of an NCN have
      different indices, which do not change.
    - Other programs, in [Chain.step]: between instructions they may do anything
      to the ledger that the runtime lets them, which excludes the data of this
      program's accounts. A transaction that fails is rolled back. [Solvency]
      also assumes that nobody else can sign for an address derived from this
      program's, so that a system account there keeps its lamports.

    - The node, the weather service and the other two programs' side of the
      client: [Getters.Rpc], [Getters.Partners] and [Tickets.Tickets]. The laws,
      [Sends.NodeLaws] and [Cranks.PartnersLaws], only say that a request for information and a
      transaction of the client leave the ledger to the other users of the chain
      and to the instructions of that transaction, executed by the program in
      order, and that the vault program's instructions are not this program's; any
      request may fail, at any time, after any part of it.
    - The writing of a point of telemetry, [Metrics.Telemetry], which does not
      touch the ledger, and what the command line needs to read keys and amounts,
      [Handler.Libraries], which does not either.
    - Only for the end of the routing loops, [Routing.ReliableNode]: the node
      answers with the accounts as they are, executes a transaction once when it
      says so and else not at all, and nobody else moves the ledger meanwhile.

    All of these are instantiated together in [Cells] and [Node], where every law
    is proved, so no hypothesis is vacuous.

    ** What is shown

    - The ledger. [Authority.instructions_are_governed]: every instruction needs
      the right signature and changes only accounts of its NCN, epoch and type.
      [Chain.outcome_is_final], [Chain.closed_epochs_stay_closed]: recorded
      outcomes and closed epochs are for ever. [Elections]: the account of a
      ballot box follows an automaton of blank, growing, open and closed; every
      box on a reachable ledger is well formed; votes and winners are final;
      growing ends. [Frozen]: weight tables and snapshots that are final do not
      change until they are closed. [Majority]: so a winner on the ledger has
      reached the threshold of the epoch's stake (two thirds, cut off after 18
      decimals), or is the tie breaker's. [Turnout]: as long as none of the
      epoch's snapshots is closed, its stake is the sum of the stakes of different
      operators, whose snapshots are final; the votes in the box are theirs, each
      with its own stake, and never weigh more; so no other ballot has half of it.
      [Conservation.lamports_are_conserved], [Payouts.payouts_move_what_is_owed],
      [Gains.others_lose_no_lamports]: no lamports are made or lost, payouts move
      what is owed, and only payers, receivers and closed accounts lose any.
      [Solvency.receivers_are_solvent]: a receiver always holds what its router
      owes. [Examples.an_epoch_completes]: a whole epoch runs.
    - The handlers of a vote. [VoteHandlers]: each refines its specification, with
      the exact condition of success and the exact effect; a stalled vote can be
      ended.
    - The ballot box. [Voting.BallotBox]: votes, tallies and tie breaks on every
      branch; the tallies add up; a winner has the threshold, is unique and final.
    - The rewards. [NcnRouter], [OperatorRouter]: the pool is divided to the last
      lamport; routing in installments ends, whatever the iteration limits, in the
      one state where everyone has the rounded-down share; each payout is paid
      once.
    - The preparation of an epoch. [Registry], [Weights], [Fees], [Snapshots],
      [Stake], [EpochStates], [Consensus]: every operation on every branch, the
      invariants, the phases of an epoch, the fees that change only from the next
      epoch on.
    - The accounts. [Accounts.account_loads_as_one_thing]: an account passes the
      load check of one type, NCN, epoch and operator only.

    - The client and the program. [Interface.program_expects_its_accounts] and
      [Cranks.client_fits_the_program]: every command sends what the program expects,
      account by account, and the commands that only print send nothing.
      [Handler.no_stake_panics]: one of these cannot print an epoch without stake.
      [Creation.client_creates_the_box]: when the client's command returns, the
      empty box is there; its number of reallocations is computed in [f64], as in
      the source, which is exact for the sizes of the accounts, but not for any
      size. [Routing.client_routing_ends]: the loops that route the
      rewards end, as every call moves the saved position on.
      [KeeperRuns.keeper_moves_in_order]: between two rounds the keeper stays on its
      epoch, goes on to the next or starts again, and it leaves only an epoch that
      is flagged as completed or waits for somebody else;
      [KeeperRuns.unread_epochs_are_left]: but that flag can be the one of the epoch
      before. [Lingering.open_router_keeps_the_epoch] and
      [Cranks.keeper_completes_no_epoch]: the program closes an epoch only after
      its reward routers, which the keeper never closes, so it never completes an
      epoch; [Walkthrough.keeper_walks_through] is such a run.
    - The interface of the program. [Idl.client_passes_what_is_announced]: the
      generated client passes the announced accounts with the announced flags;
      [Idl.only_announced_accounts_change]: an instruction leaves every account
      alone, lamports included, that is not announced as writable.
      [Wire.client_data_is_read_back]: what the client writes the program reads.
      [Builders.filled_builder_builds] and
      [Invocations.filled_cpi_builder_invokes]: the builders give the client's
      instruction in whatever order they are filled, but those of an invocation
      exchange the two flags of a remaining account
      ([Invocations.cpi_builder_swaps_flags]). [ClientErrors.client_reads_errors]: the client knows
      exactly the program's errors.

    ** Not modelled

    Log messages and [Display] (but for the texts of the errors), the writability
    of accounts beyond the checks the code makes (the runtime refuses a transaction
    that writes a read-only account, which only makes fewer transactions succeed;
    [Idl.only_announced_accounts_change] shows that the announced flags are
    enough), compute limits and stack sizes. Of the client: clap's parsing of the
    arguments ([Handler.main] starts from the parsed ones), the log lines and what
    the printing commands print, and of the generated code the copies of the
    account and data types, which only the tests read. A handler gets the
    deserialized instruction; [Wire] is the step from the bytes to it, with the
    codecs of the primitive types as parameters. The IDL generator and the tests
    are not part of the program.

    What could be added: the life of the weight table, the epoch state and the
    routers on the ledger as automata, as [Elections] has it for ballot boxes;
    specifications of the remaining handlers in the form of [VoteHandlers]. *)
From stdpp Require Export base tactics numbers list list_numbers decidable.
From Stdlib Require Export ZArith Lia.

Open Scope Z_scope.

(** ** Machine integers

    A [w]-bit unsigned integer is the integer it denotes; the operations that
    can leave the range are the ones the source calls, with their behaviour
    at the bounds written out. *)

Abbreviation u8 := Z (only parsing).
Abbreviation u16 := Z (only parsing).
Abbreviation u32 := Z (only parsing).
Abbreviation u64 := Z (only parsing).
Abbreviation u128 := Z (only parsing).
Abbreviation usize := Z (only parsing).

Definition u8_MAX : Z := 255.
Definition u16_MAX : Z := 65535.
Definition u64_MAX : Z := 18446744073709551615.
Definition u128_MAX : Z := 340282366920938463463374607431768211455.

(** [in_range max z]: [z] is a value of the unsigned type whose greatest
    value is [max]. *)
Definition in_range (max z : Z) : Prop := 0 <= z <= max.

Definition checked_add (max a b : Z) : option Z :=
  if a + b <=? max then Some (a + b) else None.
Definition checked_sub (a b : Z) : option Z :=
  if b <=? a then Some (a - b) else None.
Definition checked_div (a b : Z) : option Z :=
  if b =? 0 then None else Some (a / b).
Definition saturating_sub (a b : Z) : Z := Z.max 0 (a - b).

(** [x as u16], [x as u64]: truncation to the low bits. *)
Definition as_u16 (z : Z) : Z := z mod 65536.
Definition as_u64 (z : Z) : Z := z mod 18446744073709551616.

(** Rust's [Option::and_then]. *)
Definition and_then {A B} (o : option A) (f : A -> option B) : option B :=
  match o with Some a => f a | None => None end.

(** [uN::to_le_bytes]: [n] bytes, least significant first. *)
Fixpoint to_le_bytes (n : nat) (z : Z) : list u8 :=
  match n with
  | O => []
  | S n' => z mod 256 :: to_le_bytes n' (z / 256)
  end.

(** ** Public keys

    A public key is 32 bytes; it is modelled by the integer these bytes spell
    in big-endian order, which is also what its base-58 form denotes. *)
Abbreviation Pubkey := Z (only parsing).
Definition Pubkey_default : Pubkey := 0.
Definition to_bytes (p : Pubkey) : list u8 := rev (to_le_bytes 32 p).
Definition is_pubkey (p : Z) : Prop := 0 <= p < 2 ^ 256.

(** ** Outcomes

    [Ok] and [Err] are Rust's [Result]; [Panic] is an out-of-range array
    index, which aborts the program. *)
Inductive result (E A : Type) : Type :=
| Ok (a : A)
| Err (e : E)
| Panic.
Arguments Ok {E A} a.
Arguments Err {E A} e.
Arguments Panic {E A}.

(** A method with [&mut self]: the state it leaves is kept in every outcome,
    also when it returns an error after having written a part of it. *)
Definition M (S E A : Type) : Type := S -> result E A * S.

Definition ret {S E A} (a : A) : M S E A := fun s => (Ok a, s).
Definition throw {S E A} (e : E) : M S E A := fun s => (Err e, s).
Definition mbind {S E A B} (m : M S E A) (k : A -> M S E B) : M S E B :=
  fun s =>
    match m s with
    | (Ok a, s') => k a s'
    | (Err e, s') => (Err e, s')
    | (Panic, s') => (Panic, s')
    end.
Definition rbind {E A B} (r : result E A) (k : A -> result E B) : result E B :=
  match r with
  | Ok a => k a
  | Err e => Err e
  | Panic => Panic
  end.
Definition lift {S E A} (r : result E A) : M S E A := fun s => (r, s).
Definition gets {S E A} (f : S -> A) : M S E A := fun s => (Ok (f s), s).
Definition get_self {S E} : M S E S := fun s => (Ok s, s).
Definition modify {S E} (f : S -> S) : M S E unit := fun s => (Ok tt, f s).
(** Rust's [?] on an [Option] through [ok_or]. *)
Definition ok_or {E A} (o : option A) (e : E) : result E A :=
  match o with
  | Some a => Ok a
  | None => Err e
  end.
(** Conversion of the error type by [From], as [?] does. *)
Definition map_err {E F A} (f : E -> F) (r : result E A) : result F A :=
  match r with
  | Ok a => Ok a
  | Err e => Err (f e)
  | Panic => Panic
  end.
(** A method called on a field of [self]. *)
Definition zoom {S T E A} (get : S -> T) (put : T -> S -> S) (m : M T E A) : M S E A :=
  fun s => let '(r, t) := m (get s) in (r, put t s).
(** A method called on [self.field[i]]; an index out of range panics. *)
Definition zoom_at {S T E A} (get : S -> list T) (put : list T -> S -> S)
    (i : nat) (m : M T E A) : M S E A :=
  fun s =>
    match get s !! i with
    | Some t => let '(r, t') := m t in (r, put (<[i := t']> (get s)) s)
    | None => (Panic, s)
    end.
(** A loop over a list whose body may stop it with [inr]. *)
Fixpoint for_each {S E A B} (l : list A) (body : A -> M S E (option B)) : M S E (option B) :=
  match l with
  | [] => ret None
  | a :: l' =>
      mbind (body a) (fun o => match o with Some b => ret (Some b) | None => for_each l' body end)
  end.

Declare Scope rust_scope.
Delimit Scope rust_scope with rust.
Notation "'let*' x := m 'in' k" := (mbind m (fun x => k))
  (at level 10, x pattern, m at level 100, k at level 200) : rust_scope.
Notation "m ;; k" := (mbind m (fun _ => k))
  (at level 100, k at level 200, right associativity) : rust_scope.
Notation "'let?' x := m 'in' k" := (rbind m (fun x => k))
  (at level 10, x pattern, m at level 100, k at level 200) : rust_scope.
Open Scope rust_scope.

(** ** Record update

    [r <| f := v |>] is the assignment [r.f = v]. A record type gives its
    eta-expansion once; the setters of its fields are derived from it. *)
Class Eta (R : Type) := eta : R -> R.
Class Setter {R T} (p : R -> T) := over : (T -> T) -> R -> R.
Arguments over {R T} p {_} f r /.
Ltac derive_setter :=
  lazymatch goal with
  | |- @Setter ?R ?T ?p =>
      let i := constr:(ltac:(typeclasses eauto) : Eta R) in
      let e := eval hnf in i in
      exact (fun (f : T -> T) (r : R) =>
        ltac:(let b := eval cbv beta in (e r) in
              let b' := eval pattern (p r) in b in
              lazymatch b' with
              | ?g _ => let out := eval cbv beta in (g (f (p r))) in exact out
              end))
  end.
#[export] Hint Extern 1 (Setter _) => derive_setter : typeclass_instances.
Notation "r <| f := v |>" := (over f (fun _ => v) r)
  (at level 1, left associativity, f at level 12,
   format "r  <| f  :=  v |>") : rust_scope.
Notation "'put' f" := (fun v r => r <| f := v |>) (at level 10, f at level 9) : rust_scope.


(** ** Arrays and iterators *)

Section iterators.
Context {A : Type}.
Implicit Types (p : A -> bool) (l : list A) (f : A -> Z).

(** [iter().enumerate().find(p)]. *)
Fixpoint find_index p l : option (nat * A) :=
  match l with
  | [] => None
  | x :: l' =>
      if p x then Some (O, x)
      else match find_index p l' with Some (i, y) => Some (S i, y) | None => None end
  end.
(** [iter().any(p)]. *)
Definition any p l : bool := existsb p l.
(** [iter().filter(p).count()]. *)
Definition count_if p l : Z := Z.of_nat (List.length (List.filter p l)).
(** The sum of a quantity over an array. *)
Definition sum_by f l : Z := foldr (fun x acc => f x + acc) 0 l.
(** [iter().max_by_key(key)]: the last of the greatest elements. *)
Definition max_step f (acc : option A) (y : A) : option A :=
  match acc with
  | None => Some y
  | Some x => if f y <? f x then Some x else Some y
  end.
Definition max_by_key f l : option A := fold_left (max_step f) l None.

Lemma find_index_Some p l i x :
  find_index p l = Some (i, x) <->
  l !! i = Some x /\ p x = true /\ (forall j y, (j < i)%nat -> l !! j = Some y -> p y = false).
Proof.
  revert i. induction l as [|z l IH]; intros i; cbn; [split; [done|by intros [? _]]|].
  destruct (p z) eqn:Hz; [|destruct (find_index p l) as [[k y]|] eqn:Hf].
  - split.
    + intros [= <- <-]. split_and!; try done. intros; lia.
    + intros (Hi & Hp & Hlt). destruct i as [|i]; cbn in Hi; [by simplify_eq|].
      specialize (Hlt O z ltac:(lia) eq_refl). congruence.
  - split.
    + intros [= <- <-]. destruct (proj1 (IH k) eq_refl) as (? & ? & Hlt). split_and!; try done.
      intros [|j] w ?; cbn; intros; simplify_eq; [done|]. eapply Hlt; [|done]. lia.
    + intros (Hi & Hp & Hlt). destruct i as [|i]; cbn in Hi; [simplify_eq; congruence|].
      assert (Some (k, y) = Some (i, x)) as [= <- <-]; [|done].
      apply IH. split_and!; try done. intros j w ? ?. apply (Hlt (S j)); [lia|done].
  - split; [done|]. intros (Hi & Hp & Hlt).
    destruct i as [|i]; cbn in Hi; [simplify_eq; congruence|].
    assert (None = Some (i, x)); [|done].
    apply IH. split_and!; try done. intros j w ? ?. apply (Hlt (S j)); [lia|done].
Qed.

Lemma find_index_None p l :
  find_index p l = None <-> (forall i x, l !! i = Some x -> p x = false).
Proof.
  induction l as [|z l IH]; cbn; [by split|].
  destruct (p z) eqn:Hz.
  - split; [done|]. intros H. specialize (H O z eq_refl). congruence.
  - destruct (find_index p l) as [[k y]|] eqn:Hf.
    + split; [done|]. intros H. apply find_index_Some in Hf as (? & ? & ?).
      specialize (H (S k) y). cbn in H. rewrite H in *; done.
    + split; [|done]. intros _ [|i] x; cbn; intros; simplify_eq; [done|]. by eapply (proj1 IH).
Qed.

Lemma find_index_lookup p l i x : find_index p l = Some (i, x) -> l !! i = Some x.
Proof. by intros [? _]%find_index_Some. Qed.
Lemma find_index_true p l i x : find_index p l = Some (i, x) -> p x = true.
Proof. by intros (_ & ? & _)%find_index_Some. Qed.

(** How a search sees an assignment to one slot. *)
Lemma find_index_insert_miss p l i x z :
  l !! i = Some x -> p x = false -> p z = false ->
  find_index p (<[i := z]> l) = find_index p l.
Proof.
  intros Hi Hx Hz. assert (i < length l)%nat as Hlt by by eapply lookup_lt_Some.
  destruct (find_index p l) as [[j y]|] eqn:Hf.
  - apply find_index_Some in Hf as (Hj & Hy & Hlo). apply find_index_Some. split_and!; [|done|].
    + rewrite list_lookup_insert_ne; [done|]. intros ->. congruence.
    + intros k w Hk. rewrite list_lookup_insert. case_decide; [|by apply Hlo].
      by intros [= <-].
  - apply find_index_None. intros k w. rewrite list_lookup_insert.
    case_decide; [by intros [= <-]|]. by apply find_index_None.
Qed.

Lemma find_index_insert_hit p l i x z :
  find_index p l = Some (i, x) -> p z = true -> find_index p (<[i := z]> l) = Some (i, z).
Proof.
  intros (Hi & Hx & Hlo)%find_index_Some Hz. apply find_index_Some. split_and!; [|done|].
  - apply list_lookup_insert_eq. by eapply lookup_lt_Some.
  - intros j y Hj. rewrite list_lookup_insert_ne by lia. by apply Hlo.
Qed.

Lemma find_index_insert_new p l i z :
  find_index p l = None -> (i < length l)%nat -> p z = true ->
  find_index p (<[i := z]> l) = Some (i, z).
Proof.
  intros Hn Hi Hz. apply find_index_Some. split_and!; [|done|].
  - by apply list_lookup_insert_eq.
  - intros j y Hj. rewrite list_lookup_insert_ne by lia. by apply find_index_None.
Qed.

(** Slots that hold a key other than [0] hold distinct ones. *)
Definition distinct_keys f l : Prop :=
  forall i j x y, l !! i = Some x -> l !! j = Some y -> f x = f y -> f x <> 0 -> i = j.

Lemma distinct_keys_insert f l i z :
  distinct_keys f l ->
  (forall j y, l !! j = Some y -> f y = f z -> f z <> 0 -> j = i) ->
  distinct_keys f (<[i := z]> l).
Proof.
  intros Hd Hz j k x y. rewrite !list_lookup_insert.
  intros Hj Hk He Hn.
  destruct (decide _) as [[<- _]|]; destruct (decide _) as [[<- _]|]; simplify_eq.
  - done.
  - symmetry. eapply Hz; [done|congruence|congruence].
  - eapply Hz; [done|congruence|congruence].
  - by eapply Hd.
Qed.

Lemma distinct_keys_find f l i x :
  distinct_keys f l -> l !! i = Some x -> f x <> 0 ->
  find_index (fun y => f y =? f x) l = Some (i, x).
Proof.
  intros Hd Hi Hx. apply find_index_Some. split_and!; [done|lia|].
  intros j y Hj Hy. destruct (f y =? f x) eqn:E; [|done].
  assert (j = i); [|lia]. eapply Hd; [done..| |]; lia.
Qed.

Lemma distinct_keys_replicate f n x : f x = 0 -> distinct_keys f (replicate n x).
Proof.
  intros Hx i j a b Ha Hb. apply lookup_replicate in Ha as [-> _]. done.
Qed.

Lemma any_true p l : any p l = true <-> exists i x, l !! i = Some x /\ p x = true.
Proof.
  unfold any. rewrite existsb_exists. split.
  - intros (x & Hin & Hp). apply list_elem_of_In, list_elem_of_lookup in Hin as [i Hi]. eauto.
  - intros (i & x & Hi & Hp). exists x. split; [|done].
    apply list_elem_of_In, list_elem_of_lookup. eauto.
Qed.

Lemma any_false p l : any p l = false <-> forall i x, l !! i = Some x -> p x = false.
Proof.
  rewrite <-not_true_iff_false, any_true. split.
  - intros H i x Hi. destruct (p x) eqn:E; [|done]. exfalso. eauto.
  - intros H (i & x & Hi & Hp). specialize (H i x Hi). congruence.
Qed.

Lemma any_false_find p l : any p l = false <-> find_index p l = None.
Proof. by rewrite any_false, find_index_None. Qed.

Lemma sum_by_insert f l i x y :
  l !! i = Some x -> sum_by f (<[i := y]> l) = sum_by f l - f x + f y.
Proof.
  revert i. induction l as [|z l IH]; intros [|i]; intros Hi; simplify_eq/=; [lia|].
  specialize (IH _ Hi). unfold insert in *. lia.
Qed.

Lemma count_if_sum p l : count_if p l = sum_by (fun x => Z.b2z (p x)) l.
Proof.
  unfold count_if, sum_by. induction l as [|z l IH]; [done|]. simpl.
  destruct (p z); cbn [List.length Z.b2z]; rewrite ?Nat2Z.inj_succ, IH; lia.
Qed.

Lemma count_if_insert p l i x y :
  l !! i = Some x -> count_if p (<[i := y]> l) = count_if p l - Z.b2z (p x) + Z.b2z (p y).
Proof. intros. rewrite !count_if_sum. by rewrite (sum_by_insert _ l i x y). Qed.

Lemma sum_by_ext f g l :
  (forall i x, l !! i = Some x -> f x = g x) -> sum_by f l = sum_by g l.
Proof.
  unfold sum_by. induction l as [|z l IH]; [done|]. intros H. simpl.
  rewrite (H O z eq_refl), IH; [done|]. intros i x ?. by apply (H (S i)).
Qed.

Lemma sum_by_replicate f n x : sum_by f (replicate n x) = Z.of_nat n * f x.
Proof. unfold sum_by. induction n; simpl; lia. Qed.

Lemma sum_by_app f l k : sum_by f (l ++ k) = sum_by f l + sum_by f k.
Proof. unfold sum_by. induction l; simpl; lia. Qed.

Lemma sum_by_nonneg f l :
  (forall i x, l !! i = Some x -> 0 <= f x) -> 0 <= sum_by f l.
Proof.
  unfold sum_by. induction l as [|z l IH]; simpl; [lia|]. intros H.
  specialize (H O z eq_refl) as H0. apply Z.add_nonneg_nonneg; [done|].
  apply IH. intros i x ?. by apply (H (S i)).
Qed.

Lemma sum_by_le f g l :
  (forall i x, l !! i = Some x -> f x <= g x) -> sum_by f l <= sum_by g l.
Proof.
  unfold sum_by. induction l as [|z l IH]; simpl; [lia|]. intros H.
  specialize (H O z eq_refl) as H0. apply Z.add_le_mono; [done|].
  apply IH. intros i x ?. by apply (H (S i)).
Qed.

Lemma sum_by_zero f l : (forall i x, l !! i = Some x -> f x = 0) -> sum_by f l = 0.
Proof.
  unfold sum_by. induction l as [|z l IH]; [done|]. intros H. simpl.
  rewrite (H O z eq_refl), IH; [done|]. intros i x ?. by apply (H (S i)).
Qed.

(** A quantity summed over the only element with a given key. *)
Lemma sum_by_unique f g l i x :
  l !! i = Some x -> (forall j y, l !! j = Some y -> f y = f x -> j = i) ->
  sum_by (fun y => if f y =? f x then g y else 0) l = g x.
Proof.
  revert i. induction l as [|z l IH]; intros [|i] Hi Hu; simplify_eq/=.
  - rewrite Z.eqb_refl. assert (sum_by (fun y => if f y =? f x then g y else 0) l = 0) as H0.
    { apply sum_by_zero. intros j y Hj. destruct (f y =? f x) eqn:E; [|done].
      specialize (Hu (S j) y Hj ltac:(lia)). lia. }
    unfold sum_by in *. simpl. lia.
  - assert (f z =? f x = false) as Hz.
    { apply Z.eqb_neq. intros He. specialize (Hu O z eq_refl He). lia. }
    assert (sum_by (fun y => if f y =? f x then g y else 0) l = g x) as H0.
    { apply (IH i); [done|]. intros j y Hj Hy. specialize (Hu (S j) y Hj Hy). lia. }
    unfold sum_by in *. simpl. rewrite Hz. lia.
Qed.

Lemma sum_by_elem_le f l i x :
  (forall i x, l !! i = Some x -> 0 <= f x) -> l !! i = Some x -> f x <= sum_by f l.
Proof.
  revert i. induction l as [|z l IH]; intros [|i] Hf Hi; simplify_eq/=.
  - assert (0 <= sum_by f l); [|unfold sum_by in *; simpl; lia].
    apply sum_by_nonneg. intros j y ?. by apply (Hf (S j)).
  - specialize (Hf O z eq_refl) as H0.
    assert (f x <= sum_by f l); [|unfold sum_by in *; simpl; lia].
    apply (IH i); [|done]. intros j y ?. by apply (Hf (S j)).
Qed.

Lemma count_if_nonneg p l : 0 <= count_if p l.
Proof. unfold count_if. lia. Qed.

Lemma count_if_le_length p l : count_if p l <= Z.of_nat (List.length l).
Proof. unfold count_if. pose proof (List.filter_length_le p l). lia. Qed.

Lemma count_if_pos p l : 0 < count_if p l -> exists i x, l !! i = Some x /\ p x = true.
Proof.
  unfold count_if. intros H. destruct (List.filter p l) as [|x k] eqn:E; [cbn in H; lia|].
  assert (In x (List.filter p l)) as Hin by (rewrite E; by left).
  apply filter_In in Hin as [Hin Hp]. apply list_elem_of_In, list_elem_of_lookup in Hin as [i Hi]. by exists i, x.
Qed.

Lemma count_if_full p l :
  (forall i x, l !! i = Some x -> p x = true) -> count_if p l = Z.of_nat (List.length l).
Proof.
  intros H. unfold count_if. f_equal. induction l as [|z l IH]; [done|]. simpl.
  rewrite (H O z eq_refl). cbn. rewrite IH; [done|]. intros i x ?. by apply (H (S i)).
Qed.

Lemma count_if_map {B} (p : B -> bool) (g : A -> B) l :
  Z.of_nat (List.length (List.filter p (map g l))) = count_if (fun x => p (g x)) l.
Proof.
  unfold count_if. f_equal. induction l as [|a l IH]; [done|]. simpl.
  destruct (p (g a)); cbn; by rewrite IH.
Qed.

Lemma count_if_replicate p n x : count_if p (replicate n x) = if p x then Z.of_nat n else 0.
Proof. rewrite count_if_sum, sum_by_replicate. destruct (p x); cbn; lia. Qed.

Lemma count_if_le p q l :
  (forall i x, l !! i = Some x -> p x = true -> q x = true) -> count_if p l <= count_if q l.
Proof.
  intros H. rewrite !count_if_sum. apply sum_by_le. intros i x Hi. specialize (H i x Hi).
  destruct (p x), (q x); cbn; try lia; by specialize (H eq_refl).
Qed.

(** A sub-count is full exactly when the larger predicate implies the
    smaller one everywhere. *)
Lemma count_if_eq_iff p q l :
  (forall i x, l !! i = Some x -> p x = true -> q x = true) ->
  count_if q l = count_if p l <-> (forall i x, l !! i = Some x -> q x = true -> p x = true).
Proof.
  intros H. split.
  - unfold count_if. induction l as [|z l IH]; intros Heq; [done|]. simpl in Heq.
    assert (Hl : forall i x, l !! i = Some x -> p x = true -> q x = true)
      by (intros i x; apply (H (S i))).
    pose proof (count_if_le p q l Hl) as Hle. unfold count_if in Hle.
    specialize (H O z eq_refl).
    destruct (p z) eqn:Hp, (q z) eqn:Hq; cbn [List.length] in Heq; try lia;
      (intros [|i] x; cbn; intros Hi; simplify_eq; [congruence|]; eapply IH; [done|lia|done])
      || by specialize (H eq_refl).
  - intros H'. assert (forall a b : Z, a <= b -> b <= a -> b = a) as Heq by (intros; lia).
    apply Heq; by apply count_if_le.
Qed.

Lemma count_if_zero p l : count_if p l = 0 <-> any p l = false.
Proof.
  rewrite any_false. unfold count_if. induction l as [|z l IH]; [by split|]. simpl.
  - destruct (p z) eqn:Hz; cbn [List.length].
    + split; [lia|]. intros H. specialize (H O z eq_refl). congruence.
    + rewrite IH. split; intros H.
      * intros [|i] x; cbn; intros; simplify_eq; [done|]. by eapply H.
      * intros i x ?. by apply (H (S i)).
Qed.

Lemma max_fold_spec f l acc x :
  fold_left (max_step f) l acc = Some x ->
  (x ∈ l \/ acc = Some x) /\ (forall y, y ∈ l \/ acc = Some y -> f y <= f x).
Proof.
  revert acc. induction l as [|z l IH]; intros acc; simpl.
  - intros ->. split; [by right|]. intros y [Hy|[= ->]]; [by apply elem_of_nil in Hy|lia].
  - intros [Hin Hmax]%IH.
    assert (f z <= f x) as Hz.
    { destruct acc as [a|]; cbn in *; [|by apply Hmax; right].
      destruct (f z <? f a) eqn:E; [|by apply Hmax; right].
      apply Z.le_trans with (f a); [lia|]. apply Hmax. by right. }
    split.
    + rewrite elem_of_cons. destruct Hin as [?|Hacc]; [by auto|].
      destruct acc as [a|]; cbn in Hacc; [destruct (f z <? f a)|]; simplify_eq; auto.
    + intros y [Hy| ->]; [apply elem_of_cons in Hy as [->|Hy]; auto|].
      cbn in Hmax. destruct (f z <? f y) eqn:E; [by apply Hmax; right|lia].
Qed.

Lemma max_by_key_spec f l x :
  max_by_key f l = Some x -> x ∈ l /\ forall y, y ∈ l -> f y <= f x.
Proof. intros [[?|?] Hy]%max_fold_spec; [|done]. split; auto. Qed.

Lemma max_by_key_is_Some f l : l <> [] -> is_Some (max_by_key f l).
Proof.
  destruct l as [|a l]; [done|]. intros _. unfold max_by_key. cbn.
  generalize a. induction l as [|z l IH]; intros b; cbn; [eauto|].
  destruct (f z <? f b); apply IH.
Qed.
End iterators.

(** [for (i, e) in src.iter().enumerate() { dst[i] = f(e) }]. *)
Fixpoint write_from {A B} (f : A -> B) (i : nat) (src : list A) (dst : list B) : list B :=
  match src with
  | [] => dst
  | e :: src' => write_from f (S i) src' (<[i := f e]> dst)
  end.

Lemma write_from_app {A B} (f : A -> B) pre src dst :
  List.length src = List.length dst ->
  write_from f (List.length pre) src (pre ++ dst) = pre ++ map f src.
Proof.
  revert pre dst. induction src as [|e src IH]; intros pre [|d dst] Hlen; try discriminate Hlen; [done|].
  cbn. injection Hlen as Hlen.
  assert (<[List.length pre := f e]> (pre ++ d :: dst) = (pre ++ [f e]) ++ dst) as ->.
  { rewrite insert_app_r_alt by lia. rewrite Nat.sub_diag. by rewrite <-app_assoc. }
  replace (S (List.length pre)) with (List.length (pre ++ [f e])) by (rewrite length_app; cbn; lia).
  rewrite IH by done. by rewrite <-app_assoc.
Qed.

Lemma write_all {A B} (f : A -> B) src dst :
  List.length src = List.length dst -> write_from f 0 src dst = map f src.
Proof. intros H. apply (write_from_app f [] src dst H). Qed.

Create HintDb ncn.
#[export] Hint Resolve count_if_nonneg count_if_le_length : ncn.

#[export] Hint Resolve max_by_key_is_Some : ncn.

(** ** Reasoning about outcomes *)

Lemma checked_add_Some max a b c :
  checked_add max a b = Some c <-> c = a + b /\ a + b <= max.
Proof. unfold checked_add. destruct (a + b <=? max) eqn:E; naive_solver lia. Qed.

Lemma checked_add_None max a b : checked_add max a b = None <-> max < a + b.
Proof. unfold checked_add. destruct (a + b <=? max) eqn:E; naive_solver lia. Qed.

Lemma checked_sub_Some a b c : checked_sub a b = Some c <-> c = a - b /\ b <= a.
Proof. unfold checked_sub. destruct (b <=? a) eqn:E; naive_solver lia. Qed.

Lemma checked_sub_None a b : checked_sub a b = None <-> a < b.
Proof. unfold checked_sub. destruct (b <=? a) eqn:E; naive_solver lia. Qed.

Lemma checked_div_Some a b c : checked_div a b = Some c <-> c = a / b /\ b <> 0.
Proof. unfold checked_div. destruct (b =? 0) eqn:E; naive_solver lia. Qed.

Lemma checked_add_le max a b : a + b <= max -> checked_add max a b = Some (a + b).
Proof. intros. by apply checked_add_Some. Qed.

Lemma checked_sub_le a b : b <= a -> checked_sub a b = Some (a - b).
Proof. intros. by apply checked_sub_Some. Qed.

Section outcomes.
Context {S E : Type}.

Lemma mbind_ok {A B} (m : M S E A) (k : A -> M S E B) s b s' :
  mbind m k s = (Ok b, s') <-> exists a s1, m s = (Ok a, s1) /\ k a s1 = (Ok b, s').
Proof.
  unfold mbind. destruct (m s) as [[a|e|] s1]; split; try (by intros [=]);
    try (by intros (? & ? & [=] & ?)); eauto.
  by intros (? & ? & [= <- <-] & ?).
Qed.

Lemma rbind_ok {A B} (m : result E A) (k : A -> result E B) b :
  rbind m k = Ok b <-> exists a, m = Ok a /\ k a = Ok b.
Proof.
  destruct m as [a|e|]; cbn; split; try (by intros [=]); try (by intros (? & [=] & ?)); eauto.
  by intros (? & [= <-] & ?).
Qed.

Lemma lift_ok {A} (r : result E A) (s : S) a s' :
  lift r s = (Ok a, s') <-> r = Ok a /\ s' = s.
Proof. unfold lift. naive_solver. Qed.

Lemma ok_or_ok {A} (o : option A) (e : E) a : ok_or o e = Ok a <-> o = Some a.
Proof. destruct o; cbn; naive_solver. Qed.

Lemma map_err_ok {F A} (f : E -> F) (r : result E A) a : map_err f r = Ok a <-> r = Ok a.
Proof. destruct r; cbn; naive_solver. Qed.

Lemma mbind_lift_ok {A B} (r : result E A) a (k : A -> M S E B) (s : S) :
  r = Ok a -> mbind (lift r) k s = k a s.
Proof. by intros ->. Qed.

Lemma mbind_eq_ok {A B} (m : M S E A) (k : A -> M S E B) s a s1 :
  m s = (Ok a, s1) -> mbind m k s = k a s1.
Proof. unfold mbind. by intros ->. Qed.

(** Running the primitives, for rewriting one step at a time. *)
Lemma run_modify {A} f (k : unit -> M S E A) s : mbind (modify f) k s = k tt (f s).
Proof. done. Qed.
Lemma run_get_self {A} (k : S -> M S E A) s : mbind get_self k s = k s s.
Proof. done. Qed.
Lemma run_lift_Ok {A B} (a : A) (k : A -> M S E B) s : mbind (lift (Ok a)) k s = k a s.
Proof. done. Qed.
Lemma run_lift_Err {A B} (e : E) (k : A -> M S E B) s : mbind (lift (Err e)) k s = (Err e, s).
Proof. done. Qed.
Lemma run_add {A} max a b (e : E) (k : Z -> M S E A) s :
  a + b <= max -> mbind (lift (ok_or (checked_add max a b) e)) k s = k (a + b) s.
Proof. intros H. by rewrite checked_add_le. Qed.
Lemma run_sub {A} a b (e : E) (k : Z -> M S E A) s :
  b <= a -> mbind (lift (ok_or (checked_sub a b) e)) k s = k (a - b) s.
Proof. intros H. by rewrite checked_sub_le. Qed.
Lemma run_zoom {T A B} (get : S -> T) (set : T -> S -> S) (m : M T E A) (k : A -> M S E B) s :
  mbind (zoom get set m) k s =
  match m (get s) with
  | (Ok a, t) => k a (set t s)
  | (Err e, t) => (Err e, set t s)
  | (Panic, t) => (Panic, set t s)
  end.
Proof. unfold mbind, zoom. by destruct (m (get s)) as [[] ?]. Qed.
Lemma run_zoom_at {T A B} (get : S -> list T) (set : list T -> S -> S) i t (m : M T E A)
    (k : A -> M S E B) s :
  get s !! i = Some t ->
  mbind (zoom_at get set i m) k s =
  match m t with
  | (Ok a, t') => k a (set (<[i := t']> (get s)) s)
  | (Err e, t') => (Err e, set (<[i := t']> (get s)) s)
  | (Panic, t') => (Panic, set (<[i := t']> (get s)) s)
  end.
Proof. unfold mbind, zoom_at. intros ->. by destruct (m t) as [[] ?]. Qed.
Lemma zoom_at_ok {T A} (get : S -> list T) (set : list T -> S -> S) i (m : M T E A) s a s' :
  zoom_at get set i m s = (Ok a, s') ->
  exists t t', get s !! i = Some t /\ m t = (Ok a, t') /\ s' = set (<[i := t']> (get s)) s.
Proof.
  unfold zoom_at. destruct (get s !! i) as [t|] eqn:Ht; [|done]. destruct (m t) as [o t'] eqn:Hm.
  intros [= -> <-]. by exists t, t'.
Qed.
Lemma run_bind_if {A B} (b : bool) (m1 m2 : M S E A) (k : A -> M S E B) s :
  mbind (if b then m1 else m2) k s = if b then mbind m1 k s else mbind m2 k s.
Proof. by destruct b. Qed.
End outcomes.

#[export] Hint Rewrite @run_modify @run_get_self @run_lift_Ok @run_lift_Err : run.

Ltac munfold :=
  unfold mbind, rbind, ret, throw, lift, gets, get_self, modify, zoom, zoom_at, ok_or, map_err in *.

(** [minv]: read off what a successful run went through. *)
Ltac minv :=
  repeat match goal with
  | H : mbind _ _ _ = (Ok _, _) |- _ => apply mbind_ok in H as (? & ? & ? & ?)
  | H : rbind _ _ = Ok _ |- _ => apply rbind_ok in H as (? & ? & ?)
  | H : lift _ _ = (Ok _, _) |- _ => apply lift_ok in H as [? ?]
  | H : ok_or _ _ = Ok _ |- _ => apply ok_or_ok in H
  | H : map_err _ _ = Ok _ |- _ => apply map_err_ok in H
  | H : ret _ _ = (_, _) |- _ => unfold ret in H
  | H : throw _ _ = (_, _) |- _ => unfold throw in H
  | H : gets _ _ = (_, _) |- _ => unfold gets in H
  | H : get_self _ = (_, _) |- _ => unfold get_self in H
  | H : modify _ _ = (_, _) |- _ => unfold modify in H
  | H : checked_add _ _ _ = Some _ |- _ => apply checked_add_Some in H as [? ?]
  | H : checked_sub _ _ = Some _ |- _ => apply checked_sub_Some in H as [? ?]
  | H : checked_div _ _ = Some _ |- _ => apply checked_div_Some in H as [? ?]
  | H : (_, _) = (_, _) |- _ => injection H; clear H; intros
  | H : Ok _ = Ok _ |- _ => injection H; clear H; intros
  | H : Ok _ = Err _ |- _ => discriminate H
  | H : Err _ = Ok _ |- _ => discriminate H
  | H : Panic = Ok _ |- _ => discriminate H
  | x : unit |- _ => destruct x
  | _ => progress subst
  end.
(** [mcase H]: split on the tests and matches of the run [H]. *)
Ltac mcase H :=
  minv; repeat (lazymatch type of H with
    | context [match ?x with _ => _ end] => destruct x eqn:?
    | context [if ?x then _ else _] => destruct x eqn:?
    end; minv).
