(* ===== verification/Errors.v ===== *)
(** Error values: the program's own error enum with its numeric codes, the
    part of Solana's [ProgramError] the program returns, and the conversion
    that [?] applies between them ([core/src/error.rs]). *)
From S2P Require Import Prelude.

Module NCNProgramError.
Inductive t : Type :=
| NoValidBallots
| DenominatorIsZero
| ArithmeticOverflow
| ArithmeticUnderflowError
| ArithmeticFloorError
| ModuloOverflow
| NewPreciseNumberError
| CastToImpreciseNumberError
| CastToU64Error
| CastToU128Error
| IncorrectWeightTableAdmin
| DuplicateMintsInTable
| NoMintsInTable
| TableNotInitialized
| RegistryNotInitialized
| NoVaultsInRegistry
| VaultNotInRegistry
| MintInTable
| TooManyMintsForTable
| TooManyVaultsForRegistry
| WeightTableAlreadyInitialized
| CannotCreateFutureWeightTables
| WeightMintsDoNotMatchLength
| WeightMintsDoNotMatchMintHash
| InvalidMintForWeightTable
| ConfigMintsNotUpdated
| ConfigMintListFull
| VaultRegistryListFull
| VaultRegistryVaultLocked
| VaultIndexAlreadyInUse
| MintEntryNotFound
| FeeCapExceeded
| TotalFeesCannotBeZero
| DefaultProtocolWallet
| DefaultNcnWallet
| IncorrectNcnAdmin
| IncorrectNcn
| IncorrectFeeAdmin
| WeightTableNotFinalized
| WeightNotFound
| NoOperators
| VaultOperatorDelegationFinalized
| OperatorFinalized
| TooManyVaultOperatorDelegations
| DuplicateVaultOperatorDelegation
| DuplicateVoteCast
| CannotVoteWithZeroStake
| OperatorAlreadyVoted
| OperatorVotesFull
| BallotTallyFull
| BallotTallyNotFoundFull
| BallotTallyNotEmpty
| ConsensusAlreadyReached
| ConsensusNotReached
| EpochSnapshotNotFinalized
| VotingNotValid
| TieBreakerAdminInvalid
| VotingNotFinalized
| TieBreakerNotInPriorVotes
| InvalidMerkleProof
| InvalidOperatorVoter
| InvalidNcnFeeGroup
| InvalidBaseFeeGroup
| OperatorRewardListFull
| OperatorRewardNotFound
| VaultRewardNotFound
| DestinationMismatch
| NcnRewardRouteNotFound
| FeeNotActive
| NoRewards
| WeightNotSet
| RouterStillRouting
| InvalidEpochsBeforeStall
| InvalidEpochsBeforeClose
| InvalidSlotsAfterConsensus
| VaultNeedsUpdate
| InvalidAccountStatus
| AccountAlreadyInitialized
| BadBallot
| VotingIsNotOver
| OperatorIsNotInSnapshot
| InvalidAccountToCloseDiscriminator
| CannotCloseAccount
| CannotCloseAccountAlreadyClosed
| CannotCloseAccountNotEnoughEpochs
| CannotCloseAccountNoReceiverProvided
| CannotCloseAccountNoEnoughAccounts
| CannotCloseEpochStateAccount
| InvalidNCNFeeWallet
| EpochIsClosingDown
| MarkerExists.

(** [e as u32]: the discriminant of the variant. *)
Definition code (e : t) : u32 :=
  match e with
  | NoValidBallots => 0
  | DenominatorIsZero => 0x2100
  | ArithmeticOverflow => 0x2101
  | ArithmeticUnderflowError => 0x2102
  | ArithmeticFloorError => 0x2103
  | ModuloOverflow => 0x2104
  | NewPreciseNumberError => 0x2105
  | CastToImpreciseNumberError => 0x2106
  | CastToU64Error => 0x2107
  | CastToU128Error => 0x2108
  | IncorrectWeightTableAdmin => 0x2200
  | DuplicateMintsInTable => 0x2201
  | NoMintsInTable => 0x2202
  | TableNotInitialized => 0x2203
  | RegistryNotInitialized => 0x2204
  | NoVaultsInRegistry => 0x2205
  | VaultNotInRegistry => 0x2206
  | MintInTable => 0x2207
  | TooManyMintsForTable => 0x2208
  | TooManyVaultsForRegistry => 0x2209
  | WeightTableAlreadyInitialized => 0x220a
  | CannotCreateFutureWeightTables => 0x220b
  | WeightMintsDoNotMatchLength => 0x220c
  | WeightMintsDoNotMatchMintHash => 0x220d
  | InvalidMintForWeightTable => 0x220e
  | ConfigMintsNotUpdated => 0x220f
  | ConfigMintListFull => 0x2210
  | VaultRegistryListFull => 0x2211
  | VaultRegistryVaultLocked => 0x2212
  | VaultIndexAlreadyInUse => 0x2213
  | MintEntryNotFound => 0x2214
  | FeeCapExceeded => 0x2215
  | TotalFeesCannotBeZero => 0x2216
  | DefaultProtocolWallet => 0x2217
  | DefaultNcnWallet => 0x2218
  | IncorrectNcnAdmin => 0x2219
  | IncorrectNcn => 0x221a
  | IncorrectFeeAdmin => 0x221b
  | WeightTableNotFinalized => 0x221c
  | WeightNotFound => 0x221d
  | NoOperators => 0x221e
  | VaultOperatorDelegationFinalized => 0x221f
  | OperatorFinalized => 0x2220
  | TooManyVaultOperatorDelegations => 0x2221
  | DuplicateVaultOperatorDelegation => 0x2222
  | DuplicateVoteCast => 0x2223
  | CannotVoteWithZeroStake => 0x2224
  | OperatorAlreadyVoted => 0x2225
  | OperatorVotesFull => 0x2226
  | BallotTallyFull => 0x2227
  | BallotTallyNotFoundFull => 0x2228
  | BallotTallyNotEmpty => 0x2229
  | ConsensusAlreadyReached => 0x222a
  | ConsensusNotReached => 0x222b
  | EpochSnapshotNotFinalized => 0x222c
  | VotingNotValid => 0x222d
  | TieBreakerAdminInvalid => 0x222e
  | VotingNotFinalized => 0x222f
  | TieBreakerNotInPriorVotes => 0x2230
  | InvalidMerkleProof => 0x2231
  | InvalidOperatorVoter => 0x2232
  | InvalidNcnFeeGroup => 0x2233
  | InvalidBaseFeeGroup => 0x2234
  | OperatorRewardListFull => 0x2235
  | OperatorRewardNotFound => 0x2236
  | VaultRewardNotFound => 0x2237
  | DestinationMismatch => 0x2238
  | NcnRewardRouteNotFound => 0x2239
  | FeeNotActive => 0x223a
  | NoRewards => 0x223b
  | WeightNotSet => 0x223c
  | RouterStillRouting => 0x223d
  | InvalidEpochsBeforeStall => 0x223e
  | InvalidEpochsBeforeClose => 0x223f
  | InvalidSlotsAfterConsensus => 0x2240
  | VaultNeedsUpdate => 0x2241
  | InvalidAccountStatus => 0x2242
  | AccountAlreadyInitialized => 0x2243
  | BadBallot => 0x2244
  | VotingIsNotOver => 0x2245
  | OperatorIsNotInSnapshot => 0x2246
  | InvalidAccountToCloseDiscriminator => 0x2247
  | CannotCloseAccount => 0x2248
  | CannotCloseAccountAlreadyClosed => 0x2249
  | CannotCloseAccountNotEnoughEpochs => 0x224a
  | CannotCloseAccountNoReceiverProvided => 0x224b
  | CannotCloseAccountNoEnoughAccounts => 0x224c
  | CannotCloseEpochStateAccount => 0x224d
  | InvalidNCNFeeWallet => 0x224e
  | EpochIsClosingDown => 0x224f
  | MarkerExists => 0x2250
  end.

(** The variants in declaration order. *)
Definition all : list t :=
  [NoValidBallots; DenominatorIsZero; ArithmeticOverflow; ArithmeticUnderflowError;
   ArithmeticFloorError; ModuloOverflow; NewPreciseNumberError;
   CastToImpreciseNumberError; CastToU64Error; CastToU128Error;
   IncorrectWeightTableAdmin; DuplicateMintsInTable; NoMintsInTable;
   TableNotInitialized; RegistryNotInitialized; NoVaultsInRegistry;
   VaultNotInRegistry; MintInTable; TooManyMintsForTable; TooManyVaultsForRegistry;
   WeightTableAlreadyInitialized; CannotCreateFutureWeightTables;
   WeightMintsDoNotMatchLength; WeightMintsDoNotMatchMintHash;
   InvalidMintForWeightTable; ConfigMintsNotUpdated; ConfigMintListFull;
   VaultRegistryListFull; VaultRegistryVaultLocked; VaultIndexAlreadyInUse;
   MintEntryNotFound; FeeCapExceeded; TotalFeesCannotBeZero; DefaultProtocolWallet;
   DefaultNcnWallet; IncorrectNcnAdmin; IncorrectNcn; IncorrectFeeAdmin;
   WeightTableNotFinalized; WeightNotFound; NoOperators;
   VaultOperatorDelegationFinalized; OperatorFinalized;
   TooManyVaultOperatorDelegations; DuplicateVaultOperatorDelegation;
   DuplicateVoteCast; CannotVoteWithZeroStake; OperatorAlreadyVoted;
   OperatorVotesFull; BallotTallyFull; BallotTallyNotFoundFull; BallotTallyNotEmpty;
   ConsensusAlreadyReached; ConsensusNotReached; EpochSnapshotNotFinalized;
   VotingNotValid; TieBreakerAdminInvalid; VotingNotFinalized;
   TieBreakerNotInPriorVotes; InvalidMerkleProof; InvalidOperatorVoter;
   InvalidNcnFeeGroup; InvalidBaseFeeGroup; OperatorRewardListFull;
   OperatorRewardNotFound; VaultRewardNotFound; DestinationMismatch;
   NcnRewardRouteNotFound; FeeNotActive; NoRewards; WeightNotSet; RouterStillRouting;
   InvalidEpochsBeforeStall; InvalidEpochsBeforeClose; InvalidSlotsAfterConsensus;
   VaultNeedsUpdate; InvalidAccountStatus; AccountAlreadyInitialized; BadBallot;
   VotingIsNotOver; OperatorIsNotInSnapshot; InvalidAccountToCloseDiscriminator;
   CannotCloseAccount; CannotCloseAccountAlreadyClosed;
   CannotCloseAccountNotEnoughEpochs; CannotCloseAccountNoReceiverProvided;
   CannotCloseAccountNoEnoughAccounts; CannotCloseEpochStateAccount;
   InvalidNCNFeeWallet; EpochIsClosingDown; MarkerExists].

#[global] Instance t_eq_dec : EqDecision t.
Proof. solve_decision. Defined.

(** Reading a code back: the variant that has it. *)
Definition of_code (c : u32) : option t := List.find (fun e => code e =? c) all.
End NCNProgramError.

Module ProgramError.
(** The variants the program returns. *)
Inductive t : Type :=
| Custom (code : u32)
| InvalidArgument
| InvalidAccountData
| InvalidAccountOwner
| InvalidSeeds
| IllegalOwner
| IncorrectProgramId
| NotEnoughAccountKeys
| ArithmeticOverflow
| InsufficientFunds
| MissingRequiredSignature
| BorshIoError
| AccountBorrowFailed.

#[global] Instance t_eq_dec : EqDecision t.
Proof. solve_decision. Defined.

(** [impl From<NCNProgramError> for ProgramError]. *)
Definition from_ncn (e : NCNProgramError.t) : t := Custom (NCNProgramError.code e).
Arguments from_ncn : simpl never.
End ProgramError.

(** [r?] of a [Result<_, NCNProgramError>] in a function that returns
    [Result<_, ProgramError>]. *)
Definition into {A} (r : result NCNProgramError.t A) : result ProgramError.t A :=
  map_err ProgramError.from_ncn r.
Definition into_m {S A} (m : M S NCNProgramError.t A) : M S ProgramError.t A :=
  fun s => let '(r, s') := m s in (into r, s').

Lemma of_code_code e : NCNProgramError.of_code (NCNProgramError.code e) = Some e.
Proof. by destruct e. Qed.

Lemma code_inj e1 e2 : NCNProgramError.code e1 = NCNProgramError.code e2 -> e1 = e2.
Proof. intros H. pose proof (of_code_code e1) as H1. rewrite H, of_code_code in H1. congruence. Qed.

Lemma into_ok {A} (r : result NCNProgramError.t A) a : into r = Ok a <-> r = Ok a.
Proof. apply map_err_ok. Qed.

(** ** Properties *)

(** The error codes the runtime reports identify the error: distinct
    variants convert to distinct [ProgramError]s, every code reads back as
    the variant it came from, and it fits in a [u32]. *)
Theorem error_codes_roundtrip e :
  NCNProgramError.of_code (NCNProgramError.code e) = Some e
  /\ in_range 4294967295 (NCNProgramError.code e)
  /\ (forall e', ProgramError.from_ncn e = ProgramError.from_ncn e' -> e = e').
Proof.
  split_and!; [apply of_code_code|by destruct e|].
  intros e' [= H]. by apply code_inj.
Qed.
