(* ===== verification/Precise.v ===== *)
(** Constants of the program ([core/src/constants.rs]) and the interface to
    [spl_math]'s [PreciseNumber], the fixed-point numbers the program does its
    proportional arithmetic with. The type is not part of this repository: it
    is a class of operations [PreciseNumber], and [PreciseNumberLaws] states
    the documented behaviour the program relies on. *)
From S2P Require Import Prelude Errors.

Definition MAX_FEE_BPS : u64 := 10000.
Definition MAX_ST_MINTS : usize := 64.
Definition MAX_VAULTS : usize := 64.
Definition MAX_OPERATORS : usize := 256.
Definition MIN_EPOCHS_BEFORE_STALL : u64 := 1.
Definition MAX_EPOCHS_BEFORE_STALL : u64 := 50.
Definition MIN_EPOCHS_AFTER_CONSENSUS_BEFORE_CLOSE : u64 := 10.
Definition MAX_EPOCHS_AFTER_CONSENSUS_BEFORE_CLOSE : u64 := 100.
Definition MIN_VALID_SLOTS_AFTER_CONSENSUS : u64 := 1000.
(** [DEFAULT_SLOTS_PER_EPOCH] of Solana's clock is 432000. *)
Definition MAX_VALID_SLOTS_AFTER_CONSENSUS : u64 := 50 * 432000.
Definition PRECISE_CONSENSUS_NUMERATOR : u128 := 2.
Definition PRECISE_CONSENSUS_DENOMINATOR : u128 := 3.
Definition DEFAULT_CONSENSUS_REACHED_SLOT : u64 := u64_MAX.
(** Solana's [MAX_PERMITTED_DATA_INCREASE]. *)
Definition MAX_REALLOC_BYTES : u64 := 10240.
Definition WEIGHT : u128 := 100.

(** ** The number type *)

Class PreciseNumber := {
  PN : Type;
  pn_new : u128 -> option PN;
  pn_checked_mul : PN -> PN -> option PN;
  pn_checked_div : PN -> PN -> option PN;
  pn_floor : PN -> option PN;
  pn_to_imprecise : PN -> option u128;
  pn_greater_than_or_equal : PN -> PN -> bool;
}.

(** 18 decimals. *)
Definition PN_ONE : Z := 1000000000000000000.

(** What the documentation of the type promises: a number is an integer count
    of [10^-18]; whole numbers are represented exactly; the product of two
    whole numbers is exact while it fits in a [u128]; a quotient is truncated
    to 18 decimals; division by zero is refused. *)
Class PreciseNumberLaws (P : PreciseNumber) := {
  pn_val : PN -> Z;
  pn_new_spec n :
    in_range u128_MAX n -> exists x, pn_new n = Some x /\ pn_val x = n * PN_ONE;
  pn_mul_spec x y a b :
    pn_val x = a * PN_ONE -> pn_val y = b * PN_ONE -> 0 <= a -> 0 <= b -> a * b <= u128_MAX ->
    exists z, pn_checked_mul x y = Some z /\ pn_val z = a * b * PN_ONE;
  pn_div_spec x y a b :
    pn_val x = a * PN_ONE -> pn_val y = b * PN_ONE ->
    in_range u128_MAX a -> 0 < b <= u128_MAX ->
    exists z, pn_checked_div x y = Some z /\ pn_val z = a * PN_ONE / b;
  pn_div_zero x y : pn_val y = 0 -> pn_checked_div x y = None;
  pn_floor_spec x :
    0 <= pn_val x -> exists z, pn_floor x = Some z /\ pn_val z = pn_val x / PN_ONE * PN_ONE;
  pn_to_imprecise_spec x n :
    pn_val x = n * PN_ONE -> in_range u128_MAX n -> pn_to_imprecise x = Some n;
  pn_to_imprecise_range x n : pn_to_imprecise x = Some n -> in_range u128_MAX n;
  pn_ge_spec x y : pn_greater_than_or_equal x y = (pn_val y <=? pn_val x);
}.

(** ** A concrete instance

    Integers scaled by [10^18], with the operations of the class computed on
    them; it satisfies the laws, so that every theorem that assumes them can be
    instantiated and evaluated. *)
Module FixedPoint.
Definition new (n : u128) : option Z := Some (n * PN_ONE).
Definition checked_mul (x y : Z) : option Z := Some (x * y / PN_ONE).
Definition checked_div (x y : Z) : option Z :=
  if y =? 0 then None else Some (x * PN_ONE / y).
Definition floor (x : Z) : option Z := Some (x / PN_ONE * PN_ONE).
Definition to_imprecise (x : Z) : option u128 :=
  let n := (x + PN_ONE / 2) / PN_ONE in
  if (0 <=? n) && (n <=? u128_MAX) then Some n else None.
Definition greater_than_or_equal (x y : Z) : bool := y <=? x.
End FixedPoint.

Definition fixed_point : PreciseNumber := {|
  PN := Z;
  pn_new := FixedPoint.new;
  pn_checked_mul := FixedPoint.checked_mul;
  pn_checked_div := FixedPoint.checked_div;
  pn_floor := FixedPoint.floor;
  pn_to_imprecise := FixedPoint.to_imprecise;
  pn_greater_than_or_equal := FixedPoint.greater_than_or_equal;
|}.

#[export] Instance fixed_point_laws : PreciseNumberLaws fixed_point.
Proof.
  assert (0 < PN_ONE) as Hone by done.
  refine {| pn_val := fun x : @PN fixed_point => (x : Z) |}; cbn.
  - intros n _. by eexists.
  - intros x y a b -> -> _ _ _. eexists. split; [done|].
    replace (a * PN_ONE * (b * PN_ONE)) with (a * b * PN_ONE * PN_ONE) by ring.
    by rewrite Z.div_mul by lia.
  - intros x y a b -> -> _ Hb. unfold FixedPoint.checked_div.
    destruct (b * PN_ONE =? 0) eqn:E; [nia|]. eexists. split; [done|].
    by rewrite Z.div_mul_cancel_r by lia.
  - intros x y ->. done.
  - intros x _. by eexists.
  - intros x n -> Hn. unfold FixedPoint.to_imprecise.
    rewrite Z.div_add_l by lia. change (PN_ONE / 2 / PN_ONE) with 0. rewrite Z.add_0_r.
    unfold in_range in Hn. destruct (0 <=? n) eqn:E1; [|lia]. by destruct (n <=? u128_MAX) eqn:E2; [|lia].
  - intros x n. unfold FixedPoint.to_imprecise. destruct (_ && _) eqn:E; [|done]. intros [= <-].
    apply andb_true_iff in E as [?%Z.leb_le ?%Z.leb_le]. done.
  - done.
Defined.

(** ** The consensus threshold *)

Section precise_consensus.
Context {P : PreciseNumber}.
Import NCNProgramError.

Definition precise_consensus : result NCNProgramError.t PN :=
  let? n := ok_or (pn_new PRECISE_CONSENSUS_NUMERATOR) NewPreciseNumberError in
  let? d := ok_or (pn_new PRECISE_CONSENSUS_DENOMINATOR) NewPreciseNumberError in
  ok_or (pn_checked_div n d) DenominatorIsZero.
End precise_consensus.

(** ** Shared computations *)

Section proportions.
Context {P : PreciseNumber} {L : PreciseNumberLaws P}.
Import NCNProgramError.

Lemma precise_consensus_spec :
  exists t, precise_consensus = Ok t /\ pn_val t = 666666666666666666.
Proof.
  unfold precise_consensus.
  destruct (pn_new_spec PRECISE_CONSENSUS_NUMERATOR) as (n & -> & Hn); [done|].
  destruct (pn_new_spec PRECISE_CONSENSUS_DENOMINATOR) as (d & -> & Hd); [done|].
  cbn. destruct (pn_div_spec n d 2 3) as (t & -> & Ht); try done.
  exists t. split; [done|]. by rewrite Ht.
Qed.

(** The value of the chain "multiply, divide, floor, convert" on whole
    numbers: the integer quotient of the product. *)
Lemma precise_mul_div_floor (x y z : PN) a b c :
  pn_val x = a * PN_ONE -> pn_val y = b * PN_ONE -> pn_val z = c * PN_ONE ->
  0 <= a -> 0 <= b -> a * b <= u128_MAX -> 0 < c <= u128_MAX ->
  exists p q r, pn_checked_mul x y = Some p /\ pn_checked_div p z = Some q
    /\ pn_floor q = Some r /\ pn_to_imprecise r = Some (a * b / c).
Proof.
  intros Hx Hy Hz Ha Hb Hab Hc. assert (0 < PN_ONE) as Hone by done.
  destruct (pn_mul_spec x y a b) as (p & Hp & Hpv); try done.
  destruct (pn_div_spec p z (a * b) c) as (q & Hq & Hqv); try done.
  { unfold in_range. nia. }
  assert (0 <= a * b / c) by (apply Z.div_pos; nia).
  assert (0 <= pn_val q) by (rewrite Hqv; apply Z.div_pos; nia).
  destruct (pn_floor_spec q) as (r & Hr & Hrv); [done|].
  exists p, q, r. split_and!; try done. apply pn_to_imprecise_spec.
  - rewrite Hrv, Hqv. f_equal.
    rewrite Z.div_div, Z.mul_comm with (n := c), <-Z.div_div by lia.
    by rewrite Z.div_mul by lia.
  - unfold in_range. assert (a * b / c <= a * b) by (apply Z.div_le_upper_bound; nia). lia.
Qed.
End proportions.
