(* ===== verification/Stake.v ===== *)
(** Stake weights ([core/src/stake_weight.rs]): the weight an operator or a
    ballot accumulates, with checked arithmetic on [u128]. *)
From S2P Require Import Prelude Errors.

Module StakeWeights.
Import NCNProgramError.

Record t := mk { stake_weight : u128 }.
#[global] Instance eta_t : Eta t := fun s => mk (stake_weight s).
#[global] Instance t_eq_dec : EqDecision t.
Proof. solve_decision. Defined.

Definition default : t := mk 0.
Definition new (stake_weight : u128) : t := mk stake_weight.

Definition increment_stake_weight (w : u128) : M t NCNProgramError.t unit :=
  let* self := get_self in
  let* n := lift (ok_or (checked_add u128_MAX (stake_weight self) w) ArithmeticOverflow) in
  modify (put stake_weight n).

Definition increment (other : t) : M t NCNProgramError.t unit :=
  increment_stake_weight (stake_weight other).

Definition decrement_stake_weight (w : u128) : M t NCNProgramError.t unit :=
  let* self := get_self in
  let* n := lift (ok_or (checked_sub (stake_weight self) w) ArithmeticOverflow) in
  modify (put stake_weight n).

Definition decrement (other : t) : M t NCNProgramError.t unit :=
  decrement_stake_weight (stake_weight other).

Definition snapshot (stake_weight : u128) : result NCNProgramError.t t :=
  let '(r, s) := increment_stake_weight stake_weight default in
  let? _ := r in Ok s.

(** A stake weight fits in a [u128]. *)
Definition wf (s : t) : Prop := in_range u128_MAX (stake_weight s).

Lemma t_eq s1 s2 : stake_weight s1 = stake_weight s2 -> s1 = s2.
Proof. destruct s1, s2; cbn; congruence. Qed.

(** The exact outcome of an increment, on both branches. *)
Lemma increment_eq o s :
  increment o s =
  if stake_weight s + stake_weight o <=? u128_MAX
  then (Ok tt, mk (stake_weight s + stake_weight o)) else (Err ArithmeticOverflow, s).
Proof.
  unfold increment, increment_stake_weight, checked_add; munfold; cbn.
  by destruct (_ <=? _).
Qed.

Lemma decrement_eq o s :
  decrement o s =
  if stake_weight o <=? stake_weight s
  then (Ok tt, mk (stake_weight s - stake_weight o)) else (Err ArithmeticOverflow, s).
Proof.
  unfold decrement, decrement_stake_weight, checked_sub; munfold; cbn.
  by destruct (_ <=? _).
Qed.

Lemma snapshot_ok w : w <= u128_MAX -> snapshot w = Ok (mk w).
Proof.
  intros Hw. unfold snapshot. change (increment_stake_weight w) with (increment (mk w)).
  rewrite increment_eq; cbn. rewrite Z.add_0_l. by destruct (w <=? u128_MAX) eqn:?; [|lia].
Qed.

(** Stake weights never wrap. An increment either adds exactly or
    returns [ArithmeticOverflow] and leaves the weight as it was; a decrement
    undoes an increment; decrementing below zero is refused. *)
Theorem increment_decrement_roundtrip s o :
  wf s -> wf o ->
  match increment o s with
  | (Ok tt, s') =>
      stake_weight s' = stake_weight s + stake_weight o /\ wf s' /\ decrement o s' = (Ok tt, s)
  | (r, s') => r = Err ArithmeticOverflow /\ s' = s /\ u128_MAX < stake_weight s + stake_weight o
  end
  /\ (stake_weight s < stake_weight o -> decrement o s = (Err ArithmeticOverflow, s)).
Proof.
  unfold wf, in_range. intros Hs Ho. rewrite increment_eq. split.
  - destruct (_ <=? u128_MAX) eqn:E; cbn -[decrement]; [|split_and!; [done|done|lia]].
    split_and!; [done|lia|lia|]. rewrite decrement_eq; cbn.
    destruct (stake_weight o <=? _) eqn:E'; [|lia]. f_equal. apply t_eq; cbn. lia.
  - intros Hlt. rewrite decrement_eq. by destruct (stake_weight o <=? _) eqn:E; [lia|].
Qed.

Lemma increment_decrement_roundtrip_witness :
  decrement (mk 5) (mk 12) = (Ok tt, mk 7) /\ decrement (mk 9) (mk 7) = (Err ArithmeticOverflow, mk 7).
Proof.
  destruct (increment_decrement_roundtrip (mk 7) (mk 5)) as [H1 _];
    [unfold wf, in_range; cbn; unfold u128_MAX; lia..|].
  destruct (increment_decrement_roundtrip (mk 7) (mk 9)) as [_ H2];
    [unfold wf, in_range; cbn; unfold u128_MAX; lia..|].
  split; [exact (proj2 (proj2 H1))|apply H2; reflexivity].
Defined.
End StakeWeights.

#[export] Hint Unfold StakeWeights.wf in_range : ncn.
