(* ===== verification/Registry.v ===== *)
(** The vault registry ([core/src/vault_registry.rs]): the supported token
    mints with their weights and the registered vaults of an NCN, two arrays
    of 64 slots filled from the front. *)
From S2P Require Import Prelude Errors Precise.

Module StMintEntry.
Record t := mk {
  st_mint : Pubkey;
  reserve_switchboard_feed : list u8;
  weight : u128;
}.
#[global] Instance eta_t : Eta t :=
  fun m => mk (st_mint m) (reserve_switchboard_feed m) (weight m).

Definition new (st_mint : Pubkey) (weight : u128) : t :=
  mk st_mint (replicate 32 0) weight.
Definition default : t := new Pubkey_default 0.
Definition is_empty (m : t) : bool := st_mint m =? Pubkey_default.
End StMintEntry.

Module VaultEntry.
Record t := mk {
  vault : Pubkey;
  st_mint : Pubkey;
  vault_index : u64;
  slot_registered : u64;
}.

Definition EMPTY_VAULT_INDEX : u64 := u64_MAX.
Definition EMPTY_SLOT_REGISTERED : u64 := u64_MAX.

Definition new (vault st_mint : Pubkey) (vault_index slot_registered : u64) : t :=
  mk vault st_mint vault_index slot_registered.
Definition default : t :=
  new Pubkey_default Pubkey_default EMPTY_VAULT_INDEX EMPTY_SLOT_REGISTERED.
Definition is_empty (v : t) : bool := slot_registered v =? u64_MAX.
End VaultEntry.

Module VaultRegistry.
Import NCNProgramError.

Record t := mk {
  ncn : Pubkey;
  bump : u8;
  st_mint_list : list StMintEntry.t;
  vault_list : list VaultEntry.t;
}.
#[global] Instance eta_t : Eta t :=
  fun r => mk (ncn r) (bump r) (st_mint_list r) (vault_list r).

Definition new (ncn : Pubkey) (bump : u8) : t :=
  mk ncn bump (replicate 64 StMintEntry.default) (replicate 64 VaultEntry.default).

Definition initialize (n : Pubkey) (b : u8) (self : t) : t :=
  self <| ncn := n |> <| bump := b |>
       <| st_mint_list := replicate 64 StMintEntry.default |>
       <| vault_list := replicate 64 VaultEntry.default |>.

Definition has_st_mint (mint : Pubkey) (self : t) : bool :=
  any (fun m => StMintEntry.st_mint m =? mint) (st_mint_list self).

Definition check_st_mint_entry (entry : StMintEntry.t) : result ProgramError.t unit :=
  if StMintEntry.weight entry =? 0 then into (Err WeightNotSet) else Ok tt.

Definition register_st_mint (st_mint : Pubkey) (weight : u128) : M t ProgramError.t unit :=
  let* self := get_self in
  if any (fun m => StMintEntry.st_mint m =? st_mint) (st_mint_list self)
  then lift (into (Err MintInTable))
  else
    let* (i, _) :=
      lift (into (ok_or
        (find_index
           (fun m => StMintEntry.st_mint m =? StMintEntry.st_mint StMintEntry.default)
           (st_mint_list self))
        VaultRegistryListFull)) in
    let new_mint_entry := StMintEntry.new st_mint weight in
    let* _ := lift (check_st_mint_entry new_mint_entry) in
    modify (put st_mint_list (<[i := new_mint_entry]> (st_mint_list self))).

Definition set_st_mint (st_mint : Pubkey) (weight : option u128) : M t ProgramError.t unit :=
  let* self := get_self in
  let* (i, mint_entry) :=
    lift (into (ok_or
      (find_index (fun m => StMintEntry.st_mint m =? st_mint) (st_mint_list self))
      MintEntryNotFound)) in
  let updated_mint_entry :=
    match weight with
    | Some weight => mint_entry <| StMintEntry.weight := weight |>
    | None => mint_entry
    end in
  let* _ := lift (check_st_mint_entry updated_mint_entry) in
  modify (put st_mint_list (<[i := updated_mint_entry]> (st_mint_list self))).

Definition register_vault (vault st_mint : Pubkey) (vault_index current_slot : u64)
    : M t ProgramError.t unit :=
  let* self := get_self in
  if any (fun m => VaultEntry.vault m =? vault) (vault_list self)
  then ret tt
  else
    let* (i, _) :=
      lift (into (ok_or
        (find_index
           (fun m => VaultEntry.st_mint m =? VaultEntry.st_mint VaultEntry.default)
           (vault_list self))
        VaultRegistryListFull)) in
    modify (put vault_list
      (<[i := VaultEntry.new vault st_mint vault_index current_slot]> (vault_list self))).

Definition vault_count (self : t) : u64 :=
  count_if (fun m => negb (VaultEntry.is_empty m)) (vault_list self).
Definition get_valid_vault_entries (self : t) : list VaultEntry.t :=
  List.filter (fun m => negb (VaultEntry.is_empty m)) (vault_list self).
Definition get_valid_mint_entries (self : t) : list StMintEntry.t :=
  List.filter (fun m => negb (StMintEntry.is_empty m)) (st_mint_list self).
Definition st_mint_count (self : t) : usize :=
  count_if (fun m => negb (StMintEntry.is_empty m)) (st_mint_list self).
Definition get_mint_entry (st_mint : Pubkey) (self : t) : result ProgramError.t StMintEntry.t :=
  let? (_, mint_entry) :=
    into (ok_or (find_index (fun m => StMintEntry.st_mint m =? st_mint) (st_mint_list self))
            MintEntryNotFound) in
  Ok mint_entry.

(** ** Well-formed registries *)

Record wf (self : t) : Prop := {
  wf_mints_len : List.length (st_mint_list self) = 64%nat;
  wf_vaults_len : List.length (vault_list self) = 64%nat;
  wf_mints_distinct : distinct_keys StMintEntry.st_mint (st_mint_list self);
  wf_mints_weight : forall i m, st_mint_list self !! i = Some m ->
    StMintEntry.is_empty m = false -> 0 < StMintEntry.weight m <= u128_MAX;
  wf_vaults_distinct : distinct_keys VaultEntry.vault (vault_list self);
  (** the two notions of a free vault slot agree: no mint, never registered *)
  wf_vaults_free : forall i v, vault_list self !! i = Some v ->
    (VaultEntry.st_mint v =? Pubkey_default) = VaultEntry.is_empty v;
}.

Lemma new_wf n b : wf (new n b).
Proof.
  split; cbn -[replicate]; try apply length_replicate.
  - by apply distinct_keys_replicate.
  - intros i m [-> _]%lookup_replicate. done.
  - by apply distinct_keys_replicate.
  - intros i v [-> _]%lookup_replicate. done.
Qed.

Lemma initialize_new n b self : initialize n b self = new n b.
Proof. done. Qed.

(** Assigning a mint entry whose key is not used elsewhere. *)
Lemma wf_set_mint self i e :
  wf self -> 0 < StMintEntry.weight e <= u128_MAX ->
  (forall j y, st_mint_list self !! j = Some y ->
     StMintEntry.st_mint y = StMintEntry.st_mint e -> StMintEntry.st_mint e <> 0 -> j = i) ->
  wf (self <| st_mint_list := <[i := e]> (st_mint_list self) |>).
Proof.
  intros [] He Hk. split; cbn; try done.
  - by rewrite length_insert.
  - by apply distinct_keys_insert.
  - intros j m. rewrite list_lookup_insert. case_decide; [by intros [= <-]|]. eauto.
Qed.

(** C40: registering a token mint, on every branch. It fails without touching
    the registry exactly when the mint is already there, no slot is free or
    the weight is zero; otherwise the mint gets the given weight, every other
    mint keeps its entry, the number of mints grows by one, and the registry
    stays well formed. *)
Theorem register_st_mint_spec self mint w :
  wf self -> in_range u128_MAX w ->
  match register_st_mint mint w self with
  | (Ok tt, self') =>
      has_st_mint mint self = false /\ w <> 0 /\ wf self'
      /\ get_mint_entry mint self' = Ok (StMintEntry.new mint w)
      /\ (forall m, m <> mint -> m <> Pubkey_default ->
            get_mint_entry m self' = get_mint_entry m self)
      /\ st_mint_count self' = st_mint_count self + 1
      /\ vault_list self' = vault_list self
  | (Err e, self') =>
      self' = self
      /\ (e = ProgramError.from_ncn MintInTable /\ has_st_mint mint self = true
          \/ e = ProgramError.from_ncn VaultRegistryListFull /\ st_mint_count self = 64
          \/ e = ProgramError.from_ncn WeightNotSet /\ w = 0)
  | (Panic, _) => False
  end.
Proof.
  intros Hwf Hw. unfold register_st_mint; munfold.
  change (any _ _) with (has_st_mint mint self).
  destruct (has_st_mint mint self) eqn:Hhas; cbn; [split; [done|by left]|].
  assert (find_index (fun m => StMintEntry.st_mint m =? mint) (st_mint_list self) = None)
    as Hnone by by apply any_false_find.
  destruct (find_index (fun m => StMintEntry.st_mint m =? Pubkey_default) _)
    as [[i x]|] eqn:Hfree; cbn.
  - apply find_index_Some in Hfree as (Hi & Hx & _).
    change (StMintEntry.is_empty x = true) in Hx.
    unfold check_st_mint_entry; cbn. destruct (w =? 0) eqn:Hw0; cbn.
    { split; [done|]. right; right. split; [done|lia]. }
    assert (mint <> Pubkey_default) as Hmint.
    { intros ->. assert (StMintEntry.is_empty x = false); [|congruence].
      eapply (proj1 (find_index_None _ _) Hnone); done. }
    split_and!; [done|lia|..].
    + apply wf_set_mint; [done|cbn; unfold in_range in *; lia|].
      intros j y Hj Hy _. eapply find_index_None in Hnone; [|done]. cbn in Hy. lia.
    + unfold get_mint_entry. cbn.
      erewrite find_index_insert_new; [done|done|by eapply lookup_lt_Some|cbn; lia].
    + intros m Hm Hm0. unfold get_mint_entry. cbn.
      erewrite find_index_insert_miss; [done|done|..]; cbn; [|lia].
      unfold StMintEntry.is_empty in *. lia.
    + unfold st_mint_count. cbn. erewrite count_if_insert by done.
      unfold StMintEntry.is_empty at 3; cbn. rewrite Hx.
      destruct (mint =? Pubkey_default) eqn:?; cbn; lia.
    + done.
  - split; [done|]. right; left. split; [done|].
    unfold st_mint_count. rewrite count_if_full, (wf_mints_len _ Hwf); [done|].
    intros i m Hi. eapply find_index_None in Hfree; [|done].
    unfold StMintEntry.is_empty. cbn in Hfree. by rewrite Hfree.
Qed.

Lemma get_mint_entry_find self m i e :
  wf self -> st_mint_list self !! i = Some e -> StMintEntry.st_mint e = m -> m <> Pubkey_default ->
  get_mint_entry m self = Ok e.
Proof.
  intros Hwf Hi <- Hm. unfold get_mint_entry.
  by erewrite distinct_keys_find; [|apply Hwf| |].
Qed.

Lemma get_mint_entry_other self i x e m :
  st_mint_list self !! i = Some x -> StMintEntry.st_mint x <> m -> StMintEntry.st_mint e <> m ->
  get_mint_entry m (self <| st_mint_list := <[i := e]> (st_mint_list self) |>) = get_mint_entry m self.
Proof.
  intros Hi Hx He. unfold get_mint_entry. cbn.
  erewrite find_index_insert_miss; [done|done|lia|lia].
Qed.

(** Changing the weight of a registered mint, on every branch: an unknown
    mint and a zero weight are refused and nothing is written; otherwise only
    the weight of that one mint changes (and nothing at all when no weight is
    given), so the registry stays well formed. *)
Theorem set_st_mint_spec self mint ow :
  wf self -> mint <> Pubkey_default -> (forall w, ow = Some w -> in_range u128_MAX w) ->
  match set_st_mint mint ow self with
  | (Ok tt, self') =>
      exists e, get_mint_entry mint self = Ok e
      /\ get_mint_entry mint self' =
           Ok (e <| StMintEntry.weight := default (StMintEntry.weight e) ow |>)
      /\ ow <> Some 0 /\ wf self'
      /\ (forall m, m <> mint -> get_mint_entry m self' = get_mint_entry m self)
      /\ (ow = None -> self' = self)
  | (Err e, self') =>
      self' = self
      /\ (e = ProgramError.from_ncn MintEntryNotFound /\ has_st_mint mint self = false
          \/ e = ProgramError.from_ncn WeightNotSet /\ ow = Some 0)
  | (Panic, _) => False
  end.
Proof.
  intros Hwf Hmint How. unfold set_st_mint; munfold.
  destruct (find_index _ _) as [[i x]|] eqn:Hf; cbn.
  2: { split; [done|left]. split; [done|]. by apply any_false_find. }
  pose proof (find_index_lookup _ _ _ _ Hf) as Hi. pose proof (find_index_true _ _ _ _ Hf) as Hx.
  assert (StMintEntry.st_mint x = mint) as Hxm by (cbn in Hx; lia).
  assert (0 < StMintEntry.weight x <= u128_MAX) as Hwx.
  { eapply wf_mints_weight; [done..|]. unfold StMintEntry.is_empty. lia. }
  set (x' := match ow with Some _ => _ | None => _ end).
  assert (x' = x <| StMintEntry.weight := default (StMintEntry.weight x) ow |>) as Hx'.
  { subst x'. destruct ow, x; done. }
  rewrite Hx'. unfold check_st_mint_entry. cbn [StMintEntry.weight over].
  destruct (default (StMintEntry.weight x) ow =? 0) eqn:Hw0; cbn.
  { split; [done|right]. split; [done|]. destruct ow as [w|]; cbn in Hw0; [f_equal; lia|lia]. }
  exists x. split_and!.
  - by eapply get_mint_entry_find.
  - unfold get_mint_entry. cbn. erewrite find_index_insert_hit; [done|done|cbn; lia].
  - intros ->. done.
  - apply wf_set_mint; [done| |].
    + cbn. destruct ow as [w|]; cbn in *; [|lia]. specialize (How w eq_refl). unfold in_range in *. lia.
    + cbn. intros j y Hj Hy Hn. apply (wf_mints_distinct _ Hwf j i y x); [done..|congruence].
  - intros m Hm. eapply (get_mint_entry_other _ i); [done|congruence|cbn; congruence].
  - intros ->. cbn. destruct self, x; cbn in *. f_equal. by apply list_insert_id.
Qed.

Definition has_vault (vault : Pubkey) (self : t) : bool :=
  any (fun v => VaultEntry.vault v =? vault) (vault_list self).

(** Registering a vault, on every branch. It is idempotent: a vault that
    is already there leaves the registry as it is. Otherwise it takes a free
    slot with exactly the data given and the number of vaults grows by one,
    or the list is full and nothing is written. The registry stays well
    formed, so a vault is never registered twice. *)
Theorem register_vault_spec self vault st_mint index slot :
  wf self -> st_mint <> Pubkey_default -> 0 <= slot < u64_MAX ->
  match register_vault vault st_mint index slot self with
  | (Ok tt, self') =>
      wf self' /\ has_vault vault self' = true
      /\ st_mint_list self' = st_mint_list self
      /\ (has_vault vault self = true -> self' = self)
      /\ (has_vault vault self = false ->
           vault_count self' = vault_count self + 1
           /\ exists i, vault_list self' =
                <[i := VaultEntry.new vault st_mint index slot]> (vault_list self))
  | (Err e, self') =>
      self' = self /\ e = ProgramError.from_ncn VaultRegistryListFull
      /\ has_vault vault self = false /\ vault_count self = 64
  | (Panic, _) => False
  end.
Proof.
  intros Hwf Hm Hslot. unfold register_vault; munfold.
  change (any (fun m => VaultEntry.vault m =? vault) _) with (has_vault vault self).
  destruct (has_vault vault self) eqn:Hhas; cbn; [done|].
  destruct (find_index _ _) as [[i x]|] eqn:Hf; cbn.
  - pose proof (find_index_lookup _ _ _ _ Hf) as Hi.
    pose proof (find_index_true _ _ _ _ Hf) as Hx. cbn in Hx.
    pose proof (wf_vaults_free _ Hwf _ _ Hi) as Hfree.
    pose proof (proj1 (any_false _ _) Hhas) as Hnone.
    split_and!; [|..|done|done|].
    + split; cbn; try apply Hwf.
      * by rewrite length_insert, (wf_vaults_len _ Hwf).
      * apply distinct_keys_insert; [apply Hwf|]. cbn. intros j y Hj Hy.
        specialize (Hnone j y Hj). cbn in Hnone. lia.
      * intros j v. rewrite list_lookup_insert. case_decide; [|by eapply (wf_vaults_free _ Hwf)].
        intros [= <-]. unfold VaultEntry.is_empty. cbn. lia.
    + unfold has_vault. cbn. apply any_true. exists i, (VaultEntry.new vault st_mint index slot).
      split; [apply list_lookup_insert_eq; by eapply lookup_lt_Some|cbn; lia].
    + intros _. split; [|by exists i]. unfold vault_count. cbn.
      erewrite count_if_insert by done. rewrite <-Hfree, Hx.
      unfold VaultEntry.is_empty at 2; cbn. destruct (slot =? u64_MAX) eqn:?; cbn; lia.
  - split_and!; [done..|]. unfold vault_count. rewrite count_if_full, (wf_vaults_len _ Hwf); [done|].
    intros i v Hi. rewrite <-(wf_vaults_free _ Hwf _ _ Hi).
    eapply find_index_None in Hf; [|done]. cbn in Hf. by rewrite Hf.
Qed.

(** Concrete runs: two mints and a vault in a fresh registry. *)
Definition example_registry : t :=
  (new 7 255) <| st_mint_list := <[O := StMintEntry.new 11 100]> (st_mint_list (new 7 255)) |>.

Lemma example_registry_wf : wf example_registry.
Proof.
  apply wf_set_mint; [apply new_wf|split; [reflexivity|discriminate]|].
  intros j y [-> _]%lookup_replicate. discriminate.
Qed.

Lemma register_st_mint_spec_witness :
  wf (new 7 255) /\ in_range u128_MAX 100
  /\ get_mint_entry 11 (snd (register_st_mint 11 100 (new 7 255))) = Ok (StMintEntry.new 11 100).
Proof.
  split; [apply new_wf|]. assert (in_range u128_MAX 100) as Hr by (split; discriminate).
  split; [exact Hr|].
  exact (proj1 (proj2 (proj2 (proj2 (register_st_mint_spec (new 7 255) 11 100 (new_wf _ _) Hr))))).
Defined.

Lemma set_st_mint_spec_witness :
  exists e, get_mint_entry 11 example_registry = Ok e
  /\ get_mint_entry 11 (snd (set_st_mint 11 (Some 3) example_registry))
     = Ok (e <| StMintEntry.weight := 3 |>).
Proof.
  assert (forall w, Some 3 = Some w -> in_range u128_MAX w) as Hr
    by (intros w [= <-]; split; discriminate).
  destruct (set_st_mint_spec example_registry 11 (Some 3) example_registry_wf
              ltac:(discriminate) Hr) as (e & He & He' & _).
  exists e. split; [exact He|exact He'].
Defined.

Lemma register_vault_spec_witness :
  has_vault 21 (snd (register_vault 21 11 0 50 example_registry)) = true.
Proof.
  exact (proj1 (proj2 (register_vault_spec example_registry 21 11 0 50 example_registry_wf
           ltac:(discriminate) ltac:(split; [discriminate|reflexivity])))).
Defined.
End VaultRegistry.
