(* ===== verification/Weights.v ===== *)
(** The weight table of an epoch ([core/src/weight_entry.rs],
    [core/src/weight_table.rs]): a snapshot of the vault registry together
    with the weight of every supported mint. Votes can be snapshotted only
    once the table is final, that is once every mint has its weight. *)
From S2P Require Import Prelude Errors Precise Registry.

Module WeightEntry.
Import NCNProgramError.

Record t := mk {
  st_mint_entry : StMintEntry.t;
  weight : u128;
  slot_set : u64;
  slot_updated : u64;
}.
#[global] Instance eta_t : Eta t :=
  fun e => mk (st_mint_entry e) (weight e) (slot_set e) (slot_updated e).

Definition default : t := mk StMintEntry.default 0 0 0.
Definition new (mint_entry : StMintEntry.t) : t := mk mint_entry 0 0 0.

Definition is_empty (e : t) : bool := StMintEntry.is_empty (st_mint_entry e).
Definition is_set (e : t) : bool := 0 <? slot_set e.
Definition st_mint (e : t) : Pubkey := StMintEntry.st_mint (st_mint_entry e).

Definition precise_weight `{PreciseNumber} (e : t) : result NCNProgramError.t PN :=
  ok_or (pn_new (weight e)) NewPreciseNumberError.

Definition set_weight (w : u128) (current_slot : u64) (self : t) : t :=
  let self := self <| weight := w |> in
  let self :=
    if slot_set self =? 0
    then self <| slot_set := current_slot |> <| slot_updated := current_slot |>
    else self in
  self <| slot_updated := current_slot |>.
End WeightEntry.

Module WeightTable.
Import NCNProgramError.

Record t := mk {
  ncn : Pubkey;
  epoch : u64;
  slot_created : u64;
  vault_count : u64;
  bump : u8;
  vault_registry : list VaultEntry.t;
  table : list WeightEntry.t;
}.
#[global] Instance eta_t : Eta t :=
  fun w => mk (ncn w) (epoch w) (slot_created w) (vault_count w) (bump w)
              (vault_registry w) (table w).

Definition new (ncn : Pubkey) (epoch slot_created vault_count : u64) (bump : u8) : t :=
  mk ncn epoch slot_created vault_count bump
    (replicate 64 VaultEntry.default) (replicate 64 WeightEntry.default).

Definition mint_count (self : t) : usize :=
  count_if (fun e => negb (WeightEntry.is_empty e)) (table self).
Definition weight_count (self : t) : usize := count_if WeightEntry.is_set (table self).
Definition st_mint_count (self : t) : usize :=
  count_if (fun e => negb (WeightEntry.is_empty e)) (table self).
Definition vault_entry_count (self : t) : usize :=
  count_if (fun e => negb (VaultEntry.is_empty e)) (vault_registry self).

Definition vault_registry_initialized (self : t) : bool :=
  vault_count self =? vault_entry_count self.
Definition table_initialized (self : t) : bool := 0 <? mint_count self.
Definition finalized (self : t) : bool :=
  vault_registry_initialized self && table_initialized self
  && (mint_count self =? weight_count self).

Definition check_table_initialized (self : t) : result NCNProgramError.t unit :=
  if negb (table_initialized self) then Err TableNotInitialized else Ok tt.
Definition check_registry_initialized (self : t) : result NCNProgramError.t unit :=
  if negb (vault_registry_initialized self) then Err RegistryNotInitialized else Ok tt.
Definition check_registry_for_vault (vault_index : u64) (self : t)
    : result NCNProgramError.t unit :=
  if vault_index =? VaultEntry.EMPTY_VAULT_INDEX then Err VaultNotInRegistry
  else if negb (any (fun e => VaultEntry.vault_index e =? vault_index) (vault_registry self))
  then Err VaultNotInRegistry
  else Ok tt.

Definition set_vault_entries (vault_entries : list VaultEntry.t)
    : M t NCNProgramError.t unit :=
  let* self := get_self in
  if vault_registry_initialized self then throw WeightTableAlreadyInitialized
  else
    let* _ := modify (put vault_registry (write_from id 0 vault_entries (vault_registry self))) in
    let* self := get_self in
    lift (check_registry_initialized self).

Definition set_mint_entries (mint_entries : list StMintEntry.t)
    : M t NCNProgramError.t unit :=
  let* self := get_self in
  if table_initialized self then throw WeightTableAlreadyInitialized
  else
    let* _ := modify (put table (write_from WeightEntry.new 0 mint_entries (table self))) in
    let* self := get_self in
    lift (check_table_initialized self).

Definition initialize (n : Pubkey) (ncn_epoch slot vaults : u64) (b : u8)
    (vault_entries : list VaultEntry.t) (mint_entries : list StMintEntry.t)
    : M t NCNProgramError.t unit :=
  let* _ := modify (fun self =>
    self <| ncn := n |> <| epoch := ncn_epoch |> <| slot_created := slot |>
         <| vault_count := vaults |> <| bump := b |>
         <| vault_registry := replicate 64 VaultEntry.default |>
         <| table := replicate 64 WeightEntry.default |>) in
  let* _ := set_vault_entries vault_entries in
  let* _ := set_mint_entries mint_entries in
  ret tt.

Definition find_mint (mint : Pubkey) (self : t) : option (nat * WeightEntry.t) :=
  find_index (fun e => WeightEntry.st_mint e =? mint) (table self).

Definition set_weight (mint : Pubkey) (weight : u128) (current_slot : u64)
    : M t NCNProgramError.t unit :=
  let* self := get_self in
  match find_mint mint self with
  | None => throw InvalidMintForWeightTable
  | Some (i, entry) =>
      modify (put table (<[i := WeightEntry.set_weight weight current_slot entry]> (table self)))
  end.

Definition get_weight (mint : Pubkey) (self : t) : result NCNProgramError.t u128 :=
  match find_mint mint self with
  | None => Err InvalidMintForWeightTable
  | Some (_, entry) => Ok (WeightEntry.weight entry)
  end.

Definition get_weight_entry (mint : Pubkey) (self : t) : result NCNProgramError.t WeightEntry.t :=
  let? (_, entry) := ok_or (find_mint mint self) InvalidMintForWeightTable in Ok entry.

Definition get_precise_weight `{PreciseNumber} (mint : Pubkey) (self : t)
    : result NCNProgramError.t PN :=
  let? weight := get_weight mint self in
  ok_or (pn_new weight) NewPreciseNumberError.

Definition get_mints (self : t) : list Pubkey :=
  map WeightEntry.st_mint
    (List.filter (fun e => negb (WeightEntry.is_empty e)) (table self)).

(** ** Well-formed tables *)

Record wf (self : t) : Prop := {
  wf_registry_len : List.length (vault_registry self) = 64%nat;
  wf_table_len : List.length (table self) = 64%nat;
  wf_mints_distinct : distinct_keys WeightEntry.st_mint (table self);
  (** a slot without a mint has no weight set *)
  wf_empty_unset : forall i e, table self !! i = Some e ->
    WeightEntry.is_empty e = true -> WeightEntry.is_set e = false;
}.

Lemma set_entry_fields w slot e :
  WeightEntry.st_mint (WeightEntry.set_weight w slot e) = WeightEntry.st_mint e
  /\ WeightEntry.weight (WeightEntry.set_weight w slot e) = w
  /\ WeightEntry.slot_updated (WeightEntry.set_weight w slot e) = slot
  /\ WeightEntry.slot_set (WeightEntry.set_weight w slot e)
     = (if WeightEntry.slot_set e =? 0 then slot else WeightEntry.slot_set e).
Proof. unfold WeightEntry.set_weight. cbn. by destruct (_ =? 0). Qed.

Lemma set_entry_is_set w slot e :
  WeightEntry.is_set (WeightEntry.set_weight w slot e)
  = WeightEntry.is_set e || (WeightEntry.slot_set e =? 0) && (0 <? slot).
Proof.
  unfold WeightEntry.is_set. destruct (set_entry_fields w slot e) as (_ & _ & _ & ->).
  by destruct (WeightEntry.slot_set e =? 0) eqn:E;
    destruct (0 <? WeightEntry.slot_set e) eqn:E', (0 <? slot); cbn; try lia.
Qed.

Lemma finalized_spec self :
  wf self ->
  finalized self = true <->
  vault_count self = vault_entry_count self
  /\ 0 < mint_count self
  /\ forall i e, table self !! i = Some e -> WeightEntry.is_empty e = false ->
       WeightEntry.is_set e = true.
Proof.
  intros Hwf. unfold finalized, vault_registry_initialized, table_initialized.
  rewrite !andb_true_iff, !Z.eqb_eq, Z.ltb_lt.
  unfold mint_count at 2, weight_count. rewrite count_if_eq_iff.
  - split; [intros [[? ?] Hall]|intros (? & ? & Hall)]; split_and!; try done; intros i e Hi He.
    + apply (Hall i); [done|by rewrite He].
    + apply (Hall i); [done|by destruct (WeightEntry.is_empty e)].
  - intros i e Hi He. destruct (WeightEntry.is_empty e) eqn:E; [|done].
    by rewrite (wf_empty_unset _ Hwf _ _ Hi E) in He.
Qed.

Lemma find_mint_spec self i e :
  wf self -> table self !! i = Some e -> WeightEntry.is_empty e = false ->
  find_mint (WeightEntry.st_mint e) self = Some (i, e).
Proof.
  intros Hwf Hi He. apply distinct_keys_find; [apply Hwf|done|].
  unfold WeightEntry.is_empty, StMintEntry.is_empty, WeightEntry.st_mint, Pubkey_default in *. lia.
Qed.

(** The run of a successful [set_weight]. *)
Lemma set_weight_run self mint w slot i e :
  find_mint mint self = Some (i, e) ->
  set_weight mint w slot self
  = (Ok tt, self <| table := <[i := WeightEntry.set_weight w slot e]> (table self) |>).
Proof. intros H. unfold set_weight; munfold. by rewrite H. Qed.

Lemma set_weight_wf self mint w slot r self' :
  wf self -> mint <> Pubkey_default -> set_weight mint w slot self = (r, self') -> wf self'.
Proof.
  intros Hwf Hm. destruct (find_mint mint self) as [[i e]|] eqn:Hf.
  - rewrite (set_weight_run _ _ _ _ _ _ Hf). intros [= _ <-].
    pose proof (find_index_lookup _ _ _ _ Hf) as Hi. pose proof (find_index_true _ _ _ _ Hf) as He.
    destruct (set_entry_fields w slot e) as (Hk & _). cbn in He.
    split; cbn; try apply Hwf.
    + by rewrite length_insert, (wf_table_len _ Hwf).
    + apply distinct_keys_insert; [apply Hwf|]. rewrite Hk. intros j y Hj Hy Hn.
      apply (wf_mints_distinct _ Hwf j i y e); [done..|congruence].
    + intros j x. rewrite list_lookup_insert. case_decide; [|by apply (wf_empty_unset _ Hwf)].
      intros [= <-]. unfold WeightEntry.is_empty, StMintEntry.is_empty.
      change (WeightEntry.st_mint (WeightEntry.set_weight w slot e) =? Pubkey_default = true ->
              WeightEntry.is_set (WeightEntry.set_weight w slot e) = false).
      rewrite Hk. lia.
  - unfold set_weight; munfold. rewrite Hf. by intros [= _ <-].
Qed.

(** Setting the weight of a mint, on every branch: an unknown mint is
    refused with nothing written; otherwise that mint reads back the new
    weight and the slot, the slot of the first setting is kept, every other
    mint is unchanged, no mint appears or disappears, and a weight that was
    set stays set. *)
Theorem set_weight_spec self mint w slot :
  wf self -> mint <> Pubkey_default -> 0 <= slot ->
  match set_weight mint w slot self with
  | (Ok tt, self') =>
      wf self' /\ get_weight mint self' = Ok w
      /\ (exists e e', get_weight_entry mint self = Ok e /\ get_weight_entry mint self' = Ok e'
           /\ WeightEntry.slot_updated e' = slot
           /\ WeightEntry.slot_set e' =
              (if WeightEntry.slot_set e =? 0 then slot else WeightEntry.slot_set e))
      /\ (forall m, m <> mint -> get_weight m self' = get_weight m self)
      /\ mint_count self' = mint_count self
      /\ weight_count self <= weight_count self' <= weight_count self + 1
      /\ vault_registry self' = vault_registry self
  | (Err e, self') =>
      self' = self /\ e = InvalidMintForWeightTable
      /\ get_weight mint self = Err InvalidMintForWeightTable
  | (Panic, _) => False
  end.
Proof.
  intros Hwf Hm Hs. destruct (set_weight mint w slot self) as [r self'] eqn:Hrun.
  pose proof (set_weight_wf _ _ _ _ _ _ Hwf Hm Hrun) as Hwf'.
  destruct (find_mint mint self) as [[i e]|] eqn:Hf.
  2: { revert Hrun. unfold set_weight, get_weight; munfold. rewrite Hf. by intros [= <- <-]. }
  pose proof (find_index_lookup _ _ _ _ Hf) as Hi. pose proof (find_index_true _ _ _ _ Hf) as He.
  destruct (set_entry_fields w slot e) as (Hk & Hw & Hu & Hss). cbn in He.
  rewrite (set_weight_run _ _ _ _ _ _ Hf) in Hrun. injection Hrun as <- <-.
  set (e' := WeightEntry.set_weight w slot e) in *.
  assert (find_mint mint (self <| table := <[i := e']> (table self) |>) = Some (i, e')) as Hf'
    by (eapply find_index_insert_hit; [done|lia]).
  cbv beta delta [over] in Hf'.
  split_and!; [done|..].
  - unfold get_weight. rewrite Hf'. by f_equal.
  - exists e, e'. unfold get_weight_entry. rewrite Hf, Hf'. done.
  - intros m Hne. unfold get_weight, find_mint. cbn.
    erewrite find_index_insert_miss; [done|done|lia|lia].
  - unfold mint_count. cbn. erewrite count_if_insert by done.
    unfold WeightEntry.is_empty, StMintEntry.is_empty.
    fold (WeightEntry.st_mint e) (WeightEntry.st_mint e'). rewrite Hk. lia.
  - unfold weight_count. cbn. erewrite count_if_insert by done.
    unfold e'. rewrite set_entry_is_set. destruct (WeightEntry.is_set e); cbn; [lia|].
    destruct (_ && _); cbn; lia.
  - unfold weight_count. cbn. erewrite count_if_insert by done.
    unfold e'. rewrite set_entry_is_set. destruct (WeightEntry.is_set e); cbn; [lia|].
    destruct (_ && _); cbn; lia.
  - done.
Qed.

Definition count_vaults (l : list VaultEntry.t) : Z :=
  count_if (fun e => negb (VaultEntry.is_empty e)) l.
Definition count_mints (l : list StMintEntry.t) : Z :=
  count_if (fun m => negb (StMintEntry.is_empty m)) l.

Lemma mint_count_new l :
  count_if (fun e => negb (WeightEntry.is_empty e)) (map WeightEntry.new l) = count_mints l.
Proof. unfold count_if at 1. by rewrite count_if_map. Qed.

Lemma weight_count_new l : count_if WeightEntry.is_set (map WeightEntry.new l) = 0.
Proof.
  unfold count_if. rewrite count_if_map. apply count_if_zero, any_false. done.
Qed.

(** The state a successful initialization leaves. *)
Definition initialized (n : Pubkey) (ep slot vaults : u64) (b : u8)
    (vs : list VaultEntry.t) (ms : list StMintEntry.t) : t :=
  mk n ep slot vaults b vs (map WeightEntry.new ms).

Lemma initialized_wf n ep slot vaults b vs ms :
  List.length vs = 64%nat -> List.length ms = 64%nat ->
  distinct_keys StMintEntry.st_mint ms -> wf (initialized n ep slot vaults b vs ms).
Proof.
  intros Hvs Hms Hd. split; cbn; [done|by rewrite length_map| |].
  - intros i j x y. rewrite !list_lookup_fmap.
    destruct (ms !! i) eqn:Hi, (ms !! j) eqn:Hj; cbn; intros; simplify_eq. by eapply Hd.
  - intros i e. rewrite list_lookup_fmap. destruct (ms !! i); cbn; intros; by simplify_eq.
Qed.

Lemma set_vault_entries_eq vs self :
  List.length vs = List.length (vault_registry self) ->
  set_vault_entries vs self =
  if vault_registry_initialized self then (Err WeightTableAlreadyInitialized, self)
  else (check_registry_initialized (self <| vault_registry := vs |>),
        self <| vault_registry := vs |>).
Proof.
  intros Hlen. unfold set_vault_entries. autorewrite with run.
  destruct (vault_registry_initialized self); [done|]. autorewrite with run.
  by rewrite (write_all id), map_id by done.
Qed.

Lemma set_mint_entries_eq ms self :
  List.length ms = List.length (table self) ->
  set_mint_entries ms self =
  if table_initialized self then (Err WeightTableAlreadyInitialized, self)
  else (check_table_initialized (self <| table := map WeightEntry.new ms |>),
        self <| table := map WeightEntry.new ms |>).
Proof.
  intros Hlen. unfold set_mint_entries. autorewrite with run.
  destruct (table_initialized self); [done|]. autorewrite with run.
  by rewrite (write_all WeightEntry.new) by done.
Qed.

(** Initializing the table of an epoch from the vault registry, on every
    branch. It succeeds exactly when the vault count given is positive and is
    the number of vaults in the list, and there is at least one mint; then the
    table is the snapshot of the lists, with every weight at zero and unset,
    and it is not final yet. An epoch with no registered vault is refused as
    "already initialized". *)
Theorem initialize_spec self n ep slot vaults b vs ms :
  List.length vs = 64%nat -> List.length ms = 64%nat -> distinct_keys StMintEntry.st_mint ms ->
  match initialize n ep slot vaults b vs ms self with
  | (Ok tt, self') =>
      vaults = count_vaults vs /\ vaults <> 0 /\ 0 < count_mints ms
      /\ self' = initialized n ep slot vaults b vs ms
      /\ wf self' /\ finalized self' = false
      /\ mint_count self' = count_mints ms /\ weight_count self' = 0
  | (Err e, _) =>
      e = WeightTableAlreadyInitialized /\ vaults = 0
      \/ e = RegistryNotInitialized /\ vaults <> 0 /\ vaults <> count_vaults vs
      \/ e = TableNotInitialized /\ vaults = count_vaults vs /\ count_mints ms = 0
  | (Panic, _) => False
  end.
Proof.
  intros Hvs Hms Hd. unfold initialize. rewrite run_modify.
  set (s0 := _ : t).
  unfold mbind at 1. rewrite set_vault_entries_eq by done.
  assert (vault_registry_initialized s0 = (vaults =? 0)) as ->.
  { unfold vault_registry_initialized, vault_entry_count. subst s0.
    cbn [vault_count vault_registry over]. by rewrite count_if_replicate. }
  destruct (vaults =? 0) eqn:H0; [left; split; [done|lia]|].
  set (s1 := _ : t). unfold check_registry_initialized.
  change (vault_registry_initialized s1) with (vaults =? count_vaults vs).
  destruct (vaults =? count_vaults vs) eqn:Hv; cbn [negb].
  2: { right; left. split_and!; [done|lia|lia]. }
  unfold mbind at 1. rewrite set_mint_entries_eq by done.
  assert (table_initialized s1 = false) as ->.
  { unfold table_initialized, mint_count. subst s1 s0. cbn [table over].
    by rewrite count_if_replicate. }
  change (s1 <| table := map WeightEntry.new ms |>) with (initialized n ep slot vaults b vs ms).
  assert (mint_count (initialized n ep slot vaults b vs ms) = count_mints ms) as Hmc
    by apply mint_count_new.
  assert (weight_count (initialized n ep slot vaults b vs ms) = 0) as Hwc
    by apply weight_count_new.
  assert (0 <= count_mints ms) as Hpos by apply count_if_nonneg.
  unfold check_table_initialized, table_initialized. rewrite Hmc.
  destruct (0 <? count_mints ms) eqn:Hm; cbn [negb].
  - split_and!; [lia..|done|by apply initialized_wf| |done|done].
    unfold finalized. rewrite Hmc, Hwc.
    destruct (count_mints ms =? 0) eqn:E; [lia|]. apply andb_false_r.
  - right; right. split_and!; [done|lia|lia].
Qed.

(** Concrete tables: two mints, one vault. *)
Definition example_mints : list StMintEntry.t :=
  [StMintEntry.new 11 100; StMintEntry.new 12 100] ++ replicate 62 StMintEntry.default.
Definition example_vaults : list VaultEntry.t :=
  VaultEntry.new 21 11 0 50 :: replicate 63 VaultEntry.default.
Definition example_table : t := initialized 7 3 60 1 255 example_vaults example_mints.

Lemma example_mints_distinct : distinct_keys StMintEntry.st_mint example_mints.
Proof.
  intros i j x y. unfold example_mints.
  destruct i as [|[|i]], j as [|[|j]]; cbn -[replicate]; intros Hx Hy; simplify_eq; try done;
    try (apply lookup_replicate in Hx as [-> _]); try (apply lookup_replicate in Hy as [-> _]); done.
Qed.

Lemma example_table_wf : wf example_table.
Proof. apply initialized_wf; [done..|apply example_mints_distinct]. Qed.

Lemma initialize_spec_witness :
  fst (initialize 7 3 60 1 255 example_vaults example_mints (new 0 0 0 0 0)) = Ok tt
  /\ snd (initialize 7 3 60 1 255 example_vaults example_mints (new 0 0 0 0 0)) = example_table.
Proof.
  split; [vm_compute; reflexivity|].
  exact (proj1 (proj2 (proj2 (proj2 (initialize_spec (new 0 0 0 0 0) 7 3 60 1 255
           example_vaults example_mints eq_refl eq_refl example_mints_distinct))))).
Defined.

Lemma set_weight_spec_witness :
  get_weight 12 (snd (set_weight 12 5 70 example_table)) = Ok 5.
Proof.
  exact (proj1 (proj2 (set_weight_spec example_table 12 5 70 example_table_wf
           ltac:(discriminate) ltac:(discriminate)))).
Defined.

(** The key of an empty slot is not excluded by [set_weight]. Setting a
    weight for the default key writes the first empty slot, which counts as a
    set weight: the table then reports itself final although a supported mint
    has no weight. *)
Theorem finalized_with_unset_mint :
  let '(r1, s1) := set_weight 11 100 70 example_table in
  let '(r2, s2) := set_weight Pubkey_default 1 71 s1 in
  r1 = Ok tt /\ finalized s1 = false /\ r2 = Ok tt /\ finalized s2 = true
  /\ get_weight 12 s2 = Ok 0
  /\ (forall e, get_weight_entry 12 s2 = Ok e -> WeightEntry.is_set e = false).
Proof. vm_compute. split_and!; try reflexivity. intros e [= <-]. reflexivity. Qed.

(** A table is final exactly when the snapshot of the vaults is complete,
    there is a mint and every mint has had its weight set, for every table
    whose empty slots are unset. *)
Theorem finalized_iff self :
  wf self ->
  finalized self = true <->
  (vault_count self = vault_entry_count self
   /\ (exists m, m ∈ get_mints self)
   /\ forall m, m ∈ get_mints self ->
        exists e, get_weight_entry m self = Ok e /\ WeightEntry.is_set e = true).
Proof.
  intros Hwf. rewrite finalized_spec by done.
  assert (Hin : forall m, m ∈ get_mints self <->
    exists i e, table self !! i = Some e /\ WeightEntry.is_empty e = false
                /\ WeightEntry.st_mint e = m).
  { intros m. unfold get_mints. rewrite list_elem_of_fmap. split.
    - intros (e & -> & He). apply list_elem_of_In, filter_In in He as [He Hne].
      apply list_elem_of_In, list_elem_of_lookup in He as [i Hi].
      exists i, e. split_and!; [done| |done]. by destruct (WeightEntry.is_empty e).
    - intros (i & e & Hi & He & <-). exists e. split; [done|].
      apply list_elem_of_In, filter_In. split; [|by rewrite He].
      apply list_elem_of_In, list_elem_of_lookup. by exists i. }
  split.
  - intros (Hv & Hm & Hall). split_and!; [done|..].
    + destruct (any (fun e => negb (WeightEntry.is_empty e)) (table self)) eqn:Ha.
      * apply any_true in Ha as (i & e & Hi & He). exists (WeightEntry.st_mint e).
        apply Hin. exists i, e. split_and!; [done| |done]. by destruct (WeightEntry.is_empty e).
      * apply count_if_zero in Ha. unfold mint_count in Hm. lia.
    + intros m (i & e & Hi & He & <-)%Hin. exists e. split; [|by eapply Hall].
      unfold get_weight_entry. by rewrite (find_mint_spec _ _ _ Hwf Hi He).
  - intros (Hv & (m & Hm) & Hall). split_and!; [done|..].
    + apply Hin in Hm as (i & e & Hi & He & <-). unfold mint_count.
      pose proof (count_if_nonneg (fun e => negb (WeightEntry.is_empty e)) (table self)).
      destruct (decide (count_if (fun e => negb (WeightEntry.is_empty e)) (table self) = 0))
        as [Hz|]; [|lia].
      apply count_if_zero in Hz. eapply any_false in Hz; [|done]. cbn in Hz. by rewrite He in Hz.
    + intros i e Hi He. destruct (Hall (WeightEntry.st_mint e)) as (e' & He' & Hs).
      { apply Hin. by exists i, e. }
      unfold get_weight_entry in He'. rewrite (find_mint_spec _ _ _ Hwf Hi He) in He'.
      by injection He' as ->.
Qed.

Definition example_final : t :=
  snd (set_weight 12 5 71 (snd (set_weight 11 100 70 example_table))).

Lemma example_final_wf : wf example_final.
Proof.
  unfold example_final.
  eapply (set_weight_wf _ 12 5 71); [|discriminate|apply surjective_pairing].
  eapply (set_weight_wf _ 11 100 70); [apply example_table_wf|discriminate|apply surjective_pairing].
Qed.

Lemma finalized_iff_witness :
  finalized example_final = true
  /\ (forall m, m ∈ get_mints example_final ->
        exists e, get_weight_entry m example_final = Ok e /\ WeightEntry.is_set e = true).
Proof.
  assert (finalized example_final = true) as H by (vm_compute; reflexivity).
  split; [exact H|].
  exact (proj2 (proj2 (proj1 (finalized_iff example_final example_final_wf) H))).
Defined.
End WeightTable.
