(* ===== verification/Fees.v ===== *)
(** Fees with epoch-delayed updates ([core/src/fees.rs]). Two fee records
    alternate: one is active, the other is prepared for the next epoch. *)
From S2P Require Import Prelude Errors Precise.

Module Fee.
Record t := mk { fee : u16 }.
Definition default : t := mk 0.
Definition new (fee : u16) : t := mk fee.
End Fee.

Module Fees.
Import NCNProgramError.

Record t := mk {
  activation_epoch : u64;
  protocol_fee_bps' : Fee.t;
  ncn_fee_bps' : Fee.t;
}.
#[global] Instance eta_t : Eta t :=
  fun f => mk (activation_epoch f) (protocol_fee_bps' f) (ncn_fee_bps' f).

Definition PROTOCOL_FEE_BPS : u16 := 400.

Definition set_ncn_fee_bps (value : u16) : M t NCNProgramError.t unit :=
  if MAX_FEE_BPS <? value then throw FeeCapExceeded
  else modify (put ncn_fee_bps' (Fee.new value)).

Definition new (default_ncn_fee_bps : u16) (epoch : u64) : result NCNProgramError.t t :=
  let fees := mk epoch Fee.default Fee.default in
  let fees := fees <| protocol_fee_bps' := Fee.new PROTOCOL_FEE_BPS |> in
  let '(r, fees) := set_ncn_fee_bps default_ncn_fee_bps fees in
  let? _ := r in Ok fees.

Definition protocol_fee_bps (self : t) : result NCNProgramError.t u16 :=
  Ok (Fee.fee (protocol_fee_bps' self)).
Definition ncn_fee_bps (self : t) : result NCNProgramError.t u16 :=
  Ok (Fee.fee (ncn_fee_bps' self)).

Definition precise_protocol_fee_bps `{PreciseNumber} (self : t) : result NCNProgramError.t PN :=
  let? fee := protocol_fee_bps self in
  ok_or (pn_new fee) NewPreciseNumberError.
Definition precise_ncn_fee_bps `{PreciseNumber} (self : t) : result NCNProgramError.t PN :=
  let? fee := ncn_fee_bps self in
  ok_or (pn_new fee) NewPreciseNumberError.

Definition total_fees_bps (self : t) : result NCNProgramError.t u64 :=
  let total_fee_bps := 0 in
  let? protocol_fee_bps := protocol_fee_bps self in
  let? total_fee_bps :=
    ok_or (checked_add u64_MAX total_fee_bps protocol_fee_bps) ArithmeticOverflow in
  let? ncn_fee_bps := ncn_fee_bps self in
  ok_or (checked_add u64_MAX total_fee_bps ncn_fee_bps) ArithmeticOverflow.

Definition precise_total_fee_bps `{PreciseNumber} (self : t) : result NCNProgramError.t PN :=
  let? total_fee_bps := total_fees_bps self in
  ok_or (pn_new total_fee_bps) NewPreciseNumberError.

Definition set_activation_epoch (value : u64) (self : t) : t :=
  self <| activation_epoch := value |>.

(** The sum of both fees, and fee records whose fees are [u16]s. *)
Definition total (self : t) : Z := Fee.fee (protocol_fee_bps' self) + Fee.fee (ncn_fee_bps' self).
Definition wf (self : t) : Prop :=
  in_range u16_MAX (Fee.fee (protocol_fee_bps' self))
  /\ in_range u16_MAX (Fee.fee (ncn_fee_bps' self)).

Lemma total_fees_bps_ok self : wf self -> total_fees_bps self = Ok (total self).
Proof.
  unfold wf, in_range, u16_MAX, total_fees_bps, total, checked_add, u64_MAX. intros [? ?]. cbn.
  destruct (_ <=? _) eqn:E; [cbn|lia]. destruct (_ <=? _) eqn:E' in |- *; cbn; [f_equal; lia|lia].
Qed.
End Fees.

Module FeeConfig.
Import NCNProgramError.

Record t := mk {
  protocol_fee_wallet : Pubkey;
  ncn_fee_wallet : Pubkey;
  fee_1 : Fees.t;
  fee_2 : Fees.t;
}.
#[global] Instance eta_t : Eta t :=
  fun c => mk (protocol_fee_wallet c) (ncn_fee_wallet c) (fee_1 c) (fee_2 c).

(** Base 58: [5eosrve6LktMZgVNszYzebgmmC7BjLK8NoWyRQtcmGTF]. *)
Definition PROTOCOL_FEE_WALLET : Pubkey := 0x451e3dd50d3b7b8536045c2b7ac2ec259473ebc25ae3bcbe1fbeb17d52fbc7be.

Definition current_fees (current_epoch : u64) (self : t) : Fees.t :=
  if current_epoch <? Fees.activation_epoch (fee_1 self) then fee_2 self
  else if current_epoch <? Fees.activation_epoch (fee_2 self) then fee_1 self
  else if Fees.activation_epoch (fee_2 self) <=? Fees.activation_epoch (fee_1 self)
  then fee_1 self
  else fee_2 self.

(** [updatable_fees] returns a mutable reference to one of the two fields;
    [slot] is the field, [on_slot] a method called through the reference. *)
Inductive slot := Fee1 | Fee2.
Definition read_slot (s : slot) (self : t) : Fees.t :=
  match s with Fee1 => fee_1 self | Fee2 => fee_2 self end.
Definition write_slot (s : slot) (f : Fees.t) (self : t) : t :=
  match s with Fee1 => self <| fee_1 := f |> | Fee2 => self <| fee_2 := f |> end.
Definition on_slot {E A} (s : slot) (m : M Fees.t E A) : M t E A :=
  zoom (read_slot s) (write_slot s) m.

Definition updatable_fees (current_epoch : u64) (self : t) : slot :=
  if current_epoch <? Fees.activation_epoch (fee_1 self) then Fee1
  else if current_epoch <? Fees.activation_epoch (fee_2 self) then Fee2
  else if Fees.activation_epoch (fee_1 self) <=? Fees.activation_epoch (fee_2 self)
  then Fee1
  else Fee2.

Definition update_updatable_epoch (current_epoch : u64) : M t NCNProgramError.t unit :=
  let* next_epoch := lift (ok_or (checked_add u64_MAX current_epoch 1) ArithmeticOverflow) in
  let* self := get_self in
  on_slot (updatable_fees current_epoch self) (modify (Fees.set_activation_epoch next_epoch)).

Definition total_fees_bps (current_epoch : u64) (self : t) : result NCNProgramError.t u64 :=
  Fees.total_fees_bps (current_fees current_epoch self).
Definition precise_total_fee_bps `{PreciseNumber} (current_epoch : u64) (self : t)
    : result NCNProgramError.t PN :=
  Fees.precise_total_fee_bps (current_fees current_epoch self).
Definition protocol_fee_bps (current_epoch : u64) (self : t) : result NCNProgramError.t u16 :=
  Fees.protocol_fee_bps (current_fees current_epoch self).
Definition precise_protocol_fee_bps `{PreciseNumber} (current_epoch : u64) (self : t)
    : result NCNProgramError.t PN :=
  Fees.precise_protocol_fee_bps (current_fees current_epoch self).
Definition ncn_fee_bps (current_epoch : u64) (self : t) : result NCNProgramError.t u16 :=
  Fees.ncn_fee_bps (current_fees current_epoch self).
Definition precise_ncn_fee_bps `{PreciseNumber} (current_epoch : u64) (self : t)
    : result NCNProgramError.t PN :=
  Fees.precise_ncn_fee_bps (current_fees current_epoch self).

Definition set_ncn_fee_bps (value : u16) (current_epoch : u64) : M t NCNProgramError.t unit :=
  let* self := get_self in
  on_slot (updatable_fees current_epoch self) (Fees.set_ncn_fee_bps value).

Definition set_ncn_fee_wallet (wallet : Pubkey) (self : t) : t :=
  self <| ncn_fee_wallet := wallet |>.
Definition set_protocol_fee_wallet (wallet : Pubkey) (self : t) : t :=
  self <| protocol_fee_wallet := wallet |>.

Definition set_fees_to_current (current_epoch : u64) : M t NCNProgramError.t unit :=
  let* self := get_self in
  if (current_epoch <? Fees.activation_epoch (fee_1 self))
     || (current_epoch <? Fees.activation_epoch (fee_2 self))
  then throw FeeNotActive
  else
    let cloned_current_fees := current_fees current_epoch self in
    on_slot (updatable_fees current_epoch self) (modify (fun _ => cloned_current_fees)).

Definition check_fees_okay `{PreciseNumber} (current_epoch : u64) (self : t)
    : result NCNProgramError.t unit :=
  let? _ := precise_protocol_fee_bps current_epoch self in
  let? _ := precise_ncn_fee_bps current_epoch self in
  let? total_fees_bps := total_fees_bps current_epoch self in
  if MAX_FEE_BPS <? total_fees_bps then Err FeeCapExceeded
  else if total_fees_bps =? 0 then Err TotalFeesCannotBeZero
  else Ok tt.

Definition new `{PreciseNumber} (ncn_fee_wallet : Pubkey) (default_ncn_fee_bps : u16)
    (current_epoch : u64) : result NCNProgramError.t t :=
  if ncn_fee_wallet =? Pubkey_default then Err DefaultNcnWallet
  else if MAX_FEE_BPS <? default_ncn_fee_bps then Err FeeCapExceeded
  else
    let? fee := Fees.new default_ncn_fee_bps current_epoch in
    let fee_config := mk PROTOCOL_FEE_WALLET ncn_fee_wallet fee fee in
    let? _ := check_fees_okay current_epoch fee_config in
    Ok fee_config.

Definition update_fee_config `{PreciseNumber} (new_ncn_fee_bps : option u16)
    (new_ncn_fee_wallet : option Pubkey) (current_epoch : u64) : M t NCNProgramError.t unit :=
  let* self := get_self in
  let* _ :=
    if Fees.activation_epoch (read_slot (updatable_fees current_epoch self) self) <=? current_epoch
    then set_fees_to_current current_epoch
    else ret tt in
  let* _ :=
    match new_ncn_fee_bps with
    | Some new_ncn_fee_bps => set_ncn_fee_bps new_ncn_fee_bps current_epoch
    | None => ret tt
    end in
  let* _ :=
    match new_ncn_fee_wallet with
    | Some new_ncn_fee_wallet => modify (set_ncn_fee_wallet new_ncn_fee_wallet)
    | None => ret tt
    end in
  let* _ := update_updatable_epoch current_epoch in
  let* self := get_self in
  let* _ := lift (check_fees_okay current_epoch self) in
  let* next := lift (ok_or (checked_add u64_MAX current_epoch 1) ArithmeticOverflow) in
  lift (check_fees_okay next self).

(** ** The two-slot protocol *)

Lemma check_fees_okay_eq `{P : PreciseNumber} {L : PreciseNumberLaws P} e self :
  Fees.wf (current_fees e self) ->
  check_fees_okay e self =
  if MAX_FEE_BPS <? Fees.total (current_fees e self) then Err FeeCapExceeded
  else if Fees.total (current_fees e self) =? 0 then Err TotalFeesCannotBeZero
  else Ok tt.
Proof.
  intros Hwf. unfold check_fees_okay, precise_protocol_fee_bps, precise_ncn_fee_bps,
    Fees.precise_protocol_fee_bps, Fees.precise_ncn_fee_bps, total_fees_bps.
  rewrite Fees.total_fees_bps_ok by done. cbn. destruct Hwf as [Hp Hn].
  unfold in_range, u16_MAX in *.
  destruct (pn_new_spec (Fee.fee (Fees.protocol_fee_bps' (current_fees e self))))
    as (x & -> & _); [unfold in_range, u128_MAX; lia|].
  destruct (pn_new_spec (Fee.fee (Fees.ncn_fee_bps' (current_fees e self))))
    as (y & -> & _); [unfold in_range, u128_MAX; lia|].
  done.
Qed.

(** A fee record that is acceptable: its fees are [u16]s and the total is
    positive and at most 100%. *)
Definition fees_ok (f : Fees.t) : Prop := Fees.wf f /\ 0 < Fees.total f <= MAX_FEE_BPS.

(** The configuration at epoch [cur]: at most one of the two records is
    scheduled, and only for the next epoch; records with the same activation
    epoch are the same; both are acceptable. *)
Record inv (cur : u64) (self : t) : Prop := {
  inv_1 : Fees.activation_epoch (fee_1 self) <= cur + 1;
  inv_2 : Fees.activation_epoch (fee_2 self) <= cur + 1;
  inv_one : Fees.activation_epoch (fee_1 self) <= cur
            \/ Fees.activation_epoch (fee_2 self) <= cur;
  inv_same : Fees.activation_epoch (fee_1 self) = Fees.activation_epoch (fee_2 self) ->
    fee_1 self = fee_2 self;
  inv_ok_1 : fees_ok (fee_1 self);
  inv_ok_2 : fees_ok (fee_2 self);
}.

Lemma inv_later cur cur' self : inv cur self -> cur <= cur' -> inv cur' self.
Proof. intros [] ?. split; (done || lia). Qed.

(** The fees of the next epoch after an update. *)
Definition scheduled (cur : u64) (ob : option u16) (self : t) : Fees.t :=
  let f := current_fees (cur + 1) self in
  Fees.mk (cur + 1) (Fees.protocol_fee_bps' f)
    (match ob with Some b => Fee.new b | None => Fees.ncn_fee_bps' f end).

(** The first steps of an update, up to the checks: a record that is already
    scheduled is rewritten, otherwise the active one moves to [fee_2] and the
    scheduled one is written to [fee_1]. *)
Definition apply_update (ob : option u16) (ow : option Pubkey) (cur : u64) (self : t) : t :=
  let w := default (ncn_fee_wallet self) ow in
  let sch := scheduled cur ob self in
  if cur <? Fees.activation_epoch (fee_1 self)
  then mk (protocol_fee_wallet self) w sch (fee_2 self)
  else if cur <? Fees.activation_epoch (fee_2 self)
  then mk (protocol_fee_wallet self) w (fee_1 self) sch
  else mk (protocol_fee_wallet self) w sch (current_fees cur self).

(** [split_acts]: case analysis on the comparisons of activation epochs. *)
Ltac split_acts :=
  repeat match goal with
  | |- _ => progress cbn -[check_fees_okay u64_MAX MAX_FEE_BPS]
  | |- context [?a <? ?b] =>
      lazymatch a with context [if _ then _ else _] => fail | _ => idtac end;
      lazymatch b with context [if _ then _ else _] => fail | _ => idtac end;
      destruct (a <? b) eqn:?; try lia
  | |- context [?a <=? ?b] =>
      lazymatch a with context [if _ then _ else _] => fail | _ => idtac end;
      lazymatch b with context [if _ then _ else _] => fail | _ => idtac end;
      destruct (a <=? b) eqn:?; try lia
  end.

Lemma current_fees_apply ob ow cur self :
  inv cur self ->
  let self' := apply_update ob ow cur self in
  current_fees cur self' = current_fees cur self
  /\ current_fees (cur + 1) self' = scheduled cur ob self.
Proof.
  intros [H1 H2 Ho Hs _ _]. unfold apply_update.
  assert (Fees.activation_epoch (scheduled cur ob self) = cur + 1) as Hact by done.
  revert Hact. generalize (scheduled cur ob self). intros sch Hact.
  destruct self as [pw nw f1 f2]. unfold current_fees. cbn in *.
  split_acts; split; try done; try (symmetry; apply Hs; lia); apply Hs; lia.
Qed.

Lemma current_fees_ok cur e self : inv cur self -> fees_ok (current_fees e self).
Proof. intros []. unfold current_fees. by repeat destruct (_ <? _); [..|destruct (_ <=? _)]. Qed.

Lemma apply_update_inv ob ow cur self :
  inv cur self -> fees_ok (scheduled cur ob self) -> inv cur (apply_update ob ow cur self).
Proof.
  intros Hinv Hk. pose proof (current_fees_ok cur cur self Hinv) as Hck.
  destruct Hinv as [H1 H2 Ho Hs Hk1 Hk2]. unfold apply_update.
  assert (Fees.activation_epoch (scheduled cur ob self) = cur + 1) as Hact by done.
  revert Hact Hk. generalize (scheduled cur ob self). intros sch Hact Hk.
  assert (Fees.activation_epoch (fee_1 self) <= cur -> Fees.activation_epoch (fee_2 self) <= cur ->
          Fees.activation_epoch (current_fees cur self) <= cur) as Hc.
  { unfold current_fees. intros. split_acts. }
  destruct (cur <? Fees.activation_epoch (fee_1 self)) eqn:E1;
    [|destruct (cur <? Fees.activation_epoch (fee_2 self)) eqn:E2]; split; cbn; (done || lia).
Qed.

(** The run of an update with a fee under the cap: the new state, then the
    checks on the fees of this epoch and of the next one. *)
Lemma update_run `{P : PreciseNumber} ob ow cur self :
  inv cur self -> 0 <= cur < u64_MAX -> default 0 ob <= MAX_FEE_BPS ->
  update_fee_config ob ow cur self =
  let self' := apply_update ob ow cur self in
  (let? _ := check_fees_okay cur self' in check_fees_okay (cur + 1) self', self').
Proof.
  intros [H1 H2 Ho Hs _ _] Hcur Hcap.
  unfold update_fee_config, set_fees_to_current, set_ncn_fee_bps, Fees.set_ncn_fee_bps,
    update_updatable_epoch, on_slot, apply_update, scheduled, checked_add.
  destruct self as [pw nw [a1 p1 n1] [a2 p2 n2]]. cbn in *.
  destruct ob as [b|]; [cbn in Hcap; destruct (MAX_FEE_BPS <? b) eqn:?; [lia|]|];
    destruct ow as [w|]; munfold; unfold current_fees, updatable_fees, read_slot;
    cbn -[check_fees_okay].
  all: split_acts; unfold Fees.set_activation_epoch; cbn -[check_fees_okay].
  all: try (assert (a1 = a2) as Ha by lia; injection (Hs Ha) as ? ? ?; subst).
  all: try (by destruct (check_fees_okay cur _)).
Qed.

(** A fee above the cap is refused before any check. *)
Lemma update_run_cap `{P : PreciseNumber} b ow cur self :
  inv cur self -> 0 <= cur < u64_MAX -> MAX_FEE_BPS < b ->
  fst (update_fee_config (Some b) ow cur self) = Err FeeCapExceeded.
Proof.
  intros [H1 H2 Ho Hs _ _] Hcur Hcap.
  unfold update_fee_config, set_fees_to_current, set_ncn_fee_bps, Fees.set_ncn_fee_bps, on_slot.
  destruct self as [pw nw [a1 p1 n1] [a2 p2 n2]]. cbn in *.
  destruct (MAX_FEE_BPS <? b) eqn:?; [|lia].
  munfold; unfold current_fees, updatable_fees, read_slot; cbn. split_acts; done.
Qed.

Lemma scheduled_total cur ob self :
  Fees.total (scheduled cur ob self) =
  Fee.fee (Fees.protocol_fee_bps' (current_fees (cur + 1) self))
  + default (Fee.fee (Fees.ncn_fee_bps' (current_fees (cur + 1) self))) ob.
Proof. by destruct ob. Qed.

(** C38: updating the fees, on every branch. A successful update leaves the
    fees of the running epoch exactly as they are, schedules for the next
    epoch the fees that would have applied then with the new NCN fee in
    place, keeps the protocol's fee and wallet, sets the NCN wallet, and keeps
    the two records in order. It is refused exactly when the scheduled total
    exceeds 100% or is zero, and it never panics. *)
Theorem update_fee_config_spec `{P : PreciseNumber} {L : PreciseNumberLaws P} ob ow cur self :
  inv cur self -> 0 <= cur < u64_MAX -> (forall b, ob = Some b -> in_range u16_MAX b) ->
  let next := current_fees (cur + 1) self in
  let total' := Fee.fee (Fees.protocol_fee_bps' next) + default (Fee.fee (Fees.ncn_fee_bps' next)) ob in
  match update_fee_config ob ow cur self with
  | (Ok tt, self') =>
      0 < total' <= MAX_FEE_BPS
      /\ inv cur self'
      /\ current_fees cur self' = current_fees cur self
      /\ current_fees (cur + 1) self' =
           next <| Fees.activation_epoch := cur + 1 |>
                <| Fees.ncn_fee_bps' := default (Fees.ncn_fee_bps' next) (Fee.new <$> ob) |>
      /\ protocol_fee_wallet self' = protocol_fee_wallet self
      /\ ncn_fee_wallet self' = default (ncn_fee_wallet self) ow
  | (Err FeeCapExceeded, _) => MAX_FEE_BPS < total'
  | (Err TotalFeesCannotBeZero, _) => total' = 0
  | _ => False
  end.
Proof.
  intros Hinv Hcur Hu16 next total'.
  assert (total' = Fees.total (scheduled cur ob self)) as Ht by by rewrite scheduled_total.
  destruct (current_fees_ok cur (cur + 1) self Hinv) as [[Hp Hn] _].
  assert (Fees.wf (scheduled cur ob self)) as Hwf.
  { split; [exact Hp|]. destruct ob as [b|]; [exact (Hu16 b eq_refl)|exact Hn]. }
  destruct (decide (default 0 ob <= MAX_FEE_BPS)) as [Hcap|Hcap].
  2: { destruct ob as [b|]; [cbn in Hcap; assert (MAX_FEE_BPS < b) as Hb by lia|by destruct Hcap].
       pose proof (update_run_cap b ow cur self Hinv Hcur Hb) as Hrun.
       destruct (update_fee_config _ _ _ _) as [r s']. cbn in Hrun. subst r.
       subst total'. cbn. unfold in_range in Hp. fold next in Hp. lia. }
  rewrite update_run by done.
  destruct (current_fees_apply ob ow cur self Hinv) as [Hc Hc'].
  destruct (current_fees_ok cur cur self Hinv) as [Hcwf Hctot].
  cbn zeta. rewrite !check_fees_okay_eq by (rewrite ?Hc, ?Hc'; done). rewrite Hc, Hc', <-Ht.
  destruct (MAX_FEE_BPS <? Fees.total (current_fees cur self)) eqn:?; [lia|].
  destruct (Fees.total (current_fees cur self) =? 0) eqn:?; [lia|]. cbn -[next total'].
  destruct (MAX_FEE_BPS <? total') eqn:?; [lia|]. destruct (total' =? 0) eqn:?; [lia|].
  assert (0 < total' <= MAX_FEE_BPS) as Hpos.
  { destruct Hwf as [? ?]. unfold in_range, Fees.total in *. lia. }
  split_and!; [lia|lia|..].
  - apply apply_update_inv; [done|]. split; [done|]. by rewrite <-Ht.
  - done.
  - unfold scheduled. fold next. by destruct ob.
  - unfold apply_update. by repeat destruct (_ <? _).
  - unfold apply_update. by repeat destruct (_ <? _).
Qed.

(** The initial configuration is in order in its own and every later epoch. *)
Definition initial (w : Pubkey) (bps : u16) (e : u64) : t :=
  let f := Fees.mk e (Fee.new Fees.PROTOCOL_FEE_BPS) (Fee.new bps) in
  mk PROTOCOL_FEE_WALLET w f f.

Lemma initial_inv w bps e : 0 <= bps -> bps + Fees.PROTOCOL_FEE_BPS <= MAX_FEE_BPS -> inv e (initial w bps e).
Proof.
  unfold Fees.PROTOCOL_FEE_BPS, MAX_FEE_BPS. intros.
  split; cbn; try lia; try done; unfold fees_ok, Fees.wf, Fees.total, in_range, u16_MAX, MAX_FEE_BPS;
    cbn; unfold Fees.PROTOCOL_FEE_BPS; lia.
Qed.

(** Creating the fee configuration succeeds exactly for a real wallet
    and an NCN fee that fits, next to the protocol's 400 basis points, under
    the cap; both fee records are then the same, the protocol wallet is the
    program's, and the result is in order from that epoch on. *)
Theorem fee_config_new_spec `{P : PreciseNumber} {L : PreciseNumberLaws P} w bps e :
  in_range u16_MAX bps ->
  match new w bps e with
  | Ok c => w <> Pubkey_default /\ bps + 400 <= MAX_FEE_BPS /\ c = initial w bps e /\ inv e c
  | Err DefaultNcnWallet => w = Pubkey_default
  | Err FeeCapExceeded => w <> Pubkey_default /\ MAX_FEE_BPS < bps + 400
  | _ => False
  end.
Proof.
  intros Hbps. unfold new. destruct (w =? Pubkey_default) eqn:Hw; [lia|].
  destruct (MAX_FEE_BPS <? bps) eqn:Hcap; [split; lia|].
  unfold Fees.new, Fees.set_ncn_fee_bps. rewrite Hcap. cbn -[check_fees_okay initial].
  change (mk _ _ _ _) with (initial w bps e).
  assert (current_fees e (initial w bps e) = fee_1 (initial w bps e)) as Hc.
  { unfold current_fees, initial. cbn. by rewrite Z.ltb_irrefl, Z.leb_refl. }
  assert (Fees.total (fee_1 (initial w bps e)) = 400 + bps) as Ht by done.
  rewrite check_fees_okay_eq, Hc, Ht by (rewrite Hc; split; [split; discriminate|exact Hbps]).
  unfold in_range in Hbps.
  destruct (MAX_FEE_BPS <? 400 + bps) eqn:?; cbn -[initial]; [split; lia|].
  destruct (400 + bps =? 0) eqn:?; cbn -[initial]; [lia|].
  split_and!; [lia|lia|done|]. apply initial_inv; unfold Fees.PROTOCOL_FEE_BPS; lia.
Qed.

Lemma update_fee_config_spec_witness :
  inv 10 (initial 5 100 10)
  /\ current_fees 11 (snd (@update_fee_config fixed_point (Some 250) None 10 (initial 5 100 10)))
     = Fees.mk 11 (Fee.new 400) (Fee.new 250).
Proof.
  assert (inv 10 (initial 5 100 10)) as Hinv by (apply initial_inv; discriminate).
  split; [exact Hinv|].
  assert (forall b, Some 250 = Some b -> in_range u16_MAX b) as Hr
    by (intros b [= <-]; split; discriminate).
  assert (0 <= 10 < u64_MAX) as Hc by (split; [discriminate|reflexivity]).
  exact (proj1 (proj2 (proj2 (proj2
    (update_fee_config_spec (L := fixed_point_laws) (Some 250) None 10 (initial 5 100 10) Hinv Hc Hr))))).
Defined.

Lemma fee_config_new_spec_witness :
  in_range u16_MAX 9600 /\ @new fixed_point 5 9600 10 = Ok (initial 5 9600 10) /\ inv 10 (initial 5 9600 10).
Proof.
  assert (in_range u16_MAX 9600) as Hr by (split; discriminate).
  split_and!; [exact Hr|reflexivity|].
  exact (proj2 (proj2 (proj2 (fee_config_new_spec (L := fixed_point_laws) 5 9600 10 Hr)))).
Defined.
End FeeConfig.
