(* ===== verification/Snapshots.v ===== *)
(** The stake snapshots of an epoch ([core/src/epoch_snapshot.rs]): one
    [OperatorSnapshot] per operator, filled vault by vault, and the
    [EpochSnapshot] that adds up the operators. Both are finalized once
    everything that was announced at their creation is registered. *)
From S2P Require Import Prelude Errors Precise Stake Registry Weights Fees.

Module VaultOperatorStakeWeight.
Record t := mk {
  vault : Pubkey;
  vault_index : u64;
  stake_weights : StakeWeights.t;
}.
#[global] Instance eta_t : Eta t := fun v => mk (vault v) (vault_index v) (stake_weights v).

Definition default : t := mk Pubkey_default u64_MAX StakeWeights.default.
Definition new (vault : Pubkey) (vault_index : u64) (stake_weight : StakeWeights.t) : t :=
  mk vault vault_index stake_weight.
Definition is_empty (v : t) : bool := vault_index v =? u64_MAX.

(** The weight in a slot. *)
Definition weight (v : t) : u128 := StakeWeights.stake_weight (stake_weights v).
Lemma weight_new v i w : weight (new v i w) = StakeWeights.stake_weight w.
Proof. done. Qed.
End VaultOperatorStakeWeight.

Module OperatorSnapshot.
Import NCNProgramError.

Record t := mk {
  operator : Pubkey;
  ncn : Pubkey;
  ncn_epoch : u64;
  bump : u8;
  slot_created : u64;
  slot_finalized : u64;
  is_active : bool;
  ncn_operator_index : u64;
  operator_index : u64;
  operator_fee_bps : u16;
  vault_operator_delegation_count : u64;
  vault_operator_delegations_registered : u64;
  valid_operator_vault_delegations : u64;
  stake_weights : StakeWeights.t;
  vault_operator_stake_weight : list VaultOperatorStakeWeight.t;
}.
#[global] Instance eta_t : Eta t := fun s =>
  mk (operator s) (ncn s) (ncn_epoch s) (bump s) (slot_created s) (slot_finalized s)
     (is_active s) (ncn_operator_index s) (operator_index s) (operator_fee_bps s)
     (vault_operator_delegation_count s) (vault_operator_delegations_registered s)
     (valid_operator_vault_delegations s) (stake_weights s) (vault_operator_stake_weight s).

Definition new (operator ncn : Pubkey) (ncn_epoch : u64) (bump : u8) (current_slot : u64)
    (is_active : bool) (ncn_operator_index operator_index : u64) (operator_fee_bps : u16)
    (vault_operator_delegation_count : u64) : result NCNProgramError.t t :=
  if MAX_VAULTS <? vault_operator_delegation_count then Err TooManyVaultOperatorDelegations
  else
    Ok (mk operator ncn ncn_epoch bump current_slot 0 is_active ncn_operator_index
           operator_index operator_fee_bps vault_operator_delegation_count 0 0
           StakeWeights.default
           (replicate (Z.to_nat MAX_VAULTS) VaultOperatorStakeWeight.default)).

Definition initialize (op n : Pubkey) (e : u64) (b : u8) (current_slot : u64) (active : bool)
    (ncn_op_index op_index : u64) (op_fee_bps : u16) (delegation_count : u64)
    : M t NCNProgramError.t unit :=
  if MAX_VAULTS <? delegation_count then throw TooManyVaultOperatorDelegations
  else
    let slot_finalized' := if negb active then current_slot else 0 in
    let op_fee_bps := if active then op_fee_bps else 0 in
    let delegation_count := if active then delegation_count else 0 in
    let* _ := modify (put operator op) in
    let* _ := modify (put ncn n) in
    let* _ := modify (put ncn_epoch e) in
    let* _ := modify (put bump b) in
    let* _ := modify (put slot_created current_slot) in
    let* _ := modify (put slot_finalized slot_finalized') in
    let* _ := modify (put is_active active) in
    let* _ := modify (put ncn_operator_index ncn_op_index) in
    let* _ := modify (put operator_index op_index) in
    let* _ := modify (put operator_fee_bps op_fee_bps) in
    let* _ := modify (put vault_operator_delegation_count delegation_count) in
    let* _ := modify (put vault_operator_delegations_registered 0) in
    let* _ := modify (put valid_operator_vault_delegations 0) in
    let* _ := modify (put stake_weights StakeWeights.default) in
    modify (put vault_operator_stake_weight
      (replicate (Z.to_nat MAX_VAULTS) VaultOperatorStakeWeight.default)).

Definition finalized (self : t) : bool :=
  vault_operator_delegations_registered self =? vault_operator_delegation_count self.
Definition contains_vault_index (vault_index : u64) (self : t) : bool :=
  any (fun v => VaultOperatorStakeWeight.vault_index v =? vault_index)
    (vault_operator_stake_weight self).
Definition contains_vault (vault : Pubkey) (self : t) : bool :=
  any (fun v => VaultOperatorStakeWeight.vault v =? vault) (vault_operator_stake_weight self).

Definition insert_vault_operator_stake_weight (vault : Pubkey) (vault_index : u64)
    (stake_weights : StakeWeights.t) : M t NCNProgramError.t unit :=
  let* self := get_self in
  let* n := lift (ok_or (checked_add u64_MAX (vault_operator_delegations_registered self) 1)
                    ArithmeticOverflow) in
  if MAX_VAULTS <? n then throw TooManyVaultOperatorDelegations
  else if contains_vault_index vault_index self then throw DuplicateVaultOperatorDelegation
  else
    zoom_at vault_operator_stake_weight (put vault_operator_stake_weight)
      (Z.to_nat (vault_operator_delegations_registered self))
      (modify (fun _ => VaultOperatorStakeWeight.new vault vault_index stake_weights)).

Definition increment_vault_operator_delegation_registration (current_slot : u64)
    (vault : Pubkey) (vault_index : u64) (weights : StakeWeights.t)
    : M t NCNProgramError.t unit :=
  let* self := get_self in
  if finalized self then throw VaultOperatorDelegationFinalized
  else
    let* _ := insert_vault_operator_stake_weight vault vault_index weights in
    let* self := get_self in
    let* n := lift (ok_or (checked_add u64_MAX (vault_operator_delegations_registered self) 1)
                      ArithmeticOverflow) in
    let* _ := modify (put vault_operator_delegations_registered n) in
    let* _ :=
      if 0 <? StakeWeights.stake_weight weights then
        let* self := get_self in
        let* n := lift (ok_or (checked_add u64_MAX (valid_operator_vault_delegations self) 1)
                          ArithmeticOverflow) in
        modify (put valid_operator_vault_delegations n)
      else ret tt in
    let* _ := zoom stake_weights (put stake_weights) (StakeWeights.increment weights) in
    let* self := get_self in
    if finalized self then modify (put slot_finalized current_slot) else ret tt.

(** [total_security] is the result of the delegation's
    [delegation_state.total_security()], a method of the vault program. *)
Definition calculate_total_stake_weight `{PreciseNumber}
    (total_security : result ProgramError.t u64) (weight_table : WeightTable.t)
    (st_mint : Pubkey) : result ProgramError.t u128 :=
  let? total_security := total_security in
  let? precise_total_security := into (ok_or (pn_new total_security) NewPreciseNumberError) in
  let? precise_weight := into (WeightTable.get_precise_weight st_mint weight_table) in
  let? precise_total_stake_weight :=
    into (ok_or (pn_checked_mul precise_total_security precise_weight) ArithmeticOverflow) in
  into (ok_or (pn_to_imprecise precise_total_stake_weight) CastToImpreciseNumberError).

(** ** Well-formed operator snapshots *)

(** The first [vault_operator_delegations_registered] slots hold distinct
    vaults, the rest are free; the totals are those of the slots. *)
Record wf (self : t) : Prop := {
  wf_len : List.length (vault_operator_stake_weight self) = 64%nat;
  wf_registered : 0 <= vault_operator_delegations_registered self
                  <= vault_operator_delegation_count self;
  wf_count : vault_operator_delegation_count self <= 64;
  wf_free : forall i v, vault_operator_stake_weight self !! i = Some v ->
    vault_operator_delegations_registered self <= Z.of_nat i ->
    v = VaultOperatorStakeWeight.default;
  wf_distinct : forall i j v w,
    vault_operator_stake_weight self !! i = Some v ->
    vault_operator_stake_weight self !! j = Some w ->
    Z.of_nat i < vault_operator_delegations_registered self ->
    VaultOperatorStakeWeight.vault_index v = VaultOperatorStakeWeight.vault_index w -> i = j;
  wf_weights : forall i v, vault_operator_stake_weight self !! i = Some v ->
    0 <= VaultOperatorStakeWeight.weight v;
  wf_total : StakeWeights.stake_weight (stake_weights self)
    = sum_by VaultOperatorStakeWeight.weight (vault_operator_stake_weight self);
  wf_total_range : StakeWeights.stake_weight (stake_weights self) <= u128_MAX;
  wf_valid : valid_operator_vault_delegations self
    = count_if (fun v => 0 <? VaultOperatorStakeWeight.weight v) (vault_operator_stake_weight self);
}.

(** The snapshot that a successful [initialize] leaves. *)
Definition initial (op n : Pubkey) (e : u64) (b : u8) (slot : u64) (active : bool)
    (ncn_op_index op_index : u64) (fee : u16) (count : u64) : t :=
  mk op n e b slot (if active then 0 else slot) active ncn_op_index op_index
     (if active then fee else 0) (if active then count else 0) 0 0 StakeWeights.default
     (replicate 64 VaultOperatorStakeWeight.default).

Lemma initialize_eq op n e b slot active i j fee count self :
  initialize op n e b slot active i j fee count self =
  if MAX_VAULTS <? count then (Err TooManyVaultOperatorDelegations, self)
  else (Ok tt, initial op n e b slot active i j fee count).
Proof.
  unfold initialize. destruct (MAX_VAULTS <? count); [done|].
  autorewrite with run. unfold initial. by destruct self, active.
Qed.

Lemma initial_wf op n e b slot active i j fee count :
  0 <= count <= 64 -> wf (initial op n e b slot active i j fee count).
Proof.
  intros Hc. split; cbn -[replicate]; try done; try (destruct active; lia).
  - by intros k v [-> _]%lookup_replicate.
  - by intros k v [-> _]%lookup_replicate.
Qed.

Lemma contains_free self : wf self -> vault_operator_delegations_registered self < 64 ->
  contains_vault_index u64_MAX self = true.
Proof.
  intros Hwf Hr. pose proof (wf_registered _ Hwf) as Hreg. apply any_true.
  destruct (lookup_lt_is_Some_2 (vault_operator_stake_weight self)
              (Z.to_nat (vault_operator_delegations_registered self))) as [v Hv].
  { rewrite (wf_len _ Hwf). lia. }
  exists (Z.to_nat (vault_operator_delegations_registered self)), v. split; [done|].
  rewrite (wf_free _ Hwf _ _ Hv) by lia. done.
Qed.

(** The snapshot after one more registered vault. *)
Definition registered (slot : u64) (vault : Pubkey) (index : u64) (w : StakeWeights.t) (self : t) : t :=
  let r := vault_operator_delegations_registered self in
  self <| vault_operator_stake_weight :=
            <[Z.to_nat r := VaultOperatorStakeWeight.new vault index w]>
              (vault_operator_stake_weight self) |>
       <| vault_operator_delegations_registered := r + 1 |>
       <| valid_operator_vault_delegations :=
            valid_operator_vault_delegations self + Z.b2z (0 <? StakeWeights.stake_weight w) |>
       <| stake_weights := StakeWeights.mk
            (StakeWeights.stake_weight (stake_weights self) + StakeWeights.stake_weight w) |>
       <| slot_finalized :=
            if r + 1 =? vault_operator_delegation_count self then slot else slot_finalized self |>.

Lemma increment_refused self slot vault index w :
  wf self ->
  finalized self || contains_vault_index index self = true ->
  increment_vault_operator_delegation_registration slot vault index w self =
  (Err (if finalized self then VaultOperatorDelegationFinalized
        else DuplicateVaultOperatorDelegation), self).
Proof.
  intros Hwf H. unfold increment_vault_operator_delegation_registration.
  rewrite run_get_self. destruct (finalized self) eqn:Hf; [done|]. cbn in H.
  pose proof (wf_registered _ Hwf). pose proof (wf_count _ Hwf). unfold finalized in Hf.
  unfold insert_vault_operator_stake_weight, checked_add, MAX_VAULTS, u64_MAX.
  munfold. cbn. destruct (_ <=? _) eqn:?; cbn; [|lia]. destruct (64 <? _) eqn:?; [lia|].
  by rewrite H.
Qed.

Lemma insert_run self vault index w :
  wf self -> finalized self = false -> contains_vault_index index self = false ->
  insert_vault_operator_stake_weight vault index w self =
  (Ok tt, self <| vault_operator_stake_weight :=
     <[Z.to_nat (vault_operator_delegations_registered self) :=
         VaultOperatorStakeWeight.new vault index w]> (vault_operator_stake_weight self) |>).
Proof.
  intros Hwf Hf Hc. pose proof (wf_registered _ Hwf). pose proof (wf_count _ Hwf).
  unfold finalized in Hf.
  unfold insert_vault_operator_stake_weight, checked_add, MAX_VAULTS, u64_MAX.
  munfold. cbn. destruct (_ <=? _) eqn:?; cbn; [|lia]. destruct (64 <? _) eqn:?; [lia|].
  rewrite Hc. destruct (lookup_lt_is_Some_2 (vault_operator_stake_weight self)
              (Z.to_nat (vault_operator_delegations_registered self))) as [v Hv].
  { rewrite (wf_len _ Hwf). lia. }
  by rewrite Hv.
Qed.

(** The count of the vaults with a positive weight. *)
Lemma add_valid (w : StakeWeights.t) self :
  valid_operator_vault_delegations self + 1 <= u64_MAX ->
  (if 0 <? StakeWeights.stake_weight w then
     let* self := get_self in
     let* n := lift (ok_or (checked_add u64_MAX (valid_operator_vault_delegations self) 1)
                       ArithmeticOverflow) in
     modify (put valid_operator_vault_delegations n)
   else ret tt) self
  = (Ok tt, self <| valid_operator_vault_delegations :=
       valid_operator_vault_delegations self + Z.b2z (0 <? StakeWeights.stake_weight w) |>).
Proof.
  intros Hle. destruct (0 <? _).
  - by rewrite run_get_self, run_add.
  - unfold ret. destruct self. cbn. by rewrite Z.add_0_r.
Qed.

Lemma increment_run self slot vault index w :
  wf self -> finalized self = false -> contains_vault_index index self = false ->
  let total := StakeWeights.stake_weight (stake_weights self) + StakeWeights.stake_weight w in
  (total <= u128_MAX ->
    increment_vault_operator_delegation_registration slot vault index w self
    = (Ok tt, registered slot vault index w self))
  /\ (u128_MAX < total ->
    fst (increment_vault_operator_delegation_registration slot vault index w self)
    = Err ArithmeticOverflow).
Proof.
  intros Hwf Hf Hc total. pose proof (wf_registered _ Hwf). pose proof (wf_count _ Hwf).
  assert (0 <= valid_operator_vault_delegations self <= 64) as Hv.
  { rewrite (wf_valid _ Hwf). pose proof (count_if_nonneg (fun v => 0 <? VaultOperatorStakeWeight.weight v) (vault_operator_stake_weight self)).
    pose proof (count_if_le_length (fun v => 0 <? VaultOperatorStakeWeight.weight v) (vault_operator_stake_weight self)) as Hl.
    rewrite (wf_len _ Hwf) in Hl. lia. }
  unfold increment_vault_operator_delegation_registration.
  rewrite run_get_self, Hf, (mbind_eq_ok _ _ _ _ _ (insert_run self vault index w Hwf Hf Hc)).
  rewrite run_get_self, run_add, run_modify by (cbn; unfold u64_MAX; lia).
  erewrite mbind_eq_ok; [|apply (add_valid w); cbn; unfold u64_MAX; lia].
  rewrite run_zoom, StakeWeights.increment_eq.
  change (stake_weights (over _ _ _)) with (stake_weights self). fold total.
  split; intros Ht; destruct (total <=? u128_MAX) eqn:?; try lia; [|done].
  rewrite run_get_self. unfold registered, finalized. cbn -[Z.add]. by destruct (_ =? _).
Qed.

Lemma registered_wf self slot vault index w :
  wf self -> finalized self = false -> contains_vault_index index self = false ->
  StakeWeights.wf w ->
  StakeWeights.stake_weight (stake_weights self) + StakeWeights.stake_weight w <= u128_MAX ->
  wf (registered slot vault index w self).
Proof.
  intros Hwf Hf Hc [Hw _] Ht. destruct Hwf as [Hlen Hreg Hcount Hfree Hdist Hpos Htot Hrange Hvalid].
  unfold finalized in Hf. set (r := vault_operator_delegations_registered self) in *.
  destruct (lookup_lt_is_Some_2 (vault_operator_stake_weight self) (Z.to_nat r)) as [v Hv]; [lia|].
  pose proof (Hfree _ _ Hv ltac:(lia)) as ->.
  assert (forall i v, vault_operator_stake_weight self !! i = Some v ->
            VaultOperatorStakeWeight.vault_index v <> index) as Hnew.
  { intros i v Hi. pose proof (proj1 (any_false _ _) Hc i v Hi). cbn in *. lia. }
  split; cbn -[sum_by count_if]; fold r; try lia.
  - by rewrite length_insert.
  - intros i v. rewrite list_lookup_insert. case_decide; [lia|].
    intros Hi ?. apply (Hfree i); [done|lia].
  - intros i j v x. rewrite !list_lookup_insert.
    intros Hi Hj Hlt He. destruct (decide _) as [[<- _]|], (decide _) as [[<- _]|]; simplify_eq; cbn in *.
    + done.
    + by destruct (Hnew _ _ Hj).
    + by destruct (Hnew _ _ Hi).
    + apply (Hdist i j v x); [done..| |done]. lia.
  - intros i v. rewrite list_lookup_insert. case_decide; [by intros [= <-]|]. by apply Hpos.
  - erewrite sum_by_insert by done. rewrite VaultOperatorStakeWeight.weight_new. cbn. lia.
  - erewrite count_if_insert by done. rewrite VaultOperatorStakeWeight.weight_new. cbn. lia.
Qed.

(** C39: registering one vault's delegation, on every branch. It is refused
    without a write when everything announced is registered or when the vault
    is already in the snapshot; a total beyond [u128] is refused with
    [ArithmeticOverflow]; otherwise exactly one more slot is filled, the total
    stake weight is the sum over the slots, and the slot of finalization is
    set exactly when this was the last vault. No index is ever out of range,
    and the snapshot stays well formed. *)
Theorem increment_registration_spec self slot vault index w :
  wf self -> StakeWeights.wf w ->
  match increment_vault_operator_delegation_registration slot vault index w self with
  | (Ok tt, self') =>
      wf self' /\ finalized self = false /\ contains_vault_index index self = false
      /\ contains_vault_index index self' = true
      /\ vault_operator_delegations_registered self'
           = vault_operator_delegations_registered self + 1
      /\ StakeWeights.stake_weight (stake_weights self')
           = StakeWeights.stake_weight (stake_weights self) + StakeWeights.stake_weight w
      /\ slot_finalized self' = (if finalized self' then slot else slot_finalized self)
  | (Err VaultOperatorDelegationFinalized, self') => self' = self /\ finalized self = true
  | (Err DuplicateVaultOperatorDelegation, self') =>
      self' = self /\ contains_vault_index index self = true
  | (Err ArithmeticOverflow, _) =>
      u128_MAX < StakeWeights.stake_weight (stake_weights self) + StakeWeights.stake_weight w
  | _ => False
  end.
Proof.
  intros Hwf Hw. destruct (finalized self || contains_vault_index index self) eqn:Hr.
  { rewrite increment_refused by done. by destruct (finalized self). }
  apply orb_false_iff in Hr as [Hf Hc].
  destruct (increment_run self slot vault index w Hwf Hf Hc) as [Hok Herr].
  destruct (Z.leb_spec (StakeWeights.stake_weight (stake_weights self)
                        + StakeWeights.stake_weight w) u128_MAX) as [Ht|Ht].
  - rewrite Hok by done. split_and!; try done.
    + by apply registered_wf.
    + apply any_true. exists (Z.to_nat (vault_operator_delegations_registered self)), (VaultOperatorStakeWeight.new vault index w).
      split; [|cbn; lia]. cbn -[Z.add]. apply list_lookup_insert_eq. rewrite (wf_len _ Hwf).
      pose proof (wf_registered _ Hwf). pose proof (wf_count _ Hwf). unfold finalized in Hf. lia.
  - specialize (Herr Ht).
    destruct (increment_vault_operator_delegation_registration _ _ _ _ _) as [r s'].
    cbn in Herr. by subst r.
Qed.

(** Initializing an operator snapshot, on every branch: more than 64
    vaults are refused without a write; otherwise the whole account is
    overwritten. An operator that is not active takes no fee, announces no
    vaults and is finalized at once. The result is well formed whatever the
    account held, and for an active operator it is what [new] builds. *)
Theorem snapshot_initialize_spec op n e b slot active i j fee count self :
  0 <= count ->
  match initialize op n e b slot active i j fee count self with
  | (Ok tt, self') =>
      count <= 64 /\ wf self' /\ is_active self' = active
      /\ vault_operator_delegation_count self' = (if active then count else 0)
      /\ (active = false -> finalized self' = true /\ operator_fee_bps self' = 0
                            /\ slot_finalized self' = slot)
      /\ (active = true -> new op n e b slot active i j fee count = Ok self')
  | (Err e, self') => e = TooManyVaultOperatorDelegations /\ self' = self /\ 64 < count
  | (Panic, _) => False
  end.
Proof.
  intros Hc. rewrite initialize_eq. unfold new, MAX_VAULTS. destruct (64 <? count) eqn:Hm.
  - split_and!; [done|done|lia].
  - split_and!; [lia|apply initial_wf; lia|done|done|by intros ->|by intros ->].
Qed.

(** The stake weight of a delegation is the delegated amount times the
    mint's weight, exactly, whenever that product fits in a [u128]; a failure
    of the vault program's computation and an unknown mint are reported. *)
Theorem calculate_total_stake_weight_spec `{P : PreciseNumber} {L : PreciseNumberLaws P}
    security table mint :
  (forall s, security = Ok s -> in_range u64_MAX s) ->
  (forall w, WeightTable.get_weight mint table = Ok w -> in_range u128_MAX w) ->
  match security, WeightTable.get_weight mint table with
  | Ok s, Ok w =>
      s * w <= u128_MAX -> calculate_total_stake_weight security table mint = Ok (s * w)
  | Ok s, _ =>
      WeightTable.find_mint mint table = None
      /\ calculate_total_stake_weight security table mint
          = Err (ProgramError.from_ncn InvalidMintForWeightTable)
  | Err e, _ => calculate_total_stake_weight security table mint = Err e
  | Panic, _ => calculate_total_stake_weight security table mint = Panic
  end.
Proof.
  intros Hs Hw. destruct security as [s|e|]; [|done..].
  specialize (Hs s eq_refl). unfold in_range, u64_MAX in Hs.
  destruct (pn_new_spec s) as (x & Hx & Hxv); [unfold in_range, u128_MAX; lia|].
  unfold calculate_total_stake_weight, WeightTable.get_precise_weight. cbn. rewrite Hx. cbn.
  unfold WeightTable.get_weight in *.
  destruct (WeightTable.find_mint mint table) as [[i en]|]; cbn in *; [|done].
  intros Hle. specialize (Hw _ eq_refl). set (w := WeightEntry.weight en) in *.
  destruct (pn_new_spec w Hw) as (y & -> & Hyv). cbn. unfold in_range in Hw.
  destruct (pn_mul_spec x y s w) as (z & -> & Hzv); [done|done|lia|lia|lia|].
  cbn. erewrite pn_to_imprecise_spec; [done|exact Hzv|unfold in_range; nia].
Qed.

(** An active operator with two announced vaults. *)
Definition example : t := initial 3 7 5 254 1000 true 0 12 250 2.
Lemma example_wf : wf example.
Proof. apply initial_wf. lia. Qed.

Lemma increment_registration_spec_witness :
  wf example /\ StakeWeights.wf (StakeWeights.mk 40)
  /\ finalized example = false
  /\ vault_operator_delegations_registered
       (snd (increment_vault_operator_delegation_registration 1001 21 0 (StakeWeights.mk 40) example)) = 1.
Proof.
  assert (StakeWeights.wf (StakeWeights.mk 40)) as Hw by (split; discriminate).
  pose proof (increment_registration_spec example 1001 21 0 (StakeWeights.mk 40) example_wf Hw) as H.
  split; [exact example_wf|]. split; [exact Hw|]. split; [exact (proj1 (proj2 H))|].
  exact (proj1 (proj2 (proj2 (proj2 (proj2 H))))).
Defined.

Lemma snapshot_initialize_spec_witness :
  0 <= 2 /\ new 3 7 5 254 1000 true 0 12 250 2
           = Ok (snd (initialize 3 7 5 254 1000 true 0 12 250 2 example)).
Proof.
  assert (0 <= 2) as H2 by discriminate. split; [exact H2|].
  pose proof (snapshot_initialize_spec 3 7 5 254 1000 true 0 12 250 2 example H2) as H.
  exact (proj2 (proj2 (proj2 (proj2 (proj2 H)))) eq_refl).
Defined.

Definition example_table : WeightTable.t :=
  (WeightTable.new 7 5 40 1 255) <| WeightTable.table :=
     WeightEntry.set_weight 100 50 (WeightEntry.new (StMintEntry.new 11 100))
     :: replicate 63 WeightEntry.default |>.

Lemma calculate_total_stake_weight_spec_witness :
  @calculate_total_stake_weight fixed_point (Ok 30) example_table 11 = Ok (30 * 100).
Proof.
  assert (WeightTable.get_weight 11 example_table = Ok 100) as E by reflexivity.
  assert (forall s, @Ok ProgramError.t Z 30 = Ok s -> in_range u64_MAX s) as Hs
    by (intros s [= <-]; split; discriminate).
  assert (forall w, WeightTable.get_weight 11 example_table = Ok w -> in_range u128_MAX w) as Hw
    by (rewrite E; intros w [= <-]; split; discriminate).
  pose proof (calculate_total_stake_weight_spec (L := fixed_point_laws) (Ok 30) example_table 11 Hs Hw) as H.
  rewrite E in H. apply H. discriminate.
Defined.
End OperatorSnapshot.

Module EpochSnapshot.
Import NCNProgramError.

Record t := mk {
  ncn : Pubkey;
  epoch : u64;
  bump : u8;
  slot_created : u64;
  slot_finalized : u64;
  operator_count : u64;
  vault_count : u64;
  operators_registered : u64;
  valid_operator_vault_delegations : u64;
  stake_weights : StakeWeights.t;
  fees : Fees.t;
}.
#[global] Instance eta_t : Eta t := fun s =>
  mk (ncn s) (epoch s) (bump s) (slot_created s) (slot_finalized s) (operator_count s)
     (vault_count s) (operators_registered s) (valid_operator_vault_delegations s)
     (stake_weights s) (fees s).

Definition new (ncn : Pubkey) (ncn_epoch : u64) (bump : u8)
    (current_slot operator_count vault_count : u64) (fees : Fees.t) : t :=
  mk ncn ncn_epoch bump current_slot 0 operator_count vault_count 0 0 StakeWeights.default fees.

Definition finalized (self : t) : bool := operators_registered self =? operator_count self.

Definition increment_operator_registration (current_slot vault_operator_delegations : u64)
    (stake_weight : StakeWeights.t) : M t NCNProgramError.t unit :=
  let* self := get_self in
  if finalized self then throw OperatorFinalized
  else
    let* n := lift (ok_or (checked_add u64_MAX (operators_registered self) 1) ArithmeticOverflow) in
    let* _ := modify (put operators_registered n) in
    let* self := get_self in
    let* n := lift (ok_or
      (checked_add u64_MAX (valid_operator_vault_delegations self) vault_operator_delegations)
      ArithmeticOverflow) in
    let* _ := modify (put valid_operator_vault_delegations n) in
    let* _ := zoom stake_weights (put stake_weights) (StakeWeights.increment stake_weight) in
    let* self := get_self in
    if finalized self then modify (put slot_finalized current_slot) else ret tt.

(** The snapshot after one more operator with [d] valid delegations and
    weight [w]. *)
Definition registered (slot d : u64) (w : StakeWeights.t) (self : t) : t :=
  self <| operators_registered := operators_registered self + 1 |>
       <| valid_operator_vault_delegations := valid_operator_vault_delegations self + d |>
       <| stake_weights := StakeWeights.mk
            (StakeWeights.stake_weight (stake_weights self) + StakeWeights.stake_weight w) |>
       <| slot_finalized :=
            if operators_registered self + 1 =? operator_count self then slot
            else slot_finalized self |>.

Record wf (self : t) : Prop := {
  wf_registered : 0 <= operators_registered self <= operator_count self;
  wf_count : operator_count self <= 256;
  wf_valid : 0 <= valid_operator_vault_delegations self <= 64 * operators_registered self;
  wf_total : StakeWeights.wf (stake_weights self);
}.

Lemma epoch_snapshot_new_wf n e b slot oc vc f : 0 <= oc <= 256 -> wf (new n e b slot oc vc f).
Proof. split; cbn; try lia. by split. Qed.

Lemma operator_increment_run self slot d w :
  wf self -> finalized self = false -> 0 <= d <= 64 ->
  let total := StakeWeights.stake_weight (stake_weights self) + StakeWeights.stake_weight w in
  (total <= u128_MAX ->
    increment_operator_registration slot d w self = (Ok tt, registered slot d w self))
  /\ (u128_MAX < total -> fst (increment_operator_registration slot d w self) = Err ArithmeticOverflow).
Proof.
  intros Hwf Hf Hd total. destruct Hwf as [Hreg Hcount Hvalid _].
  unfold increment_operator_registration. rewrite run_get_self, Hf.
  rewrite run_add, run_modify, run_get_self, run_add, run_modify by (cbn; unfold u64_MAX; lia).
  rewrite run_zoom, StakeWeights.increment_eq.
  change (stake_weights (over _ _ _)) with (stake_weights self). fold total.
  split; intros Ht; destruct (total <=? u128_MAX) eqn:?; try lia; [|done].
  rewrite run_get_self. unfold registered, finalized. cbn -[Z.add]. by destruct (_ =? _).
Qed.

Lemma operator_registered_wf self slot d w :
  wf self -> finalized self = false -> 0 <= d <= 64 -> StakeWeights.wf w ->
  StakeWeights.stake_weight (stake_weights self) + StakeWeights.stake_weight w <= u128_MAX ->
  wf (registered slot d w self).
Proof.
  intros [Hreg Hcount Hvalid [Ht _]] Hf Hd [Hw _] Hle. unfold finalized in Hf.
  split; cbn; try lia. split; cbn; lia.
Qed.

(** Adding an operator to the epoch's snapshot, on every branch: after
    the last operator it is refused without a write; otherwise exactly one
    operator, its valid delegations and its stake weight are added, or the
    total would leave [u128]. The slot of finalization is set exactly by the
    last operator, and the fees stay those frozen at creation. *)
Theorem increment_operator_spec self slot d w :
  wf self -> 0 <= d <= 64 -> StakeWeights.wf w ->
  match increment_operator_registration slot d w self with
  | (Ok tt, self') =>
      wf self' /\ finalized self = false
      /\ operators_registered self' = operators_registered self + 1
      /\ valid_operator_vault_delegations self' = valid_operator_vault_delegations self + d
      /\ StakeWeights.stake_weight (stake_weights self')
           = StakeWeights.stake_weight (stake_weights self) + StakeWeights.stake_weight w
      /\ slot_finalized self' = (if finalized self' then slot else slot_finalized self)
      /\ operator_count self' = operator_count self /\ fees self' = fees self
  | (Err OperatorFinalized, self') => self' = self /\ finalized self = true
  | (Err ArithmeticOverflow, _) =>
      u128_MAX < StakeWeights.stake_weight (stake_weights self) + StakeWeights.stake_weight w
  | _ => False
  end.
Proof.
  intros Hwf Hd Hw. destruct (finalized self) eqn:Hf.
  { unfold increment_operator_registration. by rewrite run_get_self, Hf. }
  destruct (operator_increment_run self slot d w Hwf Hf Hd) as [Hok Herr].
  destruct (Z.leb_spec (StakeWeights.stake_weight (stake_weights self)
                        + StakeWeights.stake_weight w) u128_MAX) as [Ht|Ht].
  - rewrite Hok by done. split_and!; try done. by apply operator_registered_wf.
  - specialize (Herr Ht). destruct (increment_operator_registration _ _ _ _) as [r s'].
    cbn in Herr. by subst r.
Qed.

Lemma increment_operator_spec_witness :
  let s := new 7 5 254 1000 1 2 (Fees.mk 5 (Fee.new 400) (Fee.new 100)) in
  wf s /\ slot_finalized (snd (increment_operator_registration 1002 2 (StakeWeights.mk 40) s)) = 1002.
Proof.
  intros s. assert (wf s) as Hwf by (apply epoch_snapshot_new_wf; split; discriminate). split; [exact Hwf|].
  assert (StakeWeights.wf (StakeWeights.mk 40)) as Hw by (split; discriminate).
  assert (0 <= 2 <= 64) as Hd by (split; discriminate).
  pose proof (increment_operator_spec s 1002 2 (StakeWeights.mk 40) Hwf Hd Hw) as H.
  exact (proj1 (proj2 (proj2 (proj2 (proj2 (proj2 H)))))).
Defined.
End EpochSnapshot.
