(* ===== verification/Voting.v ===== *)
(** Voting and consensus ([core/src/ballot_box.rs]): operators vote once, with
    their stake weight, for one of three ballots; the votes are tallied per
    ballot, and the first ballot that reaches two thirds of the total weight
    wins. A stalled vote is decided by the tie breaker. *)
From Stdlib Require Import String.
From stdpp Require Import relations.
From S2P Require Import Prelude Errors Precise Stake.

Module WeatherStatus.
Inductive t := Sunny | Cloudy | Rainy.

Definition as_u8 (s : t) : u8 :=
  match s with Sunny => 0 | Cloudy => 1 | Rainy => 2 end.
Definition default : t := Sunny.
Definition from_u8 (value : u8) : option string :=
  match value with
  | 0 => Some "Sunny"%string
  | 1 => Some "Cloudy"%string
  | 2 => Some "Rainy"%string
  | _ => None
  end.
End WeatherStatus.

Module Ballot.
Record t := mk { weather_status : u8; is_valid : bool }.
#[global] Instance eta_t : Eta t := fun b => mk (weather_status b) (is_valid b).
#[global] Instance t_eq_dec : EqDecision t.
Proof. solve_decision. Defined.

(** [PartialEq::eq]: an invalid ballot is equal to nothing, itself included. *)
Definition eq (self other : t) : bool :=
  if negb (is_valid self) || negb (is_valid other) then false
  else weather_status self =? weather_status other.
Definition default : t := mk (WeatherStatus.as_u8 WeatherStatus.default) false.
Definition new (weather_status : u8) : t :=
  let ballot := mk weather_status false in
  if weather_status <=? WeatherStatus.as_u8 WeatherStatus.Rainy
  then ballot <| is_valid := true |>
  else ballot.
Definition status (b : t) : option string := WeatherStatus.from_u8 (weather_status b).

(** A valid ballot is one of the three statuses. *)
Definition wf (b : t) : Prop := is_valid b = true -> 0 <= weather_status b <= 2.

Lemma eq_valid a b : is_valid a = true -> is_valid b = true -> eq a b = (weather_status a =? weather_status b).
Proof. unfold eq. by intros -> ->. Qed.

Lemma eq_spec a b : eq a b = true <-> is_valid a = true /\ a = b.
Proof.
  unfold eq. destruct a as [s v], b as [s' v']; cbn. destruct v, v'; cbn.
  - rewrite Z.eqb_eq. split; [by intros ->|by intros [_ [= ->]]].
  - split; [done|]. intros [_ [=]].
  - split; [done|by intros [? _]].
  - split; [done|by intros [? _]].
Qed.

Lemma ballot_new_wf s : 0 <= s -> wf (new s).
Proof. unfold wf, new. destruct (s <=? _) eqn:E; cbn in *; [lia|done]. Qed.
End Ballot.

Module BallotTally.
Import NCNProgramError.

Record t := mk {
  index : u16;
  ballot : Ballot.t;
  stake_weights : StakeWeights.t;
  tally : u64;
}.
#[global] Instance eta_t : Eta t := fun b => mk (index b) (ballot b) (stake_weights b) (tally b).

Definition default : t := mk u16_MAX Ballot.default StakeWeights.default 0.
Definition new (index : u16) (ballot : Ballot.t) (stake_weights : StakeWeights.t) : t :=
  mk index ballot stake_weights 1.
Definition is_valid (b : t) : bool := Ballot.is_valid (ballot b).

Definition increment_tally (weights : StakeWeights.t) : M t NCNProgramError.t unit :=
  let* _ := zoom stake_weights (put stake_weights) (StakeWeights.increment weights) in
  let* self := get_self in
  let* n := lift (ok_or (checked_add u64_MAX (tally self) 1) ArithmeticOverflow) in
  modify (put tally n).
Definition decrement_tally (weights : StakeWeights.t) : M t NCNProgramError.t unit :=
  let* _ := zoom stake_weights (put stake_weights) (StakeWeights.decrement weights) in
  let* self := get_self in
  let* n := lift (ok_or (checked_sub (tally self) 1) ArithmeticOverflow) in
  modify (put tally n).

(** The weight in a tally, and the tally after one more vote. *)
Definition weight (b : t) : u128 := StakeWeights.stake_weight (stake_weights b).
Definition incremented (w : StakeWeights.t) (b : t) : t :=
  mk (index b) (ballot b) (StakeWeights.mk (weight b + StakeWeights.stake_weight w)) (tally b + 1).

Lemma increment_tally_run w b :
  tally b < u64_MAX ->
  (weight b + StakeWeights.stake_weight w <= u128_MAX -> increment_tally w b = (Ok tt, incremented w b))
  /\ (u128_MAX < weight b + StakeWeights.stake_weight w -> increment_tally w b = (Err ArithmeticOverflow, b)).
Proof.
  intros Ht. unfold increment_tally, weight. rewrite run_zoom, StakeWeights.increment_eq.
  split; intros Hw; destruct (_ <=? u128_MAX) eqn:?; try lia; [|by destruct b].
  rewrite run_get_self, run_add by (cbn; lia). done.
Qed.
End BallotTally.

Module OperatorVote.
Record t := mk {
  operator : Pubkey;
  slot_voted : u64;
  stake_weights : StakeWeights.t;
  ballot_index : u16;
}.

Definition default : t := mk Pubkey_default 0 StakeWeights.default u16_MAX.
Definition new (ballot_index : usize) (operator : Pubkey) (current_slot : u64)
    (stake_weights : StakeWeights.t) : t :=
  mk operator current_slot stake_weights (as_u16 ballot_index).
Definition is_empty (v : t) : bool := ballot_index v =? u16_MAX.

(** The weight of a vote. *)
Definition weight (v : t) : u128 := StakeWeights.stake_weight (stake_weights v).
End OperatorVote.

Module BallotBox.
Import NCNProgramError.

Record t := mk {
  ncn : Pubkey;
  epoch : u64;
  bump : u8;
  slot_created : u64;
  slot_consensus_reached : u64;
  operators_voted : u64;
  unique_ballots : u64;
  winning_ballot : Ballot.t;
  operator_votes : list OperatorVote.t;
  ballot_tallies : list BallotTally.t;
}.
#[global] Instance eta_t : Eta t := fun b =>
  mk (ncn b) (epoch b) (bump b) (slot_created b) (slot_consensus_reached b) (operators_voted b)
     (unique_ballots b) (winning_ballot b) (operator_votes b) (ballot_tallies b).

Definition new (ncn : Pubkey) (epoch : u64) (bump : u8) (current_slot : u64) : t :=
  mk ncn epoch bump current_slot DEFAULT_CONSENSUS_REACHED_SLOT 0 0 Ballot.default
     (replicate (Z.to_nat MAX_OPERATORS) OperatorVote.default)
     (replicate (Z.to_nat MAX_OPERATORS) BallotTally.default).

Definition initialize (n : Pubkey) (e : u64) (b : u8) (current_slot : u64) (self : t) : t :=
  self <| ncn := n |> <| epoch := e |> <| bump := b |> <| slot_created := current_slot |>
       <| slot_consensus_reached := DEFAULT_CONSENSUS_REACHED_SLOT |>
       <| operators_voted := 0 |> <| unique_ballots := 0 |>
       <| winning_ballot := Ballot.default |>
       <| operator_votes := replicate (Z.to_nat MAX_OPERATORS) OperatorVote.default |>
       <| ballot_tallies := replicate (Z.to_nat MAX_OPERATORS) BallotTally.default |>.

Definition has_ballot (ballot : Ballot.t) (self : t) : bool :=
  any (fun t => Ballot.eq (BallotTally.ballot t) ballot) (ballot_tallies self).

Definition is_consensus_reached (self : t) : bool :=
  negb (slot_consensus_reached self =? DEFAULT_CONSENSUS_REACHED_SLOT)
  || Ballot.is_valid (winning_ballot self).
Definition tie_breaker_set (self : t) : bool :=
  (slot_consensus_reached self =? DEFAULT_CONSENSUS_REACHED_SLOT)
  && Ballot.is_valid (winning_ballot self).

Definition get_winning_ballot (self : t) : result NCNProgramError.t Ballot.t :=
  if negb (Ballot.is_valid (winning_ballot self)) then Err ConsensusNotReached
  else Ok (winning_ballot self).
Definition get_winning_ballot_tally (self : t) : result NCNProgramError.t BallotTally.t :=
  if negb (Ballot.is_valid (winning_ballot self)) then Err ConsensusNotReached
  else
    let? (_, winning_ballot_tally) :=
      ok_or (find_index (fun t => Ballot.eq (BallotTally.ballot t) (winning_ballot self))
               (ballot_tallies self))
        BallotTallyNotFoundFull in
    Ok winning_ballot_tally.
Definition has_winning_ballot (self : t) : bool := Ballot.is_valid (winning_ballot self).

Definition set_winning_ballot (ballot : Ballot.t) (self : t) : t :=
  self <| winning_ballot := ballot |>.

Definition increment_or_create_ballot_tally (ballot : Ballot.t) (stake_weights : StakeWeights.t)
    : M t NCNProgramError.t usize :=
  let* self := get_self in
  match find_index (fun t => BallotTally.is_valid t && Ballot.eq (BallotTally.ballot t) ballot)
          (ballot_tallies self) with
  | Some (tally_index, _) =>
      let* _ := zoom_at ballot_tallies (put ballot_tallies) tally_index
                  (BallotTally.increment_tally stake_weights) in
      ret (Z.of_nat tally_index)
  | None =>
      match find_index (fun t => negb (BallotTally.is_valid t)) (ballot_tallies self) with
      | Some (tally_index, _) =>
          let* _ := modify (put ballot_tallies
            (<[tally_index := BallotTally.new (as_u16 (Z.of_nat tally_index)) ballot stake_weights]>
               (ballot_tallies self))) in
          let* self := get_self in
          let* n := lift (ok_or (checked_add u64_MAX (unique_ballots self) 1) ArithmeticOverflow) in
          let* _ := modify (put unique_ballots n) in
          ret (Z.of_nat tally_index)
      | None => throw BallotTallyFull
      end
  end.

Definition is_voting_valid (current_slot valid_slots_after_consensus : u64) (self : t)
    : result NCNProgramError.t bool :=
  if tie_breaker_set self then Ok false
  else if is_consensus_reached self then
    let? last_slot :=
      ok_or (checked_add u64_MAX (slot_consensus_reached self) valid_slots_after_consensus)
        ArithmeticOverflow in
    Ok (current_slot <=? last_slot)
  else Ok true.

Definition cast_vote (operator : Pubkey) (ballot : Ballot.t) (stake_weights : StakeWeights.t)
    (current_slot valid_slots_after_consensus : u64) : M t NCNProgramError.t unit :=
  let* self := get_self in
  let* valid := lift (is_voting_valid current_slot valid_slots_after_consensus self) in
  if negb valid then throw VotingNotValid
  else if negb (Ballot.is_valid ballot) then throw BadBallot
  else if any (fun vote => OperatorVote.operator vote =? operator) (operator_votes self)
  then throw OperatorAlreadyVoted
  else
    let* ballot_index := increment_or_create_ballot_tally ballot stake_weights in
    let* self := get_self in
    match find_index OperatorVote.is_empty (operator_votes self) with
    | Some (i, _) =>
        let* _ := modify (put operator_votes
          (<[i := OperatorVote.new ballot_index operator current_slot stake_weights]>
             (operator_votes self))) in
        let* self := get_self in
        let* n := lift (ok_or (checked_add u64_MAX (operators_voted self) 1) ArithmeticOverflow) in
        modify (put operators_voted n)
    | None => throw OperatorVotesFull
    end.

Definition tally_votes `{PreciseNumber} (total_stake_weight : u128) (current_slot : u64)
    : M t NCNProgramError.t unit :=
  let* self := get_self in
  if negb (slot_consensus_reached self =? DEFAULT_CONSENSUS_REACHED_SLOT) then ret tt
  else
    let* max_tally := lift (ok_or
      (max_by_key (fun t => StakeWeights.stake_weight (BallotTally.stake_weights t))
         (ballot_tallies self)) NoValidBallots) in
    let ballot_stake_weight := StakeWeights.stake_weight (BallotTally.stake_weights max_tally) in
    if total_stake_weight =? 0 then throw DenominatorIsZero
    else
      let* precise_ballot_stake_weight :=
        lift (ok_or (pn_new ballot_stake_weight) NewPreciseNumberError) in
      let* precise_total_stake_weight :=
        lift (ok_or (pn_new total_stake_weight) NewPreciseNumberError) in
      let* ballot_percentage_of_total :=
        lift (ok_or (pn_checked_div precise_ballot_stake_weight precise_total_stake_weight)
                DenominatorIsZero) in
      let* target_precise_percentage := lift precise_consensus in
      let consensus_reached :=
        pn_greater_than_or_equal ballot_percentage_of_total target_precise_percentage in
      if consensus_reached && negb (Ballot.is_valid (winning_ballot self)) then
        let* _ := modify (put slot_consensus_reached current_slot) in
        modify (set_winning_ballot (BallotTally.ballot max_tally))
      else ret tt.

Definition set_tie_breaker_ballot (weather_status : u8) (current_epoch epochs_before_stall : u64)
    : M t NCNProgramError.t unit :=
  let* self := get_self in
  if is_consensus_reached self then throw ConsensusAlreadyReached
  else
    let* stall_epoch :=
      lift (ok_or (checked_add u64_MAX (epoch self) epochs_before_stall) ArithmeticOverflow) in
    if current_epoch <? stall_epoch then throw VotingNotFinalized
    else if WeatherStatus.as_u8 WeatherStatus.Rainy <? weather_status then throw BadBallot
    else
      let finalized_ballot := Ballot.new weather_status in
      if negb (has_ballot finalized_ballot self) then throw TieBreakerNotInPriorVotes
      else modify (set_winning_ballot finalized_ballot).

Definition did_operator_vote (operator : Pubkey) (self : t) : bool :=
  any (fun vote => OperatorVote.operator vote =? operator) (operator_votes self).

(** ** Well-formed ballot boxes *)

(** A vote for the tally at index [k], and the tally after one more vote. *)
Definition votes_for (k : nat) (v : OperatorVote.t) : bool := OperatorVote.ballot_index v =? Z.of_nat k.
Definition weight_for (k : nat) (v : OperatorVote.t) : u128 :=
  if votes_for k v then OperatorVote.weight v else 0.
Definition counted (k : nat) (b : Ballot.t) (w : StakeWeights.t) (t : BallotTally.t) : BallotTally.t :=
  BallotTally.mk (Z.of_nat k) b
    (StakeWeights.mk (BallotTally.weight t + StakeWeights.stake_weight w)) (BallotTally.tally t + 1).

(** A slot for votes is free or holds the vote of a real operator for a tally
    that is in use. *)
Definition vote_ok (tallies : list BallotTally.t) (v : OperatorVote.t) : Prop :=
  v = OperatorVote.default
  \/ (OperatorVote.operator v <> 0 /\ 0 <= OperatorVote.weight v
      /\ exists k t, OperatorVote.ballot_index v = Z.of_nat k /\ tallies !! k = Some t
                     /\ BallotTally.is_valid t = true).

(** A tally is free or counts exactly the votes that name it. *)
Definition tally_ok (votes : list OperatorVote.t) (k : nat) (t : BallotTally.t) : Prop :=
  (t = BallotTally.default /\ count_if (votes_for k) votes = 0 /\ sum_by (weight_for k) votes = 0)
  \/ (BallotTally.is_valid t = true /\ Ballot.wf (BallotTally.ballot t)
      /\ BallotTally.index t = Z.of_nat k
      /\ BallotTally.tally t = count_if (votes_for k) votes
      /\ BallotTally.weight t = sum_by (weight_for k) votes
      /\ BallotTally.weight t <= u128_MAX).

Record wf (self : t) : Prop := {
  wf_votes_len : List.length (operator_votes self) = 256%nat;
  wf_tallies_len : List.length (ballot_tallies self) = 256%nat;
  wf_vote : forall i v, operator_votes self !! i = Some v -> vote_ok (ballot_tallies self) v;
  wf_vote_distinct : distinct_keys OperatorVote.operator (operator_votes self);
  wf_voted : operators_voted self = count_if (fun v => negb (OperatorVote.is_empty v)) (operator_votes self);
  wf_tally : forall k t, ballot_tallies self !! k = Some t -> tally_ok (operator_votes self) k t;
  wf_unique : unique_ballots self = count_if BallotTally.is_valid (ballot_tallies self);
  wf_ballots : forall j k s t, ballot_tallies self !! j = Some s -> ballot_tallies self !! k = Some t ->
    BallotTally.is_valid s = true -> BallotTally.ballot s = BallotTally.ballot t -> j = k;
  wf_winner : Ballot.is_valid (winning_ballot self) = true -> has_ballot (winning_ballot self) self = true;
  wf_consensus : slot_consensus_reached self <> DEFAULT_CONSENSUS_REACHED_SLOT ->
    Ballot.is_valid (winning_ballot self) = true;
}.

Lemma no_votes k n : (k < 256)%nat ->
  count_if (votes_for k) (replicate n OperatorVote.default) = 0
  /\ sum_by (weight_for k) (replicate n OperatorVote.default) = 0.
Proof.
  intros Hk. assert (votes_for k OperatorVote.default = false) as E.
  { apply Z.eqb_neq. cbn -[Z.of_nat]. unfold u16_MAX. lia. }
  rewrite count_if_replicate, sum_by_replicate. unfold weight_for. rewrite E. split; [done|lia].
Qed.

Lemma ballot_box_new_wf n e b slot : wf (new n e b slot).
Proof.
  split; cbn -[replicate count_if sum_by]; try apply length_replicate; try done.
  - intros i v [-> _]%lookup_replicate. by left.
  - by apply distinct_keys_replicate.
  - intros k t [-> Hk]%lookup_replicate. left. split; [done|]. by apply no_votes.
  - intros j k s t [-> _]%lookup_replicate. done.
Qed.

(** ** The tallies in use *)

Lemma tally_valid_status self k t :
  wf self -> ballot_tallies self !! k = Some t -> BallotTally.is_valid t = true ->
  BallotTally.ballot t = Ballot.mk (Ballot.weather_status (BallotTally.ballot t)) true
  /\ 0 <= Ballot.weather_status (BallotTally.ballot t) <= 2.
Proof.
  intros Hwf Hk Hv. destruct (wf_tally _ Hwf _ _ Hk) as [[-> _]|(_ & Hb & _)]; [done|].
  unfold BallotTally.is_valid in Hv. split; [|by apply Hb].
  destruct (BallotTally.ballot t) as [s v]. cbn in *. by subst v.
Qed.

(** At most three tallies are ever in use: there are three statuses. *)
Lemma unique_ballots_bound self : wf self -> 0 <= unique_ballots self <= 3.
Proof.
  intros Hwf. rewrite (wf_unique _ Hwf). split; [apply count_if_nonneg|].
  set (l := map (fun t => Ballot.weather_status (BallotTally.ballot t))
              (List.filter BallotTally.is_valid (ballot_tallies self))).
  assert (List.length l <= List.length [0; 1; 2]%Z)%nat as Hl.
  { apply NoDup_incl_length.
    - apply NoDup_ListNoDup. subst l. pose proof (wf_ballots _ Hwf) as Hd.
      assert (forall k t, ballot_tallies self !! k = Some t -> BallotTally.is_valid t = true ->
        BallotTally.ballot t = Ballot.mk (Ballot.weather_status (BallotTally.ballot t)) true) as Hs.
      { intros k t Hk Hv. by eapply tally_valid_status. }
      revert Hd Hs. generalize (ballot_tallies self). clear. intros l. induction l as [|t l IH]; intros Hd Hs; cbn.
      { constructor. }
      assert (NoDup (map (fun t => Ballot.weather_status (BallotTally.ballot t))
                (List.filter BallotTally.is_valid l))) as IH'.
      { apply IH; [|intros k x; apply (Hs (S k))].
        intros j k x y Hj Hk Hv He. apply Nat.succ_inj. by eapply (Hd (S j) (S k) x y). }
      destruct (BallotTally.is_valid t) eqn:Hv; [|done]. cbn. constructor; [|done].
      intros (x & Heq & Hx)%list_elem_of_fmap. apply list_elem_of_In, filter_In in Hx as [Hx Hvx].
      apply list_elem_of_In, list_elem_of_lookup in Hx as [k Hk].
      assert (O = S k) as [=]. apply (Hd O (S k) t x); [done|done|done|].
      rewrite (Hs O t eq_refl Hv), (Hs (S k) x Hk Hvx). by rewrite Heq.
    - intros s. subst l. intros Hs. apply in_map_iff in Hs as (t & <- & Ht).
      apply filter_In in Ht as [Ht Hv]. apply list_elem_of_In, list_elem_of_lookup in Ht as [k Hk].
      destruct (tally_valid_status self k t Hwf Hk Hv) as [_ H].
      assert (Ballot.weather_status (BallotTally.ballot t) = 0 \/ Ballot.weather_status (BallotTally.ballot t) = 1
              \/ Ballot.weather_status (BallotTally.ballot t) = 2) as Hc by lia.
      cbn. destruct Hc as [->|[->| ->]]; auto. }
  subst l. rewrite length_map in Hl. cbn in Hl. unfold count_if. lia.
Qed.

Lemma free_tally self : wf self ->
  exists k, find_index (fun t => negb (BallotTally.is_valid t)) (ballot_tallies self)
            = Some (k, BallotTally.default).
Proof.
  intros Hwf. destruct (find_index _ _) as [[k t]|] eqn:Hf.
  - exists k. pose proof (find_index_lookup _ _ _ _ Hf) as Hk. pose proof (find_index_true _ _ _ _ Hf) as Ht.
    destruct (wf_tally _ Hwf _ _ Hk) as [[-> _]|(Hv & _)]; [done|]. cbn in Ht. by rewrite Hv in Ht.
  - pose proof (unique_ballots_bound self Hwf) as Hb. rewrite (wf_unique _ Hwf), count_if_full in Hb.
    + rewrite (wf_tallies_len _ Hwf) in Hb. lia.
    + intros i t Hi. eapply find_index_None in Hf; [|done]. cbn in Hf. by destruct (BallotTally.is_valid t).
Qed.

(** ** Recording a vote *)

(** The ballot box after a vote in slot [i] for the tally at [k], which held
    [told]. *)
Definition recorded (i k : nat) (told : BallotTally.t) (op : Pubkey) (b : Ballot.t)
    (w : StakeWeights.t) (slot : u64) (self : t) : t :=
  self <| ballot_tallies := <[k := counted k b w told]> (ballot_tallies self) |>
       <| unique_ballots := unique_ballots self + Z.b2z (negb (BallotTally.is_valid told)) |>
       <| operator_votes := <[i := OperatorVote.new (Z.of_nat k) op slot w]> (operator_votes self) |>
       <| operators_voted := operators_voted self + 1 |>.

(** The tally [increment_or_create_ballot_tally] chooses: the one that has the
    ballot already, or the first free one. *)
Definition chosen (b : Ballot.t) (self : t) (k : nat) (told : BallotTally.t) : Prop :=
  ballot_tallies self !! k = Some told
  /\ (BallotTally.is_valid told = true /\ BallotTally.ballot told = b
      \/ told = BallotTally.default /\ has_ballot b self = false).

Lemma ballot_index_new k op slot w : (k < 256)%nat ->
  OperatorVote.ballot_index (OperatorVote.new (Z.of_nat k) op slot w) = Z.of_nat k.
Proof. intros. cbn -[Z.of_nat]. unfold as_u16. apply Z.mod_small. lia. Qed.

Lemma tally_lt self k t : wf self -> ballot_tallies self !! k = Some t -> (k < 256)%nat.
Proof. intros Hwf Hk. apply lookup_lt_Some in Hk. by rewrite (wf_tallies_len _ Hwf) in Hk. Qed.

Lemma vote_counts votes i j k op slot w :
  votes !! i = Some OperatorVote.default -> (j < 256)%nat -> (k < 256)%nat ->
  let votes' := <[i := OperatorVote.new (Z.of_nat k) op slot w]> votes in
  count_if (votes_for j) votes' = count_if (votes_for j) votes + Z.b2z (bool_decide (j = k))
  /\ sum_by (weight_for j) votes'
     = sum_by (weight_for j) votes + (if bool_decide (j = k) then StakeWeights.stake_weight w else 0).
Proof.
  intros Hi Hj Hk. cbn zeta.
  assert (votes_for j OperatorVote.default = false) as E.
  { apply Z.eqb_neq. cbn -[Z.of_nat]. unfold u16_MAX. lia. }
  assert (votes_for j (OperatorVote.new (Z.of_nat k) op slot w) = bool_decide (j = k)) as E'.
  { unfold votes_for. rewrite ballot_index_new by done. case_bool_decide; lia. }
  rewrite (count_if_insert _ _ _ _ _ Hi), (sum_by_insert _ _ _ _ _ Hi). unfold weight_for.
  rewrite E, E'. split; [cbn; lia|]. change (OperatorVote.weight (OperatorVote.new _ _ _ _))
    with (StakeWeights.stake_weight w). lia.
Qed.

Lemma has_ballot_spec b self : wf self -> Ballot.is_valid b = true ->
  has_ballot b self = true <->
  exists k t, ballot_tallies self !! k = Some t /\ BallotTally.is_valid t = true /\ BallotTally.ballot t = b.
Proof.
  intros Hwf Hb. unfold has_ballot. rewrite any_true. split.
  - intros (k & t & Hk & [Hv He]%Ballot.eq_spec). by exists k, t.
  - intros (k & t & Hk & Hv & He). exists k, t. split; [done|]. by apply Ballot.eq_spec.
Qed.

Lemma chosen_tally b self k told : wf self -> Ballot.is_valid b = true -> Ballot.wf b -> chosen b self k told ->
  BallotTally.tally told = count_if (votes_for k) (operator_votes self)
  /\ BallotTally.weight told = sum_by (weight_for k) (operator_votes self).
Proof.
  intros Hwf Hb Hbw [Hk Hc]. destruct (wf_tally _ Hwf _ _ Hk) as [(-> & -> & ->)|(_ & _ & _ & -> & -> & _)]; done.
Qed.

Lemma recorded_wf self i k told op b w slot :
  wf self -> operator_votes self !! i = Some OperatorVote.default ->
  Ballot.is_valid b = true -> Ballot.wf b -> chosen b self k told ->
  did_operator_vote op self = false -> StakeWeights.wf w ->
  BallotTally.weight told + StakeWeights.stake_weight w <= u128_MAX ->
  wf (recorded i k told op b w slot self).
Proof.
  intros Hwf Hi Hb Hbw Hch Hop [Hw Hw'] Hle. pose proof Hch as [Hk Hc].
  pose proof (tally_lt _ _ _ Hwf Hk) as Hk256.
  pose proof (chosen_tally _ _ _ _ Hwf Hb Hbw Hch) as [Ht Hwt].
  pose proof (proj1 (any_false _ _) Hop) as Hnew. cbn in Hnew.
  assert (Hvalid : BallotTally.is_valid (counted k b w told) = true) by done.
  assert (Hi256 : (i < 256)%nat) by (apply lookup_lt_Some in Hi; by rewrite (wf_votes_len _ Hwf) in Hi).
  assert (Hother : forall j t, ballot_tallies self !! j = Some t -> BallotTally.is_valid t = true ->
            BallotTally.ballot t = b -> j = k).
  { intros j t Hj Hv He. destruct Hc as [[Hv' He']|[-> Hno]].
    - apply (wf_ballots _ Hwf j k t told); [done..|congruence].
    - exfalso. assert (has_ballot b self = true); [|congruence].
      apply has_ballot_spec; [done..|]. by exists j, t. }
  split; cbn -[counted OperatorVote.new count_if sum_by Z.add Z.of_nat].
  - by rewrite length_insert, (wf_votes_len _ Hwf).
  - by rewrite length_insert, (wf_tallies_len _ Hwf).
  - intros j v. rewrite list_lookup_insert. case_decide as Hd.
    + intros [= <-]. right. split.
      { cbn. intros ->. specialize (Hnew i _ Hi). cbn in Hnew. lia. }
      split; [cbn; unfold OperatorVote.weight; cbn; lia|].
      exists k, (counted k b w told). rewrite ballot_index_new by done. split_and!; [done| |done].
      apply list_lookup_insert_eq. by rewrite (wf_tallies_len _ Hwf).
    + intros [?|(H1 & H2 & m & t & H3 & H4 & H5)]%(wf_vote _ Hwf); [by left|right].
      split_and!; [done..|lia|]. destruct (decide (m = k)) as [->|Hne].
      * exists k, (counted k b w told). split_and!; [done| |done].
        apply list_lookup_insert_eq. by rewrite (wf_tallies_len _ Hwf).
      * exists m, t. split_and!; [done| |done]. by rewrite list_lookup_insert_ne.
  - apply distinct_keys_insert; [apply Hwf|]. cbn. intros j v Hj Hv. specialize (Hnew j v Hj). lia.
  - erewrite count_if_insert by done. rewrite (wf_voted _ Hwf).
    unfold OperatorVote.is_empty at 3 4. rewrite ballot_index_new by done.
    change (OperatorVote.ballot_index OperatorVote.default) with u16_MAX.
    rewrite Z.eqb_refl. unfold u16_MAX. destruct (Z.of_nat k =? 65535) eqn:?; cbn; lia.
  - intros j t Hj. assert (j < 256)%nat as Hj256.
    { apply lookup_lt_Some in Hj. by rewrite length_insert, (wf_tallies_len _ Hwf) in Hj. }
    destruct (vote_counts (operator_votes self) i j k op slot w Hi Hj256 Hk256) as [Hcnt Hsum].
    unfold tally_ok. rewrite Hcnt, Hsum. revert Hj. rewrite list_lookup_insert.
    destruct (decide _) as [[<- _]|Hd].
    + intros [= <-]. rewrite bool_decide_true by done. right.
      split_and!; [done|done|done|cbn; lia|unfold BallotTally.weight at 1; cbn -[Z.add]; lia|done].
    + intros Hj. rewrite bool_decide_false, !Z.add_0_r.
      * by apply (wf_tally _ Hwf).
      * intros ->. apply Hd. by rewrite (wf_tallies_len _ Hwf).
  - erewrite count_if_insert by done. rewrite (wf_unique _ Hwf), Hvalid.
    destruct (BallotTally.is_valid told); cbn; lia.
  - intros j m s t. rewrite !list_lookup_insert. intros Hj Hm Hs He.
    destruct (decide _) as [[<- _]|], (decide _) as [[<- _]|]; simplify_eq; try done.
    + symmetry. eapply (Hother m t); [done| |done]. unfold BallotTally.is_valid. by rewrite <-He.
    + by eapply (Hother j s).
    + by apply (wf_ballots _ Hwf j m s t).
  - intros Hv. pose proof (wf_winner _ Hwf Hv) as Hhas.
    apply has_ballot_spec in Hhas as (m & t & Hm & Htv & Htb); [|done..].
    unfold has_ballot; cbn -[counted]. apply any_true. destruct (decide (m = k)) as [->|Hne].
    + exists k, (counted k b w told). split; [apply list_lookup_insert_eq; by rewrite (wf_tallies_len _ Hwf)|].
      apply Ballot.eq_spec. split; [done|]. cbn. rewrite Hk in Hm. injection Hm as <-.
      by destruct Hc as [[_ <-]|[-> _]].
    + exists m, t. split; [by rewrite list_lookup_insert_ne|]. by apply Ballot.eq_spec.
  - apply (wf_consensus _ Hwf).
Qed.

Lemma has_ballot_find b self :
  find_index (fun t => BallotTally.is_valid t && Ballot.eq (BallotTally.ballot t) b) (ballot_tallies self)
  = find_index (fun t => Ballot.eq (BallotTally.ballot t) b) (ballot_tallies self).
Proof.
  assert (forall t, BallotTally.is_valid t && Ballot.eq (BallotTally.ballot t) b
                    = Ballot.eq (BallotTally.ballot t) b) as H.
  { intros t. unfold BallotTally.is_valid, Ballot.eq. by destruct (Ballot.is_valid (BallotTally.ballot t)). }
  induction (ballot_tallies self) as [|t l IH]; cbn; [done|]. rewrite H, IH. done.
Qed.

Lemma increment_or_create_run b w self :
  wf self -> Ballot.is_valid b = true -> StakeWeights.wf w ->
  exists k told, chosen b self k told
  /\ (BallotTally.weight told + StakeWeights.stake_weight w <= u128_MAX ->
      increment_or_create_ballot_tally b w self
      = (Ok (Z.of_nat k),
         self <| ballot_tallies := <[k := counted k b w told]> (ballot_tallies self) |>
              <| unique_ballots := unique_ballots self + Z.b2z (negb (BallotTally.is_valid told)) |>))
  /\ (u128_MAX < BallotTally.weight told + StakeWeights.stake_weight w ->
      increment_or_create_ballot_tally b w self = (Err ArithmeticOverflow, self)).
Proof.
  intros Hwf Hb [Hw Hw']. unfold increment_or_create_ballot_tally.
  destruct (find_index (fun t => BallotTally.is_valid t && Ballot.eq (BallotTally.ballot t) b)
              (ballot_tallies self)) as [[k told]|] eqn:Hf.
  - pose proof (find_index_lookup _ _ _ _ Hf) as Hk. pose proof (find_index_true _ _ _ _ Hf) as Ht.
    apply andb_true_iff in Ht as [Hv [_ He]%Ballot.eq_spec].
    destruct (wf_tally _ Hwf _ _ Hk) as [[-> _]|(_ & _ & Hidx & Htally & _ & _)]; [done|].
    pose proof (count_if_le_length (votes_for k) (operator_votes self)) as Hlen.
    rewrite (wf_votes_len _ Hwf) in Hlen.
    destruct (BallotTally.increment_tally_run w told) as [Hok Herr]; [unfold u64_MAX; lia|].
    exists k, told. split; [by split; [|left]|].
    rewrite run_get_self, Hf, (run_zoom_at _ _ _ told) by done. rewrite Hv. split; intros Hle.
    + rewrite Hok by done. unfold ret, BallotTally.incremented, counted. rewrite Hidx, He.
      cbn. by rewrite Z.add_0_r.
    + rewrite Herr by done. f_equal. cbn. rewrite list_insert_id by done. by destruct self.
  - destruct (free_tally self Hwf) as [k Hfree]. pose proof (find_index_lookup _ _ _ _ Hfree) as Hk.
    pose proof (tally_lt _ _ _ Hwf Hk). pose proof (unique_ballots_bound _ Hwf).
    exists k, BallotTally.default. split.
    { split; [done|right]. split; [done|]. unfold has_ballot. apply any_false_find. by rewrite <-has_ballot_find. }
    rewrite run_get_self, Hf, Hfree. split; intros Hle.
    + rewrite run_modify, run_get_self, run_add, run_modify by (cbn; unfold u64_MAX; lia).
      unfold ret, counted, BallotTally.new, as_u16. rewrite Z.mod_small by lia.
      by destruct w.
    + unfold BallotTally.weight in Hle. cbn in Hle. lia.
Qed.

(** The window for votes: always open before consensus, closed for good by a
    tie breaker, and open for the configured number of slots after consensus. *)
Lemma is_voting_valid_eq slot valid self :
  is_voting_valid slot valid self =
  if has_winning_ballot self && (slot_consensus_reached self =? DEFAULT_CONSENSUS_REACHED_SLOT)
  then Ok false
  else if is_consensus_reached self then
    if slot_consensus_reached self + valid <=? u64_MAX
    then Ok (slot <=? slot_consensus_reached self + valid) else Err ArithmeticOverflow
  else Ok true.
Proof.
  unfold is_voting_valid, tie_breaker_set, has_winning_ballot, checked_add.
  rewrite andb_comm. destruct (_ && _); [done|]. destruct (is_consensus_reached self); [|done].
  by destruct (_ <=? u64_MAX).
Qed.

Lemma find_free_vote self : wf self ->
  (exists i, find_index OperatorVote.is_empty (operator_votes self) = Some (i, OperatorVote.default)
     /\ operators_voted self < 256)
  \/ (find_index OperatorVote.is_empty (operator_votes self) = None /\ operators_voted self = 256).
Proof.
  intros Hwf. rewrite (wf_voted _ Hwf).
  destruct (find_index OperatorVote.is_empty (operator_votes self)) as [[i v]|] eqn:Hf; [left|right].
  - pose proof (find_index_lookup _ _ _ _ Hf) as Hi. pose proof (find_index_true _ _ _ _ Hf) as Hv.
    exists i. split.
    + destruct (wf_vote _ Hwf _ _ Hi) as [->|(_ & _ & k & t & Hk & Ht & _)]; [done|].
      pose proof (tally_lt _ _ _ Hwf Ht). unfold OperatorVote.is_empty, u16_MAX in Hv. lia.
    + pose proof (count_if_insert (fun v => negb (OperatorVote.is_empty v)) _ i v (OperatorVote.mk 0 0 (StakeWeights.mk 0) 0) Hi) as Hc.
      pose proof (count_if_le_length (fun v => negb (OperatorVote.is_empty v)) (<[i:=OperatorVote.mk 0 0 (StakeWeights.mk 0) 0]> (operator_votes self))) as Hl.
      rewrite length_insert, (wf_votes_len _ Hwf) in Hl. rewrite Hc, Hv in Hl. cbn in Hl. lia.
  - split; [done|]. rewrite count_if_full, (wf_votes_len _ Hwf); [done|].
    intros i v Hi. eapply find_index_None in Hf; [|done]. by rewrite Hf.
Qed.

(** ** Casting a vote *)

(** The weight that a ballot has gathered. *)
Definition ballot_weight (b : Ballot.t) (self : t) : u128 :=
  match find_index (fun t => Ballot.eq (BallotTally.ballot t) b) (ballot_tallies self) with
  | Some (_, t) => BallotTally.weight t
  | None => 0
  end.

Lemma find_ballot self k t : wf self -> ballot_tallies self !! k = Some t -> BallotTally.is_valid t = true ->
  find_index (fun x => Ballot.eq (BallotTally.ballot x) (BallotTally.ballot t)) (ballot_tallies self) = Some (k, t).
Proof.
  intros Hwf Hk Hv. apply find_index_Some. split_and!; [done|by apply Ballot.eq_spec|].
  intros j x Hj Hx. apply not_true_iff_false. intros [Hvx He]%Ballot.eq_spec.
  assert (j = k); [|lia]. by apply (wf_ballots _ Hwf j k x t).
Qed.

Lemma chosen_weight b self k told : wf self -> chosen b self k told -> ballot_weight b self = BallotTally.weight told.
Proof.
  intros Hwf [Hk [[Hv <-]|[-> Hno]]]; unfold ballot_weight.
  - by rewrite (find_ballot _ _ _ Hwf Hk Hv).
  - apply any_false_find in Hno. by rewrite Hno.
Qed.

Lemma recorded_weight_same self i k told op b w slot :
  wf self -> Ballot.is_valid b = true -> chosen b self k told ->
  ballot_weight b (recorded i k told op b w slot self) = ballot_weight b self + StakeWeights.stake_weight w.
Proof.
  intros Hwf Hb Hch. rewrite (chosen_weight _ _ _ _ Hwf Hch). destruct Hch as [Hk Hc].
  unfold ballot_weight. cbn -[counted].
  assert (Ballot.eq (BallotTally.ballot (counted k b w told)) b = true) as He by by apply Ballot.eq_spec.
  destruct Hc as [[Hv Hbt]|[-> Hno]].
  - pose proof (find_ballot _ _ _ Hwf Hk Hv) as Hf. rewrite Hbt in Hf.
    by rewrite (find_index_insert_hit _ _ _ _ (counted k b w told) Hf He).
  - apply any_false_find in Hno. rewrite (find_index_insert_new _ _ k _ Hno); [done| |done].
    by eapply lookup_lt_Some.
Qed.

Lemma recorded_weight_other self i k told op b b' w slot :
  chosen b self k told -> b' <> b ->
  ballot_weight b' (recorded i k told op b w slot self) = ballot_weight b' self.
Proof.
  intros [Hk Hc] Hne. unfold ballot_weight. cbn -[counted].
  erewrite find_index_insert_miss; [done|done|..]; cbn -[Ballot.eq]; apply not_true_iff_false;
    intros [Hv He]%Ballot.eq_spec; [|done].
  destruct Hc as [[_ <-]|[-> _]]; done.
Qed.

Lemma recorded_voted self i k told op op' b w slot :
  operator_votes self !! i = Some OperatorVote.default ->
  did_operator_vote op (recorded i k told op b w slot self) = true
  /\ (op' <> op -> op' <> Pubkey_default ->
      did_operator_vote op' (recorded i k told op b w slot self) = did_operator_vote op' self).
Proof.
  intros Hi. unfold did_operator_vote. cbn -[OperatorVote.new]. split.
  - apply any_true. exists i, (OperatorVote.new (Z.of_nat k) op slot w).
    split; [apply list_lookup_insert_eq; by eapply lookup_lt_Some|cbn; lia].
  - intros Hop H0. apply eq_true_iff_eq. rewrite <-!not_false_iff_true, !any_false_find.
    erewrite find_index_insert_miss; [done|done|..]; apply Z.eqb_neq; by apply not_eq_sym.
Qed.

Lemma is_voting_valid_cases slot valid self :
  (exists v, is_voting_valid slot valid self = Ok v)
  \/ is_voting_valid slot valid self = Err ArithmeticOverflow.
Proof.
  rewrite is_voting_valid_eq. destruct (_ && _); [eauto|]. destruct (is_consensus_reached self); [|eauto].
  destruct (_ <=? u64_MAX); eauto.
Qed.

Lemma cast_vote_refused self op b w slot valid e :
  is_voting_valid slot valid self = Err e ->
  cast_vote op b w slot valid self = (Err e, self).
Proof. intros H. unfold cast_vote. by rewrite run_get_self, H. Qed.

Lemma cast_vote_run self op b w slot valid :
  wf self -> is_voting_valid slot valid self = Ok true -> Ballot.is_valid b = true ->
  did_operator_vote op self = false -> StakeWeights.wf w ->
  (u128_MAX < ballot_weight b self + StakeWeights.stake_weight w ->
     fst (cast_vote op b w slot valid self) = Err ArithmeticOverflow)
  /\ (ballot_weight b self + StakeWeights.stake_weight w <= u128_MAX ->
      operators_voted self = 256 /\ fst (cast_vote op b w slot valid self) = Err OperatorVotesFull
      \/ exists i k told, operator_votes self !! i = Some OperatorVote.default /\ chosen b self k told
         /\ cast_vote op b w slot valid self = (Ok tt, recorded i k told op b w slot self)).
Proof.
  intros Hwf Hval Hb Hop Hw. unfold cast_vote. rewrite run_get_self, Hval, run_lift_Ok, Hb. cbn [negb].
  change (any _ (operator_votes self)) with (did_operator_vote op self). rewrite Hop.
  destruct (increment_or_create_run b w self Hwf Hb Hw) as (k & told & Hch & Hok & Herr).
  rewrite (chosen_weight _ _ _ _ Hwf Hch). split; intros Hle.
  - unfold mbind at 1. by rewrite Herr.
  - rewrite (mbind_eq_ok _ _ _ _ _ (Hok Hle)), run_get_self.
    change (operator_votes (over _ _ _)) with (operator_votes self).
    destruct (find_free_vote self Hwf) as [(i & Hf & Hlt)|[Hf Hfull]]; rewrite Hf; [right|by left].
    exists i, k, told. split; [by eapply find_index_lookup|]. split; [done|].
    by rewrite run_modify, run_get_self, run_add by (cbn; unfold u64_MAX; lia).
Qed.

(** Casting a vote, on every branch. A vote counts only while voting is
    open, for a real ballot and for an operator that has not voted; then exactly
    its ballot gains exactly its weight, exactly this operator becomes one that
    has voted, and nothing is decided yet. A refusal for one of these reasons
    leaves the box untouched. The tallies are never full and no index is out of
    range; the votes are full only after 256 operators. *)
Theorem cast_vote_spec self op b w slot valid :
  wf self -> Ballot.wf b -> StakeWeights.wf w ->
  match cast_vote op b w slot valid self with
  | (Ok tt, self') =>
      wf self' /\ is_voting_valid slot valid self = Ok true /\ Ballot.is_valid b = true
      /\ did_operator_vote op self = false /\ did_operator_vote op self' = true
      /\ (forall op', op' <> op -> op' <> Pubkey_default ->
            did_operator_vote op' self' = did_operator_vote op' self)
      /\ operators_voted self' = operators_voted self + 1
      /\ ballot_weight b self' = ballot_weight b self + StakeWeights.stake_weight w
      /\ (forall b', b' <> b -> ballot_weight b' self' = ballot_weight b' self)
      /\ winning_ballot self' = winning_ballot self
      /\ slot_consensus_reached self' = slot_consensus_reached self
  | (Err VotingNotValid, self') => self' = self /\ is_voting_valid slot valid self = Ok false
  | (Err BadBallot, self') => self' = self /\ Ballot.is_valid b = false
  | (Err OperatorAlreadyVoted, self') => self' = self /\ did_operator_vote op self = true
  | (Err OperatorVotesFull, _) => operators_voted self = 256
  | (Err ArithmeticOverflow, _) =>
      is_voting_valid slot valid self = Err ArithmeticOverflow
      \/ u128_MAX < ballot_weight b self + StakeWeights.stake_weight w
  | _ => False
  end.
Proof.
  intros Hwf Hbw Hw. destruct (is_voting_valid_cases slot valid self) as [[v Hval]|Hval].
  2: { rewrite (cast_vote_refused _ _ _ _ _ _ _ Hval). by left. }
  destruct v; [|unfold cast_vote; by rewrite run_get_self, Hval].
  destruct (Ballot.is_valid b) eqn:Hb; [|unfold cast_vote; by rewrite run_get_self, Hval, run_lift_Ok, Hb].
  destruct (did_operator_vote op self) eqn:Hop.
  { unfold cast_vote. rewrite run_get_self, Hval, run_lift_Ok, Hb. cbn [negb].
    change (any _ (operator_votes self)) with (did_operator_vote op self). by rewrite Hop. }
  destruct (cast_vote_run self op b w slot valid Hwf Hval Hb Hop Hw) as [Herr Hok].
  destruct (Z.leb_spec (ballot_weight b self + StakeWeights.stake_weight w) u128_MAX) as [Hle|Hgt].
  - destruct (Hok Hle) as [[Hfull He]|(i & k & told & Hi & Hch & ->)].
    + destruct (cast_vote _ _ _ _ _ _) as [r s']. cbn in He. by subst r.
    + pose proof (chosen_weight _ _ _ _ Hwf Hch) as Hcw.
      destruct (recorded_voted self i k told op op b w slot Hi) as [Hv _].
      split_and!; try done.
      * apply recorded_wf; try done. by rewrite <-Hcw.
      * intros op' Hne H0. by apply (recorded_voted self i k told op op' b w slot Hi).
      * by apply recorded_weight_same.
      * intros b' Hne. by apply recorded_weight_other.
  - specialize (Herr Hgt). destruct (cast_vote _ _ _ _ _ _) as [r s']. cbn in Herr. subst r. by right.
Qed.

(** ** Tallying the votes *)

(** The test of [tally_votes]: the share of [weight] in [total], truncated to
    18 decimals, against two thirds truncated likewise. *)
Definition reaches (total weight : u128) : Prop := 666666666666666666 <= weight * PN_ONE / total.
#[global] Instance reaches_dec total weight : Decision (reaches total weight).
Proof. unfold reaches. apply _. Defined.

Lemma reaches_mul total w : 0 < total -> reaches total w <-> 666666666666666666 * total <= w * PN_ONE.
Proof.
  intros Ht. unfold reaches. split; intros H.
  - apply Z.le_trans with (w * PN_ONE / total * total); [nia|]. rewrite Z.mul_comm. by apply Z.mul_div_le.
  - apply Z.div_le_lower_bound; lia.
Qed.

(** The test in whole numbers: it never refuses two thirds, and below
    [5 * 10^17] it accepts nothing less. *)
Lemma reaches_two_thirds total w :
  0 < total -> 2 * total <= 3 * w -> reaches total w.
Proof. intros Ht H. apply reaches_mul; [done|]. unfold PN_ONE. lia. Qed.

Lemma reaches_exact total w :
  0 < total < 500000000000000000 -> reaches total w -> 2 * total <= 3 * w.
Proof. intros Ht H. apply reaches_mul in H; [|lia]. unfold PN_ONE in H. lia. Qed.

Lemma reaches_mono total w w' : 0 < total -> w <= w' -> reaches total w -> reaches total w'.
Proof. intros Ht Hle H. apply reaches_mul in H; [|done]. apply reaches_mul; [done|]. unfold PN_ONE in *. lia. Qed.

Lemma reaches_pos total w : 0 < total -> reaches total w -> total < 2 * w.
Proof. intros Ht H. apply reaches_mul in H; [|done]. unfold PN_ONE in H. lia. Qed.

Lemma tally_weight_range self k t : wf self -> ballot_tallies self !! k = Some t ->
  0 <= BallotTally.weight t <= u128_MAX.
Proof.
  intros Hwf Hk. destruct (wf_tally _ Hwf _ _ Hk) as [[-> _]|(_ & _ & _ & _ & Hw & Hle)]; [done|].
  split; [|done]. rewrite Hw. apply sum_by_nonneg. intros i v Hi. unfold weight_for.
  destruct (votes_for k v); [|done].
  destruct (wf_vote _ Hwf _ _ Hi) as [->|(_ & ? & _)]; done.
Qed.

Lemma ballot_weight_tally self k t : wf self -> ballot_tallies self !! k = Some t ->
  BallotTally.is_valid t = true -> ballot_weight (BallotTally.ballot t) self = BallotTally.weight t.
Proof. intros Hwf Hk Hv. unfold ballot_weight. by rewrite (find_ballot _ _ _ Hwf Hk Hv). Qed.

Lemma ballot_weight_cases b self : wf self ->
  (exists k t, ballot_tallies self !! k = Some t /\ BallotTally.is_valid t = true
     /\ BallotTally.ballot t = b /\ ballot_weight b self = BallotTally.weight t)
  \/ has_ballot b self = false /\ ballot_weight b self = 0.
Proof.
  intros Hwf. unfold ballot_weight.
  destruct (find_index (fun t => Ballot.eq (BallotTally.ballot t) b) (ballot_tallies self)) as [[k t]|] eqn:Hf; [left|right].
  - pose proof (find_index_lookup _ _ _ _ Hf) as Hk.
    pose proof (find_index_true _ _ _ _ Hf) as [Hv He]%Ballot.eq_spec. by exists k, t.
  - split; [|done]. by apply any_false_find.
Qed.

Lemma ballot_weight_range b self : wf self -> 0 <= ballot_weight b self <= u128_MAX.
Proof.
  intros Hwf. destruct (ballot_weight_cases b self Hwf) as [(k & t & Hk & _ & _ & ->)|[_ ->]]; [|done].
  by eapply tally_weight_range.
Qed.

(** The outcome of [tally_votes] when no ballot has won yet by weight: the
    greatest tally decides. *)
Lemma tally_votes_run `{P : PreciseNumber} {L : PreciseNumberLaws P} total slot self :
  wf self -> slot_consensus_reached self = DEFAULT_CONSENSUS_REACHED_SLOT -> 0 < total <= u128_MAX ->
  exists k m, ballot_tallies self !! k = Some m
  /\ (forall j t, ballot_tallies self !! j = Some t -> BallotTally.weight t <= BallotTally.weight m)
  /\ tally_votes total slot self =
     (Ok tt, if bool_decide (reaches total (BallotTally.weight m)) && negb (has_winning_ballot self)
             then self <| slot_consensus_reached := slot |> <| winning_ballot := BallotTally.ballot m |>
             else self).
Proof.
  intros Hwf Hslot Ht.
  destruct (max_by_key_is_Some BallotTally.weight (ballot_tallies self)) as [m Hm].
  { intros He. pose proof (wf_tallies_len _ Hwf) as Hl. by rewrite He in Hl. }
  pose proof (max_by_key_spec _ _ _ Hm) as [Hin Hmax]. apply list_elem_of_lookup in Hin as [k Hk].
  exists k, m. split; [done|]. split.
  { intros j t Hj. apply Hmax, list_elem_of_lookup. by exists j. }
  pose proof (tally_weight_range _ _ _ Hwf Hk) as Hw.
  unfold tally_votes. rewrite run_get_self, Hslot, Z.eqb_refl. cbn [negb].
  change (max_by_key _ (ballot_tallies self)) with (max_by_key BallotTally.weight (ballot_tallies self)).
  rewrite Hm. cbn [ok_or]. rewrite run_lift_Ok. destruct (total =? 0) eqn:?; [lia|].
  change (StakeWeights.stake_weight (BallotTally.stake_weights m)) with (BallotTally.weight m).
  destruct (pn_new_spec (BallotTally.weight m)) as (x & -> & Hx); [done|].
  destruct (pn_new_spec total) as (y & -> & Hy); [unfold in_range; lia|].
  cbn [ok_or]. rewrite !run_lift_Ok.
  destruct (pn_div_spec x y _ _ Hx Hy) as (z & -> & Hz); [done|lia|].
  destruct precise_consensus_spec as (c & -> & Hc).
  cbn [ok_or]. rewrite !run_lift_Ok, pn_ge_spec, Hz, Hc. unfold has_winning_ballot.
  destruct (666666666666666666 <=? _) eqn:Hr.
  - rewrite bool_decide_true by (unfold reaches; lia). by destruct (Ballot.is_valid (winning_ballot self)).
  - by rewrite bool_decide_false by (unfold reaches; lia).
Qed.

Lemma decided_wf self k m slot : wf self -> ballot_tallies self !! k = Some m -> BallotTally.is_valid m = true ->
  wf (self <| slot_consensus_reached := slot |> <| winning_ballot := BallotTally.ballot m |>).
Proof.
  intros Hwf Hk Hv. destruct Hwf. split; cbn; try done.
  intros _. unfold has_ballot; cbn. apply any_true. exists k, m. split; [done|]. by apply Ballot.eq_spec.
Qed.

(** A maximal tally that reaches the threshold is in use. *)
Lemma reaching_valid total self k m : wf self -> 0 < total -> ballot_tallies self !! k = Some m ->
  reaches total (BallotTally.weight m) -> BallotTally.is_valid m = true.
Proof.
  intros Hwf Ht Hk Hr. destruct (wf_tally _ Hwf _ _ Hk) as [[-> _]|[Hv _]]; [|done].
  apply reaches_pos in Hr; [|done]. cbn in Hr. lia.
Qed.

(** A tally against nothing. *)
Lemma tally_votes_zero `{P : PreciseNumber} slot self : wf self ->
  tally_votes 0 slot self
  = (if slot_consensus_reached self =? DEFAULT_CONSENSUS_REACHED_SLOT then Err DenominatorIsZero else Ok tt, self).
Proof.
  intros Hwf. unfold tally_votes. rewrite run_get_self.
  destruct (slot_consensus_reached self =? DEFAULT_CONSENSUS_REACHED_SLOT); [|done]. cbn [negb].
  destruct (max_by_key_is_Some BallotTally.weight (ballot_tallies self)) as [m Hm].
  { intros He. pose proof (wf_tallies_len _ Hwf) as Hl. by rewrite He in Hl. }
  change (max_by_key _ (ballot_tallies self)) with (max_by_key BallotTally.weight (ballot_tallies self)).
  by rewrite Hm.
Qed.

(** C35: tallying decides exactly when it must. While nothing is decided and
    the total is positive, a ballot wins if and only if some ballot has reached
    the threshold; the winner is then a ballot with the greatest weight, and the
    slot of the decision is recorded. With two thirds of the total a ballot is
    always enough, and for totals below [5 * 10^17] nothing less is. Once a
    ballot has won, or the tie breaker is set, a tally changes nothing. With a
    total of zero nothing is written either, and the tally fails unless the slot
    of a consensus was recorded before. *)
Theorem tally_votes_spec `{P : PreciseNumber} {L : PreciseNumberLaws P} total slot self :
  wf self -> 0 <= total <= u128_MAX ->
  (total = 0 -> tally_votes total slot self
     = (if slot_consensus_reached self =? DEFAULT_CONSENSUS_REACHED_SLOT then Err DenominatorIsZero else Ok tt, self))
  /\ (0 < total -> exists self', tally_votes total slot self = (Ok tt, self') /\ wf self'
  /\ (is_consensus_reached self = true -> self' = self)
  /\ (is_consensus_reached self = false ->
       (is_consensus_reached self' = true <-> exists b, reaches total (ballot_weight b self))
       /\ (forall b, 2 * total <= 3 * ballot_weight b self -> is_consensus_reached self' = true)
       /\ (is_consensus_reached self' = false -> self' = self)
       /\ (is_consensus_reached self' = true ->
            exists b, self' = self <| slot_consensus_reached := slot |> <| winning_ballot := b |>
            /\ reaches total (ballot_weight b self)
            /\ (total < 500000000000000000 -> 2 * total <= 3 * ballot_weight b self)
            /\ forall b', ballot_weight b' self <= ballot_weight b self))).
Proof.
  intros Hwf Hrange. split; [intros ->; by apply tally_votes_zero|intros Hpos].
  assert (0 < total <= u128_MAX) as Ht by lia. clear Hrange Hpos. destruct (is_consensus_reached self) eqn:Hc.
  - exists self. split; [|by split_and!]. unfold is_consensus_reached in Hc.
    destruct (slot_consensus_reached self =? DEFAULT_CONSENSUS_REACHED_SLOT) eqn:Hd;
      [|unfold tally_votes; by rewrite run_get_self, Hd].
    destruct (tally_votes_run total slot self Hwf ltac:(lia) Ht) as (k & m & _ & _ & ->).
    unfold has_winning_ballot. cbn in Hc. by rewrite Hc, andb_false_r.
  - unfold is_consensus_reached in Hc. apply orb_false_iff in Hc as [Hd Hw].
    apply negb_false_iff, Z.eqb_eq in Hd.
    destruct (tally_votes_run total slot self Hwf Hd Ht) as (k & m & Hk & Hmax & ->).
    unfold has_winning_ballot. rewrite Hw. cbn [negb]. rewrite andb_true_r.
    assert (Hle : forall b, ballot_weight b self <= BallotTally.weight m).
    { intros b. destruct (ballot_weight_cases b self Hwf) as [(j & t & Hj & _ & _ & ->)|[_ ->]];
        [by eapply Hmax|]. by eapply tally_weight_range. }
    assert (Hun : is_consensus_reached self = false).
    { unfold is_consensus_reached. by rewrite Hd, Hw. }
    case_bool_decide as Hr; eexists; (split; [reflexivity|]).
    + pose proof (reaching_valid _ _ _ _ Hwf (proj1 Ht) Hk Hr) as Hv.
      pose proof (ballot_weight_tally _ _ _ Hwf Hk Hv) as Hbw.
      set (self' := over _ _ _). assert (is_consensus_reached self' = true) as Hc'.
      { unfold is_consensus_reached. cbn. unfold BallotTally.is_valid in Hv. rewrite Hv. by rewrite orb_true_r. }
      split; [by eapply decided_wf|]. split; [done|]. intros _. split_and!.
      * split; [intros _|done]. exists (BallotTally.ballot m). by rewrite Hbw.
      * done.
      * by rewrite Hc'.
      * intros _. exists (BallotTally.ballot m). rewrite Hbw. split_and!; [done|done| |done].
        intros Hlt. apply reaches_exact; [lia|done].
    + assert (Hno : forall b, ~ reaches total (ballot_weight b self)).
      { intros b Hb. apply Hr. eapply reaches_mono; [lia|apply Hle|done]. }
      split; [done|]. split; [done|]. intros _. rewrite Hun. split_and!; try done.
      * split; [done|]. intros [b Hb]. by destruct (Hno b).
      * intros b Hb. destruct (Hno b). apply reaches_two_thirds; lia.
Qed.

(** What a successful vote and a successful tally did. *)
Lemma cast_vote_ok self op b w slot valid s1 :
  wf self -> StakeWeights.wf w -> cast_vote op b w slot valid self = (Ok tt, s1) ->
  exists i k told, operator_votes self !! i = Some OperatorVote.default /\ chosen b self k told
  /\ s1 = recorded i k told op b w slot self
  /\ Ballot.is_valid b = true /\ did_operator_vote op self = false
  /\ BallotTally.weight told + StakeWeights.stake_weight w <= u128_MAX.
Proof.
  intros Hwf Hw Hrun. destruct (is_voting_valid_cases slot valid self) as [[v Hval]|Hval].
  2: { by rewrite (cast_vote_refused _ _ _ _ _ _ _ Hval) in Hrun. }
  destruct v; [|unfold cast_vote in Hrun; by rewrite run_get_self, Hval in Hrun].
  destruct (Ballot.is_valid b) eqn:Hb;
    [|unfold cast_vote in Hrun; by rewrite run_get_self, Hval, run_lift_Ok, Hb in Hrun].
  destruct (did_operator_vote op self) eqn:Hop.
  { unfold cast_vote in Hrun. rewrite run_get_self, Hval, run_lift_Ok, Hb in Hrun. cbn [negb] in Hrun.
    change (any _ (operator_votes self)) with (did_operator_vote op self) in Hrun. by rewrite Hop in Hrun. }
  destruct (cast_vote_run self op b w slot valid Hwf Hval Hb Hop Hw) as [Herr Hok].
  destruct (Z.leb_spec (ballot_weight b self + StakeWeights.stake_weight w) u128_MAX) as [Hle|Hgt].
  - destruct (Hok Hle) as [[Hfull He]|(i & k & told & Hi & Hch & He)].
    + by rewrite Hrun in He.
    + rewrite Hrun in He. injection He as ->. exists i, k, told.
      split_and!; try done. by rewrite <-(chosen_weight _ _ _ _ Hwf Hch).
  - specialize (Herr Hgt). by rewrite Hrun in Herr.
Qed.

Lemma tally_votes_ok `{P : PreciseNumber} {L : PreciseNumberLaws P} total slot self s' :
  wf self -> 0 < total <= u128_MAX -> tally_votes total slot self = (Ok tt, s') ->
  s' = self
  \/ (has_winning_ballot self = false /\ slot_consensus_reached self = DEFAULT_CONSENSUS_REACHED_SLOT
      /\ exists k m, ballot_tallies self !! k = Some m /\ BallotTally.is_valid m = true
      /\ reaches total (BallotTally.weight m)
      /\ s' = self <| slot_consensus_reached := slot |> <| winning_ballot := BallotTally.ballot m |>).
Proof.
  intros Hwf Ht Hrun.
  destruct (slot_consensus_reached self =? DEFAULT_CONSENSUS_REACHED_SLOT) eqn:Hd.
  2: { unfold tally_votes in Hrun. rewrite run_get_self, Hd in Hrun. left. by injection Hrun. }
  destruct (tally_votes_run total slot self Hwf ltac:(lia) Ht) as (k & m & Hk & _ & He).
  rewrite Hrun in He. injection He as ->. case_bool_decide as Hr; [|by left].
  destruct (has_winning_ballot self) eqn:Hw; [by left|right]. split_and!; [done|lia|].
  exists k, m. split_and!; try done. exact (reaching_valid _ _ _ _ Hwf (proj1 Ht) Hk Hr).
Qed.

(** ** The life of a ballot box

    A step is what one transaction does to the box: a vote followed by a tally
    against the total of the epoch snapshot, or a tie breaker. *)
Section life.
Context {P : PreciseNumber} {L : PreciseNumberLaws P}.
Context (total valid_slots epochs_before_stall : Z) (Htotal : 0 < total <= u128_MAX).

Inductive step : t -> t -> Prop :=
| step_vote self op b w slot s1 s2 :
    Ballot.wf b -> StakeWeights.wf w -> 0 <= slot < u64_MAX ->
    cast_vote op b w slot valid_slots self = (Ok tt, s1) ->
    tally_votes total slot s1 = (Ok tt, s2) ->
    step self s2
| step_tie_breaker self status current_epoch s' :
    0 <= status ->
    set_tie_breaker_ballot status current_epoch epochs_before_stall self = (Ok tt, s') ->
    step self s'.

Lemma tie_breaker_run status e stall self s' :
  0 <= status -> set_tie_breaker_ballot status e stall self = (Ok tt, s') ->
  is_consensus_reached self = false /\ epoch self + stall <= e /\ status <= 2
  /\ has_ballot (Ballot.new status) self = true /\ s' = self <| winning_ballot := Ballot.new status |>.
Proof.
  intros Hs. unfold set_tie_breaker_ballot. rewrite run_get_self.
  destruct (is_consensus_reached self); [by intros [=]|].
  unfold checked_add. destruct (_ <=? u64_MAX); [|by intros [=]]. cbn [ok_or]. rewrite run_lift_Ok.
  destruct (e <? _) eqn:?; [by intros [=]|]. destruct (_ <? status) eqn:Hst; [by intros [=]|].
  destruct (has_ballot _ _) eqn:Hh; [|by intros [=]]. cbn in *. intros [= <-]. split_and!; (done || lia).
Qed.

Lemma tie_breaker_wf status self : wf self -> has_ballot (Ballot.new status) self = true ->
  slot_consensus_reached self = DEFAULT_CONSENSUS_REACHED_SLOT ->
  wf (self <| winning_ballot := Ballot.new status |>).
Proof. intros [] Hh Hd. by split. Qed.

(** What holds in every state of a box's life: it is well formed, the tallies
    add up to the votes, and a decision by weight rests on the threshold. *)
Record inv (self : t) : Prop := {
  inv_wf : wf self;
  inv_sum : sum_by BallotTally.weight (ballot_tallies self) = sum_by OperatorVote.weight (operator_votes self);
  inv_threshold : slot_consensus_reached self <> DEFAULT_CONSENSUS_REACHED_SLOT ->
    reaches total (ballot_weight (winning_ballot self) self);
}.

(** Changing only the decision keeps the ballots' weights. *)
Lemma ballot_weight_decided b slot w self :
  ballot_weight b (self <| slot_consensus_reached := slot |> <| winning_ballot := w |>) = ballot_weight b self.
Proof. done. Qed.

Lemma recorded_inv self i k told op b w slot :
  inv self -> operator_votes self !! i = Some OperatorVote.default ->
  Ballot.is_valid b = true -> Ballot.wf b -> chosen b self k told ->
  did_operator_vote op self = false -> StakeWeights.wf w ->
  BallotTally.weight told + StakeWeights.stake_weight w <= u128_MAX ->
  inv (recorded i k told op b w slot self).
Proof.
  intros [Hwf Hsum Hthr] Hi Hb Hbw Hch Hop Hw Hle. split.
  - by apply recorded_wf.
  - cbn -[counted OperatorVote.new sum_by]. destruct Hch as [Hk _].
    rewrite (sum_by_insert _ _ _ _ _ Hk), (sum_by_insert _ _ _ _ _ Hi), Hsum.
    change (BallotTally.weight (counted k b w told)) with (BallotTally.weight told + StakeWeights.stake_weight w).
    change (OperatorVote.weight (OperatorVote.new _ op slot w)) with (StakeWeights.stake_weight w).
    change (OperatorVote.weight OperatorVote.default) with 0. lia.
  - intros Hd. specialize (Hthr Hd). destruct (decide (winning_ballot self = b)) as [He|Hne].
    + change (winning_ballot (recorded _ _ _ _ _ _ _ _)) with (winning_ballot self). rewrite He in *.
      rewrite recorded_weight_same by done. eapply reaches_mono; [lia| |exact Hthr].
      destruct Hw. lia.
    + change (winning_ballot (recorded _ _ _ _ _ _ _ _)) with (winning_ballot self).
      by rewrite (recorded_weight_other self i k told op b _ w slot Hch Hne).
Qed.

Lemma step_inv self s' : inv self -> step self s' -> inv s'.
Proof.
  intros Hinv Hstep. destruct Hstep as [self op b w slot s1 s2 Hbw Hw Hslot Hcast Htally|self st e s' Hst Htie].
  - destruct (cast_vote_ok _ _ _ _ _ _ _ (inv_wf _ Hinv) Hw Hcast) as (i & k & told & Hi & Hch & -> & Hb & Hop & Hle).
    pose proof (recorded_inv self i k told op b w slot Hinv Hi Hb Hbw Hch Hop Hw Hle) as H1.
    destruct (tally_votes_ok _ _ _ _ (inv_wf _ H1) Htotal Htally) as [->|(_ & _ & j & m & Hj & Hv & Hr & ->)]; [done|].
    split; [eapply decided_wf; [apply H1|done..]|apply H1|]. intros _.
    rewrite ballot_weight_decided. cbn -[ballot_weight recorded].
    by rewrite (ballot_weight_tally _ _ _ (inv_wf _ H1) Hj Hv).
  - destruct (tie_breaker_run _ _ _ _ _ Hst Htie) as (Hc & _ & _ & Hh & ->).
    unfold is_consensus_reached in Hc. apply orb_false_iff in Hc as [Hd Hw].
    apply negb_false_iff, Z.eqb_eq in Hd.
    split; [apply tie_breaker_wf; [apply Hinv|done|done]|apply Hinv|]. intros Hd'. by destruct Hd'.
Qed.

Lemma new_inv n e b slot : inv (new n e b slot).
Proof. split; [apply ballot_box_new_wf|done|]. intros H. by destruct H. Qed.

Lemma life_inv self s' : inv self -> rtc step self s' -> inv s'.
Proof. intros H Hr. revert H. induction Hr; eauto using step_inv. Qed.

(** What a step keeps: the decision, once there is one, and every vote. *)
Lemma step_keeps self s' : wf self -> step self s' ->
  wf s'
  /\ (has_winning_ballot self = true ->
     winning_ballot s' = winning_ballot self /\ slot_consensus_reached s' = slot_consensus_reached self)
  /\ (forall i v, operator_votes self !! i = Some v -> OperatorVote.is_empty v = false ->
        operator_votes s' !! i = Some v).
Proof.
  intros Hwf Hstep. destruct Hstep as [self op b w slot s1 s2 Hbw Hw Hslot Hcast Htally|self st e s' Hst Htie].
  - destruct (cast_vote_ok _ _ _ _ _ _ _ Hwf Hw Hcast) as (i & k & told & Hi & Hch & -> & Hb & Hop & Hle).
    assert (wf (recorded i k told op b w slot self)) as H1 by by apply recorded_wf.
    assert (forall j v, operator_votes self !! j = Some v -> OperatorVote.is_empty v = false ->
        operator_votes (recorded i k told op b w slot self) !! j = Some v) as Hv.
    { intros j v Hj Hne. cbn -[OperatorVote.new]. rewrite list_lookup_insert_ne; [done|].
      intros <-. rewrite Hi in Hj. by injection Hj as <-. }
    destruct (tally_votes_ok _ _ _ _ H1 Htotal Htally) as [->|(Hno & _ & j & m & Hj & Hvm & Hr & ->)].
    + by split.
    + split; [by eapply decided_wf|]. split; [|exact Hv]. intros Hwin.
      change (has_winning_ballot self = false) in Hno. congruence.
  - destruct (tie_breaker_run _ _ _ _ _ Hst Htie) as (Hc & _ & _ & Hh & ->).
    unfold is_consensus_reached in Hc. apply orb_false_iff in Hc as [Hd Hno].
    apply negb_false_iff, Z.eqb_eq in Hd. split; [by apply tie_breaker_wf|]. split; [|done]. intros Hwin.
    unfold has_winning_ballot in Hwin. congruence.
Qed.

(** A box stays the box of its NCN and epoch. *)
Lemma step_identity self s' : wf self -> step self s' -> ncn s' = ncn self /\ epoch s' = epoch self.
Proof.
  intros Hwf Hstep. destruct Hstep as [self op b w slot s1 s2 Hbw Hw Hslot Hcast Htally|self st e s' Hst Htie].
  - destruct (cast_vote_ok _ _ _ _ _ _ _ Hwf Hw Hcast) as (i & k & told & Hi & Hch & -> & Hb & Hop & Hle).
    assert (wf (recorded i k told op b w slot self)) as H1 by by apply recorded_wf.
    by destruct (tally_votes_ok _ _ _ _ H1 Htotal Htally) as [->|(_ & _ & j & m & _ & _ & _ & ->)].
  - by destruct (tie_breaker_run _ _ _ _ _ Hst Htie) as (_ & _ & _ & _ & ->).
Qed.

Lemma life_keeps self s' : inv self -> rtc step self s' ->
  (has_winning_ballot self = true ->
     winning_ballot s' = winning_ballot self /\ slot_consensus_reached s' = slot_consensus_reached self)
  /\ (forall i v, operator_votes self !! i = Some v -> OperatorVote.is_empty v = false ->
        operator_votes s' !! i = Some v).
Proof.
  intros Hinv Hr. revert Hinv. induction Hr as [s|s s1 s2 Hs Hr IH]; intros Hinv; [by split|].
  destruct (step_keeps _ _ (inv_wf _ Hinv) Hs) as (_ & Hw & Hv). destruct (IH (step_inv _ _ Hinv Hs)) as [Hw' Hv'].
  split; [|by intros i v Hi Hne; apply Hv'; [apply Hv|]].
  intros Hwin. destruct (Hw Hwin) as [H1 H2].
  destruct Hw' as [H3 H4]; [unfold has_winning_ballot in *; congruence|]. split; congruence.
Qed.

(** Two different ballots share the weight of the tallies. *)
Lemma two_ballots b b' self : wf self -> b <> b' ->
  ballot_weight b self + ballot_weight b' self <= sum_by BallotTally.weight (ballot_tallies self).
Proof.
  intros Hwf Hne.
  assert (Hpos : forall k t, ballot_tallies self !! k = Some t -> 0 <= BallotTally.weight t).
  { intros k t Hk. by eapply tally_weight_range. }
  assert (Hone : forall x, ballot_weight x self <= sum_by BallotTally.weight (ballot_tallies self)).
  { intros x. destruct (ballot_weight_cases x self Hwf) as [(k & t & Hk & _ & _ & ->)|[_ ->]].
    - by eapply sum_by_elem_le.
    - by apply sum_by_nonneg. }
  destruct (ballot_weight_cases b self Hwf) as [(k & t & Hk & Hv & He & Hw)|[_ ->]]; [|by apply Hone].
  destruct (ballot_weight_cases b' self Hwf) as [(j & x & Hj & Hv' & He' & Hw')|[_ ->]].
  2: { rewrite Z.add_0_r. apply Hone. }
  rewrite Hw, Hw'. assert (k <> j) as Hkj by congruence.
  assert (BallotTally.weight x <= sum_by BallotTally.weight (<[k := BallotTally.default]> (ballot_tallies self))) as Hx.
  { apply sum_by_elem_le with (i := j); [|by rewrite list_lookup_insert_ne].
    intros m y. rewrite list_lookup_insert. case_decide; [by intros [= <-]|apply Hpos]. }
  rewrite (sum_by_insert _ _ _ _ _ Hk) in Hx. change (BallotTally.weight BallotTally.default) with 0 in Hx. lia.
Qed.

(** Agreement. Over the whole life of a ballot box, once a ballot has won
    (by weight or by the tie breaker) the winner and the slot of the decision
    never change, and a vote that was cast stays exactly as it was cast. *)
Theorem winner_is_final n e bump slot self s' :
  rtc step (new n e bump slot) self -> rtc step self s' ->
  (has_winning_ballot self = true ->
     has_winning_ballot s' = true /\ winning_ballot s' = winning_ballot self
     /\ slot_consensus_reached s' = slot_consensus_reached self)
  /\ (forall i v, operator_votes self !! i = Some v -> OperatorVote.is_empty v = false ->
        operator_votes s' !! i = Some v).
Proof.
  intros H1 H2. pose proof (life_inv _ _ (new_inv n e bump slot) H1) as Hinv.
  destruct (life_keeps _ _ Hinv H2) as [Hw Hv]. split; [|done]. intros Hwin.
  destruct (Hw Hwin) as [He Hs]. unfold has_winning_ballot in *. by rewrite He.
Qed.

(** A winner in a box whose invariant holds. *)
Lemma inv_winner self : inv self -> has_winning_ballot self = true ->
  (exists t, get_winning_ballot_tally self = Ok t /\ BallotTally.ballot t = winning_ballot self
     /\ BallotTally.weight t = ballot_weight (winning_ballot self) self)
  /\ (tie_breaker_set self = true
      \/ reaches total (ballot_weight (winning_ballot self) self)
         /\ (total < 500000000000000000 -> 2 * total <= 3 * ballot_weight (winning_ballot self) self)
         /\ (sum_by OperatorVote.weight (operator_votes self) <= total ->
             forall b, b <> winning_ballot self -> 2 * ballot_weight b self < total)).
Proof.
  intros [Hwf Hsum Hthr] Hwin.
  unfold has_winning_ballot in Hwin. split.
  - pose proof (wf_winner _ Hwf Hwin) as Hh. apply has_ballot_spec in Hh as (k & t & Hk & Hv & Ht); [|done..].
    exists t. unfold get_winning_ballot_tally, ballot_weight. rewrite Hwin, <-Ht.
    by rewrite (find_ballot _ _ _ Hwf Hk Hv).
  - unfold tie_breaker_set. rewrite Hwin, andb_true_r.
    destruct (slot_consensus_reached self =? DEFAULT_CONSENSUS_REACHED_SLOT) eqn:Hd; [by left|right].
    specialize (Hthr ltac:(lia)). split_and!; [done| |].
    + intros Hlt. apply reaches_exact; [lia|done].
    + intros Hle b Hne. pose proof (two_ballots _ _ _ Hwf Hne) as Htwo.
      pose proof (reaches_pos _ _ (proj1 Htotal) Hthr). lia.
Qed.

(** C9: legitimacy. Whenever a ballot has won, its tally can be found, and
    either the tie breaker set it, or its weight passes the threshold of two
    thirds; in that case, while no more than the total has voted, every other
    ballot has less than half of the total. *)
Theorem winner_has_threshold n e bump slot self :
  rtc step (new n e bump slot) self -> has_winning_ballot self = true ->
  (exists t, get_winning_ballot_tally self = Ok t /\ BallotTally.ballot t = winning_ballot self
     /\ BallotTally.weight t = ballot_weight (winning_ballot self) self)
  /\ (tie_breaker_set self = true
      \/ reaches total (ballot_weight (winning_ballot self) self)
         /\ (total < 500000000000000000 -> 2 * total <= 3 * ballot_weight (winning_ballot self) self)
         /\ (sum_by OperatorVote.weight (operator_votes self) <= total ->
             forall b, b <> winning_ballot self -> 2 * ballot_weight b self < total)).
Proof. intros H. apply inv_winner. exact (life_inv _ _ (new_inv n e bump slot) H). Qed.

(** Accounting. In every reachable state the tallies add up to the weights
    of the votes that were cast, each operator holds at most one vote, the
    number of votes is the count kept, and at most three ballots are in use, so
    a vote is never refused for want of a tally. *)
Theorem tallies_add_up n e bump slot self :
  rtc step (new n e bump slot) self ->
  sum_by BallotTally.weight (ballot_tallies self) = sum_by OperatorVote.weight (operator_votes self)
  /\ (forall i j v w, operator_votes self !! i = Some v -> operator_votes self !! j = Some w ->
        OperatorVote.is_empty v = false -> OperatorVote.operator v = OperatorVote.operator w -> i = j)
  /\ operators_voted self = count_if (fun v => negb (OperatorVote.is_empty v)) (operator_votes self)
  /\ unique_ballots self <= 3.
Proof.
  intros H. destruct (life_inv _ _ (new_inv n e bump slot) H) as [Hwf Hsum _]. split_and!.
  - done.
  - intros i j v w Hi Hj Hne He. apply (wf_vote_distinct _ Hwf i j v w); [done..|].
    destruct (wf_vote _ Hwf _ _ Hi) as [->|[? _]]; done.
  - apply Hwf.
  - by apply unique_ballots_bound.
Qed.
End life.

(** An operator's vote, with the ballot that it is for. *)
Definition voted_for (v : OperatorVote.t) (b : Ballot.t) (self : t) : Prop :=
  exists i k tally, operator_votes self !! i = Some v /\ OperatorVote.is_empty v = false
  /\ OperatorVote.ballot_index v = Z.of_nat k /\ ballot_tallies self !! k = Some tally
  /\ BallotTally.ballot tally = b.

Lemma vote_has_ballot self i v : wf self -> operator_votes self !! i = Some v -> OperatorVote.is_empty v = false ->
  exists b, voted_for v b self.
Proof.
  intros Hwf Hi Hne. destruct (wf_vote _ Hwf _ _ Hi) as [->|(_ & _ & k & t & Hvk & Hk & _)]; [done|].
  by exists (BallotTally.ballot t), i, k, t.
Qed.

Lemma some_vote self : wf self -> 0 < operators_voted self -> exists v b, voted_for v b self.
Proof.
  intros Hwf Hv. rewrite (wf_voted _ Hwf) in Hv. destruct (count_if_pos _ _ Hv) as (i & v & Hi & Hne).
  exists v. eapply vote_has_ballot; [done..|]. by apply negb_true_iff.
Qed.

(** Every ballot with a vote is accepted. *)
Lemma tie_breaker_accepts self v b e stall : wf self -> voted_for v b self ->
  is_consensus_reached self = false -> epoch self + stall <= e <= u64_MAX ->
  0 <= Ballot.weather_status b
  /\ set_tie_breaker_ballot (Ballot.weather_status b) e stall self = (Ok tt, self <| winning_ballot := b |>)
  /\ has_winning_ballot (self <| winning_ballot := b |>) = true.
Proof.
  intros Hwf (i & k & t & Hi & Hne & Hvk & Hk & <-) Hc He.
  assert (BallotTally.is_valid t = true) as Ht.
  { destruct (wf_vote _ Hwf _ _ Hi) as [->|(_ & _ & k' & t' & Hvk' & Hk' & Ht)]; [done|].
    assert (k' = k) as -> by lia. congruence. }
  destruct (tally_valid_status _ _ _ Hwf Hk Ht) as [Hb Hs]. split; [lia|].
  unfold set_tie_breaker_ballot. rewrite run_get_self, Hc. unfold checked_add.
  destruct (_ <=? u64_MAX) eqn:?; [|lia]. cbn [ok_or]. rewrite run_lift_Ok.
  destruct (e <? _) eqn:?; [lia|]. cbn [WeatherStatus.as_u8]. destruct (_ <? Ballot.weather_status _) eqn:?; [lia|].
  assert (Ballot.new (Ballot.weather_status (BallotTally.ballot t)) = BallotTally.ballot t) as ->.
  { rewrite Hb at 2. unfold Ballot.new. cbn. by destruct (_ <=? 2) eqn:?; [|lia]. }
  assert (has_ballot (BallotTally.ballot t) self = true) as -> by (apply has_ballot_spec; [done|done|by exists k, t]).
  split; [done|exact Ht].
Qed.

(** The tie breaker, on every branch. It is accepted exactly when nothing
    is decided, the epoch has stalled, and the status is one that has a vote;
    then only the winning ballot is set, the slot of the decision stays unset
    and voting is closed for good. Every refusal leaves the box untouched. *)
Theorem set_tie_breaker_spec self status e stall slot valid :
  wf self -> 0 <= status ->
  match set_tie_breaker_ballot status e stall self with
  | (Ok tt, self') =>
      is_consensus_reached self = false /\ epoch self + stall <= e
      /\ has_ballot (Ballot.new status) self = true
      /\ self' = self <| winning_ballot := Ballot.new status |> /\ wf self'
      /\ tie_breaker_set self' = true /\ is_voting_valid slot valid self' = Ok false
  | (Err ConsensusAlreadyReached, self') => self' = self /\ is_consensus_reached self = true
  | (Err VotingNotFinalized, self') => self' = self /\ e < epoch self + stall
  | (Err BadBallot, self') => self' = self /\ 2 < status
  | (Err TieBreakerNotInPriorVotes, self') =>
      self' = self /\ has_ballot (Ballot.new status) self = false
  | (Err ArithmeticOverflow, self') => self' = self /\ u64_MAX < epoch self + stall
  | _ => False
  end.
Proof.
  intros Hwf Hs. destruct (set_tie_breaker_ballot status e stall self) as [r s'] eqn:E.
  destruct r as [[]|err|].
  - destruct (tie_breaker_run _ _ _ _ _ Hs E) as (Hc & He & Hst & Hh & ->).
    unfold is_consensus_reached in Hc. apply orb_false_iff in Hc as [Hd Hw].
    apply negb_false_iff, Z.eqb_eq in Hd.
    assert (Ballot.is_valid (Ballot.new status) = true) as Hv.
    { unfold Ballot.new. cbn. by destruct (status <=? 2) eqn:?; [|lia]. }
    assert (tie_breaker_set (self <| winning_ballot := Ballot.new status |>) = true) as Htie.
    { unfold tie_breaker_set. cbn [slot_consensus_reached winning_ballot over]. by rewrite Hd, Hv. }
    split_and!; try done.
    + unfold is_consensus_reached. by rewrite Hd, Hw.
    + by apply tie_breaker_wf.
    + unfold is_voting_valid. by rewrite Htie.
  - unfold set_tie_breaker_ballot in E. rewrite run_get_self in E.
    destruct (is_consensus_reached self) eqn:?; [by injection E as <- <-|].
    unfold checked_add in E. destruct (_ <=? u64_MAX) eqn:?; cbn [ok_or] in E;
      [rewrite run_lift_Ok in E|rewrite run_lift_Err in E; injection E as <- <-; split; [done|lia]].
    destruct (e <? _) eqn:?; [injection E as <- <-; split; [done|lia]|].
    destruct (_ <? status) eqn:?; [injection E as <- <-; split; [done|cbn in *; lia]|].
    destruct (has_ballot _ _) eqn:?; cbn [negb] in E; [by injection E|by injection E as <- <-].
  - unfold set_tie_breaker_ballot in E. rewrite run_get_self in E.
    destruct (is_consensus_reached self) eqn:?; [by injection E|].
    unfold checked_add in E. destruct (_ <=? u64_MAX) eqn:?; cbn [ok_or] in E;
      [rewrite run_lift_Ok in E|rewrite run_lift_Err in E; by injection E].
    repeat (destruct (if _ then _ else _) in E); by repeat case_match.
Qed.

(** ** A concrete life

    A total of 90: operator 31 votes with 60, which decides; operator 32 still
    votes, within the window, for another ballot. *)
Definition example_box : t := new 7 5 255 100.
Definition example_voted : t := snd (cast_vote 31 (Ballot.new 1) (StakeWeights.mk 60) 110 1000 example_box).
Definition example_decided : t := snd (@tally_votes fixed_point 90 110 example_voted).
Definition example_later : t :=
  snd (@tally_votes fixed_point 90 120
    (snd (cast_vote 32 (Ballot.new 2) (StakeWeights.mk 20) 120 1000 example_decided))).

Lemma example_total : 0 < 90 <= u128_MAX.
Proof. split; [reflexivity|discriminate]. Qed.
Lemma example_ballot : Ballot.wf (Ballot.new 1).
Proof. by apply Ballot.ballot_new_wf. Qed.
Lemma example_weight : StakeWeights.wf (StakeWeights.mk 60).
Proof. split; discriminate. Qed.

Lemma example_life : rtc (step (P := fixed_point) 90 1000 2) example_box example_decided.
Proof.
  apply rtc_once.
  apply (step_vote _ _ _ example_box 31 (Ballot.new 1) (StakeWeights.mk 60) 110 example_voted).
  - apply example_ballot.
  - apply example_weight.
  - split; [discriminate|reflexivity].
  - vm_compute. reflexivity.
  - vm_compute. reflexivity.
Qed.

Lemma example_decided_inv : inv 90 example_decided.
Proof.
  eapply (life_inv (L := fixed_point_laws) 90 1000 2 example_total example_box); [|exact example_life].
  unfold example_box. apply new_inv; apply example_total.
Qed.

Lemma example_life_later : rtc (step (P := fixed_point) 90 1000 2) example_decided example_later.
Proof.
  apply rtc_once.
  apply (step_vote _ _ _ example_decided 32 (Ballot.new 2) (StakeWeights.mk 20) 120
    (snd (cast_vote 32 (Ballot.new 2) (StakeWeights.mk 20) 120 1000 example_decided))).
  - by apply Ballot.ballot_new_wf.
  - split; discriminate.
  - split; [discriminate|reflexivity].
  - vm_compute. reflexivity.
  - vm_compute. reflexivity.
Qed.

Lemma example_voted_wf : wf example_voted.
Proof.
  destruct (cast_vote_ok example_box 31 (Ballot.new 1) (StakeWeights.mk 60) 110 1000 example_voted
    (ballot_box_new_wf _ _ _ _) example_weight) as (i & k & told & Hi & Hch & -> & Hb & Hop & Hle).
  { vm_compute. reflexivity. }
  apply recorded_wf; (done || apply ballot_box_new_wf || apply example_weight || apply example_ballot).
Qed.

Lemma cast_vote_spec_witness :
  ballot_weight (Ballot.new 1) example_voted = ballot_weight (Ballot.new 1) example_box + 60
  /\ did_operator_vote 31 example_voted = true.
Proof.
  pose proof (cast_vote_spec example_box 31 (Ballot.new 1) (StakeWeights.mk 60) 110 1000
    (ballot_box_new_wf _ _ _ _) example_ballot example_weight) as H.
  destruct (cast_vote 31 (Ballot.new 1) (StakeWeights.mk 60) 110 1000 example_box) as [r s] eqn:E.
  assert (r = Ok tt) as Hr by (apply (f_equal fst) in E; vm_compute in E; symmetry; exact E).
  assert (s = example_voted) as Hs by (unfold example_voted; rewrite E; reflexivity).
  subst r s. split; [exact (proj1 (proj2 (proj2 (proj2 (proj2 (proj2 (proj2 (proj2 H))))))))|].
  exact (proj1 (proj2 (proj2 (proj2 (proj2 H))))).
Defined.

Lemma tally_votes_spec_witness :
  exists self', @tally_votes fixed_point 90 110 example_voted = (Ok tt, self')
  /\ is_consensus_reached self' = true.
Proof.
  destruct (proj2 (tally_votes_spec (L := fixed_point_laws) 90 110 example_voted example_voted_wf
    ltac:(pose proof example_total; lia)) ltac:(done)) as (self' & Hrun & _ & _ & H).
  exists self'. split; [exact Hrun|].
  assert (is_consensus_reached example_voted = false) as Hn by (vm_compute; reflexivity).
  apply (proj1 (proj2 (H Hn)) (Ballot.new 1)). vm_compute. discriminate.
Defined.

Lemma winner_is_final_witness :
  has_winning_ballot example_decided = true /\ winning_ballot example_later = winning_ballot example_decided.
Proof.
  assert (has_winning_ballot example_decided = true) as Hw by (vm_compute; reflexivity).
  split; [exact Hw|].
  exact (proj1 (proj2 (proj1 (winner_is_final (L := fixed_point_laws) 90 1000 2 example_total 7 5 255 100
    example_decided example_later example_life example_life_later) Hw))).
Defined.

Lemma winner_has_threshold_witness :
  exists t, get_winning_ballot_tally example_decided = Ok t.
Proof.
  assert (has_winning_ballot example_decided = true) as Hw by (vm_compute; reflexivity).
  destruct (proj1 (winner_has_threshold (L := fixed_point_laws) 90 1000 2 example_total 7 5 255 100
    example_decided example_life Hw)) as (t & Ht & _).
  exists t. exact Ht.
Defined.

Lemma tallies_add_up_witness :
  sum_by BallotTally.weight (ballot_tallies example_decided)
  = sum_by OperatorVote.weight (operator_votes example_decided).
Proof.
  exact (proj1 (tallies_add_up (L := fixed_point_laws) 90 1000 2 example_total 7 5 255 100
    example_decided example_life)).
Defined.

Lemma set_tie_breaker_spec_witness :
  wf example_voted /\ is_voting_valid 200 1000 (snd (set_tie_breaker_ballot 1 7 2 example_voted)) = Ok false.
Proof.
  split; [exact example_voted_wf|].
  pose proof (set_tie_breaker_spec example_voted 1 7 2 200 1000 example_voted_wf ltac:(discriminate)) as H.
  destruct (set_tie_breaker_ballot 1 7 2 example_voted) as [r s] eqn:E.
  assert (r = Ok tt) as Hr by (apply (f_equal fst) in E; vm_compute in E; symmetry; exact E).
  subst r. exact (proj2 (proj2 (proj2 (proj2 (proj2 (proj2 H)))))).
Defined.

(** The threshold is truncated to 18 decimals. For a total of [10^18] a
    ballot with weight [666666666666666666] is strictly below two thirds, and
    wins. *)
Theorem consensus_below_two_thirds :
  let w := 666666666666666666 in
  let voted := snd (cast_vote 31 (Ballot.new 1) (StakeWeights.mk w) 110 1000 example_box) in
  3 * w < 2 * PN_ONE
  /\ has_winning_ballot (snd (@tally_votes fixed_point PN_ONE 110 voted)) = true.
Proof. vm_compute. split; reflexivity. Qed.
End BallotBox.
