(* ===== verification/EpochStates.v ===== *)
(** The state of an epoch ([core/src/epoch_state.rs]): which accounts of the
    epoch exist, how far each phase has progressed, and from these the phase
    the epoch is in. The program's handlers report what they did through the
    updaters; the keeper reads the phase. *)
From S2P Require Import Prelude Errors Precise.

Module AccountStatus.
Inductive t := DNE | Created | CreatedWithReceiver | Closed.
#[global] Instance t_eq_dec : EqDecision t.
Proof. solve_decision. Defined.

Definition as_u8 (s : t) : u8 :=
  match s with DNE => 0 | Created => 1 | CreatedWithReceiver => 2 | Closed => 3 end.
End AccountStatus.

Module EpochAccountStatus.
Import NCNProgramError AccountStatus.

Record t := mk {
  epoch_state' : u8;
  weight_table' : u8;
  epoch_snapshot' : u8;
  operator_snapshot' : list u8;
  ballot_box' : u8;
  ncn_reward_router' : u8;
  operator_vault_reward_router' : list u8;
}.
#[global] Instance eta_t : Eta t := fun s =>
  mk (epoch_state' s) (weight_table' s) (epoch_snapshot' s) (operator_snapshot' s) (ballot_box' s)
     (ncn_reward_router' s) (operator_vault_reward_router' s).

Definition default : t :=
  mk 0 0 0 (replicate (Z.to_nat MAX_OPERATORS) 0) 0 0 (replicate (Z.to_nat MAX_OPERATORS) 0).

Definition get_account_status (u : u8) : result NCNProgramError.t AccountStatus.t :=
  match u with
  | 0 => Ok DNE
  | 1 => Ok Created
  | 2 => Ok CreatedWithReceiver
  | 3 => Ok Closed
  | _ => Err InvalidAccountStatus
  end.

Definition epoch_state (s : t) := get_account_status (epoch_state' s).
Definition weight_table (s : t) := get_account_status (weight_table' s).
Definition epoch_snapshot (s : t) := get_account_status (epoch_snapshot' s).
Definition operator_snapshot (index : usize) (s : t) : result NCNProgramError.t AccountStatus.t :=
  match operator_snapshot' s !! Z.to_nat index with
  | Some u => get_account_status u
  | None => Panic
  end.
Definition ballot_box (s : t) := get_account_status (ballot_box' s).
Definition ncn_reward_router (s : t) := get_account_status (ncn_reward_router' s).

Definition set_epoch_state (status : AccountStatus.t) (s : t) : t :=
  s <| epoch_state' := as_u8 status |>.
Definition set_weight_table (status : AccountStatus.t) (s : t) : t :=
  s <| weight_table' := as_u8 status |>.
Definition set_epoch_snapshot (status : AccountStatus.t) (s : t) : t :=
  s <| epoch_snapshot' := as_u8 status |>.
Definition set_operator_snapshot {E} (index : usize) (status : AccountStatus.t) : M t E unit :=
  zoom_at operator_snapshot' (put operator_snapshot') (Z.to_nat index)
    (modify (fun _ => as_u8 status)).
Definition set_ballot_box (status : AccountStatus.t) (s : t) : t :=
  s <| ballot_box' := as_u8 status |>.
Definition set_ncn_reward_router (status : AccountStatus.t) (s : t) : t :=
  s <| ncn_reward_router' := as_u8 status |>.
Definition set_operator_vault_reward_router {E} (index : usize) (status : AccountStatus.t)
    : M t E unit :=
  zoom_at operator_vault_reward_router' (put operator_vault_reward_router') (Z.to_nat index)
    (modify (fun _ => as_u8 status)).

(** The test in the loops: an account of an operator is still open. *)
Definition is_open (u : u8) : bool :=
  let is_dne := u =? as_u8 DNE in
  let is_closed := u =? as_u8 Closed in
  negb is_dne && negb is_closed.

Definition are_all_closed (s : t) : bool :=
  if negb (weight_table' s =? as_u8 Closed) then false
  else if negb (epoch_snapshot' s =? as_u8 Closed) then false
  else if any is_open (operator_snapshot' s) then false
  else if negb (ballot_box' s =? as_u8 Closed) then false
  else if negb (ncn_reward_router' s =? as_u8 Closed) then false
  else if any is_open (operator_vault_reward_router' s) then false
  else true.

(** A status byte is one of the four. *)
Definition status_ok (u : u8) : Prop := 0 <= u <= 3.
Record wf (s : t) : Prop := {
  wf_epoch_state : status_ok (epoch_state' s);
  wf_weight_table : status_ok (weight_table' s);
  wf_epoch_snapshot : status_ok (epoch_snapshot' s);
  wf_ballot_box : status_ok (ballot_box' s);
  wf_ncn_reward_router : status_ok (ncn_reward_router' s);
  wf_operator_len : List.length (operator_snapshot' s) = 256%nat;
  wf_operator : forall i u, operator_snapshot' s !! i = Some u -> status_ok u;
  wf_router_len : List.length (operator_vault_reward_router' s) = 256%nat;
  wf_router : forall i u, operator_vault_reward_router' s !! i = Some u -> status_ok u;
}.

Lemma as_u8_ok st : status_ok (as_u8 st).
Proof. by destruct st. Qed.

Lemma get_account_status_as_u8 st : get_account_status (as_u8 st) = Ok st.
Proof. by destruct st. Qed.

Lemma get_account_status_ok u : status_ok u -> exists st, get_account_status u = Ok st /\ u = as_u8 st.
Proof.
  intros Hu. assert (u = 0 \/ u = 1 \/ u = 2 \/ u = 3) as Hc by (unfold status_ok in Hu; lia).
  destruct Hc as [->|[->|[->| ->]]]; eexists; (split; [reflexivity|done]).
Qed.

Lemma account_status_default_wf : wf default.
Proof.
  split; cbn -[replicate]; try done; try apply length_replicate; by intros i u [-> _]%lookup_replicate.
Qed.

Lemma is_open_spec u : is_open u = false <-> u = as_u8 DNE \/ u = as_u8 Closed.
Proof. unfold is_open. rewrite andb_false_iff, !negb_false_iff, !Z.eqb_eq. done. Qed.

(** Everything an epoch's state waits for before it can be closed itself. *)
Definition all_closed (s : t) : Prop :=
  weight_table s = Ok Closed /\ epoch_snapshot s = Ok Closed
  /\ ballot_box s = Ok Closed /\ ncn_reward_router s = Ok Closed
  /\ (forall i, 0 <= i < 256 ->
        operator_snapshot i s = Ok DNE \/ operator_snapshot i s = Ok Closed)
  /\ (forall i u, operator_vault_reward_router' s !! i = Some u -> u = as_u8 DNE \/ u = as_u8 Closed).

Lemma are_all_closed_spec s : wf s -> are_all_closed s = true <-> all_closed s.
Proof.
  intros Hwf. unfold all_closed, are_all_closed, weight_table,
    epoch_snapshot, ballot_box, ncn_reward_router.
  assert (Hst : forall u, status_ok u ->
    u =? as_u8 Closed = true <->
    get_account_status u = Ok Closed).
  { intros u Hu. destruct (get_account_status_ok u Hu) as (st & -> & ->).
    by destruct st. }
  assert (Hop : any is_open (operator_snapshot' s) = false <->
    forall i, 0 <= i < 256 ->
      operator_snapshot i s = Ok DNE
      \/ operator_snapshot i s = Ok Closed).
  { rewrite any_false. unfold operator_snapshot. split.
    - intros H i Hi. destruct (lookup_lt_is_Some_2 (operator_snapshot' s) (Z.to_nat i)) as [u Hu].
      { rewrite (wf_operator_len _ Hwf). lia. }
      rewrite Hu. apply (H _ _) in Hu. apply is_open_spec in Hu as [->| ->]; auto.
    - intros H i u Hu. pose proof (lookup_lt_Some _ _ _ Hu) as Hlt.
      rewrite (wf_operator_len _ Hwf) in Hlt.
      specialize (H (Z.of_nat i) ltac:(lia)). rewrite Nat2Z.id, Hu in H.
      destruct (get_account_status_ok u) as (st & Hg & ->);
        [by eapply wf_operator|].
      rewrite Hg in H. by destruct st, H as [[=]|[=]]. }
  rewrite <-!Hst, <-Hop by apply Hwf.
  destruct (any is_open (operator_snapshot' s)); repeat destruct (_ =? _); cbn [negb];
    try (split; [done|naive_solver]).
  destruct (any is_open (operator_vault_reward_router' s)) eqn:Hr.
  - split; [done|]. intros (_ & _ & _ & _ & _ & H). apply any_true in Hr as (i & u & Hi & Hu).
    apply H, is_open_spec in Hi. congruence.
  - split; [|done]. intros _. split_and!; try done. intros i u Hi.
    apply is_open_spec. by eapply any_false.
Qed.
End EpochAccountStatus.

Module Progress.
Import NCNProgramError.

Record t := mk { tally : u64; total : u64 }.
#[global] Instance eta_t : Eta t := fun p => mk (tally p) (total p).

Definition INVALID : u64 := u64_MAX.
Definition default : t := mk INVALID INVALID.
Definition new (total : u64) : t := mk 0 total.

Definition increment (amount : u64) : M t NCNProgramError.t unit :=
  let* self := get_self in
  let* n := lift (ok_or (checked_add u64_MAX (tally self) amount) ArithmeticOverflow) in
  modify (put tally n).
Definition increment_one : M t NCNProgramError.t unit := increment 1.

Definition set_tally (n : u64) (p : t) : t := p <| tally := n |>.
Definition set_total (n : u64) (p : t) : t := p <| total := n |>.
Definition is_invalid (p : t) : bool := (tally p =? INVALID) || (total p =? INVALID).
Definition is_complete (p : t) : bool :=
  if is_invalid p then false else total p <=? tally p.

Lemma tally_run amount p :
  increment amount p =
  if tally p + amount <=? u64_MAX then (Ok tt, p <| tally := tally p + amount |>)
  else (Err ArithmeticOverflow, p).
Proof. unfold increment, checked_add; munfold. by destruct (_ <=? _). Qed.

(** An update that ignores the error: [let _ = p.increment(amount)]. *)
Definition increment_ignored (amount : u64) (p : t) : t := snd (increment amount p).
End Progress.

Module State.
Inductive t := SetWeight | Snapshot | Vote | PostVoteCooldown | Distribute | Close.
#[global] Instance t_eq_dec : EqDecision t.
Proof. solve_decision. Defined.
End State.

Module EpochState.
Import NCNProgramError.

Record t := mk {
  ncn : Pubkey;
  epoch : u64;
  bump : u8;
  slot_created : u64;
  was_tie_breaker_set : bool;
  slot_consensus_reached : u64;
  operator_count : u64;
  vault_count : u64;
  account_status : EpochAccountStatus.t;
  set_weight_progress : Progress.t;
  epoch_snapshot_progress : Progress.t;
  operator_snapshot_progress' : list Progress.t;
  voting_progress : Progress.t;
  total_distribution_progress : Progress.t;
  ncn_distribution_progress : Progress.t;
  protocol_distribution_progress : Progress.t;
  operator_vault_distribution_progress : Progress.t;
  operator_vault_routes_distribution_progress : list Progress.t;
  is_closing : bool;
}.
#[global] Instance eta_t : Eta t := fun s =>
  mk (ncn s) (epoch s) (bump s) (slot_created s) (was_tie_breaker_set s) (slot_consensus_reached s)
     (operator_count s) (vault_count s) (account_status s) (set_weight_progress s)
     (epoch_snapshot_progress s) (operator_snapshot_progress' s) (voting_progress s)
     (total_distribution_progress s) (ncn_distribution_progress s)
     (protocol_distribution_progress s) (operator_vault_distribution_progress s)
     (operator_vault_routes_distribution_progress s) (is_closing s).

Definition new (ncn : Pubkey) (epoch : u64) (bump : u8) (slot_created : u64) : t :=
  mk ncn epoch bump slot_created false DEFAULT_CONSENSUS_REACHED_SLOT 0 0
     EpochAccountStatus.default Progress.default Progress.default
     (replicate (Z.to_nat MAX_OPERATORS) Progress.default) Progress.default Progress.default
     Progress.default Progress.default Progress.default
     (replicate (Z.to_nat MAX_OPERATORS) Progress.default) false.

Definition initialize (n : Pubkey) (e : u64) (b : u8) (slot : u64) (self : t) : t :=
  self <| ncn := n |> <| bump := b |> <| epoch := e |> <| slot_created := slot |>
       <| slot_consensus_reached := DEFAULT_CONSENSUS_REACHED_SLOT |>.

(** The account as the system program hands it over, all bytes zero. *)
Definition zeroed : t :=
  let p := Progress.mk 0 0 in
  mk Pubkey_default 0 0 0 false 0 0 0 EpochAccountStatus.default p p
     (replicate (Z.to_nat MAX_OPERATORS) p) p p p p p (replicate (Z.to_nat MAX_OPERATORS) p) false.

Definition load_to_close (account_to_close : t) (n : Pubkey) (e : u64) : result ProgramError.t unit :=
  if negb (ncn account_to_close =? n) then into (Err CannotCloseAccount)
  else if negb (epoch account_to_close =? e) then into (Err CannotCloseAccount)
  else if negb (EpochAccountStatus.are_all_closed (account_status account_to_close))
  then into (Err CannotCloseEpochStateAccount)
  else Ok tt.

Definition is_consensus_reached (self : t) : bool :=
  negb (slot_consensus_reached self =? DEFAULT_CONSENSUS_REACHED_SLOT).
Definition get_slot_consensus_reached (self : t) : result NCNProgramError.t u64 :=
  if slot_consensus_reached self =? DEFAULT_CONSENSUS_REACHED_SLOT then Err ConsensusNotReached
  else Ok (slot_consensus_reached self).

(** [get_epoch] is [EpochSchedule::get_epoch] of the runtime. *)
Definition get_epoch_consensus_reached (get_epoch : u64 -> u64) (self : t)
    : result ProgramError.t u64 :=
  let? slot_consensus_reached := into (get_slot_consensus_reached self) in
  Ok (get_epoch slot_consensus_reached).

Definition operator_snapshot_progress (ncn_operator_index : usize) (self : t)
    : result ProgramError.t Progress.t :=
  match operator_snapshot_progress' self !! Z.to_nat ncn_operator_index with
  | Some p => Ok p
  | None => Panic
  end.
Definition operator_vault_distribution_progress_route (operator_index : usize) (self : t)
    : result ProgramError.t Progress.t :=
  match operator_vault_routes_distribution_progress self !! Z.to_nat operator_index with
  | Some p => Ok p
  | None => Panic
  end.

(** ** Updaters *)

Definition set_status (f : EpochAccountStatus.t -> EpochAccountStatus.t) (self : t) : t :=
  self <| account_status := f (account_status self) |>.
Definition on_status {E A} (m : M EpochAccountStatus.t E A) : M t E A :=
  zoom account_status (put account_status) m.

Definition update_realloc_epoch_state : t -> t :=
  set_status (EpochAccountStatus.set_epoch_state AccountStatus.Created).
Definition update_realloc_weight_table (vaults st_mint_count : u64) (self : t) : t :=
  let self := set_status (EpochAccountStatus.set_weight_table AccountStatus.Created) self in
  self <| vault_count := vaults |> <| set_weight_progress := Progress.new st_mint_count |>.
Definition update_set_weight (weights_set st_mint_count : u64) (self : t) : t :=
  self <| set_weight_progress :=
    Progress.set_total st_mint_count (Progress.set_tally weights_set (set_weight_progress self)) |>.
Definition update_initialize_epoch_snapshot (operators : u64) (self : t) : t :=
  let self := set_status (EpochAccountStatus.set_epoch_snapshot AccountStatus.Created) self in
  self <| operator_count := operators |> <| epoch_snapshot_progress := Progress.new operators |>.

Definition on_operator_progress {A} (i : usize) (m : M Progress.t NCNProgramError.t A)
    : M t NCNProgramError.t A :=
  zoom_at operator_snapshot_progress' (put operator_snapshot_progress') (Z.to_nat i) m.
Definition on_epoch_progress {A} (m : M Progress.t NCNProgramError.t A) : M t NCNProgramError.t A :=
  zoom epoch_snapshot_progress (put epoch_snapshot_progress) m.

Definition update_realloc_operator_snapshot (ncn_operator_index : usize) (is_active : bool)
    : M t NCNProgramError.t unit :=
  let* _ := on_status (EpochAccountStatus.set_operator_snapshot ncn_operator_index
                         AccountStatus.Created) in
  if is_active then
    let* self := get_self in
    on_operator_progress ncn_operator_index (modify (fun _ => Progress.new (vault_count self)))
  else
    let* _ := on_operator_progress ncn_operator_index (modify (fun _ => Progress.new 1)) in
    let* _ := on_operator_progress ncn_operator_index Progress.increment_one in
    on_epoch_progress Progress.increment_one.

Definition update_snapshot_vault_operator_delegation (ncn_operator_index : usize) (finalized : bool)
    : M t NCNProgramError.t unit :=
  let* _ := on_operator_progress ncn_operator_index Progress.increment_one in
  if finalized then on_epoch_progress Progress.increment_one else ret tt.

Definition update_realloc_ballot_box (self : t) : t :=
  let self := set_status (EpochAccountStatus.set_ballot_box AccountStatus.Created) self in
  self <| voting_progress := Progress.new (operator_count self) |>.

Definition update_cast_vote (operators_voted : u64) (consensus_reached : bool) (current_slot : u64)
    (self : t) : t :=
  let self :=
    if consensus_reached && negb (is_consensus_reached self)
    then self <| slot_consensus_reached := current_slot |> else self in
  self <| voting_progress := Progress.set_tally operators_voted (voting_progress self) |>.

Definition update_set_tie_breaker (consensus_reached : bool) (current_slot : u64) (self : t) : t :=
  if consensus_reached && negb (is_consensus_reached self)
  then self <| slot_consensus_reached := current_slot |> <| was_tie_breaker_set := true |>
  else self.

Definition update_realloc_ncn_reward_router (self : t) : t :=
  let self :=
    set_status (EpochAccountStatus.set_ncn_reward_router AccountStatus.CreatedWithReceiver) self in
  self <| ncn_distribution_progress := Progress.new 0 |>
       <| protocol_distribution_progress := Progress.new 0 |>
       <| operator_vault_distribution_progress := Progress.new 0 |>.

Definition on_route {A} (i : usize) (m : M Progress.t NCNProgramError.t A) : M t NCNProgramError.t A :=
  zoom_at operator_vault_routes_distribution_progress
    (put operator_vault_routes_distribution_progress) (Z.to_nat i) m.

Definition update_realloc_operator_vault_reward_router (operator_index : usize)
    : M t NCNProgramError.t unit :=
  let* _ := on_status (EpochAccountStatus.set_operator_vault_reward_router operator_index
                         AccountStatus.CreatedWithReceiver) in
  on_route operator_index (modify (fun _ => Progress.new 0)).

Definition update_route_total_rewards (total_rewards : u64) (self : t) : t :=
  self <| total_distribution_progress :=
    Progress.set_total total_rewards (total_distribution_progress self) |>.
Definition update_route_ncn_rewards (ncn_rewards : u64) (self : t) : t :=
  self <| ncn_distribution_progress :=
    Progress.set_total ncn_rewards (ncn_distribution_progress self) |>.
Definition update_route_protocol_rewards (protocol_rewards : u64) (self : t) : t :=
  self <| protocol_distribution_progress :=
    Progress.set_total protocol_rewards (protocol_distribution_progress self) |>.
Definition update_operator_vault_rewards (rewards : u64) (self : t) : t :=
  self <| operator_vault_distribution_progress :=
    Progress.set_total rewards (operator_vault_distribution_progress self) |>.

Definition add_total_distribution (rewards : u64) (self : t) : t :=
  self <| total_distribution_progress :=
    Progress.increment_ignored rewards (total_distribution_progress self) |>.
Definition update_distribute_ncn_rewards (rewards : u64) (self : t) : t :=
  let self := add_total_distribution rewards self in
  self <| ncn_distribution_progress :=
    Progress.increment_ignored rewards (ncn_distribution_progress self) |>.
Definition update_distribute_protocol_rewards (rewards : u64) (self : t) : t :=
  let self := add_total_distribution rewards self in
  self <| protocol_distribution_progress :=
    Progress.increment_ignored rewards (protocol_distribution_progress self) |>.
Definition update_route_operator_vault_rewards (operator_index : usize) (total_rewards : u64)
    : M t NCNProgramError.t unit :=
  on_route operator_index (modify (Progress.set_total total_rewards)).
Definition update_distribute_operator_vault_rewards (rewards : u64) (self : t) : t :=
  self <| operator_vault_distribution_progress :=
    Progress.increment_ignored rewards (operator_vault_distribution_progress self) |>.
Definition update_distribute_operator_vault_route_rewards (operator_index : usize) (rewards : u64)
    : M t NCNProgramError.t unit :=
  let* _ := modify (add_total_distribution rewards) in
  on_route operator_index (modify (Progress.increment_ignored rewards)).

(** ** Closers *)

Definition set_is_closing (self : t) : t := self <| is_closing := true |>.
Definition close_epoch_state : t -> t :=
  set_status (EpochAccountStatus.set_epoch_state AccountStatus.Closed).
Definition close_weight_table : t -> t :=
  set_status (EpochAccountStatus.set_weight_table AccountStatus.Closed).
Definition close_epoch_snapshot : t -> t :=
  set_status (EpochAccountStatus.set_epoch_snapshot AccountStatus.Closed).
Definition close_operator_snapshot (ncn_operator_index : usize) : M t NCNProgramError.t unit :=
  on_status (EpochAccountStatus.set_operator_snapshot ncn_operator_index AccountStatus.Closed).
Definition close_ballot_box : t -> t :=
  set_status (EpochAccountStatus.set_ballot_box AccountStatus.Closed).
Definition close_ncn_reward_router : t -> t :=
  set_status (EpochAccountStatus.set_ncn_reward_router AccountStatus.Closed).
Definition close_operator_vault_reward_router (ncn_operator_index : usize)
    : M t NCNProgramError.t unit :=
  on_status (EpochAccountStatus.set_operator_vault_reward_router ncn_operator_index
               AccountStatus.Closed).

(** ** The phase *)

Definition can_start_routing (valid_slots_after_consensus current_slot : u64) (self : t)
    : result ProgramError.t bool :=
  if negb (is_consensus_reached self) then Ok false
  else
    let? slot_consensus_reached := into (get_slot_consensus_reached self) in
    let? slot_can_start_routing :=
      into (ok_or (checked_add u64_MAX slot_consensus_reached valid_slots_after_consensus)
              ArithmeticOverflow) in
    Ok (slot_can_start_routing <=? current_slot).

Definition can_close_epoch_accounts (get_epoch : u64 -> u64)
    (epochs_after_consensus_before_close current_slot : u64) (self : t)
    : result ProgramError.t bool :=
  let? epoch_consensus_reached := get_epoch_consensus_reached get_epoch self in
  let current_epoch := get_epoch current_slot in
  let epoch_delta := saturating_sub current_epoch epoch_consensus_reached in
  Ok (epochs_after_consensus_before_close <=? epoch_delta).

(** [r == Ok(true)]. *)
Definition is_ok_true {E} (r : result E bool) : bool :=
  match r with Ok b => b | _ => false end.

(** The phases after the weights, shared by both functions below. *)
Definition later_state (valid_slots_after_consensus current_slot : u64) (self : t)
    : result ProgramError.t State.t :=
  let? epoch_snapshot := into (EpochAccountStatus.epoch_snapshot (account_status self)) in
  if bool_decide (epoch_snapshot = AccountStatus.DNE)
     || negb (Progress.is_complete (epoch_snapshot_progress self))
  then Ok State.Snapshot
  else
    let? ballot_box := into (EpochAccountStatus.ballot_box (account_status self)) in
    if bool_decide (ballot_box = AccountStatus.DNE) then Ok State.Snapshot
    else if negb (is_consensus_reached self) then Ok State.Vote
    else
      let? routing := can_start_routing valid_slots_after_consensus current_slot self in
      if negb routing then Ok State.PostVoteCooldown else Ok State.Distribute.

Definition current_state (get_epoch : u64 -> u64)
    (valid_slots_after_consensus epochs_after_consensus_before_close current_slot : u64) (self : t)
    : result ProgramError.t State.t :=
  if is_ok_true (can_close_epoch_accounts get_epoch epochs_after_consensus_before_close
                   current_slot self)
  then Ok State.Close
  else
    let? weight_table := into (EpochAccountStatus.weight_table (account_status self)) in
    if bool_decide (weight_table = AccountStatus.DNE)
       || negb (Progress.is_complete (set_weight_progress self))
    then Ok State.SetWeight
    else later_state valid_slots_after_consensus current_slot self.

Definition current_state_patched (get_epoch : u64 -> u64)
    (valid_slots_after_consensus epochs_after_consensus_before_close st_mint_count
     current_slot : u64) (self : t) : result ProgramError.t State.t :=
  if is_ok_true (can_close_epoch_accounts get_epoch epochs_after_consensus_before_close
                   current_slot self)
  then Ok State.Close
  else
    let? weight_table := into (EpochAccountStatus.weight_table (account_status self)) in
    if bool_decide (weight_table = AccountStatus.DNE)
       || (Progress.tally (set_weight_progress self) <? st_mint_count)
    then Ok State.SetWeight
    else later_state valid_slots_after_consensus current_slot self.

(** ** Closing *)

(** An epoch's state can be closed exactly when it is asked for with its
    own NCN and epoch and every other account of the epoch is closed: the four
    single accounts are [Closed], and the accounts of each of the 256 operators
    either never existed or are [Closed]. The first failing test gives the
    error. *)
Theorem load_to_close_spec self n e :
  EpochAccountStatus.wf (account_status self) ->
  (load_to_close self n e = Ok tt <-> ncn self = n /\ epoch self = e /\ EpochAccountStatus.all_closed (account_status self))
  /\ (forall err, load_to_close self n e = Err err ->
        err = ProgramError.from_ncn CannotCloseAccount /\ (ncn self <> n \/ epoch self <> e)
        \/ err = ProgramError.from_ncn CannotCloseEpochStateAccount /\ ~ EpochAccountStatus.all_closed (account_status self)).
Proof.
  intros Hwf. pose proof (EpochAccountStatus.are_all_closed_spec _ Hwf) as Hall.
  unfold load_to_close. destruct (ncn self =? n) eqn:Hn; cbn [negb].
  2: { split; [split; [done|intros [? _]; lia]|]. intros err [= <-]. left. split; [done|left; lia]. }
  destruct (epoch self =? e) eqn:He; cbn [negb].
  2: { split; [split; [done|intros (_ & ? & _); lia]|]. intros err [= <-]. left. split; [done|right; lia]. }
  destruct (EpochAccountStatus.are_all_closed (account_status self)) eqn:Ha; cbn [negb].
  - split; [|done]. split; [|done]. intros _. split_and!; [lia|lia|]. by apply Hall.
  - assert (~ EpochAccountStatus.all_closed (account_status self)) by (intros H; apply Hall in H; congruence).
    split; [split; [done|by intros (_ & _ & ?)]|]. intros err [= <-]. by right.
Qed.

(** ** Phases *)

(** What the tests of [current_state] mean. *)
Definition closable (get_epoch : u64 -> u64) (close current_slot : u64) (self : t) : Prop :=
  is_consensus_reached self = true
  /\ close <= Z.max 0 (get_epoch current_slot - get_epoch (slot_consensus_reached self)).
Definition weights_done (self : t) : Prop :=
  EpochAccountStatus.weight_table' (account_status self) <> 0
  /\ Progress.is_complete (set_weight_progress self) = true.
Definition snapshot_done (self : t) : Prop :=
  EpochAccountStatus.epoch_snapshot' (account_status self) <> 0
  /\ Progress.is_complete (epoch_snapshot_progress self) = true
  /\ EpochAccountStatus.ballot_box' (account_status self) <> 0.

Lemma can_close_spec get_epoch close slot self :
  is_ok_true (can_close_epoch_accounts get_epoch close slot self) = true <-> closable get_epoch close slot self.
Proof.
  unfold can_close_epoch_accounts, get_epoch_consensus_reached, get_slot_consensus_reached, closable,
    is_consensus_reached, saturating_sub.
  destruct (slot_consensus_reached self =? _); cbn; [naive_solver|].
  rewrite Z.leb_le. naive_solver.
Qed.

Lemma status_dne u : EpochAccountStatus.status_ok u ->
  exists st, EpochAccountStatus.get_account_status u = Ok st /\ (st = AccountStatus.DNE <-> u = 0).
Proof.
  intros Hu. destruct (EpochAccountStatus.get_account_status_ok u Hu) as (st & -> & ->).
  exists st. by destruct st.
Qed.

(** The condition under which each phase after the weights is reported. *)
Definition later_ok (valid slot : u64) (self : t) (r : result ProgramError.t State.t) : Prop :=
  match r with
  | Ok State.Snapshot => ~ snapshot_done self
  | Ok State.Vote => snapshot_done self /\ is_consensus_reached self = false
  | Ok State.PostVoteCooldown =>
      snapshot_done self /\ is_consensus_reached self = true
      /\ slot < slot_consensus_reached self + valid
  | Ok State.Distribute =>
      snapshot_done self /\ is_consensus_reached self = true
      /\ slot_consensus_reached self + valid <= slot
  | Err e => e = ProgramError.from_ncn ArithmeticOverflow /\ u64_MAX < slot_consensus_reached self + valid
  | _ => False
  end.

Lemma later_state_spec valid slot self :
  EpochAccountStatus.wf (account_status self) ->
  later_ok valid slot self (later_state valid slot self).
Proof.
  intros Hwf. unfold later_state, EpochAccountStatus.epoch_snapshot, EpochAccountStatus.ballot_box.
  destruct (status_dne _ (EpochAccountStatus.wf_epoch_snapshot _ Hwf)) as (s1 & -> & Hs1). cbn [into map_err rbind].
  case_bool_decide as H1; cbn [orb].
  { unfold later_ok, snapshot_done. tauto. }
  destruct (Progress.is_complete _) eqn:Hp; cbn [negb]; [|unfold later_ok, snapshot_done; rewrite Hp; naive_solver].
  destruct (status_dne _ (EpochAccountStatus.wf_ballot_box _ Hwf)) as (s2 & -> & Hs2). cbn [into map_err rbind].
  case_bool_decide as H2.
  { unfold later_ok, snapshot_done. tauto. }
  assert (snapshot_done self) as Hd by (unfold snapshot_done; tauto).
  destruct (is_consensus_reached self) eqn:Hc; cbn [negb]; [|done].
  unfold can_start_routing, get_slot_consensus_reached. rewrite Hc. cbn [negb].
  pose proof Hc as Hc'. unfold is_consensus_reached in Hc'. apply negb_true_iff in Hc'. rewrite Hc'.
  cbn [into map_err rbind]. unfold checked_add. destruct (_ <=? u64_MAX) eqn:Ho; cbn [ok_or map_err into rbind].
  - destruct (_ <=? slot) eqn:Hr; cbn [negb later_ok]; split_and!; (done || lia).
  - split; [done|lia].
Qed.

(** The phase reported for an epoch, on every branch. [Close] wins as soon
    as enough epochs have passed since consensus; otherwise the first phase
    whose work is not finished is reported, in the order weights, snapshot,
    vote, cooldown, distribution. The only error is a routing slot beyond
    [u64]. *)
Theorem current_state_spec get_epoch valid close slot self :
  EpochAccountStatus.wf (account_status self) ->
  match current_state get_epoch valid close slot self with
  | Ok State.Close => closable get_epoch close slot self
  | Ok State.SetWeight => ~ closable get_epoch close slot self /\ ~ weights_done self
  | r => ~ closable get_epoch close slot self /\ weights_done self /\ later_ok valid slot self r
  end.
Proof.
  intros Hwf. unfold current_state. pose proof (can_close_spec get_epoch close slot self) as Hcl.
  destruct (is_ok_true _); [by apply Hcl|].
  assert (~ closable get_epoch close slot self) as Hn by (intros H; by apply Hcl in H).
  unfold EpochAccountStatus.weight_table.
  destruct (status_dne _ (EpochAccountStatus.wf_weight_table _ Hwf)) as (s & -> & Hs). cbn [into map_err rbind].
  case_bool_decide as H1; cbn [orb].
  { split; [done|]. unfold weights_done. tauto. }
  destruct (Progress.is_complete _) eqn:Hp; cbn [negb]; [|split; [done|]; unfold weights_done; rewrite Hp; naive_solver].
  pose proof (later_state_spec valid slot self Hwf) as Hl.
  assert (weights_done self) as Hw by (unfold weights_done; tauto).
  destruct (later_state valid slot self) as [[]|e|]; by split_and!.
Qed.

(** The patched phase function differs from the original one only in the
    test of the weights: whenever the recorded total is the given number of
    mints and the progress is valid, the two agree. *)
Theorem current_state_patched_agrees get_epoch valid close mints slot self :
  Progress.total (set_weight_progress self) = mints ->
  Progress.is_invalid (set_weight_progress self) = false ->
  current_state_patched get_epoch valid close mints slot self
  = current_state get_epoch valid close slot self.
Proof.
  intros <- Hi. unfold current_state_patched, current_state, Progress.is_complete. rewrite Hi.
  destruct (is_ok_true _); [done|]. by rewrite Z.leb_antisym, negb_involutive.
Qed.

(** ** All updates

    Every updater and closer as one datatype, so that what holds of all of them
    is stated once. *)
Inductive update :=
| ReallocEpochState
| ReallocWeightTable (vaults mints : u64)
| SetWeight (weights_set mints : u64)
| InitializeEpochSnapshot (operators : u64)
| ReallocOperatorSnapshot (i : usize) (is_active : bool)
| SnapshotVaultOperatorDelegation (i : usize) (finalized : bool)
| ReallocBallotBox
| CastVote (voted : u64) (consensus : bool) (slot : u64)
| SetTieBreaker (consensus : bool) (slot : u64)
| ReallocNcnRewardRouter
| ReallocOperatorVaultRewardRouter (i : usize)
| RouteTotalRewards (n : u64)
| RouteNcnRewards (n : u64)
| RouteProtocolRewards (n : u64)
| OperatorVaultRewards (n : u64)
| RouteOperatorVaultRewards (i : usize) (n : u64)
| DistributeNcnRewards (n : u64)
| DistributeProtocolRewards (n : u64)
| DistributeOperatorVaultRewards (n : u64)
| DistributeOperatorVaultRouteRewards (i : usize) (n : u64)
| SetIsClosing
| CloseEpochState
| CloseWeightTable
| CloseEpochSnapshot
| CloseOperatorSnapshot (i : usize)
| CloseBallotBox
| CloseNcnRewardRouter
| CloseOperatorVaultRewardRouter (i : usize).

Definition run_update (u : update) : M t NCNProgramError.t unit :=
  match u with
  | ReallocEpochState => modify update_realloc_epoch_state
  | ReallocWeightTable v m => modify (update_realloc_weight_table v m)
  | SetWeight w m => modify (update_set_weight w m)
  | InitializeEpochSnapshot n => modify (update_initialize_epoch_snapshot n)
  | ReallocOperatorSnapshot i a => update_realloc_operator_snapshot i a
  | SnapshotVaultOperatorDelegation i f => update_snapshot_vault_operator_delegation i f
  | ReallocBallotBox => modify update_realloc_ballot_box
  | CastVote n c s => modify (update_cast_vote n c s)
  | SetTieBreaker c s => modify (update_set_tie_breaker c s)
  | ReallocNcnRewardRouter => modify update_realloc_ncn_reward_router
  | ReallocOperatorVaultRewardRouter i => update_realloc_operator_vault_reward_router i
  | RouteTotalRewards n => modify (update_route_total_rewards n)
  | RouteNcnRewards n => modify (update_route_ncn_rewards n)
  | RouteProtocolRewards n => modify (update_route_protocol_rewards n)
  | OperatorVaultRewards n => modify (update_operator_vault_rewards n)
  | RouteOperatorVaultRewards i n => update_route_operator_vault_rewards i n
  | DistributeNcnRewards n => modify (update_distribute_ncn_rewards n)
  | DistributeProtocolRewards n => modify (update_distribute_protocol_rewards n)
  | DistributeOperatorVaultRewards n => modify (update_distribute_operator_vault_rewards n)
  | DistributeOperatorVaultRouteRewards i n => update_distribute_operator_vault_route_rewards i n
  | SetIsClosing => modify set_is_closing
  | CloseEpochState => modify close_epoch_state
  | CloseWeightTable => modify close_weight_table
  | CloseEpochSnapshot => modify close_epoch_snapshot
  | CloseOperatorSnapshot i => close_operator_snapshot i
  | CloseBallotBox => modify close_ballot_box
  | CloseNcnRewardRouter => modify close_ncn_reward_router
  | CloseOperatorVaultRewardRouter i => close_operator_vault_reward_router i
  end.

(** The arguments the handlers pass: an operator's index below 256 and a slot
    of the clock. *)
Definition update_ok (u : update) : Prop :=
  match u with
  | ReallocOperatorSnapshot i _ | SnapshotVaultOperatorDelegation i _
  | ReallocOperatorVaultRewardRouter i | RouteOperatorVaultRewards i _
  | DistributeOperatorVaultRouteRewards i _ | CloseOperatorSnapshot i
  | CloseOperatorVaultRewardRouter i => 0 <= i < 256
  | CastVote _ _ s | SetTieBreaker _ s => 0 <= s < u64_MAX
  | _ => True
  end.

Record wf (self : t) : Prop := {
  wf_status : EpochAccountStatus.wf (account_status self);
  wf_operators : List.length (operator_snapshot_progress' self) = 256%nat;
  wf_routes : List.length (operator_vault_routes_distribution_progress self) = 256%nat;
  wf_tie_breaker : was_tie_breaker_set self = true -> is_consensus_reached self = true;
}.

(** What an update keeps. *)
Record keeps (self self' : t) : Prop := {
  keeps_wf : wf self';
  keeps_id : ncn self' = ncn self /\ epoch self' = epoch self /\ bump self' = bump self
             /\ slot_created self' = slot_created self;
  keeps_consensus : is_consensus_reached self = true ->
    slot_consensus_reached self' = slot_consensus_reached self;
  keeps_closing : is_closing self = true -> is_closing self' = true;
  keeps_tie : was_tie_breaker_set self = true -> was_tie_breaker_set self' = true;
}.

Lemma new_keeps n e b slot : wf (new n e b slot).
Proof. split; try done. apply EpochAccountStatus.account_status_default_wf. Qed.

Lemma keeps_refl self : wf self -> keeps self self.
Proof. by split. Qed.

Lemma keeps_trans s1 s2 s3 : keeps s1 s2 -> keeps s2 s3 -> keeps s1 s3.
Proof.
  intros [Hw1 Hi1 Hc1 Hl1 Ht1] [Hw2 Hi2 Hc2 Hl2 Ht2]. split; try done; try tauto.
  - destruct Hi1 as (? & ? & ? & ?), Hi2 as (? & ? & ? & ?). split_and!; congruence.
  - intros H. specialize (Hc1 H). rewrite <-Hc1. apply Hc2. unfold is_consensus_reached in *. congruence.
Qed.

(** A status update keeps everything but that status. *)
Lemma set_status_keeps f self : wf self -> EpochAccountStatus.wf (f (account_status self)) -> keeps self (set_status f self).
Proof. intros [] Hf. by split. Qed.

Lemma status_wf_operator s i st : EpochAccountStatus.wf s ->
  EpochAccountStatus.wf (s <| EpochAccountStatus.operator_snapshot' :=
    <[i := AccountStatus.as_u8 st]> (EpochAccountStatus.operator_snapshot' s) |>).
Proof.
  intros []. split; cbn; try done.
  - by rewrite length_insert.
  - intros j u. rewrite list_lookup_insert. case_decide; [|by eauto].
    intros [= <-]. apply EpochAccountStatus.as_u8_ok.
Qed.

Lemma status_wf_router s i st : EpochAccountStatus.wf s ->
  EpochAccountStatus.wf (s <| EpochAccountStatus.operator_vault_reward_router' :=
    <[i := AccountStatus.as_u8 st]> (EpochAccountStatus.operator_vault_reward_router' s) |>).
Proof.
  intros []. split; cbn; try done.
  - by rewrite length_insert.
  - intros j u. rewrite list_lookup_insert. case_decide; [|by eauto].
    intros [= <-]. apply EpochAccountStatus.as_u8_ok.
Qed.

Lemma on_status_operator self i st : wf self -> 0 <= i < 256 ->
  exists s', on_status (E := NCNProgramError.t) (EpochAccountStatus.set_operator_snapshot i st) self
             = (Ok tt, set_status (fun _ => s') self) /\ EpochAccountStatus.wf s'.
Proof.
  intros Hwf Hi. unfold on_status, zoom, EpochAccountStatus.set_operator_snapshot, zoom_at.
  destruct (lookup_lt_is_Some_2 (EpochAccountStatus.operator_snapshot' (account_status self)) (Z.to_nat i))
    as [u ->]; [rewrite (EpochAccountStatus.wf_operator_len _ (wf_status _ Hwf)); lia|].
  eexists. split; [reflexivity|]. apply status_wf_operator, Hwf.
Qed.

Lemma on_status_router self i st : wf self -> 0 <= i < 256 ->
  exists s', on_status (E := NCNProgramError.t) (EpochAccountStatus.set_operator_vault_reward_router i st) self
             = (Ok tt, set_status (fun _ => s') self) /\ EpochAccountStatus.wf s'.
Proof.
  intros Hwf Hi. unfold on_status, zoom, EpochAccountStatus.set_operator_vault_reward_router, zoom_at.
  destruct (lookup_lt_is_Some_2 (EpochAccountStatus.operator_vault_reward_router' (account_status self)) (Z.to_nat i))
    as [u ->]; [rewrite (EpochAccountStatus.wf_router_len _ (wf_status _ Hwf)); lia|].
  eexists. split; [reflexivity|]. apply status_wf_router, Hwf.
Qed.

(** An update of one operator's progress. *)
Definition progress_outcome {A} (m : M Progress.t NCNProgramError.t A) : Prop :=
  forall p, exists r p', m p = (r, p') /\ (r = Err ArithmeticOverflow \/ exists a, r = Ok a).

Lemma increment_outcome n : progress_outcome (Progress.increment n).
Proof. intros p. rewrite Progress.tally_run. destruct (_ <=? _); eauto 6. Qed.
Lemma modify_outcome f : progress_outcome (modify f).
Proof. intros p. eexists _, _. split; [reflexivity|]. right. by exists tt. Qed.

(** The outcomes of an update that is in range: a state that keeps what must be
    kept, or an overflowing counter. *)
Definition in_order {A} (m : M t NCNProgramError.t A) : Prop :=
  forall self, wf self -> exists r self', m self = (r, self') /\ keeps self self'
    /\ (r = Err ArithmeticOverflow \/ exists a, r = Ok a).

Lemma in_order_modify f : (forall self, wf self -> keeps self (f self)) -> in_order (modify f).
Proof. intros H self Hwf. exists (Ok tt), (f self). split_and!; [done|by apply H|right; by exists tt]. Qed.

Lemma in_order_ret (a : unit) : in_order (ret a).
Proof. intros self Hwf. exists (Ok a), self. split_and!; [done|by apply keeps_refl|right; by exists a]. Qed.

Lemma in_order_bind {A B} (m : M t NCNProgramError.t A) (k : A -> M t NCNProgramError.t B) :
  in_order m -> (forall a, in_order (k a)) -> in_order (mbind m k).
Proof.
  intros Hm Hk self Hwf. destruct (Hm self Hwf) as (r & s1 & E & Hkp & [->|[a ->]]).
  - exists (Err ArithmeticOverflow), s1. unfold mbind. rewrite E. split_and!; [done|done|by left].
  - destruct (Hk a s1 (keeps_wf _ _ Hkp)) as (r & s2 & E2 & Hkp2 & Hr).
    exists r, s2. rewrite (mbind_eq_ok _ _ _ _ _ E). split_and!; [done|by eapply keeps_trans|done].
Qed.

Lemma in_order_get {B} (k : t -> M t NCNProgramError.t B) : (forall a, in_order (k a)) -> in_order (mbind get_self k).
Proof. intros Hk self Hwf. rewrite run_get_self. by apply Hk. Qed.

Lemma in_order_operator_progress {A} i (m : M Progress.t NCNProgramError.t A) :
  0 <= i < 256 -> progress_outcome m -> in_order (on_operator_progress i m).
Proof.
  intros Hi Hm self Hwf. unfold on_operator_progress, zoom_at.
  destruct (lookup_lt_is_Some_2 (operator_snapshot_progress' self) (Z.to_nat i)) as [p Hp];
    [rewrite (wf_operators _ Hwf); lia|].
  rewrite Hp. destruct (Hm p) as (r & p' & -> & Hr). eexists _, _. split; [reflexivity|]. split; [|done].
  destruct Hwf. split; try done. split; try done. cbn. by rewrite length_insert.
Qed.

Lemma in_order_route {A} i (m : M Progress.t NCNProgramError.t A) :
  0 <= i < 256 -> progress_outcome m -> in_order (on_route i m).
Proof.
  intros Hi Hm self Hwf. unfold on_route, zoom_at.
  destruct (lookup_lt_is_Some_2 (operator_vault_routes_distribution_progress self) (Z.to_nat i)) as [p Hp];
    [rewrite (wf_routes _ Hwf); lia|].
  rewrite Hp. destruct (Hm p) as (r & p' & -> & Hr). eexists _, _. split; [reflexivity|]. split; [|done].
  destruct Hwf. split; try done. split; try done. cbn. by rewrite length_insert.
Qed.

Lemma in_order_epoch_progress {A} (m : M Progress.t NCNProgramError.t A) :
  progress_outcome m -> in_order (on_epoch_progress m).
Proof.
  intros Hm self Hwf. unfold on_epoch_progress, zoom.
  destruct (Hm (epoch_snapshot_progress self)) as (r & p' & -> & Hr).
  eexists _, _. split; [reflexivity|]. split; [|done]. destruct Hwf. by split.
Qed.

Lemma in_order_status m : (forall self, wf self -> exists s', on_status m self
    = (Ok tt, set_status (fun _ => s') self) /\ EpochAccountStatus.wf s') -> in_order (on_status m).
Proof.
  intros H self Hwf. destruct (H self Hwf) as (s' & E & Hs). eexists _, _. split; [exact E|].
  split; [by apply set_status_keeps|]. right. by exists tt.
Qed.
#[local] Hint Resolve in_order_ret in_order_operator_progress in_order_route in_order_epoch_progress
  increment_outcome modify_outcome on_status_operator on_status_router in_order_status : ncn.
#[local] Hint Resolve in_order_bind in_order_get : ncn.

Lemma status_single_wf st s : EpochAccountStatus.wf s ->
  EpochAccountStatus.wf (EpochAccountStatus.set_epoch_state st s)
  /\ EpochAccountStatus.wf (EpochAccountStatus.set_weight_table st s)
  /\ EpochAccountStatus.wf (EpochAccountStatus.set_epoch_snapshot st s)
  /\ EpochAccountStatus.wf (EpochAccountStatus.set_ballot_box st s)
  /\ EpochAccountStatus.wf (EpochAccountStatus.set_ncn_reward_router st s).
Proof. intros []. split_and!; split; cbn; try done; apply EpochAccountStatus.as_u8_ok. Qed.

Lemma update_cast_vote_keeps n c slot self : wf self -> slot < u64_MAX -> keeps self (update_cast_vote n c slot self).
Proof.
  intros [Hs Ho Hr Ht] Hslot. unfold update_cast_vote.
  destruct (is_consensus_reached self) eqn:Hc; [rewrite andb_false_r; split; try done; by split|].
  destruct c; cbn [andb negb]; [|split; try done; split; try done; intros H; by specialize (Ht H)].
  split; [|done|intros H; congruence|done..]. split; [done..|]. intros _.
  apply negb_true_iff, Z.eqb_neq. cbn. unfold DEFAULT_CONSENSUS_REACHED_SLOT. lia.
Qed.

Lemma update_set_tie_breaker_keeps c slot self : wf self -> slot < u64_MAX -> keeps self (update_set_tie_breaker c slot self).
Proof.
  intros [Hs Ho Hr Ht] Hslot. unfold update_set_tie_breaker.
  destruct (is_consensus_reached self) eqn:Hc; [rewrite andb_false_r; split; try done; by split|].
  destruct c; cbn [andb negb]; [|split; try done; split; try done; intros H; by specialize (Ht H)].
  split; [|done|intros H; congruence|done..]. split; [done..|]. intros _.
  apply negb_true_iff, Z.eqb_neq. cbn. unfold DEFAULT_CONSENSUS_REACHED_SLOT. lia.
Qed.

(** What holds of every update. *)
Lemma update_keeps u self : wf self -> update_ok u ->
  exists r self', run_update u self = (r, self') /\ (r = Ok tt \/ r = Err ArithmeticOverflow) /\ keeps self self'.
Proof.
  intros Hwf Hu. assert (in_order (run_update u)) as H.
  { destruct u; cbn in *; try (apply in_order_modify; intros s Hs;
      first [ apply set_status_keeps; [done|]; apply (status_single_wf _ _ (wf_status _ Hs))
            | by apply update_cast_vote_keeps; [|lia] | by apply update_set_tie_breaker_keeps; [|lia]
            | destruct Hs as [Hst ? ? ?]; split; try done; split; try done; apply (status_single_wf _ _ Hst) ]).
    - unfold update_realloc_operator_snapshot. destruct is_active; eauto 10 with ncn.
    - unfold update_snapshot_vault_operator_delegation. destruct finalized; eauto 10 with ncn.
    - unfold update_realloc_operator_vault_reward_router. eauto 10 with ncn.
    - unfold update_route_operator_vault_rewards. eauto with ncn.
    - unfold update_distribute_operator_vault_route_rewards. apply in_order_bind; [|eauto with ncn].
      apply in_order_modify. intros s Hs. destruct Hs. by split.
    - unfold close_operator_snapshot. eauto with ncn.
    - unfold close_operator_vault_reward_router. eauto with ncn. }
  destruct (H self Hwf) as (r & self' & E & Hk & Hr). exists r, self'.
  split_and!; [done| |done]. destruct Hr as [->|[[] ->]]; auto.
Qed.

(** ** What an update does

    The counters of an epoch, the statuses of its accounts, and a table of what
    each update does to each of them. *)
Inductive counter :=
| Weights | EpochSnapshot | Operator (i : usize) | Voting | TotalDistribution | NcnDistribution
| ProtocolDistribution | OperatorVaultDistribution | RouteDistribution (i : usize).

Definition counter_at (c : counter) (self : t) : option Progress.t :=
  match c with
  | Weights => Some (set_weight_progress self)
  | EpochSnapshot => Some (epoch_snapshot_progress self)
  | Operator i => operator_snapshot_progress' self !! Z.to_nat i
  | Voting => Some (voting_progress self)
  | TotalDistribution => Some (total_distribution_progress self)
  | NcnDistribution => Some (ncn_distribution_progress self)
  | ProtocolDistribution => Some (protocol_distribution_progress self)
  | OperatorVaultDistribution => Some (operator_vault_distribution_progress self)
  | RouteDistribution i => operator_vault_routes_distribution_progress self !! Z.to_nat i
  end.

(** The amount is added if the counter can hold it. *)
Definition grown (n : u64) (p : Progress.t) : Progress.t :=
  Progress.mk (if Progress.tally p + n <=? u64_MAX then Progress.tally p + n else Progress.tally p) (Progress.total p).

Definition effect (u : update) (self : t) (c : counter) (p : Progress.t) : Progress.t :=
  match u, c with
  | ReallocWeightTable _ mints, Weights => Progress.mk 0 mints
  | SetWeight weights_set mints, Weights => Progress.mk weights_set mints
  | InitializeEpochSnapshot operators, EpochSnapshot => Progress.mk 0 operators
  | ReallocOperatorSnapshot i is_active, Operator j =>
      if (Z.to_nat i =? Z.to_nat j)%nat then (if is_active then Progress.mk 0 (vault_count self) else Progress.mk 1 1)
      else p
  | ReallocOperatorSnapshot _ false, EpochSnapshot => Progress.mk (Progress.tally p + 1) (Progress.total p)
  | SnapshotVaultOperatorDelegation i _, Operator j =>
      if (Z.to_nat i =? Z.to_nat j)%nat then Progress.mk (Progress.tally p + 1) (Progress.total p) else p
  | SnapshotVaultOperatorDelegation _ true, EpochSnapshot => Progress.mk (Progress.tally p + 1) (Progress.total p)
  | ReallocBallotBox, Voting => Progress.mk 0 (operator_count self)
  | CastVote voted _ _, Voting => Progress.mk voted (Progress.total p)
  | ReallocNcnRewardRouter, (NcnDistribution | ProtocolDistribution | OperatorVaultDistribution) => Progress.mk 0 0
  | ReallocOperatorVaultRewardRouter i, RouteDistribution j =>
      if (Z.to_nat i =? Z.to_nat j)%nat then Progress.mk 0 0 else p
  | RouteTotalRewards n, TotalDistribution | RouteNcnRewards n, NcnDistribution
  | RouteProtocolRewards n, ProtocolDistribution | OperatorVaultRewards n, OperatorVaultDistribution =>
      Progress.mk (Progress.tally p) n
  | RouteOperatorVaultRewards i n, RouteDistribution j =>
      if (Z.to_nat i =? Z.to_nat j)%nat then Progress.mk (Progress.tally p) n else p
  | DistributeNcnRewards n, (TotalDistribution | NcnDistribution)
  | DistributeProtocolRewards n, (TotalDistribution | ProtocolDistribution)
  | DistributeOperatorVaultRewards n, OperatorVaultDistribution
  | DistributeOperatorVaultRouteRewards _ n, TotalDistribution => grown n p
  | DistributeOperatorVaultRouteRewards i n, RouteDistribution j =>
      if (Z.to_nat i =? Z.to_nat j)%nat then grown n p else p
  | _, _ => p
  end.

Inductive account :=
| StateAccount | WeightTableAccount | EpochSnapshotAccount | OperatorSnapshotAccount (i : usize) | BallotBoxAccount
| NcnRouterAccount | OperatorRouterAccount (i : usize).

Definition status_at (a : account) (self : t) : option u8 :=
  let s := account_status self in
  match a with
  | StateAccount => Some (EpochAccountStatus.epoch_state' s)
  | WeightTableAccount => Some (EpochAccountStatus.weight_table' s)
  | EpochSnapshotAccount => Some (EpochAccountStatus.epoch_snapshot' s)
  | OperatorSnapshotAccount i => EpochAccountStatus.operator_snapshot' s !! Z.to_nat i
  | BallotBoxAccount => Some (EpochAccountStatus.ballot_box' s)
  | NcnRouterAccount => Some (EpochAccountStatus.ncn_reward_router' s)
  | OperatorRouterAccount i => EpochAccountStatus.operator_vault_reward_router' s !! Z.to_nat i
  end.

(** The status byte of an account after an update: 0 for none, 1 for created, 2
    for created with its receiver, 3 for closed. *)
Definition new_status (u : update) (a : account) (v : u8) : u8 :=
  match u, a with
  | ReallocEpochState, StateAccount | ReallocWeightTable _ _, WeightTableAccount
  | InitializeEpochSnapshot _, EpochSnapshotAccount | ReallocBallotBox, BallotBoxAccount => 1
  | ReallocNcnRewardRouter, NcnRouterAccount => 2
  | CloseEpochState, StateAccount | CloseWeightTable, WeightTableAccount | CloseEpochSnapshot, EpochSnapshotAccount
  | CloseBallotBox, BallotBoxAccount | CloseNcnRewardRouter, NcnRouterAccount => 3
  | ReallocOperatorSnapshot i _, OperatorSnapshotAccount j => if (Z.to_nat i =? Z.to_nat j)%nat then 1 else v
  | ReallocOperatorVaultRewardRouter i, OperatorRouterAccount j => if (Z.to_nat i =? Z.to_nat j)%nat then 2 else v
  | CloseOperatorSnapshot i, OperatorSnapshotAccount j
  | CloseOperatorVaultRewardRouter i, OperatorRouterAccount j => if (Z.to_nat i =? Z.to_nat j)%nat then 3 else v
  | _, _ => v
  end.

(** A counter that is to go up by one is at the end of its range. *)
Definition overflows (u : update) (self : t) : Prop :=
  let full p := u64_MAX < Progress.tally p + 1 in
  match u with
  | ReallocOperatorSnapshot _ false => full (epoch_snapshot_progress self)
  | SnapshotVaultOperatorDelegation i finalized =>
      (exists p, operator_snapshot_progress' self !! Z.to_nat i = Some p /\ full p)
      \/ finalized = true /\ full (epoch_snapshot_progress self)
  | _ => False
  end.

(** All that an update that goes through changes. *)
Record exactly (u : update) (self self' : t) : Prop := {
  exact_counters : forall c, counter_at c self' = option_map (effect u self c) (counter_at c self);
  exact_statuses : forall a, status_at a self' = option_map (new_status u a) (status_at a self);
  exact_operators : operator_count self' = match u with InitializeEpochSnapshot n => n | _ => operator_count self end;
  exact_vaults : vault_count self' = match u with ReallocWeightTable n _ => n | _ => vault_count self end;
  exact_slot : slot_consensus_reached self' =
    match u with
    | CastVote _ true slot | SetTieBreaker true slot =>
        if is_consensus_reached self then slot_consensus_reached self else slot
    | _ => slot_consensus_reached self
    end;
  exact_tie_breaker : was_tie_breaker_set self' =
    match u with SetTieBreaker true _ => was_tie_breaker_set self || negb (is_consensus_reached self) | _ => was_tie_breaker_set self end;
  exact_closing : is_closing self' = match u with SetIsClosing => true | _ => is_closing self end;
}.

Lemma option_map_self {A} (f : A -> A) (o : option A) : (forall a, f a = a) -> o = option_map f o.
Proof. intros H. destruct o; cbn; congruence. Qed.

Lemma lookup_upd {A} (l : list A) (i j : nat) (x y : A) (f : A -> A) : l !! i = Some x -> y = f x ->
  <[i := y]> l !! j = option_map (fun z => if (i =? j)%nat then f z else z) (l !! j).
Proof.
  intros Hi ->. destruct (i =? j)%nat eqn:E.
  - apply Nat.eqb_eq in E as <-. rewrite list_lookup_insert_eq by by eapply lookup_lt_Some. by rewrite Hi.
  - apply Nat.eqb_neq in E. rewrite list_lookup_insert_ne by done. by apply option_map_self.
Qed.

Lemma grown_run n p : Progress.increment_ignored n p = grown n p.
Proof.
  unfold Progress.increment_ignored, grown. rewrite Progress.tally_run. destruct p as [a b]. cbn.
  by destruct (_ <=? _).
Qed.

Lemma operator_run {A} self i (m : M Progress.t NCNProgramError.t A) : wf self -> 0 <= i < 256 ->
  exists p, operator_snapshot_progress' self !! Z.to_nat i = Some p
  /\ on_operator_progress i m self = (fst (m p), self <| operator_snapshot_progress' :=
       <[Z.to_nat i := snd (m p)]> (operator_snapshot_progress' self) |>).
Proof.
  intros Hwf Hi. destruct (lookup_lt_is_Some_2 (operator_snapshot_progress' self) (Z.to_nat i)) as [p Hp];
    [rewrite (wf_operators _ Hwf); lia|].
  exists p. split; [done|]. unfold on_operator_progress, zoom_at. rewrite Hp. by destruct (m p).
Qed.

Lemma route_run {A} self i (m : M Progress.t NCNProgramError.t A) : wf self -> 0 <= i < 256 ->
  exists p, operator_vault_routes_distribution_progress self !! Z.to_nat i = Some p
  /\ on_route i m self = (fst (m p), self <| operator_vault_routes_distribution_progress :=
       <[Z.to_nat i := snd (m p)]> (operator_vault_routes_distribution_progress self) |>).
Proof.
  intros Hwf Hi.
  destruct (lookup_lt_is_Some_2 (operator_vault_routes_distribution_progress self) (Z.to_nat i)) as [p Hp];
    [rewrite (wf_routes _ Hwf); lia|].
  exists p. split; [done|]. unfold on_route, zoom_at. rewrite Hp. by destruct (m p).
Qed.

(** What is left of a record of effects is computed, a case for each counter and
    account. *)
Ltac exact_fields :=
  split; cbn [counter_at status_at effect new_status];
  [ intros []; cbn; rewrite ?grown_run, ?list_insert_insert_eq;
    first [reflexivity | by apply option_map_self | by eapply lookup_upd]
  | intros []; cbn; first [reflexivity | by apply option_map_self | by eapply lookup_upd] | try reflexivity.. ].

(** An update is one of three: it goes through with its effects, a counter
    overflows, or it panics, which none does. *)
Definition as_announced (u : update) (self : t) : Prop :=
  match run_update u self with
  | (Ok _, self') => exactly u self self' /\ ~ overflows u self
  | (Err _, _) => overflows u self
  | (Panic, _) => False
  end.

Lemma status_lookups self i : wf self -> 0 <= i < 256 ->
  (exists v, EpochAccountStatus.operator_snapshot' (account_status self) !! Z.to_nat i = Some v)
  /\ (exists v, EpochAccountStatus.operator_vault_reward_router' (account_status self) !! Z.to_nat i = Some v)
  /\ (exists p, operator_snapshot_progress' self !! Z.to_nat i = Some p)
  /\ exists p, operator_vault_routes_distribution_progress self !! Z.to_nat i = Some p.
Proof.
  intros [Hs Ho Hr _] Hi. split_and!; apply lookup_lt_is_Some_2.
  - rewrite (EpochAccountStatus.wf_operator_len _ Hs). lia.
  - rewrite (EpochAccountStatus.wf_router_len _ Hs). lia.
  - lia.
  - lia.
Qed.

Lemma realloc_operator_announced i is_active self : wf self -> 0 <= i < 256 ->
  as_announced (ReallocOperatorSnapshot i is_active) self.
Proof.
  intros Hwf Hi. destruct (status_lookups self i Hwf Hi) as ((v & Hv) & _ & (p & Hp) & _).
  pose proof (lookup_lt_Some _ _ _ Hp) as Hl.
  unfold as_announced, run_update, update_realloc_operator_snapshot, on_status, on_operator_progress,
    on_epoch_progress, EpochAccountStatus.set_operator_snapshot, zoom, zoom_at, mbind, get_self, modify.
  rewrite Hv. cbn -[Progress.increment_one]. destruct is_active; cbn -[Progress.increment_one]; rewrite Hp.
  - cbn. split; [|exact id]. exact_fields.
  - cbn -[Progress.increment_one]. rewrite list_lookup_insert_eq by done. cbn -[Progress.increment_one].
    unfold Progress.increment_one. rewrite (Progress.tally_run 1 (Progress.new 1)).
    change (Progress.tally (Progress.new 1) + 1 <=? u64_MAX) with true. cbn -[Progress.increment].
    rewrite Progress.tally_run. cbn. destruct (_ <=? u64_MAX) eqn:Ho; cbn; [|lia]. split; [exact_fields|lia].
Qed.

Lemma delegation_announced i finalized self : wf self -> 0 <= i < 256 ->
  as_announced (SnapshotVaultOperatorDelegation i finalized) self.
Proof.
  intros Hwf Hi. destruct (status_lookups self i Hwf Hi) as (_ & _ & (p & Hp) & _).
  unfold as_announced, run_update, update_snapshot_vault_operator_delegation, on_operator_progress,
    on_epoch_progress, zoom, zoom_at, mbind, Progress.increment_one.
  rewrite Hp, Progress.tally_run. cbn [overflows]. destruct (Progress.tally p + 1 <=? u64_MAX) eqn:Ho; [|left; exists p; split; [done|lia]].
  destruct finalized; cbn -[Progress.increment].
  - rewrite Progress.tally_run. cbn. 
    destruct (Progress.tally (epoch_snapshot_progress self) + 1 <=? u64_MAX) eqn:Ho'; cbn; [|right; split; [done|lia]].
    split; [exact_fields|]. intros [(q & Hq & Hfull)|[_ Hfull]]; [|lia]. rewrite Hp in Hq. injection Hq as <-. lia.
  - split; [exact_fields|]. intros [(q & Hq & Hfull)|[? _]]; [|done]. rewrite Hp in Hq. injection Hq as <-. lia.
Qed.

Lemma modify_announced u f self : run_update u = modify f -> exactly u self (f self) ->
  (overflows u self -> False) -> as_announced u self.
Proof. intros Hr He Ho. unfold as_announced. rewrite Hr. by split. Qed.

Lemma vote_announced u self : wf self ->
  match u with CastVote _ _ _ | SetTieBreaker _ _ => True | _ => False end -> as_announced u self.
Proof.
  intros Hwf Hu. destruct u; try done; eapply modify_announced; try reflexivity; try exact id;
    unfold update_cast_vote, update_set_tie_breaker; destruct consensus;
    destruct (is_consensus_reached self) eqn:Hc; cbn [andb negb]; exact_fields; cbn; rewrite ?Hc, ?orb_false_r, ?orb_true_r;
    reflexivity.
Qed.

Lemma indexed_announced u self : wf self -> update_ok u ->
  match u with
  | ReallocOperatorVaultRewardRouter _ | RouteOperatorVaultRewards _ _ | DistributeOperatorVaultRouteRewards _ _
  | CloseOperatorSnapshot _ | CloseOperatorVaultRewardRouter _ => True
  | _ => False
  end -> as_announced u self.
Proof.
  intros Hwf Hi Hu. destruct u; try done; cbn in Hi;
    destruct (status_lookups self i Hwf Hi) as ((v & Hv) & (v' & Hv') & _ & p & Hp);
    unfold as_announced, run_update, update_realloc_operator_vault_reward_router, update_route_operator_vault_rewards,
      update_distribute_operator_vault_route_rewards, close_operator_snapshot, close_operator_vault_reward_router,
      on_status, on_route, EpochAccountStatus.set_operator_snapshot, EpochAccountStatus.set_operator_vault_reward_router,
      zoom, zoom_at, mbind, modify; cbn; rewrite ?Hv, ?Hv'; cbn; rewrite ?Hp; cbn;
    (split; [exact_fields|exact id]).
Qed.

Lemma update_announced u self : wf self -> update_ok u -> as_announced u self.
Proof.
  intros Hwf Hu. destruct u; cbn [update_ok] in Hu;
    first [ by apply realloc_operator_announced | by apply delegation_announced | by apply vote_announced
          | by apply indexed_announced | idtac ];
    (eapply modify_announced; [reflexivity| |exact id]); exact_fields.
Qed.

(** C37: the updaters and closers, all together. With an operator index below
    256 no update panics; one that goes through changes the counters and the
    account statuses exactly as the table says (the counter of an operator and of
    the epoch's snapshot go up by one, a reallocation sets the counter to zero of
    its total, a payment is added to the total and to its own part) and the
    remaining fields as given; the only error is a counter that cannot go up by
    one, exactly when it is at the end of its range; and every update keeps the
    state well formed, its identity (NCN, epoch, bump, creation slot), the slot of
    consensus once it is set, the closing flag once it is set, and the tie-breaker
    flag, which implies consensus. *)
Theorem updates_in_order u self :
  wf self -> update_ok u ->
  exists r self', run_update u self = (r, self') /\ (r = Ok tt \/ r = Err ArithmeticOverflow)
  /\ (r = Ok tt -> exactly u self self') /\ (r = Err ArithmeticOverflow <-> overflows u self)
  /\ wf self'
  /\ ncn self' = ncn self /\ epoch self' = epoch self /\ bump self' = bump self /\ slot_created self' = slot_created self
  /\ (is_consensus_reached self = true -> slot_consensus_reached self' = slot_consensus_reached self)
  /\ (is_closing self = true -> is_closing self' = true)
  /\ (was_tie_breaker_set self = true -> was_tie_breaker_set self' = true).
Proof.
  intros Hwf Hu. destruct (update_keeps u self Hwf Hu) as (r & self' & E & Hr & [Hw Hi Hc Hl Ht]).
  pose proof (update_announced u self Hwf Hu) as Ha. unfold as_announced in Ha. rewrite E in Ha.
  exists r, self'. destruct Hi as (? & ? & ? & ?). split_and!; try done.
  - intros ->. apply Ha.
  - destruct Hr as [-> | ->]; [|done]. split; [done|]. intros Ho. by destruct (proj2 Ha).
Qed.

(** ** Distribution accounting *)

Definition distributed (self : t) : Z :=
  Progress.tally (ncn_distribution_progress self) + Progress.tally (protocol_distribution_progress self)
  + sum_by Progress.tally (operator_vault_routes_distribution_progress self).

(** The tallies are amounts, and the total is their sum. *)
Record balanced (self : t) : Prop := {
  balanced_sum : Progress.tally (total_distribution_progress self) = distributed self;
  balanced_ncn : 0 <= Progress.tally (ncn_distribution_progress self);
  balanced_protocol : 0 <= Progress.tally (protocol_distribution_progress self);
  balanced_routes : forall i p, operator_vault_routes_distribution_progress self !! i = Some p -> 0 <= Progress.tally p;
}.

Lemma increment_ignored_tally n p : Progress.tally p + n <= u64_MAX ->
  Progress.tally (Progress.increment_ignored n p) = Progress.tally p + n.
Proof. intros H. unfold Progress.increment_ignored. rewrite Progress.tally_run. by destruct (_ <=? _) eqn:?; [|lia]. Qed.

(** The running total of the distribution is the sum of what went to the
    NCN, to the protocol and to each operator's route. Each of the three updates
    that report a payment adds the payment to the total and to its own part, as
    long as the total stays in [u64]; then no part is lost to an ignored
    overflow. *)
Theorem distribution_balanced u n self :
  wf self -> balanced self -> 0 <= n ->
  Progress.tally (total_distribution_progress self) + n <= u64_MAX ->
  u = DistributeNcnRewards n \/ u = DistributeProtocolRewards n
  \/ (exists i, 0 <= i < 256 /\ u = DistributeOperatorVaultRouteRewards i n) ->
  exists self', run_update u self = (Ok tt, self') /\ balanced self'
  /\ Progress.tally (total_distribution_progress self')
     = Progress.tally (total_distribution_progress self) + n.
Proof.
  intros Hwf [Hsum Hn Hp Hr] Hn0 Hle Hu.
  assert (0 <= sum_by Progress.tally (operator_vault_routes_distribution_progress self)) as Hrs by by apply sum_by_nonneg.
  unfold distributed in Hsum.
  destruct Hu as [->|[->|(i & Hi & ->)]]; cbn [run_update].
  - eexists. split; [reflexivity|]. split; [|by apply increment_ignored_tally].
    split; unfold distributed; cbn -[sum_by]; rewrite ?increment_ignored_tally by lia; (done || lia).
  - eexists. split; [reflexivity|]. split; [|by apply increment_ignored_tally].
    split; unfold distributed; cbn -[sum_by]; rewrite ?increment_ignored_tally by lia; (done || lia).
  - destruct (lookup_lt_is_Some_2 (operator_vault_routes_distribution_progress self) (Z.to_nat i)) as [p Hpi];
      [rewrite (wf_routes _ Hwf); lia|].
    pose proof (sum_by_elem_le Progress.tally _ _ _ Hr Hpi) as Hple.
    unfold update_distribute_operator_vault_route_rewards, on_route. rewrite run_modify. unfold zoom_at.
    change (operator_vault_routes_distribution_progress (add_total_distribution n self))
      with (operator_vault_routes_distribution_progress self).
    rewrite Hpi. eexists. split; [reflexivity|]. split; [|by apply increment_ignored_tally].
    assert (Progress.tally p + n <= u64_MAX) as Hpn by lia.
    split; unfold distributed; cbn -[sum_by].
    + rewrite (sum_by_insert _ _ _ _ _ Hpi), !increment_ignored_tally by lia. lia.
    + done.
    + done.
    + intros j q. rewrite list_lookup_insert. case_decide; [|by apply Hr].
      intros [= <-]. rewrite increment_ignored_tally by done. specialize (Hr _ _ Hpi). lia.
Qed.

(** ** Witnesses *)

Definition example_state : t :=
  (initialize 7 5 254 1000 zeroed) <| account_status := EpochAccountStatus.default |>.
Definition example_closed : t :=
  set_status (fun s => s <| EpochAccountStatus.weight_table' := 3 |> <| EpochAccountStatus.epoch_snapshot' := 3 |>
    <| EpochAccountStatus.ballot_box' := 3 |> <| EpochAccountStatus.ncn_reward_router' := 3 |>) example_state.

Lemma example_state_wf : wf example_state.
Proof. split; try done. apply EpochAccountStatus.account_status_default_wf. Qed.

Lemma load_to_close_spec_witness :
  EpochAccountStatus.wf (account_status example_closed)
  /\ EpochAccountStatus.weight_table (account_status example_closed) = Ok AccountStatus.Closed.
Proof.
  assert (EpochAccountStatus.wf (account_status example_closed)) as Hwf.
  { destruct EpochAccountStatus.account_status_default_wf. by split. }
  split; [exact Hwf|].
  assert (load_to_close example_closed 7 5 = Ok tt) as Hc by (vm_compute; reflexivity).
  exact (proj1 (proj2 (proj2 (proj1 (proj1 (load_to_close_spec example_closed 7 5 Hwf)) Hc)))).
Defined.

Lemma current_state_spec_witness :
  EpochAccountStatus.wf (account_status example_state)
  /\ current_state (fun s => s / 432000) 1000 10 2000 example_state = Ok State.SetWeight
  /\ ~ weights_done example_state.
Proof.
  assert (EpochAccountStatus.wf (account_status example_state)) as Hwf by apply example_state_wf.
  pose proof (current_state_spec (fun s => s / 432000) 1000 10 2000 example_state Hwf) as H.
  assert (current_state (fun s => s / 432000) 1000 10 2000 example_state = Ok State.SetWeight) as E
    by (vm_compute; reflexivity).
  rewrite E in H. split; [exact Hwf|]. split; [exact E|exact (proj2 H)].
Defined.

Lemma current_state_patched_agrees_witness :
  current_state_patched (fun s => s / 432000) 1000 10 0 2000 example_state = Ok State.SetWeight.
Proof.
  rewrite (current_state_patched_agrees (fun s => s / 432000) 1000 10 0 2000 example_state
    ltac:(reflexivity) ltac:(reflexivity)).
  vm_compute. reflexivity.
Defined.

Lemma updates_in_order_witness :
  wf example_state /\ exists self', run_update (ReallocOperatorSnapshot 3 false) example_state = (Ok tt, self')
    /\ counter_at (Operator 3) self' = Some (Progress.mk 1 1) /\ counter_at EpochSnapshot self' = Some (Progress.mk 1 0)
    /\ status_at (OperatorSnapshotAccount 3) self' = Some 1 /\ ncn self' = 7.
Proof.
  split; [exact example_state_wf|].
  destruct (updates_in_order (ReallocOperatorSnapshot 3 false) example_state example_state_wf
              ltac:(split; [discriminate|reflexivity])) as (r & self' & E & _ & Hx & _ & _ & Hn & _).
  assert (r = Ok tt) as -> by (apply (f_equal fst) in E; vm_compute in E; symmetry; exact E).
  destruct (Hx eq_refl) as [Hc Hs _ _ _ _ _]. exists self'. split; [exact E|].
  split; [rewrite (Hc (Operator 3)); vm_compute; reflexivity|].
  split; [rewrite (Hc EpochSnapshot); vm_compute; reflexivity|].
  split; [rewrite (Hs (OperatorSnapshotAccount 3)); vm_compute; reflexivity|exact Hn].
Defined.

Lemma distribution_balanced_witness :
  exists self', run_update (DistributeNcnRewards 40) example_state = (Ok tt, self') /\ balanced self'.
Proof.
  assert (balanced example_state) as Hb.
  { split; [vm_compute; reflexivity|discriminate|discriminate|].
    intros i p [-> _]%lookup_replicate. discriminate. }
  destruct (distribution_balanced (DistributeNcnRewards 40) 40 example_state example_state_wf Hb
    ltac:(discriminate) ltac:(vm_compute; discriminate) (or_introl eq_refl)) as (self' & E & Hb' & _).
  exists self'. split; [exact E|exact Hb'].
Defined.
End EpochState.
