(* ===== verification/Routes.v ===== *)
(** Reward routes: both routers keep a fixed array with one slot per
    beneficiary, filled from the front. This file is the theory of such an
    array, for any type of slot with a key and an amount; the routers
    instantiate it with their own slots. *)
From stdpp Require Import sets.
From S2P Require Import Prelude Errors.

(** [u128::try_into] to [u64]. *)
Definition try_u64 (n : u128) : result NCNProgramError.t u64 :=
  if n <=? u64_MAX then Ok n else Err NCNProgramError.CastToU64Error.

(** [self.field = self.field.checked_add(rewards).ok_or(ArithmeticOverflow)?], and
    the same with [checked_sub]: how the routers move lamports between their
    balances. *)
Definition add_to {T} (get : T -> u64) (set : u64 -> T -> T) (rewards : u64) : M T NCNProgramError.t unit :=
  let* self := get_self in
  let* n := lift (ok_or (checked_add u64_MAX (get self) rewards) NCNProgramError.ArithmeticOverflow) in
  modify (set n).
Definition take_from {T} (get : T -> u64) (set : u64 -> T -> T) (rewards : u64) : M T NCNProgramError.t unit :=
  let* self := get_self in
  let* n := lift (ok_or (checked_sub (get self) rewards) NCNProgramError.ArithmeticUnderflowError) in
  modify (set n).

Lemma add_to_run {T} (get : T -> u64) set r self : get self + r <= u64_MAX -> add_to get set r self = (Ok tt, set (get self + r) self).
Proof. intros H. unfold add_to. by rewrite run_get_self, run_add. Qed.

Lemma take_from_run {T} (get : T -> u64) set r self : r <= get self -> take_from get set r self = (Ok tt, set (get self - r) self).
Proof. intros H. unfold take_from. by rewrite run_get_self, run_sub. Qed.


(** How many iterations calls with these limits may make: at least one each. *)
Definition capacity (calls : list u16) : Z := sum_by (fun m => Z.max m 1) calls.

(** ** Shares

    [R] lamports are divided in proportion to weights that add up to [W],
    each share rounded down. *)
Lemma floor_add a b c : 0 < c -> a / c + b / c <= (a + b) / c.
Proof.
  intros Hc. apply Z.div_le_lower_bound; [done|].
  pose proof (Z.mul_div_le a c Hc). pose proof (Z.mul_div_le b c Hc). lia.
Qed.

Section shares.
Context {A : Type} (f : A -> Z) (R W : Z) (HR : 0 <= R).
Implicit Types l : list A.

(** The shares never exceed what is divided. *)
Lemma shares_le l : (forall i x, l !! i = Some x -> 0 <= f x) -> sum_by f l <= W ->
  sum_by (fun x => R * f x / W) l <= R.
Proof.
  intros Hf Hsum. pose proof (sum_by_nonneg f l Hf) as Hnn.
  destruct (decide (W = 0)) as [HW0|HW0].
  { rewrite sum_by_zero; [lia|]. intros i x Hi. by rewrite HW0, Zdiv_0_r. }
  assert (forall l, sum_by (fun x => R * f x / W) l <= R * sum_by f l / W) as Hle.
  { intros k. induction k as [|x k IH]; [cbn; rewrite Z.mul_0_r; by rewrite Zdiv_0_l|].
    unfold sum_by in *. cbn [foldr]. rewrite Z.mul_add_distr_l.
    eapply Z.le_trans; [|apply floor_add; lia]. lia. }
  eapply Z.le_trans; [apply Hle|]. apply Z.div_le_upper_bound; nia.
Qed.

(** What rounding leaves over is less than one lamport per positive share. *)
Lemma shares_leftover l : 0 < W -> (forall i x, l !! i = Some x -> 0 <= f x) -> sum_by f l = W ->
  R - sum_by (fun x => R * f x / W) l < count_if (fun x => 0 <? f x) l.
Proof.
  intros HW0 Hf Hsum.
  assert (R * sum_by f l <= W * sum_by (fun x => R * f x / W) l
          + (W - 1) * count_if (fun x => 0 <? f x) l
          /\ (0 < sum_by f l -> 0 < count_if (fun x => 0 <? f x) l)) as [Hle Hpos].
  { clear Hsum. rewrite count_if_sum. induction l as [|x l IH]; [cbn; lia|].
    destruct (IH (fun i y Hy => Hf (S i) y Hy)) as [IH1 IH2]. specialize (Hf O x eq_refl).
    unfold sum_by in *. cbn [foldr].
    pose proof (Z.mod_pos_bound (R * f x) W HW0). pose proof (Z.div_mod (R * f x) W ltac:(lia)).
    pose proof (count_if_nonneg (fun x => 0 <? f x) l) as Hc. rewrite count_if_sum in Hc.
    unfold sum_by in Hc. destruct (0 <? f x) eqn:E; cbn [Z.b2z].
    - split; [lia|lia].
    - assert (f x = 0) as -> by lia. rewrite Z.mul_0_r, Zdiv_0_l. split; [lia|]. intros. apply IH2. lia. }
  rewrite Hsum in *. specialize (Hpos HW0). nia.
Qed.
End shares.

Section routes.
Context {R : Type} (key : R -> Pubkey) (amount : R -> u64) (make : Pubkey -> u64 -> R) (size : nat).
Context (key_make : forall k n, key (make k n) = k) (amount_make : forall k n, amount (make k n) = n).

(** [size] slots, filled from the front, each beneficiary in one at most. *)
Record routes_ok (l : list R) : Prop := {
  routes_len : List.length l = size;
  routes_distinct : distinct_keys key l;
  routes_empty : forall i r, l !! i = Some r -> key r = 0 -> r = make 0 0;
  routes_packed : forall i j r s, l !! i = Some r -> l !! j = Some s -> (i < j)%nat ->
    key r = 0 -> key s = 0;
  routes_nonneg : forall i r, l !! i = Some r -> 0 <= amount r;
}.

(** The beneficiaries are among [V]. *)
Definition routes_among (V : list Pubkey) (l : list R) : Prop :=
  forall i r, l !! i = Some r -> key r <> 0 -> key r ∈ V.

(** What a beneficiary is owed. *)
Definition reward_of (op : Pubkey) (l : list R) : u64 :=
  match find_index (fun r => key r =? op) l with
  | Some (_, r) => amount r
  | None => 0
  end.

(** The slot a payment goes to: the beneficiary's own, or the first free one
    when it has none. *)
Definition slot_for (op : Pubkey) (r : R) : bool := (key r =? op) || (key r =? Pubkey_default).

Definition pay_route (op : Pubkey) (n : u64) (l : list R) : list R :=
  if n =? 0 then l
  else match find_index (slot_for op) l with
       | Some (i, r) => <[i := make op (if key r =? op then amount r + n else n)]> l
       | None => l
       end.

Lemma routes_sum_nonneg l : routes_ok l -> 0 <= sum_by amount l.
Proof. intros Hl. apply sum_by_nonneg, Hl. Qed.

Lemma routes_amount_le l i r : routes_ok l -> l !! i = Some r -> amount r <= sum_by amount l.
Proof. intros Hl. apply sum_by_elem_le, Hl. Qed.

Lemma slot_for_found op l i r : routes_ok l -> op <> 0 ->
  find_index (slot_for op) l = Some (i, r) ->
  l !! i = Some r
  /\ (key r = op /\ find_index (fun r => key r =? op) l = Some (i, r)
      \/ r = make 0 0
      /\ find_index (fun r => key r =? op) l = None
      /\ find_index (fun r => key r =? Pubkey_default) l = Some (i, r)
      /\ (forall j s, (j < i)%nat -> l !! j = Some s -> key s <> 0)).
Proof.
  intros Hl Hop (Hi & Hr & Hlo)%find_index_Some. split; [done|].
  unfold slot_for in *. destruct (key r =? op) eqn:E; cbn in Hr; [left|right].
  - split; [lia|]. apply find_index_Some. split_and!; [done|done|].
    intros j y Hj Hy. specialize (Hlo j y Hj Hy). by apply orb_false_iff in Hlo as [? _].
  - assert (key r = 0) as H0 by (unfold Pubkey_default in Hr; lia).
    split; [by eapply routes_empty|]. split_and!.
    + apply find_index_None. intros j y Hy. destruct (key y =? op) eqn:Ey; [|done].
      exfalso. destruct (Nat.lt_trichotomy j i) as [Hlt|[->|Hgt]].
      * specialize (Hlo j y Hlt Hy). apply orb_false_iff in Hlo as [? _]. congruence.
      * rewrite Hi in Hy. injection Hy as ->. congruence.
      * pose proof (routes_packed _ Hl i j r y Hi Hy Hgt H0). lia.
    + apply find_index_Some. split_and!; [done|done|].
      intros j s Hj Hs. specialize (Hlo j s Hj Hs). by apply orb_false_iff in Hlo as [_ ?].
    + intros j s Hj Hs. specialize (Hlo j s Hj Hs). apply orb_false_iff in Hlo as [_ ?].
      unfold Pubkey_default in *. lia.
Qed.

(** There is always room for a beneficiary in [V] when [V] is small enough. *)
Lemma routes_room V op l : routes_ok l -> routes_among V l -> (List.length V <= size)%nat -> op ∈ V ->
  exists i r, find_index (slot_for op) l = Some (i, r).
Proof.
  intros Hl HV Hlen Hop. destruct (find_index (slot_for op) l) as [[i r]|] eqn:Hf; [eauto|exfalso].
  assert (Hall : forall i r, l !! i = Some r -> key r <> op /\ key r <> 0).
  { intros i r Hi. eapply find_index_None in Hf; [|done]. unfold slot_for in Hf.
    apply orb_false_iff in Hf as [? ?]. unfold Pubkey_default in *. lia. }
  assert (incl V (map key l)) as Hincl.
  { apply NoDup_length_incl.
    - apply NoDup_ListNoDup, NoDup_alt. intros i j x Hi Hj.
      apply list_lookup_fmap_Some in Hi as (r & -> & Hi). apply list_lookup_fmap_Some in Hj as (s & He & Hj).
      apply (routes_distinct _ Hl i j r s); [done..|]. by eapply Hall.
    - rewrite length_map, (routes_len _ Hl). done.
    - intros x Hx. apply list_elem_of_In in Hx. apply list_elem_of_fmap in Hx as (r & -> & Hr).
      apply list_elem_of_lookup in Hr as [i Hi]. apply list_elem_of_In. eapply HV; [done|]. by eapply Hall. }
  apply list_elem_of_In, Hincl, in_map_iff in Hop as (r & Hr & Hin).
  apply list_elem_of_In, list_elem_of_lookup in Hin as [i Hi]. by destruct (Hall i r Hi).
Qed.

(** Writing a beneficiary's slot, its own or a free one it gets. *)
Lemma routes_write op m i r l : routes_ok l -> op <> 0 -> 0 <= m ->
  find_index (slot_for op) l = Some (i, r) -> routes_ok (<[i := make op m]> l).
Proof using key_make amount_make.
  intros Hl Hop Hm Hf. destruct (slot_for_found op l i r Hl Hop Hf) as [Hi Hc]. split.
  - by rewrite length_insert, (routes_len _ Hl).
  - apply distinct_keys_insert; [apply Hl|]. intros j y Hj Hy _. rewrite key_make in Hy.
    destruct Hc as [[He _]|(_ & Hnone & _)].
    + apply (routes_distinct _ Hl j i y r); [done|done|congruence|congruence].
    + eapply find_index_None in Hnone; [|done]. cbn in Hnone. lia.
  - intros j s. rewrite list_lookup_insert. case_decide; [|apply Hl].
    intros [= <-]. by rewrite key_make.
  - intros j k x y. rewrite !list_lookup_insert. intros Hj Hk Hlt Hx.
    destruct (decide _) as [[<- _]|Hd]; [simplify_eq; by rewrite key_make in Hx|].
    destruct (decide _) as [[<- _]|Hd'].
    + destruct Hc as [[He _]|(_ & _ & _ & Hlo)].
      * pose proof (routes_packed _ Hl j i x r Hj Hi Hlt Hx). congruence.
      * exfalso. by eapply Hlo.
    + by eapply (routes_packed _ Hl j k).
  - intros j s. rewrite list_lookup_insert. case_decide; [|apply Hl].
    intros [= <-]. by rewrite amount_make.
Qed.

Lemma pay_route_spec V op n l : (List.length V <= size)%nat ->
  routes_ok l -> routes_among V l -> op ∈ V -> op <> 0 -> 0 <= n ->
  routes_ok (pay_route op n l) /\ routes_among V (pay_route op n l)
  /\ sum_by amount (pay_route op n l) = sum_by amount l + n
  /\ reward_of op (pay_route op n l) = reward_of op l + n
  /\ (forall op', op' <> op -> op' <> 0 -> reward_of op' (pay_route op n l) = reward_of op' l).
Proof using key_make amount_make.
  intros HV Hl Ha Hin Hop Hn. unfold pay_route. destruct (n =? 0) eqn:Hn0.
  { assert (n = 0) as -> by lia. rewrite !Z.add_0_r. done. }
  destruct (routes_room V op l Hl Ha HV Hin) as (i & r & Hf). rewrite Hf.
  destruct (slot_for_found op l i r Hl Hop Hf) as [Hi Hc].
  set (r' := make op _).
  assert (key r' = op) as Hkey by apply key_make.
  assert (amount r' = amount r + n) as Hr'.
  { subst r'. rewrite amount_make. destruct Hc as [[-> _]|[-> _]]; [by rewrite Z.eqb_refl|].
    rewrite key_make, amount_make. destruct (0 =? op) eqn:E; lia. }
  pose proof (routes_nonneg _ Hl _ _ Hi) as Hpos.
  split_and!.
  - apply (routes_write op _ i r); [done..| |done].
    subst r'. rewrite amount_make in Hr'. lia.
  - intros j s. rewrite list_lookup_insert. case_decide; [|apply Ha].
    intros [= <-] _. by rewrite Hkey.
  - rewrite (sum_by_insert _ _ _ _ _ Hi), Hr'. lia.
  - unfold reward_of. assert (key r' =? op = true) as E by lia.
    destruct Hc as [[He Hfi]|(-> & Hnone & _)].
    + rewrite Hfi, (find_index_insert_hit _ _ _ _ r' Hfi E). done.
    + rewrite Hnone, (find_index_insert_new _ _ i r' Hnone); [|by eapply lookup_lt_Some|done].
      rewrite Hr', amount_make. done.
  - intros op' H1 H2. unfold reward_of.
    assert (key r <> op') by (destruct Hc as [[-> _]|[-> _]]; [done|rewrite key_make; congruence]).
    rewrite (find_index_insert_miss _ _ i r r'); [done|done|lia|lia].
Qed.

(** Setting an existing beneficiary's amount to zero. *)
Lemma reset_route_spec op i r l : routes_ok l -> op <> 0 ->
  find_index (fun r => key r =? op) l = Some (i, r) ->
  routes_ok (<[i := make op 0]> l)
  /\ find_index (fun r => key r =? op) (<[i := make op 0]> l) = Some (i, make op 0)
  /\ sum_by amount (<[i := make op 0]> l) = sum_by amount l - amount r
  /\ (forall op', op' <> op -> reward_of op' (<[i := make op 0]> l) = reward_of op' l).
Proof using key_make amount_make.
  intros Hl Hop Hf. pose proof (find_index_lookup _ _ _ _ Hf) as Hi.
  pose proof (find_index_true _ _ _ _ Hf) as He. apply Z.eqb_eq in He.
  split_and!.
  - apply (routes_write op 0 i r); [done..|].
    apply find_index_Some. split_and!; [done|unfold slot_for; by rewrite He, Z.eqb_refl|].
    intros j y Hj Hy. apply find_index_Some in Hf as (_ & _ & Hlo). specialize (Hlo j y Hj Hy). cbn in Hlo.
    unfold slot_for. rewrite Hlo. cbn. destruct (key y =? Pubkey_default) eqn:E; [|done].
    unfold Pubkey_default in E. pose proof (routes_packed _ Hl j i y r Hy Hi Hj ltac:(lia)). lia.
  - apply (find_index_insert_hit _ _ _ _ (make op 0) Hf). by rewrite key_make, Z.eqb_refl.
  - rewrite (sum_by_insert _ _ _ _ _ Hi), amount_make. lia.
  - intros op' Hne. unfold reward_of.
    rewrite (find_index_insert_miss _ _ i r (make op 0)); [done|done|lia|rewrite key_make; lia].
Qed.

Lemma routes_replicate : routes_ok (replicate size (make 0 0)).
Proof using key_make amount_make.
  split.
  - apply length_replicate.
  - apply distinct_keys_replicate, key_make.
  - by intros i r [-> _]%lookup_replicate.
  - by intros i j r s _ [-> _]%lookup_replicate.
  - intros i r [-> _]%lookup_replicate. by rewrite amount_make.
Qed.

Lemma routes_among_replicate V n : routes_among V (replicate n (make 0 0)).
Proof using key_make. intros i r [-> _]%lookup_replicate. by rewrite key_make. Qed.
End routes.

Arguments routes_len {R key amount make size l} _.
Arguments routes_distinct {R key amount make size l} _.
Arguments routes_empty {R key amount make size l} _.
Arguments routes_packed {R key amount make size l} _.
Arguments routes_nonneg {R key amount make size l} _.
Arguments routes_sum_nonneg {R key amount make size} l _.
Arguments routes_amount_le {R key amount make size} l i r _ _.
Arguments slot_for_found {R key amount make size} op l i r _ _ _.
Arguments routes_room {R key amount make size} V op l _ _ _ _.
Arguments pay_route_spec {R key amount make size} key_make amount_make V op n l _ _ _ _ _ _.
Arguments reset_route_spec {R key amount make size} key_make amount_make op i r l _ _ _.
Arguments routes_replicate {R key amount make size} key_make amount_make.
