(* ===== verification/NcnRouter.v ===== *)
(** The NCN reward router ([core/src/ncn_reward_router.rs]): the rewards of an
    epoch are split between the protocol, the NCN and the operators that voted
    for the winning ballot, the latter in installments when they are many. *)
From stdpp Require Import sets.
From S2P Require Import Prelude Errors Precise Stake Fees Voting Routes.

Module OperatorVaultRewardRoute.
Import NCNProgramError.

Record t := mk { operator : Pubkey; rewards' : u64 }.
#[global] Instance eta_t : Eta t := fun r => mk (operator r) (rewards' r).

Definition default : t := mk Pubkey_default 0.
Definition rewards (r : t) : result NCNProgramError.t u64 := Ok (rewards' r).
Definition is_empty (r : t) : bool := operator r =? Pubkey_default.
Definition has_rewards (r : t) : result NCNProgramError.t bool :=
  let? rewards := rewards r in
  if 0 <? rewards then Ok true else Ok false.
Definition set_rewards (n : u64) : M t NCNProgramError.t unit := modify (put rewards' n).
Definition new (operator : Pubkey) (rewards : u64) : result NCNProgramError.t t :=
  let route := mk operator 0 in
  let '(r, route) := set_rewards rewards route in
  let? _ := r in Ok route.
Definition increment_rewards (n : u64) : M t NCNProgramError.t unit :=
  let* self := get_self in
  let* current_rewards := lift (rewards self) in
  let* new_rewards := lift (ok_or (checked_add u64_MAX current_rewards n) ArithmeticOverflow) in
  set_rewards new_rewards.
Definition decrement_rewards (n : u64) : M t NCNProgramError.t unit :=
  let* self := get_self in
  let* current_rewards := lift (rewards self) in
  let* new_rewards := lift (ok_or (checked_sub current_rewards n) ArithmeticOverflow) in
  set_rewards new_rewards.
End OperatorVaultRewardRoute.

Module NCNRewardRouter.
Import NCNProgramError.

Record t := mk {
  ncn : Pubkey;
  epoch : u64;
  bump : u8;
  slot_created : u64;
  total_rewards : u64;
  reward_pool : u64;
  rewards_processed : u64;
  reserved : list u8;
  last_vote_index : u16;
  last_rewards_to_process : u64;
  protocol_rewards : u64;
  ncn_rewards : u64;
  operator_vault_rewards : u64;
  operator_vault_reward_routes : list OperatorVaultRewardRoute.t;
}.
#[global] Instance eta_t : Eta t := fun r =>
  mk (ncn r) (epoch r) (bump r) (slot_created r) (total_rewards r) (reward_pool r)
     (rewards_processed r) (reserved r) (last_vote_index r) (last_rewards_to_process r)
     (protocol_rewards r) (ncn_rewards r) (operator_vault_rewards r)
     (operator_vault_reward_routes r).

Definition NO_LAST_VOTE_INDEX : u16 := u16_MAX.
Definition NO_LAST_REWARDS_TO_PROCESS : u64 := u64_MAX.
Definition MAX_ROUTE_BASE_ITERATIONS : u16 := 30.

Definition new (ncn : Pubkey) (ncn_epoch : u64) (bump : u8) (slot_created : u64) : t :=
  mk ncn ncn_epoch bump slot_created 0 0 0 (replicate 128 0) NO_LAST_VOTE_INDEX
     NO_LAST_REWARDS_TO_PROCESS 0 0 0 (replicate 256 OperatorVaultRewardRoute.default).

Definition save_routing_state (vote_index : usize) (rewards_to_process : u64) (self : t) : t :=
  self <| last_vote_index := as_u16 vote_index |>
       <| last_rewards_to_process := rewards_to_process |>.
Definition reset_routing_state (self : t) : t :=
  self <| last_vote_index := NO_LAST_VOTE_INDEX |>
       <| last_rewards_to_process := NO_LAST_REWARDS_TO_PROCESS |>.
Definition still_routing (self : t) : bool :=
  negb (last_vote_index self =? NO_LAST_VOTE_INDEX)
  || negb (last_rewards_to_process self =? NO_LAST_REWARDS_TO_PROCESS).
Definition resume_routing_state (self : t) : usize * u64 :=
  if negb (still_routing self) then (0, 0)
  else (last_vote_index self, last_rewards_to_process self).

Definition initialize (n : Pubkey) (ncn_epoch : u64) (b : u8) (current_slot : u64) (self : t) : t :=
  reset_routing_state
    (self <| ncn := n |> <| epoch := ncn_epoch |> <| bump := b |> <| slot_created := current_slot |>
          <| total_rewards := 0 |> <| reward_pool := 0 |> <| rewards_processed := 0 |>
          <| reserved := replicate 128 0 |>
          <| protocol_rewards := 0 |> <| ncn_rewards := 0 |> <| operator_vault_rewards := 0 |>
          <| operator_vault_reward_routes := replicate 256 OperatorVaultRewardRoute.default |>).

Definition operator_vault_reward_route (operator : Pubkey) (self : t) : OperatorVaultRewardRoute.t :=
  match find_index (fun route => OperatorVaultRewardRoute.operator route =? operator)
          (operator_vault_reward_routes self) with
  | Some (_, route) => route
  | None => OperatorVaultRewardRoute.default
  end.

(** ** Moving rewards *)

Definition increment_rewards_processed (rewards : u64) : M t NCNProgramError.t unit :=
  if rewards =? 0 then ret tt else add_to rewards_processed (put rewards_processed) rewards.
Definition decrement_rewards_processed (rewards : u64) : M t NCNProgramError.t unit :=
  if rewards =? 0 then ret tt else take_from rewards_processed (put rewards_processed) rewards.

Definition route_to_reward_pool (rewards : u64) : M t NCNProgramError.t unit :=
  if rewards =? 0 then ret tt
  else
    let* _ := add_to total_rewards (put total_rewards) rewards in
    add_to reward_pool (put reward_pool) rewards.
Definition route_from_reward_pool (rewards : u64) : M t NCNProgramError.t unit :=
  if rewards =? 0 then ret tt
  else
    let* _ := take_from reward_pool (put reward_pool) rewards in
    increment_rewards_processed rewards.
Definition route_from_operator_vault_rewards (rewards : u64) : M t NCNProgramError.t unit :=
  if rewards =? 0 then ret tt
  else take_from operator_vault_rewards (put operator_vault_rewards) rewards.
Definition route_to_protocol (rewards : u64) : M t NCNProgramError.t unit :=
  if rewards =? 0 then ret tt else add_to protocol_rewards (put protocol_rewards) rewards.
Definition route_to_ncn (rewards : u64) : M t NCNProgramError.t unit :=
  if rewards =? 0 then ret tt else add_to ncn_rewards (put ncn_rewards) rewards.
Definition route_to_operator_vault (rewards : u64) : M t NCNProgramError.t unit :=
  if rewards =? 0 then ret tt
  else add_to operator_vault_rewards (put operator_vault_rewards) rewards.

Definition total_rewards_in_transit (self : t) : result NCNProgramError.t u64 :=
  ok_or (checked_add u64_MAX (reward_pool self) (rewards_processed self)) ArithmeticOverflow.

(** [rent_of_size] is [Rent::minimum_balance] and [size] the size of the
    account's data in memory, which the build determines. *)
Definition rent_cost (rent_of_size : usize -> u64) (size : usize) : result NCNProgramError.t u64 :=
  let? size := ok_or (checked_add u64_MAX 8 size) ArithmeticOverflow in
  Ok (rent_of_size size).

Definition route_incoming_rewards (rent_cost account_balance : u64) : M t NCNProgramError.t unit :=
  let* self := get_self in
  let* total_rewards := lift (total_rewards_in_transit self) in
  let* incoming_rewards :=
    lift (ok_or (checked_sub account_balance total_rewards) ArithmeticUnderflowError) in
  let* rewards_to_route :=
    lift (ok_or (checked_sub incoming_rewards rent_cost) ArithmeticUnderflowError) in
  let* _ := route_to_reward_pool rewards_to_route in
  ret tt.

(** ** Calculations *)
Section calculations.
Context {P : PreciseNumber}.

Definition calculate_reward_split (fee_basis_points : u16) (total_rewards : u64)
    : result NCNProgramError.t u64 :=
  let BASIS_POINTS_DENOMINATOR : u16 := 10000 in
  if (fee_basis_points =? 0) || (total_rewards =? 0) then Ok 0
  else
    let? precise_fee_basis_points := ok_or (pn_new fee_basis_points) NewPreciseNumberError in
    let? precise_basis_points_denominator :=
      ok_or (pn_new BASIS_POINTS_DENOMINATOR) NewPreciseNumberError in
    let? precise_total_rewards := ok_or (pn_new total_rewards) NewPreciseNumberError in
    let? precise_fee_amount :=
      ok_or (and_then (pn_checked_mul precise_total_rewards precise_fee_basis_points)
               (fun x => pn_checked_div x precise_basis_points_denominator)) ArithmeticOverflow in
    let? floored_precise_fee_amount := ok_or (pn_floor precise_fee_amount) ArithmeticFloorError in
    let? fee_amount_u128 :=
      ok_or (pn_to_imprecise floored_precise_fee_amount) CastToImpreciseNumberError in
    try_u64 fee_amount_u128.

Definition calculate_operator_vault_route_reward
    (operator_stake_weight winning_total_stake_weight : u128) (rewards_to_process : u64)
    : result NCNProgramError.t u64 :=
  if (operator_stake_weight =? 0) || (rewards_to_process =? 0) then Ok 0
  else
    let? precise_rewards_to_process := ok_or (pn_new rewards_to_process) NewPreciseNumberError in
    let? precise_operator_stake_weight :=
      ok_or (pn_new operator_stake_weight) NewPreciseNumberError in
    let? precise_winning_total_stake_weight :=
      ok_or (pn_new winning_total_stake_weight) NewPreciseNumberError in
    let? precise_operator_reward :=
      ok_or (and_then (pn_checked_mul precise_rewards_to_process precise_operator_stake_weight)
               (fun x => pn_checked_div x precise_winning_total_stake_weight)) ArithmeticOverflow in
    let? floored_precise_operator_reward :=
      ok_or (pn_floor precise_operator_reward) ArithmeticFloorError in
    let? operator_reward_u128 :=
      ok_or (pn_to_imprecise floored_precise_operator_reward) CastToImpreciseNumberError in
    try_u64 operator_reward_u128.

(** ** Routing *)

Definition route_reward_pool (fee : Fees.t) : M t NCNProgramError.t unit :=
  let* self := get_self in
  let rewards_to_process := reward_pool self in
  let* protocol_fee_bps := lift (Fees.protocol_fee_bps fee) in
  let* protocol_fee := lift (calculate_reward_split protocol_fee_bps rewards_to_process) in
  let* _ := route_from_reward_pool protocol_fee in
  let* _ := route_to_protocol protocol_fee in
  let* ncn_fee_bps := lift (Fees.ncn_fee_bps fee) in
  let* ncn_fee := lift (calculate_reward_split ncn_fee_bps rewards_to_process) in
  let* _ := route_from_reward_pool ncn_fee in
  let* _ := route_to_ncn ncn_fee in
  let* self := get_self in
  let operator_vault_rewards := reward_pool self in
  let* _ := route_from_reward_pool operator_vault_rewards in
  route_to_operator_vault operator_vault_rewards.

Definition route_to_operator_vault_reward_route (operator : Pubkey) (rewards : u64)
    : M t NCNProgramError.t unit :=
  if rewards =? 0 then ret tt
  else
    let* self := get_self in
    match find_index (fun r => (OperatorVaultRewardRoute.operator r =? operator)
                              || (OperatorVaultRewardRoute.operator r =? Pubkey_default))
            (operator_vault_reward_routes self) with
    | Some (i, operator_vault_route_reward) =>
        if OperatorVaultRewardRoute.operator operator_vault_route_reward =? operator
        then zoom_at operator_vault_reward_routes (put operator_vault_reward_routes) i
               (OperatorVaultRewardRoute.increment_rewards rewards)
        else
          let* route := lift (OperatorVaultRewardRoute.new operator rewards) in
          modify (put operator_vault_reward_routes (<[i := route]> (operator_vault_reward_routes self)))
    | None => throw OperatorRewardListFull
    end.

(** The loop over the votes: [votes] are those from [vote_index] on. The result
    tells whether the loop stopped because the iterations were used up. *)
Fixpoint route_votes (winning_index : u16) (winning_stake_weight : u128) (rewards_to_process : u64)
    (max_iterations : u16) (votes : list OperatorVote.t) (vote_index : usize) (iterations : u16)
    : M t NCNProgramError.t bool :=
  match votes with
  | [] => ret false
  | vote :: votes' =>
      if OperatorVote.ballot_index vote =? winning_index then
        let* iterations := lift (ok_or (checked_add u16_MAX iterations 1) ArithmeticOverflow) in
        if max_iterations <? iterations then
          let* _ := modify (save_routing_state vote_index rewards_to_process) in
          ret true
        else
          let operator := OperatorVote.operator vote in
          let operator_vote_stake_weight :=
            StakeWeights.stake_weight (OperatorVote.stake_weights vote) in
          let* operator_route_reward :=
            lift (calculate_operator_vault_route_reward operator_vote_stake_weight
                    winning_stake_weight rewards_to_process) in
          let* _ := route_from_operator_vault_rewards operator_route_reward in
          let* _ := route_to_operator_vault_reward_route operator operator_route_reward in
          route_votes winning_index winning_stake_weight rewards_to_process max_iterations votes'
            (vote_index + 1) iterations
      else
        route_votes winning_index winning_stake_weight rewards_to_process max_iterations votes'
          (vote_index + 1) iterations
  end.

Definition route_operator_vault_rewards (ballot_box : BallotBox.t) (max_iterations : u16)
    : M t NCNProgramError.t unit :=
  let* winning_ballot := lift (BallotBox.get_winning_ballot_tally ballot_box) in
  let winning_stake_weight := BallotTally.stake_weights winning_ballot in
  let* self := get_self in
  let '(starting_vote_index, starting_rewards_to_process) := resume_routing_state self in
  let max_iterations := Z.max max_iterations 1 in
  let rewards_to_process :=
    if 0 <? starting_rewards_to_process then starting_rewards_to_process
    else operator_vault_rewards self in
  if rewards_to_process =? 0 then ret tt
  else
    let* interrupted :=
      route_votes (BallotTally.index winning_ballot) (StakeWeights.stake_weight winning_stake_weight)
        rewards_to_process max_iterations
        (drop (Z.to_nat starting_vote_index) (BallotBox.operator_votes ballot_box))
        starting_vote_index 0 in
    if interrupted : bool then ret tt
    else
      let* self := get_self in
      let leftover_rewards := operator_vault_rewards self in
      let* _ := route_from_operator_vault_rewards leftover_rewards in
      let* _ := route_to_ncn leftover_rewards in
      modify reset_routing_state.
End calculations.

(** ** Distribution *)

Definition distribute_ncn_fee_rewards : M t NCNProgramError.t u64 :=
  let* self := get_self in
  let rewards := ncn_rewards self in
  let* n := lift (ok_or (checked_sub rewards rewards) ArithmeticUnderflowError) in
  let* _ := modify (put ncn_rewards n) in
  let* _ := decrement_rewards_processed rewards in
  ret rewards.
Definition distribute_protocol_fee_rewards : M t NCNProgramError.t u64 :=
  let* self := get_self in
  let rewards := protocol_rewards self in
  let* n := lift (ok_or (checked_sub rewards rewards) ArithmeticUnderflowError) in
  let* _ := modify (put protocol_rewards n) in
  let* _ := decrement_rewards_processed rewards in
  ret rewards.

Definition has_operator_vault_reward_route (operator : Pubkey) (self : t) : bool :=
  any (fun r => OperatorVaultRewardRoute.operator r =? operator) (operator_vault_reward_routes self).
Definition oprtator_vault_reward_route (operator : Pubkey) (self : t)
    : result NCNProgramError.t OperatorVaultRewardRoute.t :=
  match find_index (fun r => OperatorVaultRewardRoute.operator r =? operator)
          (operator_vault_reward_routes self) with
  | Some (_, r) => Ok r
  | None => Err NcnRewardRouteNotFound
  end.

Definition distribute_operator_vault_reward_route (operator : Pubkey) : M t NCNProgramError.t u64 :=
  let* self := get_self in
  match find_index (fun r => OperatorVaultRewardRoute.operator r =? operator)
          (operator_vault_reward_routes self) with
  | Some (i, route) =>
      let* rewards := lift (OperatorVaultRewardRoute.rewards route) in
      let* _ := zoom_at operator_vault_reward_routes (put operator_vault_reward_routes) i
                  (OperatorVaultRewardRoute.decrement_rewards rewards) in
      let* _ := decrement_rewards_processed rewards in
      ret rewards
  | None => throw OperatorRewardNotFound
  end.

(** ** The primitive moves *)

(** [zero_move]: a move of nothing returns at once, and adding or subtracting
    zero changes no field. *)
Ltac zero_move r :=
  destruct (r =? 0) eqn:?;
  [ assert (r = 0) as -> by lia; unfold ret; match goal with s : t |- _ => destruct s end; cbn;
    by rewrite ?Z.add_0_r, ?Z.sub_0_r | ].

Lemma route_from_reward_pool_run r self :
  0 <= r <= reward_pool self -> rewards_processed self + r <= u64_MAX ->
  route_from_reward_pool r self =
  (Ok tt, self <| reward_pool := reward_pool self - r |> <| rewards_processed := rewards_processed self + r |>).
Proof.
  intros Hr Hp. unfold route_from_reward_pool. zero_move r.
  erewrite mbind_eq_ok; [|apply take_from_run; lia].
  unfold increment_rewards_processed. destruct (r =? 0) eqn:?; [lia|]. by rewrite add_to_run.
Qed.

Lemma route_to_reward_pool_run r self :
  0 <= r -> reward_pool self + r <= u64_MAX -> total_rewards self + r <= u64_MAX ->
  route_to_reward_pool r self =
  (Ok tt, self <| total_rewards := total_rewards self + r |> <| reward_pool := reward_pool self + r |>).
Proof.
  intros Hr Hp Ht. unfold route_to_reward_pool. zero_move r.
  erewrite mbind_eq_ok; [|by apply add_to_run]. by rewrite add_to_run.
Qed.

Lemma route_to_protocol_run r self : protocol_rewards self + r <= u64_MAX ->
  route_to_protocol r self = (Ok tt, self <| protocol_rewards := protocol_rewards self + r |>).
Proof. intros H. unfold route_to_protocol. zero_move r. by apply add_to_run. Qed.

Lemma route_to_ncn_run r self : ncn_rewards self + r <= u64_MAX ->
  route_to_ncn r self = (Ok tt, self <| ncn_rewards := ncn_rewards self + r |>).
Proof. intros H. unfold route_to_ncn. zero_move r. by apply add_to_run. Qed.

Lemma route_to_operator_vault_run r self : operator_vault_rewards self + r <= u64_MAX ->
  route_to_operator_vault r self = (Ok tt, self <| operator_vault_rewards := operator_vault_rewards self + r |>).
Proof. intros H. unfold route_to_operator_vault. zero_move r. by apply add_to_run. Qed.

Lemma route_from_operator_vault_run r self : r <= operator_vault_rewards self ->
  route_from_operator_vault_rewards r self
  = (Ok tt, self <| operator_vault_rewards := operator_vault_rewards self - r |>).
Proof. intros H. unfold route_from_operator_vault_rewards. zero_move r. by apply take_from_run. Qed.

Lemma decrement_rewards_processed_run r self : r <= rewards_processed self ->
  decrement_rewards_processed r self = (Ok tt, self <| rewards_processed := rewards_processed self - r |>).
Proof. intros H. unfold decrement_rewards_processed. zero_move r. by apply take_from_run. Qed.

(** ** The routes *)
Abbreviation routes_ok :=
  (routes_ok OperatorVaultRewardRoute.operator OperatorVaultRewardRoute.rewards' OperatorVaultRewardRoute.mk 256).
Abbreviation routes_among := (routes_among OperatorVaultRewardRoute.operator).
Abbreviation reward_of := (reward_of OperatorVaultRewardRoute.operator OperatorVaultRewardRoute.rewards').
Abbreviation slot_for := (slot_for OperatorVaultRewardRoute.operator).
Abbreviation pay_route :=
  (pay_route OperatorVaultRewardRoute.operator OperatorVaultRewardRoute.rewards' OperatorVaultRewardRoute.mk).

Lemma no_routes : routes_ok (replicate 256 OperatorVaultRewardRoute.default).
Proof. by apply routes_replicate. Qed.

Section paying.
Context (V : list Pubkey) (HV : (List.length V <= 256)%nat).

Definition pay_ok op n l := pay_route_spec (key := OperatorVaultRewardRoute.operator)
  (amount := OperatorVaultRewardRoute.rewards') (make := OperatorVaultRewardRoute.mk)
  (fun _ _ => eq_refl) (fun _ _ => eq_refl) V op n l HV.

Lemma route_to_route_run op n self :
  routes_ok (operator_vault_reward_routes self) -> routes_among V (operator_vault_reward_routes self) ->
  op ∈ V -> op <> 0 -> 0 <= n ->
  sum_by OperatorVaultRewardRoute.rewards' (operator_vault_reward_routes self) + n <= u64_MAX ->
  route_to_operator_vault_reward_route op n self
  = (Ok tt, self <| operator_vault_reward_routes := pay_route op n (operator_vault_reward_routes self) |>).
Proof.
  intros Hl Ha Hin Hop Hn Hle. unfold route_to_operator_vault_reward_route, Routes.pay_route.
  destruct (n =? 0) eqn:Hn0; [by destruct self|].
  rewrite run_get_self. change (fun r => _ || _) with (slot_for op).
  destruct (routes_room V op _ Hl Ha HV Hin) as (i & r & Hf). rewrite Hf.
  destruct (slot_for_found op _ i r Hl Hop Hf) as [Hi Hc].
  destruct (OperatorVaultRewardRoute.operator r =? op) eqn:E; [|done].
  pose proof (routes_amount_le _ _ _ Hl Hi).
  unfold zoom_at. rewrite Hi. unfold OperatorVaultRewardRoute.increment_rewards.
  rewrite run_get_self. unfold OperatorVaultRewardRoute.rewards. rewrite run_lift_Ok, run_add by lia.
  cbn. f_equal. f_equal. f_equal. apply Z.eqb_eq in E as <-. done.
Qed.
End paying.

(** ** The calculations in whole numbers *)
Section laws.
Context {P : PreciseNumber} {L : PreciseNumberLaws P}.

Lemma calculate_reward_split_eq bps r :
  in_range u16_MAX bps -> in_range u64_MAX r -> r * bps / 10000 <= u64_MAX ->
  calculate_reward_split bps r = Ok (r * bps / 10000).
Proof.
  unfold in_range, u16_MAX, u64_MAX. intros Hb Hr Hle. unfold calculate_reward_split.
  destruct (bps =? 0) eqn:Eb; [assert (bps = 0) as -> by lia; by rewrite Z.mul_0_r|].
  destruct (r =? 0) eqn:Er; [assert (r = 0) as -> by lia; done|]. cbn [orb].
  destruct (pn_new_spec bps) as (x & -> & Hx); [unfold in_range, u128_MAX; lia|].
  destruct (pn_new_spec 10000) as (y & -> & Hy); [done|].
  destruct (pn_new_spec r) as (z & -> & Hz); [unfold in_range, u128_MAX; lia|].
  destruct (precise_mul_div_floor z x y r bps 10000) as (p & q & f & Hp & Hq & Hf & Hi);
    [done|done|done|lia|lia|unfold u128_MAX; nia|unfold u128_MAX; lia|].
  cbn. rewrite Hp. cbn. rewrite Hq. cbn. rewrite Hf. cbn. rewrite Hi. cbn.
  unfold try_u64, u64_MAX. by destruct (_ <=? _) eqn:?; [|lia].
Qed.

Lemma calculate_route_reward_eq w W r :
  0 <= w <= W -> W <= u128_MAX -> in_range u64_MAX r -> r * W <= u128_MAX ->
  calculate_operator_vault_route_reward w W r = Ok (r * w / W).
Proof.
  unfold in_range. intros Hw HW Hr Hle. unfold calculate_operator_vault_route_reward.
  destruct (w =? 0) eqn:Ew; [assert (w = 0) as -> by lia; by rewrite Z.mul_0_r|].
  destruct (r =? 0) eqn:Er; [assert (r = 0) as -> by lia; done|]. cbn [orb].
  assert (r <= u128_MAX) by (unfold u64_MAX, u128_MAX in *; lia).
  destruct (pn_new_spec r) as (x & -> & Hx); [unfold in_range; lia|].
  destruct (pn_new_spec w) as (y & -> & Hy); [unfold in_range; lia|].
  destruct (pn_new_spec W) as (z & -> & Hz); [unfold in_range; lia|].
  destruct (precise_mul_div_floor x y z r w W) as (p & q & f & Hp & Hq & Hf & Hi);
    [done|done|done|lia|lia|nia|lia|].
  cbn. rewrite Hp. cbn. rewrite Hq. cbn. rewrite Hf. cbn. rewrite Hi. cbn.
  unfold try_u64. assert (r * w / W <= r) by (apply Z.div_le_upper_bound; nia).
  by destruct (_ <=? _) eqn:?; [|lia].
Qed.
End laws.

(** ** Well-formed routers *)

Record wf (self : t) : Prop := {
  wf_routes : routes_ok (operator_vault_reward_routes self);
  wf_pool : 0 <= reward_pool self;
  wf_protocol : 0 <= protocol_rewards self;
  wf_ncn : 0 <= ncn_rewards self;
  wf_operator_vault : 0 <= operator_vault_rewards self;
  (** what was taken from the pool and not yet paid out is allocated *)
  wf_sum : rewards_processed self = protocol_rewards self + ncn_rewards self
    + operator_vault_rewards self
    + sum_by OperatorVaultRewardRoute.rewards' (operator_vault_reward_routes self);
  wf_transit : reward_pool self + rewards_processed self <= total_rewards self;
  wf_total : total_rewards self <= u64_MAX;
}.

Lemma router_new_wf n e b slot : wf (new n e b slot).
Proof. split; cbn; (done || apply no_routes || lia). Qed.

Section routing.
Context {P : PreciseNumber} {L : PreciseNumberLaws P}.

(** C36: splitting the reward pool. When both fees together are at most 100%,
    the split always succeeds: the protocol and the NCN get exactly their share
    of the pool, rounded down, the operators get all the rest, the pool is
    empty, nothing else changes, and no lamport is created or lost. *)
Theorem route_reward_pool_spec fee self :
  wf self -> Fees.wf fee -> Fees.total fee <= 10000 ->
  let r := reward_pool self in
  let protocol_fee := r * Fee.fee (Fees.protocol_fee_bps' fee) / 10000 in
  let ncn_fee := r * Fee.fee (Fees.ncn_fee_bps' fee) / 10000 in
  let self' := self <| reward_pool := 0 |>
    <| rewards_processed := rewards_processed self + r |>
    <| protocol_rewards := protocol_rewards self + protocol_fee |>
    <| ncn_rewards := ncn_rewards self + ncn_fee |>
    <| operator_vault_rewards := operator_vault_rewards self + (r - protocol_fee - ncn_fee) |> in
  route_reward_pool fee self = (Ok tt, self') /\ wf self'
  /\ 0 <= protocol_fee /\ 0 <= ncn_fee /\ protocol_fee + ncn_fee <= r.
Proof.
  intros [Hl Hp Hpr Hn Ho Hs Ht Htot] [Hb1 Hb2] Hfee. cbn zeta.
  set (r := reward_pool self) in *. unfold Fees.total in Hfee.
  set (b1 := Fee.fee (Fees.protocol_fee_bps' fee)) in *. set (b2 := Fee.fee (Fees.ncn_fee_bps' fee)) in *.
  set (f1 := r * b1 / 10000). set (f2 := r * b2 / 10000).
  pose proof (routes_sum_nonneg _ Hl) as Hrs. unfold in_range in Hb1, Hb2.
  assert (0 <= f1) as H1 by (apply Z.div_pos; nia). assert (0 <= f2) as H2 by (apply Z.div_pos; nia).
  assert (f1 + f2 <= r) as H12.
  { eapply Z.le_trans; [apply floor_add; lia|]. apply Z.div_le_upper_bound; nia. }
  split_and!; [|split; cbn -[sum_by]; (done || lia)|done|done|done].
  unfold route_reward_pool. rewrite run_get_self. unfold Fees.protocol_fee_bps. rewrite run_lift_Ok. fold r b1.
  rewrite calculate_reward_split_eq, run_lift_Ok by (unfold in_range; fold f1; lia). fold f1.
  erewrite mbind_eq_ok; [|apply route_from_reward_pool_run; lia]. fold r.
  erewrite mbind_eq_ok; [|apply route_to_protocol_run; cbn; lia].
  unfold Fees.ncn_fee_bps. rewrite run_lift_Ok. fold b2.
  rewrite calculate_reward_split_eq, run_lift_Ok by (unfold in_range; fold f2; lia). fold f2.
  erewrite mbind_eq_ok; [|apply route_from_reward_pool_run; cbn; lia].
  erewrite mbind_eq_ok; [|apply route_to_ncn_run; cbn; lia].
  rewrite run_get_self. cbn -[Z.add Z.sub].
  erewrite mbind_eq_ok; [|apply route_from_reward_pool_run; cbn; lia].
  rewrite route_to_operator_vault_run by (cbn; lia). cbn -[Z.add Z.sub].
  f_equal. f_equal; lia.
Qed.

(** ** Paying the winners *)
Section winners.
Context (winning_index : u16) (W R : Z).

Definition wins (v : OperatorVote.t) : bool := OperatorVote.ballot_index v =? winning_index.
(** The share of a winning vote, rounded down. *)
Definition share (v : OperatorVote.t) : u64 := R * OperatorVote.weight v / W.
Definition owed (v : OperatorVote.t) : u64 := if wins v then share v else 0.

Lemma owed_share v : owed v = R * (if wins v then OperatorVote.weight v else 0) / W.
Proof. unfold owed, share. destruct (wins v); [done|]. by rewrite Z.mul_0_r, Zdiv_0_l. Qed.

Definition pay_vote (self : t) (v : OperatorVote.t) : t :=
  if wins v then
    self <| operator_vault_rewards := operator_vault_rewards self - share v |>
         <| operator_vault_reward_routes :=
              pay_route (OperatorVote.operator v) (share v) (operator_vault_reward_routes self) |>
  else self.
Definition pay (votes : list OperatorVote.t) (self : t) : t := fold_left pay_vote votes self.

(** Where the loop stops when [n] more winners may be paid. *)
Fixpoint cut (n : nat) (votes : list OperatorVote.t) : option nat :=
  match votes with
  | [] => None
  | v :: votes' =>
      if wins v then
        match n with O => Some O | S n' => option_map S (cut n' votes') end
      else option_map S (cut n votes')
  end.

Definition winners (votes : list OperatorVote.t) : nat := List.length (List.filter wins votes).

Lemma cut_None n votes : (winners votes <= n)%nat -> cut n votes = None.
Proof.
  revert n. unfold winners. induction votes as [|v votes IH]; intros n; [done|]. cbn.
  destruct (wins v); cbn; [|intros H; by rewrite IH].
  destruct n as [|n]; [lia|]. intros H. by rewrite IH by lia.
Qed.

Lemma cut_cases n votes :
  cut n votes = None
  \/ exists k, cut n votes = Some k /\ (k < List.length votes)%nat
     /\ winners votes = (winners (drop k votes) + n)%nat /\ (0 < winners (drop k votes))%nat.
Proof.
  revert n. unfold winners. induction votes as [|v votes IH]; intros n; [by left|]. cbn.
  destruct (wins v) eqn:Hw; [destruct n as [|n]|].
  - right. exists O. split_and!; [done|lia|..]; cbn; rewrite Hw; cbn; lia.
  - destruct (IH n) as [->|(k & -> & Hk & He & Hp)]; [by left|right].
    exists (S k). cbn. split_and!; [done|lia|lia|done].
  - destruct (IH n) as [->|(k & -> & Hk & He & Hp)]; [by left|right].
    exists (S k). cbn. split_and!; [done|lia|lia|done].
Qed.

Context (V : list Pubkey) (HV : (List.length V <= 256)%nat).
Context (HW : W <= u128_MAX) (HR : in_range u64_MAX R) (HRW : R * W <= u128_MAX).

(** A winning vote that can be paid. *)
Definition vote_fits (v : OperatorVote.t) : Prop :=
  wins v = true -> OperatorVote.operator v ∈ V /\ OperatorVote.operator v <> 0 /\ 0 <= OperatorVote.weight v <= W.

(** The state from which [votes] can be paid. *)
Record payable (votes : list OperatorVote.t) (self : t) : Prop := {
  payable_wf : wf self;
  payable_among : routes_among V (operator_vault_reward_routes self);
  payable_votes : forall v, v ∈ votes -> vote_fits v;
  payable_owed : sum_by owed votes <= operator_vault_rewards self;
}.

Lemma share_nonneg v : vote_fits v -> wins v = true -> 0 <= share v.
Proof.
  intros Hv Hw. destruct (Hv Hw) as (_ & _ & H). unfold share.
  destruct (decide (W = 0)) as [->|Hn]; [by rewrite Zdiv_0_r|].
  unfold in_range in HR. apply Z.div_pos; nia.
Qed.

Lemma owed_nonneg v : vote_fits v -> 0 <= owed v.
Proof. intros Hv. unfold owed. destruct (wins v) eqn:E; [by apply share_nonneg|done]. Qed.

Lemma sum_owed_nonneg votes : (forall v, v ∈ votes -> vote_fits v) -> 0 <= sum_by owed votes.
Proof.
  intros H. apply sum_by_nonneg. intros i v Hi. apply owed_nonneg, H, list_elem_of_lookup. by exists i.
Qed.

Lemma payable_next v votes self : payable (v :: votes) self -> payable votes (pay_vote self v).
Proof.
  intros [Hwf Ha Hv Ho]. unfold sum_by in Ho. cbn in Ho. fold (sum_by owed votes) in Ho.
  assert (forall x, x ∈ votes -> vote_fits x) as Hv' by (intros x Hx; apply Hv; set_solver).
  pose proof (Hv v ltac:(set_solver)) as Hvv. pose proof (sum_owed_nonneg _ Hv') as Hso.
  unfold owed at 1 in Ho. unfold pay_vote. destruct (wins v) eqn:Hw; [|by split].
  destruct (Hvv Hw) as (Hin & H0 & _). pose proof (share_nonneg v Hvv Hw) as Hs.
  destruct Hwf as [Hl Hp Hpr Hn Hov Hsum Ht Htot].
  destruct (pay_ok V HV (OperatorVote.operator v) (share v) _ Hl Ha Hin H0 Hs) as (H1 & H2 & H3 & _).
  split; cbn -[sum_by]; [split; cbn -[sum_by]; rewrite ?H3; (done || lia)|done|done|lia].
Qed.

Lemma pay_payable votes rest self : payable (votes ++ rest) self -> payable rest (pay votes self).
Proof.
  revert self. induction votes as [|v votes IH]; intros self H; [done|].
  cbn. apply IH. by apply payable_next.
Qed.

(** The loop, in terms of [cut] and [pay]. *)
Lemma route_votes_run max votes idx it self :
  payable votes self -> 0 <= it <= max -> it + Z.of_nat (List.length votes) < u16_MAX ->
  route_votes winning_index W R max votes idx it self =
  match cut (Z.to_nat (max - it)) votes with
  | None => (Ok false, pay votes self)
  | Some k => (Ok true, save_routing_state (idx + Z.of_nat k) R (pay (take k votes) self))
  end.
Proof.
  revert idx it self. induction votes as [|v votes IH]; intros idx it self Hpay Hit Hlen; [done|].
  cbn [List.length] in Hlen. pose proof (payable_next _ _ _ Hpay) as Hnext.
  cbn [route_votes cut]. change (OperatorVote.ballot_index v =? winning_index) with (wins v).
  destruct (wins v) eqn:Hw.
  - rewrite run_add by lia. destruct (max <? it + 1) eqn:Hm.
    + assert (max = it) as -> by lia. rewrite Z.sub_diag. change (Z.to_nat 0) with O. cbv iota. change (Z.of_nat 0) with 0. by rewrite Z.add_0_r.
    + assert (Z.to_nat (max - it) = S (Z.to_nat (max - (it + 1)))) as -> by lia. cbv iota.
      destruct Hpay as [Hwf Ha Hv Ho]. unfold sum_by in Ho. cbn in Ho. fold (sum_by owed votes) in Ho.
      pose proof (Hv v ltac:(set_solver)) as Hvv. destruct (Hvv Hw) as (Hin & H0 & Hwt).
      pose proof (sum_owed_nonneg votes ltac:(intros x Hx; apply Hv; set_solver)) as Hso.
      pose proof (share_nonneg v Hvv Hw) as Hs. unfold owed at 1 in Ho. rewrite Hw in Ho.
      change (StakeWeights.stake_weight (OperatorVote.stake_weights v)) with (OperatorVote.weight v).
      rewrite calculate_route_reward_eq, run_lift_Ok by done. fold (share v).
      erewrite mbind_eq_ok; [|apply route_from_operator_vault_run; lia].
      destruct Hwf as [Hl Hp Hpr Hn Hov Hsum Ht Htot].
      erewrite mbind_eq_ok; [|apply (route_to_route_run V HV); cbn -[sum_by]; (done || lia)].
      assert (pay_vote self v = self <| operator_vault_rewards := operator_vault_rewards self - share v |>
         <| operator_vault_reward_routes :=
              pay_route (OperatorVote.operator v) (share v) (operator_vault_reward_routes self) |>) as Hpv.
      { unfold pay_vote. by rewrite Hw. }
      cbn -[route_votes cut save_routing_state Z.of_nat] in Hpv |- *. rewrite <-Hpv, IH by (done || lia).
      destruct (cut _ votes); cbn [option_map]; [|done].
      f_equal. rewrite firstn_cons. cbn -[Z.of_nat save_routing_state]. f_equal. lia.
  - assert (pay_vote self v = self) as Hpv by (unfold pay_vote; by rewrite Hw).
    rewrite Hpv in Hnext. rewrite IH by (done || lia).
    destruct (cut _ votes); cbn [option_map].
    + rewrite firstn_cons. cbn -[Z.of_nat save_routing_state]. rewrite Hpv. f_equal. f_equal. lia.
    + cbn. by rewrite Hpv.
Qed.

(** The routes after paying: each operator's grows by what its votes are owed. *)
Lemma pay_rewards votes self op : payable votes self -> op <> 0 ->
  reward_of op (operator_vault_reward_routes (pay votes self))
  = reward_of op (operator_vault_reward_routes self)
    + sum_by (fun v => if OperatorVote.operator v =? op then owed v else 0) votes.
Proof.
  intros H Hop. revert self H. induction votes as [|v votes IH]; intros self H; [cbn; lia|].
  cbn [pay fold_left]. fold (pay votes (pay_vote self v)). rewrite IH by by apply payable_next.
  unfold sum_by at 2. cbn [foldr]. fold (sum_by (fun v => if OperatorVote.operator v =? op then owed v else 0) votes).
  destruct H as [Hwf Ha Hv Ho]. pose proof (Hv v ltac:(set_solver)) as Hvv. unfold pay_vote, owed at 2.
  destruct (wins v) eqn:Hw; [|destruct (_ =? op); lia].
  destruct (Hvv Hw) as (Hin & H0 & _). pose proof (share_nonneg v Hvv Hw) as Hs.
  destruct (pay_ok V HV (OperatorVote.operator v) (share v) _ (wf_routes _ Hwf) Ha Hin H0 Hs)
    as (_ & _ & _ & Hsame & Hdiff).
  cbn [operator_vault_reward_routes over]. destruct (OperatorVote.operator v =? op) eqn:E.
  - assert (op = OperatorVote.operator v) as -> by lia. rewrite Hsame. lia.
  - rewrite Hdiff by (done || lia). lia.
Qed.

Lemma pay_owed votes self : payable votes self ->
  operator_vault_rewards (pay votes self) = operator_vault_rewards self - sum_by owed votes.
Proof.
  revert self. induction votes as [|v votes IH]; intros self H; [cbn; lia|].
  cbn [pay fold_left]. fold (pay votes (pay_vote self v)). rewrite IH by by apply payable_next.
  unfold sum_by at 2. cbn [foldr]. fold (sum_by owed votes). unfold pay_vote, owed at 2.
  destruct (wins v); cbn -[sum_by]; lia.
Qed.

(** Paying touches only the operators' rewards and their routes. *)
Lemma pay_same votes self :
  ncn_rewards (pay votes self) = ncn_rewards self
  /\ protocol_rewards (pay votes self) = protocol_rewards self
  /\ reward_pool (pay votes self) = reward_pool self
  /\ rewards_processed (pay votes self) = rewards_processed self
  /\ total_rewards (pay votes self) = total_rewards self.
Proof.
  revert self. induction votes as [|v votes IH]; intros self; [done|].
  cbn [pay fold_left]. fold (pay votes (pay_vote self v)).
  destruct (IH (pay_vote self v)) as (-> & -> & -> & -> & ->). unfold pay_vote. by destruct (wins v).
Qed.

Lemma pay_app votes rest self : pay (votes ++ rest) self = pay rest (pay votes self).
Proof. apply fold_left_app. Qed.

(** Paying does not look at the saved routing state. *)
Lemma pay_save votes j r self : pay votes (save_routing_state j r self) = save_routing_state j r (pay votes self).
Proof.
  revert self. induction votes as [|v votes IH]; intros self; [done|].
  cbn [pay fold_left]. fold (pay votes (pay_vote self v)).
  fold (pay votes (pay_vote (save_routing_state j r self) v)). rewrite <-IH. f_equal.
  unfold pay_vote. by destruct (wins v).
Qed.

Lemma payable_save votes j r self : payable votes self -> payable votes (save_routing_state j r self).
Proof. intros [Hwf Ha Hv Ho]. destruct Hwf. by split; [split| | |]. Qed.

(** What is owed never exceeds the rewards when the winners' weights add up to
    at most [W]. *)
Lemma owed_bound votes : (forall v, v ∈ votes -> vote_fits v) ->
  sum_by (fun v => if wins v then OperatorVote.weight v else 0) votes <= W ->
  sum_by owed votes <= R.
Proof.
  intros Hv Hsum. unfold in_range in HR.
  rewrite (sum_by_ext _ _ _ (fun _ v _ => owed_share v)).
  apply (shares_le (fun v => if wins v then OperatorVote.weight v else 0)); [lia| |done].
  intros i v Hi. destruct (wins v) eqn:Hw; [|done].
  by apply (Hv v); [apply list_elem_of_lookup; exists i|].
Qed.
End winners.

(** ** Installments

    The operators' rewards are routed by as many calls as it takes; each call
    pays at most [max_iterations] winners (at least one) and saves where it
    stopped. *)
Section installments.
Context (box : BallotBox.t) (Hbox : BallotBox.wf box).
Context (winner : BallotTally.t) (Hwinner : BallotBox.get_winning_ballot_tally box = Ok winner).

Definition route_calls (calls : list u16) : M t NCNProgramError.t unit :=
  foldr (fun m k => let* _ := route_operator_vault_rewards box m in k) (ret tt) calls.

Let votes := BallotBox.operator_votes box.
Let W := BallotTally.weight winner.
Let voters := map OperatorVote.operator votes.
Let wi := BallotTally.index winner.

Lemma winner_tally : exists k, BallotBox.ballot_tallies box !! k = Some winner /\ (k < 256)%nat
  /\ wi = Z.of_nat k /\ W = sum_by (BallotBox.weight_for k) votes /\ W <= u128_MAX.
Proof.
  unfold BallotBox.get_winning_ballot_tally in Hwinner.
  destruct (negb _); [done|].
  destruct (find_index _ _) as [[k t]|] eqn:Hf; [|done]. cbn in Hwinner. injection Hwinner as ->.
  pose proof (find_index_lookup _ _ _ _ Hf) as Hk. pose proof (find_index_true _ _ _ _ Hf) as [Hv _]%Ballot.eq_spec.
  exists k. split; [done|]. split; [by eapply BallotBox.tally_lt|].
  destruct (BallotBox.wf_tally _ Hbox _ _ Hk) as [[-> _]|(_ & _ & Hi & _ & Hw & Hle)]; [done|]. done.
Qed.

Lemma winner_weight_le : W <= u128_MAX.
Proof. by destruct winner_tally as (_ & _ & _ & _ & _ & ?). Qed.

Lemma voters_length : (List.length voters <= 256)%nat.
Proof. unfold voters. rewrite length_map. unfold votes. by rewrite (BallotBox.wf_votes_len _ Hbox). Qed.

Lemma winners_weight : sum_by (fun v => if wins wi v then OperatorVote.weight v else 0) votes <= W.
Proof.
  destruct winner_tally as (k & _ & _ & Hi & -> & _). apply Z.eq_le_incl, sum_by_ext.
  intros i v _. unfold wins, BallotBox.weight_for, BallotBox.votes_for. by rewrite Hi.
Qed.

Lemma votes_fit v : v ∈ votes -> vote_fits wi W voters v.
Proof.
  intros Hin Hw. destruct winner_tally as (k & _ & Hk & Hi & HW & _). unfold wins in Hw.
  pose proof Hin as Hin'. apply list_elem_of_lookup in Hin' as [i Hvi].
  destruct (BallotBox.wf_vote _ Hbox _ _ Hvi) as [->|(Hop & Hwt & _)].
  { change (OperatorVote.ballot_index OperatorVote.default) with 65535 in Hw. lia. }
  split; [by apply list_elem_of_fmap; exists v|]. split; [done|]. split; [done|].
  rewrite HW. apply Z.le_trans with (BallotBox.weight_for k v).
  - unfold BallotBox.weight_for, BallotBox.votes_for. by rewrite <-Hi, Hw.
  - eapply sum_by_elem_le; [|done]. intros j x Hj. unfold BallotBox.weight_for.
    destruct (BallotBox.votes_for k x); [|done]. by destruct (BallotBox.wf_vote _ Hbox _ _ Hj) as [->|(_ & ? & _)].
Qed.

Section rewards.
Context (R : Z) (HR : 0 < R < u64_MAX) (HRW : R * W <= u128_MAX).

Lemma HRrange : in_range u64_MAX R.
Proof. unfold in_range. lia. Qed.

Lemma owed_le : sum_by (owed wi W R) votes <= R.
Proof. apply (owed_bound wi W R voters voters_length HRrange); [apply votes_fit|apply winners_weight]. Qed.

Lemma ready self : wf self -> routes_among voters (operator_vault_reward_routes self) ->
  operator_vault_rewards self = R -> payable wi W R voters votes self.
Proof. intros Hwf Ha He. split; [done|done|apply votes_fit|]. rewrite He. apply owed_le. Qed.

(** The router when all winners are paid: what is left over is the NCN's. *)
Definition settled (self : t) : t :=
  let s := pay wi W R votes self in
  reset_routing_state (s <| operator_vault_rewards := 0 |>
                         <| ncn_rewards := ncn_rewards s + operator_vault_rewards s |>).

(** Between two calls: nothing is paid yet, or the first [j] votes are. *)
Definition between (self s : t) (j : nat) : Prop :=
  (j <= 256)%nat
  /\ (s = self /\ j = O \/ s = save_routing_state (Z.of_nat j) R (pay wi W R (take j votes) self)).

Lemma between_payable self s j : payable wi W R voters votes self -> between self s j ->
  payable wi W R voters (drop j votes) s
  /\ save_routing_state (Z.of_nat j) R s = save_routing_state (Z.of_nat j) R (pay wi W R (take j votes) self).
Proof.
  intros Hp [_ [[-> ->]| ->]]; [done|]. split; [|done].
  apply payable_save, (pay_payable wi W R voters voters_length winner_weight_le HRrange HRW). by rewrite take_drop.
Qed.

Lemma between_resume self s j : still_routing self = false -> operator_vault_rewards self = R ->
  between self s j ->
  let '(start, r) := resume_routing_state s in
  start = Z.of_nat j /\ (if 0 <? r then r else operator_vault_rewards s) = R.
Proof.
  intros Hs He [Hj [[-> ->]| ->]]; unfold resume_routing_state.
  - by rewrite Hs.
  - unfold still_routing. cbn -[Z.of_nat].
    assert (as_u16 (Z.of_nat j) = Z.of_nat j) as -> by (apply Z.mod_small; lia).
    unfold NO_LAST_VOTE_INDEX, u16_MAX. destruct (Z.of_nat j =? 65535) eqn:?; [lia|]. cbn -[Z.of_nat].
    split; [done|]. by destruct (0 <? R) eqn:?; [|lia].
Qed.

(** One call. *)
Lemma call_run m self s j :
  payable wi W R voters votes self -> still_routing self = false -> operator_vault_rewards self = R ->
  between self s j ->
  route_operator_vault_rewards box m s =
  match cut wi (Z.to_nat (Z.max m 1)) (drop j votes) with
  | None => (Ok tt, settled self)
  | Some k => (Ok tt, save_routing_state (Z.of_nat (j + k)) R (pay wi W R (take (j + k) votes) self))
  end.
Proof.
  intros Hp Hs He Hb. destruct (between_payable _ _ _ Hp Hb) as [Hps Hsave].
  pose proof (between_resume _ _ _ Hs He Hb) as Hr.
  destruct winner_tally as (_ & _ & _ & _ & _ & HW).
  unfold route_operator_vault_rewards. rewrite Hwinner, run_lift_Ok, run_get_self.
  destruct (resume_routing_state s) as [start r]. destruct Hr as [-> ->].
  destruct (R =? 0) eqn:?; [lia|]. rewrite Nat2Z.id. fold votes wi.
  change (StakeWeights.stake_weight (BallotTally.stake_weights winner)) with W.
  assert (List.length votes = 256%nat) as Hlen by apply (BallotBox.wf_votes_len _ Hbox).
  assert (0 + Z.of_nat (List.length (drop j votes)) < u16_MAX) as Hl.
  { rewrite length_drop, Hlen. unfold u16_MAX. lia. }
  unfold mbind at 1. rewrite (route_votes_run wi W R voters voters_length HW HRrange HRW)
    by (done || lia). rewrite Z.sub_0_r.
  destruct (cut wi _ (drop j votes)) as [k|] eqn:Hc.
  - cbn [ret]. rewrite <-Nat2Z.inj_add. unfold ret. f_equal.
    assert (take (j + k) votes = take j votes ++ take k (drop j votes)) as ->.
    { rewrite <-(take_drop j votes) at 1. assert (List.length (take j votes) <= j)%nat by (rewrite length_take; lia).
      destruct Hb as [Hj _]. rewrite take_app_add'; [done|]. rewrite length_take, Hlen. lia. }
    rewrite pay_app, <-!pay_save.
    destruct Hb as [_ [[-> ->]| ->]]; [done|]. by rewrite !pay_save.
  - rewrite run_get_self.
    pose proof (pay_payable wi W R voters voters_length winner_weight_le HRrange HRW (drop j votes) [] s) as Hq.
    rewrite app_nil_r in Hq. destruct (Hq Hps) as [Hwf _ _ _].
    pose proof (wf_sum _ Hwf). pose proof (wf_transit _ Hwf). pose proof (wf_total _ Hwf).
    pose proof (wf_pool _ Hwf). pose proof (wf_protocol _ Hwf). pose proof (routes_sum_nonneg _ (wf_routes _ Hwf)).
    erewrite mbind_eq_ok; [|apply route_from_operator_vault_run; lia].
    erewrite mbind_eq_ok; [|apply route_to_ncn_run; cbn; lia].
    unfold modify, settled. f_equal.
    assert (pay wi W R votes self = pay wi W R (drop j votes) (pay wi W R (take j votes) self)) as -> by by rewrite <-pay_app, take_drop.
    destruct Hb as [_ [[-> ->]| ->]].
    + change (pay wi W R (take 0 votes) self) with self. set (q := pay wi W R (drop 0 votes) self).
      cbn -[Z.add Z.sub]. by rewrite Z.sub_diag.
    + rewrite pay_save. set (q := pay wi W R (drop j votes) _). cbn -[Z.add Z.sub]. by rewrite Z.sub_diag.
Qed.

Lemma settled_done self : still_routing (settled self) = false /\ operator_vault_rewards (settled self) = 0.
Proof. done. Qed.

Lemma calls_after_settled calls self : route_calls calls (settled self) = (Ok tt, settled self).
Proof.
  induction calls as [|m calls IH]; [done|]. cbn [route_calls foldr]. fold (route_calls calls).
  erewrite mbind_eq_ok; [exact IH|]. unfold route_operator_vault_rewards.
  by rewrite Hwinner, run_lift_Ok, run_get_self.
Qed.

Lemma calls_run calls self s j :
  payable wi W R voters votes self -> still_routing self = false -> operator_vault_rewards self = R ->
  between self s j -> calls <> [] ->
  Z.of_nat (winners wi (drop j votes)) <= capacity calls ->
  route_calls calls s = (Ok tt, settled self).
Proof.
  intros Hp Hs He Hb Hne Hcap. revert s j Hb Hcap.
  induction calls as [|m calls IH]; intros s j Hb Hcap; [done|].
  change (capacity (m :: calls)) with (Z.max m 1 + capacity calls) in Hcap.
  cbn [route_calls foldr]. fold (route_calls calls). unfold mbind at 1. rewrite (call_run m self s j) by done.
  destruct (cut_cases wi (Z.to_nat (Z.max m 1)) (drop j votes)) as [->|(k & -> & Hk & Hw & Hpos)];
    [apply calls_after_settled|].
  rewrite drop_drop in Hw, Hpos. rewrite length_drop in Hk.
  assert (List.length votes = 256%nat) as Hlen by apply (BallotBox.wf_votes_len _ Hbox).
  destruct calls as [|m' calls]; [change (capacity []) with 0 in Hcap; lia|].
  apply (IH ltac:(done) _ (j + k)%nat); [|lia].
  split; [lia|by right].
Qed.

Lemma settled_wf self : payable wi W R voters votes self -> wf (settled self).
Proof.
  intros Hp.
  pose proof (pay_payable wi W R voters voters_length winner_weight_le HRrange HRW votes [] self) as Hq.
  rewrite app_nil_r in Hq. destruct (Hq Hp) as [[] _ _ _].
  split; cbn -[pay sum_by]; (done || lia).
Qed.

(** What rounding leaves over is less than one lamport per winner. *)
Lemma leftover_bound : 0 < W ->
  R - sum_by (owed wi W R) votes < Z.of_nat (winners wi votes).
Proof.
  intros HW0. destruct winner_tally as (k & _ & _ & Hi & HWk & _).
  rewrite (sum_by_ext _ _ _ (fun _ v _ => owed_share wi W R v)).
  set (f := fun v => if wins wi v then OperatorVote.weight v else 0).
  apply Z.lt_le_trans with (count_if (fun v => 0 <? f v) votes).
  - apply (shares_leftover f); [lia..| |].
    + intros i v Hv. unfold f. destruct (wins wi v) eqn:Hw; [|done].
      by apply (votes_fit v); [apply list_elem_of_lookup; exists i|].
    + rewrite HWk. apply sum_by_ext. intros i v _.
      unfold f, wins, BallotBox.weight_for, BallotBox.votes_for. by rewrite Hi.
  - apply (count_if_le (fun v => 0 <? f v) (wins wi)). intros i v _. unfold f. by destruct (wins wi v).
Qed.
End rewards.
End installments.

(** C23: the operators' rewards can be routed in any number of calls. For a
    well-formed ballot box with a winner there is one final state, whatever the
    calls' iteration limits, as long as together they allow for all winning
    votes: every operator has received, for each of its winning votes, exactly
    its stake weight's share of the rewards, rounded down; the NCN has received
    what rounding left over, which is less than a lamport per winner; the
    operators' rewards are all gone, nothing is still routing, the router is
    well formed and the other balances are untouched. *)
Theorem operator_rewards_in_installments box winner self :
  BallotBox.wf box -> BallotBox.get_winning_ballot_tally box = Ok winner ->
  wf self -> still_routing self = false ->
  routes_among (map OperatorVote.operator (BallotBox.operator_votes box))
    (operator_vault_reward_routes self) ->
  let R := operator_vault_rewards self in
  let W := BallotTally.weight winner in
  let votes := BallotBox.operator_votes box in
  let wi := BallotTally.index winner in
  0 < R < u64_MAX -> R * W <= u128_MAX ->
  exists self',
    (forall calls, calls <> [] -> Z.of_nat (winners wi votes) <= capacity calls ->
       route_calls box calls self = (Ok tt, self'))
    /\ wf self' /\ still_routing self' = false /\ operator_vault_rewards self' = 0
    /\ (forall op, op <> 0 ->
          reward_of op (operator_vault_reward_routes self')
          = reward_of op (operator_vault_reward_routes self)
            + sum_by (fun v => if OperatorVote.operator v =? op
                               then (if OperatorVote.ballot_index v =? wi
                                     then R * OperatorVote.weight v / W else 0)
                               else 0) votes)
    /\ (exists leftover, ncn_rewards self' = ncn_rewards self + leftover /\ 0 <= leftover
          /\ (0 < W -> leftover < Z.of_nat (winners wi votes)))
    /\ protocol_rewards self' = protocol_rewards self
    /\ reward_pool self' = reward_pool self
    /\ rewards_processed self' = rewards_processed self
    /\ total_rewards self' = total_rewards self.
Proof.
  intros Hbox Hw Hwf Hs Ha R W votes wi HR HRW.
  pose proof (ready box Hbox winner Hw R HR self Hwf Ha eq_refl) as Hp.
  exists (settled box winner R self).
  destruct (pay_same wi W R votes self) as (Hn & Hpr & Hpo & Hrp & Ht).
  pose proof (voters_length box Hbox) as HV. pose proof (winner_weight_le box Hbox winner Hw) as HW.
  assert (in_range u64_MAX R) as HR' by (unfold in_range; lia).
  split_and!; [| |done..| | |done|done|done|done].
  - intros calls Hne Hcap. apply (calls_run box Hbox winner Hw R HR HRW calls self self O); try done.
    split; [lia|by left].
  - by apply settled_wf.
  - intros op Hop. exact (pay_rewards wi W R _ HV HW HR' HRW votes self op Hp Hop).
  - exists (R - sum_by (owed wi W R) votes). split_and!.
    + pose proof (pay_owed wi W R _ HV HW HR' HRW votes self Hp) as Ho.
      change (ncn_rewards (settled box winner R self))
        with (ncn_rewards (pay wi W R votes self) + operator_vault_rewards (pay wi W R votes self)).
      by rewrite Hn, Ho.
    + apply Z.le_0_sub. exact (owed_le box Hbox winner Hw R HR).
    + by apply leftover_bound.
Qed.
End routing.

(** ** Rewards in, rewards out *)

(** Incoming lamports. What the account holds beyond its rent and the
    rewards already in transit goes to the pool, so that afterwards the account
    balance is accounted for to the last lamport; a balance that does not cover
    both is an error and changes nothing. *)
Theorem route_incoming_rewards_spec rent balance self :
  wf self -> 0 <= rent ->
  total_rewards self - (reward_pool self + rewards_processed self) + (balance - rent) <= u64_MAX ->
  let transit := reward_pool self + rewards_processed self in
  let incoming := balance - transit - rent in
  route_incoming_rewards rent balance self =
    (if incoming <? 0 then (Err ArithmeticUnderflowError, self)
     else (Ok tt, self <| total_rewards := total_rewards self + incoming |>
                       <| reward_pool := reward_pool self + incoming |>))
  /\ (0 <= incoming ->
      let self' := snd (route_incoming_rewards rent balance self) in
      wf self' /\ reward_pool self' + rewards_processed self' + rent = balance
      /\ rewards_processed self' = rewards_processed self).
Proof.
  intros [Hl Hp Hpr Hn Ho Hs Ht Htot] Hr Hle. cbn zeta. pose proof (routes_sum_nonneg _ Hl) as Hrs.
  assert (route_incoming_rewards rent balance self =
    (if balance - (reward_pool self + rewards_processed self) - rent <? 0
     then (Err ArithmeticUnderflowError, self)
     else (Ok tt, self <| total_rewards := total_rewards self
                            + (balance - (reward_pool self + rewards_processed self) - rent) |>
                       <| reward_pool := reward_pool self
                            + (balance - (reward_pool self + rewards_processed self) - rent) |>))) as ->.
  { unfold route_incoming_rewards. rewrite run_get_self. unfold total_rewards_in_transit.
    rewrite run_add by lia. set (transit := reward_pool self + rewards_processed self) in *.
    destruct (balance - transit - rent <? 0) eqn:E.
    - destruct (decide (transit <= balance)).
      + rewrite run_sub by lia. by rewrite (proj2 (checked_sub_None _ _)) by lia.
      + by rewrite (proj2 (checked_sub_None _ _)) by lia.
    - rewrite !run_sub by lia. erewrite mbind_eq_ok; [|apply route_to_reward_pool_run; lia]. done. }
  split; [done|]. intros Hin. destruct (_ <? 0) eqn:E; [lia|].
  split; [split|split]; cbn -[sum_by]; (done || lia).
Qed.

Lemma distribute_ncn_run self : wf self ->
  distribute_ncn_fee_rewards self
  = (Ok (ncn_rewards self),
     self <| ncn_rewards := 0 |> <| rewards_processed := rewards_processed self - ncn_rewards self |>).
Proof.
  intros [Hl Hp Hpr Hn Ho Hs Ht Htot]. pose proof (routes_sum_nonneg _ Hl).
  unfold distribute_ncn_fee_rewards. rewrite run_get_self, run_sub, run_modify, Z.sub_diag by lia.
  erewrite mbind_eq_ok; [|apply decrement_rewards_processed_run; cbn -[sum_by]; lia]. done.
Qed.

Lemma distribute_protocol_run self : wf self ->
  distribute_protocol_fee_rewards self
  = (Ok (protocol_rewards self),
     self <| protocol_rewards := 0 |>
          <| rewards_processed := rewards_processed self - protocol_rewards self |>).
Proof.
  intros [Hl Hp Hpr Hn Ho Hs Ht Htot]. pose proof (routes_sum_nonneg _ Hl).
  unfold distribute_protocol_fee_rewards. rewrite run_get_self, run_sub, run_modify, Z.sub_diag by lia.
  erewrite mbind_eq_ok; [|apply decrement_rewards_processed_run; cbn -[sum_by]; lia]. done.
Qed.

Lemma distribute_route_run op i r self : wf self ->
  find_index (fun r => OperatorVaultRewardRoute.operator r =? op) (operator_vault_reward_routes self)
    = Some (i, r) ->
  distribute_operator_vault_reward_route op self
  = (Ok (OperatorVaultRewardRoute.rewards' r),
     self <| operator_vault_reward_routes :=
               <[i := OperatorVaultRewardRoute.mk op 0]> (operator_vault_reward_routes self) |>
          <| rewards_processed := rewards_processed self - OperatorVaultRewardRoute.rewards' r |>).
Proof.
  intros [Hl Hp Hpr Hn Ho Hs Ht Htot] Hf. pose proof (find_index_lookup _ _ _ _ Hf) as Hi.
  pose proof (find_index_true _ _ _ _ Hf) as He.
  pose proof (sum_by_elem_le OperatorVaultRewardRoute.rewards' _ _ _ (routes_nonneg Hl) Hi).
  unfold distribute_operator_vault_reward_route. rewrite run_get_self, Hf.
  unfold OperatorVaultRewardRoute.rewards. rewrite run_lift_Ok, (run_zoom_at _ _ i r) by done.
  unfold OperatorVaultRewardRoute.decrement_rewards. rewrite run_get_self.
  unfold OperatorVaultRewardRoute.rewards. rewrite run_lift_Ok, run_sub, Z.sub_diag by lia. cbv beta iota.
  unfold OperatorVaultRewardRoute.set_rewards, modify.
  erewrite mbind_eq_ok; [|apply decrement_rewards_processed_run; cbn -[sum_by]; lia].
  apply Z.eqb_eq in He as <-. done.
Qed.

(** Paying out. Each distribution returns exactly what its beneficiary is
    owed, sets it to zero so that a second distribution pays nothing, takes the
    amount off the rewards in transit, and leaves the router well formed and
    everybody else's balance as it was; an operator without a route is an
    error. *)
Theorem distributions_pay_once self : wf self ->
  (exists self', distribute_ncn_fee_rewards self = (Ok (ncn_rewards self), self') /\ wf self'
     /\ rewards_processed self' = rewards_processed self - ncn_rewards self
     /\ distribute_ncn_fee_rewards self' = (Ok 0, self')
     /\ protocol_rewards self' = protocol_rewards self
     /\ operator_vault_reward_routes self' = operator_vault_reward_routes self)
  /\ (exists self', distribute_protocol_fee_rewards self = (Ok (protocol_rewards self), self') /\ wf self'
     /\ rewards_processed self' = rewards_processed self - protocol_rewards self
     /\ distribute_protocol_fee_rewards self' = (Ok 0, self')
     /\ ncn_rewards self' = ncn_rewards self
     /\ operator_vault_reward_routes self' = operator_vault_reward_routes self)
  /\ (forall op, op <> 0 ->
     if has_operator_vault_reward_route op self then
       let n := reward_of op (operator_vault_reward_routes self) in
       exists self', distribute_operator_vault_reward_route op self = (Ok n, self') /\ wf self'
         /\ rewards_processed self' = rewards_processed self - n
         /\ distribute_operator_vault_reward_route op self' = (Ok 0, self')
         /\ ncn_rewards self' = ncn_rewards self /\ protocol_rewards self' = protocol_rewards self
         /\ (forall op', op' <> op -> reward_of op' (operator_vault_reward_routes self')
                                     = reward_of op' (operator_vault_reward_routes self))
     else distribute_operator_vault_reward_route op self = (Err OperatorRewardNotFound, self)).
Proof.
  intros Hwf. pose proof Hwf as [Hl Hp Hpr Hn Ho Hs Ht Htot]. pose proof (routes_sum_nonneg _ Hl) as Hrs.
  split_and!.
  - eexists. rewrite distribute_ncn_run by done. split; [done|].
    match goal with |- wf ?s /\ _ => assert (wf s) as Hw' by (split; cbn -[sum_by]; (done || lia)) end.
    rewrite distribute_ncn_run by done. split_and!; try done. cbn -[sum_by]. by rewrite Z.sub_0_r.
  - eexists. rewrite distribute_protocol_run by done. split; [done|].
    match goal with |- wf ?s /\ _ => assert (wf s) as Hw' by (split; cbn -[sum_by]; (done || lia)) end.
    rewrite distribute_protocol_run by done. split_and!; try done. cbn -[sum_by]. by rewrite Z.sub_0_r.
  - intros op Hop. unfold has_operator_vault_reward_route.
    destruct (any _ _) eqn:Ha.
    2: { apply any_false_find in Ha. unfold distribute_operator_vault_reward_route.
         by rewrite run_get_self, Ha. }
    cbn zeta. unfold Routes.reward_of at 1 2 3.
    destruct (find_index _ (operator_vault_reward_routes self)) as [[i r]|] eqn:Hf;
      [|apply any_false_find in Hf; congruence].
    destruct (reset_route_spec (key := OperatorVaultRewardRoute.operator)
      (amount := OperatorVaultRewardRoute.rewards') (make := OperatorVaultRewardRoute.mk)
      (fun _ _ => eq_refl) (fun _ _ => eq_refl) op i r _ Hl Hop Hf) as (Hl' & Hf' & Hsum' & Hoth).
    pose proof (routes_nonneg Hl _ _ (find_index_lookup _ _ _ _ Hf)) as Hr0.
    eexists. rewrite (distribute_route_run op i r) by done. split; [done|].
    match goal with |- wf ?s /\ _ => assert (wf s) as Hw' end.
    { split; cbn -[sum_by]; rewrite ?Hsum'; (done || lia). }
    rewrite (distribute_route_run op i (OperatorVaultRewardRoute.mk op 0)) by done.
    split_and!; try done.
    cbn -[sum_by]. by rewrite Z.sub_0_r, list_insert_insert_eq.
Qed.

(** ** A concrete epoch

    1001 lamports arrive; 2% and 8% go to the protocol and the NCN; operators
    31 and 33, with weights 60 and 20, voted for the winner and get three
    quarters and one quarter of the rest in two calls. *)
Definition example_fees : Fees.t := Fees.mk 0 (Fee.mk 200) (Fee.mk 800).
Definition example_empty : t := new 7 5 255 100.
Definition example_funded : t := snd (route_incoming_rewards 50 1051 example_empty).
Definition example_split : t := snd (@route_reward_pool fixed_point example_fees example_funded).
Definition example_ballot_box : BallotBox.t :=
  snd (BallotBox.cast_vote 33 (Ballot.new 1) (StakeWeights.mk 20) 120 1000 BallotBox.example_decided).
Definition example_winner : BallotTally.t := BallotTally.mk 0 (Ballot.new 1) (StakeWeights.mk 80) 2.
Definition example_routed : t :=
  snd (@route_calls fixed_point example_ballot_box [1; 1]%Z example_split).

Lemma example_fees_wf : Fees.wf example_fees.
Proof. split; split; discriminate. Qed.

Lemma example_ballot_box_wf : BallotBox.wf example_ballot_box.
Proof.
  pose proof (BallotBox.inv_wf _ _ BallotBox.example_decided_inv) as Hwf.
  destruct (BallotBox.cast_vote_ok BallotBox.example_decided 33 (Ballot.new 1) (StakeWeights.mk 20) 120 1000
    example_ballot_box) as (i & k & told & Hi & Hch & -> & Hb & Hop & Hle).
  { exact Hwf. }
  { split; discriminate. }
  { vm_compute. reflexivity. }
  apply BallotBox.recorded_wf;
    [exact Hwf|exact Hi|reflexivity|apply BallotBox.example_ballot|exact Hch|exact Hop|split; discriminate|exact Hle].
Qed.

Lemma example_funded_wf : wf example_funded.
Proof.
  unfold example_funded, route_incoming_rewards. rewrite run_get_self. cbn -[replicate].
  split; cbn -[replicate sum_by]; [apply no_routes|vm_compute; (reflexivity || discriminate)..].
Qed.

Lemma example_split_wf : wf example_split /\ operator_vault_reward_routes example_split
  = replicate 256 OperatorVaultRewardRoute.default.
Proof.
  unfold example_split.
  split; [|vm_compute; reflexivity].
  split; [|vm_compute; (reflexivity || discriminate)..].
  replace (operator_vault_reward_routes _) with (replicate 256 OperatorVaultRewardRoute.default)
    by (vm_compute; reflexivity). apply no_routes.
Qed.

Lemma route_reward_pool_spec_witness :
  wf example_funded /\ fst (@route_reward_pool fixed_point example_fees example_funded) = Ok tt
  /\ operator_vault_rewards example_split = 901.
Proof.
  pose proof (route_reward_pool_spec (L := fixed_point_laws) example_fees example_funded
    example_funded_wf example_fees_wf ltac:(discriminate)) as H. cbv zeta in H. destruct H as [H _].
  split; [exact example_funded_wf|]. unfold example_split. rewrite H. split; [reflexivity|].
  vm_compute. reflexivity.
Defined.

Lemma operator_rewards_in_installments_witness :
  wf example_split
  /\ exists self', @route_calls fixed_point example_ballot_box [1; 1]%Z example_split = (Ok tt, self')
     /\ reward_of 31 (operator_vault_reward_routes self') = 675
     /\ reward_of 33 (operator_vault_reward_routes self') = 225
     /\ operator_vault_rewards self' = 0.
Proof.
  split; [exact (proj1 example_split_wf)|].
  assert (operator_vault_rewards example_split = 901) as HR by (vm_compute; reflexivity).
  destruct (operator_rewards_in_installments (L := fixed_point_laws) example_ballot_box example_winner
    example_split example_ballot_box_wf ltac:(vm_compute; reflexivity) (proj1 example_split_wf)
    ltac:(vm_compute; reflexivity)) as (self' & Hrun & _ & _ & Hov & Hop & _).
  - rewrite (proj2 example_split_wf). intros i r [-> _]%lookup_replicate. intros H. destruct (H eq_refl).
  - rewrite HR. split; reflexivity.
  - rewrite HR. vm_compute. discriminate.
  - exists self'. split; [|split; [|split]].
    + apply Hrun; [discriminate|]. vm_compute. discriminate.
    + rewrite Hop by discriminate. vm_compute. reflexivity.
    + rewrite Hop by discriminate. vm_compute. reflexivity.
    + exact Hov.
Defined.

Lemma route_incoming_rewards_spec_witness :
  wf example_funded /\ reward_pool example_funded = 1001
  /\ reward_pool (snd (route_incoming_rewards 50 1061 example_funded)) + 0 + 50 = 1061.
Proof.
  split; [exact example_funded_wf|]. split; [vm_compute; reflexivity|].
  pose proof (route_incoming_rewards_spec 50 1061 example_funded example_funded_wf
    ltac:(discriminate) ltac:(vm_compute; discriminate)) as [_ H].
  specialize (H ltac:(vm_compute; discriminate)). cbv zeta in H. destruct H as (_ & Hb & Hp).
  rewrite Hp in Hb. exact Hb.
Defined.

Lemma distributions_pay_once_witness :
  wf example_split /\ exists self', distribute_ncn_fee_rewards example_split = (Ok 80, self')
  /\ distribute_ncn_fee_rewards self' = (Ok 0, self').
Proof.
  split; [exact (proj1 example_split_wf)|].
  destruct (distributions_pay_once example_split (proj1 example_split_wf)) as [(self' & Hd & _ & _ & H0 & _) _].
  exists self'. assert (ncn_rewards example_split = 80) as E by (vm_compute; reflexivity). rewrite E in Hd.
  split; [exact Hd|exact H0].
Defined.
End NCNRewardRouter.
