(* ===== verification/OperatorRouter.v ===== *)
(** The operator's reward router ([core/src/operator_vault_reward_router.rs]):
    an operator's rewards of an epoch are split between the operator, by its
    fee, and its vaults, by their stake weights, in installments. *)
From stdpp Require Import sets.
From S2P Require Import Prelude Errors Precise Stake Snapshots Routes.

Module VaultRewardRoute.
Import NCNProgramError.

Record t := mk { vault : Pubkey; rewards : u64 }.
#[global] Instance eta_t : Eta t := fun r => mk (vault r) (rewards r).

Definition default : t := mk Pubkey_default 0.
Definition new (vault : Pubkey) (rewards : u64) : result NCNProgramError.t t := Ok (mk vault rewards).
Definition is_empty (r : t) : bool := vault r =? Pubkey_default.
Definition has_rewards (r : t) : bool := 0 <? rewards r.
Definition set_rewards (n : u64) : M t NCNProgramError.t unit := modify (put rewards n).
Definition increment_rewards (n : u64) : M t NCNProgramError.t unit :=
  let* self := get_self in
  let current_rewards := rewards self in
  let* new_rewards := lift (ok_or (checked_add u64_MAX current_rewards n) ArithmeticOverflow) in
  set_rewards new_rewards.
Definition decrement_rewards (n : u64) : M t NCNProgramError.t unit :=
  let* self := get_self in
  let current_rewards := rewards self in
  let* new_rewards := lift (ok_or (checked_sub current_rewards n) ArithmeticUnderflowError) in
  set_rewards new_rewards.
End VaultRewardRoute.

Module OperatorVaultRewardRouter.
Import NCNProgramError.

Record t := mk {
  operator : Pubkey;
  ncn : Pubkey;
  epoch : u64;
  bump : u8;
  slot_created : u64;
  ncn_operator_index : u64;
  total_rewards : u64;
  reward_pool : u64;
  rewards_processed : u64;
  operator_rewards : u64;
  last_rewards_to_process : u64;
  last_vault_operator_delegation_index : u16;
  vault_reward_routes : list VaultRewardRoute.t;
}.
#[global] Instance eta_t : Eta t := fun r =>
  mk (operator r) (ncn r) (epoch r) (bump r) (slot_created r) (ncn_operator_index r)
     (total_rewards r) (reward_pool r) (rewards_processed r) (operator_rewards r)
     (last_rewards_to_process r) (last_vault_operator_delegation_index r) (vault_reward_routes r).

Definition NO_LAST_REWARDS_TO_PROCESS : u64 := u64_MAX.
Definition NO_LAST_VAULT_OPERATION_DELEGATION_INDEX : u16 := u16_MAX.
Definition MAX_ROUTE_NCN_ITERATIONS : u16 := 30.

Definition new (operator : Pubkey) (operator_ncn_index : u64) (ncn : Pubkey) (epoch : u64)
    (bump : u8) (slot_created : u64) : t :=
  mk operator ncn epoch bump slot_created operator_ncn_index 0 0 0 0 NO_LAST_REWARDS_TO_PROCESS
     NO_LAST_VAULT_OPERATION_DELEGATION_INDEX (replicate 64 VaultRewardRoute.default).

(** ** Routing state *)

Definition save_routing_state (rewards_to_process : u64) (vault_operator_delegation_index : usize)
    (self : t) : t :=
  self <| last_rewards_to_process := rewards_to_process |>
       <| last_vault_operator_delegation_index := as_u16 vault_operator_delegation_index |>.
Definition reset_routing_state (self : t) : t :=
  self <| last_rewards_to_process := NO_LAST_REWARDS_TO_PROCESS |>
       <| last_vault_operator_delegation_index := NO_LAST_VAULT_OPERATION_DELEGATION_INDEX |>.
Definition still_routing (self : t) : bool :=
  negb (last_rewards_to_process self =? NO_LAST_REWARDS_TO_PROCESS)
  || negb (last_vault_operator_delegation_index self =? NO_LAST_VAULT_OPERATION_DELEGATION_INDEX).
Definition resume_routing_state (rewards_to_process : u64) (self : t) : u64 * usize :=
  if negb (still_routing self) then (rewards_to_process, 0)
  else (last_rewards_to_process self, last_vault_operator_delegation_index self).

(** ** Moving rewards *)

Definition increment_rewards_processed (rewards : u64) : M t NCNProgramError.t unit :=
  if rewards =? 0 then ret tt else add_to rewards_processed (put rewards_processed) rewards.
Definition decrement_rewards_processed (rewards : u64) : M t NCNProgramError.t unit :=
  if rewards =? 0 then ret tt else take_from rewards_processed (put rewards_processed) rewards.
Definition route_to_reward_pool (rewards : u64) : M t NCNProgramError.t unit :=
  if rewards =? 0 then ret tt
  else
    let* _ := add_to total_rewards (put total_rewards) rewards in
    add_to reward_pool (put reward_pool) rewards.
Definition route_from_reward_pool (rewards : u64) : M t NCNProgramError.t unit :=
  if rewards =? 0 then ret tt
  else
    let* _ := take_from reward_pool (put reward_pool) rewards in
    increment_rewards_processed rewards.
Definition route_to_operator_rewards (rewards : u64) : M t NCNProgramError.t unit :=
  if rewards =? 0 then ret tt else add_to operator_rewards (put operator_rewards) rewards.

Definition total_rewards_in_transit (self : t) : result NCNProgramError.t u64 :=
  ok_or (checked_add u64_MAX (reward_pool self) (rewards_processed self)) ArithmeticOverflow.

(** [rent_of_size] is [Rent::minimum_balance] and [size] the size of the
    account's data in memory, which the build determines. *)
Definition rent_cost (rent_of_size : usize -> u64) (size : usize) : result NCNProgramError.t u64 :=
  let? size := ok_or (checked_add u64_MAX 8 size) ArithmeticOverflow in
  Ok (rent_of_size size).

Definition route_incoming_rewards (rent_cost account_balance : u64) : M t NCNProgramError.t unit :=
  let* self := get_self in
  let* total_rewards := lift (total_rewards_in_transit self) in
  let* incoming_rewards :=
    lift (ok_or (checked_sub account_balance total_rewards) ArithmeticUnderflowError) in
  let* rewards_to_route :=
    lift (ok_or (checked_sub incoming_rewards rent_cost) ArithmeticUnderflowError) in
  let* _ := route_to_reward_pool rewards_to_route in
  ret tt.

Definition vault_reward_route (vault : Pubkey) (self : t) : result NCNProgramError.t VaultRewardRoute.t :=
  match find_index (fun r => VaultRewardRoute.vault r =? vault) (vault_reward_routes self) with
  | Some (_, r) => Ok r
  | None => Err VaultRewardNotFound
  end.

Definition route_to_vault_reward_route (vault : Pubkey) (rewards : u64) : M t NCNProgramError.t unit :=
  if rewards =? 0 then ret tt
  else
    let* self := get_self in
    match find_index (fun r => VaultRewardRoute.vault r =? vault) (vault_reward_routes self) with
    | Some (i, _) =>
        let* _ := zoom_at vault_reward_routes (put vault_reward_routes) i
                    (VaultRewardRoute.increment_rewards rewards) in
        ret tt
    | None =>
        match find_index (fun r => VaultRewardRoute.vault r =? Pubkey_default)
                (vault_reward_routes self) with
        | Some (i, _) =>
            let* route := lift (VaultRewardRoute.new vault rewards) in
            modify (put vault_reward_routes (<[i := route]> (vault_reward_routes self)))
        | None => throw OperatorRewardListFull
        end
    end.

(** ** Calculations

    [MAX_BPS] is a constant of the vault program's crate. *)
Section calculations.
Context {P : PreciseNumber} (MAX_BPS : u16).

Definition calculate_operator_reward (fee_bps rewards_to_process : u64) : result NCNProgramError.t u64 :=
  if (fee_bps =? 0) || (rewards_to_process =? 0) then Ok 0
  else
    let? precise_operator_fee_bps := ok_or (pn_new fee_bps) NewPreciseNumberError in
    let? precise_max_bps := ok_or (pn_new MAX_BPS) NewPreciseNumberError in
    let? precise_rewards_to_process := ok_or (pn_new rewards_to_process) NewPreciseNumberError in
    let? precise_operator_rewards :=
      ok_or (and_then (pn_checked_mul precise_rewards_to_process precise_operator_fee_bps)
               (fun x => pn_checked_div x precise_max_bps)) ArithmeticOverflow in
    let? floored_precise_operator_rewards :=
      ok_or (pn_floor precise_operator_rewards) ArithmeticFloorError in
    let? operator_rewards_u128 :=
      ok_or (pn_to_imprecise floored_precise_operator_rewards) CastToImpreciseNumberError in
    try_u64 operator_rewards_u128.

Definition calculate_vault_reward (vault_reward_stake_weight operator_reward_stake_weight : u128)
    (rewards_to_process : u64) : result NCNProgramError.t u64 :=
  if (operator_reward_stake_weight =? 0) || (rewards_to_process =? 0) then Ok 0
  else
    let? precise_rewards_to_process := ok_or (pn_new rewards_to_process) NewPreciseNumberError in
    let? precise_vault_reward_stake_weight :=
      ok_or (pn_new vault_reward_stake_weight) NewPreciseNumberError in
    let? precise_operator_reward_stake_weight :=
      ok_or (pn_new operator_reward_stake_weight) NewPreciseNumberError in
    let? precise_vault_reward :=
      ok_or (and_then (pn_checked_mul precise_rewards_to_process precise_vault_reward_stake_weight)
               (fun x => pn_checked_div x precise_operator_reward_stake_weight)) ArithmeticOverflow in
    let? floored_precise_vault_reward := ok_or (pn_floor precise_vault_reward) ArithmeticFloorError in
    let? vault_reward_u128 :=
      ok_or (pn_to_imprecise floored_precise_vault_reward) CastToImpreciseNumberError in
    try_u64 vault_reward_u128.

(** ** Routing *)

Definition route_operator_rewards (operator_snapshot : OperatorSnapshot.t) : M t NCNProgramError.t unit :=
  let* self := get_self in
  let rewards_to_process := reward_pool self in
  let operator_fee_bps := OperatorSnapshot.operator_fee_bps operator_snapshot in
  let* operator_rewards := lift (calculate_operator_reward operator_fee_bps rewards_to_process) in
  let* _ := route_from_reward_pool operator_rewards in
  route_to_operator_rewards operator_rewards.

(** The loop over the snapshot's slots, from
    [starting_vault_operator_delegation_index] on. The result tells whether it
    stopped because the iterations were used up. *)
Fixpoint route_vaults (operator_reward_stake_weight : u128) (rewards_to_process : u64)
    (max_iterations : u16) (delegations : list VaultOperatorStakeWeight.t)
    (vault_operator_delegation_index : usize) (iterations : u16) : M t NCNProgramError.t bool :=
  match delegations with
  | [] => ret false
  | vault_operator_delegation :: delegations' =>
      let* iterations := lift (ok_or (checked_add u16_MAX iterations 1) ArithmeticOverflow) in
      if max_iterations <? iterations then
        let* _ := modify (save_routing_state rewards_to_process vault_operator_delegation_index) in
        ret true
      else
        let vault := VaultOperatorStakeWeight.vault vault_operator_delegation in
        let vault_reward_stake_weight :=
          StakeWeights.stake_weight (VaultOperatorStakeWeight.stake_weights vault_operator_delegation) in
        let* vault_reward :=
          lift (calculate_vault_reward vault_reward_stake_weight operator_reward_stake_weight
                  rewards_to_process) in
        let* _ := route_from_reward_pool vault_reward in
        let* _ := route_to_vault_reward_route vault vault_reward in
        route_vaults operator_reward_stake_weight rewards_to_process max_iterations delegations'
          (vault_operator_delegation_index + 1) iterations
  end.

Definition route_reward_pool (operator_snapshot : OperatorSnapshot.t) (max_iterations : u16)
    : M t NCNProgramError.t unit :=
  let* self := get_self in
  let operator_stake_weight := OperatorSnapshot.stake_weights operator_snapshot in
  let rewards_to_process := reward_pool self in
  let '(rewards_to_process, starting_vault_operator_delegation_index) :=
    resume_routing_state rewards_to_process self in
  if rewards_to_process =? 0 then ret tt
  else
    let max_iterations := Z.max max_iterations 1 in
    let* interrupted :=
      route_vaults (StakeWeights.stake_weight operator_stake_weight) rewards_to_process max_iterations
        (drop (Z.to_nat starting_vault_operator_delegation_index)
           (OperatorSnapshot.vault_operator_stake_weight operator_snapshot))
        starting_vault_operator_delegation_index 0 in
    if interrupted : bool then ret tt
    else
      let* _ := modify reset_routing_state in
      let* self := get_self in
      let leftover_rewards := reward_pool self in
      let* _ := route_from_reward_pool leftover_rewards in
      let* _ := route_to_operator_rewards leftover_rewards in
      ret tt.
End calculations.

(** ** Distribution *)

Definition distribute_operator_rewards : M t NCNProgramError.t u64 :=
  let* self := get_self in
  let rewards := operator_rewards self in
  let* n := lift (ok_or (checked_sub (operator_rewards self) rewards) ArithmeticUnderflowError) in
  let* _ := modify (put operator_rewards n) in
  let* _ := decrement_rewards_processed rewards in
  ret rewards.

Definition distribute_vault_reward_route (vault : Pubkey) : M t NCNProgramError.t u64 :=
  let* self := get_self in
  match find_index (fun r => VaultRewardRoute.vault r =? vault) (vault_reward_routes self) with
  | Some (i, route) =>
      let rewards := VaultRewardRoute.rewards route in
      let* _ := zoom_at vault_reward_routes (put vault_reward_routes) i
                  (VaultRewardRoute.decrement_rewards rewards) in
      let* _ := decrement_rewards_processed rewards in
      ret rewards
  | None => throw OperatorRewardNotFound
  end.

(** ** The primitive moves *)

(** [zero_move]: a move of nothing returns at once, and adding or subtracting
    zero changes no field. *)
Ltac zero_move r :=
  destruct (r =? 0) eqn:?;
  [ assert (r = 0) as -> by lia; unfold ret; match goal with s : t |- _ => destruct s end; cbn;
    by rewrite ?Z.add_0_r, ?Z.sub_0_r | ].

Lemma route_from_pool_run r self :
  0 <= r <= reward_pool self -> rewards_processed self + r <= u64_MAX ->
  route_from_reward_pool r self =
  (Ok tt, self <| reward_pool := reward_pool self - r |> <| rewards_processed := rewards_processed self + r |>).
Proof.
  intros Hr Hp. unfold route_from_reward_pool. zero_move r.
  erewrite mbind_eq_ok; [|apply take_from_run; lia].
  unfold increment_rewards_processed. destruct (r =? 0) eqn:?; [lia|]. by rewrite add_to_run.
Qed.

Lemma route_to_pool_run r self :
  0 <= r -> reward_pool self + r <= u64_MAX -> total_rewards self + r <= u64_MAX ->
  route_to_reward_pool r self =
  (Ok tt, self <| total_rewards := total_rewards self + r |> <| reward_pool := reward_pool self + r |>).
Proof.
  intros Hr Hp Ht. unfold route_to_reward_pool. zero_move r.
  erewrite mbind_eq_ok; [|by apply add_to_run]. by rewrite add_to_run.
Qed.

Lemma route_to_operator_run r self : operator_rewards self + r <= u64_MAX ->
  route_to_operator_rewards r self = (Ok tt, self <| operator_rewards := operator_rewards self + r |>).
Proof. intros H. unfold route_to_operator_rewards. zero_move r. by apply add_to_run. Qed.

Lemma decrement_processed_run r self : r <= rewards_processed self ->
  decrement_rewards_processed r self = (Ok tt, self <| rewards_processed := rewards_processed self - r |>).
Proof. intros H. unfold decrement_rewards_processed. zero_move r. by apply take_from_run. Qed.

(** ** The routes *)
Abbreviation routes_ok := (routes_ok VaultRewardRoute.vault VaultRewardRoute.rewards VaultRewardRoute.mk 64).
Abbreviation routes_among := (routes_among VaultRewardRoute.vault).
Abbreviation reward_of := (reward_of VaultRewardRoute.vault VaultRewardRoute.rewards).
Abbreviation slot_for := (slot_for VaultRewardRoute.vault).
Abbreviation pay_route := (pay_route VaultRewardRoute.vault VaultRewardRoute.rewards VaultRewardRoute.mk).

Lemma no_vault_routes : routes_ok (replicate 64 VaultRewardRoute.default).
Proof. by apply routes_replicate. Qed.

Definition pay_vault_ok := pay_route_spec (key := VaultRewardRoute.vault)
  (amount := VaultRewardRoute.rewards) (make := VaultRewardRoute.mk) (size := 64)
  (fun _ _ => eq_refl) (fun _ _ => eq_refl).

(** A vault's slot is looked for twice, for its own and for a free one; the
    outcome is that of one search. *)
Lemma route_to_vault_run V vault n self : (List.length V <= 64)%nat ->
  routes_ok (vault_reward_routes self) -> routes_among V (vault_reward_routes self) ->
  0 <= n -> (0 < n -> vault ∈ V /\ vault <> 0) ->
  sum_by VaultRewardRoute.rewards (vault_reward_routes self) + n <= u64_MAX ->
  route_to_vault_reward_route vault n self
  = (Ok tt, self <| vault_reward_routes := pay_route vault n (vault_reward_routes self) |>).
Proof.
  intros HV Hl Ha Hn Hin Hle. unfold route_to_vault_reward_route, Routes.pay_route.
  destruct (n =? 0) eqn:Hn0; [by destruct self|]. destruct Hin as [Hin Hop]; [lia|].
  rewrite run_get_self. destruct (routes_room V vault _ Hl Ha HV Hin) as (i & r & Hf). rewrite Hf.
  destruct (slot_for_found vault _ i r Hl Hop Hf) as [Hi [[E Hfi]|(-> & Hno & Hfree & _)]].
  - rewrite Hfi. pose proof (routes_amount_le _ _ _ Hl Hi).
    rewrite (run_zoom_at _ _ i r) by done. unfold VaultRewardRoute.increment_rewards.
    rewrite run_get_self, run_add by lia. rewrite E, Z.eqb_refl. by rewrite <-E.
  - rewrite Hno, Hfree. change (VaultRewardRoute.vault (VaultRewardRoute.mk 0 0)) with 0.
    destruct (0 =? vault) eqn:E; [lia|]. done.
Qed.

(** ** The calculations in whole numbers *)
Section laws.
Context {P : PreciseNumber} {L : PreciseNumberLaws P}.

Lemma calculate_operator_reward_eq max_bps bps r :
  0 < max_bps <= u16_MAX -> in_range u16_MAX bps -> in_range u64_MAX r -> r * bps / max_bps <= u64_MAX ->
  calculate_operator_reward max_bps bps r = Ok (r * bps / max_bps).
Proof.
  unfold in_range, u16_MAX, u64_MAX. intros Hm Hb Hr Hle. unfold calculate_operator_reward.
  destruct (bps =? 0) eqn:Eb; [assert (bps = 0) as -> by lia; by rewrite Z.mul_0_r, Zdiv_0_l|].
  destruct (r =? 0) eqn:Er; [assert (r = 0) as -> by lia; by rewrite Z.mul_0_l, Zdiv_0_l|]. cbn [orb].
  destruct (pn_new_spec bps) as (x & -> & Hx); [unfold in_range, u128_MAX; lia|].
  destruct (pn_new_spec max_bps) as (y & -> & Hy); [unfold in_range, u128_MAX; lia|].
  destruct (pn_new_spec r) as (z & -> & Hz); [unfold in_range, u128_MAX; lia|].
  destruct (precise_mul_div_floor z x y r bps max_bps) as (p & q & f & Hp & Hq & Hf & Hi);
    [done|done|done|lia|lia|unfold u128_MAX; nia|unfold u128_MAX; lia|].
  cbn. rewrite Hp. cbn. rewrite Hq. cbn. rewrite Hf. cbn. rewrite Hi. cbn.
  unfold try_u64, u64_MAX. by destruct (_ <=? _) eqn:?; [|lia].
Qed.

Lemma calculate_vault_reward_eq w W r :
  0 <= w <= W -> W <= u128_MAX -> in_range u64_MAX r -> r * W <= u128_MAX ->
  calculate_vault_reward w W r = Ok (r * w / W).
Proof.
  unfold in_range. intros Hw HW Hr Hle. unfold calculate_vault_reward.
  destruct (W =? 0) eqn:Ew; [assert (W = 0) as -> by lia; by rewrite Zdiv_0_r|].
  destruct (r =? 0) eqn:Er; [assert (r = 0) as -> by lia; by rewrite Z.mul_0_l, Zdiv_0_l|]. cbn [orb].
  assert (r <= u128_MAX) by (unfold u64_MAX, u128_MAX in *; lia).
  destruct (pn_new_spec r) as (x & -> & Hx); [unfold in_range; lia|].
  destruct (pn_new_spec w) as (y & -> & Hy); [unfold in_range; lia|].
  destruct (pn_new_spec W) as (z & -> & Hz); [unfold in_range; lia|].
  destruct (precise_mul_div_floor x y z r w W) as (p & q & f & Hp & Hq & Hf & Hi);
    [done|done|done|lia|lia|nia|lia|].
  cbn. rewrite Hp. cbn. rewrite Hq. cbn. rewrite Hf. cbn. rewrite Hi. cbn.
  unfold try_u64. assert (r * w / W <= r) by (apply Z.div_le_upper_bound; nia).
  by destruct (_ <=? _) eqn:?; [|lia].
Qed.
End laws.

(** ** Well-formed routers *)

Record wf (self : t) : Prop := {
  wf_routes : routes_ok (vault_reward_routes self);
  wf_pool : 0 <= reward_pool self;
  wf_operator : 0 <= operator_rewards self;
  (** what was taken from the pool and not yet paid out is allocated *)
  wf_sum : rewards_processed self
    = operator_rewards self + sum_by VaultRewardRoute.rewards (vault_reward_routes self);
  wf_transit : reward_pool self + rewards_processed self <= total_rewards self;
  wf_total : total_rewards self <= u64_MAX;
}.

Lemma operator_router_new_wf op i n e b slot : wf (new op i n e b slot).
Proof. split; cbn; (done || apply no_vault_routes || lia). Qed.

(** The operator's fee. For a fee of at most 100% the operator gets exactly
    its share of the pool, rounded down, the rest stays in the pool for the
    vaults, and nothing else changes. *)
Theorem route_operator_rewards_spec `{P : PreciseNumber} {L : PreciseNumberLaws P} max_bps snap self :
  0 < max_bps <= u16_MAX -> wf self -> 0 <= OperatorSnapshot.operator_fee_bps snap <= max_bps ->
  let r := reward_pool self in
  let fee := r * OperatorSnapshot.operator_fee_bps snap / max_bps in
  let self' := self <| reward_pool := r - fee |>
    <| rewards_processed := rewards_processed self + fee |>
    <| operator_rewards := operator_rewards self + fee |> in
  route_operator_rewards max_bps snap self = (Ok tt, self') /\ wf self' /\ 0 <= fee <= r.
Proof.
  intros Hm [Hl Hp Ho Hs Ht Htot] Hb. cbn zeta. pose proof (routes_sum_nonneg _ Hl) as Hrs.
  set (r := reward_pool self) in *. set (bps := OperatorSnapshot.operator_fee_bps snap) in *.
  set (fee := r * bps / max_bps).
  assert (0 <= fee <= r) as Hfee.
  { split; [apply Z.div_pos; nia|apply Z.div_le_upper_bound; nia]. }
  split_and!; [|split; cbn -[sum_by]; (done || lia)|lia|lia].
  unfold route_operator_rewards. rewrite run_get_self. fold r bps.
  rewrite calculate_operator_reward_eq, run_lift_Ok by (unfold in_range; fold fee; lia). fold fee.
  erewrite mbind_eq_ok; [|apply route_from_pool_run; lia]. fold r.
  rewrite route_to_operator_run by (cbn; lia). done.
Qed.

(** ** Paying the vaults *)
Section installments.
Context {P : PreciseNumber} {L : PreciseNumberLaws P}.
Context (snap : OperatorSnapshot.t) (Hsnap : OperatorSnapshot.wf snap).

Let slots := OperatorSnapshot.vault_operator_stake_weight snap.
Let W := StakeWeights.stake_weight (OperatorSnapshot.stake_weights snap).
Let vaults := map VaultOperatorStakeWeight.vault slots.

(** Vaults that have weight have a key. *)
Definition vaults_named : Prop := forall i v, slots !! i = Some v ->
  0 < VaultOperatorStakeWeight.weight v -> VaultOperatorStakeWeight.vault v <> 0.

Context (Hnamed : vaults_named).
Context (R : Z) (HR : 0 < R < u64_MAX) (HRW : R * W <= u128_MAX).

(** A vault's share, rounded down. *)
Definition share (v : VaultOperatorStakeWeight.t) : u64 := R * VaultOperatorStakeWeight.weight v / W.

Definition pay_vault (self : t) (v : VaultOperatorStakeWeight.t) : t :=
  self <| reward_pool := reward_pool self - share v |>
       <| rewards_processed := rewards_processed self + share v |>
       <| vault_reward_routes :=
            pay_route (VaultOperatorStakeWeight.vault v) (share v) (vault_reward_routes self) |>.
Definition pay (vs : list VaultOperatorStakeWeight.t) (self : t) : t := fold_left pay_vault vs self.

(** A slot that can be paid. *)
Definition slot_fits (v : VaultOperatorStakeWeight.t) : Prop :=
  0 <= VaultOperatorStakeWeight.weight v <= W /\ VaultOperatorStakeWeight.vault v ∈ vaults
  /\ (0 < VaultOperatorStakeWeight.weight v -> VaultOperatorStakeWeight.vault v <> 0).

(** The state from which the slots [vs] can be paid. *)
Record payable (vs : list VaultOperatorStakeWeight.t) (self : t) : Prop := {
  payable_wf : wf self;
  payable_among : routes_among vaults (vault_reward_routes self);
  payable_slots : forall v, v ∈ vs -> slot_fits v;
  payable_owed : sum_by share vs <= reward_pool self;
}.

Lemma vaults_length : (List.length vaults <= 64)%nat.
Proof using All. unfold vaults. rewrite length_map. unfold slots. by rewrite (OperatorSnapshot.wf_len _ Hsnap). Qed.

Lemma slots_fit v : v ∈ slots -> slot_fits v.
Proof using All.
  intros Hin. pose proof Hin as [i Hi]%list_elem_of_lookup. split_and!.
  - by eapply OperatorSnapshot.wf_weights.
  - unfold W. rewrite (OperatorSnapshot.wf_total _ Hsnap).
    eapply sum_by_elem_le; [|done]. intros j x Hj. by eapply OperatorSnapshot.wf_weights.
  - apply list_elem_of_fmap. by exists v.
  - by eapply Hnamed.
Qed.

Lemma W_range : W <= u128_MAX.
Proof using All. apply (OperatorSnapshot.wf_total_range _ Hsnap). Qed.

Lemma slot_share v : slot_fits v -> 0 <= share v /\ (0 < share v -> VaultOperatorStakeWeight.vault v <> 0).
Proof using All.
  intros (Hw & _ & Hn). unfold share. destruct (decide (VaultOperatorStakeWeight.weight v = 0)) as [->|Hne].
  { rewrite Z.mul_0_r, Zdiv_0_l. lia. }
  split; [apply Z.div_pos; nia|]. intros _. apply Hn. lia.
Qed.

Lemma sum_share_nonneg vs : (forall v, v ∈ vs -> slot_fits v) -> 0 <= sum_by share vs.
Proof using All.
  intros H. apply sum_by_nonneg. intros i v Hi. apply slot_share, H, list_elem_of_lookup. by exists i.
Qed.

Lemma vault_payable_next v vs self : payable (v :: vs) self -> payable vs (pay_vault self v).
Proof using All.
  intros [Hwf Ha Hv Ho]. unfold sum_by in Ho. cbn in Ho. fold (sum_by share vs) in Ho.
  assert (forall x, x ∈ vs -> slot_fits x) as Hv' by (intros x Hx; apply Hv; set_solver).
  pose proof (Hv v ltac:(set_solver)) as Hvv. pose proof (sum_share_nonneg _ Hv') as Hso.
  destruct (slot_share v Hvv) as [Hs0 Hsn]. destruct Hvv as (_ & Hin & _).
  destruct Hwf as [Hl Hp Hop Hsum Ht Htot].
  destruct (decide (share v = 0)) as [E|E].
  { assert (pay_vault self v = self) as ->; [|split; [by split|done|done|lia]].
    unfold pay_vault, Routes.pay_route. rewrite E. cbn. rewrite Z.sub_0_r, Z.add_0_r. by destruct self. }
  destruct (pay_vault_ok vaults (VaultOperatorStakeWeight.vault v) (share v) _ vaults_length Hl Ha Hin)
    as (H1 & H2 & H3 & _); [by apply Hsn; lia|done|].
  split; cbn -[sum_by]; [split; cbn -[sum_by]; rewrite ?H3; (done || lia)|done|done|lia].
Qed.

Lemma vault_pay_payable vs rest self : payable (vs ++ rest) self -> payable rest (pay vs self).
Proof using All.
  revert self. induction vs as [|v vs IH]; intros self H; [done|].
  cbn. apply IH. by apply vault_payable_next.
Qed.

(** The loop pays as many slots as it may. *)
Lemma route_vaults_run max vs idx it self :
  payable vs self -> 0 <= it <= max -> it + Z.of_nat (List.length vs) < u16_MAX ->
  route_vaults W R max vs idx it self =
  if (Z.of_nat (List.length vs) <=? max - it) then (Ok false, pay vs self)
  else (Ok true, save_routing_state R (idx + (max - it)) (pay (take (Z.to_nat (max - it)) vs) self)).
Proof using All.
  revert idx it self. induction vs as [|v vs IH]; intros idx it self Hpay Hit Hlen.
  { change (Z.of_nat (List.length [])) with 0. destruct (0 <=? max - it) eqn:?; [done|lia]. }
  cbn [List.length] in Hlen |- *. pose proof (vault_payable_next _ _ _ Hpay) as Hnext.
  cbn [route_vaults]. rewrite run_add by lia. destruct (max <? it + 1) eqn:Hm.
  - assert (max = it) as -> by lia. rewrite Z.sub_diag, Z.add_0_r.
    destruct (Z.leb_spec (Z.of_nat (S (List.length vs))) 0); [lia|done].
  - assert (Z.to_nat (max - it) = S (Z.to_nat (max - (it + 1)))) as -> by lia.
    destruct Hpay as [Hwf Ha Hv Ho]. unfold sum_by in Ho. cbn in Ho. fold (sum_by share vs) in Ho.
    pose proof (Hv v ltac:(set_solver)) as Hvv.
    pose proof (sum_share_nonneg vs ltac:(intros x Hx; apply Hv; set_solver)) as Hso.
    destruct (slot_share v Hvv) as [Hs0 Hsn]. destruct Hvv as (Hw & Hin & _).
    change (StakeWeights.stake_weight (VaultOperatorStakeWeight.stake_weights v))
      with (VaultOperatorStakeWeight.weight v).
    rewrite calculate_vault_reward_eq, run_lift_Ok by (done || apply W_range || (unfold in_range; lia)).
    fold (share v). destruct Hwf as [Hl Hp Hop Hsum Ht Htot].
    erewrite mbind_eq_ok; [|apply route_from_pool_run; lia].
    erewrite mbind_eq_ok; [|apply (route_to_vault_run vaults); cbn -[sum_by];
      [apply vaults_length|done|done|done|by intros ?; split; [|apply Hsn]|lia]].
    match goal with |- route_vaults _ _ _ _ _ _ ?s = _ => change s with (pay_vault self v) end.
    rewrite IH by (done || lia). rewrite firstn_cons. cbn [pay fold_left]. fold (pay vs (pay_vault self v)).
    destruct (Z.leb_spec (Z.of_nat (List.length vs)) (max - (it + 1)));
      destruct (Z.leb_spec (Z.of_nat (S (List.length vs))) (max - it)); try lia; [done|].
    f_equal. fold (pay (take (Z.to_nat (max - (it + 1))) vs) (pay_vault self v)). f_equal. lia.
Qed.

(** The routes after paying: each vault's grows by the shares of its slots. *)
Lemma vault_pay_rewards vs self vault : payable vs self -> vault <> 0 ->
  reward_of vault (vault_reward_routes (pay vs self))
  = reward_of vault (vault_reward_routes self)
    + sum_by (fun v => if VaultOperatorStakeWeight.vault v =? vault then share v else 0) vs.
Proof using All.
  intros H Hne. revert self H. induction vs as [|v vs IH]; intros self H; [cbn; lia|].
  cbn [pay fold_left]. fold (pay vs (pay_vault self v)). rewrite IH by by apply vault_payable_next.
  unfold sum_by at 2. cbn [foldr].
  fold (sum_by (fun v => if VaultOperatorStakeWeight.vault v =? vault then share v else 0) vs).
  destruct H as [[Hl Hp Hop Hsum Ht Htot] Ha Hv Ho]. pose proof (Hv v ltac:(set_solver)) as Hvv.
  destruct (slot_share v Hvv) as [Hs0 Hsn]. destruct Hvv as (Hw & Hin & _).
  unfold pay_vault. cbn [vault_reward_routes over].
  destruct (decide (share v = 0)) as [E|E].
  { unfold Routes.pay_route. rewrite E. cbn [Z.eqb]. destruct (_ =? vault); lia. }
  destruct (pay_vault_ok vaults (VaultOperatorStakeWeight.vault v) (share v) _ vaults_length Hl Ha Hin)
    as (_ & _ & _ & Hsame & Hdiff); [by apply Hsn; lia|done|].
  destruct (VaultOperatorStakeWeight.vault v =? vault) eqn:Ev.
  - apply Z.eqb_eq in Ev as <-. rewrite Hsame. lia.
  - rewrite Hdiff by (done || lia). lia.
Qed.

(** Paying moves what is owed out of the pool and touches nothing else. *)
Lemma vault_pay_same vs self :
  reward_pool (pay vs self) = reward_pool self - sum_by share vs
  /\ rewards_processed (pay vs self) = rewards_processed self + sum_by share vs
  /\ operator_rewards (pay vs self) = operator_rewards self
  /\ total_rewards (pay vs self) = total_rewards self.
Proof.
  revert self. induction vs as [|v vs IH]; intros self; [cbn; lia|].
  cbn [pay fold_left]. fold (pay vs (pay_vault self v)). unfold sum_by. cbn [foldr].
  fold (sum_by share vs). destruct (IH (pay_vault self v)) as (-> & -> & -> & ->).
  cbn -[sum_by]. lia.
Qed.

Lemma vault_pay_app vs rest self : pay (vs ++ rest) self = pay rest (pay vs self).
Proof. apply fold_left_app. Qed.

(** Paying does not look at the saved routing state. *)
Lemma vault_pay_save vs j r self : pay vs (save_routing_state r j self) = save_routing_state r j (pay vs self).
Proof.
  revert self. induction vs as [|v vs IH]; intros self; [done|].
  cbn [pay fold_left]. fold (pay vs (pay_vault self v)).
  fold (pay vs (pay_vault (save_routing_state r j self) v)). by rewrite <-IH.
Qed.

Lemma vault_payable_save vs j r self : payable vs self -> payable vs (save_routing_state r j self).
Proof. intros [Hwf Ha Hv Ho]. destruct Hwf. by split; [split| | |]. Qed.

(** ** Installments *)

Definition route_calls (calls : list u16) : M t NCNProgramError.t unit :=
  foldr (fun m k => let* _ := route_reward_pool snap m in k) (ret tt) calls.

(** The router when all vaults are paid: what is left over is the operator's. *)
Definition settled (self : t) : t :=
  let s := pay slots self in
  reset_routing_state (s <| reward_pool := 0 |>
                         <| rewards_processed := rewards_processed s + reward_pool s |>
                         <| operator_rewards := operator_rewards s + reward_pool s |>).

(** Between two calls: nothing is paid yet, or the first [j] slots are. *)
Definition between (self s : t) (j : nat) : Prop :=
  (j <= 64)%nat
  /\ (s = self /\ j = O \/ s = save_routing_state R (Z.of_nat j) (pay (take j slots) self)).

Lemma slots_length : List.length slots = 64%nat.
Proof using All. apply (OperatorSnapshot.wf_len _ Hsnap). Qed.

Lemma vault_between_payable self s j : payable slots self -> between self s j ->
  payable (drop j slots) s.
Proof using All.
  intros Hp [_ [[-> ->]| ->]]; [done|].
  apply vault_payable_save, vault_pay_payable. by rewrite take_drop.
Qed.

Lemma vault_between_resume self s j : still_routing self = false -> reward_pool self = R ->
  between self s j -> resume_routing_state (reward_pool s) s = (R, Z.of_nat j).
Proof using HR.
  intros Hs He [Hj [[-> ->]| ->]]; unfold resume_routing_state.
  - by rewrite Hs, He.
  - unfold still_routing. cbn -[Z.of_nat pay].
    assert (as_u16 (Z.of_nat j) = Z.of_nat j) as -> by (apply Z.mod_small; lia).
    unfold NO_LAST_REWARDS_TO_PROCESS, u64_MAX in *. destruct (R =? _) eqn:?; [lia|done].
Qed.

(** One call. *)
Lemma vault_call_run m self s j :
  payable slots self -> still_routing self = false -> reward_pool self = R -> between self s j ->
  route_reward_pool snap m s =
  if Z.of_nat (64 - j) <=? Z.max m 1 then (Ok tt, settled self)
  else (Ok tt, save_routing_state R (Z.of_nat j + Z.max m 1) (pay (take (j + Z.to_nat (Z.max m 1)) slots) self)).
Proof using All.
  intros Hp Hs He Hb. pose proof (vault_between_payable _ _ _ Hp Hb) as Hps.
  pose proof (vault_between_resume _ _ _ Hs He Hb) as Hr. pose proof slots_length as Hlen.
  unfold route_reward_pool. rewrite run_get_self, Hr. destruct (R =? 0) eqn:?; [lia|].
  rewrite Nat2Z.id. fold slots. change (StakeWeights.stake_weight (OperatorSnapshot.stake_weights snap)) with W.
  assert (List.length (drop j slots) = (64 - j)%nat) as Hl by by rewrite length_drop, Hlen.
  unfold mbind at 1. rewrite route_vaults_run by (done || (rewrite ?Hl; unfold u16_MAX; lia)).
  rewrite Z.sub_0_r, Hl. destruct Hb as [Hj Hb].
  destruct (Z.leb_spec (Z.of_nat (64 - j)) (Z.max m 1)).
  - rewrite run_modify, run_get_self.
    assert (reset_routing_state (pay (drop j slots) s) = reset_routing_state (pay slots self)) as ->.
    { rewrite <-(take_drop j slots) at 2. rewrite vault_pay_app.
      destruct Hb as [[-> ->]| ->]; [done|]. by rewrite vault_pay_save. }
    pose proof (vault_pay_payable slots [] self) as Hq. rewrite app_nil_r in Hq. destruct (Hq Hp) as [Hwf _ _ _].
    destruct Hwf as [Hrt Hpo Hop Hsum Ht Htot]. pose proof (routes_sum_nonneg _ Hrt).
    unfold settled. set (q := pay slots self) in *.
    erewrite mbind_eq_ok; [|apply route_from_pool_run; cbn; lia].
    erewrite mbind_eq_ok; [|apply route_to_operator_run; cbn; lia].
    cbn -[Z.add Z.sub]. by rewrite Z.sub_diag.
  - unfold ret. f_equal. rewrite <-(take_drop (Z.to_nat (Z.max m 1)) (drop j slots)).
    assert (take (j + Z.to_nat (Z.max m 1)) slots = take j slots ++ take (Z.to_nat (Z.max m 1)) (drop j slots)) as ->.
    { rewrite <-(take_drop j slots) at 1. apply take_app_add'. rewrite length_take, Hlen. lia. }
    rewrite take_drop, vault_pay_app, <-!vault_pay_save.
    destruct Hb as [[-> ->]| ->]; [done|]. by rewrite !vault_pay_save.
Qed.

Lemma vault_calls_after_settled calls self : route_calls calls (settled self) = (Ok tt, settled self).
Proof. induction calls as [|m calls IH]; [done|]. cbn [route_calls foldr]. fold (route_calls calls). by erewrite mbind_eq_ok. Qed.

Lemma vault_calls_run calls self s j :
  payable slots self -> still_routing self = false -> reward_pool self = R -> between self s j ->
  calls <> [] -> Z.of_nat (64 - j) <= capacity calls -> route_calls calls s = (Ok tt, settled self).
Proof using All.
  intros Hp Hs He Hb Hne Hcap. revert s j Hb Hcap.
  induction calls as [|m calls IH]; intros s j Hb Hcap; [done|].
  change (capacity (m :: calls)) with (Z.max m 1 + capacity calls) in Hcap.
  cbn [route_calls foldr]. fold (route_calls calls). unfold mbind at 1. rewrite (vault_call_run m self s j) by done.
  destruct (Z.leb_spec (Z.of_nat (64 - j)) (Z.max m 1)); [apply vault_calls_after_settled|].
  destruct calls as [|m' calls]; [change (capacity []) with 0 in Hcap; lia|].
  apply (IH ltac:(done) _ (j + Z.to_nat (Z.max m 1))%nat); [|lia].
  split; [lia|right]. do 2 f_equal. lia.
Qed.

Lemma vault_settled_wf self : payable slots self -> wf (settled self).
Proof using All.
  intros Hp. pose proof (vault_pay_payable slots [] self) as Hq. rewrite app_nil_r in Hq.
  destruct (Hq Hp) as [[] _ _ _]. split; cbn -[pay sum_by]; (done || lia).
Qed.

Lemma shares_le_pool : sum_by share slots <= R.
Proof using All.
  apply (shares_le VaultOperatorStakeWeight.weight); [lia| |].
  - intros i v Hi. by eapply OperatorSnapshot.wf_weights.
  - unfold W. rewrite (OperatorSnapshot.wf_total _ Hsnap). done.
Qed.

Lemma vault_leftover_bound : 0 < W -> R - sum_by share slots < OperatorSnapshot.valid_operator_vault_delegations snap.
Proof using All.
  intros HW. rewrite (OperatorSnapshot.wf_valid _ Hsnap).
  apply (shares_leftover VaultOperatorStakeWeight.weight); [lia..| |].
  - intros i v Hi. by eapply OperatorSnapshot.wf_weights.
  - unfold W. by rewrite (OperatorSnapshot.wf_total _ Hsnap).
Qed.
End installments.

(** C24: the vaults' rewards can be routed in any number of calls. For a
    well-formed snapshot there is one final state, whatever the calls' iteration
    limits, as long as together they allow for all 64 slots: every vault has
    received exactly its stake weight's share of the pool, rounded down; the
    operator has received what rounding left over, which is less than a lamport
    per vault with weight, and all of the pool when no vault has weight; the
    pool is empty, nothing is still routing, and the router is well formed. *)
Theorem vault_rewards_in_installments `{P : PreciseNumber} {L : PreciseNumberLaws P} snap self :
  OperatorSnapshot.wf snap -> vaults_named snap -> wf self -> still_routing self = false ->
  let slots := OperatorSnapshot.vault_operator_stake_weight snap in
  let R := reward_pool self in
  let W := StakeWeights.stake_weight (OperatorSnapshot.stake_weights snap) in
  routes_among (map VaultOperatorStakeWeight.vault slots) (vault_reward_routes self) ->
  0 < R < u64_MAX -> R * W <= u128_MAX ->
  exists self',
    (forall calls, calls <> [] -> 64 <= capacity calls -> route_calls snap calls self = (Ok tt, self'))
    /\ wf self' /\ still_routing self' = false /\ reward_pool self' = 0
    /\ (forall vault, vault <> 0 ->
          reward_of vault (vault_reward_routes self')
          = reward_of vault (vault_reward_routes self)
            + sum_by (fun v => if VaultOperatorStakeWeight.vault v =? vault
                               then R * VaultOperatorStakeWeight.weight v / W else 0) slots)
    /\ (exists leftover, operator_rewards self' = operator_rewards self + leftover /\ 0 <= leftover
          /\ (0 < W -> leftover < OperatorSnapshot.valid_operator_vault_delegations snap)
          /\ (W = 0 -> leftover = R))
    /\ rewards_processed self' = rewards_processed self + R
    /\ total_rewards self' = total_rewards self.
Proof.
  intros Hsnap Hn Hwf Hs slots R W Ha HR HRW.
  assert (payable snap R slots self) as Hp.
  { split; [done|done|exact (slots_fit snap Hsnap Hn R HR HRW)|exact (shares_le_pool snap Hsnap Hn R HR HRW)]. }
  destruct (vault_pay_same snap R slots self) as (Hpool & Hproc & Hop & Htot).
  exists (settled snap R self).
  split_and!; [| |done|done| | | |exact Htot].
  - intros calls Hne Hcap. apply (vault_calls_run snap Hsnap Hn R HR HRW calls self self O); try done.
    split; [lia|by left].
  - exact (vault_settled_wf snap Hsnap Hn R HR HRW self Hp).
  - intros vault Hv. exact (vault_pay_rewards snap Hsnap Hn R HR HRW slots self vault Hp Hv).
  - exists (R - sum_by (share snap R) slots). split_and!.
    + change (operator_rewards (settled snap R self))
        with (operator_rewards (pay snap R slots self) + reward_pool (pay snap R slots self)).
      by rewrite Hop, Hpool.
    + apply Z.le_0_sub. exact (shares_le_pool snap Hsnap Hn R HR HRW).
    + exact (vault_leftover_bound snap Hsnap Hn R HR HRW).
    + intros HW0. rewrite sum_by_zero; [lia|]. intros i v _. unfold share. fold W. by rewrite HW0, Zdiv_0_r.
  - change (rewards_processed (settled snap R self))
      with (rewards_processed (pay snap R slots self) + reward_pool (pay snap R slots self)).
    rewrite Hpool, Hproc. fold R. lia.
Qed.

(** ** Rewards in, rewards out *)

(** Incoming lamports of the operator's router. What the account holds
    beyond its rent and the rewards in transit goes to the pool, to the last
    lamport; a balance that does not cover both is an error and changes
    nothing. *)
Theorem operator_route_incoming_spec rent balance self :
  wf self -> 0 <= rent ->
  total_rewards self - (reward_pool self + rewards_processed self) + (balance - rent) <= u64_MAX ->
  let incoming := balance - (reward_pool self + rewards_processed self) - rent in
  let '(r, self') := route_incoming_rewards rent balance self in
  (incoming < 0 -> r = Err ArithmeticUnderflowError /\ self' = self)
  /\ (0 <= incoming -> r = Ok tt /\ wf self'
      /\ self' = self <| total_rewards := total_rewards self + incoming |>
                      <| reward_pool := reward_pool self + incoming |>
      /\ reward_pool self' + rewards_processed self' + rent = balance).
Proof.
  intros [Hl Hp Hop Hs Ht Htot] Hr Hle incoming. pose proof (routes_sum_nonneg _ Hl) as Hrs.
  destruct (route_incoming_rewards rent balance self) as [r self'] eqn:E.
  unfold route_incoming_rewards, total_rewards_in_transit in E. rewrite run_get_self in E.
  rewrite run_add in E by lia. set (transit := reward_pool self + rewards_processed self) in *.
  destruct (decide (transit <= balance)) as [Hb|Hb].
  2: { rewrite (proj2 (checked_sub_None _ _)) in E by lia. injection E as <- <-. split; [done|lia]. }
  rewrite run_sub in E by lia. destruct (decide (rent <= balance - transit)) as [Hb'|Hb'].
  2: { rewrite (proj2 (checked_sub_None _ _)) in E by lia. injection E as <- <-. split; [done|lia]. }
  rewrite run_sub in E by lia. fold incoming in E.
  erewrite mbind_eq_ok in E; [|apply route_to_pool_run; lia]. injection E as <- <-.
  split; [lia|]. intros Hin. split_and!; [done|split; cbn -[sum_by]; (done || lia)|done|cbn; lia].
Qed.

Lemma distribute_operator_run self : wf self ->
  distribute_operator_rewards self
  = (Ok (operator_rewards self),
     self <| operator_rewards := 0 |>
          <| rewards_processed := rewards_processed self - operator_rewards self |>).
Proof.
  intros [Hl Hp Hop Hs Ht Htot]. pose proof (routes_sum_nonneg _ Hl).
  unfold distribute_operator_rewards. rewrite run_get_self, run_sub, run_modify, Z.sub_diag by lia.
  erewrite mbind_eq_ok; [|apply decrement_processed_run; cbn -[sum_by]; lia]. done.
Qed.

Lemma distribute_vault_run vault i r self : wf self ->
  find_index (fun r => VaultRewardRoute.vault r =? vault) (vault_reward_routes self) = Some (i, r) ->
  distribute_vault_reward_route vault self
  = (Ok (VaultRewardRoute.rewards r),
     self <| vault_reward_routes := <[i := VaultRewardRoute.mk vault 0]> (vault_reward_routes self) |>
          <| rewards_processed := rewards_processed self - VaultRewardRoute.rewards r |>).
Proof.
  intros [Hl Hp Hop Hs Ht Htot] Hf. pose proof (find_index_lookup _ _ _ _ Hf) as Hi.
  pose proof (find_index_true _ _ _ _ Hf) as He. pose proof (routes_amount_le _ _ _ Hl Hi).
  unfold distribute_vault_reward_route. rewrite run_get_self, Hf, (run_zoom_at _ _ i r) by done.
  unfold VaultRewardRoute.decrement_rewards. rewrite run_get_self, run_sub, Z.sub_diag by lia.
  cbv beta iota. unfold VaultRewardRoute.set_rewards, modify.
  erewrite mbind_eq_ok; [|apply decrement_processed_run; cbn -[sum_by]; lia].
  apply Z.eqb_eq in He as <-. done.
Qed.

(** Paying out of the operator's router. Each distribution returns exactly
    what its beneficiary is owed, sets it to zero so that a second one pays
    nothing, takes the amount off the rewards in transit, and leaves everybody
    else's balance as it was; a vault without a route is an error. *)
Theorem operator_distributions_pay_once self : wf self ->
  (exists self', distribute_operator_rewards self = (Ok (operator_rewards self), self') /\ wf self'
     /\ rewards_processed self' = rewards_processed self - operator_rewards self
     /\ distribute_operator_rewards self' = (Ok 0, self')
     /\ vault_reward_routes self' = vault_reward_routes self)
  /\ (forall vault, vault <> 0 ->
     match vault_reward_route vault self with
     | Ok route =>
         let n := VaultRewardRoute.rewards route in
         exists self', distribute_vault_reward_route vault self = (Ok n, self') /\ wf self'
           /\ rewards_processed self' = rewards_processed self - n
           /\ distribute_vault_reward_route vault self' = (Ok 0, self')
           /\ operator_rewards self' = operator_rewards self
           /\ (forall vault', vault' <> vault -> reward_of vault' (vault_reward_routes self')
                                                = reward_of vault' (vault_reward_routes self))
     | _ => distribute_vault_reward_route vault self = (Err OperatorRewardNotFound, self)
     end).
Proof.
  intros Hwf. pose proof Hwf as [Hl Hp Hop Hs Ht Htot]. pose proof (routes_sum_nonneg _ Hl) as Hrs.
  split.
  - eexists. rewrite distribute_operator_run by done. split; [done|].
    match goal with |- wf ?s /\ _ => assert (wf s) as Hw' by (split; cbn -[sum_by]; (done || lia)) end.
    rewrite distribute_operator_run by done. split_and!; try done. cbn -[sum_by]. by rewrite Z.sub_0_r.
  - intros vault Hv. unfold vault_reward_route.
    destruct (find_index _ (vault_reward_routes self)) as [[i r]|] eqn:Hf.
    2: { unfold distribute_vault_reward_route. by rewrite run_get_self, Hf. }
    destruct (reset_route_spec (key := VaultRewardRoute.vault)
      (amount := VaultRewardRoute.rewards) (make := VaultRewardRoute.mk)
      (fun _ _ => eq_refl) (fun _ _ => eq_refl) vault i r _ Hl Hv Hf) as (Hl' & Hf' & Hsum' & Hoth).
    pose proof (routes_nonneg Hl _ _ (find_index_lookup _ _ _ _ Hf)) as Hr0.
    cbn zeta. eexists. rewrite (distribute_vault_run vault i r) by done. split; [done|].
    match goal with |- wf ?s /\ _ => assert (wf s) as Hw' end.
    { split; cbn -[sum_by]; rewrite ?Hsum'; (done || lia). }
    rewrite (distribute_vault_run vault i (VaultRewardRoute.mk vault 0)) by done.
    split_and!; try done.
    cbn -[sum_by]. by rewrite Z.sub_0_r, list_insert_insert_eq.
Qed.

(** ** A concrete epoch

    1001 lamports arrive for an operator with a fee of 10% and two vaults with
    weights 60 and 20; the vaults' 901 are routed in calls of 40 slots. *)
Definition example_snapshot : OperatorSnapshot.t :=
  OperatorSnapshot.registered 11 52 2 (StakeWeights.mk 20)
    (OperatorSnapshot.registered 10 51 1 (StakeWeights.mk 60)
       (OperatorSnapshot.initial 3 7 5 254 1000 true 0 12 1000 2)).
Definition example_funded : t := snd (route_incoming_rewards 50 1051 (new 3 0 7 5 255 100)).
Definition example_split : t :=
  snd (@route_operator_rewards fixed_point 10000 example_snapshot example_funded).

Lemma example_snapshot_wf : OperatorSnapshot.wf example_snapshot.
Proof.
  apply OperatorSnapshot.registered_wf; try reflexivity; [|split; discriminate|discriminate].
  apply OperatorSnapshot.registered_wf; try reflexivity; [|split; discriminate|discriminate].
  apply OperatorSnapshot.initial_wf. lia.
Qed.

Lemma example_named : vaults_named example_snapshot.
Proof.
  intros i v. cbn -[replicate]. intros Hi Hw.
  destruct i as [|[|i]]; [injection Hi as <-; discriminate|injection Hi as <-; discriminate|].
  cbn in Hi. by apply (lookup_replicate 62 VaultOperatorStakeWeight.default) in Hi as [-> _].
Qed.

Lemma vault_example_funded_wf : wf example_funded.
Proof. split; [apply no_vault_routes|vm_compute; (reflexivity || discriminate)..]. Qed.

Lemma vault_example_split_wf : wf example_split.
Proof. split; [apply no_vault_routes|vm_compute; (reflexivity || discriminate)..]. Qed.

Lemma route_operator_rewards_spec_witness :
  wf example_funded /\ fst (@route_operator_rewards fixed_point 10000 example_snapshot example_funded) = Ok tt
  /\ operator_rewards example_split = 100.
Proof.
  pose proof (route_operator_rewards_spec (L := fixed_point_laws) 10000 example_snapshot example_funded
    ltac:(split; [reflexivity|discriminate]) vault_example_funded_wf ltac:(split; discriminate)) as H.
  cbv zeta in H. destruct H as [H _].
  split; [exact vault_example_funded_wf|]. unfold example_split. rewrite H. split; [reflexivity|].
  vm_compute. reflexivity.
Defined.

Lemma vault_rewards_in_installments_witness :
  wf example_split
  /\ exists self', @route_calls fixed_point example_snapshot [40; 40]%Z example_split = (Ok tt, self')
     /\ reward_of 51 (vault_reward_routes self') = 675
     /\ reward_of 52 (vault_reward_routes self') = 225
     /\ reward_pool self' = 0.
Proof.
  split; [exact vault_example_split_wf|].
  assert (reward_pool example_split = 901) as HR by (vm_compute; reflexivity).
  destruct (vault_rewards_in_installments (L := fixed_point_laws) example_snapshot example_split
    example_snapshot_wf example_named vault_example_split_wf ltac:(vm_compute; reflexivity))
    as (self' & Hrun & _ & _ & Hov & Hop & _).
  - intros i r [-> _]%(lookup_replicate 64 VaultRewardRoute.default). intros H. destruct (H eq_refl).
  - rewrite HR. split; reflexivity.
  - rewrite HR. vm_compute. discriminate.
  - exists self'. split; [|split; [|split]].
    + apply Hrun; [discriminate|]. vm_compute. discriminate.
    + rewrite Hop by discriminate. vm_compute. reflexivity.
    + rewrite Hop by discriminate. vm_compute. reflexivity.
    + exact Hov.
Defined.

Lemma operator_route_incoming_spec_witness :
  wf example_funded
  /\ fst (route_incoming_rewards 50 1061 example_funded) = Ok tt.
Proof.
  split; [exact vault_example_funded_wf|].
  pose proof (operator_route_incoming_spec 50 1061 example_funded vault_example_funded_wf
    ltac:(discriminate) ltac:(vm_compute; discriminate)) as H. cbv zeta in H.
  destruct (route_incoming_rewards 50 1061 example_funded) as [r s]. destruct H as [_ H].
  exact (proj1 (H ltac:(vm_compute; discriminate))).
Defined.

Lemma operator_distributions_pay_once_witness :
  wf example_split /\ exists self', distribute_operator_rewards example_split = (Ok 100, self')
  /\ distribute_operator_rewards self' = (Ok 0, self').
Proof.
  split; [exact vault_example_split_wf|].
  destruct (operator_distributions_pay_once example_split vault_example_split_wf) as [(self' & Hd & _ & _ & H0 & _) _].
  exists self'. assert (operator_rewards example_split = 100) as E by (vm_compute; reflexivity). rewrite E in Hd.
  split; [exact Hd|exact H0].
Defined.
End OperatorVaultRewardRouter.
