(* ===== verification/Backing.v ===== *)
(** What a router owes: whatever is routed or paid, a router's claims stay
    covered by the rewards in transit, which only incoming rewards and payouts
    change. *)
From S2P Require Import Prelude Errors Precise Stake Fees Snapshots Voting Routes NcnRouter OperatorRouter.

(** ** Routers

    What both routers have: balances, the rewards in transit, and some slack,
    which is how much more of them is processed than is owed. *)
Class Router (R : Type) := {
  amounts : R -> Prop;
  transit : R -> Z;
  slack : R -> Z;
  in_transit : forall r, amounts r -> 0 <= slack r -> 0 <= transit r;
}.

Section moves.
Context {T : Type} {router : Router T}.

(** A successful run adds [t] to the transit and at least [d] to the slack. *)
Definition moves {E A} (t d : Z) (m : M T E A) : Prop :=
  forall r a r', m r = (Ok a, r') -> amounts r ->
    amounts r' /\ transit r' = transit r + t /\ slack r + d <= slack r'.

Lemma moves_bind {E A B} t1 d1 t2 d2 (m : M T E A) (k : A -> M T E B) :
  moves t1 d1 m -> (forall a, moves t2 d2 (k a)) -> moves (t1 + t2) (d1 + d2) (mbind m k).
Proof.
  intros Hm Hk r b r' (a & r1 & H1 & H2)%mbind_ok Hr. destruct (Hm _ _ _ H1 Hr) as (Hr1 & Ht1 & Hd1).
  destruct (Hk _ _ _ _ H2 Hr1) as (Hr2 & Ht2 & Hd2). split; [done|]. lia.
Qed.

Lemma moves_same {E A} d (m : M T E A) :
  (forall r a r', m r = (Ok a, r') -> amounts r -> amounts r' /\ transit r' = transit r /\ slack r + d <= slack r') ->
  moves 0 d m.
Proof. intros H r a r' Hm Hr. destruct (H _ _ _ Hm Hr) as (? & ? & ?). split; [done|]. lia. Qed.

Lemma moves_ret {E A} (a : A) : moves 0 0 (ret a : M T E A).
Proof. intros r b r' [= _ <-] Hr. split; [done|]. lia. Qed.
Lemma moves_throw {E A} t d (e : E) : moves t d (throw e : M T E A).
Proof. done. Qed.

Lemma moves_lift {E A B} t d (x : result E A) (k : A -> M T E B) :
  (forall a, x = Ok a -> moves t d (k a)) -> moves t d (mbind (lift x) k).
Proof.
  intros Hk r b r' H Hr. destruct x as [a|e|]; [|done..]. rewrite run_lift_Ok in H. by eapply Hk.
Qed.

Lemma moves_get {E B} t d (k : T -> M T E B) :
  (forall self, amounts self -> forall b r', k self self = (Ok b, r') ->
     amounts r' /\ transit r' = transit self + t /\ slack self + d <= slack r') -> moves t d (mbind get_self k).
Proof. intros Hk r b r' H Hr. rewrite run_get_self in H. by eapply Hk. Qed.

Lemma moves_get_all {E B} t d (k : T -> M T E B) :
  (forall self, amounts self -> moves t d (k self)) -> moves t d (mbind get_self k).
Proof. intros Hk. apply moves_get. intros self Hs b r' H. by eapply Hk. Qed.

(** A run after another one, with their sums. *)
Lemma moves_then {E A B} t1 d1 t d (m : M T E A) (k : A -> M T E B) :
  moves t1 d1 m -> (forall a, moves (t - t1) (d - d1) (k a)) -> moves t d (mbind m k).
Proof.
  intros Hm Hk. replace t with (t1 + (t - t1)) by lia. replace d with (d1 + (d - d1)) by lia.
  by apply moves_bind.
Qed.


Lemma moves_exactly {E A} t' d' t d (m : M T E A) : moves t' d' m -> t = t' -> d = d' -> moves t d m.
Proof. by intros H -> ->. Qed.
Lemma moves_keep {E} f : (forall r, amounts r -> amounts (f r)) -> (forall r, transit (f r) = transit r) ->
  (forall r, slack (f r) = slack r) -> moves 0 0 (modify f : M T E unit).
Proof. intros Ha Ht Hs r a r' [= _ <-] Hr. rewrite Ht, Hs. split; [by apply Ha|]. lia. Qed.

(** A payout: what it returns is what the rewards in transit lose. *)
Definition pays_out {E} (m : M T E Z) : Prop :=
  forall r n r', m r = (Ok n, r') -> amounts r ->
    0 <= n /\ amounts r' /\ transit r' = transit r - n /\ slack r <= slack r'.

Lemma add_to_ok (get : T -> Z) set n r u r' : add_to get set n r = (Ok u, r') -> r' = set (get r + n) r.
Proof. intros H. unfold add_to in H. by minv. Qed.
Lemma take_from_ok (get : T -> Z) set n r u r' :
  take_from get set n r = (Ok u, r') -> n <= get r /\ r' = set (get r - n) r.
Proof. intros H. unfold take_from in H. by minv. Qed.
End moves.

(** [moved]: through the primitive moves of a run, and [settle] their sums. *)
Ltac moved :=
  repeat first
    [ progress minv
    | match goal with
      | H : add_to _ _ _ _ = (Ok _, _) |- _ => apply add_to_ok in H
      | H : take_from _ _ _ _ = (Ok _, _) |- _ => apply take_from_ok in H as [? H]
      | H : (if ?b then _ else _) _ = (Ok _, _) |- _ => destruct b eqn:?
      end ]; subst.
Ltac settle :=
  match goal with H : amounts ?r |- _ => destruct H end; cbn -[sum_by] in *;
  split; [split; cbn -[sum_by] in *; first [done | lia | assumption]|]; lia.

Ltac settle_route Hf :=
  match goal with H : amounts ?r |- _ => destruct H end; cbn -[sum_by] in *;
  split; [split; cbn -[sum_by] in *; first [done | lia | assumption | apply Forall_insert; [done|cbn; lia]]|];
  rewrite ?(sum_by_insert _ _ _ _ _ Hf); cbn -[sum_by]; lia.

Lemma Forall_sum {A} (f : A -> Z) l : Forall (fun x => 0 <= f x) l -> 0 <= sum_by f l.
Proof. intros H. apply sum_by_nonneg. intros i x Hx. exact (Forall_lookup_1 _ _ _ _ H Hx). Qed.

Lemma try_u64_range n m : try_u64 n = Ok m -> 0 <= n -> 0 <= m.
Proof. unfold try_u64. destruct (n <=? u64_MAX); [|done]. by intros [= <-]. Qed.

(** [imprecise H]: a calculation is not negative, as it ends in an unsigned
    integer. *)
Ltac imprecise H :=
  minv; match goal with Hp : pn_to_imprecise _ = Some _ |- _ => apply pn_to_imprecise_range in Hp as [? _] end;
  eapply try_u64_range; eassumption.

(** ** The NCN's router *)
Module NcnBacking.
Import NCNRewardRouter.

Record balances (r : t) : Prop := {
  b_pool : 0 <= reward_pool r;
  b_protocol : 0 <= protocol_rewards r;
  b_ncn : 0 <= ncn_rewards r;
  b_operator_vault : 0 <= operator_vault_rewards r;
  b_routes : Forall (fun x => 0 <= OperatorVaultRewardRoute.rewards' x) (operator_vault_reward_routes r);
  b_resumable : still_routing r = true -> 0 <= last_vote_index r /\ 0 < last_rewards_to_process r;
}.

#[global] Instance router : Router t.
Proof.
  refine {|
    amounts := balances;
    transit r := reward_pool r + rewards_processed r;
    slack r := rewards_processed r
      - (protocol_rewards r + ncn_rewards r + operator_vault_rewards r
         + sum_by OperatorVaultRewardRoute.rewards' (operator_vault_reward_routes r));
  |}.
  intros r [] Hs. cbn -[sum_by] in *. pose proof (Forall_sum _ _ b_routes0). lia.
Defined.

Lemma moves_from_pool x : 0 <= x -> moves 0 x (route_from_reward_pool x).
Proof.
  intros Hx r a r' H Hr. unfold route_from_reward_pool, increment_rewards_processed in H. moved; settle.
Qed.
Lemma moves_to_protocol x : 0 <= x -> moves 0 (- x) (route_to_protocol x).
Proof. intros Hx r a r' H Hr. unfold route_to_protocol in H. moved; settle. Qed.
Lemma moves_to_ncn x : 0 <= x -> moves 0 (- x) (route_to_ncn x).
Proof. intros Hx r a r' H Hr. unfold route_to_ncn in H. moved; settle. Qed.
Lemma moves_to_operator_vault x : 0 <= x -> moves 0 (- x) (route_to_operator_vault x).
Proof. intros Hx r a r' H Hr. unfold route_to_operator_vault in H. moved; settle. Qed.
Lemma moves_from_operator_vault x : 0 <= x -> moves 0 x (route_from_operator_vault_rewards x).
Proof. intros Hx r a r' H Hr. unfold route_from_operator_vault_rewards in H. moved; settle. Qed.


Lemma moves_to_route o x : 0 <= x -> moves 0 (- x) (route_to_operator_vault_reward_route o x).
Proof.
  intros Hx r a r' H Hr. unfold route_to_operator_vault_reward_route in H.
  destruct (x =? 0) eqn:?; [moved; settle|]. rewrite run_get_self in H.
  destruct (find_index _ _) as [[i route]|] eqn:Hf; [|done]. apply find_index_lookup in Hf.
  pose proof (Forall_lookup_1 _ _ _ _ (b_routes _ Hr) Hf) as Hn. cbn in Hn.
  destruct (_ =? o).
  - apply zoom_at_ok in H as (y & y' & Hy & H & ->). rewrite Hf in Hy. injection Hy as <-.
    unfold OperatorVaultRewardRoute.increment_rewards, OperatorVaultRewardRoute.rewards,
      OperatorVaultRewardRoute.set_rewards in H. moved.
    settle_route Hf.
  - change (OperatorVaultRewardRoute.new o x) with (Ok (E := NCNProgramError.t) (OperatorVaultRewardRoute.mk o x)) in H.
    moved. settle_route Hf.
Qed.

Section calculations.
Context {P : PreciseNumber} {L : PreciseNumberLaws P}.

Lemma split_nonneg b n m : calculate_reward_split b n = Ok m -> 0 <= m.
Proof. unfold calculate_reward_split. destruct (_ || _); [by intros [= <-]|]. intros H. imprecise H. Qed.
Lemma operator_share_nonneg a b n m : calculate_operator_vault_route_reward a b n = Ok m -> 0 <= m.
Proof.
  unfold calculate_operator_vault_route_reward. destruct (_ || _); [by intros [= <-]|]. intros H. imprecise H.
Qed.

Lemma moves_votes b w n m l : 0 < n -> forall i j, moves 0 0 (route_votes b w n m l i j).
Proof.
  intros Hn. induction l as [|v l IH]; intros i j; cbn [route_votes]; [apply moves_ret|].
  destruct (_ =? b); [|apply IH]. apply moves_lift. intros k _. destruct (m <? k).
  - eapply (moves_then 0 0); [|intros; apply moves_ret]. apply moves_keep; [|done..].
    intros r []. split; [done..|]. intros _. split; [by apply Z.mod_pos_bound|done].
  - apply moves_lift. intros x Hx%operator_share_nonneg. eapply (moves_then 0 x); [by apply moves_from_operator_vault|].
    intros _. eapply (moves_then 0 (- x)); [by apply moves_to_route|]. intros _.
    replace (0 - 0 - 0) with 0 by lia. replace (0 - x - - x) with 0 by lia. apply IH.
Qed.

Lemma moves_route_pool fee : moves 0 0 (route_reward_pool fee).
Proof.
  unfold route_reward_pool. apply moves_get_all. intros self Hs. cbv zeta.
  apply moves_lift. intros b1 _. apply moves_lift. intros x1 H1%split_nonneg.
  eapply (moves_then 0 x1); [by apply moves_from_pool|]. intros _.
  eapply (moves_then 0 (- x1)); [by apply moves_to_protocol|]. intros _.
  apply moves_lift. intros b2 _. apply moves_lift. intros x2 H2%split_nonneg.
  eapply (moves_then 0 x2); [by apply moves_from_pool|]. intros _.
  eapply (moves_then 0 (- x2)); [by apply moves_to_ncn|]. intros _.
  apply moves_get_all. intros self' Hs'. pose proof (b_pool _ Hs') as H3.
  eapply (moves_then 0 (reward_pool self')); [by apply moves_from_pool|]. intros _.
  eapply moves_exactly; [by apply moves_to_operator_vault| |]; lia.
Qed.

Lemma moves_route_operator_vault box m : moves 0 0 (route_operator_vault_rewards box m).
Proof.
  unfold route_operator_vault_rewards. apply moves_lift. intros b _. apply moves_get_all. intros self Hs.
  destruct (resume_routing_state self) as [i n]. cbv zeta.
  match goal with |- moves _ _ (if ?x =? 0 then _ else _) => destruct (Z.eqb_spec x 0); [apply moves_ret|] end.
  eapply (moves_then 0 0); [apply moves_votes; pose proof (b_operator_vault _ Hs); destruct (Z.ltb_spec 0 n); lia|]. intros [|]; [apply moves_ret|].
  apply moves_get_all. intros self' Hs'. pose proof (b_operator_vault _ Hs') as Hn.
  eapply (moves_then 0 (operator_vault_rewards self')); [by apply moves_from_operator_vault|]. intros _.
  eapply (moves_then 0 (- operator_vault_rewards self')); [by apply moves_to_ncn|]. intros _.
  eapply moves_exactly; [apply moves_keep; [intros r []; by split|done|done]| |]; lia.
Qed.
End calculations.

(** Rewards that arrive: afterwards all of the balance but the rent is in
    transit. *)
Lemma incoming rent bal r u r' : route_incoming_rewards rent bal r = (Ok u, r') -> amounts r ->
  amounts r' /\ slack r' = slack r /\ transit r' = bal - rent.
Proof.
  intros H Hr. unfold route_incoming_rewards, total_rewards_in_transit, route_to_reward_pool in H. moved; settle.
Qed.

Lemma ncn_fee_pays : pays_out distribute_ncn_fee_rewards.
Proof.
  intros r n r' H Hr. pose proof (b_ncn _ Hr). unfold distribute_ncn_fee_rewards, decrement_rewards_processed in H.
  moved; (split; [done|]); settle.
Qed.
Lemma protocol_fee_pays : pays_out distribute_protocol_fee_rewards.
Proof.
  intros r n r' H Hr. pose proof (b_protocol _ Hr).
  unfold distribute_protocol_fee_rewards, decrement_rewards_processed in H. moved; (split; [done|]); settle.
Qed.
Lemma operator_route_pays o : pays_out (distribute_operator_vault_reward_route o).
Proof.
  intros r n r' H Hr. unfold distribute_operator_vault_reward_route in H. rewrite run_get_self in H.
  destruct (find_index _ _) as [[i route]|] eqn:Hf; [|done]. apply find_index_lookup in Hf.
  pose proof (Forall_lookup_1 _ _ _ _ (b_routes _ Hr) Hf) as Hn. cbn in Hn.
  unfold decrement_rewards_processed in H. apply mbind_ok in H as (x & s0 & Hx & H). injection Hx as <- <-.
  apply mbind_ok in H as (u & s & Hz & H). apply zoom_at_ok in Hz as (y & y' & Hy & Hd & ->).
  rewrite Hf in Hy. injection Hy as <-.
  unfold OperatorVaultRewardRoute.decrement_rewards, OperatorVaultRewardRoute.rewards,
    OperatorVaultRewardRoute.set_rewards in Hd. moved; (split; [done|]); settle_route Hf.
Qed.

(** A new router owes nothing. *)
Lemma initialized_owes_nothing n e b slot r :
  amounts (initialize n e b slot r) /\ slack (initialize n e b slot r) = 0 /\ transit (initialize n e b slot r) = 0.
Proof. split; [|done]. split; try done. by apply Forall_replicate. Qed.
End NcnBacking.

(** ** The operators' routers *)
Module OperatorBacking.
Import OperatorVaultRewardRouter.

Record balances (r : t) : Prop := {
  b_pool : 0 <= reward_pool r;
  b_operator : 0 <= operator_rewards r;
  b_routes : Forall (fun x => 0 <= VaultRewardRoute.rewards x) (vault_reward_routes r);
  b_resumable : still_routing r = true -> 0 <= last_vault_operator_delegation_index r /\ 0 < last_rewards_to_process r;
}.

#[global] Instance router : Router t.
Proof.
  refine {|
    amounts := balances;
    transit r := reward_pool r + rewards_processed r;
    slack r := rewards_processed r
      - (operator_rewards r + sum_by VaultRewardRoute.rewards (vault_reward_routes r));
  |}.
  intros r [] Hs. cbn -[sum_by] in *. pose proof (Forall_sum _ _ b_routes0). lia.
Defined.

Lemma operator_moves_from_pool x : 0 <= x -> moves 0 x (route_from_reward_pool x).
Proof.
  intros Hx r a r' H Hr. unfold route_from_reward_pool, increment_rewards_processed in H. moved; settle.
Qed.
Lemma moves_to_operator x : 0 <= x -> moves 0 (- x) (route_to_operator_rewards x).
Proof. intros Hx r a r' H Hr. unfold route_to_operator_rewards in H. moved; settle. Qed.

Lemma operator_moves_to_route v x : 0 <= x -> moves 0 (- x) (route_to_vault_reward_route v x).
Proof.
  intros Hx r a r' H Hr. unfold route_to_vault_reward_route in H.
  destruct (x =? 0) eqn:?; [moved; settle|]. rewrite run_get_self in H.
  destruct (find_index _ _) as [[i route]|] eqn:Hf; [|clear Hf; destruct (find_index _ _) as [[i route]|] eqn:Hf; [|done]];
    apply find_index_lookup in Hf;
    pose proof (Forall_lookup_1 _ _ _ _ (b_routes _ Hr) Hf) as Hn; cbn in Hn.
  - apply mbind_ok in H as (u & s & Hz & H). apply zoom_at_ok in Hz as (y & y' & Hy & Hi & ->).
    rewrite Hf in Hy. injection Hy as <-.
    unfold VaultRewardRoute.increment_rewards, VaultRewardRoute.set_rewards in Hi. moved.
    settle_route Hf.
  - change (VaultRewardRoute.new v x) with (Ok (E := NCNProgramError.t) (VaultRewardRoute.mk v x)) in H.
    moved. settle_route Hf.
Qed.

Section calculations.
Context {P : PreciseNumber} {L : PreciseNumberLaws P} (MAX_BPS : u16).

Lemma fee_nonneg b n m : calculate_operator_reward MAX_BPS b n = Ok m -> 0 <= m.
Proof. unfold calculate_operator_reward. destruct (_ || _); [by intros [= <-]|]. intros H. imprecise H. Qed.
Lemma vault_share_nonneg a b n m : calculate_vault_reward a b n = Ok m -> 0 <= m.
Proof. unfold calculate_vault_reward. destruct (_ || _); [by intros [= <-]|]. intros H. imprecise H. Qed.

Lemma moves_vaults w n m l : 0 < n -> forall i j, moves 0 0 (route_vaults w n m l i j).
Proof.
  intros Hn. induction l as [|v l IH]; intros i j; cbn [route_vaults]; [apply moves_ret|].
  apply moves_lift. intros k _. destruct (m <? k).
  - eapply (moves_then 0 0); [|intros; apply moves_ret]. apply moves_keep; [|done..].
    intros r []. split; [done..|]. intros _. split; [by apply Z.mod_pos_bound|done].
  - cbv zeta. apply moves_lift. intros x Hx%vault_share_nonneg.
    eapply (moves_then 0 x); [by apply operator_moves_from_pool|].
    intros _. eapply (moves_then 0 (- x)); [by apply operator_moves_to_route|]. intros _.
    replace (0 - 0 - 0) with 0 by lia. replace (0 - x - - x) with 0 by lia. apply IH.
Qed.

Lemma moves_route_operator snapshot : moves 0 0 (route_operator_rewards MAX_BPS snapshot).
Proof.
  unfold route_operator_rewards. apply moves_get_all. intros self Hs. cbv zeta.
  apply moves_lift. intros x Hx%fee_nonneg.
  eapply (moves_then 0 x); [by apply operator_moves_from_pool|]. intros _.
  eapply moves_exactly; [by apply moves_to_operator| |]; lia.
Qed.

Lemma operator_moves_route_pool snapshot m : moves 0 0 (route_reward_pool snapshot m).
Proof.
  unfold route_reward_pool. apply moves_get_all. intros self Hs. cbv zeta.
  destruct (resume_routing_state _ self) as [n i] eqn:Er. destruct (Z.eqb_spec n 0); [apply moves_ret|].
  assert (0 < n).
  { unfold resume_routing_state in Er. pose proof (b_pool _ Hs). pose proof (b_resumable _ Hs).
    destruct (still_routing self); injection Er as <- <-; [tauto|lia]. }
  eapply (moves_then 0 0); [by apply moves_vaults|]. intros [|]; [apply moves_ret|].
  eapply (moves_then 0 0); [apply moves_keep; [intros r []; by split|done|done]|]. intros _.
  apply moves_get_all. intros self' Hs'. pose proof (b_pool _ Hs') as Hn.
  eapply (moves_then 0 (reward_pool self')); [by apply operator_moves_from_pool|]. intros _.
  eapply (moves_then 0 (- reward_pool self')); [by apply moves_to_operator|]. intros _.
  eapply moves_exactly; [apply moves_ret| |]; lia.
Qed.
End calculations.

Lemma operator_incoming rent bal r u r' : route_incoming_rewards rent bal r = (Ok u, r') -> amounts r ->
  amounts r' /\ slack r' = slack r /\ transit r' = bal - rent.
Proof.
  intros H Hr. unfold route_incoming_rewards, total_rewards_in_transit, route_to_reward_pool in H. moved; settle.
Qed.

Lemma operator_fee_pays : pays_out distribute_operator_rewards.
Proof.
  intros r n r' H Hr. pose proof (b_operator _ Hr). unfold distribute_operator_rewards, decrement_rewards_processed in H.
  moved; (split; [done|]); settle.
Qed.
Lemma vault_route_pays v : pays_out (distribute_vault_reward_route v).
Proof.
  intros r n r' H Hr. unfold distribute_vault_reward_route in H. rewrite run_get_self in H.
  destruct (find_index _ _) as [[i route]|] eqn:Hf; [|done]. apply find_index_lookup in Hf.
  pose proof (Forall_lookup_1 _ _ _ _ (b_routes _ Hr) Hf) as Hn. cbn in Hn.
  unfold decrement_rewards_processed in H. cbv zeta in H.
  apply mbind_ok in H as (u & s & Hz & H). apply zoom_at_ok in Hz as (y & y' & Hy & Hd & ->).
  rewrite Hf in Hy. injection Hy as <-.
  unfold VaultRewardRoute.decrement_rewards, VaultRewardRoute.set_rewards in Hd.
  moved; (split; [done|]); settle_route Hf.
Qed.

(** A new router owes nothing. *)
Lemma new_owes_nothing o i n e b slot :
  amounts (new o i n e b slot) /\ slack (new o i n e b slot) = 0 /\ transit (new o i n e b slot) = 0.
Proof. split; [|done]. split; try done. by apply Forall_replicate. Qed.
End OperatorBacking.
