(* ===== verification/Consensus.v ===== *)
(** The record of an epoch's outcome ([core/src/consensus_result.rs]) and the
    NCN's configuration ([core/src/config.rs]). *)
From S2P Require Import Prelude Errors Fees.

Module ConsensusResult.
Record t := mk {
  ncn : Pubkey;
  epoch : u64;
  vote_weight : u64;
  total_vote_weight : u64;
  consensus_slot : u64;
  bump : u8;
  weather_status : u8;
}.
#[global] Instance eta_t : Eta t := fun r =>
  mk (ncn r) (epoch r) (vote_weight r) (total_vote_weight r) (consensus_slot r) (bump r) (weather_status r).

Definition new (ncn : Pubkey) (epoch : u64) (bump : u8) : t := mk ncn epoch 0 0 0 bump 0.

Definition is_consensus_reached (self : t) : bool := negb (consensus_slot self =? 0).

Definition record_consensus (status : u8) (weight total slot : u64) : M t NCNProgramError.t unit :=
  let* self := get_self in
  if is_consensus_reached self then modify (put vote_weight weight)
  else
    let* _ := modify (put weather_status status) in
    let* _ := modify (put vote_weight weight) in
    let* _ := modify (put total_vote_weight total) in
    modify (put consensus_slot slot).

Definition initialize (n : Pubkey) (e : u64) (b : u8) : M t ProgramError.t unit :=
  let* _ := modify (put ncn n) in
  let* _ := modify (put epoch e) in
  let* _ := modify (put bump b) in
  let* _ := modify (put weather_status 0) in
  let* _ := modify (put vote_weight 0) in
  let* _ := modify (put total_vote_weight 0) in
  modify (put consensus_slot 0).

(** ** Properties *)

Lemma record_consensus_run status weight total slot self :
  record_consensus status weight total slot self =
  (Ok tt, if is_consensus_reached self then self <| vote_weight := weight |>
          else mk (ncn self) (epoch self) weight total slot (bump self) status).
Proof. unfold record_consensus. rewrite run_get_self. by destruct (is_consensus_reached self). Qed.

(** A call of [record_consensus]. *)
Record call := Call { c_status : u8; c_weight : u64; c_total : u64; c_slot : u64 }.
Definition record_all (calls : list call) : M t NCNProgramError.t unit :=
  foldr (fun c k => let* _ := record_consensus (c_status c) (c_weight c) (c_total c) (c_slot c) in k)
    (ret tt) calls.

Lemma last_default (w d d' : Z) l : List.last (w :: l) d = List.last (w :: l) d'.
Proof. revert w. induction l as [|x l IH]; intros w; [done|exact (IH x)]. Qed.

Lemma record_reached calls self : is_consensus_reached self = true ->
  record_all calls self =
  (Ok tt, self <| vote_weight := List.last (map c_weight calls) (vote_weight self) |>).
Proof.
  revert self. induction calls as [|c calls IH]; intros self H; [by destruct self|].
  cbn [record_all foldr]. fold (record_all calls).
  erewrite mbind_eq_ok; [|apply record_consensus_run]. rewrite H, IH by done.
  cbn [map]. destruct calls as [|c' calls]; [done|].
  change (List.last (c_weight c :: map c_weight (c' :: calls)) (vote_weight self))
    with (List.last (map c_weight (c' :: calls)) (vote_weight self)).
  cbn [map]. by rewrite (last_default _ (vote_weight self)
    (vote_weight (self <| vote_weight := c_weight c |>))).
Qed.

(** The record of an epoch keeps its first outcome. Whatever sequence of
    calls with positive slots follows [initialize], the status, the total weight
    and the slot are those of the first call, and the winner's weight is that of
    the last one; nothing is recorded before the first call. *)
Theorem first_outcome_is_kept n e b old calls :
  Forall (fun c => 0 < c_slot c) calls ->
  exists self, record_all calls (snd (initialize n e b old)) = (Ok tt, self)
  /\ ncn self = n /\ epoch self = e /\ bump self = b
  /\ match calls with
     | [] => is_consensus_reached self = false
     | c :: _ =>
         is_consensus_reached self = true
         /\ weather_status self = c_status c /\ total_vote_weight self = c_total c
         /\ consensus_slot self = c_slot c
         /\ vote_weight self = List.last (map c_weight calls) 0
     end.
Proof.
  intros Hc. destruct calls as [|c calls]; [by eexists|].
  assert (0 < c_slot c) as Hs by by inversion Hc.
  assert (is_consensus_reached (mk n e (c_weight c) (c_total c) (c_slot c) b (c_status c)) = true) as Hr.
  { unfold is_consensus_reached. cbn. destruct (c_slot c =? 0) eqn:E; [lia|done]. }
  eexists. cbn [record_all foldr]. fold (record_all calls).
  erewrite mbind_eq_ok; [|apply record_consensus_run].
  change (if is_consensus_reached _ then _ else _)
    with (mk n e (c_weight c) (c_total c) (c_slot c) b (c_status c)).
  rewrite record_reached by done. split; [done|]. split_and!; try done.
  cbn [map vote_weight over]. destruct (map c_weight calls) as [|w l]; [done|].
  change (List.last (w :: l) (c_weight c) = List.last (w :: l) 0). apply last_default.
Qed.

Lemma first_outcome_is_kept_witness :
  exists self, record_all [Call 1 60 90 100; Call 2 80 95 110] (snd (initialize 7 5 255 (new 0 0 0))) = (Ok tt, self)
  /\ weather_status self = 1 /\ vote_weight self = 80 /\ consensus_slot self = 100.
Proof.
  destruct (first_outcome_is_kept 7 5 255 (new 0 0 0) [Call 1 60 90 100; Call 2 80 95 110])
    as (self & Hr & _ & _ & _ & _ & Hs & _ & Hc & Hw).
  - repeat constructor.
  - exists self. split; [exact Hr|]. split; [exact Hs|]. split; [exact Hw|exact Hc].
Defined.
End ConsensusResult.

Module ConfigAdminRole.
Inductive t := TieBreakerAdmin.
End ConfigAdminRole.

Module Config.
Record t := mk {
  ncn : Pubkey;
  tie_breaker_admin : Pubkey;
  valid_slots_after_consensus : u64;
  epochs_before_stall : u64;
  epochs_after_consensus_before_close : u64;
  starting_valid_epoch : u64;
  fee_config : FeeConfig.t;
  bump : u8;
}.
#[global] Instance eta_t : Eta t := fun c =>
  mk (ncn c) (tie_breaker_admin c) (valid_slots_after_consensus c) (epochs_before_stall c)
     (epochs_after_consensus_before_close c) (starting_valid_epoch c) (fee_config c) (bump c).

Definition new (ncn tie_breaker_admin : Pubkey) (starting_valid_epoch valid_slots_after_consensus
    epochs_before_stall epochs_after_consensus_before_close : u64) (fee_config : FeeConfig.t)
    (bump : u8) : t :=
  mk ncn tie_breaker_admin valid_slots_after_consensus epochs_before_stall
     epochs_after_consensus_before_close starting_valid_epoch fee_config bump.
End Config.
