(* ===== verification/Accounts.v ===== *)
(** Accounts as the program sees them ([core/src/loaders.rs],
    [discriminators.rs], [utils.rs] and the [seeds]/[load] functions of every
    account type): how each account's address is derived and what is checked
    before an account is trusted. *)
From Stdlib Require Import Strings.String Strings.Ascii.
From stdpp Require Import countable.
From S2P Require Import Prelude Errors Precise Stake Snapshots Voting.

(** ** Account data

    The runtime hands the program a reference to the account's bytes; what the
    checks read of them is their number and the first one. *)
Class AccountData (D : Type) := {
  data_len : D -> usize;
  data_byte0 : D -> u8;
}.

Module AccountInfo.
Section account.
Context {D : Type}.
Record t := mk {
  key : Pubkey;
  owner : Pubkey;
  lamports : u64;
  is_signer : bool;
  is_writable : bool;
  data : D;
}.
Definition data_is_empty `{AccountData D} (a : t) : bool := data_len (data a) =? 0.
End account.
Arguments t : clear implicits.
End AccountInfo.

Module Discriminators.
Inductive t :=
| Config | VaultRegistry | WeightTable | EpochSnapshot | OperatorSnapshot | BallotBox
| ConsensusResult | NCNRewardRouter | OperatorVaultRewardRouter | EpochState | EpochMarker.
(** [d as u8]. *)
Definition as_u8 (d : t) : u8 :=
  match d with
  | Config => 0x01
  | VaultRegistry => 0x02
  | WeightTable => 0x10
  | EpochSnapshot => 0x11
  | OperatorSnapshot => 0x12
  | BallotBox => 0x20
  | ConsensusResult => 0x21
  | NCNRewardRouter => 0x40
  | OperatorVaultRewardRouter => 0x41
  | EpochState => 0x50
  | EpochMarker => 0x51
  end.
End Discriminators.

(** [Pubkey::find_program_address], which hashes the concatenated seeds with the
    program's id, and [system_program::id()]. *)
Class Runtime := {
  find_pda : list (list u8) -> Pubkey -> Pubkey * u8;
  system_program_id : Pubkey;
}.

(** [b"..."] as bytes. *)
Fixpoint seed (s : string) : list u8 :=
  match s with
  | EmptyString => []
  | String c s' => Z.of_nat (nat_of_ascii c) :: seed s'
  end.

Section loaders.
Context {D : Type} {data : AccountData D} {runtime : Runtime}.
Import ProgramError.

Definition check_load (program_id : Pubkey) (account : AccountInfo.t D) (expected_pda : Pubkey)
    (expected_discriminator : option u8) (expect_writable : bool) : result ProgramError.t unit :=
  if negb (AccountInfo.owner account =? program_id) then Err InvalidAccountOwner
  else if negb (AccountInfo.key account =? expected_pda) then Err InvalidAccountData
  else
    let? _ :=
      match expected_discriminator with
      | Some discriminator =>
          if AccountInfo.data_is_empty account then Err InvalidAccountData
          else if negb (data_byte0 (AccountInfo.data account) =? discriminator)
          then Err InvalidAccountData
          else Ok tt
      | None => Ok tt
      end in
    if expect_writable && negb (AccountInfo.is_writable account) then Err InvalidAccountData
    else Ok tt.

(** [epoch_length] is the restaking configuration's, read from its account. *)
Definition load_ncn_epoch (epoch_length : result ProgramError.t u64) (current_slot : u64)
    (first_slot_of_ncn_epoch : option u64) : result ProgramError.t (u64 * u64) :=
  let? ncn_epoch_length := epoch_length in
  let? current_ncn_epoch :=
    into (ok_or (checked_div current_slot ncn_epoch_length) NCNProgramError.DenominatorIsZero) in
  let ncn_epoch_slot := match first_slot_of_ncn_epoch with Some s => s | None => current_slot end in
  let? ncn_epoch :=
    into (ok_or (checked_div ncn_epoch_slot ncn_epoch_length) NCNProgramError.DenominatorIsZero) in
  if current_ncn_epoch <? ncn_epoch
  then Err (from_ncn NCNProgramError.CannotCreateFutureWeightTables)
  else Ok (ncn_epoch, ncn_epoch_length).

(** [usize] is 64 bits wide on the runtime. *)
Definition get_new_size (current_size target_size : usize) : result ProgramError.t usize :=
  let? n := ok_or (checked_add u64_MAX current_size MAX_REALLOC_BYTES) ProgramError.ArithmeticOverflow in
  Ok (Z.min n target_size).

Definition can_operator_vote (ballot_box : BallotBox.t) (operator_snapshot : OperatorSnapshot.t)
    (operator : Pubkey) : bool :=
  if BallotBox.did_operator_vote operator ballot_box then false
  else
    let stake_weight := StakeWeights.stake_weight (OperatorSnapshot.stake_weights operator_snapshot) in
    if stake_weight =? 0 then false else true.
End loaders.

(** ** Addresses

    One module per account type: its seeds, its address and its load check. *)

Module ConfigAccount.
Section account.
Context {D : Type} {data : AccountData D} {runtime : Runtime}.
Import ProgramError.

Definition DISCRIMINATOR : u8 := Discriminators.as_u8 Discriminators.Config.
Definition seeds (ncn : Pubkey) : list (list u8) :=
  [seed "config"; to_bytes ncn].
Definition find_program_address (program_id : Pubkey) (ncn : Pubkey)
    : Pubkey * u8 * list (list u8) :=
  let seeds := seeds ncn in
  let '(pda, bump) := find_pda seeds program_id in
  (pda, bump, seeds).
Definition load (program_id : Pubkey) (account : AccountInfo.t D) (ncn : Pubkey)
    (expect_writable : bool) : result ProgramError.t unit :=
  let expected_pda := (find_program_address program_id ncn).1.1 in
  check_load program_id account expected_pda (Some DISCRIMINATOR) expect_writable.
End account.
End ConfigAccount.

Module VaultRegistryAccount.
Section account.
Context {D : Type} {data : AccountData D} {runtime : Runtime}.
Import ProgramError.

Definition DISCRIMINATOR : u8 := Discriminators.as_u8 Discriminators.VaultRegistry.
Definition seeds (ncn : Pubkey) : list (list u8) :=
  [seed "vault_registry"; to_bytes ncn].
Definition find_program_address (program_id : Pubkey) (ncn : Pubkey)
    : Pubkey * u8 * list (list u8) :=
  let seeds := seeds ncn in
  let '(pda, bump) := find_pda seeds program_id in
  (pda, bump, seeds).
Definition load (program_id : Pubkey) (account : AccountInfo.t D) (ncn : Pubkey)
    (expect_writable : bool) : result ProgramError.t unit :=
  let expected_pda := (find_program_address program_id ncn).1.1 in
  check_load program_id account expected_pda (Some DISCRIMINATOR) expect_writable.
End account.
End VaultRegistryAccount.

Module WeightTableAccount.
Section account.
Context {D : Type} {data : AccountData D} {runtime : Runtime}.
Import ProgramError.

Definition DISCRIMINATOR : u8 := Discriminators.as_u8 Discriminators.WeightTable.
Definition seeds (ncn : Pubkey) (epoch : u64) : list (list u8) :=
  [seed "weight_table"; to_bytes ncn; to_le_bytes 8 epoch].
Definition find_program_address (program_id : Pubkey) (ncn : Pubkey) (epoch : u64)
    : Pubkey * u8 * list (list u8) :=
  let seeds := seeds ncn epoch in
  let '(pda, bump) := find_pda seeds program_id in
  (pda, bump, seeds).
Definition load (program_id : Pubkey) (account : AccountInfo.t D) (ncn : Pubkey) (epoch : u64)
    (expect_writable : bool) : result ProgramError.t unit :=
  let expected_pda := (find_program_address program_id ncn epoch).1.1 in
  check_load program_id account expected_pda (Some DISCRIMINATOR) expect_writable.
Definition load_to_close (program_id : Pubkey) (account_to_close : AccountInfo.t D) (ncn : Pubkey)
    (epoch : u64) : result ProgramError.t unit :=
  load program_id account_to_close ncn epoch true.
End account.
End WeightTableAccount.

Module EpochSnapshotAccount.
Section account.
Context {D : Type} {data : AccountData D} {runtime : Runtime}.
Import ProgramError.

Definition DISCRIMINATOR : u8 := Discriminators.as_u8 Discriminators.EpochSnapshot.
Definition seeds (ncn : Pubkey) (epoch : u64) : list (list u8) :=
  [seed "epoch_snapshot"; to_bytes ncn; to_le_bytes 8 epoch].
Definition find_program_address (program_id : Pubkey) (ncn : Pubkey) (epoch : u64)
    : Pubkey * u8 * list (list u8) :=
  let seeds := seeds ncn epoch in
  let '(pda, bump) := find_pda seeds program_id in
  (pda, bump, seeds).
Definition load (program_id : Pubkey) (account : AccountInfo.t D) (ncn : Pubkey) (epoch : u64)
    (expect_writable : bool) : result ProgramError.t unit :=
  let expected_pda := (find_program_address program_id ncn epoch).1.1 in
  check_load program_id account expected_pda (Some DISCRIMINATOR) expect_writable.
Definition load_to_close (program_id : Pubkey) (account_to_close : AccountInfo.t D) (ncn : Pubkey)
    (epoch : u64) : result ProgramError.t unit :=
  load program_id account_to_close ncn epoch true.
End account.
End EpochSnapshotAccount.

Module OperatorSnapshotAccount.
Section account.
Context {D : Type} {data : AccountData D} {runtime : Runtime}.
Import ProgramError.

Definition DISCRIMINATOR : u8 := Discriminators.as_u8 Discriminators.OperatorSnapshot.
Definition seeds (operator ncn : Pubkey) (epoch : u64) : list (list u8) :=
  [seed "operator_snapshot"; to_bytes operator; to_bytes ncn; to_le_bytes 8 epoch].
Definition find_program_address (program_id : Pubkey) (operator ncn : Pubkey) (epoch : u64)
    : Pubkey * u8 * list (list u8) :=
  let seeds := seeds operator ncn epoch in
  let '(pda, bump) := find_pda seeds program_id in
  (pda, bump, seeds).
Definition load (program_id : Pubkey) (account : AccountInfo.t D) (operator ncn : Pubkey) (epoch : u64)
    (expect_writable : bool) : result ProgramError.t unit :=
  let expected_pda := (find_program_address program_id operator ncn epoch).1.1 in
  check_load program_id account expected_pda (Some DISCRIMINATOR) expect_writable.
(** [operator] is that of the struct read from the account's data. *)
Definition load_to_close (program_id : Pubkey) (account_to_close : AccountInfo.t D)
    (operator : result ProgramError.t Pubkey) (ncn : Pubkey) (epoch : u64) : result ProgramError.t unit :=
  let? operator := operator in
  load program_id account_to_close operator ncn epoch true.
End account.
End OperatorSnapshotAccount.

Module BallotBoxAccount.
Section account.
Context {D : Type} {data : AccountData D} {runtime : Runtime}.
Import ProgramError.

Definition DISCRIMINATOR : u8 := Discriminators.as_u8 Discriminators.BallotBox.
Definition seeds (ncn : Pubkey) (epoch : u64) : list (list u8) :=
  [seed "ballot_box"; to_bytes ncn; to_le_bytes 8 epoch].
Definition find_program_address (program_id : Pubkey) (ncn : Pubkey) (epoch : u64)
    : Pubkey * u8 * list (list u8) :=
  let seeds := seeds ncn epoch in
  let '(pda, bump) := find_pda seeds program_id in
  (pda, bump, seeds).
Definition load (program_id : Pubkey) (account : AccountInfo.t D) (ncn : Pubkey) (epoch : u64)
    (expect_writable : bool) : result ProgramError.t unit :=
  let expected_pda := (find_program_address program_id ncn epoch).1.1 in
  check_load program_id account expected_pda (Some DISCRIMINATOR) expect_writable.
Definition load_to_close (program_id : Pubkey) (account_to_close : AccountInfo.t D) (ncn : Pubkey)
    (epoch : u64) : result ProgramError.t unit :=
  load program_id account_to_close ncn epoch true.
End account.
End BallotBoxAccount.

Module ConsensusResultAccount.
Section account.
Context {D : Type} {data : AccountData D} {runtime : Runtime}.
Import ProgramError.

Definition DISCRIMINATOR : u8 := Discriminators.as_u8 Discriminators.ConsensusResult.
Definition seeds (ncn : Pubkey) (epoch : u64) : list (list u8) :=
  [seed "consensus-result"; to_bytes ncn; to_le_bytes 8 epoch].
Definition find_program_address (program_id : Pubkey) (ncn : Pubkey) (epoch : u64)
    : Pubkey * u8 * list (list u8) :=
  let seeds := seeds ncn epoch in
  let '(pda, bump) := find_pda seeds program_id in
  (pda, bump, seeds).
Definition load (program_id : Pubkey) (account : AccountInfo.t D) (ncn : Pubkey) (epoch : u64)
    (expect_writable : bool) : result ProgramError.t unit :=
  let expected_pda := (find_program_address program_id ncn epoch).1.1 in
  check_load program_id account expected_pda (Some DISCRIMINATOR) expect_writable.
End account.
End ConsensusResultAccount.

Module NCNRewardRouterAccount.
Section account.
Context {D : Type} {data : AccountData D} {runtime : Runtime}.
Import ProgramError.

Definition DISCRIMINATOR : u8 := Discriminators.as_u8 Discriminators.NCNRewardRouter.
Definition seeds (ncn : Pubkey) (epoch : u64) : list (list u8) :=
  [seed "ncn_reward_router"; to_bytes ncn; to_le_bytes 8 epoch].
Definition find_program_address (program_id : Pubkey) (ncn : Pubkey) (epoch : u64)
    : Pubkey * u8 * list (list u8) :=
  let seeds := seeds ncn epoch in
  let '(pda, bump) := find_pda seeds program_id in
  (pda, bump, seeds).
Definition load (program_id : Pubkey) (account : AccountInfo.t D) (ncn : Pubkey) (epoch : u64)
    (expect_writable : bool) : result ProgramError.t unit :=
  let expected_pda := (find_program_address program_id ncn epoch).1.1 in
  check_load program_id account expected_pda (Some DISCRIMINATOR) expect_writable.
Definition load_to_close (program_id : Pubkey) (account_to_close : AccountInfo.t D) (ncn : Pubkey)
    (epoch : u64) : result ProgramError.t unit :=
  load program_id account_to_close ncn epoch true.
End account.
End NCNRewardRouterAccount.

Module NCNRewardReceiver.
Section account.
Context {D : Type} {data : AccountData D} {runtime : Runtime}.
Import ProgramError.

Definition seeds (ncn : Pubkey) (epoch : u64) : list (list u8) :=
  [seed "ncn_reward_receiver"; to_bytes ncn; to_le_bytes 8 epoch].
Definition find_program_address (program_id : Pubkey) (ncn : Pubkey) (epoch : u64)
    : Pubkey * u8 * list (list u8) :=
  let seeds := seeds ncn epoch in
  let '(pda, bump) := find_pda seeds program_id in
  (pda, bump, seeds).
Definition load (program_id : Pubkey) (account : AccountInfo.t D) (ncn : Pubkey) (epoch : u64)
    (expect_writable : bool) : result ProgramError.t unit :=
  let expected_pda := (find_program_address program_id ncn epoch).1.1 in
  check_load system_program_id account expected_pda None expect_writable.
Definition load_to_close (program_id : Pubkey) (account_to_close : AccountInfo.t D) (ncn : Pubkey)
    (epoch : u64) : result ProgramError.t unit :=
  load program_id account_to_close ncn epoch true.
End account.
End NCNRewardReceiver.

Module OperatorVaultRewardRouterAccount.
Section account.
Context {D : Type} {data : AccountData D} {runtime : Runtime}.
Import ProgramError.

Definition DISCRIMINATOR : u8 := Discriminators.as_u8 Discriminators.OperatorVaultRewardRouter.
Definition seeds (operator ncn : Pubkey) (epoch : u64) : list (list u8) :=
  [seed "operator_vault_reward_route"; to_bytes operator; to_bytes ncn; to_le_bytes 8 epoch].
Definition find_program_address (program_id : Pubkey) (operator ncn : Pubkey) (epoch : u64)
    : Pubkey * u8 * list (list u8) :=
  let seeds := seeds operator ncn epoch in
  let '(pda, bump) := find_pda seeds program_id in
  (pda, bump, seeds).
Definition load (program_id : Pubkey) (account : AccountInfo.t D) (operator ncn : Pubkey) (epoch : u64)
    (expect_writable : bool) : result ProgramError.t unit :=
  let expected_pda := (find_program_address program_id operator ncn epoch).1.1 in
  check_load program_id account expected_pda (Some DISCRIMINATOR) expect_writable.
(** [operator] is that of the struct read from the account's data. *)
Definition load_to_close (program_id : Pubkey) (account_to_close : AccountInfo.t D)
    (operator : result ProgramError.t Pubkey) (ncn : Pubkey) (epoch : u64) : result ProgramError.t unit :=
  let? operator := operator in
  load program_id account_to_close operator ncn epoch true.
End account.
End OperatorVaultRewardRouterAccount.

Module OperatorVaultRewardReceiver.
Section account.
Context {D : Type} {data : AccountData D} {runtime : Runtime}.
Import ProgramError.

Definition seeds (operator ncn : Pubkey) (epoch : u64) : list (list u8) :=
  [seed "operator_vault_reward_receiver"; to_bytes operator; to_bytes ncn; to_le_bytes 8 epoch].
Definition find_program_address (program_id : Pubkey) (operator ncn : Pubkey) (epoch : u64)
    : Pubkey * u8 * list (list u8) :=
  let seeds := seeds operator ncn epoch in
  let '(pda, bump) := find_pda seeds program_id in
  (pda, bump, seeds).
Definition load (program_id : Pubkey) (account : AccountInfo.t D) (operator ncn : Pubkey) (epoch : u64)
    (expect_writable : bool) : result ProgramError.t unit :=
  let expected_pda := (find_program_address program_id operator ncn epoch).1.1 in
  check_load system_program_id account expected_pda None expect_writable.
End account.
End OperatorVaultRewardReceiver.

Module EpochStateAccount.
Section account.
Context {D : Type} {data : AccountData D} {runtime : Runtime}.
Import ProgramError.

Definition DISCRIMINATOR : u8 := Discriminators.as_u8 Discriminators.EpochState.
Definition seeds (ncn : Pubkey) (epoch : u64) : list (list u8) :=
  [seed "epoch_state"; to_bytes ncn; to_le_bytes 8 epoch].
Definition find_program_address (program_id : Pubkey) (ncn : Pubkey) (epoch : u64)
    : Pubkey * u8 * list (list u8) :=
  let seeds := seeds ncn epoch in
  let '(pda, bump) := find_pda seeds program_id in
  (pda, bump, seeds).
Definition load (program_id : Pubkey) (account : AccountInfo.t D) (ncn : Pubkey) (epoch : u64)
    (expect_writable : bool) : result ProgramError.t unit :=
  let expected_pda := (find_program_address program_id ncn epoch).1.1 in
  check_load program_id account expected_pda (Some DISCRIMINATOR) expect_writable.
End account.
End EpochStateAccount.

Module EpochMarker.
Section account.
Context {D : Type} {data : AccountData D} {runtime : Runtime}.
Import ProgramError.

Record t := mk { ncn : Pubkey; epoch : u64; slot_closed : u64 }.
Definition new (ncn : Pubkey) (epoch slot_closed : u64) : t := mk ncn epoch slot_closed.

Definition DISCRIMINATOR : u8 := Discriminators.as_u8 Discriminators.EpochMarker.
Definition seeds (ncn : Pubkey) (epoch : u64) : list (list u8) :=
  [seed "epoch_marker"; to_bytes ncn; to_le_bytes 8 epoch; to_bytes ncn].
Definition find_program_address (program_id : Pubkey) (ncn : Pubkey) (epoch : u64)
    : Pubkey * u8 * list (list u8) :=
  let seeds := seeds ncn epoch in
  let '(pda, bump) := find_pda seeds program_id in
  (pda, bump, seeds).
Definition check_dne (program_id : Pubkey) (account : AccountInfo.t D) (ncn : Pubkey) (epoch : u64)
    : result ProgramError.t unit :=
  let expected_pda := (find_program_address program_id ncn epoch).1.1 in
  if negb (expected_pda =? AccountInfo.key account) then Err InvalidSeeds
  else
    let data_length := data_len (AccountInfo.data account) in
    if 0 <? data_length then Err (from_ncn NCNProgramError.MarkerExists) else Ok tt.
End account.
End EpochMarker.

Module AccountPayer.
Section account.
Context {D : Type} {data : AccountData D} {runtime : Runtime}.
Import ProgramError.

Definition seeds (ncn : Pubkey) : list (list u8) :=
  [seed "account_payer"; to_bytes ncn; to_bytes ncn].
Definition find_program_address (program_id : Pubkey) (ncn : Pubkey)
    : Pubkey * u8 * list (list u8) :=
  let seeds := seeds ncn in
  let '(pda, bump) := find_pda seeds program_id in
  (pda, bump, seeds).
Definition load (program_id : Pubkey) (account : AccountInfo.t D) (ncn : Pubkey)
    (expect_writable : bool) : result ProgramError.t unit :=
  let expected_pda := (find_program_address program_id ncn).1.1 in
  check_load system_program_id account expected_pda None expect_writable.
End account.
End AccountPayer.

(** ** All addresses *)

Inductive address :=
| AConfig (ncn : Pubkey)
| AVaultRegistry (ncn : Pubkey)
| AAccountPayer (ncn : Pubkey)
| AWeightTable (ncn : Pubkey) (epoch : u64)
| AEpochSnapshot (ncn : Pubkey) (epoch : u64)
| ABallotBox (ncn : Pubkey) (epoch : u64)
| AConsensusResult (ncn : Pubkey) (epoch : u64)
| ANCNRewardRouter (ncn : Pubkey) (epoch : u64)
| ANCNRewardReceiver (ncn : Pubkey) (epoch : u64)
| AEpochState (ncn : Pubkey) (epoch : u64)
| AEpochMarker (ncn : Pubkey) (epoch : u64)
| AOperatorSnapshot (operator ncn : Pubkey) (epoch : u64)
| AOperatorVaultRewardRouter (operator ncn : Pubkey) (epoch : u64)
| AOperatorVaultRewardReceiver (operator ncn : Pubkey) (epoch : u64).

Definition seeds_of (a : address) : list (list u8) :=
  match a with
  | AConfig n => ConfigAccount.seeds n
  | AVaultRegistry n => VaultRegistryAccount.seeds n
  | AAccountPayer n => AccountPayer.seeds n
  | AWeightTable n e => WeightTableAccount.seeds n e
  | AEpochSnapshot n e => EpochSnapshotAccount.seeds n e
  | ABallotBox n e => BallotBoxAccount.seeds n e
  | AConsensusResult n e => ConsensusResultAccount.seeds n e
  | ANCNRewardRouter n e => NCNRewardRouterAccount.seeds n e
  | ANCNRewardReceiver n e => NCNRewardReceiver.seeds n e
  | AEpochState n e => EpochStateAccount.seeds n e
  | AEpochMarker n e => EpochMarker.seeds n e
  | AOperatorSnapshot o n e => OperatorSnapshotAccount.seeds o n e
  | AOperatorVaultRewardRouter o n e => OperatorVaultRewardRouterAccount.seeds o n e
  | AOperatorVaultRewardReceiver o n e => OperatorVaultRewardReceiver.seeds o n e
  end.

(** Keys are 32 bytes and epochs fit in a [u64]. *)
Definition address_ok (a : address) : Prop :=
  match a with
  | AConfig n | AVaultRegistry n | AAccountPayer n => is_pubkey n
  | AWeightTable n e | AEpochSnapshot n e | ABallotBox n e | AConsensusResult n e
  | ANCNRewardRouter n e | ANCNRewardReceiver n e | AEpochState n e | AEpochMarker n e =>
      is_pubkey n /\ in_range u64_MAX e
  | AOperatorSnapshot o n e | AOperatorVaultRewardRouter o n e | AOperatorVaultRewardReceiver o n e =>
      is_pubkey o /\ is_pubkey n /\ in_range u64_MAX e
  end.

Lemma to_le_bytes_length n z : List.length (to_le_bytes n z) = n.
Proof. revert z. induction n as [|n IH]; intros z; [done|]. cbn. by rewrite IH. Qed.

Lemma to_bytes_length p : List.length (to_bytes p) = 32%nat.
Proof. unfold to_bytes. by rewrite length_rev, to_le_bytes_length. Qed.

Lemma to_le_bytes_inj n x y : 0 <= x < 256 ^ Z.of_nat n -> 0 <= y < 256 ^ Z.of_nat n ->
  to_le_bytes n x = to_le_bytes n y -> x = y.
Proof.
  revert x y. induction n as [|n IH]; intros x y Hx Hy H; [cbn in *; lia|].
  rewrite Nat2Z.inj_succ, Z.pow_succ_r in Hx, Hy by lia.
  cbn in H. injection H as Hm Hd. apply IH in Hd.
  - rewrite (Z.div_mod x 256), (Z.div_mod y 256) by lia. lia.
  - split; [apply Z.div_pos; lia|apply Z.div_lt_upper_bound; lia].
  - split; [apply Z.div_pos; lia|apply Z.div_lt_upper_bound; lia].
Qed.

Lemma to_bytes_inj p q : is_pubkey p -> is_pubkey q -> to_bytes p = to_bytes q -> p = q.
Proof. intros Hp Hq H%rev_inj. by apply (to_le_bytes_inj 32). Qed.

Lemma epoch_inj e e' : in_range u64_MAX e -> in_range u64_MAX e' ->
  to_le_bytes 8 e = to_le_bytes 8 e' -> e = e'.
Proof. unfold in_range, u64_MAX. intros He He'. apply (to_le_bytes_inj 8); cbn; lia. Qed.

(** How many bytes an address hashes: no two account types agree. *)
Definition seeds_size (a : address) : nat :=
  match a with
  | AConfig _ => 38 | AVaultRegistry _ => 46 | AAccountPayer _ => 77
  | AWeightTable _ _ => 52 | AEpochSnapshot _ _ => 54 | ABallotBox _ _ => 50
  | AConsensusResult _ _ => 56 | ANCNRewardRouter _ _ => 57 | ANCNRewardReceiver _ _ => 59
  | AEpochState _ _ => 51 | AEpochMarker _ _ => 84
  | AOperatorSnapshot _ _ _ => 89 | AOperatorVaultRewardRouter _ _ _ => 99
  | AOperatorVaultRewardReceiver _ _ _ => 102
  end.

Lemma seeds_size_eq a : List.length (concat (seeds_of a)) = seeds_size a.
Proof.
  destruct a; unfold seeds_of; cbn -[to_bytes to_le_bytes Nat.add List.app];
    rewrite !length_app, ?to_bytes_length, ?to_le_bytes_length; reflexivity.
Qed.

Lemma key_prefix p q l k : is_pubkey p -> is_pubkey q -> to_bytes p ++ l = to_bytes q ++ k -> p = q /\ l = k.
Proof.
  intros Hp Hq [H ->]%app_inj_1; [|by rewrite !to_bytes_length]. split; [by apply to_bytes_inj|done].
Qed.

Lemma epoch_prefix e f l k : in_range u64_MAX e -> in_range u64_MAX f ->
  to_le_bytes 8 e ++ l = to_le_bytes 8 f ++ k -> e = f /\ l = k.
Proof.
  intros He Hf [H ->]%app_inj_1; [|by rewrite !to_le_bytes_length]. split; [by apply epoch_inj|done].
Qed.

(** [peel H]: read the keys and the epoch off two equal seed lists with the
    same label. *)
Ltac peel H :=
  apply app_inv_head in H;
  repeat match type of H with
  | to_bytes _ ++ _ = _ => apply key_prefix in H as [-> H]; [|tauto..]
  | to_le_bytes 8 _ ++ _ = _ => apply epoch_prefix in H as [-> H]; [|tauto..]
  end.

Lemma seeds_inj a b : address_ok a -> address_ok b ->
  concat (seeds_of a) = concat (seeds_of b) -> a = b.
Proof.
  intros Ha Hb H. pose proof (f_equal (@List.length u8) H) as Hlen. rewrite !seeds_size_eq in Hlen.
  destruct a, b; try discriminate Hlen; clear Hlen; cbn [address_ok] in Ha, Hb;
    cbn -[to_bytes to_le_bytes List.app seed] in H; peel H; reflexivity.
Qed.

Section trust.
Context {D : Type} {data : AccountData D} {runtime : Runtime}.

(** The check an account of each type goes through; for the marker of a closed
    epoch it is the check that the epoch is not closed. *)
Definition load_as (program_id : Pubkey) (account : AccountInfo.t D) (expect_writable : bool)
    (a : address) : result ProgramError.t unit :=
  match a with
  | AConfig n => ConfigAccount.load program_id account n expect_writable
  | AVaultRegistry n => VaultRegistryAccount.load program_id account n expect_writable
  | AAccountPayer n => AccountPayer.load program_id account n expect_writable
  | AWeightTable n e => WeightTableAccount.load program_id account n e expect_writable
  | AEpochSnapshot n e => EpochSnapshotAccount.load program_id account n e expect_writable
  | ABallotBox n e => BallotBoxAccount.load program_id account n e expect_writable
  | AConsensusResult n e => ConsensusResultAccount.load program_id account n e expect_writable
  | ANCNRewardRouter n e => NCNRewardRouterAccount.load program_id account n e expect_writable
  | ANCNRewardReceiver n e => NCNRewardReceiver.load program_id account n e expect_writable
  | AEpochState n e => EpochStateAccount.load program_id account n e expect_writable
  | AEpochMarker n e => EpochMarker.check_dne program_id account n e
  | AOperatorSnapshot o n e => OperatorSnapshotAccount.load program_id account o n e expect_writable
  | AOperatorVaultRewardRouter o n e =>
      OperatorVaultRewardRouterAccount.load program_id account o n e expect_writable
  | AOperatorVaultRewardReceiver o n e =>
      OperatorVaultRewardReceiver.load program_id account o n e expect_writable
  end.

Definition discriminator_of (a : address) : option Discriminators.t :=
  match a with
  | AConfig _ => Some Discriminators.Config
  | AVaultRegistry _ => Some Discriminators.VaultRegistry
  | AWeightTable _ _ => Some Discriminators.WeightTable
  | AEpochSnapshot _ _ => Some Discriminators.EpochSnapshot
  | AOperatorSnapshot _ _ _ => Some Discriminators.OperatorSnapshot
  | ABallotBox _ _ => Some Discriminators.BallotBox
  | AConsensusResult _ _ => Some Discriminators.ConsensusResult
  | ANCNRewardRouter _ _ => Some Discriminators.NCNRewardRouter
  | AOperatorVaultRewardRouter _ _ _ => Some Discriminators.OperatorVaultRewardRouter
  | AEpochState _ _ => Some Discriminators.EpochState
  | _ => None
  end.

Lemma check_load_ok program_id account pda disc w :
  check_load program_id account pda disc w = Ok tt <->
  AccountInfo.owner account = program_id /\ AccountInfo.key account = pda
  /\ (forall d, disc = Some d -> data_len (AccountInfo.data account) <> 0
                                 /\ data_byte0 (AccountInfo.data account) = d)
  /\ (w = true -> AccountInfo.is_writable account = true).
Proof.
  unfold check_load, AccountInfo.data_is_empty.
  destruct (AccountInfo.owner account =? program_id) eqn:E1; cbn; [|split; [done|lia]].
  destruct (AccountInfo.key account =? pda) eqn:E2; cbn; [|split; [done|lia]].
  assert ((forall d, disc = Some d -> data_len (AccountInfo.data account) <> 0
                        /\ data_byte0 (AccountInfo.data account) = d) <->
    match disc with
    | Some d => if data_len (AccountInfo.data account) =? 0 then Err ProgramError.InvalidAccountData
                else if negb (data_byte0 (AccountInfo.data account) =? d)
                then Err ProgramError.InvalidAccountData else Ok tt
    | None => Ok tt end = Ok tt) as ->.
  { destruct disc as [d|]; [|done]. destruct (data_len _ =? 0) eqn:E3; cbn.
    - split; [intros H; destruct (H d eq_refl); lia|done].
    - destruct (data_byte0 _ =? d) eqn:E4; cbn.
      + split; [done|]. intros _ d' [= <-]. lia.
      + split; [intros H; destruct (H d eq_refl); lia|done]. }
  destruct (match disc with Some _ => _ | None => _ end) as [[]|e|]; cbn; [|naive_solver..].
  destruct w, (AccountInfo.is_writable account); cbn; naive_solver lia.
Qed.

(** The address a load check expects. *)
Lemma load_as_key program_id account w a : load_as program_id account w a = Ok tt ->
  AccountInfo.key account = (find_pda (seeds_of a) program_id).1.
Proof.
  destruct a; cbn [load_as];
    try (intros H; apply check_load_ok in H as (_ & -> & _); cbn [seeds_of];
         unfold ConfigAccount.find_program_address, VaultRegistryAccount.find_program_address, WeightTableAccount.find_program_address,
           EpochSnapshotAccount.find_program_address, OperatorSnapshotAccount.find_program_address, BallotBoxAccount.find_program_address,
           ConsensusResultAccount.find_program_address, NCNRewardRouterAccount.find_program_address, NCNRewardReceiver.find_program_address,
           OperatorVaultRewardRouterAccount.find_program_address, OperatorVaultRewardReceiver.find_program_address, EpochStateAccount.find_program_address,
           AccountPayer.find_program_address;
         by destruct (find_pda _ _)).
  unfold EpochMarker.check_dne, EpochMarker.find_program_address. cbn [seeds_of].
  destruct (find_pda _ _) as [pda b]. cbn. destruct (pda =? _) eqn:E; cbn; [|done]. intros _. lia.
Qed.

(** C34: an account is trusted for one purpose only. Assume the runtime's
    address derivation has no collisions. Then an account that passes the load
    check of one type of account, for one NCN, epoch and operator, passes no
    other load check of the program, because no two of them hash the same
    seeds; and an account that passes a check with a discriminator is owned by
    the program and carries that type's discriminator. *)
Theorem account_loads_as_one_thing program_id account w w' a b :
  (forall s s', (find_pda s program_id).1 = (find_pda s' program_id).1 -> concat s = concat s') ->
  address_ok a -> address_ok b ->
  load_as program_id account w a = Ok tt ->
  (load_as program_id account w' b = Ok tt -> b = a)
  /\ (forall d, discriminator_of a = Some d ->
        AccountInfo.owner account = program_id
        /\ data_byte0 (AccountInfo.data account) = Discriminators.as_u8 d).
Proof.
  intros Hcf Ha Hb HLa. split.
  - intros HLb. pose proof (load_as_key _ _ _ _ HLa) as Hka. pose proof (load_as_key _ _ _ _ HLb) as Hkb.
    apply seeds_inj; [done|done|]. apply Hcf. congruence.
  - intros d Hd. destruct a; cbn in Hd; try discriminate Hd; injection Hd as <-;
      apply check_load_ok in HLa as (-> & _ & Hdisc & _); destruct (Hdisc _ eq_refl); done.
Qed.
End trust.

(** A runtime without collisions, and an account whose data are two numbers. *)
Definition example_runtime : Runtime :=
  {| find_pda s _ := (Z.pos (encode (concat s)), 255); system_program_id := 0 |}.
Definition example_data : AccountData (usize * u8) := {| data_len := fst; data_byte0 := snd |}.
Definition example_account : AccountInfo.t (usize * u8) :=
  AccountInfo.mk (find_pda (Runtime := example_runtime) (BallotBoxAccount.seeds 7 5) 99).1 99 0 false true (100, 0x20).

Lemma account_loads_as_one_thing_witness :
  load_as (data := example_data) (runtime := example_runtime) 99 example_account true (ABallotBox 7 5) = Ok tt
  /\ (load_as (data := example_data) (runtime := example_runtime) 99 example_account true (ABallotBox 7 6) = Ok tt ->
      ABallotBox 7 6 = ABallotBox 7 5).
Proof.
  assert (load_as (data := example_data) (runtime := example_runtime) 99 example_account true (ABallotBox 7 5) = Ok tt)
    as H by (apply check_load_ok; split; [reflexivity|split; [reflexivity|split;
      [intros d Hd; injection Hd as <-; split; [discriminate|reflexivity]|reflexivity]]]).
  split; [exact H|].
  apply (account_loads_as_one_thing (data := example_data) (runtime := example_runtime) 99 example_account true true
    (ABallotBox 7 5) (ABallotBox 7 6)).
  - intros s s' Hs. apply (encode_inj (concat s)). injection Hs as Hs. exact Hs.
  - split; split; try discriminate; reflexivity.
  - split; split; try discriminate; reflexivity.
  - exact H.
Defined.
