(* ===== verification/Machine.v ===== *)
(** The machine the instruction handlers run on: the store of accounts, the
    structs in their data, the runtime's services (borrows, sysvars, calls into
    the system program) and the reasoning principles for them. *)
From S2P Require Import Prelude Errors Accounts EpochStates.

(** ** The store

    Every key has an account; the handler gets a list of keys with the
    transaction's flags. Two entries with the same key share the account. *)
Module Account.
Section account.
Context {D : Type}.
Record t := mk { owner : Pubkey; lamports : u64; data : D }.
End account.
Arguments t : clear implicits.
End Account.

Record Meta := meta { key : Pubkey; is_signer : bool; is_writable : bool }.
Abbreviation Store D := (Pubkey -> Account.t D).

(** ** The data of an account

    [AccountInfo::realloc] and the assignment [data[0] = b] on the bytes, and
    the data of a new account. *)
Class AccountBytes (D : Type) := {
  zeros : usize -> D;
  resize : usize -> D -> result ProgramError.t D;
  set_byte0 : u8 -> D -> D;
}.

(** What the handlers rely on: sizes are kept, and an account grows by zeros. *)
Class AccountBytesLaws (D : Type) {data : AccountData D} {bytes : AccountBytes D} := {
  len_zeros : forall n, 0 <= n -> data_len (zeros n) = n;
  byte0_zeros : forall n, data_byte0 (zeros n) = 0;
  len_resize : forall n d d', resize n d = Ok d' -> data_len d' = n;
  resize_zeros : forall m n d, 0 <= m <= n -> resize n (zeros m) = Ok d -> d = zeros n;
  len_set_byte0 : forall b d, data_len (set_byte0 b d) = data_len d;
  byte0_set_byte0 : forall b d, data_len d <> 0 -> data_byte0 (set_byte0 b d) = b;
}.

(** [jito_bytemuck]'s [AccountDeserialize]: reading a struct in place and
    assigning through the reference. *)
Class Stored (D T : Type) := {
  try_from_slice : D -> result ProgramError.t T;
  assign : T -> D -> D;
}.

(** What the handlers rely on: an assignment is read back, and it changes
    neither the length of the data nor the discriminator. *)
Class StoredLaws (D T : Type) {data : AccountData D} {stored : Stored D T} := {
  read_assign : forall d t t', try_from_slice d = Ok t -> try_from_slice (assign t' d) = Ok t';
  len_assign : forall d (t : T), data_len (assign t d) = data_len d;
  byte0_assign : forall d (t : T), data_byte0 (assign t d) = data_byte0 d;
}.

(** A new account of the struct's size, with its discriminator, reads as the
    struct of zeros. *)
Class Zeroed (D T : Type) (discriminator : u8) (size : usize) (zeroed : T)
    {bytes : AccountBytes D} {stored : Stored D T} := {
  read_zeros : try_from_slice (set_byte0 discriminator (zeros size)) = Ok zeroed;
}.

(** ** Code outside the repository *)

Record Clock := mk_clock { slot : u64; clock_epoch : u64 }.

(** The sysvars, the loaders of signers and of the accounts of other programs,
    the fields and methods of their structs that the handlers use, and a
    constant of the vault program. The loaders of tickets take the two accounts
    the ticket connects. *)
Class Externals (D : Type) := {
  get_clock : result ProgramError.t Clock;
  minimum_balance : result ProgramError.t (usize -> u64);
  epoch_of_slot : result ProgramError.t (u64 -> u64);
  restaking_program_id : Pubkey;
  vault_program_id : Pubkey;
  load_signer : AccountInfo.t D -> bool -> result ProgramError.t unit;
  load_system_account : AccountInfo.t D -> bool -> result ProgramError.t unit;
  load_system_program : AccountInfo.t D -> result ProgramError.t unit;
  load_token_mint : AccountInfo.t D -> result ProgramError.t unit;
  load_restaking_config : Pubkey -> AccountInfo.t D -> bool -> result ProgramError.t unit;
  load_ncn : Pubkey -> AccountInfo.t D -> bool -> result ProgramError.t unit;
  load_operator : Pubkey -> AccountInfo.t D -> bool -> result ProgramError.t unit;
  load_vault : Pubkey -> AccountInfo.t D -> bool -> result ProgramError.t unit;
  load_ncn_operator_state :
    Pubkey -> AccountInfo.t D -> AccountInfo.t D -> AccountInfo.t D -> bool -> result ProgramError.t unit;
  load_ncn_vault_ticket :
    Pubkey -> AccountInfo.t D -> AccountInfo.t D -> AccountInfo.t D -> bool -> result ProgramError.t unit;
  load_vault_ncn_ticket :
    Pubkey -> AccountInfo.t D -> AccountInfo.t D -> AccountInfo.t D -> bool -> result ProgramError.t unit;
  load_vault_operator_delegation :
    Pubkey -> AccountInfo.t D -> AccountInfo.t D -> AccountInfo.t D -> bool -> result ProgramError.t unit;
  restaking_epoch_length : D -> result ProgramError.t u64;
  ncn_admin : D -> result ProgramError.t Pubkey;
  ncn_weight_table_admin : D -> result ProgramError.t Pubkey;
  ncn_program_admin : D -> result ProgramError.t Pubkey;
  ncn_operator_count : D -> result ProgramError.t u64;
  ncn_vault_count : D -> result ProgramError.t u64;
  operator_voter : D -> result ProgramError.t Pubkey;
  operator_fee_bps : D -> result ProgramError.t u16;
  operator_index : D -> result ProgramError.t u64;
  vault_index : D -> result ProgramError.t u64;
  vault_supported_mint : D -> result ProgramError.t Pubkey;
  vault_is_update_needed : u64 -> u64 -> D -> result ProgramError.t bool;
  ncn_operator_index : D -> result ProgramError.t u64;
  ncn_opt_in_is_active : u64 -> u64 -> D -> result ProgramError.t bool;
  operator_opt_in_is_active_or_cooldown : u64 -> u64 -> D -> result ProgramError.t bool;
  ncn_vault_ticket_is_active : u64 -> u64 -> D -> result ProgramError.t bool;
  vault_ncn_ticket_is_active_or_cooldown : u64 -> u64 -> D -> result ProgramError.t bool;
  delegation_total_security : D -> result ProgramError.t u64;
  vault_MAX_BPS : u16;
}.

(** What is used of them: an operator's account belongs to the program the
    loader is called with, a system account to the system program, and the rent
    is not negative. *)
Class ExternalsLaws (D : Type) {data : AccountData D} {runtime : Runtime} {ext : Externals D} := {
  load_operator_owner : forall program_id a w,
    load_operator program_id a w = Ok tt -> AccountInfo.owner a = program_id;
  load_system_account_empty : forall a w, load_system_account a w = Ok tt ->
    AccountInfo.owner a = system_program_id /\ data_len (AccountInfo.data a) = 0;
  minimum_balance_nonneg : forall rent n, minimum_balance = Ok rent -> 0 <= n -> 0 <= rent n;
}.

(** [invoke_signed] with the system program's instructions. [held] lists the
    accounts whose data the caller has borrowed, and the last argument the
    seeds that sign. *)
Class System (D : Type) := {
  invoke_transfer : list Pubkey -> Pubkey -> Pubkey -> u64 -> list (list u8) -> M (Store D) ProgramError.t unit;
  invoke_allocate : list Pubkey -> Pubkey -> u64 -> list (list u8) -> M (Store D) ProgramError.t unit;
  invoke_assign : list Pubkey -> Pubkey -> Pubkey -> list (list u8) -> M (Store D) ProgramError.t unit;
}.

(** [From] for the error types, as [?] uses it. *)
Class Into (E : Type) := into_program_error : E -> ProgramError.t.
#[export] Instance into_ncn : Into NCNProgramError.t := ProgramError.from_ncn.
#[export] Instance into_same : Into ProgramError.t := id.

Section store.
Context {D : Type}.

Definition update (k : Pubkey) (f : Account.t D -> Account.t D) (s : Store D) : Store D :=
  fun k' => if k' =? k then f (s k) else s k'.
Definition set_lamports (n : u64) (a : Account.t D) : Account.t D :=
  Account.mk (Account.owner a) n (Account.data a).
Definition set_owner (o : Pubkey) (a : Account.t D) : Account.t D :=
  Account.mk o (Account.lamports a) (Account.data a).
Definition set_data (d : D) (a : Account.t D) : Account.t D :=
  Account.mk (Account.owner a) (Account.lamports a) d.

(** [moved]: [n] lamports have gone from one account to another. *)
Definition moved (from to : Pubkey) (n : u64) (s : Store D) : Store D :=
  let s := update from (fun a => set_lamports (Account.lamports a - n) a) s in
  update to (fun a => set_lamports (Account.lamports a + n) a) s.

Definition info (s : Store D) (m : Meta) : AccountInfo.t D :=
  let a := s (key m) in
  AccountInfo.mk (key m) (Account.owner a) (Account.lamports a) (is_signer m) (is_writable m) (Account.data a).
End store.

(** What the system program documents: a transfer moves the lamports, which the
    payer has; an allocation gives an empty account of its own zeroed data; an
    assignment changes the owner. A failed call changes nothing that matters,
    for the transaction is rolled back. *)
Class SystemLaws (D : Type) {data : AccountData D} {bytes : AccountBytes D} {runtime : Runtime}
    {system : System D} := {
  transfer_moves : forall held from to n seeds (s s' : Store D),
    invoke_transfer held from to n seeds s = (Ok tt, s') ->
    n <= Account.lamports (s from) /\ s' = moved from to n s;
  allocate_zeros : forall held k n seeds (s s' : Store D),
    invoke_allocate held k n seeds s = (Ok tt, s') ->
    data_len (Account.data (s k)) = 0 /\ Account.owner (s k) = system_program_id
    /\ s' = update k (set_data (zeros n)) s;
  assign_owner : forall held k o seeds (s s' : Store D),
    invoke_assign held k o seeds s = (Ok tt, s') ->
    Account.owner (s k) = system_program_id /\ s' = update k (set_owner o) s;
}.

Section machine.
Context {D : Type} {data : AccountData D} {bytes : AccountBytes D}.

(** A check of an account that is passed in. *)
Definition check (f : AccountInfo.t D -> result ProgramError.t unit) (m : Meta)
    : M (Store D) ProgramError.t unit :=
  let* s := get_self in lift (f (info s m)).

(** [RefCell]: [data.borrow()] and [borrow_mut()] panic, [try_borrow_mut_data]
    fails, when the account is among the [held] ones. *)
Definition borrow (held : list Pubkey) (k : Pubkey) : M (Store D) ProgramError.t unit :=
  if any (Z.eqb k) held then lift Panic else ret tt.
Definition try_borrow (held : list Pubkey) (k : Pubkey) : M (Store D) ProgramError.t unit :=
  if any (Z.eqb k) held then throw ProgramError.AccountBorrowFailed else ret tt.

(** Reading the data of an account: a field of another program's struct, or a
    struct of this one. *)
Definition peek {A} (f : D -> result ProgramError.t A) (k : Pubkey) : M (Store D) ProgramError.t A :=
  let* s := get_self in lift (f (Account.data (s k))).
Definition read {T} `{Stored D T} (k : Pubkey) : M (Store D) ProgramError.t T := peek try_from_slice k.

Definition write {T} `{Stored D T} (k : Pubkey) (t : T) (s : Store D) : Store D :=
  update k (fun a => set_data (assign t (Account.data a)) a) s.

(** A method called on the struct in an account's data; [?] converts the
    error. *)
Definition on_account {T E A} `{Stored D T, Into E} (k : Pubkey) (m : M T E A)
    : M (Store D) ProgramError.t A :=
  fun s =>
    match try_from_slice (Account.data (s k)) with
    | Ok t => let '(r, t') := m t in (map_err into_program_error r, write k t' s)
    | Err e => (Err e, s)
    | Panic => (Panic, s)
    end.

(** [data[0] = discriminator]; the data of an account that is not empty. *)
Definition set_discriminator (k : Pubkey) (discriminator : u8) : M (Store D) ProgramError.t unit :=
  let* s := get_self in
  if data_len (Account.data (s k)) =? 0 then lift Panic
  else modify (update k (fun a => set_data (set_byte0 discriminator (Account.data a)) a)).

(** [AccountInfo::realloc]. *)
Definition realloc (held : list Pubkey) (k : Pubkey) (new_size : usize) : M (Store D) ProgramError.t unit :=
  let* _ := try_borrow held k in
  let* d := peek (resize new_size) k in
  modify (update k (set_data d)).

(** ** Running the primitives *)

Lemma run_check {A} f m (k : unit -> M (Store D) ProgramError.t A) s :
  mbind (check f m) k s =
  match f (info s m) with Ok _ => k tt s | Err e => (Err e, s) | Panic => (Panic, s) end.
Proof. unfold check, mbind, get_self, lift. by destruct (f (info s m)) as [[]|e|]. Qed.

Lemma run_borrow {A} held x (k : unit -> M (Store D) ProgramError.t A) s :
  mbind (borrow held x) k s = if any (Z.eqb x) held then (Panic, s) else k tt s.
Proof. unfold borrow. by destruct (any _ _). Qed.

Lemma run_try_borrow {A} held x (k : unit -> M (Store D) ProgramError.t A) s :
  mbind (try_borrow held x) k s =
  if any (Z.eqb x) held then (Err ProgramError.AccountBorrowFailed, s) else k tt s.
Proof. unfold try_borrow. by destruct (any _ _). Qed.

Lemma run_peek {A B} f x (k : A -> M (Store D) ProgramError.t B) s :
  mbind (peek f x) k s =
  match f (Account.data (s x)) with Ok a => k a s | Err e => (Err e, s) | Panic => (Panic, s) end.
Proof. unfold peek, mbind, get_self, lift. by destruct (f _). Qed.

Lemma run_read {T A} {st : Stored D T} x (k : T -> M (Store D) ProgramError.t A) s :
  mbind (read x) k s =
  match try_from_slice (Account.data (s x)) with
  | Ok t => k t s | Err e => (Err e, s) | Panic => (Panic, s)
  end.
Proof. apply run_peek. Qed.

Lemma run_on_account {T E A B} {st : Stored D T} {to : Into E} x (m : M T E A)
    (k : A -> M (Store D) ProgramError.t B) s t :
  try_from_slice (Account.data (s x)) = Ok t ->
  mbind (on_account x m) k s =
  match m t with
  | (Ok a, t') => k a (write x t' s)
  | (Err e, t') => (Err (into_program_error e), write x t' s)
  | (Panic, t') => (Panic, write x t' s)
  end.
Proof. intros Ht. unfold on_account, mbind. rewrite Ht. by destruct (m t) as [[]?]. Qed.

Lemma update_other k k' f (s : Store D) : k' <> k -> update k f s k' = s k'.
Proof. intros H. unfold update. destruct (k' =? k) eqn:E; [lia|done]. Qed.

Lemma update_same k f (s : Store D) : update k f s k = f (s k).
Proof. unfold update. by rewrite Z.eqb_refl. Qed.

Lemma write_other {T} {st : Stored D T} k k' (t : T) s : k' <> k -> write k t s k' = s k'.
Proof. apply update_other. Qed.

Lemma write_same {T} {st : Stored D T} k (t : T) s :
  write k t s k = Account.mk (Account.owner (s k)) (Account.lamports (s k)) (assign t (Account.data (s k))).
Proof. apply update_same. Qed.

Lemma read_write {T} `{!Stored D T, !StoredLaws D T} k t t' s : try_from_slice (Account.data (s k)) = Ok t ->
  try_from_slice (Account.data (write k t' s k)) = Ok t'.
Proof. intros Ht. rewrite write_same. cbn. by eapply read_assign. Qed.

(** Accounts that agree but for the struct they hold. *)
Definition alike (a b : Account.t D) : Prop :=
  Account.owner a = Account.owner b /\ Account.lamports a = Account.lamports b
  /\ data_len (Account.data a) = data_len (Account.data b)
  /\ data_byte0 (Account.data a) = data_byte0 (Account.data b).
#[global] Instance alike_equiv : Equivalence alike.
Proof. split; [by intros ?|by intros ??(?&?&?&?)|intros ???(?&?&?&?)(?&?&?&?); split_and!; congruence]. Qed.

(** An assignment changes nothing else. *)
Lemma write_keeps {T} `{!Stored D T, !StoredLaws D T} k k' (t : T) s : alike (write k t s k') (s k').
Proof.
  unfold write, update. destruct (k' =? k) eqn:E; [|done]. apply Z.eqb_eq in E as ->.
  split; [done|]. split; [done|]. cbn. by rewrite len_assign, byte0_assign.
Qed.

(** The struct an account holds. *)
Definition stored_at {T} `{Stored D T} (s : Store D) (m : Meta) (t : T) : Prop :=
  try_from_slice (Account.data (s (key m))) = Ok t.

Lemma any_apart x k l : x <> k -> any (Z.eqb x) (k :: l) = any (Z.eqb x) l.
Proof. intros H. unfold any. cbn. destruct (x =? k) eqn:E; [lia|done]. Qed.

(** Accounts with different discriminators are different accounts. *)
Lemma different_kinds (s : Store D) m m' pid pid' pda pda' d d' w w' :
  check_load pid (info s m) pda (Some d) w = Ok tt ->
  check_load pid' (info s m') pda' (Some d') w' = Ok tt -> d <> d' -> key m <> key m'.
Proof.
  intros (_ & _ & Hd & _)%check_load_ok (_ & _ & Hd' & _)%check_load_ok Hne He.
  destruct (Hd d eq_refl) as [_ H1]. destruct (Hd' d' eq_refl) as [_ H2]. cbn in H1, H2. congruence.
Qed.

Lemma different_owners (s : Store D) m m' pid pda d w :
  check_load pid (info s m) pda d w = Ok tt -> Account.owner (s (key m')) <> pid -> key m' <> key m.
Proof. intros (Ho & _)%check_load_ok Hne He. cbn in Ho. congruence. Qed.
End machine.

