(* ===== verification/Lamports.v ===== *)
(** Lamports: what an account of each type costs and how it is created, grown
    and closed ([core/src/account_payer.rs]), and how the reward receivers are
    emptied ([NCNRewardReceiver] in [ncn_reward_router.rs] and
    [OperatorVaultRewardReceiver] in [operator_vault_reward_router.rs]). *)
From S2P Require Import Prelude Errors Precise EpochStates Accounts Machine.

(** ** Sizes

    The structs have no padding: every field is a byte array, so that the size
    is the sum of the sizes of the fields. *)
Module Size.
Definition StMintEntry : usize := 32 + 32 + 16.
Definition VaultEntry : usize := 32 + 32 + 8 + 8.
Definition WeightEntry : usize := StMintEntry + 16 + 8 + 8.
Definition StakeWeights : usize := 16.
Definition VaultOperatorStakeWeight : usize := 32 + 8 + StakeWeights.
Definition Fees : usize := 8 + 2 + 2.
Definition FeeConfig : usize := 32 + 32 + Fees + Fees.
Definition Ballot : usize := 1 + 1.
Definition BallotTally : usize := 2 + Ballot + StakeWeights + 8.
Definition OperatorVote : usize := 32 + 8 + StakeWeights + 2.
Definition Progress : usize := 8 + 8.
Definition EpochAccountStatus : usize := 1 + 1 + 1 + 256 + 1 + 1 + 256.
Definition OperatorVaultRewardRoute : usize := 32 + 8.
Definition VaultRewardRoute : usize := 32 + 8.

(** [SIZE] of the accounts: the discriminator, padded to eight bytes, and the
    struct. *)
Definition Config : usize := 8 + (32 + 32 + 8 + 8 + 8 + 8 + FeeConfig + 1).
Definition VaultRegistry : usize := 8 + (32 + 1 + StMintEntry * MAX_ST_MINTS + VaultEntry * MAX_VAULTS).
Definition WeightTable : usize := 8 + (32 + 8 + 8 + 8 + 1 + VaultEntry * 64 + WeightEntry * 64).
Definition EpochSnapshot : usize := 8 + (32 + 8 + 1 + 8 + 8 + 8 + 8 + 8 + 8 + StakeWeights + Fees).
Definition OperatorSnapshot : usize :=
  8 + (32 + 32 + 8 + 1 + 8 + 8 + 1 + 8 + 8 + 2 + 8 + 8 + 8 + StakeWeights + VaultOperatorStakeWeight * 64).
Definition BallotBox : usize :=
  8 + (32 + 8 + 1 + 8 + 8 + 8 + 8 + Ballot + OperatorVote * 256 + BallotTally * 256).
Definition ConsensusResult : usize := 8 + (32 + 8 + 8 + 8 + 8 + 1 + 1).
Definition NCNRewardRouter : usize :=
  8 + (32 + 8 + 1 + 8 + 8 + 8 + 8 + 128 + 2 + 8 + 8 + 8 + 8 + OperatorVaultRewardRoute * 256).
Definition OperatorVaultRewardRouter : usize :=
  8 + (32 + 32 + 8 + 1 + 8 + 8 + 8 + 8 + 8 + 8 + 8 + 2 + VaultRewardRoute * 64).
Definition EpochState : usize :=
  8 + (32 + 8 + 1 + 8 + 1 + 8 + 8 + 8 + EpochAccountStatus + Progress + Progress + Progress * 256
       + Progress + Progress + Progress + Progress + Progress + Progress * 256 + 1).
Definition EpochMarker : usize := 8 + (32 + 8 + 8).
End Size.

Section lamports.
Context {D : Type} {data : AccountData D} {bytes : AccountBytes D} {runtime : Runtime}
  {ext : Externals D} {system : System D}.
Context {s_state : Stored D EpochState.t}.
Import ProgramError.

Definition lamports_of (k : Pubkey) : M (Store D) ProgramError.t u64 := gets (fun s => Account.lamports (s k)).

(** Whether an account has data. *)
Definition is_empty (s : Store D) (m : Meta) : bool := AccountInfo.data_is_empty (info s m).

(** The length of an account's data. *)
Definition data_len_of (k : Pubkey) : M (Store D) ProgramError.t usize :=
  gets (fun s => data_len (Account.data (s k))).
(** [EpochState::load_and_check_is_closing]. *)
Definition load_and_check_is_closing (program_id : Pubkey) (account : Meta) (ncn : Pubkey) (epoch : u64)
    (expect_writable : bool) : M (Store D) ProgramError.t unit :=
  let* account_struct := read (T := EpochState.t) (key account) in
  if EpochState.is_closing account_struct then throw (from_ncn NCNProgramError.EpochIsClosingDown)
  else check (fun a => EpochStateAccount.load program_id a ncn epoch expect_writable) account.

(** An update of the epoch state by a setter that returns nothing. *)
Definition update_state (k : Pubkey) (f : EpochState.t -> EpochState.t) : M (Store D) ProgramError.t unit :=
  on_account k (modify f : M EpochState.t NCNProgramError.t unit).
End lamports.

(** ** The account payer

    An account of the NCN without data that pays the rent of the others. *)
Module Payer.
Section payer.
Context {D : Type} {data : AccountData D} {bytes : AccountBytes D} {runtime : Runtime}
  {ext : Externals D} {system : System D}.
Import ProgramError.

(** [account_payer_seeds.push(vec![bump])] *)
Definition push_bump (seeds : list (list u8)) (bump : u8) : list (list u8) := seeds ++ [[bump]].

Definition transfer (held : list Pubkey) (program_id ncn : Pubkey) (account_payer to : Pubkey) (lamports : u64)
    : M (Store D) ProgramError.t unit :=
  let '(account_payer_address, account_payer_bump, account_payer_seeds) :=
    AccountPayer.find_program_address program_id ncn in
  if negb (account_payer_address =? account_payer) then throw InvalidAccountData
  else invoke_transfer held account_payer_address to lamports (push_bump account_payer_seeds account_payer_bump).

Definition pay_and_create_account (held : list Pubkey) (program_id ncn : Pubkey) (account_payer new_account : Pubkey)
    (program_owner : Pubkey) (space : usize) (new_account_seeds : list (list u8))
    : M (Store D) ProgramError.t unit :=
  let* rent := lift minimum_balance in
  let minimum_balance := rent space in
  let* lamports := lamports_of new_account in
  let required_lamports := saturating_sub minimum_balance lamports in
  let* _ :=
    if 0 <? required_lamports
    then transfer held program_id ncn account_payer new_account required_lamports
    else ret tt in
  let space := Z.min space MAX_REALLOC_BYTES in
  let* _ := invoke_allocate held new_account space new_account_seeds in
  invoke_assign held new_account program_owner new_account_seeds.

Definition pay_and_realloc (held : list Pubkey) (program_id ncn : Pubkey) (account_payer account : Pubkey)
    (new_size : usize) : M (Store D) ProgramError.t unit :=
  let* rent := lift minimum_balance in
  let new_minimum_balance := rent new_size in
  let* lamports := lamports_of account in
  let required_lamports := saturating_sub new_minimum_balance lamports in
  let* _ :=
    if 0 <? required_lamports
    then transfer held program_id ncn account_payer account required_lamports
    else ret tt in
  realloc held account new_size.

(** [account_payer] and [account_to_close] may be the same account: the balances
    are read and written one after the other. *)
Definition close_account (program_id account_payer account_to_close : Pubkey) : M (Store D) ProgramError.t unit :=
  let* s := get_self in
  if negb (Account.owner (s account_to_close) =? program_id) then throw IllegalOwner
  else
    let* n := lift (ok_or (checked_add u64_MAX (Account.lamports (s account_payer))
                             (Account.lamports (s account_to_close))) ProgramError.ArithmeticOverflow) in
    let* _ := modify (update account_payer (set_lamports n)) in
    let* _ := modify (update account_to_close (set_lamports 0)) in
    let* _ := modify (update account_to_close (set_owner system_program_id)) in
    realloc [] account_to_close 0.
End payer.
End Payer.

(** ** The reward receivers *)
Module NcnReceiver.
Section receiver.
Context {D : Type} {data : AccountData D} {bytes : AccountBytes D} {runtime : Runtime}
  {ext : Externals D} {system : System D}.
Import ProgramError.

Definition transfer (held : list Pubkey) (program_id ncn : Pubkey) (epoch : u64) (ncn_reward_receiver to : Pubkey)
    (lamports : u64) : M (Store D) ProgramError.t unit :=
  let '(ncn_reward_receiver_address, ncn_reward_receiver_bump, ncn_reward_receiver_seeds) :=
    NCNRewardReceiver.find_program_address program_id ncn epoch in
  if negb (ncn_reward_receiver_address =? ncn_reward_receiver) then throw InvalidAccountData
  else invoke_transfer held ncn_reward_receiver_address to lamports
         (Payer.push_bump ncn_reward_receiver_seeds ncn_reward_receiver_bump).

Definition close (held : list Pubkey) (program_id ncn : Pubkey) (epoch : u64)
    (ncn_reward_receiver ncn_fee_wallet account_payer : Pubkey) : M (Store D) ProgramError.t unit :=
  let* rent := lift minimum_balance in
  let min_rent := rent 0 in
  let* lamports := lamports_of ncn_reward_receiver in
  let delta_lamports := saturating_sub lamports min_rent in
  let* _ :=
    if 0 <? delta_lamports
    then transfer held program_id ncn epoch ncn_reward_receiver ncn_fee_wallet delta_lamports
    else ret tt in
  transfer held program_id ncn epoch ncn_reward_receiver account_payer min_rent.
End receiver.
End NcnReceiver.

Module OperatorReceiver.
Section receiver.
Context {D : Type} {data : AccountData D} {bytes : AccountBytes D} {runtime : Runtime}
  {ext : Externals D} {system : System D}.
Import ProgramError.

Definition transfer (held : list Pubkey) (program_id operator ncn : Pubkey) (epoch : u64)
    (operator_vault_reward_receiver to : Pubkey) (lamports : u64) : M (Store D) ProgramError.t unit :=
  let '(operator_vault_reward_receiver_address, operator_vault_reward_receiver_bump,
        operator_vault_reward_receiver_seeds) :=
    OperatorVaultRewardReceiver.find_program_address program_id operator ncn epoch in
  if negb (operator_vault_reward_receiver_address =? operator_vault_reward_receiver)
  then throw InvalidAccountData
  else invoke_transfer held operator_vault_reward_receiver_address to lamports
         (Payer.push_bump operator_vault_reward_receiver_seeds operator_vault_reward_receiver_bump).

Definition close (held : list Pubkey) (program_id operator ncn : Pubkey) (epoch : u64)
    (operator_vault_reward_receiver dao_wallet account_payer : Pubkey) : M (Store D) ProgramError.t unit :=
  let* rent := lift minimum_balance in
  let min_rent := rent 0 in
  let* lamports := lamports_of operator_vault_reward_receiver in
  let delta_lamports := saturating_sub lamports min_rent in
  let* _ :=
    if 0 <? delta_lamports
    then transfer held program_id operator ncn epoch operator_vault_reward_receiver dao_wallet delta_lamports
    else ret tt in
  transfer held program_id operator ncn epoch operator_vault_reward_receiver account_payer min_rent.
End receiver.
End OperatorReceiver.
