(* ===== verification/Cells.v ===== *)
(** A concrete memory, for evaluating the handlers: accounts hold typed cells,
    and the code outside the repository is given by small functions that meet
    the laws the theorems assume. *)
From S2P Require Import Prelude Errors Precise Stake Registry Weights Fees Snapshots Voting EpochStates.
From S2P Require Import NcnRouter OperatorRouter Consensus Accounts Machine Lamports.

(** ** Cells

    The length and the first byte of the data, and the struct behind it; [Blank]
    is data that is all zero but for the first byte. *)
Inductive content :=
| Blank
| CConfig (c : Config.t)
| CRegistry (r : VaultRegistry.t)
| CTable (t : WeightTable.t)
| CEpoch (e : EpochSnapshot.t)
| COperatorSnapshot (o : OperatorSnapshot.t)
| CBox (b : BallotBox.t)
| CResult (r : ConsensusResult.t)
| CRouter (r : NCNRewardRouter.t)
| COperatorRouter (r : OperatorVaultRewardRouter.t)
| CState (e : EpochState.t)
| CMarker (m : EpochMarker.t)
| CRestakingConfig (epoch_length : u64)
| CNcn (admin weight_table_admin program_admin : Pubkey) (operators vaults : u64)
| COperator (voter : Pubkey) (fee_bps : u16) (index : u64)
| CVault (index : u64) (supported_mint : Pubkey) (last_updated : u64)
| COperatorState (index opted_in : u64)
| CTicket (opted_in : u64)
| CDelegation (security : u64).
Record cell := Cell { len : usize; kind : u8; body : content }.

#[global] Instance cell_data : AccountData cell := {| data_len := len; data_byte0 := kind |}.
#[global] Instance cell_bytes : AccountBytes cell := {|
  zeros n := Cell n 0 Blank;
  resize n c := Ok (Cell n (kind c) (body c));
  set_byte0 b c := Cell (len c) b (body c);
|}.
#[global] Instance cell_bytes_laws : AccountBytesLaws cell.
Proof. split; [done|done|by intros n d d' [= <-]|by intros m n d _ [= <-]|done|done]. Qed.

Definition wrong {A} : result ProgramError.t A := Err ProgramError.InvalidAccountData.

(** A struct with its discriminator and the struct of zeros. *)
Definition stored_as {T} (discriminator : u8) (zeroed : T) (inj : T -> content) (proj : content -> option T)
    : Stored cell T := {|
  try_from_slice c :=
    if kind c =? discriminator then
      match body c with
      | Blank => Ok zeroed
      | b => match proj b with Some t => Ok t | None => wrong end
      end
    else wrong;
  assign t c := Cell (len c) (kind c) (inj t);
|}.

Lemma stored_as_laws {T} d (z : T) inj proj :
  (forall t, proj (inj t) = Some t) -> (forall t, inj t <> Blank) ->
  @StoredLaws cell T cell_data (stored_as d z inj proj).
Proof.
  intros Hp Hb. split; [|done|done]. intros c t t'. cbn. destruct (kind c =? d); [|done]. intros _.
  specialize (Hp t'). specialize (Hb t'). destruct (inj t'); [done|by rewrite Hp..].
Qed.

(** ** The structs of zeros *)
Definition zero_config : Config.t :=
  let f := Fees.mk 0 (Fee.mk 0) (Fee.mk 0) in Config.mk 0 0 0 0 0 0 (FeeConfig.mk 0 0 f f) 0.
Definition zero_mint : StMintEntry.t := StMintEntry.mk 0 (replicate 32 0) 0.
Definition zero_registry : VaultRegistry.t :=
  VaultRegistry.mk 0 0 (replicate 64 zero_mint) (replicate 64 (VaultEntry.mk 0 0 0 0)).
Definition zero_table : WeightTable.t :=
  WeightTable.mk 0 0 0 0 0 (replicate 64 (VaultEntry.mk 0 0 0 0)) (replicate 64 (WeightEntry.mk zero_mint 0 0 0)).
Definition zero_epoch : EpochSnapshot.t :=
  EpochSnapshot.mk 0 0 0 0 0 0 0 0 0 (StakeWeights.mk 0) (Fees.mk 0 (Fee.mk 0) (Fee.mk 0)).
Definition zero_operator : OperatorSnapshot.t :=
  OperatorSnapshot.mk 0 0 0 0 0 0 false 0 0 0 0 0 0 (StakeWeights.mk 0)
    (replicate 64 (VaultOperatorStakeWeight.mk 0 0 (StakeWeights.mk 0))).
Definition zero_box : BallotBox.t :=
  BallotBox.mk 0 0 0 0 0 0 0 (Ballot.mk 0 false) (replicate 256 (OperatorVote.mk 0 0 (StakeWeights.mk 0) 0))
    (replicate 256 (BallotTally.mk 0 (Ballot.mk 0 false) (StakeWeights.mk 0) 0)).
Definition zero_router : NCNRewardRouter.t :=
  NCNRewardRouter.mk 0 0 0 0 0 0 0 (replicate 128 0) 0 0 0 0 0 (replicate 256 (OperatorVaultRewardRoute.mk 0 0)).
Definition zero_operator_router : OperatorVaultRewardRouter.t :=
  OperatorVaultRewardRouter.mk 0 0 0 0 0 0 0 0 0 0 0 0 (replicate 64 (VaultRewardRoute.mk 0 0)).

(** ** Reading and assigning *)
Definition as_config c := match c with CConfig x => Some x | _ => None end.
Definition as_registry c := match c with CRegistry x => Some x | _ => None end.
Definition as_table c := match c with CTable x => Some x | _ => None end.
Definition as_epoch c := match c with CEpoch x => Some x | _ => None end.
Definition as_operator c := match c with COperatorSnapshot x => Some x | _ => None end.
Definition as_box c := match c with CBox x => Some x | _ => None end.
Definition as_result c := match c with CResult x => Some x | _ => None end.
Definition as_router c := match c with CRouter x => Some x | _ => None end.
Definition as_operator_router c := match c with COperatorRouter x => Some x | _ => None end.
Definition as_state c := match c with CState x => Some x | _ => None end.
Definition as_marker c := match c with CMarker x => Some x | _ => None end.

#[global] Instance s_config : Stored cell Config.t := stored_as 0x01 zero_config CConfig as_config.
#[global] Instance s_registry : Stored cell VaultRegistry.t := stored_as 0x02 zero_registry CRegistry as_registry.
#[global] Instance s_table : Stored cell WeightTable.t := stored_as 0x10 zero_table CTable as_table.
#[global] Instance s_epoch : Stored cell EpochSnapshot.t := stored_as 0x11 zero_epoch CEpoch as_epoch.
#[global] Instance s_operator : Stored cell OperatorSnapshot.t :=
  stored_as 0x12 zero_operator COperatorSnapshot as_operator.
#[global] Instance s_box : Stored cell BallotBox.t := stored_as 0x20 zero_box CBox as_box.
#[global] Instance s_result : Stored cell ConsensusResult.t :=
  stored_as 0x21 (ConsensusResult.mk 0 0 0 0 0 0 0) CResult as_result.
#[global] Instance s_router : Stored cell NCNRewardRouter.t := stored_as 0x40 zero_router CRouter as_router.
#[global] Instance s_operator_router : Stored cell OperatorVaultRewardRouter.t :=
  stored_as 0x41 zero_operator_router COperatorRouter as_operator_router.
#[global] Instance s_state : Stored cell EpochState.t := stored_as 0x50 EpochState.zeroed CState as_state.
#[global] Instance s_marker : Stored cell EpochMarker.t := stored_as 0x51 (EpochMarker.mk 0 0 0) CMarker as_marker.

Ltac cell_laws := by apply stored_as_laws.
#[global] Instance l_config : StoredLaws cell Config.t. Proof. cell_laws. Qed.
#[global] Instance l_registry : StoredLaws cell VaultRegistry.t. Proof. cell_laws. Qed.
#[global] Instance l_table : StoredLaws cell WeightTable.t. Proof. cell_laws. Qed.
#[global] Instance l_epoch : StoredLaws cell EpochSnapshot.t. Proof. cell_laws. Qed.
#[global] Instance l_operator : StoredLaws cell OperatorSnapshot.t. Proof. cell_laws. Qed.
#[global] Instance l_box : StoredLaws cell BallotBox.t. Proof. cell_laws. Qed.
#[global] Instance l_result : StoredLaws cell ConsensusResult.t. Proof. cell_laws. Qed.
#[global] Instance l_router : StoredLaws cell NCNRewardRouter.t. Proof. cell_laws. Qed.
#[global] Instance l_operator_router : StoredLaws cell OperatorVaultRewardRouter.t. Proof. cell_laws. Qed.
#[global] Instance l_state : StoredLaws cell EpochState.t. Proof. cell_laws. Qed.
#[global] Instance l_marker : StoredLaws cell EpochMarker.t. Proof. cell_laws. Qed.
#[global] Instance z_box : Zeroed cell BallotBox.t 0x20 Size.BallotBox zero_box.
Proof. split. reflexivity. Qed.
#[global] Instance z_state : Zeroed cell EpochState.t 0x50 Size.EpochState EpochState.zeroed.
Proof. split. reflexivity. Qed.

(** ** Outside code

    Program ids: 0 the system program, 1 restaking, 2 vaults. An opt-in counts
    from the epoch after the one in which it was made. *)
#[global] Existing Instance example_runtime.

Definition load_owned (program_id : Pubkey) (i : AccountInfo.t cell) (w : bool) : result ProgramError.t unit :=
  if negb (AccountInfo.owner i =? program_id) then Err ProgramError.InvalidAccountOwner
  else if w && negb (AccountInfo.is_writable i) then wrong else Ok tt.
Definition load_between (program_id : Pubkey) (i a b : AccountInfo.t cell) (w : bool)
    : result ProgramError.t unit := load_owned program_id i w.
(** The index of an operator in the NCN: the first is the operator of the example. *)
Definition operator_number (o : Pubkey) : u64 := if o =? 31 then 0 else Z.abs o + 1.
Definition read_cell {A} (f : content -> option A) (c : cell) : result ProgramError.t A :=
  match f (body c) with Some a => Ok a | None => wrong end.
Definition counts (opted_in slot epoch_length : u64) : bool := opted_in / epoch_length <? slot / epoch_length.

Definition externals (clock : Clock) : Externals cell := {|
  get_clock := Ok clock;
  minimum_balance := Ok (fun n => (128 + n) * 10);
  epoch_of_slot := Ok (fun s => s / 10);
  restaking_program_id := 1;
  vault_program_id := 2;
  load_signer i w :=
    if negb (AccountInfo.is_signer i) then Err ProgramError.MissingRequiredSignature
    else if w && negb (AccountInfo.is_writable i) then wrong else Ok tt;
  load_system_account i w :=
    if negb (AccountInfo.owner i =? 0) then Err ProgramError.InvalidAccountOwner
    else if negb (len (AccountInfo.data i) =? 0) then wrong
    else if w && negb (AccountInfo.is_writable i) then wrong else Ok tt;
  load_system_program i := if AccountInfo.key i =? 0 then Ok tt else Err ProgramError.IncorrectProgramId;
  load_token_mint _ := Ok tt;
  load_restaking_config := load_owned;
  load_ncn := load_owned;
  load_operator := load_owned;
  load_vault := load_owned;
  load_ncn_operator_state program_id i _ operator w :=
    let? _ := load_owned program_id i w in
    match body (AccountInfo.data i) with
    | COperatorState index _ => if index =? operator_number (AccountInfo.key operator) then Ok tt else wrong
    | _ => wrong
    end;
  load_ncn_vault_ticket := load_between;
  load_vault_ncn_ticket := load_between;
  load_vault_operator_delegation := load_between;
  restaking_epoch_length := read_cell (fun c => match c with CRestakingConfig n => Some n | _ => None end);
  ncn_admin := read_cell (fun c => match c with CNcn a _ _ _ _ => Some a | _ => None end);
  ncn_weight_table_admin := read_cell (fun c => match c with CNcn _ a _ _ _ => Some a | _ => None end);
  ncn_program_admin := read_cell (fun c => match c with CNcn _ _ a _ _ => Some a | _ => None end);
  ncn_operator_count := read_cell (fun c => match c with CNcn _ _ _ n _ => Some n | _ => None end);
  ncn_vault_count := read_cell (fun c => match c with CNcn _ _ _ _ n => Some n | _ => None end);
  operator_voter := read_cell (fun c => match c with COperator v _ _ => Some v | _ => None end);
  operator_fee_bps := read_cell (fun c => match c with COperator _ f _ => Some f | _ => None end);
  operator_index := read_cell (fun c => match c with COperator _ _ i => Some i | _ => None end);
  vault_index := read_cell (fun c => match c with CVault i _ _ => Some i | _ => None end);
  vault_supported_mint := read_cell (fun c => match c with CVault _ m _ => Some m | _ => None end);
  vault_is_update_needed slot epoch_length :=
    read_cell (fun c => match c with CVault _ _ u => Some (counts u slot epoch_length) | _ => None end);
  ncn_operator_index := read_cell (fun c => match c with COperatorState i _ => Some i | _ => None end);
  ncn_opt_in_is_active slot epoch_length :=
    read_cell (fun c => match c with COperatorState _ o => Some (counts o slot epoch_length) | _ => None end);
  operator_opt_in_is_active_or_cooldown slot epoch_length :=
    read_cell (fun c => match c with COperatorState _ o => Some (counts o slot epoch_length) | _ => None end);
  ncn_vault_ticket_is_active slot epoch_length :=
    read_cell (fun c => match c with CTicket o => Some (counts o slot epoch_length) | _ => None end);
  vault_ncn_ticket_is_active_or_cooldown slot epoch_length :=
    read_cell (fun c => match c with CTicket o => Some (counts o slot epoch_length) | _ => None end);
  delegation_total_security := read_cell (fun c => match c with CDelegation n => Some n | _ => None end);
  vault_MAX_BPS := 10000;
|}.

#[global] Instance externals_laws clock : ExternalsLaws cell (ext := externals clock).
Proof.
  split.
  - intros pid i w. cbn. unfold load_owned. destruct (_ =? pid) eqn:E; [|done]. intros _. lia.
  - intros i w. cbn. destruct (_ =? 0) eqn:E; cbn [negb]; [|done].
    destruct (len _ =? 0) eqn:E'; cbn [negb]; [|done]. intros _. split; lia.
  - intros rent n [= <-] Hn. lia.
Qed.

(** The system program: the payer signs with its seeds, owns no data and has the
    lamports; a new account is empty. *)
Definition signs (k : Pubkey) (seeds : list (list u8)) : bool := (find_pda (removelast seeds) 0).1 =? k.
Definition owned_empty (a : Account.t cell) : bool := (Account.owner a =? 0) && (len (Account.data a) =? 0).
#[global] Instance cell_system : System cell := {|
  invoke_transfer held from to n seeds s :=
    if any (Z.eqb from) held || any (Z.eqb to) held then (Err ProgramError.AccountBorrowFailed, s)
    else if negb (signs from seeds) then (Err ProgramError.MissingRequiredSignature, s)
    else if negb (owned_empty (s from)) then (Err ProgramError.InvalidArgument, s)
    else if Account.lamports (s from) <? n then (Err ProgramError.InsufficientFunds, s)
    else (Ok tt, moved from to n s);
  invoke_allocate held k n seeds s :=
    if any (Z.eqb k) held then (Err ProgramError.AccountBorrowFailed, s)
    else if negb (signs k seeds) then (Err ProgramError.MissingRequiredSignature, s)
    else if negb (owned_empty (s k)) then (Err ProgramError.InvalidArgument, s)
    else (Ok tt, update k (set_data (zeros n)) s);
  invoke_assign held k o seeds s :=
    if any (Z.eqb k) held then (Err ProgramError.AccountBorrowFailed, s)
    else if negb (signs k seeds) then (Err ProgramError.MissingRequiredSignature, s)
    else if negb (Account.owner (s k) =? 0) then (Err ProgramError.InvalidArgument, s)
    else (Ok tt, update k (set_owner o) s);
|}.
#[global] Instance cell_system_laws : SystemLaws cell.
Proof.
  split; intros held k; intros; cbn in *.
  all: repeat match goal with H : (if ?b then _ else _) = (Ok _, _) |- _ => destruct b eqn:?; [done|] end.
  all: match goal with H : (_, _) = (_, _) |- _ => injection H as <- end.
  - split; [lia|done].
  - unfold owned_empty in *. split; [lia|]. split; [lia|done].
  - split; [lia|done].
Qed.

(** ** Stores *)
Definition store_of (accounts : list (Pubkey * Account.t cell)) : Store cell := fun k =>
  match find_index (fun x => x.1 =? k) accounts with
  | Some (_, (_, a)) => a
  | None => Account.mk 0 0 (zeros 0)
  end.
Definition pda (seeds : list (list u8)) : Pubkey := (find_pda seeds 0).1.
