(* ===== verification/VoteHandlers.v ===== *)
(** Voting, end to end: [program/src/cast_vote.rs] and
    [program/src/admin_set_tie_breaker.rs], the checks on the accounts passed
    in, the calls into the core types, and what is written back. *)
From S2P Require Import Prelude Errors Precise Stake Fees Snapshots Voting EpochStates Consensus Accounts.
From S2P Require Import Machine.

Section handlers.
Context {D : Type} {data : AccountData D} {bytes : AccountBytes D} {runtime : Runtime} {ext : Externals D}.
Context {P : PreciseNumber}.
Context {s_config : Stored D Config.t} {s_box : Stored D BallotBox.t} {s_epoch : Stored D EpochSnapshot.t}
  {s_operator : Stored D OperatorSnapshot.t} {s_result : Stored D ConsensusResult.t}
  {s_state : Stored D EpochState.t}.
Import ProgramError.

(** The accounts of [process_cast_vote], taken in order. *)
Record vote_accounts := {
  epoch_state : Meta; ncn_config : Meta; ballot_box : Meta; ncn : Meta; epoch_snapshot : Meta;
  operator_snapshot : Meta; operator : Meta; operator_admin : Meta; consensus_result : Meta;
}.
Definition next_vote_accounts (accounts : list Meta) : option vote_accounts :=
  match accounts with
  | epoch_state :: ncn_config :: ballot_box :: ncn :: epoch_snapshot :: operator_snapshot
      :: operator :: operator_admin :: consensus_result :: _ =>
      Some (Build_vote_accounts epoch_state ncn_config ballot_box ncn epoch_snapshot operator_snapshot
              operator operator_admin consensus_result)
  | _ => None
  end.

Definition vote_metas (a : vote_accounts) : list Meta :=
  [epoch_state a; ncn_config a; ballot_box a; ncn a; epoch_snapshot a; operator_snapshot a;
   operator a; operator_admin a; consensus_result a].

Definition load_vote_accounts (program_id : Pubkey) (a : vote_accounts) (epoch : u64)
    : M (Store D) ProgramError.t unit :=
  let ncn_key := key (ncn a) in
  let* _ := check (fun i => load_signer i false) (operator_admin a) in
  let* _ := check (fun i => EpochStateAccount.load program_id i ncn_key epoch false) (epoch_state a) in
  let* _ := check (fun i => ConfigAccount.load program_id i ncn_key false) (ncn_config a) in
  let* _ := check (fun i => load_ncn restaking_program_id i false) (ncn a) in
  let* _ := check (fun i => load_operator restaking_program_id i false) (operator a) in
  let* _ := check (fun i => BallotBoxAccount.load program_id i ncn_key epoch true) (ballot_box a) in
  let* _ := check (fun i => EpochSnapshotAccount.load program_id i ncn_key epoch false) (epoch_snapshot a) in
  let* _ := check (fun i => OperatorSnapshotAccount.load program_id i (key (operator a)) ncn_key epoch false)
              (operator_snapshot a) in
  check (fun i => ConsensusResultAccount.load program_id i ncn_key epoch true) (consensus_result a).

(** What is written after the ballot box has the vote. *)
Definition publish_vote (a : vote_accounts) (total_stake_weights : StakeWeights.t) (slot : u64)
    : M (Store D) ProgramError.t unit :=
  let* box := read (T := BallotBox.t) (key (ballot_box a)) in
  let* _ :=
    if BallotBox.is_consensus_reached box then
      let* winning_ballot_tally := lift (into (BallotBox.get_winning_ballot_tally box)) in
      let* _ := try_borrow [key (operator a); key (ballot_box a)] (key (consensus_result a)) in
      on_account (key (consensus_result a))
        (ConsensusResult.record_consensus
           (Ballot.weather_status (BallotTally.ballot winning_ballot_tally))
           (as_u64 (StakeWeights.stake_weight (BallotTally.stake_weights winning_ballot_tally)))
           (as_u64 (StakeWeights.stake_weight total_stake_weights)) slot)
    else ret tt in
  let* _ := try_borrow [key (operator a); key (ballot_box a)] (key (epoch_state a)) in
  on_account (key (epoch_state a))
    (modify (EpochState.update_cast_vote (BallotBox.operators_voted box)
               (BallotBox.is_consensus_reached box) slot)).

Definition process_cast_vote (program_id : Pubkey) (accounts : list Meta) (weather_status : u8) (epoch : u64)
    : M (Store D) ProgramError.t unit :=
  match next_vote_accounts accounts with
  | None => throw NotEnoughAccountKeys
  | Some a =>
      let* _ := load_vote_accounts program_id a epoch in
      let* voter := peek operator_voter (key (operator a)) in
      if negb (key (operator_admin a) =? voter) then throw (from_ncn NCNProgramError.InvalidOperatorVoter)
      else
        let* config := read (T := Config.t) (key (ncn_config a)) in
        let valid_slots_after_consensus := Config.valid_slots_after_consensus config in
        let* _ := borrow [key (operator a)] (key (ballot_box a)) in
        let* _ := read (T := BallotBox.t) (key (ballot_box a)) in
        let* _ := borrow [key (ballot_box a)] (key (epoch_snapshot a)) in
        let* snapshot := read (T := EpochSnapshot.t) (key (epoch_snapshot a)) in
        if negb (EpochSnapshot.finalized snapshot)
        then throw (from_ncn NCNProgramError.EpochSnapshotNotFinalized)
        else
          let total_stake_weights := EpochSnapshot.stake_weights snapshot in
          let* _ := borrow [key (ballot_box a)] (key (operator_snapshot a)) in
          let* op := read (T := OperatorSnapshot.t) (key (operator_snapshot a)) in
          let operator_stake_weights := OperatorSnapshot.stake_weights op in
          if StakeWeights.stake_weight operator_stake_weights =? 0
          then throw (from_ncn NCNProgramError.CannotVoteWithZeroStake)
          else
            let* clock := lift get_clock in
            let ballot := Ballot.new weather_status in
            let* _ := on_account (key (ballot_box a))
                        (BallotBox.cast_vote (key (operator a)) ballot operator_stake_weights (slot clock)
                           valid_slots_after_consensus) in
            let* _ := on_account (key (ballot_box a))
                        (BallotBox.tally_votes (StakeWeights.stake_weight total_stake_weights) (slot clock)) in
            publish_vote a total_stake_weights (slot clock)
  end.

Definition process_admin_set_tie_breaker (program_id : Pubkey) (accounts : list Meta) (weather_status : u8)
    (epoch : u64) : M (Store D) ProgramError.t unit :=
  match accounts with
  | [epoch_state; ncn_config; ballot_box; ncn; tie_breaker_admin] =>
      let* _ := check (fun a => EpochStateAccount.load program_id a (key ncn) epoch true) epoch_state in
      let* _ := check (fun a => ConfigAccount.load program_id a (key ncn) false) ncn_config in
      let* _ := check (fun a => BallotBoxAccount.load program_id a (key ncn) epoch true) ballot_box in
      let* _ := check (fun a => load_ncn restaking_program_id a false) ncn in
      let* _ := check (fun a => load_signer a false) tie_breaker_admin in
      let* ncn_config_account := read (T := Config.t) (key ncn_config) in
      if negb (Config.tie_breaker_admin ncn_config_account =? key tie_breaker_admin)
      then throw (from_ncn NCNProgramError.TieBreakerAdminInvalid)
      else
        let* _ := borrow [key ncn_config] (key ballot_box) in
        let* _ := read (T := BallotBox.t) (key ballot_box) in
        let* clock := lift get_clock in
        let current_epoch := clock_epoch clock in
        let* _ := on_account (key ballot_box)
                    (BallotBox.set_tie_breaker_ballot weather_status current_epoch
                       (Config.epochs_before_stall ncn_config_account)) in
        let slot := slot clock in
        let* _ := try_borrow [key ncn_config; key ballot_box] (key epoch_state) in
        let* ballot_box_account := read (T := BallotBox.t) (key ballot_box) in
        let consensus_reached := BallotBox.is_consensus_reached ballot_box_account in
        on_account (key epoch_state) (modify (EpochState.update_set_tie_breaker consensus_reached slot))
  | _ => throw NotEnoughAccountKeys
  end.

(** ** Casting a vote, end to end *)

(** What the handler reads, and the ballot box after the vote and after the
    tally. *)
Record vote_inputs := {
  vi_config : Config.t; vi_box : BallotBox.t; vi_snapshot : EpochSnapshot.t;
  vi_operator : OperatorSnapshot.t; vi_clock : Clock; vi_result : ConsensusResult.t;
  vi_state : EpochState.t; vi_voted : BallotBox.t; vi_tallied : BallotBox.t;
}.

Section cast_vote.
Context (program_id : Pubkey) (a : vote_accounts) (status : u8) (ep : u64) (s : Store D).

(** The accounts are the ones of this NCN, epoch and operator. *)
Record vote_loads : Prop := {
  vl_signer : load_signer (info s (operator_admin a)) false = Ok tt;
  vl_epoch_state :
    EpochStateAccount.load program_id (info s (epoch_state a)) (key (ncn a)) ep false = Ok tt;
  vl_config : ConfigAccount.load program_id (info s (ncn_config a)) (key (ncn a)) false = Ok tt;
  vl_ncn : load_ncn restaking_program_id (info s (ncn a)) false = Ok tt;
  vl_operator : load_operator restaking_program_id (info s (operator a)) false = Ok tt;
  vl_ballot_box :
    BallotBoxAccount.load program_id (info s (ballot_box a)) (key (ncn a)) ep true = Ok tt;
  vl_epoch_snapshot :
    EpochSnapshotAccount.load program_id (info s (epoch_snapshot a)) (key (ncn a)) ep false = Ok tt;
  vl_operator_snapshot :
    OperatorSnapshotAccount.load program_id (info s (operator_snapshot a)) (key (operator a))
      (key (ncn a)) ep false = Ok tt;
  vl_consensus_result :
    ConsensusResultAccount.load program_id (info s (consensus_result a)) (key (ncn a)) ep true = Ok tt;
  vl_voter : operator_voter (Account.data (s (key (operator a)))) = Ok (key (operator_admin a));
}.

(** The vote is valid on what the accounts hold: the snapshot is final, the
    operator has weight, and the core accepts and tallies the vote. *)
Record vote_accepted (v : vote_inputs) : Prop := {
  vc_loads : vote_loads;
  vc_config : stored_at s (ncn_config a) (vi_config v);
  vc_box : stored_at s (ballot_box a) (vi_box v);
  vc_snapshot : stored_at s (epoch_snapshot a) (vi_snapshot v);
  vc_final : EpochSnapshot.finalized (vi_snapshot v) = true;
  vc_operator : stored_at s (operator_snapshot a) (vi_operator v);
  vc_weight : StakeWeights.stake_weight (OperatorSnapshot.stake_weights (vi_operator v)) <> 0;
  vc_clock : get_clock = Ok (vi_clock v);
  vc_result : BallotBox.is_consensus_reached (vi_tallied v) = true ->
    stored_at s (consensus_result a) (vi_result v);
  vc_state : stored_at s (epoch_state a) (vi_state v);
  vc_voted : BallotBox.cast_vote (key (operator a)) (Ballot.new status)
    (OperatorSnapshot.stake_weights (vi_operator v)) (slot (vi_clock v))
    (Config.valid_slots_after_consensus (vi_config v)) (vi_box v) = (Ok tt, vi_voted v);
  vc_tallied : BallotBox.tally_votes (StakeWeights.stake_weight (EpochSnapshot.stake_weights (vi_snapshot v)))
    (slot (vi_clock v)) (vi_voted v) = (Ok tt, vi_tallied v);
  vc_winner : BallotBox.is_consensus_reached (vi_tallied v) = true ->
    exists w, BallotBox.get_winning_ballot_tally (vi_tallied v) = Ok w;
}.

(** What a vote leaves in the store. *)
Record vote_effect (v : vote_inputs) (s' : Store D) : Prop := {
  ve_box : stored_at s' (ballot_box a) (vi_tallied v);
  ve_result : if BallotBox.is_consensus_reached (vi_tallied v) then
      exists w r', BallotBox.get_winning_ballot_tally (vi_tallied v) = Ok w
      /\ stored_at s' (consensus_result a) r'
      /\ ConsensusResult.record_consensus (Ballot.weather_status (BallotTally.ballot w))
           (as_u64 (BallotTally.weight w))
           (as_u64 (StakeWeights.stake_weight (EpochSnapshot.stake_weights (vi_snapshot v))))
           (slot (vi_clock v)) (vi_result v) = (Ok tt, r')
    else s' (key (consensus_result a)) = s (key (consensus_result a));
  ve_state : stored_at s' (epoch_state a)
    (EpochState.update_cast_vote (BallotBox.operators_voted (vi_tallied v))
       (BallotBox.is_consensus_reached (vi_tallied v)) (slot (vi_clock v)) (vi_state v));
  ve_others : forall k, k <> key (ballot_box a) -> k <> key (consensus_result a) ->
    k <> key (epoch_state a) -> s' k = s k;
  ve_alike : forall k, alike (s' k) (s k);
}.
End cast_vote.

Context {l_config : StoredLaws D Config.t} {l_box : StoredLaws D BallotBox.t}
  {l_result : StoredLaws D ConsensusResult.t} {l_state : StoredLaws D EpochState.t}
  {l_ext : ExternalsLaws D}.

(** The accounts written by a vote are three different ones, and none of them
    is the operator's. *)
Lemma vote_keys program_id a ep s : vote_loads program_id a ep s -> program_id <> restaking_program_id ->
  key (consensus_result a) <> key (ballot_box a)
  /\ key (epoch_state a) <> key (ballot_box a)
  /\ key (epoch_state a) <> key (consensus_result a)
  /\ key (epoch_snapshot a) <> key (ballot_box a)
  /\ key (operator_snapshot a) <> key (ballot_box a)
  /\ key (operator a) <> key (ballot_box a)
  /\ key (operator a) <> key (consensus_result a)
  /\ key (operator a) <> key (epoch_state a).
Proof.
  intros [] Hne. assert (Account.owner (s (key (operator a))) <> program_id) as Hop.
  { apply load_operator_owner in vl_operator0. cbn in vl_operator0. congruence. }
  split_and!; [..|by eapply different_owners; [exact vl_ballot_box0|]
                 |by eapply different_owners; [exact vl_consensus_result0|]
                 |by eapply different_owners; [exact vl_epoch_state0|]].
  - by eapply different_kinds; [exact vl_consensus_result0|exact vl_ballot_box0|].
  - by eapply different_kinds; [exact vl_epoch_state0|exact vl_ballot_box0|].
  - by eapply different_kinds; [exact vl_epoch_state0|exact vl_consensus_result0|].
  - by eapply different_kinds; [exact vl_epoch_snapshot0|exact vl_ballot_box0|].
  - by eapply different_kinds; [exact vl_operator_snapshot0|exact vl_ballot_box0|].
Qed.


Lemma load_vote_accounts_run program_id a ep s :
  exists r, load_vote_accounts program_id a ep s = (r, s) /\ (r = Ok tt <->
    load_signer (info s (operator_admin a)) false = Ok tt
    /\ EpochStateAccount.load program_id (info s (epoch_state a)) (key (ncn a)) ep false = Ok tt
    /\ ConfigAccount.load program_id (info s (ncn_config a)) (key (ncn a)) false = Ok tt
    /\ load_ncn restaking_program_id (info s (ncn a)) false = Ok tt
    /\ load_operator restaking_program_id (info s (operator a)) false = Ok tt
    /\ BallotBoxAccount.load program_id (info s (ballot_box a)) (key (ncn a)) ep true = Ok tt
    /\ EpochSnapshotAccount.load program_id (info s (epoch_snapshot a)) (key (ncn a)) ep false = Ok tt
    /\ OperatorSnapshotAccount.load program_id (info s (operator_snapshot a)) (key (operator a))
         (key (ncn a)) ep false = Ok tt
    /\ ConsensusResultAccount.load program_id (info s (consensus_result a)) (key (ncn a)) ep true = Ok tt).
Proof.
  unfold load_vote_accounts. rewrite !run_check.
  repeat match goal with
  | |- context [match ?x with Ok _ => _ | Err _ => _ | Panic => _ end] =>
      destruct x as [[]|?|] eqn:?; [|eexists; split; [reflexivity|split; [done|intuition congruence]]..];
      rewrite ?run_check
  end.
  eexists. split; [reflexivity|]. intuition.
Qed.

Lemma vote_loads_iff program_id a ep s :
  vote_loads program_id a ep s <->
  fst (load_vote_accounts program_id a ep s) = Ok tt
  /\ operator_voter (Account.data (s (key (operator a)))) = Ok (key (operator_admin a)).
Proof.
  destruct (load_vote_accounts_run program_id a ep s) as (r & -> & Hr). cbn. rewrite Hr. split.
  - intros []. tauto.
  - intros. by split; tauto.
Qed.

(** Publishing, when the accounts are apart: nothing is recorded without
    consensus, and only the result and the state are written. *)
Lemma publish_vote_run a total slot s box :
  key (consensus_result a) <> key (ballot_box a) -> key (epoch_state a) <> key (ballot_box a) ->
  key (epoch_state a) <> key (consensus_result a) ->
  key (consensus_result a) <> key (operator a) -> key (epoch_state a) <> key (operator a) ->
  stored_at s (ballot_box a) box ->
  match publish_vote a total slot s with
  | (Ok tt, s') => exists st,
      stored_at s (epoch_state a) st
      /\ stored_at s' (epoch_state a)
           (EpochState.update_cast_vote (BallotBox.operators_voted box) (BallotBox.is_consensus_reached box) slot st)
      /\ (if BallotBox.is_consensus_reached box then exists w r r',
            BallotBox.get_winning_ballot_tally box = Ok w /\ stored_at s (consensus_result a) r
            /\ stored_at s' (consensus_result a) r'
            /\ ConsensusResult.record_consensus (Ballot.weather_status (BallotTally.ballot w))
                 (as_u64 (BallotTally.weight w)) (as_u64 (StakeWeights.stake_weight total)) slot r = (Ok tt, r')
          else s' (key (consensus_result a)) = s (key (consensus_result a)))
      /\ (forall k, k <> key (consensus_result a) -> k <> key (epoch_state a) -> s' k = s k)
      /\ (forall k, alike (s' k) (s k))
  | _ => (forall st : EpochState.t, ~ stored_at s (epoch_state a) st)
         \/ (BallotBox.is_consensus_reached box = true
             /\ ((forall w, BallotBox.get_winning_ballot_tally box <> Ok w)
                 \/ (forall r : ConsensusResult.t, ~ stored_at s (consensus_result a) r)))
  end.
Proof.
  intros H1 H2 H3 H4 H5 Hbox. unfold publish_vote. rewrite run_read, Hbox.
  assert (any (Z.eqb (key (consensus_result a))) [key (operator a); key (ballot_box a)] = false) as Hf1
    by by rewrite !any_apart.
  assert (any (Z.eqb (key (epoch_state a))) [key (operator a); key (ballot_box a)] = false) as Hf2
    by by rewrite !any_apart.
  destruct (BallotBox.is_consensus_reached box) eqn:Hc.
  2: { unfold mbind at 1, ret. rewrite run_try_borrow, Hf2. unfold on_account.
       destruct (try_from_slice (Account.data (s (key (epoch_state a))))) as [st|e|] eqn:Est;
         [|left; unfold stored_at; intros ? ?; congruence..].
       unfold modify. cbn [into map_err]. exists st. split; [done|]. split; [by eapply read_write|].
       split; [by rewrite write_other|]. split; [intros k _ ?; by rewrite write_other|].
       intros k. apply write_keeps. }
  destruct (BallotBox.get_winning_ballot_tally box) as [w|e|] eqn:Hw;
    [|right; split; [done|]; left; intros ? ?; congruence..].
  unfold mbind at 1. cbn [into map_err]. rewrite run_lift_Ok, run_try_borrow, Hf1.
  unfold on_account at 1.
  destruct (try_from_slice (Account.data (s (key (consensus_result a))))) as [r|e|] eqn:Er;
    [|right; split; [done|]; right; unfold stored_at; intros ? ?; congruence..].
  rewrite ConsensusResult.record_consensus_run. cbn [into map_err].
  set (r' := if ConsensusResult.is_consensus_reached r then _ else _).
  set (s1 := write (key (consensus_result a)) r' s).
  rewrite run_try_borrow, Hf2. unfold on_account.
  assert (s1 (key (epoch_state a)) = s (key (epoch_state a))) as Hs1 by by apply write_other.
  rewrite Hs1. destruct (try_from_slice (Account.data (s (key (epoch_state a))))) as [st|e|] eqn:Est;
    [|left; unfold stored_at; intros ? ?; congruence..].
  unfold modify. cbn [into map_err]. exists st. split; [done|].
  split; [eapply read_write; by rewrite Hs1|]. split.
  - exists w, r, r'. split; [done|]. split; [done|]. split.
    + unfold stored_at. rewrite write_other by congruence. by eapply read_write.
    + apply ConsensusResult.record_consensus_run.
  - split; [intros k ? ?; rewrite write_other by done; by apply write_other|].
    intros k. etrans; apply write_keeps.
Qed.

(** From here on the vote is decided: the box holds it, and publishing is all
    that is left. *)
Lemma vote_published program_id a status ep s v s2 : program_id <> restaking_program_id ->
  vote_loads program_id a ep s ->
  stored_at s (ncn_config a) (vi_config v) -> stored_at s (ballot_box a) (vi_box v) ->
  stored_at s (epoch_snapshot a) (vi_snapshot v) -> EpochSnapshot.finalized (vi_snapshot v) = true ->
  stored_at s (operator_snapshot a) (vi_operator v) ->
  StakeWeights.stake_weight (OperatorSnapshot.stake_weights (vi_operator v)) <> 0 ->
  get_clock = Ok (vi_clock v) ->
  BallotBox.cast_vote (key (operator a)) (Ballot.new status)
    (OperatorSnapshot.stake_weights (vi_operator v)) (slot (vi_clock v))
    (Config.valid_slots_after_consensus (vi_config v)) (vi_box v) = (Ok tt, vi_voted v) ->
  BallotBox.tally_votes (StakeWeights.stake_weight (EpochSnapshot.stake_weights (vi_snapshot v)))
    (slot (vi_clock v)) (vi_voted v) = (Ok tt, vi_tallied v) ->
  stored_at s2 (ballot_box a) (vi_tallied v) ->
  (forall k, k <> key (ballot_box a) -> s2 k = s k) ->
  (forall k, alike (s2 k) (s k)) ->
  match publish_vote a (EpochSnapshot.stake_weights (vi_snapshot v)) (slot (vi_clock v)) s2 with
  | (Ok tt, s') => exists v, vote_accepted program_id a status ep s v /\ vote_effect a s v s'
  | _ => forall v, ~ vote_accepted program_id a status ep s v
  end.
Proof.
  intros Hpid HL Hcfg Hbox Hsnap Hfin Hop Hw Hclk Hcast Htally Hbox2 Hsame Hown.
  destruct (vote_keys _ _ _ _ HL Hpid) as (H1 & H2 & H3 & _ & _ & _ & H4 & H5).
  apply not_eq_sym in H4, H5.
  pose proof (publish_vote_run a (EpochSnapshot.stake_weights (vi_snapshot v)) (slot (vi_clock v)) s2
    (vi_tallied v) H1 H2 H3 H4 H5 Hbox2) as Hp.
  assert (forall v', vote_accepted program_id a status ep s v' -> vi_tallied v' = vi_tallied v) as Huniq.
  { intros v' []. unfold stored_at in *.
    assert (vi_config v' = vi_config v) as E1 by congruence. assert (vi_box v' = vi_box v) as E2 by congruence.
    assert (vi_snapshot v' = vi_snapshot v) as E3 by congruence.
    assert (vi_operator v' = vi_operator v) as E4 by congruence.
    assert (vi_clock v' = vi_clock v) as E5 by congruence.
    rewrite E1, E2, E4, E5 in vc_voted0. assert (vi_voted v' = vi_voted v) as E6 by congruence.
    rewrite E3, E5, E6 in vc_tallied0. congruence. }
  assert (forall T (st : Stored D T) m (t : T), key m <> key (ballot_box a) ->
            stored_at s2 m t <-> stored_at s m t) as Hst.
  { intros T st m t Hm. unfold stored_at. by rewrite Hsame. }
  destruct (publish_vote _ _ _ s2) as [[[]|e|] s'].
  - destruct Hp as (st & Hst2 & Hst' & Hres & Hoth & Hown').
    set (r := if BallotBox.is_consensus_reached (vi_tallied v) then
                match try_from_slice (Account.data (s (key (consensus_result a)))) with Ok r => r | _ => vi_result v end
              else vi_result v).
    exists (Build_vote_inputs (vi_config v) (vi_box v) (vi_snapshot v) (vi_operator v) (vi_clock v) r st
              (vi_voted v) (vi_tallied v)).
    apply Hst in Hst2; [|done]. split.
    + split; cbn; try done.
      * intros Hc. rewrite Hc in Hres. destruct Hres as (w & r0 & r' & _ & Hr0 & _).
        apply Hst in Hr0; [|done]. unfold r, stored_at in *. by rewrite Hc, Hr0.
      * intros Hc. rewrite Hc in Hres. destruct Hres as (w & _ & _ & Hwin & _). by exists w.
    + split; cbn; try done.
      * unfold stored_at. by rewrite Hoth by congruence.
      * destruct (BallotBox.is_consensus_reached (vi_tallied v)) eqn:Hc; [|by rewrite Hres, Hsame].
        destruct Hres as (w & r0 & r' & Hwin & Hr0 & Hr' & Hrec). exists w, r'.
        apply Hst in Hr0; [|done]. unfold r, stored_at in *. by rewrite Hr0.
      * intros k Hk1 Hk2 Hk3. by rewrite Hoth, Hsame.
      * intros k. etrans; [apply Hown'|apply Hown].
  - intros v' Hv'. pose proof (Huniq v' Hv') as Ht. destruct Hv'.
    destruct Hp as [Hp|(Hc & [Hp|Hp])].
    + apply (Hp (vi_state v')), Hst; [done|]. done.
    + rewrite Ht in vc_winner0. destruct (vc_winner0 Hc) as [w Hwin]. by apply (Hp w).
    + rewrite Ht in vc_result0. apply (Hp (vi_result v')), Hst; [done|]. by apply vc_result0.
  - intros v' Hv'. pose proof (Huniq v' Hv') as Ht. destruct Hv'.
    destruct Hp as [Hp|(Hc & [Hp|Hp])].
    + apply (Hp (vi_state v')), Hst; [done|]. done.
    + rewrite Ht in vc_winner0. destruct (vc_winner0 Hc) as [w Hwin]. by apply (Hp w).
    + rewrite Ht in vc_result0. apply (Hp (vi_result v')), Hst; [done|]. by apply vc_result0.
Qed.

Lemma cast_vote_runs program_id a rest status ep s : program_id <> restaking_program_id ->
  match process_cast_vote program_id (vote_metas a ++ rest) status ep s with
  | (Ok tt, s') => exists v, vote_accepted program_id a status ep s v /\ vote_effect a s v s'
  | _ => forall v, ~ vote_accepted program_id a status ep s v
  end.
Proof.
  intros Hpid. unfold process_cast_vote.
  assert (next_vote_accounts (vote_metas a ++ rest) = Some a) as -> by by destruct a.
  destruct (load_vote_accounts_run program_id a ep s) as (r & Hr & _).
  pose proof (vote_loads_iff program_id a ep s) as HL. rewrite Hr in HL. cbn [fst] in HL.
  unfold mbind at 1. rewrite Hr. destruct r as [[]|e|]; [|intros v []; apply HL in vc_loads0; naive_solver..].
  rewrite run_peek. destruct (operator_voter _) as [voter|e|] eqn:Hvoter;
    [|intros v []; apply HL in vc_loads0; naive_solver..].
  destruct (key (operator_admin a) =? voter) eqn:Hadmin; cbn [negb].
  2: { intros v []. apply HL in vc_loads0 as (_ & [= ->]). lia. }
  apply Z.eqb_eq in Hadmin as <-. assert (vote_loads program_id a ep s) as Hloads by by apply HL.
  destruct (vote_keys _ _ _ _ Hloads Hpid) as (H1 & H2 & H3 & H4 & H5 & H6 & H7 & H8).
  rewrite run_read. destruct (try_from_slice _) as [cfg|e|] eqn:Hcfg;
    [|intros v []; unfold stored_at in *; congruence..].
  rewrite run_borrow, any_apart by done. cbn [any existsb]. rewrite run_read.
  destruct (try_from_slice (Account.data (s (key (ballot_box a))))) as [box|e|] eqn:Hbox;
    [|intros v []; unfold stored_at in *; congruence..].
  rewrite run_borrow, any_apart by done. cbn [any existsb]. rewrite run_read.
  destruct (try_from_slice (Account.data (s (key (epoch_snapshot a))))) as [snap|e|] eqn:Hsnap;
    [|intros v []; unfold stored_at in *; congruence..].
  destruct (EpochSnapshot.finalized snap) eqn:Hfin; cbn [negb];
    [|intros v []; unfold stored_at in *; congruence].
  rewrite run_borrow, any_apart by done. cbn [any existsb]. rewrite run_read.
  destruct (try_from_slice (Account.data (s (key (operator_snapshot a))))) as [op|e|] eqn:Hop;
    [|intros v []; unfold stored_at in *; congruence..].
  destruct (StakeWeights.stake_weight (OperatorSnapshot.stake_weights op) =? 0) eqn:Hw.
  { intros v []. unfold stored_at in *. apply Z.eqb_eq in Hw. congruence. }
  apply Z.eqb_neq in Hw. destruct get_clock as [clock|e|] eqn:Hclk;
    [|intros v []; unfold stored_at in *; congruence..].
  rewrite run_lift_Ok, (run_on_account _ _ _ _ _ Hbox).
  destruct (BallotBox.cast_vote _ _ _ _ _ box) as [[[]|e|] voted] eqn:Hcast;
    [|intros v []; unfold stored_at in *; congruence..].
  set (s1 := write (key (ballot_box a)) voted s).
  assert (try_from_slice (Account.data (s1 (key (ballot_box a)))) = Ok voted) as Hbox1
    by by eapply read_write.
  rewrite (run_on_account _ _ _ _ _ Hbox1).
  destruct (BallotBox.tally_votes _ _ voted) as [[[]|e|] tallied] eqn:Htally;
    [|intros v []; unfold stored_at in *; congruence..].
  apply (vote_published program_id a status ep s
    (Build_vote_inputs cfg box snap op clock (ConsensusResult.new 0 0 0) (EpochState.new 0 0 0 0) voted tallied));
    try done.
  - by eapply read_write.
  - intros k Hk. rewrite write_other by done. by apply write_other.
  - intros k. etrans; apply write_keeps.
Qed.

(** C20: casting a vote end to end. The handler succeeds exactly when the vote
    is accepted: the nine accounts are the ones of this NCN, epoch and operator,
    the signer is the operator's voter, the epoch's snapshot is final, the
    operator has weight, and the core accepts and tallies the vote. Then the
    ballot box holds the tallied box; the consensus result is recorded exactly
    when there is consensus, with weights cut to 64 bits; the epoch state is
    updated; every other account, and every owner, balance, length and discriminator, is
    untouched. *)
Theorem cast_vote_handler_spec program_id a rest status ep s : program_id <> restaking_program_id ->
  match process_cast_vote program_id (vote_metas a ++ rest) status ep s with
  | (Ok tt, s') => exists v, vote_accepted program_id a status ep s v /\ vote_effect a s v s'
  | _ => forall v, ~ vote_accepted program_id a status ep s v
  end.
Proof. apply cast_vote_runs. Qed.

(** ** The tie breaker, end to end *)
Section tie_breaker.
Context (program_id : Pubkey) (epoch_state ncn_config ballot_box ncn tie_breaker_admin : Meta)
  (ep : u64) (s : Store D).

(** The tie breaker is accepted: the accounts are this NCN's and epoch's, the
    signer is the configured admin, and the core accepts the choice. *)
Record tie_accepted (status : u8) (config : Config.t) (clock : Clock) (box box' : BallotBox.t) (state : EpochState.t)
    : Prop := {
  tc_epoch_state : EpochStateAccount.load program_id (info s epoch_state) (key ncn) ep true = Ok tt;
  tc_ncn_config : ConfigAccount.load program_id (info s ncn_config) (key ncn) false = Ok tt;
  tc_ballot_box : BallotBoxAccount.load program_id (info s ballot_box) (key ncn) ep true = Ok tt;
  tc_ncn : load_ncn restaking_program_id (info s ncn) false = Ok tt;
  tc_signer : load_signer (info s tie_breaker_admin) false = Ok tt;
  tc_config : stored_at s ncn_config config;
  tc_admin : Config.tie_breaker_admin config = key tie_breaker_admin;
  tc_box : stored_at s ballot_box box;
  tc_clock : get_clock = Ok clock;
  tc_set : BallotBox.set_tie_breaker_ballot status (clock_epoch clock) (Config.epochs_before_stall config) box
    = (Ok tt, box');
  tc_state : stored_at s epoch_state state;
}.

Lemma tie_breaker_runs status : 0 <= status ->
  match process_admin_set_tie_breaker program_id [epoch_state; ncn_config; ballot_box; ncn; tie_breaker_admin]
          status ep s with
  | (Ok tt, s') => exists config clock box box' state,
      tie_accepted status config clock box box' state
      /\ stored_at s' ballot_box box'
      /\ stored_at s' epoch_state (EpochState.update_set_tie_breaker true (slot clock) state)
      /\ (forall k, k <> key ballot_box -> k <> key epoch_state -> s' k = s k)
      /\ (forall k, alike (s' k) (s k))
  | _ => forall config clock box box' state, ~ tie_accepted status config clock box box' state
  end.
Proof.
  intros Hstatus. unfold process_admin_set_tie_breaker. rewrite !run_check.
  destruct (EpochStateAccount.load _ _ _ _ _) as [[]|e|] eqn:H1; [|intros ????? []; congruence..].
  destruct (ConfigAccount.load _ _ _ _) as [[]|e|] eqn:H2; [|intros ????? []; congruence..].
  destruct (BallotBoxAccount.load _ _ _ _ _) as [[]|e|] eqn:H3; [|intros ????? []; congruence..].
  destruct (load_ncn _ _ _) as [[]|e|] eqn:H4; [|intros ????? []; congruence..].
  destruct (load_signer _ _) as [[]|e|] eqn:H5; [|intros ????? []; congruence..].
  assert (key ncn_config <> key ballot_box) as K1 by by eapply different_kinds; [exact H2|exact H3|].
  assert (key epoch_state <> key ballot_box) as K2 by by eapply different_kinds; [exact H1|exact H3|].
  assert (key epoch_state <> key ncn_config) as K3 by by eapply different_kinds; [exact H1|exact H2|].
  rewrite run_read. destruct (try_from_slice (Account.data (s (key ncn_config)))) as [cfg|e|] eqn:Hcfg;
    [|intros ????? []; unfold stored_at in *; congruence..].
  destruct (Config.tie_breaker_admin cfg =? key tie_breaker_admin) eqn:Ha; cbn [negb].
  2: { intros ????? []. unfold stored_at in *. apply Z.eqb_neq in Ha. congruence. }
  apply Z.eqb_eq in Ha. rewrite run_borrow, any_apart by congruence. cbn [any existsb].
  rewrite run_read. destruct (try_from_slice (Account.data (s (key ballot_box)))) as [box|e|] eqn:Hbox;
    [|intros ????? []; unfold stored_at in *; congruence..].
  destruct get_clock as [clock|e|] eqn:Hclk; [|intros ????? []; unfold stored_at in *; congruence..].
  rewrite run_lift_Ok, (run_on_account _ _ _ _ _ Hbox).
  destruct (BallotBox.set_tie_breaker_ballot _ _ _ box) as [[[]|e|] box'] eqn:Hset;
    [|intros ????? []; unfold stored_at in *; congruence..].
  set (s1 := write (key ballot_box) box' s).
  assert (try_from_slice (Account.data (s1 (key ballot_box))) = Ok box') as Hbox1 by by eapply read_write.
  rewrite run_try_borrow, !any_apart by done. cbn [any existsb]. rewrite run_read, Hbox1.
  assert (BallotBox.is_consensus_reached box' = true) as Hc.
  { destruct (BallotBox.tie_breaker_run _ _ _ _ _ Hstatus Hset) as (_ & _ & Hle & _ & ->).
    unfold BallotBox.is_consensus_reached, Ballot.new. cbn.
    destruct (status <=? 2) eqn:E; [apply orb_true_r|lia]. }
  rewrite Hc. unfold on_account.
  assert (s1 (key epoch_state) = s (key epoch_state)) as -> by by apply write_other.
  destruct (try_from_slice (Account.data (s (key epoch_state)))) as [st|e|] eqn:Hst;
    [|intros ????? []; unfold stored_at in *; congruence..].
  unfold modify. cbn [into map_err]. exists cfg, clock, box, box', st. split; [by split|].
  split; [unfold stored_at; by rewrite write_other by congruence|].
  split; [eapply read_write; unfold s1; by rewrite write_other|].
  split; [intros k ? ?; rewrite write_other by done; by apply write_other|].
  intros k. etrans; apply write_keeps.
Qed.

(** C26: breaking a tie end to end. The handler succeeds exactly when the
    configured admin signed and the core accepts the choice on what the accounts
    hold. Then the ballot box has the chosen winner and the epoch state knows
    about it, and nothing else is written; in particular the epoch's consensus
    result is not, although there is a winner now. *)
Theorem tie_breaker_handler_spec status : 0 <= status ->
  match process_admin_set_tie_breaker program_id [epoch_state; ncn_config; ballot_box; ncn; tie_breaker_admin]
          status ep s with
  | (Ok tt, s') => exists config clock box box' state,
      tie_accepted status config clock box box' state
      /\ stored_at s' ballot_box box'
      /\ stored_at s' epoch_state (EpochState.update_set_tie_breaker true (slot clock) state)
      /\ (forall k, k <> key ballot_box -> k <> key epoch_state -> s' k = s k)
      /\ (forall k, alike (s' k) (s k))
  | _ => forall config clock box box' state, ~ tie_accepted status config clock box box' state
  end.
Proof. apply tie_breaker_runs. Qed.
(** C27: a stalled vote can always be ended, for any ballot that got a vote. While
    nothing is decided, once someone has voted and the configured number of epochs
    has passed: some operator has voted for some ballot, and for every ballot that
    an operator has voted for the configured admin's instruction goes through, and
    then that ballot has won and nothing else in the box has changed. *)
Theorem stalled_votes_can_be_ended config clock box state : BallotBox.wf box ->
  EpochStateAccount.load program_id (info s epoch_state) (key ncn) ep true = Ok tt ->
  ConfigAccount.load program_id (info s ncn_config) (key ncn) false = Ok tt ->
  BallotBoxAccount.load program_id (info s ballot_box) (key ncn) ep true = Ok tt ->
  load_ncn restaking_program_id (info s ncn) false = Ok tt ->
  load_signer (info s tie_breaker_admin) false = Ok tt ->
  stored_at s ncn_config config -> stored_at s ballot_box box -> stored_at s epoch_state (state : EpochState.t) ->
  Config.tie_breaker_admin config = key tie_breaker_admin -> get_clock = Ok clock ->
  0 < BallotBox.operators_voted box -> BallotBox.is_consensus_reached box = false ->
  BallotBox.epoch box + Config.epochs_before_stall config <= clock_epoch clock <= u64_MAX ->
  (exists v b, BallotBox.voted_for v b box)
  /\ forall v b, BallotBox.voted_for v b box -> exists s',
       process_admin_set_tie_breaker program_id [epoch_state; ncn_config; ballot_box; ncn; tie_breaker_admin]
         (Ballot.weather_status b) ep s = (Ok tt, s')
       /\ stored_at s' ballot_box (box <| BallotBox.winning_ballot := b |>)
       /\ BallotBox.has_winning_ballot (box <| BallotBox.winning_ballot := b |>) = true.
Proof.
  intros Hwf L1 L2 L3 L4 L5 S1 S2 S3 Ha Hc Hv Hn Ht. split; [by apply BallotBox.some_vote|]. intros v b Hb.
  destruct (BallotBox.tie_breaker_accepts box _ _ _ _ Hwf Hb Hn Ht) as (Hst & Hset & Hwin).
  pose proof (tie_breaker_runs _ Hst) as H.
  assert (tie_accepted (Ballot.weather_status b) config clock box (box <| BallotBox.winning_ballot := b |>) state)
    as Hacc by by split.
  destruct (process_admin_set_tie_breaker _ _ _ ep s) as [[[]|e|] s']; [|by destruct (H _ _ _ _ _ Hacc)..].
  destruct H as (config1 & clock1 & box1 & box1' & state1 & [] & Hbox & _). exists s'. split; [done|].
  split; [|done]. unfold stored_at in *. assert (box1 = box) as -> by congruence.
  assert (config1 = config) as -> by congruence. assert (clock1 = clock) as -> by congruence. congruence.
Qed.
End tie_breaker.
End handlers.
