(* ===== verification/AdminHandlers.v ===== *)
(** The instructions that set an NCN up: its configuration, its vault registry
    and the weights of its mints ([program/src/admin_*.rs],
    [initialize_vault_registry.rs], [realloc_vault_registry.rs],
    [register_vault.rs], [admin_set_weight.rs]). *)
From S2P Require Import Prelude Errors Precise Registry Weights Fees EpochStates Consensus Accounts Machine.
From S2P Require Import Lamports.

Section handlers.
Context {D : Type} {data : AccountData D} {bytes : AccountBytes D} {runtime : Runtime}
  {ext : Externals D} {system : System D} {P : PreciseNumber}.
Context {s_config : Stored D Config.t} {s_registry : Stored D VaultRegistry.t}
  {s_table : Stored D WeightTable.t} {s_state : Stored D EpochState.t}.
Import ProgramError.

(** [(min..=max).contains(&x)] *)
Definition contains (min max x : Z) : bool := (min <=? x) && (x <=? max).

(** ** Configuration *)

Definition process_admin_initialize_config (program_id : Pubkey) (accounts : list Meta)
    (epochs_before_stall epochs_after_consensus_before_close valid_slots_after_consensus : u64)
    (ncn_fee_bps : u16) : M (Store D) ProgramError.t unit :=
  match accounts with
  | [config; ncn; ncn_fee_wallet; ncn_admin; tie_breaker_admin; account_payer; system_program] =>
      let* _ := check (fun a => load_system_account a true) config in
      let* _ := check load_system_program system_program in
      let* _ := check (fun a => load_signer a false) ncn_admin in
      let* _ := check (fun a => load_ncn restaking_program_id a false) ncn in
      let* _ := check (fun a => AccountPayer.load program_id a (key ncn) true) account_payer in
      let* clock := lift get_clock in
      let epoch := clock_epoch clock in
      if negb (contains MIN_EPOCHS_BEFORE_STALL MAX_EPOCHS_BEFORE_STALL epochs_before_stall)
      then throw (from_ncn NCNProgramError.InvalidEpochsBeforeStall)
      else if negb (contains MIN_EPOCHS_AFTER_CONSENSUS_BEFORE_CLOSE MAX_EPOCHS_AFTER_CONSENSUS_BEFORE_CLOSE
                      epochs_after_consensus_before_close)
      then throw (from_ncn NCNProgramError.InvalidEpochsBeforeClose)
      else if negb (contains MIN_VALID_SLOTS_AFTER_CONSENSUS MAX_VALID_SLOTS_AFTER_CONSENSUS
                      valid_slots_after_consensus)
      then throw (from_ncn NCNProgramError.InvalidSlotsAfterConsensus)
      else
        let* admin := peek Machine.ncn_admin (key ncn) in
        if negb (admin =? key ncn_admin) then throw (from_ncn NCNProgramError.IncorrectNcnAdmin)
        else
          let '(config_pda, config_bump, config_seeds) :=
            ConfigAccount.find_program_address program_id (key ncn) in
          if negb (config_pda =? key config) then throw InvalidSeeds
          else
            let* _ := Payer.pay_and_create_account [key ncn] program_id (key ncn) (key account_payer) (key config)
                        program_id Size.Config (Payer.push_bump config_seeds config_bump) in
            let* _ := try_borrow [key ncn] (key config) in
            let* _ := set_discriminator (key config) ConfigAccount.DISCRIMINATOR in
            let* _ := read (T := Config.t) (key config) in
            let starting_valid_epoch := epoch in
            let* fee_config := lift (into (FeeConfig.new (key ncn_fee_wallet) ncn_fee_bps epoch)) in
            let* _ := on_account (key config) (modify (fun _ : Config.t =>
              Config.new (key ncn) (key tie_breaker_admin) starting_valid_epoch valid_slots_after_consensus
                epochs_before_stall epochs_after_consensus_before_close fee_config config_bump)
              : M Config.t NCNProgramError.t unit) in
            let* config := read (T := Config.t) (key config) in
            lift (into (FeeConfig.check_fees_okay epoch (Config.fee_config config)))
  | _ => throw NotEnoughAccountKeys
  end.

(** The assignments of [process_admin_set_parameters] to the configuration. *)
Definition set_parameters (starting_valid_epoch epochs_before_stall epochs_after_consensus_before_close
    valid_slots_after_consensus : option u64) : M Config.t NCNProgramError.t unit :=
  let* _ :=
    match starting_valid_epoch with
    | Some epoch => modify (put Config.starting_valid_epoch epoch)
    | None => ret tt
    end in
  let* _ :=
    match epochs_before_stall with
    | Some epochs =>
        if negb (contains MIN_EPOCHS_BEFORE_STALL MAX_EPOCHS_BEFORE_STALL epochs)
        then throw NCNProgramError.InvalidEpochsBeforeStall
        else modify (put Config.epochs_before_stall epochs)
    | None => ret tt
    end in
  let* _ :=
    match epochs_after_consensus_before_close with
    | Some epochs =>
        if negb (contains MIN_EPOCHS_AFTER_CONSENSUS_BEFORE_CLOSE MAX_EPOCHS_AFTER_CONSENSUS_BEFORE_CLOSE epochs)
        then throw NCNProgramError.InvalidEpochsBeforeClose
        else modify (put Config.epochs_after_consensus_before_close epochs)
    | None => ret tt
    end in
  match valid_slots_after_consensus with
  | Some slots =>
      if negb (contains MIN_VALID_SLOTS_AFTER_CONSENSUS MAX_VALID_SLOTS_AFTER_CONSENSUS slots)
      then throw NCNProgramError.InvalidSlotsAfterConsensus
      else modify (put Config.valid_slots_after_consensus slots)
  | None => ret tt
  end.

Definition process_admin_set_parameters (program_id : Pubkey) (accounts : list Meta)
    (starting_valid_epoch epochs_before_stall epochs_after_consensus_before_close
     valid_slots_after_consensus : option u64) : M (Store D) ProgramError.t unit :=
  match accounts with
  | [config; ncn_account; ncn_admin] =>
      let* _ := check (fun a => load_signer a true) ncn_admin in
      let* _ := check (fun a => ConfigAccount.load program_id a (key ncn_account) true) config in
      let* _ := check (fun a => load_ncn restaking_program_id a false) ncn_account in
      let* admin := peek Machine.ncn_admin (key ncn_account) in
      if negb (admin =? key ncn_admin) then throw (from_ncn NCNProgramError.IncorrectNcnAdmin)
      else
        let* c := read (T := Config.t) (key config) in
        if negb (Config.ncn c =? key ncn_account) then throw (from_ncn NCNProgramError.IncorrectNcn)
        else
          on_account (key config)
            (set_parameters starting_valid_epoch epochs_before_stall epochs_after_consensus_before_close
               valid_slots_after_consensus)
  | _ => throw NotEnoughAccountKeys
  end.

Definition process_admin_set_new_admin (program_id : Pubkey) (accounts : list Meta) (role : ConfigAdminRole.t)
    : M (Store D) ProgramError.t unit :=
  match accounts with
  | [config; ncn_account; ncn_admin; new_admin] =>
      let* _ := check (fun a => load_signer a true) ncn_admin in
      let* _ := check (fun a => ConfigAccount.load program_id a (key ncn_account) true) config in
      let* _ := check (fun a => load_ncn restaking_program_id a false) ncn_account in
      let* c := read (T := Config.t) (key config) in
      if negb (Config.ncn c =? key ncn_account) then throw (from_ncn NCNProgramError.IncorrectNcn)
      else
        let* _ := borrow [key config] (key ncn_account) in
        let* admin := peek Machine.ncn_admin (key ncn_account) in
        if negb (admin =? key ncn_admin) then throw (from_ncn NCNProgramError.IncorrectNcnAdmin)
        else
          match role with
          | ConfigAdminRole.TieBreakerAdmin =>
              on_account (key config)
                (modify (put Config.tie_breaker_admin (key new_admin)) : M Config.t NCNProgramError.t unit)
          end
  | _ => throw NotEnoughAccountKeys
  end.

(** ** The vault registry *)

Definition process_initialize_vault_registry (program_id : Pubkey) (accounts : list Meta)
    : M (Store D) ProgramError.t unit :=
  match accounts with
  | [ncn_config; vault_registry; ncn; account_payer; system_program] =>
      let* _ := check (fun a => load_system_account a true) vault_registry in
      let* _ := check load_system_program system_program in
      let* _ := check (fun a => load_ncn restaking_program_id a false) ncn in
      let* _ := check (fun a => ConfigAccount.load program_id a (key ncn) false) ncn_config in
      let* _ := check (fun a => AccountPayer.load program_id a (key ncn) true) account_payer in
      let '(vault_registry_pda, vault_registry_bump, vault_registry_seeds) :=
        VaultRegistryAccount.find_program_address program_id (key ncn) in
      if negb (vault_registry_pda =? key vault_registry) then throw InvalidSeeds
      else
        Payer.pay_and_create_account [] program_id (key ncn) (key account_payer) (key vault_registry)
          program_id MAX_REALLOC_BYTES (Payer.push_bump vault_registry_seeds vault_registry_bump)
  | _ => throw NotEnoughAccountKeys
  end.

Definition process_realloc_vault_registry (program_id : Pubkey) (accounts : list Meta)
    : M (Store D) ProgramError.t unit :=
  match accounts with
  | [ncn_config; vault_registry; ncn; account_payer; system_program] =>
      let* _ := check load_system_program system_program in
      let* _ := check (fun a => load_ncn restaking_program_id a false) ncn in
      let* _ := check (fun a => ConfigAccount.load program_id a (key ncn) false) ncn_config in
      let* _ := check (fun a => AccountPayer.load program_id a (key ncn) true) account_payer in
      let '(vault_registry_pda, vault_registry_bump, vault_registry_seeds) :=
        VaultRegistryAccount.find_program_address program_id (key ncn) in
      if negb (vault_registry_pda =? key vault_registry) then throw InvalidSeeds
      else
        let* vault_registry_size := data_len_of (key vault_registry) in
        let* _ :=
          if vault_registry_size <? Size.VaultRegistry then
            let* new_size := lift (get_new_size vault_registry_size Size.VaultRegistry) in
            Payer.pay_and_realloc [] program_id (key ncn) (key account_payer) (key vault_registry) new_size
          else ret tt in
        let* s := get_self in
        let should_initialize :=
          (Size.VaultRegistry <=? data_len (Account.data (s (key vault_registry))))
          && negb (data_byte0 (Account.data (s (key vault_registry))) =? VaultRegistryAccount.DISCRIMINATOR) in
        if should_initialize then
          let* _ := set_discriminator (key vault_registry) VaultRegistryAccount.DISCRIMINATOR in
          on_account (key vault_registry)
            (modify (VaultRegistry.initialize (key ncn) vault_registry_bump)
               : M VaultRegistry.t NCNProgramError.t unit)
        else ret tt
  | _ => throw NotEnoughAccountKeys
  end.

Definition process_register_vault (program_id : Pubkey) (accounts : list Meta) : M (Store D) ProgramError.t unit :=
  match accounts with
  | [config; vault_registry; ncn; vault; ncn_vault_ticket] =>
      let* _ := check (fun a => ConfigAccount.load program_id a (key ncn) false) config in
      let* _ := check (fun a => VaultRegistryAccount.load program_id a (key ncn) true) vault_registry in
      let* _ := check (fun a => load_ncn restaking_program_id a false) ncn in
      let* _ := check (fun a => load_vault vault_program_id a false) vault in
      let* s := get_self in
      let* _ := check (fun a => load_ncn_vault_ticket restaking_program_id a (info s ncn) (info s vault) false)
                  ncn_vault_ticket in
      let* clock := lift get_clock in
      let slot := slot clock in
      let* registry := read (T := VaultRegistry.t) (key vault_registry) in
      let* _ := borrow [key vault_registry] (key vault) in
      let* supported_mint := peek vault_supported_mint (key vault) in
      if negb (VaultRegistry.has_st_mint supported_mint registry) then throw InvalidAccountData
      else
        let* index := peek vault_index (key vault) in
        on_account (key vault_registry) (VaultRegistry.register_vault (key vault) supported_mint index slot)
  | _ => throw NotEnoughAccountKeys
  end.

Definition process_admin_register_st_mint (program_id : Pubkey) (accounts : list Meta) (weight : option u128)
    : M (Store D) ProgramError.t unit :=
  match accounts with
  | [config; ncn; st_mint; vault_registry; admin] =>
      let* _ := check (fun a => ConfigAccount.load program_id a (key ncn) false) config in
      let* _ := check (fun a => VaultRegistryAccount.load program_id a (key ncn) true) vault_registry in
      let* _ := check (fun a => load_ncn restaking_program_id a false) ncn in
      let* _ := check load_token_mint st_mint in
      let* _ := check (fun a => load_signer a false) admin in
      let* ncn_program_admin := peek Machine.ncn_program_admin (key ncn) in
      if negb (ncn_program_admin =? key admin) then throw InvalidAccountData
      else
        let weight := match weight with Some w => w | None => 0 end in
        on_account (key vault_registry) (VaultRegistry.register_st_mint (key st_mint) weight)
  | _ => throw NotEnoughAccountKeys
  end.

Definition process_admin_set_st_mint (program_id : Pubkey) (accounts : list Meta) (st_mint : Pubkey)
    (weight : option u128) : M (Store D) ProgramError.t unit :=
  match accounts with
  | [config; ncn; vault_registry; admin] =>
      let* _ := check (fun a => ConfigAccount.load program_id a (key ncn) false) config in
      let* _ := check (fun a => VaultRegistryAccount.load program_id a (key ncn) true) vault_registry in
      let* _ := check (fun a => load_ncn restaking_program_id a false) ncn in
      let* _ := check (fun a => load_signer a false) admin in
      let* ncn_program_admin := peek Machine.ncn_program_admin (key ncn) in
      if negb (ncn_program_admin =? key admin) then throw InvalidAccountData
      else on_account (key vault_registry) (VaultRegistry.set_st_mint st_mint weight)
  | _ => throw NotEnoughAccountKeys
  end.

(** ** The weights of an epoch *)

Definition process_admin_set_weight (program_id : Pubkey) (accounts : list Meta) (st_mint : Pubkey)
    (epoch : u64) (weight : u128) : M (Store D) ProgramError.t unit :=
  match accounts with
  | [epoch_state; ncn; weight_table; weight_table_admin] =>
      let* _ := check (fun a => load_ncn restaking_program_id a false) ncn in
      let* ncn_weight_table_admin := peek Machine.ncn_weight_table_admin (key ncn) in
      let* _ := check (fun a => load_signer a true) weight_table_admin in
      let* _ := check (fun a => EpochStateAccount.load program_id a (key ncn) epoch true) epoch_state in
      let* _ := check (fun a => WeightTableAccount.load program_id a (key ncn) epoch true) weight_table in
      if negb (ncn_weight_table_admin =? key weight_table_admin)
      then throw (from_ncn NCNProgramError.IncorrectWeightTableAdmin)
      else
        let* table := read (T := WeightTable.t) (key weight_table) in
        let* _ := lift (into (WeightTable.check_table_initialized table)) in
        if WeightTable.finalized table then throw InvalidAccountData
        else
          let* clock := lift get_clock in
          let current_slot := slot clock in
          let* _ := on_account (key weight_table) (WeightTable.set_weight st_mint weight current_slot) in
          let* _ := try_borrow [key weight_table] (key epoch_state) in
          let* table := read (T := WeightTable.t) (key weight_table) in
          let weight_count := WeightTable.weight_count table in
          let st_mint_count := WeightTable.st_mint_count table in
          on_account (key epoch_state)
            (modify (EpochState.update_set_weight weight_count st_mint_count)
               : M EpochState.t NCNProgramError.t unit)
  | _ => throw NotEnoughAccountKeys
  end.
End handlers.
