(* ===== verification/SnapshotHandlers.v ===== *)
(** The instructions that prepare an epoch's vote: the epoch's state, weights,
    snapshots and ballot box ([program/src/initialize_epoch_state.rs],
    [initialize_weight_table.rs], [realloc_weight_table.rs],
    [set_epoch_weights.rs], [initialize_epoch_snapshot.rs],
    [initialize_operator_snapshot.rs], [snapshot_vault_operator_delegation.rs],
    [initialize_ballot_box.rs] and [realloc_ballot_box.rs]). *)
From S2P Require Import Prelude Errors Precise Stake Registry Weights Fees Snapshots Voting EpochStates.
From S2P Require Import Consensus Accounts Machine Lamports.

Section handlers.
Context {D : Type} {data : AccountData D} {bytes : AccountBytes D} {runtime : Runtime}
  {ext : Externals D} {system : System D} {P : PreciseNumber}.
Context {s_config : Stored D Config.t} {s_registry : Stored D VaultRegistry.t}
  {s_table : Stored D WeightTable.t} {s_epoch : Stored D EpochSnapshot.t}
  {s_operator : Stored D OperatorSnapshot.t} {s_box : Stored D BallotBox.t}
  {s_result : Stored D ConsensusResult.t} {s_state : Stored D EpochState.t}.
Import ProgramError.

Definition process_initialize_epoch_state (program_id : Pubkey) (accounts : list Meta) (epoch : u64)
    : M (Store D) ProgramError.t unit :=
  match accounts with
  | [epoch_marker; epoch_state; config; ncn; account_payer; system_program] =>
      let* clock := lift get_clock in
      let current_epoch := clock_epoch clock in
      if current_epoch <? epoch then throw InvalidArgument
      else
        let* _ := check (fun a => load_system_account a true) epoch_state in
        let* _ := check load_system_program system_program in
        let* _ := check (fun a => load_ncn restaking_program_id a false) ncn in
        let* _ := check (fun a => ConfigAccount.load program_id a (key ncn) false) config in
        let* _ := check (fun a => AccountPayer.load program_id a (key ncn) true) account_payer in
        let* _ := check (fun a => EpochMarker.check_dne program_id a (key ncn) epoch) epoch_marker in
        let* config_account := read (T := Config.t) (key config) in
        if epoch <? Config.starting_valid_epoch config_account then throw InvalidArgument
        else
          let '(epoch_state_pda, epoch_state_bump, epoch_state_seeds) :=
            EpochStateAccount.find_program_address program_id (key ncn) epoch in
          if negb (epoch_state_pda =? key epoch_state) then throw InvalidSeeds
          else
            let* _ := Payer.pay_and_create_account [key config] program_id (key ncn) (key account_payer)
                        (key epoch_state) program_id Size.EpochState
                        (Payer.push_bump epoch_state_seeds epoch_state_bump) in
            let* _ := try_borrow [key config] (key epoch_state) in
            let* _ := set_discriminator (key epoch_state) EpochStateAccount.DISCRIMINATOR in
            let* _ := read (T := EpochState.t) (key epoch_state) in
            let* clock := lift get_clock in
            let current_slot := slot clock in
            let* _ := update_state (key epoch_state)
                        (EpochState.initialize (key ncn) epoch epoch_state_bump current_slot) in
            update_state (key epoch_state) EpochState.update_realloc_epoch_state
  | _ => throw NotEnoughAccountKeys
  end.

(** ** Weights *)

Definition process_initialize_weight_table (program_id : Pubkey) (accounts : list Meta) (epoch : u64)
    : M (Store D) ProgramError.t unit :=
  match accounts with
  | [epoch_marker; epoch_state; vault_registry; ncn; weight_table; account_payer; system_program] =>
      let* _ := load_and_check_is_closing program_id epoch_state (key ncn) epoch false in
      let* _ := check (fun a => VaultRegistryAccount.load program_id a (key ncn) false) vault_registry in
      let* _ := check (fun a => load_ncn restaking_program_id a false) ncn in
      let* _ := check (fun a => AccountPayer.load program_id a (key ncn) true) account_payer in
      let* _ := check (fun a => EpochMarker.check_dne program_id a (key ncn) epoch) epoch_marker in
      let* _ := check (fun a => load_system_account a true) weight_table in
      let* _ := check load_system_program system_program in
      let* vault_count := peek ncn_vault_count (key ncn) in
      let* registry := read (T := VaultRegistry.t) (key vault_registry) in
      let vault_registry_count := VaultRegistry.vault_count registry in
      if negb (vault_count =? vault_registry_count) then throw InvalidAccountData
      else
        let '(weight_table_pubkey, weight_table_bump, weight_table_seeds) :=
          WeightTableAccount.find_program_address program_id (key ncn) epoch in
        if negb (weight_table_pubkey =? key weight_table) then throw InvalidAccountData
        else
          Payer.pay_and_create_account [] program_id (key ncn) (key account_payer) (key weight_table)
            program_id MAX_REALLOC_BYTES (Payer.push_bump weight_table_seeds weight_table_bump)
  | _ => throw NotEnoughAccountKeys
  end.

Definition process_realloc_weight_table (program_id : Pubkey) (accounts : list Meta) (epoch : u64)
    : M (Store D) ProgramError.t unit :=
  match accounts with
  | [epoch_state; ncn_config; weight_table; ncn; vault_registry; account_payer; system_program] =>
      let* _ := check load_system_program system_program in
      let* _ := check (fun a => load_ncn restaking_program_id a false) ncn in
      let* _ := check (fun a => EpochStateAccount.load program_id a (key ncn) epoch true) epoch_state in
      let* _ := check (fun a => ConfigAccount.load program_id a (key ncn) false) ncn_config in
      let* _ := check (fun a => VaultRegistryAccount.load program_id a (key ncn) false) vault_registry in
      let* _ := check (fun a => AccountPayer.load program_id a (key ncn) true) account_payer in
      let '(weight_table_pda, weight_table_bump, _) :=
        WeightTableAccount.find_program_address program_id (key ncn) epoch in
      if negb (weight_table_pda =? key weight_table) then throw InvalidAccountData
      else
        let* len := data_len_of (key weight_table) in
        let* _ :=
          if len <? Size.WeightTable then
            let* new_size := lift (get_new_size len Size.WeightTable) in
            Payer.pay_and_realloc [] program_id (key ncn) (key account_payer) (key weight_table) new_size
          else ret tt in
        let* s := get_self in
        let should_initialize :=
          (Size.WeightTable <=? data_len (Account.data (s (key weight_table))))
          && negb (data_byte0 (Account.data (s (key weight_table))) =? WeightTableAccount.DISCRIMINATOR) in
        if should_initialize then
          let* registry := read (T := VaultRegistry.t) (key vault_registry) in
          let vault_count := VaultRegistry.vault_count registry in
          let st_mint_count := VaultRegistry.st_mint_count registry in
          let vault_entries := VaultRegistry.vault_list registry in
          let mint_entries := VaultRegistry.st_mint_list registry in
          let* _ := try_borrow [key vault_registry] (key weight_table) in
          let* _ := set_discriminator (key weight_table) WeightTableAccount.DISCRIMINATOR in
          let* _ := read (T := WeightTable.t) (key weight_table) in
          let* clock := lift get_clock in
          let* _ := on_account (key weight_table)
                      (WeightTable.initialize (key ncn) epoch (slot clock) vault_count weight_table_bump
                         vault_entries mint_entries) in
          let* _ := try_borrow [key vault_registry; key weight_table] (key epoch_state) in
          update_state (key epoch_state) (EpochState.update_realloc_weight_table vault_count st_mint_count)
        else ret tt
  | _ => throw NotEnoughAccountKeys
  end.

(** [for mint_entry in get_valid_mint_entries()]. *)
Fixpoint set_weights (weight_table : Pubkey) (mint_entries : list StMintEntry.t)
    : M (Store D) ProgramError.t unit :=
  match mint_entries with
  | [] => ret tt
  | mint_entry :: mint_entries =>
      let weight_from_mint_entry := StMintEntry.weight mint_entry in
      if weight_from_mint_entry =? 0 then throw (from_ncn NCNProgramError.WeightNotSet)
      else
        let* clock := lift get_clock in
        let* _ := on_account weight_table
                    (WeightTable.set_weight (StMintEntry.st_mint mint_entry) weight_from_mint_entry (slot clock)) in
        set_weights weight_table mint_entries
  end.

Definition process_set_epoch_weights (program_id : Pubkey) (accounts : list Meta) (epoch : u64)
    : M (Store D) ProgramError.t unit :=
  match accounts with
  | [epoch_state; ncn; vault_registry; weight_table] =>
      let* _ := check (fun a => EpochStateAccount.load program_id a (key ncn) epoch true) epoch_state in
      let* _ := check (fun a => load_ncn restaking_program_id a false) ncn in
      let* _ := check (fun a => WeightTableAccount.load program_id a (key ncn) epoch true) weight_table in
      let* _ := check (fun a => VaultRegistryAccount.load program_id a (key ncn) false) vault_registry in
      let* weight_table_account := read (T := WeightTable.t) (key weight_table) in
      let* _ := lift (into (WeightTable.check_table_initialized weight_table_account)) in
      if WeightTable.finalized weight_table_account then throw InvalidAccountData
      else
        let* _ := borrow [key weight_table] (key vault_registry) in
        let* vault_registry_account := read (T := VaultRegistry.t) (key vault_registry) in
        let* _ := set_weights (key weight_table) (VaultRegistry.get_valid_mint_entries vault_registry_account) in
        let* _ := try_borrow [key weight_table; key vault_registry] (key epoch_state) in
        let* weight_table_account := read (T := WeightTable.t) (key weight_table) in
        update_state (key epoch_state)
          (EpochState.update_set_weight (WeightTable.weight_count weight_table_account)
             (WeightTable.st_mint_count weight_table_account))
  | _ => throw NotEnoughAccountKeys
  end.

(** ** Snapshots *)

Definition process_initialize_epoch_snapshot (program_id : Pubkey) (accounts : list Meta) (epoch : u64)
    : M (Store D) ProgramError.t unit :=
  match accounts with
  | [epoch_marker; epoch_state; config; ncn; weight_table; epoch_snapshot; account_payer; system_program] =>
      let* _ := load_and_check_is_closing program_id epoch_state (key ncn) epoch true in
      let* _ := check (fun a => ConfigAccount.load program_id a (key ncn) false) config in
      let* _ := check (fun a => load_ncn restaking_program_id a false) ncn in
      let* _ := check (fun a => AccountPayer.load program_id a (key ncn) true) account_payer in
      let* _ := check (fun a => EpochMarker.check_dne program_id a (key ncn) epoch) epoch_marker in
      let* _ := check (fun a => load_system_account a true) epoch_snapshot in
      let* _ := check load_system_program system_program in
      let* clock := lift get_clock in
      let current_slot := slot clock in
      let ncn_epoch := epoch in
      let* _ := check (fun a => WeightTableAccount.load program_id a (key ncn) ncn_epoch false) weight_table in
      let* weight_table_account := read (T := WeightTable.t) (key weight_table) in
      if negb (WeightTable.finalized weight_table_account)
      then throw (from_ncn NCNProgramError.WeightTableNotFinalized)
      else
        let vault_count := WeightTable.vault_count weight_table_account in
        let '(epoch_snapshot_pubkey, epoch_snapshot_bump, epoch_snapshot_seeds) :=
          EpochSnapshotAccount.find_program_address program_id (key ncn) ncn_epoch in
        if negb (epoch_snapshot_pubkey =? key epoch_snapshot) then throw InvalidAccountData
        else
          let* _ := Payer.pay_and_create_account [] program_id (key ncn) (key account_payer) (key epoch_snapshot)
                      program_id Size.EpochSnapshot (Payer.push_bump epoch_snapshot_seeds epoch_snapshot_bump) in
          let* operator_count := peek ncn_operator_count (key ncn) in
          if operator_count =? 0 then throw (from_ncn NCNProgramError.NoOperators)
          else
            let* _ := set_discriminator (key epoch_snapshot) EpochSnapshotAccount.DISCRIMINATOR in
            let* _ := read (T := EpochSnapshot.t) (key epoch_snapshot) in
            let* _ := borrow [key epoch_snapshot] (key config) in
            let* ncn_config_account := read (T := Config.t) (key config) in
            let ncn_fees := FeeConfig.current_fees ncn_epoch (Config.fee_config ncn_config_account) in
            let* _ := on_account (key epoch_snapshot) (modify (fun _ : EpochSnapshot.t =>
              EpochSnapshot.new (key ncn) ncn_epoch epoch_snapshot_bump current_slot operator_count vault_count
                ncn_fees) : M EpochSnapshot.t NCNProgramError.t unit) in
            let* _ := try_borrow [key epoch_snapshot] (key epoch_state) in
            update_state (key epoch_state) (EpochState.update_initialize_epoch_snapshot operator_count)
  | _ => throw NotEnoughAccountKeys
  end.

(** The epoch length is read from the account passed as [restaking_config]. *)
Definition ncn_epoch_length_of (restaking_config : Pubkey) (current_slot : u64) : M (Store D) ProgramError.t u64 :=
  let* r := peek (fun d => load_ncn_epoch (restaking_epoch_length d) current_slot None) restaking_config in
  ret r.2.

(** Whether the operator takes part, and its index in the NCN. *)
Definition operator_is_active (ncn_operator_state : Pubkey) (current_slot ncn_epoch_length : u64)
    : M (Store D) ProgramError.t (bool * u64) :=
  let* ncn_operator_okay := peek (ncn_opt_in_is_active current_slot ncn_epoch_length) ncn_operator_state in
  let* operator_ncn_okay :=
    peek (operator_opt_in_is_active_or_cooldown current_slot ncn_epoch_length) ncn_operator_state in
  let* index := peek ncn_operator_index ncn_operator_state in
  ret (ncn_operator_okay && operator_ncn_okay, index).

(** What follows the creation of the operator's snapshot account. *)
Definition take_operator_snapshot (epoch_state restaking_config ncn operator ncn_operator_state epoch_snapshot
    operator_snapshot : Pubkey) (epoch : u64) (operator_snapshot_bump : u8) : M (Store D) ProgramError.t unit :=
  let* clock := lift get_clock in
  let current_slot := slot clock in
  let* ncn_epoch_length := ncn_epoch_length_of restaking_config current_slot in
  let* (is_active, ncn_operator_index) := operator_is_active ncn_operator_state current_slot ncn_epoch_length in
  let* epoch_snapshot_account := read (T := EpochSnapshot.t) epoch_snapshot in
  let vault_count := EpochSnapshot.vault_count epoch_snapshot_account in
  let* fee_bps := peek operator_fee_bps operator in
  let* index := peek operator_index operator in
  let* _ := set_discriminator operator_snapshot OperatorSnapshotAccount.DISCRIMINATOR in
  let* _ := on_account operator_snapshot
              (OperatorSnapshot.initialize operator ncn epoch operator_snapshot_bump current_slot is_active
                 ncn_operator_index index fee_bps vault_count) in
  let* _ :=
    if negb is_active then
      let* _ := try_borrow [operator_snapshot] epoch_snapshot in
      on_account epoch_snapshot
        (EpochSnapshot.increment_operator_registration current_slot 0 StakeWeights.default)
    else ret tt in
  let* _ := try_borrow [operator_snapshot] epoch_state in
  on_account epoch_state (EpochState.update_realloc_operator_snapshot ncn_operator_index is_active).

Definition process_initialize_operator_snapshot (program_id : Pubkey) (accounts : list Meta) (epoch : u64)
    : M (Store D) ProgramError.t unit :=
  match accounts with
  | [epoch_marker; epoch_state; config; restaking_config; ncn; operator; ncn_operator_state; epoch_snapshot;
     operator_snapshot; account_payer; system_program] =>
      let* _ := load_and_check_is_closing program_id epoch_state (key ncn) epoch false in
      let* _ := check (fun a => ConfigAccount.load program_id a (key ncn) false) config in
      let* _ := check (fun a => load_ncn restaking_program_id a false) ncn in
      let* _ := check (fun a => load_operator restaking_program_id a false) operator in
      let* s := get_self in
      let* _ := check (fun a => load_ncn_operator_state restaking_program_id a (info s ncn) (info s operator) false)
                  ncn_operator_state in
      let* _ := check (fun a => EpochSnapshotAccount.load program_id a (key ncn) epoch false) epoch_snapshot in
      let* _ := check (fun a => load_system_account a true) operator_snapshot in
      let* _ := check load_system_program system_program in
      let* _ := check (fun a => AccountPayer.load program_id a (key ncn) true) account_payer in
      let* _ := check (fun a => EpochMarker.check_dne program_id a (key ncn) epoch) epoch_marker in
      let '(operator_snapshot_pubkey, operator_snapshot_bump, operator_snapshot_seeds) :=
        OperatorSnapshotAccount.find_program_address program_id (key operator) (key ncn) epoch in
      if negb (operator_snapshot_pubkey =? key operator_snapshot) then throw InvalidAccountData
      else
        let* epoch_snapshot_account := read (T := EpochSnapshot.t) (key epoch_snapshot) in
        let* operator_index := peek ncn_operator_index (key ncn_operator_state) in
        let operator_count := EpochSnapshot.operator_count epoch_snapshot_account in
        if operator_count <=? operator_index then throw (from_ncn NCNProgramError.OperatorIsNotInSnapshot)
        else
          let* _ := Payer.pay_and_create_account [] program_id (key ncn) (key account_payer)
                      (key operator_snapshot) program_id Size.OperatorSnapshot
                      (Payer.push_bump operator_snapshot_seeds operator_snapshot_bump) in
          take_operator_snapshot (key epoch_state) (key restaking_config) (key ncn) (key operator)
            (key ncn_operator_state) (key epoch_snapshot) (key operator_snapshot) epoch operator_snapshot_bump
  | _ => throw NotEnoughAccountKeys
  end.

(** The accounts of [process_snapshot_vault_operator_delegation]. *)
Record delegation_accounts := {
  epoch_state : Meta; ncn_config : Meta; restaking_config : Meta; ncn : Meta; operator : Meta; vault : Meta;
  vault_ncn_ticket : Meta; ncn_vault_ticket : Meta; vault_operator_delegation : Meta; weight_table : Meta;
  epoch_snapshot : Meta; operator_snapshot : Meta;
}.
Definition next_delegation_accounts (accounts : list Meta) : option delegation_accounts :=
  match accounts with
  | [epoch_state; ncn_config; restaking_config; ncn; operator; vault; vault_ncn_ticket; ncn_vault_ticket;
     vault_operator_delegation; weight_table; epoch_snapshot; operator_snapshot] =>
      Some (Build_delegation_accounts epoch_state ncn_config restaking_config ncn operator vault vault_ncn_ticket
              ncn_vault_ticket vault_operator_delegation weight_table epoch_snapshot operator_snapshot)
  | _ => None
  end.

(** The checks up to [WeightTable::load] and the loads of the snapshots; the
    tickets that need not exist are only loaded when they do. *)
Definition load_delegation_accounts (program_id : Pubkey) (a : delegation_accounts) (epoch : u64)
    : M (Store D) ProgramError.t unit :=
  let ncn_key := key (ncn a) in
  let* _ := check (fun i => EpochStateAccount.load program_id i ncn_key epoch true) (epoch_state a) in
  let* _ := check (fun i => ConfigAccount.load program_id i ncn_key false) (ncn_config a) in
  let* _ := check (fun i => load_restaking_config restaking_program_id i false) (restaking_config a) in
  let* _ := check (fun i => load_ncn restaking_program_id i false) (ncn a) in
  let* _ := check (fun i => load_operator restaking_program_id i false) (operator a) in
  let* _ := check (fun i => load_vault vault_program_id i false) (vault a) in
  let* s := get_self in
  let* _ := check (fun i => load_ncn_vault_ticket restaking_program_id i (info s (ncn a)) (info s (vault a)) false)
              (ncn_vault_ticket a) in
  let* _ :=
    if negb (is_empty s (vault_ncn_ticket a)) then
      check (fun i => load_vault_ncn_ticket vault_program_id i (info s (vault a)) (info s (ncn a)) false)
        (vault_ncn_ticket a)
    else ret tt in
  if negb (is_empty s (vault_operator_delegation a)) then
    check (fun i => load_vault_operator_delegation vault_program_id i (info s (vault a)) (info s (operator a)) false)
      (vault_operator_delegation a)
  else ret tt.

Definition load_snapshot_accounts (program_id : Pubkey) (a : delegation_accounts) (epoch : u64)
    : M (Store D) ProgramError.t unit :=
  let ncn_key := key (ncn a) in
  let* _ := check (fun i => WeightTableAccount.load program_id i ncn_key epoch false) (weight_table a) in
  let* _ := check (fun i => EpochSnapshotAccount.load program_id i ncn_key epoch true) (epoch_snapshot a) in
  check (fun i => OperatorSnapshotAccount.load program_id i (key (operator a)) ncn_key epoch true)
    (operator_snapshot a).

Definition delegation_is_active (a : delegation_accounts) (current_slot ncn_epoch_length : u64)
    : M (Store D) ProgramError.t bool :=
  let* ncn_vault_okay := peek (ncn_vault_ticket_is_active current_slot ncn_epoch_length) (key (ncn_vault_ticket a)) in
  let* s := get_self in
  let* vault_ncn_okay :=
    if is_empty s (vault_ncn_ticket a) then ret false
    else peek (vault_ncn_ticket_is_active_or_cooldown current_slot ncn_epoch_length) (key (vault_ncn_ticket a)) in
  let delegation_dne := is_empty s (vault_operator_delegation a) in
  ret (vault_ncn_okay && ncn_vault_okay && negb delegation_dne).

Definition delegation_stake_weight (a : delegation_accounts) (is_active : bool) (vault_index : u64)
    (st_mint : Pubkey) : M (Store D) ProgramError.t u128 :=
  let* weight_table_account := read (T := WeightTable.t) (key (weight_table a)) in
  let* _ := lift (into (WeightTable.check_registry_for_vault vault_index weight_table_account)) in
  if is_active then
    let* s := get_self in
    lift (OperatorSnapshot.calculate_total_stake_weight
            (delegation_total_security (Account.data (s (key (vault_operator_delegation a)))))
            weight_table_account st_mint)
  else ret 0.

(** The writes to the snapshots and the epoch state. *)
Definition record_delegation (a : delegation_accounts) (current_slot vault_index : u64) (total_stake_weight : u128)
    : M (Store D) ProgramError.t unit :=
  let* _ := read (T := OperatorSnapshot.t) (key (operator_snapshot a)) in
  let* stake_weights := lift (into (StakeWeights.snapshot total_stake_weight)) in
  let* _ := on_account (key (operator_snapshot a))
              (OperatorSnapshot.increment_vault_operator_delegation_registration current_slot (key (vault a))
                 vault_index stake_weights) in
  let* operator_snapshot_account := read (T := OperatorSnapshot.t) (key (operator_snapshot a)) in
  let* _ :=
    if OperatorSnapshot.finalized operator_snapshot_account then
      let* _ := try_borrow [key (operator_snapshot a)] (key (epoch_snapshot a)) in
      on_account (key (epoch_snapshot a))
        (EpochSnapshot.increment_operator_registration current_slot
           (OperatorSnapshot.valid_operator_vault_delegations operator_snapshot_account)
           (OperatorSnapshot.stake_weights operator_snapshot_account))
    else ret tt in
  let* _ := try_borrow [key (operator_snapshot a)] (key (epoch_state a)) in
  on_account (key (epoch_state a))
    (EpochState.update_snapshot_vault_operator_delegation
       (OperatorSnapshot.ncn_operator_index operator_snapshot_account)
       (OperatorSnapshot.finalized operator_snapshot_account)).

Definition process_snapshot_vault_operator_delegation (program_id : Pubkey) (accounts : list Meta) (epoch : u64)
    : M (Store D) ProgramError.t unit :=
  match next_delegation_accounts accounts with
  | None => throw NotEnoughAccountKeys
  | Some a =>
      let* _ := load_delegation_accounts program_id a epoch in
      let* clock := lift get_clock in
      let current_slot := slot clock in
      let* ncn_epoch_length := ncn_epoch_length_of (key (restaking_config a)) current_slot in
      let* _ := load_snapshot_accounts program_id a epoch in
      let* vault_needs_update := peek (vault_is_update_needed current_slot ncn_epoch_length) (key (vault a)) in
      if vault_needs_update then throw (from_ncn NCNProgramError.VaultNeedsUpdate)
      else
        let* index := peek vault_index (key (vault a)) in
        let* st_mint := peek vault_supported_mint (key (vault a)) in
        let* is_active := delegation_is_active a current_slot ncn_epoch_length in
        let* total_stake_weight := delegation_stake_weight a is_active index st_mint in
        record_delegation a current_slot index total_stake_weight
  end.

(** ** The ballot box *)

(** The accounts of [process_initialize_ballot_box] are taken from an iterator:
    more than eight are allowed. *)
Definition process_initialize_ballot_box (program_id : Pubkey) (accounts : list Meta) (epoch : u64)
    : M (Store D) ProgramError.t unit :=
  match accounts with
  | epoch_marker :: epoch_state :: ncn_config :: ballot_box :: ncn :: account_payer :: system_program
      :: consensus_result :: _ =>
      let* _ := check (fun a => load_system_account a true) ballot_box in
      let* _ := check load_system_program system_program in
      let* _ := check (fun a => load_ncn restaking_program_id a false) ncn in
      let* _ := load_and_check_is_closing program_id epoch_state (key ncn) epoch false in
      let* _ := check (fun a => ConfigAccount.load program_id a (key ncn) false) ncn_config in
      let* _ := check (fun a => AccountPayer.load program_id a (key ncn) true) account_payer in
      let* _ := check (fun a => EpochMarker.check_dne program_id a (key ncn) epoch) epoch_marker in
      let '(ballot_box_pda, ballot_box_bump, ballot_box_seeds) :=
        BallotBoxAccount.find_program_address program_id (key ncn) epoch in
      if negb (ballot_box_pda =? key ballot_box) then throw InvalidSeeds
      else
        let* _ := Payer.pay_and_create_account [] program_id (key ncn) (key account_payer) (key ballot_box)
                    program_id MAX_REALLOC_BYTES (Payer.push_bump ballot_box_seeds ballot_box_bump) in
        let* _ := check (fun a => load_system_account a true) consensus_result in
        let '(consensus_result_pda, consensus_result_bump, consensus_result_seeds) :=
          ConsensusResultAccount.find_program_address program_id (key ncn) epoch in
        if negb (consensus_result_pda =? key consensus_result) then throw InvalidSeeds
        else
          let* s := get_self in
          if is_empty s consensus_result then
            let* _ := Payer.pay_and_create_account [] program_id (key ncn) (key account_payer)
                        (key consensus_result) program_id Size.ConsensusResult
                        (Payer.push_bump consensus_result_seeds consensus_result_bump) in
            let* _ := set_discriminator (key consensus_result) ConsensusResultAccount.DISCRIMINATOR in
            on_account (key consensus_result)
              (ConsensusResult.initialize (key ncn) epoch consensus_result_bump)
          else ret tt
  | _ => throw NotEnoughAccountKeys
  end.

Definition process_realloc_ballot_box (program_id : Pubkey) (accounts : list Meta) (epoch : u64)
    : M (Store D) ProgramError.t unit :=
  match accounts with
  | [epoch_state; ncn_config; ballot_box; ncn; account_payer; system_program] =>
      let* _ := check load_system_program system_program in
      let* _ := check (fun a => load_ncn restaking_program_id a false) ncn in
      let* _ := check (fun a => EpochStateAccount.load program_id a (key ncn) epoch false) epoch_state in
      let* _ := check (fun a => ConfigAccount.load program_id a (key ncn) false) ncn_config in
      let* _ := check (fun a => AccountPayer.load program_id a (key ncn) true) account_payer in
      let '(ballot_box_pda, ballot_box_bump, _) :=
        BallotBoxAccount.find_program_address program_id (key ncn) epoch in
      if negb (ballot_box_pda =? key ballot_box) then throw InvalidAccountData
      else
        let* ballot_box_size := data_len_of (key ballot_box) in
        let* _ :=
          if ballot_box_size <? Size.BallotBox then
            let* new_size := lift (get_new_size ballot_box_size Size.BallotBox) in
            Payer.pay_and_realloc [] program_id (key ncn) (key account_payer) (key ballot_box) new_size
          else ret tt in
        let* s := get_self in
        let should_initialize :=
          (Size.BallotBox <=? data_len (Account.data (s (key ballot_box))))
          && negb (data_byte0 (Account.data (s (key ballot_box))) =? BallotBoxAccount.DISCRIMINATOR) in
        if should_initialize then
          let* _ := set_discriminator (key ballot_box) BallotBoxAccount.DISCRIMINATOR in
          let* _ := read (T := BallotBox.t) (key ballot_box) in
          let* clock := lift get_clock in
          let* _ := on_account (key ballot_box)
                      (modify (BallotBox.initialize (key ncn) epoch ballot_box_bump (slot clock))
                         : M BallotBox.t NCNProgramError.t unit) in
          let* _ := try_borrow [key ballot_box] (key epoch_state) in
          update_state (key epoch_state) EpochState.update_realloc_ballot_box
        else ret tt
  | _ => throw NotEnoughAccountKeys
  end.
End handlers.
