(* ===== verification/RewardHandlers.v ===== *)
(** The instructions that route and pay the rewards
    ([program/src/initialize_ncn_reward_router.rs], [realloc_ncn_reward_router.rs],
    [route_ncn_rewards.rs], [initialize_operator_vault_reward_router.rs],
    [route_operator_vault_rewards.rs] and [distribute_*.rs]). *)
From S2P Require Import Prelude Errors Precise Fees Snapshots Voting EpochStates NcnRouter OperatorRouter.
From S2P Require Import Consensus Accounts Machine Lamports.

Section handlers.
Context {D : Type} {data : AccountData D} {bytes : AccountBytes D} {runtime : Runtime}
  {ext : Externals D} {system : System D} {P : PreciseNumber}.
Context {s_config : Stored D Config.t} {s_epoch : Stored D EpochSnapshot.t}
  {s_operator : Stored D OperatorSnapshot.t} {s_box : Stored D BallotBox.t}
  {s_router : Stored D NCNRewardRouter.t} {s_op_router : Stored D OperatorVaultRewardRouter.t}
  {s_state : Stored D EpochState.t}.
Import ProgramError.

(** ** The NCN's router *)

Definition process_initialize_ncn_reward_router (program_id : Pubkey) (accounts : list Meta) (epoch : u64)
    : M (Store D) ProgramError.t unit :=
  match accounts with
  | [epoch_marker; epoch_state; ncn; ncn_reward_router; ncn_reward_receiver; account_payer; system_program] =>
      let* _ := load_and_check_is_closing program_id epoch_state (key ncn) epoch false in
      let* _ := check (fun a => load_ncn restaking_program_id a false) ncn in
      let* _ := check (fun a => NCNRewardReceiver.load program_id a (key ncn) epoch true) ncn_reward_receiver in
      let* _ := check (fun a => AccountPayer.load program_id a (key ncn) true) account_payer in
      let* _ := check (fun a => EpochMarker.check_dne program_id a (key ncn) epoch) epoch_marker in
      let* _ := check (fun a => load_system_account a true) ncn_reward_router in
      let* _ := check load_system_program system_program in
      let '(ncn_reward_router_pubkey, ncn_reward_router_bump, ncn_reward_router_seeds) :=
        NCNRewardRouterAccount.find_program_address program_id (key ncn) epoch in
      if negb (ncn_reward_router_pubkey =? key ncn_reward_router) then throw InvalidAccountData
      else
        let* _ := Payer.pay_and_create_account [] program_id (key ncn) (key account_payer) (key ncn_reward_router)
                    program_id MAX_REALLOC_BYTES
                    (Payer.push_bump ncn_reward_router_seeds ncn_reward_router_bump) in
        let* rent := lift minimum_balance in
        let min_rent := rent 0 in
        Payer.transfer [] program_id (key ncn) (key account_payer) (key ncn_reward_receiver) min_rent
  | _ => throw NotEnoughAccountKeys
  end.

Definition process_realloc_ncn_reward_router (program_id : Pubkey) (accounts : list Meta) (epoch : u64)
    : M (Store D) ProgramError.t unit :=
  match accounts with
  | [epoch_state; ncn_config; ncn_reward_router; ncn; account_payer; system_program] =>
      let* _ := check load_system_program system_program in
      let* _ := check (fun a => load_ncn restaking_program_id a false) ncn in
      let* _ := check (fun a => EpochStateAccount.load program_id a (key ncn) epoch true) epoch_state in
      let* _ := check (fun a => ConfigAccount.load program_id a (key ncn) false) ncn_config in
      let* _ := check (fun a => AccountPayer.load program_id a (key ncn) true) account_payer in
      let '(ncn_reward_router_pda, ncn_reward_router_bump, _) :=
        NCNRewardRouterAccount.find_program_address program_id (key ncn) epoch in
      if negb (ncn_reward_router_pda =? key ncn_reward_router) then throw InvalidAccountData
      else
        let* len := data_len_of (key ncn_reward_router) in
        let* _ :=
          if len <? Size.NCNRewardRouter then
            let* new_size := lift (get_new_size len Size.NCNRewardRouter) in
            Payer.pay_and_realloc [] program_id (key ncn) (key account_payer) (key ncn_reward_router) new_size
          else ret tt in
        let* s := get_self in
        let should_initialize :=
          (Size.NCNRewardRouter <=? data_len (Account.data (s (key ncn_reward_router))))
          && negb (data_byte0 (Account.data (s (key ncn_reward_router)))
                     =? NCNRewardRouterAccount.DISCRIMINATOR) in
        if should_initialize then
          let* _ := set_discriminator (key ncn_reward_router) NCNRewardRouterAccount.DISCRIMINATOR in
          let* _ := read (T := NCNRewardRouter.t) (key ncn_reward_router) in
          let* clock := lift get_clock in
          let* _ := on_account (key ncn_reward_router)
                      (modify (NCNRewardRouter.initialize (key ncn) epoch ncn_reward_router_bump (slot clock))
                         : M NCNRewardRouter.t NCNProgramError.t unit) in
          let* _ := try_borrow [key ncn_reward_router] (key epoch_state) in
          update_state (key epoch_state) EpochState.update_realloc_ncn_reward_router
        else ret tt
  | _ => throw NotEnoughAccountKeys
  end.

Definition process_route_ncn_rewards (program_id : Pubkey) (accounts : list Meta) (max_iterations : u16)
    (epoch : u64) : M (Store D) ProgramError.t unit :=
  match accounts with
  | [epoch_state; config; ncn; epoch_snapshot; ballot_box; ncn_reward_router; ncn_reward_receiver] =>
      let* _ := check (fun a => EpochStateAccount.load program_id a (key ncn) epoch true) epoch_state in
      let* _ := check (fun a => ConfigAccount.load program_id a (key ncn) false) config in
      let* _ := check (fun a => load_ncn restaking_program_id a false) ncn in
      let* _ := check (fun a => EpochSnapshotAccount.load program_id a (key ncn) epoch false) epoch_snapshot in
      let* _ := check (fun a => NCNRewardRouterAccount.load program_id a (key ncn) epoch true) ncn_reward_router in
      let* _ := check (fun a => BallotBoxAccount.load program_id a (key ncn) epoch false) ballot_box in
      let* _ := check (fun a => NCNRewardReceiver.load program_id a (key ncn) epoch true) ncn_reward_receiver in
      let* epoch_snapshot_account := read (T := EpochSnapshot.t) (key epoch_snapshot) in
      let* ballot_box_account := read (T := BallotBox.t) (key ballot_box) in
      let* clock := lift get_clock in
      let current_slot := slot clock in
      let* config_account := read (T := Config.t) (key config) in
      let valid_slots_after_consensus := Config.valid_slots_after_consensus config_account in
      let* voting := lift (into (BallotBox.is_voting_valid current_slot valid_slots_after_consensus
                                   ballot_box_account)) in
      if voting then throw (from_ncn NCNProgramError.VotingIsNotOver)
      else
        let* ncn_reward_receiver_balance := lamports_of (key ncn_reward_receiver) in
        let* _ := try_borrow [key epoch_snapshot; key ballot_box] (key ncn_reward_router) in
        let* router := read (T := NCNRewardRouter.t) (key ncn_reward_router) in
        let* rent := lift minimum_balance in
        let rent_cost := rent 0 in
        let* _ :=
          if negb (NCNRewardRouter.still_routing router) then
            let* _ := on_account (key ncn_reward_router)
                        (NCNRewardRouter.route_incoming_rewards rent_cost ncn_reward_receiver_balance) in
            on_account (key ncn_reward_router)
              (NCNRewardRouter.route_reward_pool (EpochSnapshot.fees epoch_snapshot_account))
          else ret tt in
        let* _ := on_account (key ncn_reward_router)
                    (NCNRewardRouter.route_operator_vault_rewards ballot_box_account max_iterations) in
        let* router := read (T := NCNRewardRouter.t) (key ncn_reward_router) in
        let total_rewards := NCNRewardRouter.total_rewards router in
        let ncn_rewards := NCNRewardRouter.ncn_rewards router in
        let protocol_rewards := NCNRewardRouter.protocol_rewards router in
        let* _ := try_borrow [key epoch_snapshot; key ballot_box; key ncn_reward_router] (key epoch_state) in
        let* _ := update_state (key epoch_state) (EpochState.update_route_ncn_rewards ncn_rewards) in
        let* _ := update_state (key epoch_state) (EpochState.update_route_protocol_rewards protocol_rewards) in
        update_state (key epoch_state) (EpochState.update_route_total_rewards total_rewards)
  | _ => throw NotEnoughAccountKeys
  end.

(** ** The operators' routers *)

Definition process_initialize_operator_vault_reward_router (program_id : Pubkey) (accounts : list Meta)
    (epoch : u64) : M (Store D) ProgramError.t unit :=
  match accounts with
  | [epoch_marker; epoch_state; ncn; operator; operator_snapshot; operator_vault_reward_router;
     operator_vault_reward_receiver; account_payer; system_program] =>
      let* _ := load_and_check_is_closing program_id epoch_state (key ncn) epoch true in
      let* _ := check (fun a => load_ncn restaking_program_id a false) ncn in
      let* _ := check (fun a => load_operator restaking_program_id a false) operator in
      let* _ := check (fun a => OperatorSnapshotAccount.load program_id a (key operator) (key ncn) epoch false)
                  operator_snapshot in
      let* _ := check (fun a => OperatorVaultRewardReceiver.load program_id a (key operator) (key ncn) epoch true)
                  operator_vault_reward_receiver in
      let* _ := check (fun a => load_system_account a true) operator_vault_reward_router in
      let* _ := check load_system_program system_program in
      let* _ := check (fun a => AccountPayer.load program_id a (key ncn) true) account_payer in
      let* _ := check (fun a => EpochMarker.check_dne program_id a (key ncn) epoch) epoch_marker in
      let* operator_snapshot_account := read (T := OperatorSnapshot.t) (key operator_snapshot) in
      let operator_ncn_index := OperatorSnapshot.ncn_operator_index operator_snapshot_account in
      let* clock := lift get_clock in
      let current_slot := slot clock in
      let '(operator_vault_reward_router_pubkey, operator_vault_reward_router_bump,
            operator_vault_reward_router_seeds) :=
        OperatorVaultRewardRouterAccount.find_program_address program_id (key operator) (key ncn) epoch in
      if negb (operator_vault_reward_router_pubkey =? key operator_vault_reward_router)
      then throw InvalidAccountData
      else
        let* _ := Payer.pay_and_create_account [] program_id (key ncn) (key account_payer)
                    (key operator_vault_reward_router) program_id Size.OperatorVaultRewardRouter
                    (Payer.push_bump operator_vault_reward_router_seeds operator_vault_reward_router_bump) in
        let* _ := set_discriminator (key operator_vault_reward_router)
                    OperatorVaultRewardRouterAccount.DISCRIMINATOR in
        let* _ := on_account (key operator_vault_reward_router)
                    (modify (fun _ : OperatorVaultRewardRouter.t =>
                       OperatorVaultRewardRouter.new (key operator) operator_ncn_index (key ncn) epoch
                         operator_vault_reward_router_bump current_slot)
                     : M OperatorVaultRewardRouter.t NCNProgramError.t unit) in
        let* rent := lift minimum_balance in
        let min_rent := rent 0 in
        let* _ := Payer.transfer [key operator_vault_reward_router] program_id (key ncn) (key account_payer)
                    (key operator_vault_reward_receiver) min_rent in
        let* _ := try_borrow [key operator_vault_reward_router] (key epoch_state) in
        on_account (key epoch_state)
          (EpochState.update_realloc_operator_vault_reward_router operator_ncn_index)
  | _ => throw NotEnoughAccountKeys
  end.

Definition process_route_operator_vault_rewards (program_id : Pubkey) (accounts : list Meta)
    (max_iterations : u16) (epoch : u64) : M (Store D) ProgramError.t unit :=
  match accounts with
  | [epoch_state; ncn; operator; operator_snapshot; ncn_reward_router; ncn_reward_receiver] =>
      let* _ := check (fun a => EpochStateAccount.load program_id a (key ncn) epoch true) epoch_state in
      let* _ := check (fun a => load_ncn restaking_program_id a false) ncn in
      let* _ := check (fun a => load_operator restaking_program_id a false) operator in
      let* _ := check (fun a => OperatorVaultRewardReceiver.load program_id a (key operator) (key ncn) epoch true)
                  ncn_reward_receiver in
      let* _ := check (fun a => OperatorSnapshotAccount.load program_id a (key operator) (key ncn) epoch false)
                  operator_snapshot in
      let* _ := check (fun a => OperatorVaultRewardRouterAccount.load program_id a (key operator) (key ncn) epoch true)
                  ncn_reward_router in
      let* operator_snapshot_account := read (T := OperatorSnapshot.t) (key operator_snapshot) in
      let* account_balance := lamports_of (key ncn_reward_receiver) in
      let* _ := try_borrow [key operator_snapshot] (key ncn_reward_router) in
      let* router := read (T := OperatorVaultRewardRouter.t) (key ncn_reward_router) in
      let* rent := lift minimum_balance in
      let rent_cost := rent 0 in
      let* _ :=
        if negb (OperatorVaultRewardRouter.still_routing router) then
          let* _ := on_account (key ncn_reward_router)
                      (OperatorVaultRewardRouter.route_incoming_rewards rent_cost account_balance) in
          on_account (key ncn_reward_router)
            (OperatorVaultRewardRouter.route_operator_rewards vault_MAX_BPS operator_snapshot_account)
        else ret tt in
      let* _ := on_account (key ncn_reward_router)
                  (OperatorVaultRewardRouter.route_reward_pool operator_snapshot_account max_iterations) in
      let* _ := try_borrow [key operator_snapshot; key ncn_reward_router] (key epoch_state) in
      let ncn_operator_index := OperatorSnapshot.ncn_operator_index operator_snapshot_account in
      let* router := read (T := OperatorVaultRewardRouter.t) (key ncn_reward_router) in
      let total_rewards := OperatorVaultRewardRouter.total_rewards router in
      on_account (key epoch_state)
        (EpochState.update_route_operator_vault_rewards ncn_operator_index total_rewards)
  | _ => throw NotEnoughAccountKeys
  end.

(** ** Paying out *)

(** The block "get rewards and update state": [owed] is the payout of the router. *)
Definition take_rewards {R} {s_r : Stored D R} (router : Pubkey) (still_routing : R -> bool)
    (owed : M R NCNProgramError.t u64) : M (Store D) ProgramError.t u64 :=
  let* r := read (T := R) router in
  if still_routing r then throw (from_ncn NCNProgramError.RouterStillRouting)
  else on_account router owed.

Definition process_distribute_ncn_rewards (program_id : Pubkey) (accounts : list Meta) (epoch : u64)
    : M (Store D) ProgramError.t unit :=
  match accounts with
  | [epoch_state; ncn_config; ncn; ncn_reward_router; ncn_reward_receiver; ncn_fee_wallet; system_program] =>
      let* _ := check (fun a => EpochStateAccount.load program_id a (key ncn) epoch true) epoch_state in
      let* _ := check (fun a => load_ncn restaking_program_id a false) ncn in
      let* _ := check (fun a => ConfigAccount.load program_id a (key ncn) false) ncn_config in
      let* _ := check (fun a => NCNRewardRouterAccount.load program_id a (key ncn) epoch true) ncn_reward_router in
      let* _ := check (fun a => NCNRewardReceiver.load program_id a (key ncn) epoch true) ncn_reward_receiver in
      let* config := read (T := Config.t) (key ncn_config) in
      let fee_wallet := FeeConfig.ncn_fee_wallet (Config.fee_config config) in
      if negb (fee_wallet =? key ncn_fee_wallet) then throw InvalidAccountData
      else
        let* rewards := take_rewards (key ncn_reward_router) NCNRewardRouter.still_routing
                          NCNRewardRouter.distribute_ncn_fee_rewards in
        let* _ :=
          if 0 <? rewards then
            let '(_, bump, seeds) := NCNRewardReceiver.find_program_address program_id (key ncn) epoch in
            invoke_transfer [] (key ncn_reward_receiver) (key ncn_fee_wallet) rewards (Payer.push_bump seeds bump)
          else ret tt in
        update_state (key epoch_state) (EpochState.update_distribute_ncn_rewards rewards)
  | _ => throw NotEnoughAccountKeys
  end.

Definition process_distribute_protocol_rewards (program_id : Pubkey) (accounts : list Meta) (epoch : u64)
    : M (Store D) ProgramError.t unit :=
  match accounts with
  | [epoch_state; ncn_config; ncn; ncn_reward_router; ncn_reward_receiver; protocol_fee_wallet; system_program] =>
      let* _ := check (fun a => EpochStateAccount.load program_id a (key ncn) epoch true) epoch_state in
      let* _ := check (fun a => load_ncn restaking_program_id a false) ncn in
      let* _ := check (fun a => ConfigAccount.load program_id a (key ncn) false) ncn_config in
      let* _ := check (fun a => NCNRewardRouterAccount.load program_id a (key ncn) epoch true) ncn_reward_router in
      let* _ := check (fun a => NCNRewardReceiver.load program_id a (key ncn) epoch true) ncn_reward_receiver in
      let* config := read (T := Config.t) (key ncn_config) in
      let fee_wallet := FeeConfig.protocol_fee_wallet (Config.fee_config config) in
      if negb (fee_wallet =? key protocol_fee_wallet) then throw InvalidAccountData
      else
        let* rewards := take_rewards (key ncn_reward_router) NCNRewardRouter.still_routing
                          NCNRewardRouter.distribute_protocol_fee_rewards in
        let* _ :=
          if 0 <? rewards then
            let '(_, bump, seeds) := NCNRewardReceiver.find_program_address program_id (key ncn) epoch in
            invoke_transfer [] (key ncn_reward_receiver) (key protocol_fee_wallet) rewards
              (Payer.push_bump seeds bump)
          else ret tt in
        update_state (key epoch_state) (EpochState.update_distribute_protocol_rewards rewards)
  | _ => throw NotEnoughAccountKeys
  end.

Definition process_distribute_operator_vault_reward_route (program_id : Pubkey) (accounts : list Meta)
    (epoch : u64) : M (Store D) ProgramError.t unit :=
  match accounts with
  | [epoch_state; ncn_config; ncn; operator; ncn_reward_router; ncn_reward_receiver; operator_vault_reward_router;
     operator_vault_reward_receiver; system_program] =>
      let* _ := check (fun a => EpochStateAccount.load program_id a (key ncn) epoch true) epoch_state in
      let* _ := check (fun a => load_ncn restaking_program_id a false) ncn in
      let* _ := check (fun a => load_operator restaking_program_id a false) operator in
      let* _ := check (fun a => ConfigAccount.load program_id a (key ncn) false) ncn_config in
      let* _ := check (fun a => NCNRewardRouterAccount.load program_id a (key ncn) epoch true) ncn_reward_router in
      let* _ := check (fun a => OperatorVaultRewardRouterAccount.load program_id a (key operator) (key ncn) epoch false)
                  operator_vault_reward_router in
      let* _ := check (fun a => NCNRewardReceiver.load program_id a (key ncn) epoch true) ncn_reward_receiver in
      let* _ := check (fun a => OperatorVaultRewardReceiver.load program_id a (key operator) (key ncn) epoch false)
                  operator_vault_reward_receiver in
      let* _ := check load_system_program system_program in
      let* rewards := take_rewards (key ncn_reward_router) NCNRewardRouter.still_routing
                        (NCNRewardRouter.distribute_operator_vault_reward_route (key operator)) in
      let* _ :=
        if 0 <? rewards then
          let '(_, bump, seeds) := NCNRewardReceiver.find_program_address program_id (key ncn) epoch in
          invoke_transfer [] (key ncn_reward_receiver) (key operator_vault_reward_receiver) rewards
            (Payer.push_bump seeds bump)
        else ret tt in
      update_state (key epoch_state) (EpochState.update_distribute_operator_vault_rewards rewards)
  | _ => throw NotEnoughAccountKeys
  end.

Definition process_distribute_operator_rewards (program_id : Pubkey) (accounts : list Meta) (epoch : u64)
    : M (Store D) ProgramError.t unit :=
  match accounts with
  | [epoch_state; ncn_config; ncn; operator; operator_snapshot; operator_vault_reward_router;
     operator_vault_reward_receiver; system_program] =>
      let* _ := check (fun a => EpochStateAccount.load program_id a (key ncn) epoch true) epoch_state in
      let* _ := check (fun a => load_ncn restaking_program_id a false) ncn in
      let* _ := check (fun a => load_operator restaking_program_id a true) operator in
      let* _ := check (fun a => OperatorSnapshotAccount.load program_id a (key operator) (key ncn) epoch true)
                  operator_snapshot in
      let* _ := check (fun a => ConfigAccount.load program_id a (key ncn) false) ncn_config in
      let* _ := check (fun a => OperatorVaultRewardRouterAccount.load program_id a (key operator) (key ncn) epoch true)
                  operator_vault_reward_router in
      let* _ := check (fun a => OperatorVaultRewardReceiver.load program_id a (key operator) (key ncn) epoch true)
                  operator_vault_reward_receiver in
      let* rewards := take_rewards (key operator_vault_reward_router) OperatorVaultRewardRouter.still_routing
                        OperatorVaultRewardRouter.distribute_operator_rewards in
      let* _ :=
        if 0 <? rewards then
          let '(_, bump, seeds) :=
            OperatorVaultRewardReceiver.find_program_address program_id (key operator) (key ncn) epoch in
          invoke_transfer [] (key operator_vault_reward_receiver) (key operator) rewards (Payer.push_bump seeds bump)
        else ret tt in
      let* operator_snapshot_account := read (T := OperatorSnapshot.t) (key operator_snapshot) in
      let* _ := try_borrow [key operator_snapshot] (key epoch_state) in
      on_account (key epoch_state)
        (EpochState.update_distribute_operator_vault_route_rewards
           (OperatorSnapshot.ncn_operator_index operator_snapshot_account) rewards)
  | _ => throw NotEnoughAccountKeys
  end.

Definition process_distribute_vault_rewards (program_id : Pubkey) (accounts : list Meta) (epoch : u64)
    : M (Store D) ProgramError.t unit :=
  match accounts with
  | [epoch_state; ncn_config; ncn; operator; vault; operator_snapshot; operator_vault_reward_router;
     operator_vault_reward_receiver; system_program] =>
      let* _ := check (fun a => EpochStateAccount.load program_id a (key ncn) epoch true) epoch_state in
      let* _ := check (fun a => load_ncn restaking_program_id a false) ncn in
      let* _ := check (fun a => load_operator restaking_program_id a false) operator in
      let* _ := check (fun a => load_vault vault_program_id a true) vault in
      let* _ := check (fun a => OperatorSnapshotAccount.load program_id a (key operator) (key ncn) epoch true)
                  operator_snapshot in
      let* _ := check (fun a => ConfigAccount.load program_id a (key ncn) false) ncn_config in
      let* _ := check (fun a => OperatorVaultRewardRouterAccount.load program_id a (key operator) (key ncn) epoch true)
                  operator_vault_reward_router in
      let* _ := check (fun a => OperatorVaultRewardReceiver.load program_id a (key operator) (key ncn) epoch true)
                  operator_vault_reward_receiver in
      let* rewards := take_rewards (key operator_vault_reward_router) OperatorVaultRewardRouter.still_routing
                        (OperatorVaultRewardRouter.distribute_vault_reward_route (key vault)) in
      let* _ :=
        if 0 <? rewards then
          let '(_, bump, seeds) :=
            OperatorVaultRewardReceiver.find_program_address program_id (key operator) (key ncn) epoch in
          invoke_transfer [] (key operator_vault_reward_receiver) (key vault) rewards (Payer.push_bump seeds bump)
        else ret tt in
      let* operator_snapshot_account := read (T := OperatorSnapshot.t) (key operator_snapshot) in
      let* _ := try_borrow [key operator_snapshot] (key epoch_state) in
      on_account (key epoch_state)
        (EpochState.update_distribute_operator_vault_route_rewards
           (OperatorSnapshot.ncn_operator_index operator_snapshot_account) rewards)
  | _ => throw NotEnoughAccountKeys
  end.
End handlers.
