(* ===== verification/CloseHandlers.v ===== *)
(** Closing the accounts of an epoch ([program/src/close_epoch_account.rs]). *)
From S2P Require Import Prelude Errors Precise Fees Weights Snapshots Voting EpochStates NcnRouter.
From S2P Require Import OperatorRouter Consensus Accounts Machine Lamports.

Section handlers.
Context {D : Type} {data : AccountData D} {bytes : AccountBytes D} {runtime : Runtime}
  {ext : Externals D} {system : System D}.
Context {s_config : Stored D Config.t} {s_operator : Stored D OperatorSnapshot.t}
  {s_op_router : Stored D OperatorVaultRewardRouter.t} {s_marker : Stored D EpochMarker.t}
  {s_state : Stored D EpochState.t}.
Import ProgramError.

(** The accounts of [process_close_epoch_account], and the optional ones. *)
Record close_accounts := {
  epoch_marker : Meta; epoch_state : Meta; config : Meta; ncn : Meta; account_to_close : Meta;
  account_payer : Meta; system_program : Meta; optional_accounts : list Meta;
}.
(** [accounts.split_at(7)] panics when there are fewer. *)
Definition split_close_accounts (accounts : list Meta) : option close_accounts :=
  match accounts with
  | epoch_marker :: epoch_state :: config :: ncn :: account_to_close :: account_payer :: system_program
      :: optional_accounts =>
      Some (Build_close_accounts epoch_marker epoch_state config ncn account_to_close account_payer system_program
              optional_accounts)
  | _ => None
  end.

Definition load_close_accounts (program_id : Pubkey) (a : close_accounts) (epoch : u64)
    : M (Store D) ProgramError.t unit :=
  let ncn_key := key (ncn a) in
  let* _ := check load_system_program (system_program a) in
  let* _ := check (fun i => load_ncn restaking_program_id i false) (ncn a) in
  let* _ := check (fun i => EpochStateAccount.load program_id i ncn_key epoch false) (epoch_state a) in
  let* _ := check (fun i => ConfigAccount.load program_id i ncn_key false) (config a) in
  let* _ := check (fun i => AccountPayer.load program_id i ncn_key false) (account_payer a) in
  check (fun i => EpochMarker.check_dne program_id i ncn_key epoch) (epoch_marker a).

(** The arm of the epoch state: it checks the struct of the account passed as
    [epoch_state]. *)
Definition mark_epoch_state (a : close_accounts) (epoch : u64) : M (Store D) ProgramError.t unit :=
  let* state := read (T := EpochState.t) (key (epoch_state a)) in
  let* _ := lift (EpochState.load_to_close state (key (ncn a)) epoch) in
  update_state (key (epoch_state a)) EpochState.close_epoch_state.

Definition mark_operator_snapshot (program_id : Pubkey) (a : close_accounts) (epoch : u64)
    : M (Store D) ProgramError.t unit :=
  let* s := get_self in
  let d := Account.data (s (key (account_to_close a))) in
  let* _ := check (fun i => OperatorSnapshotAccount.load_to_close program_id i
                              (let? o := try_from_slice (T := OperatorSnapshot.t) d in Ok (OperatorSnapshot.operator o))
                              (key (ncn a)) epoch) (account_to_close a) in
  let* snapshot := read (T := OperatorSnapshot.t) (key (account_to_close a)) in
  on_account (key (epoch_state a))
    (EpochState.close_operator_snapshot (OperatorSnapshot.ncn_operator_index snapshot)).

Definition mark_ncn_reward_router (program_id : Pubkey) (a : close_accounts) (config_account : Config.t)
    (epoch : u64) : M (Store D) ProgramError.t unit :=
  let* _ := check (fun i => NCNRewardRouterAccount.load_to_close program_id i (key (ncn a)) epoch)
              (account_to_close a) in
  match optional_accounts a with
  | [ncn_fee_wallet; ncn_reward_receiver] =>
      if negb (FeeConfig.ncn_fee_wallet (Config.fee_config config_account) =? key ncn_fee_wallet)
      then throw (from_ncn NCNProgramError.InvalidNCNFeeWallet)
      else
        let* _ := check (fun i => NCNRewardReceiver.load program_id i (key (ncn a)) epoch true) ncn_reward_receiver in
        let* _ := NcnReceiver.close [key (config a); key (epoch_state a)] program_id (key (ncn a)) epoch
                    (key ncn_reward_receiver) (key ncn_fee_wallet) (key (account_payer a)) in
        update_state (key (epoch_state a)) EpochState.close_ncn_reward_router
  | _ => throw (from_ncn NCNProgramError.CannotCloseAccountNoEnoughAccounts)
  end.

Definition mark_operator_vault_reward_router (program_id : Pubkey) (a : close_accounts) (config_account : Config.t)
    (epoch : u64) : M (Store D) ProgramError.t unit :=
  let* s := get_self in
  let d := Account.data (s (key (account_to_close a))) in
  let* _ := check (fun i => OperatorVaultRewardRouterAccount.load_to_close program_id i
                              (let? r := try_from_slice (T := OperatorVaultRewardRouter.t) d in
                               Ok (OperatorVaultRewardRouter.operator r))
                              (key (ncn a)) epoch) (account_to_close a) in
  match optional_accounts a with
  | [ncn_fee_wallet; operator_vault_reward_receiver] =>
      if negb (FeeConfig.ncn_fee_wallet (Config.fee_config config_account) =? key ncn_fee_wallet)
      then throw (from_ncn NCNProgramError.InvalidNCNFeeWallet)
      else
        let* router := read (T := OperatorVaultRewardRouter.t) (key (account_to_close a)) in
        let operator := OperatorVaultRewardRouter.operator router in
        let* _ := check (fun i => OperatorVaultRewardReceiver.load program_id i operator (key (ncn a)) epoch true)
                    operator_vault_reward_receiver in
        let* _ := OperatorReceiver.close [key (config a); key (epoch_state a); key (account_to_close a)] program_id
                    operator (key (ncn a)) epoch (key operator_vault_reward_receiver) (key ncn_fee_wallet)
                    (key (account_payer a)) in
        on_account (key (epoch_state a))
          (EpochState.close_operator_vault_reward_router (OperatorVaultRewardRouter.ncn_operator_index router))
  | _ => throw (from_ncn NCNProgramError.CannotCloseAccountNoEnoughAccounts)
  end.

(** [match discriminator], arm by arm. *)
Definition mark_closed (program_id : Pubkey) (a : close_accounts) (config_account : Config.t)
    (discriminator : u8) (epoch : u64) : M (Store D) ProgramError.t unit :=
  let ncn_key := key (ncn a) in
  let state := key (epoch_state a) in
  if discriminator =? EpochStateAccount.DISCRIMINATOR then mark_epoch_state a epoch
  else if discriminator =? WeightTableAccount.DISCRIMINATOR then
    let* _ := check (fun i => WeightTableAccount.load_to_close program_id i ncn_key epoch) (account_to_close a) in
    update_state state EpochState.close_weight_table
  else if discriminator =? EpochSnapshotAccount.DISCRIMINATOR then
    let* _ := check (fun i => EpochSnapshotAccount.load_to_close program_id i ncn_key epoch) (account_to_close a) in
    update_state state EpochState.close_epoch_snapshot
  else if discriminator =? OperatorSnapshotAccount.DISCRIMINATOR then mark_operator_snapshot program_id a epoch
  else if discriminator =? BallotBoxAccount.DISCRIMINATOR then
    let* _ := check (fun i => BallotBoxAccount.load_to_close program_id i ncn_key epoch) (account_to_close a) in
    update_state state EpochState.close_ballot_box
  else if discriminator =? NCNRewardRouterAccount.DISCRIMINATOR
  then mark_ncn_reward_router program_id a config_account epoch
  else if discriminator =? OperatorVaultRewardRouterAccount.DISCRIMINATOR
  then mark_operator_vault_reward_router program_id a config_account epoch
  else throw (from_ncn NCNProgramError.InvalidAccountToCloseDiscriminator).

(** The marker that an epoch is closed. *)
Definition create_epoch_marker (program_id : Pubkey) (a : close_accounts) (epoch : u64)
    : M (Store D) ProgramError.t unit :=
  let '(epoch_marker_pda, epoch_marker_bump, epoch_marker_seeds) :=
    EpochMarker.find_program_address program_id (key (ncn a)) epoch in
  if negb (epoch_marker_pda =? key (epoch_marker a)) then throw InvalidSeeds
  else
    let* _ := Payer.pay_and_create_account [] program_id (key (ncn a)) (key (account_payer a))
                (key (epoch_marker a)) program_id Size.EpochMarker
                (Payer.push_bump epoch_marker_seeds epoch_marker_bump) in
    let* _ := set_discriminator (key (epoch_marker a)) EpochMarker.DISCRIMINATOR in
    let* _ := read (T := EpochMarker.t) (key (epoch_marker a)) in
    let* clock := lift get_clock in
    let slot_closed := slot clock in
    on_account (key (epoch_marker a))
      (modify (fun _ : EpochMarker.t => EpochMarker.new (key (ncn a)) epoch slot_closed)
         : M EpochMarker.t NCNProgramError.t unit).

Definition process_close_epoch_account (program_id : Pubkey) (accounts : list Meta) (epoch : u64)
    : M (Store D) ProgramError.t unit :=
  match split_close_accounts accounts with
  | None => lift Panic
  | Some a =>
      let* _ := load_close_accounts program_id a epoch in
      let closing_epoch_state := key (account_to_close a) =? key (epoch_state a) in
      let* s := get_self in
      if is_empty s (account_to_close a)
      then throw (from_ncn NCNProgramError.CannotCloseAccountAlreadyClosed)
      else
        let* config_account := read (T := Config.t) (key (config a)) in
        let* _ := try_borrow [key (config a)] (key (epoch_state a)) in
        let* epoch_state_account := read (T := EpochState.t) (key (epoch_state a)) in
        let epochs_after_consensus_before_close := Config.epochs_after_consensus_before_close config_account in
        let* clock := lift get_clock in
        let current_slot := slot clock in
        let* epoch_schedule := lift epoch_of_slot in
        let* can_close_epoch_accounts :=
          lift (EpochState.can_close_epoch_accounts epoch_schedule epochs_after_consensus_before_close
                  current_slot epoch_state_account) in
        if negb can_close_epoch_accounts
        then throw (from_ncn NCNProgramError.CannotCloseAccountNotEnoughEpochs)
        else
          let* _ := update_state (key (epoch_state a)) EpochState.set_is_closing in
          let* s := get_self in
          let discriminator :=
            if closing_epoch_state then EpochStateAccount.DISCRIMINATOR
            else data_byte0 (Account.data (s (key (account_to_close a)))) in
          let* _ := mark_closed program_id a config_account discriminator epoch in
          let* _ := if closing_epoch_state then create_epoch_marker program_id a epoch else ret tt in
          Payer.close_account program_id (key (account_payer a)) (key (account_to_close a))
  end.
End handlers.
