(* ===== verification/Program.v ===== *)
(** The program: its instructions ([core/src/instruction.rs]) and their
    dispatch ([program/src/lib.rs]). *)
From S2P Require Import Prelude Errors Precise Stake Registry Weights Fees Snapshots Voting EpochStates.
From S2P Require Import NcnRouter OperatorRouter Consensus Accounts Machine Lamports VoteHandlers.
From S2P Require Import AdminHandlers SnapshotHandlers RewardHandlers CloseHandlers.

Module NCNProgramInstruction.
Inductive t :=
| InitializeConfig (epochs_before_stall epochs_after_consensus_before_close valid_slots_after_consensus : u64)
    (ncn_fee_bps : u16)
| InitializeVaultRegistry
| ReallocVaultRegistry
| RegisterVault
| InitializeEpochState (epoch : u64)
| InitializeWeightTable (epoch : u64)
| ReallocWeightTable (epoch : u64)
| SetEpochWeights (epoch : u64)
| InitializeEpochSnapshot (epoch : u64)
| InitializeOperatorSnapshot (epoch : u64)
| SnapshotVaultOperatorDelegation (epoch : u64)
| InitializeBallotBox (epoch : u64)
| ReallocBallotBox (epoch : u64)
| CastVote (weather_status : u8) (epoch : u64)
| CloseEpochAccount (epoch : u64)
| AdminSetParameters (starting_valid_epoch epochs_before_stall epochs_after_consensus_before_close
    valid_slots_after_consensus : option u64)
| AdminSetNewAdmin (role : ConfigAdminRole.t)
| AdminSetTieBreaker (weather_status : u8) (epoch : u64)
| AdminSetWeight (st_mint : Pubkey) (weight : u128) (epoch : u64)
| AdminRegisterStMint (weight : option u128)
| AdminSetStMint (st_mint : Pubkey) (weight : option u128)
| InitializeNCNRewardRouter (epoch : u64)
| ReallocNCNRewardRouter (epoch : u64)
| RouteNCNRewards (max_iterations : u16) (epoch : u64)
| DistributeProtocolRewards (epoch : u64)
| DistributeNCNRewards (epoch : u64)
| InitializeOperatorVaultRewardRouter (epoch : u64)
| DistributeOperatorVaultRewardRoute (epoch : u64)
| RouteOperatorVaultRewards (max_iterations : u16) (epoch : u64)
| DistributeOperatorRewards (epoch : u64)
| DistributeVaultRewards (epoch : u64).
End NCNProgramInstruction.

Section program.
Context {D : Type} {data : AccountData D} {bytes : AccountBytes D} {runtime : Runtime}
  {ext : Externals D} {system : System D} {P : PreciseNumber}.
Context {s_config : Stored D Config.t} {s_registry : Stored D VaultRegistry.t}
  {s_table : Stored D WeightTable.t} {s_epoch : Stored D EpochSnapshot.t}
  {s_operator : Stored D OperatorSnapshot.t} {s_box : Stored D BallotBox.t}
  {s_result : Stored D ConsensusResult.t} {s_router : Stored D NCNRewardRouter.t}
  {s_op_router : Stored D OperatorVaultRewardRouter.t} {s_marker : Stored D EpochMarker.t}
  {s_state : Stored D EpochState.t}.
Import NCNProgramInstruction.

(** [declare_id!(5SiK283D1iFSqHvr8vbNWCBjbjRXeEYS79CLax7nosPf)], the integer its
    base-58 digits denote. *)
Definition id : Pubkey := 0x4204fa6277c6e983fba8c01167677ee853a36fe13d31944b9f65da6b94d35a2a.

(** The instruction is the one the data deserializes to. *)
Definition process_instruction (program_id : Pubkey) (accounts : list Meta)
    (instruction_data : result ProgramError.t t) : M (Store D) ProgramError.t unit :=
  if negb (program_id =? id) then throw ProgramError.IncorrectProgramId
  else
    let* instruction := lift instruction_data in
    match instruction with
    | InitializeConfig epochs_before_stall epochs_after_consensus_before_close valid_slots_after_consensus
        ncn_fee_bps =>
        process_admin_initialize_config program_id accounts epochs_before_stall epochs_after_consensus_before_close
          valid_slots_after_consensus ncn_fee_bps
    | InitializeVaultRegistry => process_initialize_vault_registry program_id accounts
    | ReallocVaultRegistry => process_realloc_vault_registry program_id accounts
    | RegisterVault => process_register_vault program_id accounts
    | InitializeEpochState epoch => process_initialize_epoch_state program_id accounts epoch
    | InitializeWeightTable epoch => process_initialize_weight_table program_id accounts epoch
    | ReallocWeightTable epoch => process_realloc_weight_table program_id accounts epoch
    | SetEpochWeights epoch => process_set_epoch_weights program_id accounts epoch
    | InitializeEpochSnapshot epoch => process_initialize_epoch_snapshot program_id accounts epoch
    | InitializeOperatorSnapshot epoch => process_initialize_operator_snapshot program_id accounts epoch
    | SnapshotVaultOperatorDelegation epoch => process_snapshot_vault_operator_delegation program_id accounts epoch
    | InitializeBallotBox epoch => process_initialize_ballot_box program_id accounts epoch
    | ReallocBallotBox epoch => process_realloc_ballot_box program_id accounts epoch
    | CastVote weather_status epoch => process_cast_vote program_id accounts weather_status epoch
    | CloseEpochAccount epoch => process_close_epoch_account program_id accounts epoch
    | AdminSetParameters starting_valid_epoch epochs_before_stall epochs_after_consensus_before_close
        valid_slots_after_consensus =>
        process_admin_set_parameters program_id accounts starting_valid_epoch epochs_before_stall
          epochs_after_consensus_before_close valid_slots_after_consensus
    | AdminSetNewAdmin role => process_admin_set_new_admin program_id accounts role
    | AdminSetTieBreaker weather_status epoch => process_admin_set_tie_breaker program_id accounts weather_status epoch
    | AdminSetWeight st_mint weight epoch => process_admin_set_weight program_id accounts st_mint epoch weight
    | AdminRegisterStMint weight => process_admin_register_st_mint program_id accounts weight
    | AdminSetStMint st_mint weight => process_admin_set_st_mint program_id accounts st_mint weight
    | InitializeNCNRewardRouter epoch => process_initialize_ncn_reward_router program_id accounts epoch
    | ReallocNCNRewardRouter epoch => process_realloc_ncn_reward_router program_id accounts epoch
    | RouteNCNRewards max_iterations epoch => process_route_ncn_rewards program_id accounts max_iterations epoch
    | DistributeProtocolRewards epoch => process_distribute_protocol_rewards program_id accounts epoch
    | DistributeNCNRewards epoch => process_distribute_ncn_rewards program_id accounts epoch
    | InitializeOperatorVaultRewardRouter epoch =>
        process_initialize_operator_vault_reward_router program_id accounts epoch
    | DistributeOperatorVaultRewardRoute epoch =>
        process_distribute_operator_vault_reward_route program_id accounts epoch
    | RouteOperatorVaultRewards max_iterations epoch =>
        process_route_operator_vault_rewards program_id accounts max_iterations epoch
    | DistributeOperatorRewards epoch => process_distribute_operator_rewards program_id accounts epoch
    | DistributeVaultRewards epoch => process_distribute_vault_rewards program_id accounts epoch
    end.
End program.
