(* ===== verification/Frames.v ===== *)
(** What a run leaves alone: a program fragment touches a list of accounts when
    a successful run keeps the owner and the data of every other one. The rules
    follow the structure of the code, so that the accounts a handler touches are
    found by proof search. *)
From S2P Require Import Prelude Errors Precise EpochStates Accounts Machine Lamports.

Section frames.
Context {D : Type}.

Definition same_data (a b : Account.t D) : Prop :=
  Account.owner a = Account.owner b /\ Account.data a = Account.data b.

Definition touches {E A} (W : list Pubkey) (m : M (Store D) E A) : Prop :=
  forall s a s', m s = (Ok a, s') -> forall k, k ∉ W -> same_data (s' k) (s k).

#[global] Instance same_data_equiv : Equivalence same_data.
Proof. split; [by intros ?|by intros ?? []|intros ??? [] []; split; congruence]. Qed.

Lemma touches_bind {E A B} W (m : M (Store D) E A) (k : A -> M (Store D) E B) :
  touches W m -> (forall a, touches W (k a)) -> touches W (mbind m k).
Proof.
  intros Hm Hk s b s' (a & s1 & H1 & H2)%mbind_ok x Hx.
  etrans; [by eapply Hk|by eapply Hm].
Qed.

Lemma touches_ret {E A} W (a : A) : touches W (ret a : M (Store D) E A).
Proof. intros s b s' [= _ <-] k _. done. Qed.
Lemma touches_throw {E A} W (e : E) : touches W (throw e : M (Store D) E A).
Proof. done. Qed.
Lemma touches_lift {E A} W (r : result E A) : touches W (lift r : M (Store D) E A).
Proof. intros s b s' [= _ <-] k _. done. Qed.
Lemma touches_get_self {E} W : touches W (get_self : M (Store D) E (Store D)).
Proof. intros s b s' [= _ <-] k _. done. Qed.
Lemma touches_gets {E A} W (f : Store D -> A) : touches W (gets f : M (Store D) E A).
Proof. intros s b s' [= _ <-] k _. done. Qed.

Lemma touches_update {E} W k f : (k ∈ W \/ forall a, same_data (f a) a) ->
  touches W (modify (update k f) : M (Store D) E unit).
Proof.
  intros Hk s b s' [= _ <-] x Hx. destruct (decide (x = k)) as [->|Hne].
  - rewrite update_same. destruct Hk as [Hk|Hf]; [done|apply Hf].
  - by rewrite update_other.
Qed.

Context {data : AccountData D} {bytes : AccountBytes D} {runtime : Runtime} {ext : Externals D}
  {system : System D}.

Lemma touches_check W f m : touches W (check f m).
Proof. apply touches_bind; [apply touches_get_self|]. intros s. apply touches_lift. Qed.
Lemma touches_borrow W held k : touches W (borrow held k : M (Store D) ProgramError.t unit).
Proof. unfold borrow. destruct (any _ _); [apply touches_lift|apply touches_ret]. Qed.
Lemma touches_try_borrow W held k : touches W (try_borrow held k : M (Store D) ProgramError.t unit).
Proof. unfold try_borrow. destruct (any _ _); [apply touches_throw|apply touches_ret]. Qed.
Lemma touches_peek {A} W (f : D -> result ProgramError.t A) k : touches W (peek f k).
Proof. apply touches_bind; [apply touches_get_self|]. intros s. apply touches_lift. Qed.
Lemma touches_read {T} {st : Stored D T} W k : touches W (read (T := T) k).
Proof. apply touches_peek. Qed.

Lemma touches_on_account {T E A} {st : Stored D T} {to : Into E} W k (m : M T E A) : k ∈ W ->
  touches W (on_account k m).
Proof.
  intros Hk s a s' H x Hx. unfold on_account in H.
  destruct (try_from_slice _) as [t|e|]; [|done..]. destruct (m t) as [r t'].
  injection H as _ <-. rewrite write_other; [done|]. by intros ->.
Qed.

Lemma touches_set_discriminator W k d : k ∈ W -> touches W (set_discriminator k d).
Proof.
  intros Hk. apply touches_bind; [apply touches_get_self|]. intros s.
  destruct (_ =? 0); [apply touches_lift|]. apply touches_update. by left.
Qed.

Lemma touches_realloc W held k n : k ∈ W -> touches W (realloc held k n).
Proof.
  intros Hk. apply touches_bind; [apply touches_try_borrow|]. intros _.
  apply touches_bind; [apply touches_peek|]. intros d. apply touches_update. by left.
Qed.

Lemma touches_data_len_of W k : touches W (data_len_of k).
Proof. apply touches_gets. Qed.
Lemma touches_lamports_of W k : touches W (lamports_of k : M (Store D) _ _).
Proof. apply touches_gets. Qed.

Context {s_state : Stored D EpochState.t}.

Lemma touches_update_state W k f : k ∈ W -> touches W (update_state k f).
Proof. apply touches_on_account. Qed.

Lemma touches_load_and_check_is_closing W program_id m ncn e w :
  touches W (load_and_check_is_closing program_id m ncn e w).
Proof.
  apply touches_bind; [apply touches_read|]. intros st.
  destruct (EpochState.is_closing st); [apply touches_throw|apply touches_check].
Qed.

(** ** The system program *)
Context {l_system : SystemLaws D}.

Lemma moved_same_data from to n (s : Store D) k : same_data (moved from to n s k) (s k).
Proof.
  unfold moved, update. destruct (k =? to) eqn:E1; [apply Z.eqb_eq in E1 as ->|];
    [destruct (to =? from) eqn:E2; [apply Z.eqb_eq in E2 as ->|]; done|].
  destruct (k =? from) eqn:E2; [apply Z.eqb_eq in E2 as ->|]; done.
Qed.

Lemma touches_transfer W held from to n seeds : touches W (invoke_transfer held from to n seeds).
Proof. intros s [] s' [_ ->]%transfer_moves k _. apply moved_same_data. Qed.

Lemma touches_allocate W held k n seeds : k ∈ W -> touches W (invoke_allocate held k n seeds).
Proof. intros Hk s [] s' (_ & _ & ->)%allocate_zeros x Hx. rewrite update_other; [done|]. by intros ->. Qed.

Lemma touches_assign W held k o seeds : k ∈ W -> touches W (invoke_assign held k o seeds).
Proof. intros Hk s [] s' (_ & ->)%assign_owner x Hx. rewrite update_other; [done|]. by intros ->. Qed.
End frames.

(** ** Fragments that only read *)
Section reads.
Context {D : Type}.
Definition reads {E A} (m : M (Store D) E A) : Prop := forall s a t, m s = (Ok a, t) -> t = s.

Lemma reads_bind {E A B} (m : M (Store D) E A) (k : A -> M (Store D) E B) :
  reads m -> (forall a, reads (k a)) -> reads (mbind m k).
Proof. intros Hm Hk s b t (a & s1 & H1%Hm & H2%Hk)%mbind_ok. congruence. Qed.
Lemma reads_ret {E A} (a : A) : reads (ret a : M (Store D) E A).
Proof. by intros s b t [= _ ->]. Qed.
Lemma reads_throw {E A} (e : E) : reads (throw e : M (Store D) E A).
Proof. done. Qed.
Lemma reads_lift {E A} (r : result E A) : reads (lift r : M (Store D) E A).
Proof. by intros s b t [= _ ->]. Qed.
Lemma reads_get_self {E} : reads (get_self : M (Store D) E (Store D)).
Proof. by intros s b t [= _ ->]. Qed.
Lemma reads_check f m : reads (check (D := D) f m).
Proof. apply reads_bind; [apply reads_get_self|]. intros s. apply reads_lift. Qed.
Lemma reads_peek {A} (f : D -> result ProgramError.t A) k : reads (peek f k).
Proof. apply reads_bind; [apply reads_get_self|]. intros s. apply reads_lift. Qed.
Lemma reads_read {T} {st : Stored D T} k : reads (read (T := T) k).
Proof. apply reads_peek. Qed.

(** A call in front of a run. *)
Lemma inv_call {E A B} (m : M (Store D) E A) (k : A -> M (Store D) E B) s b s' : reads m ->
  mbind m k s = (Ok b, s') -> exists a, m s = (Ok a, s) /\ k a s = (Ok b, s').
Proof. intros Hm (a & t & H1 & H2)%mbind_ok. pose proof (Hm _ _ _ H1) as ->. eauto. Qed.
End reads.

Create HintDb frame.
#[export] Hint Resolve reads_ret reads_throw reads_lift reads_get_self reads_check reads_peek reads_read : frame.
(** [reading]: like [touching] below, for the fragments that write nothing. *)
Ltac reading :=
  repeat first
    [ progress intros
    | solve [eauto 2 with frame nocore]
    | apply reads_bind
    | progress cbv beta zeta iota
    | match goal with
      | |- reads (match ?x with _ => _ end) => destruct x
      | |- reads (if ?b then _ else _) => destruct b
      end ].

(** [touching]: the rules, the tests and the matches of the code; what is left
    are the accounts that are written. *)
Ltac in_list := solve [repeat first [apply list_elem_of_here | apply list_elem_of_further]].
#[export] Hint Resolve touches_ret touches_throw touches_lift touches_get_self touches_gets touches_check
  touches_borrow touches_try_borrow touches_peek touches_read touches_data_len_of touches_lamports_of
  touches_load_and_check_is_closing touches_transfer : frame.
#[export] Hint Extern 1 (_ ∈ _) => in_list : frame.
#[export] Hint Resolve touches_on_account touches_set_discriminator touches_realloc touches_update_state
  touches_allocate touches_assign : frame.
Ltac touching :=
  repeat first
    [ progress intros
    | solve [eauto 2 with frame nocore]
    | apply touches_bind
    | progress cbv beta zeta iota
    | match goal with
      | |- touches _ (match ?x with _ => _ end) => destruct x
      | |- touches _ (if ?b then _ else _) => destruct b
      end ].

Section lamports_frames.
Context {D : Type} {data : AccountData D} {bytes : AccountBytes D} {runtime : Runtime} {ext : Externals D}
  {system : System D} {l_system : SystemLaws D}.

Lemma touches_payer_transfer W held program_id ncn payer to n :
  touches W (Payer.transfer held program_id ncn payer to n : M (Store D) _ _).
Proof. unfold Payer.transfer. touching. Qed.
Lemma touches_create W held program_id ncn payer k o n seeds : k ∈ W ->
  touches W (Payer.pay_and_create_account held program_id ncn payer k o n seeds).
Proof. intros Hk. unfold Payer.pay_and_create_account, Payer.transfer. touching. Qed.
Lemma touches_pay_and_realloc W held program_id ncn payer k n : k ∈ W ->
  touches W (Payer.pay_and_realloc held program_id ncn payer k n).
Proof. intros Hk. unfold Payer.pay_and_realloc, Payer.transfer. touching. Qed.
Lemma touches_close_account W program_id payer k : k ∈ W -> touches W (Payer.close_account program_id payer k).
Proof.
  intros Hk. unfold Payer.close_account. touching; apply touches_update; [by right|by left..].
Qed.
Lemma touches_ncn_close W held program_id ncn e r w p :
  touches W (NcnReceiver.close held program_id ncn e r w p : M (Store D) _ _).
Proof. unfold NcnReceiver.close, NcnReceiver.transfer. touching. Qed.
Lemma touches_operator_close W held program_id o ncn e r w p :
  touches W (OperatorReceiver.close held program_id o ncn e r w p : M (Store D) _ _).
Proof. unfold OperatorReceiver.close, OperatorReceiver.transfer. touching. Qed.
End lamports_frames.

#[export] Hint Resolve touches_payer_transfer touches_create touches_pay_and_realloc touches_close_account
  touches_ncn_close touches_operator_close : frame.

(** ** Reading a successful run

    [hinv H] goes through the steps of a handler that only check or read: it
    leaves what they found, and stops at the first write. *)
Section inversion.
Context {D : Type} {data : AccountData D} {runtime : Runtime} {ext : Externals D} {s_state : Stored D EpochState.t}.
Context {A : Type}.
Implicit Types (s : Store D).

Lemma touched {E} W (m : M (Store D) E A) s a s' k :
  touches W m -> m s = (Ok a, s') -> k ∈ W \/ same_data (s' k) (s k).
Proof. intros Hm H. destruct (decide (k ∈ W)) as [|Hn]; [by left|right]. by eapply Hm. Qed.

Lemma inv_check f m (k : unit -> M (Store D) ProgramError.t A) s a s' :
  mbind (check f m) k s = (Ok a, s') -> f (info s m) = Ok tt /\ k tt s = (Ok a, s').
Proof. rewrite run_check. by destruct (f (info s m)) as [[]|e|]. Qed.

Lemma inv_check_last f m s u t : check f m s = (Ok u, t) -> f (info s m) = Ok tt /\ t = s.
Proof. unfold check, mbind, get_self, lift. destruct (f (info s m)) as [[]|e|]; naive_solver. Qed.

Lemma inv_lift {E B} (x : result E B) (k : B -> M (Store D) E A) s a s' :
  mbind (lift x) k s = (Ok a, s') -> exists b, x = Ok b /\ k b s = (Ok a, s').
Proof. destruct x; [|done..]. rewrite run_lift_Ok. eauto. Qed.

Lemma inv_peek {B} (f : D -> result ProgramError.t B) x (k : B -> M (Store D) ProgramError.t A) s a s' :
  mbind (peek f x) k s = (Ok a, s') -> exists b, f (Account.data (s x)) = Ok b /\ k b s = (Ok a, s').
Proof. rewrite run_peek. destruct (f _) as [b|e|]; [|done..]. eauto. Qed.

Lemma inv_borrow held x (k : unit -> M (Store D) ProgramError.t A) s a s' :
  mbind (borrow held x) k s = (Ok a, s') -> any (Z.eqb x) held = false /\ k tt s = (Ok a, s').
Proof. rewrite run_borrow. by destruct (any _ _). Qed.

Lemma inv_try_borrow held x (k : unit -> M (Store D) ProgramError.t A) s a s' :
  mbind (try_borrow held x) k s = (Ok a, s') -> any (Z.eqb x) held = false /\ k tt s = (Ok a, s').
Proof. rewrite run_try_borrow. by destruct (any _ _). Qed.

Lemma inv_closing program_id m ncn e w (k : unit -> M (Store D) ProgramError.t A) s a s' :
  mbind (load_and_check_is_closing program_id m ncn e w) k s = (Ok a, s') ->
  (exists st, stored_at s m st /\ EpochState.is_closing st = false)
  /\ EpochStateAccount.load program_id (info s m) ncn e w = Ok tt /\ k tt s = (Ok a, s').
Proof.
  intros (u & s1 & H & Hk)%mbind_ok. unfold load_and_check_is_closing in H. rewrite run_read in H.
  destruct (try_from_slice _) as [st|err|] eqn:Hst; [|done..].
  destruct (EpochState.is_closing st) eqn:Hc; [done|]. unfold check, mbind, get_self, lift in H.
  destruct (EpochStateAccount.load _ _ _ _ _) as [[]|err|] eqn:Hl; [|done..]. injection H as <- <-. eauto.
Qed.
End inversion.

Ltac hinv H :=
  repeat (cbv beta in H;
    lazymatch type of H with
    | mbind (check _ _) _ _ = (Ok _, _) => apply inv_check in H as [? H]
    | check _ _ _ = (Ok _, _) => apply inv_check_last in H as [? H]
    | mbind (lift _) _ _ = (Ok _, _) => apply inv_lift in H as (? & ? & H)
    | mbind (peek _ _) _ _ = (Ok _, _) => apply inv_peek in H as (? & ? & H)
    | mbind (read _) _ _ = (Ok _, _) => apply (inv_peek try_from_slice) in H as (? & ? & H)
    | mbind (borrow _ _) _ _ = (Ok _, _) => apply inv_borrow in H as [_ H]
    | mbind (try_borrow _ _) _ _ = (Ok _, _) => apply inv_try_borrow in H as [_ H]
    | mbind (load_and_check_is_closing _ _ _ _ _) _ _ = (Ok _, _) =>
        apply inv_closing in H as (? & ? & H)
    | mbind get_self _ _ = _ => rewrite run_get_self in H
    | mbind (gets _) _ _ = _ => unfold mbind at 1, gets at 1 in H
    | mbind (lamports_of _) _ _ = _ => unfold mbind at 1, lamports_of at 1, gets at 1 in H
    | mbind (data_len_of _) _ _ = _ => unfold mbind at 1, data_len_of at 1, gets at 1 in H
    | (if ?b then throw _ else _) _ = _ => destruct b eqn:?; [discriminate H|]
    | (match ?x with _ => _ end) _ = _ =>
        lazymatch type of x with (_ * _ * _)%type => destruct x as [[? ?] ?] eqn:? end
    | throw _ _ = (Ok _, _) => discriminate H
    end; cbn [fst snd] in H).

(** [hcall H]: a call in front, of a fragment that only reads. *)
Ltac hcall H := cbv beta zeta in H; apply inv_call in H as (? & ? & H); [|reading].

(** ** What creating an account does *)
Section creation.
Context {D : Type} {data : AccountData D} {bytes : AccountBytes D} {runtime : Runtime} {ext : Externals D}
  {system : System D} {l_system : SystemLaws D}.

Lemma create_ok held program_id ncn payer k owner space seeds (s s' : Store D) u :
  Payer.pay_and_create_account held program_id ncn payer k owner space seeds s = (Ok u, s') ->
  data_len (Account.data (s k)) = 0 /\ Account.owner (s k) = system_program_id
  /\ Account.owner (s' k) = owner /\ Account.data (s' k) = zeros (Z.min space MAX_REALLOC_BYTES).
Proof.
  intros H. unfold Payer.pay_and_create_account in H. hinv H. apply mbind_ok in H as (u1 & s1 & Hpay & H).
  cbv zeta in H. apply mbind_ok in H as ([] & s2 & Hal & H). destruct u.
  apply allocate_zeros in Hal as (Hl & Ho & ->). apply assign_owner in H as [_ ->].
  assert (touches [] (if 0 <? saturating_sub (x space) (Account.lamports (s k))
    then Payer.transfer held program_id ncn payer k (saturating_sub (x space) (Account.lamports (s k)))
    else ret tt)) as T by touching.
  destruct (T _ _ _ Hpay k) as [Ho' Hd']; [apply not_elem_of_nil|].
  rewrite update_same. cbn. rewrite update_same. cbn. rewrite <-Ho', <-Hd'. done.
Qed.

Lemma set_discriminator_ok k d (s s' : Store D) u : set_discriminator k d s = (Ok u, s') ->
  data_len (Account.data (s k)) <> 0
  /\ s' = update k (fun a => set_data (set_byte0 d (Account.data a)) a) s.
Proof.
  unfold set_discriminator. rewrite run_get_self. destruct (_ =? 0) eqn:E; [done|].
  intros [= _ <-]. split; [lia|done].
Qed.

Lemma on_account_ok {T E A} {st : Stored D T} {to : Into E} k (m : M T E A) (s s' : Store D) r :
  on_account k m s = (Ok r, s') ->
  exists t t', try_from_slice (Account.data (s k)) = Ok t /\ m t = (Ok r, t') /\ s' = write k t' s.
Proof.
  unfold on_account. destruct (try_from_slice _) as [t|e|]; [|done..].
  destruct (m t) as [[a|e|] t'] eqn:Hm; [|done..]. intros [= -> <-]. eauto.
Qed.

(** A created account with its discriminator and its struct. *)
Lemma created_kind {l_bytes : AccountBytesLaws D} {T} {st : Stored D T} {l_st : StoredLaws D T} k d t n (s : Store D) :
  Account.data (s k) = zeros n -> 0 < n ->
  let s1 := update k (fun a => set_data (set_byte0 d (Account.data a)) a) s in
  data_byte0 (Account.data (write k t s1 k)) = d /\ data_len (Account.data (write k t s1 k)) = n.
Proof.
  intros Hz Hn s1. assert (data_len (zeros n : D) = n) as Hl by (apply len_zeros; lia).
  rewrite write_same. unfold s1. rewrite update_same. cbn. rewrite byte0_assign, len_assign, Hz, len_set_byte0.
  split; [apply byte0_set_byte0; lia|done].
Qed.
End creation.
