(* ===== verification/Authority.v ===== *)
(** What an instruction may change, and who must have signed it: one theorem
    about every instruction of the program. *)
From S2P Require Import Prelude Errors Precise Stake Registry Weights Fees Snapshots Voting EpochStates.
From S2P Require Import NcnRouter OperatorRouter Consensus Accounts Machine Lamports Frames VoteHandlers.
From S2P Require Import AdminHandlers SnapshotHandlers RewardHandlers CloseHandlers Program.

(** ** The table of permissions *)

Definition ncn_of (a : address) : Pubkey :=
  match a with
  | AConfig n | AVaultRegistry n | AAccountPayer n
  | AWeightTable n _ | AEpochSnapshot n _ | ABallotBox n _ | AConsensusResult n _ | ANCNRewardRouter n _
  | ANCNRewardReceiver n _ | AEpochState n _ | AEpochMarker n _
  | AOperatorSnapshot _ n _ | AOperatorVaultRewardRouter _ n _ | AOperatorVaultRewardReceiver _ n _ => n
  end.

(** The accounts of an epoch, by kind. *)
Inductive kind := KState | KMarker | KTable | KSnapshot | KOperatorSnapshot | KBox | KResult | KRouter | KOperatorRouter.
#[global] Instance kind_eq_dec : EqDecision kind.
Proof. solve_decision. Defined.
Definition kind_of (a : address) : option (kind * u64) :=
  match a with
  | AEpochState _ e => Some (KState, e)
  | AEpochMarker _ e => Some (KMarker, e)
  | AWeightTable _ e => Some (KTable, e)
  | AEpochSnapshot _ e => Some (KSnapshot, e)
  | AOperatorSnapshot _ _ e => Some (KOperatorSnapshot, e)
  | ABallotBox _ e => Some (KBox, e)
  | AConsensusResult _ e => Some (KResult, e)
  | ANCNRewardRouter _ e => Some (KRouter, e)
  | AOperatorVaultRewardRouter _ _ e => Some (KOperatorRouter, e)
  | _ => None
  end.
Definition of_epoch (e : u64) (kinds : list kind) (a : address) : bool :=
  match kind_of a with
  | Some (k, e') => bool_decide (k ∈ kinds) && (e' =? e)
  | None => false
  end.
Definition is_config (a : address) : bool := match a with AConfig _ => true | _ => false end.
Definition is_registry (a : address) : bool := match a with AVaultRegistry _ => true | _ => false end.

(** The accounts whose data an instruction may change. *)
Definition permitted (ix : NCNProgramInstruction.t) : address -> bool :=
  match ix with
  | NCNProgramInstruction.InitializeConfig _ _ _ _ | NCNProgramInstruction.AdminSetParameters _ _ _ _
  | NCNProgramInstruction.AdminSetNewAdmin _ => is_config
  | NCNProgramInstruction.InitializeVaultRegistry | NCNProgramInstruction.ReallocVaultRegistry
  | NCNProgramInstruction.RegisterVault | NCNProgramInstruction.AdminRegisterStMint _
  | NCNProgramInstruction.AdminSetStMint _ _ => is_registry
  | NCNProgramInstruction.InitializeEpochState e => of_epoch e [KState]
  | NCNProgramInstruction.InitializeWeightTable e => of_epoch e [KTable]
  | NCNProgramInstruction.ReallocWeightTable e | NCNProgramInstruction.SetEpochWeights e
  | NCNProgramInstruction.AdminSetWeight _ _ e => of_epoch e [KTable; KState]
  | NCNProgramInstruction.InitializeEpochSnapshot e => of_epoch e [KSnapshot; KState]
  | NCNProgramInstruction.InitializeOperatorSnapshot e | NCNProgramInstruction.SnapshotVaultOperatorDelegation e =>
      of_epoch e [KOperatorSnapshot; KSnapshot; KState]
  | NCNProgramInstruction.InitializeBallotBox e => of_epoch e [KBox; KResult]
  | NCNProgramInstruction.ReallocBallotBox e | NCNProgramInstruction.AdminSetTieBreaker _ e =>
      of_epoch e [KBox; KState]
  | NCNProgramInstruction.CastVote _ e => of_epoch e [KBox; KResult; KState]
  | NCNProgramInstruction.InitializeNCNRewardRouter e => of_epoch e [KRouter]
  | NCNProgramInstruction.ReallocNCNRewardRouter e | NCNProgramInstruction.RouteNCNRewards _ e
  | NCNProgramInstruction.DistributeProtocolRewards e | NCNProgramInstruction.DistributeNCNRewards e
  | NCNProgramInstruction.DistributeOperatorVaultRewardRoute e => of_epoch e [KRouter; KState]
  | NCNProgramInstruction.InitializeOperatorVaultRewardRouter e
  | NCNProgramInstruction.RouteOperatorVaultRewards _ e | NCNProgramInstruction.DistributeOperatorRewards e
  | NCNProgramInstruction.DistributeVaultRewards e => of_epoch e [KOperatorRouter; KState]
  | NCNProgramInstruction.CloseEpochAccount e =>
      of_epoch e [KState; KMarker; KTable; KSnapshot; KOperatorSnapshot; KBox; KRouter; KOperatorRouter]
  end.

Section authority.
Context {D : Type} {data : AccountData D} {bytes : AccountBytes D} {runtime : Runtime}
  {ext : Externals D} {system : System D} {P : PreciseNumber}.
Context {s_config : Stored D Config.t} {s_registry : Stored D VaultRegistry.t}
  {s_table : Stored D WeightTable.t} {s_epoch : Stored D EpochSnapshot.t}
  {s_operator : Stored D OperatorSnapshot.t} {s_box : Stored D BallotBox.t}
  {s_result : Stored D ConsensusResult.t} {s_router : Stored D NCNRewardRouter.t}
  {s_op_router : Stored D OperatorVaultRewardRouter.t} {s_marker : Stored D EpochMarker.t}
  {s_state : Stored D EpochState.t}.

Definition address_of (program_id : Pubkey) (a : address) : Pubkey := (find_pda (seeds_of a) program_id).1.

Definition signed_by (s : Store D) (accounts : list Meta) (who : Pubkey) : Prop :=
  exists m w, m ∈ accounts /\ key m = who /\ load_signer (info s m) w = Ok tt.

(** Who has signed: the admin named in the NCN's account, the tie-breaker admin
    named in the NCN's configuration, or the voter named in an operator's
    account. *)
Definition authorised (program_id : Pubkey) (ix : NCNProgramInstruction.t) (n : Pubkey) (accounts : list Meta)
    (s : Store D) : Prop :=
  match ix with
  | NCNProgramInstruction.InitializeConfig _ _ _ _ | NCNProgramInstruction.AdminSetParameters _ _ _ _
  | NCNProgramInstruction.AdminSetNewAdmin _ =>
      exists who, ncn_admin (Account.data (s n)) = Ok who /\ signed_by s accounts who
  | NCNProgramInstruction.AdminRegisterStMint _ | NCNProgramInstruction.AdminSetStMint _ _ =>
      exists who, ncn_program_admin (Account.data (s n)) = Ok who /\ signed_by s accounts who
  | NCNProgramInstruction.AdminSetWeight _ _ _ =>
      exists who, ncn_weight_table_admin (Account.data (s n)) = Ok who /\ signed_by s accounts who
  | NCNProgramInstruction.AdminSetTieBreaker _ _ =>
      exists c : Config.t, try_from_slice (Account.data (s (address_of program_id (AConfig n)))) = Ok c
        /\ signed_by s accounts (Config.tie_breaker_admin c)
  | NCNProgramInstruction.CastVote _ e =>
      exists o op who, key o = op /\ load_operator restaking_program_id (info s o) false = Ok tt
        /\ operator_voter (Account.data (s op)) = Ok who /\ signed_by s accounts who
        /\ Account.owner (s (address_of program_id (AOperatorSnapshot op n e))) = program_id
  | _ => True
  end.

(** The exception: closing takes any account of the program with the
    discriminator of an epoch state, whichever NCN and epoch it belongs to. *)
Definition stray (program_id : Pubkey) (ix : NCNProgramInstruction.t) (s : Store D) (k : Pubkey) : Prop :=
  match ix with
  | NCNProgramInstruction.CloseEpochAccount _ =>
      Account.owner (s k) = program_id /\ data_byte0 (Account.data (s k)) = EpochStateAccount.DISCRIMINATOR
  | _ => False
  end.
(** Every account is as before or at an address of one NCN that the table allows. *)
Definition changes_within (program_id : Pubkey) (ix : NCNProgramInstruction.t) (n : Pubkey) (s s' : Store D) : Prop :=
  forall k, same_data (s' k) (s k)
    \/ (exists a, ncn_of a = n /\ permitted ix a = true /\ k = address_of program_id a) \/ stray program_id ix s k.
Definition ncn_loaded (n : Pubkey) (accounts : list Meta) (s : Store D) : Prop :=
  exists m, m ∈ accounts /\ key m = n /\ load_ncn restaking_program_id (info s m) false = Ok tt.
Definition governed (program_id : Pubkey) (ix : NCNProgramInstruction.t) (accounts : list Meta) (s s' : Store D)
    : Prop :=
  exists n, ncn_loaded n accounts s /\ authorised program_id ix n accounts s
    /\ changes_within program_id ix n s s'.

(** ** Where an account that passes a check is *)

Lemma at_address program_id s m w a : load_as program_id (info s m) w a = Ok tt -> key m = address_of program_id a.
Proof. apply load_as_key. Qed.

Lemma at_pda program_id seeds : forall pda bump (l : list (list u8)) k,
  (let '(p, b) := find_pda seeds program_id in (p, b, seeds)) = (pda, bump, l) -> negb (pda =? k) = false ->
  k = (find_pda seeds program_id).1.
Proof. intros pda bump l k. destruct (find_pda _ _). intros [= -> _ _] H. cbn. lia. Qed.

Lemma of_epoch_true e ks a k : kind_of a = Some (k, e) -> k ∈ ks -> of_epoch e ks a = true.
Proof. intros Ha Hk. unfold of_epoch. rewrite Ha, Z.eqb_refl, bool_decide_eq_true_2; done. Qed.

(** A fragment that touches only addresses the table allows. *)
Lemma governed_intro W program_id ix accounts (m : M (Store D) ProgramError.t unit) s s' n :
  m s = (Ok tt, s') -> touches W m -> ncn_loaded n accounts s -> authorised program_id ix n accounts s ->
  (forall k, k ∈ W -> exists a, ncn_of a = n /\ permitted ix a = true /\ k = address_of program_id a) ->
  governed program_id ix accounts s s'.
Proof.
  intros H Hm Hn Ha Hw. exists n. split; [done|]. split; [done|]. intros k.
  destruct (touched W m s tt s' k Hm H) as [Hk|Hk]; [right; left; by apply Hw|by left].
Qed.

Lemma ncn_loaded_intro accounts s m : load_ncn restaking_program_id (info s m) false = Ok tt -> m ∈ accounts ->
  ncn_loaded (key m) accounts s.
Proof. intros. by exists m. Qed.

Lemma signed_by_intro accounts s m w who : load_signer (info s m) w = Ok tt -> m ∈ accounts ->
  negb (who =? key m) = false -> signed_by s accounts who.
Proof. intros Hl Hm Hk. exists m, w. split; [done|]. split; [lia|done]. Qed.
End authority.

(** [located]: the address of an account that was checked or created. *)
Ltac located :=
  match goal with
  | H : ?load _ (info _ ?m) _ _ = Ok tt |- key ?m = address_of ?p ?a => exact (at_address p _ m _ a H)
  | H : ?load _ (info _ ?m) _ _ _ = Ok tt |- key ?m = address_of ?p ?a => exact (at_address p _ m _ a H)
  | H : ?load _ (info _ ?m) _ _ _ _ = Ok tt |- key ?m = address_of ?p ?a => exact (at_address p _ m _ a H)
  | H : EpochMarker.check_dne _ (info _ ?m) _ _ = Ok tt |- key ?m = address_of ?p ?a =>
      exact (at_address p _ m true a H)
  | H : _ = (?pda, _, _), H' : negb (?pda =? ?k) = false |- ?k = address_of ?p ?a =>
      exact (at_pda p (seeds_of a) _ _ _ _ H H')
  end.
Ltac allowed a := exists a; split; [reflexivity|]; split; [first [reflexivity|by eapply of_epoch_true; [reflexivity|in_list]]|located].
(** [governs f W]: a run of [f], read off by [hinv], that touches [W]; what is
    left is who signed and, one by one, the addresses of [W]. *)
Ltac each_written :=
  intros ? Hin; repeat (apply elem_of_cons in Hin as [->|Hin]); [..|by apply elem_of_nil in Hin].
Ltac signed := eexists; split; [eassumption|]; eapply signed_by_intro; [eassumption|in_list|eassumption].
Ltac governs f W :=
  let H := fresh "H" in let Hrun := fresh "Hrun" in
  cbv zeta; intros H; pose proof H as Hrun; unfold f in H; cbv beta iota in H; hinv H;
  eapply (governed_intro W); [exact Hrun|unfold f; touching|eapply ncn_loaded_intro; [eassumption|in_list]|
    first [exact I|signed|idtac]|each_written].

(** [taking accounts lem]: the handler asks for a number of accounts and fails with
    fewer or, when it asks for exactly that many, with more. *)
Ltac taking accounts lem H :=
  first [ discriminate H | solve [eapply lem; exact H]
        | let m := fresh "m" in destruct accounts as [|m accounts]; taking accounts lem H ].

Section instructions.
Context {D : Type} {data : AccountData D} {bytes : AccountBytes D} {runtime : Runtime}
  {ext : Externals D} {system : System D} {P : PreciseNumber}.
Context {s_config : Stored D Config.t} {s_registry : Stored D VaultRegistry.t}
  {s_table : Stored D WeightTable.t} {s_epoch : Stored D EpochSnapshot.t}
  {s_operator : Stored D OperatorSnapshot.t} {s_box : Stored D BallotBox.t}
  {s_result : Stored D ConsensusResult.t} {s_router : Stored D NCNRewardRouter.t}
  {s_op_router : Stored D OperatorVaultRewardRouter.t} {s_marker : Stored D EpochMarker.t}
  {s_state : Stored D EpochState.t} {l_system : SystemLaws D}.
Context (program_id : Pubkey) (s s' : Store D).
Import NCNProgramInstruction.

Lemma initialize_config_governed config ncn ncn_fee_wallet ncn_admin tie_breaker_admin account_payer system_program
    a b c d :
  let accounts := [config; ncn; ncn_fee_wallet; ncn_admin; tie_breaker_admin; account_payer; system_program] in
  process_admin_initialize_config program_id accounts a b c d s = (Ok tt, s') ->
  governed program_id (InitializeConfig a b c d) accounts s s'.
Proof. governs @process_admin_initialize_config [key config]. allowed (AConfig (key ncn)). Qed.

Lemma set_parameters_governed config ncn ncn_admin a b c d :
  let accounts := [config; ncn; ncn_admin] in
  process_admin_set_parameters program_id accounts a b c d s = (Ok tt, s') ->
  governed program_id (AdminSetParameters a b c d) accounts s s'.
Proof. governs @process_admin_set_parameters [key config]. allowed (AConfig (key ncn)). Qed.
Lemma set_new_admin_governed config ncn ncn_admin new_admin role :
  let accounts := [config; ncn; ncn_admin; new_admin] in
  process_admin_set_new_admin program_id accounts role s = (Ok tt, s') ->
  governed program_id (AdminSetNewAdmin role) accounts s s'.
Proof.
  governs @process_admin_set_new_admin [key config].
  allowed (AConfig (key ncn)).
Qed.

Lemma initialize_registry_governed ncn_config vault_registry ncn account_payer system_program  :
  let accounts := [ncn_config; vault_registry; ncn; account_payer; system_program] in
  process_initialize_vault_registry program_id accounts  s = (Ok tt, s') ->
  governed program_id InitializeVaultRegistry accounts s s'.
Proof.
  governs @process_initialize_vault_registry [key vault_registry].
  allowed (AVaultRegistry (key ncn)).
Qed.

Lemma realloc_registry_governed ncn_config vault_registry ncn account_payer system_program  :
  let accounts := [ncn_config; vault_registry; ncn; account_payer; system_program] in
  process_realloc_vault_registry program_id accounts  s = (Ok tt, s') ->
  governed program_id ReallocVaultRegistry accounts s s'.
Proof.
  governs @process_realloc_vault_registry [key vault_registry].
  allowed (AVaultRegistry (key ncn)).
Qed.

Lemma register_vault_governed config vault_registry ncn vault ncn_vault_ticket  :
  let accounts := [config; vault_registry; ncn; vault; ncn_vault_ticket] in
  process_register_vault program_id accounts  s = (Ok tt, s') ->
  governed program_id RegisterVault accounts s s'.
Proof.
  governs @process_register_vault [key vault_registry].
  allowed (AVaultRegistry (key ncn)).
Qed.

Lemma register_st_mint_governed config ncn st_mint vault_registry admin w :
  let accounts := [config; ncn; st_mint; vault_registry; admin] in
  process_admin_register_st_mint program_id accounts w s = (Ok tt, s') ->
  governed program_id (AdminRegisterStMint w) accounts s s'.
Proof.
  governs @process_admin_register_st_mint [key vault_registry].
  allowed (AVaultRegistry (key ncn)).
Qed.

Lemma set_st_mint_governed config ncn vault_registry admin m w :
  let accounts := [config; ncn; vault_registry; admin] in
  process_admin_set_st_mint program_id accounts m w s = (Ok tt, s') ->
  governed program_id (AdminSetStMint m w) accounts s s'.
Proof.
  governs @process_admin_set_st_mint [key vault_registry].
  allowed (AVaultRegistry (key ncn)).
Qed.

Lemma admin_set_weight_governed epoch_state ncn weight_table weight_table_admin m w e :
  let accounts := [epoch_state; ncn; weight_table; weight_table_admin] in
  process_admin_set_weight program_id accounts m e w s = (Ok tt, s') ->
  governed program_id (AdminSetWeight m w e) accounts s s'.
Proof.
  governs @process_admin_set_weight [key weight_table; key epoch_state].
  - allowed (AWeightTable (key ncn) e).
  - allowed (AEpochState (key ncn) e).
Qed.

Lemma initialize_state_governed epoch_marker epoch_state config ncn account_payer system_program e :
  let accounts := [epoch_marker; epoch_state; config; ncn; account_payer; system_program] in
  process_initialize_epoch_state program_id accounts e s = (Ok tt, s') ->
  governed program_id (InitializeEpochState e) accounts s s'.
Proof.
  governs @process_initialize_epoch_state [key epoch_state].
  allowed (AEpochState (key ncn) e).
Qed.

Lemma initialize_table_governed epoch_marker epoch_state vault_registry ncn weight_table account_payer system_program e :
  let accounts := [epoch_marker; epoch_state; vault_registry; ncn; weight_table; account_payer; system_program] in
  process_initialize_weight_table program_id accounts e s = (Ok tt, s') ->
  governed program_id (InitializeWeightTable e) accounts s s'.
Proof.
  governs @process_initialize_weight_table [key weight_table].
  allowed (AWeightTable (key ncn) e).
Qed.

Lemma realloc_table_governed epoch_state ncn_config weight_table ncn vault_registry account_payer system_program e :
  let accounts := [epoch_state; ncn_config; weight_table; ncn; vault_registry; account_payer; system_program] in
  process_realloc_weight_table program_id accounts e s = (Ok tt, s') ->
  governed program_id (ReallocWeightTable e) accounts s s'.
Proof.
  governs @process_realloc_weight_table [key weight_table; key epoch_state].
  - allowed (AWeightTable (key ncn) e).
  - allowed (AEpochState (key ncn) e).
Qed.

Lemma initialize_snapshot_governed epoch_marker epoch_state config ncn weight_table epoch_snapshot account_payer system_program e :
  let accounts := [epoch_marker; epoch_state; config; ncn; weight_table; epoch_snapshot; account_payer; system_program] in
  process_initialize_epoch_snapshot program_id accounts e s = (Ok tt, s') ->
  governed program_id (InitializeEpochSnapshot e) accounts s s'.
Proof.
  governs @process_initialize_epoch_snapshot [key epoch_snapshot; key epoch_state].
  - allowed (AEpochSnapshot (key ncn) e).
  - allowed (AEpochState (key ncn) e).
Qed.

Lemma realloc_box_governed epoch_state ncn_config ballot_box ncn account_payer system_program e :
  let accounts := [epoch_state; ncn_config; ballot_box; ncn; account_payer; system_program] in
  process_realloc_ballot_box program_id accounts e s = (Ok tt, s') ->
  governed program_id (ReallocBallotBox e) accounts s s'.
Proof.
  governs @process_realloc_ballot_box [key ballot_box; key epoch_state].
  - allowed (ABallotBox (key ncn) e).
  - allowed (AEpochState (key ncn) e).
Qed.

Lemma initialize_router_governed epoch_marker epoch_state ncn ncn_reward_router ncn_reward_receiver account_payer system_program e :
  let accounts := [epoch_marker; epoch_state; ncn; ncn_reward_router; ncn_reward_receiver; account_payer; system_program] in
  process_initialize_ncn_reward_router program_id accounts e s = (Ok tt, s') ->
  governed program_id (InitializeNCNRewardRouter e) accounts s s'.
Proof.
  governs @process_initialize_ncn_reward_router [key ncn_reward_router].
  allowed (ANCNRewardRouter (key ncn) e).
Qed.

Lemma realloc_router_governed epoch_state ncn_config ncn_reward_router ncn account_payer system_program e :
  let accounts := [epoch_state; ncn_config; ncn_reward_router; ncn; account_payer; system_program] in
  process_realloc_ncn_reward_router program_id accounts e s = (Ok tt, s') ->
  governed program_id (ReallocNCNRewardRouter e) accounts s s'.
Proof.
  governs @process_realloc_ncn_reward_router [key ncn_reward_router; key epoch_state].
  - allowed (ANCNRewardRouter (key ncn) e).
  - allowed (AEpochState (key ncn) e).
Qed.

Lemma route_ncn_governed epoch_state config ncn epoch_snapshot ballot_box ncn_reward_router ncn_reward_receiver i e :
  let accounts := [epoch_state; config; ncn; epoch_snapshot; ballot_box; ncn_reward_router; ncn_reward_receiver] in
  process_route_ncn_rewards program_id accounts i e s = (Ok tt, s') ->
  governed program_id (RouteNCNRewards i e) accounts s s'.
Proof.
  governs @process_route_ncn_rewards [key ncn_reward_router; key epoch_state].
  - allowed (ANCNRewardRouter (key ncn) e).
  - allowed (AEpochState (key ncn) e).
Qed.

Lemma initialize_operator_router_governed epoch_marker epoch_state ncn operator operator_snapshot operator_vault_reward_router operator_vault_reward_receiver account_payer system_program e :
  let accounts := [epoch_marker; epoch_state; ncn; operator; operator_snapshot; operator_vault_reward_router; operator_vault_reward_receiver; account_payer; system_program] in
  process_initialize_operator_vault_reward_router program_id accounts e s = (Ok tt, s') ->
  governed program_id (InitializeOperatorVaultRewardRouter e) accounts s s'.
Proof.
  governs @process_initialize_operator_vault_reward_router [key operator_vault_reward_router; key epoch_state].
  - allowed (AOperatorVaultRewardRouter (key operator) (key ncn) e).
  - allowed (AEpochState (key ncn) e).
Qed.

Lemma route_operator_governed epoch_state ncn operator operator_snapshot ncn_reward_router ncn_reward_receiver i e :
  let accounts := [epoch_state; ncn; operator; operator_snapshot; ncn_reward_router; ncn_reward_receiver] in
  process_route_operator_vault_rewards program_id accounts i e s = (Ok tt, s') ->
  governed program_id (RouteOperatorVaultRewards i e) accounts s s'.
Proof.
  governs @process_route_operator_vault_rewards [key ncn_reward_router; key epoch_state].
  - allowed (AOperatorVaultRewardRouter (key operator) (key ncn) e).
  - allowed (AEpochState (key ncn) e).
Qed.

Lemma distribute_ncn_governed epoch_state ncn_config ncn ncn_reward_router ncn_reward_receiver ncn_fee_wallet system_program e :
  let accounts := [epoch_state; ncn_config; ncn; ncn_reward_router; ncn_reward_receiver; ncn_fee_wallet; system_program] in
  process_distribute_ncn_rewards program_id accounts e s = (Ok tt, s') ->
  governed program_id (DistributeNCNRewards e) accounts s s'.
Proof.
  governs @process_distribute_ncn_rewards [key ncn_reward_router; key epoch_state].
  - allowed (ANCNRewardRouter (key ncn) e).
  - allowed (AEpochState (key ncn) e).
Qed.

Lemma distribute_protocol_governed epoch_state ncn_config ncn ncn_reward_router ncn_reward_receiver protocol_fee_wallet system_program e :
  let accounts := [epoch_state; ncn_config; ncn; ncn_reward_router; ncn_reward_receiver; protocol_fee_wallet; system_program] in
  process_distribute_protocol_rewards program_id accounts e s = (Ok tt, s') ->
  governed program_id (DistributeProtocolRewards e) accounts s s'.
Proof.
  governs @process_distribute_protocol_rewards [key ncn_reward_router; key epoch_state].
  - allowed (ANCNRewardRouter (key ncn) e).
  - allowed (AEpochState (key ncn) e).
Qed.

Lemma distribute_route_governed epoch_state ncn_config ncn operator ncn_reward_router ncn_reward_receiver operator_vault_reward_router operator_vault_reward_receiver system_program e :
  let accounts := [epoch_state; ncn_config; ncn; operator; ncn_reward_router; ncn_reward_receiver; operator_vault_reward_router; operator_vault_reward_receiver; system_program] in
  process_distribute_operator_vault_reward_route program_id accounts e s = (Ok tt, s') ->
  governed program_id (DistributeOperatorVaultRewardRoute e) accounts s s'.
Proof.
  governs @process_distribute_operator_vault_reward_route [key ncn_reward_router; key epoch_state].
  - allowed (ANCNRewardRouter (key ncn) e).
  - allowed (AEpochState (key ncn) e).
Qed.

Lemma distribute_operator_governed epoch_state ncn_config ncn operator operator_snapshot operator_vault_reward_router operator_vault_reward_receiver system_program e :
  let accounts := [epoch_state; ncn_config; ncn; operator; operator_snapshot; operator_vault_reward_router; operator_vault_reward_receiver; system_program] in
  process_distribute_operator_rewards program_id accounts e s = (Ok tt, s') ->
  governed program_id (DistributeOperatorRewards e) accounts s s'.
Proof.
  governs @process_distribute_operator_rewards [key operator_vault_reward_router; key epoch_state].
  - allowed (AOperatorVaultRewardRouter (key operator) (key ncn) e).
  - allowed (AEpochState (key ncn) e).
Qed.

Lemma distribute_vault_governed epoch_state ncn_config ncn operator vault operator_snapshot operator_vault_reward_router operator_vault_reward_receiver system_program e :
  let accounts := [epoch_state; ncn_config; ncn; operator; vault; operator_snapshot; operator_vault_reward_router; operator_vault_reward_receiver; system_program] in
  process_distribute_vault_rewards program_id accounts e s = (Ok tt, s') ->
  governed program_id (DistributeVaultRewards e) accounts s s'.
Proof.
  governs @process_distribute_vault_rewards [key operator_vault_reward_router; key epoch_state].
  - allowed (AOperatorVaultRewardRouter (key operator) (key ncn) e).
  - allowed (AEpochState (key ncn) e).
Qed.
Lemma touches_set_weights W k l : k ∈ W -> touches W (set_weights k l).
Proof. intros Hk. induction l as [|m l IH]; cbn [set_weights]; touching. Qed.
Hint Resolve touches_set_weights : frame.

Lemma set_weights_governed epoch_state ncn vault_registry weight_table e :
  let accounts := [epoch_state; ncn; vault_registry; weight_table] in
  process_set_epoch_weights program_id accounts e s = (Ok tt, s') ->
  governed program_id (SetEpochWeights e) accounts s s'.
Proof.
  governs @process_set_epoch_weights [key weight_table; key epoch_state].
  - allowed (AWeightTable (key ncn) e).
  - allowed (AEpochState (key ncn) e).
Qed.

Lemma operator_snapshot_governed epoch_marker epoch_state config restaking_config ncn operator ncn_operator_state
    epoch_snapshot operator_snapshot account_payer system_program e :
  let accounts := [epoch_marker; epoch_state; config; restaking_config; ncn; operator; ncn_operator_state;
                   epoch_snapshot; operator_snapshot; account_payer; system_program] in
  process_initialize_operator_snapshot program_id accounts e s = (Ok tt, s') ->
  governed program_id (InitializeOperatorSnapshot e) accounts s s'.
Proof.
  governs @process_initialize_operator_snapshot [key operator_snapshot; key epoch_snapshot; key epoch_state].
  - allowed (AOperatorSnapshot (key operator) (key ncn) e).
  - allowed (AEpochSnapshot (key ncn) e).
  - allowed (AEpochState (key ncn) e).
Qed.

Lemma tie_breaker_governed epoch_state ncn_config ballot_box ncn tie_breaker_admin w e :
  let accounts := [epoch_state; ncn_config; ballot_box; ncn; tie_breaker_admin] in
  process_admin_set_tie_breaker program_id accounts w e s = (Ok tt, s') ->
  governed program_id (AdminSetTieBreaker w e) accounts s s'.
Proof.
  governs @process_admin_set_tie_breaker [key ballot_box; key epoch_state].
  - cbn [authorised]. assert (key ncn_config = address_of program_id (AConfig (key ncn))) as <- by located.
    signed.
  - allowed (ABallotBox (key ncn) e).
  - allowed (AEpochState (key ncn) e).
Qed.
Lemma delegation_governed epoch_state ncn_config restaking_config ncn operator vault vault_ncn_ticket
    ncn_vault_ticket vault_operator_delegation weight_table epoch_snapshot operator_snapshot e :
  let accounts := [epoch_state; ncn_config; restaking_config; ncn; operator; vault; vault_ncn_ticket;
                   ncn_vault_ticket; vault_operator_delegation; weight_table; epoch_snapshot;
                   operator_snapshot] in
  process_snapshot_vault_operator_delegation program_id accounts e s = (Ok tt, s') ->
  governed program_id (SnapshotVaultOperatorDelegation e) accounts s s'.
Proof.
  cbv zeta. intros H. pose proof H as Hrun. unfold process_snapshot_vault_operator_delegation in H.
  cbn [next_delegation_accounts] in H. set (a := Build_delegation_accounts _ _ _ _ _ _ _ _ _ _ _ _) in *.
  hcall H. rename H0 into Hl. unfold load_delegation_accounts in Hl. hinv Hl.
  hinv H. hcall H. hcall H. rename H9 into Hs. unfold load_snapshot_accounts in Hs. hinv Hs.
  eapply (governed_intro [key operator_snapshot; key epoch_snapshot; key epoch_state]);
    [exact Hrun| |by eapply (ncn_loaded_intro _ _ ncn); [|in_list]|exact I|each_written].
  - unfold process_snapshot_vault_operator_delegation. cbn [next_delegation_accounts]. touching.
  - allowed (AOperatorSnapshot (key operator) (key ncn) e).
  - allowed (AEpochSnapshot (key ncn) e).
  - allowed (AEpochState (key ncn) e).
Qed.

Lemma initialize_box_governed epoch_marker epoch_state ncn_config ballot_box ncn account_payer system_program
    consensus_result rest e :
  let accounts := epoch_marker :: epoch_state :: ncn_config :: ballot_box :: ncn :: account_payer
                    :: system_program :: consensus_result :: rest in
  process_initialize_ballot_box program_id accounts e s = (Ok tt, s') ->
  governed program_id (InitializeBallotBox e) accounts s s'.
Proof.
  cbv zeta. intros H. pose proof H as Hrun. unfold process_initialize_ballot_box in H. hinv H.
  apply mbind_ok in H as (u & s1 & _ & H). hinv H.
  eapply (governed_intro [key ballot_box; key consensus_result]);
    [exact Hrun| |by eapply (ncn_loaded_intro _ _ ncn); [|in_list]|exact I|each_written].
  - unfold process_initialize_ballot_box. touching.
  - allowed (ABallotBox (key ncn) e).
  - allowed (AConsensusResult (key ncn) e).
Qed.

Lemma cast_vote_governed epoch_state ncn_config ballot_box ncn epoch_snapshot operator_snapshot operator operator_admin
    consensus_result rest w e :
  let accounts := epoch_state :: ncn_config :: ballot_box :: ncn :: epoch_snapshot :: operator_snapshot
                    :: operator :: operator_admin :: consensus_result :: rest in
  process_cast_vote program_id accounts w e s = (Ok tt, s') ->
  governed program_id (CastVote w e) accounts s s'.
Proof.
  cbv zeta. intros H. pose proof H as Hrun. unfold process_cast_vote in H. cbn [next_vote_accounts] in H.
  set (a := Build_vote_accounts _ _ _ _ _ _ _ _ _) in *.
  hcall H. hinv H. rename H0 into Hl. unfold load_vote_accounts in Hl. hinv Hl.
  eapply (governed_intro [key ballot_box; key consensus_result; key epoch_state]);
    [exact Hrun| |by eapply (ncn_loaded_intro _ _ ncn); [|in_list]| |each_written].
  - unfold process_cast_vote. cbn [next_vote_accounts]. touching.
  - exists operator, (key operator). eexists. split; [done|]. split; [eassumption|]. split; [eassumption|].
    split; [eapply (signed_by_intro _ _ operator_admin); [eassumption|in_list|]|].
    + cbn in *. rewrite Z.eqb_sym. assumption.
    + assert (key operator_snapshot = address_of program_id (AOperatorSnapshot (key operator) (key ncn) e)) as <-
        by located.
      match goal with H : OperatorSnapshotAccount.load _ _ _ _ _ _ = Ok tt |- _ =>
        apply check_load_ok in H as (Ho & _) end. exact Ho.
  - allowed (ABallotBox (key ncn) e).
  - allowed (AConsensusResult (key ncn) e).
  - allowed (AEpochState (key ncn) e).
Qed.

(** ** Closing *)

Definition closable (e : u64) : address -> bool := permitted (CloseEpochAccount e).

(** An account that goes through one of the arms is where its type and this NCN
    and epoch say, unless its discriminator is the epoch state's. *)
Lemma mark_closed_where a cfg d e (t0 t : Store D) u :
  mark_closed program_id a cfg d e t0 = (Ok u, t) ->
  d = EpochStateAccount.DISCRIMINATOR
  \/ exists ad, ncn_of ad = key (CloseHandlers.ncn a) /\ closable e ad = true
       /\ key (account_to_close a) = address_of program_id ad.
Proof.
  intros H. unfold mark_closed in H.
  destruct (d =? EpochStateAccount.DISCRIMINATOR) eqn:E; [left; lia|right; clear E].
  repeat match type of H with
  | (if ?b then _ else _) _ = _ => destruct b
  end; try discriminate H.
  - hinv H. allowed (AWeightTable (key (CloseHandlers.ncn a)) e).
  - hinv H. allowed (AEpochSnapshot (key (CloseHandlers.ncn a)) e).
  - unfold mark_operator_snapshot in H. hinv H. unfold OperatorSnapshotAccount.load_to_close in *.
    destruct (try_from_slice _) as [o|err|]; [|done..]. cbn [rbind] in *.
    allowed (AOperatorSnapshot (OperatorSnapshot.operator o) (key (CloseHandlers.ncn a)) e).
  - hinv H. allowed (ABallotBox (key (CloseHandlers.ncn a)) e).
  - unfold mark_ncn_reward_router in H. hinv H. allowed (ANCNRewardRouter (key (CloseHandlers.ncn a)) e).
  - unfold mark_operator_vault_reward_router in H. hinv H. unfold OperatorVaultRewardRouterAccount.load_to_close in *.
    destruct (try_from_slice _) as [r|err|]; [|done..]. cbn [rbind] in *.
    allowed (AOperatorVaultRewardRouter (OperatorVaultRewardRouter.operator r) (key (CloseHandlers.ncn a)) e).
Qed.

Lemma touches_mark_closed a cfg d e : touches [key (CloseHandlers.epoch_state a)] (mark_closed program_id a cfg d e).
Proof.
  unfold mark_closed, mark_epoch_state, mark_operator_snapshot, mark_ncn_reward_router,
    mark_operator_vault_reward_router. touching.
Qed.

Lemma touches_create_marker a e :
  touches [key (CloseHandlers.epoch_marker a)] (create_epoch_marker program_id a e).
Proof. unfold create_epoch_marker. touching. Qed.

Lemma close_account_owner payer k (t t' : Store D) u :
  Payer.close_account program_id payer k t = (Ok u, t') -> Account.owner (t k) = program_id.
Proof. unfold Payer.close_account. intros H. hinv H. lia. Qed.

Lemma close_governed epoch_marker epoch_state config ncn account_to_close account_payer system_program rest e :
  let accounts := epoch_marker :: epoch_state :: config :: ncn :: account_to_close :: account_payer
                    :: system_program :: rest in
  process_close_epoch_account program_id accounts e s = (Ok tt, s') ->
  governed program_id (CloseEpochAccount e) accounts s s'.
Proof.
  cbv zeta. intros H. pose proof H as Hrun. unfold process_close_epoch_account in H.
  cbn [split_close_accounts] in H. set (a := Build_close_accounts _ _ _ _ _ _ _ _) in *.
  hcall H. rename H0 into Hl. unfold load_close_accounts in Hl. hinv Hl. hinv H.
  assert (key epoch_state = address_of program_id (AEpochState (key ncn) e)) as Hstate by located.
  assert (key epoch_marker = address_of program_id (AEpochMarker (key ncn) e)) as Hmarker by located.
  apply mbind_ok in H as (u1 & s1 & Hclosing & H).
  pose proof (touches_update_state [key epoch_state] _ _ ltac:(in_list) _ _ _ Hclosing) as T1.
  hinv H. apply mbind_ok in H as (u2 & s2 & Hmark & H).
  pose proof (touches_mark_closed _ _ _ _ _ _ _ Hmark) as T2.
  apply mbind_ok in H as (u3 & s3 & Hm & H). apply close_account_owner in H as Howner.
  exists (key ncn). split; [by eapply (ncn_loaded_intro _ _ ncn); [|in_list]|]. split; [exact I|].
  intros k. eapply (touched [key account_to_close; key epoch_state; key epoch_marker] _ _ _ _ k) in Hrun;
    [destruct Hrun as [Hk|Hk]; [right|by left]|].
  2: { unfold process_close_epoch_account, mark_closed, mark_epoch_state, mark_operator_snapshot,
         mark_ncn_reward_router, mark_operator_vault_reward_router, create_epoch_marker.
       cbn [split_close_accounts]. touching. }
  revert k Hk. each_written; [|left; allowed (AEpochState (key ncn) e)|left; allowed (AEpochMarker (key ncn) e)].
  subst a. cbn in *. destruct (key account_to_close =? key epoch_state) eqn:E.
  { apply Z.eqb_eq in E as ->. left. allowed (AEpochState (key ncn) e). }
  apply Z.eqb_neq in E. assert (key account_to_close ∉ [key epoch_state]) as Hne by by apply not_elem_of_cons, conj, not_elem_of_nil.
  injection Hm as _ ->. destruct (T1 _ Hne) as [Ho1 Hd1]. destruct (T2 _ Hne) as [Ho2 _].
  apply mark_closed_where in Hmark as [Hd|Had]; [right|left; exact Had].
  split; [congruence|by rewrite <-Hd1].
Qed.

(** ** Every instruction *)

Lemma governed_instruction ix accounts :
  process_instruction program_id accounts (Ok ix) s = (Ok tt, s') -> governed program_id ix accounts s s'.
Proof.
  intros H. unfold process_instruction in H. destruct (negb _); [discriminate H|].
  unfold mbind at 1, lift at 1 in H. destruct ix; cbv beta iota in H.
  - taking accounts initialize_config_governed H.
  - taking accounts initialize_registry_governed H.
  - taking accounts realloc_registry_governed H.
  - taking accounts register_vault_governed H.
  - taking accounts initialize_state_governed H.
  - taking accounts initialize_table_governed H.
  - taking accounts realloc_table_governed H.
  - taking accounts set_weights_governed H.
  - taking accounts initialize_snapshot_governed H.
  - taking accounts operator_snapshot_governed H.
  - taking accounts delegation_governed H.
  - taking accounts initialize_box_governed H.
  - taking accounts realloc_box_governed H.
  - taking accounts cast_vote_governed H.
  - taking accounts close_governed H.
  - taking accounts set_parameters_governed H.
  - taking accounts set_new_admin_governed H.
  - taking accounts tie_breaker_governed H.
  - taking accounts admin_set_weight_governed H.
  - taking accounts register_st_mint_governed H.
  - taking accounts set_st_mint_governed H.
  - taking accounts initialize_router_governed H.
  - taking accounts realloc_router_governed H.
  - taking accounts route_ncn_governed H.
  - taking accounts distribute_protocol_governed H.
  - taking accounts distribute_ncn_governed H.
  - taking accounts initialize_operator_router_governed H.
  - taking accounts distribute_route_governed H.
  - taking accounts route_operator_governed H.
  - taking accounts distribute_operator_governed H.
  - taking accounts distribute_vault_governed H.
Qed.
End instructions.
