(* ===== verification/Chain.v ===== *)
(** The ledger over time: any sequence of the program's instructions, by
    anyone, at any time and with any accounts, between whatever the other
    programs do; and what stays true throughout. *)
From stdpp Require Import relations.
From S2P Require Import Prelude Errors Precise Stake Registry Weights Fees Snapshots Voting EpochStates.
From S2P Require Import NcnRouter OperatorRouter Consensus Accounts Machine Lamports Frames VoteHandlers.
From S2P Require Import AdminHandlers SnapshotHandlers RewardHandlers CloseHandlers Program Authority.

(** [no_permission]: the table does not list the type of this account. *)
Ltac no_permission := let b := fresh in intros b; destruct b; try discriminate; reflexivity.

Section chain.
Context {D : Type} {data : AccountData D} {bytes : AccountBytes D} {runtime : Runtime}
  {at_clock : Clock -> Externals D} {system : System D} {P : PreciseNumber}.
Context {s_config : Stored D Config.t} {s_registry : Stored D VaultRegistry.t}
  {s_table : Stored D WeightTable.t} {s_epoch : Stored D EpochSnapshot.t}
  {s_operator : Stored D OperatorSnapshot.t} {s_box : Stored D BallotBox.t}
  {s_result : Stored D ConsensusResult.t} {s_router : Stored D NCNRewardRouter.t}
  {s_op_router : Stored D OperatorVaultRewardRouter.t} {s_marker : Stored D EpochMarker.t}
  {s_state : Stored D EpochState.t}.
Context {l_system : SystemLaws D} {l_ext : forall c, ExternalsLaws D (ext := at_clock c)}
  {l_bytes : AccountBytesLaws D}
  {l_config : StoredLaws D Config.t} {l_box : StoredLaws D BallotBox.t}
  {l_result : StoredLaws D ConsensusResult.t} {l_state : StoredLaws D EpochState.t}
  {l_marker : StoredLaws D EpochMarker.t}.

(** The address derivation has no collisions, and the programs are different
    ones. *)
Context (collision_free : forall l l', (find_pda l id).1 = (find_pda l' id).1 -> concat l = concat l').
Context (not_system : id <> system_program_id).
Context (not_restaking : forall c, restaking_program_id (Externals := at_clock c) <> id).

(** The integers of a transaction are in the range of their types: its status,
    its slot, which is not [u64::MAX], the keys of operators, and the stake
    weights its accounts hold. *)
Record well_typed (clock : Clock) (accounts : list Meta) (ix : NCNProgramInstruction.t) (s : Store D) : Prop := {
  wt_slot : 0 <= slot clock < u64_MAX;
  wt_status : match ix with
    | NCNProgramInstruction.CastVote status _ | NCNProgramInstruction.AdminSetTieBreaker status _ => 0 <= status
    | _ => True
    end;
  wt_operator_key : forall m w, m ∈ accounts ->
    load_operator (Externals := at_clock clock) (restaking_program_id (Externals := at_clock clock)) (info s m) w = Ok tt ->
    is_pubkey (key m);
  wt_operator : forall m (o : OperatorSnapshot.t), m ∈ accounts -> stored_at s m o ->
    StakeWeights.wf (OperatorSnapshot.stake_weights o);
  wt_epoch : forall m (e : EpochSnapshot.t), m ∈ accounts -> stored_at s m e ->
    StakeWeights.wf (EpochSnapshot.stake_weights e);
}.

(** A transaction that fails is rolled back. What the runtime guarantees of
    another program's: it cannot touch an account of this one, and an account it
    hands over has only zeros. *)
Inductive step : Store D -> Store D -> Prop :=
| step_instruction clock accounts ix s s' :
    well_typed clock accounts ix s ->
    process_instruction (ext := at_clock clock) id accounts (Ok ix) s = (Ok tt, s') -> step s s'
| step_outside s s' :
    (forall k, Account.owner (s k) = id -> same_data (s' k) (s k)) ->
    (forall k, Account.owner (s k) <> id -> Account.owner (s' k) = id ->
       exists n, 0 <= n /\ Account.data (s' k) = zeros n) ->
    step s s'.

Abbreviation at_ a := (address_of (runtime := runtime) id a).

(** An account that the table does not let an instruction change. *)
Lemma untouched clock accounts ix s s' a :
  process_instruction (ext := at_clock clock) id accounts (Ok ix) s = (Ok tt, s') ->
  (forall b, seeds_size b = seeds_size a -> permitted ix b = false) ->
  (forall e, ix = NCNProgramInstruction.CloseEpochAccount e ->
     data_byte0 (Account.data (s (at_ a))) <> EpochStateAccount.DISCRIMINATOR) ->
  same_data (s' (at_ a)) (s (at_ a)).
Proof.
  intros H Hp Hd. apply governed_instruction in H as (n & _ & _ & Hw).
  destruct (Hw (at_ a)) as [Hs|[(b & _ & Hb & He)|Hs]]; [done| |].
  - apply collision_free in He. assert (seeds_size b = seeds_size a) as Hsz
      by by rewrite <-!seeds_size_eq, He.
    by rewrite (Hp b Hsz) in Hb.
  - destruct ix as [| | | | | | | | | | | | | |e| | | | | | | | | | | | | | | |]; try done.
    destruct Hs as [_ Hs]. by destruct (Hd e).
Qed.

Lemma addresses_apart a b : seeds_size a <> seeds_size b -> at_ a <> at_ b.
Proof. intros Hne He%collision_free. apply Hne. by rewrite <-!seeds_size_eq, He. Qed.

(** ** Closing, once more *)

Definition closable_discriminators : list u8 :=
  map Discriminators.as_u8
    [Discriminators.EpochState; Discriminators.WeightTable; Discriminators.EpochSnapshot;
     Discriminators.OperatorSnapshot; Discriminators.BallotBox; Discriminators.NCNRewardRouter;
     Discriminators.OperatorVaultRewardRouter].

Lemma mark_closed_kind {ext : Externals D} a cfg d e (s s' : Store D) u :
  mark_closed id a cfg d e s = (Ok u, s') -> d ∈ closable_discriminators.
Proof.
  unfold mark_closed, closable_discriminators.
  repeat match goal with
  | |- (if ?b then _ else _) _ = _ -> _ =>
      let E := fresh in destruct b eqn:E; [apply Z.eqb_eq in E as ->; intros _; cbn; in_list|clear E]
  end; done.
Qed.

(** What a successful closing found, and all that it can have changed. *)
Lemma close_found clock accounts e (s s' : Store D) :
  process_close_epoch_account (ext := at_clock clock) id accounts e s = (Ok tt, s') ->
  exists a, split_close_accounts accounts = Some a
  /\ EpochMarker.check_dne id (info s (CloseHandlers.epoch_marker a)) (key (CloseHandlers.ncn a)) e = Ok tt
  /\ EpochStateAccount.load id (info s (CloseHandlers.epoch_state a)) (key (CloseHandlers.ncn a)) e false = Ok tt
  /\ (key (account_to_close a) = key (CloseHandlers.epoch_state a)
      \/ data_byte0 (Account.data (s (key (account_to_close a)))) ∈ closable_discriminators)
  /\ (forall k, k ∈ [key (account_to_close a); key (CloseHandlers.epoch_state a); key (CloseHandlers.epoch_marker a)]
        \/ same_data (s' k) (s k)).
Proof.
  intros H. pose proof H as Hrun. unfold process_close_epoch_account in H.
  destruct (split_close_accounts accounts) as [a|] eqn:Ha; [|discriminate H].
  hcall H. rename H0 into Hl. unfold load_close_accounts in Hl. hinv Hl. hinv H.
  apply mbind_ok in H as (u1 & s1 & Hclosing & H).
  pose proof (touches_update_state [key (CloseHandlers.epoch_state a)] _ _ ltac:(in_list) _ _ _ Hclosing) as T1.
  hinv H. apply mbind_ok in H as (u2 & s2 & Hmark & _). apply mark_closed_kind in Hmark.
  exists a. split; [done|]. split; [done|]. split; [done|]. split.
  - destruct (key (account_to_close a) =? key (CloseHandlers.epoch_state a)) eqn:E; [left; lia|right].
    destruct (T1 (key (account_to_close a))) as [_ <-]; [|done].
    apply Z.eqb_neq in E. by apply not_elem_of_cons, conj, not_elem_of_nil.
  - intros k. eapply touched; [|exact Hrun].
    unfold process_close_epoch_account. rewrite Ha.
    unfold mark_closed, mark_epoch_state, mark_operator_snapshot, mark_ncn_reward_router,
      mark_operator_vault_reward_router, create_epoch_marker. touching.
Qed.
(** Closing leaves an account alone that is of no type it closes, and not the
    marker it writes. *)
Lemma close_spares clock accounts e s s' k :
  process_instruction (ext := at_clock clock) id accounts (Ok (NCNProgramInstruction.CloseEpochAccount e)) s
    = (Ok tt, s') ->
  data_byte0 (Account.data (s k)) ∉ closable_discriminators -> 0 < data_len (Account.data (s k)) ->
  same_data (s' k) (s k).
Proof.
  intros H Hd Hlen. apply close_found in H as (a & _ & Hm & Hst & Hc & Hw).
  assert (key (CloseHandlers.epoch_state a) <> k) as Hne.
  { intros <-. apply check_load_ok in Hst as (_ & _ & Hst & _). apply Hd.
    destruct (Hst _ eq_refl) as [_ Hb]. cbn in Hb. rewrite Hb. apply list_elem_of_here. }
  destruct (Hw k) as [Hk|Hk]; [|done].
  apply elem_of_cons in Hk as [->|Hk]; [exfalso; destruct Hc; [congruence|done]|].
  apply elem_of_cons in Hk as [->|Hk]; [done|].
  apply elem_of_cons in Hk as [->|Hk]; [|by apply elem_of_nil in Hk]. exfalso.
  unfold EpochMarker.check_dne in Hm. destruct (EpochMarker.find_program_address _ _ _) as [[pda b] l].
  destruct (negb _); [done|]. cbn in Hm. destruct (0 <? _) eqn:E; [done|]. lia.
Qed.

(** ** A closed epoch stays closed *)

Definition closed (s : Store D) (n : Pubkey) (e : u64) : Prop :=
  let a := s (at_ (AEpochMarker n e)) in
  Account.owner a = id /\ 0 < data_len (Account.data a) /\ data_byte0 (Account.data a) = EpochMarker.DISCRIMINATOR.

Lemma marker_step s s' n e : step s s' -> closed s n e ->
  same_data (s' (at_ (AEpochMarker n e))) (s (at_ (AEpochMarker n e))).
Proof.
  intros Hs (Ho & Hlen & Hd). destruct Hs as [clock accounts ix s s' _ H|s s' Hsame _]; [|by apply Hsame].
  assert (data_byte0 (Account.data (s (at_ (AEpochMarker n e)))) <> EpochStateAccount.DISCRIMINATOR) as Hne
    by by rewrite Hd.
  destruct ix; try (eapply untouched; [exact H|no_permission|done]).
  eapply close_spares; [exact H| |done]. rewrite Hd. by apply (bool_decide_eq_true_1 _).
Qed.

Lemma closed_same s s' n e : closed s n e -> same_data (s' (at_ (AEpochMarker n e))) (s (at_ (AEpochMarker n e))) ->
  closed s' n e.
Proof. intros (Ho & Hl & Hd) [Ho' Hd']. unfold closed. cbv zeta. by rewrite Ho', Hd'. Qed.

Lemma closed_life s s' n e : closed s n e -> rtc step s s' -> closed s' n e.
Proof. intros Hc Hr. revert Hc. induction Hr; eauto using closed_same, marker_step. Qed.
(** The instructions that open an account of an epoch, and closing itself: the
    epoch and the position of the NCN among the accounts. *)
Definition opens (ix : NCNProgramInstruction.t) : option (u64 * nat) :=
  match ix with
  | NCNProgramInstruction.InitializeEpochState e | NCNProgramInstruction.InitializeWeightTable e
  | NCNProgramInstruction.InitializeEpochSnapshot e | NCNProgramInstruction.CloseEpochAccount e => Some (e, 3%nat)
  | NCNProgramInstruction.InitializeOperatorSnapshot e | NCNProgramInstruction.InitializeBallotBox e => Some (e, 4%nat)
  | NCNProgramInstruction.InitializeNCNRewardRouter e
  | NCNProgramInstruction.InitializeOperatorVaultRewardRouter e => Some (e, 2%nat)
  | _ => None
  end.

Lemma marker_refused s m n e : EpochMarker.check_dne id (info s m) n e = Ok tt -> ~ closed s n e.
Proof.
  intros H (_ & Hlen & _). assert (key m = at_ (AEpochMarker n e)) as He by exact (at_address id s m true (AEpochMarker n e) H).
  unfold EpochMarker.check_dne in H. destruct (EpochMarker.find_program_address _ _ _) as [[pda b] l].
  destruct (negb _); [done|]. cbn in H. rewrite He in H. destruct (0 <? _) eqn:E; [done|]. lia.
Qed.

(** [checks_marker accounts H]: the handler takes its accounts and checks that
    there is no marker before it writes. *)
Ltac checked_marker :=
  match goal with
  | H : EpochMarker.check_dne _ (info _ _) (key ?x) _ = Ok tt, Hi : _ = Some ?m |- _ =>
      injection Hi as <-; exact (marker_refused _ _ _ _ H)
  end.
Ltac checks_marker accounts H :=
  first [ discriminate H | solve [hinv H; checked_marker]
        | destruct accounts as [|? accounts]; checks_marker accounts H ].

Lemma opening_checks clock accounts ix e i m s s' :
  opens ix = Some (e, i) -> accounts !! i = Some m ->
  process_instruction (ext := at_clock clock) id accounts (Ok ix) s = (Ok tt, s') -> ~ closed s (key m) e.
Proof.
  intros Ho Hi H. unfold process_instruction in H. destruct (negb _); [discriminate H|].
  unfold mbind at 1, lift at 1 in H.
  destruct ix; try discriminate Ho; injection Ho as <- <-; cbv beta iota in H.
  - unfold process_initialize_epoch_state in H. checks_marker accounts H.
  - unfold process_initialize_weight_table in H. checks_marker accounts H.
  - unfold process_initialize_epoch_snapshot in H. checks_marker accounts H.
  - unfold process_initialize_operator_snapshot in H. checks_marker accounts H.
  - unfold process_initialize_ballot_box in H. checks_marker accounts H.
  - apply close_found in H as (a & Ha & Hm & _).
    do 7 (destruct accounts as [|? accounts]; [discriminate Ha|]). injection Ha as <-. injection Hi as <-.
    exact (marker_refused _ _ _ _ Hm).
  - unfold process_initialize_ncn_reward_router in H. checks_marker accounts H.
  - unfold process_initialize_operator_vault_reward_router in H. checks_marker accounts H.
Qed.

(** The marker is written when the epoch's state is closed. *)
Lemma marker_created {ext : Externals D} a e (s s' : Store D) :
  create_epoch_marker id a e s = (Ok tt, s') -> closed s' (key (CloseHandlers.ncn a)) e.
Proof.
  unfold create_epoch_marker. intros H. hinv H.
  match goal with H1 : _ = (?p, _, _), H2 : negb (?p =? ?k) = false |- _ =>
    assert (k = at_ (AEpochMarker (key (CloseHandlers.ncn a)) e)) as Hk
      by exact (at_pda id (seeds_of (AEpochMarker (key (CloseHandlers.ncn a)) e)) _ _ _ _ H1 H2) end.
  apply mbind_ok in H as (u1 & s1 & Hc & H). apply create_ok in Hc as (_ & _ & Ho & Hd).
  apply mbind_ok in H as (u2 & s2 & Hset & H). apply set_discriminator_ok in Hset as [_ ->]. hinv H.
  apply on_account_ok in H as (m & m' & _ & _ & ->). unfold closed. cbv zeta. rewrite <-Hk in *.
  set (k := key (CloseHandlers.epoch_marker a)) in *.
  destruct (created_kind k EpochMarker.DISCRIMINATOR m' _ s1 Hd) as [-> ->]; [reflexivity|].
  split; [|done]. destruct (write_keeps k k m' (update k
    (fun a => set_data (set_byte0 EpochMarker.DISCRIMINATOR (Account.data a)) a) s1)) as (-> & _).
  by rewrite update_same.
Qed.

Lemma closing_closes clock accounts e s s' a : split_close_accounts accounts = Some a ->
  key (account_to_close a) = key (CloseHandlers.epoch_state a) ->
  process_close_epoch_account (ext := at_clock clock) id accounts e s = (Ok tt, s') ->
  closed s' (key (CloseHandlers.ncn a)) e.
Proof.
  intros Ha He H. pose proof H as Hf. apply close_found in Hf as (a' & Ha' & _ & Hst & _).
  rewrite Ha in Ha'. injection Ha' as <-.
  assert (key (CloseHandlers.epoch_state a) = at_ (AEpochState (key (CloseHandlers.ncn a)) e)) as Hk
    by exact (at_address id s _ false (AEpochState _ e) Hst).
  unfold process_close_epoch_account in H. rewrite Ha in H.
  hcall H. hinv H. apply mbind_ok in H as (u1 & s1 & _ & H). hinv H.
  apply mbind_ok in H as (u2 & s2 & _ & H). rewrite He, Z.eqb_refl in H.
  apply mbind_ok in H as ([] & s3 & Hm & H). apply marker_created in Hm.
  eapply closed_same; [exact Hm|].
  eapply (touches_close_account [key (CloseHandlers.epoch_state a)]); [in_list|exact H|].
  rewrite Hk. apply not_elem_of_cons. split; [by apply addresses_apart|apply not_elem_of_nil].
Qed.

(** C22: a closed epoch stays closed. Closing the state of an epoch leaves its
    marker. From then on, whatever sequence of transactions follows, the marker
    stays, and no instruction that opens an account of that epoch succeeds, nor
    does another closing. *)
Theorem closed_epochs_stay_closed :
  (forall clock accounts e s s' a, split_close_accounts accounts = Some a ->
     key (account_to_close a) = key (CloseHandlers.epoch_state a) ->
     process_close_epoch_account (ext := at_clock clock) id accounts e s = (Ok tt, s') ->
     closed s' (key (CloseHandlers.ncn a)) e)
  /\ (forall s s' n e, closed s n e -> rtc step s s' ->
        closed s' n e
        /\ forall clock accounts ix i m, opens ix = Some (e, i) -> accounts !! i = Some m -> key m = n ->
             fst (process_instruction (ext := at_clock clock) id accounts (Ok ix) s') <> Ok tt).
Proof.
  split; [exact closing_closes|]. intros s s' n e Hc Hr. pose proof (closed_life _ _ _ _ Hc Hr) as Hc'.
  split; [done|]. intros clock accounts ix i m Ho Hi <- H.
  destruct (process_instruction _ _ _ _) as [r t] eqn:E. cbn in H. subst r.
  by eapply opening_checks.
Qed.

(** ** The outcome of a vote *)

Definition recorded (s : Store D) (n : Pubkey) (e : u64) (r : ConsensusResult.t) : Prop :=
  let a := s (at_ (AConsensusResult n e)) in
  Account.owner a = id /\ 0 < data_len (Account.data a)
  /\ data_byte0 (Account.data a) = ConsensusResultAccount.DISCRIMINATOR
  /\ try_from_slice (Account.data a) = Ok r /\ ConsensusResult.is_consensus_reached r = true.

Definition same_outcome (r r' : ConsensusResult.t) : Prop :=
  ConsensusResult.ncn r' = ConsensusResult.ncn r /\ ConsensusResult.epoch r' = ConsensusResult.epoch r
  /\ ConsensusResult.weather_status r' = ConsensusResult.weather_status r
  /\ ConsensusResult.total_vote_weight r' = ConsensusResult.total_vote_weight r
  /\ ConsensusResult.consensus_slot r' = ConsensusResult.consensus_slot r.
#[local] Instance same_outcome_preorder : PreOrder same_outcome.
Proof. split; [by intros ?|]. unfold same_outcome. intros ???. naive_solver congruence. Qed.

Lemma recorded_same s s' n e r : recorded s n e r ->
  same_data (s' (at_ (AConsensusResult n e))) (s (at_ (AConsensusResult n e))) -> recorded s' n e r.
Proof. intros (?&?&?&?&?) [Ho Hd]. unfold recorded. cbv zeta. by rewrite Ho, Hd. Qed.

(** An account of the program is not created again. *)
Lemma initialize_box_spares clock accounts e (s s' : Store D) k :
  process_initialize_ballot_box (ext := at_clock clock) id accounts e s = (Ok tt, s') ->
  Account.owner (s k) = id -> same_data (s' k) (s k).
Proof.
  intros H Ho. pose proof H as Hrun. unfold process_initialize_ballot_box in H.
  do 8 (destruct accounts as [|? accounts]; [discriminate H|]). hinv H.
  apply mbind_ok in H as (u1 & s1 & Hc & H). hinv H.
  repeat match goal with H : load_system_account _ _ = Ok tt |- _ =>
    apply (load_system_account_empty (ExternalsLaws := l_ext clock)) in H as [H _] end.
  cbn in H0, H8.
  assert (k ∉ [key m2]) as K2.
  { apply not_elem_of_cons. split; [|apply not_elem_of_nil]. intros ->. congruence. }
  assert (same_data (s1 k) (s k)) as S1 by (eapply touches_create; [|exact Hc|exact K2]; in_list).
  assert (k ∉ [key m6]) as K6.
  { apply not_elem_of_cons. split; [|apply not_elem_of_nil]. intros ->. destruct S1 as [S1 _]. congruence. }
  etrans; [|exact S1]. match type of H with ?m _ = _ => assert (touches [key m6] m) as T by touching end.
  by eapply T.
Qed.

Lemma next_vote_metas accounts a : next_vote_accounts accounts = Some a -> exists rest, accounts = vote_metas a ++ rest.
Proof. intros H. do 9 (destruct accounts as [|? accounts]; [discriminate H|]). injection H as <-. by exists accounts. Qed.

(** A vote that goes through, with what the handler found. *)
Lemma cast_vote_found clock accounts w e (s s' : Store D) :
  process_cast_vote (ext := at_clock clock) id accounts w e s = (Ok tt, s') ->
  exists a rest v, accounts = vote_metas a ++ rest
  /\ vote_accepted (ext := at_clock clock) id a w e s v /\ vote_effect a s v s'.
Proof.
  intros H. destruct (next_vote_accounts accounts) as [a|] eqn:Ha.
  2: { unfold process_cast_vote in H. by rewrite Ha in H. }
  apply next_vote_metas in Ha as [rest ->]. exists a, rest.
  pose proof (cast_vote_runs (ext := at_clock clock) id a rest w e s (not_eq_sym (not_restaking clock))) as Hr.
  rewrite H in Hr. destruct Hr as (v & Ha & He). by exists v.
Qed.

Lemma record_keeps st w tot sl r r' : ConsensusResult.is_consensus_reached r = true ->
  ConsensusResult.record_consensus st w tot sl r = (Ok tt, r') ->
  same_outcome r r' /\ ConsensusResult.is_consensus_reached r' = true.
Proof. intros Hr. rewrite ConsensusResult.record_consensus_run, Hr. by intros [= <-]. Qed.

Lemma outcome_step s s' n e r : step s s' -> recorded s n e r ->
  exists r', recorded s' n e r' /\ same_outcome r r'.
Proof.
  intros Hs Hr. set (k := at_ (AConsensusResult n e)).
  assert (same_data (s' k) (s k) -> exists r', recorded s' n e r' /\ same_outcome r r') as Hsame.
  { intros Hk. exists r. split; [by eapply recorded_same|done]. }
  pose proof Hr as (Ho & Hlen & Hd & Hread & Hc). fold k in Ho, Hlen, Hd, Hread.
  destruct Hs as [clock accounts ix s s' _ H|s s' Hout _]; [|by apply Hsame, Hout].
  assert (data_byte0 (Account.data (s k)) <> EpochStateAccount.DISCRIMINATOR) as Hne by by rewrite Hd.
  destruct ix; try (apply Hsame; eapply untouched; [exact H|no_permission|done]);
    unfold process_instruction in H; (destruct (negb _); [discriminate H|]); unfold mbind at 1, lift at 1 in H;
    cbv beta iota in H.
  - apply Hsame. by eapply initialize_box_spares.
  - apply cast_vote_found in H as (a & rest & v & _ & Hacc & Heff).
    destruct (vc_loads _ _ _ _ _ _ Hacc) as [_ Lst _ _ _ Lbox _ _ _ _].
    pose proof (ve_result _ _ _ _ Heff) as Hres. pose proof (ve_alike _ _ _ _ Heff k) as (Ho' & _ & Hl' & Hd').
    destruct (decide (k = key (consensus_result a))) as [Hk|Hk].
    2: { apply Hsame. rewrite (ve_others _ _ _ _ Heff); [done|..].
         - intros Hkb. apply check_load_ok in Lbox as (_ & _ & Lbox & _).
           destruct (Lbox _ eq_refl) as [_ Hb]. cbn in Hb. rewrite <-Hkb, Hd in Hb. discriminate Hb.
         - done.
         - intros Hkb. apply check_load_ok in Lst as (_ & _ & Lst & _).
           destruct (Lst _ eq_refl) as [_ Hb]. cbn in Hb. rewrite <-Hkb, Hd in Hb. discriminate Hb. }
    destruct (BallotBox.is_consensus_reached (vi_tallied v)) eqn:Hreached.
    2: { apply Hsame. by rewrite Hk, Hres. }
    destruct Hres as (wb & r' & _ & Hr' & Hrec).
    pose proof (vc_result _ _ _ _ _ _ Hacc Hreached) as Hv. unfold stored_at in Hv, Hr'. rewrite <-Hk in Hv, Hr'.
    assert (vi_result v = r) as Hvr by congruence. rewrite Hvr in Hrec.
    destruct (record_keeps _ _ _ _ _ _ Hc Hrec) as [Hso Hc']. exists r'. split; [|done].
    unfold recorded. cbv zeta. fold k. by rewrite Ho', Hl', Hd'.
Qed.

Lemma outcome_life s s' n e r : recorded s n e r -> rtc step s s' ->
  exists r', recorded s' n e r' /\ same_outcome r r'.
Proof.
  intros Hr Hs. revert r Hr. induction Hs as [s|s s1 s2 H1 H2 IH]; intros r Hr; [by exists r|].
  destruct (outcome_step _ _ _ _ _ H1 Hr) as (r1 & Hr1 & Hs1). destruct (IH _ Hr1) as (r2 & Hr2 & Hs2).
  exists r2. split; [done|]. by etrans.
Qed.

(** C2: the outcome is final. Once the consensus of an NCN's epoch is recorded,
    it stays recorded whatever sequence of transactions follows: the account is
    still the program's, and names the same winner, reached in the same slot
    with the same total weight. Not even closing the epoch removes it. *)
Theorem outcome_is_final s s' n e r : recorded s n e r -> rtc step s s' ->
  exists r', recorded s' n e r'
  /\ ConsensusResult.weather_status r' = ConsensusResult.weather_status r
  /\ ConsensusResult.total_vote_weight r' = ConsensusResult.total_vote_weight r
  /\ ConsensusResult.consensus_slot r' = ConsensusResult.consensus_slot r.
Proof.
  intros Hr Hs. destruct (outcome_life _ _ _ _ _ Hr Hs) as (r' & Hr' & _ & _ & Hst & Ht & Hc). by exists r'.
Qed.
End chain.
