(* ===== verification/Elections.v ===== *)
(** The ballot boxes on the ledger: what any sequence of transactions does to the
    account of a ballot box is a life of the box as [Voting] defines it. *)
From stdpp Require Import relations.
From S2P Require Import Prelude Errors Precise Stake Registry Weights Fees Snapshots Voting EpochStates.
From S2P Require Import NcnRouter OperatorRouter Consensus Accounts Machine Lamports Frames VoteHandlers.
From S2P Require Import AdminHandlers SnapshotHandlers RewardHandlers CloseHandlers Program Authority Chain.

Section elections.
Context {D : Type} {data : AccountData D} {bytes : AccountBytes D} {runtime : Runtime}
  {at_clock : Clock -> Externals D} {system : System D} {P : PreciseNumber} {L : PreciseNumberLaws P}.
Context {s_config : Stored D Config.t} {s_registry : Stored D VaultRegistry.t}
  {s_table : Stored D WeightTable.t} {s_epoch : Stored D EpochSnapshot.t}
  {s_operator : Stored D OperatorSnapshot.t} {s_box : Stored D BallotBox.t}
  {s_result : Stored D ConsensusResult.t} {s_router : Stored D NCNRewardRouter.t}
  {s_op_router : Stored D OperatorVaultRewardRouter.t} {s_marker : Stored D EpochMarker.t}
  {s_state : Stored D EpochState.t}.
Context {l_system : SystemLaws D} {l_ext : forall c, ExternalsLaws D (ext := at_clock c)}
  {l_bytes : AccountBytesLaws D}
  {l_config : StoredLaws D Config.t} {l_box : StoredLaws D BallotBox.t}
  {l_result : StoredLaws D ConsensusResult.t} {l_state : StoredLaws D EpochState.t}
  {l_marker : StoredLaws D EpochMarker.t}.
Context (collision_free : forall l l', (find_pda l id).1 = (find_pda l' id).1 -> concat l = concat l').
Context (not_system : id <> system_program_id).
Context (not_restaking : forall c, restaking_program_id (Externals := at_clock c) <> id).
Context (clock_read : forall c, get_clock (Externals := at_clock c) = Ok c).

Abbreviation at_ a := (address_of (runtime := runtime) id a).
Abbreviation ledger_step := (step (at_clock := at_clock)).

(** ** The automaton

    One vote with its tally, or the tie breaker, with whatever total, deadline
    and stall the accounts name at that time; and the account at an address [k],
    which opens only as the empty box of the NCN and the epoch whose address [k]
    is. *)
Definition elects (b b' : BallotBox.t) : Prop :=
  exists total valid_slots epochs_before_stall, 0 < total <= u128_MAX
    /\ BallotBox.step (P := P) total valid_slots epochs_before_stall b b'.

Inductive phase := Absent | Blank | Open (b : BallotBox.t).
Inductive idle_step (k : Pubkey) : phase -> phase -> Prop :=
| stays p : idle_step k p p
| created : idle_step k Absent Blank
| initialized n e bump slot : at_ (ABallotBox n e) = k -> idle_step k Blank (Open (BallotBox.new n e bump slot))
| removed b : idle_step k (Open b) Absent.
Inductive phase_step (k : Pubkey) : phase -> phase -> Prop :=
| idle p p' : idle_step k p p' -> phase_step k p p'
| elected b b' : elects b b' -> phase_step k (Open b) (Open b').

(** What an account is in each phase. *)
Definition in_phase (a : Account.t D) (p : phase) : Prop :=
  match p with
  | Absent => Account.owner a <> id
  | Blank => Account.owner a = id /\ exists n, 0 <= n /\ Account.data a = zeros n
  | Open b => Account.owner a = id /\ data_byte0 (Account.data a) = BallotBoxAccount.DISCRIMINATOR
      /\ Size.BallotBox <= data_len (Account.data a) /\ try_from_slice (Account.data a) = Ok b
  end.

Lemma in_phase_same a a' p : in_phase a p -> same_data a' a -> in_phase a' p.
Proof. intros H [Ho Hd]. destruct p; cbn in *; by rewrite Ho, ?Hd. Qed.

(** A step of the ledger that the phases of one address follow. *)
Definition follows (step : Pubkey -> phase -> phase -> Prop) (k : Pubkey) (s s' : Store D) : Prop :=
  forall p, in_phase (s k) p -> exists p', step k p p' /\ in_phase (s' k) p'.

Lemma follows_same k s s' : same_data (s' k) (s k) -> follows idle_step k s s'.
Proof. intros H p Hp. exists p. split; [constructor|by eapply in_phase_same]. Qed.

Lemma follows_idle k s s' : follows idle_step k s s' -> follows phase_step k s s'.
Proof. intros H p Hp. destruct (H p Hp) as (p' & Hs & Hp'). exists p'. split; [by constructor|done]. Qed.

Lemma follows_outside k s s' :
  (Account.owner (s k) = id -> same_data (s' k) (s k)) ->
  (Account.owner (s k) <> id -> Account.owner (s' k) = id -> exists n, 0 <= n /\ Account.data (s' k) = zeros n) ->
  follows idle_step k s s'.
Proof.
  intros Hid Hnew. destruct (decide (Account.owner (s k) = id)) as [Ho|Ho]; [by apply follows_same, Hid|].
  intros p Hp. destruct p; cbn in Hp; [|tauto..].
  destruct (decide (Account.owner (s' k) = id)) as [Ho'|Ho']; [|exists Absent; by split; [constructor|]].
  exists Blank. split; [constructor|]. split; [done|by apply Hnew].
Qed.
(** ** Voting *)

Lemma tally_zero_total slot (b b' : BallotBox.t) :
  BallotBox.tally_votes 0 slot b = (Ok tt, b') -> BallotBox.tally_votes 1 slot b = (Ok tt, b').
Proof.
  unfold BallotBox.tally_votes. rewrite !run_get_self. destruct (negb _); [done|].
  destruct (max_by_key _ _); [|done]. cbn [ok_or]. by rewrite run_lift_Ok.
Qed.

Lemma vote_elects op st w slot valid total (b b1 b2 : BallotBox.t) :
  0 <= st -> StakeWeights.wf w -> 0 <= slot < u64_MAX -> in_range u128_MAX total ->
  BallotBox.cast_vote op (Ballot.new st) w slot valid b = (Ok tt, b1) ->
  BallotBox.tally_votes total slot b1 = (Ok tt, b2) -> elects b b2.
Proof.
  intros Hst Hw Hslot [Ht Ht'] H1 H2. destruct (decide (total = 0)) as [->|Hne].
  - apply tally_zero_total in H2. exists 1, valid, 0. split; [done|].
    eapply BallotBox.step_vote; try done. by apply Ballot.ballot_new_wf.
  - exists total, valid, 0. split; [lia|]. eapply BallotBox.step_vote; try done. by apply Ballot.ballot_new_wf.
Qed.

(** The account of a box that is checked is [Open], when it is in a phase. *)
Lemma loaded_open s m n e w p :
  BallotBoxAccount.load id (info s m) n e w = Ok tt -> in_phase (s (key m)) p -> exists b, p = Open b.
Proof.
  intros (Ho & _ & Hd & _)%check_load_ok Hp. destruct (Hd _ eq_refl) as [_ Hb]. cbn in Ho, Hb.
  destruct p as [| |b]; [by destruct Hp| |by exists b].
  destruct Hp as (_ & k & _ & Hz). rewrite Hz, byte0_zeros in Hb. discriminate Hb.
Qed.

Lemma open_alike a a' b b' : in_phase a (Open b) -> alike a' a -> try_from_slice (Account.data a') = Ok b' ->
  in_phase a' (Open b').
Proof. intros (Ho & Hd & Hl & _) (Ho' & _ & Hl' & Hd') Hr. cbn. by rewrite Ho', Hd', Hl'. Qed.

(** Ballot boxes with the same address. *)
Lemma box_address_inj n e n' e' : at_ (ABallotBox n e) = at_ (ABallotBox n' e') ->
  to_bytes n = to_bytes n' /\ to_le_bytes 8 e = to_le_bytes 8 e'.
Proof.
  intros H%collision_free. cbn -[to_bytes to_le_bytes List.app seed] in H. apply app_inv_head in H.
  apply app_inj_1 in H as [Hn H]; [|by rewrite !to_bytes_length].
  by apply app_inj_1 in H as [He _]; [|by rewrite !to_le_bytes_length].
Qed.

(** The box and the snapshots of one epoch: who names the same box names the
    same snapshots. *)
Lemma same_epoch n e n' e' : at_ (ABallotBox n e) = at_ (ABallotBox n' e') ->
  at_ (AEpochSnapshot n e) = at_ (AEpochSnapshot n' e')
  /\ forall o, at_ (AOperatorSnapshot o n e) = at_ (AOperatorSnapshot o n' e').
Proof.
  intros [Hn He]%box_address_inj.
  unfold address_of. cbn [seeds_of]. unfold EpochSnapshotAccount.seeds, OperatorSnapshotAccount.seeds.
  by rewrite Hn, He.
Qed.

(** What the operator that votes has: its snapshot, and the stake in it, which is
    not zero. *)
Definition votes_with (s : Store D) (o n : Pubkey) (e : u64) (w : StakeWeights.t) : Prop :=
  let a := s (at_ (AOperatorSnapshot o n e)) in
  is_pubkey o /\ StakeWeights.stake_weight w <> 0 /\ Account.owner a = id /\ data_byte0 (Account.data a) = OperatorSnapshotAccount.DISCRIMINATOR
  /\ exists snapshot, try_from_slice (Account.data a) = Ok snapshot /\ w = OperatorSnapshot.stake_weights snapshot.

(** A vote that goes through leaves a box alone, or takes it one step, with the
    stake of the epoch's snapshot as the total. *)
Lemma cast_vote_step clock accounts st e' s s' n e p :
  well_typed clock accounts (NCNProgramInstruction.CastVote st e') s ->
  process_cast_vote (ext := at_clock clock) id accounts st e' s = (Ok tt, s') ->
  in_phase (s (at_ (ABallotBox n e))) p ->
  same_data (s' (at_ (ABallotBox n e))) (s (at_ (ABallotBox n e)))
  \/ exists b b1 b' op w valid es, p = Open b /\ in_phase (s' (at_ (ABallotBox n e))) (Open b')
     /\ try_from_slice (Account.data (s (at_ (AEpochSnapshot n e)))) = Ok es
     /\ EpochSnapshot.finalized es = true /\ votes_with s op n e w
     /\ Ballot.wf (Ballot.new st) /\ StakeWeights.wf w /\ StakeWeights.wf (EpochSnapshot.stake_weights es)
     /\ 0 <= slot clock < u64_MAX
     /\ BallotBox.cast_vote op (Ballot.new st) w (slot clock) valid b = (Ok tt, b1)
     /\ BallotBox.tally_votes (StakeWeights.stake_weight (EpochSnapshot.stake_weights es)) (slot clock) b1 = (Ok tt, b').
Proof.
  intros [Hslot Hst Hkey Hop Hep] H Hp.
  apply (cast_vote_found not_restaking) in H as (a & rest & v & -> & Hacc & Heff).
  destruct (vc_loads _ _ _ _ _ _ Hacc) as [_ Lst _ _ _ Lbox Lep Lops Lres _].
  assert (key (VoteHandlers.operator_snapshot a)
    = at_ (AOperatorSnapshot (key (VoteHandlers.operator a)) (key (VoteHandlers.ncn a)) e')) as Kops
    by exact (at_address id s _ _ (AOperatorSnapshot _ _ e') Lops).
  assert (key (VoteHandlers.epoch_state a) = at_ (AEpochState (key (VoteHandlers.ncn a)) e')) as Kst
    by exact (at_address id s _ _ (AEpochState _ e') Lst).
  assert (key (consensus_result a) = at_ (AConsensusResult (key (VoteHandlers.ncn a)) e')) as Kres
    by exact (at_address id s _ _ (AConsensusResult _ e') Lres).
  assert (key (ballot_box a) = at_ (ABallotBox (key (VoteHandlers.ncn a)) e')) as Kbox
    by exact (at_address id s _ _ (ABallotBox _ e') Lbox).
  assert (key (VoteHandlers.epoch_snapshot a) = at_ (AEpochSnapshot (key (VoteHandlers.ncn a)) e')) as Kep
    by exact (at_address id s _ _ (AEpochSnapshot _ e') Lep).
  destruct (decide (at_ (ABallotBox n e) = key (ballot_box a))) as [Hk|Hk]; [right|left].
  - rewrite Hk in *. destruct (loaded_open _ _ _ _ _ _ Lbox Hp) as [b ->].
    symmetry in Hk. rewrite Kbox in Hk. apply eq_sym, same_epoch in Hk as [Hk Hko]. rewrite Hk, <-Kep.
    pose proof (vc_box _ _ _ _ _ _ Hacc) as Hb. unfold stored_at in Hb.
    pose proof Hp as (_ & _ & _ & Hr). rewrite Hr in Hb. injection Hb as Hb.
    pose proof (vc_clock _ _ _ _ _ _ Hacc) as Hc. rewrite clock_read in Hc. injection Hc as Hc.
    exists b, (vi_voted v), (vi_tallied v), (key (VoteHandlers.operator a)), (OperatorSnapshot.stake_weights (vi_operator v)),
      (Config.valid_slots_after_consensus (vi_config v)), (vi_snapshot v).
    split; [done|]. split; [eapply open_alike; [exact Hp|apply Heff|apply Heff]|].
    split; [exact (vc_snapshot _ _ _ _ _ _ Hacc)|]. split; [exact (vc_final _ _ _ _ _ _ Hacc)|]. split.
    { unfold votes_with. rewrite Hko, <-Kops. apply check_load_ok in Lops as (Lo & _ & Ld & _).
      destruct (Ld _ eq_refl) as [_ Lb]. cbn in Lo, Lb. split; [eapply Hkey; [|apply Hacc]|].
      { apply elem_of_app. left. unfold vote_metas. in_list. }
      split; [exact (vc_weight _ _ _ _ _ _ Hacc)|]. split; [exact Lo|]. split; [exact Lb|].
      eexists. split; [exact (vc_operator _ _ _ _ _ _ Hacc)|done]. }
    split; [by apply Ballot.ballot_new_wf|].
    split; [|split]; [eapply Hop|eapply Hep|]; [|apply Hacc| |apply Hacc|].
    1,2: apply elem_of_app; left; unfold vote_metas; in_list.
    rewrite Hb, Hc. split; [by rewrite <-Hc|]. split; apply Hacc.
  - rewrite (ve_others _ _ _ _ Heff); [done|done|..].
    + rewrite Kres. by apply (addresses_apart collision_free).
    + rewrite Kst. by apply (addresses_apart collision_free).
Qed.

Lemma cast_vote_follows clock accounts st e' s s' n e :
  well_typed clock accounts (NCNProgramInstruction.CastVote st e') s ->
  process_cast_vote (ext := at_clock clock) id accounts st e' s = (Ok tt, s') ->
  follows phase_step (at_ (ABallotBox n e)) s s'.
Proof.
  intros Hwt H p Hp.
  destruct (cast_vote_step _ _ _ _ _ _ _ _ _ Hwt H Hp) as
    [Hk|(b & b1 & b' & op & w & valid & es & -> & Hp' & _ & _ & _ & _ & Hw & Hes & Hslot & Hcast & Htally)].
  - exact (follows_idle _ _ _ (follows_same _ _ _ Hk) p Hp).
  - exists (Open b'). split; [|done]. apply elected. eapply vote_elects; [exact (wt_status _ _ _ _ Hwt)| | | |exact Hcast|exact Htally]; done.
Qed.

Lemma tie_breaker_step clock accounts st e' s s' n e p : 0 <= st ->
  process_admin_set_tie_breaker (ext := at_clock clock) id accounts st e' s = (Ok tt, s') ->
  in_phase (s (at_ (ABallotBox n e))) p ->
  same_data (s' (at_ (ABallotBox n e))) (s (at_ (ABallotBox n e)))
  \/ exists b b' ce stall, p = Open b /\ in_phase (s' (at_ (ABallotBox n e))) (Open b')
     /\ BallotBox.set_tie_breaker_ballot st ce stall b = (Ok tt, b').
Proof.
  intros Hst H Hp. do 5 (destruct accounts as [|? accounts]; [discriminate H|]).
  destruct accounts; [|discriminate H].
  pose proof (tie_breaker_runs (ext := at_clock clock) id m m0 m1 m2 m3 e' s st Hst) as Hr. rewrite H in Hr.
  destruct Hr as (config & c & box & box' & state & Hacc & Hbox & _ & Hsame & Halike).
  pose proof (tc_ballot_box _ _ _ _ _ _ _ _ _ _ _ _ _ _ Hacc) as Lbox.
  pose proof (tc_epoch_state _ _ _ _ _ _ _ _ _ _ _ _ _ _ Hacc) as Lst.
  assert (key m = at_ (AEpochState (key m2) e')) as Kst by exact (at_address id s _ _ (AEpochState _ e') Lst).
  set (k := at_ (ABallotBox n e)) in *. destruct (decide (k = key m1)) as [Hk|Hk]; [right|left].
  - rewrite Hk in *. destruct (loaded_open _ _ _ _ _ _ Lbox Hp) as [b ->].
    assert (box = b) as ->.
    { pose proof (tc_box _ _ _ _ _ _ _ _ _ _ _ _ _ _ Hacc) as Hb. unfold stored_at in Hb.
      destruct Hp as (_ & _ & _ & Hr). congruence. }
    exists b, box', (clock_epoch c), (Config.epochs_before_stall config). split; [done|].
    split; [by eapply open_alike|apply Hacc].
  - rewrite Hsame; [done|done|]. rewrite Kst. by apply (addresses_apart collision_free).
Qed.

Lemma tie_breaker_follows clock accounts st e' s s' n e : 0 <= st ->
  process_admin_set_tie_breaker (ext := at_clock clock) id accounts st e' s = (Ok tt, s') ->
  follows phase_step (at_ (ABallotBox n e)) s s'.
Proof.
  intros Hst H p Hp. destruct (tie_breaker_step _ _ _ _ _ _ _ _ _ Hst H Hp) as [Hk|(b & b' & ce & stall & -> & Hp' & Hset)].
  - exact (follows_idle _ _ _ (follows_same _ _ _ Hk) p Hp).
  - exists (Open b'). split; [|done]. apply elected. exists 1, 0, stall. split; [done|].
    by eapply BallotBox.step_tie_breaker.
Qed.

(** ** Opening and closing *)

Lemma initialize_follows clock accounts e' s s' n e :
  process_initialize_ballot_box (ext := at_clock clock) id accounts e' s = (Ok tt, s') ->
  follows idle_step (at_ (ABallotBox n e)) s s'.
Proof.
  intros H. apply follows_outside.
  - intros Ho. eapply initialize_box_spares; [exact not_system|exact H|exact Ho].
  - intros Hno Ho'. unfold process_initialize_ballot_box in H.
    do 8 (destruct accounts as [|? accounts]; [discriminate H|]). hinv H.
    apply mbind_ok in H as (u1 & s1 & Hc & H). hinv H.
    match type of H with ?m _ = _ => assert (touches [key m6] m) as T by touching end.
    assert (key m6 = at_ (AConsensusResult (key m3) e')) as K6 by located.
    set (k := at_ (ABallotBox n e)) in *.
    assert (k ∉ [key m6]) as Hk.
    { apply not_elem_of_cons. split; [|apply not_elem_of_nil]. rewrite K6. by apply (addresses_apart collision_free). }
    destruct (T _ _ _ H k Hk) as [Ho1 Hd1]. rewrite Hd1.
    destruct (decide (k = key m2)) as [->|Hne].
    + apply create_ok in Hc as (_ & _ & _ & ->). exists (MAX_REALLOC_BYTES `min` MAX_REALLOC_BYTES). done.
    + assert (same_data (s1 k) (s k)) as [Ho2 _].
      { eapply (touches_create [key m2]); [in_list|exact Hc|]. apply not_elem_of_cons. split; [done|apply not_elem_of_nil]. }
      destruct Hno. congruence.
Qed.

Lemma realloc_ok held k n (s s' : Store D) u : realloc held k n s = (Ok u, s') ->
  exists d, resize n (Account.data (s k)) = Ok d /\ s' = update k (set_data d) s.
Proof. intros H. unfold realloc in H. hinv H. injection H as _ <-. eauto. Qed.

Lemma pay_and_realloc_ok {ext : Externals D} held program_id ncn payer k n (s s' : Store D) u :
  Payer.pay_and_realloc held program_id ncn payer k n s = (Ok u, s') ->
  Account.owner (s' k) = Account.owner (s k) /\ resize n (Account.data (s k)) = Ok (Account.data (s' k)).
Proof.
  intros H. unfold Payer.pay_and_realloc in H. hinv H. apply mbind_ok in H as (u1 & s1 & Hpay & H).
  apply realloc_ok in H as (d & Hd & ->). rewrite update_same. cbn.
  assert (touches [] (if 0 <? saturating_sub (x n) (Account.lamports (s k))
    then Payer.transfer held program_id ncn payer k (saturating_sub (x n) (Account.lamports (s k)))
    else ret tt)) as T by touching.
  destruct (T _ _ _ Hpay k) as [-> Hd']; [apply not_elem_of_nil|]. by rewrite <-Hd'.
Qed.
(** The length after one reallocation. *)
Definition next_len (n target : usize) : usize :=
  if n <? target then Z.min (n + MAX_REALLOC_BYTES) target else n.

Lemma next_len_nonneg n target : 0 <= target -> 0 <= n -> 0 <= next_len n target.
Proof. unfold next_len, MAX_REALLOC_BYTES. destruct (n <? _); lia. Qed.

(** The account after it has grown: the owner is the same, zeros stay zeros, and
    an account of the full size is left alone. *)
Lemma grown {ext : Externals D} program_id ncn payer k target (s s' : Store D) u :
  (if data_len (Account.data (s k)) <? target
   then let* new_size := lift (get_new_size (data_len (Account.data (s k))) target) in
        Payer.pay_and_realloc [] program_id ncn payer k new_size
   else ret tt) s = (Ok u, s') ->
  Account.owner (s' k) = Account.owner (s k)
  /\ (target <= data_len (Account.data (s k)) -> s' = s)
  /\ (forall n, 0 <= n -> Account.data (s k) = zeros n -> Account.data (s' k) = zeros (next_len n target)).
Proof.
  unfold next_len. destruct (_ <? target) eqn:E.
  - intros H. hinv H. apply pay_and_realloc_ok in H as [Ho Hd]. split; [done|]. split; [lia|].
    intros n Hn Hz. rewrite Hz, len_zeros in * by done. rewrite E. unfold get_new_size, checked_add in *.
    destruct (_ <=? u64_MAX); [|done]. cbn in *.
    match goal with H : Ok _ = Ok x |- _ => injection H as <- end.
    eapply resize_zeros; [|exact Hd]. unfold MAX_REALLOC_BYTES. lia.
  - intros [= _ <-]. split; [done|]. split; [done|]. intros n Hn Hz. rewrite Hz, len_zeros in E by done.
    by rewrite E.
Qed.

(** What the initialization of a full-sized account leaves. *)
Lemma struct_initialized {T} {st : Stored D T} {l_st : StoredLaws D T} k d (f : T -> T) (s s1 s' : Store D) u u' :
  set_discriminator k d s = (Ok u, s1) ->
  on_account k (modify f : M T NCNProgramError.t unit) s1 = (Ok u', s') ->
  Account.owner (s' k) = Account.owner (s k) /\ data_byte0 (Account.data (s' k)) = d
  /\ data_len (Account.data (s' k)) = data_len (Account.data (s k))
  /\ exists t, try_from_slice (Account.data (s' k)) = Ok (f t).
Proof.
  intros [Hlen ->]%set_discriminator_ok H.
  apply on_account_ok in H as (t & t' & Ht & Hi & ->). injection Hi as _ <-.
  set (s1 := update k _ s) in *. destruct (write_keeps k k (f t) s1) as (-> & _ & -> & ->).
  unfold s1 at 1 2 3. rewrite !update_same. cbn [set_data Account.data Account.owner].
  rewrite len_set_byte0, byte0_set_byte0 by done. split_and!; try done. exists t.
  rewrite write_same. cbn [Account.data]. by rewrite (read_assign _ _ _ Ht).
Qed.

(** One reallocation: a full-sized box is left alone; blank data grow, and open
    as the empty box when they have the full size. *)
Lemma realloc_box_run clock epoch_state ncn_config ballot_box ncn account_payer system_program e' s s' :
  process_realloc_ballot_box (ext := at_clock clock) id
    [epoch_state; ncn_config; ballot_box; ncn; account_payer; system_program] e' s = (Ok tt, s') ->
  let k := key ballot_box in key epoch_state <> k ->
  Account.owner (s' k) = Account.owner (s k)
  /\ (Size.BallotBox <= data_len (Account.data (s k)) ->
      data_byte0 (Account.data (s k)) = BallotBoxAccount.DISCRIMINATOR -> same_data (s' k) (s k))
  /\ (forall n, 0 <= n -> Account.data (s k) = zeros n ->
       let n' := next_len n Size.BallotBox in
       if Size.BallotBox <=? n' then
         data_byte0 (Account.data (s' k)) = BallotBoxAccount.DISCRIMINATOR /\ data_len (Account.data (s' k)) = n'
         /\ exists bump, try_from_slice (Account.data (s' k)) = Ok (BallotBox.new (key ncn) e' bump (slot clock))
       else Account.data (s' k) = zeros n').
Proof.
  intros H k Hk. unfold process_realloc_ballot_box in H. hinv H. fold k in H.
  apply mbind_ok in H as (u1 & s1 & Hgrow & H). hinv H. apply grown in Hgrow as (Ho1 & Hfull & Hz).
  destruct (_ && _) eqn:Hinit.
  - apply andb_true_iff in Hinit as [Hl%Z.leb_le Hd].
    apply mbind_ok in H as (u2 & s2 & Hset & H). hinv H. apply mbind_ok in H as (u3 & s3 & Hi & H).
    hinv H. destruct (struct_initialized _ _ _ _ _ _ _ _ Hset Hi) as (Ho3 & Hd3 & Hl3 & b0 & Hr3).
    assert (same_data (s' k) (s3 k)) as [Ho' Hd'].
    { eapply (touches_update_state [key epoch_state]); [in_list|exact H|].
      by apply not_elem_of_cons; split; [|apply not_elem_of_nil]. }
    rewrite Ho', Hd', Ho3, Hd3, Hl3. split; [done|]. split.
    + intros Hlen Hb. rewrite (Hfull Hlen), Hb in Hd. discriminate Hd.
    + intros n Hn Hzn. apply (Hz n Hn) in Hzn. rewrite Hzn, len_zeros in * by by apply next_len_nonneg.
      cbv zeta. destruct (Z.leb_spec Size.BallotBox (next_len n Size.BallotBox)); [|lia]. split_and!; [done..|].
      match goal with Hc : get_clock = Ok ?c |- _ => rewrite clock_read in Hc; injection Hc as <- end. eauto.
  - injection H as <-. split; [done|]. split; [by intros Hlen _; rewrite (Hfull Hlen)|].
    intros n Hn Hzn. apply (Hz n Hn) in Hzn. rewrite Hzn, len_zeros, byte0_zeros, andb_true_r in Hinit by by apply next_len_nonneg.
    cbv zeta. by rewrite Hinit.
Qed.

Lemma realloc_follows clock accounts e' s s' n e :
  process_realloc_ballot_box (ext := at_clock clock) id accounts e' s = (Ok tt, s') ->
  follows idle_step (at_ (ABallotBox n e)) s s'.
Proof.
  intros H. do 6 (destruct accounts as [|? accounts]; [discriminate H|]). destruct accounts; [|discriminate H].
  assert (touches [key m1; key m] (process_realloc_ballot_box (ext := at_clock clock) id [m; m0; m1; m2; m3; m4] e'))
    as T by (unfold process_realloc_ballot_box; touching).
  pose proof (T _ _ _ H (at_ (ABallotBox n e))) as Hsame. clear T.
  pose proof (realloc_box_run _ _ _ _ _ _ _ _ _ _ H) as Hrun. unfold process_realloc_ballot_box in H. hinv H.
  assert (key m = at_ (AEpochState (key m2) e')) as Kst by located.
  assert (key m1 = at_ (ABallotBox (key m2) e')) as Kbox by located. clear H.
  assert (at_ (ABallotBox n e) <> key m) as Hkm by (rewrite Kst; by apply (addresses_apart collision_free)).
  set (k := at_ (ABallotBox n e)) in *. destruct (decide (k = key m1)) as [Hk|Hk].
  2: { apply follows_same, Hsame. by apply not_elem_of_cons; split; [|apply not_elem_of_cons; split; [|apply not_elem_of_nil]]. }
  rewrite Hk in *. destruct (Hrun (not_eq_sym Hkm)) as (Ho & Hkeep & Hgrow).
  intros [| |b] Hp.
  - exists Absent. split; [constructor|]. cbn in *. congruence.
  - destruct Hp as (Hid & j & Hj & Hz). specialize (Hgrow j Hj Hz). cbv zeta in Hgrow. destruct (_ <=? _) eqn:E.
    + destruct Hgrow as (Hd & Hl & bump & Hr). eexists (Open _).
      split; [exact (initialized _ (key m2) e' bump (slot clock) (eq_sym Kbox))|].
      split; [congruence|]. split; [exact Hd|]. split; [lia|exact Hr].
    + exists Blank. split; [constructor|]. split; [congruence|]. exists (next_len j Size.BallotBox). split; [by apply next_len_nonneg|done].
  - exists (Open b). split; [constructor|]. destruct (Hp) as (_ & Hd & Hl & _). eapply in_phase_same; [exact Hp|auto].
Qed.

(** Calls of the reallocation, one after the other. *)
Definition reallocs (accounts : list Meta) (e : u64) (l : list Clock) : M (Store D) ProgramError.t unit :=
  foldr (fun c k => let* _ := process_realloc_ballot_box (ext := at_clock c) id accounts e in k) (ret tt) l.

Section reallocs.
Context (epoch_state ncn_config ballot_box ncn account_payer system_program : Meta) (e : u64).
Abbreviation accounts := [epoch_state; ncn_config; ballot_box; ncn; account_payer; system_program].
Context (apart : key epoch_state <> key ballot_box).

Lemma reallocs_full l s s' b : reallocs accounts e l s = (Ok tt, s') ->
  in_phase (s (key ballot_box)) (Open b) -> in_phase (s' (key ballot_box)) (Open b).
Proof.
  revert s. induction l as [|c l IH]; intros s H Hb; [by injection H as <-|].
  apply mbind_ok in H as ([] & s1 & H1 & H). apply (IH s1 H). eapply in_phase_same; [exact Hb|].
  destruct (realloc_box_run _ _ _ _ _ _ _ _ _ _ H1 apart) as (_ & Hfull & _).
  destruct Hb as (_ & Hd & Hl & _). auto.
Qed.

Lemma reallocs_grow l n s s' :
  0 <= n < Size.BallotBox -> Account.owner (s (key ballot_box)) = id ->
  Account.data (s (key ballot_box)) = zeros n -> reallocs accounts e l s = (Ok tt, s') ->
  let m := n + MAX_REALLOC_BYTES * Z.of_nat (List.length l) in
  if Size.BallotBox <=? m then
    exists bump slot, in_phase (s' (key ballot_box)) (Open (BallotBox.new (key ncn) e bump slot))
  else Account.owner (s' (key ballot_box)) = id /\ Account.data (s' (key ballot_box)) = zeros m.
Proof.
  revert n s. induction l as [|c l IH]; intros n s Hn Ho Hz H; cbv zeta.
  - injection H as <-. cbn [List.length]. rewrite Z.mul_0_r, Z.add_0_r.
    by destruct (Z.leb_spec Size.BallotBox n); [lia|].
  - apply mbind_ok in H as ([] & s1 & H1 & H). cbn [List.length]. rewrite Nat2Z.inj_succ.
    destruct (realloc_box_run _ _ _ _ _ _ _ _ _ _ H1 apart) as (Ho1 & _ & Hgrow).
    specialize (Hgrow n (proj1 Hn) Hz). cbv zeta in Hgrow. unfold next_len in Hgrow.
    destruct (n <? Size.BallotBox) eqn:E1; [|lia]. assert (0 < MAX_REALLOC_BYTES) as Hpos by done.
    destruct (Z.leb_spec Size.BallotBox (Z.min (n + MAX_REALLOC_BYTES) Size.BallotBox)) as [Hf|Hf].
    + destruct Hgrow as (Hd & Hl & bump & Hr). destruct (Z.leb_spec Size.BallotBox
        (n + MAX_REALLOC_BYTES * Z.succ (Z.of_nat (List.length l)))); [|lia].
      exists bump, (slot c). eapply reallocs_full; [exact H|]. split; [congruence|]. split; [done|]. split; [lia|done].
    + rewrite Z.min_l in Hgrow by lia. specialize (IH (n + MAX_REALLOC_BYTES) s1). cbv zeta in IH.
      replace (n + MAX_REALLOC_BYTES * Z.succ (Z.of_nat (List.length l)))
        with (n + MAX_REALLOC_BYTES + MAX_REALLOC_BYTES * Z.of_nat (List.length l)) by lia.
      apply IH; [lia|congruence|done|done].
Qed.

(** C25: growing a ballot box ends. Every call adds the [10240] bytes a
    transaction may add; the call that reaches the full size opens the account
    as the empty box, whatever the size it started from, and further calls
    change nothing. From the size it is created with, that is the second call. *)
Theorem reallocs_open_the_box l n s s' :
  0 <= n < Size.BallotBox -> Account.owner (s (key ballot_box)) = id ->
  Account.data (s (key ballot_box)) = zeros n -> reallocs accounts e l s = (Ok tt, s') ->
  let m := n + MAX_REALLOC_BYTES * Z.of_nat (List.length l) in
  (if Size.BallotBox <=? m then
     exists bump slot, in_phase (s' (key ballot_box)) (Open (BallotBox.new (key ncn) e bump slot))
   else Account.owner (s' (key ballot_box)) = id /\ Account.data (s' (key ballot_box)) = zeros m)
  /\ forall b l' s'', in_phase (s' (key ballot_box)) (Open b) -> reallocs accounts e l' s' = (Ok tt, s'') ->
       in_phase (s'' (key ballot_box)) (Open b).
Proof.
  intros Hn Ho Hz H. split; [by eapply reallocs_grow|]. intros b l' s'' Hb H'. by eapply reallocs_full.
Qed.
End reallocs.

(** ** Closing *)

Lemma close_account_ok payer k (s s' : Store D) u :
  Payer.close_account id payer k s = (Ok u, s') -> Account.owner (s' k) = system_program_id.
Proof.
  unfold Payer.close_account. intros H. hinv H.
  apply mbind_ok in H as (u1 & s1 & H1 & H). injection H1 as _ <-.
  apply mbind_ok in H as (u2 & s2 & H2 & H). injection H2 as _ <-.
  apply mbind_ok in H as (u3 & s3 & H3 & H). injection H3 as _ <-.
  apply realloc_ok in H as (d & _ & ->). by rewrite !update_same.
Qed.

(** Closing removes an account of a type it closes, or leaves it alone; but for
    the epoch's state and its marker. *)
Lemma closing_removes clock accounts e' s s' a :
  process_close_epoch_account (ext := at_clock clock) id accounts e' s = (Ok tt, s') ->
  (forall n e, seeds_size a <> seeds_size (AEpochState n e) /\ seeds_size a <> seeds_size (AEpochMarker n e)) ->
  same_data (s' (at_ a)) (s (at_ a))
  \/ Account.owner (s' (at_ a)) = system_program_id
     /\ data_byte0 (Account.data (s (at_ a))) ∈ closable_discriminators.
Proof.
  intros H Hsz. pose proof H as Hf. apply close_found in Hf as (c & Ha & Hm & Hst & Hc & Hw).
  assert (key (CloseHandlers.epoch_state c) = at_ (AEpochState (key (CloseHandlers.ncn c)) e')) as Kst
    by exact (at_address id s _ _ (AEpochState _ e') Hst).
  assert (key (CloseHandlers.epoch_marker c) = at_ (AEpochMarker (key (CloseHandlers.ncn c)) e')) as Km
    by exact (at_address id s _ true (AEpochMarker _ e') Hm).
  destruct (Hw (at_ a)) as [Hk|Hk]; [right|by left].
  assert (at_ a <> key (CloseHandlers.epoch_state c)) as Nst
    by (rewrite Kst; apply (addresses_apart collision_free), Hsz).
  assert (at_ a <> key (CloseHandlers.epoch_marker c)) as Nm
    by (rewrite Km; apply (addresses_apart collision_free), Hsz).
  apply elem_of_cons in Hk as [Hk|Hk].
  2: { exfalso. apply elem_of_cons in Hk as [Hk|Hk]; [done|].
       by apply elem_of_cons in Hk as [Hk|Hk]; [|apply elem_of_nil in Hk]. }
  rewrite <-Hk in Hc. split; [|by destruct Hc].
  unfold process_close_epoch_account in H. rewrite Ha in H. hcall H. hinv H.
  apply mbind_ok in H as (u1 & s1 & _ & H). hinv H. apply mbind_ok in H as (u2 & s2 & _ & H).
  apply mbind_ok in H as (u3 & s3 & _ & H). apply close_account_ok in H. by rewrite Hk.
Qed.

Lemma close_follows clock accounts e' s s' n e :
  process_close_epoch_account (ext := at_clock clock) id accounts e' s = (Ok tt, s') ->
  follows idle_step (at_ (ABallotBox n e)) s s'.
Proof.
  intros H. destruct (closing_removes _ _ _ _ _ (ABallotBox n e) H) as [Hk|[Ho Hd]]; [done|by apply follows_same|].
  intros p Hp. exists Absent. split; [|cbn; congruence]. destruct p as [| |b]; [constructor| |constructor].
  exfalso. destruct Hp as (_ & j & _ & Hz). rewrite Hz, byte0_zeros in Hd.
  revert Hd. by apply (bool_decide_eq_true_1 (0 ∉ closable_discriminators)).
Qed.

(** ** Any step *)

(** Every instruction but a vote and a tie breaker is idle. *)
Lemma step_idle s s' n e : ledger_step s s' ->
  follows idle_step (at_ (ABallotBox n e)) s s'
  \/ exists clock accounts,
     (exists st e', well_typed clock accounts (NCNProgramInstruction.CastVote st e') s
        /\ process_cast_vote (ext := at_clock clock) id accounts st e' s = (Ok tt, s'))
     \/ exists st e', 0 <= st
        /\ process_admin_set_tie_breaker (ext := at_clock clock) id accounts st e' s = (Ok tt, s').
Proof.
  intros [clock accounts ix t t' Hwt H|t t' Hid Hnew]; [|left; apply follows_outside; [apply Hid|apply Hnew]].
  destruct ix; try (left; apply follows_same; eapply untouched; [exact collision_free|exact H|no_permission|done]);
    unfold process_instruction in H; (destruct (negb _); [discriminate H|]); unfold mbind at 1, lift at 1 in H;
    cbv beta iota in H.
  - left. by eapply initialize_follows.
  - left. by eapply realloc_follows.
  - right. exists clock, accounts. left. by exists weather_status, epoch.
  - left. by eapply close_follows.
  - right. exists clock, accounts. right. exists weather_status, epoch. split; [exact (wt_status _ _ _ _ Hwt)|exact H].
Qed.

Lemma step_follows s s' n e : ledger_step s s' -> follows phase_step (at_ (ABallotBox n e)) s s'.
Proof.
  intros [Hi|(clock & accounts & [(st & e' & Hwt & H)|(st & e' & Hst & H)])]%(step_idle _ _ n e).
  - by apply follows_idle.
  - by eapply cast_vote_follows.
  - by eapply tie_breaker_follows.
Qed.

(** C3: the ledger refines the automaton. Whatever transaction runs, by anyone
    and with any accounts, the account at the address of a ballot box makes a
    step of the automaton: it is created blank, grows blank, opens as the empty
    box of the NCN and the epoch of the address, changes only by an accepted vote with its tally or by the tie breaker,
    and disappears. *)
Theorem ballot_box_refines_automaton s s' n e p :
  ledger_step s s' -> in_phase (s (at_ (ABallotBox n e))) p ->
  exists p', phase_step (at_ (ABallotBox n e)) p p' /\ in_phase (s' (at_ (ABallotBox n e))) p'.
Proof. intros Hs. by apply step_follows. Qed.

(** ** The life of a box *)

(** An account that is open has a well-formed box, of the NCN and the epoch whose
    address it has. *)
Definition sound (k : Pubkey) (p : phase) : Prop :=
  match p with
  | Open b => BallotBox.wf b /\ at_ (ABallotBox (BallotBox.ncn b) (BallotBox.epoch b)) = k
  | _ => True
  end.

Lemma phase_step_sound k p p' : phase_step k p p' -> sound k p -> sound k p'.
Proof.
  intros [? ? []|b b' (total & valid & stall & Ht & Hs)]; cbn; try done.
  - intros _. split; [apply BallotBox.ballot_box_new_wf|done].
  - intros [Hwf Hk]. split; [by apply (BallotBox.step_keeps _ _ _ Ht _ _ Hwf Hs)|].
    by destruct (BallotBox.step_identity _ _ _ Ht _ _ Hwf Hs) as [-> ->].
Qed.

Definition kept (b b' : BallotBox.t) : Prop :=
  (BallotBox.has_winning_ballot b = true ->
     BallotBox.winning_ballot b' = BallotBox.winning_ballot b
     /\ BallotBox.slot_consensus_reached b' = BallotBox.slot_consensus_reached b)
  /\ (forall i v, BallotBox.operator_votes b !! i = Some v -> OperatorVote.is_empty v = false ->
        BallotBox.operator_votes b' !! i = Some v).
#[local] Instance kept_preorder : PreOrder kept.
Proof.
  split; [by intros b; split|]. intros a b c [Hw Hv] [Hw' Hv']. split; [|by eauto].
  intros Ha. destruct (Hw Ha) as [H1 H2]. destruct Hw' as [H3 H4]; [unfold BallotBox.has_winning_ballot in *; congruence|].
  split; congruence.
Qed.

Lemma box_life s s' n e b : let k := at_ (ABallotBox n e) in
  rtc ledger_step s s' -> in_phase (s k) (Open b) -> BallotBox.wf b ->
  (exists t, rtc ledger_step s t /\ rtc ledger_step t s' /\ Account.owner (t k) <> id)
  \/ exists b', in_phase (s' k) (Open b') /\ BallotBox.wf b' /\ kept b b'.
Proof.
  cbv zeta. intros Hr. revert b. induction Hr as [s|s s1 s2 H1 H2 IH]; intros b Hb Hwf; [right; by exists b|].
  destruct (step_follows _ _ n e H1 _ Hb) as (p & Hp & Hp1).
  assert (forall b1, in_phase (s1 (at_ (ABallotBox n e))) (Open b1) -> BallotBox.wf b1 -> kept b b1 ->
    (exists t, rtc ledger_step s t /\ rtc ledger_step t s2 /\ Account.owner (t (at_ (ABallotBox n e))) <> id)
    \/ exists b', in_phase (s2 (at_ (ABallotBox n e))) (Open b') /\ BallotBox.wf b' /\ kept b b') as Hopen.
  { intros b1 Hb1 Hwf1 Hk. destruct (IH _ Hb1 Hwf1) as [(t & Ht1 & Ht2 & Ho)|(b' & Hb' & Hwf' & Hk')]; [left|right].
    - exists t. split; [by eapply rtc_l|done].
    - exists b'. split; [done|]. split; [done|by etrans]. }
  inversion Hp as [? ? Hi|? b1 (total & valid & stall & Ht & Hs)]; subst.
  - inversion Hi; subst; [by apply (Hopen b)|]. left. exists s1. split; [by apply rtc_once|done].
  - destruct (BallotBox.step_keeps _ _ _ Ht _ _ Hwf Hs) as (Hwf1 & Hk). by apply (Hopen b1).
Qed.

Lemma box_origin s s' n e p : rtc ledger_step s s' -> in_phase (s (at_ (ABallotBox n e))) p ->
  sound (at_ (ABallotBox n e)) p -> exists p', in_phase (s' (at_ (ABallotBox n e))) p' /\ sound (at_ (ABallotBox n e)) p'.
Proof.
  intros Hr. revert p. induction Hr as [s|s s1 s2 H1 _ IH]; intros p Hp Hs; [by exists p|].
  destruct (step_follows _ _ n e H1 _ Hp) as (p1 & Hp1 & Hp1'). eapply IH; [done|by eapply phase_step_sound].
Qed.

(** An account of the program that is blank or holds the well-formed ballot box of
    an NCN and an epoch, as far as they enter its address. *)
Definition box_or_blank (n : Pubkey) (e : u64) (a : Account.t D) : Prop :=
  (exists len, 0 <= len /\ Account.data a = zeros len)
  \/ (data_byte0 (Account.data a) = BallotBoxAccount.DISCRIMINATOR /\ Size.BallotBox <= data_len (Account.data a)
      /\ exists b, try_from_slice (Account.data a) = Ok b /\ BallotBox.wf b
      /\ to_bytes (BallotBox.ncn b) = to_bytes n /\ to_le_bytes 8 (BallotBox.epoch b) = to_le_bytes 8 e).

(** C33: every ballot box on the ledger is well formed and where it belongs. On any
    ledger reached from one where the address of the box of an NCN and an epoch was
    not the program's, an account of the program at that address is blank, or has
    the size and the discriminator of a ballot box and holds a well-formed box with
    that NCN and that epoch. *)
Theorem ballot_boxes_are_well_formed s s' n e : let a := s' (at_ (ABallotBox n e)) in
  Account.owner (s (at_ (ABallotBox n e))) <> id -> rtc ledger_step s s' -> Account.owner a = id -> box_or_blank n e a.
Proof.
  cbv zeta. intros Ho Hr Ho'. destruct (box_origin s s' n e Absent Hr Ho I) as ([| |b] & Hp & Hwf).
  - by destruct Hp.
  - left. apply Hp.
  - right. destruct Hp as (_ & Hd & Hl & Hb), Hwf as [Hwf Hk]. split; [done|]. split; [done|]. exists b.
    split; [done|]. split; [done|]. by apply box_address_inj.
Qed.

(** C21: a winner on the ledger is final. On any ledger reached from one where
    the address of the box was not the program's, and for any later ledger:
    either the account was closed at some time in between, or the box that is
    there is well formed and has the same winner, decided in the same slot, if
    there was one, and every vote that was cast is there exactly as it was. *)
Theorem votes_on_the_ledger_are_final s0 s s' n e b : let k := at_ (ABallotBox n e) in
  Account.owner (s0 k) <> id -> rtc ledger_step s0 s -> in_phase (s k) (Open b) -> rtc ledger_step s s' ->
  (exists t, rtc ledger_step s t /\ rtc ledger_step t s' /\ Account.owner (t k) <> id)
  \/ exists b', in_phase (s' k) (Open b') /\ BallotBox.wf b'
     /\ (BallotBox.has_winning_ballot b = true ->
           BallotBox.winning_ballot b' = BallotBox.winning_ballot b
           /\ BallotBox.slot_consensus_reached b' = BallotBox.slot_consensus_reached b)
     /\ (forall i v, BallotBox.operator_votes b !! i = Some v -> OperatorVote.is_empty v = false ->
           BallotBox.operator_votes b' !! i = Some v).
Proof.
  cbv zeta. intros Ho H0 Hb Hr. destruct (box_origin s0 s n e Absent H0 Ho I) as (p & Hp & Hs).
  assert (p = Open b) as ->.
  { destruct Hb as (Hbo & Hbd & Hbl & Hbr), p as [| |b1]; [by destruct Hp| |].
    - destruct Hp as (_ & j & _ & Hz). rewrite Hz, byte0_zeros in Hbd. discriminate Hbd.
    - destruct Hp as (_ & _ & _ & Hr1). congruence. }
  exact (box_life s s' n e b Hr Hb (proj1 Hs)).
Qed.
End elections.
