(* ===== verification/Frozen.v ===== *)
(** What a vote is weighed with is frozen before the vote: a weight table, an
    operator's snapshot and an epoch's snapshot that are final stay as they are,
    whatever transactions follow, until their account is closed. *)
From stdpp Require Import relations.
From S2P Require Import Prelude Errors Precise Stake Registry Weights Fees Snapshots Voting EpochStates.
From S2P Require Import NcnRouter OperatorRouter Consensus Accounts Machine Lamports Frames VoteHandlers.
From S2P Require Import AdminHandlers SnapshotHandlers RewardHandlers CloseHandlers Program Authority Chain Elections.

(** ** Fragments that leave one account alone *)
Section spares.
Context {D : Type} {data : AccountData D} {bytes : AccountBytes D} {runtime : Runtime} {ext : Externals D}
  {system : System D} {l_system : SystemLaws D}.
Context (I : Account.t D -> Prop) {HI : Proper (same_data ==> iff) I} (k : Pubkey).

(** A successful run from a state where the account satisfies [I] keeps it. *)
Definition spares {E A} (m : M (Store D) E A) : Prop :=
  forall s a s', m s = (Ok a, s') -> I (s k) -> same_data (s' k) (s k).

Lemma spares_bind {E A B} (m : M (Store D) E A) (f : A -> M (Store D) E B) :
  spares m -> (forall a, spares (f a)) -> spares (mbind m f).
Proof.
  intros Hm Hf s b s' (a & s1 & H1 & H2)%mbind_ok Hs. pose proof (Hm _ _ _ H1 Hs) as H.
  etrans; [eapply Hf; [exact H2|by rewrite H]|exact H].
Qed.

Lemma spares_reading {E A} (m : M (Store D) E A) : touches [] m -> spares m.
Proof. intros Hm s a s' H _. eapply Hm; [exact H|apply not_elem_of_nil]. Qed.

Lemma spares_other {E A} x (m : M (Store D) E A) : touches [x] m -> x <> k -> spares m.
Proof.
  intros Hm Hx s a s' H _. eapply Hm; [exact H|]. apply not_elem_of_cons. split; [done|apply not_elem_of_nil].
Qed.

(** A method that refuses what the account holds. *)
Lemma spares_refused {T E A} {st : Stored D T} {to : Into E} x (m : M T E A) :
  (forall a t r t', I a -> try_from_slice (Account.data a) = Ok t -> m t <> (Ok r, t')) -> spares (on_account x m).
Proof.
  intros Hm. destruct (decide (x = k)) as [->|Hx].
  - intros s a s' H Hs. apply on_account_ok in H as (t & t' & Ht & H & _). by destruct (Hm _ _ _ _ Hs Ht H).
  - eapply spares_other; [|exact Hx]. apply touches_on_account, list_elem_of_here.
Qed.

(** An account of another program than the system program is not created. *)
Lemma spares_create held program_id ncn payer x o n seeds :
  (forall a, I a -> Account.owner a <> system_program_id) ->
  spares (Payer.pay_and_create_account held program_id ncn payer x o n seeds).
Proof.
  intros Ho. destruct (decide (x = k)) as [->|Hx].
  - intros s a s' H Hs. apply create_ok in H as (_ & H & _). by destruct (Ho _ Hs).
  - eapply spares_other; [|exact Hx]. apply touches_create, list_elem_of_here.
Qed.
End spares.

(** [sparing]: through the code; what is left are the writes to accounts that
    are not known to be others. *)
Ltac sparing :=
  repeat first
    [ progress intros
    | solve [apply spares_reading; eauto 2 with frame nocore]
    | solve [eapply spares_other; [solve [eauto 2 with frame nocore]|assumption]]
    | apply spares_bind; [exact _| |]
    | progress cbv beta zeta iota
    | match goal with
      | |- spares _ _ (match ?x with _ => _ end) => destruct x
      | |- spares _ _ (if ?b then _ else _) => destruct b
      end ].

Section frozen.
Context {D : Type} {data : AccountData D} {bytes : AccountBytes D} {runtime : Runtime}
  {at_clock : Clock -> Externals D} {system : System D} {P : PreciseNumber} {L : PreciseNumberLaws P}.
Context {s_config : Stored D Config.t} {s_registry : Stored D VaultRegistry.t}
  {s_table : Stored D WeightTable.t} {s_epoch : Stored D EpochSnapshot.t}
  {s_operator : Stored D OperatorSnapshot.t} {s_box : Stored D BallotBox.t}
  {s_result : Stored D ConsensusResult.t} {s_router : Stored D NCNRewardRouter.t}
  {s_op_router : Stored D OperatorVaultRewardRouter.t} {s_marker : Stored D EpochMarker.t}
  {s_state : Stored D EpochState.t}.
Context {l_system : SystemLaws D} {l_ext : forall c, ExternalsLaws D (ext := at_clock c)}
  {l_bytes : AccountBytesLaws D}
  {l_config : StoredLaws D Config.t} {l_box : StoredLaws D BallotBox.t}
  {l_result : StoredLaws D ConsensusResult.t} {l_state : StoredLaws D EpochState.t}
  {l_marker : StoredLaws D EpochMarker.t}.
Context (collision_free : forall l l', (find_pda l id).1 = (find_pda l' id).1 -> concat l = concat l').
Context (not_system : id <> system_program_id).
Context (not_restaking : forall c, restaking_program_id (Externals := at_clock c) <> id).
Context (clock_read : forall c, get_clock (Externals := at_clock c) = Ok c).

Abbreviation at_ a := (address_of (runtime := runtime) id a).
Abbreviation ledger_step := (step (at_clock := at_clock)).

(** An account of the program, of its full size, that holds a final struct. *)
Definition frozen {T} {st : Stored D T} (discriminator : u8) (size : usize) (final : T -> bool) (a : Account.t D)
    : Prop :=
  Account.owner a = id /\ data_byte0 (Account.data a) = discriminator /\ size <= data_len (Account.data a)
  /\ exists t, try_from_slice (Account.data a) = Ok t /\ final t = true.

#[global] Instance frozen_proper {T} {st : Stored D T} d n (f : T -> bool) : Proper (same_data ==> iff) (frozen d n f).
Proof. intros a b [Ho Hd]. unfold frozen. by rewrite Ho, Hd. Qed.

Abbreviation frozen_table := (frozen WeightTableAccount.DISCRIMINATOR Size.WeightTable WeightTable.finalized).
Abbreviation frozen_operator :=
  (frozen OperatorSnapshotAccount.DISCRIMINATOR Size.OperatorSnapshot OperatorSnapshot.finalized).
Abbreviation frozen_epoch := (frozen EpochSnapshotAccount.DISCRIMINATOR Size.EpochSnapshot EpochSnapshot.finalized).

Lemma frozen_not_system {T} {st : Stored D T} d n (f : T -> bool) a :
  frozen d n f a -> Account.owner a <> system_program_id.
Proof. intros [-> _]. exact not_system. Qed.

(** A method that checks first whether the struct is final. *)
Lemma frozen_refuses {T E A} {st : Stored D T} d n (f : T -> bool) (m : M T E A) :
  (forall t r t', f t = true -> m t <> (Ok r, t')) ->
  forall a t r t', frozen d n f a -> try_from_slice (Account.data a) = Ok t -> m t <> (Ok r, t').
Proof. intros Hm a t r t' (_ & _ & _ & t0 & Ht0 & Hf) Ht. apply Hm. congruence. Qed.

Lemma delegation_refused slot vault index w t r t' : OperatorSnapshot.finalized t = true ->
  OperatorSnapshot.increment_vault_operator_delegation_registration slot vault index w t <> (Ok r, t').
Proof.
  intros Hf. unfold OperatorSnapshot.increment_vault_operator_delegation_registration.
  by rewrite run_get_self, Hf.
Qed.
Lemma registration_refused slot n w t r t' : EpochSnapshot.finalized t = true ->
  EpochSnapshot.increment_operator_registration slot n w t <> (Ok r, t').
Proof. intros Hf. unfold EpochSnapshot.increment_operator_registration. by rewrite run_get_self, Hf. Qed.

(** ** The instructions that write the snapshots *)

(** An account that is to be created is not a frozen one. *)
Lemma created_apart clock (s : Store D) m w k :
  load_system_account (Externals := at_clock clock) (info s m) w = Ok tt -> Account.owner (s k) = id -> key m <> k.
Proof.
  intros [Ho _]%(load_system_account_empty (ExternalsLaws := l_ext clock)) Hf <-. cbn in Ho. congruence.
Qed.
Lemma elsewhere m a b : key m = at_ b -> seeds_size b <> seeds_size a -> key m <> at_ a.
Proof. intros -> Hs. by apply (addresses_apart collision_free). Qed.


(** The accounts that a handler creates are not the frozen one. *)
Ltac created_elsewhere :=
  repeat match goal with
  | Hl : @load_system_account _ _ (info ?s ?m) _ = Ok tt, Hf : Account.owner (?s ?k) = id |- _ =>
      lazymatch goal with
      | _ : key m <> k |- _ => fail
      | _ => assert (key m <> k) by (eapply created_apart; [exact Hl|exact Hf])
      end
  end.
(** [apart m b]: the account [m], which was checked to be at [b], is not the
    frozen one. *)
Ltac apart m b :=
  match goal with
  | Hf : frozen _ _ _ (_ (at_ ?a)) |- _ =>
      assert (key m <> at_ a) by (eapply (elsewhere m a b); [located|done])
  end.
(** [spared H tac]: the rest of the run leaves the frozen account alone; [tac]
    for the methods that may be called on it. *)
Ltac spared H tac :=
  match type of H with
  | ?p ?s = _ =>
      match goal with
      | Hf : frozen ?d ?n ?f (s ?k) |- _ =>
          let T := fresh "T" in
          assert (spares (frozen d n f) k p) as T by (sparing; tac); eapply T; [exact H|exact Hf]
      end
  end.

Lemma initialize_snapshot_spares clock accounts e' s s' n e :
  process_initialize_epoch_snapshot (ext := at_clock clock) id accounts e' s = (Ok tt, s') ->
  frozen_epoch (s (at_ (AEpochSnapshot n e))) ->
  same_data (s' (at_ (AEpochSnapshot n e))) (s (at_ (AEpochSnapshot n e))).
Proof.
  intros H Hf. pose proof (proj1 Hf) as Ho. unfold process_initialize_epoch_snapshot in H.
  do 8 (destruct accounts as [|? accounts]; [discriminate H|]). destruct accounts; [|discriminate H].
  hinv H. created_elsewhere. apart m0 (AEpochState (key m2) e'). spared H idtac.
Qed.

Lemma operator_snapshot_spares_epoch clock accounts e' s s' n e :
  process_initialize_operator_snapshot (ext := at_clock clock) id accounts e' s = (Ok tt, s') ->
  frozen_epoch (s (at_ (AEpochSnapshot n e))) ->
  same_data (s' (at_ (AEpochSnapshot n e))) (s (at_ (AEpochSnapshot n e))).
Proof.
  intros H Hf. pose proof (proj1 Hf) as Ho. unfold process_initialize_operator_snapshot in H.
  do 11 (destruct accounts as [|? accounts]; [discriminate H|]). destruct accounts; [|discriminate H].
  hinv H. created_elsewhere. apart m0 (AEpochState (key m3) e').
  unfold take_operator_snapshot, ncn_epoch_length_of, operator_is_active in H.
  spared H ltac:(apply spares_refused, frozen_refuses; intros; by apply registration_refused).
Qed.

Lemma operator_snapshot_spares_operator clock accounts e' s s' o n e :
  process_initialize_operator_snapshot (ext := at_clock clock) id accounts e' s = (Ok tt, s') ->
  frozen_operator (s (at_ (AOperatorSnapshot o n e))) ->
  same_data (s' (at_ (AOperatorSnapshot o n e))) (s (at_ (AOperatorSnapshot o n e))).
Proof.
  intros H Hf. pose proof (proj1 Hf) as Ho. unfold process_initialize_operator_snapshot in H.
  do 11 (destruct accounts as [|? accounts]; [discriminate H|]). destruct accounts; [|discriminate H].
  hinv H. created_elsewhere. apart m0 (AEpochState (key m3) e'). apart m6 (AEpochSnapshot (key m3) e').
  unfold take_operator_snapshot, ncn_epoch_length_of, operator_is_active in H. spared H idtac.
Qed.

Lemma next_delegation_operator accounts a : next_delegation_accounts accounts = Some a -> operator a ∈ accounts.
Proof.
  intros H. do 12 (destruct accounts as [|? accounts]; [discriminate H|]). destruct accounts; [|discriminate H].
  injection H as <-. cbn. in_list.
Qed.

(** What a delegation that is recorded found. *)
Lemma delegation_found clock accounts e' (s s' : Store D) :
  process_snapshot_vault_operator_delegation (ext := at_clock clock) id accounts e' s = (Ok tt, s') ->
  exists a,
  EpochStateAccount.load id (info s (SnapshotHandlers.epoch_state a)) (key (SnapshotHandlers.ncn a)) e' true = Ok tt
  /\ EpochSnapshotAccount.load id (info s (epoch_snapshot a)) (key (SnapshotHandlers.ncn a)) e' true = Ok tt
  /\ OperatorSnapshotAccount.load id (info s (operator_snapshot a)) (key (operator a)) (key (SnapshotHandlers.ncn a))
       e' true = Ok tt
  /\ operator a ∈ accounts
  /\ load_operator (Externals := at_clock clock) (restaking_program_id (Externals := at_clock clock))
       (info s (operator a)) false = Ok tt
  /\ exists slot index w, (exists is_active mint, delegation_stake_weight (ext := at_clock clock) a is_active index mint s = (Ok w, s))
     /\ record_delegation a slot index w s = (Ok tt, s').
Proof.
  intros H. unfold process_snapshot_vault_operator_delegation in H.
  destruct (next_delegation_accounts accounts) as [a|] eqn:Ha; [|discriminate H]. apply next_delegation_operator in Ha.
  hcall H. rename H0 into Hl. unfold load_delegation_accounts in Hl. hinv Hl. hinv H.
  hcall H. hcall H. rename H9 into Hs. unfold load_snapshot_accounts in Hs. hinv Hs. hinv H. hcall H. hcall H.
  exists a. eauto 14.
Qed.

Lemma delegation_spares_epoch clock accounts e' s s' n e :
  process_snapshot_vault_operator_delegation (ext := at_clock clock) id accounts e' s = (Ok tt, s') ->
  frozen_epoch (s (at_ (AEpochSnapshot n e))) ->
  same_data (s' (at_ (AEpochSnapshot n e))) (s (at_ (AEpochSnapshot n e))).
Proof.
  intros (a & Lst & _ & Lop & _ & _ & slot & index & w & _ & H)%delegation_found Hf.
  apart (SnapshotHandlers.epoch_state a) (AEpochState (key (SnapshotHandlers.ncn a)) e').
  apart (operator_snapshot a) (AOperatorSnapshot (key (operator a)) (key (SnapshotHandlers.ncn a)) e').
  unfold record_delegation in H.
  spared H ltac:(apply spares_refused, frozen_refuses; intros; by apply registration_refused).
Qed.

Lemma delegation_spares_operator clock accounts e' s s' o n e :
  process_snapshot_vault_operator_delegation (ext := at_clock clock) id accounts e' s = (Ok tt, s') ->
  frozen_operator (s (at_ (AOperatorSnapshot o n e))) ->
  same_data (s' (at_ (AOperatorSnapshot o n e))) (s (at_ (AOperatorSnapshot o n e))).
Proof.
  intros (a & Lst & Lep & _ & _ & _ & slot & index & w & _ & H)%delegation_found Hf.
  apart (SnapshotHandlers.epoch_state a) (AEpochState (key (SnapshotHandlers.ncn a)) e').
  apart (epoch_snapshot a) (AEpochSnapshot (key (SnapshotHandlers.ncn a)) e').
  unfold record_delegation in H.
  spared H ltac:(apply spares_refused, frozen_refuses; intros; by apply delegation_refused).
Qed.

(** ** The instructions that write the weight table *)

Lemma initialize_table_spares clock accounts e' s s' n e :
  process_initialize_weight_table (ext := at_clock clock) id accounts e' s = (Ok tt, s') ->
  frozen_table (s (at_ (AWeightTable n e))) ->
  same_data (s' (at_ (AWeightTable n e))) (s (at_ (AWeightTable n e))).
Proof.
  intros H Hf. pose proof (proj1 Hf) as Ho. unfold process_initialize_weight_table in H.
  do 7 (destruct accounts as [|? accounts]; [discriminate H|]). destruct accounts; [|discriminate H].
  hinv H. created_elsewhere. spared H idtac.
Qed.

(** The table that a handler found not to be final is not the frozen one. *)
Lemma not_frozen (s : Store D) m t k : try_from_slice (Account.data (s (key m))) = Ok t ->
  WeightTable.finalized t = false -> frozen_table (s k) -> key m <> k.
Proof. intros Ht Hf (_ & _ & _ & t' & Ht' & Hf') <-. congruence. Qed.

Lemma set_epoch_weights_spares clock accounts e' s s' n e :
  process_set_epoch_weights (ext := at_clock clock) id accounts e' s = (Ok tt, s') ->
  frozen_table (s (at_ (AWeightTable n e))) ->
  same_data (s' (at_ (AWeightTable n e))) (s (at_ (AWeightTable n e))).
Proof.
  intros H Hf. unfold process_set_epoch_weights in H.
  do 4 (destruct accounts as [|? accounts]; [discriminate H|]). destruct accounts; [|discriminate H].
  hinv H. apart m (AEpochState (key m0) e').
  assert (key m2 <> at_ (AWeightTable n e)) by by eapply not_frozen.
  spared H ltac:(eapply spares_other; [apply touches_set_weights, list_elem_of_here|assumption]).
Qed.

Lemma set_weight_spares clock accounts mint w e' s s' n e :
  process_admin_set_weight (ext := at_clock clock) id accounts mint e' w s = (Ok tt, s') ->
  frozen_table (s (at_ (AWeightTable n e))) ->
  same_data (s' (at_ (AWeightTable n e))) (s (at_ (AWeightTable n e))).
Proof.
  intros H Hf. unfold process_admin_set_weight in H.
  do 4 (destruct accounts as [|? accounts]; [discriminate H|]). destruct accounts; [|discriminate H].
  hinv H. apart m (AEpochState (key m0) e').
  assert (key m1 <> at_ (AWeightTable n e)) by by eapply not_frozen.
  spared H idtac.
Qed.

Lemma realloc_table_spares clock accounts e' s s' n e :
  process_realloc_weight_table (ext := at_clock clock) id accounts e' s = (Ok tt, s') ->
  frozen_table (s (at_ (AWeightTable n e))) ->
  same_data (s' (at_ (AWeightTable n e))) (s (at_ (AWeightTable n e))).
Proof.
  intros H Hf. unfold process_realloc_weight_table in H.
  do 7 (destruct accounts as [|? accounts]; [discriminate H|]). destruct accounts; [|discriminate H].
  hinv H. apart m (AEpochState (key m2) e'). set (k := at_ (AWeightTable n e)) in *.
  destruct (decide (key m1 = k)) as [Hk|Hk]; [|spared H idtac].
  pose proof Hf as (_ & Hd & Hl & _). rewrite Hk in H.
  apply mbind_ok in H as (u & s1 & Hgrow & H). apply grown in Hgrow as (_ & Hfull & _).
  rewrite (Hfull Hl) in H. hinv H. rewrite Hd, Z.eqb_refl, andb_false_r in H. by injection H as <-.
Qed.

(** ** Any step *)

(** An account that no instruction writes but closing, when it is frozen. *)
Definition closed_between (s s' : Store D) (k : Pubkey) : Prop :=
  exists t, rtc ledger_step s t /\ rtc ledger_step t s' /\ Account.owner (t k) <> id.

Definition step_spares (I : Account.t D -> Prop) (a : address) : Prop :=
  forall s s', ledger_step s s' -> I (s (at_ a)) ->
    same_data (s' (at_ a)) (s (at_ a)) \/ Account.owner (s' (at_ a)) <> id.

Lemma spared_for_ever I {HI : Proper (same_data ==> iff) I} a s s' : step_spares I a ->
  I (s (at_ a)) -> rtc ledger_step s s' ->
  closed_between s s' (at_ a) \/ same_data (s' (at_ a)) (s (at_ a)).
Proof.
  intros Hstep Hs Hr. revert Hs. induction Hr as [s|s s1 s2 H1 H2 IH]; intros Hs; [by right|].
  destruct (Hstep _ _ H1 Hs) as [Hk|Hk].
  - destruct IH as [(t & Ht1 & Ht2 & Ho)|IH]; [by rewrite Hk| |].
    + left. exists t. split; [by econstructor|done].
    + right. by etrans.
  - left. exists s1. split; [by apply rtc_once|done].
Qed.

Lemma step_spares_intro {T} {st : Stored D T} d n (f : T -> bool) a :
  (forall clock accounts ix s s', frozen d n f (s (at_ a)) ->
     process_instruction (ext := at_clock clock) id accounts (Ok ix) s = (Ok tt, s') ->
     same_data (s' (at_ a)) (s (at_ a)) \/ Account.owner (s' (at_ a)) <> id) -> step_spares (frozen d n f) a.
Proof.
  intros H s s' [clock accounts ix t t' _ Hi|t t' Hsame _] Hf; [by eapply H|]. left. apply Hsame, Hf.
Qed.

Lemma closing_spares clock accounts e' s s' a :
  process_close_epoch_account (ext := at_clock clock) id accounts e' s = (Ok tt, s') ->
  (forall n e, seeds_size a <> seeds_size (AEpochState n e) /\ seeds_size a <> seeds_size (AEpochMarker n e)) ->
  same_data (s' (at_ a)) (s (at_ a)) \/ Account.owner (s' (at_ a)) <> id.
Proof.
  intros H Ha. destruct (closing_removes collision_free _ _ _ _ _ a H Ha) as [Hk|[Ho _]]; [by left|right].
  rewrite Ho. by apply not_eq_sym.
Qed.

(** [each_instruction tac]: the table of permissions rules out most of the
    instructions; [tac] for the others. *)
Ltac each_instruction tac :=
  apply step_spares_intro; intros clock accounts ix s s' Hf H; pose proof Hf as (_ & Hd & _);
  destruct ix;
  try (left; eapply untouched; [exact collision_free|exact H|no_permission|intros ? _; by rewrite Hd]);
  unfold process_instruction in H; (destruct (negb _); [discriminate H|]); unfold mbind at 1, lift at 1 in H;
  cbv beta iota in H; first [by eapply closing_spares|left; tac].

Lemma epoch_steps n e : step_spares frozen_epoch (AEpochSnapshot n e).
Proof.
  each_instruction ltac:(first [by eapply initialize_snapshot_spares|by eapply operator_snapshot_spares_epoch
    |by eapply delegation_spares_epoch]).
Qed.
Lemma operator_steps o n e : step_spares frozen_operator (AOperatorSnapshot o n e).
Proof.
  each_instruction ltac:(first [by eapply operator_snapshot_spares_operator|by eapply delegation_spares_operator]).
Qed.
Lemma table_steps n e : step_spares frozen_table (AWeightTable n e).
Proof.
  each_instruction ltac:(first [by eapply initialize_table_spares|by eapply realloc_table_spares
    |by eapply set_epoch_weights_spares|by eapply set_weight_spares]).
Qed.

(** C8: what a vote is weighed with is frozen. Once a weight table has all its
    weights, an operator's snapshot all its vaults or an epoch's snapshot all
    its operators, no sequence of transactions changes anything in it, unless
    its account was closed in between. *)
Theorem final_snapshots_are_frozen s s' o n e : rtc ledger_step s s' ->
  (frozen_table (s (at_ (AWeightTable n e))) ->
     closed_between s s' (at_ (AWeightTable n e)) \/ same_data (s' (at_ (AWeightTable n e))) (s (at_ (AWeightTable n e))))
  /\ (frozen_operator (s (at_ (AOperatorSnapshot o n e))) ->
     closed_between s s' (at_ (AOperatorSnapshot o n e))
     \/ same_data (s' (at_ (AOperatorSnapshot o n e))) (s (at_ (AOperatorSnapshot o n e))))
  /\ (frozen_epoch (s (at_ (AEpochSnapshot n e))) ->
     closed_between s s' (at_ (AEpochSnapshot n e))
     \/ same_data (s' (at_ (AEpochSnapshot n e))) (s (at_ (AEpochSnapshot n e)))).
Proof.
  intros Hr. split; [|split]; intros Hf.
  - exact (spared_for_ever _ _ _ _ (table_steps n e) Hf Hr).
  - exact (spared_for_ever _ _ _ _ (operator_steps o n e) Hf Hr).
  - exact (spared_for_ever _ _ _ _ (epoch_steps n e) Hf Hr).
Qed.
End frozen.
