(* ===== verification/Majority.v ===== *)
(** Who wins on the ledger: the winner of a ballot box has reached the
    threshold (two thirds, cut off after 18 decimals) of the stake that the epoch's
    snapshot froze, or the tie breaker chose it. *)
From stdpp Require Import relations.
From S2P Require Import Prelude Errors Precise Stake Registry Weights Fees Snapshots Voting EpochStates.
From S2P Require Import NcnRouter OperatorRouter Consensus Accounts Machine Lamports Frames VoteHandlers.
From S2P Require Import AdminHandlers SnapshotHandlers RewardHandlers CloseHandlers Program Authority Chain Elections.
From S2P Require Import Frozen.

Section majority.
Context {D : Type} {data : AccountData D} {bytes : AccountBytes D} {runtime : Runtime}
  {at_clock : Clock -> Externals D} {system : System D} {P : PreciseNumber} {L : PreciseNumberLaws P}.
Context {s_config : Stored D Config.t} {s_registry : Stored D VaultRegistry.t}
  {s_table : Stored D WeightTable.t} {s_epoch : Stored D EpochSnapshot.t}
  {s_operator : Stored D OperatorSnapshot.t} {s_box : Stored D BallotBox.t}
  {s_result : Stored D ConsensusResult.t} {s_router : Stored D NCNRewardRouter.t}
  {s_op_router : Stored D OperatorVaultRewardRouter.t} {s_marker : Stored D EpochMarker.t}
  {s_state : Stored D EpochState.t}.
Context {l_system : SystemLaws D} {l_ext : forall c, ExternalsLaws D (ext := at_clock c)}
  {l_bytes : AccountBytesLaws D}
  {l_config : StoredLaws D Config.t} {l_box : StoredLaws D BallotBox.t}
  {l_result : StoredLaws D ConsensusResult.t} {l_state : StoredLaws D EpochState.t}
  {l_marker : StoredLaws D EpochMarker.t}.
Context (collision_free : forall l l', (find_pda l id).1 = (find_pda l' id).1 -> concat l = concat l').
Context (not_system : id <> system_program_id).
Context (not_restaking : forall c, restaking_program_id (Externals := at_clock c) <> id).
Context (clock_read : forall c, get_clock (Externals := at_clock c) = Ok c).

Abbreviation at_ a := (address_of (runtime := runtime) id a).
Abbreviation ledger_step := (step (at_clock := at_clock)).

Section epoch.
Context (n : Pubkey) (e : u64) (snapshot : EpochSnapshot.t).
Abbreviation box := (at_ (ABallotBox n e)).
Abbreviation frozen_epoch := (frozen EpochSnapshotAccount.DISCRIMINATOR Size.EpochSnapshot EpochSnapshot.finalized).
Abbreviation total := (StakeWeights.stake_weight (EpochSnapshot.stake_weights snapshot)).
Context (total_range : 0 < total <= u128_MAX).

(** The snapshot is frozen, and the box has been filled with its total. *)
Definition on_course (s : Store D) : Prop :=
  frozen_epoch (s (at_ (AEpochSnapshot n e)))
  /\ try_from_slice (Account.data (s (at_ (AEpochSnapshot n e)))) = Ok snapshot
  /\ exists p, in_phase (s box) p /\ match p with Open b => BallotBox.inv total b | _ => True end.

Lemma voted_inv op st w slot valid b b1 b' : Ballot.wf (Ballot.new st) -> StakeWeights.wf w -> 0 <= slot < u64_MAX ->
  BallotBox.cast_vote op (Ballot.new st) w slot valid b = (Ok tt, b1) ->
  BallotBox.tally_votes total slot b1 = (Ok tt, b') -> BallotBox.inv total b -> BallotBox.inv total b'.
Proof.
  intros. eapply (BallotBox.step_inv total valid 0); [exact total_range|done|]. by eapply BallotBox.step_vote.
Qed.

Lemma tie_broken_inv st ce stall b b' : 0 <= st -> BallotBox.set_tie_breaker_ballot st ce stall b = (Ok tt, b') ->
  BallotBox.inv total b -> BallotBox.inv total b'.
Proof.
  intros. eapply (BallotBox.step_inv total 0 stall); [exact total_range|done|]. by eapply BallotBox.step_tie_breaker.
Qed.

Lemma weighed_step s s' : ledger_step s s' -> on_course s ->
  Account.owner (s' (at_ (AEpochSnapshot n e))) <> id \/ on_course s'.
Proof.
  intros Hs (Hf & Hsnap & p & Hp & Hinv).
  destruct (epoch_steps collision_free not_system n e _ _ Hs Hf) as [Hsame|Ho]; [right|by left].
  split; [by rewrite Hsame|]. split; [by destruct Hsame as [_ ->]|].
  destruct (step_idle collision_free not_system clock_read _ _ n e Hs)
    as [Hi|(clock & accounts & [(st & e' & Hwt & H)|(st & e' & Hst & H)])].
  - destruct (Hi p Hp) as (p' & Hstep & Hp'). exists p'. split; [done|].
    destruct Hstep; try done. apply BallotBox.new_inv.
  - destruct (cast_vote_step collision_free not_restaking clock_read _ _ _ _ _ _ _ _ _ Hwt H Hp) as
      [Hk|(b & b1 & b' & op & w & valid & es & -> & Hp' & Hes & _ & _ & Hb & Hw & _ & Hslot & Hcast & Htally)].
    + exists p. split; [by eapply in_phase_same|done].
    + rewrite Hsnap in Hes. injection Hes as <-. exists (Open b'). split; [done|]. by eapply voted_inv.
  - destruct (tie_breaker_step collision_free _ _ _ _ _ _ _ _ _ Hst H Hp) as [Hk|(b & b' & ce & stall & -> & Hp' & Hset)].
    + exists p. split; [by eapply in_phase_same|done].
    + exists (Open b'). split; [done|]. by eapply tie_broken_inv.
Qed.

Lemma weighed_life s s' : rtc ledger_step s s' -> on_course s ->
  closed_between (at_clock := at_clock) s s' (at_ (AEpochSnapshot n e)) \/ on_course s'.
Proof.
  intros Hr. induction Hr as [s|s s1 s2 H1 H2 IH]; intros Hw; [by right|].
  destruct (weighed_step _ _ H1 Hw) as [Ho|Hw1].
  - left. exists s1. split; [by apply rtc_once|done].
  - destruct (IH Hw1) as [(t & Ht1 & Ht2 & Ho)|]; [left|by right].
    exists t. split; [by econstructor|done].
Qed.

(** The winner has the majority of the stake. Take a ledger where the
    snapshot of an epoch is final and nobody has voted: there is no ballot box
    yet, or it is blank or empty. On any later ledger, unless the snapshot was
    closed in between, a ballot that has won in that epoch's box has at least two
    thirds of the snapshot's stake (up to the precision of the threshold), and no
    other ballot more than half of it as long as no more than that stake has
    voted; or the tie breaker chose it. The tallies are the sum of the votes. *)
Theorem winners_have_the_majority s s' p b :
  frozen_epoch (s (at_ (AEpochSnapshot n e))) ->
  try_from_slice (Account.data (s (at_ (AEpochSnapshot n e)))) = Ok snapshot ->
  in_phase (s box) p -> (forall b0, p = Open b0 -> exists n' e' bump slot, b0 = BallotBox.new n' e' bump slot) ->
  rtc ledger_step s s' -> in_phase (s' box) (Open b) ->
  closed_between (at_clock := at_clock) s s' (at_ (AEpochSnapshot n e))
  \/ sum_by BallotTally.weight (BallotBox.ballot_tallies b) = sum_by OperatorVote.weight (BallotBox.operator_votes b)
     /\ (BallotBox.has_winning_ballot b = true -> BallotBox.tie_breaker_set b = true
         \/ let w := BallotBox.ballot_weight (BallotBox.winning_ballot b) b in
            BallotBox.reaches total w /\ (total < 500000000000000000 -> 2 * total <= 3 * w)
            /\ (sum_by OperatorVote.weight (BallotBox.operator_votes b) <= total ->
                forall b', b' <> BallotBox.winning_ballot b -> 2 * BallotBox.ballot_weight b' b < total)).
Proof.
  intros Hf Hsnap Hp Hnew Hr Hb. destruct (weighed_life _ _ Hr) as [Hc|(_ & _ & p' & Hp' & Hinv)]; [|by left|right].
  { split; [done|]. split; [done|]. exists p. split; [done|]. destruct p as [| |b0]; [done..|].
    destruct (Hnew _ eq_refl) as (n' & e' & bump & slot & ->). apply BallotBox.new_inv. }
  destruct p' as [| |b']; [by destruct Hp', Hb| |].
  { destruct Hp' as (_ & j & _ & Hz), Hb as (_ & Hd & _). rewrite Hz, byte0_zeros in Hd. discriminate Hd. }
  destruct Hp' as (_ & _ & _ & Hr'), Hb as (_ & _ & _ & Hrb). rewrite Hr' in Hrb. injection Hrb as <-.
  split; [apply Hinv|]. intros Hwin. apply (BallotBox.inv_winner total total_range _ Hinv Hwin).
Qed.
End epoch.
End majority.
