(* ===== verification/Electorate.v ===== *)
(** Who may vote in an epoch: the epoch's snapshot and those of its operators as
    one automaton, and its census, in which every operator counts once. *)
From stdpp Require Import relations finite.
From S2P Require Import Prelude Errors Precise Stake Registry Weights Fees Snapshots.

(** ** Sums over operators *)

(** Distinct indices below their number are all of them. *)
Lemma indices_exhausted {A} (f : A -> Z) (P : A -> Prop) l x :
  (forall a b, P a -> P b -> f a = f b -> a = b) -> base.NoDup l -> Forall P l ->
  (forall a, a ∈ l -> 0 <= f a < Z.of_nat (List.length l)) -> P x -> 0 <= f x < Z.of_nat (List.length l) -> x ∈ l.
Proof.
  intros Hinj Hl HP Hf Hx Hfx. assert (base.NoDup (f <$> l)) as Hn.
  { apply NoDup_fmap_2_strong; [|done]. intros a b Ha Hb He.
    rewrite list.Forall_forall in HP. apply Hinj; auto. }
  assert (f <$> l ⊆+ seqZ 0 (Z.of_nat (List.length l))) as Hsub.
  { apply NoDup_submseteq; [done|]. intros z (a & -> & Ha)%list_elem_of_fmap. apply elem_of_seqZ.
    specialize (Hf a Ha). lia. }
  apply submseteq_length_Permutation in Hsub; [|rewrite length_fmap, length_seqZ; lia].
  assert (f x ∈ f <$> l) as (a & Ha & Hin)%list_elem_of_fmap.
  { rewrite Hsub. apply elem_of_seqZ. lia. }
  rewrite list.Forall_forall in HP. rewrite (Hinj x a); auto.
Qed.

Lemma sum_by_submseteq {A} (f : A -> Z) l k : l ⊆+ k -> (forall a, a ∈ k -> 0 <= f a) -> sum_by f l <= sum_by f k.
Proof.
  unfold sum_by. intros H. induction H as [|x l k H IH|x y l|x l k H IH|l k m H1 IH1 H2 IH2]; intros Hf; cbn.
  - done.
  - apply Z.add_le_mono_l, IH. intros a Ha. apply Hf. by right.
  - lia.
  - rewrite <-(Z.add_0_l (foldr _ 0 l)). apply Z.add_le_mono; [apply Hf; left|]. apply IH. intros a Ha. apply Hf. by right.
  - etrans; [apply IH1|by apply IH2]. intros a Ha. apply Hf. by eapply elem_of_submseteq.
Qed.

Lemma sum_by_same {A} (f g : A -> Z) l : (forall a, a ∈ l -> f a = g a) -> sum_by f l = sum_by g l.
Proof. intros H. apply sum_by_ext. intros i x Hx. apply H. by eapply list_elem_of_lookup_2. Qed.

(** ** The registration of operators and delegations *)

Definition stake_of (t : OperatorSnapshot.t) : u128 := StakeWeights.stake_weight (OperatorSnapshot.stake_weights t).
Definition total_of (es : EpochSnapshot.t) : u128 := StakeWeights.stake_weight (EpochSnapshot.stake_weights es).

Lemma registration_ok slot d w (es es' : EpochSnapshot.t) u :
  EpochSnapshot.increment_operator_registration slot d w es = (Ok u, es') ->
  EpochSnapshot.finalized es = false
  /\ EpochSnapshot.operators_registered es' = EpochSnapshot.operators_registered es + 1
  /\ EpochSnapshot.operator_count es' = EpochSnapshot.operator_count es
  /\ total_of es' = total_of es + StakeWeights.stake_weight w /\ total_of es' <= u128_MAX.
Proof.
  unfold EpochSnapshot.increment_operator_registration. rewrite run_get_self.
  destruct (EpochSnapshot.finalized es) eqn:Hf; [done|]. intros H. split; [done|].
  minv. unfold zoom in *. repeat match goal with
  | H : (let '(_, _) := StakeWeights.increment _ _ in _) = _ |- _ => rewrite StakeWeights.increment_eq in H
  | H : (if ?b then _ else _) _ = _ |- _ => destruct b
  | H : (match (if ?b then _ else _) with _ => _ end) = _ |- _ => destruct b eqn:?; [|discriminate H]
  | _ => progress minv
  end; unfold total_of in *; cbn in *; split_and!; auto; lia.
Qed.

Lemma insert_ok vault index w (t t' : OperatorSnapshot.t) u :
  OperatorSnapshot.insert_vault_operator_stake_weight vault index w t = (Ok u, t') ->
  exists l, t' = put OperatorSnapshot.vault_operator_stake_weight l t.
Proof.
  unfold OperatorSnapshot.insert_vault_operator_stake_weight. rewrite run_get_self.
  intros (x & s & Hx & H)%mbind_ok. apply lift_ok in Hx as [_ ->]. revert H. destruct (_ <? _); [done|].
  destruct (OperatorSnapshot.contains_vault_index _ _); [done|]. intros (y & y' & _ & _ & ->)%zoom_at_ok. eauto.
Qed.
Lemma delegation_ok slot vault index w (t t' : OperatorSnapshot.t) u :
  OperatorSnapshot.increment_vault_operator_delegation_registration slot vault index w t = (Ok u, t') ->
  OperatorSnapshot.finalized t = false
  /\ OperatorSnapshot.vault_operator_delegations_registered t'
     = OperatorSnapshot.vault_operator_delegations_registered t + 1
  /\ stake_of t' = stake_of t + StakeWeights.stake_weight w.
Proof.
  unfold OperatorSnapshot.increment_vault_operator_delegation_registration. rewrite run_get_self.
  destruct (OperatorSnapshot.finalized t) eqn:Hf; [done|]. intros H. split; [done|].
  apply mbind_ok in H as (u1 & t1 & (l & ->)%insert_ok & H). minv. unfold zoom in *. repeat match goal with
  | H : (let '(_, _) := StakeWeights.increment _ _ in _) = _ |- _ => rewrite StakeWeights.increment_eq in H
  | H : (if ?b then _ else _) _ = _ |- _ => destruct b
  | H : (match (if ?b then _ else _) with _ => _ end) = _ |- _ => destruct b; [|discriminate H]
  | _ => progress minv
  end; cbn; auto.
Qed.

(** An operator's snapshot as it is created. *)
Lemma initialize_ok op n e b slot active i j fee count (t t' : OperatorSnapshot.t) u :
  OperatorSnapshot.initialize op n e b slot active i j fee count t = (Ok u, t') ->
  OperatorSnapshot.vault_operator_delegations_registered t' = 0 /\ stake_of t' = 0
  /\ OperatorSnapshot.is_active t' = active
  /\ OperatorSnapshot.is_active t' || OperatorSnapshot.finalized t' = true.
Proof.
  rewrite OperatorSnapshot.initialize_eq. destruct (_ <? count); [done|]. intros [= _ <-]. by destruct active.
Qed.

(** ** The automaton *)

Record census := Census {
  snapshot : option EpochSnapshot.t;
  operators : Pubkey -> option OperatorSnapshot.t;
}.

(** An operator is registered when its snapshot is final: at once, if it does not
    take part, and otherwise with its last vault. *)
Definition registered (t : OperatorSnapshot.t) : Prop :=
  OperatorSnapshot.finalized t = true
  /\ (OperatorSnapshot.is_active t = false \/ OperatorSnapshot.vault_operator_delegations_registered t <> 0).

Section electorate.
(** The index that an operator has in the NCN. *)
Context (index_of : Pubkey -> u64).

Definition others_alike (c c' : census) (o : Pubkey) : Prop :=
  forall x, is_pubkey x -> x <> o -> operators c' x = operators c x.

(** One transaction: nothing, the epoch's snapshot is created, an operator's
    snapshot is created, or one vault is added to it. *)
Inductive step (c c' : census) : Prop :=
| still :
    snapshot c' = snapshot c -> (forall o, is_pubkey o -> operators c' o = operators c o) -> step c c'
| begun es :
    snapshot c = None -> snapshot c' = Some es ->
    EpochSnapshot.operators_registered es = 0 -> total_of es = 0 ->
    (forall o, is_pubkey o -> operators c' o = operators c o) -> step c c'
| enrolled o es es' t slot :
    is_pubkey o -> 0 <= index_of o < EpochSnapshot.operator_count es ->
    snapshot c = Some es -> operators c o = None -> operators c' o = Some t ->
    OperatorSnapshot.vault_operator_delegations_registered t = 0 -> stake_of t = 0 ->
    OperatorSnapshot.is_active t || OperatorSnapshot.finalized t = true ->
    (if OperatorSnapshot.is_active t then es' = es
     else EpochSnapshot.increment_operator_registration slot 0 StakeWeights.default es = (Ok tt, es')) ->
    snapshot c' = Some es' -> others_alike c c' o -> step c c'
| delegated o t t' slot vault index w :
    is_pubkey o -> operators c o = Some t -> 0 <= StakeWeights.stake_weight w ->
    OperatorSnapshot.increment_vault_operator_delegation_registration slot vault index w t = (Ok tt, t') ->
    operators c' o = Some t' ->
    (if OperatorSnapshot.finalized t' then
       exists es es', snapshot c = Some es /\ snapshot c' = Some es'
       /\ EpochSnapshot.increment_operator_registration slot (OperatorSnapshot.valid_operator_vault_delegations t')
            (OperatorSnapshot.stake_weights t') es = (Ok tt, es')
     else snapshot c' = snapshot c) ->
    others_alike c c' o -> step c c'.

(** ** The census *)

(** The stake in an operator's snapshot. *)
Definition stake_in (c : census) (o : Pubkey) : u128 :=
  match operators c o with Some t => stake_of t | None => 0 end.

Record counted (c : census) (es : EpochSnapshot.t) (os : list Pubkey) : Prop := {
  c_once : base.NoDup os;
  c_keys : Forall is_pubkey os;
  c_number : Z.of_nat (List.length os) = EpochSnapshot.operators_registered es;
  c_registered : forall o, o ∈ os -> exists t, operators c o = Some t /\ registered t;
  c_total : total_of es = sum_by (stake_in c) os;
  c_range : total_of es <= u128_MAX;
  c_present : forall o t, is_pubkey o -> operators c o = Some t ->
    0 <= index_of o < EpochSnapshot.operator_count es /\ (registered t -> o ∈ os)
    /\ 0 <= stake_of t /\ 0 <= OperatorSnapshot.vault_operator_delegations_registered t;
}.

(** Before the epoch's snapshot there are no operators' snapshots. *)
Definition consistent (c : census) : Prop :=
  match snapshot c with
  | None => forall o, is_pubkey o -> operators c o = None
  | Some es => exists os, counted c es os
  end.

Lemma consistent_counted c es : consistent c -> snapshot c = Some es -> exists os, counted c es os.
Proof. unfold consistent. intros H Hs. by rewrite Hs in H. Qed.

Lemma counted_alike c c' es os : (forall o, is_pubkey o -> operators c' o = operators c o) ->
  counted c es os -> counted c' es os.
Proof.
  intros Hsame [Ho Hk Hn Hr Ht Hu Hp]. rewrite list.Forall_forall in Hk. split; [done|by rewrite list.Forall_forall|done|..].
  - intros o Hin. rewrite Hsame by auto. auto.
  - rewrite Ht. apply sum_by_same. intros o Hin. unfold stake_in. by rewrite Hsame by auto.
  - done.
  - intros o t Hok. rewrite Hsame by done. by apply Hp.
Qed.

(** An operator that is not yet counted changes. *)
Lemma counted_other c c' es os o t' : counted c es os -> o ∉ os -> others_alike c c' o -> operators c' o = Some t' ->
  ~ registered t' -> 0 <= index_of o < EpochSnapshot.operator_count es -> 0 <= stake_of t' ->
  0 <= OperatorSnapshot.vault_operator_delegations_registered t' -> counted c' es os.
Proof.
  intros [Ho Hk Hn Hr Ht Hu Hp] Hnin Hoth Ht' Hnr Hi Hst Hreg. pose proof (proj1 (list.Forall_forall _ _) Hk) as Hkf.
  assert (forall x, x ∈ os -> operators c' x = operators c x) as Hsame.
  { intros x Hx. apply Hoth; [by apply Hkf|]. by intros ->. }
  split; [done..| | | |].
  - intros x Hx. rewrite Hsame by done. auto.
  - rewrite Ht. apply sum_by_same. intros x Hx. unfold stake_in. by rewrite Hsame.
  - done.
  - intros x t Hx. destruct (decide (x = o)) as [->|Hne]; [|rewrite Hoth by done; by apply Hp].
    rewrite Ht'. by intros [= <-].
Qed.

(** An operator is added to the epoch's snapshot. *)
Lemma counted_more c c' es es' os o t' slot d w : counted c es os -> is_pubkey o -> o ∉ os -> others_alike c c' o ->
  operators c' o = Some t' -> registered t' -> 0 <= index_of o < EpochSnapshot.operator_count es -> 0 <= stake_of t' ->
  0 <= OperatorSnapshot.vault_operator_delegations_registered t' ->
  EpochSnapshot.increment_operator_registration slot d w es = (Ok tt, es') ->
  StakeWeights.stake_weight w = stake_of t' -> counted c' es' (o :: os).
Proof.
  intros [Ho Hk Hn Hr Ht Hu Hp] Hok Hnin Hoth Ht' Hreg Hi Hst Hdel (_ & Hn' & Hc' & Htot & Hu')%registration_ok Hw.
  pose proof (proj1 (list.Forall_forall _ _) Hk) as Hkf.
  assert (forall x, x ∈ os -> operators c' x = operators c x) as Hsame.
  { intros x Hx. apply Hoth; [by apply Hkf|]. by intros ->. }
  split; [by constructor|by constructor| | | | |].
  - cbn [List.length]. lia.
  - intros x [->|Hx]%elem_of_cons; [by exists t'|]. rewrite Hsame by done. auto.
  - change (sum_by (stake_in c') (o :: os)) with (stake_in c' o + sum_by (stake_in c') os).
    unfold stake_in at 1. rewrite Ht'.
    rewrite (sum_by_same (stake_in c') (stake_in c)); [lia|]. intros x Hx. unfold stake_in. by rewrite Hsame.
  - done.
  - intros x t Hx. rewrite Hc'. destruct (decide (x = o)) as [->|Hne].
    + rewrite Ht'. intros [= <-]. split_and!; [lia..|by left|done|done].
    + rewrite Hoth by done. intros Hxt. destruct (Hp x t Hx Hxt) as (Hxi & Hin & Hxs & Hxd).
      split; [exact Hxi|]. split; [intros Hxr; right; by apply Hin|done].
Qed.

Lemma not_counted c es os o t : counted c es os -> operators c o = Some t -> ~ registered t -> o ∉ os.
Proof. intros Hc Ho Hn Hin. destruct (c_registered _ _ _ Hc _ Hin) as (t' & Ht' & Hr). congruence. Qed.

Lemma delegated_once slot vault index w t t' u :
  OperatorSnapshot.increment_vault_operator_delegation_registration slot vault index w t = (Ok u, t') -> ~ registered t.
Proof. intros (Hf & _)%delegation_ok [Hf' _]. congruence. Qed.

(** The census stays consistent. *)
Lemma step_consistent c c' : step c c' -> consistent c -> consistent c'.
Proof.
  unfold consistent. intros [Hs Hsame|es Hs Hs' Hr Ht Hsame|o es es' t slot Ho Hi Hs Hn Hn' Hreg Hst Hact Hes Hs' Hoth
    |o t t' slot vault index w Ho Ht Hw Hd Ht' Hes Hoth] Hc.
  - rewrite Hs. destruct (snapshot c) as [es|]; [|by intros o Ho; rewrite Hsame by done; apply Hc].
    destruct Hc as (os & Hc). exists os. by eapply counted_alike.
  - rewrite Hs'. rewrite Hs in Hc. exists []. split; [apply NoDup_nil_2|apply list.Forall_nil_2|by rewrite Hr|..].
    + by intros o Ho%elem_of_nil.
    + by rewrite Ht.
    + by rewrite Ht.
    + intros o t Ho. by rewrite Hsame, Hc by done.
  - rewrite Hs'. rewrite Hs in Hc. destruct Hc as (os & Hc).
    assert (o ∉ os) as Hnin. { intros Hin. destruct (c_registered _ _ _ Hc _ Hin) as (t0 & Ht0 & _). congruence. }
    destruct (OperatorSnapshot.is_active t) eqn:Ha.
    + subst es'. exists os. eapply counted_other; [exact Hc|exact Hnin|exact Hoth|exact Hn'|..]; try lia.
      intros [_ [Hact'|Hreg']]; congruence.
    + exists (o :: os). eapply counted_more; [exact Hc|exact Ho|exact Hnin|exact Hoth|exact Hn'|..]; try lia.
      * split; [done|by left].
      * exact Hes.
      * by rewrite Hst.
  - assert (exists es os, snapshot c = Some es /\ counted c es os) as (es & os & Hs & Hcount).
    { destruct (snapshot c) as [es|]; [destruct Hc as [os Hc]; by exists es, os|]. rewrite Hc in Ht by done. done. }
    pose proof (not_counted _ _ _ _ _ Hcount Ht (delegated_once _ _ _ _ _ _ _ Hd)) as Hnin.
    destruct (c_present _ _ _ Hcount _ _ Ho Ht) as (Hi & _ & Hst & Hreg).
    apply delegation_ok in Hd as (_ & Hreg' & Hst').
    destruct (OperatorSnapshot.finalized t') eqn:Hf.
    + destruct Hes as (es0 & es' & Hs0 & Hs' & Hes). assert (es0 = es) as -> by congruence.
      rewrite Hs'. exists (o :: os).
      eapply counted_more; [exact Hcount|exact Ho|exact Hnin|exact Hoth|exact Ht'|..]; try lia.
      * split; [done|right; lia].
      * exact Hes.
      * done.
    + rewrite Hes, Hs. exists os. eapply counted_other; [exact Hcount|exact Hnin|exact Hoth|exact Ht'|..]; try lia.
      intros [Hf' _]. congruence.
Qed.

(** ** When everybody is counted *)
Context (index_inj : forall o o', is_pubkey o -> is_pubkey o' -> index_of o = index_of o' -> o = o').

(** Once the epoch's snapshot is final, every operator with a snapshot is counted. *)
Lemma everybody_counted c es os o t : counted c es os -> EpochSnapshot.finalized es = true -> is_pubkey o ->
  operators c o = Some t -> o ∈ os.
Proof.
  intros Hc Hf Ho Ht. unfold EpochSnapshot.finalized in Hf. apply Z.eqb_eq in Hf. pose proof (c_number _ _ _ Hc) as Hn.
  pose proof (proj1 (list.Forall_forall _ _) (c_keys _ _ _ Hc)) as Hkf.
  apply (indices_exhausted index_of is_pubkey); try done; [apply Hc|apply Hc| |].
  - intros a Ha. destruct (c_registered _ _ _ Hc _ Ha) as (ta & Hta & _).
    rewrite Hn, Hf. by apply (c_present _ _ _ Hc _ ta); [apply Hkf|].
  - rewrite Hn, Hf. by apply (c_present _ _ _ Hc _ t).
Qed.

(** Any operators, each once, have at most the epoch's stake. *)
Lemma stake_bounds c es os l : counted c es os -> base.NoDup l -> (forall o, o ∈ l -> o ∈ os) ->
  sum_by (stake_in c) l <= total_of es.
Proof.
  intros Hc Hl Hin. rewrite (c_total _ _ _ Hc). apply sum_by_submseteq; [by apply NoDup_submseteq|].
  intros o Ho. unfold stake_in. destruct (operators c o) as [t|] eqn:Ht; [|done].
  apply (c_present _ _ _ Hc o t); [|done]. by apply (proj1 (list.Forall_forall _ _) (c_keys _ _ _ Hc)).
Qed.

(** The epoch's snapshot that is final, and the operators that are counted, stay. *)
Lemma step_final c c' es : step c c' -> snapshot c = Some es -> EpochSnapshot.finalized es = true ->
  snapshot c' = Some es.
Proof.
  intros [Hs Hsame|es1 Hs|o es1 es2 t slot Ho Hi Hs Hn Hn' Hreg Hst Hact Hes Hs' Hoth
    |o t t' slot vault index w Ho Ht Hw Hd Ht' Hes Hoth] Hc Hf.
  - congruence.
  - congruence.
  - assert (es1 = es) as -> by congruence. destruct (OperatorSnapshot.is_active t); [congruence|].
    apply registration_ok in Hes as [Hf' _]. congruence.
  - destruct (OperatorSnapshot.finalized t'); [|congruence]. destruct Hes as (es1 & es2 & Hs & _ & Hes).
    assert (es1 = es) as -> by congruence. apply registration_ok in Hes as [Hf' _]. congruence.
Qed.
Lemma step_registered c c' o t : step c c' -> is_pubkey o -> operators c o = Some t -> registered t ->
  operators c' o = Some t.
Proof.
  intros [Hs Hsame|es1 Hs Hs' _ _ Hsame|x es1 es2 t1 slot Ho Hi Hs Hn Hn' Hreg Hst Hact Hes Hs' Hoth
    |x t1 t2 slot vault index w Ho Ht Hw Hd Ht' Hes Hoth] Hx Hxt Hr.
  1,2: by rewrite Hsame.
  - rewrite Hoth; [done|done|]. intros ->. congruence.
  - rewrite Hoth; [done|done|]. intros ->. assert (t1 = t) as -> by congruence. by eapply delegated_once.
Qed.
End electorate.
