(* ===== verification/Polls.v ===== *)
(** The votes in a ballot box against the census of the electorate: everybody who
    voted is counted in the epoch's snapshot, once and with the weight it has there. *)
From stdpp Require Import relations finite.
From S2P Require Import Prelude Errors Precise Stake Registry Weights Fees Snapshots Voting Electorate.

(** ** Selecting from a list *)

Lemma sum_by_filter {A B} (p : A -> bool) (h : A -> B) (f : A -> Z) (g : B -> Z) l :
  (forall i x, l !! i = Some x -> p x = false -> f x = 0) ->
  (forall i x, l !! i = Some x -> p x = true -> f x = g (h x)) ->
  sum_by f l = sum_by g (map h (List.filter p l)).
Proof.
  induction l as [|x l IH]; intros H0 H1; [done|]. unfold sum_by in *. cbn.
  rewrite IH; [|intros i; apply (H0 (S i))|intros i; apply (H1 (S i))].
  destruct (p x) eqn:Hp; [cbn; by rewrite (H1 0%nat x)|by rewrite (H0 0%nat x)].
Qed.

Lemma elem_of_map_filter {A B} (p : A -> bool) (h : A -> B) l y :
  y ∈ map h (List.filter p l) <-> exists i x, l !! i = Some x /\ p x = true /\ y = h x.
Proof.
  rewrite list_elem_of_In, in_map_iff. split.
  - intros (x & <- & [Hin Hp]%filter_In). apply list_elem_of_In, list_elem_of_lookup in Hin as [i Hi]. eauto.
  - intros (i & x & Hi & Hp & ->). exists x. split; [done|]. apply filter_In. split; [|done].
    by eapply list_elem_of_In, list_elem_of_lookup_2.
Qed.

Lemma NoDup_map_filter {A B} (p : A -> bool) (h : A -> B) l :
  (forall i j x y, l !! i = Some x -> l !! j = Some y -> p x = true -> h x = h y -> i = j) ->
  base.NoDup (map h (List.filter p l)).
Proof.
  induction l as [|x l IH]; intros Hd; [by apply NoDup_nil_2|]. cbn.
  assert (base.NoDup (map h (List.filter p l))) as Hl.
  { apply IH. intros i j y z Hi Hj Hp He. by injection (Hd (S i) (S j) y z Hi Hj Hp He). }
  destruct (p x) eqn:Hp; [|done]. cbn. apply list.NoDup_cons. split; [|done].
  intros (i & y & Hi & _ & He)%elem_of_map_filter. by specialize (Hd 0%nat (S i) x y eq_refl Hi Hp He).
Qed.

Section polls.
Import BallotBox.
Context {P : PreciseNumber} {L : PreciseNumberLaws P}.

(** ** Boxes without votes *)

Lemma unvoted_tallies b : wf b -> unique_ballots b = 0 ->
  forall k t, ballot_tallies b !! k = Some t -> BallotTally.is_valid t = false.
Proof.
  intros Hwf H0 k t Hk. destruct (BallotTally.is_valid t) eqn:Hv; [|done]. exfalso.
  pose proof (wf_unique _ Hwf) as Hu. rewrite H0 in Hu.
  pose proof (count_if_insert BallotTally.is_valid (ballot_tallies b) k t BallotTally.default Hk) as Hc.
  pose proof (count_if_nonneg BallotTally.is_valid (<[k := BallotTally.default]> (ballot_tallies b))) as Hn.
  rewrite Hv in Hc. cbn in Hc. lia.
Qed.

Lemma unvoted_ballot b x : wf b -> Ballot.is_valid x = true -> unique_ballots b = 0 -> has_ballot x b = false.
Proof.
  intros Hwf Hx H0. destruct (has_ballot x b) eqn:Hh; [|done].
  apply has_ballot_spec in Hh as (k & t & Hk & Hv & _); [|done..]. by rewrite (unvoted_tallies _ Hwf H0 _ _ Hk) in Hv.
Qed.

Lemma unvoted_votes b : wf b -> unique_ballots b = 0 ->
  forall i v, operator_votes b !! i = Some v -> v = OperatorVote.default.
Proof.
  intros Hwf H0 i v Hi. destruct (wf_vote _ Hwf _ _ Hi) as [->|(_ & _ & k & t & _ & Hk & Hv)]; [done|].
  by rewrite (unvoted_tallies _ Hwf H0 _ _ Hk) in Hv.
Qed.

Lemma unvoted_winner b : wf b -> unique_ballots b = 0 -> has_winning_ballot b = false.
Proof.
  intros Hwf H0. unfold has_winning_ballot. destruct (Ballot.is_valid _) eqn:Hw; [|done].
  pose proof (wf_winner _ Hwf Hw) as Hh. by rewrite unvoted_ballot in Hh.
Qed.

(** ** Everybody who voted is counted *)

Definition cast (v : OperatorVote.t) : bool := negb (OperatorVote.is_empty v).
Definition voters (b : BallotBox.t) : list Pubkey := map OperatorVote.operator (List.filter cast (operator_votes b)).

Lemma voters_once b : wf b -> base.NoDup (voters b).
Proof.
  intros Hwf. apply NoDup_map_filter. intros i j v w Hi Hj Hv He.
  apply (wf_vote_distinct _ Hwf i j v w); [done..|].
  destruct (wf_vote _ Hwf _ _ Hi) as [->|[Hne _]]; [done|exact Hne].
Qed.

(** A vote of a registered operator, with the stake in its snapshot. *)
Definition entitled (c : census) (v : OperatorVote.t) : Prop :=
  is_pubkey (OperatorVote.operator v) /\ exists t, operators c (OperatorVote.operator v) = Some t /\ registered t
    /\ OperatorVote.weight v = stake_of t.

(** Either nobody has voted, or the epoch's snapshot is final and the box counts
    against its total. *)
Definition polled (c : census) (b : BallotBox.t) : Prop :=
  if unique_ballots b =? 0 then forall total, 0 < total <= u128_MAX -> BallotBox.inv total b
  else exists es, snapshot c = Some es /\ EpochSnapshot.finalized es = true /\ 0 < total_of es <= u128_MAX
    /\ BallotBox.inv (total_of es) b
    /\ forall i v, operator_votes b !! i = Some v -> cast v = true -> entitled c v.

Lemma polled_new c n e bump slot : polled c (new n e bump slot).
Proof. cbn. intros total _. apply new_inv. Qed.

Lemma polled_inv c b es : polled c b -> snapshot c = Some es -> 0 < total_of es <= u128_MAX ->
  BallotBox.inv (total_of es) b /\ forall i v, operator_votes b !! i = Some v -> cast v = true -> entitled c v.
Proof.
  unfold polled. destruct (unique_ballots b =? 0) eqn:Hu; intros H Hs Ht.
  - specialize (H _ Ht). split; [done|]. intros i v Hi Hc.
    rewrite (unvoted_votes b (inv_wf _ _ H) ltac:(lia) i v Hi) in Hc. done.
  - destruct H as (es' & Hs' & _ & _ & Hinv & Hv). assert (es' = es) as -> by congruence. done.
Qed.

Section electorate.
Context (index_of : Pubkey -> u64).
Context (index_inj : forall o o', is_pubkey o -> is_pubkey o' -> index_of o = index_of o' -> o = o').
Abbreviation counted := (Electorate.counted index_of).

(** The census moves on: the votes stay entitled. *)
Lemma polled_step c c' b : Electorate.step index_of c c' -> polled c b -> polled c' b.
Proof.
  intros Hs. unfold polled. destruct (_ =? 0); [done|]. intros (es & Hes & Hf & Ht & Hinv & Hv).
  exists es. split; [by eapply step_final|]. split; [done|]. split; [done|]. split; [done|].
  intros i v Hi Hc. destruct (Hv i v Hi Hc) as (Hk & t & Ho & Hr & Hw). split; [done|].
  exists t. split; [by eapply step_registered|done].
Qed.

(** The tie breaker only names the winner. *)
Lemma polled_tie_breaker c b b' st ce stall : 0 <= st -> set_tie_breaker_ballot st ce stall b = (Ok tt, b') ->
  polled c b -> polled c b'.
Proof.
  intros Hst Htie. pose proof Htie as Hrun. apply tie_breaker_run in Hrun as (_ & _ & _ & Hh & ->); [|done].
  unfold polled. change (unique_ballots (b <| winning_ballot := _ |>)) with (unique_ballots b).
  destruct (unique_ballots b =? 0) eqn:Hu.
  - intros H. exfalso. specialize (H 1 ltac:(done)). pose proof (inv_wf _ _ H) as Hwf.
    rewrite unvoted_ballot in Hh; [done|done| |lia]. unfold has_ballot in Hh. apply any_true in Hh as (k & t & _ & He).
    by apply Ballot.eq_spec in He as [Hv <-].
  - intros (es & Hes & Hf & Ht & Hinv & Hv). exists es. split; [done|]. split; [done|]. split; [done|]. split; [|done].
    eapply (step_inv (total_of es) 0 stall); [exact Ht|exact Hinv|]. by eapply step_tie_breaker.
Qed.

(** ** A vote *)

(** The box has a tally after a vote. *)
Lemma recorded_has_tally i k told op x w slot b :
  wf (recorded i k told op x w slot b) -> chosen x b k told -> Ballot.is_valid x = true ->
  unique_ballots (recorded i k told op x w slot b) <> 0.
Proof.
  intros Hwf [Hk _] Hx H0. pose proof (unvoted_tallies _ Hwf H0 k (BallotBox.counted k x w told)) as Hv.
  cbn -[BallotTally.is_valid BallotBox.counted] in Hv.
  rewrite list_lookup_insert_eq in Hv by by eapply lookup_lt_Some. specialize (Hv eq_refl).
  unfold BallotTally.is_valid in Hv. cbn in Hv. congruence.
Qed.

(** Who votes with a stake that is counted: then the total is not zero. *)
Lemma voter_counted c es os op t : counted c es os -> EpochSnapshot.finalized es = true -> is_pubkey op ->
  operators c op = Some t -> registered t /\ stake_of t <= total_of es.
Proof.
  intros Hc Hf Hop Ht. pose proof (everybody_counted _ index_inj _ _ _ _ _ Hc Hf Hop Ht) as Hin. split.
  - destruct (c_registered _ _ _ _ Hc _ Hin) as (t' & Ht' & Hr). congruence.
  - pose proof (stake_bounds _ _ _ _ [op] Hc) as Hb. unfold sum_by, stake_in in Hb. cbn in Hb. rewrite Ht in Hb.
    rewrite <-(Z.add_0_r (stake_of t)). apply Hb; [apply NoDup_singleton|]. by intros o ->%list_elem_of_singleton.
Qed.

Lemma polled_vote c es os op t st w slot valid b b1 b' : counted c es os -> snapshot c = Some es ->
  EpochSnapshot.finalized es = true -> is_pubkey op -> operators c op = Some t -> w = OperatorSnapshot.stake_weights t ->
  StakeWeights.stake_weight w <> 0 -> StakeWeights.wf w -> Ballot.wf (Ballot.new st) -> 0 <= slot < u64_MAX ->
  cast_vote op (Ballot.new st) w slot valid b = (Ok tt, b1) -> tally_votes (total_of es) slot b1 = (Ok tt, b') ->
  polled c b -> polled c b'.
Proof.
  intros Hc Hs Hf Hop Ht -> Hne Hw Hst Hslot Hcast Htally Hpoll.
  destruct (voter_counted _ _ _ _ _ Hc Hf Hop Ht) as [Hr Hle].
  assert (0 < total_of es <= u128_MAX) as Hrange.
  { pose proof (c_range _ _ _ _ Hc). destruct Hw as [Hw _]. unfold stake_of in Hle. lia. }
  destruct (polled_inv _ _ _ Hpoll Hs Hrange) as [Hinv Hvotes].
  assert (BallotBox.inv (total_of es) b') as Hinv'.
  { eapply (step_inv (total_of es) valid 0); [exact Hrange|exact Hinv|]. by eapply step_vote. }
  destruct (cast_vote_ok _ _ _ _ _ _ _ (inv_wf _ _ Hinv) Hw Hcast) as (i & k & told & Hi & Hch & -> & Hb & Hnew & Hmax).
  pose proof (recorded_wf _ _ _ _ _ _ _ slot (inv_wf _ _ Hinv) Hi Hb Hst Hch Hnew Hw Hmax) as Hwf1.
  pose proof (recorded_has_tally _ _ _ op _ (OperatorSnapshot.stake_weights t) slot b Hwf1 Hch Hb) as Hu.
  assert (unique_ballots b' = unique_ballots (recorded i k told op (Ballot.new st) (OperatorSnapshot.stake_weights t) slot b)
    /\ operator_votes b' = operator_votes (recorded i k told op (Ballot.new st) (OperatorSnapshot.stake_weights t) slot b))
    as [Hu' Hv'].
  { by destruct (tally_votes_ok _ _ _ _ Hwf1 Hrange Htally) as [->|(_ & _ & j & m & _ & _ & _ & ->)]. }
  unfold polled. rewrite Hu'. destruct (_ =? 0) eqn:E; [lia|].
  exists es. split; [done|]. split; [done|]. split; [done|]. split; [done|]. rewrite Hv'. intros j v Hj Hcv. cbn in Hj. rewrite list_lookup_insert in Hj. case_decide as Hij.
  - injection Hj as <-. split; [exact Hop|]. exists t. split; [done|]. by split.
  - by eapply Hvotes.
Qed.

(** ** The votes against the total *)

Lemma polled_weight c es os b : counted c es os -> snapshot c = Some es -> EpochSnapshot.finalized es = true ->
  wf b -> (forall i v, operator_votes b !! i = Some v -> cast v = true -> entitled c v) ->
  sum_by OperatorVote.weight (operator_votes b) = sum_by (stake_in c) (voters b)
  /\ sum_by OperatorVote.weight (operator_votes b) <= total_of es.
Proof.
  intros Hc Hs Hf Hwf Hv. assert (sum_by OperatorVote.weight (operator_votes b) = sum_by (stake_in c) (voters b)) as Hsum.
  { apply sum_by_filter; intros i v Hi Hcv.
    - destruct (wf_vote _ Hwf _ _ Hi) as [->|(_ & _ & k & t & Hk & Hkt & _)]; [done|].
      pose proof (tally_lt _ _ _ Hwf Hkt). unfold cast, OperatorVote.is_empty, u16_MAX in Hcv. rewrite Hk in Hcv. lia.
    - destruct (Hv i v Hi Hcv) as (_ & t & Ht & _ & Hw). unfold stake_in. by rewrite Ht. }
  split; [done|]. rewrite Hsum. apply (stake_bounds _ _ _ _ _ Hc); [by apply voters_once|].
  intros o (i & v & Hi & Hcv & ->)%elem_of_map_filter. destruct (Hv i v Hi Hcv) as (Hk & t & Ht & _).
  by eapply (everybody_counted _ index_inj).
Qed.

(** A box whose votes are entitled, and its winner. *)
Lemma polled_winner c b os es : polled c b -> snapshot c = Some es -> counted c es os ->
  BallotBox.has_winning_ballot b = true ->
  EpochSnapshot.finalized es = true
  /\ (BallotBox.tie_breaker_set b = true
      \/ let w := BallotBox.ballot_weight (BallotBox.winning_ballot b) b in
         BallotBox.reaches (total_of es) w /\ (total_of es < 500000000000000000 -> 2 * total_of es <= 3 * w)
         /\ forall b', b' <> BallotBox.winning_ballot b -> 2 * BallotBox.ballot_weight b' b < total_of es).
Proof.
  unfold polled. destruct (unique_ballots b =? 0) eqn:Hu; intros H Hs Hc Hwin.
  - specialize (H 1 ltac:(done)). rewrite unvoted_winner in Hwin; [done|apply H|lia].
  - destruct H as (es' & Hs' & Hf & Ht & Hinv & Hv). assert (es' = es) as -> by congruence. split; [done|].
    destruct (polled_weight _ _ _ _ Hc Hs Hf (inv_wf _ _ Hinv) Hv) as [_ Hle].
    destruct (inv_winner (total_of es) Ht _ Hinv Hwin) as [_ [Htie|(Hr & H2 & Hother)]]; [by left|right]. auto.
Qed.
End electorate.
End polls.
