(* ===== verification/Turnout.v ===== *)
(** Who has voted: the ledger refines the automaton of [Electorate], so the stake
    of an epoch is the sum of its operators' stakes and every operator counts
    once; and the votes in a ballot box never weigh more than that stake. *)
From stdpp Require Import relations finite.
From S2P Require Import Prelude Errors Precise Stake Registry Weights Fees Snapshots Voting EpochStates.
From S2P Require Import NcnRouter OperatorRouter Consensus Accounts Machine Lamports Frames VoteHandlers.
From S2P Require Import AdminHandlers SnapshotHandlers RewardHandlers CloseHandlers Program Authority Chain Elections.
From S2P Require Import Frozen Electorate Polls.

(** ** The struct that an account of a type holds *)
Section held.
Context {D : Type} {data : AccountData D} {bytes : AccountBytes D} {l_bytes : AccountBytesLaws D}.
Context {T : Type} {st : Stored D T} {l_st : StoredLaws D T} (d : u8).

Definition held (a : Account.t D) : option T :=
  if (Account.owner a =? id) && (data_byte0 (Account.data a) =? d) then
    match try_from_slice (Account.data a) with Ok t => Some t | _ => None end
  else None.

Lemma held_same a a' : same_data a' a -> held a' = held a.
Proof. intros [Ho Hd]. unfold held. by rewrite Ho, Hd. Qed.

Lemma held_intro a t : Account.owner a = id -> data_byte0 (Account.data a) = d ->
  try_from_slice (Account.data a) = Ok t -> held a = Some t.
Proof. intros Ho Hd Ht. unfold held. by rewrite Ho, Hd, !Z.eqb_refl, Ht. Qed.

Lemma held_elim a t : held a = Some t ->
  Account.owner a = id /\ data_byte0 (Account.data a) = d /\ try_from_slice (Account.data a) = Ok t.
Proof.
  unfold held. destruct (_ && _) eqn:E; [|done]. apply andb_true_iff in E as [?%Z.eqb_eq ?%Z.eqb_eq].
  destruct (try_from_slice _); by intros [= ->].
Qed.

Lemma held_foreign a : Account.owner a <> id -> held a = None.
Proof. intros Ho. unfold held. by destruct (Z.eqb_spec (Account.owner a) id). Qed.

Lemma held_zeros a n : Account.data a = zeros n -> d <> 0 -> held a = None.
Proof.
  intros Hz Hd. unfold held. rewrite Hz, byte0_zeros. destruct (Z.eqb_spec 0 d); [by subst|]. by rewrite andb_false_r.
Qed.

(** A method called on the struct. *)
Lemma held_on_account {E A} {to : Into E} k (m : M T E A) (s s' : Store D) r :
  on_account k m s = (Ok r, s') -> Account.owner (s k) = id -> data_byte0 (Account.data (s k)) = d ->
  exists t t', held (s k) = Some t /\ m t = (Ok r, t') /\ held (s' k) = Some t'
    /\ forall x, x <> k -> s' x = s x.
Proof.
  intros (t & t' & Ht & Hm & ->)%on_account_ok Ho Hd. exists t, t'. split; [by apply held_intro|]. split; [done|].
  destruct (write_keeps k k t' s) as (Ho' & _ & _ & Hd'). split; [|intros x Hx; by apply write_other].
  apply held_intro; [congruence|congruence|]. rewrite write_same. cbn. by eapply read_assign.
Qed.

(** A new account that gets its discriminator and its struct. *)
Lemma held_new {E A} {to : Into E} k (m : M T E A) (s s1 s' : Store D) u r :
  Account.owner (s k) = id -> set_discriminator k d s = (Ok u, s1) -> on_account k m s1 = (Ok r, s') ->
  exists t t', m t = (Ok r, t') /\ held (s' k) = Some t' /\ forall x, x <> k -> s' x = s x.
Proof.
  intros Ho [Hl ->]%set_discriminator_ok H.
  apply held_on_account in H as (t & t' & _ & Hm & Ht' & Hx); [|by rewrite update_same|].
  - exists t, t'. split; [done|]. split; [done|]. intros x Hne. rewrite Hx by done. by rewrite update_other.
  - rewrite update_same. cbn. by apply byte0_set_byte0.
Qed.
End held.

Section turnout.
Context {D : Type} {data : AccountData D} {bytes : AccountBytes D} {runtime : Runtime}
  {at_clock : Clock -> Externals D} {system : System D} {P : PreciseNumber} {L : PreciseNumberLaws P}.
Context {s_config : Stored D Config.t} {s_registry : Stored D VaultRegistry.t}
  {s_table : Stored D WeightTable.t} {s_epoch : Stored D EpochSnapshot.t}
  {s_operator : Stored D OperatorSnapshot.t} {s_box : Stored D BallotBox.t}
  {s_result : Stored D ConsensusResult.t} {s_router : Stored D NCNRewardRouter.t}
  {s_op_router : Stored D OperatorVaultRewardRouter.t} {s_marker : Stored D EpochMarker.t}
  {s_state : Stored D EpochState.t}.
Context {l_system : SystemLaws D} {l_ext : forall c, ExternalsLaws D (ext := at_clock c)}
  {l_bytes : AccountBytesLaws D}
  {l_config : StoredLaws D Config.t} {l_box : StoredLaws D BallotBox.t}
  {l_epoch : StoredLaws D EpochSnapshot.t} {l_operator : StoredLaws D OperatorSnapshot.t}
  {l_result : StoredLaws D ConsensusResult.t} {l_state : StoredLaws D EpochState.t}
  {l_marker : StoredLaws D EpochMarker.t}.
Context (collision_free : forall l l', (find_pda l id).1 = (find_pda l' id).1 -> concat l = concat l').
Context (not_system : id <> system_program_id).
Context (not_restaking : forall c, restaking_program_id (Externals := at_clock c) <> id).
Context (clock_read : forall c, get_clock (Externals := at_clock c) = Ok c).

Abbreviation at_ a := (address_of (runtime := runtime) id a).
Abbreviation ledger_step := (Chain.step (at_clock := at_clock)).
Abbreviation held_epoch := (held (T := EpochSnapshot.t) EpochSnapshotAccount.DISCRIMINATOR).
Abbreviation held_operator := (held (T := OperatorSnapshot.t) OperatorSnapshotAccount.DISCRIMINATOR).

(** The epoch's snapshot and the operators' snapshots of one epoch: who names
    one of them names the same epoch. *)
Lemma same_operators n e n' e' : at_ (AEpochSnapshot n e) = at_ (AEpochSnapshot n' e') ->
  to_bytes n = to_bytes n' /\ forall o, at_ (AOperatorSnapshot o n e) = at_ (AOperatorSnapshot o n' e').
Proof.
  intros H%collision_free. cbn -[to_bytes to_le_bytes List.app seed] in H. apply app_inv_head in H.
  apply app_inj_1 in H as [Hn H]; [|by rewrite !to_bytes_length].
  apply app_inj_1 in H as [He _]; [|by rewrite !to_le_bytes_length].
  split; [done|]. unfold address_of. cbn [seeds_of]. unfold OperatorSnapshotAccount.seeds. by rewrite Hn, He.
Qed.
Lemma same_operator o n e o' n' e' : at_ (AOperatorSnapshot o n e) = at_ (AOperatorSnapshot o' n' e') ->
  to_bytes o = to_bytes o' /\ at_ (AEpochSnapshot n e) = at_ (AEpochSnapshot n' e').
Proof.
  intros H%collision_free. cbn -[to_bytes to_le_bytes List.app seed] in H. apply app_inv_head in H.
  apply app_inj_1 in H as [Ho H]; [|by rewrite !to_bytes_length].
  apply app_inj_1 in H as [Hn H]; [|by rewrite !to_bytes_length].
  apply app_inj_1 in H as [He _]; [|by rewrite !to_le_bytes_length].
  split; [done|]. unfold address_of. cbn [seeds_of]. unfold EpochSnapshotAccount.seeds. by rewrite Hn, He.
Qed.

Lemma touched_one {E A} k x (m : M (Store D) E A) s a s' : touches [k] m -> m s = (Ok a, s') -> x <> k ->
  same_data (s' x) (s x).
Proof. intros Hm H Hx. eapply Hm; [exact H|]. by apply not_elem_of_cons; split; [|apply not_elem_of_nil]. Qed.

(** What an instruction does to the accounts it names. *)
Lemma snapshot_created clock accounts e' (s s' : Store D) :
  process_initialize_epoch_snapshot (ext := at_clock clock) id accounts e' s = (Ok tt, s') ->
  exists n' es, Account.owner (s (at_ (AEpochSnapshot n' e'))) = system_program_id
  /\ held_epoch (s' (at_ (AEpochSnapshot n' e'))) = Some es
  /\ EpochSnapshot.operators_registered es = 0 /\ total_of es = 0
  /\ forall x, x <> at_ (AEpochSnapshot n' e') -> x <> at_ (AEpochState n' e') -> same_data (s' x) (s x).
Proof.
  intros H. unfold process_initialize_epoch_snapshot in H.
  do 8 (destruct accounts as [|? accounts]; [discriminate H|]). destruct accounts; [|discriminate H]. hinv H.
  apply mbind_ok in H as (u1 & s1 & Hc & H). hinv H. apply mbind_ok in H as (u2 & s2 & Hset & H). hinv H.
  apply mbind_ok in H as (u3 & s3 & Hnew & H). hinv H.
  assert (key m0 = at_ (AEpochState (key m2) e')) as Kst by located.
  assert (key m4 = at_ (AEpochSnapshot (key m2) e')) as Kes by located.
  exists (key m2). rewrite <-Kes.
  pose proof (create_ok _ _ _ _ _ _ _ _ _ _ _ Hc) as (_ & Hsys & Ho1 & _).
  destruct (held_new _ _ _ _ _ _ _ _ Ho1 Hset Hnew) as (t & t' & Hm & Ht' & Hothers). injection Hm as _ <-.
  eexists. split; [exact Hsys|].
  assert (forall k, k <> key m0 -> same_data (s' k) (s3 k)) as Hst.
  { intros k Hx. eapply touched_one; [|exact H|done]. touching. }
  assert (key m4 <> key m0) as Hne by (rewrite Kst, Kes; by apply (addresses_apart collision_free)).
  split; [rewrite (held_same _ _ _ (Hst _ Hne)); exact Ht'|]. split; [done|]. split; [done|].
  intros k Hx Hx0. rewrite <-Kst in Hx0. etrans; [by apply Hst|]. rewrite (Hothers k Hx).
  eapply (touched_one (key m4)); [|exact Hc|done]. touching.
Qed.

(** What follows the creation of an operator's snapshot account. *)
Lemma operator_snapshot_taken clock kS kR kN kop kT kE kO e' bump es (s s' : Store D) :
  take_operator_snapshot (ext := at_clock clock) kS kR kN kop kT kE kO e' bump s = (Ok tt, s') ->
  kO <> kE -> kO <> kS -> kE <> kS -> Account.owner (s kO) = id -> held_epoch (s kE) = Some es ->
  exists t es' slot, held_operator (s' kO) = Some t
  /\ OperatorSnapshot.vault_operator_delegations_registered t = 0 /\ stake_of t = 0
  /\ OperatorSnapshot.is_active t || OperatorSnapshot.finalized t = true
  /\ held_epoch (s' kE) = Some es'
  /\ (if OperatorSnapshot.is_active t then es' = es
      else EpochSnapshot.increment_operator_registration slot 0 StakeWeights.default es = (Ok tt, es'))
  /\ forall k, k <> kO -> k <> kE -> k <> kS -> same_data (s' k) (s k).
Proof.
  intros H NOE NOS NES Ho Hes. unfold take_operator_snapshot in H. hinv H. hcall H. hcall H.
  destruct (_ : bool * u64) as [active index] in H. hinv H.
  apply mbind_ok in H as (u2 & s2 & Hset & H). apply mbind_ok in H as (u3 & s3 & Hnew & H).
  apply mbind_ok in H as (u4 & s4 & Hreg & H). hinv H.
  destruct (held_new _ _ _ _ _ _ _ _ Ho Hset Hnew) as (t & t' & Hm & Ht' & Hothers).
  apply initialize_ok in Hm as (Hz & Hst & Hact & Hfin).
  assert (s3 kE = s kE) as HE by by apply Hothers, not_eq_sym.
  assert (forall k, k <> kS -> same_data (s' k) (s4 k)) as HS.
  { intros k Hk. eapply touched_one; [|exact H|done]. touching. }
  assert (exists es', held_epoch (s4 kE) = Some es' /\ (forall k, k <> kE -> s4 k = s3 k)
    /\ if active then es' = es
       else EpochSnapshot.increment_operator_registration (slot x) 0 StakeWeights.default es = (Ok tt, es'))
    as (es' & Hes' & Hk4 & Hinc).
  { destruct active; cbn [negb] in Hreg.
    - injection Hreg as _ <-. exists es. by rewrite HE.
    - hinv Hreg. destruct (held_elim _ _ _ Hes) as (HoE & HdE & _). rewrite <-HE in HoE, HdE.
      destruct (held_on_account _ _ _ _ _ _ Hreg HoE HdE) as (es0 & es' & Hes0 & Hi & Hes' & Hk4).
      rewrite HE, Hes in Hes0. injection Hes0 as <-. destruct u4. by exists es'. }
  exists t', es', (slot x). rewrite (held_same _ _ _ (HS _ NOS)), (held_same _ _ _ (HS _ NES)), Hk4 by done.
  rewrite Hact in *. split_and!; try done. intros k HO HE' HkS. rewrite <-(Hothers k HO), <-(Hk4 k HE'). by apply HS.
Qed.

(** A snapshot of an operator: the accounts, and what it does to the epoch's. *)
Lemma operator_snapshot_created clock accounts e' (s s' : Store D) :
  process_initialize_operator_snapshot (ext := at_clock clock) id accounts e' s = (Ok tt, s') ->
  exists nc op state es es' i t slot,
  let kE := at_ (AEpochSnapshot (key nc) e') in let kO := at_ (AOperatorSnapshot (key op) (key nc) e') in
  op ∈ accounts
  /\ load_operator (Externals := at_clock clock) (restaking_program_id (Externals := at_clock clock)) (info s op) false
     = Ok tt
  /\ load_ncn_operator_state (Externals := at_clock clock) (restaking_program_id (Externals := at_clock clock))
       (info s state) (info s nc) (info s op) false = Ok tt
  /\ ncn_operator_index (Externals := at_clock clock) (Account.data (s (key state))) = Ok i
  /\ held_epoch (s kE) = Some es /\ i < EpochSnapshot.operator_count es
  /\ Account.owner (s kO) = system_program_id
  /\ held_operator (s' kO) = Some t /\ OperatorSnapshot.vault_operator_delegations_registered t = 0 /\ stake_of t = 0
  /\ OperatorSnapshot.is_active t || OperatorSnapshot.finalized t = true
  /\ held_epoch (s' kE) = Some es'
  /\ (if OperatorSnapshot.is_active t then es' = es
      else EpochSnapshot.increment_operator_registration slot 0 StakeWeights.default es = (Ok tt, es'))
  /\ forall k, k <> kO -> k <> kE -> k <> at_ (AEpochState (key nc) e') -> same_data (s' k) (s k).
Proof.
  intros H. unfold process_initialize_operator_snapshot in H.
  do 11 (destruct accounts as [|? accounts]; [discriminate H|]). destruct accounts; [|discriminate H]. hinv H.
  apply mbind_ok in H as (u1 & s1 & Hc & H).
  assert (key m0 = at_ (AEpochState (key m3) e')) as Kst by located.
  assert (key m6 = at_ (AEpochSnapshot (key m3) e')) as Kes by located.
  assert (key m7 = at_ (AOperatorSnapshot (key m4) (key m3) e')) as Kop by located.
  exists m3, m4, m5, x.
  assert (key m7 <> key m6) as N76 by (rewrite Kes, Kop; by apply (addresses_apart collision_free)).
  assert (key m7 <> key m0) as N70 by (rewrite Kst, Kop; by apply (addresses_apart collision_free)).
  assert (key m6 <> key m0) as N60 by (rewrite Kst, Kes; by apply (addresses_apart collision_free)).
  pose proof (create_ok _ _ _ _ _ _ _ _ _ _ _ Hc) as (_ & Hsys & Ho1 & _).
  assert (forall k, k <> key m7 -> same_data (s1 k) (s k)) as Hcr.
  { intros k Hk. eapply (touched_one (key m7)); [|exact Hc|done]. touching. }
  assert (held_epoch (s1 (key m6)) = Some x) as HE1.
  { rewrite (held_same _ _ _ (Hcr _ (not_eq_sym N76))).
    match goal with Hl : EpochSnapshotAccount.load _ _ _ _ _ = Ok tt |- _ =>
      apply check_load_ok in Hl as (Lo & _ & Ld & _); destruct (Ld _ eq_refl) as [_ Lb] end.
    by apply held_intro. }
  destruct (operator_snapshot_taken _ _ _ _ _ _ _ _ _ _ _ _ _ H N76 N70 N60 Ho1 HE1)
    as (t & es' & slot & Ht & Hz & Hst & Hact & Hes' & Hinc & Hk).
  exists es', x0, t, slot. cbv zeta. rewrite <-Kst, <-Kes, <-Kop. split_and!; try done; [in_list| |lia|].
  - rewrite <-(held_same _ _ _ (Hcr _ (not_eq_sym N76))). exact HE1.
  - intros k HO HE HS. etrans; [by apply Hk|by apply Hcr].
Qed.

(** The stake weight of a delegation is an unsigned number. *)
Lemma delegation_weight_nonneg clock a is_active index st_mint w (s s' : Store D) :
  delegation_stake_weight (ext := at_clock clock) a is_active index st_mint s = (Ok w, s') -> 0 <= w.
Proof.
  unfold delegation_stake_weight. intros H. hinv H. destruct is_active; [|by injection H as <-]. hinv H.
  apply lift_ok in H as [H _]. unfold OperatorSnapshot.calculate_total_stake_weight, into in H.
  repeat match goal with H : rbind _ _ = Ok _ |- _ => apply rbind_ok in H as (? & ? & H) end.
  destruct (pn_to_imprecise _) eqn:Hp; [|done]. injection H as <-. by apply pn_to_imprecise_range in Hp as [? _].
Qed.

(** The writes of a delegation. *)
Lemma delegation_written a slot index w (s s' : Store D) :
  let kE := key (epoch_snapshot a) in let kO := key (operator_snapshot a) in
  let kS := key (SnapshotHandlers.epoch_state a) in
  record_delegation a slot index w s = (Ok tt, s') ->
  kO <> kE -> kO <> kS -> kE <> kS -> Account.owner (s kE) = id ->
  data_byte0 (Account.data (s kE)) = EpochSnapshotAccount.DISCRIMINATOR -> Account.owner (s kO) = id ->
  data_byte0 (Account.data (s kO)) = OperatorSnapshotAccount.DISCRIMINATOR ->
  exists t t' weights, held_operator (s kO) = Some t /\ StakeWeights.stake_weight weights = w
  /\ OperatorSnapshot.increment_vault_operator_delegation_registration slot (key (vault a)) index weights t = (Ok tt, t')
  /\ held_operator (s' kO) = Some t'
  /\ (if OperatorSnapshot.finalized t' then
        exists es es', held_epoch (s kE) = Some es /\ held_epoch (s' kE) = Some es'
        /\ EpochSnapshot.increment_operator_registration slot (OperatorSnapshot.valid_operator_vault_delegations t')
             (OperatorSnapshot.stake_weights t') es = (Ok tt, es')
      else same_data (s' kE) (s kE))
  /\ forall k, k <> kO -> k <> kE -> k <> kS -> same_data (s' k) (s k).
Proof.
  intros kE kO kS H NOE NOS NES HoE HdE HoO HdO. unfold record_delegation in H. fold kE kO kS in H. hinv H.
  apply mbind_ok in H as (u1 & s1 & Hrec & H). hinv H. apply mbind_ok in H as (u2 & s2 & Hreg & H). hinv H.
  destruct (held_on_account _ _ _ _ _ _ Hrec HoO HdO) as (t & t' & Ht & Hinc & Ht' & Hk1).
  assert (x1 = t') as -> by (apply held_elim in Ht' as (_ & _ & Hr); congruence). destruct u1, u2.
  assert (StakeWeights.stake_weight x0 = w) as Hw.
  { match goal with Hs : into (StakeWeights.snapshot _) = Ok _ |- _ => revert Hs end.
    unfold into, StakeWeights.snapshot, StakeWeights.increment_stake_weight. munfold. cbn.
    destruct (checked_add _ _ _) as [z|] eqn:Hz; [|done]. intros [= <-].
    apply checked_add_Some in Hz as [Hz _]. cbn in *. lia. }
  assert (forall k, k <> kS -> same_data (s' k) (s2 k)) as HS.
  { intros k Hk. eapply touched_one; [|exact H|done]. touching. }
  assert (s1 kE = s kE) as HE by by apply Hk1, not_eq_sym.
  assert ((if OperatorSnapshot.finalized t' then
      exists es es', held_epoch (s kE) = Some es /\ held_epoch (s2 kE) = Some es'
      /\ EpochSnapshot.increment_operator_registration slot (OperatorSnapshot.valid_operator_vault_delegations t')
           (OperatorSnapshot.stake_weights t') es = (Ok tt, es')
    else s2 kE = s kE) /\ forall k, k <> kE -> s2 k = s1 k) as [Hes Hk2].
  { destruct (OperatorSnapshot.finalized t').
    - hinv Hreg. rewrite <-HE in HoE, HdE.
      destruct (held_on_account _ _ _ _ _ _ Hreg HoE HdE) as (es & es' & Hes & Hi & Hes' & Hk2).
      split; [|done]. exists es, es'. by rewrite <-HE.
    - injection Hreg as <-. by split. }
  exists t, t', x0. rewrite (held_same _ _ _ (HS _ NOS)), (held_same _ _ _ (HS _ NES)), Hk2 by done. split_and!; try done.
  - destruct (OperatorSnapshot.finalized t'); [done|]. rewrite <-Hes. by apply HS.
  - intros k HO HE' HkS. rewrite <-(Hk1 k HO), <-(Hk2 k HE'). by apply HS.
Qed.

(** One vault's delegation: the operator's snapshot, and the epoch's with the last. *)
Lemma delegation_recorded clock accounts e' (s s' : Store D) :
  process_snapshot_vault_operator_delegation (ext := at_clock clock) id accounts e' s = (Ok tt, s') ->
  exists n' op t t' slot vault index w,
  let kE := at_ (AEpochSnapshot n' e') in let kO := at_ (AOperatorSnapshot (key op) n' e') in
  op ∈ accounts
  /\ load_operator (Externals := at_clock clock) (restaking_program_id (Externals := at_clock clock)) (info s op) false
     = Ok tt
  /\ held_operator (s kO) = Some t /\ 0 <= StakeWeights.stake_weight w
  /\ OperatorSnapshot.increment_vault_operator_delegation_registration slot vault index w t = (Ok tt, t')
  /\ held_operator (s' kO) = Some t'
  /\ (if OperatorSnapshot.finalized t' then
        exists es es', held_epoch (s kE) = Some es /\ held_epoch (s' kE) = Some es'
        /\ EpochSnapshot.increment_operator_registration slot (OperatorSnapshot.valid_operator_vault_delegations t')
             (OperatorSnapshot.stake_weights t') es = (Ok tt, es')
      else same_data (s' kE) (s kE))
  /\ forall k, k <> kO -> k <> kE -> k <> at_ (AEpochState n' e') -> same_data (s' k) (s k).
Proof.
  intros H. apply (delegation_found (at_clock := at_clock)) in H as
    (a & Lst & Lep & Lop & Hin & Hload & slot & index & w & (act & mint & Hw%delegation_weight_nonneg) & H).
  assert (key (SnapshotHandlers.epoch_state a) = at_ (AEpochState (key (SnapshotHandlers.ncn a)) e')) as Kst by located.
  assert (key (epoch_snapshot a) = at_ (AEpochSnapshot (key (SnapshotHandlers.ncn a)) e')) as Kes by located.
  assert (key (operator_snapshot a) = at_ (AOperatorSnapshot (key (operator a)) (key (SnapshotHandlers.ncn a)) e'))
    as Kop by located.
  assert (key (operator_snapshot a) <> key (epoch_snapshot a)) as NOE
    by (rewrite Kes, Kop; by apply (addresses_apart collision_free)).
  assert (key (operator_snapshot a) <> key (SnapshotHandlers.epoch_state a)) as NOS
    by (rewrite Kst, Kop; by apply (addresses_apart collision_free)).
  assert (key (epoch_snapshot a) <> key (SnapshotHandlers.epoch_state a)) as NES
    by (rewrite Kst, Kes; by apply (addresses_apart collision_free)).
  apply check_load_ok in Lep as (HoE & _ & Lep & _), Lop as (HoO & _ & Lop & _).
  destruct (Lep _ eq_refl) as [_ HdE], (Lop _ eq_refl) as [_ HdO]. cbn in HoE, HoO, HdE, HdO.
  exists (key (SnapshotHandlers.ncn a)), (operator a). rewrite <-Kst, <-Kes, <-Kop.
  destruct (delegation_written _ _ _ _ _ _ H NOE NOS NES HoE HdE HoO HdO)
    as (t & t' & weights & Ht & Hwt & Hinc & Ht' & Hes & Hk).
  exists t, t', slot, (key (vault a)), index, weights. split_and!; try done. lia.
Qed.

(** ** The ledger refines the automaton *)
Section epoch.
Context (n : Pubkey) (e : u64) (index_of : Pubkey -> u64).
Context (index_nonneg : forall o, 0 <= index_of o).
Context (index_inj : forall o o', is_pubkey o -> is_pubkey o' -> index_of o = index_of o' -> o = o').
Abbreviation epoch_snapshot_at := (at_ (AEpochSnapshot n e)).
Abbreviation operator_snapshot_at o := (at_ (AOperatorSnapshot o n e)).

Definition census_of (s : Store D) : census :=
  Census (held_epoch (s epoch_snapshot_at)) (fun o => held_operator (s (operator_snapshot_at o))).

(** The restaking program numbers the operators of an NCN: the account of an
    operator in the NCN has the index that the operator got when it joined. *)
Definition numbered (s : Store D) : Prop :=
  forall clock nc op state i,
  load_ncn_operator_state (Externals := at_clock clock) (restaking_program_id (Externals := at_clock clock))
    (info s state) (info s nc) (info s op) false = Ok tt ->
  to_bytes (key nc) = to_bytes n ->
  ncn_operator_index (Externals := at_clock clock) (Account.data (s (key state))) = Ok i -> i = index_of (key op).

(** A transaction that does not close a snapshot of the epoch. *)
Definition removed (s s' : Store D) (k : Pubkey) : Prop := Account.owner (s k) = id /\ Account.owner (s' k) <> id.
Record open_step (s s' : Store D) : Prop := {
  os_step : ledger_step s s';
  os_numbered : numbered s;
  os_epoch : ~ removed s s' epoch_snapshot_at;
  os_operators : forall o, ~ removed s s' (operator_snapshot_at o);
}.

Abbreviation census_step := (Electorate.step index_of).

Lemma census_still s s' : same_data (s' epoch_snapshot_at) (s epoch_snapshot_at) ->
  (forall o, same_data (s' (operator_snapshot_at o)) (s (operator_snapshot_at o))) ->
  census_step (census_of s) (census_of s').
Proof. intros HE HO. apply still; cbn; [by apply held_same|]. intros o _. by apply held_same. Qed.

(** The accounts of another epoch are other accounts. *)
Lemma other_epoch n' e' : at_ (AEpochSnapshot n' e') <> epoch_snapshot_at ->
  forall o o', operator_snapshot_at o <> at_ (AOperatorSnapshot o' n' e').
Proof. intros Hne o o' [_ H]%same_operator. by apply Hne. Qed.
Lemma other_operator o o' : is_pubkey o -> is_pubkey o' -> o <> o' -> operator_snapshot_at o <> operator_snapshot_at o'.
Proof. intros Ho Ho' Hne [H%to_bytes_inj _]%same_operator; done. Qed.

(** An instruction that the table allows neither kind of snapshot. *)
Lemma census_unlisted clock accounts ix s s' :
  process_instruction (ext := at_clock clock) id accounts (Ok ix) s = (Ok tt, s') ->
  (forall b, seeds_size b = 54%nat \/ seeds_size b = 89%nat -> permitted ix b = false) ->
  (forall e', ix <> NCNProgramInstruction.CloseEpochAccount e') ->
  same_data (s' epoch_snapshot_at) (s epoch_snapshot_at)
  /\ forall o, same_data (s' (operator_snapshot_at o)) (s (operator_snapshot_at o)).
Proof.
  intros H Hp Hix. split; [|intros o]; (eapply untouched; [exact collision_free|exact H| |]).
  1,3: intros b Hb; apply Hp; rewrite Hb; auto.
  all: intros e' ->; by destruct (Hix e').
Qed.

(** A step that begins the epoch's snapshot. *)
Lemma census_begun clock accounts e' s s' :
  process_initialize_epoch_snapshot (ext := at_clock clock) id accounts e' s = (Ok tt, s') ->
  census_step (census_of s) (census_of s').
Proof.
  intros H. destruct (snapshot_created _ _ _ _ _ H) as (n' & es & Hsys & Hes & Hreg & Htot & Hk).
  assert (forall o, same_data (s' (operator_snapshot_at o)) (s (operator_snapshot_at o))) as HO.
  { intros o. apply Hk; by apply (addresses_apart collision_free). }
  destruct (decide (at_ (AEpochSnapshot n' e') = epoch_snapshot_at)) as [Heq|Hne].
  - rewrite Heq in *. eapply begun; cbn; [|exact Hes|done|done|].
    + apply held_foreign. rewrite Hsys. by apply not_eq_sym.
    + intros o _. by apply held_same.
  - apply census_still; [|done]. apply Hk; [by apply not_eq_sym|by apply (addresses_apart collision_free)].
Qed.

Lemma census_enrolled clock accounts e' ix s s' : well_typed clock accounts ix s -> numbered s ->
  process_initialize_operator_snapshot (ext := at_clock clock) id accounts e' s = (Ok tt, s') ->
  census_step (census_of s) (census_of s').
Proof.
  intros Hwt Hnum H. destruct (operator_snapshot_created _ _ _ _ _ H)
    as (nc & op & state & es & es' & i & t & slot & Hin & Hop & Hst & Hi & Hes & Hlt & Hsys & Ht & Hz & Hs0 & Hact & Hes' & Hinc & Hk).
  destruct (decide (at_ (AEpochSnapshot (key nc) e') = epoch_snapshot_at)) as [Heq|Hne].
  - destruct (same_operators _ _ _ _ Heq) as [Hnc HO]. rewrite HO, ?Heq in *.
    pose proof (wt_operator_key _ _ _ _ Hwt op _ Hin Hop) as Hkey.
    rewrite (Hnum clock nc op state i Hst Hnc Hi) in Hlt.
    apply (enrolled _ _ _ (key op) es es' t slot); [exact Hkey|split; [apply index_nonneg|exact Hlt]|exact Hes| |exact Ht|done..|].
    + apply held_foreign. rewrite Hsys. by apply not_eq_sym.
    + intros o Ho Hne. apply held_same, Hk; [by apply other_operator|by apply (addresses_apart collision_free)..].
  - apply census_still; [|intros o]; apply Hk; try (by apply (addresses_apart collision_free)); try by apply not_eq_sym.
    by apply other_epoch.
Qed.

Lemma census_delegated clock accounts e' ix s s' : well_typed clock accounts ix s ->
  process_snapshot_vault_operator_delegation (ext := at_clock clock) id accounts e' s = (Ok tt, s') ->
  census_step (census_of s) (census_of s').
Proof.
  intros Hwt H. destruct (delegation_recorded _ _ _ _ _ H)
    as (n' & op & t & t' & slot & vault & index & w & Hin & Hop & Ht & Hw & Hinc & Ht' & Hes & Hk).
  destruct (decide (at_ (AEpochSnapshot n' e') = epoch_snapshot_at)) as [Heq|Hne].
  - destruct (same_operators _ _ _ _ Heq) as [Hnc HO]. rewrite HO, ?Heq in *.
    pose proof (wt_operator_key _ _ _ _ Hwt op _ Hin Hop) as Hkey.
    apply (delegated _ _ _ (key op) t t' slot vault index w); [exact Hkey|exact Ht|done|done|exact Ht'| |].
    + destruct (OperatorSnapshot.finalized t'); [exact Hes|]. cbn. by apply held_same.
    + intros o Ho Hne. apply held_same, Hk; [by apply other_operator|by apply (addresses_apart collision_free)..].
  - apply census_still; [|intros o]; apply Hk; try (by apply (addresses_apart collision_free)); try by apply not_eq_sym.
    by apply other_epoch.
Qed.

(** What is not an account of the program stays away or comes blank. *)
Lemma held_outside {T} {st : Stored D T} d (s s' : Store D) k : d <> 0 ->
  (Account.owner (s k) = id -> same_data (s' k) (s k)) ->
  (Account.owner (s k) <> id -> Account.owner (s' k) = id -> exists len, 0 <= len /\ Account.data (s' k) = zeros len) ->
  held (T := T) d (s' k) = held d (s k).
Proof.
  intros Hd Hid Hnew. destruct (decide (Account.owner (s k) = id)) as [Ho|Ho]; [by apply held_same, Hid|].
  rewrite (held_foreign _ (s k)) by done. destruct (decide (Account.owner (s' k) = id)) as [Ho'|Ho']; [|by apply held_foreign].
  destruct (Hnew Ho Ho') as (len & _ & Hz). by eapply held_zeros.
Qed.

Lemma held_closing {T} {st : Stored D T} d clock accounts e' s s' a :
  process_close_epoch_account (ext := at_clock clock) id accounts e' s = (Ok tt, s') ->
  (forall m f, seeds_size a <> seeds_size (AEpochState m f) /\ seeds_size a <> seeds_size (AEpochMarker m f)) ->
  ~ removed s s' (at_ a) -> held (T := T) d (s' (at_ a)) = held d (s (at_ a)).
Proof.
  intros H Ha Hr. destruct (closing_spares collision_free not_system _ _ _ _ _ a H Ha) as [Hk|Ho]; [by apply held_same|].
  rewrite !held_foreign; [done| |done]. intros Hid. by destruct Hr.
Qed.

Lemma step_census s s' : open_step s s' -> census_step (census_of s) (census_of s').
Proof.
  intros [Hs Hnum Hre Hro]. destruct Hs as [clock accounts ix s s' Hwt H|s s' Hid Hnew].
  2: { apply still; cbn; [|intros o _]; (apply held_outside; [done|apply Hid|apply Hnew]). }
  destruct ix; try (destruct (census_unlisted _ _ _ _ _ H) as [HE HO];
    [intros b Hb; destruct b, Hb; try discriminate; reflexivity|done|by apply census_still]);
    unfold process_instruction in H; (destruct (negb _); [discriminate H|]); unfold mbind at 1, lift at 1 in H;
    cbv beta iota in H.
  - by eapply census_begun.
  - by eapply census_enrolled.
  - by eapply census_delegated.
  - apply still; cbn; [|intros o _]; by eapply held_closing.
Qed.

(** Only closing removes a snapshot. *)
Lemma not_removed_same (s s' : Store D) k : same_data (s' k) (s k) -> ~ removed s s' k.
Proof. intros [Ho _] [Hid Hne]. congruence. Qed.
Lemma not_removed_held {T} {st : Stored D T} d (s s' : Store D) k (t : T) : held d (s' k) = Some t -> ~ removed s s' k.
Proof. intros (Ho & _)%held_elim [_ Hne]. congruence. Qed.

Lemma only_closing_removes clock accounts ix s s' : well_typed clock accounts ix s ->
  process_instruction (ext := at_clock clock) id accounts (Ok ix) s = (Ok tt, s') ->
  (forall e', ix <> NCNProgramInstruction.CloseEpochAccount e') ->
  ~ removed s s' epoch_snapshot_at /\ forall o, ~ removed s s' (operator_snapshot_at o).
Proof.
  intros Hwt H Hix.
  destruct ix; try (destruct (census_unlisted _ _ _ _ _ H) as [HE HO];
    [intros b Hb; destruct b, Hb; try discriminate; reflexivity|done|by split; [|intros o]; apply not_removed_same]);
    unfold process_instruction in H; (destruct (negb _); [discriminate H|]); unfold mbind at 1, lift at 1 in H;
    cbv beta iota in H.
  - destruct (snapshot_created _ _ _ _ _ H) as (n' & es & _ & Hes & _ & _ & Hk). split.
    + destruct (decide (epoch_snapshot_at = at_ (AEpochSnapshot n' epoch))) as [->|Hne]; [exact (not_removed_held _ _ _ _ _ Hes)|].
      apply not_removed_same, Hk; [done|by apply (addresses_apart collision_free)].
    + intros o. apply not_removed_same, Hk; by apply (addresses_apart collision_free).
  - destruct (operator_snapshot_created _ _ _ _ _ H)
      as (nc & op & state & es & es' & i & t & slot & _ & _ & _ & _ & _ & _ & _ & Ht & _ & _ & _ & Hes' & _ & Hk).
    split; [|intros o].
    + destruct (decide (epoch_snapshot_at = at_ (AEpochSnapshot (key nc) epoch))) as [->|Hne]; [exact (not_removed_held _ _ _ _ _ Hes')|].
      apply not_removed_same, Hk; [by apply (addresses_apart collision_free)|done|by apply (addresses_apart collision_free)].
    + destruct (decide (operator_snapshot_at o = at_ (AOperatorSnapshot (key op) (key nc) epoch))) as [->|Hne];
        [exact (not_removed_held _ _ _ _ _ Ht)|].
      apply not_removed_same, Hk; [done|by apply (addresses_apart collision_free)..].
  - destruct (delegation_recorded _ _ _ _ _ H)
      as (n' & op & t & t' & slot & vault & index & w & _ & _ & _ & _ & _ & Ht' & Hes & Hk). split; [|intros o].
    + destruct (decide (epoch_snapshot_at = at_ (AEpochSnapshot n' epoch))) as [->|Hne].
      * destruct (OperatorSnapshot.finalized t'); [destruct Hes as (es & es' & _ & Hes' & _); exact (not_removed_held _ _ _ _ _ Hes')|].
        by apply not_removed_same.
      * apply not_removed_same, Hk; [by apply (addresses_apart collision_free)|done|by apply (addresses_apart collision_free)].
    + destruct (decide (operator_snapshot_at o = at_ (AOperatorSnapshot (key op) n' epoch))) as [->|Hne];
        [exact (not_removed_held _ _ _ _ _ Ht')|].
      apply not_removed_same, Hk; [done|by apply (addresses_apart collision_free)..].
  - by destruct (Hix epoch).
Qed.

Lemma open_step_intro clock accounts ix s s' : well_typed clock accounts ix s ->
  process_instruction (ext := at_clock clock) id accounts (Ok ix) s = (Ok tt, s') ->
  (forall e', ix <> NCNProgramInstruction.CloseEpochAccount e') -> numbered s -> open_step s s'.
Proof.
  intros Hwt H Hix Hnum. destruct (only_closing_removes _ _ _ _ _ Hwt H Hix) as [HE HO].
  split; [by eapply step_instruction|done|done|done].
Qed.

(** ** The ballot box *)

Abbreviation box := (at_ (ABallotBox n e)).
Definition phase_polled (c : census) (p : phase) : Prop := match p with Open b => polled c b | _ => True end.

(** The census is consistent, and the votes in the box are entitled. *)
Definition orderly (s : Store D) : Prop :=
  consistent index_of (census_of s) /\ exists p, in_phase (s box) p /\ phase_polled (census_of s) p.

Lemma vote_polled clock accounts st e' s s' p :
  well_typed clock accounts (NCNProgramInstruction.CastVote st e') s ->
  process_cast_vote (ext := at_clock clock) id accounts st e' s = (Ok tt, s') ->
  in_phase (s box) p -> consistent index_of (census_of s) -> phase_polled (census_of s) p ->
  exists p', in_phase (s' box) p' /\ phase_polled (census_of s) p'.
Proof.
  intros Hwt H Hp Hcons Hpoll.
  destruct (cast_vote_step collision_free not_restaking clock_read _ _ _ _ _ _ _ _ _ Hwt H Hp) as
    [Hk|(b & b1 & b' & op & w & valid & es & -> & Hp' & Hes & Hf & (Hop & Hne & Ho & Hd & t & Ht & Hw) & Hb & Hwf & _ & Hslot & Hcast & Htally)].
  { exists p. split; [by eapply in_phase_same|done]. }
  exists (Open b'). split; [done|]. cbn in Hpoll |- *.
  assert (operators (census_of s) op = Some t) as Hheld by by apply held_intro.
  unfold consistent in Hcons. destruct (snapshot (census_of s)) as [es0|] eqn:Hs0; [|by rewrite Hcons in Hheld].
  destruct Hcons as (os & Hc). assert (es0 = es) as ->.
  { cbn in Hs0. apply held_elim in Hs0 as (_ & _ & Hr). congruence. }
  by eapply (polled_vote index_of index_inj).
Qed.

Lemma orderly_step s s' : open_step s s' -> orderly s -> orderly s'.
Proof.
  intros Hs [Hcons (p & Hp & Hpoll)]. pose proof (step_census _ _ Hs) as Hcs.
  split; [by eapply step_consistent|].
  assert (exists p', in_phase (s' box) p' /\ phase_polled (census_of s) p') as (p' & Hp' & Hpoll').
  { destruct (step_idle collision_free not_system clock_read _ _ n e (os_step _ _ Hs))
      as [Hi|(clock & accounts & [(st & e' & Hwt & H)|(st & e' & Hst & H)])].
    - destruct (Hi p Hp) as (p' & Hstep & Hp'). exists p'. split; [done|].
      destruct Hstep; try done. apply polled_new.
    - by eapply vote_polled.
    - destruct (tie_breaker_step collision_free _ _ _ _ _ _ _ _ _ Hst H Hp) as [Hk|(b & b' & ce & stall & -> & Hp' & Hset)].
      + exists p. split; [by eapply in_phase_same|done].
      + exists (Open b'). split; [done|]. by eapply polled_tie_breaker. }
  exists p'. split; [done|]. destruct p'; try done. by eapply polled_step.
Qed.

Lemma in_phase_open a p b : in_phase a p -> in_phase a (Open b) -> p = Open b.
Proof.
  intros Hp (Ho & Hd & Hl & Hr). destruct p as [| |b']; [by destruct Hp| |].
  - destruct Hp as (_ & j & _ & Hz). rewrite Hz, byte0_zeros in Hd. discriminate Hd.
  - destruct Hp as (_ & _ & _ & Hr'). congruence.
Qed.

(** A ledger that nobody has used for this epoch. *)
Definition unused (s : Store D) : Prop :=
  Account.owner (s epoch_snapshot_at) <> id /\ Account.owner (s box) <> id
  /\ forall o, Account.owner (s (operator_snapshot_at o)) <> id.

Lemma unused_orderly s : unused s -> orderly s.
Proof.
  intros (He & Hb & Ho). split; [|by exists Absent]. unfold consistent. cbn. rewrite held_foreign by done.
  intros o _. by apply held_foreign.
Qed.

Lemma orderly_life s s' : unused s -> rtc open_step s s' -> orderly s'.
Proof. intros H%unused_orderly Hr. induction Hr; eauto using orderly_step. Qed.

(** C7: the ledger refines the electorate. Whatever transaction runs, by anyone and
    with any accounts, as long as it does not close a snapshot of the epoch: the
    epoch's snapshot and those of the operators make a step of the automaton. The
    epoch's snapshot is created without operators; an operator's snapshot is
    created when there is none and only for an index below the number of operators
    announced, and an operator that does not take part is registered at once, with
    no stake; a vault is added to an operator's snapshot that is not final, and
    the operator is registered with its last vault; or nothing changes. *)
Theorem ledger_refines_electorate s s' : open_step s s' -> census_step (census_of s) (census_of s').
Proof. apply step_census. Qed.

(** C6: every operator counts once. On any ledger reached from one that nobody has
    used for the epoch by steps that close no snapshot of the epoch: the stake of the epoch's snapshot is the sum of the stakes
    of as many operators as it counts, all different, whose snapshots are final.
    Once it is final, these are all the operators that have a snapshot at all: no
    operator that joins later is added, since the indices below the announced
    number are exhausted. *)
Theorem every_operator_counts_once s s' es : unused s -> rtc open_step s s' ->
  held_epoch (s' epoch_snapshot_at) = Some es ->
  exists os, base.NoDup os /\ Z.of_nat (List.length os) = EpochSnapshot.operators_registered es
  /\ total_of es = sum_by (stake_in (census_of s')) os
  /\ (forall o, o ∈ os -> exists t, held_operator (s' (operator_snapshot_at o)) = Some t /\ registered t)
  /\ (EpochSnapshot.finalized es = true ->
      forall o t, is_pubkey o -> held_operator (s' (operator_snapshot_at o)) = Some t -> o ∈ os).
Proof.
  intros Hu Hr Hes. destruct (orderly_life _ _ Hu Hr) as [Hc _].
  destruct (consistent_counted _ _ _ Hc Hes) as (os & Hc'). exists os. do 4 (split; [apply Hc'|]).
  intros Hf o t Ho Ht. by eapply (everybody_counted index_of index_inj).
Qed.

(** C5: the votes never outweigh the stake. On any ledger reached from one that
    nobody has used for the epoch by steps that close no snapshot of the epoch, the
    ballot box has no votes and no winner, or the epoch's snapshot is final, every
    vote is of an operator with the stake in its own final snapshot, and all votes
    together weigh at most the total of the epoch's snapshot; so a ballot that has
    won has reached the threshold of the program (two thirds cut off after 18
    decimals, which is two thirds exactly for totals below [5 * 10^17]) and every
    other ballot has less than half of the total, or the tie breaker chose it. The handler of a vote does not check that the operator's
    snapshot is final: it is, because the epoch's is. *)
Theorem votes_never_outweigh_the_stake s s' b : unused s -> rtc open_step s s' -> in_phase (s' box) (Open b) ->
  (BallotBox.unique_ballots b = 0 /\ BallotBox.has_winning_ballot b = false
   /\ forall i v, BallotBox.operator_votes b !! i = Some v -> v = OperatorVote.default)
  \/ exists es, held_epoch (s' epoch_snapshot_at) = Some es /\ EpochSnapshot.finalized es = true
     /\ (forall i v, BallotBox.operator_votes b !! i = Some v -> cast v = true -> entitled (census_of s') v)
     /\ sum_by OperatorVote.weight (BallotBox.operator_votes b) <= total_of es
     /\ (BallotBox.has_winning_ballot b = true -> BallotBox.tie_breaker_set b = true
         \/ let w := BallotBox.ballot_weight (BallotBox.winning_ballot b) b in
            BallotBox.reaches (total_of es) w /\ (total_of es < 500000000000000000 -> 2 * total_of es <= 3 * w)
            /\ forall b', b' <> BallotBox.winning_ballot b -> 2 * BallotBox.ballot_weight b' b < total_of es).
Proof.
  intros Hu Hr Hb. destruct (orderly_life _ _ Hu Hr) as [Hc (p & Hp & Hpoll)].
  assert (p = Open b) as -> by by eapply in_phase_open. cbn in Hpoll. pose proof Hpoll as Hcases. unfold polled in Hcases.
  destruct (BallotBox.unique_ballots b =? 0) eqn:Hz; [left|right].
  - specialize (Hcases 1 ltac:(done)). pose proof (BallotBox.inv_wf _ _ Hcases) as Hwf.
    assert (BallotBox.unique_ballots b = 0) as H0 by lia. split; [done|]. split; [by apply unvoted_winner|].
    by apply unvoted_votes.
  - destruct Hcases as (es & Hes & Hf & _ & Hinv & Hv). destruct (consistent_counted _ _ _ Hc Hes) as (os & Hc').
    exists es. split; [exact Hes|]. split; [done|]. split; [exact Hv|].
    split; [by eapply (polled_weight index_of index_inj); [| | |apply Hinv|]|].
    intros Hwin. by eapply (polled_winner index_of index_inj).
Qed.
End epoch.
End turnout.
