(* ===== verification/Payouts.v ===== *)
(** Lamports: the payouts move exactly what the routers owe. *)
From S2P Require Import Prelude Errors Precise Stake Registry Weights Fees Snapshots Voting EpochStates.
From S2P Require Import NcnRouter OperatorRouter Consensus Accounts Machine Lamports Frames VoteHandlers.
From S2P Require Import AdminHandlers SnapshotHandlers RewardHandlers CloseHandlers Program Authority.

Section payouts.
Context {D : Type} {data : AccountData D} {bytes : AccountBytes D} {runtime : Runtime}
  {ext : Externals D} {system : System D} {P : PreciseNumber}.
Context {s_config : Stored D Config.t} {s_operator : Stored D OperatorSnapshot.t}
  {s_router : Stored D NCNRewardRouter.t} {s_op_router : Stored D OperatorVaultRewardRouter.t}
  {s_state : Stored D EpochState.t}.
Context {l_system : SystemLaws D} {l_router : StoredLaws D NCNRewardRouter.t}
  {l_op_router : StoredLaws D OperatorVaultRewardRouter.t} {l_state : StoredLaws D EpochState.t}.

(** The lamports after a payment of [n], if there is one. *)
Definition only_moved (from to : Pubkey) (n : u64) (s s' : Store D) : Prop :=
  forall k, Account.lamports (s' k) = Account.lamports ((if 0 <? n then moved from to n s else s) k).

(** Accounts of the same owner, discriminator and size. *)
Definition same_kind (a b : Account.t D) : Prop :=
  Account.owner a = Account.owner b /\ data_byte0 (Account.data a) = data_byte0 (Account.data b)
  /\ data_len (Account.data a) = data_len (Account.data b).

(** A payout from a router: it was not routing, the amount is what [owed] takes
    off it, the lamports go from the receiver to the beneficiary, and only the
    router and the epoch state change. *)
Definition pays {R} {s_r : Stored D R} (still_routing : R -> bool) (owed : M R NCNProgramError.t u64)
    (epoch_state router from to : Meta) (s s' : Store D) : Prop :=
  exists r r' n, stored_at s router r /\ still_routing r = false /\ owed r = (Ok n, r')
  /\ stored_at s' router r' /\ same_kind (s' (key router)) (s (key router))
  /\ only_moved (key from) (key to) n s s'
  /\ (forall k, k <> key router -> k <> key epoch_state -> same_data (s' k) (s k)).

Lemma take_rewards_ok {R} {s_r : Stored D R} router still (owed : M R NCNProgramError.t u64)
    n (s s' : Store D) :
  take_rewards router still owed s = (Ok n, s') ->
  exists r r', try_from_slice (Account.data (s router)) = Ok r /\ still r = false /\ owed r = (Ok n, r')
  /\ s' = write router r' s.
Proof.
  intros H. unfold take_rewards in H. apply inv_peek in H as (r & Hr & H).
  destruct (still r) eqn:Hs; [done|]. apply on_account_ok in H as (t & t' & Ht & Ho & ->).
  rewrite Hr in Ht. injection Ht as <-. by exists r, t'.
Qed.

Lemma write_lamports {T} {st : Stored D T} k (t : T) (s : Store D) k' :
  Account.lamports (write k t s k') = Account.lamports (s k').
Proof. unfold write, update. destruct (k' =? k) eqn:E; [|done]. by apply Z.eqb_eq in E as ->. Qed.

Lemma moved_lamports from to n (s t : Store D) : (forall k, Account.lamports (s k) = Account.lamports (t k)) ->
  forall k, Account.lamports (moved from to n s k) = Account.lamports (moved from to n t k).
Proof.
  intros H k. unfold moved, update. destruct (k =? to) eqn:E1.
  - destruct (to =? from); cbn; by rewrite !H.
  - destruct (k =? from); cbn; by rewrite !H.
Qed.

(** The payment and the update that follow. *)
Lemma pays_intro {R} {s_r : Stored D R} {l_r : StoredLaws D R} still (owed : M R NCNProgramError.t u64)
    epoch_state router from to (pay record : u64 -> M (Store D) ProgramError.t unit) (s s' : Store D) :
  key epoch_state <> key router ->
  (forall n t t', pay n t = (Ok tt, t') -> t' = if 0 <? n then moved (key from) (key to) n t else t) ->
  (forall n t t', record n t = (Ok tt, t') -> exists st : EpochState.t, t' = write (key epoch_state) st t) ->
  (let* rewards := take_rewards (key router) still owed in
   let* _ := pay rewards in record rewards) s = (Ok tt, s') ->
  pays still owed epoch_state router from to s s'.
Proof.
  intros Hne Hpay Hrec (n & s1 & Ht & H)%mbind_ok. apply take_rewards_ok in Ht as (r & r' & Hr & Hs & Ho & ->).
  apply mbind_ok in H as ([] & s2 & Hp & H). apply Hpay in Hp as ->. apply Hrec in H as [st ->].
  set (s2 := if 0 <? n then _ else _).
  assert (forall k, same_data (s2 k) (write (key router) r' s k)) as Hs2.
  { intros k. unfold s2. destruct (0 <? n); [apply moved_same_data|done]. }
  exists r, r', n. split; [done|]. split; [done|]. split; [done|]. split.
  - unfold stored_at. rewrite write_other by done. destruct (Hs2 (key router)) as [_ ->]. by eapply read_write.
  - split; [|split].
    + rewrite write_other by done. destruct (Hs2 (key router)) as [Hso Hsd]. unfold same_kind. rewrite Hso, Hsd.
      destruct (write_keeps (key router) (key router) r' s) as (-> & _ & -> & ->). done.
    + intros k. rewrite write_lamports. unfold s2. destruct (0 <? n); [|apply write_lamports].
      apply moved_lamports. intros k'. apply write_lamports.
    + intros k Hk1 Hk2. rewrite write_other by done. etrans; [apply Hs2|]. by rewrite write_other.
Qed.

(** [paying]: the transfer and the record of a handler. *)
Ltac paying :=
  match goal with H : mbind (take_rewards _ _ _) _ _ = _ |- _ => eapply pays_intro; [..|exact H] end;
  [ eapply different_kinds; [eassumption..|done]
  | intros n t t' Hp; cbv beta in Hp; destruct (0 <? n); [|unfold ret in Hp; congruence]; hinv Hp; by apply transfer_moves in Hp as [_ ->]
  | intros n t t' Hp; unfold update_state in Hp; hinv Hp; apply on_account_ok in Hp as (? & st & _ & _ & ->); by exists st ].

Context (program_id : Pubkey) (e : u64) (s s' : Store D).
Context (epoch_state ncn_config ncn operator vault operator_snapshot router receiver op_router op_receiver wallet
  system_program : Meta).
Abbreviation at_ a := (address_of program_id a).

(** A payout from the NCN's router, and from an operator's, which are the ones of
    the epoch, like the receivers. *)
Definition ncn_pays (owed : M NCNRewardRouter.t NCNProgramError.t u64) (to : Meta) : Prop :=
  key epoch_state = at_ (AEpochState (key ncn) e)
  /\ NCNRewardRouterAccount.load program_id (info s router) (key ncn) e true = Ok tt
  /\ key receiver = at_ (ANCNRewardReceiver (key ncn) e)
  /\ pays NCNRewardRouter.still_routing owed epoch_state router receiver to s s'.
Definition operator_pays (owed : M OperatorVaultRewardRouter.t NCNProgramError.t u64) (to : Meta) : Prop :=
  key epoch_state = at_ (AEpochState (key ncn) e)
  /\ OperatorVaultRewardRouterAccount.load program_id (info s op_router) (key operator) (key ncn) e true = Ok tt
  /\ key op_receiver = at_ (AOperatorVaultRewardReceiver (key operator) (key ncn) e)
  /\ pays OperatorVaultRewardRouter.still_routing owed epoch_state op_router op_receiver to s s'.

Lemma ncn_payout :
  process_distribute_ncn_rewards program_id
    [epoch_state; ncn_config; ncn; router; receiver; wallet; system_program] e s = (Ok tt, s') ->
  (exists c, stored_at s ncn_config c /\ FeeConfig.ncn_fee_wallet (Config.fee_config c) = key wallet)
  /\ ncn_pays NCNRewardRouter.distribute_ncn_fee_rewards wallet.
Proof.
  intros H. unfold process_distribute_ncn_rewards in H. hinv H. split; [by eexists; split; [eassumption|lia]|].
  split; [located|split; [eassumption|split; [located|paying]]].
Qed.

Lemma protocol_payout :
  process_distribute_protocol_rewards program_id
    [epoch_state; ncn_config; ncn; router; receiver; wallet; system_program] e s = (Ok tt, s') ->
  (exists c, stored_at s ncn_config c /\ FeeConfig.protocol_fee_wallet (Config.fee_config c) = key wallet)
  /\ ncn_pays NCNRewardRouter.distribute_protocol_fee_rewards wallet.
Proof.
  intros H. unfold process_distribute_protocol_rewards in H. hinv H. split; [by eexists; split; [eassumption|lia]|].
  split; [located|split; [eassumption|split; [located|paying]]].
Qed.

Lemma operator_route_payout :
  process_distribute_operator_vault_reward_route program_id
    [epoch_state; ncn_config; ncn; operator; router; receiver; op_router; op_receiver; system_program] e s
    = (Ok tt, s') ->
  key op_receiver = at_ (AOperatorVaultRewardReceiver (key operator) (key ncn) e)
  /\ ncn_pays (NCNRewardRouter.distribute_operator_vault_reward_route (key operator)) op_receiver.
Proof.
  intros H. unfold process_distribute_operator_vault_reward_route in H. hinv H. split; [located|].
  split; [located|split; [eassumption|split; [located|paying]]].
Qed.

Lemma operator_payout :
  process_distribute_operator_rewards program_id
    [epoch_state; ncn_config; ncn; operator; operator_snapshot; op_router; op_receiver; system_program] e s
    = (Ok tt, s') ->
  operator_pays OperatorVaultRewardRouter.distribute_operator_rewards operator.
Proof.
  intros H. unfold process_distribute_operator_rewards in H. hinv H. split; [located|split; [eassumption|split; [located|paying]]].
Qed.

Lemma vault_payout :
  process_distribute_vault_rewards program_id
    [epoch_state; ncn_config; ncn; operator; vault; operator_snapshot; op_router; op_receiver; system_program] e s
    = (Ok tt, s') ->
  operator_pays (OperatorVaultRewardRouter.distribute_vault_reward_route (key vault)) vault.
Proof.
  intros H. unfold process_distribute_vault_rewards in H. hinv H. split; [located|split; [eassumption|split; [located|paying]]].
Qed.

(** C14: the five payouts of an epoch. A payout that succeeds took exactly what
    the router owed the beneficiary off the epoch's router, which was not routing,
    and moved that many lamports from the epoch's reward receiver to the
    beneficiary: the wallet the configuration names, the operator's receiver, the
    operator or the vault. No other balance changes, and no other data but the
    epoch state's. *)
Theorem payouts_move_what_is_owed :
  (process_distribute_ncn_rewards program_id
     [epoch_state; ncn_config; ncn; router; receiver; wallet; system_program] e s = (Ok tt, s') ->
   (exists c, stored_at s ncn_config c /\ FeeConfig.ncn_fee_wallet (Config.fee_config c) = key wallet)
   /\ ncn_pays NCNRewardRouter.distribute_ncn_fee_rewards wallet)
  /\ (process_distribute_protocol_rewards program_id
     [epoch_state; ncn_config; ncn; router; receiver; wallet; system_program] e s = (Ok tt, s') ->
   (exists c, stored_at s ncn_config c /\ FeeConfig.protocol_fee_wallet (Config.fee_config c) = key wallet)
   /\ ncn_pays NCNRewardRouter.distribute_protocol_fee_rewards wallet)
  /\ (process_distribute_operator_vault_reward_route program_id
     [epoch_state; ncn_config; ncn; operator; router; receiver; op_router; op_receiver; system_program] e s
     = (Ok tt, s') ->
   key op_receiver = at_ (AOperatorVaultRewardReceiver (key operator) (key ncn) e)
   /\ ncn_pays (NCNRewardRouter.distribute_operator_vault_reward_route (key operator)) op_receiver)
  /\ (process_distribute_operator_rewards program_id
     [epoch_state; ncn_config; ncn; operator; operator_snapshot; op_router; op_receiver; system_program] e s
     = (Ok tt, s') ->
   operator_pays OperatorVaultRewardRouter.distribute_operator_rewards operator)
  /\ (process_distribute_vault_rewards program_id
     [epoch_state; ncn_config; ncn; operator; vault; operator_snapshot; op_router; op_receiver; system_program] e s
     = (Ok tt, s') ->
   operator_pays (OperatorVaultRewardRouter.distribute_vault_reward_route (key vault)) vault).
Proof.
  split; [exact ncn_payout|]. split; [exact protocol_payout|]. split; [exact operator_route_payout|].
  split; [exact operator_payout|exact vault_payout].
Qed.
End payouts.
