(* ===== verification/Conservation.v ===== *)
(** No instruction creates or destroys lamports: whatever it does, the accounts
    it was given hold together what they held before. *)
From S2P Require Import Prelude Errors Precise Stake Registry Weights Fees Snapshots Voting EpochStates.
From S2P Require Import NcnRouter OperatorRouter Consensus Accounts Machine Lamports Frames VoteHandlers.
From S2P Require Import AdminHandlers SnapshotHandlers RewardHandlers CloseHandlers Program Authority.

Section totals.
Context {D : Type}.
Implicit Types s : Store D.

Definition total (U : list Pubkey) (s : Store D) : Z := sum_by (fun k => Account.lamports (s k)) U.

Lemma total_ext U s s' : (forall k, k ∈ U -> Account.lamports (s' k) = Account.lamports (s k)) -> total U s' = total U s.
Proof. intros H. apply sum_by_ext. intros i k Hk. apply H. apply list_elem_of_lookup. by exists i. Qed.

(** One account of a list without repetitions changes. *)
Lemma total_one U s s' k n : NoDup U -> k ∈ U -> Account.lamports (s' k) = Account.lamports (s k) + n ->
  (forall x, x <> k -> Account.lamports (s' x) = Account.lamports (s x)) -> total U s' = total U s + n.
Proof.
  intros HU Hk Hn Hx. induction HU as [|x l Hnot HU IH]; [by apply elem_of_nil in Hk|].
  change (total (x :: l) s') with (Account.lamports (s' x) + total l s').
  change (total (x :: l) s) with (Account.lamports (s x) + total l s).
  apply elem_of_cons in Hk as [<-|Hk].
  - rewrite Hn, (total_ext l s s'); [lia|]. intros y Hy. apply Hx. by intros ->.
  - rewrite IH, Hx; [lia| |done]. by intros ->.
Qed.

Lemma total_set U s k f n : NoDup U -> k ∈ U -> Account.lamports (f (s k)) = Account.lamports (s k) + n ->
  total U (update k f s) = total U s + n.
Proof.
  intros HU Hk Hf. apply (total_one U s _ k); [done|done|by rewrite update_same|]. intros x Hx. by rewrite update_other.
Qed.

Lemma total_moved U from to n s : NoDup U -> from ∈ U -> to ∈ U -> total U (moved from to n s) = total U s.
Proof.
  intros HU Hf Ht. unfold moved. rewrite (total_set U _ to _ n), (total_set U _ from _ (- n)); try done; cbn; lia.
Qed.
End totals.

Section conservation.
Context {D : Type} (U : list Pubkey) (unique : NoDup U).

Definition conserves {E A} (m : M (Store D) E A) : Prop :=
  forall s a s', m s = (Ok a, s') -> total U s' = total U s.

Lemma conserves_bind {E A B} (m : M (Store D) E A) (k : A -> M (Store D) E B) :
  conserves m -> (forall a, conserves (k a)) -> conserves (mbind m k).
Proof. intros Hm Hk s b s' (a & s1 & H1 & H2)%mbind_ok. etrans; [by eapply Hk|by eapply Hm]. Qed.

Lemma conserves_reads {E A} (m : M (Store D) E A) : reads m -> conserves m.
Proof. intros Hm s a s' ->%Hm. done. Qed.

Lemma conserves_gets {E A} (f : Store D -> A) : conserves (gets f : M (Store D) E A).
Proof. by intros s a s' [= _ <-]. Qed.

Lemma conserves_update {E} k f : (forall a : Account.t D, Account.lamports (f a) = Account.lamports a) ->
  conserves (modify (update k f) : M (Store D) E unit).
Proof.
  intros Hf s a s' [= _ <-]. apply total_ext. intros x _. destruct (decide (x = k)) as [->|Hx].
  - by rewrite update_same.
  - by rewrite update_other.
Qed.

Context {data : AccountData D} {bytes : AccountBytes D} {runtime : Runtime} {ext : Externals D}
  {system : System D} {l_system : SystemLaws D}.

Lemma conserves_try_borrow held k : conserves (try_borrow held k).
Proof. apply conserves_reads. unfold try_borrow. destruct (any _ _); [apply reads_throw|apply reads_ret]. Qed.
Lemma conserves_borrow held k : conserves (borrow held k).
Proof. apply conserves_reads. unfold borrow. destruct (any _ _); [apply reads_lift|apply reads_ret]. Qed.

Lemma conserves_on_account {T E A} {st : Stored D T} {to : Into E} k (m : M T E A) : conserves (on_account k m).
Proof.
  intros s a s' (t & t' & _ & _ & ->)%on_account_ok. apply total_ext. intros x _. unfold write, update.
  destruct (x =? k) eqn:E1; [|done]. by apply Z.eqb_eq in E1 as ->.
Qed.

Lemma conserves_set_discriminator k d : conserves (set_discriminator k d).
Proof.
  apply conserves_bind; [apply conserves_reads, reads_get_self|]. intros s.
  destruct (_ =? 0); [apply conserves_reads, reads_lift|by apply conserves_update].
Qed.
Lemma conserves_realloc held k n : conserves (realloc held k n).
Proof.
  apply conserves_bind; [apply conserves_try_borrow|]. intros _.
  apply conserves_bind; [apply conserves_reads, reads_peek|]. intros d. by apply conserves_update.
Qed.

Context {s_state : Stored D EpochState.t}.
Lemma conserves_load_and_check_is_closing program_id m ncn e w :
  conserves (load_and_check_is_closing program_id m ncn e w).
Proof.
  apply conserves_bind; [apply conserves_reads, reads_read|]. intros st.
  apply conserves_reads. destruct (EpochState.is_closing st); [apply reads_throw|apply reads_check].
Qed.

Lemma conserves_transfer held from to n seeds : from ∈ U -> to ∈ U -> conserves (invoke_transfer held from to n seeds).
Proof. intros Hf Ht s [] s' [_ ->]%transfer_moves. by apply total_moved. Qed.
Lemma conserves_allocate held k n seeds : conserves (invoke_allocate held k n seeds).
Proof. intros s [] s' (_ & _ & ->)%allocate_zeros. by eapply (conserves_update (E := unit) k (set_data (zeros n))). Qed.
Lemma conserves_assign held k o seeds : conserves (invoke_assign held k o seeds).
Proof. intros s [] s' (_ & ->)%assign_owner. by eapply (conserves_update (E := unit) k (set_owner o)). Qed.

(** The account that pays is the one at the derived address. *)
Lemma conserves_payer_transfer held program_id ncn payer to n : payer ∈ U -> to ∈ U ->
  conserves (Payer.transfer held program_id ncn payer to n).
Proof.
  intros Hp Ht. unfold Payer.transfer. destruct (AccountPayer.find_program_address _ _) as [[pda b] l].
  destruct (pda =? payer) eqn:E1; cbn [negb]; [|by apply conserves_reads].
  apply Z.eqb_eq in E1 as ->. by apply conserves_transfer.
Qed.
Lemma conserves_create held program_id ncn payer k o n seeds : payer ∈ U -> k ∈ U ->
  conserves (Payer.pay_and_create_account held program_id ncn payer k o n seeds).
Proof.
  intros Hp Hk. unfold Payer.pay_and_create_account.
  apply conserves_bind; [apply conserves_reads, reads_lift|]. intros rent.
  apply conserves_bind; [apply conserves_gets|]. intros x. cbv zeta.
  apply conserves_bind; [destruct (0 <? _); [by apply conserves_payer_transfer|apply conserves_reads, reads_ret]|].
  intros _. apply conserves_bind; [apply conserves_allocate|]. intros _. apply conserves_assign.
Qed.
Lemma conserves_pay_and_realloc held program_id ncn payer k n : payer ∈ U -> k ∈ U ->
  conserves (Payer.pay_and_realloc held program_id ncn payer k n).
Proof.
  intros Hp Hk. unfold Payer.pay_and_realloc.
  apply conserves_bind; [apply conserves_reads, reads_lift|]. intros rent.
  apply conserves_bind; [apply conserves_gets|]. intros x. cbv zeta.
  apply conserves_bind; [destruct (0 <? _); [by apply conserves_payer_transfer|apply conserves_reads, reads_ret]|].
  intros _. apply conserves_realloc.
Qed.
Lemma conserves_ncn_close held program_id ncn e r w p : r ∈ U -> w ∈ U -> p ∈ U ->
  conserves (NcnReceiver.close held program_id ncn e r w p).
Proof.
  intros Hr Hw Hp. unfold NcnReceiver.close, NcnReceiver.transfer.
  destruct (NCNRewardReceiver.find_program_address _ _ _) as [[pda b] l].
  apply conserves_bind; [apply conserves_reads, reads_lift|]. intros rent.
  apply conserves_bind; [apply conserves_gets|]. intros x. cbv zeta.
  destruct (pda =? r) eqn:E1; cbn [negb].
  - apply Z.eqb_eq in E1 as ->. apply conserves_bind; [|intros _; by apply conserves_transfer].
    destruct (0 <? _); [by apply conserves_transfer|apply conserves_reads, reads_ret].
  - apply conserves_bind; [|intros _; by apply conserves_reads].
    destruct (0 <? _); [by apply conserves_reads|apply conserves_reads, reads_ret].
Qed.
Lemma conserves_operator_close held program_id o ncn e r w p : r ∈ U -> w ∈ U -> p ∈ U ->
  conserves (OperatorReceiver.close held program_id o ncn e r w p).
Proof.
  intros Hr Hw Hp. unfold OperatorReceiver.close, OperatorReceiver.transfer.
  destruct (OperatorVaultRewardReceiver.find_program_address _ _ _ _) as [[pda b] l].
  apply conserves_bind; [apply conserves_reads, reads_lift|]. intros rent.
  apply conserves_bind; [apply conserves_gets|]. intros x. cbv zeta.
  destruct (pda =? r) eqn:E1; cbn [negb].
  - apply Z.eqb_eq in E1 as ->. apply conserves_bind; [|intros _; by apply conserves_transfer].
    destruct (0 <? _); [by apply conserves_transfer|apply conserves_reads, reads_ret].
  - apply conserves_bind; [|intros _; by apply conserves_reads].
    destruct (0 <? _); [by apply conserves_reads|apply conserves_reads, reads_ret].
Qed.
Lemma conserves_update_state k f : conserves (update_state k f).
Proof. apply conserves_on_account. Qed.
End conservation.

(** [conserving Hin]: the rules, the tests and the matches of the code; [Hin] says
    that the accounts of the handler are in the list. *)
Ltac side Hin := first [assumption | exact _ | solve [apply Hin; in_list]].
Ltac conserving Hin :=
  repeat (cbv beta zeta iota;
    lazymatch goal with
    | |- forall _, _ => intros
    | |- conserves _ (Payer.transfer _ _ _ _ _ _) => eapply conserves_payer_transfer; side Hin
    | |- conserves _ (Payer.pay_and_create_account _ _ _ _ _ _ _ _) =>
        eapply conserves_create; side Hin
    | |- conserves _ (Payer.pay_and_realloc _ _ _ _ _ _) => eapply conserves_pay_and_realloc; side Hin
    | |- conserves _ (NcnReceiver.close _ _ _ _ _ _ _) => eapply conserves_ncn_close; side Hin
    | |- conserves _ (OperatorReceiver.close _ _ _ _ _ _ _ _) =>
        eapply conserves_operator_close; side Hin
    | |- conserves _ (invoke_transfer _ _ _ _ _) => eapply conserves_transfer; side Hin
    | |- conserves _ (on_account _ _) => apply conserves_on_account
    | |- conserves _ (update_state _ _) => apply conserves_update_state
    | |- conserves _ (set_discriminator _ _) => apply conserves_set_discriminator
    | |- conserves _ (load_and_check_is_closing _ _ _ _ _) => apply conserves_load_and_check_is_closing
    | |- conserves _ (try_borrow _ _) => apply conserves_try_borrow
    | |- conserves _ (borrow _ _) => apply conserves_borrow
    | |- conserves _ (gets _) => apply conserves_gets
    | |- conserves _ (lamports_of _) => apply conserves_gets
    | |- conserves _ (data_len_of _) => apply conserves_gets
    | |- conserves _ (mbind _ _) => apply conserves_bind
    | |- conserves _ (match ?x with _ => _ end) => destruct x
    | |- conserves _ _ => solve [apply conserves_reads; eauto 2 with frame nocore | eauto with nocore conserve]
    end).
Create HintDb conserve.

Section instructions.
Context {D : Type} {data : AccountData D} {bytes : AccountBytes D} {runtime : Runtime}
  {ext : Externals D} {system : System D} {P : PreciseNumber}.
Context {s_config : Stored D Config.t} {s_registry : Stored D VaultRegistry.t}
  {s_table : Stored D WeightTable.t} {s_epoch : Stored D EpochSnapshot.t}
  {s_operator : Stored D OperatorSnapshot.t} {s_box : Stored D BallotBox.t}
  {s_result : Stored D ConsensusResult.t} {s_router : Stored D NCNRewardRouter.t}
  {s_op_router : Stored D OperatorVaultRewardRouter.t} {s_marker : Stored D EpochMarker.t}
  {s_state : Stored D EpochState.t} {l_system : SystemLaws D}.
Context (U : list Pubkey) (unique : NoDup U) (program_id : Pubkey).

Lemma conserves_set_weights table l : conserves U (set_weights table l).
Proof.
  induction l as [|m l IH]; cbn [set_weights]; [by apply conserves_reads, reads_ret|].
  destruct (_ =? 0); [by apply conserves_reads|].
  apply conserves_bind; [apply conserves_reads, reads_lift|]. intros c.
  apply conserves_bind; [apply conserves_on_account|done].
Qed.

#[local] Hint Resolve conserves_set_weights : conserve.

Lemma conserves_dispatch {A E B} (x : A) (f : A -> M (Store D) E B) :
  conserves U (f x) -> conserves U (mbind (lift (Ok x)) f).
Proof. intros Hf s b s'. rewrite run_lift_Ok. apply Hf. Qed.

Lemma handler_conserves ix accounts : (forall m, m ∈ accounts -> key m ∈ U) ->
  (forall e, ix <> NCNProgramInstruction.CloseEpochAccount e) ->
  conserves U (process_instruction program_id accounts (Ok ix)).
Proof.
  intros Hin Hix. unfold process_instruction. destruct (negb _); [by apply conserves_reads|].
  apply conserves_dispatch. destruct ix; try by destruct (Hix epoch).
  - unfold process_admin_initialize_config. conserving Hin.
  - unfold process_initialize_vault_registry. conserving Hin.
  - unfold process_realloc_vault_registry. conserving Hin.
  - unfold process_register_vault. conserving Hin.
  - unfold process_initialize_epoch_state. conserving Hin.
  - unfold process_initialize_weight_table. conserving Hin.
  - unfold process_realloc_weight_table. conserving Hin.
  - unfold process_set_epoch_weights. conserving Hin.
  - unfold process_initialize_epoch_snapshot. conserving Hin.
  - unfold process_initialize_operator_snapshot, take_operator_snapshot, ncn_epoch_length_of, operator_is_active.
    conserving Hin.
  - unfold process_snapshot_vault_operator_delegation.
    destruct (next_delegation_accounts accounts) as [a|]; [|by apply conserves_reads].
    unfold load_delegation_accounts, load_snapshot_accounts, delegation_is_active, delegation_stake_weight,
      record_delegation, ncn_epoch_length_of. conserving Hin.
  - unfold process_initialize_ballot_box. conserving Hin.
  - unfold process_realloc_ballot_box. conserving Hin.
  - unfold process_cast_vote.
    destruct (next_vote_accounts accounts) as [a|]; [|by apply conserves_reads].
    unfold load_vote_accounts, publish_vote. conserving Hin.
  - unfold process_admin_set_parameters. conserving Hin.
  - unfold process_admin_set_new_admin. conserving Hin.
  - unfold process_admin_set_tie_breaker. conserving Hin.
  - unfold process_admin_set_weight. conserving Hin.
  - unfold process_admin_register_st_mint. conserving Hin.
  - unfold process_admin_set_st_mint. conserving Hin.
  - unfold process_initialize_ncn_reward_router. conserving Hin.
  - unfold process_realloc_ncn_reward_router. conserving Hin.
  - unfold process_route_ncn_rewards. conserving Hin.
  - unfold process_distribute_protocol_rewards, take_rewards. conserving Hin.
  - unfold process_distribute_ncn_rewards, take_rewards. conserving Hin.
  - unfold process_initialize_operator_vault_reward_router. conserving Hin.
  - unfold process_distribute_operator_vault_reward_route, take_rewards. conserving Hin.
  - unfold process_route_operator_vault_rewards. conserving Hin.
  - unfold process_distribute_operator_rewards, take_rewards. conserving Hin.
  - unfold process_distribute_vault_rewards, take_rewards. conserving Hin.
Qed.

(** ** Closing: the payer and the account that is closed are different. *)

Context (not_system : program_id <> system_program_id).

Lemma close_account_conserves payer k s s' : payer ∈ U -> k ∈ U -> payer <> k ->
  Payer.close_account program_id payer k s = (Ok tt, s') ->
  total U s' = total U s /\ Account.owner (s k) = program_id.
Proof.
  intros Hp Hk Hne H. unfold Payer.close_account in H. hinv H. split; [|lia].
  match goal with H : ok_or (checked_add _ _ _) _ = Ok ?n |- _ => unfold checked_add in H;
    destruct (_ <=? u64_MAX); [|done]; injection H as <- end.
  apply mbind_ok in H as (u1 & s1 & H1 & H). injection H1 as _ <-.
  apply mbind_ok in H as (u2 & s2 & H2 & H). injection H2 as _ <-.
  apply mbind_ok in H as (u3 & s3 & H3 & H). injection H3 as _ <-.
  rewrite (conserves_realloc U [] k 0 _ _ _ H).
  rewrite (total_set U _ k _ 0) by (done || cbn; lia).
  rewrite (total_set U _ k _ (- Account.lamports (s k))), (total_set U _ payer _ (Account.lamports (s k)));
    [lia|done|done|cbn; lia|done|done|]. rewrite update_other by done. cbn. lia.
Qed.

Lemma mark_closed_conserves a cfg d e : key (CloseHandlers.account_payer a) ∈ U ->
  (forall m, m ∈ optional_accounts a -> key m ∈ U) -> conserves U (mark_closed program_id a cfg d e).
Proof.
  intros Hp Hin. unfold mark_closed, mark_epoch_state, mark_operator_snapshot, mark_ncn_reward_router,
    mark_operator_vault_reward_router. destruct (optional_accounts a) as [|m [|m0 [|]]]; conserving Hin.
Qed.

Lemma create_marker_conserves a e : key (CloseHandlers.account_payer a) ∈ U -> key (CloseHandlers.epoch_marker a) ∈ U ->
  conserves U (create_epoch_marker program_id a e).
Proof. intros Hp Hm. unfold create_epoch_marker. conserving Hp. Qed.

Lemma close_conserves accounts e : (forall m, m ∈ accounts -> key m ∈ U) ->
  conserves U (process_close_epoch_account program_id accounts e).
Proof.
  intros Hin s [] s' H. unfold process_close_epoch_account in H.
  do 7 (destruct accounts as [|? accounts]; [discriminate H|]). cbn [split_close_accounts] in H.
  set (a := Build_close_accounts _ _ _ _ _ _ _ _) in *.
  assert (forall m, m ∈ optional_accounts a -> key m ∈ U) as Hopt.
  { intros x Hx. apply Hin. repeat apply list_elem_of_further. exact Hx. }
  assert (key (CloseHandlers.account_payer a) ∈ U) as Hp by (apply Hin; in_list).
  assert (key (account_to_close a) ∈ U) as Hc by (apply Hin; in_list).
  assert (key (CloseHandlers.epoch_marker a) ∈ U) as Hm by (apply Hin; in_list).
  hcall H. rename H0 into Hl. unfold load_close_accounts in Hl. hinv Hl. hinv H.
  apply mbind_ok in H as (u1 & s1 & Hclosing & H).
  pose proof (conserves_update_state U _ _ _ _ _ Hclosing) as C1.
  pose proof (touches_update_state [key (CloseHandlers.epoch_state a)] _ _ ltac:(in_list) _ _ _ Hclosing) as T1.
  hinv H. apply mbind_ok in H as (u2 & s2 & Hmark & H). apply mbind_ok in H as (u3 & s3 & Hmk & H).
  pose proof (mark_closed_conserves _ _ _ _ Hp Hopt _ _ _ Hmark) as C2.
  assert (total U s3 = total U s2) as C3.
  { destruct (_ =? _); [by eapply create_marker_conserves|by injection Hmk as _ <-]. }
  assert (key (CloseHandlers.account_payer a) <> key (account_to_close a)) as Hne.
  { intros He. apply check_load_ok in H4 as (Ho & _), H2 as (Ho' & _). cbn in Ho, Ho'.
    apply close_account_owner in H. destruct (_ =? _) eqn:E in Hmk; [apply Z.eqb_eq in E; subst a; cbn in *; congruence|].
    injection Hmk as _ <-. apply Z.eqb_neq in E.
    assert (key (account_to_close a) ∉ [key (CloseHandlers.epoch_state a)]) as Hn
      by by apply not_elem_of_cons, conj, not_elem_of_nil.
    destruct (T1 _ Hn) as [O1 _]. destruct (touches_mark_closed _ _ _ _ _ _ _ _ Hmark _ Hn) as [O2 _].
    subst a; cbn in *; congruence. }
  apply close_account_conserves in H as [C4 _]; [|done..]. lia.
Qed.

(** C12: no instruction creates or destroys lamports. Whatever instruction runs
    through, the accounts it was given, counted once each, hold together exactly
    what they held before. *)
Theorem lamports_are_conserved ix accounts s s' : (forall m, m ∈ accounts -> key m ∈ U) ->
  process_instruction program_id accounts (Ok ix) s = (Ok tt, s') -> total U s' = total U s.
Proof.
  intros Hin. assert (forall e, conserves U (process_close_epoch_account program_id accounts e)) as Hclose
    by (intros e; by apply close_conserves).
  destruct ix; try (by intros H; eapply (handler_conserves _ accounts Hin); [|exact H]).
  intros H. unfold process_instruction in H. destruct (negb _); [done|]. rewrite run_lift_Ok in H. by eapply Hclose.
Qed.
End instructions.
