(* ===== verification/Gains.v ===== *)
(** Who can lose lamports: only the account payers, the reward receivers and the
    accounts that are closed. *)
From S2P Require Import Prelude Errors Precise Stake Registry Weights Fees Snapshots Voting EpochStates.
From S2P Require Import NcnRouter OperatorRouter Consensus Accounts Machine Lamports Frames VoteHandlers.
From S2P Require Import AdminHandlers SnapshotHandlers RewardHandlers CloseHandlers Program Authority.
From S2P Require Import Backing Payouts.

(** ** Fragments in which one account loses nothing *)
Section gains.
Context {D : Type} (k : Pubkey).

Definition gains {E A} (m : M (Store D) E A) : Prop :=
  forall s a s', m s = (Ok a, s') -> Account.lamports (s k) <= Account.lamports (s' k).

Lemma gains_bind {E A B} (m : M (Store D) E A) (f : A -> M (Store D) E B) :
  gains m -> (forall a, gains (f a)) -> gains (mbind m f).
Proof. intros Hm Hf s b s' (a & s1 & H1%Hm & H2%Hf)%mbind_ok. lia. Qed.
Lemma gains_reads {E A} (m : M (Store D) E A) : reads m -> gains m.
Proof. intros Hm s a s' ->%Hm. lia. Qed.
Lemma gains_lift {E A B} (x : result E A) (f : A -> M (Store D) E B) :
  (forall a, x = Ok a -> gains (f a)) -> gains (mbind (lift x) f).
Proof. intros Hf s b s' H. destruct x as [a|e|]; [|done..]. rewrite run_lift_Ok in H. by eapply Hf. Qed.
Lemma gains_gets {E A} (f : Store D -> A) : gains (gets f : M (Store D) E A).
Proof. by intros s a s' [= _ <-]. Qed.
Lemma gains_throw {E A} (e : E) : gains (throw e : M (Store D) E A).
Proof. done. Qed.

(** An assignment to something else than the lamports. *)
Lemma gains_update {E} x f : (forall a, Account.lamports (f a) = Account.lamports a) ->
  gains (modify (update x f) : M (Store D) E unit).
Proof.
  intros Hf s a s' [= _ <-]. unfold update. destruct (k =? x) eqn:E1; [|done]. apply Z.eqb_eq in E1 as ->.
  rewrite Hf. done.
Qed.

Context {data : AccountData D} {bytes : AccountBytes D} {runtime : Runtime} {ext : Externals D}
  {system : System D} {l_system : SystemLaws D} {l_ext : ExternalsLaws D} {s_state : Stored D EpochState.t}.

Lemma gains_on_account {T E A} {st : Stored D T} {to : Into E} x (m : M T E A) : gains (on_account x m).
Proof.
  intros s a s' (t & t' & _ & _ & ->)%on_account_ok. unfold write, update.
  destruct (k =? x) eqn:E1; [|done]. by apply Z.eqb_eq in E1 as ->.
Qed.
Lemma gains_update_state x f : gains (update_state x f).
Proof. apply gains_on_account. Qed.
Lemma gains_set_discriminator x d : gains (set_discriminator x d).
Proof.
  apply gains_bind; [apply gains_reads, reads_get_self|]. intros s.
  destruct (_ =? 0); [apply gains_reads, reads_lift|by apply gains_update].
Qed.
Lemma gains_borrow held x : gains (borrow held x : M (Store D) ProgramError.t unit).
Proof. apply gains_reads. unfold borrow. destruct (any _ _); [apply reads_lift|apply reads_ret]. Qed.
Lemma gains_try_borrow held x : gains (try_borrow held x : M (Store D) ProgramError.t unit).
Proof. apply gains_reads. unfold try_borrow. destruct (any _ _); [done|apply reads_ret]. Qed.
Lemma gains_realloc held x n : gains (realloc held x n).
Proof.
  apply gains_bind; [apply gains_try_borrow|]. intros _.
  apply gains_bind; [apply gains_reads, reads_peek|]. intros d. by apply gains_update.
Qed.
Lemma gains_load_and_check_is_closing program_id m n e w : gains (load_and_check_is_closing program_id m n e w).
Proof.
  apply gains_bind; [apply gains_reads, reads_read|]. intros st.
  destruct (EpochState.is_closing st); [done|apply gains_reads, reads_check].
Qed.
Lemma gains_allocate held x n seeds : gains (invoke_allocate held x n seeds).
Proof. intros s [] s' (_ & _ & ->)%allocate_zeros. by eapply (gains_update (E := unit) x (set_data (zeros n))). Qed.
Lemma gains_assign held x o seeds : gains (invoke_assign held x o seeds).
Proof. intros s [] s' (_ & ->)%assign_owner. by eapply (gains_update (E := unit) x (set_owner o)). Qed.

(** Somebody else's lamports may come. *)
Lemma moved_gains from to n (s : Store D) : k <> from -> 0 <= n ->
  Account.lamports (s k) <= Account.lamports (moved from to n s k).
Proof.
  intros Hf Hn. unfold moved, update. destruct (k =? to) eqn:E1.
  - apply Z.eqb_eq in E1 as <-. destruct (k =? from) eqn:E2; [lia|]. cbn. lia.
  - destruct (k =? from) eqn:E2; [lia|]. done.
Qed.
Lemma gains_transfer held from to n seeds : k <> from -> 0 <= n -> gains (invoke_transfer held from to n seeds).
Proof. intros Hf Hn s [] s' [_ ->]%transfer_moves. by apply moved_gains. Qed.

Context (program_id : Pubkey) (not_payer : forall n, k <> address_of program_id (AAccountPayer n)).

Lemma gains_payer_transfer held n payer to x : 0 <= x -> gains (Payer.transfer held program_id n payer to x).
Proof.
  intros Hx. unfold Payer.transfer, AccountPayer.find_program_address. pose proof (not_payer n) as Hn.
  unfold address_of in Hn. cbn [seeds_of] in Hn. destruct (find_pda (AccountPayer.seeds n) program_id) as [pda b].
  destruct (negb _); [done|]. by apply gains_transfer.
Qed.

(** A transfer that is made if there is something to transfer. *)
Lemma gains_top_up held n payer to x :
  gains (if 0 <? x then Payer.transfer held program_id n payer to x else ret tt).
Proof. destruct (0 <? x) eqn:E; [apply gains_payer_transfer; lia|apply gains_reads, reads_ret]. Qed.
Lemma gains_create held n payer x o size seeds :
  gains (Payer.pay_and_create_account held program_id n payer x o size seeds).
Proof.
  unfold Payer.pay_and_create_account. apply gains_lift. intros rent _.
  apply gains_bind; [apply gains_gets|]. intros l. cbv zeta. apply gains_bind; [apply gains_top_up|]. intros _.
  apply gains_bind; [apply gains_allocate|]. intros _. apply gains_assign.
Qed.
Lemma gains_pay_and_realloc held n payer x size : gains (Payer.pay_and_realloc held program_id n payer x size).
Proof.
  unfold Payer.pay_and_realloc. apply gains_lift. intros rent _.
  apply gains_bind; [apply gains_gets|]. intros l. cbv zeta. apply gains_bind; [apply gains_top_up|]. intros _.
  apply gains_realloc.
Qed.
End gains.

Create HintDb gain.
#[export] Hint Resolve gains_on_account gains_update_state gains_set_discriminator gains_borrow gains_try_borrow
  gains_realloc gains_load_and_check_is_closing gains_allocate gains_assign gains_create gains_pay_and_realloc
  gains_top_up gains_gets gains_throw : gain.

(** [gaining]: the rules, the tests and the matches of the code; what is left are
    the transfers. *)
Ltac gaining :=
  repeat first
    [ progress intros
    | solve [eauto 2 with gain nocore]
    | solve [apply gains_reads; eauto 2 with frame nocore]
    | solve [eapply gains_payer_transfer; [exact _|eassumption|eapply minimum_balance_nonneg; [eassumption|lia]]]
    | apply gains_lift | apply gains_bind
    | progress cbv beta zeta iota
    | match goal with
      | |- gains _ (match ?x with _ => _ end) => destruct x
      | |- gains _ (if ?b then _ else _) => destruct b
      end ].

Section instructions.
Context {D : Type} {data : AccountData D} {bytes : AccountBytes D} {runtime : Runtime}
  {ext : Externals D} {system : System D} {P : PreciseNumber}.
Context {s_config : Stored D Config.t} {s_registry : Stored D VaultRegistry.t}
  {s_table : Stored D WeightTable.t} {s_epoch : Stored D EpochSnapshot.t}
  {s_operator : Stored D OperatorSnapshot.t} {s_box : Stored D BallotBox.t}
  {s_result : Stored D ConsensusResult.t} {s_router : Stored D NCNRewardRouter.t}
  {s_op_router : Stored D OperatorVaultRewardRouter.t} {s_marker : Stored D EpochMarker.t}
  {s_state : Stored D EpochState.t} {l_system : SystemLaws D} {l_ext : ExternalsLaws D}.
Context {l_router : StoredLaws D NCNRewardRouter.t} {l_op_router : StoredLaws D OperatorVaultRewardRouter.t}
  {l_state : StoredLaws D EpochState.t}.
Context (k : Pubkey) (program_id : Pubkey) (not_payer : forall n, k <> address_of program_id (AAccountPayer n)).

Lemma gains_set_weights table l : gains k (set_weights table l).
Proof.
  induction l as [|m l IH]; cbn [set_weights]; [apply gains_reads, reads_ret|].
  destruct (_ =? 0); [done|]. apply gains_lift. intros c _.
  apply gains_bind; [apply gains_on_account|done].
Qed.
#[local] Hint Resolve gains_set_weights : gain.

(** ** Closing

    Emptying a receiver leaves it at least nothing, and the other accounts what
    they had. *)
Definition stays_nonneg {E A} (m : M (Store D) E A) : Prop :=
  forall s a s', m s = (Ok a, s') -> 0 <= Account.lamports (s k) -> 0 <= Account.lamports (s' k).

Lemma nonneg_bind {E A B} (m : M (Store D) E A) (f : A -> M (Store D) E B) :
  stays_nonneg m -> (forall a, stays_nonneg (f a)) -> stays_nonneg (mbind m f).
Proof. intros Hm Hf s b s' (a & s1 & H1 & H2)%mbind_ok Hs. eapply Hf, Hm; eassumption. Qed.
Lemma nonneg_gains {E A} (m : M (Store D) E A) : gains k m -> stays_nonneg m.
Proof. intros Hm s a s' H%Hm Hs. lia. Qed.
Lemma nonneg_transfer held from to n seeds : 0 <= n -> stays_nonneg (invoke_transfer held from to n seeds).
Proof.
  intros Hn s [] s' [Hl ->]%transfer_moves Hs. unfold moved, update.
  destruct (k =? to) eqn:E1; [apply Z.eqb_eq in E1 as <-|];
    (destruct (k =? from) eqn:E2; [apply Z.eqb_eq in E2 as <-|]); cbn; lia.
Qed.

Lemma gains_ncn_transfer held n e r to x : k <> address_of program_id (ANCNRewardReceiver n e) -> 0 <= x ->
  gains k (NcnReceiver.transfer held program_id n e r to x).
Proof using l_system.
  intros Hk Hx. unfold NcnReceiver.transfer, NCNRewardReceiver.find_program_address, address_of in *.
  cbn [seeds_of] in Hk. destruct (find_pda (NCNRewardReceiver.seeds n e) program_id) as [pda b].
  destruct (negb _); [done|]. by eapply gains_transfer.
Qed.
Lemma gains_operator_transfer held o n e r to x :
  k <> address_of program_id (AOperatorVaultRewardReceiver o n e) -> 0 <= x ->
  gains k (OperatorReceiver.transfer held program_id o n e r to x).
Proof using l_system.
  intros Hk Hx. unfold OperatorReceiver.transfer, OperatorVaultRewardReceiver.find_program_address, address_of in *.
  cbn [seeds_of] in Hk. destruct (find_pda (OperatorVaultRewardReceiver.seeds o n e) program_id) as [pda b].
  destruct (negb _); [done|]. by eapply gains_transfer.
Qed.
Lemma nonneg_ncn_transfer held n e r to x : 0 <= x -> stays_nonneg (NcnReceiver.transfer held program_id n e r to x).
Proof using l_system.
  intros Hx. unfold NcnReceiver.transfer. destruct (NCNRewardReceiver.find_program_address _ _ _) as [[pda b] l].
  destruct (negb _); [done|]. by apply nonneg_transfer.
Qed.
Lemma nonneg_operator_transfer held o n e r to x : 0 <= x ->
  stays_nonneg (OperatorReceiver.transfer held program_id o n e r to x).
Proof using l_system.
  intros Hx. unfold OperatorReceiver.transfer.
  destruct (OperatorVaultRewardReceiver.find_program_address _ _ _ _) as [[pda b] l].
  destruct (negb _); [done|]. by apply nonneg_transfer.
Qed.

Lemma gains_ncn_close held n e r w p : k <> address_of program_id (ANCNRewardReceiver n e) ->
  gains k (NcnReceiver.close held program_id n e r w p).
Proof using l_system l_ext.
  intros Hk. unfold NcnReceiver.close. apply gains_lift. intros rent Hr.
  apply gains_bind; [apply gains_gets|]. intros x. cbv zeta. apply gains_bind.
  - destruct (0 <? _) eqn:E; [apply gains_ncn_transfer; [done|lia]|apply gains_reads, reads_ret].
  - intros _. apply gains_ncn_transfer; [done|]. by eapply minimum_balance_nonneg.
Qed.
Lemma gains_operator_close held o n e r w p : k <> address_of program_id (AOperatorVaultRewardReceiver o n e) ->
  gains k (OperatorReceiver.close held program_id o n e r w p).
Proof using l_system l_ext.
  intros Hk. unfold OperatorReceiver.close. apply gains_lift. intros rent Hr.
  apply gains_bind; [apply gains_gets|]. intros x. cbv zeta. apply gains_bind.
  - destruct (0 <? _) eqn:E; [apply gains_operator_transfer; [done|lia]|apply gains_reads, reads_ret].
  - intros _. apply gains_operator_transfer; [done|]. by eapply minimum_balance_nonneg.
Qed.
Lemma nonneg_ncn_close held n e r w p : stays_nonneg (NcnReceiver.close held program_id n e r w p).
Proof using l_system l_ext.
  intros s a s' H. unfold NcnReceiver.close in H. apply inv_lift in H as (rent & Hr & H). revert H.
  apply nonneg_bind; [apply nonneg_gains, gains_gets|]. intros x. cbv zeta. apply nonneg_bind.
  - destruct (0 <? _) eqn:E; [apply nonneg_ncn_transfer; lia|apply nonneg_gains, gains_reads, reads_ret].
  - intros _. apply nonneg_ncn_transfer. by eapply minimum_balance_nonneg.
Qed.
Lemma nonneg_operator_close held o n e r w p : stays_nonneg (OperatorReceiver.close held program_id o n e r w p).
Proof using l_system l_ext.
  intros s a s' H. unfold OperatorReceiver.close in H. apply inv_lift in H as (rent & Hr & H). revert H.
  apply nonneg_bind; [apply nonneg_gains, gains_gets|]. intros x. cbv zeta. apply nonneg_bind.
  - destruct (0 <? _) eqn:E; [apply nonneg_operator_transfer; lia|apply nonneg_gains, gains_reads, reads_ret].
  - intros _. apply nonneg_operator_transfer. by eapply minimum_balance_nonneg.
Qed.

(** The receiver of a router. *)
Definition is_router (a : address) : bool :=
  match a with ANCNRewardRouter _ _ | AOperatorVaultRewardRouter _ _ _ => true | _ => false end.
Definition receiver_of (a : address) : address :=
  match a with
  | ANCNRewardRouter n e => ANCNRewardReceiver n e
  | AOperatorVaultRewardRouter o n e => AOperatorVaultRewardReceiver o n e
  | _ => a
  end.

(** A run leaves [k] what it had, or [k] is the receiver of a router that [P]
    holds of. *)
Definition drained (Q : address -> Prop) (s s' : Store D) : Prop :=
  0 <= Account.lamports (s' k)
  /\ (Account.lamports (s k) <= Account.lamports (s' k)
      \/ exists b, is_router b = true /\ k = address_of program_id (receiver_of b) /\ Q b).

Lemma drained_gains {E A} (m : M (Store D) E A) Q s a s' : gains k m -> m s = (Ok a, s') ->
  0 <= Account.lamports (s k) -> drained Q s s'.
Proof. intros Hm H%Hm Hs. split; [lia|by left]. Qed.

Lemma mark_closed_drains a cfg d e s s' u :
  mark_closed program_id a cfg d e s = (Ok u, s') -> 0 <= Account.lamports (s k) ->
  drained (fun b => key (account_to_close a) = address_of program_id b) s s'.
Proof.
  intros H Hs. unfold mark_closed in H.
  repeat match type of H with
  | (if ?b then _ else _) _ = _ => destruct b
  end; try discriminate H.
  - eapply drained_gains; [|exact H|exact Hs]. unfold mark_epoch_state. gaining.
  - eapply drained_gains; [|exact H|exact Hs]. gaining.
  - eapply drained_gains; [|exact H|exact Hs]. gaining.
  - eapply drained_gains; [|exact H|exact Hs]. unfold mark_operator_snapshot. gaining.
  - eapply drained_gains; [|exact H|exact Hs]. gaining.
  - unfold mark_ncn_reward_router in H. hinv H. set (b := ANCNRewardRouter (key (CloseHandlers.ncn a)) e).
    destruct (optional_accounts a) as [|w [|r [|]]]; try discriminate H.
    destruct (negb _); [discriminate H|]. hinv H. split.
    + revert Hs. eapply nonneg_bind; [apply nonneg_ncn_close| |exact H]. intros ?. apply nonneg_gains, gains_update_state.
    + destruct (decide (k = address_of program_id (receiver_of b))) as [Hk|Hk].
      * right. exists b. split; [done|]. split; [done|]. located.
      * left. revert H. apply gains_bind; [by apply gains_ncn_close|intros ?; apply gains_update_state].
  - unfold mark_operator_vault_reward_router in H. hinv H. unfold OperatorVaultRewardRouterAccount.load_to_close in *.
    destruct (try_from_slice _) as [r0|err|] eqn:Hr0; [|done..]. cbn [rbind] in *.
    set (b := AOperatorVaultRewardRouter (OperatorVaultRewardRouter.operator r0) (key (CloseHandlers.ncn a)) e).
    destruct (optional_accounts a) as [|w [|r [|]]]; try discriminate H.
    destruct (negb _); [discriminate H|]. hinv H. split.
    + revert Hs. eapply nonneg_bind; [apply nonneg_operator_close| |exact H]. intros ?.
      apply nonneg_gains, gains_on_account.
    + destruct (decide (k = address_of program_id (receiver_of b))) as [Hk|Hk].
      * right. exists b. split; [done|]. split; [done|]. located.
      * left. revert H. apply gains_bind; [|intros ?; apply gains_on_account]. apply gains_operator_close.
        assert (x = r0) as -> by congruence. exact Hk.
Qed.

Lemma close_account_others payer x (s s' : Store D) u : k <> payer -> k <> x ->
  Payer.close_account program_id payer x s = (Ok u, s') ->
  Account.lamports (s' k) = Account.lamports (s k) /\ Account.owner (s' x) = system_program_id.
Proof.
  intros Hp Hx H. unfold Payer.close_account in H. hinv H.
  apply mbind_ok in H as (u1 & s1 & H1 & H). injection H1 as _ <-.
  apply mbind_ok in H as (u2 & s2 & H2 & H). injection H2 as _ <-.
  apply mbind_ok in H as (u3 & s3 & H3 & H). injection H3 as _ <-.
  unfold realloc in H. hinv H. injection H as _ <-. rewrite !update_same, !update_other by done. done.
Qed.

(** An account of somebody else that is not the payer loses lamports only when it
    is the receiver of the router that is closed. *)
Lemma close_drains accounts e s s' : Account.owner (s k) <> program_id ->
  process_close_epoch_account program_id accounts e s = (Ok tt, s') -> 0 <= Account.lamports (s k) ->
  drained (fun b => Account.owner (s' (address_of program_id b)) = system_program_id) s s'.
Proof.
  intros Ho H Hs. unfold process_close_epoch_account in H.
  destruct (split_close_accounts accounts) as [a|]; [|discriminate H].
  hcall H. rename H0 into Hl. unfold load_close_accounts in Hl. hinv Hl. hinv H.
  assert (k <> key (CloseHandlers.account_payer a)) as Np.
  { assert (key (CloseHandlers.account_payer a) = address_of program_id (AAccountPayer (key (CloseHandlers.ncn a)))) as ->
      by located. apply not_payer. }
  assert (k <> key (CloseHandlers.epoch_state a)) as Nst.
  { intros ->. match goal with Hst : EpochStateAccount.load _ _ _ _ _ = Ok tt |- _ =>
      apply check_load_ok in Hst as (Hst & _); cbn in Hst end. congruence. }
  apply mbind_ok in H as (u1 & s1 & Hc & H). pose proof (gains_update_state k _ _ _ _ _ Hc) as G1.
  assert (k ∉ [key (CloseHandlers.epoch_state a)]) as Hn by (apply not_elem_of_cons; split; [done|apply not_elem_of_nil]).
  destruct (touches_update_state [key (CloseHandlers.epoch_state a)] _ _ ltac:(in_list) _ _ _ Hc _ Hn) as [O1 _].
  hinv H. apply mbind_ok in H as (u2 & s2 & Hm & H).
  destruct (touches_mark_closed _ _ _ _ _ _ _ _ Hm _ Hn) as [O2 _].
  destruct (mark_closed_drains _ _ _ _ _ _ _ Hm ltac:(lia)) as [G2 L2].
  apply mbind_ok in H as (u3 & s3 & Hk & H). pose proof (close_account_owner _ _ _ _ _ _ H) as Oc.
  assert (Account.lamports (s2 k) <= Account.lamports (s3 k) /\ k <> key (account_to_close a)) as [G3 Nc].
  { destruct (_ =? _) eqn:E.
    - apply Z.eqb_eq in E as ->. split; [|done].
      assert (gains k (create_epoch_marker program_id a e)) as G by (unfold create_epoch_marker; gaining). by eapply G.
    - injection Hk as _ <-. split; [lia|]. intros ->. congruence. }
  destruct (close_account_others _ _ _ _ _ Np Nc H) as [L4 O4].
  split; [lia|]. destruct L2 as [L2|(b & Hb & Hkb & Hx)]; [left; lia|right]. exists b. by rewrite <-Hx.
Qed.

(** The payouts and closing are the instructions that take lamports from other
    accounts than the payer. *)
Definition pays_or_closes (ix : NCNProgramInstruction.t) : bool :=
  match ix with
  | NCNProgramInstruction.DistributeProtocolRewards _ | NCNProgramInstruction.DistributeNCNRewards _
  | NCNProgramInstruction.DistributeOperatorVaultRewardRoute _ | NCNProgramInstruction.DistributeOperatorRewards _
  | NCNProgramInstruction.DistributeVaultRewards _ | NCNProgramInstruction.CloseEpochAccount _ => true
  | _ => false
  end.

Lemma handler_gains ix accounts : pays_or_closes ix = false ->
  gains k (process_instruction program_id accounts (Ok ix)).
Proof.
  intros Hix. unfold process_instruction. destruct (negb _); [done|].
  apply gains_lift. intros ix' [= <-]. destruct ix; try discriminate Hix.
  - unfold process_admin_initialize_config. gaining.
  - unfold process_initialize_vault_registry. gaining.
  - unfold process_realloc_vault_registry. gaining.
  - unfold process_register_vault. gaining.
  - unfold process_initialize_epoch_state. gaining.
  - unfold process_initialize_weight_table. gaining.
  - unfold process_realloc_weight_table. gaining.
  - unfold process_set_epoch_weights. gaining.
  - unfold process_initialize_epoch_snapshot. gaining.
  - unfold process_initialize_operator_snapshot, take_operator_snapshot, ncn_epoch_length_of, operator_is_active.
    gaining.
  - unfold process_snapshot_vault_operator_delegation, load_delegation_accounts, load_snapshot_accounts,
      delegation_is_active, delegation_stake_weight, record_delegation, ncn_epoch_length_of. gaining.
  - unfold process_initialize_ballot_box. gaining.
  - unfold process_realloc_ballot_box. gaining.
  - unfold process_cast_vote, load_vote_accounts, publish_vote. gaining.
  - unfold process_admin_set_parameters. gaining.
  - unfold process_admin_set_new_admin. gaining.
  - unfold process_admin_set_tie_breaker. gaining.
  - unfold process_admin_set_weight. gaining.
  - unfold process_admin_register_st_mint. gaining.
  - unfold process_admin_set_st_mint. gaining.
  - unfold process_initialize_ncn_reward_router. gaining.
  - unfold process_realloc_ncn_reward_router. gaining.
  - unfold process_route_ncn_rewards. gaining.
  - unfold process_initialize_operator_vault_reward_router. gaining.
  - unfold process_route_operator_vault_rewards. gaining.
Qed.

(** ** Payouts *)

(** A payout from the router at [b], with the struct and discriminator of its type. *)
Inductive paid_from {R} {st : Stored D R} {rt : Router R} (still : R -> bool) (d : u8) (s s' : Store D) (b : address)
    : Prop :=
| paid_intro epoch_state router receiver to (owed : M R NCNProgramError.t u64) n e :
    pays_out owed -> key epoch_state = address_of program_id (AEpochState n e) ->
    key router = address_of program_id b -> key receiver = address_of program_id (receiver_of b) ->
    Account.owner (s (key router)) = program_id -> data_byte0 (Account.data (s (key router))) = d ->
    pays still owed epoch_state router receiver to s s' -> paid_from still d s s' b.
Inductive paid_out (s s' : Store D) : address -> Prop :=
| paid_ncn n e :
    paid_from NCNRewardRouter.still_routing NCNRewardRouterAccount.DISCRIMINATOR s s' (ANCNRewardRouter n e) ->
    paid_out s s' (ANCNRewardRouter n e)
| paid_operator o n e :
    paid_from OperatorVaultRewardRouter.still_routing OperatorVaultRewardRouterAccount.DISCRIMINATOR s s'
      (AOperatorVaultRewardRouter o n e) ->
    paid_out s s' (AOperatorVaultRewardRouter o n e).

Lemma ncn_paid s s' e epoch_state ncn router receiver to owed : pays_out owed ->
  ncn_pays program_id e s s' epoch_state ncn router receiver owed to -> exists b, paid_out s s' b.
Proof.
  intros Ho (H1 & H2 & H3 & H4). exists (ANCNRewardRouter (key ncn) e). apply paid_ncn.
  assert (key router = address_of program_id (ANCNRewardRouter (key ncn) e)) as Hk by located.
  apply check_load_ok in H2 as (H5 & _ & H2 & _). destruct (H2 _ eq_refl) as [_ H6]. by eapply paid_intro.
Qed.
Lemma operator_paid s s' e epoch_state ncn operator router receiver to owed : pays_out owed ->
  operator_pays program_id e s s' epoch_state ncn operator router receiver owed to -> exists b, paid_out s s' b.
Proof.
  intros Ho (H1 & H2 & H3 & H4). exists (AOperatorVaultRewardRouter (key operator) (key ncn) e). apply paid_operator.
  assert (key router = address_of program_id (AOperatorVaultRewardRouter (key operator) (key ncn) e)) as Hk by located.
  apply check_load_ok in H2 as (H5 & _ & H2 & _). destruct (H2 _ eq_refl) as [_ H6]. by eapply paid_intro.
Qed.

Lemma ncn_fee_paid epoch_state ncn_config ncn router receiver wallet system_program e s s' :
  process_distribute_ncn_rewards program_id
    [epoch_state; ncn_config; ncn; router; receiver; wallet; system_program] e s = (Ok tt, s') -> exists b, paid_out s s' b.
Proof. intros [_ H]%ncn_payout. eapply ncn_paid; [apply NcnBacking.ncn_fee_pays|exact H]. Qed.
Lemma protocol_fee_paid epoch_state ncn_config ncn router receiver wallet system_program e s s' :
  process_distribute_protocol_rewards program_id
    [epoch_state; ncn_config; ncn; router; receiver; wallet; system_program] e s = (Ok tt, s') -> exists b, paid_out s s' b.
Proof. intros [_ H]%protocol_payout. eapply ncn_paid; [apply NcnBacking.protocol_fee_pays|exact H]. Qed.
Lemma operator_route_paid epoch_state ncn_config ncn operator router receiver op_router op_receiver system_program e s s' :
  process_distribute_operator_vault_reward_route program_id
    [epoch_state; ncn_config; ncn; operator; router; receiver; op_router; op_receiver; system_program] e s
    = (Ok tt, s') -> exists b, paid_out s s' b.
Proof. intros [_ H]%operator_route_payout. eapply ncn_paid; [apply NcnBacking.operator_route_pays|exact H]. Qed.
Lemma operator_fee_paid epoch_state ncn_config ncn operator operator_snapshot op_router op_receiver system_program e s s' :
  process_distribute_operator_rewards program_id
    [epoch_state; ncn_config; ncn; operator; operator_snapshot; op_router; op_receiver; system_program] e s
    = (Ok tt, s') -> exists b, paid_out s s' b.
Proof. intros H%operator_payout. eapply operator_paid; [apply OperatorBacking.operator_fee_pays|exact H]. Qed.
Lemma vault_route_paid epoch_state ncn_config ncn operator vault operator_snapshot op_router op_receiver system_program
    e s s' :
  process_distribute_vault_rewards program_id
    [epoch_state; ncn_config; ncn; operator; vault; operator_snapshot; op_router; op_receiver; system_program] e s
    = (Ok tt, s') -> exists b, paid_out s s' b.
Proof. intros H%vault_payout. eapply operator_paid; [apply OperatorBacking.vault_route_pays|exact H]. Qed.

(** What an instruction can do to a balance. *)
Lemma lamports_move ix accounts s s' : process_instruction program_id accounts (Ok ix) s = (Ok tt, s') ->
  pays_or_closes ix = false /\ Account.lamports (s k) <= Account.lamports (s' k)
  \/ (exists b, paid_out s s' b) \/ exists e, ix = NCNProgramInstruction.CloseEpochAccount e
       /\ process_close_epoch_account program_id accounts e s = (Ok tt, s').
Proof.
  intros H. destruct (pays_or_closes ix) eqn:Hix; [right|left; split; [done|by eapply handler_gains]].
  unfold process_instruction in H. destruct (negb _); [discriminate H|]. unfold mbind at 1, lift at 1 in H.
  destruct ix; try discriminate Hix; cbv beta iota in H; [right; by exists epoch|left..].
  - taking accounts protocol_fee_paid H.
  - taking accounts ncn_fee_paid H.
  - taking accounts operator_route_paid H.
  - taking accounts operator_fee_paid H.
  - taking accounts vault_route_paid H.
Qed.

(** Of a payout only the receiver of the router loses. *)
Lemma only_moved_gains from to n (s s' : Store D) : only_moved from to n s s' -> k <> from ->
  Account.lamports (s k) <= Account.lamports (s' k).
Proof. intros H Hk. rewrite H. destruct (0 <? n) eqn:E; [apply moved_gains; [done|lia]|done]. Qed.

Lemma paid_router s s' b : paid_out s s' b -> is_router b = true.
Proof. by intros []. Qed.
Lemma paid_gains s s' b : paid_out s s' b -> k <> address_of program_id (receiver_of b) ->
  Account.lamports (s k) <= Account.lamports (s' k).
Proof.
  intros [? ? [? ? ? ? ? ? ? _ _ _ Hr _ _ (? & ? & n & _ & _ & _ & _ & _ & Hm & _)]
         |? ? ? [? ? ? ? ? ? ? _ _ _ Hr _ _ (? & ? & n & _ & _ & _ & _ & _ & Hm & _)]] Hk;
    (eapply only_moved_gains; [exact Hm|by rewrite Hr]).
Qed.

(** C13: who can lose lamports. Whatever instruction runs through, an account
    that loses lamports is the payer of an NCN, the reward receiver of a router
    (by a payout, or when its router is closed), or an account of the program
    that is closed. *)
Theorem others_lose_no_lamports ix accounts s s' :
  process_instruction program_id accounts (Ok ix) s = (Ok tt, s') -> 0 <= Account.lamports (s k) ->
  (forall b, is_router b = true -> pays_or_closes ix = true -> k <> address_of program_id (receiver_of b)) ->
  (forall e, ix = NCNProgramInstruction.CloseEpochAccount e -> Account.owner (s k) <> program_id) ->
  Account.lamports (s k) <= Account.lamports (s' k).
Proof.
  intros H Hs Hr Hc. destruct (pays_or_closes ix) eqn:Hix; [|by eapply handler_gains].
  destruct (lamports_move _ _ _ _ H) as [[_ Hl]|[[b Hb]|(e & He & Hrun)]]; [done| |].
  - eapply paid_gains; [exact Hb|]. apply Hr; [by eapply paid_router|done].
  - destruct (close_drains _ _ _ _ (Hc _ He) Hrun Hs) as [_ [Hl|(b & Hb & Hk & _)]]; [done|].
    by destruct (Hr b Hb eq_refl).
Qed.
End instructions.
