(* ===== verification/Solvency.v ===== *)
(** Solvency: on the ledger, the reward receiver of a router always holds what
    the router owes, whatever transactions run. *)
From stdpp Require Import relations.
From S2P Require Import Prelude Errors Precise Stake Registry Weights Fees Snapshots Voting EpochStates.
From S2P Require Import NcnRouter OperatorRouter Consensus Accounts Machine Lamports Frames VoteHandlers.
From S2P Require Import AdminHandlers SnapshotHandlers RewardHandlers CloseHandlers Program Authority.
From S2P Require Import Backing Chain Elections Payouts Gains.

Section solvency.
Context {D : Type} {data : AccountData D} {bytes : AccountBytes D} {runtime : Runtime}
  {at_clock : Clock -> Externals D} {system : System D} {P : PreciseNumber} {L : PreciseNumberLaws P}.
Context {s_config : Stored D Config.t} {s_registry : Stored D VaultRegistry.t}
  {s_table : Stored D WeightTable.t} {s_epoch : Stored D EpochSnapshot.t}
  {s_operator : Stored D OperatorSnapshot.t} {s_box : Stored D BallotBox.t}
  {s_result : Stored D ConsensusResult.t} {s_router : Stored D NCNRewardRouter.t}
  {s_op_router : Stored D OperatorVaultRewardRouter.t} {s_marker : Stored D EpochMarker.t}
  {s_state : Stored D EpochState.t}.
Context {l_system : SystemLaws D} {l_ext : forall c, ExternalsLaws D (ext := at_clock c)}
  {l_bytes : AccountBytesLaws D}
  {l_config : StoredLaws D Config.t} {l_box : StoredLaws D BallotBox.t}
  {l_result : StoredLaws D ConsensusResult.t} {l_state : StoredLaws D EpochState.t}
  {l_marker : StoredLaws D EpochMarker.t} {l_router : StoredLaws D NCNRewardRouter.t}
  {l_op_router : StoredLaws D OperatorVaultRewardRouter.t}.
Context (collision_free : forall l l', (find_pda l id).1 = (find_pda l' id).1 -> concat l = concat l').
Context (not_system : id <> system_program_id).

Abbreviation at_ a := (address_of (runtime := runtime) id a).

(** Transactions and what happens between them. Besides what [Chain.step] assumes
    of other programs: nobody else can sign for an address derived from this
    program's, so that a system account there is not taken and loses nothing. *)
Inductive fair_step : Store D -> Store D -> Prop :=
| fair_instruction clock accounts ix s s' :
    process_instruction (ext := at_clock clock) id accounts (Ok ix) s = (Ok tt, s') -> fair_step s s'
| fair_outside s s' :
    (forall k, Account.owner (s k) = id -> same_data (s' k) (s k)) ->
    (forall k, Account.owner (s k) <> id -> Account.owner (s' k) = id ->
       exists n, 0 <= n /\ Account.data (s' k) = zeros n) ->
    (forall a, Account.owner (s (at_ a)) = system_program_id ->
       Account.owner (s' (at_ a)) = system_program_id
       /\ Account.lamports (s (at_ a)) <= Account.lamports (s' (at_ a))) ->
    fair_step s s'.

(** ** A router and its receiver *)

(** Who names the same router names the same receiver, and the other way round. *)
Lemma same_router a b : is_router a = true -> is_router b = true ->
  at_ a = at_ b <-> at_ (receiver_of a) = at_ (receiver_of b).
Proof.
  intros Ha Hb. destruct a; try discriminate Ha; destruct b; try discriminate Hb; cbn [receiver_of]; split; intros H;
    try (apply collision_free, (f_equal (@List.length u8)) in H; rewrite !seeds_size_eq in H; discriminate H);
    apply collision_free in H; cbn -[to_bytes to_le_bytes List.app seed] in H; apply app_inv_head in H;
    repeat (apply app_inj_1 in H as [? H]; [|by rewrite ?to_bytes_length, ?to_le_bytes_length]);
    unfold address_of; cbn [seeds_of];
    unfold NCNRewardRouterAccount.seeds, NCNRewardReceiver.seeds, OperatorVaultRewardRouterAccount.seeds,
      OperatorVaultRewardReceiver.seeds; congruence.
Qed.

Lemma router_apart a b : is_router a = true -> is_router b = false -> seeds_size b <> 57%nat -> seeds_size b <> 99%nat ->
  at_ a <> at_ b.
Proof. intros Ha Hb H1 H2. apply (addresses_apart collision_free). destruct a; try discriminate Ha; cbn; congruence. Qed.

(** No instruction takes a receiver over. *)
Lemma receiver_stays a clock accounts ix s s' : is_router a = true ->
  process_instruction (ext := at_clock clock) id accounts (Ok ix) s = (Ok tt, s') ->
  Account.owner (s (at_ (receiver_of a))) = system_program_id ->
  Account.owner (s' (at_ (receiver_of a))) = system_program_id.
Proof.
  intros Ha H Hs. destruct a; try discriminate Ha; cbn [receiver_of] in *; destruct ix;
    try (edestruct untouched as [-> _]; [exact collision_free|exact H|no_permission|done|exact Hs]);
    unfold process_instruction in H; (destruct (negb _); [discriminate H|]);
    unfold mbind at 1, lift at 1 in H; cbv beta iota in H;
    (eapply closing_removes in H as [[-> _]|[H _]]; [exact Hs|exact H|exact collision_free|done]).
Qed.

Section life.
Context {R : Type} {st : Stored D R} {l_st : StoredLaws D R} {rt : Router R} (d : u8) (size : usize).

(** A router whose receiver holds [c] lamports. *)
Definition solvent (c : Z) (r : R) : Prop := amounts r /\ 0 <= slack r /\ transit r <= c.
Definition opened (c : Z) (x : Account.t D) : Prop :=
  Account.owner x = id /\ data_byte0 (Account.data x) = d /\ size <= data_len (Account.data x)
  /\ exists r, try_from_slice (Account.data x) = Ok r /\ solvent c r.
Definition blank (x : Account.t D) : Prop :=
  Account.owner x = id /\ exists n, 0 <= n /\ Account.data x = zeros n.

(** The receiver is a system account, and the router is not there, blank, or
    solvent. *)
Definition backed (c x : Account.t D) : Prop :=
  Account.owner c = system_program_id /\ 0 <= Account.lamports c
  /\ (Account.owner x <> id \/ blank x \/ opened (Account.lamports c) x).

Lemma opened_same c c' x x' : opened c x -> same_data x' x -> c <= c' -> opened c' x'.
Proof.
  intros (Ho & Hd & Hl & r & Hr & Ha & Hs & Ht) [Ho' Hd'] Hc. unfold opened. rewrite Ho', Hd'.
  split_and!; try done. exists r. split; [done|]. split_and!; [done..|lia].
Qed.

Lemma backed_same c c' x x' : backed c x -> same_data x' x -> Account.owner c' = Account.owner c ->
  Account.lamports c <= Account.lamports c' -> backed c' x'.
Proof.
  intros (Ho & Hl & Hx) Hs Hc Hl'. split; [congruence|]. split; [lia|]. pose proof Hs as [Hs1 Hs2].
  destruct Hx as [Hx|[Hx|Hx]]; [left; congruence|right; left|right; right].
  - unfold blank. by rewrite Hs1, Hs2.
  - by eapply opened_same.
Qed.

(** A method that keeps the rewards in transit, run on the router. *)
Lemma opened_moves {E A} {to : Into E} dd c k (m : M R E A) (s s' : Store D) u :
  moves 0 dd m -> 0 <= dd -> opened c (s k) -> on_account k m s = (Ok u, s') -> opened c (s' k).
Proof.
  intros Hm Hd (Ho & Hb & Hl & r & Hr & Ha & Hs & Ht) (r0 & r' & Hr0 & Hrun & ->)%on_account_ok.
  rewrite Hr in Hr0. injection Hr0 as <-. destruct (Hm _ _ _ Hrun Ha) as (Ha' & Ht' & Hs').
  unfold opened. destruct (write_keeps k k r' s) as (-> & _ & -> & ->). split_and!; try done.
  exists r'. split; [by eapply read_write|]. split_and!; [done|lia..].
Qed.

(** The rewards that arrived, when [c] lamports are there. *)
Lemma opened_incoming {E A} {to : Into E} c0 c rent k (m : M R E A) (s s' : Store D) u :
  (forall r b r', m r = (Ok b, r') -> amounts r -> amounts r' /\ slack r' = slack r /\ transit r' = c - rent) ->
  0 <= rent -> opened c0 (s k) -> on_account k m s = (Ok u, s') -> opened c (s' k).
Proof.
  intros Hm Hd (Ho & Hb & Hl & r & Hr & Ha & Hs & Ht) (r0 & r' & Hr0 & Hrun & ->)%on_account_ok.
  rewrite Hr in Hr0. injection Hr0 as <-. destruct (Hm _ _ _ Hrun Ha) as (Ha' & Hs' & Ht').
  unfold opened. destruct (write_keeps k k r' s) as (-> & _ & -> & ->). split_and!; try done.
  exists r'. split; [by eapply read_write|]. split_and!; [done|lia..].
Qed.

Lemma only_moved_loses from to n (s s' : Store D) k : 0 <= n -> only_moved from to n s s' ->
  Account.lamports (s k) - n <= Account.lamports (s' k).
Proof.
  intros Hn ->. destruct (0 <? n) eqn:E; [|lia]. unfold moved, update.
  destruct (k =? to) eqn:E1; [apply Z.eqb_eq in E1 as <-|];
    (destruct (k =? from) eqn:E2; [apply Z.eqb_eq in E2 as <-|]); cbn; lia.
Qed.

(** A payout. *)
Lemma backed_paid {still} (owed : M R NCNProgramError.t u64) epoch_state router from to (s s' : Store D) :
  d <> 0 -> Account.owner (s (key router)) = id -> pays_out owed -> pays still owed epoch_state router from to s s' ->
  data_byte0 (Account.data (s (key router))) = d ->
  Account.owner (s' (key from)) = Account.owner (s (key from)) ->
  backed (s (key from)) (s (key router)) -> backed (s' (key from)) (s' (key router)).
Proof.
  intros Hd0 Hown Ho (r & r' & n & Hr & _ & Hrun & Hr' & (Hk1 & Hk2 & Hk3) & Hm & _) Hd Hof (Hs & Hl & Hx).
  destruct Hx as [Hx|[(_ & j & _ & Hz)|(Hid & _ & Hlen & r0 & Hr0 & Ha & Hsl & Ht)]].
  - done.
  - exfalso. apply Hd0. by rewrite <-Hd, Hz, byte0_zeros.
  - unfold stored_at in Hr, Hr'. rewrite Hr in Hr0. injection Hr0 as <-.
    destruct (Ho _ _ _ Hrun Ha) as (Hn & Ha' & Ht' & Hsl'). pose proof (in_transit r' Ha' ltac:(lia)) as Hpos.
    pose proof (only_moved_loses _ _ _ _ _ (key from) Hn Hm) as Hl'.
    split; [congruence|]. split; [lia|]. right; right. split; [congruence|]. split; [congruence|]. split; [lia|].
    exists r'. split; [done|]. split_and!; [done|lia|lia].
Qed.

(** ** Any step *)
Context (a : address) (router : is_router a = true) (d_not_zero : d <> 0) (still : R -> bool).
Abbreviation receiver := (at_ (receiver_of a)).
Abbreviation holds s := (backed (s receiver) (s (at_ a))).

Lemma receiver_not_payer n : receiver <> at_ (AAccountPayer n).
Proof. destruct a; try discriminate router; by apply (addresses_apart collision_free). Qed.

(** What an instruction that takes nothing off the receiver does to the router. *)
Definition keeps_router (s s' : Store D) : Prop :=
  let ok (x : Account.t D) := Account.owner x <> id \/ blank x \/ opened (Account.lamports (s receiver)) x in
  0 <= Account.lamports (s receiver) -> ok (s (at_ a)) -> ok (s' (at_ a)).

Lemma keeps_same s s' : same_data (s' (at_ a)) (s (at_ a)) -> keeps_router s s'.
Proof.
  intros Hs. pose proof Hs as [H1 H2]. intros _ [Hx|[Hx|Hx]]; [left; congruence|right; left|right; right].
  - unfold blank. by rewrite H1, H2.
  - by eapply opened_same.
Qed.

Lemma opened_more c c' x : opened c x -> c <= c' -> opened c' x.
Proof. intros Hx Hc. by eapply opened_same. Qed.

Lemma holds_kept s s' : keeps_router s s' -> Account.owner (s' receiver) = system_program_id ->
  Account.lamports (s receiver) <= Account.lamports (s' receiver) -> holds s -> holds s'.
Proof.
  intros Hk Ho Hl (_ & Hs & Hx). split; [done|]. split; [lia|].
  destruct (Hk Hs Hx) as [|[|Hop]]; [by left|by right; left|right; right; by eapply opened_more].
Qed.

Lemma holds_closed clock accounts e s s' :
  process_close_epoch_account (ext := at_clock clock) id accounts e s = (Ok tt, s') ->
  Account.owner (s' receiver) = system_program_id -> holds s -> holds s'.
Proof.
  intros H Ho' Hh. pose proof Hh as (Ho & Hs & _).
  assert (Account.owner (s receiver) <> id) as Hno by (rewrite Ho; by apply not_eq_sym).
  destruct (close_drains (ext := at_clock clock) receiver id receiver_not_payer _ _ _ _ Hno H Hs)
    as [Hs' [Hl|(b & Hb & Hk & Hgone)]].
  - destruct (closing_removes collision_free _ _ _ _ _ a H) as [Hsame|[Hgone _]];
      [by destruct a; try discriminate router| |].
    + eapply holds_kept; [by apply keeps_same|done..].
    + split; [done|]. split; [done|]. left. rewrite Hgone. by apply not_eq_sym.
  - split; [done|]. split; [done|]. left. apply same_router in Hk; [|done..]. rewrite Hk, Hgone. by apply not_eq_sym.
Qed.

Lemma holds_paid s s' b : (at_ b = at_ a -> paid_from id still d s s' b) -> paid_out id s s' b ->
  Account.owner (s' receiver) = system_program_id -> holds s -> holds s'.
Proof.
  intros Hhere Hb Ho Hh. destruct (decide (at_ b = at_ a)) as [He|He].
  - destruct (Hhere He) as [es rt0 rc to owed n e Hpays _ Hrt Hrc Hown Hd Hp].
    assert (key rc = receiver) as Krc by (rewrite Hrc; apply (proj1 (same_router b a (paid_router _ _ _ _ Hb) router)), He).
    assert (key rt0 = at_ a) as Krt by congruence.
    rewrite <-Krc, <-Krt in *. pose proof Hh as (Hs & _).
    eapply backed_paid; [done|exact Hown|exact Hpays|exact Hp|done|congruence|exact Hh].
  - assert (receiver <> at_ (receiver_of b)) as Hne.
    { intros Hk%same_router; [by destruct He|done|by eapply paid_router]. }
    eapply holds_kept; [|done|by eapply paid_gains|exact Hh]. apply keeps_same.
    assert (forall n e, at_ a <> at_ (AEpochState n e)) as Hst by (intros; by apply router_apart).
    destruct Hb as [n e [es rt0 rc to owed n0 e0 _ Hes Hrt _ _ _ (_ & _ & _ & _ & _ & _ & _ & _ & _ & Hk)]
      |o n e [es rt0 rc to owed n0 e0 _ Hes Hrt _ _ _ (_ & _ & _ & _ & _ & _ & _ & _ & _ & Hk)]];
      (apply Hk; [rewrite Hrt; by apply not_eq_sym|by rewrite Hes]).
Qed.

Lemma step_holds s s' :
  (forall clock accounts ix, pays_or_closes ix = false ->
     process_instruction (ext := at_clock clock) id accounts (Ok ix) s = (Ok tt, s') -> keeps_router s s') ->
  (forall b, paid_out id s s' b -> at_ b = at_ a -> paid_from id still d s s' b) ->
  fair_step s s' -> holds s -> holds s'.
Proof.
  intros Hkeeps Hpaid Hstep. revert Hkeeps Hpaid.
  destruct Hstep as [clock accounts ix t t' H|t t' Hid Hnew Hsys]; intros Hkeeps Hpaid Hh; pose proof Hh as (Ho & _).
  - pose proof (receiver_stays _ _ _ _ _ _ router H Ho) as Ho'.
    destruct (lamports_move (ext := at_clock clock) receiver id receiver_not_payer _ _ _ _ H)
      as [[Hix Hl]|[[b Hb]|(e & -> & Hc)]].
    + eapply holds_kept; [by eapply Hkeeps|done..].
    + eapply holds_paid; [by apply Hpaid|exact Hb|done..].
    + by eapply holds_closed.
  - destruct (Hsys (receiver_of a) Ho) as [Ho' Hl]. eapply holds_kept; [|exact Ho'|exact Hl|exact Hh].
    destruct (decide (Account.owner (t (at_ a)) = id)) as [Hr|Hr]; [by apply keeps_same, Hid|].
    intros _ _. destruct (decide (Account.owner (t' (at_ a)) = id)) as [Hr'|Hr']; [right; left|by left].
    split; [done|by apply Hnew].
Qed.
End life.

(** An account that a fragment does not touch. *)
Lemma touched_apart {E A} x (m : M (Store D) E A) s u s' k : touches [x] m -> m s = (Ok u, s') -> x <> k ->
  same_data (s' k) (s k).
Proof. intros Hm H Hk. eapply Hm; [exact H|]. by intros ->%list_elem_of_singleton. Qed.
Lemma touched_apart_2 {E A} x y (m : M (Store D) E A) s u s' k : touches [x; y] m -> m s = (Ok u, s') ->
  x <> k -> y <> k -> same_data (s' k) (s k).
Proof. intros Hm H Hx Hy. eapply Hm; [exact H|]. intros [Hk|Hk]%elem_of_cons; [done|]. by apply list_elem_of_singleton in Hk. Qed.

(** A router that an instruction has loaded is opened, when it is in one of the
    three states. *)
Lemma loaded_opened {R} {st : Stored D R} {rt : Router R} d size c s m pda w : d <> 0 ->
  (Account.owner (s (key m)) <> id \/ blank (s (key m)) \/ opened (R := R) d size c (s (key m))) ->
  check_load id (info s m) pda (Some d) w = Ok tt -> opened (R := R) d size c (s (key m)).
Proof.
  intros Hd [Hx|[(_ & j & _ & Hz)|Hx]] (Ho & _ & Hb & _)%check_load_ok; [done| |done].
  destruct (Hb _ eq_refl) as [_ Hb']. cbn in Hb'. rewrite Hz, byte0_zeros in Hb'. by destruct Hd.
Qed.

(** ** The NCN's router *)
Section ncn_router.
Context (n : Pubkey) (e : u64).
Abbreviation router := (ANCNRewardRouter n e).
Abbreviation keeps := (keeps_router (R := NCNRewardRouter.t) NCNRewardRouterAccount.DISCRIMINATOR Size.NCNRewardRouter router).

Lemma initialize_router_keeps clock accounts e' s s' :
  process_initialize_ncn_reward_router (ext := at_clock clock) id accounts e' s = (Ok tt, s') -> keeps s s'.
Proof.
  intros H. unfold process_initialize_ncn_reward_router in H.
  do 7 (destruct accounts as [|? accounts]; [discriminate H|]). destruct accounts; [|discriminate H]. hinv H.
  destruct (decide (key m2 = at_ router)) as [Hk|Hk].
  - apply mbind_ok in H as (u1 & s1 & Hc & H). apply create_ok in Hc as (_ & _ & Ho & Hd). hinv H.
    assert (same_data (s' (key m2)) (s1 (key m2))) as [Ho' Hd'].
    { eapply (touches_payer_transfer []); [exact H|apply not_elem_of_nil]. }
    intros _ _. right; left. rewrite <-Hk. split; [congruence|]. eexists. split; [|by rewrite Hd', Hd]. done.
  - apply keeps_same. match type of H with ?m _ = _ => assert (touches [key m2] m) as T by touching end.
    by eapply touched_apart; [exact T|exact H|].
Qed.

Lemma realloc_router_keeps clock accounts e' s s' :
  process_realloc_ncn_reward_router (ext := at_clock clock) id accounts e' s = (Ok tt, s') -> keeps s s'.
Proof.
  intros H. unfold process_realloc_ncn_reward_router in H.
  do 6 (destruct accounts as [|? accounts]; [discriminate H|]). destruct accounts; [|discriminate H]. hinv H.
  assert (key m <> at_ router) as Kst.
  { assert (key m = at_ (AEpochState (key m2) e')) as -> by located. by apply (addresses_apart collision_free). }
  destruct (decide (key m1 = at_ router)) as [Hk|Hk].
  2: { apply keeps_same. match type of H with ?run _ = _ => assert (touches [key m1; key m] run) as T by touching end.
       by eapply touched_apart_2; [exact T|exact H|..]. }
  apply mbind_ok in H as (u1 & s1 & Hgrow & H). hinv H. apply grown in Hgrow as (Ho1 & Hfull & Hz).
  intros Hpos Hok. rewrite <-Hk in *. destruct (_ && _) eqn:Hinit.
  - apply andb_true_iff in Hinit as [Hlen%Z.leb_le _].
    apply mbind_ok in H as (u2 & s2 & Hset & H). hinv H. apply mbind_ok in H as (u3 & s3 & Hi & H). hinv H.
    destruct (struct_initialized _ _ _ _ _ _ _ _ Hset Hi) as (Ho3 & Hd3 & Hl3 & t & Hr3).
    assert (same_data (s' (key m1)) (s3 (key m1))) as Hsame.
    { by eapply touched_apart; [eapply (touches_update_state [key m]); in_list|exact H|]. }
    destruct (decide (Account.owner (s (key m1)) = id)) as [Hid|Hid]; [right; right|left; destruct Hsame; congruence].
    eapply opened_same; [|exact Hsame|done]. split; [congruence|]. split; [exact Hd3|]. split; [lia|].
    eexists. split; [exact Hr3|].
    edestruct NcnBacking.initialized_owes_nothing as (Ha & Hs & Ht).
    split; [exact Ha|]. rewrite Hs, Ht. done.
  - injection H as <-. destruct Hok as [Hx|[(Hid & j & Hj & Hx)|Hx]]; [left; congruence|right; left|right; right].
    + split; [congruence|]. eexists. split; [|exact (Hz j Hj Hx)]. by apply next_len_nonneg.
    + rewrite (Hfull); [exact Hx|]. apply Hx.
Qed.

Lemma route_router_keeps clock accounts m e' s s' :
  process_route_ncn_rewards (ext := at_clock clock) id accounts m e' s = (Ok tt, s') -> keeps s s'.
Proof.
  intros H. unfold process_route_ncn_rewards in H.
  destruct accounts as [|st [|cfg [|ncn [|es [|box [|rt [|rc [|]]]]]]]]; try discriminate H. hinv H.
  assert (key st <> at_ router) as Kst.
  { assert (key st = at_ (AEpochState (key ncn) e')) as -> by located. by apply (addresses_apart collision_free). }
  assert (key rt = at_ (ANCNRewardRouter (key ncn) e')) as Krt by located.
  assert (key rc = at_ (ANCNRewardReceiver (key ncn) e')) as Krc by located.
  destruct (decide (key rt = at_ router)) as [Hk|Hk].
  2: { apply keeps_same. match type of H with ?run _ = _ => assert (touches [key rt; key st] run) as T by touching end.
       by eapply touched_apart_2; [exact T|exact H|..]. }
  intros Hpos Hok.
  assert (key rc = at_ (ANCNRewardReceiver n e)) as Krc'.
  { rewrite Krc. apply (proj1 (same_router (ANCNRewardRouter (key ncn) e') router eq_refl eq_refl)). congruence. }
  cbn [receiver_of] in *. rewrite <-Hk, <-Krc' in *.
  assert (opened (R := NCNRewardRouter.t) NCNRewardRouterAccount.DISCRIMINATOR Size.NCNRewardRouter (Account.lamports (s (key rc))) (s (key rt)))
    as Hop by (eapply loaded_opened; [|exact Hok|eassumption]; done).
  right; right. apply mbind_ok in H as (u1 & s1 & Hin & H).
  assert (opened (R := NCNRewardRouter.t) NCNRewardRouterAccount.DISCRIMINATOR Size.NCNRewardRouter
    (Account.lamports (s (key rc))) (s1 (key rt))) as Hop1.
  { match type of Hin with (if ?b then _ else _) _ = _ => destruct b end; [|by injection Hin as _ <-].
    apply mbind_ok in Hin as (u2 & s2 & Hin & Hpool).
    eapply (opened_moves _ _ (E := NCNProgramError.t)); [by eapply NcnBacking.moves_route_pool|done| |exact Hpool].
    eapply (opened_incoming _ _ (E := NCNProgramError.t)); [| |exact Hop|exact Hin]; [intros ???; apply NcnBacking.incoming|].
    by eapply (minimum_balance_nonneg (ExternalsLaws := l_ext clock)). }
  apply mbind_ok in H as (u3 & s3 & Hroute & H).
  eapply (opened_moves _ _ (E := NCNProgramError.t)) in Hroute;
    [|by eapply NcnBacking.moves_route_operator_vault|done|exact Hop1].
  hinv H. eapply opened_same; [exact Hroute| |done].
  match type of H with ?run _ = _ => assert (touches [key st] run) as T by touching end.
  by eapply touched_apart; [exact T|exact H|].
Qed.

Lemma ncn_instruction_keeps clock accounts ix s s' : pays_or_closes ix = false ->
  process_instruction (ext := at_clock clock) id accounts (Ok ix) s = (Ok tt, s') -> keeps s s'.
Proof.
  intros Hix H. destruct ix; try discriminate Hix;
    try (apply keeps_same; eapply untouched; [exact collision_free|exact H|no_permission|done]);
    unfold process_instruction in H; (destruct (negb _); [discriminate H|]);
    unfold mbind at 1, lift at 1 in H; cbv beta iota in H.
  - by eapply initialize_router_keeps.
  - by eapply realloc_router_keeps.
  - by eapply route_router_keeps.
Qed.

Lemma ncn_paid_here s s' b : paid_out id s s' b -> at_ b = at_ router ->
  paid_from id NCNRewardRouter.still_routing NCNRewardRouterAccount.DISCRIMINATOR s s' b.
Proof.
  intros [n' e' H|o n' e' H] Hb; [exact H|exfalso]. revert Hb. by apply (addresses_apart collision_free).
Qed.
End ncn_router.

(** ** An operator's router *)
Section operator_router.
Context (o n : Pubkey) (e : u64).
Abbreviation router := (AOperatorVaultRewardRouter o n e).
Abbreviation disc := OperatorVaultRewardRouterAccount.DISCRIMINATOR.
Abbreviation keeps := (keeps_router (R := OperatorVaultRewardRouter.t) disc Size.OperatorVaultRewardRouter router).

Lemma initialize_operator_router_keeps clock accounts e' s s' :
  process_initialize_operator_vault_reward_router (ext := at_clock clock) id accounts e' s = (Ok tt, s') -> keeps s s'.
Proof.
  intros H. unfold process_initialize_operator_vault_reward_router in H.
  destruct accounts as [|mk [|st [|ncn [|op [|os [|rt [|rc [|payer [|sp [|]]]]]]]]]]; try discriminate H. hinv H.
  assert (key st <> at_ router) as Kst.
  { assert (key st = at_ (AEpochState (key ncn) e')) as -> by located. by apply (addresses_apart collision_free). }
  destruct (decide (key rt = at_ router)) as [Hk|Hk].
  2: { apply keeps_same. match type of H with ?run _ = _ => assert (touches [key rt; key st] run) as T by touching end.
       by eapply touched_apart_2; [exact T|exact H|..]. }
  intros Hpos _. rewrite <-Hk in *. right; right.
  apply mbind_ok in H as (u1 & s1 & Hc & H). apply create_ok in Hc as (_ & _ & Ho1 & Hd1).
  apply mbind_ok in H as (u2 & s2 & Hset & H). apply mbind_ok in H as (u3 & s3 & Hi & H).
  destruct (struct_initialized _ _ _ _ _ _ _ _ Hset Hi) as (Ho3 & Hd3 & Hl3 & t & Hr3).
  eapply (opened_same _ _ (Account.lamports (s (at_ (receiver_of router)))) _ (s3 (key rt))); [| |done].
  - split; [congruence|]. split; [exact Hd3|]. split; [rewrite Hl3, Hd1, len_zeros; done|].
    eexists. split; [exact Hr3|]. edestruct OperatorBacking.new_owes_nothing as (Ha & Hs & Ht).
    split; [exact Ha|]. rewrite Hs, Ht. done.
  - match type of H with ?run _ = _ => assert (touches [key st] run) as T by touching end.
    by eapply touched_apart; [exact T|exact H|].
Qed.

Lemma route_operator_router_keeps clock accounts m e' s s' :
  process_route_operator_vault_rewards (ext := at_clock clock) id accounts m e' s = (Ok tt, s') -> keeps s s'.
Proof.
  intros H. unfold process_route_operator_vault_rewards in H.
  destruct accounts as [|st [|ncn [|op [|os [|rt [|rc [|]]]]]]]; try discriminate H. hinv H.
  assert (key st <> at_ router) as Kst.
  { assert (key st = at_ (AEpochState (key ncn) e')) as -> by located. by apply (addresses_apart collision_free). }
  assert (key rt = at_ (AOperatorVaultRewardRouter (key op) (key ncn) e')) as Krt by located.
  assert (key rc = at_ (AOperatorVaultRewardReceiver (key op) (key ncn) e')) as Krc by located.
  destruct (decide (key rt = at_ router)) as [Hk|Hk].
  2: { apply keeps_same. match type of H with ?run _ = _ => assert (touches [key rt; key st] run) as T by touching end.
       by eapply touched_apart_2; [exact T|exact H|..]. }
  intros Hpos Hok.
  assert (key rc = at_ (AOperatorVaultRewardReceiver o n e)) as Krc'.
  { rewrite Krc. apply (proj1 (same_router (AOperatorVaultRewardRouter (key op) (key ncn) e') router eq_refl eq_refl)).
    congruence. }
  cbn [receiver_of] in *. rewrite <-Hk, <-Krc' in *.
  assert (opened (R := OperatorVaultRewardRouter.t) disc Size.OperatorVaultRewardRouter (Account.lamports (s (key rc)))
    (s (key rt))) as Hop by (eapply loaded_opened; [|exact Hok|eassumption]; done).
  right; right. apply mbind_ok in H as (u1 & s1 & Hin & H).
  assert (opened (R := OperatorVaultRewardRouter.t) disc Size.OperatorVaultRewardRouter (Account.lamports (s (key rc)))
    (s1 (key rt))) as Hop1.
  { match type of Hin with (if ?b then _ else _) _ = _ => destruct b end; [|by injection Hin as _ <-].
    apply mbind_ok in Hin as (u2 & s2 & Hin & Hpool).
    eapply (opened_moves _ _ (E := NCNProgramError.t)); [by eapply OperatorBacking.moves_route_operator|done| |exact Hpool].
    eapply (opened_incoming _ _ (E := NCNProgramError.t));
      [| |exact Hop|exact Hin]; [intros ???; apply OperatorBacking.operator_incoming|].
    by eapply (minimum_balance_nonneg (ExternalsLaws := l_ext clock)). }
  apply mbind_ok in H as (u3 & s3 & Hroute & H).
  eapply (opened_moves _ _ (E := NCNProgramError.t)) in Hroute;
    [|by eapply OperatorBacking.operator_moves_route_pool|done|exact Hop1].
  hinv H. eapply opened_same; [exact Hroute| |done].
  match type of H with ?run _ = _ => assert (touches [key st] run) as T by touching end.
  by eapply touched_apart; [exact T|exact H|].
Qed.

Lemma operator_instruction_keeps clock accounts ix s s' : pays_or_closes ix = false ->
  process_instruction (ext := at_clock clock) id accounts (Ok ix) s = (Ok tt, s') -> keeps s s'.
Proof.
  intros Hix H. destruct ix; try discriminate Hix;
    try (apply keeps_same; eapply untouched; [exact collision_free|exact H|no_permission|done]);
    unfold process_instruction in H; (destruct (negb _); [discriminate H|]);
    unfold mbind at 1, lift at 1 in H; cbv beta iota in H.
  - by eapply initialize_operator_router_keeps.
  - by eapply route_operator_router_keeps.
Qed.

Lemma operator_paid_here s s' b : paid_out id s s' b -> at_ b = at_ router ->
  paid_from id OperatorVaultRewardRouter.still_routing disc s s' b.
Proof.
  intros [n' e' H|o' n' e' H] Hb; [exfalso|exact H]. revert Hb. by apply (addresses_apart collision_free).
Qed.
End operator_router.

(** ** Any sequence of transactions *)

(** The address of a router before the router is created. *)
Definition fresh (s : Store D) (a : address) : Prop :=
  Account.owner (s (at_ a)) <> id /\ Account.owner (s (at_ (receiver_of a))) = system_program_id
  /\ 0 <= Account.lamports (s (at_ (receiver_of a))).
(** The router at an address. *)
Definition router_is {R} {st : Stored D R} (d : u8) (s : Store D) (a : address) (r : R) : Prop :=
  Account.owner (s (at_ a)) = id /\ data_byte0 (Account.data (s (at_ a))) = d
  /\ try_from_slice (Account.data (s (at_ a))) = Ok r.

Lemma solvent_life {R} {st : Stored D R} {l_st : StoredLaws D R} {rt : Router R} d size a (still : R -> bool)
    (s s' : Store D) (r : R) :
  is_router a = true -> d <> 0 ->
  (forall s s' clock accounts ix, pays_or_closes ix = false ->
     process_instruction (ext := at_clock clock) id accounts (Ok ix) s = (Ok tt, s') -> keeps_router (R := R) d size a s s') ->
  (forall s s' b, paid_out id s s' b -> at_ b = at_ a -> paid_from id still d s s' b) ->
  rtc fair_step s s' -> fresh s a -> router_is d s' a r ->
  solvent (Account.lamports (s' (at_ (receiver_of a)))) r.
Proof.
  intros Ha Hd Hkeeps Hpaid Hr (Hno & Hsys & Hpos) (Ho & Hb & Ht).
  assert (backed (R := R) d size (s (at_ (receiver_of a))) (s (at_ a))) as Hh by (split_and!; auto).
  clear Hno Hsys Hpos. induction Hr as [s|s s1 s2 H1 H2 IH].
  - destruct Hh as (_ & _ & [Hx|[(_ & j & _ & Hz)|(_ & _ & _ & r' & Hr' & Hs)]]); [done| |congruence].
    rewrite Hz, byte0_zeros in Hb. by destruct Hd.
  - apply IH; [done..|]. eapply step_holds; [exact Ha|exact Hd|eauto..].
Qed.

(** C4: the reward receivers are solvent. Take a ledger where neither the
    router of an epoch's NCN nor that of an operator is there yet, and any
    sequence of transactions. Then what a router owes its beneficiaries is never
    more than the rewards it has processed, nothing it owes is negative, a routing
    that was interrupted has rewards to go on with, and its receiver holds at
    least the rewards in transit: the pool and the processed rewards. *)
Theorem receivers_are_solvent s s' n e : rtc fair_step s s' ->
  (forall r : NCNRewardRouter.t, fresh s (ANCNRewardRouter n e) ->
     router_is NCNRewardRouterAccount.DISCRIMINATOR s' (ANCNRewardRouter n e) r ->
     NcnBacking.balances r
     /\ NCNRewardRouter.protocol_rewards r + NCNRewardRouter.ncn_rewards r + NCNRewardRouter.operator_vault_rewards r
        + sum_by OperatorVaultRewardRoute.rewards' (NCNRewardRouter.operator_vault_reward_routes r)
        <= NCNRewardRouter.rewards_processed r
     /\ NCNRewardRouter.reward_pool r + NCNRewardRouter.rewards_processed r
        <= Account.lamports (s' (at_ (ANCNRewardReceiver n e))))
  /\ (forall o (r : OperatorVaultRewardRouter.t), fresh s (AOperatorVaultRewardRouter o n e) ->
     router_is OperatorVaultRewardRouterAccount.DISCRIMINATOR s' (AOperatorVaultRewardRouter o n e) r ->
     OperatorBacking.balances r
     /\ OperatorVaultRewardRouter.operator_rewards r
        + sum_by VaultRewardRoute.rewards (OperatorVaultRewardRouter.vault_reward_routes r)
        <= OperatorVaultRewardRouter.rewards_processed r
     /\ OperatorVaultRewardRouter.reward_pool r + OperatorVaultRewardRouter.rewards_processed r
        <= Account.lamports (s' (at_ (AOperatorVaultRewardReceiver o n e)))).
Proof.
  intros Hr. split.
  - intros r Hf Hs.
    destruct (solvent_life (R := NCNRewardRouter.t) NCNRewardRouterAccount.DISCRIMINATOR Size.NCNRewardRouter (ANCNRewardRouter n e) _ _ _ _ eq_refl ltac:(discriminate)
      (fun s s' c m ix => ncn_instruction_keeps n e c m ix s s') (fun s s' b => ncn_paid_here n e s s' b) Hr Hf Hs) as (Ha & Hsl & Ht).
    cbn -[sum_by] in *. split; [exact Ha|]. lia.
  - intros o r Hf Hs.
    destruct (solvent_life (R := OperatorVaultRewardRouter.t) OperatorVaultRewardRouterAccount.DISCRIMINATOR Size.OperatorVaultRewardRouter
      (AOperatorVaultRewardRouter o n e) _ _ _ _ eq_refl ltac:(discriminate)
      (fun s s' c m ix => operator_instruction_keeps o n e c m ix s s') (fun s s' b => operator_paid_here o n e s s' b) Hr Hf Hs)
      as (Ha & Hsl & Ht).
    cbn -[sum_by] in *. split; [exact Ha|]. lia.
Qed.
End solvency.
