(* ===== verification/Interface.v ===== *)
(** What the client and the program agree on: which account of an instruction
    is at which position, and which of them the program may change. The program
    accepts nothing else, and the client sends nothing else. *)
From S2P Require Import Prelude Errors Precise Stake Registry Weights Fees Snapshots Voting EpochStates.
From S2P Require Import NcnRouter OperatorRouter Consensus Accounts Machine Lamports Frames VoteHandlers.
From S2P Require Import AdminHandlers SnapshotHandlers RewardHandlers CloseHandlers Program Authority.

(** ** The layout of the instructions *)

(** The account of an instruction at one position: the NCN's, the operator's, one
    of the program's by its derived address, or another; and whether its data
    may change. *)
Inductive role := TheNcn | TheOperator | At (a : address) | Other.
Inductive position := Reads (r : role) | Writes (r : role).
Definition role_of (p : position) : role := match p with Reads r => r | Writes r => r end.
Definition is_written (p : position) : bool := match p with Writes _ => true | Reads _ => false end.

(** With the keys [n] of the NCN and [o] of the operator. *)
Definition layout (n o : Pubkey) (ix : NCNProgramInstruction.t) : list position :=
  match ix with
  | NCNProgramInstruction.InitializeConfig _ _ _ _ =>
      [Writes (At (AConfig n)); Reads TheNcn; Reads Other; Reads Other; Reads Other; Reads (At (AAccountPayer n));
       Reads Other]
  | NCNProgramInstruction.AdminSetParameters _ _ _ _ =>
      [Writes (At (AConfig n)); Reads TheNcn; Reads Other]
  | NCNProgramInstruction.AdminSetNewAdmin _ =>
      [Writes (At (AConfig n)); Reads TheNcn; Reads Other; Reads Other]
  | NCNProgramInstruction.InitializeVaultRegistry =>
      [Reads (At (AConfig n)); Writes (At (AVaultRegistry n)); Reads TheNcn; Reads (At (AAccountPayer n));
       Reads Other]
  | NCNProgramInstruction.ReallocVaultRegistry =>
      [Reads (At (AConfig n)); Writes (At (AVaultRegistry n)); Reads TheNcn; Reads (At (AAccountPayer n));
       Reads Other]
  | NCNProgramInstruction.RegisterVault =>
      [Reads (At (AConfig n)); Writes (At (AVaultRegistry n)); Reads TheNcn; Reads Other; Reads Other]
  | NCNProgramInstruction.AdminRegisterStMint _ =>
      [Reads (At (AConfig n)); Reads TheNcn; Reads Other; Writes (At (AVaultRegistry n)); Reads Other]
  | NCNProgramInstruction.AdminSetStMint _ _ =>
      [Reads (At (AConfig n)); Reads TheNcn; Writes (At (AVaultRegistry n)); Reads Other]
  | NCNProgramInstruction.AdminSetWeight _ _ e =>
      [Writes (At (AEpochState n e)); Reads TheNcn; Writes (At (AWeightTable n e)); Reads Other]
  | NCNProgramInstruction.CastVote _ e =>
      [Writes (At (AEpochState n e)); Reads (At (AConfig n)); Writes (At (ABallotBox n e)); Reads TheNcn;
       Reads (At (AEpochSnapshot n e)); Reads (At (AOperatorSnapshot o n e)); Reads TheOperator; Reads Other;
       Writes (At (AConsensusResult n e))]
  | NCNProgramInstruction.AdminSetTieBreaker _ e =>
      [Writes (At (AEpochState n e)); Reads (At (AConfig n)); Writes (At (ABallotBox n e)); Reads TheNcn;
       Reads Other]
  | NCNProgramInstruction.InitializeEpochState e =>
      [Reads (At (AEpochMarker n e)); Writes (At (AEpochState n e)); Reads (At (AConfig n)); Reads TheNcn;
       Reads (At (AAccountPayer n)); Reads Other]
  | NCNProgramInstruction.InitializeWeightTable e =>
      [Reads (At (AEpochMarker n e)); Reads (At (AEpochState n e)); Reads (At (AVaultRegistry n)); Reads TheNcn;
       Writes (At (AWeightTable n e)); Reads (At (AAccountPayer n)); Reads Other]
  | NCNProgramInstruction.ReallocWeightTable e =>
      [Writes (At (AEpochState n e)); Reads (At (AConfig n)); Writes (At (AWeightTable n e)); Reads TheNcn;
       Reads (At (AVaultRegistry n)); Reads (At (AAccountPayer n)); Reads Other]
  | NCNProgramInstruction.SetEpochWeights e =>
      [Writes (At (AEpochState n e)); Reads TheNcn; Reads (At (AVaultRegistry n)); Writes (At (AWeightTable n e))]
  | NCNProgramInstruction.InitializeEpochSnapshot e =>
      [Reads (At (AEpochMarker n e)); Writes (At (AEpochState n e)); Reads (At (AConfig n)); Reads TheNcn;
       Reads (At (AWeightTable n e)); Writes (At (AEpochSnapshot n e)); Reads (At (AAccountPayer n));
       Reads Other]
  | NCNProgramInstruction.InitializeOperatorSnapshot e =>
      [Reads (At (AEpochMarker n e)); Writes (At (AEpochState n e)); Reads (At (AConfig n)); Reads Other;
       Reads TheNcn; Reads TheOperator; Reads Other; Writes (At (AEpochSnapshot n e));
       Writes (At (AOperatorSnapshot o n e)); Reads (At (AAccountPayer n)); Reads Other]
  | NCNProgramInstruction.SnapshotVaultOperatorDelegation e =>
      [Writes (At (AEpochState n e)); Reads (At (AConfig n)); Reads Other; Reads TheNcn; Reads TheOperator;
       Reads Other; Reads Other; Reads Other; Reads Other; Reads (At (AWeightTable n e));
       Writes (At (AEpochSnapshot n e)); Writes (At (AOperatorSnapshot o n e))]
  | NCNProgramInstruction.InitializeBallotBox e =>
      [Reads (At (AEpochMarker n e)); Reads (At (AEpochState n e)); Reads (At (AConfig n));
       Writes (At (ABallotBox n e)); Reads TheNcn; Reads (At (AAccountPayer n)); Reads Other;
       Writes (At (AConsensusResult n e))]
  | NCNProgramInstruction.ReallocBallotBox e =>
      [Writes (At (AEpochState n e)); Reads (At (AConfig n)); Writes (At (ABallotBox n e)); Reads TheNcn;
       Reads (At (AAccountPayer n)); Reads Other]
  | NCNProgramInstruction.InitializeNCNRewardRouter e =>
      [Reads (At (AEpochMarker n e)); Reads (At (AEpochState n e)); Reads TheNcn;
       Writes (At (ANCNRewardRouter n e)); Reads (At (ANCNRewardReceiver n e)); Reads (At (AAccountPayer n));
       Reads Other]
  | NCNProgramInstruction.ReallocNCNRewardRouter e =>
      [Writes (At (AEpochState n e)); Reads (At (AConfig n)); Writes (At (ANCNRewardRouter n e)); Reads TheNcn;
       Reads (At (AAccountPayer n)); Reads Other]
  | NCNProgramInstruction.RouteNCNRewards _ e =>
      [Writes (At (AEpochState n e)); Reads (At (AConfig n)); Reads TheNcn; Reads (At (AEpochSnapshot n e));
       Reads (At (ABallotBox n e)); Writes (At (ANCNRewardRouter n e)); Reads (At (ANCNRewardReceiver n e))]
  | NCNProgramInstruction.InitializeOperatorVaultRewardRouter e =>
      [Reads (At (AEpochMarker n e)); Writes (At (AEpochState n e)); Reads TheNcn; Reads TheOperator;
       Reads (At (AOperatorSnapshot o n e)); Writes (At (AOperatorVaultRewardRouter o n e));
       Reads (At (AOperatorVaultRewardReceiver o n e)); Reads (At (AAccountPayer n)); Reads Other]
  | NCNProgramInstruction.RouteOperatorVaultRewards _ e =>
      [Writes (At (AEpochState n e)); Reads TheNcn; Reads TheOperator; Reads (At (AOperatorSnapshot o n e));
       Writes (At (AOperatorVaultRewardRouter o n e)); Reads (At (AOperatorVaultRewardReceiver o n e))]
  | NCNProgramInstruction.DistributeNCNRewards e =>
      [Writes (At (AEpochState n e)); Reads (At (AConfig n)); Reads TheNcn; Writes (At (ANCNRewardRouter n e));
       Reads (At (ANCNRewardReceiver n e)); Reads Other; Reads Other]
  | NCNProgramInstruction.DistributeProtocolRewards e =>
      [Writes (At (AEpochState n e)); Reads (At (AConfig n)); Reads TheNcn; Writes (At (ANCNRewardRouter n e));
       Reads (At (ANCNRewardReceiver n e)); Reads Other; Reads Other]
  | NCNProgramInstruction.DistributeOperatorVaultRewardRoute e =>
      [Writes (At (AEpochState n e)); Reads (At (AConfig n)); Reads TheNcn; Reads TheOperator;
       Writes (At (ANCNRewardRouter n e)); Reads (At (ANCNRewardReceiver n e));
       Reads (At (AOperatorVaultRewardRouter o n e)); Reads (At (AOperatorVaultRewardReceiver o n e));
       Reads Other]
  | NCNProgramInstruction.DistributeOperatorRewards e =>
      [Writes (At (AEpochState n e)); Reads (At (AConfig n)); Reads TheNcn; Reads TheOperator;
       Reads (At (AOperatorSnapshot o n e)); Writes (At (AOperatorVaultRewardRouter o n e));
       Reads (At (AOperatorVaultRewardReceiver o n e)); Reads Other]
  | NCNProgramInstruction.DistributeVaultRewards e =>
      [Writes (At (AEpochState n e)); Reads (At (AConfig n)); Reads TheNcn; Reads TheOperator; Reads Other;
       Reads (At (AOperatorSnapshot o n e)); Writes (At (AOperatorVaultRewardRouter o n e));
       Reads (At (AOperatorVaultRewardReceiver o n e)); Reads Other]
  | NCNProgramInstruction.CloseEpochAccount e =>
      [Writes (At (AEpochMarker n e)); Writes (At (AEpochState n e)); Reads (At (AConfig n)); Reads TheNcn;
       Writes Other; Reads (At (AAccountPayer n)); Reads Other]
  end.

Section layout.
Context {D : Type} {data : AccountData D} {bytes : AccountBytes D} {runtime : Runtime}
  {ext : Externals D} {system : System D} {P : PreciseNumber}.
Context {s_config : Stored D Config.t} {s_registry : Stored D VaultRegistry.t}
  {s_table : Stored D WeightTable.t} {s_epoch : Stored D EpochSnapshot.t}
  {s_operator : Stored D OperatorSnapshot.t} {s_box : Stored D BallotBox.t}
  {s_result : Stored D ConsensusResult.t} {s_router : Stored D NCNRewardRouter.t}
  {s_op_router : Stored D OperatorVaultRewardRouter.t} {s_marker : Stored D EpochMarker.t}
  {s_state : Stored D EpochState.t} {l_system : SystemLaws D}.

Definition has_role (program_id n o : Pubkey) (r : role) (k : Pubkey) : Prop :=
  match r with
  | TheNcn => k = n
  | TheOperator => k = o
  | At a => k = address_of program_id a
  | Other => True
  end.
(** The accounts of an instruction, but for optional ones at the end. *)
Definition laid_out (program_id n o : Pubkey) (l : list position) (accounts : list Meta) : Prop :=
  Forall2 (fun p m => has_role program_id n o (role_of p) (key m)) l (take (List.length l) accounts).
Fixpoint written (l : list position) (accounts : list Meta) : list Pubkey :=
  match l, accounts with
  | p :: l, m :: accounts => if is_written p then key m :: written l accounts else written l accounts
  | _, _ => []
  end.

(** What a successful run says of its accounts. *)
Definition accepted (ix : NCNProgramInstruction.t) (accounts : list Meta) (s s' : Store D) : Prop :=
  exists n o, laid_out id n o (layout n o ix) accounts
  /\ forall k, k ∈ written (layout n o ix) accounts \/ same_data (s' k) (s k).
End layout.

Ltac take_accounts H accounts :=
  repeat (destruct accounts as [|? accounts]; [discriminate H|]); try (destruct accounts; [|discriminate H]).
Ltac each_role :=
  unfold laid_out; cbn [layout List.length take];
  repeat apply Forall2_cons_2; try apply Forall2_nil_2; cbn [role_of has_role];
  try exact I; try reflexivity; try located.
(** [accepts H f accounts]: a run of [f]. *)
Ltac the_operator :=
  match goal with
  | _ : load_operator _ (info _ ?m) _ = Ok tt |- _ => exists (key m)
  | |- _ => exists 0
  end.
Ltac accepts H f accounts :=
  let Hrun := fresh "Hrun" in pose proof H as Hrun; unfold f in H; take_accounts H accounts; hinv H;
  match goal with _ : load_ncn _ (info _ ?m) _ = Ok tt |- _ => exists (key m) end; the_operator;
  split; [each_role|intros k; eapply touched; [|exact Hrun]; cbn [layout written is_written]; unfold f; touching].

Section accepted.
Context {D : Type} {data : AccountData D} {bytes : AccountBytes D} {runtime : Runtime}
  {ext : Externals D} {system : System D} {P : PreciseNumber}.
Context {s_config : Stored D Config.t} {s_registry : Stored D VaultRegistry.t}
  {s_table : Stored D WeightTable.t} {s_epoch : Stored D EpochSnapshot.t}
  {s_operator : Stored D OperatorSnapshot.t} {s_box : Stored D BallotBox.t}
  {s_result : Stored D ConsensusResult.t} {s_router : Stored D NCNRewardRouter.t}
  {s_op_router : Stored D OperatorVaultRewardRouter.t} {s_marker : Stored D EpochMarker.t}
  {s_state : Stored D EpochState.t} {l_system : SystemLaws D}.

Lemma delegation_accepted e accounts (s s' : Store D) :
  process_snapshot_vault_operator_delegation id accounts e s = (Ok tt, s') ->
  accepted (NCNProgramInstruction.SnapshotVaultOperatorDelegation e) accounts s s'.
Proof.
  intros H. pose proof H as Hrun. unfold process_snapshot_vault_operator_delegation in H.
  take_accounts H accounts. cbn [next_delegation_accounts] in H. set (a := Build_delegation_accounts _ _ _ _ _ _ _ _ _ _ _ _) in *.
  hcall H. rename H0 into Hl. unfold load_delegation_accounts in Hl. hinv Hl. hinv H. hcall H. hcall H.
  rename H9 into Hs. unfold load_snapshot_accounts in Hs. hinv Hs. subst a. cbn in *.
  exists (key m2), (key m3). split; [each_role|]. intros k. eapply touched; [|exact Hrun].
  cbn [layout written is_written]. unfold process_snapshot_vault_operator_delegation. cbn [next_delegation_accounts].
  touching.
Qed.

Lemma initialize_box_accepted e accounts (s s' : Store D) :
  process_initialize_ballot_box id accounts e s = (Ok tt, s') ->
  accepted (NCNProgramInstruction.InitializeBallotBox e) accounts s s'.
Proof.
  intros H. pose proof H as Hrun. unfold process_initialize_ballot_box in H. take_accounts H accounts. hinv H.
  apply mbind_ok in H as (u & s1 & _ & H). hinv H.
  exists (key m3), 0. split; [each_role|]. intros k. eapply touched; [|exact Hrun].
  cbn [layout written is_written]. unfold process_initialize_ballot_box. touching.
Qed.

Lemma cast_vote_accepted w e accounts (s s' : Store D) :
  process_cast_vote id accounts w e s = (Ok tt, s') -> accepted (NCNProgramInstruction.CastVote w e) accounts s s'.
Proof.
  intros H. pose proof H as Hrun. unfold process_cast_vote in H. take_accounts H accounts.
  cbn [next_vote_accounts] in H. set (a := Build_vote_accounts _ _ _ _ _ _ _ _ _) in *.
  hcall H. hinv H. rename H0 into Hl. unfold load_vote_accounts in Hl. hinv Hl. subst a. cbn in *.
  exists (key m2), (key m5). split; [each_role|]. intros k. eapply touched; [|exact Hrun].
  cbn [layout written is_written]. unfold process_cast_vote. cbn [next_vote_accounts]. touching.
Qed.

Lemma close_accepted e accounts (s s' : Store D) :
  process_close_epoch_account id accounts e s = (Ok tt, s') ->
  accepted (NCNProgramInstruction.CloseEpochAccount e) accounts s s'.
Proof.
  intros H. pose proof H as Hrun. unfold process_close_epoch_account in H. take_accounts H accounts.
  cbn [split_close_accounts] in H. set (a := Build_close_accounts _ _ _ _ _ _ _ _) in *.
  hcall H. rename H0 into Hl. unfold load_close_accounts in Hl. hinv Hl. subst a. cbn in *.
  exists (key m2), 0. split; [each_role|]. intros k. eapply touched; [|exact Hrun].
  cbn [layout written is_written].
  unfold process_close_epoch_account, mark_closed, mark_epoch_state, mark_operator_snapshot,
    mark_ncn_reward_router, mark_operator_vault_reward_router, create_epoch_marker.
  cbn [split_close_accounts]. touching.
Qed.

Lemma instruction_accepted ix accounts (s s' : Store D) :
  process_instruction id accounts (Ok ix) s = (Ok tt, s') -> accepted ix accounts s s'.
Proof.
  intros H. unfold process_instruction in H. destruct (negb _); [discriminate H|]. unfold mbind at 1, lift at 1 in H.
  unfold accepted.
  destruct ix; cbv beta iota in H.
  - accepts H @process_admin_initialize_config accounts.
  - accepts H @process_initialize_vault_registry accounts.
  - accepts H @process_realloc_vault_registry accounts.
  - accepts H @process_register_vault accounts.
  - accepts H @process_initialize_epoch_state accounts.
  - accepts H @process_initialize_weight_table accounts.
  - accepts H @process_realloc_weight_table accounts.
  - accepts H @process_set_epoch_weights accounts. apply touches_set_weights. in_list.
  - accepts H @process_initialize_epoch_snapshot accounts.
  - accepts H @process_initialize_operator_snapshot accounts.
  - by eapply delegation_accepted.
  - by eapply initialize_box_accepted.
  - accepts H @process_realloc_ballot_box accounts.
  - by eapply cast_vote_accepted.
  - by eapply close_accepted.
  - accepts H @process_admin_set_parameters accounts.
  - accepts H @process_admin_set_new_admin accounts.
  - accepts H @process_admin_set_tie_breaker accounts.
  - accepts H @process_admin_set_weight accounts.
  - accepts H @process_admin_register_st_mint accounts.
  - accepts H @process_admin_set_st_mint accounts.
  - accepts H @process_initialize_ncn_reward_router accounts.
  - accepts H @process_realloc_ncn_reward_router accounts.
  - accepts H @process_route_ncn_rewards accounts.
  - accepts H @process_distribute_protocol_rewards accounts.
  - accepts H @process_distribute_ncn_rewards accounts.
  - accepts H @process_initialize_operator_vault_reward_router accounts.
  - accepts H @process_distribute_operator_vault_reward_route accounts.
  - accepts H @process_route_operator_vault_rewards accounts.
  - accepts H @process_distribute_operator_rewards accounts.
  - accepts H @process_distribute_vault_rewards accounts.
Qed.

(** C16: where the program looks for its accounts. An instruction that goes
    through was given every account at its position: the NCN's, the operator's
    and each of the program's own at the address derived for this NCN, operator
    and epoch; and it changed the data of no account but those that its layout
    says are written. *)
Theorem program_expects_its_accounts ix accounts (s s' : Store D) :
  process_instruction id accounts (Ok ix) s = (Ok tt, s') ->
  exists n o, laid_out id n o (layout n o ix) accounts
  /\ forall k, k ∈ written (layout n o ix) accounts \/ same_data (s' k) (s k).
Proof. exact (instruction_accepted ix accounts s s'). Qed.
End accepted.
