(* ===== verification/Lingering.v ===== *)
(** An epoch whose reward router is never closed: its state stays, with the
    router counted as open, whatever other transactions follow. *)
From stdpp Require Import relations.
From S2P Require Import Prelude Errors Precise Stake Registry Weights Fees Snapshots Voting EpochStates.
From S2P Require Import NcnRouter OperatorRouter Consensus Accounts Machine Lamports Frames VoteHandlers.
From S2P Require Import AdminHandlers SnapshotHandlers RewardHandlers CloseHandlers Program Authority Chain Elections.
From S2P Require Import Frozen.

(** ** Methods of the epoch's state that do not mark the router as closed *)
Section methods.
Definition router_open (t : EpochState.t) : Prop :=
  EpochAccountStatus.ncn_reward_router' (EpochState.account_status t) <> AccountStatus.as_u8 AccountStatus.Closed.
Definition keeps_open {E A} (m : M EpochState.t E A) : Prop :=
  forall t, router_open t -> router_open (snd (m t)).

Lemma keeps_open_bind {E A B} (m : M EpochState.t E A) (f : A -> M EpochState.t E B) :
  keeps_open m -> (forall a, keeps_open (f a)) -> keeps_open (mbind m f).
Proof.
  intros Hm Hf t Ht. specialize (Hm t Ht). unfold mbind. destruct (m t) as [[a|e|] t']; try done. by apply Hf.
Qed.
Lemma keeps_open_modify {E} f : (forall t, router_open t -> router_open (f t)) ->
  keeps_open (modify f : M EpochState.t E unit).
Proof. intros Hf t Ht. by apply Hf. Qed.
Lemma keeps_open_get_self {E} : keeps_open (get_self : M EpochState.t E _).
Proof. by intros t Ht. Qed.
Lemma keeps_open_ret {E A} (a : A) : keeps_open (ret a : M EpochState.t E A).
Proof. by intros t Ht. Qed.
Lemma keeps_open_zoom {T E A} (get : EpochState.t -> T) upd (m : M T E A) :
  (forall v t, router_open t -> router_open (upd v t)) -> keeps_open (zoom get upd m).
Proof. intros Hp t Ht. unfold zoom. destruct (m _). by apply Hp. Qed.
Lemma keeps_open_zoom_at {T E A} (get : EpochState.t -> list T) upd i (m : M T E A) :
  (forall v t, router_open t -> router_open (upd v t)) -> keeps_open (zoom_at get upd i m).
Proof. intros Hp t Ht. unfold zoom_at. destruct (_ !! _); [|done]. destruct (m _). by apply Hp. Qed.
Lemma keeps_open_status {E A} (get : EpochAccountStatus.t -> list u8) upd i (m : M u8 E A) :
  (forall v s, EpochAccountStatus.ncn_reward_router' (upd v s) = EpochAccountStatus.ncn_reward_router' s) ->
  keeps_open (EpochState.on_status (zoom_at get upd i m)).
Proof.
  intros Hp t Ht. unfold EpochState.on_status, zoom, zoom_at. destruct (_ !! _); [|done].
  destruct (m _). unfold router_open. cbn. by rewrite Hp.
Qed.
End methods.

Ltac keeping_open :=
  repeat first
    [ progress intros
    | done
    | apply keeps_open_bind
    | apply keeps_open_get_self
    | apply keeps_open_ret
    | apply keeps_open_modify
    | apply keeps_open_zoom_at
    | apply keeps_open_status
    | apply keeps_open_zoom
    | match goal with |- keeps_open (if ?b then _ else _) => destruct b end
    | match goal with |- context [if ?b then _ else _] => destruct b end ].

Ltac keeps_method :=
  unfold EpochState.update_realloc_operator_snapshot, EpochState.update_snapshot_vault_operator_delegation,
    EpochState.update_realloc_operator_vault_reward_router, EpochState.update_route_operator_vault_rewards,
    EpochState.update_distribute_operator_vault_route_rewards, EpochState.close_operator_snapshot,
    EpochState.close_operator_vault_reward_router, EpochState.on_operator_progress, EpochState.on_epoch_progress,
    EpochState.on_route, EpochAccountStatus.set_operator_snapshot,
    EpochAccountStatus.set_operator_vault_reward_router, EpochState.update_cast_vote,
    EpochState.update_set_tie_breaker;
  keeping_open.

(** ** Fragments of the program *)
Section lingering.
Context {D : Type} {data : AccountData D} {bytes : AccountBytes D} {runtime : Runtime} {ext : Externals D}
  {system : System D} {s_state : Stored D EpochState.t}.
Context {l_system : SystemLaws D} {l_bytes : AccountBytesLaws D} {l_state : StoredLaws D EpochState.t}.
Context (not_system : id <> system_program_id) (k : Pubkey).

(** The account of an epoch's state that counts the router as open. *)
Definition lingers (a : Account.t D) : Prop :=
  Account.owner a = id /\ data_byte0 (Account.data a) = EpochStateAccount.DISCRIMINATOR
  /\ 0 < data_len (Account.data a)
  /\ exists t, try_from_slice (Account.data a) = Ok t /\ router_open t.
#[global] Instance lingers_proper : Proper (same_data ==> iff) lingers.
Proof. intros a b [Ho Hd]. unfold lingers. by rewrite Ho, Hd. Qed.

Definition keeps {E A} (m : M (Store D) E A) : Prop :=
  forall s a s', m s = (Ok a, s') -> lingers (s k) -> lingers (s' k).

Lemma keeps_bind {E A B} (m : M (Store D) E A) (f : A -> M (Store D) E B) :
  keeps m -> (forall a, keeps (f a)) -> keeps (mbind m f).
Proof. intros Hm Hf s b s' (a & s1 & H1 & H2)%mbind_ok Hs. eapply Hf; [exact H2|]. by eapply Hm. Qed.
Lemma keeps_spared {E A} (m : M (Store D) E A) : spares lingers k m -> keeps m.
Proof. intros Hm s a s' H Hs. by rewrite (Hm _ _ _ H Hs). Qed.
Lemma keeps_reading {E A} (m : M (Store D) E A) : touches [] m -> keeps m.
Proof. intros Hm. by apply keeps_spared, spares_reading. Qed.
Lemma keeps_other {E A} x (m : M (Store D) E A) : touches [x] m -> x <> k -> keeps m.
Proof. intros Hm Hx. by eapply keeps_spared, spares_other. Qed.
Lemma keeps_create held program_id ncn payer x o n seeds :
  keeps (Payer.pay_and_create_account held program_id ncn payer x o n seeds).
Proof. apply keeps_spared, spares_create. intros a [-> _]. exact not_system. Qed.
Lemma keeps_state {E A} {to : Into E} x (m : M EpochState.t E A) : keeps_open m -> keeps (on_account x m).
Proof.
  intros Hm. destruct (decide (x = k)) as [->|Hx].
  - intros s a s' H (Ho & Hd & Hl & t & Ht & Hopen). apply on_account_ok in H as (t0 & t' & Ht0 & H & ->).
    assert (t0 = t) as -> by congruence. specialize (Hm t Hopen). rewrite H in Hm.
    destruct (write_keeps k k t' s) as (Ho' & _ & Hl' & Hd'). unfold lingers. rewrite Ho', Hl', Hd'.
    do 3 (split; [done|]). exists t'. split; [by eapply read_write|exact Hm].
  - eapply keeps_other; [|exact Hx]. apply touches_on_account, list_elem_of_here.
Qed.
End lingering.

(** [keeping]: through the code, with what is known of the accounts it writes. *)
Ltac keeping :=
  repeat first
    [ progress intros
    | solve [apply keeps_reading; eauto 2 with frame nocore]
    | solve [apply keeps_create; assumption]
    | solve [eapply keeps_other; [apply touches_set_weights, list_elem_of_here|assumption]]
    | solve [eapply keeps_other; [solve [eauto 2 with frame nocore]|assumption]]
    | apply keeps_bind
    | solve [unfold update_state; apply keeps_state; keeps_method]
    | progress cbv beta zeta iota
    | match goal with
      | |- keeps _ (match ?x with _ => _ end) => destruct x
      | |- keeps _ (if ?b then _ else _) => destruct b
      end ].

Section lingering_steps.
Context {D : Type} {data : AccountData D} {bytes : AccountBytes D} {runtime : Runtime}
  {at_clock : Clock -> Externals D} {system : System D} {P : PreciseNumber}.
Context {s_config : Stored D Config.t} {s_registry : Stored D VaultRegistry.t}
  {s_table : Stored D WeightTable.t} {s_epoch : Stored D EpochSnapshot.t}
  {s_operator : Stored D OperatorSnapshot.t} {s_box : Stored D BallotBox.t}
  {s_result : Stored D ConsensusResult.t} {s_router : Stored D NCNRewardRouter.t}
  {s_op_router : Stored D OperatorVaultRewardRouter.t} {s_marker : Stored D EpochMarker.t}
  {s_state : Stored D EpochState.t}.
Context {l_system : SystemLaws D} {l_ext : forall c, ExternalsLaws D (ext := at_clock c)}
  {l_bytes : AccountBytesLaws D} {l_state : StoredLaws D EpochState.t}.
Context (collision_free : forall l l', (find_pda l id).1 = (find_pda l' id).1 -> concat l = concat l').
Context (not_system : id <> system_program_id).

Abbreviation at_ a := (address_of (runtime := runtime) id a).
Abbreviation lingering s n e := (lingers (s (at_ (AEpochState n e)))).

(** The accounts that were created, or checked to be of another type, are not
    the epoch's state. *)
Ltac apart_from_state :=
  repeat match goal with
  | Hl : @load_system_account _ _ (info ?s ?m) _ = Ok tt, Ho : Account.owner (?s ?k) = id |- _ =>
      lazymatch goal with
      | _ : key m <> k |- _ => fail
      | _ => assert (key m <> k) by exact (created_apart not_system _ _ _ _ _ Hl Ho)
      end
  end;
  repeat match goal with
  | Hl : ?load _ (info ?s ?m) _ _ _ = Ok tt, Hf : lingers (_ (at_ ?a)) |- _ =>
      lazymatch goal with
      | _ : key m <> at_ a |- _ => fail
      | _ => first
          [ assert (key m <> at_ a) by (eapply (elsewhere collision_free m a (AWeightTable _ _)); [located|done])
          | assert (key m <> at_ a) by (eapply (elsewhere collision_free m a (AEpochSnapshot _ _)); [located|done])
          | assert (key m <> at_ a) by (eapply (elsewhere collision_free m a (ABallotBox _ _)); [located|done])
          | assert (key m <> at_ a) by (eapply (elsewhere collision_free m a (AConsensusResult _ _)); [located|done])
          | assert (key m <> at_ a) by (eapply (elsewhere collision_free m a (ANCNRewardRouter _ _)); [located|done]) ]
      end
  | Hl : ?load _ (info ?s ?m) _ _ _ _ = Ok tt, Hf : lingers (_ (at_ ?a)) |- _ =>
      lazymatch goal with
      | _ : key m <> at_ a |- _ => fail
      | _ => first
          [ assert (key m <> at_ a) by (eapply (elsewhere collision_free m a (AOperatorSnapshot _ _ _)); [located|done])
          | assert (key m <> at_ a)
              by (eapply (elsewhere collision_free m a (AOperatorVaultRewardRouter _ _ _)); [located|done]) ]
      end
  | Hl : negb (_ =? key ?m) = false, Hf : lingers (_ (at_ ?a)) |- _ =>
      lazymatch goal with
      | _ : key m <> at_ a |- _ => fail
      | _ => first
          [ assert (key m <> at_ a) by (eapply (elsewhere collision_free m a (AWeightTable _ _)); [located|done])
          | assert (key m <> at_ a) by (eapply (elsewhere collision_free m a (ABallotBox _ _)); [located|done])
          | assert (key m <> at_ a) by (eapply (elsewhere collision_free m a (ANCNRewardRouter _ _)); [located|done]) ]
      end
  end.
Ltac kept H :=
  match type of H with
  | ?p ?s = _ =>
      match goal with
      | Hf : lingers (s ?k) |- _ =>
          let T := fresh "T" in assert (keeps k p) as T by keeping; eapply T; [exact H|exact Hf]
      end
  end.
Ltac take H accounts :=
  repeat (destruct accounts as [|? accounts]; [discriminate H|]); try (destruct accounts; [|discriminate H]).
Ltac lingering_run H Hl accounts :=
  let Ho := fresh in pose proof (proj1 Hl) as Ho; take H accounts; hinv H; apart_from_state; kept H.

Lemma delegation_lingers clock accounts e' s s' n e :
  process_snapshot_vault_operator_delegation (ext := at_clock clock) id accounts e' s = (Ok tt, s') ->
  lingering s n e -> lingering s' n e.
Proof.
  intros (a & _ & Lep & Lop & _ & _ & slot & index & w & _ & H)%delegation_found Hl. apart_from_state.
  unfold record_delegation in H. kept H.
Qed.

Lemma cast_vote_lingers clock accounts w e' s s' n e :
  process_cast_vote (ext := at_clock clock) id accounts w e' s = (Ok tt, s') ->
  lingering s n e -> lingering s' n e.
Proof.
  intros H Hl. unfold process_cast_vote in H. destruct (next_vote_accounts accounts) as [a|]; [|discriminate H].
  hcall H. rename H0 into Hv. unfold load_vote_accounts in Hv. hinv Hv. hinv H. apart_from_state. kept H.
Qed.

(** Every instruction but closing. *)
Lemma other_lingers clock accounts ix s s' n e :
  process_instruction (ext := at_clock clock) id accounts (Ok ix) s = (Ok tt, s') ->
  (forall e', ix <> NCNProgramInstruction.CloseEpochAccount e') ->
  lingering s n e -> lingering s' n e.
Proof.
  intros H Hn Hl.
  destruct ix;
    try (rewrite (untouched collision_free _ _ _ _ _ (AEpochState n e) H);
         [exact Hl|no_permission|intros ? [=]]);
    try (by destruct (Hn epoch));
    unfold process_instruction in H; (destruct (negb _); [discriminate H|]); unfold mbind at 1, lift at 1 in H;
    cbv beta iota in H.
  - unfold process_initialize_epoch_state in H. lingering_run H Hl accounts.
  - unfold process_realloc_weight_table in H. lingering_run H Hl accounts.
  - unfold process_set_epoch_weights in H. lingering_run H Hl accounts.
  - unfold process_initialize_epoch_snapshot in H. lingering_run H Hl accounts.
  - unfold process_initialize_operator_snapshot, take_operator_snapshot in H. lingering_run H Hl accounts.
  - by eapply delegation_lingers.
  - unfold process_realloc_ballot_box in H. lingering_run H Hl accounts.
  - by eapply cast_vote_lingers.
  - unfold process_admin_set_tie_breaker in H. lingering_run H Hl accounts.
  - unfold process_admin_set_weight in H. lingering_run H Hl accounts.
  - unfold process_realloc_ncn_reward_router in H. lingering_run H Hl accounts.
  - unfold process_route_ncn_rewards in H. lingering_run H Hl accounts.
  - unfold process_distribute_protocol_rewards in H. lingering_run H Hl accounts.
  - unfold process_distribute_ncn_rewards in H. lingering_run H Hl accounts.
  - unfold process_initialize_operator_vault_reward_router in H. lingering_run H Hl accounts.
  - unfold process_distribute_operator_vault_reward_route in H. lingering_run H Hl accounts.
  - unfold process_route_operator_vault_rewards in H. lingering_run H Hl accounts.
  - unfold process_distribute_operator_rewards in H. lingering_run H Hl accounts.
  - unfold process_distribute_vault_rewards in H. lingering_run H Hl accounts.
Qed.

(** ** Closing *)

(** A closing that leaves the routers of an epoch alone: with the epoch's state
    it does not close a router, and it closes the state only as that epoch's. *)
Definition tidy (n : Pubkey) (e : u64) (a : close_accounts) : Prop :=
  (key (CloseHandlers.epoch_state a) = at_ (AEpochState n e) ->
     forall n' e', key (account_to_close a) <> at_ (ANCNRewardRouter n' e'))
  /\ (key (account_to_close a) = at_ (AEpochState n e) ->
     key (CloseHandlers.epoch_state a) = at_ (AEpochState n e)).

Lemma mark_router_keeps {ext : Externals D} n e a cfg e' : tidy n e a ->
  keeps (at_ (AEpochState n e)) (mark_ncn_reward_router id a cfg e').
Proof.
  intros [Ht _] s u s' H Hl. destruct (decide (key (CloseHandlers.epoch_state a) = at_ (AEpochState n e))) as [He|He].
  - exfalso. unfold mark_ncn_reward_router in H. hinv H.
    apply (Ht He (key (CloseHandlers.ncn a)) e'). located.
  - revert s u s' H Hl. change (keeps (at_ (AEpochState n e)) (mark_ncn_reward_router id a cfg e')).
    unfold mark_ncn_reward_router. keeping.
Qed.

Lemma mark_closed_keeps {ext : Externals D} n e a cfg d e' : tidy n e a ->
  keeps (at_ (AEpochState n e)) (mark_closed id a cfg d e').
Proof.
  intros Ht. unfold mark_closed. pose proof (mark_router_keeps n e a cfg e' Ht) as Hr.
  unfold mark_epoch_state, mark_operator_snapshot, mark_operator_vault_reward_router.
  repeat first [exact Hr|match goal with |- keeps _ (if ?b then _ else _) => destruct b end|solve [keeping]].
Qed.

(** The state itself is refused while its router is open. *)
Lemma mark_state_refused {ext : Externals D} a e' s s' u :
  lingers (s (key (CloseHandlers.epoch_state a))) -> mark_epoch_state a e' s <> (Ok u, s').
Proof.
  intros (_ & _ & _ & t & Ht & Hopen) H. unfold mark_epoch_state in H. hinv H.
  assert (x = t) as -> by congruence. unfold EpochState.load_to_close in *.
  repeat match goal with
  | H : (if ?b then _ else _) = Ok _ |- _ => destruct b eqn:?; [discriminate H|]
  end.
  apply Hopen. unfold EpochAccountStatus.are_all_closed in *.
  repeat match goal with H : negb (if ?b then _ else _) = false |- _ => destruct b eqn:?; [discriminate H|] end. lia.
Qed.

(** A closing, up to the marking of the account in the epoch's state. *)
Lemma close_marks clock accounts e' (s s' : Store D) n e a : let k := at_ (AEpochState n e) in
  process_close_epoch_account (ext := at_clock clock) id accounts e' s = (Ok tt, s') ->
  split_close_accounts accounts = Some a -> tidy n e a -> lingering s n e ->
  key (account_to_close a) <> k
  /\ exists s2, lingers (s2 k)
  /\ mbind (if key (account_to_close a) =? key (CloseHandlers.epoch_state a)
            then create_epoch_marker (ext := at_clock clock) id a e' else ret tt)
       (fun _ => Payer.close_account id (key (account_payer a)) (key (account_to_close a))) s2 = (Ok tt, s').
Proof.
  intros k H Ha Ht Hl. unfold process_close_epoch_account in H. rewrite Ha in H.
  hcall H. rename H0 into Hload. unfold load_close_accounts in Hload. hinv Hload. hinv H.
  apply mbind_ok in H as (u1 & s1 & Hclosing & H).
  assert (lingers (s1 k)) as Hl1 by (revert Hclosing Hl; apply keeps_state; keeps_method).
  hinv H. apply mbind_ok in H as (u2 & s2 & Hmark & H). split.
  - intros Hk. pose proof (proj2 Ht Hk) as Hst. fold k in Hst. rewrite Hk, Hst, Z.eqb_refl in Hmark.
    unfold mark_closed in Hmark. rewrite Z.eqb_refl in Hmark.
    eapply (mark_state_refused (ext := at_clock clock)); [|exact Hmark]. by rewrite Hst.
  - exists s2. split; [exact (mark_closed_keeps n e a _ _ _ Ht _ _ _ Hmark Hl1)|exact H].
Qed.

Lemma close_lingers clock accounts e' s s' n e a :
  process_close_epoch_account (ext := at_clock clock) id accounts e' s = (Ok tt, s') ->
  split_close_accounts accounts = Some a -> tidy n e a -> lingering s n e -> lingering s' n e.
Proof.
  intros H Ha Ht Hl. set (k := at_ (AEpochState n e)).
  pose proof (close_found _ _ _ _ _ H) as (a' & Ha' & Hm & _). rewrite Ha in Ha'. injection Ha' as <-.
  destruct (close_marks _ _ _ _ _ n e a H Ha Ht Hl) as (Hne & s2 & Hl2 & Hrun). fold k in Hne, Hl2.
  assert (key (CloseHandlers.epoch_marker a) <> k) as Hmk
    by (eapply (elsewhere collision_free _ (AEpochState n e) (AEpochMarker _ _)); [located|done]).
  assert (same_data (s' k) (s2 k)) as ->; [|done].
  eapply (touched [key (account_to_close a); key (CloseHandlers.epoch_marker a)] _ s2 tt s' k) in Hrun
    as [Hk|Hk]; [|exact Hk|].
  - apply elem_of_cons in Hk as [Hk|Hk]; [by destruct Hne|]. apply elem_of_cons in Hk as [Hk|Hk]; [by destruct Hmk|].
    by apply elem_of_nil in Hk.
  - apply touches_bind; [|intros _; apply touches_close_account; in_list]. unfold create_epoch_marker. touching.
Qed.

(** ** Creation *)

Context {z_state : Zeroed D EpochState.t EpochStateAccount.DISCRIMINATOR Size.EpochState EpochState.zeroed}.

Lemma created_lingers clock accounts e (s s' : Store D) m :
  process_initialize_epoch_state (ext := at_clock clock) id accounts e s = (Ok tt, s') ->
  accounts !! 3%nat = Some m -> lingering s' (key m) e.
Proof.
  intros H Hm. unfold process_initialize_epoch_state in H. take H accounts. injection Hm as <-. hinv H.
  assert (key m1 = at_ (AEpochState (key m3) e)) as Hk by located. rewrite <-Hk.
  apply mbind_ok in H as (u1 & s1 & Hc & H). apply create_ok in Hc as (_ & _ & Ho & Hd). hinv H.
  apply mbind_ok in H as (u2 & s2 & Hset & H). apply set_discriminator_ok in Hset as [_ ->]. hinv H.
  set (k := key m1) in *. set (s2 := update k _ s1) in *.
  assert (lingers (s2 k)) as Hl; [|revert H Hl; apply keeps_bind; intros; apply keeps_state; keeps_method].
  change (zeros (Z.min Size.EpochState MAX_REALLOC_BYTES)) with (zeros Size.EpochState : D) in Hd.
  unfold lingers, s2. rewrite !update_same. cbn [set_data Account.data Account.owner]. rewrite Hd, Ho.
  rewrite byte0_set_byte0, len_set_byte0 by (by rewrite len_zeros). rewrite len_zeros by done.
  split_and!; try done. exists EpochState.zeroed. split; [apply read_zeros|done].
Qed.

(** ** Any sequence of transactions *)

(** A step that closes nothing but tidily. *)
Inductive tidy_step (n : Pubkey) (e : u64) : Store D -> Store D -> Prop :=
| tidy_instruction clock accounts ix s s' :
    (forall e' a, ix = NCNProgramInstruction.CloseEpochAccount e' -> split_close_accounts accounts = Some a ->
       tidy n e a) ->
    process_instruction (ext := at_clock clock) id accounts (Ok ix) s = (Ok tt, s') -> tidy_step n e s s'
| tidy_outside s s' :
    (forall k, Account.owner (s k) = id -> same_data (s' k) (s k)) -> tidy_step n e s s'.

Lemma tidy_step_lingers n e s s' : tidy_step n e s s' -> lingering s n e -> lingering s' n e.
Proof.
  intros [clock accounts ix t t' Ht H|t t' Hsame] Hl.
  2: { pose proof Hl as [Ho _]. by rewrite (Hsame _ Ho). }
  assert ((exists e', ix = NCNProgramInstruction.CloseEpochAccount e')
          \/ forall e', ix <> NCNProgramInstruction.CloseEpochAccount e') as [[e' ->]|Hn]
    by (destruct ix; try (right; done); left; eauto).
  2: by eapply other_lingers.
  unfold process_instruction in H. destruct (negb _); [discriminate H|]. unfold mbind at 1, lift at 1 in H.
  cbv beta iota in H. destruct (split_close_accounts accounts) as [a|] eqn:Ha.
  - eapply close_lingers; [exact H|exact Ha|by eapply Ht|exact Hl].
  - unfold process_close_epoch_account in H. rewrite Ha in H. discriminate H.
Qed.

Lemma tidy_life n e s s' : lingering s n e -> rtc (tidy_step n e) s s' -> lingering s' n e.
Proof. intros Hl Hr. revert Hl. induction Hr; eauto using tidy_step_lingers. Qed.

Lemma open_state_refused clock accounts n e e' a s t : lingering s n e ->
  split_close_accounts accounts = Some a -> key (account_to_close a) = key (CloseHandlers.epoch_state a) ->
  key (CloseHandlers.epoch_state a) = at_ (AEpochState n e) ->
  process_close_epoch_account (ext := at_clock clock) id accounts e' s <> (Ok tt, t).
Proof.
  intros Hl Ha Hk Hst H. destruct (close_marks clock accounts e' s t n e a H Ha) as [Hne _]; [|exact Hl|congruence].
  split; [|done]. intros _ n' e1. rewrite Hk, Hst. by apply (addresses_apart collision_free).
Qed.

(** C11: an epoch is not completed while its reward router is open. From the
    creation of its state on, take any sequence of transactions in which no closing
    is given this state together with an NCN's reward router to close, and none is given
    this state as the account to close together with the state of another epoch
    (which the handler does not check). The state stays the program's and does not
    count the router as closed, and the instruction that would close it as the
    state of its own epoch, and write the epoch's marker, fails. *)
Theorem open_router_keeps_the_epoch clock accounts n e m s0 s s' :
  process_initialize_epoch_state (ext := at_clock clock) id accounts e s0 = (Ok tt, s) ->
  accounts !! 3%nat = Some m -> key m = n -> rtc (tidy_step n e) s s' ->
  (exists st, try_from_slice (Account.data (s' (at_ (AEpochState n e)))) = Ok st
     /\ Account.owner (s' (at_ (AEpochState n e))) = id
     /\ EpochAccountStatus.ncn_reward_router' (EpochState.account_status st) <> AccountStatus.as_u8 AccountStatus.Closed)
  /\ forall clock' accounts' e' a t, split_close_accounts accounts' = Some a ->
       key (account_to_close a) = key (CloseHandlers.epoch_state a) ->
       key (CloseHandlers.epoch_state a) = at_ (AEpochState n e) ->
       process_close_epoch_account (ext := at_clock clock') id accounts' e' s' <> (Ok tt, t).
Proof.
  intros H Hm <- Hr. pose proof (tidy_life _ _ _ _ (created_lingers _ _ _ _ _ _ H Hm) Hr) as Hl.
  split; [|by intros; eapply open_state_refused]. destruct Hl as (Ho & _ & _ & st & Hst & Hopen). by exists st.
Qed.
End lingering_steps.
