(* ===== verification/Client.v ===== *)
(** The generated client of the program
    ([clients/rust/ncn_program/src/generated]): for every instruction the list of
    accounts, with their flags, and the discriminator that the client puts in a
    transaction; and what a transaction is to the runtime. *)
From S2P Require Import Prelude Errors Precise Stake Registry Weights Fees Snapshots Voting EpochStates.
From S2P Require Import NcnRouter OperatorRouter Consensus Accounts Machine Lamports VoteHandlers.
From S2P Require Import AdminHandlers SnapshotHandlers RewardHandlers CloseHandlers Program.

(** [programs.rs]; the same constant as [declare_id!] of the program. *)
Definition NCN_PROGRAM_ID : Pubkey := 0x4204fa6277c6e983fba8c01167677ee853a36fe13d31944b9f65da6b94d35a2a.

(** An instruction of a transaction: one of the program's, with its
    discriminator and the arguments that follow it in the data; the limits of
    the compute budget program; a transfer; another program's. *)
Inductive Instruction :=
| Ncn (program_id : Pubkey) (accounts : list Meta) (discriminator : u8) (args : NCNProgramInstruction.t)
| SetComputeUnitLimit (units : u32)
| SetComputeUnitPrice (micro_lamports : u64)
| Transfer (from to : Pubkey) (lamports : u64)
| Foreign (program_id : Pubkey) (accounts : list Meta) (data : list u8).

(** [AccountMeta::new] and [AccountMeta::new_readonly]. *)
Definition new (pubkey : Pubkey) (is_signer : bool) : Meta := meta pubkey is_signer true.
Definition new_readonly (pubkey : Pubkey) (is_signer : bool) : Meta := meta pubkey is_signer false.
(** An optional account that is not given is the program itself. *)
Definition optional (pubkey : option Pubkey) : Meta :=
  match pubkey with Some pubkey => new pubkey false | None => new_readonly NCN_PROGRAM_ID false end.

(** ** The instructions

    A module per file: the accounts by name, and the instruction with its
    arguments. [Builders] has the builders that collect them. *)

Module InitializeConfig.
Record t := mk { config : Pubkey; ncn : Pubkey; ncn_fee_wallet : Pubkey; ncn_admin : Pubkey;
  tie_breaker_admin : Pubkey; account_payer : Pubkey; system_program : Pubkey }.
Definition instruction_with_remaining_accounts (self : t)
    (epochs_before_stall epochs_after_consensus_before_close valid_slots_after_consensus : u64)
    (ncn_fee_bps : u16) (remaining_accounts : list Meta) : Instruction :=
  Ncn NCN_PROGRAM_ID ([new (config self) false; new_readonly (ncn self) false;
    new_readonly (ncn_fee_wallet self) false; new_readonly (ncn_admin self) true;
    new_readonly (tie_breaker_admin self) false; new (account_payer self) false;
    new_readonly (system_program self) false] ++ remaining_accounts) 0
    (NCNProgramInstruction.InitializeConfig epochs_before_stall epochs_after_consensus_before_close
      valid_slots_after_consensus ncn_fee_bps).
Definition instruction (self : t)
    (epochs_before_stall epochs_after_consensus_before_close valid_slots_after_consensus : u64)
    (ncn_fee_bps : u16) : Instruction :=
  instruction_with_remaining_accounts self epochs_before_stall epochs_after_consensus_before_close
    valid_slots_after_consensus ncn_fee_bps [].
End InitializeConfig.

Module InitializeVaultRegistry.
Record t := mk { config : Pubkey; vault_registry : Pubkey; ncn : Pubkey; account_payer : Pubkey;
  system_program : Pubkey }.
Definition instruction_with_remaining_accounts (self : t) (remaining_accounts : list Meta) : Instruction :=
  Ncn NCN_PROGRAM_ID ([new_readonly (config self) false; new (vault_registry self) false;
    new_readonly (ncn self) false; new (account_payer self) false; new_readonly (system_program self) false]
    ++ remaining_accounts) 1
    NCNProgramInstruction.InitializeVaultRegistry.
Definition instruction (self : t) : Instruction :=
  instruction_with_remaining_accounts self [].
End InitializeVaultRegistry.

Module ReallocVaultRegistry.
Record t := mk { config : Pubkey; vault_registry : Pubkey; ncn : Pubkey; account_payer : Pubkey;
  system_program : Pubkey }.
Definition instruction_with_remaining_accounts (self : t) (remaining_accounts : list Meta) : Instruction :=
  Ncn NCN_PROGRAM_ID ([new_readonly (config self) false; new (vault_registry self) false;
    new_readonly (ncn self) false; new (account_payer self) false; new_readonly (system_program self) false]
    ++ remaining_accounts) 2
    NCNProgramInstruction.ReallocVaultRegistry.
Definition instruction (self : t) : Instruction :=
  instruction_with_remaining_accounts self [].
End ReallocVaultRegistry.

Module RegisterVault.
Record t := mk { config : Pubkey; vault_registry : Pubkey; ncn : Pubkey; vault : Pubkey;
  ncn_vault_ticket : Pubkey }.
Definition instruction_with_remaining_accounts (self : t) (remaining_accounts : list Meta) : Instruction :=
  Ncn NCN_PROGRAM_ID ([new_readonly (config self) false; new (vault_registry self) false;
    new_readonly (ncn self) false; new_readonly (vault self) false;
    new_readonly (ncn_vault_ticket self) false] ++ remaining_accounts) 3
    NCNProgramInstruction.RegisterVault.
Definition instruction (self : t) : Instruction :=
  instruction_with_remaining_accounts self [].
End RegisterVault.

Module InitializeEpochState.
Record t := mk { epoch_marker : Pubkey; epoch_state : Pubkey; config : Pubkey; ncn : Pubkey;
  account_payer : Pubkey; system_program : Pubkey }.
Definition instruction_with_remaining_accounts (self : t) (epoch : u64)
    (remaining_accounts : list Meta) : Instruction :=
  Ncn NCN_PROGRAM_ID ([new_readonly (epoch_marker self) false; new (epoch_state self) false;
    new_readonly (config self) false; new_readonly (ncn self) false; new (account_payer self) false;
    new_readonly (system_program self) false] ++ remaining_accounts) 4
    (NCNProgramInstruction.InitializeEpochState epoch).
Definition instruction (self : t) (epoch : u64) : Instruction :=
  instruction_with_remaining_accounts self epoch [].
End InitializeEpochState.

Module InitializeWeightTable.
Record t := mk { epoch_marker : Pubkey; epoch_state : Pubkey; vault_registry : Pubkey; ncn : Pubkey;
  weight_table : Pubkey; account_payer : Pubkey; system_program : Pubkey }.
Definition instruction_with_remaining_accounts (self : t) (epoch : u64)
    (remaining_accounts : list Meta) : Instruction :=
  Ncn NCN_PROGRAM_ID ([new_readonly (epoch_marker self) false; new_readonly (epoch_state self) false;
    new_readonly (vault_registry self) false; new_readonly (ncn self) false; new (weight_table self) false;
    new (account_payer self) false; new_readonly (system_program self) false] ++ remaining_accounts) 5
    (NCNProgramInstruction.InitializeWeightTable epoch).
Definition instruction (self : t) (epoch : u64) : Instruction :=
  instruction_with_remaining_accounts self epoch [].
End InitializeWeightTable.

Module SetEpochWeights.
Record t := mk { epoch_state : Pubkey; ncn : Pubkey; vault_registry : Pubkey; weight_table : Pubkey }.
Definition instruction_with_remaining_accounts (self : t) (epoch : u64)
    (remaining_accounts : list Meta) : Instruction :=
  Ncn NCN_PROGRAM_ID ([new (epoch_state self) false; new_readonly (ncn self) false;
    new_readonly (vault_registry self) false; new (weight_table self) false] ++ remaining_accounts) 6
    (NCNProgramInstruction.SetEpochWeights epoch).
Definition instruction (self : t) (epoch : u64) : Instruction :=
  instruction_with_remaining_accounts self epoch [].
End SetEpochWeights.

Module ReallocWeightTable.
Record t := mk { epoch_state : Pubkey; config : Pubkey; weight_table : Pubkey; ncn : Pubkey;
  vault_registry : Pubkey; account_payer : Pubkey; system_program : Pubkey }.
Definition instruction_with_remaining_accounts (self : t) (epoch : u64)
    (remaining_accounts : list Meta) : Instruction :=
  Ncn NCN_PROGRAM_ID ([new (epoch_state self) false; new_readonly (config self) false;
    new (weight_table self) false; new_readonly (ncn self) false; new_readonly (vault_registry self) false;
    new (account_payer self) false; new_readonly (system_program self) false] ++ remaining_accounts) 7
    (NCNProgramInstruction.ReallocWeightTable epoch).
Definition instruction (self : t) (epoch : u64) : Instruction :=
  instruction_with_remaining_accounts self epoch [].
End ReallocWeightTable.

Module InitializeEpochSnapshot.
Record t := mk { epoch_marker : Pubkey; epoch_state : Pubkey; config : Pubkey; ncn : Pubkey;
  weight_table : Pubkey; epoch_snapshot : Pubkey; account_payer : Pubkey; system_program : Pubkey }.
Definition instruction_with_remaining_accounts (self : t) (epoch : u64)
    (remaining_accounts : list Meta) : Instruction :=
  Ncn NCN_PROGRAM_ID ([new_readonly (epoch_marker self) false; new (epoch_state self) false;
    new_readonly (config self) false; new_readonly (ncn self) false; new_readonly (weight_table self) false;
    new (epoch_snapshot self) false; new (account_payer self) false;
    new_readonly (system_program self) false] ++ remaining_accounts) 8
    (NCNProgramInstruction.InitializeEpochSnapshot epoch).
Definition instruction (self : t) (epoch : u64) : Instruction :=
  instruction_with_remaining_accounts self epoch [].
End InitializeEpochSnapshot.

Module InitializeOperatorSnapshot.
Record t := mk { epoch_marker : Pubkey; epoch_state : Pubkey; config : Pubkey; restaking_config : Pubkey;
  ncn : Pubkey; operator : Pubkey; ncn_operator_state : Pubkey; epoch_snapshot : Pubkey;
  operator_snapshot : Pubkey; account_payer : Pubkey; system_program : Pubkey }.
Definition instruction_with_remaining_accounts (self : t) (epoch : u64)
    (remaining_accounts : list Meta) : Instruction :=
  Ncn NCN_PROGRAM_ID ([new_readonly (epoch_marker self) false; new (epoch_state self) false;
    new_readonly (config self) false; new_readonly (restaking_config self) false;
    new_readonly (ncn self) false; new_readonly (operator self) false;
    new_readonly (ncn_operator_state self) false; new (epoch_snapshot self) false;
    new (operator_snapshot self) false; new (account_payer self) false;
    new_readonly (system_program self) false] ++ remaining_accounts) 9
    (NCNProgramInstruction.InitializeOperatorSnapshot epoch).
Definition instruction (self : t) (epoch : u64) : Instruction :=
  instruction_with_remaining_accounts self epoch [].
End InitializeOperatorSnapshot.

Module SnapshotVaultOperatorDelegation.
Record t := mk { epoch_state : Pubkey; config : Pubkey; restaking_config : Pubkey; ncn : Pubkey;
  operator : Pubkey; vault : Pubkey; vault_ncn_ticket : Pubkey; ncn_vault_ticket : Pubkey;
  vault_operator_delegation : Pubkey; weight_table : Pubkey; epoch_snapshot : Pubkey;
  operator_snapshot : Pubkey }.
Definition instruction_with_remaining_accounts (self : t) (epoch : u64)
    (remaining_accounts : list Meta) : Instruction :=
  Ncn NCN_PROGRAM_ID ([new (epoch_state self) false; new_readonly (config self) false;
    new_readonly (restaking_config self) false; new_readonly (ncn self) false;
    new_readonly (operator self) false; new_readonly (vault self) false;
    new_readonly (vault_ncn_ticket self) false; new_readonly (ncn_vault_ticket self) false;
    new_readonly (vault_operator_delegation self) false; new_readonly (weight_table self) false;
    new (epoch_snapshot self) false; new (operator_snapshot self) false] ++ remaining_accounts) 10
    (NCNProgramInstruction.SnapshotVaultOperatorDelegation epoch).
Definition instruction (self : t) (epoch : u64) : Instruction :=
  instruction_with_remaining_accounts self epoch [].
End SnapshotVaultOperatorDelegation.

Module InitializeBallotBox.
Record t := mk { epoch_marker : Pubkey; epoch_state : Pubkey; config : Pubkey; ballot_box : Pubkey;
  ncn : Pubkey; account_payer : Pubkey; system_program : Pubkey; consensus_result : Pubkey }.
Definition instruction_with_remaining_accounts (self : t) (epoch : u64)
    (remaining_accounts : list Meta) : Instruction :=
  Ncn NCN_PROGRAM_ID ([new_readonly (epoch_marker self) false; new_readonly (epoch_state self) false;
    new_readonly (config self) false; new (ballot_box self) false; new_readonly (ncn self) false;
    new (account_payer self) false; new_readonly (system_program self) false;
    new (consensus_result self) false] ++ remaining_accounts) 11
    (NCNProgramInstruction.InitializeBallotBox epoch).
Definition instruction (self : t) (epoch : u64) : Instruction :=
  instruction_with_remaining_accounts self epoch [].
End InitializeBallotBox.

Module ReallocBallotBox.
Record t := mk { epoch_state : Pubkey; config : Pubkey; ballot_box : Pubkey; ncn : Pubkey;
  account_payer : Pubkey; system_program : Pubkey }.
Definition instruction_with_remaining_accounts (self : t) (epoch : u64)
    (remaining_accounts : list Meta) : Instruction :=
  Ncn NCN_PROGRAM_ID ([new (epoch_state self) false; new_readonly (config self) false;
    new (ballot_box self) false; new_readonly (ncn self) false; new (account_payer self) false;
    new_readonly (system_program self) false] ++ remaining_accounts) 12
    (NCNProgramInstruction.ReallocBallotBox epoch).
Definition instruction (self : t) (epoch : u64) : Instruction :=
  instruction_with_remaining_accounts self epoch [].
End ReallocBallotBox.

Module CastVote.
Record t := mk { epoch_state : Pubkey; config : Pubkey; ballot_box : Pubkey; ncn : Pubkey;
  epoch_snapshot : Pubkey; operator_snapshot : Pubkey; operator : Pubkey; operator_voter : Pubkey;
  consensus_result : Pubkey }.
Definition instruction_with_remaining_accounts (self : t) (weather_status : u8) (epoch : u64)
    (remaining_accounts : list Meta) : Instruction :=
  Ncn NCN_PROGRAM_ID ([new (epoch_state self) false; new_readonly (config self) false;
    new (ballot_box self) false; new_readonly (ncn self) false; new_readonly (epoch_snapshot self) false;
    new_readonly (operator_snapshot self) false; new_readonly (operator self) false;
    new_readonly (operator_voter self) true; new (consensus_result self) false] ++ remaining_accounts) 13
    (NCNProgramInstruction.CastVote weather_status epoch).
Definition instruction (self : t) (weather_status : u8) (epoch : u64) : Instruction :=
  instruction_with_remaining_accounts self weather_status epoch [].
End CastVote.

Module InitializeNCNRewardRouter.
Record t := mk { epoch_marker : Pubkey; epoch_state : Pubkey; ncn : Pubkey; ncn_reward_router : Pubkey;
  ncn_reward_receiver : Pubkey; account_payer : Pubkey; system_program : Pubkey }.
Definition instruction_with_remaining_accounts (self : t) (epoch : u64)
    (remaining_accounts : list Meta) : Instruction :=
  Ncn NCN_PROGRAM_ID ([new_readonly (epoch_marker self) false; new_readonly (epoch_state self) false;
    new_readonly (ncn self) false; new (ncn_reward_router self) false; new (ncn_reward_receiver self) false;
    new (account_payer self) false; new_readonly (system_program self) false] ++ remaining_accounts) 14
    (NCNProgramInstruction.InitializeNCNRewardRouter epoch).
Definition instruction (self : t) (epoch : u64) : Instruction :=
  instruction_with_remaining_accounts self epoch [].
End InitializeNCNRewardRouter.

Module ReallocNCNRewardRouter.
Record t := mk { epoch_state : Pubkey; config : Pubkey; ncn_reward_router : Pubkey; ncn : Pubkey;
  account_payer : Pubkey; system_program : Pubkey }.
Definition instruction_with_remaining_accounts (self : t) (epoch : u64)
    (remaining_accounts : list Meta) : Instruction :=
  Ncn NCN_PROGRAM_ID ([new (epoch_state self) false; new_readonly (config self) false;
    new (ncn_reward_router self) false; new_readonly (ncn self) false; new (account_payer self) false;
    new_readonly (system_program self) false] ++ remaining_accounts) 15
    (NCNProgramInstruction.ReallocNCNRewardRouter epoch).
Definition instruction (self : t) (epoch : u64) : Instruction :=
  instruction_with_remaining_accounts self epoch [].
End ReallocNCNRewardRouter.

Module RouteNCNRewards.
Record t := mk { epoch_state : Pubkey; config : Pubkey; ncn : Pubkey; epoch_snapshot : Pubkey;
  ballot_box : Pubkey; ncn_reward_router : Pubkey; ncn_reward_receiver : Pubkey }.
Definition instruction_with_remaining_accounts (self : t) (max_iterations : u16) (epoch : u64)
    (remaining_accounts : list Meta) : Instruction :=
  Ncn NCN_PROGRAM_ID ([new (epoch_state self) false; new_readonly (config self) false;
    new_readonly (ncn self) false; new_readonly (epoch_snapshot self) false;
    new_readonly (ballot_box self) false; new (ncn_reward_router self) false;
    new (ncn_reward_receiver self) false] ++ remaining_accounts) 16
    (NCNProgramInstruction.RouteNCNRewards max_iterations epoch).
Definition instruction (self : t) (max_iterations : u16) (epoch : u64) : Instruction :=
  instruction_with_remaining_accounts self max_iterations epoch [].
End RouteNCNRewards.

Module DistributeProtocolRewards.
Record t := mk { epoch_state : Pubkey; config : Pubkey; ncn : Pubkey; ncn_reward_router : Pubkey;
  ncn_reward_receiver : Pubkey; protocol_fee_wallet : Pubkey; system_program : Pubkey }.
Definition instruction_with_remaining_accounts (self : t) (epoch : u64)
    (remaining_accounts : list Meta) : Instruction :=
  Ncn NCN_PROGRAM_ID ([new (epoch_state self) false; new_readonly (config self) false;
    new_readonly (ncn self) false; new (ncn_reward_router self) false; new (ncn_reward_receiver self) false;
    new (protocol_fee_wallet self) false; new_readonly (system_program self) false]
    ++ remaining_accounts) 17
    (NCNProgramInstruction.DistributeProtocolRewards epoch).
Definition instruction (self : t) (epoch : u64) : Instruction :=
  instruction_with_remaining_accounts self epoch [].
End DistributeProtocolRewards.

Module DistributeNCNRewards.
Record t := mk { epoch_state : Pubkey; config : Pubkey; ncn : Pubkey; ncn_reward_router : Pubkey;
  ncn_reward_receiver : Pubkey; ncn_fee_wallet : Pubkey; system_program : Pubkey }.
Definition instruction_with_remaining_accounts (self : t) (epoch : u64)
    (remaining_accounts : list Meta) : Instruction :=
  Ncn NCN_PROGRAM_ID ([new (epoch_state self) false; new_readonly (config self) false;
    new_readonly (ncn self) false; new (ncn_reward_router self) false; new (ncn_reward_receiver self) false;
    new (ncn_fee_wallet self) false; new_readonly (system_program self) false] ++ remaining_accounts) 18
    (NCNProgramInstruction.DistributeNCNRewards epoch).
Definition instruction (self : t) (epoch : u64) : Instruction :=
  instruction_with_remaining_accounts self epoch [].
End DistributeNCNRewards.

Module InitializeOperatorVaultRewardRouter.
Record t := mk { epoch_marker : Pubkey; epoch_state : Pubkey; ncn : Pubkey; operator : Pubkey;
  operator_snapshot : Pubkey; operator_vault_reward_router : Pubkey;
  operator_vault_reward_receiver : Pubkey; account_payer : Pubkey; system_program : Pubkey }.
Definition instruction_with_remaining_accounts (self : t) (epoch : u64)
    (remaining_accounts : list Meta) : Instruction :=
  Ncn NCN_PROGRAM_ID ([new_readonly (epoch_marker self) false; new (epoch_state self) false;
    new_readonly (ncn self) false; new_readonly (operator self) false;
    new_readonly (operator_snapshot self) false; new (operator_vault_reward_router self) false;
    new (operator_vault_reward_receiver self) false; new (account_payer self) false;
    new_readonly (system_program self) false] ++ remaining_accounts) 19
    (NCNProgramInstruction.InitializeOperatorVaultRewardRouter epoch).
Definition instruction (self : t) (epoch : u64) : Instruction :=
  instruction_with_remaining_accounts self epoch [].
End InitializeOperatorVaultRewardRouter.

Module DistributeOperatorVaultRewardRoute.
Record t := mk { epoch_state : Pubkey; config : Pubkey; ncn : Pubkey; operator : Pubkey;
  ncn_reward_router : Pubkey; ncn_reward_receiver : Pubkey; operator_vault_reward_router : Pubkey;
  operator_vault_reward_receiver : Pubkey; system_program : Pubkey }.
Definition instruction_with_remaining_accounts (self : t) (epoch : u64)
    (remaining_accounts : list Meta) : Instruction :=
  Ncn NCN_PROGRAM_ID ([new (epoch_state self) false; new_readonly (config self) false;
    new_readonly (ncn self) false; new_readonly (operator self) false; new (ncn_reward_router self) false;
    new (ncn_reward_receiver self) false; new_readonly (operator_vault_reward_router self) false;
    new (operator_vault_reward_receiver self) false; new_readonly (system_program self) false]
    ++ remaining_accounts) 20
    (NCNProgramInstruction.DistributeOperatorVaultRewardRoute epoch).
Definition instruction (self : t) (epoch : u64) : Instruction :=
  instruction_with_remaining_accounts self epoch [].
End DistributeOperatorVaultRewardRoute.

Module RouteOperatorVaultRewards.
Record t := mk { epoch_state : Pubkey; ncn : Pubkey; operator : Pubkey; operator_snapshot : Pubkey;
  operator_vault_reward_router : Pubkey; operator_vault_reward_receiver : Pubkey }.
Definition instruction_with_remaining_accounts (self : t) (max_iterations : u16) (epoch : u64)
    (remaining_accounts : list Meta) : Instruction :=
  Ncn NCN_PROGRAM_ID ([new (epoch_state self) false; new_readonly (ncn self) false;
    new_readonly (operator self) false; new_readonly (operator_snapshot self) false;
    new (operator_vault_reward_router self) false; new (operator_vault_reward_receiver self) false]
    ++ remaining_accounts) 21
    (NCNProgramInstruction.RouteOperatorVaultRewards max_iterations epoch).
Definition instruction (self : t) (max_iterations : u16) (epoch : u64) : Instruction :=
  instruction_with_remaining_accounts self max_iterations epoch [].
End RouteOperatorVaultRewards.

Module CloseEpochAccount.
Record t := mk { epoch_marker : Pubkey; epoch_state : Pubkey; config : Pubkey; ncn : Pubkey;
  account_to_close : Pubkey; account_payer : Pubkey; system_program : Pubkey;
  ncn_fee_wallet : option Pubkey; receiver_to_close : option Pubkey }.
Definition instruction_with_remaining_accounts (self : t) (epoch : u64)
    (remaining_accounts : list Meta) : Instruction :=
  Ncn NCN_PROGRAM_ID ([new (epoch_marker self) false; new (epoch_state self) false;
    new_readonly (config self) false; new_readonly (ncn self) false; new (account_to_close self) false;
    new (account_payer self) false; new_readonly (system_program self) false;
    optional (ncn_fee_wallet self); optional (receiver_to_close self)] ++ remaining_accounts) 22
    (NCNProgramInstruction.CloseEpochAccount epoch).
Definition instruction (self : t) (epoch : u64) : Instruction :=
  instruction_with_remaining_accounts self epoch [].
End CloseEpochAccount.

Module DistributeOperatorRewards.
Record t := mk { epoch_state : Pubkey; config : Pubkey; ncn : Pubkey; operator : Pubkey;
  operator_snapshot : Pubkey; operator_vault_reward_router : Pubkey;
  operator_vault_reward_receiver : Pubkey; system_program : Pubkey }.
Definition instruction_with_remaining_accounts (self : t) (epoch : u64)
    (remaining_accounts : list Meta) : Instruction :=
  Ncn NCN_PROGRAM_ID ([new (epoch_state self) false; new_readonly (config self) false;
    new_readonly (ncn self) false; new (operator self) false; new (operator_snapshot self) false;
    new (operator_vault_reward_router self) false; new (operator_vault_reward_receiver self) false;
    new_readonly (system_program self) false] ++ remaining_accounts) 23
    (NCNProgramInstruction.DistributeOperatorRewards epoch).
Definition instruction (self : t) (epoch : u64) : Instruction :=
  instruction_with_remaining_accounts self epoch [].
End DistributeOperatorRewards.

Module DistributeVaultRewards.
Record t := mk { epoch_state : Pubkey; config : Pubkey; ncn : Pubkey; operator : Pubkey; vault : Pubkey;
  operator_snapshot : Pubkey; operator_vault_reward_router : Pubkey;
  operator_vault_reward_receiver : Pubkey; system_program : Pubkey }.
Definition instruction_with_remaining_accounts (self : t) (epoch : u64)
    (remaining_accounts : list Meta) : Instruction :=
  Ncn NCN_PROGRAM_ID ([new (epoch_state self) false; new_readonly (config self) false;
    new_readonly (ncn self) false; new_readonly (operator self) false; new (vault self) false;
    new (operator_snapshot self) false; new (operator_vault_reward_router self) false;
    new (operator_vault_reward_receiver self) false; new_readonly (system_program self) false]
    ++ remaining_accounts) 24
    (NCNProgramInstruction.DistributeVaultRewards epoch).
Definition instruction (self : t) (epoch : u64) : Instruction :=
  instruction_with_remaining_accounts self epoch [].
End DistributeVaultRewards.

Module AdminSetParameters.
Record t := mk { config : Pubkey; ncn : Pubkey; ncn_admin : Pubkey }.
Definition instruction_with_remaining_accounts (self : t)
    (starting_valid_epoch epochs_before_stall epochs_after_consensus_before_close valid_slots_after_consensus
      : option u64)
    (remaining_accounts : list Meta) : Instruction :=
  Ncn NCN_PROGRAM_ID ([new (config self) false; new_readonly (ncn self) false;
    new_readonly (ncn_admin self) true] ++ remaining_accounts) 25
    (NCNProgramInstruction.AdminSetParameters starting_valid_epoch epochs_before_stall
      epochs_after_consensus_before_close valid_slots_after_consensus).
Definition instruction (self : t)
    (starting_valid_epoch epochs_before_stall epochs_after_consensus_before_close valid_slots_after_consensus
      : option u64) : Instruction :=
  instruction_with_remaining_accounts self starting_valid_epoch epochs_before_stall
    epochs_after_consensus_before_close valid_slots_after_consensus [].
End AdminSetParameters.

Module AdminSetNewAdmin.
Record t := mk { config : Pubkey; ncn : Pubkey; ncn_admin : Pubkey; new_admin : Pubkey }.
Definition instruction_with_remaining_accounts (self : t) (role : ConfigAdminRole.t)
    (remaining_accounts : list Meta) : Instruction :=
  Ncn NCN_PROGRAM_ID ([new (config self) false; new_readonly (ncn self) false;
    new_readonly (ncn_admin self) true; new_readonly (new_admin self) false] ++ remaining_accounts) 26
    (NCNProgramInstruction.AdminSetNewAdmin role).
Definition instruction (self : t) (role : ConfigAdminRole.t) : Instruction :=
  instruction_with_remaining_accounts self role [].
End AdminSetNewAdmin.

Module AdminSetTieBreaker.
Record t := mk { epoch_state : Pubkey; config : Pubkey; ballot_box : Pubkey; ncn : Pubkey;
  tie_breaker_admin : Pubkey }.
Definition instruction_with_remaining_accounts (self : t) (weather_status : u8) (epoch : u64)
    (remaining_accounts : list Meta) : Instruction :=
  Ncn NCN_PROGRAM_ID ([new (epoch_state self) false; new_readonly (config self) false;
    new (ballot_box self) false; new_readonly (ncn self) false; new_readonly (tie_breaker_admin self) true]
    ++ remaining_accounts) 27
    (NCNProgramInstruction.AdminSetTieBreaker weather_status epoch).
Definition instruction (self : t) (weather_status : u8) (epoch : u64) : Instruction :=
  instruction_with_remaining_accounts self weather_status epoch [].
End AdminSetTieBreaker.

Module AdminSetWeight.
Record t := mk { epoch_state : Pubkey; ncn : Pubkey; weight_table : Pubkey; weight_table_admin : Pubkey }.
Definition instruction_with_remaining_accounts (self : t) (st_mint : Pubkey) (weight : u128) (epoch : u64)
    (remaining_accounts : list Meta) : Instruction :=
  Ncn NCN_PROGRAM_ID ([new (epoch_state self) false; new_readonly (ncn self) false;
    new (weight_table self) false; new_readonly (weight_table_admin self) true] ++ remaining_accounts) 28
    (NCNProgramInstruction.AdminSetWeight st_mint weight epoch).
Definition instruction (self : t) (st_mint : Pubkey) (weight : u128) (epoch : u64) : Instruction :=
  instruction_with_remaining_accounts self st_mint weight epoch [].
End AdminSetWeight.

Module AdminRegisterStMint.
Record t := mk { config : Pubkey; ncn : Pubkey; st_mint : Pubkey; vault_registry : Pubkey; admin : Pubkey }.
Definition instruction_with_remaining_accounts (self : t) (weight : option u128)
    (remaining_accounts : list Meta) : Instruction :=
  Ncn NCN_PROGRAM_ID ([new_readonly (config self) false; new_readonly (ncn self) false;
    new_readonly (st_mint self) false; new (vault_registry self) false; new (admin self) true]
    ++ remaining_accounts) 29
    (NCNProgramInstruction.AdminRegisterStMint weight).
Definition instruction (self : t) (weight : option u128) : Instruction :=
  instruction_with_remaining_accounts self weight [].
End AdminRegisterStMint.

Module AdminSetStMint.
Record t := mk { config : Pubkey; ncn : Pubkey; vault_registry : Pubkey; admin : Pubkey }.
Definition instruction_with_remaining_accounts (self : t) (st_mint : Pubkey) (weight : option u128)
    (remaining_accounts : list Meta) : Instruction :=
  Ncn NCN_PROGRAM_ID ([new_readonly (config self) false; new_readonly (ncn self) false;
    new (vault_registry self) false; new (admin self) true] ++ remaining_accounts) 30
    (NCNProgramInstruction.AdminSetStMint st_mint weight).
Definition instruction (self : t) (st_mint : Pubkey) (weight : option u128) : Instruction :=
  instruction_with_remaining_accounts self st_mint weight [].
End AdminSetStMint.
