(* ===== verification/Builders.v ===== *)
(** The builders of the generated client
    ([clients/rust/ncn_program/src/generated/instructions], the [...Builder]
    types): the accounts and arguments of an instruction are set one by one, in
    any order, and [instruction] panics on the first one that is needed and was
    not set. A method that sets a field is named [set_] and the field. The
    commands of [Commands] set every field before they call [instruction];
    any such chain of calls is shown to give the instruction that [Client] has
    for those accounts and arguments. *)
From S2P Require Import Prelude Errors Precise Stake Registry Weights Fees Snapshots Voting EpochStates.
From S2P Require Import NcnRouter OperatorRouter Consensus Accounts Machine Program Client.

(** [Option::expect] panics on [None]. *)
Definition expect {E A} (x : option A) : result E A := match x with Some a => Ok a | None => Panic end.
(** [Pubkey] of the text [11111111111111111111111111111111]: zeros. *)
Definition SYSTEM_PROGRAM : Pubkey := 0.

(** A setter of an argument that need not be set. *)
Definition given {A B} (set : A -> B -> B) (x : option A) (b : B) : B :=
  match x with Some x => set x b | None => b end.
Definition is_set {A} (x : option A) : bool := match x with Some _ => true | None => false end.
(** One after another. *)
Definition run {T} (steps : list (T -> T)) (b : T) : T := fold_left (fun b f => f b) steps b.
(** The calls of [setters] in some order, each of them once. *)
Definition reached {T} (new : T) (setters : list (T -> T)) (b : T) : Prop :=
  exists steps, steps ≡ₚ setters /\ b = run steps new.

(** ** One builder per instruction

    In each, [setters] are the calls that set what the instruction has, and
    [needed] says which of the fields without a default are set. *)

Module InitializeConfigBuilder.
Record t := mk { config : option Pubkey; ncn : option Pubkey; ncn_fee_wallet : option Pubkey;
  ncn_admin : option Pubkey; tie_breaker_admin : option Pubkey; account_payer : option Pubkey;
  system_program : option Pubkey; epochs_before_stall : option u64;
  epochs_after_consensus_before_close : option u64; valid_slots_after_consensus : option u64;
  ncn_fee_bps : option u16; __remaining_accounts : list Meta }.
#[global] Instance eta_t : Eta t := fun b => mk (config b) (ncn b) (ncn_fee_wallet b) (ncn_admin b)
    (tie_breaker_admin b) (account_payer b) (system_program b) (epochs_before_stall b)
    (epochs_after_consensus_before_close b) (valid_slots_after_consensus b) (ncn_fee_bps b)
    (__remaining_accounts b).
Definition new : t := mk None None None None None None None None None None None [].
Definition set_config (x : Pubkey) (self : t) : t := self <| config := Some x |>.
Definition set_ncn (x : Pubkey) (self : t) : t := self <| ncn := Some x |>.
Definition set_ncn_fee_wallet (x : Pubkey) (self : t) : t := self <| ncn_fee_wallet := Some x |>.
Definition set_ncn_admin (x : Pubkey) (self : t) : t := self <| ncn_admin := Some x |>.
Definition set_tie_breaker_admin (x : Pubkey) (self : t) : t := self <| tie_breaker_admin := Some x |>.
Definition set_account_payer (x : Pubkey) (self : t) : t := self <| account_payer := Some x |>.
Definition set_system_program (x : Pubkey) (self : t) : t := self <| system_program := Some x |>.
Definition set_epochs_before_stall (x : u64) (self : t) : t := self <| epochs_before_stall := Some x |>.
Definition set_epochs_after_consensus_before_close (x : u64) (self : t) : t :=
  self <| epochs_after_consensus_before_close := Some x |>.
Definition set_valid_slots_after_consensus (x : u64) (self : t) : t :=
  self <| valid_slots_after_consensus := Some x |>.
Definition set_ncn_fee_bps (x : u16) (self : t) : t := self <| ncn_fee_bps := Some x |>.
Definition add_remaining_account (account : Meta) (self : t) : t :=
  self <| __remaining_accounts := __remaining_accounts self ++ [account] |>.
Definition add_remaining_accounts (accounts : list Meta) (self : t) : t :=
  self <| __remaining_accounts := __remaining_accounts self ++ accounts |>.
Definition instruction (self : t) : result Empty_set Instruction :=
  let? config := expect (config self) in
  let? ncn := expect (ncn self) in
  let? ncn_fee_wallet := expect (ncn_fee_wallet self) in
  let? ncn_admin := expect (ncn_admin self) in
  let? tie_breaker_admin := expect (tie_breaker_admin self) in
  let? account_payer := expect (account_payer self) in
  let? epochs_before_stall := expect (epochs_before_stall self) in
  let? epochs_after_consensus_before_close := expect (epochs_after_consensus_before_close self) in
  let? valid_slots_after_consensus := expect (valid_slots_after_consensus self) in
  let? ncn_fee_bps := expect (ncn_fee_bps self) in
  Ok (InitializeConfig.instruction_with_remaining_accounts (InitializeConfig.mk config ncn ncn_fee_wallet
    ncn_admin tie_breaker_admin account_payer (default SYSTEM_PROGRAM (system_program self)))
    epochs_before_stall epochs_after_consensus_before_close valid_slots_after_consensus ncn_fee_bps
    (__remaining_accounts self)).
Definition setters (a : InitializeConfig.t) (epochs_before_stall : u64)
    (epochs_after_consensus_before_close : u64) (valid_slots_after_consensus : u64) (ncn_fee_bps : u16)
    (remaining_accounts : list Meta) : list (t -> t) :=
  [set_config (InitializeConfig.config a); set_ncn (InitializeConfig.ncn a);
   set_ncn_fee_wallet (InitializeConfig.ncn_fee_wallet a); set_ncn_admin (InitializeConfig.ncn_admin a);
   set_tie_breaker_admin (InitializeConfig.tie_breaker_admin a);
   set_account_payer (InitializeConfig.account_payer a);
   set_system_program (InitializeConfig.system_program a); set_epochs_before_stall epochs_before_stall;
   set_epochs_after_consensus_before_close epochs_after_consensus_before_close;
   set_valid_slots_after_consensus valid_slots_after_consensus; set_ncn_fee_bps ncn_fee_bps;
   add_remaining_accounts remaining_accounts].
Definition needed (self : t) : list bool := [is_set (config self); is_set (ncn self);
  is_set (ncn_fee_wallet self); is_set (ncn_admin self); is_set (tie_breaker_admin self);
  is_set (account_payer self); is_set (epochs_before_stall self);
  is_set (epochs_after_consensus_before_close self); is_set (valid_slots_after_consensus self);
  is_set (ncn_fee_bps self)].
End InitializeConfigBuilder.

Module InitializeVaultRegistryBuilder.
Record t := mk { config : option Pubkey; vault_registry : option Pubkey; ncn : option Pubkey;
  account_payer : option Pubkey; system_program : option Pubkey; __remaining_accounts : list Meta }.
#[global] Instance eta_t : Eta t := fun b => mk (config b) (vault_registry b) (ncn b) (account_payer b)
    (system_program b) (__remaining_accounts b).
Definition new : t := mk None None None None None [].
Definition set_config (x : Pubkey) (self : t) : t := self <| config := Some x |>.
Definition set_vault_registry (x : Pubkey) (self : t) : t := self <| vault_registry := Some x |>.
Definition set_ncn (x : Pubkey) (self : t) : t := self <| ncn := Some x |>.
Definition set_account_payer (x : Pubkey) (self : t) : t := self <| account_payer := Some x |>.
Definition set_system_program (x : Pubkey) (self : t) : t := self <| system_program := Some x |>.
Definition add_remaining_account (account : Meta) (self : t) : t :=
  self <| __remaining_accounts := __remaining_accounts self ++ [account] |>.
Definition add_remaining_accounts (accounts : list Meta) (self : t) : t :=
  self <| __remaining_accounts := __remaining_accounts self ++ accounts |>.
Definition instruction (self : t) : result Empty_set Instruction :=
  let? config := expect (config self) in
  let? vault_registry := expect (vault_registry self) in
  let? ncn := expect (ncn self) in
  let? account_payer := expect (account_payer self) in
  Ok (InitializeVaultRegistry.instruction_with_remaining_accounts (InitializeVaultRegistry.mk config
    vault_registry ncn account_payer (default SYSTEM_PROGRAM (system_program self)))
    (__remaining_accounts self)).
Definition setters (a : InitializeVaultRegistry.t) (remaining_accounts : list Meta) : list (t -> t) :=
  [set_config (InitializeVaultRegistry.config a);
   set_vault_registry (InitializeVaultRegistry.vault_registry a); set_ncn (InitializeVaultRegistry.ncn a);
   set_account_payer (InitializeVaultRegistry.account_payer a);
   set_system_program (InitializeVaultRegistry.system_program a);
   add_remaining_accounts remaining_accounts].
Definition needed (self : t) : list bool := [is_set (config self); is_set (vault_registry self);
  is_set (ncn self); is_set (account_payer self)].
End InitializeVaultRegistryBuilder.

Module ReallocVaultRegistryBuilder.
Record t := mk { config : option Pubkey; vault_registry : option Pubkey; ncn : option Pubkey;
  account_payer : option Pubkey; system_program : option Pubkey; __remaining_accounts : list Meta }.
#[global] Instance eta_t : Eta t := fun b => mk (config b) (vault_registry b) (ncn b) (account_payer b)
    (system_program b) (__remaining_accounts b).
Definition new : t := mk None None None None None [].
Definition set_config (x : Pubkey) (self : t) : t := self <| config := Some x |>.
Definition set_vault_registry (x : Pubkey) (self : t) : t := self <| vault_registry := Some x |>.
Definition set_ncn (x : Pubkey) (self : t) : t := self <| ncn := Some x |>.
Definition set_account_payer (x : Pubkey) (self : t) : t := self <| account_payer := Some x |>.
Definition set_system_program (x : Pubkey) (self : t) : t := self <| system_program := Some x |>.
Definition add_remaining_account (account : Meta) (self : t) : t :=
  self <| __remaining_accounts := __remaining_accounts self ++ [account] |>.
Definition add_remaining_accounts (accounts : list Meta) (self : t) : t :=
  self <| __remaining_accounts := __remaining_accounts self ++ accounts |>.
Definition instruction (self : t) : result Empty_set Instruction :=
  let? config := expect (config self) in
  let? vault_registry := expect (vault_registry self) in
  let? ncn := expect (ncn self) in
  let? account_payer := expect (account_payer self) in
  Ok (ReallocVaultRegistry.instruction_with_remaining_accounts (ReallocVaultRegistry.mk config
    vault_registry ncn account_payer (default SYSTEM_PROGRAM (system_program self)))
    (__remaining_accounts self)).
Definition setters (a : ReallocVaultRegistry.t) (remaining_accounts : list Meta) : list (t -> t) :=
  [set_config (ReallocVaultRegistry.config a); set_vault_registry (ReallocVaultRegistry.vault_registry a);
   set_ncn (ReallocVaultRegistry.ncn a); set_account_payer (ReallocVaultRegistry.account_payer a);
   set_system_program (ReallocVaultRegistry.system_program a); add_remaining_accounts remaining_accounts].
Definition needed (self : t) : list bool := [is_set (config self); is_set (vault_registry self);
  is_set (ncn self); is_set (account_payer self)].
End ReallocVaultRegistryBuilder.

Module RegisterVaultBuilder.
Record t := mk { config : option Pubkey; vault_registry : option Pubkey; ncn : option Pubkey;
  vault : option Pubkey; ncn_vault_ticket : option Pubkey; __remaining_accounts : list Meta }.
#[global] Instance eta_t : Eta t := fun b => mk (config b) (vault_registry b) (ncn b) (vault b)
    (ncn_vault_ticket b) (__remaining_accounts b).
Definition new : t := mk None None None None None [].
Definition set_config (x : Pubkey) (self : t) : t := self <| config := Some x |>.
Definition set_vault_registry (x : Pubkey) (self : t) : t := self <| vault_registry := Some x |>.
Definition set_ncn (x : Pubkey) (self : t) : t := self <| ncn := Some x |>.
Definition set_vault (x : Pubkey) (self : t) : t := self <| vault := Some x |>.
Definition set_ncn_vault_ticket (x : Pubkey) (self : t) : t := self <| ncn_vault_ticket := Some x |>.
Definition add_remaining_account (account : Meta) (self : t) : t :=
  self <| __remaining_accounts := __remaining_accounts self ++ [account] |>.
Definition add_remaining_accounts (accounts : list Meta) (self : t) : t :=
  self <| __remaining_accounts := __remaining_accounts self ++ accounts |>.
Definition instruction (self : t) : result Empty_set Instruction :=
  let? config := expect (config self) in
  let? vault_registry := expect (vault_registry self) in
  let? ncn := expect (ncn self) in
  let? vault := expect (vault self) in
  let? ncn_vault_ticket := expect (ncn_vault_ticket self) in
  Ok (RegisterVault.instruction_with_remaining_accounts (RegisterVault.mk config vault_registry ncn vault
    ncn_vault_ticket) (__remaining_accounts self)).
Definition setters (a : RegisterVault.t) (remaining_accounts : list Meta) : list (t -> t) :=
  [set_config (RegisterVault.config a); set_vault_registry (RegisterVault.vault_registry a);
   set_ncn (RegisterVault.ncn a); set_vault (RegisterVault.vault a);
   set_ncn_vault_ticket (RegisterVault.ncn_vault_ticket a); add_remaining_accounts remaining_accounts].
Definition needed (self : t) : list bool := [is_set (config self); is_set (vault_registry self);
  is_set (ncn self); is_set (vault self); is_set (ncn_vault_ticket self)].
End RegisterVaultBuilder.

Module InitializeEpochStateBuilder.
Record t := mk { epoch_marker : option Pubkey; epoch_state : option Pubkey; config : option Pubkey;
  ncn : option Pubkey; account_payer : option Pubkey; system_program : option Pubkey; epoch : option u64;
  __remaining_accounts : list Meta }.
#[global] Instance eta_t : Eta t := fun b => mk (epoch_marker b) (epoch_state b) (config b) (ncn b)
    (account_payer b) (system_program b) (epoch b) (__remaining_accounts b).
Definition new : t := mk None None None None None None None [].
Definition set_epoch_marker (x : Pubkey) (self : t) : t := self <| epoch_marker := Some x |>.
Definition set_epoch_state (x : Pubkey) (self : t) : t := self <| epoch_state := Some x |>.
Definition set_config (x : Pubkey) (self : t) : t := self <| config := Some x |>.
Definition set_ncn (x : Pubkey) (self : t) : t := self <| ncn := Some x |>.
Definition set_account_payer (x : Pubkey) (self : t) : t := self <| account_payer := Some x |>.
Definition set_system_program (x : Pubkey) (self : t) : t := self <| system_program := Some x |>.
Definition set_epoch (x : u64) (self : t) : t := self <| epoch := Some x |>.
Definition add_remaining_account (account : Meta) (self : t) : t :=
  self <| __remaining_accounts := __remaining_accounts self ++ [account] |>.
Definition add_remaining_accounts (accounts : list Meta) (self : t) : t :=
  self <| __remaining_accounts := __remaining_accounts self ++ accounts |>.
Definition instruction (self : t) : result Empty_set Instruction :=
  let? epoch_marker := expect (epoch_marker self) in
  let? epoch_state := expect (epoch_state self) in
  let? config := expect (config self) in
  let? ncn := expect (ncn self) in
  let? account_payer := expect (account_payer self) in
  let? epoch := expect (epoch self) in
  Ok (InitializeEpochState.instruction_with_remaining_accounts (InitializeEpochState.mk epoch_marker
    epoch_state config ncn account_payer (default SYSTEM_PROGRAM (system_program self))) epoch
    (__remaining_accounts self)).
Definition setters (a : InitializeEpochState.t) (epoch : u64) (remaining_accounts : list Meta) :
    list (t -> t) :=
  [set_epoch_marker (InitializeEpochState.epoch_marker a);
   set_epoch_state (InitializeEpochState.epoch_state a); set_config (InitializeEpochState.config a);
   set_ncn (InitializeEpochState.ncn a); set_account_payer (InitializeEpochState.account_payer a);
   set_system_program (InitializeEpochState.system_program a); set_epoch epoch;
   add_remaining_accounts remaining_accounts].
Definition needed (self : t) : list bool := [is_set (epoch_marker self); is_set (epoch_state self);
  is_set (config self); is_set (ncn self); is_set (account_payer self); is_set (epoch self)].
End InitializeEpochStateBuilder.

Module InitializeWeightTableBuilder.
Record t := mk { epoch_marker : option Pubkey; epoch_state : option Pubkey; vault_registry : option Pubkey;
  ncn : option Pubkey; weight_table : option Pubkey; account_payer : option Pubkey;
  system_program : option Pubkey; epoch : option u64; __remaining_accounts : list Meta }.
#[global] Instance eta_t : Eta t := fun b => mk (epoch_marker b) (epoch_state b) (vault_registry b) (ncn b)
    (weight_table b) (account_payer b) (system_program b) (epoch b) (__remaining_accounts b).
Definition new : t := mk None None None None None None None None [].
Definition set_epoch_marker (x : Pubkey) (self : t) : t := self <| epoch_marker := Some x |>.
Definition set_epoch_state (x : Pubkey) (self : t) : t := self <| epoch_state := Some x |>.
Definition set_vault_registry (x : Pubkey) (self : t) : t := self <| vault_registry := Some x |>.
Definition set_ncn (x : Pubkey) (self : t) : t := self <| ncn := Some x |>.
Definition set_weight_table (x : Pubkey) (self : t) : t := self <| weight_table := Some x |>.
Definition set_account_payer (x : Pubkey) (self : t) : t := self <| account_payer := Some x |>.
Definition set_system_program (x : Pubkey) (self : t) : t := self <| system_program := Some x |>.
Definition set_epoch (x : u64) (self : t) : t := self <| epoch := Some x |>.
Definition add_remaining_account (account : Meta) (self : t) : t :=
  self <| __remaining_accounts := __remaining_accounts self ++ [account] |>.
Definition add_remaining_accounts (accounts : list Meta) (self : t) : t :=
  self <| __remaining_accounts := __remaining_accounts self ++ accounts |>.
Definition instruction (self : t) : result Empty_set Instruction :=
  let? epoch_marker := expect (epoch_marker self) in
  let? epoch_state := expect (epoch_state self) in
  let? vault_registry := expect (vault_registry self) in
  let? ncn := expect (ncn self) in
  let? weight_table := expect (weight_table self) in
  let? account_payer := expect (account_payer self) in
  let? epoch := expect (epoch self) in
  Ok (InitializeWeightTable.instruction_with_remaining_accounts (InitializeWeightTable.mk epoch_marker
    epoch_state vault_registry ncn weight_table account_payer
    (default SYSTEM_PROGRAM (system_program self))) epoch (__remaining_accounts self)).
Definition setters (a : InitializeWeightTable.t) (epoch : u64) (remaining_accounts : list Meta) :
    list (t -> t) :=
  [set_epoch_marker (InitializeWeightTable.epoch_marker a);
   set_epoch_state (InitializeWeightTable.epoch_state a);
   set_vault_registry (InitializeWeightTable.vault_registry a); set_ncn (InitializeWeightTable.ncn a);
   set_weight_table (InitializeWeightTable.weight_table a);
   set_account_payer (InitializeWeightTable.account_payer a);
   set_system_program (InitializeWeightTable.system_program a); set_epoch epoch;
   add_remaining_accounts remaining_accounts].
Definition needed (self : t) : list bool := [is_set (epoch_marker self); is_set (epoch_state self);
  is_set (vault_registry self); is_set (ncn self); is_set (weight_table self); is_set (account_payer self);
  is_set (epoch self)].
End InitializeWeightTableBuilder.

Module SetEpochWeightsBuilder.
Record t := mk { epoch_state : option Pubkey; ncn : option Pubkey; vault_registry : option Pubkey;
  weight_table : option Pubkey; epoch : option u64; __remaining_accounts : list Meta }.
#[global] Instance eta_t : Eta t := fun b => mk (epoch_state b) (ncn b) (vault_registry b) (weight_table b)
    (epoch b) (__remaining_accounts b).
Definition new : t := mk None None None None None [].
Definition set_epoch_state (x : Pubkey) (self : t) : t := self <| epoch_state := Some x |>.
Definition set_ncn (x : Pubkey) (self : t) : t := self <| ncn := Some x |>.
Definition set_vault_registry (x : Pubkey) (self : t) : t := self <| vault_registry := Some x |>.
Definition set_weight_table (x : Pubkey) (self : t) : t := self <| weight_table := Some x |>.
Definition set_epoch (x : u64) (self : t) : t := self <| epoch := Some x |>.
Definition add_remaining_account (account : Meta) (self : t) : t :=
  self <| __remaining_accounts := __remaining_accounts self ++ [account] |>.
Definition add_remaining_accounts (accounts : list Meta) (self : t) : t :=
  self <| __remaining_accounts := __remaining_accounts self ++ accounts |>.
Definition instruction (self : t) : result Empty_set Instruction :=
  let? epoch_state := expect (epoch_state self) in
  let? ncn := expect (ncn self) in
  let? vault_registry := expect (vault_registry self) in
  let? weight_table := expect (weight_table self) in
  let? epoch := expect (epoch self) in
  Ok (SetEpochWeights.instruction_with_remaining_accounts (SetEpochWeights.mk epoch_state ncn vault_registry
    weight_table) epoch (__remaining_accounts self)).
Definition setters (a : SetEpochWeights.t) (epoch : u64) (remaining_accounts : list Meta) : list (t -> t) :=
  [set_epoch_state (SetEpochWeights.epoch_state a); set_ncn (SetEpochWeights.ncn a);
   set_vault_registry (SetEpochWeights.vault_registry a); set_weight_table (SetEpochWeights.weight_table a);
   set_epoch epoch; add_remaining_accounts remaining_accounts].
Definition needed (self : t) : list bool := [is_set (epoch_state self); is_set (ncn self);
  is_set (vault_registry self); is_set (weight_table self); is_set (epoch self)].
End SetEpochWeightsBuilder.

Module ReallocWeightTableBuilder.
Record t := mk { epoch_state : option Pubkey; config : option Pubkey; weight_table : option Pubkey;
  ncn : option Pubkey; vault_registry : option Pubkey; account_payer : option Pubkey;
  system_program : option Pubkey; epoch : option u64; __remaining_accounts : list Meta }.
#[global] Instance eta_t : Eta t := fun b => mk (epoch_state b) (config b) (weight_table b) (ncn b)
    (vault_registry b) (account_payer b) (system_program b) (epoch b) (__remaining_accounts b).
Definition new : t := mk None None None None None None None None [].
Definition set_epoch_state (x : Pubkey) (self : t) : t := self <| epoch_state := Some x |>.
Definition set_config (x : Pubkey) (self : t) : t := self <| config := Some x |>.
Definition set_weight_table (x : Pubkey) (self : t) : t := self <| weight_table := Some x |>.
Definition set_ncn (x : Pubkey) (self : t) : t := self <| ncn := Some x |>.
Definition set_vault_registry (x : Pubkey) (self : t) : t := self <| vault_registry := Some x |>.
Definition set_account_payer (x : Pubkey) (self : t) : t := self <| account_payer := Some x |>.
Definition set_system_program (x : Pubkey) (self : t) : t := self <| system_program := Some x |>.
Definition set_epoch (x : u64) (self : t) : t := self <| epoch := Some x |>.
Definition add_remaining_account (account : Meta) (self : t) : t :=
  self <| __remaining_accounts := __remaining_accounts self ++ [account] |>.
Definition add_remaining_accounts (accounts : list Meta) (self : t) : t :=
  self <| __remaining_accounts := __remaining_accounts self ++ accounts |>.
Definition instruction (self : t) : result Empty_set Instruction :=
  let? epoch_state := expect (epoch_state self) in
  let? config := expect (config self) in
  let? weight_table := expect (weight_table self) in
  let? ncn := expect (ncn self) in
  let? vault_registry := expect (vault_registry self) in
  let? account_payer := expect (account_payer self) in
  let? epoch := expect (epoch self) in
  Ok (ReallocWeightTable.instruction_with_remaining_accounts (ReallocWeightTable.mk epoch_state config
    weight_table ncn vault_registry account_payer (default SYSTEM_PROGRAM (system_program self))) epoch
    (__remaining_accounts self)).
Definition setters (a : ReallocWeightTable.t) (epoch : u64) (remaining_accounts : list Meta) : list (t -> t)
    :=
  [set_epoch_state (ReallocWeightTable.epoch_state a); set_config (ReallocWeightTable.config a);
   set_weight_table (ReallocWeightTable.weight_table a); set_ncn (ReallocWeightTable.ncn a);
   set_vault_registry (ReallocWeightTable.vault_registry a);
   set_account_payer (ReallocWeightTable.account_payer a);
   set_system_program (ReallocWeightTable.system_program a); set_epoch epoch;
   add_remaining_accounts remaining_accounts].
Definition needed (self : t) : list bool := [is_set (epoch_state self); is_set (config self);
  is_set (weight_table self); is_set (ncn self); is_set (vault_registry self); is_set (account_payer self);
  is_set (epoch self)].
End ReallocWeightTableBuilder.

Module InitializeEpochSnapshotBuilder.
Record t := mk { epoch_marker : option Pubkey; epoch_state : option Pubkey; config : option Pubkey;
  ncn : option Pubkey; weight_table : option Pubkey; epoch_snapshot : option Pubkey;
  account_payer : option Pubkey; system_program : option Pubkey; epoch : option u64;
  __remaining_accounts : list Meta }.
#[global] Instance eta_t : Eta t := fun b => mk (epoch_marker b) (epoch_state b) (config b) (ncn b)
    (weight_table b) (epoch_snapshot b) (account_payer b) (system_program b) (epoch b)
    (__remaining_accounts b).
Definition new : t := mk None None None None None None None None None [].
Definition set_epoch_marker (x : Pubkey) (self : t) : t := self <| epoch_marker := Some x |>.
Definition set_epoch_state (x : Pubkey) (self : t) : t := self <| epoch_state := Some x |>.
Definition set_config (x : Pubkey) (self : t) : t := self <| config := Some x |>.
Definition set_ncn (x : Pubkey) (self : t) : t := self <| ncn := Some x |>.
Definition set_weight_table (x : Pubkey) (self : t) : t := self <| weight_table := Some x |>.
Definition set_epoch_snapshot (x : Pubkey) (self : t) : t := self <| epoch_snapshot := Some x |>.
Definition set_account_payer (x : Pubkey) (self : t) : t := self <| account_payer := Some x |>.
Definition set_system_program (x : Pubkey) (self : t) : t := self <| system_program := Some x |>.
Definition set_epoch (x : u64) (self : t) : t := self <| epoch := Some x |>.
Definition add_remaining_account (account : Meta) (self : t) : t :=
  self <| __remaining_accounts := __remaining_accounts self ++ [account] |>.
Definition add_remaining_accounts (accounts : list Meta) (self : t) : t :=
  self <| __remaining_accounts := __remaining_accounts self ++ accounts |>.
Definition instruction (self : t) : result Empty_set Instruction :=
  let? epoch_marker := expect (epoch_marker self) in
  let? epoch_state := expect (epoch_state self) in
  let? config := expect (config self) in
  let? ncn := expect (ncn self) in
  let? weight_table := expect (weight_table self) in
  let? epoch_snapshot := expect (epoch_snapshot self) in
  let? account_payer := expect (account_payer self) in
  let? epoch := expect (epoch self) in
  Ok (InitializeEpochSnapshot.instruction_with_remaining_accounts (InitializeEpochSnapshot.mk epoch_marker
    epoch_state config ncn weight_table epoch_snapshot account_payer
    (default SYSTEM_PROGRAM (system_program self))) epoch (__remaining_accounts self)).
Definition setters (a : InitializeEpochSnapshot.t) (epoch : u64) (remaining_accounts : list Meta) :
    list (t -> t) :=
  [set_epoch_marker (InitializeEpochSnapshot.epoch_marker a);
   set_epoch_state (InitializeEpochSnapshot.epoch_state a); set_config (InitializeEpochSnapshot.config a);
   set_ncn (InitializeEpochSnapshot.ncn a); set_weight_table (InitializeEpochSnapshot.weight_table a);
   set_epoch_snapshot (InitializeEpochSnapshot.epoch_snapshot a);
   set_account_payer (InitializeEpochSnapshot.account_payer a);
   set_system_program (InitializeEpochSnapshot.system_program a); set_epoch epoch;
   add_remaining_accounts remaining_accounts].
Definition needed (self : t) : list bool := [is_set (epoch_marker self); is_set (epoch_state self);
  is_set (config self); is_set (ncn self); is_set (weight_table self); is_set (epoch_snapshot self);
  is_set (account_payer self); is_set (epoch self)].
End InitializeEpochSnapshotBuilder.

Module InitializeOperatorSnapshotBuilder.
Record t := mk { epoch_marker : option Pubkey; epoch_state : option Pubkey; config : option Pubkey;
  restaking_config : option Pubkey; ncn : option Pubkey; operator : option Pubkey;
  ncn_operator_state : option Pubkey; epoch_snapshot : option Pubkey; operator_snapshot : option Pubkey;
  account_payer : option Pubkey; system_program : option Pubkey; epoch : option u64;
  __remaining_accounts : list Meta }.
#[global] Instance eta_t : Eta t := fun b => mk (epoch_marker b) (epoch_state b) (config b)
    (restaking_config b) (ncn b) (operator b) (ncn_operator_state b) (epoch_snapshot b)
    (operator_snapshot b) (account_payer b) (system_program b) (epoch b) (__remaining_accounts b).
Definition new : t := mk None None None None None None None None None None None None [].
Definition set_epoch_marker (x : Pubkey) (self : t) : t := self <| epoch_marker := Some x |>.
Definition set_epoch_state (x : Pubkey) (self : t) : t := self <| epoch_state := Some x |>.
Definition set_config (x : Pubkey) (self : t) : t := self <| config := Some x |>.
Definition set_restaking_config (x : Pubkey) (self : t) : t := self <| restaking_config := Some x |>.
Definition set_ncn (x : Pubkey) (self : t) : t := self <| ncn := Some x |>.
Definition set_operator (x : Pubkey) (self : t) : t := self <| operator := Some x |>.
Definition set_ncn_operator_state (x : Pubkey) (self : t) : t := self <| ncn_operator_state := Some x |>.
Definition set_epoch_snapshot (x : Pubkey) (self : t) : t := self <| epoch_snapshot := Some x |>.
Definition set_operator_snapshot (x : Pubkey) (self : t) : t := self <| operator_snapshot := Some x |>.
Definition set_account_payer (x : Pubkey) (self : t) : t := self <| account_payer := Some x |>.
Definition set_system_program (x : Pubkey) (self : t) : t := self <| system_program := Some x |>.
Definition set_epoch (x : u64) (self : t) : t := self <| epoch := Some x |>.
Definition add_remaining_account (account : Meta) (self : t) : t :=
  self <| __remaining_accounts := __remaining_accounts self ++ [account] |>.
Definition add_remaining_accounts (accounts : list Meta) (self : t) : t :=
  self <| __remaining_accounts := __remaining_accounts self ++ accounts |>.
Definition instruction (self : t) : result Empty_set Instruction :=
  let? epoch_marker := expect (epoch_marker self) in
  let? epoch_state := expect (epoch_state self) in
  let? config := expect (config self) in
  let? restaking_config := expect (restaking_config self) in
  let? ncn := expect (ncn self) in
  let? operator := expect (operator self) in
  let? ncn_operator_state := expect (ncn_operator_state self) in
  let? epoch_snapshot := expect (epoch_snapshot self) in
  let? operator_snapshot := expect (operator_snapshot self) in
  let? account_payer := expect (account_payer self) in
  let? epoch := expect (epoch self) in
  Ok (InitializeOperatorSnapshot.instruction_with_remaining_accounts (InitializeOperatorSnapshot.mk
    epoch_marker epoch_state config restaking_config ncn operator ncn_operator_state epoch_snapshot
    operator_snapshot account_payer (default SYSTEM_PROGRAM (system_program self))) epoch
    (__remaining_accounts self)).
Definition setters (a : InitializeOperatorSnapshot.t) (epoch : u64) (remaining_accounts : list Meta) :
    list (t -> t) :=
  [set_epoch_marker (InitializeOperatorSnapshot.epoch_marker a);
   set_epoch_state (InitializeOperatorSnapshot.epoch_state a);
   set_config (InitializeOperatorSnapshot.config a);
   set_restaking_config (InitializeOperatorSnapshot.restaking_config a);
   set_ncn (InitializeOperatorSnapshot.ncn a); set_operator (InitializeOperatorSnapshot.operator a);
   set_ncn_operator_state (InitializeOperatorSnapshot.ncn_operator_state a);
   set_epoch_snapshot (InitializeOperatorSnapshot.epoch_snapshot a);
   set_operator_snapshot (InitializeOperatorSnapshot.operator_snapshot a);
   set_account_payer (InitializeOperatorSnapshot.account_payer a);
   set_system_program (InitializeOperatorSnapshot.system_program a); set_epoch epoch;
   add_remaining_accounts remaining_accounts].
Definition needed (self : t) : list bool := [is_set (epoch_marker self); is_set (epoch_state self);
  is_set (config self); is_set (restaking_config self); is_set (ncn self); is_set (operator self);
  is_set (ncn_operator_state self); is_set (epoch_snapshot self); is_set (operator_snapshot self);
  is_set (account_payer self); is_set (epoch self)].
End InitializeOperatorSnapshotBuilder.

Module SnapshotVaultOperatorDelegationBuilder.
Record t := mk { epoch_state : option Pubkey; config : option Pubkey; restaking_config : option Pubkey;
  ncn : option Pubkey; operator : option Pubkey; vault : option Pubkey; vault_ncn_ticket : option Pubkey;
  ncn_vault_ticket : option Pubkey; vault_operator_delegation : option Pubkey; weight_table : option Pubkey;
  epoch_snapshot : option Pubkey; operator_snapshot : option Pubkey; epoch : option u64;
  __remaining_accounts : list Meta }.
#[global] Instance eta_t : Eta t := fun b => mk (epoch_state b) (config b) (restaking_config b) (ncn b)
    (operator b) (vault b) (vault_ncn_ticket b) (ncn_vault_ticket b) (vault_operator_delegation b)
    (weight_table b) (epoch_snapshot b) (operator_snapshot b) (epoch b) (__remaining_accounts b).
Definition new : t := mk None None None None None None None None None None None None None [].
Definition set_epoch_state (x : Pubkey) (self : t) : t := self <| epoch_state := Some x |>.
Definition set_config (x : Pubkey) (self : t) : t := self <| config := Some x |>.
Definition set_restaking_config (x : Pubkey) (self : t) : t := self <| restaking_config := Some x |>.
Definition set_ncn (x : Pubkey) (self : t) : t := self <| ncn := Some x |>.
Definition set_operator (x : Pubkey) (self : t) : t := self <| operator := Some x |>.
Definition set_vault (x : Pubkey) (self : t) : t := self <| vault := Some x |>.
Definition set_vault_ncn_ticket (x : Pubkey) (self : t) : t := self <| vault_ncn_ticket := Some x |>.
Definition set_ncn_vault_ticket (x : Pubkey) (self : t) : t := self <| ncn_vault_ticket := Some x |>.
Definition set_vault_operator_delegation (x : Pubkey) (self : t) : t :=
  self <| vault_operator_delegation := Some x |>.
Definition set_weight_table (x : Pubkey) (self : t) : t := self <| weight_table := Some x |>.
Definition set_epoch_snapshot (x : Pubkey) (self : t) : t := self <| epoch_snapshot := Some x |>.
Definition set_operator_snapshot (x : Pubkey) (self : t) : t := self <| operator_snapshot := Some x |>.
Definition set_epoch (x : u64) (self : t) : t := self <| epoch := Some x |>.
Definition add_remaining_account (account : Meta) (self : t) : t :=
  self <| __remaining_accounts := __remaining_accounts self ++ [account] |>.
Definition add_remaining_accounts (accounts : list Meta) (self : t) : t :=
  self <| __remaining_accounts := __remaining_accounts self ++ accounts |>.
Definition instruction (self : t) : result Empty_set Instruction :=
  let? epoch_state := expect (epoch_state self) in
  let? config := expect (config self) in
  let? restaking_config := expect (restaking_config self) in
  let? ncn := expect (ncn self) in
  let? operator := expect (operator self) in
  let? vault := expect (vault self) in
  let? vault_ncn_ticket := expect (vault_ncn_ticket self) in
  let? ncn_vault_ticket := expect (ncn_vault_ticket self) in
  let? vault_operator_delegation := expect (vault_operator_delegation self) in
  let? weight_table := expect (weight_table self) in
  let? epoch_snapshot := expect (epoch_snapshot self) in
  let? operator_snapshot := expect (operator_snapshot self) in
  let? epoch := expect (epoch self) in
  Ok (SnapshotVaultOperatorDelegation.instruction_with_remaining_accounts
    (SnapshotVaultOperatorDelegation.mk epoch_state config restaking_config ncn operator vault
    vault_ncn_ticket ncn_vault_ticket vault_operator_delegation weight_table epoch_snapshot
    operator_snapshot) epoch (__remaining_accounts self)).
Definition setters (a : SnapshotVaultOperatorDelegation.t) (epoch : u64) (remaining_accounts : list Meta) :
    list (t -> t) :=
  [set_epoch_state (SnapshotVaultOperatorDelegation.epoch_state a);
   set_config (SnapshotVaultOperatorDelegation.config a);
   set_restaking_config (SnapshotVaultOperatorDelegation.restaking_config a);
   set_ncn (SnapshotVaultOperatorDelegation.ncn a);
   set_operator (SnapshotVaultOperatorDelegation.operator a);
   set_vault (SnapshotVaultOperatorDelegation.vault a);
   set_vault_ncn_ticket (SnapshotVaultOperatorDelegation.vault_ncn_ticket a);
   set_ncn_vault_ticket (SnapshotVaultOperatorDelegation.ncn_vault_ticket a);
   set_vault_operator_delegation (SnapshotVaultOperatorDelegation.vault_operator_delegation a);
   set_weight_table (SnapshotVaultOperatorDelegation.weight_table a);
   set_epoch_snapshot (SnapshotVaultOperatorDelegation.epoch_snapshot a);
   set_operator_snapshot (SnapshotVaultOperatorDelegation.operator_snapshot a); set_epoch epoch;
   add_remaining_accounts remaining_accounts].
Definition needed (self : t) : list bool := [is_set (epoch_state self); is_set (config self);
  is_set (restaking_config self); is_set (ncn self); is_set (operator self); is_set (vault self);
  is_set (vault_ncn_ticket self); is_set (ncn_vault_ticket self); is_set (vault_operator_delegation self);
  is_set (weight_table self); is_set (epoch_snapshot self); is_set (operator_snapshot self);
  is_set (epoch self)].
End SnapshotVaultOperatorDelegationBuilder.

Module InitializeBallotBoxBuilder.
Record t := mk { epoch_marker : option Pubkey; epoch_state : option Pubkey; config : option Pubkey;
  ballot_box : option Pubkey; ncn : option Pubkey; account_payer : option Pubkey;
  system_program : option Pubkey; consensus_result : option Pubkey; epoch : option u64;
  __remaining_accounts : list Meta }.
#[global] Instance eta_t : Eta t := fun b => mk (epoch_marker b) (epoch_state b) (config b) (ballot_box b)
    (ncn b) (account_payer b) (system_program b) (consensus_result b) (epoch b) (__remaining_accounts b).
Definition new : t := mk None None None None None None None None None [].
Definition set_epoch_marker (x : Pubkey) (self : t) : t := self <| epoch_marker := Some x |>.
Definition set_epoch_state (x : Pubkey) (self : t) : t := self <| epoch_state := Some x |>.
Definition set_config (x : Pubkey) (self : t) : t := self <| config := Some x |>.
Definition set_ballot_box (x : Pubkey) (self : t) : t := self <| ballot_box := Some x |>.
Definition set_ncn (x : Pubkey) (self : t) : t := self <| ncn := Some x |>.
Definition set_account_payer (x : Pubkey) (self : t) : t := self <| account_payer := Some x |>.
Definition set_system_program (x : Pubkey) (self : t) : t := self <| system_program := Some x |>.
Definition set_consensus_result (x : Pubkey) (self : t) : t := self <| consensus_result := Some x |>.
Definition set_epoch (x : u64) (self : t) : t := self <| epoch := Some x |>.
Definition add_remaining_account (account : Meta) (self : t) : t :=
  self <| __remaining_accounts := __remaining_accounts self ++ [account] |>.
Definition add_remaining_accounts (accounts : list Meta) (self : t) : t :=
  self <| __remaining_accounts := __remaining_accounts self ++ accounts |>.
Definition instruction (self : t) : result Empty_set Instruction :=
  let? epoch_marker := expect (epoch_marker self) in
  let? epoch_state := expect (epoch_state self) in
  let? config := expect (config self) in
  let? ballot_box := expect (ballot_box self) in
  let? ncn := expect (ncn self) in
  let? account_payer := expect (account_payer self) in
  let? consensus_result := expect (consensus_result self) in
  let? epoch := expect (epoch self) in
  Ok (InitializeBallotBox.instruction_with_remaining_accounts (InitializeBallotBox.mk epoch_marker
    epoch_state config ballot_box ncn account_payer (default SYSTEM_PROGRAM (system_program self))
    consensus_result) epoch (__remaining_accounts self)).
Definition setters (a : InitializeBallotBox.t) (epoch : u64) (remaining_accounts : list Meta) :
    list (t -> t) :=
  [set_epoch_marker (InitializeBallotBox.epoch_marker a);
   set_epoch_state (InitializeBallotBox.epoch_state a); set_config (InitializeBallotBox.config a);
   set_ballot_box (InitializeBallotBox.ballot_box a); set_ncn (InitializeBallotBox.ncn a);
   set_account_payer (InitializeBallotBox.account_payer a);
   set_system_program (InitializeBallotBox.system_program a);
   set_consensus_result (InitializeBallotBox.consensus_result a); set_epoch epoch;
   add_remaining_accounts remaining_accounts].
Definition needed (self : t) : list bool := [is_set (epoch_marker self); is_set (epoch_state self);
  is_set (config self); is_set (ballot_box self); is_set (ncn self); is_set (account_payer self);
  is_set (consensus_result self); is_set (epoch self)].
End InitializeBallotBoxBuilder.

Module ReallocBallotBoxBuilder.
Record t := mk { epoch_state : option Pubkey; config : option Pubkey; ballot_box : option Pubkey;
  ncn : option Pubkey; account_payer : option Pubkey; system_program : option Pubkey; epoch : option u64;
  __remaining_accounts : list Meta }.
#[global] Instance eta_t : Eta t := fun b => mk (epoch_state b) (config b) (ballot_box b) (ncn b)
    (account_payer b) (system_program b) (epoch b) (__remaining_accounts b).
Definition new : t := mk None None None None None None None [].
Definition set_epoch_state (x : Pubkey) (self : t) : t := self <| epoch_state := Some x |>.
Definition set_config (x : Pubkey) (self : t) : t := self <| config := Some x |>.
Definition set_ballot_box (x : Pubkey) (self : t) : t := self <| ballot_box := Some x |>.
Definition set_ncn (x : Pubkey) (self : t) : t := self <| ncn := Some x |>.
Definition set_account_payer (x : Pubkey) (self : t) : t := self <| account_payer := Some x |>.
Definition set_system_program (x : Pubkey) (self : t) : t := self <| system_program := Some x |>.
Definition set_epoch (x : u64) (self : t) : t := self <| epoch := Some x |>.
Definition add_remaining_account (account : Meta) (self : t) : t :=
  self <| __remaining_accounts := __remaining_accounts self ++ [account] |>.
Definition add_remaining_accounts (accounts : list Meta) (self : t) : t :=
  self <| __remaining_accounts := __remaining_accounts self ++ accounts |>.
Definition instruction (self : t) : result Empty_set Instruction :=
  let? epoch_state := expect (epoch_state self) in
  let? config := expect (config self) in
  let? ballot_box := expect (ballot_box self) in
  let? ncn := expect (ncn self) in
  let? account_payer := expect (account_payer self) in
  let? epoch := expect (epoch self) in
  Ok (ReallocBallotBox.instruction_with_remaining_accounts (ReallocBallotBox.mk epoch_state config
    ballot_box ncn account_payer (default SYSTEM_PROGRAM (system_program self))) epoch
    (__remaining_accounts self)).
Definition setters (a : ReallocBallotBox.t) (epoch : u64) (remaining_accounts : list Meta) : list (t -> t)
    :=
  [set_epoch_state (ReallocBallotBox.epoch_state a); set_config (ReallocBallotBox.config a);
   set_ballot_box (ReallocBallotBox.ballot_box a); set_ncn (ReallocBallotBox.ncn a);
   set_account_payer (ReallocBallotBox.account_payer a);
   set_system_program (ReallocBallotBox.system_program a); set_epoch epoch;
   add_remaining_accounts remaining_accounts].
Definition needed (self : t) : list bool := [is_set (epoch_state self); is_set (config self);
  is_set (ballot_box self); is_set (ncn self); is_set (account_payer self); is_set (epoch self)].
End ReallocBallotBoxBuilder.

Module CastVoteBuilder.
Record t := mk { epoch_state : option Pubkey; config : option Pubkey; ballot_box : option Pubkey;
  ncn : option Pubkey; epoch_snapshot : option Pubkey; operator_snapshot : option Pubkey;
  operator : option Pubkey; operator_voter : option Pubkey; consensus_result : option Pubkey;
  weather_status : option u8; epoch : option u64; __remaining_accounts : list Meta }.
#[global] Instance eta_t : Eta t := fun b => mk (epoch_state b) (config b) (ballot_box b) (ncn b)
    (epoch_snapshot b) (operator_snapshot b) (operator b) (operator_voter b) (consensus_result b)
    (weather_status b) (epoch b) (__remaining_accounts b).
Definition new : t := mk None None None None None None None None None None None [].
Definition set_epoch_state (x : Pubkey) (self : t) : t := self <| epoch_state := Some x |>.
Definition set_config (x : Pubkey) (self : t) : t := self <| config := Some x |>.
Definition set_ballot_box (x : Pubkey) (self : t) : t := self <| ballot_box := Some x |>.
Definition set_ncn (x : Pubkey) (self : t) : t := self <| ncn := Some x |>.
Definition set_epoch_snapshot (x : Pubkey) (self : t) : t := self <| epoch_snapshot := Some x |>.
Definition set_operator_snapshot (x : Pubkey) (self : t) : t := self <| operator_snapshot := Some x |>.
Definition set_operator (x : Pubkey) (self : t) : t := self <| operator := Some x |>.
Definition set_operator_voter (x : Pubkey) (self : t) : t := self <| operator_voter := Some x |>.
Definition set_consensus_result (x : Pubkey) (self : t) : t := self <| consensus_result := Some x |>.
Definition set_weather_status (x : u8) (self : t) : t := self <| weather_status := Some x |>.
Definition set_epoch (x : u64) (self : t) : t := self <| epoch := Some x |>.
Definition add_remaining_account (account : Meta) (self : t) : t :=
  self <| __remaining_accounts := __remaining_accounts self ++ [account] |>.
Definition add_remaining_accounts (accounts : list Meta) (self : t) : t :=
  self <| __remaining_accounts := __remaining_accounts self ++ accounts |>.
Definition instruction (self : t) : result Empty_set Instruction :=
  let? epoch_state := expect (epoch_state self) in
  let? config := expect (config self) in
  let? ballot_box := expect (ballot_box self) in
  let? ncn := expect (ncn self) in
  let? epoch_snapshot := expect (epoch_snapshot self) in
  let? operator_snapshot := expect (operator_snapshot self) in
  let? operator := expect (operator self) in
  let? operator_voter := expect (operator_voter self) in
  let? consensus_result := expect (consensus_result self) in
  let? weather_status := expect (weather_status self) in
  let? epoch := expect (epoch self) in
  Ok (CastVote.instruction_with_remaining_accounts (CastVote.mk epoch_state config ballot_box ncn
    epoch_snapshot operator_snapshot operator operator_voter consensus_result) weather_status epoch
    (__remaining_accounts self)).
Definition setters (a : CastVote.t) (weather_status : u8) (epoch : u64) (remaining_accounts : list Meta) :
    list (t -> t) :=
  [set_epoch_state (CastVote.epoch_state a); set_config (CastVote.config a);
   set_ballot_box (CastVote.ballot_box a); set_ncn (CastVote.ncn a);
   set_epoch_snapshot (CastVote.epoch_snapshot a); set_operator_snapshot (CastVote.operator_snapshot a);
   set_operator (CastVote.operator a); set_operator_voter (CastVote.operator_voter a);
   set_consensus_result (CastVote.consensus_result a); set_weather_status weather_status; set_epoch epoch;
   add_remaining_accounts remaining_accounts].
Definition needed (self : t) : list bool := [is_set (epoch_state self); is_set (config self);
  is_set (ballot_box self); is_set (ncn self); is_set (epoch_snapshot self);
  is_set (operator_snapshot self); is_set (operator self); is_set (operator_voter self);
  is_set (consensus_result self); is_set (weather_status self); is_set (epoch self)].
End CastVoteBuilder.

Module InitializeNCNRewardRouterBuilder.
Record t := mk { epoch_marker : option Pubkey; epoch_state : option Pubkey; ncn : option Pubkey;
  ncn_reward_router : option Pubkey; ncn_reward_receiver : option Pubkey; account_payer : option Pubkey;
  system_program : option Pubkey; epoch : option u64; __remaining_accounts : list Meta }.
#[global] Instance eta_t : Eta t := fun b => mk (epoch_marker b) (epoch_state b) (ncn b)
    (ncn_reward_router b) (ncn_reward_receiver b) (account_payer b) (system_program b) (epoch b)
    (__remaining_accounts b).
Definition new : t := mk None None None None None None None None [].
Definition set_epoch_marker (x : Pubkey) (self : t) : t := self <| epoch_marker := Some x |>.
Definition set_epoch_state (x : Pubkey) (self : t) : t := self <| epoch_state := Some x |>.
Definition set_ncn (x : Pubkey) (self : t) : t := self <| ncn := Some x |>.
Definition set_ncn_reward_router (x : Pubkey) (self : t) : t := self <| ncn_reward_router := Some x |>.
Definition set_ncn_reward_receiver (x : Pubkey) (self : t) : t := self <| ncn_reward_receiver := Some x |>.
Definition set_account_payer (x : Pubkey) (self : t) : t := self <| account_payer := Some x |>.
Definition set_system_program (x : Pubkey) (self : t) : t := self <| system_program := Some x |>.
Definition set_epoch (x : u64) (self : t) : t := self <| epoch := Some x |>.
Definition add_remaining_account (account : Meta) (self : t) : t :=
  self <| __remaining_accounts := __remaining_accounts self ++ [account] |>.
Definition add_remaining_accounts (accounts : list Meta) (self : t) : t :=
  self <| __remaining_accounts := __remaining_accounts self ++ accounts |>.
Definition instruction (self : t) : result Empty_set Instruction :=
  let? epoch_marker := expect (epoch_marker self) in
  let? epoch_state := expect (epoch_state self) in
  let? ncn := expect (ncn self) in
  let? ncn_reward_router := expect (ncn_reward_router self) in
  let? ncn_reward_receiver := expect (ncn_reward_receiver self) in
  let? account_payer := expect (account_payer self) in
  let? epoch := expect (epoch self) in
  Ok (InitializeNCNRewardRouter.instruction_with_remaining_accounts (InitializeNCNRewardRouter.mk
    epoch_marker epoch_state ncn ncn_reward_router ncn_reward_receiver account_payer
    (default SYSTEM_PROGRAM (system_program self))) epoch (__remaining_accounts self)).
Definition setters (a : InitializeNCNRewardRouter.t) (epoch : u64) (remaining_accounts : list Meta) :
    list (t -> t) :=
  [set_epoch_marker (InitializeNCNRewardRouter.epoch_marker a);
   set_epoch_state (InitializeNCNRewardRouter.epoch_state a); set_ncn (InitializeNCNRewardRouter.ncn a);
   set_ncn_reward_router (InitializeNCNRewardRouter.ncn_reward_router a);
   set_ncn_reward_receiver (InitializeNCNRewardRouter.ncn_reward_receiver a);
   set_account_payer (InitializeNCNRewardRouter.account_payer a);
   set_system_program (InitializeNCNRewardRouter.system_program a); set_epoch epoch;
   add_remaining_accounts remaining_accounts].
Definition needed (self : t) : list bool := [is_set (epoch_marker self); is_set (epoch_state self);
  is_set (ncn self); is_set (ncn_reward_router self); is_set (ncn_reward_receiver self);
  is_set (account_payer self); is_set (epoch self)].
End InitializeNCNRewardRouterBuilder.

Module ReallocNCNRewardRouterBuilder.
Record t := mk { epoch_state : option Pubkey; config : option Pubkey; ncn_reward_router : option Pubkey;
  ncn : option Pubkey; account_payer : option Pubkey; system_program : option Pubkey; epoch : option u64;
  __remaining_accounts : list Meta }.
#[global] Instance eta_t : Eta t := fun b => mk (epoch_state b) (config b) (ncn_reward_router b) (ncn b)
    (account_payer b) (system_program b) (epoch b) (__remaining_accounts b).
Definition new : t := mk None None None None None None None [].
Definition set_epoch_state (x : Pubkey) (self : t) : t := self <| epoch_state := Some x |>.
Definition set_config (x : Pubkey) (self : t) : t := self <| config := Some x |>.
Definition set_ncn_reward_router (x : Pubkey) (self : t) : t := self <| ncn_reward_router := Some x |>.
Definition set_ncn (x : Pubkey) (self : t) : t := self <| ncn := Some x |>.
Definition set_account_payer (x : Pubkey) (self : t) : t := self <| account_payer := Some x |>.
Definition set_system_program (x : Pubkey) (self : t) : t := self <| system_program := Some x |>.
Definition set_epoch (x : u64) (self : t) : t := self <| epoch := Some x |>.
Definition add_remaining_account (account : Meta) (self : t) : t :=
  self <| __remaining_accounts := __remaining_accounts self ++ [account] |>.
Definition add_remaining_accounts (accounts : list Meta) (self : t) : t :=
  self <| __remaining_accounts := __remaining_accounts self ++ accounts |>.
Definition instruction (self : t) : result Empty_set Instruction :=
  let? epoch_state := expect (epoch_state self) in
  let? config := expect (config self) in
  let? ncn_reward_router := expect (ncn_reward_router self) in
  let? ncn := expect (ncn self) in
  let? account_payer := expect (account_payer self) in
  let? epoch := expect (epoch self) in
  Ok (ReallocNCNRewardRouter.instruction_with_remaining_accounts (ReallocNCNRewardRouter.mk epoch_state
    config ncn_reward_router ncn account_payer (default SYSTEM_PROGRAM (system_program self))) epoch
    (__remaining_accounts self)).
Definition setters (a : ReallocNCNRewardRouter.t) (epoch : u64) (remaining_accounts : list Meta) :
    list (t -> t) :=
  [set_epoch_state (ReallocNCNRewardRouter.epoch_state a); set_config (ReallocNCNRewardRouter.config a);
   set_ncn_reward_router (ReallocNCNRewardRouter.ncn_reward_router a);
   set_ncn (ReallocNCNRewardRouter.ncn a); set_account_payer (ReallocNCNRewardRouter.account_payer a);
   set_system_program (ReallocNCNRewardRouter.system_program a); set_epoch epoch;
   add_remaining_accounts remaining_accounts].
Definition needed (self : t) : list bool := [is_set (epoch_state self); is_set (config self);
  is_set (ncn_reward_router self); is_set (ncn self); is_set (account_payer self); is_set (epoch self)].
End ReallocNCNRewardRouterBuilder.

Module RouteNCNRewardsBuilder.
Record t := mk { epoch_state : option Pubkey; config : option Pubkey; ncn : option Pubkey;
  epoch_snapshot : option Pubkey; ballot_box : option Pubkey; ncn_reward_router : option Pubkey;
  ncn_reward_receiver : option Pubkey; max_iterations : option u16; epoch : option u64;
  __remaining_accounts : list Meta }.
#[global] Instance eta_t : Eta t := fun b => mk (epoch_state b) (config b) (ncn b) (epoch_snapshot b)
    (ballot_box b) (ncn_reward_router b) (ncn_reward_receiver b) (max_iterations b) (epoch b)
    (__remaining_accounts b).
Definition new : t := mk None None None None None None None None None [].
Definition set_epoch_state (x : Pubkey) (self : t) : t := self <| epoch_state := Some x |>.
Definition set_config (x : Pubkey) (self : t) : t := self <| config := Some x |>.
Definition set_ncn (x : Pubkey) (self : t) : t := self <| ncn := Some x |>.
Definition set_epoch_snapshot (x : Pubkey) (self : t) : t := self <| epoch_snapshot := Some x |>.
Definition set_ballot_box (x : Pubkey) (self : t) : t := self <| ballot_box := Some x |>.
Definition set_ncn_reward_router (x : Pubkey) (self : t) : t := self <| ncn_reward_router := Some x |>.
Definition set_ncn_reward_receiver (x : Pubkey) (self : t) : t := self <| ncn_reward_receiver := Some x |>.
Definition set_max_iterations (x : u16) (self : t) : t := self <| max_iterations := Some x |>.
Definition set_epoch (x : u64) (self : t) : t := self <| epoch := Some x |>.
Definition add_remaining_account (account : Meta) (self : t) : t :=
  self <| __remaining_accounts := __remaining_accounts self ++ [account] |>.
Definition add_remaining_accounts (accounts : list Meta) (self : t) : t :=
  self <| __remaining_accounts := __remaining_accounts self ++ accounts |>.
Definition instruction (self : t) : result Empty_set Instruction :=
  let? epoch_state := expect (epoch_state self) in
  let? config := expect (config self) in
  let? ncn := expect (ncn self) in
  let? epoch_snapshot := expect (epoch_snapshot self) in
  let? ballot_box := expect (ballot_box self) in
  let? ncn_reward_router := expect (ncn_reward_router self) in
  let? ncn_reward_receiver := expect (ncn_reward_receiver self) in
  let? max_iterations := expect (max_iterations self) in
  let? epoch := expect (epoch self) in
  Ok (RouteNCNRewards.instruction_with_remaining_accounts (RouteNCNRewards.mk epoch_state config ncn
    epoch_snapshot ballot_box ncn_reward_router ncn_reward_receiver) max_iterations epoch
    (__remaining_accounts self)).
Definition setters (a : RouteNCNRewards.t) (max_iterations : u16) (epoch : u64)
    (remaining_accounts : list Meta) : list (t -> t) :=
  [set_epoch_state (RouteNCNRewards.epoch_state a); set_config (RouteNCNRewards.config a);
   set_ncn (RouteNCNRewards.ncn a); set_epoch_snapshot (RouteNCNRewards.epoch_snapshot a);
   set_ballot_box (RouteNCNRewards.ballot_box a);
   set_ncn_reward_router (RouteNCNRewards.ncn_reward_router a);
   set_ncn_reward_receiver (RouteNCNRewards.ncn_reward_receiver a); set_max_iterations max_iterations;
   set_epoch epoch; add_remaining_accounts remaining_accounts].
Definition needed (self : t) : list bool := [is_set (epoch_state self); is_set (config self);
  is_set (ncn self); is_set (epoch_snapshot self); is_set (ballot_box self);
  is_set (ncn_reward_router self); is_set (ncn_reward_receiver self); is_set (max_iterations self);
  is_set (epoch self)].
End RouteNCNRewardsBuilder.

Module DistributeProtocolRewardsBuilder.
Record t := mk { epoch_state : option Pubkey; config : option Pubkey; ncn : option Pubkey;
  ncn_reward_router : option Pubkey; ncn_reward_receiver : option Pubkey;
  protocol_fee_wallet : option Pubkey; system_program : option Pubkey; epoch : option u64;
  __remaining_accounts : list Meta }.
#[global] Instance eta_t : Eta t := fun b => mk (epoch_state b) (config b) (ncn b) (ncn_reward_router b)
    (ncn_reward_receiver b) (protocol_fee_wallet b) (system_program b) (epoch b) (__remaining_accounts b).
Definition new : t := mk None None None None None None None None [].
Definition set_epoch_state (x : Pubkey) (self : t) : t := self <| epoch_state := Some x |>.
Definition set_config (x : Pubkey) (self : t) : t := self <| config := Some x |>.
Definition set_ncn (x : Pubkey) (self : t) : t := self <| ncn := Some x |>.
Definition set_ncn_reward_router (x : Pubkey) (self : t) : t := self <| ncn_reward_router := Some x |>.
Definition set_ncn_reward_receiver (x : Pubkey) (self : t) : t := self <| ncn_reward_receiver := Some x |>.
Definition set_protocol_fee_wallet (x : Pubkey) (self : t) : t := self <| protocol_fee_wallet := Some x |>.
Definition set_system_program (x : Pubkey) (self : t) : t := self <| system_program := Some x |>.
Definition set_epoch (x : u64) (self : t) : t := self <| epoch := Some x |>.
Definition add_remaining_account (account : Meta) (self : t) : t :=
  self <| __remaining_accounts := __remaining_accounts self ++ [account] |>.
Definition add_remaining_accounts (accounts : list Meta) (self : t) : t :=
  self <| __remaining_accounts := __remaining_accounts self ++ accounts |>.
Definition instruction (self : t) : result Empty_set Instruction :=
  let? epoch_state := expect (epoch_state self) in
  let? config := expect (config self) in
  let? ncn := expect (ncn self) in
  let? ncn_reward_router := expect (ncn_reward_router self) in
  let? ncn_reward_receiver := expect (ncn_reward_receiver self) in
  let? protocol_fee_wallet := expect (protocol_fee_wallet self) in
  let? epoch := expect (epoch self) in
  Ok (DistributeProtocolRewards.instruction_with_remaining_accounts (DistributeProtocolRewards.mk
    epoch_state config ncn ncn_reward_router ncn_reward_receiver protocol_fee_wallet
    (default SYSTEM_PROGRAM (system_program self))) epoch (__remaining_accounts self)).
Definition setters (a : DistributeProtocolRewards.t) (epoch : u64) (remaining_accounts : list Meta) :
    list (t -> t) :=
  [set_epoch_state (DistributeProtocolRewards.epoch_state a);
   set_config (DistributeProtocolRewards.config a); set_ncn (DistributeProtocolRewards.ncn a);
   set_ncn_reward_router (DistributeProtocolRewards.ncn_reward_router a);
   set_ncn_reward_receiver (DistributeProtocolRewards.ncn_reward_receiver a);
   set_protocol_fee_wallet (DistributeProtocolRewards.protocol_fee_wallet a);
   set_system_program (DistributeProtocolRewards.system_program a); set_epoch epoch;
   add_remaining_accounts remaining_accounts].
Definition needed (self : t) : list bool := [is_set (epoch_state self); is_set (config self);
  is_set (ncn self); is_set (ncn_reward_router self); is_set (ncn_reward_receiver self);
  is_set (protocol_fee_wallet self); is_set (epoch self)].
End DistributeProtocolRewardsBuilder.

Module DistributeNCNRewardsBuilder.
Record t := mk { epoch_state : option Pubkey; config : option Pubkey; ncn : option Pubkey;
  ncn_reward_router : option Pubkey; ncn_reward_receiver : option Pubkey; ncn_fee_wallet : option Pubkey;
  system_program : option Pubkey; epoch : option u64; __remaining_accounts : list Meta }.
#[global] Instance eta_t : Eta t := fun b => mk (epoch_state b) (config b) (ncn b) (ncn_reward_router b)
    (ncn_reward_receiver b) (ncn_fee_wallet b) (system_program b) (epoch b) (__remaining_accounts b).
Definition new : t := mk None None None None None None None None [].
Definition set_epoch_state (x : Pubkey) (self : t) : t := self <| epoch_state := Some x |>.
Definition set_config (x : Pubkey) (self : t) : t := self <| config := Some x |>.
Definition set_ncn (x : Pubkey) (self : t) : t := self <| ncn := Some x |>.
Definition set_ncn_reward_router (x : Pubkey) (self : t) : t := self <| ncn_reward_router := Some x |>.
Definition set_ncn_reward_receiver (x : Pubkey) (self : t) : t := self <| ncn_reward_receiver := Some x |>.
Definition set_ncn_fee_wallet (x : Pubkey) (self : t) : t := self <| ncn_fee_wallet := Some x |>.
Definition set_system_program (x : Pubkey) (self : t) : t := self <| system_program := Some x |>.
Definition set_epoch (x : u64) (self : t) : t := self <| epoch := Some x |>.
Definition add_remaining_account (account : Meta) (self : t) : t :=
  self <| __remaining_accounts := __remaining_accounts self ++ [account] |>.
Definition add_remaining_accounts (accounts : list Meta) (self : t) : t :=
  self <| __remaining_accounts := __remaining_accounts self ++ accounts |>.
Definition instruction (self : t) : result Empty_set Instruction :=
  let? epoch_state := expect (epoch_state self) in
  let? config := expect (config self) in
  let? ncn := expect (ncn self) in
  let? ncn_reward_router := expect (ncn_reward_router self) in
  let? ncn_reward_receiver := expect (ncn_reward_receiver self) in
  let? ncn_fee_wallet := expect (ncn_fee_wallet self) in
  let? epoch := expect (epoch self) in
  Ok (DistributeNCNRewards.instruction_with_remaining_accounts (DistributeNCNRewards.mk epoch_state config
    ncn ncn_reward_router ncn_reward_receiver ncn_fee_wallet (default SYSTEM_PROGRAM (system_program self)))
    epoch (__remaining_accounts self)).
Definition setters (a : DistributeNCNRewards.t) (epoch : u64) (remaining_accounts : list Meta) :
    list (t -> t) :=
  [set_epoch_state (DistributeNCNRewards.epoch_state a); set_config (DistributeNCNRewards.config a);
   set_ncn (DistributeNCNRewards.ncn a); set_ncn_reward_router (DistributeNCNRewards.ncn_reward_router a);
   set_ncn_reward_receiver (DistributeNCNRewards.ncn_reward_receiver a);
   set_ncn_fee_wallet (DistributeNCNRewards.ncn_fee_wallet a);
   set_system_program (DistributeNCNRewards.system_program a); set_epoch epoch;
   add_remaining_accounts remaining_accounts].
Definition needed (self : t) : list bool := [is_set (epoch_state self); is_set (config self);
  is_set (ncn self); is_set (ncn_reward_router self); is_set (ncn_reward_receiver self);
  is_set (ncn_fee_wallet self); is_set (epoch self)].
End DistributeNCNRewardsBuilder.

Module InitializeOperatorVaultRewardRouterBuilder.
Record t := mk { epoch_marker : option Pubkey; epoch_state : option Pubkey; ncn : option Pubkey;
  operator : option Pubkey; operator_snapshot : option Pubkey; operator_vault_reward_router : option Pubkey;
  operator_vault_reward_receiver : option Pubkey; account_payer : option Pubkey;
  system_program : option Pubkey; epoch : option u64; __remaining_accounts : list Meta }.
#[global] Instance eta_t : Eta t := fun b => mk (epoch_marker b) (epoch_state b) (ncn b) (operator b)
    (operator_snapshot b) (operator_vault_reward_router b) (operator_vault_reward_receiver b)
    (account_payer b) (system_program b) (epoch b) (__remaining_accounts b).
Definition new : t := mk None None None None None None None None None None [].
Definition set_epoch_marker (x : Pubkey) (self : t) : t := self <| epoch_marker := Some x |>.
Definition set_epoch_state (x : Pubkey) (self : t) : t := self <| epoch_state := Some x |>.
Definition set_ncn (x : Pubkey) (self : t) : t := self <| ncn := Some x |>.
Definition set_operator (x : Pubkey) (self : t) : t := self <| operator := Some x |>.
Definition set_operator_snapshot (x : Pubkey) (self : t) : t := self <| operator_snapshot := Some x |>.
Definition set_operator_vault_reward_router (x : Pubkey) (self : t) : t :=
  self <| operator_vault_reward_router := Some x |>.
Definition set_operator_vault_reward_receiver (x : Pubkey) (self : t) : t :=
  self <| operator_vault_reward_receiver := Some x |>.
Definition set_account_payer (x : Pubkey) (self : t) : t := self <| account_payer := Some x |>.
Definition set_system_program (x : Pubkey) (self : t) : t := self <| system_program := Some x |>.
Definition set_epoch (x : u64) (self : t) : t := self <| epoch := Some x |>.
Definition add_remaining_account (account : Meta) (self : t) : t :=
  self <| __remaining_accounts := __remaining_accounts self ++ [account] |>.
Definition add_remaining_accounts (accounts : list Meta) (self : t) : t :=
  self <| __remaining_accounts := __remaining_accounts self ++ accounts |>.
Definition instruction (self : t) : result Empty_set Instruction :=
  let? epoch_marker := expect (epoch_marker self) in
  let? epoch_state := expect (epoch_state self) in
  let? ncn := expect (ncn self) in
  let? operator := expect (operator self) in
  let? operator_snapshot := expect (operator_snapshot self) in
  let? operator_vault_reward_router := expect (operator_vault_reward_router self) in
  let? operator_vault_reward_receiver := expect (operator_vault_reward_receiver self) in
  let? account_payer := expect (account_payer self) in
  let? epoch := expect (epoch self) in
  Ok (InitializeOperatorVaultRewardRouter.instruction_with_remaining_accounts
    (InitializeOperatorVaultRewardRouter.mk epoch_marker epoch_state ncn operator operator_snapshot
    operator_vault_reward_router operator_vault_reward_receiver account_payer
    (default SYSTEM_PROGRAM (system_program self))) epoch (__remaining_accounts self)).
Definition setters (a : InitializeOperatorVaultRewardRouter.t) (epoch : u64)
    (remaining_accounts : list Meta) : list (t -> t) :=
  [set_epoch_marker (InitializeOperatorVaultRewardRouter.epoch_marker a);
   set_epoch_state (InitializeOperatorVaultRewardRouter.epoch_state a);
   set_ncn (InitializeOperatorVaultRewardRouter.ncn a);
   set_operator (InitializeOperatorVaultRewardRouter.operator a);
   set_operator_snapshot (InitializeOperatorVaultRewardRouter.operator_snapshot a);
   set_operator_vault_reward_router (InitializeOperatorVaultRewardRouter.operator_vault_reward_router a);
   set_operator_vault_reward_receiver (InitializeOperatorVaultRewardRouter.operator_vault_reward_receiver a);
   set_account_payer (InitializeOperatorVaultRewardRouter.account_payer a);
   set_system_program (InitializeOperatorVaultRewardRouter.system_program a); set_epoch epoch;
   add_remaining_accounts remaining_accounts].
Definition needed (self : t) : list bool := [is_set (epoch_marker self); is_set (epoch_state self);
  is_set (ncn self); is_set (operator self); is_set (operator_snapshot self);
  is_set (operator_vault_reward_router self); is_set (operator_vault_reward_receiver self);
  is_set (account_payer self); is_set (epoch self)].
End InitializeOperatorVaultRewardRouterBuilder.

Module DistributeOperatorVaultRewardRouteBuilder.
Record t := mk { epoch_state : option Pubkey; config : option Pubkey; ncn : option Pubkey;
  operator : option Pubkey; ncn_reward_router : option Pubkey; ncn_reward_receiver : option Pubkey;
  operator_vault_reward_router : option Pubkey; operator_vault_reward_receiver : option Pubkey;
  system_program : option Pubkey; epoch : option u64; __remaining_accounts : list Meta }.
#[global] Instance eta_t : Eta t := fun b => mk (epoch_state b) (config b) (ncn b) (operator b)
    (ncn_reward_router b) (ncn_reward_receiver b) (operator_vault_reward_router b)
    (operator_vault_reward_receiver b) (system_program b) (epoch b) (__remaining_accounts b).
Definition new : t := mk None None None None None None None None None None [].
Definition set_epoch_state (x : Pubkey) (self : t) : t := self <| epoch_state := Some x |>.
Definition set_config (x : Pubkey) (self : t) : t := self <| config := Some x |>.
Definition set_ncn (x : Pubkey) (self : t) : t := self <| ncn := Some x |>.
Definition set_operator (x : Pubkey) (self : t) : t := self <| operator := Some x |>.
Definition set_ncn_reward_router (x : Pubkey) (self : t) : t := self <| ncn_reward_router := Some x |>.
Definition set_ncn_reward_receiver (x : Pubkey) (self : t) : t := self <| ncn_reward_receiver := Some x |>.
Definition set_operator_vault_reward_router (x : Pubkey) (self : t) : t :=
  self <| operator_vault_reward_router := Some x |>.
Definition set_operator_vault_reward_receiver (x : Pubkey) (self : t) : t :=
  self <| operator_vault_reward_receiver := Some x |>.
Definition set_system_program (x : Pubkey) (self : t) : t := self <| system_program := Some x |>.
Definition set_epoch (x : u64) (self : t) : t := self <| epoch := Some x |>.
Definition add_remaining_account (account : Meta) (self : t) : t :=
  self <| __remaining_accounts := __remaining_accounts self ++ [account] |>.
Definition add_remaining_accounts (accounts : list Meta) (self : t) : t :=
  self <| __remaining_accounts := __remaining_accounts self ++ accounts |>.
Definition instruction (self : t) : result Empty_set Instruction :=
  let? epoch_state := expect (epoch_state self) in
  let? config := expect (config self) in
  let? ncn := expect (ncn self) in
  let? operator := expect (operator self) in
  let? ncn_reward_router := expect (ncn_reward_router self) in
  let? ncn_reward_receiver := expect (ncn_reward_receiver self) in
  let? operator_vault_reward_router := expect (operator_vault_reward_router self) in
  let? operator_vault_reward_receiver := expect (operator_vault_reward_receiver self) in
  let? epoch := expect (epoch self) in
  Ok (DistributeOperatorVaultRewardRoute.instruction_with_remaining_accounts
    (DistributeOperatorVaultRewardRoute.mk epoch_state config ncn operator ncn_reward_router
    ncn_reward_receiver operator_vault_reward_router operator_vault_reward_receiver
    (default SYSTEM_PROGRAM (system_program self))) epoch (__remaining_accounts self)).
Definition setters (a : DistributeOperatorVaultRewardRoute.t) (epoch : u64) (remaining_accounts : list Meta)
    : list (t -> t) :=
  [set_epoch_state (DistributeOperatorVaultRewardRoute.epoch_state a);
   set_config (DistributeOperatorVaultRewardRoute.config a);
   set_ncn (DistributeOperatorVaultRewardRoute.ncn a);
   set_operator (DistributeOperatorVaultRewardRoute.operator a);
   set_ncn_reward_router (DistributeOperatorVaultRewardRoute.ncn_reward_router a);
   set_ncn_reward_receiver (DistributeOperatorVaultRewardRoute.ncn_reward_receiver a);
   set_operator_vault_reward_router (DistributeOperatorVaultRewardRoute.operator_vault_reward_router a);
   set_operator_vault_reward_receiver (DistributeOperatorVaultRewardRoute.operator_vault_reward_receiver a);
   set_system_program (DistributeOperatorVaultRewardRoute.system_program a); set_epoch epoch;
   add_remaining_accounts remaining_accounts].
Definition needed (self : t) : list bool := [is_set (epoch_state self); is_set (config self);
  is_set (ncn self); is_set (operator self); is_set (ncn_reward_router self);
  is_set (ncn_reward_receiver self); is_set (operator_vault_reward_router self);
  is_set (operator_vault_reward_receiver self); is_set (epoch self)].
End DistributeOperatorVaultRewardRouteBuilder.

Module RouteOperatorVaultRewardsBuilder.
Record t := mk { epoch_state : option Pubkey; ncn : option Pubkey; operator : option Pubkey;
  operator_snapshot : option Pubkey; operator_vault_reward_router : option Pubkey;
  operator_vault_reward_receiver : option Pubkey; max_iterations : option u16; epoch : option u64;
  __remaining_accounts : list Meta }.
#[global] Instance eta_t : Eta t := fun b => mk (epoch_state b) (ncn b) (operator b) (operator_snapshot b)
    (operator_vault_reward_router b) (operator_vault_reward_receiver b) (max_iterations b) (epoch b)
    (__remaining_accounts b).
Definition new : t := mk None None None None None None None None [].
Definition set_epoch_state (x : Pubkey) (self : t) : t := self <| epoch_state := Some x |>.
Definition set_ncn (x : Pubkey) (self : t) : t := self <| ncn := Some x |>.
Definition set_operator (x : Pubkey) (self : t) : t := self <| operator := Some x |>.
Definition set_operator_snapshot (x : Pubkey) (self : t) : t := self <| operator_snapshot := Some x |>.
Definition set_operator_vault_reward_router (x : Pubkey) (self : t) : t :=
  self <| operator_vault_reward_router := Some x |>.
Definition set_operator_vault_reward_receiver (x : Pubkey) (self : t) : t :=
  self <| operator_vault_reward_receiver := Some x |>.
Definition set_max_iterations (x : u16) (self : t) : t := self <| max_iterations := Some x |>.
Definition set_epoch (x : u64) (self : t) : t := self <| epoch := Some x |>.
Definition add_remaining_account (account : Meta) (self : t) : t :=
  self <| __remaining_accounts := __remaining_accounts self ++ [account] |>.
Definition add_remaining_accounts (accounts : list Meta) (self : t) : t :=
  self <| __remaining_accounts := __remaining_accounts self ++ accounts |>.
Definition instruction (self : t) : result Empty_set Instruction :=
  let? epoch_state := expect (epoch_state self) in
  let? ncn := expect (ncn self) in
  let? operator := expect (operator self) in
  let? operator_snapshot := expect (operator_snapshot self) in
  let? operator_vault_reward_router := expect (operator_vault_reward_router self) in
  let? operator_vault_reward_receiver := expect (operator_vault_reward_receiver self) in
  let? max_iterations := expect (max_iterations self) in
  let? epoch := expect (epoch self) in
  Ok (RouteOperatorVaultRewards.instruction_with_remaining_accounts (RouteOperatorVaultRewards.mk
    epoch_state ncn operator operator_snapshot operator_vault_reward_router operator_vault_reward_receiver)
    max_iterations epoch (__remaining_accounts self)).
Definition setters (a : RouteOperatorVaultRewards.t) (max_iterations : u16) (epoch : u64)
    (remaining_accounts : list Meta) : list (t -> t) :=
  [set_epoch_state (RouteOperatorVaultRewards.epoch_state a); set_ncn (RouteOperatorVaultRewards.ncn a);
   set_operator (RouteOperatorVaultRewards.operator a);
   set_operator_snapshot (RouteOperatorVaultRewards.operator_snapshot a);
   set_operator_vault_reward_router (RouteOperatorVaultRewards.operator_vault_reward_router a);
   set_operator_vault_reward_receiver (RouteOperatorVaultRewards.operator_vault_reward_receiver a);
   set_max_iterations max_iterations; set_epoch epoch; add_remaining_accounts remaining_accounts].
Definition needed (self : t) : list bool := [is_set (epoch_state self); is_set (ncn self);
  is_set (operator self); is_set (operator_snapshot self); is_set (operator_vault_reward_router self);
  is_set (operator_vault_reward_receiver self); is_set (max_iterations self); is_set (epoch self)].
End RouteOperatorVaultRewardsBuilder.

Module CloseEpochAccountBuilder.
Record t := mk { epoch_marker : option Pubkey; epoch_state : option Pubkey; config : option Pubkey;
  ncn : option Pubkey; account_to_close : option Pubkey; account_payer : option Pubkey;
  system_program : option Pubkey; ncn_fee_wallet : option Pubkey; receiver_to_close : option Pubkey;
  epoch : option u64; __remaining_accounts : list Meta }.
#[global] Instance eta_t : Eta t := fun b => mk (epoch_marker b) (epoch_state b) (config b) (ncn b)
    (account_to_close b) (account_payer b) (system_program b) (ncn_fee_wallet b) (receiver_to_close b)
    (epoch b) (__remaining_accounts b).
Definition new : t := mk None None None None None None None None None None [].
Definition set_epoch_marker (x : Pubkey) (self : t) : t := self <| epoch_marker := Some x |>.
Definition set_epoch_state (x : Pubkey) (self : t) : t := self <| epoch_state := Some x |>.
Definition set_config (x : Pubkey) (self : t) : t := self <| config := Some x |>.
Definition set_ncn (x : Pubkey) (self : t) : t := self <| ncn := Some x |>.
Definition set_account_to_close (x : Pubkey) (self : t) : t := self <| account_to_close := Some x |>.
Definition set_account_payer (x : Pubkey) (self : t) : t := self <| account_payer := Some x |>.
Definition set_system_program (x : Pubkey) (self : t) : t := self <| system_program := Some x |>.
Definition set_ncn_fee_wallet (x : option Pubkey) (self : t) : t := self <| ncn_fee_wallet := x |>.
Definition set_receiver_to_close (x : option Pubkey) (self : t) : t := self <| receiver_to_close := x |>.
Definition set_epoch (x : u64) (self : t) : t := self <| epoch := Some x |>.
Definition add_remaining_account (account : Meta) (self : t) : t :=
  self <| __remaining_accounts := __remaining_accounts self ++ [account] |>.
Definition add_remaining_accounts (accounts : list Meta) (self : t) : t :=
  self <| __remaining_accounts := __remaining_accounts self ++ accounts |>.
Definition instruction (self : t) : result Empty_set Instruction :=
  let? epoch_marker := expect (epoch_marker self) in
  let? epoch_state := expect (epoch_state self) in
  let? config := expect (config self) in
  let? ncn := expect (ncn self) in
  let? account_to_close := expect (account_to_close self) in
  let? account_payer := expect (account_payer self) in
  let? epoch := expect (epoch self) in
  Ok (CloseEpochAccount.instruction_with_remaining_accounts (CloseEpochAccount.mk epoch_marker epoch_state
    config ncn account_to_close account_payer (default SYSTEM_PROGRAM (system_program self))
    (ncn_fee_wallet self) (receiver_to_close self)) epoch (__remaining_accounts self)).
Definition setters (a : CloseEpochAccount.t) (epoch : u64) (remaining_accounts : list Meta) : list (t -> t)
    :=
  [set_epoch_marker (CloseEpochAccount.epoch_marker a); set_epoch_state (CloseEpochAccount.epoch_state a);
   set_config (CloseEpochAccount.config a); set_ncn (CloseEpochAccount.ncn a);
   set_account_to_close (CloseEpochAccount.account_to_close a);
   set_account_payer (CloseEpochAccount.account_payer a);
   set_system_program (CloseEpochAccount.system_program a);
   set_ncn_fee_wallet (CloseEpochAccount.ncn_fee_wallet a);
   set_receiver_to_close (CloseEpochAccount.receiver_to_close a); set_epoch epoch;
   add_remaining_accounts remaining_accounts].
Definition needed (self : t) : list bool := [is_set (epoch_marker self); is_set (epoch_state self);
  is_set (config self); is_set (ncn self); is_set (account_to_close self); is_set (account_payer self);
  is_set (epoch self)].
End CloseEpochAccountBuilder.

Module DistributeOperatorRewardsBuilder.
Record t := mk { epoch_state : option Pubkey; config : option Pubkey; ncn : option Pubkey;
  operator : option Pubkey; operator_snapshot : option Pubkey; operator_vault_reward_router : option Pubkey;
  operator_vault_reward_receiver : option Pubkey; system_program : option Pubkey; epoch : option u64;
  __remaining_accounts : list Meta }.
#[global] Instance eta_t : Eta t := fun b => mk (epoch_state b) (config b) (ncn b) (operator b)
    (operator_snapshot b) (operator_vault_reward_router b) (operator_vault_reward_receiver b)
    (system_program b) (epoch b) (__remaining_accounts b).
Definition new : t := mk None None None None None None None None None [].
Definition set_epoch_state (x : Pubkey) (self : t) : t := self <| epoch_state := Some x |>.
Definition set_config (x : Pubkey) (self : t) : t := self <| config := Some x |>.
Definition set_ncn (x : Pubkey) (self : t) : t := self <| ncn := Some x |>.
Definition set_operator (x : Pubkey) (self : t) : t := self <| operator := Some x |>.
Definition set_operator_snapshot (x : Pubkey) (self : t) : t := self <| operator_snapshot := Some x |>.
Definition set_operator_vault_reward_router (x : Pubkey) (self : t) : t :=
  self <| operator_vault_reward_router := Some x |>.
Definition set_operator_vault_reward_receiver (x : Pubkey) (self : t) : t :=
  self <| operator_vault_reward_receiver := Some x |>.
Definition set_system_program (x : Pubkey) (self : t) : t := self <| system_program := Some x |>.
Definition set_epoch (x : u64) (self : t) : t := self <| epoch := Some x |>.
Definition add_remaining_account (account : Meta) (self : t) : t :=
  self <| __remaining_accounts := __remaining_accounts self ++ [account] |>.
Definition add_remaining_accounts (accounts : list Meta) (self : t) : t :=
  self <| __remaining_accounts := __remaining_accounts self ++ accounts |>.
Definition instruction (self : t) : result Empty_set Instruction :=
  let? epoch_state := expect (epoch_state self) in
  let? config := expect (config self) in
  let? ncn := expect (ncn self) in
  let? operator := expect (operator self) in
  let? operator_snapshot := expect (operator_snapshot self) in
  let? operator_vault_reward_router := expect (operator_vault_reward_router self) in
  let? operator_vault_reward_receiver := expect (operator_vault_reward_receiver self) in
  let? epoch := expect (epoch self) in
  Ok (DistributeOperatorRewards.instruction_with_remaining_accounts (DistributeOperatorRewards.mk
    epoch_state config ncn operator operator_snapshot operator_vault_reward_router
    operator_vault_reward_receiver (default SYSTEM_PROGRAM (system_program self))) epoch
    (__remaining_accounts self)).
Definition setters (a : DistributeOperatorRewards.t) (epoch : u64) (remaining_accounts : list Meta) :
    list (t -> t) :=
  [set_epoch_state (DistributeOperatorRewards.epoch_state a);
   set_config (DistributeOperatorRewards.config a); set_ncn (DistributeOperatorRewards.ncn a);
   set_operator (DistributeOperatorRewards.operator a);
   set_operator_snapshot (DistributeOperatorRewards.operator_snapshot a);
   set_operator_vault_reward_router (DistributeOperatorRewards.operator_vault_reward_router a);
   set_operator_vault_reward_receiver (DistributeOperatorRewards.operator_vault_reward_receiver a);
   set_system_program (DistributeOperatorRewards.system_program a); set_epoch epoch;
   add_remaining_accounts remaining_accounts].
Definition needed (self : t) : list bool := [is_set (epoch_state self); is_set (config self);
  is_set (ncn self); is_set (operator self); is_set (operator_snapshot self);
  is_set (operator_vault_reward_router self); is_set (operator_vault_reward_receiver self);
  is_set (epoch self)].
End DistributeOperatorRewardsBuilder.

Module DistributeVaultRewardsBuilder.
Record t := mk { epoch_state : option Pubkey; config : option Pubkey; ncn : option Pubkey;
  operator : option Pubkey; vault : option Pubkey; operator_snapshot : option Pubkey;
  operator_vault_reward_router : option Pubkey; operator_vault_reward_receiver : option Pubkey;
  system_program : option Pubkey; epoch : option u64; __remaining_accounts : list Meta }.
#[global] Instance eta_t : Eta t := fun b => mk (epoch_state b) (config b) (ncn b) (operator b) (vault b)
    (operator_snapshot b) (operator_vault_reward_router b) (operator_vault_reward_receiver b)
    (system_program b) (epoch b) (__remaining_accounts b).
Definition new : t := mk None None None None None None None None None None [].
Definition set_epoch_state (x : Pubkey) (self : t) : t := self <| epoch_state := Some x |>.
Definition set_config (x : Pubkey) (self : t) : t := self <| config := Some x |>.
Definition set_ncn (x : Pubkey) (self : t) : t := self <| ncn := Some x |>.
Definition set_operator (x : Pubkey) (self : t) : t := self <| operator := Some x |>.
Definition set_vault (x : Pubkey) (self : t) : t := self <| vault := Some x |>.
Definition set_operator_snapshot (x : Pubkey) (self : t) : t := self <| operator_snapshot := Some x |>.
Definition set_operator_vault_reward_router (x : Pubkey) (self : t) : t :=
  self <| operator_vault_reward_router := Some x |>.
Definition set_operator_vault_reward_receiver (x : Pubkey) (self : t) : t :=
  self <| operator_vault_reward_receiver := Some x |>.
Definition set_system_program (x : Pubkey) (self : t) : t := self <| system_program := Some x |>.
Definition set_epoch (x : u64) (self : t) : t := self <| epoch := Some x |>.
Definition add_remaining_account (account : Meta) (self : t) : t :=
  self <| __remaining_accounts := __remaining_accounts self ++ [account] |>.
Definition add_remaining_accounts (accounts : list Meta) (self : t) : t :=
  self <| __remaining_accounts := __remaining_accounts self ++ accounts |>.
Definition instruction (self : t) : result Empty_set Instruction :=
  let? epoch_state := expect (epoch_state self) in
  let? config := expect (config self) in
  let? ncn := expect (ncn self) in
  let? operator := expect (operator self) in
  let? vault := expect (vault self) in
  let? operator_snapshot := expect (operator_snapshot self) in
  let? operator_vault_reward_router := expect (operator_vault_reward_router self) in
  let? operator_vault_reward_receiver := expect (operator_vault_reward_receiver self) in
  let? epoch := expect (epoch self) in
  Ok (DistributeVaultRewards.instruction_with_remaining_accounts (DistributeVaultRewards.mk epoch_state
    config ncn operator vault operator_snapshot operator_vault_reward_router operator_vault_reward_receiver
    (default SYSTEM_PROGRAM (system_program self))) epoch (__remaining_accounts self)).
Definition setters (a : DistributeVaultRewards.t) (epoch : u64) (remaining_accounts : list Meta) :
    list (t -> t) :=
  [set_epoch_state (DistributeVaultRewards.epoch_state a); set_config (DistributeVaultRewards.config a);
   set_ncn (DistributeVaultRewards.ncn a); set_operator (DistributeVaultRewards.operator a);
   set_vault (DistributeVaultRewards.vault a);
   set_operator_snapshot (DistributeVaultRewards.operator_snapshot a);
   set_operator_vault_reward_router (DistributeVaultRewards.operator_vault_reward_router a);
   set_operator_vault_reward_receiver (DistributeVaultRewards.operator_vault_reward_receiver a);
   set_system_program (DistributeVaultRewards.system_program a); set_epoch epoch;
   add_remaining_accounts remaining_accounts].
Definition needed (self : t) : list bool := [is_set (epoch_state self); is_set (config self);
  is_set (ncn self); is_set (operator self); is_set (vault self); is_set (operator_snapshot self);
  is_set (operator_vault_reward_router self); is_set (operator_vault_reward_receiver self);
  is_set (epoch self)].
End DistributeVaultRewardsBuilder.

Module AdminSetParametersBuilder.
Record t := mk { config : option Pubkey; ncn : option Pubkey; ncn_admin : option Pubkey;
  starting_valid_epoch : option u64; epochs_before_stall : option u64;
  epochs_after_consensus_before_close : option u64; valid_slots_after_consensus : option u64;
  __remaining_accounts : list Meta }.
#[global] Instance eta_t : Eta t := fun b => mk (config b) (ncn b) (ncn_admin b) (starting_valid_epoch b)
    (epochs_before_stall b) (epochs_after_consensus_before_close b) (valid_slots_after_consensus b)
    (__remaining_accounts b).
Definition new : t := mk None None None None None None None [].
Definition set_config (x : Pubkey) (self : t) : t := self <| config := Some x |>.
Definition set_ncn (x : Pubkey) (self : t) : t := self <| ncn := Some x |>.
Definition set_ncn_admin (x : Pubkey) (self : t) : t := self <| ncn_admin := Some x |>.
Definition set_starting_valid_epoch (x : u64) (self : t) : t := self <| starting_valid_epoch := Some x |>.
Definition set_epochs_before_stall (x : u64) (self : t) : t := self <| epochs_before_stall := Some x |>.
Definition set_epochs_after_consensus_before_close (x : u64) (self : t) : t :=
  self <| epochs_after_consensus_before_close := Some x |>.
Definition set_valid_slots_after_consensus (x : u64) (self : t) : t :=
  self <| valid_slots_after_consensus := Some x |>.
Definition add_remaining_account (account : Meta) (self : t) : t :=
  self <| __remaining_accounts := __remaining_accounts self ++ [account] |>.
Definition add_remaining_accounts (accounts : list Meta) (self : t) : t :=
  self <| __remaining_accounts := __remaining_accounts self ++ accounts |>.
Definition instruction (self : t) : result Empty_set Instruction :=
  let? config := expect (config self) in
  let? ncn := expect (ncn self) in
  let? ncn_admin := expect (ncn_admin self) in
  Ok (AdminSetParameters.instruction_with_remaining_accounts (AdminSetParameters.mk config ncn ncn_admin)
    (starting_valid_epoch self) (epochs_before_stall self) (epochs_after_consensus_before_close self)
    (valid_slots_after_consensus self) (__remaining_accounts self)).
Definition setters (a : AdminSetParameters.t) (starting_valid_epoch : option u64)
    (epochs_before_stall : option u64) (epochs_after_consensus_before_close : option u64)
    (valid_slots_after_consensus : option u64) (remaining_accounts : list Meta) : list (t -> t) :=
  [set_config (AdminSetParameters.config a); set_ncn (AdminSetParameters.ncn a);
   set_ncn_admin (AdminSetParameters.ncn_admin a); given set_starting_valid_epoch starting_valid_epoch;
   given set_epochs_before_stall epochs_before_stall;
   given set_epochs_after_consensus_before_close epochs_after_consensus_before_close;
   given set_valid_slots_after_consensus valid_slots_after_consensus;
   add_remaining_accounts remaining_accounts].
Definition needed (self : t) : list bool := [is_set (config self); is_set (ncn self);
  is_set (ncn_admin self)].
End AdminSetParametersBuilder.

Module AdminSetNewAdminBuilder.
Record t := mk { config : option Pubkey; ncn : option Pubkey; ncn_admin : option Pubkey;
  new_admin : option Pubkey; role : option ConfigAdminRole.t; __remaining_accounts : list Meta }.
#[global] Instance eta_t : Eta t := fun b => mk (config b) (ncn b) (ncn_admin b) (new_admin b) (role b)
    (__remaining_accounts b).
Definition new : t := mk None None None None None [].
Definition set_config (x : Pubkey) (self : t) : t := self <| config := Some x |>.
Definition set_ncn (x : Pubkey) (self : t) : t := self <| ncn := Some x |>.
Definition set_ncn_admin (x : Pubkey) (self : t) : t := self <| ncn_admin := Some x |>.
Definition set_new_admin (x : Pubkey) (self : t) : t := self <| new_admin := Some x |>.
Definition set_role (x : ConfigAdminRole.t) (self : t) : t := self <| role := Some x |>.
Definition add_remaining_account (account : Meta) (self : t) : t :=
  self <| __remaining_accounts := __remaining_accounts self ++ [account] |>.
Definition add_remaining_accounts (accounts : list Meta) (self : t) : t :=
  self <| __remaining_accounts := __remaining_accounts self ++ accounts |>.
Definition instruction (self : t) : result Empty_set Instruction :=
  let? config := expect (config self) in
  let? ncn := expect (ncn self) in
  let? ncn_admin := expect (ncn_admin self) in
  let? new_admin := expect (new_admin self) in
  let? role := expect (role self) in
  Ok (AdminSetNewAdmin.instruction_with_remaining_accounts (AdminSetNewAdmin.mk config ncn ncn_admin
    new_admin) role (__remaining_accounts self)).
Definition setters (a : AdminSetNewAdmin.t) (role : ConfigAdminRole.t) (remaining_accounts : list Meta) :
    list (t -> t) :=
  [set_config (AdminSetNewAdmin.config a); set_ncn (AdminSetNewAdmin.ncn a);
   set_ncn_admin (AdminSetNewAdmin.ncn_admin a); set_new_admin (AdminSetNewAdmin.new_admin a);
   set_role role; add_remaining_accounts remaining_accounts].
Definition needed (self : t) : list bool := [is_set (config self); is_set (ncn self);
  is_set (ncn_admin self); is_set (new_admin self); is_set (role self)].
End AdminSetNewAdminBuilder.

Module AdminSetTieBreakerBuilder.
Record t := mk { epoch_state : option Pubkey; config : option Pubkey; ballot_box : option Pubkey;
  ncn : option Pubkey; tie_breaker_admin : option Pubkey; weather_status : option u8; epoch : option u64;
  __remaining_accounts : list Meta }.
#[global] Instance eta_t : Eta t := fun b => mk (epoch_state b) (config b) (ballot_box b) (ncn b)
    (tie_breaker_admin b) (weather_status b) (epoch b) (__remaining_accounts b).
Definition new : t := mk None None None None None None None [].
Definition set_epoch_state (x : Pubkey) (self : t) : t := self <| epoch_state := Some x |>.
Definition set_config (x : Pubkey) (self : t) : t := self <| config := Some x |>.
Definition set_ballot_box (x : Pubkey) (self : t) : t := self <| ballot_box := Some x |>.
Definition set_ncn (x : Pubkey) (self : t) : t := self <| ncn := Some x |>.
Definition set_tie_breaker_admin (x : Pubkey) (self : t) : t := self <| tie_breaker_admin := Some x |>.
Definition set_weather_status (x : u8) (self : t) : t := self <| weather_status := Some x |>.
Definition set_epoch (x : u64) (self : t) : t := self <| epoch := Some x |>.
Definition add_remaining_account (account : Meta) (self : t) : t :=
  self <| __remaining_accounts := __remaining_accounts self ++ [account] |>.
Definition add_remaining_accounts (accounts : list Meta) (self : t) : t :=
  self <| __remaining_accounts := __remaining_accounts self ++ accounts |>.
Definition instruction (self : t) : result Empty_set Instruction :=
  let? epoch_state := expect (epoch_state self) in
  let? config := expect (config self) in
  let? ballot_box := expect (ballot_box self) in
  let? ncn := expect (ncn self) in
  let? tie_breaker_admin := expect (tie_breaker_admin self) in
  let? weather_status := expect (weather_status self) in
  let? epoch := expect (epoch self) in
  Ok (AdminSetTieBreaker.instruction_with_remaining_accounts (AdminSetTieBreaker.mk epoch_state config
    ballot_box ncn tie_breaker_admin) weather_status epoch (__remaining_accounts self)).
Definition setters (a : AdminSetTieBreaker.t) (weather_status : u8) (epoch : u64)
    (remaining_accounts : list Meta) : list (t -> t) :=
  [set_epoch_state (AdminSetTieBreaker.epoch_state a); set_config (AdminSetTieBreaker.config a);
   set_ballot_box (AdminSetTieBreaker.ballot_box a); set_ncn (AdminSetTieBreaker.ncn a);
   set_tie_breaker_admin (AdminSetTieBreaker.tie_breaker_admin a); set_weather_status weather_status;
   set_epoch epoch; add_remaining_accounts remaining_accounts].
Definition needed (self : t) : list bool := [is_set (epoch_state self); is_set (config self);
  is_set (ballot_box self); is_set (ncn self); is_set (tie_breaker_admin self);
  is_set (weather_status self); is_set (epoch self)].
End AdminSetTieBreakerBuilder.

Module AdminSetWeightBuilder.
Record t := mk { epoch_state : option Pubkey; ncn : option Pubkey; weight_table : option Pubkey;
  weight_table_admin : option Pubkey; st_mint : option Pubkey; weight : option u128; epoch : option u64;
  __remaining_accounts : list Meta }.
#[global] Instance eta_t : Eta t := fun b => mk (epoch_state b) (ncn b) (weight_table b)
    (weight_table_admin b) (st_mint b) (weight b) (epoch b) (__remaining_accounts b).
Definition new : t := mk None None None None None None None [].
Definition set_epoch_state (x : Pubkey) (self : t) : t := self <| epoch_state := Some x |>.
Definition set_ncn (x : Pubkey) (self : t) : t := self <| ncn := Some x |>.
Definition set_weight_table (x : Pubkey) (self : t) : t := self <| weight_table := Some x |>.
Definition set_weight_table_admin (x : Pubkey) (self : t) : t := self <| weight_table_admin := Some x |>.
Definition set_st_mint (x : Pubkey) (self : t) : t := self <| st_mint := Some x |>.
Definition set_weight (x : u128) (self : t) : t := self <| weight := Some x |>.
Definition set_epoch (x : u64) (self : t) : t := self <| epoch := Some x |>.
Definition add_remaining_account (account : Meta) (self : t) : t :=
  self <| __remaining_accounts := __remaining_accounts self ++ [account] |>.
Definition add_remaining_accounts (accounts : list Meta) (self : t) : t :=
  self <| __remaining_accounts := __remaining_accounts self ++ accounts |>.
Definition instruction (self : t) : result Empty_set Instruction :=
  let? epoch_state := expect (epoch_state self) in
  let? ncn := expect (ncn self) in
  let? weight_table := expect (weight_table self) in
  let? weight_table_admin := expect (weight_table_admin self) in
  let? st_mint := expect (st_mint self) in
  let? weight := expect (weight self) in
  let? epoch := expect (epoch self) in
  Ok (AdminSetWeight.instruction_with_remaining_accounts (AdminSetWeight.mk epoch_state ncn weight_table
    weight_table_admin) st_mint weight epoch (__remaining_accounts self)).
Definition setters (a : AdminSetWeight.t) (st_mint : Pubkey) (weight : u128) (epoch : u64)
    (remaining_accounts : list Meta) : list (t -> t) :=
  [set_epoch_state (AdminSetWeight.epoch_state a); set_ncn (AdminSetWeight.ncn a);
   set_weight_table (AdminSetWeight.weight_table a);
   set_weight_table_admin (AdminSetWeight.weight_table_admin a); set_st_mint st_mint; set_weight weight;
   set_epoch epoch; add_remaining_accounts remaining_accounts].
Definition needed (self : t) : list bool := [is_set (epoch_state self); is_set (ncn self);
  is_set (weight_table self); is_set (weight_table_admin self); is_set (st_mint self); is_set (weight self);
  is_set (epoch self)].
End AdminSetWeightBuilder.

Module AdminRegisterStMintBuilder.
Record t := mk { config : option Pubkey; ncn : option Pubkey; st_mint : option Pubkey;
  vault_registry : option Pubkey; admin : option Pubkey; weight : option u128;
  __remaining_accounts : list Meta }.
#[global] Instance eta_t : Eta t := fun b => mk (config b) (ncn b) (st_mint b) (vault_registry b) (admin b)
    (weight b) (__remaining_accounts b).
Definition new : t := mk None None None None None None [].
Definition set_config (x : Pubkey) (self : t) : t := self <| config := Some x |>.
Definition set_ncn (x : Pubkey) (self : t) : t := self <| ncn := Some x |>.
Definition set_st_mint (x : Pubkey) (self : t) : t := self <| st_mint := Some x |>.
Definition set_vault_registry (x : Pubkey) (self : t) : t := self <| vault_registry := Some x |>.
Definition set_admin (x : Pubkey) (self : t) : t := self <| admin := Some x |>.
Definition set_weight (x : u128) (self : t) : t := self <| weight := Some x |>.
Definition add_remaining_account (account : Meta) (self : t) : t :=
  self <| __remaining_accounts := __remaining_accounts self ++ [account] |>.
Definition add_remaining_accounts (accounts : list Meta) (self : t) : t :=
  self <| __remaining_accounts := __remaining_accounts self ++ accounts |>.
Definition instruction (self : t) : result Empty_set Instruction :=
  let? config := expect (config self) in
  let? ncn := expect (ncn self) in
  let? st_mint := expect (st_mint self) in
  let? vault_registry := expect (vault_registry self) in
  let? admin := expect (admin self) in
  Ok (AdminRegisterStMint.instruction_with_remaining_accounts (AdminRegisterStMint.mk config ncn st_mint
    vault_registry admin) (weight self) (__remaining_accounts self)).
Definition setters (a : AdminRegisterStMint.t) (weight : option u128) (remaining_accounts : list Meta) :
    list (t -> t) :=
  [set_config (AdminRegisterStMint.config a); set_ncn (AdminRegisterStMint.ncn a);
   set_st_mint (AdminRegisterStMint.st_mint a); set_vault_registry (AdminRegisterStMint.vault_registry a);
   set_admin (AdminRegisterStMint.admin a); given set_weight weight;
   add_remaining_accounts remaining_accounts].
Definition needed (self : t) : list bool := [is_set (config self); is_set (ncn self); is_set (st_mint self);
  is_set (vault_registry self); is_set (admin self)].
End AdminRegisterStMintBuilder.

Module AdminSetStMintBuilder.
Record t := mk { config : option Pubkey; ncn : option Pubkey; vault_registry : option Pubkey;
  admin : option Pubkey; st_mint : option Pubkey; weight : option u128; __remaining_accounts : list Meta }.
#[global] Instance eta_t : Eta t := fun b => mk (config b) (ncn b) (vault_registry b) (admin b) (st_mint b)
    (weight b) (__remaining_accounts b).
Definition new : t := mk None None None None None None [].
Definition set_config (x : Pubkey) (self : t) : t := self <| config := Some x |>.
Definition set_ncn (x : Pubkey) (self : t) : t := self <| ncn := Some x |>.
Definition set_vault_registry (x : Pubkey) (self : t) : t := self <| vault_registry := Some x |>.
Definition set_admin (x : Pubkey) (self : t) : t := self <| admin := Some x |>.
Definition set_st_mint (x : Pubkey) (self : t) : t := self <| st_mint := Some x |>.
Definition set_weight (x : u128) (self : t) : t := self <| weight := Some x |>.
Definition add_remaining_account (account : Meta) (self : t) : t :=
  self <| __remaining_accounts := __remaining_accounts self ++ [account] |>.
Definition add_remaining_accounts (accounts : list Meta) (self : t) : t :=
  self <| __remaining_accounts := __remaining_accounts self ++ accounts |>.
Definition instruction (self : t) : result Empty_set Instruction :=
  let? config := expect (config self) in
  let? ncn := expect (ncn self) in
  let? vault_registry := expect (vault_registry self) in
  let? admin := expect (admin self) in
  let? st_mint := expect (st_mint self) in
  Ok (AdminSetStMint.instruction_with_remaining_accounts (AdminSetStMint.mk config ncn vault_registry admin)
    st_mint (weight self) (__remaining_accounts self)).
Definition setters (a : AdminSetStMint.t) (st_mint : Pubkey) (weight : option u128)
    (remaining_accounts : list Meta) : list (t -> t) :=
  [set_config (AdminSetStMint.config a); set_ncn (AdminSetStMint.ncn a);
   set_vault_registry (AdminSetStMint.vault_registry a); set_admin (AdminSetStMint.admin a);
   set_st_mint st_mint; given set_weight weight; add_remaining_accounts remaining_accounts].
Definition needed (self : t) : list bool := [is_set (config self); is_set (ncn self);
  is_set (vault_registry self); is_set (admin self); is_set (st_mint self)].
End AdminSetStMintBuilder.

(** ** All of them *)

(** The accounts and the arguments of an instruction. *)
Inductive call :=
| CInitializeConfig (a : InitializeConfig.t) (epochs_before_stall : u64)
    (epochs_after_consensus_before_close : u64) (valid_slots_after_consensus : u64) (ncn_fee_bps : u16)
| CInitializeVaultRegistry (a : InitializeVaultRegistry.t)
| CReallocVaultRegistry (a : ReallocVaultRegistry.t)
| CRegisterVault (a : RegisterVault.t)
| CInitializeEpochState (a : InitializeEpochState.t) (epoch : u64)
| CInitializeWeightTable (a : InitializeWeightTable.t) (epoch : u64)
| CSetEpochWeights (a : SetEpochWeights.t) (epoch : u64)
| CReallocWeightTable (a : ReallocWeightTable.t) (epoch : u64)
| CInitializeEpochSnapshot (a : InitializeEpochSnapshot.t) (epoch : u64)
| CInitializeOperatorSnapshot (a : InitializeOperatorSnapshot.t) (epoch : u64)
| CSnapshotVaultOperatorDelegation (a : SnapshotVaultOperatorDelegation.t) (epoch : u64)
| CInitializeBallotBox (a : InitializeBallotBox.t) (epoch : u64)
| CReallocBallotBox (a : ReallocBallotBox.t) (epoch : u64)
| CCastVote (a : CastVote.t) (weather_status : u8) (epoch : u64)
| CInitializeNCNRewardRouter (a : InitializeNCNRewardRouter.t) (epoch : u64)
| CReallocNCNRewardRouter (a : ReallocNCNRewardRouter.t) (epoch : u64)
| CRouteNCNRewards (a : RouteNCNRewards.t) (max_iterations : u16) (epoch : u64)
| CDistributeProtocolRewards (a : DistributeProtocolRewards.t) (epoch : u64)
| CDistributeNCNRewards (a : DistributeNCNRewards.t) (epoch : u64)
| CInitializeOperatorVaultRewardRouter (a : InitializeOperatorVaultRewardRouter.t) (epoch : u64)
| CDistributeOperatorVaultRewardRoute (a : DistributeOperatorVaultRewardRoute.t) (epoch : u64)
| CRouteOperatorVaultRewards (a : RouteOperatorVaultRewards.t) (max_iterations : u16) (epoch : u64)
| CCloseEpochAccount (a : CloseEpochAccount.t) (epoch : u64)
| CDistributeOperatorRewards (a : DistributeOperatorRewards.t) (epoch : u64)
| CDistributeVaultRewards (a : DistributeVaultRewards.t) (epoch : u64)
| CAdminSetParameters (a : AdminSetParameters.t) (starting_valid_epoch : option u64)
    (epochs_before_stall : option u64) (epochs_after_consensus_before_close : option u64)
    (valid_slots_after_consensus : option u64)
| CAdminSetNewAdmin (a : AdminSetNewAdmin.t) (role : ConfigAdminRole.t)
| CAdminSetTieBreaker (a : AdminSetTieBreaker.t) (weather_status : u8) (epoch : u64)
| CAdminSetWeight (a : AdminSetWeight.t) (st_mint : Pubkey) (weight : u128) (epoch : u64)
| CAdminRegisterStMint (a : AdminRegisterStMint.t) (weight : option u128)
| CAdminSetStMint (a : AdminSetStMint.t) (st_mint : Pubkey) (weight : option u128).

Definition instruction_of (c : call) (remaining_accounts : list Meta) : Instruction :=
  match c with
  | CInitializeConfig a epochs_before_stall epochs_after_consensus_before_close valid_slots_after_consensus
      ncn_fee_bps => InitializeConfig.instruction_with_remaining_accounts a epochs_before_stall
      epochs_after_consensus_before_close valid_slots_after_consensus ncn_fee_bps remaining_accounts
  | CInitializeVaultRegistry a => InitializeVaultRegistry.instruction_with_remaining_accounts a
      remaining_accounts
  | CReallocVaultRegistry a => ReallocVaultRegistry.instruction_with_remaining_accounts a remaining_accounts
  | CRegisterVault a => RegisterVault.instruction_with_remaining_accounts a remaining_accounts
  | CInitializeEpochState a epoch => InitializeEpochState.instruction_with_remaining_accounts a epoch
      remaining_accounts
  | CInitializeWeightTable a epoch => InitializeWeightTable.instruction_with_remaining_accounts a epoch
      remaining_accounts
  | CSetEpochWeights a epoch => SetEpochWeights.instruction_with_remaining_accounts a epoch
      remaining_accounts
  | CReallocWeightTable a epoch => ReallocWeightTable.instruction_with_remaining_accounts a epoch
      remaining_accounts
  | CInitializeEpochSnapshot a epoch => InitializeEpochSnapshot.instruction_with_remaining_accounts a epoch
      remaining_accounts
  | CInitializeOperatorSnapshot a epoch => InitializeOperatorSnapshot.instruction_with_remaining_accounts a
      epoch remaining_accounts
  | CSnapshotVaultOperatorDelegation a epoch =>
      SnapshotVaultOperatorDelegation.instruction_with_remaining_accounts a epoch remaining_accounts
  | CInitializeBallotBox a epoch => InitializeBallotBox.instruction_with_remaining_accounts a epoch
      remaining_accounts
  | CReallocBallotBox a epoch => ReallocBallotBox.instruction_with_remaining_accounts a epoch
      remaining_accounts
  | CCastVote a weather_status epoch => CastVote.instruction_with_remaining_accounts a weather_status epoch
      remaining_accounts
  | CInitializeNCNRewardRouter a epoch => InitializeNCNRewardRouter.instruction_with_remaining_accounts a
      epoch remaining_accounts
  | CReallocNCNRewardRouter a epoch => ReallocNCNRewardRouter.instruction_with_remaining_accounts a epoch
      remaining_accounts
  | CRouteNCNRewards a max_iterations epoch => RouteNCNRewards.instruction_with_remaining_accounts a
      max_iterations epoch remaining_accounts
  | CDistributeProtocolRewards a epoch => DistributeProtocolRewards.instruction_with_remaining_accounts a
      epoch remaining_accounts
  | CDistributeNCNRewards a epoch => DistributeNCNRewards.instruction_with_remaining_accounts a epoch
      remaining_accounts
  | CInitializeOperatorVaultRewardRouter a epoch =>
      InitializeOperatorVaultRewardRouter.instruction_with_remaining_accounts a epoch remaining_accounts
  | CDistributeOperatorVaultRewardRoute a epoch =>
      DistributeOperatorVaultRewardRoute.instruction_with_remaining_accounts a epoch remaining_accounts
  | CRouteOperatorVaultRewards a max_iterations epoch =>
      RouteOperatorVaultRewards.instruction_with_remaining_accounts a max_iterations epoch
      remaining_accounts
  | CCloseEpochAccount a epoch => CloseEpochAccount.instruction_with_remaining_accounts a epoch
      remaining_accounts
  | CDistributeOperatorRewards a epoch => DistributeOperatorRewards.instruction_with_remaining_accounts a
      epoch remaining_accounts
  | CDistributeVaultRewards a epoch => DistributeVaultRewards.instruction_with_remaining_accounts a epoch
      remaining_accounts
  | CAdminSetParameters a starting_valid_epoch epochs_before_stall epochs_after_consensus_before_close
      valid_slots_after_consensus => AdminSetParameters.instruction_with_remaining_accounts a
      starting_valid_epoch epochs_before_stall epochs_after_consensus_before_close
      valid_slots_after_consensus remaining_accounts
  | CAdminSetNewAdmin a role => AdminSetNewAdmin.instruction_with_remaining_accounts a role
      remaining_accounts
  | CAdminSetTieBreaker a weather_status epoch => AdminSetTieBreaker.instruction_with_remaining_accounts a
      weather_status epoch remaining_accounts
  | CAdminSetWeight a st_mint weight epoch => AdminSetWeight.instruction_with_remaining_accounts a st_mint
      weight epoch remaining_accounts
  | CAdminRegisterStMint a weight => AdminRegisterStMint.instruction_with_remaining_accounts a weight
      remaining_accounts
  | CAdminSetStMint a st_mint weight => AdminSetStMint.instruction_with_remaining_accounts a st_mint weight
      remaining_accounts
  end.

Inductive builder :=
| BInitializeConfig (b : InitializeConfigBuilder.t)
| BInitializeVaultRegistry (b : InitializeVaultRegistryBuilder.t)
| BReallocVaultRegistry (b : ReallocVaultRegistryBuilder.t)
| BRegisterVault (b : RegisterVaultBuilder.t)
| BInitializeEpochState (b : InitializeEpochStateBuilder.t)
| BInitializeWeightTable (b : InitializeWeightTableBuilder.t)
| BSetEpochWeights (b : SetEpochWeightsBuilder.t)
| BReallocWeightTable (b : ReallocWeightTableBuilder.t)
| BInitializeEpochSnapshot (b : InitializeEpochSnapshotBuilder.t)
| BInitializeOperatorSnapshot (b : InitializeOperatorSnapshotBuilder.t)
| BSnapshotVaultOperatorDelegation (b : SnapshotVaultOperatorDelegationBuilder.t)
| BInitializeBallotBox (b : InitializeBallotBoxBuilder.t)
| BReallocBallotBox (b : ReallocBallotBoxBuilder.t)
| BCastVote (b : CastVoteBuilder.t)
| BInitializeNCNRewardRouter (b : InitializeNCNRewardRouterBuilder.t)
| BReallocNCNRewardRouter (b : ReallocNCNRewardRouterBuilder.t)
| BRouteNCNRewards (b : RouteNCNRewardsBuilder.t)
| BDistributeProtocolRewards (b : DistributeProtocolRewardsBuilder.t)
| BDistributeNCNRewards (b : DistributeNCNRewardsBuilder.t)
| BInitializeOperatorVaultRewardRouter (b : InitializeOperatorVaultRewardRouterBuilder.t)
| BDistributeOperatorVaultRewardRoute (b : DistributeOperatorVaultRewardRouteBuilder.t)
| BRouteOperatorVaultRewards (b : RouteOperatorVaultRewardsBuilder.t)
| BCloseEpochAccount (b : CloseEpochAccountBuilder.t)
| BDistributeOperatorRewards (b : DistributeOperatorRewardsBuilder.t)
| BDistributeVaultRewards (b : DistributeVaultRewardsBuilder.t)
| BAdminSetParameters (b : AdminSetParametersBuilder.t)
| BAdminSetNewAdmin (b : AdminSetNewAdminBuilder.t)
| BAdminSetTieBreaker (b : AdminSetTieBreakerBuilder.t)
| BAdminSetWeight (b : AdminSetWeightBuilder.t)
| BAdminRegisterStMint (b : AdminRegisterStMintBuilder.t)
| BAdminSetStMint (b : AdminSetStMintBuilder.t).

Definition instruction (b : builder) : result Empty_set Instruction :=
  match b with
  | BInitializeConfig b => InitializeConfigBuilder.instruction b
  | BInitializeVaultRegistry b => InitializeVaultRegistryBuilder.instruction b
  | BReallocVaultRegistry b => ReallocVaultRegistryBuilder.instruction b
  | BRegisterVault b => RegisterVaultBuilder.instruction b
  | BInitializeEpochState b => InitializeEpochStateBuilder.instruction b
  | BInitializeWeightTable b => InitializeWeightTableBuilder.instruction b
  | BSetEpochWeights b => SetEpochWeightsBuilder.instruction b
  | BReallocWeightTable b => ReallocWeightTableBuilder.instruction b
  | BInitializeEpochSnapshot b => InitializeEpochSnapshotBuilder.instruction b
  | BInitializeOperatorSnapshot b => InitializeOperatorSnapshotBuilder.instruction b
  | BSnapshotVaultOperatorDelegation b => SnapshotVaultOperatorDelegationBuilder.instruction b
  | BInitializeBallotBox b => InitializeBallotBoxBuilder.instruction b
  | BReallocBallotBox b => ReallocBallotBoxBuilder.instruction b
  | BCastVote b => CastVoteBuilder.instruction b
  | BInitializeNCNRewardRouter b => InitializeNCNRewardRouterBuilder.instruction b
  | BReallocNCNRewardRouter b => ReallocNCNRewardRouterBuilder.instruction b
  | BRouteNCNRewards b => RouteNCNRewardsBuilder.instruction b
  | BDistributeProtocolRewards b => DistributeProtocolRewardsBuilder.instruction b
  | BDistributeNCNRewards b => DistributeNCNRewardsBuilder.instruction b
  | BInitializeOperatorVaultRewardRouter b => InitializeOperatorVaultRewardRouterBuilder.instruction b
  | BDistributeOperatorVaultRewardRoute b => DistributeOperatorVaultRewardRouteBuilder.instruction b
  | BRouteOperatorVaultRewards b => RouteOperatorVaultRewardsBuilder.instruction b
  | BCloseEpochAccount b => CloseEpochAccountBuilder.instruction b
  | BDistributeOperatorRewards b => DistributeOperatorRewardsBuilder.instruction b
  | BDistributeVaultRewards b => DistributeVaultRewardsBuilder.instruction b
  | BAdminSetParameters b => AdminSetParametersBuilder.instruction b
  | BAdminSetNewAdmin b => AdminSetNewAdminBuilder.instruction b
  | BAdminSetTieBreaker b => AdminSetTieBreakerBuilder.instruction b
  | BAdminSetWeight b => AdminSetWeightBuilder.instruction b
  | BAdminRegisterStMint b => AdminRegisterStMintBuilder.instruction b
  | BAdminSetStMint b => AdminSetStMintBuilder.instruction b
  end.

(** The builder after the calls that set what the instruction has, in some order. *)
Definition filled (c : call) (remaining_accounts : list Meta) (b : builder) : Prop :=
  match c, b with
  | CInitializeConfig a epochs_before_stall epochs_after_consensus_before_close valid_slots_after_consensus
      ncn_fee_bps, BInitializeConfig b => reached InitializeConfigBuilder.new
      (InitializeConfigBuilder.setters a epochs_before_stall epochs_after_consensus_before_close
      valid_slots_after_consensus ncn_fee_bps remaining_accounts) b
  | CInitializeVaultRegistry a, BInitializeVaultRegistry b => reached InitializeVaultRegistryBuilder.new
      (InitializeVaultRegistryBuilder.setters a remaining_accounts) b
  | CReallocVaultRegistry a, BReallocVaultRegistry b => reached ReallocVaultRegistryBuilder.new
      (ReallocVaultRegistryBuilder.setters a remaining_accounts) b
  | CRegisterVault a, BRegisterVault b => reached RegisterVaultBuilder.new (RegisterVaultBuilder.setters a
      remaining_accounts) b
  | CInitializeEpochState a epoch, BInitializeEpochState b => reached InitializeEpochStateBuilder.new
      (InitializeEpochStateBuilder.setters a epoch remaining_accounts) b
  | CInitializeWeightTable a epoch, BInitializeWeightTable b => reached InitializeWeightTableBuilder.new
      (InitializeWeightTableBuilder.setters a epoch remaining_accounts) b
  | CSetEpochWeights a epoch, BSetEpochWeights b => reached SetEpochWeightsBuilder.new
      (SetEpochWeightsBuilder.setters a epoch remaining_accounts) b
  | CReallocWeightTable a epoch, BReallocWeightTable b => reached ReallocWeightTableBuilder.new
      (ReallocWeightTableBuilder.setters a epoch remaining_accounts) b
  | CInitializeEpochSnapshot a epoch, BInitializeEpochSnapshot b =>
      reached InitializeEpochSnapshotBuilder.new (InitializeEpochSnapshotBuilder.setters a epoch
      remaining_accounts) b
  | CInitializeOperatorSnapshot a epoch, BInitializeOperatorSnapshot b =>
      reached InitializeOperatorSnapshotBuilder.new (InitializeOperatorSnapshotBuilder.setters a epoch
      remaining_accounts) b
  | CSnapshotVaultOperatorDelegation a epoch, BSnapshotVaultOperatorDelegation b =>
      reached SnapshotVaultOperatorDelegationBuilder.new (SnapshotVaultOperatorDelegationBuilder.setters a
      epoch remaining_accounts) b
  | CInitializeBallotBox a epoch, BInitializeBallotBox b => reached InitializeBallotBoxBuilder.new
      (InitializeBallotBoxBuilder.setters a epoch remaining_accounts) b
  | CReallocBallotBox a epoch, BReallocBallotBox b => reached ReallocBallotBoxBuilder.new
      (ReallocBallotBoxBuilder.setters a epoch remaining_accounts) b
  | CCastVote a weather_status epoch, BCastVote b => reached CastVoteBuilder.new (CastVoteBuilder.setters a
      weather_status epoch remaining_accounts) b
  | CInitializeNCNRewardRouter a epoch, BInitializeNCNRewardRouter b =>
      reached InitializeNCNRewardRouterBuilder.new (InitializeNCNRewardRouterBuilder.setters a epoch
      remaining_accounts) b
  | CReallocNCNRewardRouter a epoch, BReallocNCNRewardRouter b => reached ReallocNCNRewardRouterBuilder.new
      (ReallocNCNRewardRouterBuilder.setters a epoch remaining_accounts) b
  | CRouteNCNRewards a max_iterations epoch, BRouteNCNRewards b => reached RouteNCNRewardsBuilder.new
      (RouteNCNRewardsBuilder.setters a max_iterations epoch remaining_accounts) b
  | CDistributeProtocolRewards a epoch, BDistributeProtocolRewards b =>
      reached DistributeProtocolRewardsBuilder.new (DistributeProtocolRewardsBuilder.setters a epoch
      remaining_accounts) b
  | CDistributeNCNRewards a epoch, BDistributeNCNRewards b => reached DistributeNCNRewardsBuilder.new
      (DistributeNCNRewardsBuilder.setters a epoch remaining_accounts) b
  | CInitializeOperatorVaultRewardRouter a epoch, BInitializeOperatorVaultRewardRouter b =>
      reached InitializeOperatorVaultRewardRouterBuilder.new
      (InitializeOperatorVaultRewardRouterBuilder.setters a epoch remaining_accounts) b
  | CDistributeOperatorVaultRewardRoute a epoch, BDistributeOperatorVaultRewardRoute b =>
      reached DistributeOperatorVaultRewardRouteBuilder.new
      (DistributeOperatorVaultRewardRouteBuilder.setters a epoch remaining_accounts) b
  | CRouteOperatorVaultRewards a max_iterations epoch, BRouteOperatorVaultRewards b =>
      reached RouteOperatorVaultRewardsBuilder.new (RouteOperatorVaultRewardsBuilder.setters a
      max_iterations epoch remaining_accounts) b
  | CCloseEpochAccount a epoch, BCloseEpochAccount b => reached CloseEpochAccountBuilder.new
      (CloseEpochAccountBuilder.setters a epoch remaining_accounts) b
  | CDistributeOperatorRewards a epoch, BDistributeOperatorRewards b =>
      reached DistributeOperatorRewardsBuilder.new (DistributeOperatorRewardsBuilder.setters a epoch
      remaining_accounts) b
  | CDistributeVaultRewards a epoch, BDistributeVaultRewards b => reached DistributeVaultRewardsBuilder.new
      (DistributeVaultRewardsBuilder.setters a epoch remaining_accounts) b
  | CAdminSetParameters a starting_valid_epoch epochs_before_stall epochs_after_consensus_before_close
      valid_slots_after_consensus, BAdminSetParameters b => reached AdminSetParametersBuilder.new
      (AdminSetParametersBuilder.setters a starting_valid_epoch epochs_before_stall
      epochs_after_consensus_before_close valid_slots_after_consensus remaining_accounts) b
  | CAdminSetNewAdmin a role, BAdminSetNewAdmin b => reached AdminSetNewAdminBuilder.new
      (AdminSetNewAdminBuilder.setters a role remaining_accounts) b
  | CAdminSetTieBreaker a weather_status epoch, BAdminSetTieBreaker b =>
      reached AdminSetTieBreakerBuilder.new (AdminSetTieBreakerBuilder.setters a weather_status epoch
      remaining_accounts) b
  | CAdminSetWeight a st_mint weight epoch, BAdminSetWeight b => reached AdminSetWeightBuilder.new
      (AdminSetWeightBuilder.setters a st_mint weight epoch remaining_accounts) b
  | CAdminRegisterStMint a weight, BAdminRegisterStMint b => reached AdminRegisterStMintBuilder.new
      (AdminRegisterStMintBuilder.setters a weight remaining_accounts) b
  | CAdminSetStMint a st_mint weight, BAdminSetStMint b => reached AdminSetStMintBuilder.new
      (AdminSetStMintBuilder.setters a st_mint weight remaining_accounts) b
  | _, _ => False
  end.

(** Which of the fields without a default are set. *)
Definition needed (b : builder) : list bool :=
  match b with
  | BInitializeConfig b => InitializeConfigBuilder.needed b
  | BInitializeVaultRegistry b => InitializeVaultRegistryBuilder.needed b
  | BReallocVaultRegistry b => ReallocVaultRegistryBuilder.needed b
  | BRegisterVault b => RegisterVaultBuilder.needed b
  | BInitializeEpochState b => InitializeEpochStateBuilder.needed b
  | BInitializeWeightTable b => InitializeWeightTableBuilder.needed b
  | BSetEpochWeights b => SetEpochWeightsBuilder.needed b
  | BReallocWeightTable b => ReallocWeightTableBuilder.needed b
  | BInitializeEpochSnapshot b => InitializeEpochSnapshotBuilder.needed b
  | BInitializeOperatorSnapshot b => InitializeOperatorSnapshotBuilder.needed b
  | BSnapshotVaultOperatorDelegation b => SnapshotVaultOperatorDelegationBuilder.needed b
  | BInitializeBallotBox b => InitializeBallotBoxBuilder.needed b
  | BReallocBallotBox b => ReallocBallotBoxBuilder.needed b
  | BCastVote b => CastVoteBuilder.needed b
  | BInitializeNCNRewardRouter b => InitializeNCNRewardRouterBuilder.needed b
  | BReallocNCNRewardRouter b => ReallocNCNRewardRouterBuilder.needed b
  | BRouteNCNRewards b => RouteNCNRewardsBuilder.needed b
  | BDistributeProtocolRewards b => DistributeProtocolRewardsBuilder.needed b
  | BDistributeNCNRewards b => DistributeNCNRewardsBuilder.needed b
  | BInitializeOperatorVaultRewardRouter b => InitializeOperatorVaultRewardRouterBuilder.needed b
  | BDistributeOperatorVaultRewardRoute b => DistributeOperatorVaultRewardRouteBuilder.needed b
  | BRouteOperatorVaultRewards b => RouteOperatorVaultRewardsBuilder.needed b
  | BCloseEpochAccount b => CloseEpochAccountBuilder.needed b
  | BDistributeOperatorRewards b => DistributeOperatorRewardsBuilder.needed b
  | BDistributeVaultRewards b => DistributeVaultRewardsBuilder.needed b
  | BAdminSetParameters b => AdminSetParametersBuilder.needed b
  | BAdminSetNewAdmin b => AdminSetNewAdminBuilder.needed b
  | BAdminSetTieBreaker b => AdminSetTieBreakerBuilder.needed b
  | BAdminSetWeight b => AdminSetWeightBuilder.needed b
  | BAdminRegisterStMint b => AdminRegisterStMintBuilder.needed b
  | BAdminSetStMint b => AdminSetStMintBuilder.needed b
  end.

(** ** Theorems *)

(** Setters of different fields commute. *)
Definition commute {T} (f g : T -> T) : Prop := forall b, f (g b) = g (f b).

Lemma ForallOrdPairs_perm {A} (R : A -> A -> Prop) l l' :
  (forall x y, R x y -> R y x) -> l ≡ₚ l' -> ForallOrdPairs R l -> ForallOrdPairs R l'.
Proof.
  intros Hsym Hp. induction Hp as [|x l l' Hp IH|x y l|l l' l'' _ IH _ IH']; intros H; auto.
  - inversion_clear H. constructor; [by rewrite <- Hp | auto].
  - inversion_clear H as [|? ? Hy H']. inversion_clear H' as [|? ? Hx Hl]. inversion_clear Hy.
    repeat constructor; auto.
Qed.

Lemma run_perm {T} (l l' : list (T -> T)) b :
  l ≡ₚ l' -> ForallOrdPairs commute l -> run l b = run l' b.
Proof.
  intros Hp. revert b. induction Hp as [|f l l' Hp IH|f g l|l l' l'' Hp IH _ IH']; intros b H; auto.
  - inversion_clear H. cbn. apply IH. done.
  - inversion_clear H as [|? ? Hf _]. inversion_clear Hf as [|? ? Hfg _]. cbn. by rewrite (Hfg b).
  - rewrite (IH b H). apply IH'. eapply ForallOrdPairs_perm; [|exact Hp|exact H]. intros x y Hxy ?. by rewrite Hxy.
Qed.

Lemma reached_run {T} (new : T) setters b :
  ForallOrdPairs commute setters -> reached new setters b -> b = run setters new.
Proof.
  intros Hc (steps & Hp & ->). apply run_perm; [done|].
  eapply ForallOrdPairs_perm; [|symmetry; exact Hp|exact Hc]. intros x y Hxy ?. by rewrite Hxy.
Qed.

(** C31: in whatever order a builder's methods are called that set the accounts
    and the arguments of an instruction, it builds the client's instruction for
    them, with the remaining accounts after the named ones; methods of optional
    arguments that are [None] are not called, and optional accounts are passed as
    they are. *)
Theorem filled_builder_builds c remaining_accounts b :
  filled c remaining_accounts b -> instruction b = Ok (instruction_of c remaining_accounts).
Proof.
  destruct c, b; cbn -[reached]; intros H; try contradiction;
    repeat match goal with x : option _ |- _ => destruct x end;
    apply reached_run in H; try (subst; reflexivity);
    repeat constructor; intro; reflexivity.
Qed.

Lemma expect_panics {E A B} (x : option A) (k : A -> result E B) flags :
  (forall a, x = Some a -> k a = Panic <-> In false flags) ->
  rbind (expect x) k = Panic <-> In false (is_set x :: flags).
Proof. destruct x as [a|]; cbn; intros H; [rewrite (H a eq_refl); intuition discriminate | tauto]. Qed.

Lemma ok_panics {E A} (a : A) : Ok a = @Panic E A <-> In false [].
Proof. split; [discriminate | intros []]. Qed.

(** A builder panics exactly when a field without a default was not set. *)
Theorem builder_panics_iff b : instruction b = Panic <-> In false (needed b).
Proof. destruct b; repeat (apply expect_panics; intros ? _); apply ok_panics. Qed.

(** ** Example *)

Definition closing : CloseEpochAccount.t := CloseEpochAccount.mk 1 2 3 4 5 6 SYSTEM_PROGRAM None (Some 7).
Definition closing_builder : CloseEpochAccountBuilder.t :=
  run (rev (CloseEpochAccountBuilder.setters closing 9 [new 8 false])) CloseEpochAccountBuilder.new.

Example filled_builder_builds_witness :
  instruction (BCloseEpochAccount closing_builder) =
  Ok (Ncn NCN_PROGRAM_ID
    [new 1 false; new 2 false; new_readonly 3 false; new_readonly 4 false; new 5 false; new 6 false;
     new_readonly SYSTEM_PROGRAM false; new_readonly NCN_PROGRAM_ID false; new 7 false; new 8 false]
    22 (NCNProgramInstruction.CloseEpochAccount 9)).
Proof.
  apply (filled_builder_builds (CCloseEpochAccount closing 9) [new 8 false]).
  eexists. split; [symmetry; apply Permutation_rev | reflexivity].
Defined.
