(* ===== verification/ClientErrors.v ===== *)
(** The error enum of the generated client
    ([clients/rust/ncn_program/src/generated/errors/ncn_program.rs]), which users
    read from the code in a failed transaction, and the texts of both enums (the
    [#[error("...")]] attributes there and in [core/src/error.rs]). *)
From Stdlib Require Import Strings.String.
From S2P Require Import Prelude Errors.
Local Open Scope string_scope.

Module NcnProgramError.
Inductive t : Type :=
| NoValidBallots
| DenominatorIsZero
| ArithmeticOverflow
| ArithmeticUnderflowError
| ArithmeticFloorError
| ModuloOverflow
| NewPreciseNumberError
| CastToImpreciseNumberError
| CastToU64Error
| CastToU128Error
| IncorrectWeightTableAdmin
| DuplicateMintsInTable
| NoMintsInTable
| TableNotInitialized
| RegistryNotInitialized
| NoVaultsInRegistry
| VaultNotInRegistry
| MintInTable
| TooManyMintsForTable
| TooManyVaultsForRegistry
| WeightTableAlreadyInitialized
| CannotCreateFutureWeightTables
| WeightMintsDoNotMatchLength
| WeightMintsDoNotMatchMintHash
| InvalidMintForWeightTable
| ConfigMintsNotUpdated
| ConfigMintListFull
| VaultRegistryListFull
| VaultRegistryVaultLocked
| VaultIndexAlreadyInUse
| MintEntryNotFound
| FeeCapExceeded
| TotalFeesCannotBeZero
| DefaultProtocolWallet
| DefaultNcnWallet
| IncorrectNcnAdmin
| IncorrectNcn
| IncorrectFeeAdmin
| WeightTableNotFinalized
| WeightNotFound
| NoOperators
| VaultOperatorDelegationFinalized
| OperatorFinalized
| TooManyVaultOperatorDelegations
| DuplicateVaultOperatorDelegation
| DuplicateVoteCast
| CannotVoteWithZeroStake
| OperatorAlreadyVoted
| OperatorVotesFull
| BallotTallyFull
| BallotTallyNotFoundFull
| BallotTallyNotEmpty
| ConsensusAlreadyReached
| ConsensusNotReached
| EpochSnapshotNotFinalized
| VotingNotValid
| TieBreakerAdminInvalid
| VotingNotFinalized
| TieBreakerNotInPriorVotes
| InvalidMerkleProof
| InvalidOperatorVoter
| InvalidNcnFeeGroup
| InvalidBaseFeeGroup
| OperatorRewardListFull
| OperatorRewardNotFound
| VaultRewardNotFound
| DestinationMismatch
| NcnRewardRouteNotFound
| FeeNotActive
| NoRewards
| WeightNotSet
| RouterStillRouting
| InvalidEpochsBeforeStall
| InvalidEpochsBeforeClose
| InvalidSlotsAfterConsensus
| VaultNeedsUpdate
| InvalidAccountStatus
| AccountAlreadyInitialized
| BadBallot
| VotingIsNotOver
| OperatorIsNotInSnapshot
| InvalidAccountToCloseDiscriminator
| CannotCloseAccount
| CannotCloseAccountAlreadyClosed
| CannotCloseAccountNotEnoughEpochs
| CannotCloseAccountNoReceiverProvided
| CannotCloseAccountNoEnoughAccounts
| CannotCloseEpochStateAccount
| InvalidNCNFeeWallet
| EpochIsClosingDown
| MarkerExists.
(** [e as u32]. *)
Definition as_u32 (e : t) : u32 :=
  match e with
  | NoValidBallots => 0x0
  | DenominatorIsZero => 0x2100
  | ArithmeticOverflow => 0x2101
  | ArithmeticUnderflowError => 0x2102
  | ArithmeticFloorError => 0x2103
  | ModuloOverflow => 0x2104
  | NewPreciseNumberError => 0x2105
  | CastToImpreciseNumberError => 0x2106
  | CastToU64Error => 0x2107
  | CastToU128Error => 0x2108
  | IncorrectWeightTableAdmin => 0x2200
  | DuplicateMintsInTable => 0x2201
  | NoMintsInTable => 0x2202
  | TableNotInitialized => 0x2203
  | RegistryNotInitialized => 0x2204
  | NoVaultsInRegistry => 0x2205
  | VaultNotInRegistry => 0x2206
  | MintInTable => 0x2207
  | TooManyMintsForTable => 0x2208
  | TooManyVaultsForRegistry => 0x2209
  | WeightTableAlreadyInitialized => 0x220A
  | CannotCreateFutureWeightTables => 0x220B
  | WeightMintsDoNotMatchLength => 0x220C
  | WeightMintsDoNotMatchMintHash => 0x220D
  | InvalidMintForWeightTable => 0x220E
  | ConfigMintsNotUpdated => 0x220F
  | ConfigMintListFull => 0x2210
  | VaultRegistryListFull => 0x2211
  | VaultRegistryVaultLocked => 0x2212
  | VaultIndexAlreadyInUse => 0x2213
  | MintEntryNotFound => 0x2214
  | FeeCapExceeded => 0x2215
  | TotalFeesCannotBeZero => 0x2216
  | DefaultProtocolWallet => 0x2217
  | DefaultNcnWallet => 0x2218
  | IncorrectNcnAdmin => 0x2219
  | IncorrectNcn => 0x221A
  | IncorrectFeeAdmin => 0x221B
  | WeightTableNotFinalized => 0x221C
  | WeightNotFound => 0x221D
  | NoOperators => 0x221E
  | VaultOperatorDelegationFinalized => 0x221F
  | OperatorFinalized => 0x2220
  | TooManyVaultOperatorDelegations => 0x2221
  | DuplicateVaultOperatorDelegation => 0x2222
  | DuplicateVoteCast => 0x2223
  | CannotVoteWithZeroStake => 0x2224
  | OperatorAlreadyVoted => 0x2225
  | OperatorVotesFull => 0x2226
  | BallotTallyFull => 0x2227
  | BallotTallyNotFoundFull => 0x2228
  | BallotTallyNotEmpty => 0x2229
  | ConsensusAlreadyReached => 0x222A
  | ConsensusNotReached => 0x222B
  | EpochSnapshotNotFinalized => 0x222C
  | VotingNotValid => 0x222D
  | TieBreakerAdminInvalid => 0x222E
  | VotingNotFinalized => 0x222F
  | TieBreakerNotInPriorVotes => 0x2230
  | InvalidMerkleProof => 0x2231
  | InvalidOperatorVoter => 0x2232
  | InvalidNcnFeeGroup => 0x2233
  | InvalidBaseFeeGroup => 0x2234
  | OperatorRewardListFull => 0x2235
  | OperatorRewardNotFound => 0x2236
  | VaultRewardNotFound => 0x2237
  | DestinationMismatch => 0x2238
  | NcnRewardRouteNotFound => 0x2239
  | FeeNotActive => 0x223A
  | NoRewards => 0x223B
  | WeightNotSet => 0x223C
  | RouterStillRouting => 0x223D
  | InvalidEpochsBeforeStall => 0x223E
  | InvalidEpochsBeforeClose => 0x223F
  | InvalidSlotsAfterConsensus => 0x2240
  | VaultNeedsUpdate => 0x2241
  | InvalidAccountStatus => 0x2242
  | AccountAlreadyInitialized => 0x2243
  | BadBallot => 0x2244
  | VotingIsNotOver => 0x2245
  | OperatorIsNotInSnapshot => 0x2246
  | InvalidAccountToCloseDiscriminator => 0x2247
  | CannotCloseAccount => 0x2248
  | CannotCloseAccountAlreadyClosed => 0x2249
  | CannotCloseAccountNotEnoughEpochs => 0x224A
  | CannotCloseAccountNoReceiverProvided => 0x224B
  | CannotCloseAccountNoEnoughAccounts => 0x224C
  | CannotCloseEpochStateAccount => 0x224D
  | InvalidNCNFeeWallet => 0x224E
  | EpochIsClosingDown => 0x224F
  | MarkerExists => 0x2250
  end.
Definition to_string (e : t) : string :=
  match e with
  | NoValidBallots => "No valid Ballot"
  | DenominatorIsZero => "Zero in the denominator"
  | ArithmeticOverflow => "Overflow"
  | ArithmeticUnderflowError => "Underflow"
  | ArithmeticFloorError => "Floor Overflow"
  | ModuloOverflow => "Modulo Overflow"
  | NewPreciseNumberError => "New precise number error"
  | CastToImpreciseNumberError => "Cast to imprecise number error"
  | CastToU64Error => "Cast to u64 error"
  | CastToU128Error => "Cast to u128 error"
  | IncorrectWeightTableAdmin => "Incorrect weight table admin"
  | DuplicateMintsInTable => "Duplicate mints in table"
  | NoMintsInTable => "There are no mints in the table"
  | TableNotInitialized => "Table not initialized"
  | RegistryNotInitialized => "Registry not initialized"
  | NoVaultsInRegistry => "There are no vaults in the registry"
  | VaultNotInRegistry => "Vault not in weight table registry"
  | MintInTable => "Mint is already in the table"
  | TooManyMintsForTable => "Too many mints for table"
  | TooManyVaultsForRegistry => "Too many vaults for registry"
  | WeightTableAlreadyInitialized => "Weight table already initialized"
  | CannotCreateFutureWeightTables => "Cannnot create future weight tables"
  | WeightMintsDoNotMatchLength => "Weight mints do not match - length"
  | WeightMintsDoNotMatchMintHash => "Weight mints do not match - mint hash"
  | InvalidMintForWeightTable => "Invalid mint for weight table"
  | ConfigMintsNotUpdated => "Config supported mints do not match NCN Vault Count"
  | ConfigMintListFull => "NCN config vaults are at capacity"
  | VaultRegistryListFull => "Vault Registry mints are at capacity"
  | VaultRegistryVaultLocked => "Vault registry are locked for the epoch"
  | VaultIndexAlreadyInUse => "Vault index already in use by a different mint"
  | MintEntryNotFound => "Mint Entry not found"
  | FeeCapExceeded => "Fee cap exceeded"
  | TotalFeesCannotBeZero => "Total fees cannot be 0"
  | DefaultProtocolWallet => "Protocol wallet cannot be default"
  | DefaultNcnWallet => "NCN Fee wallet cannot be default"
  | IncorrectNcnAdmin => "Incorrect NCN Admin"
  | IncorrectNcn => "Incorrect NCN"
  | IncorrectFeeAdmin => "Incorrect fee admin"
  | WeightTableNotFinalized => "Weight table not finalized"
  | WeightNotFound => "Weight not found"
  | NoOperators => "No operators in ncn"
  | VaultOperatorDelegationFinalized => "Vault operator delegation is already finalized - should not happen"
  | OperatorFinalized => "Operator is already finalized - should not happen"
  | TooManyVaultOperatorDelegations => "Too many vault operator delegations"
  | DuplicateVaultOperatorDelegation => "Duplicate vault operator delegation"
  | DuplicateVoteCast => "Duplicate Vote Cast"
  | CannotVoteWithZeroStake => "Cannot Vote With Zero Delegation"
  | OperatorAlreadyVoted => "Operator Already Voted"
  | OperatorVotesFull => "Operator votes full"
  | BallotTallyFull => "Merkle root tally full"
  | BallotTallyNotFoundFull => "Ballot tally not found"
  | BallotTallyNotEmpty => "Ballot tally not empty"
  | ConsensusAlreadyReached => "Consensus already reached, cannot change vote"
  | ConsensusNotReached => "Consensus not reached"
  | EpochSnapshotNotFinalized => "Epoch snapshot not finalized"
  | VotingNotValid => "Voting not valid, too many slots after consensus reached"
  | TieBreakerAdminInvalid => "Tie breaker admin invalid"
  | VotingNotFinalized => "Voting not finalized"
  | TieBreakerNotInPriorVotes => "Tie breaking ballot must be one of the prior votes"
  | InvalidMerkleProof => "Invalid merkle proof"
  | InvalidOperatorVoter => "Operator voter needs to sign its vote"
  | InvalidNcnFeeGroup => "Not a valid NCN fee group"
  | InvalidBaseFeeGroup => "Not a valid base fee group"
  | OperatorRewardListFull => "Operator reward list full"
  | OperatorRewardNotFound => "Operator Reward not found"
  | VaultRewardNotFound => "Vault Reward not found"
  | DestinationMismatch => "Destination mismatch"
  | NcnRewardRouteNotFound => "Ncn reward route not found"
  | FeeNotActive => "Fee not active"
  | NoRewards => "No rewards to distribute"
  | WeightNotSet => "Weight not set"
  | RouterStillRouting => "Router still routing"
  | InvalidEpochsBeforeStall => "Invalid epochs before stall"
  | InvalidEpochsBeforeClose => "Invalid epochs before accounts can close"
  | InvalidSlotsAfterConsensus => "Invalid slots after consensus"
  | VaultNeedsUpdate => "Vault needs to be updated"
  | InvalidAccountStatus => "Invalid Account Status"
  | AccountAlreadyInitialized => "Account already initialized"
  | BadBallot => "Cannot vote with uninitialized account"
  | VotingIsNotOver => "Cannot route until voting is over"
  | OperatorIsNotInSnapshot => "Operator is not in snapshot"
  | InvalidAccountToCloseDiscriminator => "Invalid account_to_close Discriminator"
  | CannotCloseAccount => "Cannot close account"
  | CannotCloseAccountAlreadyClosed => "Cannot close account - Already closed"
  | CannotCloseAccountNotEnoughEpochs => "Cannot close account - Not enough epochs have passed since consensus reached"
  | CannotCloseAccountNoReceiverProvided => "Cannot close account - No receiver provided"
  | CannotCloseAccountNoEnoughAccounts => "Cannot close account - Not enough accounts"
  | CannotCloseEpochStateAccount => "Cannot close epoch state account - Epoch state needs all other accounts to be closed first"
  | InvalidNCNFeeWallet => "Invalid NCN Fee wallet"
  | EpochIsClosingDown => "Epoch is closing down"
  | MarkerExists => "Marker exists"
  end.
Definition all : list t :=
  [NoValidBallots; DenominatorIsZero; ArithmeticOverflow;
   ArithmeticUnderflowError; ArithmeticFloorError; ModuloOverflow;
   NewPreciseNumberError; CastToImpreciseNumberError; CastToU64Error;
   CastToU128Error; IncorrectWeightTableAdmin; DuplicateMintsInTable;
   NoMintsInTable; TableNotInitialized; RegistryNotInitialized;
   NoVaultsInRegistry; VaultNotInRegistry; MintInTable;
   TooManyMintsForTable; TooManyVaultsForRegistry; WeightTableAlreadyInitialized;
   CannotCreateFutureWeightTables; WeightMintsDoNotMatchLength; WeightMintsDoNotMatchMintHash;
   InvalidMintForWeightTable; ConfigMintsNotUpdated; ConfigMintListFull;
   VaultRegistryListFull; VaultRegistryVaultLocked; VaultIndexAlreadyInUse;
   MintEntryNotFound; FeeCapExceeded; TotalFeesCannotBeZero;
   DefaultProtocolWallet; DefaultNcnWallet; IncorrectNcnAdmin;
   IncorrectNcn; IncorrectFeeAdmin; WeightTableNotFinalized;
   WeightNotFound; NoOperators; VaultOperatorDelegationFinalized;
   OperatorFinalized; TooManyVaultOperatorDelegations; DuplicateVaultOperatorDelegation;
   DuplicateVoteCast; CannotVoteWithZeroStake; OperatorAlreadyVoted;
   OperatorVotesFull; BallotTallyFull; BallotTallyNotFoundFull;
   BallotTallyNotEmpty; ConsensusAlreadyReached; ConsensusNotReached;
   EpochSnapshotNotFinalized; VotingNotValid; TieBreakerAdminInvalid;
   VotingNotFinalized; TieBreakerNotInPriorVotes; InvalidMerkleProof;
   InvalidOperatorVoter; InvalidNcnFeeGroup; InvalidBaseFeeGroup;
   OperatorRewardListFull; OperatorRewardNotFound; VaultRewardNotFound;
   DestinationMismatch; NcnRewardRouteNotFound; FeeNotActive;
   NoRewards; WeightNotSet; RouterStillRouting;
   InvalidEpochsBeforeStall; InvalidEpochsBeforeClose; InvalidSlotsAfterConsensus;
   VaultNeedsUpdate; InvalidAccountStatus; AccountAlreadyInitialized;
   BadBallot; VotingIsNotOver; OperatorIsNotInSnapshot;
   InvalidAccountToCloseDiscriminator; CannotCloseAccount; CannotCloseAccountAlreadyClosed;
   CannotCloseAccountNotEnoughEpochs; CannotCloseAccountNoReceiverProvided; CannotCloseAccountNoEnoughAccounts;
   CannotCloseEpochStateAccount; InvalidNCNFeeWallet; EpochIsClosingDown;
   MarkerExists].
(** [FromPrimitive::from_u32]: the variant with the code. *)
Definition from_u32 (c : u32) : option t := List.find (fun e => as_u32 e =? c)%Z all.
End NcnProgramError.

(** The texts of the program's errors. *)
Definition to_string (e : NCNProgramError.t) : string :=
  match e with
  | NCNProgramError.NoValidBallots => "No valid Ballot"
  | NCNProgramError.DenominatorIsZero => "Zero in the denominator"
  | NCNProgramError.ArithmeticOverflow => "Overflow"
  | NCNProgramError.ArithmeticUnderflowError => "Underflow"
  | NCNProgramError.ArithmeticFloorError => "Floor Overflow"
  | NCNProgramError.ModuloOverflow => "Modulo Overflow"
  | NCNProgramError.NewPreciseNumberError => "New precise number error"
  | NCNProgramError.CastToImpreciseNumberError => "Cast to imprecise number error"
  | NCNProgramError.CastToU64Error => "Cast to u64 error"
  | NCNProgramError.CastToU128Error => "Cast to u128 error"
  | NCNProgramError.IncorrectWeightTableAdmin => "Incorrect weight table admin"
  | NCNProgramError.DuplicateMintsInTable => "Duplicate mints in table"
  | NCNProgramError.NoMintsInTable => "There are no mints in the table"
  | NCNProgramError.TableNotInitialized => "Table not initialized"
  | NCNProgramError.RegistryNotInitialized => "Registry not initialized"
  | NCNProgramError.NoVaultsInRegistry => "There are no vaults in the registry"
  | NCNProgramError.VaultNotInRegistry => "Vault not in weight table registry"
  | NCNProgramError.MintInTable => "Mint is already in the table"
  | NCNProgramError.TooManyMintsForTable => "Too many mints for table"
  | NCNProgramError.TooManyVaultsForRegistry => "Too many vaults for registry"
  | NCNProgramError.WeightTableAlreadyInitialized => "Weight table already initialized"
  | NCNProgramError.CannotCreateFutureWeightTables => "Cannnot create future weight tables"
  | NCNProgramError.WeightMintsDoNotMatchLength => "Weight mints do not match - length"
  | NCNProgramError.WeightMintsDoNotMatchMintHash => "Weight mints do not match - mint hash"
  | NCNProgramError.InvalidMintForWeightTable => "Invalid mint for weight table"
  | NCNProgramError.ConfigMintsNotUpdated => "Config supported mints do not match NCN Vault Count"
  | NCNProgramError.ConfigMintListFull => "NCN config vaults are at capacity"
  | NCNProgramError.VaultRegistryListFull => "Vault Registry mints are at capacity"
  | NCNProgramError.VaultRegistryVaultLocked => "Vault registry are locked for the epoch"
  | NCNProgramError.VaultIndexAlreadyInUse => "Vault index already in use by a different mint"
  | NCNProgramError.MintEntryNotFound => "Mint Entry not found"
  | NCNProgramError.FeeCapExceeded => "Fee cap exceeded"
  | NCNProgramError.TotalFeesCannotBeZero => "Total fees cannot be 0"
  | NCNProgramError.DefaultProtocolWallet => "Protocol wallet cannot be default"
  | NCNProgramError.DefaultNcnWallet => "NCN Fee wallet cannot be default"
  | NCNProgramError.IncorrectNcnAdmin => "Incorrect NCN Admin"
  | NCNProgramError.IncorrectNcn => "Incorrect NCN"
  | NCNProgramError.IncorrectFeeAdmin => "Incorrect fee admin"
  | NCNProgramError.WeightTableNotFinalized => "Weight table not finalized"
  | NCNProgramError.WeightNotFound => "Weight not found"
  | NCNProgramError.NoOperators => "No operators in ncn"
  | NCNProgramError.VaultOperatorDelegationFinalized => "Vault operator delegation is already finalized - should not happen"
  | NCNProgramError.OperatorFinalized => "Operator is already finalized - should not happen"
  | NCNProgramError.TooManyVaultOperatorDelegations => "Too many vault operator delegations"
  | NCNProgramError.DuplicateVaultOperatorDelegation => "Duplicate vault operator delegation"
  | NCNProgramError.DuplicateVoteCast => "Duplicate Vote Cast"
  | NCNProgramError.CannotVoteWithZeroStake => "Cannot Vote With Zero Delegation"
  | NCNProgramError.OperatorAlreadyVoted => "Operator Already Voted"
  | NCNProgramError.OperatorVotesFull => "Operator votes full"
  | NCNProgramError.BallotTallyFull => "Merkle root tally full"
  | NCNProgramError.BallotTallyNotFoundFull => "Ballot tally not found"
  | NCNProgramError.BallotTallyNotEmpty => "Ballot tally not empty"
  | NCNProgramError.ConsensusAlreadyReached => "Consensus already reached, cannot change vote"
  | NCNProgramError.ConsensusNotReached => "Consensus not reached"
  | NCNProgramError.EpochSnapshotNotFinalized => "Epoch snapshot not finalized"
  | NCNProgramError.VotingNotValid => "Voting not valid, too many slots after consensus reached"
  | NCNProgramError.TieBreakerAdminInvalid => "Tie breaker admin invalid"
  | NCNProgramError.VotingNotFinalized => "Voting not finalized"
  | NCNProgramError.TieBreakerNotInPriorVotes => "Tie breaking ballot must be one of the prior votes"
  | NCNProgramError.InvalidMerkleProof => "Invalid merkle proof"
  | NCNProgramError.InvalidOperatorVoter => "Operator voter needs to sign its vote"
  | NCNProgramError.InvalidNcnFeeGroup => "Not a valid NCN fee group"
  | NCNProgramError.InvalidBaseFeeGroup => "Not a valid base fee group"
  | NCNProgramError.OperatorRewardListFull => "Operator reward list full"
  | NCNProgramError.OperatorRewardNotFound => "Operator Reward not found"
  | NCNProgramError.VaultRewardNotFound => "Vault Reward not found"
  | NCNProgramError.DestinationMismatch => "Destination mismatch"
  | NCNProgramError.NcnRewardRouteNotFound => "Ncn reward route not found"
  | NCNProgramError.FeeNotActive => "Fee not active"
  | NCNProgramError.NoRewards => "No rewards to distribute"
  | NCNProgramError.WeightNotSet => "Weight not set"
  | NCNProgramError.RouterStillRouting => "Router still routing"
  | NCNProgramError.InvalidEpochsBeforeStall => "Invalid epochs before stall"
  | NCNProgramError.InvalidEpochsBeforeClose => "Invalid epochs before accounts can close"
  | NCNProgramError.InvalidSlotsAfterConsensus => "Invalid slots after consensus"
  | NCNProgramError.VaultNeedsUpdate => "Vault needs to be updated"
  | NCNProgramError.InvalidAccountStatus => "Invalid Account Status"
  | NCNProgramError.AccountAlreadyInitialized => "Account already initialized"
  | NCNProgramError.BadBallot => "Cannot vote with uninitialized account"
  | NCNProgramError.VotingIsNotOver => "Cannot route until voting is over"
  | NCNProgramError.OperatorIsNotInSnapshot => "Operator is not in snapshot"
  | NCNProgramError.InvalidAccountToCloseDiscriminator => "Invalid account_to_close Discriminator"
  | NCNProgramError.CannotCloseAccount => "Cannot close account"
  | NCNProgramError.CannotCloseAccountAlreadyClosed => "Cannot close account - Already closed"
  | NCNProgramError.CannotCloseAccountNotEnoughEpochs => "Cannot close account - Not enough epochs have passed since consensus reached"
  | NCNProgramError.CannotCloseAccountNoReceiverProvided => "Cannot close account - No receiver provided"
  | NCNProgramError.CannotCloseAccountNoEnoughAccounts => "Cannot close account - Not enough accounts"
  | NCNProgramError.CannotCloseEpochStateAccount => "Cannot close epoch state account - Epoch state needs all other accounts to be closed first"
  | NCNProgramError.InvalidNCNFeeWallet => "Invalid NCN Fee wallet"
  | NCNProgramError.EpochIsClosingDown => "Epoch is closing down"
  | NCNProgramError.MarkerExists => "Marker exists"
  end.

(** The variant of the same name. *)
Definition same_name (e : NCNProgramError.t) : NcnProgramError.t :=
  match e with
  | NCNProgramError.NoValidBallots => NcnProgramError.NoValidBallots
  | NCNProgramError.DenominatorIsZero => NcnProgramError.DenominatorIsZero
  | NCNProgramError.ArithmeticOverflow => NcnProgramError.ArithmeticOverflow
  | NCNProgramError.ArithmeticUnderflowError => NcnProgramError.ArithmeticUnderflowError
  | NCNProgramError.ArithmeticFloorError => NcnProgramError.ArithmeticFloorError
  | NCNProgramError.ModuloOverflow => NcnProgramError.ModuloOverflow
  | NCNProgramError.NewPreciseNumberError => NcnProgramError.NewPreciseNumberError
  | NCNProgramError.CastToImpreciseNumberError => NcnProgramError.CastToImpreciseNumberError
  | NCNProgramError.CastToU64Error => NcnProgramError.CastToU64Error
  | NCNProgramError.CastToU128Error => NcnProgramError.CastToU128Error
  | NCNProgramError.IncorrectWeightTableAdmin => NcnProgramError.IncorrectWeightTableAdmin
  | NCNProgramError.DuplicateMintsInTable => NcnProgramError.DuplicateMintsInTable
  | NCNProgramError.NoMintsInTable => NcnProgramError.NoMintsInTable
  | NCNProgramError.TableNotInitialized => NcnProgramError.TableNotInitialized
  | NCNProgramError.RegistryNotInitialized => NcnProgramError.RegistryNotInitialized
  | NCNProgramError.NoVaultsInRegistry => NcnProgramError.NoVaultsInRegistry
  | NCNProgramError.VaultNotInRegistry => NcnProgramError.VaultNotInRegistry
  | NCNProgramError.MintInTable => NcnProgramError.MintInTable
  | NCNProgramError.TooManyMintsForTable => NcnProgramError.TooManyMintsForTable
  | NCNProgramError.TooManyVaultsForRegistry => NcnProgramError.TooManyVaultsForRegistry
  | NCNProgramError.WeightTableAlreadyInitialized => NcnProgramError.WeightTableAlreadyInitialized
  | NCNProgramError.CannotCreateFutureWeightTables => NcnProgramError.CannotCreateFutureWeightTables
  | NCNProgramError.WeightMintsDoNotMatchLength => NcnProgramError.WeightMintsDoNotMatchLength
  | NCNProgramError.WeightMintsDoNotMatchMintHash => NcnProgramError.WeightMintsDoNotMatchMintHash
  | NCNProgramError.InvalidMintForWeightTable => NcnProgramError.InvalidMintForWeightTable
  | NCNProgramError.ConfigMintsNotUpdated => NcnProgramError.ConfigMintsNotUpdated
  | NCNProgramError.ConfigMintListFull => NcnProgramError.ConfigMintListFull
  | NCNProgramError.VaultRegistryListFull => NcnProgramError.VaultRegistryListFull
  | NCNProgramError.VaultRegistryVaultLocked => NcnProgramError.VaultRegistryVaultLocked
  | NCNProgramError.VaultIndexAlreadyInUse => NcnProgramError.VaultIndexAlreadyInUse
  | NCNProgramError.MintEntryNotFound => NcnProgramError.MintEntryNotFound
  | NCNProgramError.FeeCapExceeded => NcnProgramError.FeeCapExceeded
  | NCNProgramError.TotalFeesCannotBeZero => NcnProgramError.TotalFeesCannotBeZero
  | NCNProgramError.DefaultProtocolWallet => NcnProgramError.DefaultProtocolWallet
  | NCNProgramError.DefaultNcnWallet => NcnProgramError.DefaultNcnWallet
  | NCNProgramError.IncorrectNcnAdmin => NcnProgramError.IncorrectNcnAdmin
  | NCNProgramError.IncorrectNcn => NcnProgramError.IncorrectNcn
  | NCNProgramError.IncorrectFeeAdmin => NcnProgramError.IncorrectFeeAdmin
  | NCNProgramError.WeightTableNotFinalized => NcnProgramError.WeightTableNotFinalized
  | NCNProgramError.WeightNotFound => NcnProgramError.WeightNotFound
  | NCNProgramError.NoOperators => NcnProgramError.NoOperators
  | NCNProgramError.VaultOperatorDelegationFinalized => NcnProgramError.VaultOperatorDelegationFinalized
  | NCNProgramError.OperatorFinalized => NcnProgramError.OperatorFinalized
  | NCNProgramError.TooManyVaultOperatorDelegations => NcnProgramError.TooManyVaultOperatorDelegations
  | NCNProgramError.DuplicateVaultOperatorDelegation => NcnProgramError.DuplicateVaultOperatorDelegation
  | NCNProgramError.DuplicateVoteCast => NcnProgramError.DuplicateVoteCast
  | NCNProgramError.CannotVoteWithZeroStake => NcnProgramError.CannotVoteWithZeroStake
  | NCNProgramError.OperatorAlreadyVoted => NcnProgramError.OperatorAlreadyVoted
  | NCNProgramError.OperatorVotesFull => NcnProgramError.OperatorVotesFull
  | NCNProgramError.BallotTallyFull => NcnProgramError.BallotTallyFull
  | NCNProgramError.BallotTallyNotFoundFull => NcnProgramError.BallotTallyNotFoundFull
  | NCNProgramError.BallotTallyNotEmpty => NcnProgramError.BallotTallyNotEmpty
  | NCNProgramError.ConsensusAlreadyReached => NcnProgramError.ConsensusAlreadyReached
  | NCNProgramError.ConsensusNotReached => NcnProgramError.ConsensusNotReached
  | NCNProgramError.EpochSnapshotNotFinalized => NcnProgramError.EpochSnapshotNotFinalized
  | NCNProgramError.VotingNotValid => NcnProgramError.VotingNotValid
  | NCNProgramError.TieBreakerAdminInvalid => NcnProgramError.TieBreakerAdminInvalid
  | NCNProgramError.VotingNotFinalized => NcnProgramError.VotingNotFinalized
  | NCNProgramError.TieBreakerNotInPriorVotes => NcnProgramError.TieBreakerNotInPriorVotes
  | NCNProgramError.InvalidMerkleProof => NcnProgramError.InvalidMerkleProof
  | NCNProgramError.InvalidOperatorVoter => NcnProgramError.InvalidOperatorVoter
  | NCNProgramError.InvalidNcnFeeGroup => NcnProgramError.InvalidNcnFeeGroup
  | NCNProgramError.InvalidBaseFeeGroup => NcnProgramError.InvalidBaseFeeGroup
  | NCNProgramError.OperatorRewardListFull => NcnProgramError.OperatorRewardListFull
  | NCNProgramError.OperatorRewardNotFound => NcnProgramError.OperatorRewardNotFound
  | NCNProgramError.VaultRewardNotFound => NcnProgramError.VaultRewardNotFound
  | NCNProgramError.DestinationMismatch => NcnProgramError.DestinationMismatch
  | NCNProgramError.NcnRewardRouteNotFound => NcnProgramError.NcnRewardRouteNotFound
  | NCNProgramError.FeeNotActive => NcnProgramError.FeeNotActive
  | NCNProgramError.NoRewards => NcnProgramError.NoRewards
  | NCNProgramError.WeightNotSet => NcnProgramError.WeightNotSet
  | NCNProgramError.RouterStillRouting => NcnProgramError.RouterStillRouting
  | NCNProgramError.InvalidEpochsBeforeStall => NcnProgramError.InvalidEpochsBeforeStall
  | NCNProgramError.InvalidEpochsBeforeClose => NcnProgramError.InvalidEpochsBeforeClose
  | NCNProgramError.InvalidSlotsAfterConsensus => NcnProgramError.InvalidSlotsAfterConsensus
  | NCNProgramError.VaultNeedsUpdate => NcnProgramError.VaultNeedsUpdate
  | NCNProgramError.InvalidAccountStatus => NcnProgramError.InvalidAccountStatus
  | NCNProgramError.AccountAlreadyInitialized => NcnProgramError.AccountAlreadyInitialized
  | NCNProgramError.BadBallot => NcnProgramError.BadBallot
  | NCNProgramError.VotingIsNotOver => NcnProgramError.VotingIsNotOver
  | NCNProgramError.OperatorIsNotInSnapshot => NcnProgramError.OperatorIsNotInSnapshot
  | NCNProgramError.InvalidAccountToCloseDiscriminator => NcnProgramError.InvalidAccountToCloseDiscriminator
  | NCNProgramError.CannotCloseAccount => NcnProgramError.CannotCloseAccount
  | NCNProgramError.CannotCloseAccountAlreadyClosed => NcnProgramError.CannotCloseAccountAlreadyClosed
  | NCNProgramError.CannotCloseAccountNotEnoughEpochs => NcnProgramError.CannotCloseAccountNotEnoughEpochs
  | NCNProgramError.CannotCloseAccountNoReceiverProvided => NcnProgramError.CannotCloseAccountNoReceiverProvided
  | NCNProgramError.CannotCloseAccountNoEnoughAccounts => NcnProgramError.CannotCloseAccountNoEnoughAccounts
  | NCNProgramError.CannotCloseEpochStateAccount => NcnProgramError.CannotCloseEpochStateAccount
  | NCNProgramError.InvalidNCNFeeWallet => NcnProgramError.InvalidNCNFeeWallet
  | NCNProgramError.EpochIsClosingDown => NcnProgramError.EpochIsClosingDown
  | NCNProgramError.MarkerExists => NcnProgramError.MarkerExists
  end.

(** The client reads every error of the program off its code: the variant of the
    same name, with the same text; and it knows no other. *)
Theorem client_reads_errors e :
  NcnProgramError.from_u32 (NCNProgramError.code e) = Some (same_name e)
  /\ NcnProgramError.to_string (same_name e) = to_string e.
Proof. by destruct e. Qed.

Theorem client_knows_only_these c e' :
  NcnProgramError.from_u32 c = Some e' -> exists e, c = NCNProgramError.code e /\ e' = same_name e.
Proof.
  intros H. apply List.find_some in H as [_ H%Z.eqb_eq]. subst c.
  assert (exists e, e' = same_name e) as [e ->]; [|exists e; split; [by destruct e|done]].
  destruct e';
    match goal with |- exists e, ?x = same_name e =>
      let c := eval vm_compute in (NCNProgramError.of_code (NcnProgramError.as_u32 x)) in
      match c with Some ?y => by exists y end end.
Qed.
