(* ===== verification/Wire.v ===== *)
(** The data of an instruction: the bytes that the generated client writes
    ([clients/rust/ncn_program/src/generated/instructions], the
    [...InstructionData] and [...InstructionArgs] types) and what the program reads
    from them ([core/src/instruction.rs], through [borsh]). *)
From S2P Require Import Prelude Errors Precise Stake Registry Weights Fees Snapshots Voting EpochStates.
From S2P Require Import NcnRouter OperatorRouter Consensus Accounts Machine Program Client Builders.

(** ** Borsh

    How a type is written and read. What is read is taken off the front. *)
Record codec (A : Type) := Codec { write : A -> list u8; read : list u8 -> option (A * list u8) }.
Arguments Codec {A}.
Arguments write {A}.
Arguments read {A}.

Class Borsh := {
  borsh_u8 : codec u8;
  borsh_u16 : codec u16;
  borsh_u64 : codec u64;
  borsh_u128 : codec u128;
  borsh_Pubkey : codec Pubkey;
  borsh_ConfigAdminRole : codec ConfigAdminRole.t;
  borsh_option : forall {A}, codec A -> codec (option A);
}.

(** What is relied on: values of the type are read back. *)
Definition reads_back {A} (valid : A -> Prop) (c : codec A) : Prop :=
  forall a l, valid a -> read c (write c a ++ l) = Some (a, l).
Definition up_to (max : Z) (x : Z) : Prop := 0 <= x <= max.
Definition if_some {A} (valid : A -> Prop) (x : option A) : Prop :=
  match x with Some a => valid a | None => True end.
Class BorshLaws {borsh : Borsh} := {
  reads_u8 : reads_back (up_to u8_MAX) borsh_u8;
  reads_u16 : reads_back (up_to u16_MAX) borsh_u16;
  reads_u64 : reads_back (up_to u64_MAX) borsh_u64;
  reads_u128 : reads_back (up_to u128_MAX) borsh_u128;
  reads_Pubkey : reads_back is_pubkey borsh_Pubkey;
  reads_role : reads_back (fun _ => True) borsh_ConfigAdminRole;
  reads_option : forall A valid (c : codec A),
    reads_back valid c -> reads_back (if_some valid) (borsh_option c);
}.

(** ** The client: the discriminator, then the arguments *)

Module InitializeConfig.
(** [InstructionData::new]. *)
Definition discriminator : u8 := 0.
Definition data {borsh : Borsh} (epochs_before_stall : u64) (epochs_after_consensus_before_close : u64)
    (valid_slots_after_consensus : u64) (ncn_fee_bps : u16)  : list u8 :=
  write borsh_u8 discriminator ++ write borsh_u64 epochs_before_stall
    ++ write borsh_u64 epochs_after_consensus_before_close ++ write borsh_u64 valid_slots_after_consensus
    ++ write borsh_u16 ncn_fee_bps.
End InitializeConfig.
Module InitializeVaultRegistry.
(** [InstructionData::new]. *)
Definition discriminator : u8 := 1.
Definition data {borsh : Borsh}  : list u8 :=
  write borsh_u8 discriminator.
End InitializeVaultRegistry.
Module ReallocVaultRegistry.
(** [InstructionData::new]. *)
Definition discriminator : u8 := 2.
Definition data {borsh : Borsh}  : list u8 :=
  write borsh_u8 discriminator.
End ReallocVaultRegistry.
Module RegisterVault.
(** [InstructionData::new]. *)
Definition discriminator : u8 := 3.
Definition data {borsh : Borsh}  : list u8 :=
  write borsh_u8 discriminator.
End RegisterVault.
Module InitializeEpochState.
(** [InstructionData::new]. *)
Definition discriminator : u8 := 4.
Definition data {borsh : Borsh} (epoch : u64)  : list u8 :=
  write borsh_u8 discriminator ++ write borsh_u64 epoch.
End InitializeEpochState.
Module InitializeWeightTable.
(** [InstructionData::new]. *)
Definition discriminator : u8 := 5.
Definition data {borsh : Borsh} (epoch : u64)  : list u8 :=
  write borsh_u8 discriminator ++ write borsh_u64 epoch.
End InitializeWeightTable.
Module SetEpochWeights.
(** [InstructionData::new]. *)
Definition discriminator : u8 := 6.
Definition data {borsh : Borsh} (epoch : u64)  : list u8 :=
  write borsh_u8 discriminator ++ write borsh_u64 epoch.
End SetEpochWeights.
Module ReallocWeightTable.
(** [InstructionData::new]. *)
Definition discriminator : u8 := 7.
Definition data {borsh : Borsh} (epoch : u64)  : list u8 :=
  write borsh_u8 discriminator ++ write borsh_u64 epoch.
End ReallocWeightTable.
Module InitializeEpochSnapshot.
(** [InstructionData::new]. *)
Definition discriminator : u8 := 8.
Definition data {borsh : Borsh} (epoch : u64)  : list u8 :=
  write borsh_u8 discriminator ++ write borsh_u64 epoch.
End InitializeEpochSnapshot.
Module InitializeOperatorSnapshot.
(** [InstructionData::new]. *)
Definition discriminator : u8 := 9.
Definition data {borsh : Borsh} (epoch : u64)  : list u8 :=
  write borsh_u8 discriminator ++ write borsh_u64 epoch.
End InitializeOperatorSnapshot.
Module SnapshotVaultOperatorDelegation.
(** [InstructionData::new]. *)
Definition discriminator : u8 := 10.
Definition data {borsh : Borsh} (epoch : u64)  : list u8 :=
  write borsh_u8 discriminator ++ write borsh_u64 epoch.
End SnapshotVaultOperatorDelegation.
Module InitializeBallotBox.
(** [InstructionData::new]. *)
Definition discriminator : u8 := 11.
Definition data {borsh : Borsh} (epoch : u64)  : list u8 :=
  write borsh_u8 discriminator ++ write borsh_u64 epoch.
End InitializeBallotBox.
Module ReallocBallotBox.
(** [InstructionData::new]. *)
Definition discriminator : u8 := 12.
Definition data {borsh : Borsh} (epoch : u64)  : list u8 :=
  write borsh_u8 discriminator ++ write borsh_u64 epoch.
End ReallocBallotBox.
Module CastVote.
(** [InstructionData::new]. *)
Definition discriminator : u8 := 13.
Definition data {borsh : Borsh} (weather_status : u8) (epoch : u64)  : list u8 :=
  write borsh_u8 discriminator ++ write borsh_u8 weather_status ++ write borsh_u64 epoch.
End CastVote.
Module InitializeNCNRewardRouter.
(** [InstructionData::new]. *)
Definition discriminator : u8 := 14.
Definition data {borsh : Borsh} (epoch : u64)  : list u8 :=
  write borsh_u8 discriminator ++ write borsh_u64 epoch.
End InitializeNCNRewardRouter.
Module ReallocNCNRewardRouter.
(** [InstructionData::new]. *)
Definition discriminator : u8 := 15.
Definition data {borsh : Borsh} (epoch : u64)  : list u8 :=
  write borsh_u8 discriminator ++ write borsh_u64 epoch.
End ReallocNCNRewardRouter.
Module RouteNCNRewards.
(** [InstructionData::new]. *)
Definition discriminator : u8 := 16.
Definition data {borsh : Borsh} (max_iterations : u16) (epoch : u64)  : list u8 :=
  write borsh_u8 discriminator ++ write borsh_u16 max_iterations ++ write borsh_u64 epoch.
End RouteNCNRewards.
Module DistributeProtocolRewards.
(** [InstructionData::new]. *)
Definition discriminator : u8 := 17.
Definition data {borsh : Borsh} (epoch : u64)  : list u8 :=
  write borsh_u8 discriminator ++ write borsh_u64 epoch.
End DistributeProtocolRewards.
Module DistributeNCNRewards.
(** [InstructionData::new]. *)
Definition discriminator : u8 := 18.
Definition data {borsh : Borsh} (epoch : u64)  : list u8 :=
  write borsh_u8 discriminator ++ write borsh_u64 epoch.
End DistributeNCNRewards.
Module InitializeOperatorVaultRewardRouter.
(** [InstructionData::new]. *)
Definition discriminator : u8 := 19.
Definition data {borsh : Borsh} (epoch : u64)  : list u8 :=
  write borsh_u8 discriminator ++ write borsh_u64 epoch.
End InitializeOperatorVaultRewardRouter.
Module DistributeOperatorVaultRewardRoute.
(** [InstructionData::new]. *)
Definition discriminator : u8 := 20.
Definition data {borsh : Borsh} (epoch : u64)  : list u8 :=
  write borsh_u8 discriminator ++ write borsh_u64 epoch.
End DistributeOperatorVaultRewardRoute.
Module RouteOperatorVaultRewards.
(** [InstructionData::new]. *)
Definition discriminator : u8 := 21.
Definition data {borsh : Borsh} (max_iterations : u16) (epoch : u64)  : list u8 :=
  write borsh_u8 discriminator ++ write borsh_u16 max_iterations ++ write borsh_u64 epoch.
End RouteOperatorVaultRewards.
Module CloseEpochAccount.
(** [InstructionData::new]. *)
Definition discriminator : u8 := 22.
Definition data {borsh : Borsh} (epoch : u64)  : list u8 :=
  write borsh_u8 discriminator ++ write borsh_u64 epoch.
End CloseEpochAccount.
Module DistributeOperatorRewards.
(** [InstructionData::new]. *)
Definition discriminator : u8 := 23.
Definition data {borsh : Borsh} (epoch : u64)  : list u8 :=
  write borsh_u8 discriminator ++ write borsh_u64 epoch.
End DistributeOperatorRewards.
Module DistributeVaultRewards.
(** [InstructionData::new]. *)
Definition discriminator : u8 := 24.
Definition data {borsh : Borsh} (epoch : u64)  : list u8 :=
  write borsh_u8 discriminator ++ write borsh_u64 epoch.
End DistributeVaultRewards.
Module AdminSetParameters.
(** [InstructionData::new]. *)
Definition discriminator : u8 := 25.
Definition data {borsh : Borsh} (starting_valid_epoch : option u64) (epochs_before_stall : option u64)
    (epochs_after_consensus_before_close : option u64) (valid_slots_after_consensus : option u64) 
    : list u8 :=
  write borsh_u8 discriminator ++ write (borsh_option borsh_u64) starting_valid_epoch
    ++ write (borsh_option borsh_u64) epochs_before_stall
    ++ write (borsh_option borsh_u64) epochs_after_consensus_before_close
    ++ write (borsh_option borsh_u64) valid_slots_after_consensus.
End AdminSetParameters.
Module AdminSetNewAdmin.
(** [InstructionData::new]. *)
Definition discriminator : u8 := 26.
Definition data {borsh : Borsh} (role : ConfigAdminRole.t)  : list u8 :=
  write borsh_u8 discriminator ++ write borsh_ConfigAdminRole role.
End AdminSetNewAdmin.
Module AdminSetTieBreaker.
(** [InstructionData::new]. *)
Definition discriminator : u8 := 27.
Definition data {borsh : Borsh} (weather_status : u8) (epoch : u64)  : list u8 :=
  write borsh_u8 discriminator ++ write borsh_u8 weather_status ++ write borsh_u64 epoch.
End AdminSetTieBreaker.
Module AdminSetWeight.
(** [InstructionData::new]. *)
Definition discriminator : u8 := 28.
Definition data {borsh : Borsh} (st_mint : Pubkey) (weight : u128) (epoch : u64)  : list u8 :=
  write borsh_u8 discriminator ++ write borsh_Pubkey st_mint ++ write borsh_u128 weight
    ++ write borsh_u64 epoch.
End AdminSetWeight.
Module AdminRegisterStMint.
(** [InstructionData::new]. *)
Definition discriminator : u8 := 29.
Definition data {borsh : Borsh} (weight : option u128)  : list u8 :=
  write borsh_u8 discriminator ++ write (borsh_option borsh_u128) weight.
End AdminRegisterStMint.
Module AdminSetStMint.
(** [InstructionData::new]. *)
Definition discriminator : u8 := 30.
Definition data {borsh : Borsh} (st_mint : Pubkey) (weight : option u128)  : list u8 :=
  write borsh_u8 discriminator ++ write borsh_Pubkey st_mint ++ write (borsh_option borsh_u128) weight.
End AdminSetStMint.

Section wire.
Context {borsh : Borsh}.

(** The data of the client's instruction. *)
Definition data_of (c : call) : list u8 :=
  match c with
  | CInitializeConfig _ ebs eacbc vsac nfb => InitializeConfig.data ebs eacbc vsac nfb
  | CInitializeVaultRegistry _ => InitializeVaultRegistry.data
  | CReallocVaultRegistry _ => ReallocVaultRegistry.data
  | CRegisterVault _ => RegisterVault.data
  | CInitializeEpochState _ epoch => InitializeEpochState.data epoch
  | CInitializeWeightTable _ epoch => InitializeWeightTable.data epoch
  | CSetEpochWeights _ epoch => SetEpochWeights.data epoch
  | CReallocWeightTable _ epoch => ReallocWeightTable.data epoch
  | CInitializeEpochSnapshot _ epoch => InitializeEpochSnapshot.data epoch
  | CInitializeOperatorSnapshot _ epoch => InitializeOperatorSnapshot.data epoch
  | CSnapshotVaultOperatorDelegation _ epoch => SnapshotVaultOperatorDelegation.data epoch
  | CInitializeBallotBox _ epoch => InitializeBallotBox.data epoch
  | CReallocBallotBox _ epoch => ReallocBallotBox.data epoch
  | CCastVote _ weather_status epoch => CastVote.data weather_status epoch
  | CInitializeNCNRewardRouter _ epoch => InitializeNCNRewardRouter.data epoch
  | CReallocNCNRewardRouter _ epoch => ReallocNCNRewardRouter.data epoch
  | CRouteNCNRewards _ max_iterations epoch => RouteNCNRewards.data max_iterations epoch
  | CDistributeProtocolRewards _ epoch => DistributeProtocolRewards.data epoch
  | CDistributeNCNRewards _ epoch => DistributeNCNRewards.data epoch
  | CInitializeOperatorVaultRewardRouter _ epoch => InitializeOperatorVaultRewardRouter.data epoch
  | CDistributeOperatorVaultRewardRoute _ epoch => DistributeOperatorVaultRewardRoute.data epoch
  | CRouteOperatorVaultRewards _ max_iterations epoch => RouteOperatorVaultRewards.data max_iterations epoch
  | CCloseEpochAccount _ epoch => CloseEpochAccount.data epoch
  | CDistributeOperatorRewards _ epoch => DistributeOperatorRewards.data epoch
  | CDistributeVaultRewards _ epoch => DistributeVaultRewards.data epoch
  | CAdminSetParameters _ sve ebs eacbc vsac => AdminSetParameters.data sve ebs eacbc vsac
  | CAdminSetNewAdmin _ role => AdminSetNewAdmin.data role
  | CAdminSetTieBreaker _ weather_status epoch => AdminSetTieBreaker.data weather_status epoch
  | CAdminSetWeight _ st_mint weight epoch => AdminSetWeight.data st_mint weight epoch
  | CAdminRegisterStMint _ weight => AdminRegisterStMint.data weight
  | CAdminSetStMint _ st_mint weight => AdminSetStMint.data st_mint weight
  end.

(** ** The program *)

#[local] Notation "'let!' x := m 'in' k" := (and_then m (fun x => k))
  (at level 10, x pattern, m at level 100, k at level 200).

(** The variants and their fields in their order. *)
Definition deserialize (l : list u8) : option (NCNProgramInstruction.t * list u8) :=
  let! (variant, l) := read borsh_u8 l in
  match variant with
  | 0 =>
      let! (epochs_before_stall, l) := read borsh_u64 l in
      let! (epochs_after_consensus_before_close, l) := read borsh_u64 l in
      let! (valid_slots_after_consensus, l) := read borsh_u64 l in
      let! (ncn_fee_bps, l) := read borsh_u16 l in
      Some (NCNProgramInstruction.InitializeConfig epochs_before_stall epochs_after_consensus_before_close
        valid_slots_after_consensus ncn_fee_bps, l)
  | 1 => Some (NCNProgramInstruction.InitializeVaultRegistry, l)
  | 2 => Some (NCNProgramInstruction.ReallocVaultRegistry, l)
  | 3 => Some (NCNProgramInstruction.RegisterVault, l)
  | 4 =>
      let! (epoch, l) := read borsh_u64 l in
      Some (NCNProgramInstruction.InitializeEpochState epoch, l)
  | 5 =>
      let! (epoch, l) := read borsh_u64 l in
      Some (NCNProgramInstruction.InitializeWeightTable epoch, l)
  | 6 =>
      let! (epoch, l) := read borsh_u64 l in
      Some (NCNProgramInstruction.SetEpochWeights epoch, l)
  | 7 =>
      let! (epoch, l) := read borsh_u64 l in
      Some (NCNProgramInstruction.ReallocWeightTable epoch, l)
  | 8 =>
      let! (epoch, l) := read borsh_u64 l in
      Some (NCNProgramInstruction.InitializeEpochSnapshot epoch, l)
  | 9 =>
      let! (epoch, l) := read borsh_u64 l in
      Some (NCNProgramInstruction.InitializeOperatorSnapshot epoch, l)
  | 10 =>
      let! (epoch, l) := read borsh_u64 l in
      Some (NCNProgramInstruction.SnapshotVaultOperatorDelegation epoch, l)
  | 11 =>
      let! (epoch, l) := read borsh_u64 l in
      Some (NCNProgramInstruction.InitializeBallotBox epoch, l)
  | 12 =>
      let! (epoch, l) := read borsh_u64 l in
      Some (NCNProgramInstruction.ReallocBallotBox epoch, l)
  | 13 =>
      let! (weather_status, l) := read borsh_u8 l in
      let! (epoch, l) := read borsh_u64 l in
      Some (NCNProgramInstruction.CastVote weather_status epoch, l)
  | 14 =>
      let! (epoch, l) := read borsh_u64 l in
      Some (NCNProgramInstruction.InitializeNCNRewardRouter epoch, l)
  | 15 =>
      let! (epoch, l) := read borsh_u64 l in
      Some (NCNProgramInstruction.ReallocNCNRewardRouter epoch, l)
  | 16 =>
      let! (max_iterations, l) := read borsh_u16 l in
      let! (epoch, l) := read borsh_u64 l in
      Some (NCNProgramInstruction.RouteNCNRewards max_iterations epoch, l)
  | 17 =>
      let! (epoch, l) := read borsh_u64 l in
      Some (NCNProgramInstruction.DistributeProtocolRewards epoch, l)
  | 18 =>
      let! (epoch, l) := read borsh_u64 l in
      Some (NCNProgramInstruction.DistributeNCNRewards epoch, l)
  | 19 =>
      let! (epoch, l) := read borsh_u64 l in
      Some (NCNProgramInstruction.InitializeOperatorVaultRewardRouter epoch, l)
  | 20 =>
      let! (epoch, l) := read borsh_u64 l in
      Some (NCNProgramInstruction.DistributeOperatorVaultRewardRoute epoch, l)
  | 21 =>
      let! (max_iterations, l) := read borsh_u16 l in
      let! (epoch, l) := read borsh_u64 l in
      Some (NCNProgramInstruction.RouteOperatorVaultRewards max_iterations epoch, l)
  | 22 =>
      let! (epoch, l) := read borsh_u64 l in
      Some (NCNProgramInstruction.CloseEpochAccount epoch, l)
  | 23 =>
      let! (epoch, l) := read borsh_u64 l in
      Some (NCNProgramInstruction.DistributeOperatorRewards epoch, l)
  | 24 =>
      let! (epoch, l) := read borsh_u64 l in
      Some (NCNProgramInstruction.DistributeVaultRewards epoch, l)
  | 25 =>
      let! (starting_valid_epoch, l) := read (borsh_option borsh_u64) l in
      let! (epochs_before_stall, l) := read (borsh_option borsh_u64) l in
      let! (epochs_after_consensus_before_close, l) := read (borsh_option borsh_u64) l in
      let! (valid_slots_after_consensus, l) := read (borsh_option borsh_u64) l in
      Some (NCNProgramInstruction.AdminSetParameters starting_valid_epoch epochs_before_stall
        epochs_after_consensus_before_close valid_slots_after_consensus, l)
  | 26 =>
      let! (role, l) := read borsh_ConfigAdminRole l in
      Some (NCNProgramInstruction.AdminSetNewAdmin role, l)
  | 27 =>
      let! (weather_status, l) := read borsh_u8 l in
      let! (epoch, l) := read borsh_u64 l in
      Some (NCNProgramInstruction.AdminSetTieBreaker weather_status epoch, l)
  | 28 =>
      let! (st_mint, l) := read borsh_Pubkey l in
      let! (weight, l) := read borsh_u128 l in
      let! (epoch, l) := read borsh_u64 l in
      Some (NCNProgramInstruction.AdminSetWeight st_mint weight epoch, l)
  | 29 =>
      let! (weight, l) := read (borsh_option borsh_u128) l in
      Some (NCNProgramInstruction.AdminRegisterStMint weight, l)
  | 30 =>
      let! (st_mint, l) := read borsh_Pubkey l in
      let! (weight, l) := read (borsh_option borsh_u128) l in
      Some (NCNProgramInstruction.AdminSetStMint st_mint weight, l)
  | _ => None
  end.
(** All of the data has to be read. *)
Definition try_from_slice (l : list u8) : option NCNProgramInstruction.t :=
  match deserialize l with Some (ix, []) => Some ix | _ => None end.

(** The arguments are values of their types. *)
Definition valid (ix : NCNProgramInstruction.t) : Prop :=
  match ix with
  | NCNProgramInstruction.InitializeConfig ebs eacbc vsac nfb => up_to u64_MAX ebs /\ up_to u64_MAX eacbc /\
      up_to u64_MAX vsac /\ up_to u16_MAX nfb
  | NCNProgramInstruction.InitializeVaultRegistry => True
  | NCNProgramInstruction.ReallocVaultRegistry => True
  | NCNProgramInstruction.RegisterVault => True
  | NCNProgramInstruction.InitializeEpochState epoch => up_to u64_MAX epoch
  | NCNProgramInstruction.InitializeWeightTable epoch => up_to u64_MAX epoch
  | NCNProgramInstruction.SetEpochWeights epoch => up_to u64_MAX epoch
  | NCNProgramInstruction.ReallocWeightTable epoch => up_to u64_MAX epoch
  | NCNProgramInstruction.InitializeEpochSnapshot epoch => up_to u64_MAX epoch
  | NCNProgramInstruction.InitializeOperatorSnapshot epoch => up_to u64_MAX epoch
  | NCNProgramInstruction.SnapshotVaultOperatorDelegation epoch => up_to u64_MAX epoch
  | NCNProgramInstruction.InitializeBallotBox epoch => up_to u64_MAX epoch
  | NCNProgramInstruction.ReallocBallotBox epoch => up_to u64_MAX epoch
  | NCNProgramInstruction.CastVote weather_status epoch => up_to u8_MAX weather_status /\
      up_to u64_MAX epoch
  | NCNProgramInstruction.InitializeNCNRewardRouter epoch => up_to u64_MAX epoch
  | NCNProgramInstruction.ReallocNCNRewardRouter epoch => up_to u64_MAX epoch
  | NCNProgramInstruction.RouteNCNRewards max_iterations epoch => up_to u16_MAX max_iterations /\
      up_to u64_MAX epoch
  | NCNProgramInstruction.DistributeProtocolRewards epoch => up_to u64_MAX epoch
  | NCNProgramInstruction.DistributeNCNRewards epoch => up_to u64_MAX epoch
  | NCNProgramInstruction.InitializeOperatorVaultRewardRouter epoch => up_to u64_MAX epoch
  | NCNProgramInstruction.DistributeOperatorVaultRewardRoute epoch => up_to u64_MAX epoch
  | NCNProgramInstruction.RouteOperatorVaultRewards max_iterations epoch => up_to u16_MAX max_iterations /\
      up_to u64_MAX epoch
  | NCNProgramInstruction.CloseEpochAccount epoch => up_to u64_MAX epoch
  | NCNProgramInstruction.DistributeOperatorRewards epoch => up_to u64_MAX epoch
  | NCNProgramInstruction.DistributeVaultRewards epoch => up_to u64_MAX epoch
  | NCNProgramInstruction.AdminSetParameters sve ebs eacbc vsac => if_some (up_to u64_MAX) sve /\
      if_some (up_to u64_MAX) ebs /\ if_some (up_to u64_MAX) eacbc /\ if_some (up_to u64_MAX) vsac
  | NCNProgramInstruction.AdminSetNewAdmin _ => True
  | NCNProgramInstruction.AdminSetTieBreaker weather_status epoch => up_to u8_MAX weather_status /\
      up_to u64_MAX epoch
  | NCNProgramInstruction.AdminSetWeight st_mint weight epoch => is_pubkey st_mint /\ up_to u128_MAX weight
      /\ up_to u64_MAX epoch
  | NCNProgramInstruction.AdminRegisterStMint weight => if_some (up_to u128_MAX) weight
  | NCNProgramInstruction.AdminSetStMint st_mint weight => is_pubkey st_mint /\
      if_some (up_to u128_MAX) weight
  end.

(** ** Theorems *)
Context {laws : BorshLaws}.

Lemma reads_optional max c : reads_back (up_to max) c -> reads_back (if_some (up_to max)) (borsh_option c).
Proof. apply reads_option. Qed.

(** [read_back]: what was written is read, field by field. *)
Ltac read_back :=
  repeat (cbn [and_then]; rewrite <- ?app_assoc; first
    [ rewrite reads_u8 by easy | rewrite reads_u16 by easy | rewrite reads_u64 by easy
    | rewrite reads_u128 by easy | rewrite reads_Pubkey by easy | rewrite reads_role by easy
    | rewrite (reads_optional u64_MAX) by (easy || apply reads_u64)
    | rewrite (reads_optional u128_MAX) by (easy || apply reads_u128) ]).

Ltac head t := lazymatch t with ?f _ => head f | _ => t end.
Ltac unfold_data :=
  match goal with |- context [read borsh_u8 (?d ++ _)] => let f := head d in unfold f end.

Lemma deserialize_data_of c accounts d ix remaining l :
  instruction_of c remaining = Ncn NCN_PROGRAM_ID accounts d ix -> valid ix ->
  deserialize (data_of c ++ l) = Some (ix, l).
Proof.
  destruct c; intros [= _ _ <-]; cbn [valid]; intros Hv; decompose [and] Hv; unfold deserialize;
    cbn [data_of]; unfold_data; read_back; reflexivity.
Qed.

(** C19: what the client writes is what the program reads. The data that the
    generated client puts in an instruction, for arguments that are values of their
    types, is read by the program as the same variant with the same arguments; and
    data with anything more after it is refused. *)
Theorem client_data_is_read_back c accounts d ix remaining l :
  instruction_of c remaining = Ncn NCN_PROGRAM_ID accounts d ix -> valid ix ->
  try_from_slice (data_of c ++ l) = match l with [] => Some ix | _ => None end.
Proof.
  intros H Hv. unfold try_from_slice. by rewrite (deserialize_data_of _ _ _ _ _ _ H Hv).
Qed.
End wire.

(** ** Borsh's encoding: little-endian integers, a byte for the variant of an enum *)
Definition of_le_bytes : list u8 -> Z := fold_right (fun b z => b + 256 * z) 0.
Definition le (n : nat) : codec Z := Codec (to_le_bytes n)
  (fun l => if (length l <? n)%nat then None else Some (of_le_bytes (take n l), drop n l)).
Definition be (n : nat) : codec Z := Codec (fun z => rev (to_le_bytes n z))
  (fun l => if (length l <? n)%nat then None else Some (of_le_bytes (rev (take n l)), drop n l)).
Definition enum_of_one : codec ConfigAdminRole.t := Codec (fun _ => [0])
  (fun l => match l with 0 :: l => Some (ConfigAdminRole.TieBreakerAdmin, l) | _ => None end).
Definition option_of {A} (c : codec A) : codec (option A) := Codec
  (fun x => match x with Some a => 1 :: write c a | None => [0] end)
  (fun l => match l with
            | 0 :: l => Some (None, l)
            | 1 :: l => match read c l with Some (a, l) => Some (Some a, l) | None => None end
            | _ => None end).
#[local] Instance concrete : Borsh := {
  borsh_u8 := le 1; borsh_u16 := le 2; borsh_u64 := le 8; borsh_u128 := le 16; borsh_Pubkey := be 32;
  borsh_ConfigAdminRole := enum_of_one; borsh_option := @option_of;
}.

Lemma length_le n z : length (to_le_bytes n z) = n.
Proof. revert z. induction n as [|n IH]; intros z; cbn; [done|by rewrite IH]. Qed.
Lemma of_le n z : 0 <= z < 256 ^ Z.of_nat n -> of_le_bytes (to_le_bytes n z) = z.
Proof.
  revert z. induction n as [|n IH]; intros z Hz; cbn in *; [lia|].
  rewrite IH; [pose proof (Z.div_mod z 256); lia|].
  rewrite Nat2Z.inj_succ, Z.pow_succ_r in Hz by lia.
  split; [apply Z.div_pos; lia|]. apply Z.div_lt_upper_bound; lia.
Qed.
Lemma le_reads_back n max : max < 256 ^ Z.of_nat n -> reads_back (up_to max) (le n).
Proof.
  intros Hmax z l Hz. cbn -[Nat.ltb]. rewrite length_app, length_le.
  destruct (Nat.ltb_spec (n + length l) n); [lia|].
  rewrite take_app_length', drop_app_length' by (symmetry; apply length_le).
  unfold up_to in Hz. by rewrite of_le by lia.
Qed.
#[local] Instance concrete_laws : BorshLaws.
Proof.
  split; try by apply le_reads_back.
  - intros z l Hz. cbn -[to_le_bytes Nat.ltb]. rewrite length_app, length_rev, length_le.
    destruct (Nat.ltb_spec (32 + length l) 32); [lia|].
    rewrite take_app_length', drop_app_length' by by rewrite length_rev, length_le.
    rewrite rev_involutive, of_le; [done|]. exact Hz.
  - by intros [] l _.
  - intros A valid c Hc [a|] l Hv; cbn; [by rewrite Hc|done].
Qed.

Definition a_vote : call := CCastVote (CastVote.mk 1 2 3 4 5 6 7 8 9) 2 1000.

Example client_data_is_read_back_witness :
  data_of a_vote = [13; 2; 232; 3; 0; 0; 0; 0; 0; 0] /\
  try_from_slice (data_of a_vote ++ []) = Some (NCNProgramInstruction.CastVote 2 1000).
Proof.
  split; [reflexivity|]. eapply (client_data_is_read_back a_vote _ _ _ [] []); [reflexivity|].
  split; split; vm_compute; discriminate.
Defined.
