(* ===== verification/Invocations.v ===== *)
(** The cross-program invocations of the generated client
    ([clients/rust/ncn_program/src/generated/instructions], the [...CpiAccounts],
    [...Cpi] and [...CpiBuilder] types): how another program invokes this one. A
    [...CpiBuilder] is its [...CpiBuilderInstruction], which it keeps in a box. *)
From S2P Require Import Prelude Errors Precise Stake Registry Weights Fees Snapshots Voting EpochStates.
From S2P Require Import NcnRouter OperatorRouter Consensus Accounts Machine Program Client Builders.

(** [solana_program::program::invoke] and [invoke_signed]: they run the
    instruction on the accounts that are passed along; [W] is the caller's world. *)
Class Invoke (D W : Type) := {
  program_invoke : Instruction -> list (AccountInfo.t D) -> M W ProgramError.t unit;
  program_invoke_signed :
    Instruction -> list (AccountInfo.t D) -> list (list (list u8)) -> M W ProgramError.t unit;
}.

Section shared.
Context {D W : Type} {runtime_invoke : Invoke D W}.
(** A remaining account is the account and two flags. *)
Definition Remaining : Type := AccountInfo.t D * bool * bool.
Definition remaining_meta (remaining_account : Remaining) : Meta :=
  meta (AccountInfo.key remaining_account.1.1) remaining_account.1.2 remaining_account.2.
(** The end of every [invoke_signed_with_remaining_accounts]. *)
Definition invoke_instruction (instruction : Instruction) (account_infos : list (AccountInfo.t D))
    (signers_seeds : list (list (list u8))) : M W ProgramError.t unit :=
  match signers_seeds with
  | [] => program_invoke instruction account_infos
  | _ => program_invoke_signed instruction account_infos signers_seeds
  end.
(** [if let Some(account) = ...], pushing it. *)
Definition given_account (account : option (AccountInfo.t D)) : list (AccountInfo.t D) :=
  match account with Some account => [account] | None => [] end.
End shared.
Arguments Remaining : clear implicits.

(** ** The invocation of every instruction *)

Module InitializeConfigInstructionArgs.
Record t := mk { epochs_before_stall : u64; epochs_after_consensus_before_close : u64;
  valid_slots_after_consensus : u64; ncn_fee_bps : u16 }.
End InitializeConfigInstructionArgs.
Module InitializeConfigCpiAccounts.
Section accounts.
Context {D : Type}.
Record t := mk { config : AccountInfo.t D; ncn : AccountInfo.t D; ncn_fee_wallet : AccountInfo.t D;
  ncn_admin : AccountInfo.t D; tie_breaker_admin : AccountInfo.t D; account_payer : AccountInfo.t D;
  system_program : AccountInfo.t D }.
End accounts.
Arguments t : clear implicits.
End InitializeConfigCpiAccounts.
Module InitializeConfigCpi.
Section cpi.
Context {D W : Type} {runtime_invoke : Invoke D W}.
Record t := mk { __program : AccountInfo.t D; config : AccountInfo.t D; ncn : AccountInfo.t D;
  ncn_fee_wallet : AccountInfo.t D; ncn_admin : AccountInfo.t D; tie_breaker_admin : AccountInfo.t D;
  account_payer : AccountInfo.t D; system_program : AccountInfo.t D;
  __args : InitializeConfigInstructionArgs.t }.
Definition new (program : AccountInfo.t D) (accounts : InitializeConfigCpiAccounts.t D)
    (args : InitializeConfigInstructionArgs.t) : t :=
  mk program (InitializeConfigCpiAccounts.config accounts) (InitializeConfigCpiAccounts.ncn accounts)
    (InitializeConfigCpiAccounts.ncn_fee_wallet accounts) (InitializeConfigCpiAccounts.ncn_admin accounts)
    (InitializeConfigCpiAccounts.tie_breaker_admin accounts)
    (InitializeConfigCpiAccounts.account_payer accounts)
    (InitializeConfigCpiAccounts.system_program accounts) args.
Definition invoke_signed_with_remaining_accounts (signers_seeds : list (list (list u8)))
    (remaining_accounts : list (Remaining D)) (self : t) : M W ProgramError.t unit :=
  let accounts := [Client.new (AccountInfo.key (config self)) false;
    Client.new_readonly (AccountInfo.key (ncn self)) false;
    Client.new_readonly (AccountInfo.key (ncn_fee_wallet self)) false;
    Client.new_readonly (AccountInfo.key (ncn_admin self)) true;
    Client.new_readonly (AccountInfo.key (tie_breaker_admin self)) false;
    Client.new (AccountInfo.key (account_payer self)) false;
    Client.new_readonly (AccountInfo.key (system_program self)) false]
    ++ map remaining_meta remaining_accounts in
  let instruction := Ncn NCN_PROGRAM_ID accounts 0 (NCNProgramInstruction.InitializeConfig
    (InitializeConfigInstructionArgs.epochs_before_stall (__args self))
    (InitializeConfigInstructionArgs.epochs_after_consensus_before_close (__args self))
    (InitializeConfigInstructionArgs.valid_slots_after_consensus (__args self))
    (InitializeConfigInstructionArgs.ncn_fee_bps (__args self))) in
  let account_infos := [__program self; config self; ncn self; ncn_fee_wallet self; ncn_admin self;
    tie_breaker_admin self; account_payer self; system_program self]
    ++ map (fun remaining_account => remaining_account.1.1) remaining_accounts in
  invoke_instruction instruction account_infos signers_seeds.
Definition invoke (self : t) : M W ProgramError.t unit :=
  invoke_signed_with_remaining_accounts [] [] self.
Definition invoke_with_remaining_accounts (remaining_accounts : list (Remaining D)) (self : t)
    : M W ProgramError.t unit :=
  invoke_signed_with_remaining_accounts [] remaining_accounts self.
Definition invoke_signed (signers_seeds : list (list (list u8))) (self : t) : M W ProgramError.t unit :=
  invoke_signed_with_remaining_accounts signers_seeds [] self.
End cpi.
Arguments t : clear implicits.
End InitializeConfigCpi.
Module InitializeConfigCpiBuilder.
Section builder.
Context {D W : Type} {runtime_invoke : Invoke D W}.
Record t := mk { __program : AccountInfo.t D; config : option (AccountInfo.t D);
  ncn : option (AccountInfo.t D); ncn_fee_wallet : option (AccountInfo.t D);
  ncn_admin : option (AccountInfo.t D); tie_breaker_admin : option (AccountInfo.t D);
  account_payer : option (AccountInfo.t D); system_program : option (AccountInfo.t D);
  epochs_before_stall : option u64; epochs_after_consensus_before_close : option u64;
  valid_slots_after_consensus : option u64; ncn_fee_bps : option u16;
  __remaining_accounts : list (Remaining D) }.
#[global] Instance eta_t : Eta t := fun b => mk (__program b) (config b) (ncn b) (ncn_fee_wallet b)
    (ncn_admin b) (tie_breaker_admin b) (account_payer b) (system_program b) (epochs_before_stall b)
    (epochs_after_consensus_before_close b) (valid_slots_after_consensus b) (ncn_fee_bps b)
    (__remaining_accounts b).
Definition new (program : AccountInfo.t D) : t := mk program None None None None None None None None None
    None None [].
Definition set_config (x : AccountInfo.t D) (self : t) : t := self <| config := Some x |>.
Definition set_ncn (x : AccountInfo.t D) (self : t) : t := self <| ncn := Some x |>.
Definition set_ncn_fee_wallet (x : AccountInfo.t D) (self : t) : t := self <| ncn_fee_wallet := Some x |>.
Definition set_ncn_admin (x : AccountInfo.t D) (self : t) : t := self <| ncn_admin := Some x |>.
Definition set_tie_breaker_admin (x : AccountInfo.t D) (self : t) : t :=
  self <| tie_breaker_admin := Some x |>.
Definition set_account_payer (x : AccountInfo.t D) (self : t) : t := self <| account_payer := Some x |>.
Definition set_system_program (x : AccountInfo.t D) (self : t) : t := self <| system_program := Some x |>.
Definition set_epochs_before_stall (x : u64) (self : t) : t := self <| epochs_before_stall := Some x |>.
Definition set_epochs_after_consensus_before_close (x : u64) (self : t) : t :=
  self <| epochs_after_consensus_before_close := Some x |>.
Definition set_valid_slots_after_consensus (x : u64) (self : t) : t :=
  self <| valid_slots_after_consensus := Some x |>.
Definition set_ncn_fee_bps (x : u16) (self : t) : t := self <| ncn_fee_bps := Some x |>.
Definition add_remaining_account (account : AccountInfo.t D) (is_writable is_signer : bool) (self : t) : t :=
  self <| __remaining_accounts := __remaining_accounts self ++ [(account, is_writable, is_signer)] |>.
Definition add_remaining_accounts (accounts : list (Remaining D)) (self : t) : t :=
  self <| __remaining_accounts := __remaining_accounts self ++ accounts |>.
Definition invoke_signed (signers_seeds : list (list (list u8))) (self : t) : M W ProgramError.t unit :=
  let* epochs_before_stall := lift (expect (epochs_before_stall self)) in
  let* epochs_after_consensus_before_close := lift (expect (epochs_after_consensus_before_close self)) in
  let* valid_slots_after_consensus := lift (expect (valid_slots_after_consensus self)) in
  let* ncn_fee_bps := lift (expect (ncn_fee_bps self)) in
  let* config := lift (expect (config self)) in
  let* ncn := lift (expect (ncn self)) in
  let* ncn_fee_wallet := lift (expect (ncn_fee_wallet self)) in
  let* ncn_admin := lift (expect (ncn_admin self)) in
  let* tie_breaker_admin := lift (expect (tie_breaker_admin self)) in
  let* account_payer := lift (expect (account_payer self)) in
  let* system_program := lift (expect (system_program self)) in
  let args := InitializeConfigInstructionArgs.mk epochs_before_stall epochs_after_consensus_before_close
    valid_slots_after_consensus ncn_fee_bps in
  let instruction := InitializeConfigCpi.mk (__program self) config ncn ncn_fee_wallet ncn_admin
    tie_breaker_admin account_payer system_program args in
  InitializeConfigCpi.invoke_signed_with_remaining_accounts signers_seeds (__remaining_accounts self)
    instruction.
Definition invoke (self : t) : M W ProgramError.t unit := invoke_signed [] self.
Definition setters (c : InitializeConfigCpi.t D) (remaining_accounts : list (Remaining D))
    : list (t -> t) :=
  [set_config (InitializeConfigCpi.config c); set_ncn (InitializeConfigCpi.ncn c); set_ncn_fee_wallet
    (InitializeConfigCpi.ncn_fee_wallet c); set_ncn_admin (InitializeConfigCpi.ncn_admin c);
    set_tie_breaker_admin (InitializeConfigCpi.tie_breaker_admin c); set_account_payer
    (InitializeConfigCpi.account_payer c); set_system_program (InitializeConfigCpi.system_program c);
    set_epochs_before_stall
    (InitializeConfigInstructionArgs.epochs_before_stall (InitializeConfigCpi.__args c));
    set_epochs_after_consensus_before_close
    (InitializeConfigInstructionArgs.epochs_after_consensus_before_close (InitializeConfigCpi.__args c));
    set_valid_slots_after_consensus
    (InitializeConfigInstructionArgs.valid_slots_after_consensus (InitializeConfigCpi.__args c));
    set_ncn_fee_bps (InitializeConfigInstructionArgs.ncn_fee_bps (InitializeConfigCpi.__args c));
    add_remaining_accounts remaining_accounts].
End builder.
Arguments t : clear implicits.
End InitializeConfigCpiBuilder.

Module InitializeVaultRegistryCpiAccounts.
Section accounts.
Context {D : Type}.
Record t := mk { config : AccountInfo.t D; vault_registry : AccountInfo.t D; ncn : AccountInfo.t D;
  account_payer : AccountInfo.t D; system_program : AccountInfo.t D }.
End accounts.
Arguments t : clear implicits.
End InitializeVaultRegistryCpiAccounts.
Module InitializeVaultRegistryCpi.
Section cpi.
Context {D W : Type} {runtime_invoke : Invoke D W}.
Record t := mk { __program : AccountInfo.t D; config : AccountInfo.t D; vault_registry : AccountInfo.t D;
  ncn : AccountInfo.t D; account_payer : AccountInfo.t D; system_program : AccountInfo.t D }.
Definition new (program : AccountInfo.t D) (accounts : InitializeVaultRegistryCpiAccounts.t D) : t :=
  mk program (InitializeVaultRegistryCpiAccounts.config accounts)
    (InitializeVaultRegistryCpiAccounts.vault_registry accounts)
    (InitializeVaultRegistryCpiAccounts.ncn accounts)
    (InitializeVaultRegistryCpiAccounts.account_payer accounts)
    (InitializeVaultRegistryCpiAccounts.system_program accounts).
Definition invoke_signed_with_remaining_accounts (signers_seeds : list (list (list u8)))
    (remaining_accounts : list (Remaining D)) (self : t) : M W ProgramError.t unit :=
  let accounts := [Client.new_readonly (AccountInfo.key (config self)) false;
    Client.new (AccountInfo.key (vault_registry self)) false;
    Client.new_readonly (AccountInfo.key (ncn self)) false;
    Client.new (AccountInfo.key (account_payer self)) false;
    Client.new_readonly (AccountInfo.key (system_program self)) false]
    ++ map remaining_meta remaining_accounts in
  let instruction := Ncn NCN_PROGRAM_ID accounts 1 NCNProgramInstruction.InitializeVaultRegistry in
  let account_infos := [__program self; config self; vault_registry self; ncn self; account_payer self;
    system_program self]
    ++ map (fun remaining_account => remaining_account.1.1) remaining_accounts in
  invoke_instruction instruction account_infos signers_seeds.
Definition invoke (self : t) : M W ProgramError.t unit :=
  invoke_signed_with_remaining_accounts [] [] self.
Definition invoke_with_remaining_accounts (remaining_accounts : list (Remaining D)) (self : t)
    : M W ProgramError.t unit :=
  invoke_signed_with_remaining_accounts [] remaining_accounts self.
Definition invoke_signed (signers_seeds : list (list (list u8))) (self : t) : M W ProgramError.t unit :=
  invoke_signed_with_remaining_accounts signers_seeds [] self.
End cpi.
Arguments t : clear implicits.
End InitializeVaultRegistryCpi.
Module InitializeVaultRegistryCpiBuilder.
Section builder.
Context {D W : Type} {runtime_invoke : Invoke D W}.
Record t := mk { __program : AccountInfo.t D; config : option (AccountInfo.t D);
  vault_registry : option (AccountInfo.t D); ncn : option (AccountInfo.t D);
  account_payer : option (AccountInfo.t D); system_program : option (AccountInfo.t D);
  __remaining_accounts : list (Remaining D) }.
#[global] Instance eta_t : Eta t := fun b => mk (__program b) (config b) (vault_registry b) (ncn b)
    (account_payer b) (system_program b) (__remaining_accounts b).
Definition new (program : AccountInfo.t D) : t := mk program None None None None None [].
Definition set_config (x : AccountInfo.t D) (self : t) : t := self <| config := Some x |>.
Definition set_vault_registry (x : AccountInfo.t D) (self : t) : t := self <| vault_registry := Some x |>.
Definition set_ncn (x : AccountInfo.t D) (self : t) : t := self <| ncn := Some x |>.
Definition set_account_payer (x : AccountInfo.t D) (self : t) : t := self <| account_payer := Some x |>.
Definition set_system_program (x : AccountInfo.t D) (self : t) : t := self <| system_program := Some x |>.
Definition add_remaining_account (account : AccountInfo.t D) (is_writable is_signer : bool) (self : t) : t :=
  self <| __remaining_accounts := __remaining_accounts self ++ [(account, is_writable, is_signer)] |>.
Definition add_remaining_accounts (accounts : list (Remaining D)) (self : t) : t :=
  self <| __remaining_accounts := __remaining_accounts self ++ accounts |>.
Definition invoke_signed (signers_seeds : list (list (list u8))) (self : t) : M W ProgramError.t unit :=
  let* config := lift (expect (config self)) in
  let* vault_registry := lift (expect (vault_registry self)) in
  let* ncn := lift (expect (ncn self)) in
  let* account_payer := lift (expect (account_payer self)) in
  let* system_program := lift (expect (system_program self)) in
  let instruction := InitializeVaultRegistryCpi.mk (__program self) config vault_registry ncn account_payer
    system_program in
  InitializeVaultRegistryCpi.invoke_signed_with_remaining_accounts signers_seeds (__remaining_accounts self)
    instruction.
Definition invoke (self : t) : M W ProgramError.t unit := invoke_signed [] self.
Definition setters (c : InitializeVaultRegistryCpi.t D) (remaining_accounts : list (Remaining D))
    : list (t -> t) :=
  [set_config (InitializeVaultRegistryCpi.config c); set_vault_registry
    (InitializeVaultRegistryCpi.vault_registry c); set_ncn (InitializeVaultRegistryCpi.ncn c);
    set_account_payer (InitializeVaultRegistryCpi.account_payer c); set_system_program
    (InitializeVaultRegistryCpi.system_program c); add_remaining_accounts remaining_accounts].
End builder.
Arguments t : clear implicits.
End InitializeVaultRegistryCpiBuilder.

Module ReallocVaultRegistryCpiAccounts.
Section accounts.
Context {D : Type}.
Record t := mk { config : AccountInfo.t D; vault_registry : AccountInfo.t D; ncn : AccountInfo.t D;
  account_payer : AccountInfo.t D; system_program : AccountInfo.t D }.
End accounts.
Arguments t : clear implicits.
End ReallocVaultRegistryCpiAccounts.
Module ReallocVaultRegistryCpi.
Section cpi.
Context {D W : Type} {runtime_invoke : Invoke D W}.
Record t := mk { __program : AccountInfo.t D; config : AccountInfo.t D; vault_registry : AccountInfo.t D;
  ncn : AccountInfo.t D; account_payer : AccountInfo.t D; system_program : AccountInfo.t D }.
Definition new (program : AccountInfo.t D) (accounts : ReallocVaultRegistryCpiAccounts.t D) : t :=
  mk program (ReallocVaultRegistryCpiAccounts.config accounts)
    (ReallocVaultRegistryCpiAccounts.vault_registry accounts) (ReallocVaultRegistryCpiAccounts.ncn accounts)
    (ReallocVaultRegistryCpiAccounts.account_payer accounts)
    (ReallocVaultRegistryCpiAccounts.system_program accounts).
Definition invoke_signed_with_remaining_accounts (signers_seeds : list (list (list u8)))
    (remaining_accounts : list (Remaining D)) (self : t) : M W ProgramError.t unit :=
  let accounts := [Client.new_readonly (AccountInfo.key (config self)) false;
    Client.new (AccountInfo.key (vault_registry self)) false;
    Client.new_readonly (AccountInfo.key (ncn self)) false;
    Client.new (AccountInfo.key (account_payer self)) false;
    Client.new_readonly (AccountInfo.key (system_program self)) false]
    ++ map remaining_meta remaining_accounts in
  let instruction := Ncn NCN_PROGRAM_ID accounts 2 NCNProgramInstruction.ReallocVaultRegistry in
  let account_infos := [__program self; config self; vault_registry self; ncn self; account_payer self;
    system_program self]
    ++ map (fun remaining_account => remaining_account.1.1) remaining_accounts in
  invoke_instruction instruction account_infos signers_seeds.
Definition invoke (self : t) : M W ProgramError.t unit :=
  invoke_signed_with_remaining_accounts [] [] self.
Definition invoke_with_remaining_accounts (remaining_accounts : list (Remaining D)) (self : t)
    : M W ProgramError.t unit :=
  invoke_signed_with_remaining_accounts [] remaining_accounts self.
Definition invoke_signed (signers_seeds : list (list (list u8))) (self : t) : M W ProgramError.t unit :=
  invoke_signed_with_remaining_accounts signers_seeds [] self.
End cpi.
Arguments t : clear implicits.
End ReallocVaultRegistryCpi.
Module ReallocVaultRegistryCpiBuilder.
Section builder.
Context {D W : Type} {runtime_invoke : Invoke D W}.
Record t := mk { __program : AccountInfo.t D; config : option (AccountInfo.t D);
  vault_registry : option (AccountInfo.t D); ncn : option (AccountInfo.t D);
  account_payer : option (AccountInfo.t D); system_program : option (AccountInfo.t D);
  __remaining_accounts : list (Remaining D) }.
#[global] Instance eta_t : Eta t := fun b => mk (__program b) (config b) (vault_registry b) (ncn b)
    (account_payer b) (system_program b) (__remaining_accounts b).
Definition new (program : AccountInfo.t D) : t := mk program None None None None None [].
Definition set_config (x : AccountInfo.t D) (self : t) : t := self <| config := Some x |>.
Definition set_vault_registry (x : AccountInfo.t D) (self : t) : t := self <| vault_registry := Some x |>.
Definition set_ncn (x : AccountInfo.t D) (self : t) : t := self <| ncn := Some x |>.
Definition set_account_payer (x : AccountInfo.t D) (self : t) : t := self <| account_payer := Some x |>.
Definition set_system_program (x : AccountInfo.t D) (self : t) : t := self <| system_program := Some x |>.
Definition add_remaining_account (account : AccountInfo.t D) (is_writable is_signer : bool) (self : t) : t :=
  self <| __remaining_accounts := __remaining_accounts self ++ [(account, is_writable, is_signer)] |>.
Definition add_remaining_accounts (accounts : list (Remaining D)) (self : t) : t :=
  self <| __remaining_accounts := __remaining_accounts self ++ accounts |>.
Definition invoke_signed (signers_seeds : list (list (list u8))) (self : t) : M W ProgramError.t unit :=
  let* config := lift (expect (config self)) in
  let* vault_registry := lift (expect (vault_registry self)) in
  let* ncn := lift (expect (ncn self)) in
  let* account_payer := lift (expect (account_payer self)) in
  let* system_program := lift (expect (system_program self)) in
  let instruction := ReallocVaultRegistryCpi.mk (__program self) config vault_registry ncn account_payer
    system_program in
  ReallocVaultRegistryCpi.invoke_signed_with_remaining_accounts signers_seeds (__remaining_accounts self)
    instruction.
Definition invoke (self : t) : M W ProgramError.t unit := invoke_signed [] self.
Definition setters (c : ReallocVaultRegistryCpi.t D) (remaining_accounts : list (Remaining D))
    : list (t -> t) :=
  [set_config (ReallocVaultRegistryCpi.config c); set_vault_registry
    (ReallocVaultRegistryCpi.vault_registry c); set_ncn (ReallocVaultRegistryCpi.ncn c); set_account_payer
    (ReallocVaultRegistryCpi.account_payer c); set_system_program
    (ReallocVaultRegistryCpi.system_program c); add_remaining_accounts remaining_accounts].
End builder.
Arguments t : clear implicits.
End ReallocVaultRegistryCpiBuilder.

Module RegisterVaultCpiAccounts.
Section accounts.
Context {D : Type}.
Record t := mk { config : AccountInfo.t D; vault_registry : AccountInfo.t D; ncn : AccountInfo.t D;
  vault : AccountInfo.t D; ncn_vault_ticket : AccountInfo.t D }.
End accounts.
Arguments t : clear implicits.
End RegisterVaultCpiAccounts.
Module RegisterVaultCpi.
Section cpi.
Context {D W : Type} {runtime_invoke : Invoke D W}.
Record t := mk { __program : AccountInfo.t D; config : AccountInfo.t D; vault_registry : AccountInfo.t D;
  ncn : AccountInfo.t D; vault : AccountInfo.t D; ncn_vault_ticket : AccountInfo.t D }.
Definition new (program : AccountInfo.t D) (accounts : RegisterVaultCpiAccounts.t D) : t :=
  mk program (RegisterVaultCpiAccounts.config accounts) (RegisterVaultCpiAccounts.vault_registry accounts)
    (RegisterVaultCpiAccounts.ncn accounts) (RegisterVaultCpiAccounts.vault accounts)
    (RegisterVaultCpiAccounts.ncn_vault_ticket accounts).
Definition invoke_signed_with_remaining_accounts (signers_seeds : list (list (list u8)))
    (remaining_accounts : list (Remaining D)) (self : t) : M W ProgramError.t unit :=
  let accounts := [Client.new_readonly (AccountInfo.key (config self)) false;
    Client.new (AccountInfo.key (vault_registry self)) false;
    Client.new_readonly (AccountInfo.key (ncn self)) false;
    Client.new_readonly (AccountInfo.key (vault self)) false;
    Client.new_readonly (AccountInfo.key (ncn_vault_ticket self)) false]
    ++ map remaining_meta remaining_accounts in
  let instruction := Ncn NCN_PROGRAM_ID accounts 3 NCNProgramInstruction.RegisterVault in
  let account_infos := [__program self; config self; vault_registry self; ncn self; vault self;
    ncn_vault_ticket self]
    ++ map (fun remaining_account => remaining_account.1.1) remaining_accounts in
  invoke_instruction instruction account_infos signers_seeds.
Definition invoke (self : t) : M W ProgramError.t unit :=
  invoke_signed_with_remaining_accounts [] [] self.
Definition invoke_with_remaining_accounts (remaining_accounts : list (Remaining D)) (self : t)
    : M W ProgramError.t unit :=
  invoke_signed_with_remaining_accounts [] remaining_accounts self.
Definition invoke_signed (signers_seeds : list (list (list u8))) (self : t) : M W ProgramError.t unit :=
  invoke_signed_with_remaining_accounts signers_seeds [] self.
End cpi.
Arguments t : clear implicits.
End RegisterVaultCpi.
Module RegisterVaultCpiBuilder.
Section builder.
Context {D W : Type} {runtime_invoke : Invoke D W}.
Record t := mk { __program : AccountInfo.t D; config : option (AccountInfo.t D);
  vault_registry : option (AccountInfo.t D); ncn : option (AccountInfo.t D);
  vault : option (AccountInfo.t D); ncn_vault_ticket : option (AccountInfo.t D);
  __remaining_accounts : list (Remaining D) }.
#[global] Instance eta_t : Eta t := fun b => mk (__program b) (config b) (vault_registry b) (ncn b)
    (vault b) (ncn_vault_ticket b) (__remaining_accounts b).
Definition new (program : AccountInfo.t D) : t := mk program None None None None None [].
Definition set_config (x : AccountInfo.t D) (self : t) : t := self <| config := Some x |>.
Definition set_vault_registry (x : AccountInfo.t D) (self : t) : t := self <| vault_registry := Some x |>.
Definition set_ncn (x : AccountInfo.t D) (self : t) : t := self <| ncn := Some x |>.
Definition set_vault (x : AccountInfo.t D) (self : t) : t := self <| vault := Some x |>.
Definition set_ncn_vault_ticket (x : AccountInfo.t D) (self : t) : t :=
  self <| ncn_vault_ticket := Some x |>.
Definition add_remaining_account (account : AccountInfo.t D) (is_writable is_signer : bool) (self : t) : t :=
  self <| __remaining_accounts := __remaining_accounts self ++ [(account, is_writable, is_signer)] |>.
Definition add_remaining_accounts (accounts : list (Remaining D)) (self : t) : t :=
  self <| __remaining_accounts := __remaining_accounts self ++ accounts |>.
Definition invoke_signed (signers_seeds : list (list (list u8))) (self : t) : M W ProgramError.t unit :=
  let* config := lift (expect (config self)) in
  let* vault_registry := lift (expect (vault_registry self)) in
  let* ncn := lift (expect (ncn self)) in
  let* vault := lift (expect (vault self)) in
  let* ncn_vault_ticket := lift (expect (ncn_vault_ticket self)) in
  let instruction := RegisterVaultCpi.mk (__program self) config vault_registry ncn vault ncn_vault_ticket
    in
  RegisterVaultCpi.invoke_signed_with_remaining_accounts signers_seeds (__remaining_accounts self)
    instruction.
Definition invoke (self : t) : M W ProgramError.t unit := invoke_signed [] self.
Definition setters (c : RegisterVaultCpi.t D) (remaining_accounts : list (Remaining D)) : list (t -> t) :=
  [set_config (RegisterVaultCpi.config c); set_vault_registry (RegisterVaultCpi.vault_registry c); set_ncn
    (RegisterVaultCpi.ncn c); set_vault (RegisterVaultCpi.vault c); set_ncn_vault_ticket
    (RegisterVaultCpi.ncn_vault_ticket c); add_remaining_accounts remaining_accounts].
End builder.
Arguments t : clear implicits.
End RegisterVaultCpiBuilder.

Module InitializeEpochStateInstructionArgs.
Record t := mk { epoch : u64 }.
End InitializeEpochStateInstructionArgs.
Module InitializeEpochStateCpiAccounts.
Section accounts.
Context {D : Type}.
Record t := mk { epoch_marker : AccountInfo.t D; epoch_state : AccountInfo.t D; config : AccountInfo.t D;
  ncn : AccountInfo.t D; account_payer : AccountInfo.t D; system_program : AccountInfo.t D }.
End accounts.
Arguments t : clear implicits.
End InitializeEpochStateCpiAccounts.
Module InitializeEpochStateCpi.
Section cpi.
Context {D W : Type} {runtime_invoke : Invoke D W}.
Record t := mk { __program : AccountInfo.t D; epoch_marker : AccountInfo.t D; epoch_state : AccountInfo.t D;
  config : AccountInfo.t D; ncn : AccountInfo.t D; account_payer : AccountInfo.t D;
  system_program : AccountInfo.t D; __args : InitializeEpochStateInstructionArgs.t }.
Definition new (program : AccountInfo.t D) (accounts : InitializeEpochStateCpiAccounts.t D)
    (args : InitializeEpochStateInstructionArgs.t) : t :=
  mk program (InitializeEpochStateCpiAccounts.epoch_marker accounts)
    (InitializeEpochStateCpiAccounts.epoch_state accounts) (InitializeEpochStateCpiAccounts.config accounts)
    (InitializeEpochStateCpiAccounts.ncn accounts) (InitializeEpochStateCpiAccounts.account_payer accounts)
    (InitializeEpochStateCpiAccounts.system_program accounts) args.
Definition invoke_signed_with_remaining_accounts (signers_seeds : list (list (list u8)))
    (remaining_accounts : list (Remaining D)) (self : t) : M W ProgramError.t unit :=
  let accounts := [Client.new_readonly (AccountInfo.key (epoch_marker self)) false;
    Client.new (AccountInfo.key (epoch_state self)) false;
    Client.new_readonly (AccountInfo.key (config self)) false;
    Client.new_readonly (AccountInfo.key (ncn self)) false;
    Client.new (AccountInfo.key (account_payer self)) false;
    Client.new_readonly (AccountInfo.key (system_program self)) false]
    ++ map remaining_meta remaining_accounts in
  let instruction := Ncn NCN_PROGRAM_ID accounts 4 (NCNProgramInstruction.InitializeEpochState
    (InitializeEpochStateInstructionArgs.epoch (__args self))) in
  let account_infos := [__program self; epoch_marker self; epoch_state self; config self; ncn self;
    account_payer self; system_program self]
    ++ map (fun remaining_account => remaining_account.1.1) remaining_accounts in
  invoke_instruction instruction account_infos signers_seeds.
Definition invoke (self : t) : M W ProgramError.t unit :=
  invoke_signed_with_remaining_accounts [] [] self.
Definition invoke_with_remaining_accounts (remaining_accounts : list (Remaining D)) (self : t)
    : M W ProgramError.t unit :=
  invoke_signed_with_remaining_accounts [] remaining_accounts self.
Definition invoke_signed (signers_seeds : list (list (list u8))) (self : t) : M W ProgramError.t unit :=
  invoke_signed_with_remaining_accounts signers_seeds [] self.
End cpi.
Arguments t : clear implicits.
End InitializeEpochStateCpi.
Module InitializeEpochStateCpiBuilder.
Section builder.
Context {D W : Type} {runtime_invoke : Invoke D W}.
Record t := mk { __program : AccountInfo.t D; epoch_marker : option (AccountInfo.t D);
  epoch_state : option (AccountInfo.t D); config : option (AccountInfo.t D); ncn : option (AccountInfo.t D);
  account_payer : option (AccountInfo.t D); system_program : option (AccountInfo.t D); epoch : option u64;
  __remaining_accounts : list (Remaining D) }.
#[global] Instance eta_t : Eta t := fun b => mk (__program b) (epoch_marker b) (epoch_state b) (config b)
    (ncn b) (account_payer b) (system_program b) (epoch b) (__remaining_accounts b).
Definition new (program : AccountInfo.t D) : t := mk program None None None None None None None [].
Definition set_epoch_marker (x : AccountInfo.t D) (self : t) : t := self <| epoch_marker := Some x |>.
Definition set_epoch_state (x : AccountInfo.t D) (self : t) : t := self <| epoch_state := Some x |>.
Definition set_config (x : AccountInfo.t D) (self : t) : t := self <| config := Some x |>.
Definition set_ncn (x : AccountInfo.t D) (self : t) : t := self <| ncn := Some x |>.
Definition set_account_payer (x : AccountInfo.t D) (self : t) : t := self <| account_payer := Some x |>.
Definition set_system_program (x : AccountInfo.t D) (self : t) : t := self <| system_program := Some x |>.
Definition set_epoch (x : u64) (self : t) : t := self <| epoch := Some x |>.
Definition add_remaining_account (account : AccountInfo.t D) (is_writable is_signer : bool) (self : t) : t :=
  self <| __remaining_accounts := __remaining_accounts self ++ [(account, is_writable, is_signer)] |>.
Definition add_remaining_accounts (accounts : list (Remaining D)) (self : t) : t :=
  self <| __remaining_accounts := __remaining_accounts self ++ accounts |>.
Definition invoke_signed (signers_seeds : list (list (list u8))) (self : t) : M W ProgramError.t unit :=
  let* epoch := lift (expect (epoch self)) in
  let* epoch_marker := lift (expect (epoch_marker self)) in
  let* epoch_state := lift (expect (epoch_state self)) in
  let* config := lift (expect (config self)) in
  let* ncn := lift (expect (ncn self)) in
  let* account_payer := lift (expect (account_payer self)) in
  let* system_program := lift (expect (system_program self)) in
  let args := InitializeEpochStateInstructionArgs.mk epoch in
  let instruction := InitializeEpochStateCpi.mk (__program self) epoch_marker epoch_state config ncn
    account_payer system_program args in
  InitializeEpochStateCpi.invoke_signed_with_remaining_accounts signers_seeds (__remaining_accounts self)
    instruction.
Definition invoke (self : t) : M W ProgramError.t unit := invoke_signed [] self.
Definition setters (c : InitializeEpochStateCpi.t D) (remaining_accounts : list (Remaining D))
    : list (t -> t) :=
  [set_epoch_marker (InitializeEpochStateCpi.epoch_marker c); set_epoch_state
    (InitializeEpochStateCpi.epoch_state c); set_config (InitializeEpochStateCpi.config c); set_ncn
    (InitializeEpochStateCpi.ncn c); set_account_payer (InitializeEpochStateCpi.account_payer c);
    set_system_program (InitializeEpochStateCpi.system_program c); set_epoch
    (InitializeEpochStateInstructionArgs.epoch (InitializeEpochStateCpi.__args c));
    add_remaining_accounts remaining_accounts].
End builder.
Arguments t : clear implicits.
End InitializeEpochStateCpiBuilder.

Module InitializeWeightTableInstructionArgs.
Record t := mk { epoch : u64 }.
End InitializeWeightTableInstructionArgs.
Module InitializeWeightTableCpiAccounts.
Section accounts.
Context {D : Type}.
Record t := mk { epoch_marker : AccountInfo.t D; epoch_state : AccountInfo.t D;
  vault_registry : AccountInfo.t D; ncn : AccountInfo.t D; weight_table : AccountInfo.t D;
  account_payer : AccountInfo.t D; system_program : AccountInfo.t D }.
End accounts.
Arguments t : clear implicits.
End InitializeWeightTableCpiAccounts.
Module InitializeWeightTableCpi.
Section cpi.
Context {D W : Type} {runtime_invoke : Invoke D W}.
Record t := mk { __program : AccountInfo.t D; epoch_marker : AccountInfo.t D; epoch_state : AccountInfo.t D;
  vault_registry : AccountInfo.t D; ncn : AccountInfo.t D; weight_table : AccountInfo.t D;
  account_payer : AccountInfo.t D; system_program : AccountInfo.t D;
  __args : InitializeWeightTableInstructionArgs.t }.
Definition new (program : AccountInfo.t D) (accounts : InitializeWeightTableCpiAccounts.t D)
    (args : InitializeWeightTableInstructionArgs.t) : t :=
  mk program (InitializeWeightTableCpiAccounts.epoch_marker accounts)
    (InitializeWeightTableCpiAccounts.epoch_state accounts)
    (InitializeWeightTableCpiAccounts.vault_registry accounts)
    (InitializeWeightTableCpiAccounts.ncn accounts) (InitializeWeightTableCpiAccounts.weight_table accounts)
    (InitializeWeightTableCpiAccounts.account_payer accounts)
    (InitializeWeightTableCpiAccounts.system_program accounts) args.
Definition invoke_signed_with_remaining_accounts (signers_seeds : list (list (list u8)))
    (remaining_accounts : list (Remaining D)) (self : t) : M W ProgramError.t unit :=
  let accounts := [Client.new_readonly (AccountInfo.key (epoch_marker self)) false;
    Client.new_readonly (AccountInfo.key (epoch_state self)) false;
    Client.new_readonly (AccountInfo.key (vault_registry self)) false;
    Client.new_readonly (AccountInfo.key (ncn self)) false;
    Client.new (AccountInfo.key (weight_table self)) false;
    Client.new (AccountInfo.key (account_payer self)) false;
    Client.new_readonly (AccountInfo.key (system_program self)) false]
    ++ map remaining_meta remaining_accounts in
  let instruction := Ncn NCN_PROGRAM_ID accounts 5 (NCNProgramInstruction.InitializeWeightTable
    (InitializeWeightTableInstructionArgs.epoch (__args self))) in
  let account_infos := [__program self; epoch_marker self; epoch_state self; vault_registry self; ncn self;
    weight_table self; account_payer self; system_program self]
    ++ map (fun remaining_account => remaining_account.1.1) remaining_accounts in
  invoke_instruction instruction account_infos signers_seeds.
Definition invoke (self : t) : M W ProgramError.t unit :=
  invoke_signed_with_remaining_accounts [] [] self.
Definition invoke_with_remaining_accounts (remaining_accounts : list (Remaining D)) (self : t)
    : M W ProgramError.t unit :=
  invoke_signed_with_remaining_accounts [] remaining_accounts self.
Definition invoke_signed (signers_seeds : list (list (list u8))) (self : t) : M W ProgramError.t unit :=
  invoke_signed_with_remaining_accounts signers_seeds [] self.
End cpi.
Arguments t : clear implicits.
End InitializeWeightTableCpi.
Module InitializeWeightTableCpiBuilder.
Section builder.
Context {D W : Type} {runtime_invoke : Invoke D W}.
Record t := mk { __program : AccountInfo.t D; epoch_marker : option (AccountInfo.t D);
  epoch_state : option (AccountInfo.t D); vault_registry : option (AccountInfo.t D);
  ncn : option (AccountInfo.t D); weight_table : option (AccountInfo.t D);
  account_payer : option (AccountInfo.t D); system_program : option (AccountInfo.t D); epoch : option u64;
  __remaining_accounts : list (Remaining D) }.
#[global] Instance eta_t : Eta t := fun b => mk (__program b) (epoch_marker b) (epoch_state b)
    (vault_registry b) (ncn b) (weight_table b) (account_payer b) (system_program b) (epoch b)
    (__remaining_accounts b).
Definition new (program : AccountInfo.t D) : t := mk program None None None None None None None None [].
Definition set_epoch_marker (x : AccountInfo.t D) (self : t) : t := self <| epoch_marker := Some x |>.
Definition set_epoch_state (x : AccountInfo.t D) (self : t) : t := self <| epoch_state := Some x |>.
Definition set_vault_registry (x : AccountInfo.t D) (self : t) : t := self <| vault_registry := Some x |>.
Definition set_ncn (x : AccountInfo.t D) (self : t) : t := self <| ncn := Some x |>.
Definition set_weight_table (x : AccountInfo.t D) (self : t) : t := self <| weight_table := Some x |>.
Definition set_account_payer (x : AccountInfo.t D) (self : t) : t := self <| account_payer := Some x |>.
Definition set_system_program (x : AccountInfo.t D) (self : t) : t := self <| system_program := Some x |>.
Definition set_epoch (x : u64) (self : t) : t := self <| epoch := Some x |>.
Definition add_remaining_account (account : AccountInfo.t D) (is_writable is_signer : bool) (self : t) : t :=
  self <| __remaining_accounts := __remaining_accounts self ++ [(account, is_writable, is_signer)] |>.
Definition add_remaining_accounts (accounts : list (Remaining D)) (self : t) : t :=
  self <| __remaining_accounts := __remaining_accounts self ++ accounts |>.
Definition invoke_signed (signers_seeds : list (list (list u8))) (self : t) : M W ProgramError.t unit :=
  let* epoch := lift (expect (epoch self)) in
  let* epoch_marker := lift (expect (epoch_marker self)) in
  let* epoch_state := lift (expect (epoch_state self)) in
  let* vault_registry := lift (expect (vault_registry self)) in
  let* ncn := lift (expect (ncn self)) in
  let* weight_table := lift (expect (weight_table self)) in
  let* account_payer := lift (expect (account_payer self)) in
  let* system_program := lift (expect (system_program self)) in
  let args := InitializeWeightTableInstructionArgs.mk epoch in
  let instruction := InitializeWeightTableCpi.mk (__program self) epoch_marker epoch_state vault_registry
    ncn weight_table account_payer system_program args in
  InitializeWeightTableCpi.invoke_signed_with_remaining_accounts signers_seeds (__remaining_accounts self)
    instruction.
Definition invoke (self : t) : M W ProgramError.t unit := invoke_signed [] self.
Definition setters (c : InitializeWeightTableCpi.t D) (remaining_accounts : list (Remaining D))
    : list (t -> t) :=
  [set_epoch_marker (InitializeWeightTableCpi.epoch_marker c); set_epoch_state
    (InitializeWeightTableCpi.epoch_state c); set_vault_registry
    (InitializeWeightTableCpi.vault_registry c); set_ncn (InitializeWeightTableCpi.ncn c); set_weight_table
    (InitializeWeightTableCpi.weight_table c); set_account_payer (InitializeWeightTableCpi.account_payer c);
    set_system_program (InitializeWeightTableCpi.system_program c); set_epoch
    (InitializeWeightTableInstructionArgs.epoch (InitializeWeightTableCpi.__args c));
    add_remaining_accounts remaining_accounts].
End builder.
Arguments t : clear implicits.
End InitializeWeightTableCpiBuilder.

Module SetEpochWeightsInstructionArgs.
Record t := mk { epoch : u64 }.
End SetEpochWeightsInstructionArgs.
Module SetEpochWeightsCpiAccounts.
Section accounts.
Context {D : Type}.
Record t := mk { epoch_state : AccountInfo.t D; ncn : AccountInfo.t D; vault_registry : AccountInfo.t D;
  weight_table : AccountInfo.t D }.
End accounts.
Arguments t : clear implicits.
End SetEpochWeightsCpiAccounts.
Module SetEpochWeightsCpi.
Section cpi.
Context {D W : Type} {runtime_invoke : Invoke D W}.
Record t := mk { __program : AccountInfo.t D; epoch_state : AccountInfo.t D; ncn : AccountInfo.t D;
  vault_registry : AccountInfo.t D; weight_table : AccountInfo.t D;
  __args : SetEpochWeightsInstructionArgs.t }.
Definition new (program : AccountInfo.t D) (accounts : SetEpochWeightsCpiAccounts.t D)
    (args : SetEpochWeightsInstructionArgs.t) : t :=
  mk program (SetEpochWeightsCpiAccounts.epoch_state accounts) (SetEpochWeightsCpiAccounts.ncn accounts)
    (SetEpochWeightsCpiAccounts.vault_registry accounts) (SetEpochWeightsCpiAccounts.weight_table accounts)
    args.
Definition invoke_signed_with_remaining_accounts (signers_seeds : list (list (list u8)))
    (remaining_accounts : list (Remaining D)) (self : t) : M W ProgramError.t unit :=
  let accounts := [Client.new (AccountInfo.key (epoch_state self)) false;
    Client.new_readonly (AccountInfo.key (ncn self)) false;
    Client.new_readonly (AccountInfo.key (vault_registry self)) false;
    Client.new (AccountInfo.key (weight_table self)) false]
    ++ map remaining_meta remaining_accounts in
  let instruction := Ncn NCN_PROGRAM_ID accounts 6 (NCNProgramInstruction.SetEpochWeights
    (SetEpochWeightsInstructionArgs.epoch (__args self))) in
  let account_infos := [__program self; epoch_state self; ncn self; vault_registry self; weight_table self]
    ++ map (fun remaining_account => remaining_account.1.1) remaining_accounts in
  invoke_instruction instruction account_infos signers_seeds.
Definition invoke (self : t) : M W ProgramError.t unit :=
  invoke_signed_with_remaining_accounts [] [] self.
Definition invoke_with_remaining_accounts (remaining_accounts : list (Remaining D)) (self : t)
    : M W ProgramError.t unit :=
  invoke_signed_with_remaining_accounts [] remaining_accounts self.
Definition invoke_signed (signers_seeds : list (list (list u8))) (self : t) : M W ProgramError.t unit :=
  invoke_signed_with_remaining_accounts signers_seeds [] self.
End cpi.
Arguments t : clear implicits.
End SetEpochWeightsCpi.
Module SetEpochWeightsCpiBuilder.
Section builder.
Context {D W : Type} {runtime_invoke : Invoke D W}.
Record t := mk { __program : AccountInfo.t D; epoch_state : option (AccountInfo.t D);
  ncn : option (AccountInfo.t D); vault_registry : option (AccountInfo.t D);
  weight_table : option (AccountInfo.t D); epoch : option u64; __remaining_accounts : list (Remaining D) }.
#[global] Instance eta_t : Eta t := fun b => mk (__program b) (epoch_state b) (ncn b) (vault_registry b)
    (weight_table b) (epoch b) (__remaining_accounts b).
Definition new (program : AccountInfo.t D) : t := mk program None None None None None [].
Definition set_epoch_state (x : AccountInfo.t D) (self : t) : t := self <| epoch_state := Some x |>.
Definition set_ncn (x : AccountInfo.t D) (self : t) : t := self <| ncn := Some x |>.
Definition set_vault_registry (x : AccountInfo.t D) (self : t) : t := self <| vault_registry := Some x |>.
Definition set_weight_table (x : AccountInfo.t D) (self : t) : t := self <| weight_table := Some x |>.
Definition set_epoch (x : u64) (self : t) : t := self <| epoch := Some x |>.
Definition add_remaining_account (account : AccountInfo.t D) (is_writable is_signer : bool) (self : t) : t :=
  self <| __remaining_accounts := __remaining_accounts self ++ [(account, is_writable, is_signer)] |>.
Definition add_remaining_accounts (accounts : list (Remaining D)) (self : t) : t :=
  self <| __remaining_accounts := __remaining_accounts self ++ accounts |>.
Definition invoke_signed (signers_seeds : list (list (list u8))) (self : t) : M W ProgramError.t unit :=
  let* epoch := lift (expect (epoch self)) in
  let* epoch_state := lift (expect (epoch_state self)) in
  let* ncn := lift (expect (ncn self)) in
  let* vault_registry := lift (expect (vault_registry self)) in
  let* weight_table := lift (expect (weight_table self)) in
  let args := SetEpochWeightsInstructionArgs.mk epoch in
  let instruction := SetEpochWeightsCpi.mk (__program self) epoch_state ncn vault_registry weight_table args
    in
  SetEpochWeightsCpi.invoke_signed_with_remaining_accounts signers_seeds (__remaining_accounts self)
    instruction.
Definition invoke (self : t) : M W ProgramError.t unit := invoke_signed [] self.
Definition setters (c : SetEpochWeightsCpi.t D) (remaining_accounts : list (Remaining D)) : list (t -> t) :=
  [set_epoch_state (SetEpochWeightsCpi.epoch_state c); set_ncn (SetEpochWeightsCpi.ncn c);
    set_vault_registry (SetEpochWeightsCpi.vault_registry c); set_weight_table
    (SetEpochWeightsCpi.weight_table c); set_epoch
    (SetEpochWeightsInstructionArgs.epoch (SetEpochWeightsCpi.__args c));
    add_remaining_accounts remaining_accounts].
End builder.
Arguments t : clear implicits.
End SetEpochWeightsCpiBuilder.

Module ReallocWeightTableInstructionArgs.
Record t := mk { epoch : u64 }.
End ReallocWeightTableInstructionArgs.
Module ReallocWeightTableCpiAccounts.
Section accounts.
Context {D : Type}.
Record t := mk { epoch_state : AccountInfo.t D; config : AccountInfo.t D; weight_table : AccountInfo.t D;
  ncn : AccountInfo.t D; vault_registry : AccountInfo.t D; account_payer : AccountInfo.t D;
  system_program : AccountInfo.t D }.
End accounts.
Arguments t : clear implicits.
End ReallocWeightTableCpiAccounts.
Module ReallocWeightTableCpi.
Section cpi.
Context {D W : Type} {runtime_invoke : Invoke D W}.
Record t := mk { __program : AccountInfo.t D; epoch_state : AccountInfo.t D; config : AccountInfo.t D;
  weight_table : AccountInfo.t D; ncn : AccountInfo.t D; vault_registry : AccountInfo.t D;
  account_payer : AccountInfo.t D; system_program : AccountInfo.t D;
  __args : ReallocWeightTableInstructionArgs.t }.
Definition new (program : AccountInfo.t D) (accounts : ReallocWeightTableCpiAccounts.t D)
    (args : ReallocWeightTableInstructionArgs.t) : t :=
  mk program (ReallocWeightTableCpiAccounts.epoch_state accounts)
    (ReallocWeightTableCpiAccounts.config accounts) (ReallocWeightTableCpiAccounts.weight_table accounts)
    (ReallocWeightTableCpiAccounts.ncn accounts) (ReallocWeightTableCpiAccounts.vault_registry accounts)
    (ReallocWeightTableCpiAccounts.account_payer accounts)
    (ReallocWeightTableCpiAccounts.system_program accounts) args.
Definition invoke_signed_with_remaining_accounts (signers_seeds : list (list (list u8)))
    (remaining_accounts : list (Remaining D)) (self : t) : M W ProgramError.t unit :=
  let accounts := [Client.new (AccountInfo.key (epoch_state self)) false;
    Client.new_readonly (AccountInfo.key (config self)) false;
    Client.new (AccountInfo.key (weight_table self)) false;
    Client.new_readonly (AccountInfo.key (ncn self)) false;
    Client.new_readonly (AccountInfo.key (vault_registry self)) false;
    Client.new (AccountInfo.key (account_payer self)) false;
    Client.new_readonly (AccountInfo.key (system_program self)) false]
    ++ map remaining_meta remaining_accounts in
  let instruction := Ncn NCN_PROGRAM_ID accounts 7 (NCNProgramInstruction.ReallocWeightTable
    (ReallocWeightTableInstructionArgs.epoch (__args self))) in
  let account_infos := [__program self; epoch_state self; config self; weight_table self; ncn self;
    vault_registry self; account_payer self; system_program self]
    ++ map (fun remaining_account => remaining_account.1.1) remaining_accounts in
  invoke_instruction instruction account_infos signers_seeds.
Definition invoke (self : t) : M W ProgramError.t unit :=
  invoke_signed_with_remaining_accounts [] [] self.
Definition invoke_with_remaining_accounts (remaining_accounts : list (Remaining D)) (self : t)
    : M W ProgramError.t unit :=
  invoke_signed_with_remaining_accounts [] remaining_accounts self.
Definition invoke_signed (signers_seeds : list (list (list u8))) (self : t) : M W ProgramError.t unit :=
  invoke_signed_with_remaining_accounts signers_seeds [] self.
End cpi.
Arguments t : clear implicits.
End ReallocWeightTableCpi.
Module ReallocWeightTableCpiBuilder.
Section builder.
Context {D W : Type} {runtime_invoke : Invoke D W}.
Record t := mk { __program : AccountInfo.t D; epoch_state : option (AccountInfo.t D);
  config : option (AccountInfo.t D); weight_table : option (AccountInfo.t D);
  ncn : option (AccountInfo.t D); vault_registry : option (AccountInfo.t D);
  account_payer : option (AccountInfo.t D); system_program : option (AccountInfo.t D); epoch : option u64;
  __remaining_accounts : list (Remaining D) }.
#[global] Instance eta_t : Eta t := fun b => mk (__program b) (epoch_state b) (config b) (weight_table b)
    (ncn b) (vault_registry b) (account_payer b) (system_program b) (epoch b) (__remaining_accounts b).
Definition new (program : AccountInfo.t D) : t := mk program None None None None None None None None [].
Definition set_epoch_state (x : AccountInfo.t D) (self : t) : t := self <| epoch_state := Some x |>.
Definition set_config (x : AccountInfo.t D) (self : t) : t := self <| config := Some x |>.
Definition set_weight_table (x : AccountInfo.t D) (self : t) : t := self <| weight_table := Some x |>.
Definition set_ncn (x : AccountInfo.t D) (self : t) : t := self <| ncn := Some x |>.
Definition set_vault_registry (x : AccountInfo.t D) (self : t) : t := self <| vault_registry := Some x |>.
Definition set_account_payer (x : AccountInfo.t D) (self : t) : t := self <| account_payer := Some x |>.
Definition set_system_program (x : AccountInfo.t D) (self : t) : t := self <| system_program := Some x |>.
Definition set_epoch (x : u64) (self : t) : t := self <| epoch := Some x |>.
Definition add_remaining_account (account : AccountInfo.t D) (is_writable is_signer : bool) (self : t) : t :=
  self <| __remaining_accounts := __remaining_accounts self ++ [(account, is_writable, is_signer)] |>.
Definition add_remaining_accounts (accounts : list (Remaining D)) (self : t) : t :=
  self <| __remaining_accounts := __remaining_accounts self ++ accounts |>.
Definition invoke_signed (signers_seeds : list (list (list u8))) (self : t) : M W ProgramError.t unit :=
  let* epoch := lift (expect (epoch self)) in
  let* epoch_state := lift (expect (epoch_state self)) in
  let* config := lift (expect (config self)) in
  let* weight_table := lift (expect (weight_table self)) in
  let* ncn := lift (expect (ncn self)) in
  let* vault_registry := lift (expect (vault_registry self)) in
  let* account_payer := lift (expect (account_payer self)) in
  let* system_program := lift (expect (system_program self)) in
  let args := ReallocWeightTableInstructionArgs.mk epoch in
  let instruction := ReallocWeightTableCpi.mk (__program self) epoch_state config weight_table ncn
    vault_registry account_payer system_program args in
  ReallocWeightTableCpi.invoke_signed_with_remaining_accounts signers_seeds (__remaining_accounts self)
    instruction.
Definition invoke (self : t) : M W ProgramError.t unit := invoke_signed [] self.
Definition setters (c : ReallocWeightTableCpi.t D) (remaining_accounts : list (Remaining D))
    : list (t -> t) :=
  [set_epoch_state (ReallocWeightTableCpi.epoch_state c); set_config (ReallocWeightTableCpi.config c);
    set_weight_table (ReallocWeightTableCpi.weight_table c); set_ncn (ReallocWeightTableCpi.ncn c);
    set_vault_registry (ReallocWeightTableCpi.vault_registry c); set_account_payer
    (ReallocWeightTableCpi.account_payer c); set_system_program (ReallocWeightTableCpi.system_program c);
    set_epoch (ReallocWeightTableInstructionArgs.epoch (ReallocWeightTableCpi.__args c));
    add_remaining_accounts remaining_accounts].
End builder.
Arguments t : clear implicits.
End ReallocWeightTableCpiBuilder.

Module InitializeEpochSnapshotInstructionArgs.
Record t := mk { epoch : u64 }.
End InitializeEpochSnapshotInstructionArgs.
Module InitializeEpochSnapshotCpiAccounts.
Section accounts.
Context {D : Type}.
Record t := mk { epoch_marker : AccountInfo.t D; epoch_state : AccountInfo.t D; config : AccountInfo.t D;
  ncn : AccountInfo.t D; weight_table : AccountInfo.t D; epoch_snapshot : AccountInfo.t D;
  account_payer : AccountInfo.t D; system_program : AccountInfo.t D }.
End accounts.
Arguments t : clear implicits.
End InitializeEpochSnapshotCpiAccounts.
Module InitializeEpochSnapshotCpi.
Section cpi.
Context {D W : Type} {runtime_invoke : Invoke D W}.
Record t := mk { __program : AccountInfo.t D; epoch_marker : AccountInfo.t D; epoch_state : AccountInfo.t D;
  config : AccountInfo.t D; ncn : AccountInfo.t D; weight_table : AccountInfo.t D;
  epoch_snapshot : AccountInfo.t D; account_payer : AccountInfo.t D; system_program : AccountInfo.t D;
  __args : InitializeEpochSnapshotInstructionArgs.t }.
Definition new (program : AccountInfo.t D) (accounts : InitializeEpochSnapshotCpiAccounts.t D)
    (args : InitializeEpochSnapshotInstructionArgs.t) : t :=
  mk program (InitializeEpochSnapshotCpiAccounts.epoch_marker accounts)
    (InitializeEpochSnapshotCpiAccounts.epoch_state accounts)
    (InitializeEpochSnapshotCpiAccounts.config accounts) (InitializeEpochSnapshotCpiAccounts.ncn accounts)
    (InitializeEpochSnapshotCpiAccounts.weight_table accounts)
    (InitializeEpochSnapshotCpiAccounts.epoch_snapshot accounts)
    (InitializeEpochSnapshotCpiAccounts.account_payer accounts)
    (InitializeEpochSnapshotCpiAccounts.system_program accounts) args.
Definition invoke_signed_with_remaining_accounts (signers_seeds : list (list (list u8)))
    (remaining_accounts : list (Remaining D)) (self : t) : M W ProgramError.t unit :=
  let accounts := [Client.new_readonly (AccountInfo.key (epoch_marker self)) false;
    Client.new (AccountInfo.key (epoch_state self)) false;
    Client.new_readonly (AccountInfo.key (config self)) false;
    Client.new_readonly (AccountInfo.key (ncn self)) false;
    Client.new_readonly (AccountInfo.key (weight_table self)) false;
    Client.new (AccountInfo.key (epoch_snapshot self)) false;
    Client.new (AccountInfo.key (account_payer self)) false;
    Client.new_readonly (AccountInfo.key (system_program self)) false]
    ++ map remaining_meta remaining_accounts in
  let instruction := Ncn NCN_PROGRAM_ID accounts 8 (NCNProgramInstruction.InitializeEpochSnapshot
    (InitializeEpochSnapshotInstructionArgs.epoch (__args self))) in
  let account_infos := [__program self; epoch_marker self; epoch_state self; config self; ncn self;
    weight_table self; epoch_snapshot self; account_payer self; system_program self]
    ++ map (fun remaining_account => remaining_account.1.1) remaining_accounts in
  invoke_instruction instruction account_infos signers_seeds.
Definition invoke (self : t) : M W ProgramError.t unit :=
  invoke_signed_with_remaining_accounts [] [] self.
Definition invoke_with_remaining_accounts (remaining_accounts : list (Remaining D)) (self : t)
    : M W ProgramError.t unit :=
  invoke_signed_with_remaining_accounts [] remaining_accounts self.
Definition invoke_signed (signers_seeds : list (list (list u8))) (self : t) : M W ProgramError.t unit :=
  invoke_signed_with_remaining_accounts signers_seeds [] self.
End cpi.
Arguments t : clear implicits.
End InitializeEpochSnapshotCpi.
Module InitializeEpochSnapshotCpiBuilder.
Section builder.
Context {D W : Type} {runtime_invoke : Invoke D W}.
Record t := mk { __program : AccountInfo.t D; epoch_marker : option (AccountInfo.t D);
  epoch_state : option (AccountInfo.t D); config : option (AccountInfo.t D); ncn : option (AccountInfo.t D);
  weight_table : option (AccountInfo.t D); epoch_snapshot : option (AccountInfo.t D);
  account_payer : option (AccountInfo.t D); system_program : option (AccountInfo.t D); epoch : option u64;
  __remaining_accounts : list (Remaining D) }.
#[global] Instance eta_t : Eta t := fun b => mk (__program b) (epoch_marker b) (epoch_state b) (config b)
    (ncn b) (weight_table b) (epoch_snapshot b) (account_payer b) (system_program b) (epoch b)
    (__remaining_accounts b).
Definition new (program : AccountInfo.t D) : t := mk program None None None None None None None None None
    [].
Definition set_epoch_marker (x : AccountInfo.t D) (self : t) : t := self <| epoch_marker := Some x |>.
Definition set_epoch_state (x : AccountInfo.t D) (self : t) : t := self <| epoch_state := Some x |>.
Definition set_config (x : AccountInfo.t D) (self : t) : t := self <| config := Some x |>.
Definition set_ncn (x : AccountInfo.t D) (self : t) : t := self <| ncn := Some x |>.
Definition set_weight_table (x : AccountInfo.t D) (self : t) : t := self <| weight_table := Some x |>.
Definition set_epoch_snapshot (x : AccountInfo.t D) (self : t) : t := self <| epoch_snapshot := Some x |>.
Definition set_account_payer (x : AccountInfo.t D) (self : t) : t := self <| account_payer := Some x |>.
Definition set_system_program (x : AccountInfo.t D) (self : t) : t := self <| system_program := Some x |>.
Definition set_epoch (x : u64) (self : t) : t := self <| epoch := Some x |>.
Definition add_remaining_account (account : AccountInfo.t D) (is_writable is_signer : bool) (self : t) : t :=
  self <| __remaining_accounts := __remaining_accounts self ++ [(account, is_writable, is_signer)] |>.
Definition add_remaining_accounts (accounts : list (Remaining D)) (self : t) : t :=
  self <| __remaining_accounts := __remaining_accounts self ++ accounts |>.
Definition invoke_signed (signers_seeds : list (list (list u8))) (self : t) : M W ProgramError.t unit :=
  let* epoch := lift (expect (epoch self)) in
  let* epoch_marker := lift (expect (epoch_marker self)) in
  let* epoch_state := lift (expect (epoch_state self)) in
  let* config := lift (expect (config self)) in
  let* ncn := lift (expect (ncn self)) in
  let* weight_table := lift (expect (weight_table self)) in
  let* epoch_snapshot := lift (expect (epoch_snapshot self)) in
  let* account_payer := lift (expect (account_payer self)) in
  let* system_program := lift (expect (system_program self)) in
  let args := InitializeEpochSnapshotInstructionArgs.mk epoch in
  let instruction := InitializeEpochSnapshotCpi.mk (__program self) epoch_marker epoch_state config ncn
    weight_table epoch_snapshot account_payer system_program args in
  InitializeEpochSnapshotCpi.invoke_signed_with_remaining_accounts signers_seeds (__remaining_accounts self)
    instruction.
Definition invoke (self : t) : M W ProgramError.t unit := invoke_signed [] self.
Definition setters (c : InitializeEpochSnapshotCpi.t D) (remaining_accounts : list (Remaining D))
    : list (t -> t) :=
  [set_epoch_marker (InitializeEpochSnapshotCpi.epoch_marker c); set_epoch_state
    (InitializeEpochSnapshotCpi.epoch_state c); set_config (InitializeEpochSnapshotCpi.config c); set_ncn
    (InitializeEpochSnapshotCpi.ncn c); set_weight_table (InitializeEpochSnapshotCpi.weight_table c);
    set_epoch_snapshot (InitializeEpochSnapshotCpi.epoch_snapshot c); set_account_payer
    (InitializeEpochSnapshotCpi.account_payer c); set_system_program
    (InitializeEpochSnapshotCpi.system_program c); set_epoch
    (InitializeEpochSnapshotInstructionArgs.epoch (InitializeEpochSnapshotCpi.__args c));
    add_remaining_accounts remaining_accounts].
End builder.
Arguments t : clear implicits.
End InitializeEpochSnapshotCpiBuilder.

Module InitializeOperatorSnapshotInstructionArgs.
Record t := mk { epoch : u64 }.
End InitializeOperatorSnapshotInstructionArgs.
Module InitializeOperatorSnapshotCpiAccounts.
Section accounts.
Context {D : Type}.
Record t := mk { epoch_marker : AccountInfo.t D; epoch_state : AccountInfo.t D; config : AccountInfo.t D;
  restaking_config : AccountInfo.t D; ncn : AccountInfo.t D; operator : AccountInfo.t D;
  ncn_operator_state : AccountInfo.t D; epoch_snapshot : AccountInfo.t D;
  operator_snapshot : AccountInfo.t D; account_payer : AccountInfo.t D; system_program : AccountInfo.t D }.
End accounts.
Arguments t : clear implicits.
End InitializeOperatorSnapshotCpiAccounts.
Module InitializeOperatorSnapshotCpi.
Section cpi.
Context {D W : Type} {runtime_invoke : Invoke D W}.
Record t := mk { __program : AccountInfo.t D; epoch_marker : AccountInfo.t D; epoch_state : AccountInfo.t D;
  config : AccountInfo.t D; restaking_config : AccountInfo.t D; ncn : AccountInfo.t D;
  operator : AccountInfo.t D; ncn_operator_state : AccountInfo.t D; epoch_snapshot : AccountInfo.t D;
  operator_snapshot : AccountInfo.t D; account_payer : AccountInfo.t D; system_program : AccountInfo.t D;
  __args : InitializeOperatorSnapshotInstructionArgs.t }.
Definition new (program : AccountInfo.t D) (accounts : InitializeOperatorSnapshotCpiAccounts.t D)
    (args : InitializeOperatorSnapshotInstructionArgs.t) : t :=
  mk program (InitializeOperatorSnapshotCpiAccounts.epoch_marker accounts)
    (InitializeOperatorSnapshotCpiAccounts.epoch_state accounts)
    (InitializeOperatorSnapshotCpiAccounts.config accounts)
    (InitializeOperatorSnapshotCpiAccounts.restaking_config accounts)
    (InitializeOperatorSnapshotCpiAccounts.ncn accounts)
    (InitializeOperatorSnapshotCpiAccounts.operator accounts)
    (InitializeOperatorSnapshotCpiAccounts.ncn_operator_state accounts)
    (InitializeOperatorSnapshotCpiAccounts.epoch_snapshot accounts)
    (InitializeOperatorSnapshotCpiAccounts.operator_snapshot accounts)
    (InitializeOperatorSnapshotCpiAccounts.account_payer accounts)
    (InitializeOperatorSnapshotCpiAccounts.system_program accounts) args.
Definition invoke_signed_with_remaining_accounts (signers_seeds : list (list (list u8)))
    (remaining_accounts : list (Remaining D)) (self : t) : M W ProgramError.t unit :=
  let accounts := [Client.new_readonly (AccountInfo.key (epoch_marker self)) false;
    Client.new (AccountInfo.key (epoch_state self)) false;
    Client.new_readonly (AccountInfo.key (config self)) false;
    Client.new_readonly (AccountInfo.key (restaking_config self)) false;
    Client.new_readonly (AccountInfo.key (ncn self)) false;
    Client.new_readonly (AccountInfo.key (operator self)) false;
    Client.new_readonly (AccountInfo.key (ncn_operator_state self)) false;
    Client.new (AccountInfo.key (epoch_snapshot self)) false;
    Client.new (AccountInfo.key (operator_snapshot self)) false;
    Client.new (AccountInfo.key (account_payer self)) false;
    Client.new_readonly (AccountInfo.key (system_program self)) false]
    ++ map remaining_meta remaining_accounts in
  let instruction := Ncn NCN_PROGRAM_ID accounts 9 (NCNProgramInstruction.InitializeOperatorSnapshot
    (InitializeOperatorSnapshotInstructionArgs.epoch (__args self))) in
  let account_infos := [__program self; epoch_marker self; epoch_state self; config self;
    restaking_config self; ncn self; operator self; ncn_operator_state self; epoch_snapshot self;
    operator_snapshot self; account_payer self; system_program self]
    ++ map (fun remaining_account => remaining_account.1.1) remaining_accounts in
  invoke_instruction instruction account_infos signers_seeds.
Definition invoke (self : t) : M W ProgramError.t unit :=
  invoke_signed_with_remaining_accounts [] [] self.
Definition invoke_with_remaining_accounts (remaining_accounts : list (Remaining D)) (self : t)
    : M W ProgramError.t unit :=
  invoke_signed_with_remaining_accounts [] remaining_accounts self.
Definition invoke_signed (signers_seeds : list (list (list u8))) (self : t) : M W ProgramError.t unit :=
  invoke_signed_with_remaining_accounts signers_seeds [] self.
End cpi.
Arguments t : clear implicits.
End InitializeOperatorSnapshotCpi.
Module InitializeOperatorSnapshotCpiBuilder.
Section builder.
Context {D W : Type} {runtime_invoke : Invoke D W}.
Record t := mk { __program : AccountInfo.t D; epoch_marker : option (AccountInfo.t D);
  epoch_state : option (AccountInfo.t D); config : option (AccountInfo.t D);
  restaking_config : option (AccountInfo.t D); ncn : option (AccountInfo.t D);
  operator : option (AccountInfo.t D); ncn_operator_state : option (AccountInfo.t D);
  epoch_snapshot : option (AccountInfo.t D); operator_snapshot : option (AccountInfo.t D);
  account_payer : option (AccountInfo.t D); system_program : option (AccountInfo.t D); epoch : option u64;
  __remaining_accounts : list (Remaining D) }.
#[global] Instance eta_t : Eta t := fun b => mk (__program b) (epoch_marker b) (epoch_state b) (config b)
    (restaking_config b) (ncn b) (operator b) (ncn_operator_state b) (epoch_snapshot b)
    (operator_snapshot b) (account_payer b) (system_program b) (epoch b) (__remaining_accounts b).
Definition new (program : AccountInfo.t D) : t := mk program None None None None None None None None None
    None None None [].
Definition set_epoch_marker (x : AccountInfo.t D) (self : t) : t := self <| epoch_marker := Some x |>.
Definition set_epoch_state (x : AccountInfo.t D) (self : t) : t := self <| epoch_state := Some x |>.
Definition set_config (x : AccountInfo.t D) (self : t) : t := self <| config := Some x |>.
Definition set_restaking_config (x : AccountInfo.t D) (self : t) : t :=
  self <| restaking_config := Some x |>.
Definition set_ncn (x : AccountInfo.t D) (self : t) : t := self <| ncn := Some x |>.
Definition set_operator (x : AccountInfo.t D) (self : t) : t := self <| operator := Some x |>.
Definition set_ncn_operator_state (x : AccountInfo.t D) (self : t) : t :=
  self <| ncn_operator_state := Some x |>.
Definition set_epoch_snapshot (x : AccountInfo.t D) (self : t) : t := self <| epoch_snapshot := Some x |>.
Definition set_operator_snapshot (x : AccountInfo.t D) (self : t) : t :=
  self <| operator_snapshot := Some x |>.
Definition set_account_payer (x : AccountInfo.t D) (self : t) : t := self <| account_payer := Some x |>.
Definition set_system_program (x : AccountInfo.t D) (self : t) : t := self <| system_program := Some x |>.
Definition set_epoch (x : u64) (self : t) : t := self <| epoch := Some x |>.
Definition add_remaining_account (account : AccountInfo.t D) (is_writable is_signer : bool) (self : t) : t :=
  self <| __remaining_accounts := __remaining_accounts self ++ [(account, is_writable, is_signer)] |>.
Definition add_remaining_accounts (accounts : list (Remaining D)) (self : t) : t :=
  self <| __remaining_accounts := __remaining_accounts self ++ accounts |>.
Definition invoke_signed (signers_seeds : list (list (list u8))) (self : t) : M W ProgramError.t unit :=
  let* epoch := lift (expect (epoch self)) in
  let* epoch_marker := lift (expect (epoch_marker self)) in
  let* epoch_state := lift (expect (epoch_state self)) in
  let* config := lift (expect (config self)) in
  let* restaking_config := lift (expect (restaking_config self)) in
  let* ncn := lift (expect (ncn self)) in
  let* operator := lift (expect (operator self)) in
  let* ncn_operator_state := lift (expect (ncn_operator_state self)) in
  let* epoch_snapshot := lift (expect (epoch_snapshot self)) in
  let* operator_snapshot := lift (expect (operator_snapshot self)) in
  let* account_payer := lift (expect (account_payer self)) in
  let* system_program := lift (expect (system_program self)) in
  let args := InitializeOperatorSnapshotInstructionArgs.mk epoch in
  let instruction := InitializeOperatorSnapshotCpi.mk (__program self) epoch_marker epoch_state config
    restaking_config ncn operator ncn_operator_state epoch_snapshot operator_snapshot account_payer
    system_program args in
  InitializeOperatorSnapshotCpi.invoke_signed_with_remaining_accounts signers_seeds
    (__remaining_accounts self) instruction.
Definition invoke (self : t) : M W ProgramError.t unit := invoke_signed [] self.
Definition setters (c : InitializeOperatorSnapshotCpi.t D) (remaining_accounts : list (Remaining D))
    : list (t -> t) :=
  [set_epoch_marker (InitializeOperatorSnapshotCpi.epoch_marker c); set_epoch_state
    (InitializeOperatorSnapshotCpi.epoch_state c); set_config (InitializeOperatorSnapshotCpi.config c);
    set_restaking_config (InitializeOperatorSnapshotCpi.restaking_config c); set_ncn
    (InitializeOperatorSnapshotCpi.ncn c); set_operator (InitializeOperatorSnapshotCpi.operator c);
    set_ncn_operator_state (InitializeOperatorSnapshotCpi.ncn_operator_state c); set_epoch_snapshot
    (InitializeOperatorSnapshotCpi.epoch_snapshot c); set_operator_snapshot
    (InitializeOperatorSnapshotCpi.operator_snapshot c); set_account_payer
    (InitializeOperatorSnapshotCpi.account_payer c); set_system_program
    (InitializeOperatorSnapshotCpi.system_program c); set_epoch
    (InitializeOperatorSnapshotInstructionArgs.epoch (InitializeOperatorSnapshotCpi.__args c));
    add_remaining_accounts remaining_accounts].
End builder.
Arguments t : clear implicits.
End InitializeOperatorSnapshotCpiBuilder.

Module SnapshotVaultOperatorDelegationInstructionArgs.
Record t := mk { epoch : u64 }.
End SnapshotVaultOperatorDelegationInstructionArgs.
Module SnapshotVaultOperatorDelegationCpiAccounts.
Section accounts.
Context {D : Type}.
Record t := mk { epoch_state : AccountInfo.t D; config : AccountInfo.t D;
  restaking_config : AccountInfo.t D; ncn : AccountInfo.t D; operator : AccountInfo.t D;
  vault : AccountInfo.t D; vault_ncn_ticket : AccountInfo.t D; ncn_vault_ticket : AccountInfo.t D;
  vault_operator_delegation : AccountInfo.t D; weight_table : AccountInfo.t D;
  epoch_snapshot : AccountInfo.t D; operator_snapshot : AccountInfo.t D }.
End accounts.
Arguments t : clear implicits.
End SnapshotVaultOperatorDelegationCpiAccounts.
Module SnapshotVaultOperatorDelegationCpi.
Section cpi.
Context {D W : Type} {runtime_invoke : Invoke D W}.
Record t := mk { __program : AccountInfo.t D; epoch_state : AccountInfo.t D; config : AccountInfo.t D;
  restaking_config : AccountInfo.t D; ncn : AccountInfo.t D; operator : AccountInfo.t D;
  vault : AccountInfo.t D; vault_ncn_ticket : AccountInfo.t D; ncn_vault_ticket : AccountInfo.t D;
  vault_operator_delegation : AccountInfo.t D; weight_table : AccountInfo.t D;
  epoch_snapshot : AccountInfo.t D; operator_snapshot : AccountInfo.t D;
  __args : SnapshotVaultOperatorDelegationInstructionArgs.t }.
Definition new (program : AccountInfo.t D) (accounts : SnapshotVaultOperatorDelegationCpiAccounts.t D)
    (args : SnapshotVaultOperatorDelegationInstructionArgs.t) : t :=
  mk program (SnapshotVaultOperatorDelegationCpiAccounts.epoch_state accounts)
    (SnapshotVaultOperatorDelegationCpiAccounts.config accounts)
    (SnapshotVaultOperatorDelegationCpiAccounts.restaking_config accounts)
    (SnapshotVaultOperatorDelegationCpiAccounts.ncn accounts)
    (SnapshotVaultOperatorDelegationCpiAccounts.operator accounts)
    (SnapshotVaultOperatorDelegationCpiAccounts.vault accounts)
    (SnapshotVaultOperatorDelegationCpiAccounts.vault_ncn_ticket accounts)
    (SnapshotVaultOperatorDelegationCpiAccounts.ncn_vault_ticket accounts)
    (SnapshotVaultOperatorDelegationCpiAccounts.vault_operator_delegation accounts)
    (SnapshotVaultOperatorDelegationCpiAccounts.weight_table accounts)
    (SnapshotVaultOperatorDelegationCpiAccounts.epoch_snapshot accounts)
    (SnapshotVaultOperatorDelegationCpiAccounts.operator_snapshot accounts) args.
Definition invoke_signed_with_remaining_accounts (signers_seeds : list (list (list u8)))
    (remaining_accounts : list (Remaining D)) (self : t) : M W ProgramError.t unit :=
  let accounts := [Client.new (AccountInfo.key (epoch_state self)) false;
    Client.new_readonly (AccountInfo.key (config self)) false;
    Client.new_readonly (AccountInfo.key (restaking_config self)) false;
    Client.new_readonly (AccountInfo.key (ncn self)) false;
    Client.new_readonly (AccountInfo.key (operator self)) false;
    Client.new_readonly (AccountInfo.key (vault self)) false;
    Client.new_readonly (AccountInfo.key (vault_ncn_ticket self)) false;
    Client.new_readonly (AccountInfo.key (ncn_vault_ticket self)) false;
    Client.new_readonly (AccountInfo.key (vault_operator_delegation self)) false;
    Client.new_readonly (AccountInfo.key (weight_table self)) false;
    Client.new (AccountInfo.key (epoch_snapshot self)) false;
    Client.new (AccountInfo.key (operator_snapshot self)) false]
    ++ map remaining_meta remaining_accounts in
  let instruction := Ncn NCN_PROGRAM_ID accounts 10 (NCNProgramInstruction.SnapshotVaultOperatorDelegation
    (SnapshotVaultOperatorDelegationInstructionArgs.epoch (__args self))) in
  let account_infos := [__program self; epoch_state self; config self; restaking_config self; ncn self;
    operator self; vault self; vault_ncn_ticket self; ncn_vault_ticket self; vault_operator_delegation self;
    weight_table self; epoch_snapshot self; operator_snapshot self]
    ++ map (fun remaining_account => remaining_account.1.1) remaining_accounts in
  invoke_instruction instruction account_infos signers_seeds.
Definition invoke (self : t) : M W ProgramError.t unit :=
  invoke_signed_with_remaining_accounts [] [] self.
Definition invoke_with_remaining_accounts (remaining_accounts : list (Remaining D)) (self : t)
    : M W ProgramError.t unit :=
  invoke_signed_with_remaining_accounts [] remaining_accounts self.
Definition invoke_signed (signers_seeds : list (list (list u8))) (self : t) : M W ProgramError.t unit :=
  invoke_signed_with_remaining_accounts signers_seeds [] self.
End cpi.
Arguments t : clear implicits.
End SnapshotVaultOperatorDelegationCpi.
Module SnapshotVaultOperatorDelegationCpiBuilder.
Section builder.
Context {D W : Type} {runtime_invoke : Invoke D W}.
Record t := mk { __program : AccountInfo.t D; epoch_state : option (AccountInfo.t D);
  config : option (AccountInfo.t D); restaking_config : option (AccountInfo.t D);
  ncn : option (AccountInfo.t D); operator : option (AccountInfo.t D); vault : option (AccountInfo.t D);
  vault_ncn_ticket : option (AccountInfo.t D); ncn_vault_ticket : option (AccountInfo.t D);
  vault_operator_delegation : option (AccountInfo.t D); weight_table : option (AccountInfo.t D);
  epoch_snapshot : option (AccountInfo.t D); operator_snapshot : option (AccountInfo.t D);
  epoch : option u64; __remaining_accounts : list (Remaining D) }.
#[global] Instance eta_t : Eta t := fun b => mk (__program b) (epoch_state b) (config b)
    (restaking_config b) (ncn b) (operator b) (vault b) (vault_ncn_ticket b) (ncn_vault_ticket b)
    (vault_operator_delegation b) (weight_table b) (epoch_snapshot b) (operator_snapshot b) (epoch b)
    (__remaining_accounts b).
Definition new (program : AccountInfo.t D) : t := mk program None None None None None None None None None
    None None None None [].
Definition set_epoch_state (x : AccountInfo.t D) (self : t) : t := self <| epoch_state := Some x |>.
Definition set_config (x : AccountInfo.t D) (self : t) : t := self <| config := Some x |>.
Definition set_restaking_config (x : AccountInfo.t D) (self : t) : t :=
  self <| restaking_config := Some x |>.
Definition set_ncn (x : AccountInfo.t D) (self : t) : t := self <| ncn := Some x |>.
Definition set_operator (x : AccountInfo.t D) (self : t) : t := self <| operator := Some x |>.
Definition set_vault (x : AccountInfo.t D) (self : t) : t := self <| vault := Some x |>.
Definition set_vault_ncn_ticket (x : AccountInfo.t D) (self : t) : t :=
  self <| vault_ncn_ticket := Some x |>.
Definition set_ncn_vault_ticket (x : AccountInfo.t D) (self : t) : t :=
  self <| ncn_vault_ticket := Some x |>.
Definition set_vault_operator_delegation (x : AccountInfo.t D) (self : t) : t :=
  self <| vault_operator_delegation := Some x |>.
Definition set_weight_table (x : AccountInfo.t D) (self : t) : t := self <| weight_table := Some x |>.
Definition set_epoch_snapshot (x : AccountInfo.t D) (self : t) : t := self <| epoch_snapshot := Some x |>.
Definition set_operator_snapshot (x : AccountInfo.t D) (self : t) : t :=
  self <| operator_snapshot := Some x |>.
Definition set_epoch (x : u64) (self : t) : t := self <| epoch := Some x |>.
Definition add_remaining_account (account : AccountInfo.t D) (is_writable is_signer : bool) (self : t) : t :=
  self <| __remaining_accounts := __remaining_accounts self ++ [(account, is_writable, is_signer)] |>.
Definition add_remaining_accounts (accounts : list (Remaining D)) (self : t) : t :=
  self <| __remaining_accounts := __remaining_accounts self ++ accounts |>.
Definition invoke_signed (signers_seeds : list (list (list u8))) (self : t) : M W ProgramError.t unit :=
  let* epoch := lift (expect (epoch self)) in
  let* epoch_state := lift (expect (epoch_state self)) in
  let* config := lift (expect (config self)) in
  let* restaking_config := lift (expect (restaking_config self)) in
  let* ncn := lift (expect (ncn self)) in
  let* operator := lift (expect (operator self)) in
  let* vault := lift (expect (vault self)) in
  let* vault_ncn_ticket := lift (expect (vault_ncn_ticket self)) in
  let* ncn_vault_ticket := lift (expect (ncn_vault_ticket self)) in
  let* vault_operator_delegation := lift (expect (vault_operator_delegation self)) in
  let* weight_table := lift (expect (weight_table self)) in
  let* epoch_snapshot := lift (expect (epoch_snapshot self)) in
  let* operator_snapshot := lift (expect (operator_snapshot self)) in
  let args := SnapshotVaultOperatorDelegationInstructionArgs.mk epoch in
  let instruction := SnapshotVaultOperatorDelegationCpi.mk (__program self) epoch_state config
    restaking_config ncn operator vault vault_ncn_ticket ncn_vault_ticket vault_operator_delegation
    weight_table epoch_snapshot operator_snapshot args in
  SnapshotVaultOperatorDelegationCpi.invoke_signed_with_remaining_accounts signers_seeds
    (__remaining_accounts self) instruction.
Definition invoke (self : t) : M W ProgramError.t unit := invoke_signed [] self.
Definition setters (c : SnapshotVaultOperatorDelegationCpi.t D) (remaining_accounts : list (Remaining D))
    : list (t -> t) :=
  [set_epoch_state (SnapshotVaultOperatorDelegationCpi.epoch_state c); set_config
    (SnapshotVaultOperatorDelegationCpi.config c); set_restaking_config
    (SnapshotVaultOperatorDelegationCpi.restaking_config c); set_ncn
    (SnapshotVaultOperatorDelegationCpi.ncn c); set_operator
    (SnapshotVaultOperatorDelegationCpi.operator c); set_vault (SnapshotVaultOperatorDelegationCpi.vault c);
    set_vault_ncn_ticket (SnapshotVaultOperatorDelegationCpi.vault_ncn_ticket c); set_ncn_vault_ticket
    (SnapshotVaultOperatorDelegationCpi.ncn_vault_ticket c); set_vault_operator_delegation
    (SnapshotVaultOperatorDelegationCpi.vault_operator_delegation c); set_weight_table
    (SnapshotVaultOperatorDelegationCpi.weight_table c); set_epoch_snapshot
    (SnapshotVaultOperatorDelegationCpi.epoch_snapshot c); set_operator_snapshot
    (SnapshotVaultOperatorDelegationCpi.operator_snapshot c); set_epoch
    (SnapshotVaultOperatorDelegationInstructionArgs.epoch (SnapshotVaultOperatorDelegationCpi.__args c));
    add_remaining_accounts remaining_accounts].
End builder.
Arguments t : clear implicits.
End SnapshotVaultOperatorDelegationCpiBuilder.

Module InitializeBallotBoxInstructionArgs.
Record t := mk { epoch : u64 }.
End InitializeBallotBoxInstructionArgs.
Module InitializeBallotBoxCpiAccounts.
Section accounts.
Context {D : Type}.
Record t := mk { epoch_marker : AccountInfo.t D; epoch_state : AccountInfo.t D; config : AccountInfo.t D;
  ballot_box : AccountInfo.t D; ncn : AccountInfo.t D; account_payer : AccountInfo.t D;
  system_program : AccountInfo.t D; consensus_result : AccountInfo.t D }.
End accounts.
Arguments t : clear implicits.
End InitializeBallotBoxCpiAccounts.
Module InitializeBallotBoxCpi.
Section cpi.
Context {D W : Type} {runtime_invoke : Invoke D W}.
Record t := mk { __program : AccountInfo.t D; epoch_marker : AccountInfo.t D; epoch_state : AccountInfo.t D;
  config : AccountInfo.t D; ballot_box : AccountInfo.t D; ncn : AccountInfo.t D;
  account_payer : AccountInfo.t D; system_program : AccountInfo.t D; consensus_result : AccountInfo.t D;
  __args : InitializeBallotBoxInstructionArgs.t }.
Definition new (program : AccountInfo.t D) (accounts : InitializeBallotBoxCpiAccounts.t D)
    (args : InitializeBallotBoxInstructionArgs.t) : t :=
  mk program (InitializeBallotBoxCpiAccounts.epoch_marker accounts)
    (InitializeBallotBoxCpiAccounts.epoch_state accounts) (InitializeBallotBoxCpiAccounts.config accounts)
    (InitializeBallotBoxCpiAccounts.ballot_box accounts) (InitializeBallotBoxCpiAccounts.ncn accounts)
    (InitializeBallotBoxCpiAccounts.account_payer accounts)
    (InitializeBallotBoxCpiAccounts.system_program accounts)
    (InitializeBallotBoxCpiAccounts.consensus_result accounts) args.
Definition invoke_signed_with_remaining_accounts (signers_seeds : list (list (list u8)))
    (remaining_accounts : list (Remaining D)) (self : t) : M W ProgramError.t unit :=
  let accounts := [Client.new_readonly (AccountInfo.key (epoch_marker self)) false;
    Client.new_readonly (AccountInfo.key (epoch_state self)) false;
    Client.new_readonly (AccountInfo.key (config self)) false;
    Client.new (AccountInfo.key (ballot_box self)) false;
    Client.new_readonly (AccountInfo.key (ncn self)) false;
    Client.new (AccountInfo.key (account_payer self)) false;
    Client.new_readonly (AccountInfo.key (system_program self)) false;
    Client.new (AccountInfo.key (consensus_result self)) false]
    ++ map remaining_meta remaining_accounts in
  let instruction := Ncn NCN_PROGRAM_ID accounts 11 (NCNProgramInstruction.InitializeBallotBox
    (InitializeBallotBoxInstructionArgs.epoch (__args self))) in
  let account_infos := [__program self; epoch_marker self; epoch_state self; config self; ballot_box self;
    ncn self; account_payer self; system_program self; consensus_result self]
    ++ map (fun remaining_account => remaining_account.1.1) remaining_accounts in
  invoke_instruction instruction account_infos signers_seeds.
Definition invoke (self : t) : M W ProgramError.t unit :=
  invoke_signed_with_remaining_accounts [] [] self.
Definition invoke_with_remaining_accounts (remaining_accounts : list (Remaining D)) (self : t)
    : M W ProgramError.t unit :=
  invoke_signed_with_remaining_accounts [] remaining_accounts self.
Definition invoke_signed (signers_seeds : list (list (list u8))) (self : t) : M W ProgramError.t unit :=
  invoke_signed_with_remaining_accounts signers_seeds [] self.
End cpi.
Arguments t : clear implicits.
End InitializeBallotBoxCpi.
Module InitializeBallotBoxCpiBuilder.
Section builder.
Context {D W : Type} {runtime_invoke : Invoke D W}.
Record t := mk { __program : AccountInfo.t D; epoch_marker : option (AccountInfo.t D);
  epoch_state : option (AccountInfo.t D); config : option (AccountInfo.t D);
  ballot_box : option (AccountInfo.t D); ncn : option (AccountInfo.t D);
  account_payer : option (AccountInfo.t D); system_program : option (AccountInfo.t D);
  consensus_result : option (AccountInfo.t D); epoch : option u64; __remaining_accounts : list (Remaining D)
  }.
#[global] Instance eta_t : Eta t := fun b => mk (__program b) (epoch_marker b) (epoch_state b) (config b)
    (ballot_box b) (ncn b) (account_payer b) (system_program b) (consensus_result b) (epoch b)
    (__remaining_accounts b).
Definition new (program : AccountInfo.t D) : t := mk program None None None None None None None None None
    [].
Definition set_epoch_marker (x : AccountInfo.t D) (self : t) : t := self <| epoch_marker := Some x |>.
Definition set_epoch_state (x : AccountInfo.t D) (self : t) : t := self <| epoch_state := Some x |>.
Definition set_config (x : AccountInfo.t D) (self : t) : t := self <| config := Some x |>.
Definition set_ballot_box (x : AccountInfo.t D) (self : t) : t := self <| ballot_box := Some x |>.
Definition set_ncn (x : AccountInfo.t D) (self : t) : t := self <| ncn := Some x |>.
Definition set_account_payer (x : AccountInfo.t D) (self : t) : t := self <| account_payer := Some x |>.
Definition set_system_program (x : AccountInfo.t D) (self : t) : t := self <| system_program := Some x |>.
Definition set_consensus_result (x : AccountInfo.t D) (self : t) : t :=
  self <| consensus_result := Some x |>.
Definition set_epoch (x : u64) (self : t) : t := self <| epoch := Some x |>.
Definition add_remaining_account (account : AccountInfo.t D) (is_writable is_signer : bool) (self : t) : t :=
  self <| __remaining_accounts := __remaining_accounts self ++ [(account, is_writable, is_signer)] |>.
Definition add_remaining_accounts (accounts : list (Remaining D)) (self : t) : t :=
  self <| __remaining_accounts := __remaining_accounts self ++ accounts |>.
Definition invoke_signed (signers_seeds : list (list (list u8))) (self : t) : M W ProgramError.t unit :=
  let* epoch := lift (expect (epoch self)) in
  let* epoch_marker := lift (expect (epoch_marker self)) in
  let* epoch_state := lift (expect (epoch_state self)) in
  let* config := lift (expect (config self)) in
  let* ballot_box := lift (expect (ballot_box self)) in
  let* ncn := lift (expect (ncn self)) in
  let* account_payer := lift (expect (account_payer self)) in
  let* system_program := lift (expect (system_program self)) in
  let* consensus_result := lift (expect (consensus_result self)) in
  let args := InitializeBallotBoxInstructionArgs.mk epoch in
  let instruction := InitializeBallotBoxCpi.mk (__program self) epoch_marker epoch_state config ballot_box
    ncn account_payer system_program consensus_result args in
  InitializeBallotBoxCpi.invoke_signed_with_remaining_accounts signers_seeds (__remaining_accounts self)
    instruction.
Definition invoke (self : t) : M W ProgramError.t unit := invoke_signed [] self.
Definition setters (c : InitializeBallotBoxCpi.t D) (remaining_accounts : list (Remaining D))
    : list (t -> t) :=
  [set_epoch_marker (InitializeBallotBoxCpi.epoch_marker c); set_epoch_state
    (InitializeBallotBoxCpi.epoch_state c); set_config (InitializeBallotBoxCpi.config c); set_ballot_box
    (InitializeBallotBoxCpi.ballot_box c); set_ncn (InitializeBallotBoxCpi.ncn c); set_account_payer
    (InitializeBallotBoxCpi.account_payer c); set_system_program (InitializeBallotBoxCpi.system_program c);
    set_consensus_result (InitializeBallotBoxCpi.consensus_result c); set_epoch
    (InitializeBallotBoxInstructionArgs.epoch (InitializeBallotBoxCpi.__args c));
    add_remaining_accounts remaining_accounts].
End builder.
Arguments t : clear implicits.
End InitializeBallotBoxCpiBuilder.

Module ReallocBallotBoxInstructionArgs.
Record t := mk { epoch : u64 }.
End ReallocBallotBoxInstructionArgs.
Module ReallocBallotBoxCpiAccounts.
Section accounts.
Context {D : Type}.
Record t := mk { epoch_state : AccountInfo.t D; config : AccountInfo.t D; ballot_box : AccountInfo.t D;
  ncn : AccountInfo.t D; account_payer : AccountInfo.t D; system_program : AccountInfo.t D }.
End accounts.
Arguments t : clear implicits.
End ReallocBallotBoxCpiAccounts.
Module ReallocBallotBoxCpi.
Section cpi.
Context {D W : Type} {runtime_invoke : Invoke D W}.
Record t := mk { __program : AccountInfo.t D; epoch_state : AccountInfo.t D; config : AccountInfo.t D;
  ballot_box : AccountInfo.t D; ncn : AccountInfo.t D; account_payer : AccountInfo.t D;
  system_program : AccountInfo.t D; __args : ReallocBallotBoxInstructionArgs.t }.
Definition new (program : AccountInfo.t D) (accounts : ReallocBallotBoxCpiAccounts.t D)
    (args : ReallocBallotBoxInstructionArgs.t) : t :=
  mk program (ReallocBallotBoxCpiAccounts.epoch_state accounts)
    (ReallocBallotBoxCpiAccounts.config accounts) (ReallocBallotBoxCpiAccounts.ballot_box accounts)
    (ReallocBallotBoxCpiAccounts.ncn accounts) (ReallocBallotBoxCpiAccounts.account_payer accounts)
    (ReallocBallotBoxCpiAccounts.system_program accounts) args.
Definition invoke_signed_with_remaining_accounts (signers_seeds : list (list (list u8)))
    (remaining_accounts : list (Remaining D)) (self : t) : M W ProgramError.t unit :=
  let accounts := [Client.new (AccountInfo.key (epoch_state self)) false;
    Client.new_readonly (AccountInfo.key (config self)) false;
    Client.new (AccountInfo.key (ballot_box self)) false;
    Client.new_readonly (AccountInfo.key (ncn self)) false;
    Client.new (AccountInfo.key (account_payer self)) false;
    Client.new_readonly (AccountInfo.key (system_program self)) false]
    ++ map remaining_meta remaining_accounts in
  let instruction := Ncn NCN_PROGRAM_ID accounts 12 (NCNProgramInstruction.ReallocBallotBox
    (ReallocBallotBoxInstructionArgs.epoch (__args self))) in
  let account_infos := [__program self; epoch_state self; config self; ballot_box self; ncn self;
    account_payer self; system_program self]
    ++ map (fun remaining_account => remaining_account.1.1) remaining_accounts in
  invoke_instruction instruction account_infos signers_seeds.
Definition invoke (self : t) : M W ProgramError.t unit :=
  invoke_signed_with_remaining_accounts [] [] self.
Definition invoke_with_remaining_accounts (remaining_accounts : list (Remaining D)) (self : t)
    : M W ProgramError.t unit :=
  invoke_signed_with_remaining_accounts [] remaining_accounts self.
Definition invoke_signed (signers_seeds : list (list (list u8))) (self : t) : M W ProgramError.t unit :=
  invoke_signed_with_remaining_accounts signers_seeds [] self.
End cpi.
Arguments t : clear implicits.
End ReallocBallotBoxCpi.
Module ReallocBallotBoxCpiBuilder.
Section builder.
Context {D W : Type} {runtime_invoke : Invoke D W}.
Record t := mk { __program : AccountInfo.t D; epoch_state : option (AccountInfo.t D);
  config : option (AccountInfo.t D); ballot_box : option (AccountInfo.t D); ncn : option (AccountInfo.t D);
  account_payer : option (AccountInfo.t D); system_program : option (AccountInfo.t D); epoch : option u64;
  __remaining_accounts : list (Remaining D) }.
#[global] Instance eta_t : Eta t := fun b => mk (__program b) (epoch_state b) (config b) (ballot_box b)
    (ncn b) (account_payer b) (system_program b) (epoch b) (__remaining_accounts b).
Definition new (program : AccountInfo.t D) : t := mk program None None None None None None None [].
Definition set_epoch_state (x : AccountInfo.t D) (self : t) : t := self <| epoch_state := Some x |>.
Definition set_config (x : AccountInfo.t D) (self : t) : t := self <| config := Some x |>.
Definition set_ballot_box (x : AccountInfo.t D) (self : t) : t := self <| ballot_box := Some x |>.
Definition set_ncn (x : AccountInfo.t D) (self : t) : t := self <| ncn := Some x |>.
Definition set_account_payer (x : AccountInfo.t D) (self : t) : t := self <| account_payer := Some x |>.
Definition set_system_program (x : AccountInfo.t D) (self : t) : t := self <| system_program := Some x |>.
Definition set_epoch (x : u64) (self : t) : t := self <| epoch := Some x |>.
Definition add_remaining_account (account : AccountInfo.t D) (is_writable is_signer : bool) (self : t) : t :=
  self <| __remaining_accounts := __remaining_accounts self ++ [(account, is_writable, is_signer)] |>.
Definition add_remaining_accounts (accounts : list (Remaining D)) (self : t) : t :=
  self <| __remaining_accounts := __remaining_accounts self ++ accounts |>.
Definition invoke_signed (signers_seeds : list (list (list u8))) (self : t) : M W ProgramError.t unit :=
  let* epoch := lift (expect (epoch self)) in
  let* epoch_state := lift (expect (epoch_state self)) in
  let* config := lift (expect (config self)) in
  let* ballot_box := lift (expect (ballot_box self)) in
  let* ncn := lift (expect (ncn self)) in
  let* account_payer := lift (expect (account_payer self)) in
  let* system_program := lift (expect (system_program self)) in
  let args := ReallocBallotBoxInstructionArgs.mk epoch in
  let instruction := ReallocBallotBoxCpi.mk (__program self) epoch_state config ballot_box ncn account_payer
    system_program args in
  ReallocBallotBoxCpi.invoke_signed_with_remaining_accounts signers_seeds (__remaining_accounts self)
    instruction.
Definition invoke (self : t) : M W ProgramError.t unit := invoke_signed [] self.
Definition setters (c : ReallocBallotBoxCpi.t D) (remaining_accounts : list (Remaining D))
    : list (t -> t) :=
  [set_epoch_state (ReallocBallotBoxCpi.epoch_state c); set_config (ReallocBallotBoxCpi.config c);
    set_ballot_box (ReallocBallotBoxCpi.ballot_box c); set_ncn (ReallocBallotBoxCpi.ncn c);
    set_account_payer (ReallocBallotBoxCpi.account_payer c); set_system_program
    (ReallocBallotBoxCpi.system_program c); set_epoch
    (ReallocBallotBoxInstructionArgs.epoch (ReallocBallotBoxCpi.__args c));
    add_remaining_accounts remaining_accounts].
End builder.
Arguments t : clear implicits.
End ReallocBallotBoxCpiBuilder.

Module CastVoteInstructionArgs.
Record t := mk { weather_status : u8; epoch : u64 }.
End CastVoteInstructionArgs.
Module CastVoteCpiAccounts.
Section accounts.
Context {D : Type}.
Record t := mk { epoch_state : AccountInfo.t D; config : AccountInfo.t D; ballot_box : AccountInfo.t D;
  ncn : AccountInfo.t D; epoch_snapshot : AccountInfo.t D; operator_snapshot : AccountInfo.t D;
  operator : AccountInfo.t D; operator_voter : AccountInfo.t D; consensus_result : AccountInfo.t D }.
End accounts.
Arguments t : clear implicits.
End CastVoteCpiAccounts.
Module CastVoteCpi.
Section cpi.
Context {D W : Type} {runtime_invoke : Invoke D W}.
Record t := mk { __program : AccountInfo.t D; epoch_state : AccountInfo.t D; config : AccountInfo.t D;
  ballot_box : AccountInfo.t D; ncn : AccountInfo.t D; epoch_snapshot : AccountInfo.t D;
  operator_snapshot : AccountInfo.t D; operator : AccountInfo.t D; operator_voter : AccountInfo.t D;
  consensus_result : AccountInfo.t D; __args : CastVoteInstructionArgs.t }.
Definition new (program : AccountInfo.t D) (accounts : CastVoteCpiAccounts.t D)
    (args : CastVoteInstructionArgs.t) : t :=
  mk program (CastVoteCpiAccounts.epoch_state accounts) (CastVoteCpiAccounts.config accounts)
    (CastVoteCpiAccounts.ballot_box accounts) (CastVoteCpiAccounts.ncn accounts)
    (CastVoteCpiAccounts.epoch_snapshot accounts) (CastVoteCpiAccounts.operator_snapshot accounts)
    (CastVoteCpiAccounts.operator accounts) (CastVoteCpiAccounts.operator_voter accounts)
    (CastVoteCpiAccounts.consensus_result accounts) args.
Definition invoke_signed_with_remaining_accounts (signers_seeds : list (list (list u8)))
    (remaining_accounts : list (Remaining D)) (self : t) : M W ProgramError.t unit :=
  let accounts := [Client.new (AccountInfo.key (epoch_state self)) false;
    Client.new_readonly (AccountInfo.key (config self)) false;
    Client.new (AccountInfo.key (ballot_box self)) false;
    Client.new_readonly (AccountInfo.key (ncn self)) false;
    Client.new_readonly (AccountInfo.key (epoch_snapshot self)) false;
    Client.new_readonly (AccountInfo.key (operator_snapshot self)) false;
    Client.new_readonly (AccountInfo.key (operator self)) false;
    Client.new_readonly (AccountInfo.key (operator_voter self)) true;
    Client.new (AccountInfo.key (consensus_result self)) false]
    ++ map remaining_meta remaining_accounts in
  let instruction := Ncn NCN_PROGRAM_ID accounts 13 (NCNProgramInstruction.CastVote
    (CastVoteInstructionArgs.weather_status (__args self)) (CastVoteInstructionArgs.epoch (__args self))) in
  let account_infos := [__program self; epoch_state self; config self; ballot_box self; ncn self;
    epoch_snapshot self; operator_snapshot self; operator self; operator_voter self; consensus_result self]
    ++ map (fun remaining_account => remaining_account.1.1) remaining_accounts in
  invoke_instruction instruction account_infos signers_seeds.
Definition invoke (self : t) : M W ProgramError.t unit :=
  invoke_signed_with_remaining_accounts [] [] self.
Definition invoke_with_remaining_accounts (remaining_accounts : list (Remaining D)) (self : t)
    : M W ProgramError.t unit :=
  invoke_signed_with_remaining_accounts [] remaining_accounts self.
Definition invoke_signed (signers_seeds : list (list (list u8))) (self : t) : M W ProgramError.t unit :=
  invoke_signed_with_remaining_accounts signers_seeds [] self.
End cpi.
Arguments t : clear implicits.
End CastVoteCpi.
Module CastVoteCpiBuilder.
Section builder.
Context {D W : Type} {runtime_invoke : Invoke D W}.
Record t := mk { __program : AccountInfo.t D; epoch_state : option (AccountInfo.t D);
  config : option (AccountInfo.t D); ballot_box : option (AccountInfo.t D); ncn : option (AccountInfo.t D);
  epoch_snapshot : option (AccountInfo.t D); operator_snapshot : option (AccountInfo.t D);
  operator : option (AccountInfo.t D); operator_voter : option (AccountInfo.t D);
  consensus_result : option (AccountInfo.t D); weather_status : option u8; epoch : option u64;
  __remaining_accounts : list (Remaining D) }.
#[global] Instance eta_t : Eta t := fun b => mk (__program b) (epoch_state b) (config b) (ballot_box b)
    (ncn b) (epoch_snapshot b) (operator_snapshot b) (operator b) (operator_voter b) (consensus_result b)
    (weather_status b) (epoch b) (__remaining_accounts b).
Definition new (program : AccountInfo.t D) : t := mk program None None None None None None None None None
    None None [].
Definition set_epoch_state (x : AccountInfo.t D) (self : t) : t := self <| epoch_state := Some x |>.
Definition set_config (x : AccountInfo.t D) (self : t) : t := self <| config := Some x |>.
Definition set_ballot_box (x : AccountInfo.t D) (self : t) : t := self <| ballot_box := Some x |>.
Definition set_ncn (x : AccountInfo.t D) (self : t) : t := self <| ncn := Some x |>.
Definition set_epoch_snapshot (x : AccountInfo.t D) (self : t) : t := self <| epoch_snapshot := Some x |>.
Definition set_operator_snapshot (x : AccountInfo.t D) (self : t) : t :=
  self <| operator_snapshot := Some x |>.
Definition set_operator (x : AccountInfo.t D) (self : t) : t := self <| operator := Some x |>.
Definition set_operator_voter (x : AccountInfo.t D) (self : t) : t := self <| operator_voter := Some x |>.
Definition set_consensus_result (x : AccountInfo.t D) (self : t) : t :=
  self <| consensus_result := Some x |>.
Definition set_weather_status (x : u8) (self : t) : t := self <| weather_status := Some x |>.
Definition set_epoch (x : u64) (self : t) : t := self <| epoch := Some x |>.
Definition add_remaining_account (account : AccountInfo.t D) (is_writable is_signer : bool) (self : t) : t :=
  self <| __remaining_accounts := __remaining_accounts self ++ [(account, is_writable, is_signer)] |>.
Definition add_remaining_accounts (accounts : list (Remaining D)) (self : t) : t :=
  self <| __remaining_accounts := __remaining_accounts self ++ accounts |>.
Definition invoke_signed (signers_seeds : list (list (list u8))) (self : t) : M W ProgramError.t unit :=
  let* weather_status := lift (expect (weather_status self)) in
  let* epoch := lift (expect (epoch self)) in
  let* epoch_state := lift (expect (epoch_state self)) in
  let* config := lift (expect (config self)) in
  let* ballot_box := lift (expect (ballot_box self)) in
  let* ncn := lift (expect (ncn self)) in
  let* epoch_snapshot := lift (expect (epoch_snapshot self)) in
  let* operator_snapshot := lift (expect (operator_snapshot self)) in
  let* operator := lift (expect (operator self)) in
  let* operator_voter := lift (expect (operator_voter self)) in
  let* consensus_result := lift (expect (consensus_result self)) in
  let args := CastVoteInstructionArgs.mk weather_status epoch in
  let instruction := CastVoteCpi.mk (__program self) epoch_state config ballot_box ncn epoch_snapshot
    operator_snapshot operator operator_voter consensus_result args in
  CastVoteCpi.invoke_signed_with_remaining_accounts signers_seeds (__remaining_accounts self) instruction.
Definition invoke (self : t) : M W ProgramError.t unit := invoke_signed [] self.
Definition setters (c : CastVoteCpi.t D) (remaining_accounts : list (Remaining D)) : list (t -> t) :=
  [set_epoch_state (CastVoteCpi.epoch_state c); set_config (CastVoteCpi.config c); set_ballot_box
    (CastVoteCpi.ballot_box c); set_ncn (CastVoteCpi.ncn c); set_epoch_snapshot
    (CastVoteCpi.epoch_snapshot c); set_operator_snapshot (CastVoteCpi.operator_snapshot c); set_operator
    (CastVoteCpi.operator c); set_operator_voter (CastVoteCpi.operator_voter c); set_consensus_result
    (CastVoteCpi.consensus_result c); set_weather_status
    (CastVoteInstructionArgs.weather_status (CastVoteCpi.__args c)); set_epoch
    (CastVoteInstructionArgs.epoch (CastVoteCpi.__args c)); add_remaining_accounts remaining_accounts].
End builder.
Arguments t : clear implicits.
End CastVoteCpiBuilder.

Module InitializeNCNRewardRouterInstructionArgs.
Record t := mk { epoch : u64 }.
End InitializeNCNRewardRouterInstructionArgs.
Module InitializeNCNRewardRouterCpiAccounts.
Section accounts.
Context {D : Type}.
Record t := mk { epoch_marker : AccountInfo.t D; epoch_state : AccountInfo.t D; ncn : AccountInfo.t D;
  ncn_reward_router : AccountInfo.t D; ncn_reward_receiver : AccountInfo.t D;
  account_payer : AccountInfo.t D; system_program : AccountInfo.t D }.
End accounts.
Arguments t : clear implicits.
End InitializeNCNRewardRouterCpiAccounts.
Module InitializeNCNRewardRouterCpi.
Section cpi.
Context {D W : Type} {runtime_invoke : Invoke D W}.
Record t := mk { __program : AccountInfo.t D; epoch_marker : AccountInfo.t D; epoch_state : AccountInfo.t D;
  ncn : AccountInfo.t D; ncn_reward_router : AccountInfo.t D; ncn_reward_receiver : AccountInfo.t D;
  account_payer : AccountInfo.t D; system_program : AccountInfo.t D;
  __args : InitializeNCNRewardRouterInstructionArgs.t }.
Definition new (program : AccountInfo.t D) (accounts : InitializeNCNRewardRouterCpiAccounts.t D)
    (args : InitializeNCNRewardRouterInstructionArgs.t) : t :=
  mk program (InitializeNCNRewardRouterCpiAccounts.epoch_marker accounts)
    (InitializeNCNRewardRouterCpiAccounts.epoch_state accounts)
    (InitializeNCNRewardRouterCpiAccounts.ncn accounts)
    (InitializeNCNRewardRouterCpiAccounts.ncn_reward_router accounts)
    (InitializeNCNRewardRouterCpiAccounts.ncn_reward_receiver accounts)
    (InitializeNCNRewardRouterCpiAccounts.account_payer accounts)
    (InitializeNCNRewardRouterCpiAccounts.system_program accounts) args.
Definition invoke_signed_with_remaining_accounts (signers_seeds : list (list (list u8)))
    (remaining_accounts : list (Remaining D)) (self : t) : M W ProgramError.t unit :=
  let accounts := [Client.new_readonly (AccountInfo.key (epoch_marker self)) false;
    Client.new_readonly (AccountInfo.key (epoch_state self)) false;
    Client.new_readonly (AccountInfo.key (ncn self)) false;
    Client.new (AccountInfo.key (ncn_reward_router self)) false;
    Client.new (AccountInfo.key (ncn_reward_receiver self)) false;
    Client.new (AccountInfo.key (account_payer self)) false;
    Client.new_readonly (AccountInfo.key (system_program self)) false]
    ++ map remaining_meta remaining_accounts in
  let instruction := Ncn NCN_PROGRAM_ID accounts 14 (NCNProgramInstruction.InitializeNCNRewardRouter
    (InitializeNCNRewardRouterInstructionArgs.epoch (__args self))) in
  let account_infos := [__program self; epoch_marker self; epoch_state self; ncn self;
    ncn_reward_router self; ncn_reward_receiver self; account_payer self; system_program self]
    ++ map (fun remaining_account => remaining_account.1.1) remaining_accounts in
  invoke_instruction instruction account_infos signers_seeds.
Definition invoke (self : t) : M W ProgramError.t unit :=
  invoke_signed_with_remaining_accounts [] [] self.
Definition invoke_with_remaining_accounts (remaining_accounts : list (Remaining D)) (self : t)
    : M W ProgramError.t unit :=
  invoke_signed_with_remaining_accounts [] remaining_accounts self.
Definition invoke_signed (signers_seeds : list (list (list u8))) (self : t) : M W ProgramError.t unit :=
  invoke_signed_with_remaining_accounts signers_seeds [] self.
End cpi.
Arguments t : clear implicits.
End InitializeNCNRewardRouterCpi.
Module InitializeNCNRewardRouterCpiBuilder.
Section builder.
Context {D W : Type} {runtime_invoke : Invoke D W}.
Record t := mk { __program : AccountInfo.t D; epoch_marker : option (AccountInfo.t D);
  epoch_state : option (AccountInfo.t D); ncn : option (AccountInfo.t D);
  ncn_reward_router : option (AccountInfo.t D); ncn_reward_receiver : option (AccountInfo.t D);
  account_payer : option (AccountInfo.t D); system_program : option (AccountInfo.t D); epoch : option u64;
  __remaining_accounts : list (Remaining D) }.
#[global] Instance eta_t : Eta t := fun b => mk (__program b) (epoch_marker b) (epoch_state b) (ncn b)
    (ncn_reward_router b) (ncn_reward_receiver b) (account_payer b) (system_program b) (epoch b)
    (__remaining_accounts b).
Definition new (program : AccountInfo.t D) : t := mk program None None None None None None None None [].
Definition set_epoch_marker (x : AccountInfo.t D) (self : t) : t := self <| epoch_marker := Some x |>.
Definition set_epoch_state (x : AccountInfo.t D) (self : t) : t := self <| epoch_state := Some x |>.
Definition set_ncn (x : AccountInfo.t D) (self : t) : t := self <| ncn := Some x |>.
Definition set_ncn_reward_router (x : AccountInfo.t D) (self : t) : t :=
  self <| ncn_reward_router := Some x |>.
Definition set_ncn_reward_receiver (x : AccountInfo.t D) (self : t) : t :=
  self <| ncn_reward_receiver := Some x |>.
Definition set_account_payer (x : AccountInfo.t D) (self : t) : t := self <| account_payer := Some x |>.
Definition set_system_program (x : AccountInfo.t D) (self : t) : t := self <| system_program := Some x |>.
Definition set_epoch (x : u64) (self : t) : t := self <| epoch := Some x |>.
Definition add_remaining_account (account : AccountInfo.t D) (is_writable is_signer : bool) (self : t) : t :=
  self <| __remaining_accounts := __remaining_accounts self ++ [(account, is_writable, is_signer)] |>.
Definition add_remaining_accounts (accounts : list (Remaining D)) (self : t) : t :=
  self <| __remaining_accounts := __remaining_accounts self ++ accounts |>.
Definition invoke_signed (signers_seeds : list (list (list u8))) (self : t) : M W ProgramError.t unit :=
  let* epoch := lift (expect (epoch self)) in
  let* epoch_marker := lift (expect (epoch_marker self)) in
  let* epoch_state := lift (expect (epoch_state self)) in
  let* ncn := lift (expect (ncn self)) in
  let* ncn_reward_router := lift (expect (ncn_reward_router self)) in
  let* ncn_reward_receiver := lift (expect (ncn_reward_receiver self)) in
  let* account_payer := lift (expect (account_payer self)) in
  let* system_program := lift (expect (system_program self)) in
  let args := InitializeNCNRewardRouterInstructionArgs.mk epoch in
  let instruction := InitializeNCNRewardRouterCpi.mk (__program self) epoch_marker epoch_state ncn
    ncn_reward_router ncn_reward_receiver account_payer system_program args in
  InitializeNCNRewardRouterCpi.invoke_signed_with_remaining_accounts signers_seeds
    (__remaining_accounts self) instruction.
Definition invoke (self : t) : M W ProgramError.t unit := invoke_signed [] self.
Definition setters (c : InitializeNCNRewardRouterCpi.t D) (remaining_accounts : list (Remaining D))
    : list (t -> t) :=
  [set_epoch_marker (InitializeNCNRewardRouterCpi.epoch_marker c); set_epoch_state
    (InitializeNCNRewardRouterCpi.epoch_state c); set_ncn (InitializeNCNRewardRouterCpi.ncn c);
    set_ncn_reward_router (InitializeNCNRewardRouterCpi.ncn_reward_router c); set_ncn_reward_receiver
    (InitializeNCNRewardRouterCpi.ncn_reward_receiver c); set_account_payer
    (InitializeNCNRewardRouterCpi.account_payer c); set_system_program
    (InitializeNCNRewardRouterCpi.system_program c); set_epoch
    (InitializeNCNRewardRouterInstructionArgs.epoch (InitializeNCNRewardRouterCpi.__args c));
    add_remaining_accounts remaining_accounts].
End builder.
Arguments t : clear implicits.
End InitializeNCNRewardRouterCpiBuilder.

Module ReallocNCNRewardRouterInstructionArgs.
Record t := mk { epoch : u64 }.
End ReallocNCNRewardRouterInstructionArgs.
Module ReallocNCNRewardRouterCpiAccounts.
Section accounts.
Context {D : Type}.
Record t := mk { epoch_state : AccountInfo.t D; config : AccountInfo.t D;
  ncn_reward_router : AccountInfo.t D; ncn : AccountInfo.t D; account_payer : AccountInfo.t D;
  system_program : AccountInfo.t D }.
End accounts.
Arguments t : clear implicits.
End ReallocNCNRewardRouterCpiAccounts.
Module ReallocNCNRewardRouterCpi.
Section cpi.
Context {D W : Type} {runtime_invoke : Invoke D W}.
Record t := mk { __program : AccountInfo.t D; epoch_state : AccountInfo.t D; config : AccountInfo.t D;
  ncn_reward_router : AccountInfo.t D; ncn : AccountInfo.t D; account_payer : AccountInfo.t D;
  system_program : AccountInfo.t D; __args : ReallocNCNRewardRouterInstructionArgs.t }.
Definition new (program : AccountInfo.t D) (accounts : ReallocNCNRewardRouterCpiAccounts.t D)
    (args : ReallocNCNRewardRouterInstructionArgs.t) : t :=
  mk program (ReallocNCNRewardRouterCpiAccounts.epoch_state accounts)
    (ReallocNCNRewardRouterCpiAccounts.config accounts)
    (ReallocNCNRewardRouterCpiAccounts.ncn_reward_router accounts)
    (ReallocNCNRewardRouterCpiAccounts.ncn accounts)
    (ReallocNCNRewardRouterCpiAccounts.account_payer accounts)
    (ReallocNCNRewardRouterCpiAccounts.system_program accounts) args.
Definition invoke_signed_with_remaining_accounts (signers_seeds : list (list (list u8)))
    (remaining_accounts : list (Remaining D)) (self : t) : M W ProgramError.t unit :=
  let accounts := [Client.new (AccountInfo.key (epoch_state self)) false;
    Client.new_readonly (AccountInfo.key (config self)) false;
    Client.new (AccountInfo.key (ncn_reward_router self)) false;
    Client.new_readonly (AccountInfo.key (ncn self)) false;
    Client.new (AccountInfo.key (account_payer self)) false;
    Client.new_readonly (AccountInfo.key (system_program self)) false]
    ++ map remaining_meta remaining_accounts in
  let instruction := Ncn NCN_PROGRAM_ID accounts 15 (NCNProgramInstruction.ReallocNCNRewardRouter
    (ReallocNCNRewardRouterInstructionArgs.epoch (__args self))) in
  let account_infos := [__program self; epoch_state self; config self; ncn_reward_router self; ncn self;
    account_payer self; system_program self]
    ++ map (fun remaining_account => remaining_account.1.1) remaining_accounts in
  invoke_instruction instruction account_infos signers_seeds.
Definition invoke (self : t) : M W ProgramError.t unit :=
  invoke_signed_with_remaining_accounts [] [] self.
Definition invoke_with_remaining_accounts (remaining_accounts : list (Remaining D)) (self : t)
    : M W ProgramError.t unit :=
  invoke_signed_with_remaining_accounts [] remaining_accounts self.
Definition invoke_signed (signers_seeds : list (list (list u8))) (self : t) : M W ProgramError.t unit :=
  invoke_signed_with_remaining_accounts signers_seeds [] self.
End cpi.
Arguments t : clear implicits.
End ReallocNCNRewardRouterCpi.
Module ReallocNCNRewardRouterCpiBuilder.
Section builder.
Context {D W : Type} {runtime_invoke : Invoke D W}.
Record t := mk { __program : AccountInfo.t D; epoch_state : option (AccountInfo.t D);
  config : option (AccountInfo.t D); ncn_reward_router : option (AccountInfo.t D);
  ncn : option (AccountInfo.t D); account_payer : option (AccountInfo.t D);
  system_program : option (AccountInfo.t D); epoch : option u64; __remaining_accounts : list (Remaining D)
  }.
#[global] Instance eta_t : Eta t := fun b => mk (__program b) (epoch_state b) (config b)
    (ncn_reward_router b) (ncn b) (account_payer b) (system_program b) (epoch b) (__remaining_accounts b).
Definition new (program : AccountInfo.t D) : t := mk program None None None None None None None [].
Definition set_epoch_state (x : AccountInfo.t D) (self : t) : t := self <| epoch_state := Some x |>.
Definition set_config (x : AccountInfo.t D) (self : t) : t := self <| config := Some x |>.
Definition set_ncn_reward_router (x : AccountInfo.t D) (self : t) : t :=
  self <| ncn_reward_router := Some x |>.
Definition set_ncn (x : AccountInfo.t D) (self : t) : t := self <| ncn := Some x |>.
Definition set_account_payer (x : AccountInfo.t D) (self : t) : t := self <| account_payer := Some x |>.
Definition set_system_program (x : AccountInfo.t D) (self : t) : t := self <| system_program := Some x |>.
Definition set_epoch (x : u64) (self : t) : t := self <| epoch := Some x |>.
Definition add_remaining_account (account : AccountInfo.t D) (is_writable is_signer : bool) (self : t) : t :=
  self <| __remaining_accounts := __remaining_accounts self ++ [(account, is_writable, is_signer)] |>.
Definition add_remaining_accounts (accounts : list (Remaining D)) (self : t) : t :=
  self <| __remaining_accounts := __remaining_accounts self ++ accounts |>.
Definition invoke_signed (signers_seeds : list (list (list u8))) (self : t) : M W ProgramError.t unit :=
  let* epoch := lift (expect (epoch self)) in
  let* epoch_state := lift (expect (epoch_state self)) in
  let* config := lift (expect (config self)) in
  let* ncn_reward_router := lift (expect (ncn_reward_router self)) in
  let* ncn := lift (expect (ncn self)) in
  let* account_payer := lift (expect (account_payer self)) in
  let* system_program := lift (expect (system_program self)) in
  let args := ReallocNCNRewardRouterInstructionArgs.mk epoch in
  let instruction := ReallocNCNRewardRouterCpi.mk (__program self) epoch_state config ncn_reward_router ncn
    account_payer system_program args in
  ReallocNCNRewardRouterCpi.invoke_signed_with_remaining_accounts signers_seeds (__remaining_accounts self)
    instruction.
Definition invoke (self : t) : M W ProgramError.t unit := invoke_signed [] self.
Definition setters (c : ReallocNCNRewardRouterCpi.t D) (remaining_accounts : list (Remaining D))
    : list (t -> t) :=
  [set_epoch_state (ReallocNCNRewardRouterCpi.epoch_state c); set_config
    (ReallocNCNRewardRouterCpi.config c); set_ncn_reward_router
    (ReallocNCNRewardRouterCpi.ncn_reward_router c); set_ncn (ReallocNCNRewardRouterCpi.ncn c);
    set_account_payer (ReallocNCNRewardRouterCpi.account_payer c); set_system_program
    (ReallocNCNRewardRouterCpi.system_program c); set_epoch
    (ReallocNCNRewardRouterInstructionArgs.epoch (ReallocNCNRewardRouterCpi.__args c));
    add_remaining_accounts remaining_accounts].
End builder.
Arguments t : clear implicits.
End ReallocNCNRewardRouterCpiBuilder.

Module RouteNCNRewardsInstructionArgs.
Record t := mk { max_iterations : u16; epoch : u64 }.
End RouteNCNRewardsInstructionArgs.
Module RouteNCNRewardsCpiAccounts.
Section accounts.
Context {D : Type}.
Record t := mk { epoch_state : AccountInfo.t D; config : AccountInfo.t D; ncn : AccountInfo.t D;
  epoch_snapshot : AccountInfo.t D; ballot_box : AccountInfo.t D; ncn_reward_router : AccountInfo.t D;
  ncn_reward_receiver : AccountInfo.t D }.
End accounts.
Arguments t : clear implicits.
End RouteNCNRewardsCpiAccounts.
Module RouteNCNRewardsCpi.
Section cpi.
Context {D W : Type} {runtime_invoke : Invoke D W}.
Record t := mk { __program : AccountInfo.t D; epoch_state : AccountInfo.t D; config : AccountInfo.t D;
  ncn : AccountInfo.t D; epoch_snapshot : AccountInfo.t D; ballot_box : AccountInfo.t D;
  ncn_reward_router : AccountInfo.t D; ncn_reward_receiver : AccountInfo.t D;
  __args : RouteNCNRewardsInstructionArgs.t }.
Definition new (program : AccountInfo.t D) (accounts : RouteNCNRewardsCpiAccounts.t D)
    (args : RouteNCNRewardsInstructionArgs.t) : t :=
  mk program (RouteNCNRewardsCpiAccounts.epoch_state accounts) (RouteNCNRewardsCpiAccounts.config accounts)
    (RouteNCNRewardsCpiAccounts.ncn accounts) (RouteNCNRewardsCpiAccounts.epoch_snapshot accounts)
    (RouteNCNRewardsCpiAccounts.ballot_box accounts) (RouteNCNRewardsCpiAccounts.ncn_reward_router accounts)
    (RouteNCNRewardsCpiAccounts.ncn_reward_receiver accounts) args.
Definition invoke_signed_with_remaining_accounts (signers_seeds : list (list (list u8)))
    (remaining_accounts : list (Remaining D)) (self : t) : M W ProgramError.t unit :=
  let accounts := [Client.new (AccountInfo.key (epoch_state self)) false;
    Client.new_readonly (AccountInfo.key (config self)) false;
    Client.new_readonly (AccountInfo.key (ncn self)) false;
    Client.new_readonly (AccountInfo.key (epoch_snapshot self)) false;
    Client.new_readonly (AccountInfo.key (ballot_box self)) false;
    Client.new (AccountInfo.key (ncn_reward_router self)) false;
    Client.new (AccountInfo.key (ncn_reward_receiver self)) false]
    ++ map remaining_meta remaining_accounts in
  let instruction := Ncn NCN_PROGRAM_ID accounts 16 (NCNProgramInstruction.RouteNCNRewards
    (RouteNCNRewardsInstructionArgs.max_iterations (__args self))
    (RouteNCNRewardsInstructionArgs.epoch (__args self))) in
  let account_infos := [__program self; epoch_state self; config self; ncn self; epoch_snapshot self;
    ballot_box self; ncn_reward_router self; ncn_reward_receiver self]
    ++ map (fun remaining_account => remaining_account.1.1) remaining_accounts in
  invoke_instruction instruction account_infos signers_seeds.
Definition invoke (self : t) : M W ProgramError.t unit :=
  invoke_signed_with_remaining_accounts [] [] self.
Definition invoke_with_remaining_accounts (remaining_accounts : list (Remaining D)) (self : t)
    : M W ProgramError.t unit :=
  invoke_signed_with_remaining_accounts [] remaining_accounts self.
Definition invoke_signed (signers_seeds : list (list (list u8))) (self : t) : M W ProgramError.t unit :=
  invoke_signed_with_remaining_accounts signers_seeds [] self.
End cpi.
Arguments t : clear implicits.
End RouteNCNRewardsCpi.
Module RouteNCNRewardsCpiBuilder.
Section builder.
Context {D W : Type} {runtime_invoke : Invoke D W}.
Record t := mk { __program : AccountInfo.t D; epoch_state : option (AccountInfo.t D);
  config : option (AccountInfo.t D); ncn : option (AccountInfo.t D);
  epoch_snapshot : option (AccountInfo.t D); ballot_box : option (AccountInfo.t D);
  ncn_reward_router : option (AccountInfo.t D); ncn_reward_receiver : option (AccountInfo.t D);
  max_iterations : option u16; epoch : option u64; __remaining_accounts : list (Remaining D) }.
#[global] Instance eta_t : Eta t := fun b => mk (__program b) (epoch_state b) (config b) (ncn b)
    (epoch_snapshot b) (ballot_box b) (ncn_reward_router b) (ncn_reward_receiver b) (max_iterations b)
    (epoch b) (__remaining_accounts b).
Definition new (program : AccountInfo.t D) : t := mk program None None None None None None None None None
    [].
Definition set_epoch_state (x : AccountInfo.t D) (self : t) : t := self <| epoch_state := Some x |>.
Definition set_config (x : AccountInfo.t D) (self : t) : t := self <| config := Some x |>.
Definition set_ncn (x : AccountInfo.t D) (self : t) : t := self <| ncn := Some x |>.
Definition set_epoch_snapshot (x : AccountInfo.t D) (self : t) : t := self <| epoch_snapshot := Some x |>.
Definition set_ballot_box (x : AccountInfo.t D) (self : t) : t := self <| ballot_box := Some x |>.
Definition set_ncn_reward_router (x : AccountInfo.t D) (self : t) : t :=
  self <| ncn_reward_router := Some x |>.
Definition set_ncn_reward_receiver (x : AccountInfo.t D) (self : t) : t :=
  self <| ncn_reward_receiver := Some x |>.
Definition set_max_iterations (x : u16) (self : t) : t := self <| max_iterations := Some x |>.
Definition set_epoch (x : u64) (self : t) : t := self <| epoch := Some x |>.
Definition add_remaining_account (account : AccountInfo.t D) (is_writable is_signer : bool) (self : t) : t :=
  self <| __remaining_accounts := __remaining_accounts self ++ [(account, is_writable, is_signer)] |>.
Definition add_remaining_accounts (accounts : list (Remaining D)) (self : t) : t :=
  self <| __remaining_accounts := __remaining_accounts self ++ accounts |>.
Definition invoke_signed (signers_seeds : list (list (list u8))) (self : t) : M W ProgramError.t unit :=
  let* max_iterations := lift (expect (max_iterations self)) in
  let* epoch := lift (expect (epoch self)) in
  let* epoch_state := lift (expect (epoch_state self)) in
  let* config := lift (expect (config self)) in
  let* ncn := lift (expect (ncn self)) in
  let* epoch_snapshot := lift (expect (epoch_snapshot self)) in
  let* ballot_box := lift (expect (ballot_box self)) in
  let* ncn_reward_router := lift (expect (ncn_reward_router self)) in
  let* ncn_reward_receiver := lift (expect (ncn_reward_receiver self)) in
  let args := RouteNCNRewardsInstructionArgs.mk max_iterations epoch in
  let instruction := RouteNCNRewardsCpi.mk (__program self) epoch_state config ncn epoch_snapshot ballot_box
    ncn_reward_router ncn_reward_receiver args in
  RouteNCNRewardsCpi.invoke_signed_with_remaining_accounts signers_seeds (__remaining_accounts self)
    instruction.
Definition invoke (self : t) : M W ProgramError.t unit := invoke_signed [] self.
Definition setters (c : RouteNCNRewardsCpi.t D) (remaining_accounts : list (Remaining D)) : list (t -> t) :=
  [set_epoch_state (RouteNCNRewardsCpi.epoch_state c); set_config (RouteNCNRewardsCpi.config c); set_ncn
    (RouteNCNRewardsCpi.ncn c); set_epoch_snapshot (RouteNCNRewardsCpi.epoch_snapshot c); set_ballot_box
    (RouteNCNRewardsCpi.ballot_box c); set_ncn_reward_router (RouteNCNRewardsCpi.ncn_reward_router c);
    set_ncn_reward_receiver (RouteNCNRewardsCpi.ncn_reward_receiver c); set_max_iterations
    (RouteNCNRewardsInstructionArgs.max_iterations (RouteNCNRewardsCpi.__args c)); set_epoch
    (RouteNCNRewardsInstructionArgs.epoch (RouteNCNRewardsCpi.__args c));
    add_remaining_accounts remaining_accounts].
End builder.
Arguments t : clear implicits.
End RouteNCNRewardsCpiBuilder.

Module DistributeProtocolRewardsInstructionArgs.
Record t := mk { epoch : u64 }.
End DistributeProtocolRewardsInstructionArgs.
Module DistributeProtocolRewardsCpiAccounts.
Section accounts.
Context {D : Type}.
Record t := mk { epoch_state : AccountInfo.t D; config : AccountInfo.t D; ncn : AccountInfo.t D;
  ncn_reward_router : AccountInfo.t D; ncn_reward_receiver : AccountInfo.t D;
  protocol_fee_wallet : AccountInfo.t D; system_program : AccountInfo.t D }.
End accounts.
Arguments t : clear implicits.
End DistributeProtocolRewardsCpiAccounts.
Module DistributeProtocolRewardsCpi.
Section cpi.
Context {D W : Type} {runtime_invoke : Invoke D W}.
Record t := mk { __program : AccountInfo.t D; epoch_state : AccountInfo.t D; config : AccountInfo.t D;
  ncn : AccountInfo.t D; ncn_reward_router : AccountInfo.t D; ncn_reward_receiver : AccountInfo.t D;
  protocol_fee_wallet : AccountInfo.t D; system_program : AccountInfo.t D;
  __args : DistributeProtocolRewardsInstructionArgs.t }.
Definition new (program : AccountInfo.t D) (accounts : DistributeProtocolRewardsCpiAccounts.t D)
    (args : DistributeProtocolRewardsInstructionArgs.t) : t :=
  mk program (DistributeProtocolRewardsCpiAccounts.epoch_state accounts)
    (DistributeProtocolRewardsCpiAccounts.config accounts)
    (DistributeProtocolRewardsCpiAccounts.ncn accounts)
    (DistributeProtocolRewardsCpiAccounts.ncn_reward_router accounts)
    (DistributeProtocolRewardsCpiAccounts.ncn_reward_receiver accounts)
    (DistributeProtocolRewardsCpiAccounts.protocol_fee_wallet accounts)
    (DistributeProtocolRewardsCpiAccounts.system_program accounts) args.
Definition invoke_signed_with_remaining_accounts (signers_seeds : list (list (list u8)))
    (remaining_accounts : list (Remaining D)) (self : t) : M W ProgramError.t unit :=
  let accounts := [Client.new (AccountInfo.key (epoch_state self)) false;
    Client.new_readonly (AccountInfo.key (config self)) false;
    Client.new_readonly (AccountInfo.key (ncn self)) false;
    Client.new (AccountInfo.key (ncn_reward_router self)) false;
    Client.new (AccountInfo.key (ncn_reward_receiver self)) false;
    Client.new (AccountInfo.key (protocol_fee_wallet self)) false;
    Client.new_readonly (AccountInfo.key (system_program self)) false]
    ++ map remaining_meta remaining_accounts in
  let instruction := Ncn NCN_PROGRAM_ID accounts 17 (NCNProgramInstruction.DistributeProtocolRewards
    (DistributeProtocolRewardsInstructionArgs.epoch (__args self))) in
  let account_infos := [__program self; epoch_state self; config self; ncn self; ncn_reward_router self;
    ncn_reward_receiver self; protocol_fee_wallet self; system_program self]
    ++ map (fun remaining_account => remaining_account.1.1) remaining_accounts in
  invoke_instruction instruction account_infos signers_seeds.
Definition invoke (self : t) : M W ProgramError.t unit :=
  invoke_signed_with_remaining_accounts [] [] self.
Definition invoke_with_remaining_accounts (remaining_accounts : list (Remaining D)) (self : t)
    : M W ProgramError.t unit :=
  invoke_signed_with_remaining_accounts [] remaining_accounts self.
Definition invoke_signed (signers_seeds : list (list (list u8))) (self : t) : M W ProgramError.t unit :=
  invoke_signed_with_remaining_accounts signers_seeds [] self.
End cpi.
Arguments t : clear implicits.
End DistributeProtocolRewardsCpi.
Module DistributeProtocolRewardsCpiBuilder.
Section builder.
Context {D W : Type} {runtime_invoke : Invoke D W}.
Record t := mk { __program : AccountInfo.t D; epoch_state : option (AccountInfo.t D);
  config : option (AccountInfo.t D); ncn : option (AccountInfo.t D);
  ncn_reward_router : option (AccountInfo.t D); ncn_reward_receiver : option (AccountInfo.t D);
  protocol_fee_wallet : option (AccountInfo.t D); system_program : option (AccountInfo.t D);
  epoch : option u64; __remaining_accounts : list (Remaining D) }.
#[global] Instance eta_t : Eta t := fun b => mk (__program b) (epoch_state b) (config b) (ncn b)
    (ncn_reward_router b) (ncn_reward_receiver b) (protocol_fee_wallet b) (system_program b) (epoch b)
    (__remaining_accounts b).
Definition new (program : AccountInfo.t D) : t := mk program None None None None None None None None [].
Definition set_epoch_state (x : AccountInfo.t D) (self : t) : t := self <| epoch_state := Some x |>.
Definition set_config (x : AccountInfo.t D) (self : t) : t := self <| config := Some x |>.
Definition set_ncn (x : AccountInfo.t D) (self : t) : t := self <| ncn := Some x |>.
Definition set_ncn_reward_router (x : AccountInfo.t D) (self : t) : t :=
  self <| ncn_reward_router := Some x |>.
Definition set_ncn_reward_receiver (x : AccountInfo.t D) (self : t) : t :=
  self <| ncn_reward_receiver := Some x |>.
Definition set_protocol_fee_wallet (x : AccountInfo.t D) (self : t) : t :=
  self <| protocol_fee_wallet := Some x |>.
Definition set_system_program (x : AccountInfo.t D) (self : t) : t := self <| system_program := Some x |>.
Definition set_epoch (x : u64) (self : t) : t := self <| epoch := Some x |>.
Definition add_remaining_account (account : AccountInfo.t D) (is_writable is_signer : bool) (self : t) : t :=
  self <| __remaining_accounts := __remaining_accounts self ++ [(account, is_writable, is_signer)] |>.
Definition add_remaining_accounts (accounts : list (Remaining D)) (self : t) : t :=
  self <| __remaining_accounts := __remaining_accounts self ++ accounts |>.
Definition invoke_signed (signers_seeds : list (list (list u8))) (self : t) : M W ProgramError.t unit :=
  let* epoch := lift (expect (epoch self)) in
  let* epoch_state := lift (expect (epoch_state self)) in
  let* config := lift (expect (config self)) in
  let* ncn := lift (expect (ncn self)) in
  let* ncn_reward_router := lift (expect (ncn_reward_router self)) in
  let* ncn_reward_receiver := lift (expect (ncn_reward_receiver self)) in
  let* protocol_fee_wallet := lift (expect (protocol_fee_wallet self)) in
  let* system_program := lift (expect (system_program self)) in
  let args := DistributeProtocolRewardsInstructionArgs.mk epoch in
  let instruction := DistributeProtocolRewardsCpi.mk (__program self) epoch_state config ncn
    ncn_reward_router ncn_reward_receiver protocol_fee_wallet system_program args in
  DistributeProtocolRewardsCpi.invoke_signed_with_remaining_accounts signers_seeds
    (__remaining_accounts self) instruction.
Definition invoke (self : t) : M W ProgramError.t unit := invoke_signed [] self.
Definition setters (c : DistributeProtocolRewardsCpi.t D) (remaining_accounts : list (Remaining D))
    : list (t -> t) :=
  [set_epoch_state (DistributeProtocolRewardsCpi.epoch_state c); set_config
    (DistributeProtocolRewardsCpi.config c); set_ncn (DistributeProtocolRewardsCpi.ncn c);
    set_ncn_reward_router (DistributeProtocolRewardsCpi.ncn_reward_router c); set_ncn_reward_receiver
    (DistributeProtocolRewardsCpi.ncn_reward_receiver c); set_protocol_fee_wallet
    (DistributeProtocolRewardsCpi.protocol_fee_wallet c); set_system_program
    (DistributeProtocolRewardsCpi.system_program c); set_epoch
    (DistributeProtocolRewardsInstructionArgs.epoch (DistributeProtocolRewardsCpi.__args c));
    add_remaining_accounts remaining_accounts].
End builder.
Arguments t : clear implicits.
End DistributeProtocolRewardsCpiBuilder.

Module DistributeNCNRewardsInstructionArgs.
Record t := mk { epoch : u64 }.
End DistributeNCNRewardsInstructionArgs.
Module DistributeNCNRewardsCpiAccounts.
Section accounts.
Context {D : Type}.
Record t := mk { epoch_state : AccountInfo.t D; config : AccountInfo.t D; ncn : AccountInfo.t D;
  ncn_reward_router : AccountInfo.t D; ncn_reward_receiver : AccountInfo.t D;
  ncn_fee_wallet : AccountInfo.t D; system_program : AccountInfo.t D }.
End accounts.
Arguments t : clear implicits.
End DistributeNCNRewardsCpiAccounts.
Module DistributeNCNRewardsCpi.
Section cpi.
Context {D W : Type} {runtime_invoke : Invoke D W}.
Record t := mk { __program : AccountInfo.t D; epoch_state : AccountInfo.t D; config : AccountInfo.t D;
  ncn : AccountInfo.t D; ncn_reward_router : AccountInfo.t D; ncn_reward_receiver : AccountInfo.t D;
  ncn_fee_wallet : AccountInfo.t D; system_program : AccountInfo.t D;
  __args : DistributeNCNRewardsInstructionArgs.t }.
Definition new (program : AccountInfo.t D) (accounts : DistributeNCNRewardsCpiAccounts.t D)
    (args : DistributeNCNRewardsInstructionArgs.t) : t :=
  mk program (DistributeNCNRewardsCpiAccounts.epoch_state accounts)
    (DistributeNCNRewardsCpiAccounts.config accounts) (DistributeNCNRewardsCpiAccounts.ncn accounts)
    (DistributeNCNRewardsCpiAccounts.ncn_reward_router accounts)
    (DistributeNCNRewardsCpiAccounts.ncn_reward_receiver accounts)
    (DistributeNCNRewardsCpiAccounts.ncn_fee_wallet accounts)
    (DistributeNCNRewardsCpiAccounts.system_program accounts) args.
Definition invoke_signed_with_remaining_accounts (signers_seeds : list (list (list u8)))
    (remaining_accounts : list (Remaining D)) (self : t) : M W ProgramError.t unit :=
  let accounts := [Client.new (AccountInfo.key (epoch_state self)) false;
    Client.new_readonly (AccountInfo.key (config self)) false;
    Client.new_readonly (AccountInfo.key (ncn self)) false;
    Client.new (AccountInfo.key (ncn_reward_router self)) false;
    Client.new (AccountInfo.key (ncn_reward_receiver self)) false;
    Client.new (AccountInfo.key (ncn_fee_wallet self)) false;
    Client.new_readonly (AccountInfo.key (system_program self)) false]
    ++ map remaining_meta remaining_accounts in
  let instruction := Ncn NCN_PROGRAM_ID accounts 18 (NCNProgramInstruction.DistributeNCNRewards
    (DistributeNCNRewardsInstructionArgs.epoch (__args self))) in
  let account_infos := [__program self; epoch_state self; config self; ncn self; ncn_reward_router self;
    ncn_reward_receiver self; ncn_fee_wallet self; system_program self]
    ++ map (fun remaining_account => remaining_account.1.1) remaining_accounts in
  invoke_instruction instruction account_infos signers_seeds.
Definition invoke (self : t) : M W ProgramError.t unit :=
  invoke_signed_with_remaining_accounts [] [] self.
Definition invoke_with_remaining_accounts (remaining_accounts : list (Remaining D)) (self : t)
    : M W ProgramError.t unit :=
  invoke_signed_with_remaining_accounts [] remaining_accounts self.
Definition invoke_signed (signers_seeds : list (list (list u8))) (self : t) : M W ProgramError.t unit :=
  invoke_signed_with_remaining_accounts signers_seeds [] self.
End cpi.
Arguments t : clear implicits.
End DistributeNCNRewardsCpi.
Module DistributeNCNRewardsCpiBuilder.
Section builder.
Context {D W : Type} {runtime_invoke : Invoke D W}.
Record t := mk { __program : AccountInfo.t D; epoch_state : option (AccountInfo.t D);
  config : option (AccountInfo.t D); ncn : option (AccountInfo.t D);
  ncn_reward_router : option (AccountInfo.t D); ncn_reward_receiver : option (AccountInfo.t D);
  ncn_fee_wallet : option (AccountInfo.t D); system_program : option (AccountInfo.t D); epoch : option u64;
  __remaining_accounts : list (Remaining D) }.
#[global] Instance eta_t : Eta t := fun b => mk (__program b) (epoch_state b) (config b) (ncn b)
    (ncn_reward_router b) (ncn_reward_receiver b) (ncn_fee_wallet b) (system_program b) (epoch b)
    (__remaining_accounts b).
Definition new (program : AccountInfo.t D) : t := mk program None None None None None None None None [].
Definition set_epoch_state (x : AccountInfo.t D) (self : t) : t := self <| epoch_state := Some x |>.
Definition set_config (x : AccountInfo.t D) (self : t) : t := self <| config := Some x |>.
Definition set_ncn (x : AccountInfo.t D) (self : t) : t := self <| ncn := Some x |>.
Definition set_ncn_reward_router (x : AccountInfo.t D) (self : t) : t :=
  self <| ncn_reward_router := Some x |>.
Definition set_ncn_reward_receiver (x : AccountInfo.t D) (self : t) : t :=
  self <| ncn_reward_receiver := Some x |>.
Definition set_ncn_fee_wallet (x : AccountInfo.t D) (self : t) : t := self <| ncn_fee_wallet := Some x |>.
Definition set_system_program (x : AccountInfo.t D) (self : t) : t := self <| system_program := Some x |>.
Definition set_epoch (x : u64) (self : t) : t := self <| epoch := Some x |>.
Definition add_remaining_account (account : AccountInfo.t D) (is_writable is_signer : bool) (self : t) : t :=
  self <| __remaining_accounts := __remaining_accounts self ++ [(account, is_writable, is_signer)] |>.
Definition add_remaining_accounts (accounts : list (Remaining D)) (self : t) : t :=
  self <| __remaining_accounts := __remaining_accounts self ++ accounts |>.
Definition invoke_signed (signers_seeds : list (list (list u8))) (self : t) : M W ProgramError.t unit :=
  let* epoch := lift (expect (epoch self)) in
  let* epoch_state := lift (expect (epoch_state self)) in
  let* config := lift (expect (config self)) in
  let* ncn := lift (expect (ncn self)) in
  let* ncn_reward_router := lift (expect (ncn_reward_router self)) in
  let* ncn_reward_receiver := lift (expect (ncn_reward_receiver self)) in
  let* ncn_fee_wallet := lift (expect (ncn_fee_wallet self)) in
  let* system_program := lift (expect (system_program self)) in
  let args := DistributeNCNRewardsInstructionArgs.mk epoch in
  let instruction := DistributeNCNRewardsCpi.mk (__program self) epoch_state config ncn ncn_reward_router
    ncn_reward_receiver ncn_fee_wallet system_program args in
  DistributeNCNRewardsCpi.invoke_signed_with_remaining_accounts signers_seeds (__remaining_accounts self)
    instruction.
Definition invoke (self : t) : M W ProgramError.t unit := invoke_signed [] self.
Definition setters (c : DistributeNCNRewardsCpi.t D) (remaining_accounts : list (Remaining D))
    : list (t -> t) :=
  [set_epoch_state (DistributeNCNRewardsCpi.epoch_state c); set_config (DistributeNCNRewardsCpi.config c);
    set_ncn (DistributeNCNRewardsCpi.ncn c); set_ncn_reward_router
    (DistributeNCNRewardsCpi.ncn_reward_router c); set_ncn_reward_receiver
    (DistributeNCNRewardsCpi.ncn_reward_receiver c); set_ncn_fee_wallet
    (DistributeNCNRewardsCpi.ncn_fee_wallet c); set_system_program
    (DistributeNCNRewardsCpi.system_program c); set_epoch
    (DistributeNCNRewardsInstructionArgs.epoch (DistributeNCNRewardsCpi.__args c));
    add_remaining_accounts remaining_accounts].
End builder.
Arguments t : clear implicits.
End DistributeNCNRewardsCpiBuilder.

Module InitializeOperatorVaultRewardRouterInstructionArgs.
Record t := mk { epoch : u64 }.
End InitializeOperatorVaultRewardRouterInstructionArgs.
Module InitializeOperatorVaultRewardRouterCpiAccounts.
Section accounts.
Context {D : Type}.
Record t := mk { epoch_marker : AccountInfo.t D; epoch_state : AccountInfo.t D; ncn : AccountInfo.t D;
  operator : AccountInfo.t D; operator_snapshot : AccountInfo.t D;
  operator_vault_reward_router : AccountInfo.t D; operator_vault_reward_receiver : AccountInfo.t D;
  account_payer : AccountInfo.t D; system_program : AccountInfo.t D }.
End accounts.
Arguments t : clear implicits.
End InitializeOperatorVaultRewardRouterCpiAccounts.
Module InitializeOperatorVaultRewardRouterCpi.
Section cpi.
Context {D W : Type} {runtime_invoke : Invoke D W}.
Record t := mk { __program : AccountInfo.t D; epoch_marker : AccountInfo.t D; epoch_state : AccountInfo.t D;
  ncn : AccountInfo.t D; operator : AccountInfo.t D; operator_snapshot : AccountInfo.t D;
  operator_vault_reward_router : AccountInfo.t D; operator_vault_reward_receiver : AccountInfo.t D;
  account_payer : AccountInfo.t D; system_program : AccountInfo.t D;
  __args : InitializeOperatorVaultRewardRouterInstructionArgs.t }.
Definition new (program : AccountInfo.t D) (accounts : InitializeOperatorVaultRewardRouterCpiAccounts.t D)
    (args : InitializeOperatorVaultRewardRouterInstructionArgs.t) : t :=
  mk program (InitializeOperatorVaultRewardRouterCpiAccounts.epoch_marker accounts)
    (InitializeOperatorVaultRewardRouterCpiAccounts.epoch_state accounts)
    (InitializeOperatorVaultRewardRouterCpiAccounts.ncn accounts)
    (InitializeOperatorVaultRewardRouterCpiAccounts.operator accounts)
    (InitializeOperatorVaultRewardRouterCpiAccounts.operator_snapshot accounts)
    (InitializeOperatorVaultRewardRouterCpiAccounts.operator_vault_reward_router accounts)
    (InitializeOperatorVaultRewardRouterCpiAccounts.operator_vault_reward_receiver accounts)
    (InitializeOperatorVaultRewardRouterCpiAccounts.account_payer accounts)
    (InitializeOperatorVaultRewardRouterCpiAccounts.system_program accounts) args.
Definition invoke_signed_with_remaining_accounts (signers_seeds : list (list (list u8)))
    (remaining_accounts : list (Remaining D)) (self : t) : M W ProgramError.t unit :=
  let accounts := [Client.new_readonly (AccountInfo.key (epoch_marker self)) false;
    Client.new (AccountInfo.key (epoch_state self)) false;
    Client.new_readonly (AccountInfo.key (ncn self)) false;
    Client.new_readonly (AccountInfo.key (operator self)) false;
    Client.new_readonly (AccountInfo.key (operator_snapshot self)) false;
    Client.new (AccountInfo.key (operator_vault_reward_router self)) false;
    Client.new (AccountInfo.key (operator_vault_reward_receiver self)) false;
    Client.new (AccountInfo.key (account_payer self)) false;
    Client.new_readonly (AccountInfo.key (system_program self)) false]
    ++ map remaining_meta remaining_accounts in
  let instruction := Ncn NCN_PROGRAM_ID accounts 19
    (NCNProgramInstruction.InitializeOperatorVaultRewardRouter
    (InitializeOperatorVaultRewardRouterInstructionArgs.epoch (__args self))) in
  let account_infos := [__program self; epoch_marker self; epoch_state self; ncn self; operator self;
    operator_snapshot self; operator_vault_reward_router self; operator_vault_reward_receiver self;
    account_payer self; system_program self]
    ++ map (fun remaining_account => remaining_account.1.1) remaining_accounts in
  invoke_instruction instruction account_infos signers_seeds.
Definition invoke (self : t) : M W ProgramError.t unit :=
  invoke_signed_with_remaining_accounts [] [] self.
Definition invoke_with_remaining_accounts (remaining_accounts : list (Remaining D)) (self : t)
    : M W ProgramError.t unit :=
  invoke_signed_with_remaining_accounts [] remaining_accounts self.
Definition invoke_signed (signers_seeds : list (list (list u8))) (self : t) : M W ProgramError.t unit :=
  invoke_signed_with_remaining_accounts signers_seeds [] self.
End cpi.
Arguments t : clear implicits.
End InitializeOperatorVaultRewardRouterCpi.
Module InitializeOperatorVaultRewardRouterCpiBuilder.
Section builder.
Context {D W : Type} {runtime_invoke : Invoke D W}.
Record t := mk { __program : AccountInfo.t D; epoch_marker : option (AccountInfo.t D);
  epoch_state : option (AccountInfo.t D); ncn : option (AccountInfo.t D);
  operator : option (AccountInfo.t D); operator_snapshot : option (AccountInfo.t D);
  operator_vault_reward_router : option (AccountInfo.t D);
  operator_vault_reward_receiver : option (AccountInfo.t D); account_payer : option (AccountInfo.t D);
  system_program : option (AccountInfo.t D); epoch : option u64; __remaining_accounts : list (Remaining D)
  }.
#[global] Instance eta_t : Eta t := fun b => mk (__program b) (epoch_marker b) (epoch_state b) (ncn b)
    (operator b) (operator_snapshot b) (operator_vault_reward_router b) (operator_vault_reward_receiver b)
    (account_payer b) (system_program b) (epoch b) (__remaining_accounts b).
Definition new (program : AccountInfo.t D) : t := mk program None None None None None None None None None
    None [].
Definition set_epoch_marker (x : AccountInfo.t D) (self : t) : t := self <| epoch_marker := Some x |>.
Definition set_epoch_state (x : AccountInfo.t D) (self : t) : t := self <| epoch_state := Some x |>.
Definition set_ncn (x : AccountInfo.t D) (self : t) : t := self <| ncn := Some x |>.
Definition set_operator (x : AccountInfo.t D) (self : t) : t := self <| operator := Some x |>.
Definition set_operator_snapshot (x : AccountInfo.t D) (self : t) : t :=
  self <| operator_snapshot := Some x |>.
Definition set_operator_vault_reward_router (x : AccountInfo.t D) (self : t) : t :=
  self <| operator_vault_reward_router := Some x |>.
Definition set_operator_vault_reward_receiver (x : AccountInfo.t D) (self : t) : t :=
  self <| operator_vault_reward_receiver := Some x |>.
Definition set_account_payer (x : AccountInfo.t D) (self : t) : t := self <| account_payer := Some x |>.
Definition set_system_program (x : AccountInfo.t D) (self : t) : t := self <| system_program := Some x |>.
Definition set_epoch (x : u64) (self : t) : t := self <| epoch := Some x |>.
Definition add_remaining_account (account : AccountInfo.t D) (is_writable is_signer : bool) (self : t) : t :=
  self <| __remaining_accounts := __remaining_accounts self ++ [(account, is_writable, is_signer)] |>.
Definition add_remaining_accounts (accounts : list (Remaining D)) (self : t) : t :=
  self <| __remaining_accounts := __remaining_accounts self ++ accounts |>.
Definition invoke_signed (signers_seeds : list (list (list u8))) (self : t) : M W ProgramError.t unit :=
  let* epoch := lift (expect (epoch self)) in
  let* epoch_marker := lift (expect (epoch_marker self)) in
  let* epoch_state := lift (expect (epoch_state self)) in
  let* ncn := lift (expect (ncn self)) in
  let* operator := lift (expect (operator self)) in
  let* operator_snapshot := lift (expect (operator_snapshot self)) in
  let* operator_vault_reward_router := lift (expect (operator_vault_reward_router self)) in
  let* operator_vault_reward_receiver := lift (expect (operator_vault_reward_receiver self)) in
  let* account_payer := lift (expect (account_payer self)) in
  let* system_program := lift (expect (system_program self)) in
  let args := InitializeOperatorVaultRewardRouterInstructionArgs.mk epoch in
  let instruction := InitializeOperatorVaultRewardRouterCpi.mk (__program self) epoch_marker epoch_state ncn
    operator operator_snapshot operator_vault_reward_router operator_vault_reward_receiver account_payer
    system_program args in
  InitializeOperatorVaultRewardRouterCpi.invoke_signed_with_remaining_accounts signers_seeds
    (__remaining_accounts self) instruction.
Definition invoke (self : t) : M W ProgramError.t unit := invoke_signed [] self.
Definition setters (c : InitializeOperatorVaultRewardRouterCpi.t D)
    (remaining_accounts : list (Remaining D)) : list (t -> t) :=
  [set_epoch_marker (InitializeOperatorVaultRewardRouterCpi.epoch_marker c); set_epoch_state
    (InitializeOperatorVaultRewardRouterCpi.epoch_state c); set_ncn
    (InitializeOperatorVaultRewardRouterCpi.ncn c); set_operator
    (InitializeOperatorVaultRewardRouterCpi.operator c); set_operator_snapshot
    (InitializeOperatorVaultRewardRouterCpi.operator_snapshot c); set_operator_vault_reward_router
    (InitializeOperatorVaultRewardRouterCpi.operator_vault_reward_router c);
    set_operator_vault_reward_receiver
    (InitializeOperatorVaultRewardRouterCpi.operator_vault_reward_receiver c); set_account_payer
    (InitializeOperatorVaultRewardRouterCpi.account_payer c); set_system_program
    (InitializeOperatorVaultRewardRouterCpi.system_program c); set_epoch
    (InitializeOperatorVaultRewardRouterInstructionArgs.epoch (InitializeOperatorVaultRewardRouterCpi.__args c));
    add_remaining_accounts remaining_accounts].
End builder.
Arguments t : clear implicits.
End InitializeOperatorVaultRewardRouterCpiBuilder.

Module DistributeOperatorVaultRewardRouteInstructionArgs.
Record t := mk { epoch : u64 }.
End DistributeOperatorVaultRewardRouteInstructionArgs.
Module DistributeOperatorVaultRewardRouteCpiAccounts.
Section accounts.
Context {D : Type}.
Record t := mk { epoch_state : AccountInfo.t D; config : AccountInfo.t D; ncn : AccountInfo.t D;
  operator : AccountInfo.t D; ncn_reward_router : AccountInfo.t D; ncn_reward_receiver : AccountInfo.t D;
  operator_vault_reward_router : AccountInfo.t D; operator_vault_reward_receiver : AccountInfo.t D;
  system_program : AccountInfo.t D }.
End accounts.
Arguments t : clear implicits.
End DistributeOperatorVaultRewardRouteCpiAccounts.
Module DistributeOperatorVaultRewardRouteCpi.
Section cpi.
Context {D W : Type} {runtime_invoke : Invoke D W}.
Record t := mk { __program : AccountInfo.t D; epoch_state : AccountInfo.t D; config : AccountInfo.t D;
  ncn : AccountInfo.t D; operator : AccountInfo.t D; ncn_reward_router : AccountInfo.t D;
  ncn_reward_receiver : AccountInfo.t D; operator_vault_reward_router : AccountInfo.t D;
  operator_vault_reward_receiver : AccountInfo.t D; system_program : AccountInfo.t D;
  __args : DistributeOperatorVaultRewardRouteInstructionArgs.t }.
Definition new (program : AccountInfo.t D) (accounts : DistributeOperatorVaultRewardRouteCpiAccounts.t D)
    (args : DistributeOperatorVaultRewardRouteInstructionArgs.t) : t :=
  mk program (DistributeOperatorVaultRewardRouteCpiAccounts.epoch_state accounts)
    (DistributeOperatorVaultRewardRouteCpiAccounts.config accounts)
    (DistributeOperatorVaultRewardRouteCpiAccounts.ncn accounts)
    (DistributeOperatorVaultRewardRouteCpiAccounts.operator accounts)
    (DistributeOperatorVaultRewardRouteCpiAccounts.ncn_reward_router accounts)
    (DistributeOperatorVaultRewardRouteCpiAccounts.ncn_reward_receiver accounts)
    (DistributeOperatorVaultRewardRouteCpiAccounts.operator_vault_reward_router accounts)
    (DistributeOperatorVaultRewardRouteCpiAccounts.operator_vault_reward_receiver accounts)
    (DistributeOperatorVaultRewardRouteCpiAccounts.system_program accounts) args.
Definition invoke_signed_with_remaining_accounts (signers_seeds : list (list (list u8)))
    (remaining_accounts : list (Remaining D)) (self : t) : M W ProgramError.t unit :=
  let accounts := [Client.new (AccountInfo.key (epoch_state self)) false;
    Client.new_readonly (AccountInfo.key (config self)) false;
    Client.new_readonly (AccountInfo.key (ncn self)) false;
    Client.new_readonly (AccountInfo.key (operator self)) false;
    Client.new (AccountInfo.key (ncn_reward_router self)) false;
    Client.new (AccountInfo.key (ncn_reward_receiver self)) false;
    Client.new_readonly (AccountInfo.key (operator_vault_reward_router self)) false;
    Client.new (AccountInfo.key (operator_vault_reward_receiver self)) false;
    Client.new_readonly (AccountInfo.key (system_program self)) false]
    ++ map remaining_meta remaining_accounts in
  let instruction := Ncn NCN_PROGRAM_ID accounts 20
    (NCNProgramInstruction.DistributeOperatorVaultRewardRoute
    (DistributeOperatorVaultRewardRouteInstructionArgs.epoch (__args self))) in
  let account_infos := [__program self; epoch_state self; config self; ncn self; operator self;
    ncn_reward_router self; ncn_reward_receiver self; operator_vault_reward_router self;
    operator_vault_reward_receiver self; system_program self]
    ++ map (fun remaining_account => remaining_account.1.1) remaining_accounts in
  invoke_instruction instruction account_infos signers_seeds.
Definition invoke (self : t) : M W ProgramError.t unit :=
  invoke_signed_with_remaining_accounts [] [] self.
Definition invoke_with_remaining_accounts (remaining_accounts : list (Remaining D)) (self : t)
    : M W ProgramError.t unit :=
  invoke_signed_with_remaining_accounts [] remaining_accounts self.
Definition invoke_signed (signers_seeds : list (list (list u8))) (self : t) : M W ProgramError.t unit :=
  invoke_signed_with_remaining_accounts signers_seeds [] self.
End cpi.
Arguments t : clear implicits.
End DistributeOperatorVaultRewardRouteCpi.
Module DistributeOperatorVaultRewardRouteCpiBuilder.
Section builder.
Context {D W : Type} {runtime_invoke : Invoke D W}.
Record t := mk { __program : AccountInfo.t D; epoch_state : option (AccountInfo.t D);
  config : option (AccountInfo.t D); ncn : option (AccountInfo.t D); operator : option (AccountInfo.t D);
  ncn_reward_router : option (AccountInfo.t D); ncn_reward_receiver : option (AccountInfo.t D);
  operator_vault_reward_router : option (AccountInfo.t D);
  operator_vault_reward_receiver : option (AccountInfo.t D); system_program : option (AccountInfo.t D);
  epoch : option u64; __remaining_accounts : list (Remaining D) }.
#[global] Instance eta_t : Eta t := fun b => mk (__program b) (epoch_state b) (config b) (ncn b)
    (operator b) (ncn_reward_router b) (ncn_reward_receiver b) (operator_vault_reward_router b)
    (operator_vault_reward_receiver b) (system_program b) (epoch b) (__remaining_accounts b).
Definition new (program : AccountInfo.t D) : t := mk program None None None None None None None None None
    None [].
Definition set_epoch_state (x : AccountInfo.t D) (self : t) : t := self <| epoch_state := Some x |>.
Definition set_config (x : AccountInfo.t D) (self : t) : t := self <| config := Some x |>.
Definition set_ncn (x : AccountInfo.t D) (self : t) : t := self <| ncn := Some x |>.
Definition set_operator (x : AccountInfo.t D) (self : t) : t := self <| operator := Some x |>.
Definition set_ncn_reward_router (x : AccountInfo.t D) (self : t) : t :=
  self <| ncn_reward_router := Some x |>.
Definition set_ncn_reward_receiver (x : AccountInfo.t D) (self : t) : t :=
  self <| ncn_reward_receiver := Some x |>.
Definition set_operator_vault_reward_router (x : AccountInfo.t D) (self : t) : t :=
  self <| operator_vault_reward_router := Some x |>.
Definition set_operator_vault_reward_receiver (x : AccountInfo.t D) (self : t) : t :=
  self <| operator_vault_reward_receiver := Some x |>.
Definition set_system_program (x : AccountInfo.t D) (self : t) : t := self <| system_program := Some x |>.
Definition set_epoch (x : u64) (self : t) : t := self <| epoch := Some x |>.
Definition add_remaining_account (account : AccountInfo.t D) (is_writable is_signer : bool) (self : t) : t :=
  self <| __remaining_accounts := __remaining_accounts self ++ [(account, is_writable, is_signer)] |>.
Definition add_remaining_accounts (accounts : list (Remaining D)) (self : t) : t :=
  self <| __remaining_accounts := __remaining_accounts self ++ accounts |>.
Definition invoke_signed (signers_seeds : list (list (list u8))) (self : t) : M W ProgramError.t unit :=
  let* epoch := lift (expect (epoch self)) in
  let* epoch_state := lift (expect (epoch_state self)) in
  let* config := lift (expect (config self)) in
  let* ncn := lift (expect (ncn self)) in
  let* operator := lift (expect (operator self)) in
  let* ncn_reward_router := lift (expect (ncn_reward_router self)) in
  let* ncn_reward_receiver := lift (expect (ncn_reward_receiver self)) in
  let* operator_vault_reward_router := lift (expect (operator_vault_reward_router self)) in
  let* operator_vault_reward_receiver := lift (expect (operator_vault_reward_receiver self)) in
  let* system_program := lift (expect (system_program self)) in
  let args := DistributeOperatorVaultRewardRouteInstructionArgs.mk epoch in
  let instruction := DistributeOperatorVaultRewardRouteCpi.mk (__program self) epoch_state config ncn
    operator ncn_reward_router ncn_reward_receiver operator_vault_reward_router
    operator_vault_reward_receiver system_program args in
  DistributeOperatorVaultRewardRouteCpi.invoke_signed_with_remaining_accounts signers_seeds
    (__remaining_accounts self) instruction.
Definition invoke (self : t) : M W ProgramError.t unit := invoke_signed [] self.
Definition setters (c : DistributeOperatorVaultRewardRouteCpi.t D) (remaining_accounts : list (Remaining D))
    : list (t -> t) :=
  [set_epoch_state (DistributeOperatorVaultRewardRouteCpi.epoch_state c); set_config
    (DistributeOperatorVaultRewardRouteCpi.config c); set_ncn (DistributeOperatorVaultRewardRouteCpi.ncn c);
    set_operator (DistributeOperatorVaultRewardRouteCpi.operator c); set_ncn_reward_router
    (DistributeOperatorVaultRewardRouteCpi.ncn_reward_router c); set_ncn_reward_receiver
    (DistributeOperatorVaultRewardRouteCpi.ncn_reward_receiver c); set_operator_vault_reward_router
    (DistributeOperatorVaultRewardRouteCpi.operator_vault_reward_router c);
    set_operator_vault_reward_receiver
    (DistributeOperatorVaultRewardRouteCpi.operator_vault_reward_receiver c); set_system_program
    (DistributeOperatorVaultRewardRouteCpi.system_program c); set_epoch
    (DistributeOperatorVaultRewardRouteInstructionArgs.epoch (DistributeOperatorVaultRewardRouteCpi.__args c));
    add_remaining_accounts remaining_accounts].
End builder.
Arguments t : clear implicits.
End DistributeOperatorVaultRewardRouteCpiBuilder.

Module RouteOperatorVaultRewardsInstructionArgs.
Record t := mk { max_iterations : u16; epoch : u64 }.
End RouteOperatorVaultRewardsInstructionArgs.
Module RouteOperatorVaultRewardsCpiAccounts.
Section accounts.
Context {D : Type}.
Record t := mk { epoch_state : AccountInfo.t D; ncn : AccountInfo.t D; operator : AccountInfo.t D;
  operator_snapshot : AccountInfo.t D; operator_vault_reward_router : AccountInfo.t D;
  operator_vault_reward_receiver : AccountInfo.t D }.
End accounts.
Arguments t : clear implicits.
End RouteOperatorVaultRewardsCpiAccounts.
Module RouteOperatorVaultRewardsCpi.
Section cpi.
Context {D W : Type} {runtime_invoke : Invoke D W}.
Record t := mk { __program : AccountInfo.t D; epoch_state : AccountInfo.t D; ncn : AccountInfo.t D;
  operator : AccountInfo.t D; operator_snapshot : AccountInfo.t D;
  operator_vault_reward_router : AccountInfo.t D; operator_vault_reward_receiver : AccountInfo.t D;
  __args : RouteOperatorVaultRewardsInstructionArgs.t }.
Definition new (program : AccountInfo.t D) (accounts : RouteOperatorVaultRewardsCpiAccounts.t D)
    (args : RouteOperatorVaultRewardsInstructionArgs.t) : t :=
  mk program (RouteOperatorVaultRewardsCpiAccounts.epoch_state accounts)
    (RouteOperatorVaultRewardsCpiAccounts.ncn accounts)
    (RouteOperatorVaultRewardsCpiAccounts.operator accounts)
    (RouteOperatorVaultRewardsCpiAccounts.operator_snapshot accounts)
    (RouteOperatorVaultRewardsCpiAccounts.operator_vault_reward_router accounts)
    (RouteOperatorVaultRewardsCpiAccounts.operator_vault_reward_receiver accounts) args.
Definition invoke_signed_with_remaining_accounts (signers_seeds : list (list (list u8)))
    (remaining_accounts : list (Remaining D)) (self : t) : M W ProgramError.t unit :=
  let accounts := [Client.new (AccountInfo.key (epoch_state self)) false;
    Client.new_readonly (AccountInfo.key (ncn self)) false;
    Client.new_readonly (AccountInfo.key (operator self)) false;
    Client.new_readonly (AccountInfo.key (operator_snapshot self)) false;
    Client.new (AccountInfo.key (operator_vault_reward_router self)) false;
    Client.new (AccountInfo.key (operator_vault_reward_receiver self)) false]
    ++ map remaining_meta remaining_accounts in
  let instruction := Ncn NCN_PROGRAM_ID accounts 21 (NCNProgramInstruction.RouteOperatorVaultRewards
    (RouteOperatorVaultRewardsInstructionArgs.max_iterations (__args self))
    (RouteOperatorVaultRewardsInstructionArgs.epoch (__args self))) in
  let account_infos := [__program self; epoch_state self; ncn self; operator self; operator_snapshot self;
    operator_vault_reward_router self; operator_vault_reward_receiver self]
    ++ map (fun remaining_account => remaining_account.1.1) remaining_accounts in
  invoke_instruction instruction account_infos signers_seeds.
Definition invoke (self : t) : M W ProgramError.t unit :=
  invoke_signed_with_remaining_accounts [] [] self.
Definition invoke_with_remaining_accounts (remaining_accounts : list (Remaining D)) (self : t)
    : M W ProgramError.t unit :=
  invoke_signed_with_remaining_accounts [] remaining_accounts self.
Definition invoke_signed (signers_seeds : list (list (list u8))) (self : t) : M W ProgramError.t unit :=
  invoke_signed_with_remaining_accounts signers_seeds [] self.
End cpi.
Arguments t : clear implicits.
End RouteOperatorVaultRewardsCpi.
Module RouteOperatorVaultRewardsCpiBuilder.
Section builder.
Context {D W : Type} {runtime_invoke : Invoke D W}.
Record t := mk { __program : AccountInfo.t D; epoch_state : option (AccountInfo.t D);
  ncn : option (AccountInfo.t D); operator : option (AccountInfo.t D);
  operator_snapshot : option (AccountInfo.t D); operator_vault_reward_router : option (AccountInfo.t D);
  operator_vault_reward_receiver : option (AccountInfo.t D); max_iterations : option u16;
  epoch : option u64; __remaining_accounts : list (Remaining D) }.
#[global] Instance eta_t : Eta t := fun b => mk (__program b) (epoch_state b) (ncn b) (operator b)
    (operator_snapshot b) (operator_vault_reward_router b) (operator_vault_reward_receiver b)
    (max_iterations b) (epoch b) (__remaining_accounts b).
Definition new (program : AccountInfo.t D) : t := mk program None None None None None None None None [].
Definition set_epoch_state (x : AccountInfo.t D) (self : t) : t := self <| epoch_state := Some x |>.
Definition set_ncn (x : AccountInfo.t D) (self : t) : t := self <| ncn := Some x |>.
Definition set_operator (x : AccountInfo.t D) (self : t) : t := self <| operator := Some x |>.
Definition set_operator_snapshot (x : AccountInfo.t D) (self : t) : t :=
  self <| operator_snapshot := Some x |>.
Definition set_operator_vault_reward_router (x : AccountInfo.t D) (self : t) : t :=
  self <| operator_vault_reward_router := Some x |>.
Definition set_operator_vault_reward_receiver (x : AccountInfo.t D) (self : t) : t :=
  self <| operator_vault_reward_receiver := Some x |>.
Definition set_max_iterations (x : u16) (self : t) : t := self <| max_iterations := Some x |>.
Definition set_epoch (x : u64) (self : t) : t := self <| epoch := Some x |>.
Definition add_remaining_account (account : AccountInfo.t D) (is_writable is_signer : bool) (self : t) : t :=
  self <| __remaining_accounts := __remaining_accounts self ++ [(account, is_writable, is_signer)] |>.
Definition add_remaining_accounts (accounts : list (Remaining D)) (self : t) : t :=
  self <| __remaining_accounts := __remaining_accounts self ++ accounts |>.
Definition invoke_signed (signers_seeds : list (list (list u8))) (self : t) : M W ProgramError.t unit :=
  let* max_iterations := lift (expect (max_iterations self)) in
  let* epoch := lift (expect (epoch self)) in
  let* epoch_state := lift (expect (epoch_state self)) in
  let* ncn := lift (expect (ncn self)) in
  let* operator := lift (expect (operator self)) in
  let* operator_snapshot := lift (expect (operator_snapshot self)) in
  let* operator_vault_reward_router := lift (expect (operator_vault_reward_router self)) in
  let* operator_vault_reward_receiver := lift (expect (operator_vault_reward_receiver self)) in
  let args := RouteOperatorVaultRewardsInstructionArgs.mk max_iterations epoch in
  let instruction := RouteOperatorVaultRewardsCpi.mk (__program self) epoch_state ncn operator
    operator_snapshot operator_vault_reward_router operator_vault_reward_receiver args in
  RouteOperatorVaultRewardsCpi.invoke_signed_with_remaining_accounts signers_seeds
    (__remaining_accounts self) instruction.
Definition invoke (self : t) : M W ProgramError.t unit := invoke_signed [] self.
Definition setters (c : RouteOperatorVaultRewardsCpi.t D) (remaining_accounts : list (Remaining D))
    : list (t -> t) :=
  [set_epoch_state (RouteOperatorVaultRewardsCpi.epoch_state c); set_ncn
    (RouteOperatorVaultRewardsCpi.ncn c); set_operator (RouteOperatorVaultRewardsCpi.operator c);
    set_operator_snapshot (RouteOperatorVaultRewardsCpi.operator_snapshot c);
    set_operator_vault_reward_router (RouteOperatorVaultRewardsCpi.operator_vault_reward_router c);
    set_operator_vault_reward_receiver (RouteOperatorVaultRewardsCpi.operator_vault_reward_receiver c);
    set_max_iterations
    (RouteOperatorVaultRewardsInstructionArgs.max_iterations (RouteOperatorVaultRewardsCpi.__args c));
    set_epoch (RouteOperatorVaultRewardsInstructionArgs.epoch (RouteOperatorVaultRewardsCpi.__args c));
    add_remaining_accounts remaining_accounts].
End builder.
Arguments t : clear implicits.
End RouteOperatorVaultRewardsCpiBuilder.

Module CloseEpochAccountInstructionArgs.
Record t := mk { epoch : u64 }.
End CloseEpochAccountInstructionArgs.
Module CloseEpochAccountCpiAccounts.
Section accounts.
Context {D : Type}.
Record t := mk { epoch_marker : AccountInfo.t D; epoch_state : AccountInfo.t D; config : AccountInfo.t D;
  ncn : AccountInfo.t D; account_to_close : AccountInfo.t D; account_payer : AccountInfo.t D;
  system_program : AccountInfo.t D; ncn_fee_wallet : option (AccountInfo.t D);
  receiver_to_close : option (AccountInfo.t D) }.
End accounts.
Arguments t : clear implicits.
End CloseEpochAccountCpiAccounts.
Module CloseEpochAccountCpi.
Section cpi.
Context {D W : Type} {runtime_invoke : Invoke D W}.
Record t := mk { __program : AccountInfo.t D; epoch_marker : AccountInfo.t D; epoch_state : AccountInfo.t D;
  config : AccountInfo.t D; ncn : AccountInfo.t D; account_to_close : AccountInfo.t D;
  account_payer : AccountInfo.t D; system_program : AccountInfo.t D;
  ncn_fee_wallet : option (AccountInfo.t D); receiver_to_close : option (AccountInfo.t D);
  __args : CloseEpochAccountInstructionArgs.t }.
Definition new (program : AccountInfo.t D) (accounts : CloseEpochAccountCpiAccounts.t D)
    (args : CloseEpochAccountInstructionArgs.t) : t :=
  mk program (CloseEpochAccountCpiAccounts.epoch_marker accounts)
    (CloseEpochAccountCpiAccounts.epoch_state accounts) (CloseEpochAccountCpiAccounts.config accounts)
    (CloseEpochAccountCpiAccounts.ncn accounts) (CloseEpochAccountCpiAccounts.account_to_close accounts)
    (CloseEpochAccountCpiAccounts.account_payer accounts)
    (CloseEpochAccountCpiAccounts.system_program accounts)
    (CloseEpochAccountCpiAccounts.ncn_fee_wallet accounts)
    (CloseEpochAccountCpiAccounts.receiver_to_close accounts) args.
Definition invoke_signed_with_remaining_accounts (signers_seeds : list (list (list u8)))
    (remaining_accounts : list (Remaining D)) (self : t) : M W ProgramError.t unit :=
  let accounts := [Client.new (AccountInfo.key (epoch_marker self)) false;
    Client.new (AccountInfo.key (epoch_state self)) false;
    Client.new_readonly (AccountInfo.key (config self)) false;
    Client.new_readonly (AccountInfo.key (ncn self)) false;
    Client.new (AccountInfo.key (account_to_close self)) false;
    Client.new (AccountInfo.key (account_payer self)) false;
    Client.new_readonly (AccountInfo.key (system_program self)) false;
    optional (option_map AccountInfo.key (ncn_fee_wallet self));
    optional (option_map AccountInfo.key (receiver_to_close self))]
    ++ map remaining_meta remaining_accounts in
  let instruction := Ncn NCN_PROGRAM_ID accounts 22 (NCNProgramInstruction.CloseEpochAccount
    (CloseEpochAccountInstructionArgs.epoch (__args self))) in
  let account_infos := [__program self; epoch_marker self; epoch_state self; config self; ncn self;
    account_to_close self; account_payer self; system_program self] ++ given_account (ncn_fee_wallet self)
    ++ given_account (receiver_to_close self)
    ++ map (fun remaining_account => remaining_account.1.1) remaining_accounts in
  invoke_instruction instruction account_infos signers_seeds.
Definition invoke (self : t) : M W ProgramError.t unit :=
  invoke_signed_with_remaining_accounts [] [] self.
Definition invoke_with_remaining_accounts (remaining_accounts : list (Remaining D)) (self : t)
    : M W ProgramError.t unit :=
  invoke_signed_with_remaining_accounts [] remaining_accounts self.
Definition invoke_signed (signers_seeds : list (list (list u8))) (self : t) : M W ProgramError.t unit :=
  invoke_signed_with_remaining_accounts signers_seeds [] self.
End cpi.
Arguments t : clear implicits.
End CloseEpochAccountCpi.
Module CloseEpochAccountCpiBuilder.
Section builder.
Context {D W : Type} {runtime_invoke : Invoke D W}.
Record t := mk { __program : AccountInfo.t D; epoch_marker : option (AccountInfo.t D);
  epoch_state : option (AccountInfo.t D); config : option (AccountInfo.t D); ncn : option (AccountInfo.t D);
  account_to_close : option (AccountInfo.t D); account_payer : option (AccountInfo.t D);
  system_program : option (AccountInfo.t D); ncn_fee_wallet : option (AccountInfo.t D);
  receiver_to_close : option (AccountInfo.t D); epoch : option u64;
  __remaining_accounts : list (Remaining D) }.
#[global] Instance eta_t : Eta t := fun b => mk (__program b) (epoch_marker b) (epoch_state b) (config b)
    (ncn b) (account_to_close b) (account_payer b) (system_program b) (ncn_fee_wallet b)
    (receiver_to_close b) (epoch b) (__remaining_accounts b).
Definition new (program : AccountInfo.t D) : t := mk program None None None None None None None None None
    None [].
Definition set_epoch_marker (x : AccountInfo.t D) (self : t) : t := self <| epoch_marker := Some x |>.
Definition set_epoch_state (x : AccountInfo.t D) (self : t) : t := self <| epoch_state := Some x |>.
Definition set_config (x : AccountInfo.t D) (self : t) : t := self <| config := Some x |>.
Definition set_ncn (x : AccountInfo.t D) (self : t) : t := self <| ncn := Some x |>.
Definition set_account_to_close (x : AccountInfo.t D) (self : t) : t :=
  self <| account_to_close := Some x |>.
Definition set_account_payer (x : AccountInfo.t D) (self : t) : t := self <| account_payer := Some x |>.
Definition set_system_program (x : AccountInfo.t D) (self : t) : t := self <| system_program := Some x |>.
Definition set_ncn_fee_wallet (x : option (AccountInfo.t D)) (self : t) : t :=
  self <| ncn_fee_wallet := x |>.
Definition set_receiver_to_close (x : option (AccountInfo.t D)) (self : t) : t :=
  self <| receiver_to_close := x |>.
Definition set_epoch (x : u64) (self : t) : t := self <| epoch := Some x |>.
Definition add_remaining_account (account : AccountInfo.t D) (is_writable is_signer : bool) (self : t) : t :=
  self <| __remaining_accounts := __remaining_accounts self ++ [(account, is_writable, is_signer)] |>.
Definition add_remaining_accounts (accounts : list (Remaining D)) (self : t) : t :=
  self <| __remaining_accounts := __remaining_accounts self ++ accounts |>.
Definition invoke_signed (signers_seeds : list (list (list u8))) (self : t) : M W ProgramError.t unit :=
  let* epoch := lift (expect (epoch self)) in
  let* epoch_marker := lift (expect (epoch_marker self)) in
  let* epoch_state := lift (expect (epoch_state self)) in
  let* config := lift (expect (config self)) in
  let* ncn := lift (expect (ncn self)) in
  let* account_to_close := lift (expect (account_to_close self)) in
  let* account_payer := lift (expect (account_payer self)) in
  let* system_program := lift (expect (system_program self)) in
  let args := CloseEpochAccountInstructionArgs.mk epoch in
  let instruction := CloseEpochAccountCpi.mk (__program self) epoch_marker epoch_state config ncn
    account_to_close account_payer system_program (ncn_fee_wallet self) (receiver_to_close self) args in
  CloseEpochAccountCpi.invoke_signed_with_remaining_accounts signers_seeds (__remaining_accounts self)
    instruction.
Definition invoke (self : t) : M W ProgramError.t unit := invoke_signed [] self.
Definition setters (c : CloseEpochAccountCpi.t D) (remaining_accounts : list (Remaining D))
    : list (t -> t) :=
  [set_epoch_marker (CloseEpochAccountCpi.epoch_marker c); set_epoch_state
    (CloseEpochAccountCpi.epoch_state c); set_config (CloseEpochAccountCpi.config c); set_ncn
    (CloseEpochAccountCpi.ncn c); set_account_to_close (CloseEpochAccountCpi.account_to_close c);
    set_account_payer (CloseEpochAccountCpi.account_payer c); set_system_program
    (CloseEpochAccountCpi.system_program c); set_ncn_fee_wallet (CloseEpochAccountCpi.ncn_fee_wallet c);
    set_receiver_to_close (CloseEpochAccountCpi.receiver_to_close c); set_epoch
    (CloseEpochAccountInstructionArgs.epoch (CloseEpochAccountCpi.__args c));
    add_remaining_accounts remaining_accounts].
End builder.
Arguments t : clear implicits.
End CloseEpochAccountCpiBuilder.

Module DistributeOperatorRewardsInstructionArgs.
Record t := mk { epoch : u64 }.
End DistributeOperatorRewardsInstructionArgs.
Module DistributeOperatorRewardsCpiAccounts.
Section accounts.
Context {D : Type}.
Record t := mk { epoch_state : AccountInfo.t D; config : AccountInfo.t D; ncn : AccountInfo.t D;
  operator : AccountInfo.t D; operator_snapshot : AccountInfo.t D;
  operator_vault_reward_router : AccountInfo.t D; operator_vault_reward_receiver : AccountInfo.t D;
  system_program : AccountInfo.t D }.
End accounts.
Arguments t : clear implicits.
End DistributeOperatorRewardsCpiAccounts.
Module DistributeOperatorRewardsCpi.
Section cpi.
Context {D W : Type} {runtime_invoke : Invoke D W}.
Record t := mk { __program : AccountInfo.t D; epoch_state : AccountInfo.t D; config : AccountInfo.t D;
  ncn : AccountInfo.t D; operator : AccountInfo.t D; operator_snapshot : AccountInfo.t D;
  operator_vault_reward_router : AccountInfo.t D; operator_vault_reward_receiver : AccountInfo.t D;
  system_program : AccountInfo.t D; __args : DistributeOperatorRewardsInstructionArgs.t }.
Definition new (program : AccountInfo.t D) (accounts : DistributeOperatorRewardsCpiAccounts.t D)
    (args : DistributeOperatorRewardsInstructionArgs.t) : t :=
  mk program (DistributeOperatorRewardsCpiAccounts.epoch_state accounts)
    (DistributeOperatorRewardsCpiAccounts.config accounts)
    (DistributeOperatorRewardsCpiAccounts.ncn accounts)
    (DistributeOperatorRewardsCpiAccounts.operator accounts)
    (DistributeOperatorRewardsCpiAccounts.operator_snapshot accounts)
    (DistributeOperatorRewardsCpiAccounts.operator_vault_reward_router accounts)
    (DistributeOperatorRewardsCpiAccounts.operator_vault_reward_receiver accounts)
    (DistributeOperatorRewardsCpiAccounts.system_program accounts) args.
Definition invoke_signed_with_remaining_accounts (signers_seeds : list (list (list u8)))
    (remaining_accounts : list (Remaining D)) (self : t) : M W ProgramError.t unit :=
  let accounts := [Client.new (AccountInfo.key (epoch_state self)) false;
    Client.new_readonly (AccountInfo.key (config self)) false;
    Client.new_readonly (AccountInfo.key (ncn self)) false;
    Client.new (AccountInfo.key (operator self)) false;
    Client.new (AccountInfo.key (operator_snapshot self)) false;
    Client.new (AccountInfo.key (operator_vault_reward_router self)) false;
    Client.new (AccountInfo.key (operator_vault_reward_receiver self)) false;
    Client.new_readonly (AccountInfo.key (system_program self)) false]
    ++ map remaining_meta remaining_accounts in
  let instruction := Ncn NCN_PROGRAM_ID accounts 23 (NCNProgramInstruction.DistributeOperatorRewards
    (DistributeOperatorRewardsInstructionArgs.epoch (__args self))) in
  let account_infos := [__program self; epoch_state self; config self; ncn self; operator self;
    operator_snapshot self; operator_vault_reward_router self; operator_vault_reward_receiver self;
    system_program self]
    ++ map (fun remaining_account => remaining_account.1.1) remaining_accounts in
  invoke_instruction instruction account_infos signers_seeds.
Definition invoke (self : t) : M W ProgramError.t unit :=
  invoke_signed_with_remaining_accounts [] [] self.
Definition invoke_with_remaining_accounts (remaining_accounts : list (Remaining D)) (self : t)
    : M W ProgramError.t unit :=
  invoke_signed_with_remaining_accounts [] remaining_accounts self.
Definition invoke_signed (signers_seeds : list (list (list u8))) (self : t) : M W ProgramError.t unit :=
  invoke_signed_with_remaining_accounts signers_seeds [] self.
End cpi.
Arguments t : clear implicits.
End DistributeOperatorRewardsCpi.
Module DistributeOperatorRewardsCpiBuilder.
Section builder.
Context {D W : Type} {runtime_invoke : Invoke D W}.
Record t := mk { __program : AccountInfo.t D; epoch_state : option (AccountInfo.t D);
  config : option (AccountInfo.t D); ncn : option (AccountInfo.t D); operator : option (AccountInfo.t D);
  operator_snapshot : option (AccountInfo.t D); operator_vault_reward_router : option (AccountInfo.t D);
  operator_vault_reward_receiver : option (AccountInfo.t D); system_program : option (AccountInfo.t D);
  epoch : option u64; __remaining_accounts : list (Remaining D) }.
#[global] Instance eta_t : Eta t := fun b => mk (__program b) (epoch_state b) (config b) (ncn b)
    (operator b) (operator_snapshot b) (operator_vault_reward_router b) (operator_vault_reward_receiver b)
    (system_program b) (epoch b) (__remaining_accounts b).
Definition new (program : AccountInfo.t D) : t := mk program None None None None None None None None None
    [].
Definition set_epoch_state (x : AccountInfo.t D) (self : t) : t := self <| epoch_state := Some x |>.
Definition set_config (x : AccountInfo.t D) (self : t) : t := self <| config := Some x |>.
Definition set_ncn (x : AccountInfo.t D) (self : t) : t := self <| ncn := Some x |>.
Definition set_operator (x : AccountInfo.t D) (self : t) : t := self <| operator := Some x |>.
Definition set_operator_snapshot (x : AccountInfo.t D) (self : t) : t :=
  self <| operator_snapshot := Some x |>.
Definition set_operator_vault_reward_router (x : AccountInfo.t D) (self : t) : t :=
  self <| operator_vault_reward_router := Some x |>.
Definition set_operator_vault_reward_receiver (x : AccountInfo.t D) (self : t) : t :=
  self <| operator_vault_reward_receiver := Some x |>.
Definition set_system_program (x : AccountInfo.t D) (self : t) : t := self <| system_program := Some x |>.
Definition set_epoch (x : u64) (self : t) : t := self <| epoch := Some x |>.
Definition add_remaining_account (account : AccountInfo.t D) (is_writable is_signer : bool) (self : t) : t :=
  self <| __remaining_accounts := __remaining_accounts self ++ [(account, is_writable, is_signer)] |>.
Definition add_remaining_accounts (accounts : list (Remaining D)) (self : t) : t :=
  self <| __remaining_accounts := __remaining_accounts self ++ accounts |>.
Definition invoke_signed (signers_seeds : list (list (list u8))) (self : t) : M W ProgramError.t unit :=
  let* epoch := lift (expect (epoch self)) in
  let* epoch_state := lift (expect (epoch_state self)) in
  let* config := lift (expect (config self)) in
  let* ncn := lift (expect (ncn self)) in
  let* operator := lift (expect (operator self)) in
  let* operator_snapshot := lift (expect (operator_snapshot self)) in
  let* operator_vault_reward_router := lift (expect (operator_vault_reward_router self)) in
  let* operator_vault_reward_receiver := lift (expect (operator_vault_reward_receiver self)) in
  let* system_program := lift (expect (system_program self)) in
  let args := DistributeOperatorRewardsInstructionArgs.mk epoch in
  let instruction := DistributeOperatorRewardsCpi.mk (__program self) epoch_state config ncn operator
    operator_snapshot operator_vault_reward_router operator_vault_reward_receiver system_program args in
  DistributeOperatorRewardsCpi.invoke_signed_with_remaining_accounts signers_seeds
    (__remaining_accounts self) instruction.
Definition invoke (self : t) : M W ProgramError.t unit := invoke_signed [] self.
Definition setters (c : DistributeOperatorRewardsCpi.t D) (remaining_accounts : list (Remaining D))
    : list (t -> t) :=
  [set_epoch_state (DistributeOperatorRewardsCpi.epoch_state c); set_config
    (DistributeOperatorRewardsCpi.config c); set_ncn (DistributeOperatorRewardsCpi.ncn c); set_operator
    (DistributeOperatorRewardsCpi.operator c); set_operator_snapshot
    (DistributeOperatorRewardsCpi.operator_snapshot c); set_operator_vault_reward_router
    (DistributeOperatorRewardsCpi.operator_vault_reward_router c); set_operator_vault_reward_receiver
    (DistributeOperatorRewardsCpi.operator_vault_reward_receiver c); set_system_program
    (DistributeOperatorRewardsCpi.system_program c); set_epoch
    (DistributeOperatorRewardsInstructionArgs.epoch (DistributeOperatorRewardsCpi.__args c));
    add_remaining_accounts remaining_accounts].
End builder.
Arguments t : clear implicits.
End DistributeOperatorRewardsCpiBuilder.

Module DistributeVaultRewardsInstructionArgs.
Record t := mk { epoch : u64 }.
End DistributeVaultRewardsInstructionArgs.
Module DistributeVaultRewardsCpiAccounts.
Section accounts.
Context {D : Type}.
Record t := mk { epoch_state : AccountInfo.t D; config : AccountInfo.t D; ncn : AccountInfo.t D;
  operator : AccountInfo.t D; vault : AccountInfo.t D; operator_snapshot : AccountInfo.t D;
  operator_vault_reward_router : AccountInfo.t D; operator_vault_reward_receiver : AccountInfo.t D;
  system_program : AccountInfo.t D }.
End accounts.
Arguments t : clear implicits.
End DistributeVaultRewardsCpiAccounts.
Module DistributeVaultRewardsCpi.
Section cpi.
Context {D W : Type} {runtime_invoke : Invoke D W}.
Record t := mk { __program : AccountInfo.t D; epoch_state : AccountInfo.t D; config : AccountInfo.t D;
  ncn : AccountInfo.t D; operator : AccountInfo.t D; vault : AccountInfo.t D;
  operator_snapshot : AccountInfo.t D; operator_vault_reward_router : AccountInfo.t D;
  operator_vault_reward_receiver : AccountInfo.t D; system_program : AccountInfo.t D;
  __args : DistributeVaultRewardsInstructionArgs.t }.
Definition new (program : AccountInfo.t D) (accounts : DistributeVaultRewardsCpiAccounts.t D)
    (args : DistributeVaultRewardsInstructionArgs.t) : t :=
  mk program (DistributeVaultRewardsCpiAccounts.epoch_state accounts)
    (DistributeVaultRewardsCpiAccounts.config accounts) (DistributeVaultRewardsCpiAccounts.ncn accounts)
    (DistributeVaultRewardsCpiAccounts.operator accounts) (DistributeVaultRewardsCpiAccounts.vault accounts)
    (DistributeVaultRewardsCpiAccounts.operator_snapshot accounts)
    (DistributeVaultRewardsCpiAccounts.operator_vault_reward_router accounts)
    (DistributeVaultRewardsCpiAccounts.operator_vault_reward_receiver accounts)
    (DistributeVaultRewardsCpiAccounts.system_program accounts) args.
Definition invoke_signed_with_remaining_accounts (signers_seeds : list (list (list u8)))
    (remaining_accounts : list (Remaining D)) (self : t) : M W ProgramError.t unit :=
  let accounts := [Client.new (AccountInfo.key (epoch_state self)) false;
    Client.new_readonly (AccountInfo.key (config self)) false;
    Client.new_readonly (AccountInfo.key (ncn self)) false;
    Client.new_readonly (AccountInfo.key (operator self)) false;
    Client.new (AccountInfo.key (vault self)) false;
    Client.new (AccountInfo.key (operator_snapshot self)) false;
    Client.new (AccountInfo.key (operator_vault_reward_router self)) false;
    Client.new (AccountInfo.key (operator_vault_reward_receiver self)) false;
    Client.new_readonly (AccountInfo.key (system_program self)) false]
    ++ map remaining_meta remaining_accounts in
  let instruction := Ncn NCN_PROGRAM_ID accounts 24 (NCNProgramInstruction.DistributeVaultRewards
    (DistributeVaultRewardsInstructionArgs.epoch (__args self))) in
  let account_infos := [__program self; epoch_state self; config self; ncn self; operator self; vault self;
    operator_snapshot self; operator_vault_reward_router self; operator_vault_reward_receiver self;
    system_program self]
    ++ map (fun remaining_account => remaining_account.1.1) remaining_accounts in
  invoke_instruction instruction account_infos signers_seeds.
Definition invoke (self : t) : M W ProgramError.t unit :=
  invoke_signed_with_remaining_accounts [] [] self.
Definition invoke_with_remaining_accounts (remaining_accounts : list (Remaining D)) (self : t)
    : M W ProgramError.t unit :=
  invoke_signed_with_remaining_accounts [] remaining_accounts self.
Definition invoke_signed (signers_seeds : list (list (list u8))) (self : t) : M W ProgramError.t unit :=
  invoke_signed_with_remaining_accounts signers_seeds [] self.
End cpi.
Arguments t : clear implicits.
End DistributeVaultRewardsCpi.
Module DistributeVaultRewardsCpiBuilder.
Section builder.
Context {D W : Type} {runtime_invoke : Invoke D W}.
Record t := mk { __program : AccountInfo.t D; epoch_state : option (AccountInfo.t D);
  config : option (AccountInfo.t D); ncn : option (AccountInfo.t D); operator : option (AccountInfo.t D);
  vault : option (AccountInfo.t D); operator_snapshot : option (AccountInfo.t D);
  operator_vault_reward_router : option (AccountInfo.t D);
  operator_vault_reward_receiver : option (AccountInfo.t D); system_program : option (AccountInfo.t D);
  epoch : option u64; __remaining_accounts : list (Remaining D) }.
#[global] Instance eta_t : Eta t := fun b => mk (__program b) (epoch_state b) (config b) (ncn b)
    (operator b) (vault b) (operator_snapshot b) (operator_vault_reward_router b)
    (operator_vault_reward_receiver b) (system_program b) (epoch b) (__remaining_accounts b).
Definition new (program : AccountInfo.t D) : t := mk program None None None None None None None None None
    None [].
Definition set_epoch_state (x : AccountInfo.t D) (self : t) : t := self <| epoch_state := Some x |>.
Definition set_config (x : AccountInfo.t D) (self : t) : t := self <| config := Some x |>.
Definition set_ncn (x : AccountInfo.t D) (self : t) : t := self <| ncn := Some x |>.
Definition set_operator (x : AccountInfo.t D) (self : t) : t := self <| operator := Some x |>.
Definition set_vault (x : AccountInfo.t D) (self : t) : t := self <| vault := Some x |>.
Definition set_operator_snapshot (x : AccountInfo.t D) (self : t) : t :=
  self <| operator_snapshot := Some x |>.
Definition set_operator_vault_reward_router (x : AccountInfo.t D) (self : t) : t :=
  self <| operator_vault_reward_router := Some x |>.
Definition set_operator_vault_reward_receiver (x : AccountInfo.t D) (self : t) : t :=
  self <| operator_vault_reward_receiver := Some x |>.
Definition set_system_program (x : AccountInfo.t D) (self : t) : t := self <| system_program := Some x |>.
Definition set_epoch (x : u64) (self : t) : t := self <| epoch := Some x |>.
Definition add_remaining_account (account : AccountInfo.t D) (is_writable is_signer : bool) (self : t) : t :=
  self <| __remaining_accounts := __remaining_accounts self ++ [(account, is_writable, is_signer)] |>.
Definition add_remaining_accounts (accounts : list (Remaining D)) (self : t) : t :=
  self <| __remaining_accounts := __remaining_accounts self ++ accounts |>.
Definition invoke_signed (signers_seeds : list (list (list u8))) (self : t) : M W ProgramError.t unit :=
  let* epoch := lift (expect (epoch self)) in
  let* epoch_state := lift (expect (epoch_state self)) in
  let* config := lift (expect (config self)) in
  let* ncn := lift (expect (ncn self)) in
  let* operator := lift (expect (operator self)) in
  let* vault := lift (expect (vault self)) in
  let* operator_snapshot := lift (expect (operator_snapshot self)) in
  let* operator_vault_reward_router := lift (expect (operator_vault_reward_router self)) in
  let* operator_vault_reward_receiver := lift (expect (operator_vault_reward_receiver self)) in
  let* system_program := lift (expect (system_program self)) in
  let args := DistributeVaultRewardsInstructionArgs.mk epoch in
  let instruction := DistributeVaultRewardsCpi.mk (__program self) epoch_state config ncn operator vault
    operator_snapshot operator_vault_reward_router operator_vault_reward_receiver system_program args in
  DistributeVaultRewardsCpi.invoke_signed_with_remaining_accounts signers_seeds (__remaining_accounts self)
    instruction.
Definition invoke (self : t) : M W ProgramError.t unit := invoke_signed [] self.
Definition setters (c : DistributeVaultRewardsCpi.t D) (remaining_accounts : list (Remaining D))
    : list (t -> t) :=
  [set_epoch_state (DistributeVaultRewardsCpi.epoch_state c); set_config
    (DistributeVaultRewardsCpi.config c); set_ncn (DistributeVaultRewardsCpi.ncn c); set_operator
    (DistributeVaultRewardsCpi.operator c); set_vault (DistributeVaultRewardsCpi.vault c);
    set_operator_snapshot (DistributeVaultRewardsCpi.operator_snapshot c); set_operator_vault_reward_router
    (DistributeVaultRewardsCpi.operator_vault_reward_router c); set_operator_vault_reward_receiver
    (DistributeVaultRewardsCpi.operator_vault_reward_receiver c); set_system_program
    (DistributeVaultRewardsCpi.system_program c); set_epoch
    (DistributeVaultRewardsInstructionArgs.epoch (DistributeVaultRewardsCpi.__args c));
    add_remaining_accounts remaining_accounts].
End builder.
Arguments t : clear implicits.
End DistributeVaultRewardsCpiBuilder.

Module AdminSetParametersInstructionArgs.
Record t := mk { starting_valid_epoch : option u64; epochs_before_stall : option u64;
  epochs_after_consensus_before_close : option u64; valid_slots_after_consensus : option u64 }.
End AdminSetParametersInstructionArgs.
Module AdminSetParametersCpiAccounts.
Section accounts.
Context {D : Type}.
Record t := mk { config : AccountInfo.t D; ncn : AccountInfo.t D; ncn_admin : AccountInfo.t D }.
End accounts.
Arguments t : clear implicits.
End AdminSetParametersCpiAccounts.
Module AdminSetParametersCpi.
Section cpi.
Context {D W : Type} {runtime_invoke : Invoke D W}.
Record t := mk { __program : AccountInfo.t D; config : AccountInfo.t D; ncn : AccountInfo.t D;
  ncn_admin : AccountInfo.t D; __args : AdminSetParametersInstructionArgs.t }.
Definition new (program : AccountInfo.t D) (accounts : AdminSetParametersCpiAccounts.t D)
    (args : AdminSetParametersInstructionArgs.t) : t :=
  mk program (AdminSetParametersCpiAccounts.config accounts) (AdminSetParametersCpiAccounts.ncn accounts)
    (AdminSetParametersCpiAccounts.ncn_admin accounts) args.
Definition invoke_signed_with_remaining_accounts (signers_seeds : list (list (list u8)))
    (remaining_accounts : list (Remaining D)) (self : t) : M W ProgramError.t unit :=
  let accounts := [Client.new (AccountInfo.key (config self)) false;
    Client.new_readonly (AccountInfo.key (ncn self)) false;
    Client.new_readonly (AccountInfo.key (ncn_admin self)) true]
    ++ map remaining_meta remaining_accounts in
  let instruction := Ncn NCN_PROGRAM_ID accounts 25 (NCNProgramInstruction.AdminSetParameters
    (AdminSetParametersInstructionArgs.starting_valid_epoch (__args self))
    (AdminSetParametersInstructionArgs.epochs_before_stall (__args self))
    (AdminSetParametersInstructionArgs.epochs_after_consensus_before_close (__args self))
    (AdminSetParametersInstructionArgs.valid_slots_after_consensus (__args self))) in
  let account_infos := [__program self; config self; ncn self; ncn_admin self]
    ++ map (fun remaining_account => remaining_account.1.1) remaining_accounts in
  invoke_instruction instruction account_infos signers_seeds.
Definition invoke (self : t) : M W ProgramError.t unit :=
  invoke_signed_with_remaining_accounts [] [] self.
Definition invoke_with_remaining_accounts (remaining_accounts : list (Remaining D)) (self : t)
    : M W ProgramError.t unit :=
  invoke_signed_with_remaining_accounts [] remaining_accounts self.
Definition invoke_signed (signers_seeds : list (list (list u8))) (self : t) : M W ProgramError.t unit :=
  invoke_signed_with_remaining_accounts signers_seeds [] self.
End cpi.
Arguments t : clear implicits.
End AdminSetParametersCpi.
Module AdminSetParametersCpiBuilder.
Section builder.
Context {D W : Type} {runtime_invoke : Invoke D W}.
Record t := mk { __program : AccountInfo.t D; config : option (AccountInfo.t D);
  ncn : option (AccountInfo.t D); ncn_admin : option (AccountInfo.t D); starting_valid_epoch : option u64;
  epochs_before_stall : option u64; epochs_after_consensus_before_close : option u64;
  valid_slots_after_consensus : option u64; __remaining_accounts : list (Remaining D) }.
#[global] Instance eta_t : Eta t := fun b => mk (__program b) (config b) (ncn b) (ncn_admin b)
    (starting_valid_epoch b) (epochs_before_stall b) (epochs_after_consensus_before_close b)
    (valid_slots_after_consensus b) (__remaining_accounts b).
Definition new (program : AccountInfo.t D) : t := mk program None None None None None None None [].
Definition set_config (x : AccountInfo.t D) (self : t) : t := self <| config := Some x |>.
Definition set_ncn (x : AccountInfo.t D) (self : t) : t := self <| ncn := Some x |>.
Definition set_ncn_admin (x : AccountInfo.t D) (self : t) : t := self <| ncn_admin := Some x |>.
Definition set_starting_valid_epoch (x : u64) (self : t) : t := self <| starting_valid_epoch := Some x |>.
Definition set_epochs_before_stall (x : u64) (self : t) : t := self <| epochs_before_stall := Some x |>.
Definition set_epochs_after_consensus_before_close (x : u64) (self : t) : t :=
  self <| epochs_after_consensus_before_close := Some x |>.
Definition set_valid_slots_after_consensus (x : u64) (self : t) : t :=
  self <| valid_slots_after_consensus := Some x |>.
Definition add_remaining_account (account : AccountInfo.t D) (is_writable is_signer : bool) (self : t) : t :=
  self <| __remaining_accounts := __remaining_accounts self ++ [(account, is_writable, is_signer)] |>.
Definition add_remaining_accounts (accounts : list (Remaining D)) (self : t) : t :=
  self <| __remaining_accounts := __remaining_accounts self ++ accounts |>.
Definition invoke_signed (signers_seeds : list (list (list u8))) (self : t) : M W ProgramError.t unit :=
  let* config := lift (expect (config self)) in
  let* ncn := lift (expect (ncn self)) in
  let* ncn_admin := lift (expect (ncn_admin self)) in
  let args := AdminSetParametersInstructionArgs.mk (starting_valid_epoch self) (epochs_before_stall self)
    (epochs_after_consensus_before_close self) (valid_slots_after_consensus self) in
  let instruction := AdminSetParametersCpi.mk (__program self) config ncn ncn_admin args in
  AdminSetParametersCpi.invoke_signed_with_remaining_accounts signers_seeds (__remaining_accounts self)
    instruction.
Definition invoke (self : t) : M W ProgramError.t unit := invoke_signed [] self.
Definition setters (c : AdminSetParametersCpi.t D) (remaining_accounts : list (Remaining D))
    : list (t -> t) :=
  [set_config (AdminSetParametersCpi.config c); set_ncn (AdminSetParametersCpi.ncn c); set_ncn_admin
    (AdminSetParametersCpi.ncn_admin c); given set_starting_valid_epoch
    (AdminSetParametersInstructionArgs.starting_valid_epoch (AdminSetParametersCpi.__args c));
    given set_epochs_before_stall
    (AdminSetParametersInstructionArgs.epochs_before_stall (AdminSetParametersCpi.__args c));
    given set_epochs_after_consensus_before_close
    (AdminSetParametersInstructionArgs.epochs_after_consensus_before_close (AdminSetParametersCpi.__args c));
    given set_valid_slots_after_consensus
    (AdminSetParametersInstructionArgs.valid_slots_after_consensus (AdminSetParametersCpi.__args c));
    add_remaining_accounts remaining_accounts].
End builder.
Arguments t : clear implicits.
End AdminSetParametersCpiBuilder.

Module AdminSetNewAdminInstructionArgs.
Record t := mk { role : ConfigAdminRole.t }.
End AdminSetNewAdminInstructionArgs.
Module AdminSetNewAdminCpiAccounts.
Section accounts.
Context {D : Type}.
Record t := mk { config : AccountInfo.t D; ncn : AccountInfo.t D; ncn_admin : AccountInfo.t D;
  new_admin : AccountInfo.t D }.
End accounts.
Arguments t : clear implicits.
End AdminSetNewAdminCpiAccounts.
Module AdminSetNewAdminCpi.
Section cpi.
Context {D W : Type} {runtime_invoke : Invoke D W}.
Record t := mk { __program : AccountInfo.t D; config : AccountInfo.t D; ncn : AccountInfo.t D;
  ncn_admin : AccountInfo.t D; new_admin : AccountInfo.t D; __args : AdminSetNewAdminInstructionArgs.t }.
Definition new (program : AccountInfo.t D) (accounts : AdminSetNewAdminCpiAccounts.t D)
    (args : AdminSetNewAdminInstructionArgs.t) : t :=
  mk program (AdminSetNewAdminCpiAccounts.config accounts) (AdminSetNewAdminCpiAccounts.ncn accounts)
    (AdminSetNewAdminCpiAccounts.ncn_admin accounts) (AdminSetNewAdminCpiAccounts.new_admin accounts) args.
Definition invoke_signed_with_remaining_accounts (signers_seeds : list (list (list u8)))
    (remaining_accounts : list (Remaining D)) (self : t) : M W ProgramError.t unit :=
  let accounts := [Client.new (AccountInfo.key (config self)) false;
    Client.new_readonly (AccountInfo.key (ncn self)) false;
    Client.new_readonly (AccountInfo.key (ncn_admin self)) true;
    Client.new_readonly (AccountInfo.key (new_admin self)) false]
    ++ map remaining_meta remaining_accounts in
  let instruction := Ncn NCN_PROGRAM_ID accounts 26 (NCNProgramInstruction.AdminSetNewAdmin
    (AdminSetNewAdminInstructionArgs.role (__args self))) in
  let account_infos := [__program self; config self; ncn self; ncn_admin self; new_admin self]
    ++ map (fun remaining_account => remaining_account.1.1) remaining_accounts in
  invoke_instruction instruction account_infos signers_seeds.
Definition invoke (self : t) : M W ProgramError.t unit :=
  invoke_signed_with_remaining_accounts [] [] self.
Definition invoke_with_remaining_accounts (remaining_accounts : list (Remaining D)) (self : t)
    : M W ProgramError.t unit :=
  invoke_signed_with_remaining_accounts [] remaining_accounts self.
Definition invoke_signed (signers_seeds : list (list (list u8))) (self : t) : M W ProgramError.t unit :=
  invoke_signed_with_remaining_accounts signers_seeds [] self.
End cpi.
Arguments t : clear implicits.
End AdminSetNewAdminCpi.
Module AdminSetNewAdminCpiBuilder.
Section builder.
Context {D W : Type} {runtime_invoke : Invoke D W}.
Record t := mk { __program : AccountInfo.t D; config : option (AccountInfo.t D);
  ncn : option (AccountInfo.t D); ncn_admin : option (AccountInfo.t D);
  new_admin : option (AccountInfo.t D); role : option ConfigAdminRole.t;
  __remaining_accounts : list (Remaining D) }.
#[global] Instance eta_t : Eta t := fun b => mk (__program b) (config b) (ncn b) (ncn_admin b) (new_admin b)
    (role b) (__remaining_accounts b).
Definition new (program : AccountInfo.t D) : t := mk program None None None None None [].
Definition set_config (x : AccountInfo.t D) (self : t) : t := self <| config := Some x |>.
Definition set_ncn (x : AccountInfo.t D) (self : t) : t := self <| ncn := Some x |>.
Definition set_ncn_admin (x : AccountInfo.t D) (self : t) : t := self <| ncn_admin := Some x |>.
Definition set_new_admin (x : AccountInfo.t D) (self : t) : t := self <| new_admin := Some x |>.
Definition set_role (x : ConfigAdminRole.t) (self : t) : t := self <| role := Some x |>.
Definition add_remaining_account (account : AccountInfo.t D) (is_writable is_signer : bool) (self : t) : t :=
  self <| __remaining_accounts := __remaining_accounts self ++ [(account, is_writable, is_signer)] |>.
Definition add_remaining_accounts (accounts : list (Remaining D)) (self : t) : t :=
  self <| __remaining_accounts := __remaining_accounts self ++ accounts |>.
Definition invoke_signed (signers_seeds : list (list (list u8))) (self : t) : M W ProgramError.t unit :=
  let* role := lift (expect (role self)) in
  let* config := lift (expect (config self)) in
  let* ncn := lift (expect (ncn self)) in
  let* ncn_admin := lift (expect (ncn_admin self)) in
  let* new_admin := lift (expect (new_admin self)) in
  let args := AdminSetNewAdminInstructionArgs.mk role in
  let instruction := AdminSetNewAdminCpi.mk (__program self) config ncn ncn_admin new_admin args in
  AdminSetNewAdminCpi.invoke_signed_with_remaining_accounts signers_seeds (__remaining_accounts self)
    instruction.
Definition invoke (self : t) : M W ProgramError.t unit := invoke_signed [] self.
Definition setters (c : AdminSetNewAdminCpi.t D) (remaining_accounts : list (Remaining D))
    : list (t -> t) :=
  [set_config (AdminSetNewAdminCpi.config c); set_ncn (AdminSetNewAdminCpi.ncn c); set_ncn_admin
    (AdminSetNewAdminCpi.ncn_admin c); set_new_admin (AdminSetNewAdminCpi.new_admin c); set_role
    (AdminSetNewAdminInstructionArgs.role (AdminSetNewAdminCpi.__args c));
    add_remaining_accounts remaining_accounts].
End builder.
Arguments t : clear implicits.
End AdminSetNewAdminCpiBuilder.

Module AdminSetTieBreakerInstructionArgs.
Record t := mk { weather_status : u8; epoch : u64 }.
End AdminSetTieBreakerInstructionArgs.
Module AdminSetTieBreakerCpiAccounts.
Section accounts.
Context {D : Type}.
Record t := mk { epoch_state : AccountInfo.t D; config : AccountInfo.t D; ballot_box : AccountInfo.t D;
  ncn : AccountInfo.t D; tie_breaker_admin : AccountInfo.t D }.
End accounts.
Arguments t : clear implicits.
End AdminSetTieBreakerCpiAccounts.
Module AdminSetTieBreakerCpi.
Section cpi.
Context {D W : Type} {runtime_invoke : Invoke D W}.
Record t := mk { __program : AccountInfo.t D; epoch_state : AccountInfo.t D; config : AccountInfo.t D;
  ballot_box : AccountInfo.t D; ncn : AccountInfo.t D; tie_breaker_admin : AccountInfo.t D;
  __args : AdminSetTieBreakerInstructionArgs.t }.
Definition new (program : AccountInfo.t D) (accounts : AdminSetTieBreakerCpiAccounts.t D)
    (args : AdminSetTieBreakerInstructionArgs.t) : t :=
  mk program (AdminSetTieBreakerCpiAccounts.epoch_state accounts)
    (AdminSetTieBreakerCpiAccounts.config accounts) (AdminSetTieBreakerCpiAccounts.ballot_box accounts)
    (AdminSetTieBreakerCpiAccounts.ncn accounts) (AdminSetTieBreakerCpiAccounts.tie_breaker_admin accounts)
    args.
Definition invoke_signed_with_remaining_accounts (signers_seeds : list (list (list u8)))
    (remaining_accounts : list (Remaining D)) (self : t) : M W ProgramError.t unit :=
  let accounts := [Client.new (AccountInfo.key (epoch_state self)) false;
    Client.new_readonly (AccountInfo.key (config self)) false;
    Client.new (AccountInfo.key (ballot_box self)) false;
    Client.new_readonly (AccountInfo.key (ncn self)) false;
    Client.new_readonly (AccountInfo.key (tie_breaker_admin self)) true]
    ++ map remaining_meta remaining_accounts in
  let instruction := Ncn NCN_PROGRAM_ID accounts 27 (NCNProgramInstruction.AdminSetTieBreaker
    (AdminSetTieBreakerInstructionArgs.weather_status (__args self))
    (AdminSetTieBreakerInstructionArgs.epoch (__args self))) in
  let account_infos := [__program self; epoch_state self; config self; ballot_box self; ncn self;
    tie_breaker_admin self]
    ++ map (fun remaining_account => remaining_account.1.1) remaining_accounts in
  invoke_instruction instruction account_infos signers_seeds.
Definition invoke (self : t) : M W ProgramError.t unit :=
  invoke_signed_with_remaining_accounts [] [] self.
Definition invoke_with_remaining_accounts (remaining_accounts : list (Remaining D)) (self : t)
    : M W ProgramError.t unit :=
  invoke_signed_with_remaining_accounts [] remaining_accounts self.
Definition invoke_signed (signers_seeds : list (list (list u8))) (self : t) : M W ProgramError.t unit :=
  invoke_signed_with_remaining_accounts signers_seeds [] self.
End cpi.
Arguments t : clear implicits.
End AdminSetTieBreakerCpi.
Module AdminSetTieBreakerCpiBuilder.
Section builder.
Context {D W : Type} {runtime_invoke : Invoke D W}.
Record t := mk { __program : AccountInfo.t D; epoch_state : option (AccountInfo.t D);
  config : option (AccountInfo.t D); ballot_box : option (AccountInfo.t D); ncn : option (AccountInfo.t D);
  tie_breaker_admin : option (AccountInfo.t D); weather_status : option u8; epoch : option u64;
  __remaining_accounts : list (Remaining D) }.
#[global] Instance eta_t : Eta t := fun b => mk (__program b) (epoch_state b) (config b) (ballot_box b)
    (ncn b) (tie_breaker_admin b) (weather_status b) (epoch b) (__remaining_accounts b).
Definition new (program : AccountInfo.t D) : t := mk program None None None None None None None [].
Definition set_epoch_state (x : AccountInfo.t D) (self : t) : t := self <| epoch_state := Some x |>.
Definition set_config (x : AccountInfo.t D) (self : t) : t := self <| config := Some x |>.
Definition set_ballot_box (x : AccountInfo.t D) (self : t) : t := self <| ballot_box := Some x |>.
Definition set_ncn (x : AccountInfo.t D) (self : t) : t := self <| ncn := Some x |>.
Definition set_tie_breaker_admin (x : AccountInfo.t D) (self : t) : t :=
  self <| tie_breaker_admin := Some x |>.
Definition set_weather_status (x : u8) (self : t) : t := self <| weather_status := Some x |>.
Definition set_epoch (x : u64) (self : t) : t := self <| epoch := Some x |>.
Definition add_remaining_account (account : AccountInfo.t D) (is_writable is_signer : bool) (self : t) : t :=
  self <| __remaining_accounts := __remaining_accounts self ++ [(account, is_writable, is_signer)] |>.
Definition add_remaining_accounts (accounts : list (Remaining D)) (self : t) : t :=
  self <| __remaining_accounts := __remaining_accounts self ++ accounts |>.
Definition invoke_signed (signers_seeds : list (list (list u8))) (self : t) : M W ProgramError.t unit :=
  let* weather_status := lift (expect (weather_status self)) in
  let* epoch := lift (expect (epoch self)) in
  let* epoch_state := lift (expect (epoch_state self)) in
  let* config := lift (expect (config self)) in
  let* ballot_box := lift (expect (ballot_box self)) in
  let* ncn := lift (expect (ncn self)) in
  let* tie_breaker_admin := lift (expect (tie_breaker_admin self)) in
  let args := AdminSetTieBreakerInstructionArgs.mk weather_status epoch in
  let instruction := AdminSetTieBreakerCpi.mk (__program self) epoch_state config ballot_box ncn
    tie_breaker_admin args in
  AdminSetTieBreakerCpi.invoke_signed_with_remaining_accounts signers_seeds (__remaining_accounts self)
    instruction.
Definition invoke (self : t) : M W ProgramError.t unit := invoke_signed [] self.
Definition setters (c : AdminSetTieBreakerCpi.t D) (remaining_accounts : list (Remaining D))
    : list (t -> t) :=
  [set_epoch_state (AdminSetTieBreakerCpi.epoch_state c); set_config (AdminSetTieBreakerCpi.config c);
    set_ballot_box (AdminSetTieBreakerCpi.ballot_box c); set_ncn (AdminSetTieBreakerCpi.ncn c);
    set_tie_breaker_admin (AdminSetTieBreakerCpi.tie_breaker_admin c); set_weather_status
    (AdminSetTieBreakerInstructionArgs.weather_status (AdminSetTieBreakerCpi.__args c)); set_epoch
    (AdminSetTieBreakerInstructionArgs.epoch (AdminSetTieBreakerCpi.__args c));
    add_remaining_accounts remaining_accounts].
End builder.
Arguments t : clear implicits.
End AdminSetTieBreakerCpiBuilder.

Module AdminSetWeightInstructionArgs.
Record t := mk { st_mint : Pubkey; weight : u128; epoch : u64 }.
End AdminSetWeightInstructionArgs.
Module AdminSetWeightCpiAccounts.
Section accounts.
Context {D : Type}.
Record t := mk { epoch_state : AccountInfo.t D; ncn : AccountInfo.t D; weight_table : AccountInfo.t D;
  weight_table_admin : AccountInfo.t D }.
End accounts.
Arguments t : clear implicits.
End AdminSetWeightCpiAccounts.
Module AdminSetWeightCpi.
Section cpi.
Context {D W : Type} {runtime_invoke : Invoke D W}.
Record t := mk { __program : AccountInfo.t D; epoch_state : AccountInfo.t D; ncn : AccountInfo.t D;
  weight_table : AccountInfo.t D; weight_table_admin : AccountInfo.t D;
  __args : AdminSetWeightInstructionArgs.t }.
Definition new (program : AccountInfo.t D) (accounts : AdminSetWeightCpiAccounts.t D)
    (args : AdminSetWeightInstructionArgs.t) : t :=
  mk program (AdminSetWeightCpiAccounts.epoch_state accounts) (AdminSetWeightCpiAccounts.ncn accounts)
    (AdminSetWeightCpiAccounts.weight_table accounts)
    (AdminSetWeightCpiAccounts.weight_table_admin accounts) args.
Definition invoke_signed_with_remaining_accounts (signers_seeds : list (list (list u8)))
    (remaining_accounts : list (Remaining D)) (self : t) : M W ProgramError.t unit :=
  let accounts := [Client.new (AccountInfo.key (epoch_state self)) false;
    Client.new_readonly (AccountInfo.key (ncn self)) false;
    Client.new (AccountInfo.key (weight_table self)) false;
    Client.new_readonly (AccountInfo.key (weight_table_admin self)) true]
    ++ map remaining_meta remaining_accounts in
  let instruction := Ncn NCN_PROGRAM_ID accounts 28 (NCNProgramInstruction.AdminSetWeight
    (AdminSetWeightInstructionArgs.st_mint (__args self))
    (AdminSetWeightInstructionArgs.weight (__args self))
    (AdminSetWeightInstructionArgs.epoch (__args self))) in
  let account_infos := [__program self; epoch_state self; ncn self; weight_table self;
    weight_table_admin self]
    ++ map (fun remaining_account => remaining_account.1.1) remaining_accounts in
  invoke_instruction instruction account_infos signers_seeds.
Definition invoke (self : t) : M W ProgramError.t unit :=
  invoke_signed_with_remaining_accounts [] [] self.
Definition invoke_with_remaining_accounts (remaining_accounts : list (Remaining D)) (self : t)
    : M W ProgramError.t unit :=
  invoke_signed_with_remaining_accounts [] remaining_accounts self.
Definition invoke_signed (signers_seeds : list (list (list u8))) (self : t) : M W ProgramError.t unit :=
  invoke_signed_with_remaining_accounts signers_seeds [] self.
End cpi.
Arguments t : clear implicits.
End AdminSetWeightCpi.
Module AdminSetWeightCpiBuilder.
Section builder.
Context {D W : Type} {runtime_invoke : Invoke D W}.
Record t := mk { __program : AccountInfo.t D; epoch_state : option (AccountInfo.t D);
  ncn : option (AccountInfo.t D); weight_table : option (AccountInfo.t D);
  weight_table_admin : option (AccountInfo.t D); st_mint : option Pubkey; weight : option u128;
  epoch : option u64; __remaining_accounts : list (Remaining D) }.
#[global] Instance eta_t : Eta t := fun b => mk (__program b) (epoch_state b) (ncn b) (weight_table b)
    (weight_table_admin b) (st_mint b) (weight b) (epoch b) (__remaining_accounts b).
Definition new (program : AccountInfo.t D) : t := mk program None None None None None None None [].
Definition set_epoch_state (x : AccountInfo.t D) (self : t) : t := self <| epoch_state := Some x |>.
Definition set_ncn (x : AccountInfo.t D) (self : t) : t := self <| ncn := Some x |>.
Definition set_weight_table (x : AccountInfo.t D) (self : t) : t := self <| weight_table := Some x |>.
Definition set_weight_table_admin (x : AccountInfo.t D) (self : t) : t :=
  self <| weight_table_admin := Some x |>.
Definition set_st_mint (x : Pubkey) (self : t) : t := self <| st_mint := Some x |>.
Definition set_weight (x : u128) (self : t) : t := self <| weight := Some x |>.
Definition set_epoch (x : u64) (self : t) : t := self <| epoch := Some x |>.
Definition add_remaining_account (account : AccountInfo.t D) (is_writable is_signer : bool) (self : t) : t :=
  self <| __remaining_accounts := __remaining_accounts self ++ [(account, is_writable, is_signer)] |>.
Definition add_remaining_accounts (accounts : list (Remaining D)) (self : t) : t :=
  self <| __remaining_accounts := __remaining_accounts self ++ accounts |>.
Definition invoke_signed (signers_seeds : list (list (list u8))) (self : t) : M W ProgramError.t unit :=
  let* st_mint := lift (expect (st_mint self)) in
  let* weight := lift (expect (weight self)) in
  let* epoch := lift (expect (epoch self)) in
  let* epoch_state := lift (expect (epoch_state self)) in
  let* ncn := lift (expect (ncn self)) in
  let* weight_table := lift (expect (weight_table self)) in
  let* weight_table_admin := lift (expect (weight_table_admin self)) in
  let args := AdminSetWeightInstructionArgs.mk st_mint weight epoch in
  let instruction := AdminSetWeightCpi.mk (__program self) epoch_state ncn weight_table weight_table_admin
    args in
  AdminSetWeightCpi.invoke_signed_with_remaining_accounts signers_seeds (__remaining_accounts self)
    instruction.
Definition invoke (self : t) : M W ProgramError.t unit := invoke_signed [] self.
Definition setters (c : AdminSetWeightCpi.t D) (remaining_accounts : list (Remaining D)) : list (t -> t) :=
  [set_epoch_state (AdminSetWeightCpi.epoch_state c); set_ncn (AdminSetWeightCpi.ncn c); set_weight_table
    (AdminSetWeightCpi.weight_table c); set_weight_table_admin (AdminSetWeightCpi.weight_table_admin c);
    set_st_mint (AdminSetWeightInstructionArgs.st_mint (AdminSetWeightCpi.__args c)); set_weight
    (AdminSetWeightInstructionArgs.weight (AdminSetWeightCpi.__args c)); set_epoch
    (AdminSetWeightInstructionArgs.epoch (AdminSetWeightCpi.__args c));
    add_remaining_accounts remaining_accounts].
End builder.
Arguments t : clear implicits.
End AdminSetWeightCpiBuilder.

Module AdminRegisterStMintInstructionArgs.
Record t := mk { weight : option u128 }.
End AdminRegisterStMintInstructionArgs.
Module AdminRegisterStMintCpiAccounts.
Section accounts.
Context {D : Type}.
Record t := mk { config : AccountInfo.t D; ncn : AccountInfo.t D; st_mint : AccountInfo.t D;
  vault_registry : AccountInfo.t D; admin : AccountInfo.t D }.
End accounts.
Arguments t : clear implicits.
End AdminRegisterStMintCpiAccounts.
Module AdminRegisterStMintCpi.
Section cpi.
Context {D W : Type} {runtime_invoke : Invoke D W}.
Record t := mk { __program : AccountInfo.t D; config : AccountInfo.t D; ncn : AccountInfo.t D;
  st_mint : AccountInfo.t D; vault_registry : AccountInfo.t D; admin : AccountInfo.t D;
  __args : AdminRegisterStMintInstructionArgs.t }.
Definition new (program : AccountInfo.t D) (accounts : AdminRegisterStMintCpiAccounts.t D)
    (args : AdminRegisterStMintInstructionArgs.t) : t :=
  mk program (AdminRegisterStMintCpiAccounts.config accounts) (AdminRegisterStMintCpiAccounts.ncn accounts)
    (AdminRegisterStMintCpiAccounts.st_mint accounts)
    (AdminRegisterStMintCpiAccounts.vault_registry accounts) (AdminRegisterStMintCpiAccounts.admin accounts)
    args.
Definition invoke_signed_with_remaining_accounts (signers_seeds : list (list (list u8)))
    (remaining_accounts : list (Remaining D)) (self : t) : M W ProgramError.t unit :=
  let accounts := [Client.new_readonly (AccountInfo.key (config self)) false;
    Client.new_readonly (AccountInfo.key (ncn self)) false;
    Client.new_readonly (AccountInfo.key (st_mint self)) false;
    Client.new (AccountInfo.key (vault_registry self)) false;
    Client.new (AccountInfo.key (admin self)) true]
    ++ map remaining_meta remaining_accounts in
  let instruction := Ncn NCN_PROGRAM_ID accounts 29 (NCNProgramInstruction.AdminRegisterStMint
    (AdminRegisterStMintInstructionArgs.weight (__args self))) in
  let account_infos := [__program self; config self; ncn self; st_mint self; vault_registry self;
    admin self]
    ++ map (fun remaining_account => remaining_account.1.1) remaining_accounts in
  invoke_instruction instruction account_infos signers_seeds.
Definition invoke (self : t) : M W ProgramError.t unit :=
  invoke_signed_with_remaining_accounts [] [] self.
Definition invoke_with_remaining_accounts (remaining_accounts : list (Remaining D)) (self : t)
    : M W ProgramError.t unit :=
  invoke_signed_with_remaining_accounts [] remaining_accounts self.
Definition invoke_signed (signers_seeds : list (list (list u8))) (self : t) : M W ProgramError.t unit :=
  invoke_signed_with_remaining_accounts signers_seeds [] self.
End cpi.
Arguments t : clear implicits.
End AdminRegisterStMintCpi.
Module AdminRegisterStMintCpiBuilder.
Section builder.
Context {D W : Type} {runtime_invoke : Invoke D W}.
Record t := mk { __program : AccountInfo.t D; config : option (AccountInfo.t D);
  ncn : option (AccountInfo.t D); st_mint : option (AccountInfo.t D);
  vault_registry : option (AccountInfo.t D); admin : option (AccountInfo.t D); weight : option u128;
  __remaining_accounts : list (Remaining D) }.
#[global] Instance eta_t : Eta t := fun b => mk (__program b) (config b) (ncn b) (st_mint b)
    (vault_registry b) (admin b) (weight b) (__remaining_accounts b).
Definition new (program : AccountInfo.t D) : t := mk program None None None None None None [].
Definition set_config (x : AccountInfo.t D) (self : t) : t := self <| config := Some x |>.
Definition set_ncn (x : AccountInfo.t D) (self : t) : t := self <| ncn := Some x |>.
Definition set_st_mint (x : AccountInfo.t D) (self : t) : t := self <| st_mint := Some x |>.
Definition set_vault_registry (x : AccountInfo.t D) (self : t) : t := self <| vault_registry := Some x |>.
Definition set_admin (x : AccountInfo.t D) (self : t) : t := self <| admin := Some x |>.
Definition set_weight (x : u128) (self : t) : t := self <| weight := Some x |>.
Definition add_remaining_account (account : AccountInfo.t D) (is_writable is_signer : bool) (self : t) : t :=
  self <| __remaining_accounts := __remaining_accounts self ++ [(account, is_writable, is_signer)] |>.
Definition add_remaining_accounts (accounts : list (Remaining D)) (self : t) : t :=
  self <| __remaining_accounts := __remaining_accounts self ++ accounts |>.
Definition invoke_signed (signers_seeds : list (list (list u8))) (self : t) : M W ProgramError.t unit :=
  let* config := lift (expect (config self)) in
  let* ncn := lift (expect (ncn self)) in
  let* st_mint := lift (expect (st_mint self)) in
  let* vault_registry := lift (expect (vault_registry self)) in
  let* admin := lift (expect (admin self)) in
  let args := AdminRegisterStMintInstructionArgs.mk (weight self) in
  let instruction := AdminRegisterStMintCpi.mk (__program self) config ncn st_mint vault_registry admin args
    in
  AdminRegisterStMintCpi.invoke_signed_with_remaining_accounts signers_seeds (__remaining_accounts self)
    instruction.
Definition invoke (self : t) : M W ProgramError.t unit := invoke_signed [] self.
Definition setters (c : AdminRegisterStMintCpi.t D) (remaining_accounts : list (Remaining D))
    : list (t -> t) :=
  [set_config (AdminRegisterStMintCpi.config c); set_ncn (AdminRegisterStMintCpi.ncn c); set_st_mint
    (AdminRegisterStMintCpi.st_mint c); set_vault_registry (AdminRegisterStMintCpi.vault_registry c);
    set_admin (AdminRegisterStMintCpi.admin c); given set_weight
    (AdminRegisterStMintInstructionArgs.weight (AdminRegisterStMintCpi.__args c));
    add_remaining_accounts remaining_accounts].
End builder.
Arguments t : clear implicits.
End AdminRegisterStMintCpiBuilder.

Module AdminSetStMintInstructionArgs.
Record t := mk { st_mint : Pubkey; weight : option u128 }.
End AdminSetStMintInstructionArgs.
Module AdminSetStMintCpiAccounts.
Section accounts.
Context {D : Type}.
Record t := mk { config : AccountInfo.t D; ncn : AccountInfo.t D; vault_registry : AccountInfo.t D;
  admin : AccountInfo.t D }.
End accounts.
Arguments t : clear implicits.
End AdminSetStMintCpiAccounts.
Module AdminSetStMintCpi.
Section cpi.
Context {D W : Type} {runtime_invoke : Invoke D W}.
Record t := mk { __program : AccountInfo.t D; config : AccountInfo.t D; ncn : AccountInfo.t D;
  vault_registry : AccountInfo.t D; admin : AccountInfo.t D; __args : AdminSetStMintInstructionArgs.t }.
Definition new (program : AccountInfo.t D) (accounts : AdminSetStMintCpiAccounts.t D)
    (args : AdminSetStMintInstructionArgs.t) : t :=
  mk program (AdminSetStMintCpiAccounts.config accounts) (AdminSetStMintCpiAccounts.ncn accounts)
    (AdminSetStMintCpiAccounts.vault_registry accounts) (AdminSetStMintCpiAccounts.admin accounts) args.
Definition invoke_signed_with_remaining_accounts (signers_seeds : list (list (list u8)))
    (remaining_accounts : list (Remaining D)) (self : t) : M W ProgramError.t unit :=
  let accounts := [Client.new_readonly (AccountInfo.key (config self)) false;
    Client.new_readonly (AccountInfo.key (ncn self)) false;
    Client.new (AccountInfo.key (vault_registry self)) false;
    Client.new (AccountInfo.key (admin self)) true]
    ++ map remaining_meta remaining_accounts in
  let instruction := Ncn NCN_PROGRAM_ID accounts 30 (NCNProgramInstruction.AdminSetStMint
    (AdminSetStMintInstructionArgs.st_mint (__args self))
    (AdminSetStMintInstructionArgs.weight (__args self))) in
  let account_infos := [__program self; config self; ncn self; vault_registry self; admin self]
    ++ map (fun remaining_account => remaining_account.1.1) remaining_accounts in
  invoke_instruction instruction account_infos signers_seeds.
Definition invoke (self : t) : M W ProgramError.t unit :=
  invoke_signed_with_remaining_accounts [] [] self.
Definition invoke_with_remaining_accounts (remaining_accounts : list (Remaining D)) (self : t)
    : M W ProgramError.t unit :=
  invoke_signed_with_remaining_accounts [] remaining_accounts self.
Definition invoke_signed (signers_seeds : list (list (list u8))) (self : t) : M W ProgramError.t unit :=
  invoke_signed_with_remaining_accounts signers_seeds [] self.
End cpi.
Arguments t : clear implicits.
End AdminSetStMintCpi.
Module AdminSetStMintCpiBuilder.
Section builder.
Context {D W : Type} {runtime_invoke : Invoke D W}.
Record t := mk { __program : AccountInfo.t D; config : option (AccountInfo.t D);
  ncn : option (AccountInfo.t D); vault_registry : option (AccountInfo.t D);
  admin : option (AccountInfo.t D); st_mint : option Pubkey; weight : option u128;
  __remaining_accounts : list (Remaining D) }.
#[global] Instance eta_t : Eta t := fun b => mk (__program b) (config b) (ncn b) (vault_registry b)
    (admin b) (st_mint b) (weight b) (__remaining_accounts b).
Definition new (program : AccountInfo.t D) : t := mk program None None None None None None [].
Definition set_config (x : AccountInfo.t D) (self : t) : t := self <| config := Some x |>.
Definition set_ncn (x : AccountInfo.t D) (self : t) : t := self <| ncn := Some x |>.
Definition set_vault_registry (x : AccountInfo.t D) (self : t) : t := self <| vault_registry := Some x |>.
Definition set_admin (x : AccountInfo.t D) (self : t) : t := self <| admin := Some x |>.
Definition set_st_mint (x : Pubkey) (self : t) : t := self <| st_mint := Some x |>.
Definition set_weight (x : u128) (self : t) : t := self <| weight := Some x |>.
Definition add_remaining_account (account : AccountInfo.t D) (is_writable is_signer : bool) (self : t) : t :=
  self <| __remaining_accounts := __remaining_accounts self ++ [(account, is_writable, is_signer)] |>.
Definition add_remaining_accounts (accounts : list (Remaining D)) (self : t) : t :=
  self <| __remaining_accounts := __remaining_accounts self ++ accounts |>.
Definition invoke_signed (signers_seeds : list (list (list u8))) (self : t) : M W ProgramError.t unit :=
  let* st_mint := lift (expect (st_mint self)) in
  let* config := lift (expect (config self)) in
  let* ncn := lift (expect (ncn self)) in
  let* vault_registry := lift (expect (vault_registry self)) in
  let* admin := lift (expect (admin self)) in
  let args := AdminSetStMintInstructionArgs.mk st_mint (weight self) in
  let instruction := AdminSetStMintCpi.mk (__program self) config ncn vault_registry admin args in
  AdminSetStMintCpi.invoke_signed_with_remaining_accounts signers_seeds (__remaining_accounts self)
    instruction.
Definition invoke (self : t) : M W ProgramError.t unit := invoke_signed [] self.
Definition setters (c : AdminSetStMintCpi.t D) (remaining_accounts : list (Remaining D)) : list (t -> t) :=
  [set_config (AdminSetStMintCpi.config c); set_ncn (AdminSetStMintCpi.ncn c); set_vault_registry
    (AdminSetStMintCpi.vault_registry c); set_admin (AdminSetStMintCpi.admin c); set_st_mint
    (AdminSetStMintInstructionArgs.st_mint (AdminSetStMintCpi.__args c)); given set_weight
    (AdminSetStMintInstructionArgs.weight (AdminSetStMintCpi.__args c));
    add_remaining_accounts remaining_accounts].
End builder.
Arguments t : clear implicits.
End AdminSetStMintCpiBuilder.

(** ** All of them *)

Section invocations.
Context {D W : Type} {runtime_invoke : Invoke D W}.

Inductive cpi :=
| CpiInitializeConfig (c : InitializeConfigCpi.t D)
| CpiInitializeVaultRegistry (c : InitializeVaultRegistryCpi.t D)
| CpiReallocVaultRegistry (c : ReallocVaultRegistryCpi.t D)
| CpiRegisterVault (c : RegisterVaultCpi.t D)
| CpiInitializeEpochState (c : InitializeEpochStateCpi.t D)
| CpiInitializeWeightTable (c : InitializeWeightTableCpi.t D)
| CpiSetEpochWeights (c : SetEpochWeightsCpi.t D)
| CpiReallocWeightTable (c : ReallocWeightTableCpi.t D)
| CpiInitializeEpochSnapshot (c : InitializeEpochSnapshotCpi.t D)
| CpiInitializeOperatorSnapshot (c : InitializeOperatorSnapshotCpi.t D)
| CpiSnapshotVaultOperatorDelegation (c : SnapshotVaultOperatorDelegationCpi.t D)
| CpiInitializeBallotBox (c : InitializeBallotBoxCpi.t D)
| CpiReallocBallotBox (c : ReallocBallotBoxCpi.t D)
| CpiCastVote (c : CastVoteCpi.t D)
| CpiInitializeNCNRewardRouter (c : InitializeNCNRewardRouterCpi.t D)
| CpiReallocNCNRewardRouter (c : ReallocNCNRewardRouterCpi.t D)
| CpiRouteNCNRewards (c : RouteNCNRewardsCpi.t D)
| CpiDistributeProtocolRewards (c : DistributeProtocolRewardsCpi.t D)
| CpiDistributeNCNRewards (c : DistributeNCNRewardsCpi.t D)
| CpiInitializeOperatorVaultRewardRouter (c : InitializeOperatorVaultRewardRouterCpi.t D)
| CpiDistributeOperatorVaultRewardRoute (c : DistributeOperatorVaultRewardRouteCpi.t D)
| CpiRouteOperatorVaultRewards (c : RouteOperatorVaultRewardsCpi.t D)
| CpiCloseEpochAccount (c : CloseEpochAccountCpi.t D)
| CpiDistributeOperatorRewards (c : DistributeOperatorRewardsCpi.t D)
| CpiDistributeVaultRewards (c : DistributeVaultRewardsCpi.t D)
| CpiAdminSetParameters (c : AdminSetParametersCpi.t D)
| CpiAdminSetNewAdmin (c : AdminSetNewAdminCpi.t D)
| CpiAdminSetTieBreaker (c : AdminSetTieBreakerCpi.t D)
| CpiAdminSetWeight (c : AdminSetWeightCpi.t D)
| CpiAdminRegisterStMint (c : AdminRegisterStMintCpi.t D)
| CpiAdminSetStMint (c : AdminSetStMintCpi.t D).

(** The instruction's accounts by their keys, and its arguments. *)
Definition call_of (c : cpi) : call :=
  match c with
  | CpiInitializeConfig c => CInitializeConfig (InitializeConfig.mk
      (AccountInfo.key (InitializeConfigCpi.config c)) (AccountInfo.key (InitializeConfigCpi.ncn c))
      (AccountInfo.key (InitializeConfigCpi.ncn_fee_wallet c))
      (AccountInfo.key (InitializeConfigCpi.ncn_admin c))
      (AccountInfo.key (InitializeConfigCpi.tie_breaker_admin c))
      (AccountInfo.key (InitializeConfigCpi.account_payer c))
      (AccountInfo.key (InitializeConfigCpi.system_program c)))
      (InitializeConfigInstructionArgs.epochs_before_stall (InitializeConfigCpi.__args c))
      (InitializeConfigInstructionArgs.epochs_after_consensus_before_close (InitializeConfigCpi.__args c))
      (InitializeConfigInstructionArgs.valid_slots_after_consensus (InitializeConfigCpi.__args c))
      (InitializeConfigInstructionArgs.ncn_fee_bps (InitializeConfigCpi.__args c))
  | CpiInitializeVaultRegistry c => CInitializeVaultRegistry (InitializeVaultRegistry.mk
      (AccountInfo.key (InitializeVaultRegistryCpi.config c))
      (AccountInfo.key (InitializeVaultRegistryCpi.vault_registry c))
      (AccountInfo.key (InitializeVaultRegistryCpi.ncn c))
      (AccountInfo.key (InitializeVaultRegistryCpi.account_payer c))
      (AccountInfo.key (InitializeVaultRegistryCpi.system_program c)))
  | CpiReallocVaultRegistry c => CReallocVaultRegistry (ReallocVaultRegistry.mk
      (AccountInfo.key (ReallocVaultRegistryCpi.config c))
      (AccountInfo.key (ReallocVaultRegistryCpi.vault_registry c))
      (AccountInfo.key (ReallocVaultRegistryCpi.ncn c))
      (AccountInfo.key (ReallocVaultRegistryCpi.account_payer c))
      (AccountInfo.key (ReallocVaultRegistryCpi.system_program c)))
  | CpiRegisterVault c => CRegisterVault (RegisterVault.mk (AccountInfo.key (RegisterVaultCpi.config c))
      (AccountInfo.key (RegisterVaultCpi.vault_registry c)) (AccountInfo.key (RegisterVaultCpi.ncn c))
      (AccountInfo.key (RegisterVaultCpi.vault c)) (AccountInfo.key (RegisterVaultCpi.ncn_vault_ticket c)))
  | CpiInitializeEpochState c => CInitializeEpochState (InitializeEpochState.mk
      (AccountInfo.key (InitializeEpochStateCpi.epoch_marker c))
      (AccountInfo.key (InitializeEpochStateCpi.epoch_state c))
      (AccountInfo.key (InitializeEpochStateCpi.config c)) (AccountInfo.key (InitializeEpochStateCpi.ncn c))
      (AccountInfo.key (InitializeEpochStateCpi.account_payer c))
      (AccountInfo.key (InitializeEpochStateCpi.system_program c)))
      (InitializeEpochStateInstructionArgs.epoch (InitializeEpochStateCpi.__args c))
  | CpiInitializeWeightTable c => CInitializeWeightTable (InitializeWeightTable.mk
      (AccountInfo.key (InitializeWeightTableCpi.epoch_marker c))
      (AccountInfo.key (InitializeWeightTableCpi.epoch_state c))
      (AccountInfo.key (InitializeWeightTableCpi.vault_registry c))
      (AccountInfo.key (InitializeWeightTableCpi.ncn c))
      (AccountInfo.key (InitializeWeightTableCpi.weight_table c))
      (AccountInfo.key (InitializeWeightTableCpi.account_payer c))
      (AccountInfo.key (InitializeWeightTableCpi.system_program c)))
      (InitializeWeightTableInstructionArgs.epoch (InitializeWeightTableCpi.__args c))
  | CpiSetEpochWeights c => CSetEpochWeights (SetEpochWeights.mk
      (AccountInfo.key (SetEpochWeightsCpi.epoch_state c)) (AccountInfo.key (SetEpochWeightsCpi.ncn c))
      (AccountInfo.key (SetEpochWeightsCpi.vault_registry c))
      (AccountInfo.key (SetEpochWeightsCpi.weight_table c)))
      (SetEpochWeightsInstructionArgs.epoch (SetEpochWeightsCpi.__args c))
  | CpiReallocWeightTable c => CReallocWeightTable (ReallocWeightTable.mk
      (AccountInfo.key (ReallocWeightTableCpi.epoch_state c))
      (AccountInfo.key (ReallocWeightTableCpi.config c))
      (AccountInfo.key (ReallocWeightTableCpi.weight_table c))
      (AccountInfo.key (ReallocWeightTableCpi.ncn c))
      (AccountInfo.key (ReallocWeightTableCpi.vault_registry c))
      (AccountInfo.key (ReallocWeightTableCpi.account_payer c))
      (AccountInfo.key (ReallocWeightTableCpi.system_program c)))
      (ReallocWeightTableInstructionArgs.epoch (ReallocWeightTableCpi.__args c))
  | CpiInitializeEpochSnapshot c => CInitializeEpochSnapshot (InitializeEpochSnapshot.mk
      (AccountInfo.key (InitializeEpochSnapshotCpi.epoch_marker c))
      (AccountInfo.key (InitializeEpochSnapshotCpi.epoch_state c))
      (AccountInfo.key (InitializeEpochSnapshotCpi.config c))
      (AccountInfo.key (InitializeEpochSnapshotCpi.ncn c))
      (AccountInfo.key (InitializeEpochSnapshotCpi.weight_table c))
      (AccountInfo.key (InitializeEpochSnapshotCpi.epoch_snapshot c))
      (AccountInfo.key (InitializeEpochSnapshotCpi.account_payer c))
      (AccountInfo.key (InitializeEpochSnapshotCpi.system_program c)))
      (InitializeEpochSnapshotInstructionArgs.epoch (InitializeEpochSnapshotCpi.__args c))
  | CpiInitializeOperatorSnapshot c => CInitializeOperatorSnapshot (InitializeOperatorSnapshot.mk
      (AccountInfo.key (InitializeOperatorSnapshotCpi.epoch_marker c))
      (AccountInfo.key (InitializeOperatorSnapshotCpi.epoch_state c))
      (AccountInfo.key (InitializeOperatorSnapshotCpi.config c))
      (AccountInfo.key (InitializeOperatorSnapshotCpi.restaking_config c))
      (AccountInfo.key (InitializeOperatorSnapshotCpi.ncn c))
      (AccountInfo.key (InitializeOperatorSnapshotCpi.operator c))
      (AccountInfo.key (InitializeOperatorSnapshotCpi.ncn_operator_state c))
      (AccountInfo.key (InitializeOperatorSnapshotCpi.epoch_snapshot c))
      (AccountInfo.key (InitializeOperatorSnapshotCpi.operator_snapshot c))
      (AccountInfo.key (InitializeOperatorSnapshotCpi.account_payer c))
      (AccountInfo.key (InitializeOperatorSnapshotCpi.system_program c)))
      (InitializeOperatorSnapshotInstructionArgs.epoch (InitializeOperatorSnapshotCpi.__args c))
  | CpiSnapshotVaultOperatorDelegation c => CSnapshotVaultOperatorDelegation
      (SnapshotVaultOperatorDelegation.mk
      (AccountInfo.key (SnapshotVaultOperatorDelegationCpi.epoch_state c))
      (AccountInfo.key (SnapshotVaultOperatorDelegationCpi.config c))
      (AccountInfo.key (SnapshotVaultOperatorDelegationCpi.restaking_config c))
      (AccountInfo.key (SnapshotVaultOperatorDelegationCpi.ncn c))
      (AccountInfo.key (SnapshotVaultOperatorDelegationCpi.operator c))
      (AccountInfo.key (SnapshotVaultOperatorDelegationCpi.vault c))
      (AccountInfo.key (SnapshotVaultOperatorDelegationCpi.vault_ncn_ticket c))
      (AccountInfo.key (SnapshotVaultOperatorDelegationCpi.ncn_vault_ticket c))
      (AccountInfo.key (SnapshotVaultOperatorDelegationCpi.vault_operator_delegation c))
      (AccountInfo.key (SnapshotVaultOperatorDelegationCpi.weight_table c))
      (AccountInfo.key (SnapshotVaultOperatorDelegationCpi.epoch_snapshot c))
      (AccountInfo.key (SnapshotVaultOperatorDelegationCpi.operator_snapshot c)))
      (SnapshotVaultOperatorDelegationInstructionArgs.epoch (SnapshotVaultOperatorDelegationCpi.__args c))
  | CpiInitializeBallotBox c => CInitializeBallotBox (InitializeBallotBox.mk
      (AccountInfo.key (InitializeBallotBoxCpi.epoch_marker c))
      (AccountInfo.key (InitializeBallotBoxCpi.epoch_state c))
      (AccountInfo.key (InitializeBallotBoxCpi.config c))
      (AccountInfo.key (InitializeBallotBoxCpi.ballot_box c))
      (AccountInfo.key (InitializeBallotBoxCpi.ncn c))
      (AccountInfo.key (InitializeBallotBoxCpi.account_payer c))
      (AccountInfo.key (InitializeBallotBoxCpi.system_program c))
      (AccountInfo.key (InitializeBallotBoxCpi.consensus_result c)))
      (InitializeBallotBoxInstructionArgs.epoch (InitializeBallotBoxCpi.__args c))
  | CpiReallocBallotBox c => CReallocBallotBox (ReallocBallotBox.mk
      (AccountInfo.key (ReallocBallotBoxCpi.epoch_state c)) (AccountInfo.key (ReallocBallotBoxCpi.config c))
      (AccountInfo.key (ReallocBallotBoxCpi.ballot_box c)) (AccountInfo.key (ReallocBallotBoxCpi.ncn c))
      (AccountInfo.key (ReallocBallotBoxCpi.account_payer c))
      (AccountInfo.key (ReallocBallotBoxCpi.system_program c)))
      (ReallocBallotBoxInstructionArgs.epoch (ReallocBallotBoxCpi.__args c))
  | CpiCastVote c => CCastVote (CastVote.mk (AccountInfo.key (CastVoteCpi.epoch_state c))
      (AccountInfo.key (CastVoteCpi.config c)) (AccountInfo.key (CastVoteCpi.ballot_box c))
      (AccountInfo.key (CastVoteCpi.ncn c)) (AccountInfo.key (CastVoteCpi.epoch_snapshot c))
      (AccountInfo.key (CastVoteCpi.operator_snapshot c)) (AccountInfo.key (CastVoteCpi.operator c))
      (AccountInfo.key (CastVoteCpi.operator_voter c)) (AccountInfo.key (CastVoteCpi.consensus_result c)))
      (CastVoteInstructionArgs.weather_status (CastVoteCpi.__args c))
      (CastVoteInstructionArgs.epoch (CastVoteCpi.__args c))
  | CpiInitializeNCNRewardRouter c => CInitializeNCNRewardRouter (InitializeNCNRewardRouter.mk
      (AccountInfo.key (InitializeNCNRewardRouterCpi.epoch_marker c))
      (AccountInfo.key (InitializeNCNRewardRouterCpi.epoch_state c))
      (AccountInfo.key (InitializeNCNRewardRouterCpi.ncn c))
      (AccountInfo.key (InitializeNCNRewardRouterCpi.ncn_reward_router c))
      (AccountInfo.key (InitializeNCNRewardRouterCpi.ncn_reward_receiver c))
      (AccountInfo.key (InitializeNCNRewardRouterCpi.account_payer c))
      (AccountInfo.key (InitializeNCNRewardRouterCpi.system_program c)))
      (InitializeNCNRewardRouterInstructionArgs.epoch (InitializeNCNRewardRouterCpi.__args c))
  | CpiReallocNCNRewardRouter c => CReallocNCNRewardRouter (ReallocNCNRewardRouter.mk
      (AccountInfo.key (ReallocNCNRewardRouterCpi.epoch_state c))
      (AccountInfo.key (ReallocNCNRewardRouterCpi.config c))
      (AccountInfo.key (ReallocNCNRewardRouterCpi.ncn_reward_router c))
      (AccountInfo.key (ReallocNCNRewardRouterCpi.ncn c))
      (AccountInfo.key (ReallocNCNRewardRouterCpi.account_payer c))
      (AccountInfo.key (ReallocNCNRewardRouterCpi.system_program c)))
      (ReallocNCNRewardRouterInstructionArgs.epoch (ReallocNCNRewardRouterCpi.__args c))
  | CpiRouteNCNRewards c => CRouteNCNRewards (RouteNCNRewards.mk
      (AccountInfo.key (RouteNCNRewardsCpi.epoch_state c)) (AccountInfo.key (RouteNCNRewardsCpi.config c))
      (AccountInfo.key (RouteNCNRewardsCpi.ncn c)) (AccountInfo.key (RouteNCNRewardsCpi.epoch_snapshot c))
      (AccountInfo.key (RouteNCNRewardsCpi.ballot_box c))
      (AccountInfo.key (RouteNCNRewardsCpi.ncn_reward_router c))
      (AccountInfo.key (RouteNCNRewardsCpi.ncn_reward_receiver c)))
      (RouteNCNRewardsInstructionArgs.max_iterations (RouteNCNRewardsCpi.__args c))
      (RouteNCNRewardsInstructionArgs.epoch (RouteNCNRewardsCpi.__args c))
  | CpiDistributeProtocolRewards c => CDistributeProtocolRewards (DistributeProtocolRewards.mk
      (AccountInfo.key (DistributeProtocolRewardsCpi.epoch_state c))
      (AccountInfo.key (DistributeProtocolRewardsCpi.config c))
      (AccountInfo.key (DistributeProtocolRewardsCpi.ncn c))
      (AccountInfo.key (DistributeProtocolRewardsCpi.ncn_reward_router c))
      (AccountInfo.key (DistributeProtocolRewardsCpi.ncn_reward_receiver c))
      (AccountInfo.key (DistributeProtocolRewardsCpi.protocol_fee_wallet c))
      (AccountInfo.key (DistributeProtocolRewardsCpi.system_program c)))
      (DistributeProtocolRewardsInstructionArgs.epoch (DistributeProtocolRewardsCpi.__args c))
  | CpiDistributeNCNRewards c => CDistributeNCNRewards (DistributeNCNRewards.mk
      (AccountInfo.key (DistributeNCNRewardsCpi.epoch_state c))
      (AccountInfo.key (DistributeNCNRewardsCpi.config c)) (AccountInfo.key (DistributeNCNRewardsCpi.ncn c))
      (AccountInfo.key (DistributeNCNRewardsCpi.ncn_reward_router c))
      (AccountInfo.key (DistributeNCNRewardsCpi.ncn_reward_receiver c))
      (AccountInfo.key (DistributeNCNRewardsCpi.ncn_fee_wallet c))
      (AccountInfo.key (DistributeNCNRewardsCpi.system_program c)))
      (DistributeNCNRewardsInstructionArgs.epoch (DistributeNCNRewardsCpi.__args c))
  | CpiInitializeOperatorVaultRewardRouter c => CInitializeOperatorVaultRewardRouter
      (InitializeOperatorVaultRewardRouter.mk
      (AccountInfo.key (InitializeOperatorVaultRewardRouterCpi.epoch_marker c))
      (AccountInfo.key (InitializeOperatorVaultRewardRouterCpi.epoch_state c))
      (AccountInfo.key (InitializeOperatorVaultRewardRouterCpi.ncn c))
      (AccountInfo.key (InitializeOperatorVaultRewardRouterCpi.operator c))
      (AccountInfo.key (InitializeOperatorVaultRewardRouterCpi.operator_snapshot c))
      (AccountInfo.key (InitializeOperatorVaultRewardRouterCpi.operator_vault_reward_router c))
      (AccountInfo.key (InitializeOperatorVaultRewardRouterCpi.operator_vault_reward_receiver c))
      (AccountInfo.key (InitializeOperatorVaultRewardRouterCpi.account_payer c))
      (AccountInfo.key (InitializeOperatorVaultRewardRouterCpi.system_program c)))
      (InitializeOperatorVaultRewardRouterInstructionArgs.epoch (InitializeOperatorVaultRewardRouterCpi.__args c))
  | CpiDistributeOperatorVaultRewardRoute c => CDistributeOperatorVaultRewardRoute
      (DistributeOperatorVaultRewardRoute.mk
      (AccountInfo.key (DistributeOperatorVaultRewardRouteCpi.epoch_state c))
      (AccountInfo.key (DistributeOperatorVaultRewardRouteCpi.config c))
      (AccountInfo.key (DistributeOperatorVaultRewardRouteCpi.ncn c))
      (AccountInfo.key (DistributeOperatorVaultRewardRouteCpi.operator c))
      (AccountInfo.key (DistributeOperatorVaultRewardRouteCpi.ncn_reward_router c))
      (AccountInfo.key (DistributeOperatorVaultRewardRouteCpi.ncn_reward_receiver c))
      (AccountInfo.key (DistributeOperatorVaultRewardRouteCpi.operator_vault_reward_router c))
      (AccountInfo.key (DistributeOperatorVaultRewardRouteCpi.operator_vault_reward_receiver c))
      (AccountInfo.key (DistributeOperatorVaultRewardRouteCpi.system_program c)))
      (DistributeOperatorVaultRewardRouteInstructionArgs.epoch (DistributeOperatorVaultRewardRouteCpi.__args c))
  | CpiRouteOperatorVaultRewards c => CRouteOperatorVaultRewards (RouteOperatorVaultRewards.mk
      (AccountInfo.key (RouteOperatorVaultRewardsCpi.epoch_state c))
      (AccountInfo.key (RouteOperatorVaultRewardsCpi.ncn c))
      (AccountInfo.key (RouteOperatorVaultRewardsCpi.operator c))
      (AccountInfo.key (RouteOperatorVaultRewardsCpi.operator_snapshot c))
      (AccountInfo.key (RouteOperatorVaultRewardsCpi.operator_vault_reward_router c))
      (AccountInfo.key (RouteOperatorVaultRewardsCpi.operator_vault_reward_receiver c)))
      (RouteOperatorVaultRewardsInstructionArgs.max_iterations (RouteOperatorVaultRewardsCpi.__args c))
      (RouteOperatorVaultRewardsInstructionArgs.epoch (RouteOperatorVaultRewardsCpi.__args c))
  | CpiCloseEpochAccount c => CCloseEpochAccount (CloseEpochAccount.mk
      (AccountInfo.key (CloseEpochAccountCpi.epoch_marker c))
      (AccountInfo.key (CloseEpochAccountCpi.epoch_state c))
      (AccountInfo.key (CloseEpochAccountCpi.config c)) (AccountInfo.key (CloseEpochAccountCpi.ncn c))
      (AccountInfo.key (CloseEpochAccountCpi.account_to_close c))
      (AccountInfo.key (CloseEpochAccountCpi.account_payer c))
      (AccountInfo.key (CloseEpochAccountCpi.system_program c))
      (option_map AccountInfo.key (CloseEpochAccountCpi.ncn_fee_wallet c))
      (option_map AccountInfo.key (CloseEpochAccountCpi.receiver_to_close c)))
      (CloseEpochAccountInstructionArgs.epoch (CloseEpochAccountCpi.__args c))
  | CpiDistributeOperatorRewards c => CDistributeOperatorRewards (DistributeOperatorRewards.mk
      (AccountInfo.key (DistributeOperatorRewardsCpi.epoch_state c))
      (AccountInfo.key (DistributeOperatorRewardsCpi.config c))
      (AccountInfo.key (DistributeOperatorRewardsCpi.ncn c))
      (AccountInfo.key (DistributeOperatorRewardsCpi.operator c))
      (AccountInfo.key (DistributeOperatorRewardsCpi.operator_snapshot c))
      (AccountInfo.key (DistributeOperatorRewardsCpi.operator_vault_reward_router c))
      (AccountInfo.key (DistributeOperatorRewardsCpi.operator_vault_reward_receiver c))
      (AccountInfo.key (DistributeOperatorRewardsCpi.system_program c)))
      (DistributeOperatorRewardsInstructionArgs.epoch (DistributeOperatorRewardsCpi.__args c))
  | CpiDistributeVaultRewards c => CDistributeVaultRewards (DistributeVaultRewards.mk
      (AccountInfo.key (DistributeVaultRewardsCpi.epoch_state c))
      (AccountInfo.key (DistributeVaultRewardsCpi.config c))
      (AccountInfo.key (DistributeVaultRewardsCpi.ncn c))
      (AccountInfo.key (DistributeVaultRewardsCpi.operator c))
      (AccountInfo.key (DistributeVaultRewardsCpi.vault c))
      (AccountInfo.key (DistributeVaultRewardsCpi.operator_snapshot c))
      (AccountInfo.key (DistributeVaultRewardsCpi.operator_vault_reward_router c))
      (AccountInfo.key (DistributeVaultRewardsCpi.operator_vault_reward_receiver c))
      (AccountInfo.key (DistributeVaultRewardsCpi.system_program c)))
      (DistributeVaultRewardsInstructionArgs.epoch (DistributeVaultRewardsCpi.__args c))
  | CpiAdminSetParameters c => CAdminSetParameters (AdminSetParameters.mk
      (AccountInfo.key (AdminSetParametersCpi.config c)) (AccountInfo.key (AdminSetParametersCpi.ncn c))
      (AccountInfo.key (AdminSetParametersCpi.ncn_admin c)))
      (AdminSetParametersInstructionArgs.starting_valid_epoch (AdminSetParametersCpi.__args c))
      (AdminSetParametersInstructionArgs.epochs_before_stall (AdminSetParametersCpi.__args c))
      (AdminSetParametersInstructionArgs.epochs_after_consensus_before_close (AdminSetParametersCpi.__args c))
      (AdminSetParametersInstructionArgs.valid_slots_after_consensus (AdminSetParametersCpi.__args c))
  | CpiAdminSetNewAdmin c => CAdminSetNewAdmin (AdminSetNewAdmin.mk
      (AccountInfo.key (AdminSetNewAdminCpi.config c)) (AccountInfo.key (AdminSetNewAdminCpi.ncn c))
      (AccountInfo.key (AdminSetNewAdminCpi.ncn_admin c))
      (AccountInfo.key (AdminSetNewAdminCpi.new_admin c)))
      (AdminSetNewAdminInstructionArgs.role (AdminSetNewAdminCpi.__args c))
  | CpiAdminSetTieBreaker c => CAdminSetTieBreaker (AdminSetTieBreaker.mk
      (AccountInfo.key (AdminSetTieBreakerCpi.epoch_state c))
      (AccountInfo.key (AdminSetTieBreakerCpi.config c))
      (AccountInfo.key (AdminSetTieBreakerCpi.ballot_box c)) (AccountInfo.key (AdminSetTieBreakerCpi.ncn c))
      (AccountInfo.key (AdminSetTieBreakerCpi.tie_breaker_admin c)))
      (AdminSetTieBreakerInstructionArgs.weather_status (AdminSetTieBreakerCpi.__args c))
      (AdminSetTieBreakerInstructionArgs.epoch (AdminSetTieBreakerCpi.__args c))
  | CpiAdminSetWeight c => CAdminSetWeight (AdminSetWeight.mk
      (AccountInfo.key (AdminSetWeightCpi.epoch_state c)) (AccountInfo.key (AdminSetWeightCpi.ncn c))
      (AccountInfo.key (AdminSetWeightCpi.weight_table c))
      (AccountInfo.key (AdminSetWeightCpi.weight_table_admin c)))
      (AdminSetWeightInstructionArgs.st_mint (AdminSetWeightCpi.__args c))
      (AdminSetWeightInstructionArgs.weight (AdminSetWeightCpi.__args c))
      (AdminSetWeightInstructionArgs.epoch (AdminSetWeightCpi.__args c))
  | CpiAdminRegisterStMint c => CAdminRegisterStMint (AdminRegisterStMint.mk
      (AccountInfo.key (AdminRegisterStMintCpi.config c)) (AccountInfo.key (AdminRegisterStMintCpi.ncn c))
      (AccountInfo.key (AdminRegisterStMintCpi.st_mint c))
      (AccountInfo.key (AdminRegisterStMintCpi.vault_registry c))
      (AccountInfo.key (AdminRegisterStMintCpi.admin c)))
      (AdminRegisterStMintInstructionArgs.weight (AdminRegisterStMintCpi.__args c))
  | CpiAdminSetStMint c => CAdminSetStMint (AdminSetStMint.mk (AccountInfo.key (AdminSetStMintCpi.config c))
      (AccountInfo.key (AdminSetStMintCpi.ncn c)) (AccountInfo.key (AdminSetStMintCpi.vault_registry c))
      (AccountInfo.key (AdminSetStMintCpi.admin c)))
      (AdminSetStMintInstructionArgs.st_mint (AdminSetStMintCpi.__args c))
      (AdminSetStMintInstructionArgs.weight (AdminSetStMintCpi.__args c))
  end.

(** The account of the program to invoke. *)
Definition program_of (c : cpi) : AccountInfo.t D :=
  match c with
  | CpiInitializeConfig c => InitializeConfigCpi.__program c
  | CpiInitializeVaultRegistry c => InitializeVaultRegistryCpi.__program c
  | CpiReallocVaultRegistry c => ReallocVaultRegistryCpi.__program c
  | CpiRegisterVault c => RegisterVaultCpi.__program c
  | CpiInitializeEpochState c => InitializeEpochStateCpi.__program c
  | CpiInitializeWeightTable c => InitializeWeightTableCpi.__program c
  | CpiSetEpochWeights c => SetEpochWeightsCpi.__program c
  | CpiReallocWeightTable c => ReallocWeightTableCpi.__program c
  | CpiInitializeEpochSnapshot c => InitializeEpochSnapshotCpi.__program c
  | CpiInitializeOperatorSnapshot c => InitializeOperatorSnapshotCpi.__program c
  | CpiSnapshotVaultOperatorDelegation c => SnapshotVaultOperatorDelegationCpi.__program c
  | CpiInitializeBallotBox c => InitializeBallotBoxCpi.__program c
  | CpiReallocBallotBox c => ReallocBallotBoxCpi.__program c
  | CpiCastVote c => CastVoteCpi.__program c
  | CpiInitializeNCNRewardRouter c => InitializeNCNRewardRouterCpi.__program c
  | CpiReallocNCNRewardRouter c => ReallocNCNRewardRouterCpi.__program c
  | CpiRouteNCNRewards c => RouteNCNRewardsCpi.__program c
  | CpiDistributeProtocolRewards c => DistributeProtocolRewardsCpi.__program c
  | CpiDistributeNCNRewards c => DistributeNCNRewardsCpi.__program c
  | CpiInitializeOperatorVaultRewardRouter c => InitializeOperatorVaultRewardRouterCpi.__program c
  | CpiDistributeOperatorVaultRewardRoute c => DistributeOperatorVaultRewardRouteCpi.__program c
  | CpiRouteOperatorVaultRewards c => RouteOperatorVaultRewardsCpi.__program c
  | CpiCloseEpochAccount c => CloseEpochAccountCpi.__program c
  | CpiDistributeOperatorRewards c => DistributeOperatorRewardsCpi.__program c
  | CpiDistributeVaultRewards c => DistributeVaultRewardsCpi.__program c
  | CpiAdminSetParameters c => AdminSetParametersCpi.__program c
  | CpiAdminSetNewAdmin c => AdminSetNewAdminCpi.__program c
  | CpiAdminSetTieBreaker c => AdminSetTieBreakerCpi.__program c
  | CpiAdminSetWeight c => AdminSetWeightCpi.__program c
  | CpiAdminRegisterStMint c => AdminRegisterStMintCpi.__program c
  | CpiAdminSetStMint c => AdminSetStMintCpi.__program c
  end.

Definition invoke_signed_with_remaining_accounts (signers_seeds : list (list (list u8)))
    (remaining_accounts : list (Remaining D)) (c : cpi) : M W ProgramError.t unit :=
  match c with
  | CpiInitializeConfig c => InitializeConfigCpi.invoke_signed_with_remaining_accounts signers_seeds
      remaining_accounts c
  | CpiInitializeVaultRegistry c => InitializeVaultRegistryCpi.invoke_signed_with_remaining_accounts
      signers_seeds remaining_accounts c
  | CpiReallocVaultRegistry c => ReallocVaultRegistryCpi.invoke_signed_with_remaining_accounts signers_seeds
      remaining_accounts c
  | CpiRegisterVault c => RegisterVaultCpi.invoke_signed_with_remaining_accounts signers_seeds
      remaining_accounts c
  | CpiInitializeEpochState c => InitializeEpochStateCpi.invoke_signed_with_remaining_accounts signers_seeds
      remaining_accounts c
  | CpiInitializeWeightTable c => InitializeWeightTableCpi.invoke_signed_with_remaining_accounts
      signers_seeds remaining_accounts c
  | CpiSetEpochWeights c => SetEpochWeightsCpi.invoke_signed_with_remaining_accounts signers_seeds
      remaining_accounts c
  | CpiReallocWeightTable c => ReallocWeightTableCpi.invoke_signed_with_remaining_accounts signers_seeds
      remaining_accounts c
  | CpiInitializeEpochSnapshot c => InitializeEpochSnapshotCpi.invoke_signed_with_remaining_accounts
      signers_seeds remaining_accounts c
  | CpiInitializeOperatorSnapshot c => InitializeOperatorSnapshotCpi.invoke_signed_with_remaining_accounts
      signers_seeds remaining_accounts c
  | CpiSnapshotVaultOperatorDelegation c =>
      SnapshotVaultOperatorDelegationCpi.invoke_signed_with_remaining_accounts signers_seeds
      remaining_accounts c
  | CpiInitializeBallotBox c => InitializeBallotBoxCpi.invoke_signed_with_remaining_accounts signers_seeds
      remaining_accounts c
  | CpiReallocBallotBox c => ReallocBallotBoxCpi.invoke_signed_with_remaining_accounts signers_seeds
      remaining_accounts c
  | CpiCastVote c => CastVoteCpi.invoke_signed_with_remaining_accounts signers_seeds remaining_accounts c
  | CpiInitializeNCNRewardRouter c => InitializeNCNRewardRouterCpi.invoke_signed_with_remaining_accounts
      signers_seeds remaining_accounts c
  | CpiReallocNCNRewardRouter c => ReallocNCNRewardRouterCpi.invoke_signed_with_remaining_accounts
      signers_seeds remaining_accounts c
  | CpiRouteNCNRewards c => RouteNCNRewardsCpi.invoke_signed_with_remaining_accounts signers_seeds
      remaining_accounts c
  | CpiDistributeProtocolRewards c => DistributeProtocolRewardsCpi.invoke_signed_with_remaining_accounts
      signers_seeds remaining_accounts c
  | CpiDistributeNCNRewards c => DistributeNCNRewardsCpi.invoke_signed_with_remaining_accounts signers_seeds
      remaining_accounts c
  | CpiInitializeOperatorVaultRewardRouter c =>
      InitializeOperatorVaultRewardRouterCpi.invoke_signed_with_remaining_accounts signers_seeds
      remaining_accounts c
  | CpiDistributeOperatorVaultRewardRoute c =>
      DistributeOperatorVaultRewardRouteCpi.invoke_signed_with_remaining_accounts signers_seeds
      remaining_accounts c
  | CpiRouteOperatorVaultRewards c => RouteOperatorVaultRewardsCpi.invoke_signed_with_remaining_accounts
      signers_seeds remaining_accounts c
  | CpiCloseEpochAccount c => CloseEpochAccountCpi.invoke_signed_with_remaining_accounts signers_seeds
      remaining_accounts c
  | CpiDistributeOperatorRewards c => DistributeOperatorRewardsCpi.invoke_signed_with_remaining_accounts
      signers_seeds remaining_accounts c
  | CpiDistributeVaultRewards c => DistributeVaultRewardsCpi.invoke_signed_with_remaining_accounts
      signers_seeds remaining_accounts c
  | CpiAdminSetParameters c => AdminSetParametersCpi.invoke_signed_with_remaining_accounts signers_seeds
      remaining_accounts c
  | CpiAdminSetNewAdmin c => AdminSetNewAdminCpi.invoke_signed_with_remaining_accounts signers_seeds
      remaining_accounts c
  | CpiAdminSetTieBreaker c => AdminSetTieBreakerCpi.invoke_signed_with_remaining_accounts signers_seeds
      remaining_accounts c
  | CpiAdminSetWeight c => AdminSetWeightCpi.invoke_signed_with_remaining_accounts signers_seeds
      remaining_accounts c
  | CpiAdminRegisterStMint c => AdminRegisterStMintCpi.invoke_signed_with_remaining_accounts signers_seeds
      remaining_accounts c
  | CpiAdminSetStMint c => AdminSetStMintCpi.invoke_signed_with_remaining_accounts signers_seeds
      remaining_accounts c
  end.

Inductive cpi_builder :=
| BInitializeConfig (b : InitializeConfigCpiBuilder.t D)
| BInitializeVaultRegistry (b : InitializeVaultRegistryCpiBuilder.t D)
| BReallocVaultRegistry (b : ReallocVaultRegistryCpiBuilder.t D)
| BRegisterVault (b : RegisterVaultCpiBuilder.t D)
| BInitializeEpochState (b : InitializeEpochStateCpiBuilder.t D)
| BInitializeWeightTable (b : InitializeWeightTableCpiBuilder.t D)
| BSetEpochWeights (b : SetEpochWeightsCpiBuilder.t D)
| BReallocWeightTable (b : ReallocWeightTableCpiBuilder.t D)
| BInitializeEpochSnapshot (b : InitializeEpochSnapshotCpiBuilder.t D)
| BInitializeOperatorSnapshot (b : InitializeOperatorSnapshotCpiBuilder.t D)
| BSnapshotVaultOperatorDelegation (b : SnapshotVaultOperatorDelegationCpiBuilder.t D)
| BInitializeBallotBox (b : InitializeBallotBoxCpiBuilder.t D)
| BReallocBallotBox (b : ReallocBallotBoxCpiBuilder.t D)
| BCastVote (b : CastVoteCpiBuilder.t D)
| BInitializeNCNRewardRouter (b : InitializeNCNRewardRouterCpiBuilder.t D)
| BReallocNCNRewardRouter (b : ReallocNCNRewardRouterCpiBuilder.t D)
| BRouteNCNRewards (b : RouteNCNRewardsCpiBuilder.t D)
| BDistributeProtocolRewards (b : DistributeProtocolRewardsCpiBuilder.t D)
| BDistributeNCNRewards (b : DistributeNCNRewardsCpiBuilder.t D)
| BInitializeOperatorVaultRewardRouter (b : InitializeOperatorVaultRewardRouterCpiBuilder.t D)
| BDistributeOperatorVaultRewardRoute (b : DistributeOperatorVaultRewardRouteCpiBuilder.t D)
| BRouteOperatorVaultRewards (b : RouteOperatorVaultRewardsCpiBuilder.t D)
| BCloseEpochAccount (b : CloseEpochAccountCpiBuilder.t D)
| BDistributeOperatorRewards (b : DistributeOperatorRewardsCpiBuilder.t D)
| BDistributeVaultRewards (b : DistributeVaultRewardsCpiBuilder.t D)
| BAdminSetParameters (b : AdminSetParametersCpiBuilder.t D)
| BAdminSetNewAdmin (b : AdminSetNewAdminCpiBuilder.t D)
| BAdminSetTieBreaker (b : AdminSetTieBreakerCpiBuilder.t D)
| BAdminSetWeight (b : AdminSetWeightCpiBuilder.t D)
| BAdminRegisterStMint (b : AdminRegisterStMintCpiBuilder.t D)
| BAdminSetStMint (b : AdminSetStMintCpiBuilder.t D).

Definition invoke_signed (signers_seeds : list (list (list u8))) (b : cpi_builder) : M W ProgramError.t unit :=
  match b with
  | BInitializeConfig b => InitializeConfigCpiBuilder.invoke_signed signers_seeds b
  | BInitializeVaultRegistry b => InitializeVaultRegistryCpiBuilder.invoke_signed signers_seeds b
  | BReallocVaultRegistry b => ReallocVaultRegistryCpiBuilder.invoke_signed signers_seeds b
  | BRegisterVault b => RegisterVaultCpiBuilder.invoke_signed signers_seeds b
  | BInitializeEpochState b => InitializeEpochStateCpiBuilder.invoke_signed signers_seeds b
  | BInitializeWeightTable b => InitializeWeightTableCpiBuilder.invoke_signed signers_seeds b
  | BSetEpochWeights b => SetEpochWeightsCpiBuilder.invoke_signed signers_seeds b
  | BReallocWeightTable b => ReallocWeightTableCpiBuilder.invoke_signed signers_seeds b
  | BInitializeEpochSnapshot b => InitializeEpochSnapshotCpiBuilder.invoke_signed signers_seeds b
  | BInitializeOperatorSnapshot b => InitializeOperatorSnapshotCpiBuilder.invoke_signed signers_seeds b
  | BSnapshotVaultOperatorDelegation b => SnapshotVaultOperatorDelegationCpiBuilder.invoke_signed signers_seeds b
  | BInitializeBallotBox b => InitializeBallotBoxCpiBuilder.invoke_signed signers_seeds b
  | BReallocBallotBox b => ReallocBallotBoxCpiBuilder.invoke_signed signers_seeds b
  | BCastVote b => CastVoteCpiBuilder.invoke_signed signers_seeds b
  | BInitializeNCNRewardRouter b => InitializeNCNRewardRouterCpiBuilder.invoke_signed signers_seeds b
  | BReallocNCNRewardRouter b => ReallocNCNRewardRouterCpiBuilder.invoke_signed signers_seeds b
  | BRouteNCNRewards b => RouteNCNRewardsCpiBuilder.invoke_signed signers_seeds b
  | BDistributeProtocolRewards b => DistributeProtocolRewardsCpiBuilder.invoke_signed signers_seeds b
  | BDistributeNCNRewards b => DistributeNCNRewardsCpiBuilder.invoke_signed signers_seeds b
  | BInitializeOperatorVaultRewardRouter b => InitializeOperatorVaultRewardRouterCpiBuilder.invoke_signed signers_seeds b
  | BDistributeOperatorVaultRewardRoute b => DistributeOperatorVaultRewardRouteCpiBuilder.invoke_signed signers_seeds b
  | BRouteOperatorVaultRewards b => RouteOperatorVaultRewardsCpiBuilder.invoke_signed signers_seeds b
  | BCloseEpochAccount b => CloseEpochAccountCpiBuilder.invoke_signed signers_seeds b
  | BDistributeOperatorRewards b => DistributeOperatorRewardsCpiBuilder.invoke_signed signers_seeds b
  | BDistributeVaultRewards b => DistributeVaultRewardsCpiBuilder.invoke_signed signers_seeds b
  | BAdminSetParameters b => AdminSetParametersCpiBuilder.invoke_signed signers_seeds b
  | BAdminSetNewAdmin b => AdminSetNewAdminCpiBuilder.invoke_signed signers_seeds b
  | BAdminSetTieBreaker b => AdminSetTieBreakerCpiBuilder.invoke_signed signers_seeds b
  | BAdminSetWeight b => AdminSetWeightCpiBuilder.invoke_signed signers_seeds b
  | BAdminRegisterStMint b => AdminRegisterStMintCpiBuilder.invoke_signed signers_seeds b
  | BAdminSetStMint b => AdminSetStMintCpiBuilder.invoke_signed signers_seeds b
  end.

(** The builder after the calls that set what the invocation has, in some order. *)
Definition filled (c : cpi) (remaining_accounts : list (Remaining D)) (b : cpi_builder) : Prop :=
  match c, b with
  | CpiInitializeConfig c, BInitializeConfig b => reached
      (InitializeConfigCpiBuilder.new (InitializeConfigCpi.__program c))
      (InitializeConfigCpiBuilder.setters c remaining_accounts) b
  | CpiInitializeVaultRegistry c, BInitializeVaultRegistry b => reached
      (InitializeVaultRegistryCpiBuilder.new (InitializeVaultRegistryCpi.__program c))
      (InitializeVaultRegistryCpiBuilder.setters c remaining_accounts) b
  | CpiReallocVaultRegistry c, BReallocVaultRegistry b => reached
      (ReallocVaultRegistryCpiBuilder.new (ReallocVaultRegistryCpi.__program c))
      (ReallocVaultRegistryCpiBuilder.setters c remaining_accounts) b
  | CpiRegisterVault c, BRegisterVault b => reached
      (RegisterVaultCpiBuilder.new (RegisterVaultCpi.__program c))
      (RegisterVaultCpiBuilder.setters c remaining_accounts) b
  | CpiInitializeEpochState c, BInitializeEpochState b => reached
      (InitializeEpochStateCpiBuilder.new (InitializeEpochStateCpi.__program c))
      (InitializeEpochStateCpiBuilder.setters c remaining_accounts) b
  | CpiInitializeWeightTable c, BInitializeWeightTable b => reached
      (InitializeWeightTableCpiBuilder.new (InitializeWeightTableCpi.__program c))
      (InitializeWeightTableCpiBuilder.setters c remaining_accounts) b
  | CpiSetEpochWeights c, BSetEpochWeights b => reached
      (SetEpochWeightsCpiBuilder.new (SetEpochWeightsCpi.__program c))
      (SetEpochWeightsCpiBuilder.setters c remaining_accounts) b
  | CpiReallocWeightTable c, BReallocWeightTable b => reached
      (ReallocWeightTableCpiBuilder.new (ReallocWeightTableCpi.__program c))
      (ReallocWeightTableCpiBuilder.setters c remaining_accounts) b
  | CpiInitializeEpochSnapshot c, BInitializeEpochSnapshot b => reached
      (InitializeEpochSnapshotCpiBuilder.new (InitializeEpochSnapshotCpi.__program c))
      (InitializeEpochSnapshotCpiBuilder.setters c remaining_accounts) b
  | CpiInitializeOperatorSnapshot c, BInitializeOperatorSnapshot b => reached
      (InitializeOperatorSnapshotCpiBuilder.new (InitializeOperatorSnapshotCpi.__program c))
      (InitializeOperatorSnapshotCpiBuilder.setters c remaining_accounts) b
  | CpiSnapshotVaultOperatorDelegation c, BSnapshotVaultOperatorDelegation b => reached
      (SnapshotVaultOperatorDelegationCpiBuilder.new (SnapshotVaultOperatorDelegationCpi.__program c))
      (SnapshotVaultOperatorDelegationCpiBuilder.setters c remaining_accounts) b
  | CpiInitializeBallotBox c, BInitializeBallotBox b => reached
      (InitializeBallotBoxCpiBuilder.new (InitializeBallotBoxCpi.__program c))
      (InitializeBallotBoxCpiBuilder.setters c remaining_accounts) b
  | CpiReallocBallotBox c, BReallocBallotBox b => reached
      (ReallocBallotBoxCpiBuilder.new (ReallocBallotBoxCpi.__program c))
      (ReallocBallotBoxCpiBuilder.setters c remaining_accounts) b
  | CpiCastVote c, BCastVote b => reached (CastVoteCpiBuilder.new (CastVoteCpi.__program c))
      (CastVoteCpiBuilder.setters c remaining_accounts) b
  | CpiInitializeNCNRewardRouter c, BInitializeNCNRewardRouter b => reached
      (InitializeNCNRewardRouterCpiBuilder.new (InitializeNCNRewardRouterCpi.__program c))
      (InitializeNCNRewardRouterCpiBuilder.setters c remaining_accounts) b
  | CpiReallocNCNRewardRouter c, BReallocNCNRewardRouter b => reached
      (ReallocNCNRewardRouterCpiBuilder.new (ReallocNCNRewardRouterCpi.__program c))
      (ReallocNCNRewardRouterCpiBuilder.setters c remaining_accounts) b
  | CpiRouteNCNRewards c, BRouteNCNRewards b => reached
      (RouteNCNRewardsCpiBuilder.new (RouteNCNRewardsCpi.__program c))
      (RouteNCNRewardsCpiBuilder.setters c remaining_accounts) b
  | CpiDistributeProtocolRewards c, BDistributeProtocolRewards b => reached
      (DistributeProtocolRewardsCpiBuilder.new (DistributeProtocolRewardsCpi.__program c))
      (DistributeProtocolRewardsCpiBuilder.setters c remaining_accounts) b
  | CpiDistributeNCNRewards c, BDistributeNCNRewards b => reached
      (DistributeNCNRewardsCpiBuilder.new (DistributeNCNRewardsCpi.__program c))
      (DistributeNCNRewardsCpiBuilder.setters c remaining_accounts) b
  | CpiInitializeOperatorVaultRewardRouter c, BInitializeOperatorVaultRewardRouter b => reached
      (InitializeOperatorVaultRewardRouterCpiBuilder.new (InitializeOperatorVaultRewardRouterCpi.__program c))
      (InitializeOperatorVaultRewardRouterCpiBuilder.setters c remaining_accounts) b
  | CpiDistributeOperatorVaultRewardRoute c, BDistributeOperatorVaultRewardRoute b => reached
      (DistributeOperatorVaultRewardRouteCpiBuilder.new (DistributeOperatorVaultRewardRouteCpi.__program c))
      (DistributeOperatorVaultRewardRouteCpiBuilder.setters c remaining_accounts) b
  | CpiRouteOperatorVaultRewards c, BRouteOperatorVaultRewards b => reached
      (RouteOperatorVaultRewardsCpiBuilder.new (RouteOperatorVaultRewardsCpi.__program c))
      (RouteOperatorVaultRewardsCpiBuilder.setters c remaining_accounts) b
  | CpiCloseEpochAccount c, BCloseEpochAccount b => reached
      (CloseEpochAccountCpiBuilder.new (CloseEpochAccountCpi.__program c))
      (CloseEpochAccountCpiBuilder.setters c remaining_accounts) b
  | CpiDistributeOperatorRewards c, BDistributeOperatorRewards b => reached
      (DistributeOperatorRewardsCpiBuilder.new (DistributeOperatorRewardsCpi.__program c))
      (DistributeOperatorRewardsCpiBuilder.setters c remaining_accounts) b
  | CpiDistributeVaultRewards c, BDistributeVaultRewards b => reached
      (DistributeVaultRewardsCpiBuilder.new (DistributeVaultRewardsCpi.__program c))
      (DistributeVaultRewardsCpiBuilder.setters c remaining_accounts) b
  | CpiAdminSetParameters c, BAdminSetParameters b => reached
      (AdminSetParametersCpiBuilder.new (AdminSetParametersCpi.__program c))
      (AdminSetParametersCpiBuilder.setters c remaining_accounts) b
  | CpiAdminSetNewAdmin c, BAdminSetNewAdmin b => reached
      (AdminSetNewAdminCpiBuilder.new (AdminSetNewAdminCpi.__program c))
      (AdminSetNewAdminCpiBuilder.setters c remaining_accounts) b
  | CpiAdminSetTieBreaker c, BAdminSetTieBreaker b => reached
      (AdminSetTieBreakerCpiBuilder.new (AdminSetTieBreakerCpi.__program c))
      (AdminSetTieBreakerCpiBuilder.setters c remaining_accounts) b
  | CpiAdminSetWeight c, BAdminSetWeight b => reached
      (AdminSetWeightCpiBuilder.new (AdminSetWeightCpi.__program c))
      (AdminSetWeightCpiBuilder.setters c remaining_accounts) b
  | CpiAdminRegisterStMint c, BAdminRegisterStMint b => reached
      (AdminRegisterStMintCpiBuilder.new (AdminRegisterStMintCpi.__program c))
      (AdminRegisterStMintCpiBuilder.setters c remaining_accounts) b
  | CpiAdminSetStMint c, BAdminSetStMint b => reached
      (AdminSetStMintCpiBuilder.new (AdminSetStMintCpi.__program c))
      (AdminSetStMintCpiBuilder.setters c remaining_accounts) b
  | _, _ => False
  end.

(** The program and the accounts that were given. *)
Definition infos (c : cpi) : list (AccountInfo.t D) :=
  match c with
  | CpiInitializeConfig c => [InitializeConfigCpi.__program c; InitializeConfigCpi.config c;
      InitializeConfigCpi.ncn c; InitializeConfigCpi.ncn_fee_wallet c; InitializeConfigCpi.ncn_admin c;
      InitializeConfigCpi.tie_breaker_admin c; InitializeConfigCpi.account_payer c;
      InitializeConfigCpi.system_program c]
  | CpiInitializeVaultRegistry c => [InitializeVaultRegistryCpi.__program c;
      InitializeVaultRegistryCpi.config c; InitializeVaultRegistryCpi.vault_registry c;
      InitializeVaultRegistryCpi.ncn c; InitializeVaultRegistryCpi.account_payer c;
      InitializeVaultRegistryCpi.system_program c]
  | CpiReallocVaultRegistry c => [ReallocVaultRegistryCpi.__program c; ReallocVaultRegistryCpi.config c;
      ReallocVaultRegistryCpi.vault_registry c; ReallocVaultRegistryCpi.ncn c;
      ReallocVaultRegistryCpi.account_payer c; ReallocVaultRegistryCpi.system_program c]
  | CpiRegisterVault c => [RegisterVaultCpi.__program c; RegisterVaultCpi.config c;
      RegisterVaultCpi.vault_registry c; RegisterVaultCpi.ncn c; RegisterVaultCpi.vault c;
      RegisterVaultCpi.ncn_vault_ticket c]
  | CpiInitializeEpochState c => [InitializeEpochStateCpi.__program c;
      InitializeEpochStateCpi.epoch_marker c; InitializeEpochStateCpi.epoch_state c;
      InitializeEpochStateCpi.config c; InitializeEpochStateCpi.ncn c;
      InitializeEpochStateCpi.account_payer c; InitializeEpochStateCpi.system_program c]
  | CpiInitializeWeightTable c => [InitializeWeightTableCpi.__program c;
      InitializeWeightTableCpi.epoch_marker c; InitializeWeightTableCpi.epoch_state c;
      InitializeWeightTableCpi.vault_registry c; InitializeWeightTableCpi.ncn c;
      InitializeWeightTableCpi.weight_table c; InitializeWeightTableCpi.account_payer c;
      InitializeWeightTableCpi.system_program c]
  | CpiSetEpochWeights c => [SetEpochWeightsCpi.__program c; SetEpochWeightsCpi.epoch_state c;
      SetEpochWeightsCpi.ncn c; SetEpochWeightsCpi.vault_registry c; SetEpochWeightsCpi.weight_table c]
  | CpiReallocWeightTable c => [ReallocWeightTableCpi.__program c; ReallocWeightTableCpi.epoch_state c;
      ReallocWeightTableCpi.config c; ReallocWeightTableCpi.weight_table c; ReallocWeightTableCpi.ncn c;
      ReallocWeightTableCpi.vault_registry c; ReallocWeightTableCpi.account_payer c;
      ReallocWeightTableCpi.system_program c]
  | CpiInitializeEpochSnapshot c => [InitializeEpochSnapshotCpi.__program c;
      InitializeEpochSnapshotCpi.epoch_marker c; InitializeEpochSnapshotCpi.epoch_state c;
      InitializeEpochSnapshotCpi.config c; InitializeEpochSnapshotCpi.ncn c;
      InitializeEpochSnapshotCpi.weight_table c; InitializeEpochSnapshotCpi.epoch_snapshot c;
      InitializeEpochSnapshotCpi.account_payer c; InitializeEpochSnapshotCpi.system_program c]
  | CpiInitializeOperatorSnapshot c => [InitializeOperatorSnapshotCpi.__program c;
      InitializeOperatorSnapshotCpi.epoch_marker c; InitializeOperatorSnapshotCpi.epoch_state c;
      InitializeOperatorSnapshotCpi.config c; InitializeOperatorSnapshotCpi.restaking_config c;
      InitializeOperatorSnapshotCpi.ncn c; InitializeOperatorSnapshotCpi.operator c;
      InitializeOperatorSnapshotCpi.ncn_operator_state c; InitializeOperatorSnapshotCpi.epoch_snapshot c;
      InitializeOperatorSnapshotCpi.operator_snapshot c; InitializeOperatorSnapshotCpi.account_payer c;
      InitializeOperatorSnapshotCpi.system_program c]
  | CpiSnapshotVaultOperatorDelegation c => [SnapshotVaultOperatorDelegationCpi.__program c;
      SnapshotVaultOperatorDelegationCpi.epoch_state c; SnapshotVaultOperatorDelegationCpi.config c;
      SnapshotVaultOperatorDelegationCpi.restaking_config c; SnapshotVaultOperatorDelegationCpi.ncn c;
      SnapshotVaultOperatorDelegationCpi.operator c; SnapshotVaultOperatorDelegationCpi.vault c;
      SnapshotVaultOperatorDelegationCpi.vault_ncn_ticket c;
      SnapshotVaultOperatorDelegationCpi.ncn_vault_ticket c;
      SnapshotVaultOperatorDelegationCpi.vault_operator_delegation c;
      SnapshotVaultOperatorDelegationCpi.weight_table c;
      SnapshotVaultOperatorDelegationCpi.epoch_snapshot c;
      SnapshotVaultOperatorDelegationCpi.operator_snapshot c]
  | CpiInitializeBallotBox c => [InitializeBallotBoxCpi.__program c; InitializeBallotBoxCpi.epoch_marker c;
      InitializeBallotBoxCpi.epoch_state c; InitializeBallotBoxCpi.config c;
      InitializeBallotBoxCpi.ballot_box c; InitializeBallotBoxCpi.ncn c;
      InitializeBallotBoxCpi.account_payer c; InitializeBallotBoxCpi.system_program c;
      InitializeBallotBoxCpi.consensus_result c]
  | CpiReallocBallotBox c => [ReallocBallotBoxCpi.__program c; ReallocBallotBoxCpi.epoch_state c;
      ReallocBallotBoxCpi.config c; ReallocBallotBoxCpi.ballot_box c; ReallocBallotBoxCpi.ncn c;
      ReallocBallotBoxCpi.account_payer c; ReallocBallotBoxCpi.system_program c]
  | CpiCastVote c => [CastVoteCpi.__program c; CastVoteCpi.epoch_state c; CastVoteCpi.config c;
      CastVoteCpi.ballot_box c; CastVoteCpi.ncn c; CastVoteCpi.epoch_snapshot c;
      CastVoteCpi.operator_snapshot c; CastVoteCpi.operator c; CastVoteCpi.operator_voter c;
      CastVoteCpi.consensus_result c]
  | CpiInitializeNCNRewardRouter c => [InitializeNCNRewardRouterCpi.__program c;
      InitializeNCNRewardRouterCpi.epoch_marker c; InitializeNCNRewardRouterCpi.epoch_state c;
      InitializeNCNRewardRouterCpi.ncn c; InitializeNCNRewardRouterCpi.ncn_reward_router c;
      InitializeNCNRewardRouterCpi.ncn_reward_receiver c; InitializeNCNRewardRouterCpi.account_payer c;
      InitializeNCNRewardRouterCpi.system_program c]
  | CpiReallocNCNRewardRouter c => [ReallocNCNRewardRouterCpi.__program c;
      ReallocNCNRewardRouterCpi.epoch_state c; ReallocNCNRewardRouterCpi.config c;
      ReallocNCNRewardRouterCpi.ncn_reward_router c; ReallocNCNRewardRouterCpi.ncn c;
      ReallocNCNRewardRouterCpi.account_payer c; ReallocNCNRewardRouterCpi.system_program c]
  | CpiRouteNCNRewards c => [RouteNCNRewardsCpi.__program c; RouteNCNRewardsCpi.epoch_state c;
      RouteNCNRewardsCpi.config c; RouteNCNRewardsCpi.ncn c; RouteNCNRewardsCpi.epoch_snapshot c;
      RouteNCNRewardsCpi.ballot_box c; RouteNCNRewardsCpi.ncn_reward_router c;
      RouteNCNRewardsCpi.ncn_reward_receiver c]
  | CpiDistributeProtocolRewards c => [DistributeProtocolRewardsCpi.__program c;
      DistributeProtocolRewardsCpi.epoch_state c; DistributeProtocolRewardsCpi.config c;
      DistributeProtocolRewardsCpi.ncn c; DistributeProtocolRewardsCpi.ncn_reward_router c;
      DistributeProtocolRewardsCpi.ncn_reward_receiver c;
      DistributeProtocolRewardsCpi.protocol_fee_wallet c; DistributeProtocolRewardsCpi.system_program c]
  | CpiDistributeNCNRewards c => [DistributeNCNRewardsCpi.__program c;
      DistributeNCNRewardsCpi.epoch_state c; DistributeNCNRewardsCpi.config c;
      DistributeNCNRewardsCpi.ncn c; DistributeNCNRewardsCpi.ncn_reward_router c;
      DistributeNCNRewardsCpi.ncn_reward_receiver c; DistributeNCNRewardsCpi.ncn_fee_wallet c;
      DistributeNCNRewardsCpi.system_program c]
  | CpiInitializeOperatorVaultRewardRouter c => [InitializeOperatorVaultRewardRouterCpi.__program c;
      InitializeOperatorVaultRewardRouterCpi.epoch_marker c;
      InitializeOperatorVaultRewardRouterCpi.epoch_state c; InitializeOperatorVaultRewardRouterCpi.ncn c;
      InitializeOperatorVaultRewardRouterCpi.operator c;
      InitializeOperatorVaultRewardRouterCpi.operator_snapshot c;
      InitializeOperatorVaultRewardRouterCpi.operator_vault_reward_router c;
      InitializeOperatorVaultRewardRouterCpi.operator_vault_reward_receiver c;
      InitializeOperatorVaultRewardRouterCpi.account_payer c;
      InitializeOperatorVaultRewardRouterCpi.system_program c]
  | CpiDistributeOperatorVaultRewardRoute c => [DistributeOperatorVaultRewardRouteCpi.__program c;
      DistributeOperatorVaultRewardRouteCpi.epoch_state c; DistributeOperatorVaultRewardRouteCpi.config c;
      DistributeOperatorVaultRewardRouteCpi.ncn c; DistributeOperatorVaultRewardRouteCpi.operator c;
      DistributeOperatorVaultRewardRouteCpi.ncn_reward_router c;
      DistributeOperatorVaultRewardRouteCpi.ncn_reward_receiver c;
      DistributeOperatorVaultRewardRouteCpi.operator_vault_reward_router c;
      DistributeOperatorVaultRewardRouteCpi.operator_vault_reward_receiver c;
      DistributeOperatorVaultRewardRouteCpi.system_program c]
  | CpiRouteOperatorVaultRewards c => [RouteOperatorVaultRewardsCpi.__program c;
      RouteOperatorVaultRewardsCpi.epoch_state c; RouteOperatorVaultRewardsCpi.ncn c;
      RouteOperatorVaultRewardsCpi.operator c; RouteOperatorVaultRewardsCpi.operator_snapshot c;
      RouteOperatorVaultRewardsCpi.operator_vault_reward_router c;
      RouteOperatorVaultRewardsCpi.operator_vault_reward_receiver c]
  | CpiCloseEpochAccount c => [CloseEpochAccountCpi.__program c; CloseEpochAccountCpi.epoch_marker c;
      CloseEpochAccountCpi.epoch_state c; CloseEpochAccountCpi.config c; CloseEpochAccountCpi.ncn c;
      CloseEpochAccountCpi.account_to_close c; CloseEpochAccountCpi.account_payer c;
      CloseEpochAccountCpi.system_program c] ++ given_account (CloseEpochAccountCpi.ncn_fee_wallet c) ++
      given_account (CloseEpochAccountCpi.receiver_to_close c)
  | CpiDistributeOperatorRewards c => [DistributeOperatorRewardsCpi.__program c;
      DistributeOperatorRewardsCpi.epoch_state c; DistributeOperatorRewardsCpi.config c;
      DistributeOperatorRewardsCpi.ncn c; DistributeOperatorRewardsCpi.operator c;
      DistributeOperatorRewardsCpi.operator_snapshot c;
      DistributeOperatorRewardsCpi.operator_vault_reward_router c;
      DistributeOperatorRewardsCpi.operator_vault_reward_receiver c;
      DistributeOperatorRewardsCpi.system_program c]
  | CpiDistributeVaultRewards c => [DistributeVaultRewardsCpi.__program c;
      DistributeVaultRewardsCpi.epoch_state c; DistributeVaultRewardsCpi.config c;
      DistributeVaultRewardsCpi.ncn c; DistributeVaultRewardsCpi.operator c;
      DistributeVaultRewardsCpi.vault c; DistributeVaultRewardsCpi.operator_snapshot c;
      DistributeVaultRewardsCpi.operator_vault_reward_router c;
      DistributeVaultRewardsCpi.operator_vault_reward_receiver c;
      DistributeVaultRewardsCpi.system_program c]
  | CpiAdminSetParameters c => [AdminSetParametersCpi.__program c; AdminSetParametersCpi.config c;
      AdminSetParametersCpi.ncn c; AdminSetParametersCpi.ncn_admin c]
  | CpiAdminSetNewAdmin c => [AdminSetNewAdminCpi.__program c; AdminSetNewAdminCpi.config c;
      AdminSetNewAdminCpi.ncn c; AdminSetNewAdminCpi.ncn_admin c; AdminSetNewAdminCpi.new_admin c]
  | CpiAdminSetTieBreaker c => [AdminSetTieBreakerCpi.__program c; AdminSetTieBreakerCpi.epoch_state c;
      AdminSetTieBreakerCpi.config c; AdminSetTieBreakerCpi.ballot_box c; AdminSetTieBreakerCpi.ncn c;
      AdminSetTieBreakerCpi.tie_breaker_admin c]
  | CpiAdminSetWeight c => [AdminSetWeightCpi.__program c; AdminSetWeightCpi.epoch_state c;
      AdminSetWeightCpi.ncn c; AdminSetWeightCpi.weight_table c; AdminSetWeightCpi.weight_table_admin c]
  | CpiAdminRegisterStMint c => [AdminRegisterStMintCpi.__program c; AdminRegisterStMintCpi.config c;
      AdminRegisterStMintCpi.ncn c; AdminRegisterStMintCpi.st_mint c;
      AdminRegisterStMintCpi.vault_registry c; AdminRegisterStMintCpi.admin c]
  | CpiAdminSetStMint c => [AdminSetStMintCpi.__program c; AdminSetStMintCpi.config c;
      AdminSetStMintCpi.ncn c; AdminSetStMintCpi.vault_registry c; AdminSetStMintCpi.admin c]
  end.

Definition metas (i : Instruction) : list Meta :=
  match i with Ncn _ accounts _ _ => accounts | _ => [] end.
(** Every account of the instruction is among those passed along. *)
Definition passed (i : Instruction) (account_infos : list (AccountInfo.t D)) : Prop :=
  Forall (fun m => Exists (fun a => AccountInfo.key a = key m) account_infos) (metas i).

(** ** Theorems *)

Ltac by_options := repeat match goal with x : option _ |- _ => destruct x end.
Ltac find_passed :=
  first [apply Exists_cons_hd; first [reflexivity | assumption] | apply Exists_cons_tl; find_passed].
Ltac each_cpi c := destruct c as [[]|[]|[]|[]|[]|[]|[]|[]|[]|[]|[]|[]|[]|[]|[]|[]|[]|[]|[]|[]|[]|[]|[]|[]|[]|[]|[]|[]|[]|[]|[]].

Lemma metas_instruction_of c rem : metas (instruction_of c rem) = metas (instruction_of c []) ++ rem.
Proof. destruct c; cbn; by rewrite ?app_nil_r. Qed.

Lemma named_passed (c : cpi) : AccountInfo.key (program_of c) = NCN_PROGRAM_ID ->
  passed (instruction_of (call_of c) []) (infos c).
Proof.
  unfold passed. each_cpi c; cbn; intros Hp; by_options;
    repeat (apply List.Forall_cons; [cbn; find_passed|]); apply List.Forall_nil.
Qed.

Lemma invocation_spec signers_seeds remaining_accounts c :
  invoke_signed_with_remaining_accounts signers_seeds remaining_accounts c =
    invoke_instruction (instruction_of (call_of c) (map remaining_meta remaining_accounts))
      (infos c ++ map (fun r => r.1.1) remaining_accounts) signers_seeds.
Proof. each_cpi c; by_options; reflexivity. Qed.

(** When the program's account is this program's, every account of the
    instruction, also one that stands for an optional account that is not given, is
    among the accounts that are passed along. *)
Lemma accounts_passed remaining_accounts c : AccountInfo.key (program_of c) = NCN_PROGRAM_ID ->
  passed (instruction_of (call_of c) (map remaining_meta remaining_accounts))
    (infos c ++ map (fun r => r.1.1) remaining_accounts).
Proof.
  intros Hp. unfold passed. rewrite metas_instruction_of. apply Forall_app_2.
  - apply (list.Forall_impl _ _ _ (named_passed c Hp)). intros m Hm. apply list.Exists_app. by left.
  - apply list.Forall_fmap, list.Forall_forall. intros r Hr. apply list.Exists_app. right.
    apply list.Exists_exists. exists r.1.1. split; [|done]. apply list_elem_of_fmap. eauto.
Qed.

Lemma filled_cpi_builder_invocation c remaining_accounts b signers_seeds :
  filled c remaining_accounts b ->
  invoke_signed signers_seeds b = invoke_signed_with_remaining_accounts signers_seeds remaining_accounts c.
Proof.
  each_cpi c; destruct b; cbn -[reached]; intros H; try contradiction;
    (apply reached_run in H; [subst | repeat constructor; intro; cbv [given]; repeat case_match; reflexivity]);
    by_options; first [reflexivity | match goal with a : _ |- _ => destruct a; by_options; reflexivity end].
Qed.

(** The parts that all invocations share, written out. *)
Lemma given_metas (remaining_accounts : list (Remaining D)) :
  map remaining_meta remaining_accounts
  = map (fun '(account, is_writable, is_signer) =>
      {| key := AccountInfo.key account; Machine.is_signer := is_writable; Machine.is_writable := is_signer |})
      remaining_accounts.
Proof. apply map_ext. by intros [[account x] y]. Qed.
Lemma given_infos (remaining_accounts : list (Remaining D)) :
  map (fun r : Remaining D => r.1.1) remaining_accounts = map (fun '(account, _, _) => account) remaining_accounts.
Proof. apply map_ext. by intros [[account x] y]. Qed.
Lemma invocation_branch instruction account_infos signers_seeds :
  invoke_instruction instruction account_infos signers_seeds
  = if bool_decide (signers_seeds = []) then program_invoke instruction account_infos
    else program_invoke_signed instruction account_infos signers_seeds.
Proof. by destruct signers_seeds. Qed.

(** C32: a builder of a cross-program invocation whose methods have been called in
    any order with the accounts and the arguments, and with remaining accounts as
    triples of the account, [is_writable] and [is_signer], does not panic and calls
    the runtime once: [invoke] when there are no seeds, else [invoke_signed] with
    them. It hands over the client's instruction for the keys of those accounts,
    followed by the remaining accounts in their order, and the accounts themselves.
    But each remaining account is in the instruction with its two flags exchanged:
    as a signer if it was given as writable, and as writable if it was given as a
    signer. When the program's account is this program's, every account of the
    instruction is among the accounts handed over. *)
Theorem filled_cpi_builder_invokes c remaining_accounts b signers_seeds :
  filled c remaining_accounts b ->
  let instruction := instruction_of (call_of c)
    (map (fun '(account, is_writable, is_signer) =>
            {| key := AccountInfo.key account; Machine.is_signer := is_writable; Machine.is_writable := is_signer |})
       remaining_accounts) in
  let account_infos := infos c ++ map (fun '(account, _, _) => account) remaining_accounts in
  invoke_signed signers_seeds b
    = (if bool_decide (signers_seeds = []) then program_invoke instruction account_infos
       else program_invoke_signed instruction account_infos signers_seeds)
  /\ (AccountInfo.key (program_of c) = NCN_PROGRAM_ID -> passed instruction account_infos).
Proof.
  intros H. cbv zeta. rewrite <-given_metas, <-given_infos, <-invocation_branch.
  rewrite (filled_cpi_builder_invocation _ _ _ _ H). split; [apply invocation_spec|apply accounts_passed].
Qed.

(** The builders keep a remaining account with [is_writable] before [is_signer],
    and the invocation reads the two the other way round. *)
Theorem cpi_builder_swaps_flags c account is_writable is_signer b signers_seeds :
  filled c [(account, is_writable, is_signer)] b ->
  exists instruction account_infos named,
    invoke_signed signers_seeds b = invoke_instruction instruction account_infos signers_seeds /\
    metas instruction = named ++
      [{| key := AccountInfo.key account; Machine.is_signer := is_writable; Machine.is_writable := is_signer |}].
Proof.
  intros H. rewrite (filled_cpi_builder_invocation _ _ _ _ H), invocation_spec.
  do 3 eexists. split; [reflexivity|]. apply metas_instruction_of.
Qed.
End invocations.

(** ** Examples *)

(** A runtime that only keeps what it was handed. *)
Section recorder.
Abbreviation Log := (list (Instruction * list (AccountInfo.t nat))).
#[local] Instance recorder : Invoke nat Log := {
  program_invoke i infos := modify (fun log => log ++ [(i, infos)]);
  program_invoke_signed i infos _ := modify (fun log => log ++ [(i, infos)]);
}.
Definition account (key : Pubkey) : AccountInfo.t nat := AccountInfo.mk key 0 0 false false 0%nat.
Definition closing : CloseEpochAccountCpi.t nat :=
  CloseEpochAccountCpi.mk (account NCN_PROGRAM_ID) (account 1) (account 2) (account 3) (account 4) (account 5)
    (account 6) (account 0) None (Some (account 7)) (CloseEpochAccountInstructionArgs.mk 9).
Definition closing_builder : CloseEpochAccountCpiBuilder.t nat :=
  run (rev (CloseEpochAccountCpiBuilder.setters closing [(account 8, false, true)]))
    (CloseEpochAccountCpiBuilder.new (account NCN_PROGRAM_ID)).

Example filled_cpi_builder_invokes_witness :
  exists i infos, invoke_signed [] (BCloseEpochAccount closing_builder) [] = (Ok tt, [(i, infos)]) /\
    length (metas i) = 10%nat /\ length infos = 10%nat /\ passed i infos /\
    metas i !! 9%nat = Some {| key := 8; Machine.is_signer := false; Machine.is_writable := true |}.
Proof.
  destruct (filled_cpi_builder_invokes (CpiCloseEpochAccount closing) [(account 8, false, true)]
    (BCloseEpochAccount closing_builder) []) as [E Hp].
  - eexists. split; [symmetry; apply Permutation_rev | reflexivity].
  - do 2 eexists. split; [rewrite E; reflexivity|]. split; [reflexivity|]. split; [reflexivity|].
    split; [by apply Hp|reflexivity].
Defined.
End recorder.
