(* ===== verification/Getters.v ===== *)
(** What the command line client sees of the chain: its settings
    ([cli/src/handler.rs]), the RPC node it talks to, and the accounts it reads
    ([cli/src/getters.rs]). *)
From stdpp Require Import strings.
From S2P Require Import Prelude Errors Precise Stake Registry Weights Fees Snapshots Voting EpochStates.
From S2P Require Import NcnRouter OperatorRouter Consensus Accounts Machine Lamports Client.

(** [anyhow::Error]: an answer of the node, an error of the program's code that
    is run locally, or a message. *)
Module CliError.
Inductive t := Rpc (code : Z) | Program (e : ProgramError.t) | Message (text : string).
End CliError.
Definition program_error {A} (r : result ProgramError.t A) : result CliError.t A := map_err CliError.Program r.

(** A result that the caller looks at instead of returning its error. *)
Definition attempt {S E A} (m : M S E A) : M S E (result E A) := fun s =>
  match m s with (Panic, s') => (Panic, s') | (r, s') => (Ok r, s') end.
(** [for x in l { body }]. *)
Fixpoint for_all {S E A} (l : list A) (body : A -> M S E unit) : M S E unit :=
  match l with [] => ret tt | a :: l => let* _ := body a in for_all l body end.

(** The parts of [CliHandler] that are read; of the keypair its public key. *)
Module CliHandler.
Record t := mk {
  keypair' : option Pubkey;
  restaking_program_id : Pubkey;
  vault_program_id : Pubkey;
  ncn_program_id : Pubkey;
  ncn' : option Pubkey;
  epoch : u64;
  retries : u64;
  priority_fee_micro_lamports : u64;
  open_weather_api_key' : option string;
}.
Definition keypair (self : t) : result CliError.t Pubkey :=
  ok_or (keypair' self) (CliError.Message "No keypair").
Definition ncn (self : t) : result CliError.t Pubkey := ok_or (ncn' self) (CliError.Message "No NCN address").
Definition open_weather_api_key (self : t) : result CliError.t string :=
  ok_or (open_weather_api_key' self) (CliError.Message "No Open Weather API key provided.").

(** What accounts are asked for: their size, what their data have at an offset,
    and how much of the data is returned. *)
Inductive Memcmp := KeyAt (offset : usize) (key : Pubkey) | BytesAt (offset : usize) (bytes : list u8).
Record RpcProgramAccountsConfig := { data_size : usize; memcmp : Memcmp; slice_length : usize }.
Definition get_rpc_program_accounts_with_config (size_of : usize) (account_pubkey : Pubkey)
    : RpcProgramAccountsConfig :=
  let data_size := size_of + 8 in
  {| data_size := data_size; memcmp := KeyAt 8 account_pubkey; slice_length := data_size |}.
End CliHandler.

Record EpochInfo := { info_epoch : u64; absolute_slot : u64 }.

(** A transaction that is signed and sent. *)
Record Transaction := { instructions : list Instruction; payer : Pubkey; signers : list Pubkey; blockhash : Z }.

(** The node, and the weather service. [W] is everything outside the client. *)
Class Rpc (D W : Type) := {
  get_account_with_commitment : Pubkey -> M W CliError.t (option (Account.t D));
  get_epoch_info : M W CliError.t EpochInfo;
  get_slot : M W CliError.t u64;
  get_epoch_schedule : M W CliError.t (u64 -> u64);
  get_minimum_balance_for_rent_exemption : usize -> M W CliError.t u64;
  get_program_accounts_with_config :
    Pubkey -> CliHandler.RpcProgramAccountsConfig -> M W CliError.t (list (Pubkey * Account.t D));
  get_latest_blockhash : M W CliError.t Z;
  send_and_confirm_transaction_with_config : Transaction -> M W CliError.t unit;
  send_and_confirm_transaction : Transaction -> M W CliError.t unit;
  weather_conditions : string -> string -> M W CliError.t (list string);
}.

(** The client's side of the restaking and vault programs: their addresses, the
    structs in their accounts, and the instructions of the vault program. *)
Class Partners (D : Type) := mk_partners {
  restaking_config_address : Pubkey -> Pubkey;
  ncn_operator_state_address : Pubkey -> Pubkey -> Pubkey -> Pubkey;
  ncn_vault_ticket_address : Pubkey -> Pubkey -> Pubkey -> Pubkey;
  vault_ncn_ticket_address : Pubkey -> Pubkey -> Pubkey -> Pubkey;
  vault_operator_delegation_address : Pubkey -> Pubkey -> Pubkey -> Pubkey;
  vault_config_address : Pubkey -> Pubkey;
  vault_update_state_tracker_address : Pubkey -> Pubkey -> u64 -> Pubkey;
  size_of_NcnOperatorState : usize;
  size_of_NcnVaultTicket : usize;
  size_of_VaultOperatorDelegation : usize;
  NcnOperatorState_operator : D -> result ProgramError.t Pubkey;
  NcnVaultTicket_vault : D -> result ProgramError.t Pubkey;
  VaultOperatorDelegation_index_operator : D -> result ProgramError.t (u64 * Pubkey);
  VaultConfig : Type;
  read_VaultConfig : D -> result ProgramError.t VaultConfig;
  get_epoch_from_slot : VaultConfig -> u64 -> result ProgramError.t u64;
  epoch_length : VaultConfig -> u64;
  Vault : Type;
  read_Vault : D -> result ProgramError.t Vault;
  is_update_needed : Vault -> u64 -> u64 -> result ProgramError.t bool;
  supported_mint : Vault -> Pubkey;
  Operator : Type;
  read_Operator : D -> result ProgramError.t Operator;
  voter : Operator -> Pubkey;
  VaultUpdateStateTracker : Type;
  read_VaultUpdateStateTracker : D -> result ProgramError.t VaultUpdateStateTracker;
  last_updated_index : VaultUpdateStateTracker -> u64;
  InitializeVaultUpdateStateTracker : Pubkey -> Pubkey -> Pubkey -> Pubkey -> Instruction;
  CrankVaultUpdateStateTracker : Pubkey -> Pubkey -> Pubkey -> Pubkey -> Pubkey -> Instruction;
  CloseVaultUpdateStateTracker : Pubkey -> Pubkey -> Pubkey -> Pubkey -> u64 -> Instruction;
}.

Section getters.
Context {D W : Type} {data : AccountData D} {runtime : Runtime} {rpc : Rpc D W} {partners : Partners D}.
Context {s_config : Stored D Config.t} {s_registry : Stored D VaultRegistry.t}
  {s_table : Stored D WeightTable.t} {s_epoch : Stored D EpochSnapshot.t}
  {s_operator : Stored D OperatorSnapshot.t} {s_box : Stored D BallotBox.t}
  {s_result : Stored D ConsensusResult.t} {s_router : Stored D NCNRewardRouter.t}
  {s_op_router : Stored D OperatorVaultRewardRouter.t} {s_state : Stored D EpochState.t}.
Import CliHandler.
Implicit Types (handler : CliHandler.t) (epoch : u64).

Definition get_account handler (account : Pubkey) : M W CliError.t (option (Account.t D)) :=
  let* account := get_account_with_commitment account in ret account.

Definition get_current_epoch handler : M W CliError.t u64 :=
  let* info := get_epoch_info in ret (info_epoch info).
Definition get_current_slot handler : M W CliError.t u64 := let* slot := get_slot in ret slot.
Definition get_current_epoch_and_slot handler : M W CliError.t (u64 * u64) :=
  let* epoch := get_current_epoch handler in
  let* slot := get_current_slot handler in
  ret (epoch, slot).

(** The loop makes at most ten attempts, and then answers with zeros. *)
Fixpoint get_epoch_and_slot handler (attempts : nat) : M W CliError.t (u64 * u64) :=
  match attempts with
  | O => ret (0, 0)
  | S attempts =>
      let* current_epoch_and_slot_result := attempt (get_current_epoch_and_slot handler) in
      match current_epoch_and_slot_result with
      | Ok result => ret result
      | _ => get_epoch_and_slot handler attempts
      end
  end.
Definition get_guaranteed_epoch_and_slot handler : M W CliError.t (u64 * u64) := get_epoch_and_slot handler 10.

(** What most getters end with: the account is there, and its data are read with
    [f]. *)
Definition found {A} (f : Account.t D -> result ProgramError.t A) handler (address : Pubkey) : M W CliError.t A :=
  let* account := get_account handler address in
  match account with
  | None => throw (CliError.Message "Account not found")
  | Some account => lift (program_error (f account))
  end.
Definition try_from_slice_unchecked {T} {st : Stored D T} (account : Account.t D) : result ProgramError.t T :=
  try_from_slice (Account.data account).

Definition get_ncn_program_config handler : M W CliError.t Config.t :=
  let* ncn := lift (ncn handler) in
  let '(address, _, _) := ConfigAccount.find_program_address (ncn_program_id handler) ncn in
  found try_from_slice_unchecked handler address.
Definition get_vault_registry handler : M W CliError.t VaultRegistry.t :=
  let* ncn := lift (ncn handler) in
  let '(address, _, _) := VaultRegistryAccount.find_program_address (ncn_program_id handler) ncn in
  found try_from_slice_unchecked handler address.
Definition get_epoch_state handler epoch : M W CliError.t EpochState.t :=
  let* ncn := lift (ncn handler) in
  let '(address, _, _) := EpochStateAccount.find_program_address (ncn_program_id handler) ncn epoch in
  found try_from_slice_unchecked handler address.
Definition get_weight_table handler epoch : M W CliError.t WeightTable.t :=
  let* ncn := lift (ncn handler) in
  let '(address, _, _) := WeightTableAccount.find_program_address (ncn_program_id handler) ncn epoch in
  found try_from_slice_unchecked handler address.
Definition get_epoch_snapshot handler epoch : M W CliError.t EpochSnapshot.t :=
  let* ncn := lift (ncn handler) in
  let '(address, _, _) := EpochSnapshotAccount.find_program_address (ncn_program_id handler) ncn epoch in
  found try_from_slice_unchecked handler address.
Definition get_operator_snapshot handler (operator : Pubkey) epoch : M W CliError.t OperatorSnapshot.t :=
  let* ncn := lift (ncn handler) in
  let '(address, _, _) := OperatorSnapshotAccount.find_program_address (ncn_program_id handler) operator ncn epoch in
  found try_from_slice_unchecked handler address.
Definition get_ballot_box handler epoch : M W CliError.t BallotBox.t :=
  let* ncn := lift (ncn handler) in
  let '(address, _, _) := BallotBoxAccount.find_program_address (ncn_program_id handler) ncn epoch in
  found try_from_slice_unchecked handler address.
Definition get_consensus_result handler epoch : M W CliError.t ConsensusResult.t :=
  let* ncn := lift (ncn handler) in
  let '(address, _, _) := ConsensusResultAccount.find_program_address (ncn_program_id handler) ncn epoch in
  found try_from_slice_unchecked handler address.

(** Whether there is any account at the address of the epoch's marker. *)
Definition get_is_epoch_completed handler epoch : M W CliError.t bool :=
  let* ncn := lift (ncn handler) in
  let '(address, _, _) := EpochMarker.find_program_address (ncn_program_id handler) ncn epoch in
  let* account := get_account handler address in
  ret (match account with Some _ => true | None => false end).

(** ** The restaking and vault programs *)

Definition get_vault_config handler : M W CliError.t VaultConfig :=
  found (fun a => read_VaultConfig (Account.data a)) handler (vault_config_address (vault_program_id handler)).
Definition get_vault handler (vault : Pubkey) : M W CliError.t Vault :=
  found (fun a => read_Vault (Account.data a)) handler vault.
Definition get_operator handler (operator : Pubkey) : M W CliError.t Operator :=
  found (fun a => read_Operator (Account.data a)) handler operator.
Definition get_vault_update_state_tracker handler (vault : Pubkey) (ncn_epoch : u64)
    : M W CliError.t VaultUpdateStateTracker :=
  found (fun a => read_VaultUpdateStateTracker (Account.data a)) handler
    (vault_update_state_tracker_address (vault_program_id handler) vault ncn_epoch).

(** [filter_map]: the accounts that deserialize. *)
Definition filter_accounts {A} (f : D -> result ProgramError.t A) (l : list (Pubkey * Account.t D)) : list A :=
  omap (fun x => match f (Account.data x.2) with Ok a => Some a | _ => None end) l.

Definition get_all_operators_in_ncn handler : M W CliError.t (list Pubkey) :=
  let* ncn := lift (ncn handler) in
  let* results := get_program_accounts_with_config (restaking_program_id handler)
                    (get_rpc_program_accounts_with_config size_of_NcnOperatorState ncn) in
  ret (filter_accounts NcnOperatorState_operator results).
Definition get_all_vaults_in_ncn handler : M W CliError.t (list Pubkey) :=
  let* ncn := lift (ncn handler) in
  let* results := get_program_accounts_with_config (restaking_program_id handler)
                    (get_rpc_program_accounts_with_config size_of_NcnVaultTicket ncn) in
  ret (filter_accounts NcnVaultTicket_vault results).

(** [sort_by_cached_key], which is stable. *)
Fixpoint insert_by_key (x : u64 * Pubkey) (l : list (u64 * Pubkey)) : list (u64 * Pubkey) :=
  match l with
  | [] => [x]
  | y :: l => if x.1 <=? y.1 then x :: y :: l else y :: insert_by_key x l
  end.
Definition sort_by_key (l : list (u64 * Pubkey)) : list (u64 * Pubkey) := foldr insert_by_key [] l.
Definition get_all_sorted_operators_for_vault handler (vault : Pubkey) : M W CliError.t (list Pubkey) :=
  let* results := get_program_accounts_with_config (vault_program_id handler)
                    (get_rpc_program_accounts_with_config size_of_VaultOperatorDelegation vault) in
  let index_and_operator := filter_accounts VaultOperatorDelegation_index_operator results in
  ret (sort_by_key index_and_operator).*2.

(** ** Rewards *)

Definition get_ncn_reward_router handler epoch : M W CliError.t NCNRewardRouter.t :=
  let* ncn := lift (ncn handler) in
  let '(address, _, _) := NCNRewardRouterAccount.find_program_address (ncn_program_id handler) ncn epoch in
  found try_from_slice_unchecked handler address.
Definition get_ncn_reward_receiver handler epoch : M W CliError.t (Pubkey * Account.t D) :=
  let* ncn := lift (ncn handler) in
  let '(address, _, _) := NCNRewardReceiver.find_program_address (ncn_program_id handler) ncn epoch in
  found (fun a => Ok (address, a)) handler address.
Definition get_operator_vault_reward_router handler (operator : Pubkey) epoch
    : M W CliError.t OperatorVaultRewardRouter.t :=
  let* ncn := lift (ncn handler) in
  let '(address, _, _) :=
    OperatorVaultRewardRouterAccount.find_program_address (ncn_program_id handler) operator ncn epoch in
  found try_from_slice_unchecked handler address.
Definition get_operator_vault_reward_receiver handler (operator : Pubkey) epoch
    : M W CliError.t (Pubkey * Account.t D) :=
  let* ncn := lift (ncn handler) in
  let '(address, _, _) := OperatorVaultRewardReceiver.find_program_address (ncn_program_id handler) operator ncn epoch in
  found (fun a => Ok (address, a)) handler address.

(** [a + b] and [a - b] of two [u64]: out of range they panic. *)
Definition add_u64 (a b : u64) : result CliError.t u64 := if a + b <=? u64_MAX then Ok (a + b) else Panic.
Definition sub_u64 (a b : u64) : result CliError.t u64 := if b <=? a then Ok (a - b) else Panic.

Definition get_receiver_rewards handler (address : Pubkey) : M W CliError.t u64 :=
  let* account := get_account handler address in
  let* rent := get_minimum_balance_for_rent_exemption 0 in
  match account with
  | None => throw (CliError.Message "Account not found")
  | Some account => lift (sub_u64 (Account.lamports account) rent)
  end.
Definition get_ncn_reward_receiver_rewards handler epoch : M W CliError.t u64 :=
  let* (address, _) := get_ncn_reward_receiver handler epoch in
  get_receiver_rewards handler address.
Definition get_operator_vault_reward_receiver_rewards handler (operator : Pubkey) epoch : M W CliError.t u64 :=
  let* (address, _) := get_operator_vault_reward_receiver handler operator epoch in
  get_receiver_rewards handler address.

(** The loop that adds what the operators' receivers hold. *)
Fixpoint add_operator_rewards handler epoch (operators : list Pubkey) (total : u64) : M W CliError.t u64 :=
  match operators with
  | [] => ret total
  | operator :: operators =>
      let* result := attempt (get_operator_vault_reward_receiver_rewards handler operator epoch) in
      match result with
      | Ok rewards =>
          let* total := lift (add_u64 total rewards) in add_operator_rewards handler epoch operators total
      | _ => add_operator_rewards handler epoch operators total
      end
  end.
Definition get_total_rewards_to_be_distributed handler epoch : M W CliError.t u64 :=
  let* ballot_box := get_ballot_box handler epoch in
  let* winning_ballot := lift (program_error (into (BallotBox.get_winning_ballot_tally ballot_box))) in
  let winning_ballot_index := BallotTally.index winning_ballot in
  let all_operators := map OperatorVote.operator
    (List.filter (fun vote => OperatorVote.ballot_index vote =? winning_ballot_index)
       (BallotBox.operator_votes ballot_box)) in
  let* result := attempt (get_ncn_reward_receiver_rewards handler epoch) in
  match result with
  | Ok rewards => add_operator_rewards handler epoch all_operators rewards
  | _ => ret 0
  end.
End getters.
