(* ===== verification/Commands.v ===== *)
(** The commands of the client ([cli/src/instructions.rs]): the transactions that
    create, fill, route and close an epoch's accounts, and the cranks that choose
    which of them to send. *)
From Stdlib Require Import Floats.SpecFloat.
From stdpp Require Import strings.
From S2P Require Import Prelude Errors Precise Stake Registry Weights Fees Snapshots Voting EpochStates.
From S2P Require Import NcnRouter OperatorRouter Consensus Accounts Machine Lamports Program Client Getters.

(** Rust's [f64], the binary floating-point numbers of 64 bits: a conversion from an
    integer rounds to the nearest, so does the division, and the integer that
    [ceil] gives is cut off at the bounds of [u64]. *)
Module F64.
Definition of_u64 (n : u64) : spec_float := binary_normalize 53 1024 n 0 false.
Definition div : spec_float -> spec_float -> spec_float := SFdiv 53 1024.
Definition ceil_as_u64 (x : spec_float) : u64 :=
  match x with
  | S754_finite negative m e =>
      let n := if negative then Z.neg m else Z.pos m in
      let ceiling := if 0 <=? e then n * 2 ^ e else - (- n / 2 ^ (- e)) in
      Z.max 0 (Z.min ceiling u64_MAX)
  | S754_infinity false => u64_MAX
  | S754_infinity true | S754_zero _ | S754_nan => 0
  end.
End F64.

Section commands.
Context {D W : Type} {data : AccountData D} {runtime : Runtime} {rpc : Rpc D W} {partners : Partners D}.
Context {s_config : Stored D Config.t} {s_registry : Stored D VaultRegistry.t}
  {s_table : Stored D WeightTable.t} {s_epoch : Stored D EpochSnapshot.t}
  {s_operator : Stored D OperatorSnapshot.t} {s_box : Stored D BallotBox.t}
  {s_result : Stored D ConsensusResult.t} {s_router : Stored D NCNRewardRouter.t}
  {s_op_router : Stored D OperatorVaultRewardRouter.t} {s_state : Stored D EpochState.t}.
Import CliHandler.
Implicit Types (handler : CliHandler.t) (epoch : u64) (vault operator : Pubkey).

(** ** Sending *)

(** The loop of [retries] attempts: whether one of them went through. *)
Fixpoint send_retries (keypair : Pubkey) (all_instructions : list Instruction) (all_signers : list Pubkey)
    (retries : nat) : M W CliError.t bool :=
  match retries with
  | O => ret false
  | S retries =>
      let* blockhash := get_latest_blockhash in
      let tx := {| instructions := all_instructions; payer := keypair; signers := all_signers;
                   blockhash := blockhash |} in
      let* result := attempt (send_and_confirm_transaction_with_config tx) in
      match result with
      | Ok _ => ret true
      | _ => send_retries keypair all_instructions all_signers retries
      end
  end.

Definition send_transactions handler (instructions : list Instruction) (signing_keypairs : list Pubkey)
    : M W CliError.t unit :=
  let* keypair := lift (keypair handler) in
  let all_instructions := SetComputeUnitPrice (priority_fee_micro_lamports handler) :: instructions in
  let all_signers := keypair :: signing_keypairs in
  let* sent := send_retries keypair all_instructions all_signers (Z.to_nat (retries handler)) in
  if sent then ret tt
  else
    let* blockhash := get_latest_blockhash in
    send_and_confirm_transaction {| instructions := instructions; payer := keypair; signers := all_signers;
                                    blockhash := blockhash |}.

Definition send_and_log_transaction handler (instructions : list Instruction) (signing_keypairs : list Pubkey)
    : M W CliError.t unit := send_transactions handler instructions signing_keypairs.

Definition CREATE_GET_RETRIES : u64 := 3.
Fixpoint wait_for_account handler (address : Pubkey) (retries : nat) : M W CliError.t (option (Account.t D)) :=
  let* account := get_account handler address in
  match account, retries with
  | None, S retries => wait_for_account handler address retries
  | _, _ => ret account
  end.
Definition check_created handler (address : Pubkey) : M W CliError.t unit :=
  let* account := wait_for_account handler address (Z.to_nat CREATE_GET_RETRIES) in
  match account with
  | None => throw (CliError.Message "Failed to get account after creation")
  | Some _ => ret tt
  end.

(** [(size as f64 / MAX_REALLOC_BYTES as f64).ceil() as u64 - 1], for the sizes of
    the accounts, which are positive. *)
Definition num_reallocs (size : usize) : u64 :=
  F64.ceil_as_u64 (F64.div (F64.of_u64 size) (F64.of_u64 MAX_REALLOC_BYTES)) - 1.
(** A compute limit, and an instruction a number of times. *)
Definition repeated (n : u64) (ix : Instruction) : list Instruction :=
  SetComputeUnitLimit 1400000 :: replicate (Z.to_nat n) ix.

(** ** The vault registry *)

Definition create_vault_registry handler : M W CliError.t unit :=
  let* ncn := lift (ncn handler) in
  let '(config, _, _) := ConfigAccount.find_program_address (ncn_program_id handler) ncn in
  let '(vault_registry, _, _) := VaultRegistryAccount.find_program_address (ncn_program_id handler) ncn in
  let '(account_payer, _, _) := AccountPayer.find_program_address (ncn_program_id handler) ncn in
  let* vault_registry_account := get_account handler vault_registry in
  let* _ :=
    match vault_registry_account with
    | None =>
        send_and_log_transaction handler
          [InitializeVaultRegistry.instruction
             (InitializeVaultRegistry.mk config vault_registry ncn account_payer system_program_id)] []
    | Some _ => ret tt
    end in
  let num_reallocs := Z.max (num_reallocs Size.VaultRegistry) 1 in
  let realloc_vault_registry_ix :=
    ReallocVaultRegistry.instruction
      (ReallocVaultRegistry.mk config vault_registry ncn account_payer system_program_id) in
  send_and_log_transaction handler (repeated num_reallocs realloc_vault_registry_ix) [].

Definition get_or_create_vault_registry handler : M W CliError.t VaultRegistry.t :=
  let* ncn := lift (ncn handler) in
  let '(address, _, _) := VaultRegistryAccount.find_program_address (ncn_program_id handler) ncn in
  let* account := get_account handler address in
  match account with
  | Some account => lift (program_error (try_from_slice_unchecked account))
  | None =>
      let* _ := create_vault_registry handler in
      let* account_after_attempt := get_account handler address in
      match account_after_attempt with
      | Some account_after_attempt => lift (program_error (try_from_slice_unchecked account_after_attempt))
      | None => throw (CliError.Message "Failed to get VaultRegistry account")
      end
  end.

Definition register_vault handler vault : M W CliError.t unit :=
  let* ncn := lift (ncn handler) in
  let '(ncn_program_config, _, _) := ConfigAccount.find_program_address (ncn_program_id handler) ncn in
  let '(vault_registry, _, _) := VaultRegistryAccount.find_program_address (ncn_program_id handler) ncn in
  let ncn_vault_ticket := ncn_vault_ticket_address (restaking_program_id handler) ncn vault in
  send_and_log_transaction handler
    [RegisterVault.instruction
       (RegisterVault.mk ncn_program_config vault_registry ncn vault ncn_vault_ticket)] [].

(** ** Preparing an epoch *)

Definition create_epoch_state handler epoch : M W CliError.t unit :=
  let* ncn := lift (ncn handler) in
  let '(config, _, _) := ConfigAccount.find_program_address (ncn_program_id handler) ncn in
  let '(epoch_state, _, _) := EpochStateAccount.find_program_address (ncn_program_id handler) ncn epoch in
  let '(account_payer, _, _) := AccountPayer.find_program_address (ncn_program_id handler) ncn in
  let '(epoch_marker, _, _) := EpochMarker.find_program_address id ncn epoch in
  let* epoch_state_account := get_account handler epoch_state in
  match epoch_state_account with
  | None =>
      send_and_log_transaction handler
        [InitializeEpochState.instruction
           (InitializeEpochState.mk epoch_marker epoch_state config ncn account_payer system_program_id) epoch] []
  | Some _ => ret tt
  end.

Definition create_weight_table handler epoch : M W CliError.t unit :=
  let* ncn := lift (ncn handler) in
  let '(config, _, _) := ConfigAccount.find_program_address (ncn_program_id handler) ncn in
  let '(vault_registry, _, _) := VaultRegistryAccount.find_program_address (ncn_program_id handler) ncn in
  let '(weight_table, _, _) := WeightTableAccount.find_program_address (ncn_program_id handler) ncn epoch in
  let '(epoch_state, _, _) := EpochStateAccount.find_program_address (ncn_program_id handler) ncn epoch in
  let '(account_payer, _, _) := AccountPayer.find_program_address (ncn_program_id handler) ncn in
  let '(epoch_marker, _, _) := EpochMarker.find_program_address id ncn epoch in
  let* weight_table_account := get_account handler weight_table in
  let* _ :=
    match weight_table_account with
    | None =>
        send_and_log_transaction handler
          [InitializeWeightTable.instruction
             (InitializeWeightTable.mk epoch_marker epoch_state vault_registry ncn weight_table account_payer
                system_program_id) epoch] []
    | Some _ => ret tt
    end in
  let num_reallocs := num_reallocs Size.WeightTable in
  let realloc_weight_table_ix :=
    ReallocWeightTable.instruction
      (ReallocWeightTable.mk epoch_state config weight_table ncn vault_registry account_payer
         system_program_id) epoch in
  send_and_log_transaction handler (repeated num_reallocs realloc_weight_table_ix) [].

Definition set_epoch_weights handler epoch : M W CliError.t unit :=
  let* ncn := lift (ncn handler) in
  let '(weight_table, _, _) := WeightTableAccount.find_program_address (ncn_program_id handler) ncn epoch in
  let '(epoch_state, _, _) := EpochStateAccount.find_program_address (ncn_program_id handler) ncn epoch in
  let '(vault_registry, _, _) := VaultRegistryAccount.find_program_address (ncn_program_id handler) ncn in
  send_and_log_transaction handler
    [SetEpochWeights.instruction
       (SetEpochWeights.mk epoch_state ncn vault_registry weight_table) epoch] [].

Definition create_epoch_snapshot handler epoch : M W CliError.t unit :=
  let* ncn := lift (ncn handler) in
  let '(config, _, _) := ConfigAccount.find_program_address (ncn_program_id handler) ncn in
  let '(epoch_state, _, _) := EpochStateAccount.find_program_address (ncn_program_id handler) ncn epoch in
  let '(weight_table, _, _) := WeightTableAccount.find_program_address (ncn_program_id handler) ncn epoch in
  let '(epoch_snapshot, _, _) := EpochSnapshotAccount.find_program_address (ncn_program_id handler) ncn epoch in
  let '(account_payer, _, _) := AccountPayer.find_program_address (ncn_program_id handler) ncn in
  let '(epoch_marker, _, _) := EpochMarker.find_program_address id ncn epoch in
  send_and_log_transaction handler
    [InitializeEpochSnapshot.instruction
       (InitializeEpochSnapshot.mk epoch_marker epoch_state config ncn weight_table epoch_snapshot
          account_payer system_program_id) epoch] [].

Definition create_operator_snapshot handler operator epoch : M W CliError.t unit :=
  let* ncn := lift (ncn handler) in
  let '(config, _, _) := ConfigAccount.find_program_address (ncn_program_id handler) ncn in
  let '(epoch_state, _, _) := EpochStateAccount.find_program_address (ncn_program_id handler) ncn epoch in
  let ncn_operator_state := ncn_operator_state_address (restaking_program_id handler) ncn operator in
  let '(epoch_snapshot, _, _) := EpochSnapshotAccount.find_program_address (ncn_program_id handler) ncn epoch in
  let '(operator_snapshot, _, _) :=
    OperatorSnapshotAccount.find_program_address (ncn_program_id handler) operator ncn epoch in
  let '(account_payer, _, _) := AccountPayer.find_program_address (ncn_program_id handler) ncn in
  let '(epoch_marker, _, _) := EpochMarker.find_program_address id ncn epoch in
  let* operator_snapshot_account := get_account handler operator_snapshot in
  match operator_snapshot_account with
  | None =>
      send_and_log_transaction handler
        [InitializeOperatorSnapshot.instruction
           (InitializeOperatorSnapshot.mk epoch_marker epoch_state config
              (restaking_config_address (restaking_program_id handler)) ncn operator ncn_operator_state
              epoch_snapshot operator_snapshot account_payer system_program_id) epoch] []
  | Some _ => ret tt
  end.

Definition snapshot_vault_operator_delegation handler vault operator epoch : M W CliError.t unit :=
  let* ncn := lift (ncn handler) in
  let '(config, _, _) := ConfigAccount.find_program_address (ncn_program_id handler) ncn in
  let '(epoch_state, _, _) := EpochStateAccount.find_program_address (ncn_program_id handler) ncn epoch in
  let restaking_config := restaking_config_address (restaking_program_id handler) in
  let vault_ncn_ticket := vault_ncn_ticket_address (vault_program_id handler) vault ncn in
  let ncn_vault_ticket := ncn_vault_ticket_address (restaking_program_id handler) ncn vault in
  let vault_operator_delegation := vault_operator_delegation_address (vault_program_id handler) vault operator in
  let '(weight_table, _, _) := WeightTableAccount.find_program_address (ncn_program_id handler) ncn epoch in
  let '(epoch_snapshot, _, _) := EpochSnapshotAccount.find_program_address (ncn_program_id handler) ncn epoch in
  let '(operator_snapshot, _, _) :=
    OperatorSnapshotAccount.find_program_address (ncn_program_id handler) operator ncn epoch in
  send_and_log_transaction handler
    [SnapshotVaultOperatorDelegation.instruction
       (SnapshotVaultOperatorDelegation.mk epoch_state config restaking_config ncn operator vault
          vault_ncn_ticket ncn_vault_ticket vault_operator_delegation weight_table epoch_snapshot
          operator_snapshot) epoch] [].

Definition create_ballot_box handler epoch : M W CliError.t unit :=
  let* ncn := lift (ncn handler) in
  let '(config, _, _) := ConfigAccount.find_program_address (ncn_program_id handler) ncn in
  let '(epoch_state, _, _) := EpochStateAccount.find_program_address (ncn_program_id handler) ncn epoch in
  let '(ballot_box, _, _) := BallotBoxAccount.find_program_address (ncn_program_id handler) ncn epoch in
  let '(account_payer, _, _) := AccountPayer.find_program_address (ncn_program_id handler) ncn in
  let '(epoch_marker, _, _) := EpochMarker.find_program_address id ncn epoch in
  let '(consensus_result, _, _) := ConsensusResultAccount.find_program_address (ncn_program_id handler) ncn epoch in
  let* ballot_box_account := get_account handler ballot_box in
  let* _ :=
    match ballot_box_account with
    | None =>
        send_and_log_transaction handler
          [InitializeBallotBox.instruction
             (InitializeBallotBox.mk epoch_marker epoch_state config ballot_box ncn account_payer
                system_program_id consensus_result) epoch] []
    | Some _ => ret tt
    end in
  let num_reallocs := num_reallocs Size.BallotBox in
  let realloc_ballot_box_ix :=
    ReallocBallotBox.instruction
      (ReallocBallotBox.mk epoch_state config ballot_box ncn account_payer system_program_id) epoch in
  send_and_log_transaction handler (repeated num_reallocs realloc_ballot_box_ix) [].

Definition operator_cast_vote handler operator epoch (weather_status : u8) : M W CliError.t unit :=
  let* keypair := lift (keypair handler) in
  let* ncn := lift (ncn handler) in
  let '(config, _, _) := ConfigAccount.find_program_address (ncn_program_id handler) ncn in
  let '(epoch_state, _, _) := EpochStateAccount.find_program_address (ncn_program_id handler) ncn epoch in
  let '(ballot_box, _, _) := BallotBoxAccount.find_program_address (ncn_program_id handler) ncn epoch in
  let '(epoch_snapshot, _, _) := EpochSnapshotAccount.find_program_address (ncn_program_id handler) ncn epoch in
  let '(operator_snapshot, _, _) :=
    OperatorSnapshotAccount.find_program_address (ncn_program_id handler) operator ncn epoch in
  let '(consensus_result, _, _) := ConsensusResultAccount.find_program_address (ncn_program_id handler) ncn epoch in
  send_and_log_transaction handler
    [CastVote.instruction
       (CastVote.mk epoch_state config ballot_box ncn epoch_snapshot operator_snapshot operator keypair
          consensus_result) weather_status epoch] [].

Definition close_epoch_account handler (ncn : Pubkey) epoch (account_to_close : Pubkey) : M W CliError.t unit :=
  let '(epoch_marker, _, _) := EpochMarker.find_program_address (ncn_program_id handler) ncn epoch in
  let '(epoch_state, _, _) := EpochStateAccount.find_program_address (ncn_program_id handler) ncn epoch in
  let '(account_payer, _, _) := AccountPayer.find_program_address (ncn_program_id handler) ncn in
  let '(config, _, _) := ConfigAccount.find_program_address (ncn_program_id handler) ncn in
  let* account := get_account handler account_to_close in
  let account_already_closed :=
    match account with
    | None => true
    | Some account => (data_len (Account.data account) =? 0) || (Account.lamports account =? 0)
    end in
  if account_already_closed then ret tt
  else
    send_and_log_transaction handler
      [CloseEpochAccount.instruction
         (CloseEpochAccount.mk epoch_marker epoch_state config ncn account_to_close account_payer
            system_program_id None None) epoch] [].

(** ** The administrator *)

Definition admin_create_config handler (ncn_fee_wallet : Pubkey) (ncn_fee_bps : u16)
    (tie_breaker_admin : option Pubkey)
    (epochs_before_stall valid_slots_after_consensus epochs_after_consensus_before_close : u64)
    : M W CliError.t unit :=
  let* keypair := lift (keypair handler) in
  let* ncn := lift (ncn handler) in
  let '(config, _, _) := ConfigAccount.find_program_address (ncn_program_id handler) ncn in
  let '(account_payer, _, _) := AccountPayer.find_program_address (ncn_program_id handler) ncn in
  let tie_breaker_admin := default keypair tie_breaker_admin in
  let initialize_config_ix :=
    InitializeConfig.instruction
      (InitializeConfig.mk config ncn ncn_fee_wallet keypair tie_breaker_admin account_payer
         system_program_id) epochs_before_stall epochs_after_consensus_before_close
         valid_slots_after_consensus ncn_fee_bps in
  let* program := get_account_with_commitment (ncn_program_id handler) in
  match program with
  | None => throw (CliError.Message "AccountNotFound")
  | Some _ => send_and_log_transaction handler [initialize_config_ix] []
  end.

Definition admin_register_st_mint handler vault (weight : option u128) : M W CliError.t unit :=
  let* keypair := lift (keypair handler) in
  let* ncn := lift (ncn handler) in
  let '(config, _, _) := ConfigAccount.find_program_address (ncn_program_id handler) ncn in
  let '(vault_registry, _, _) := VaultRegistryAccount.find_program_address (ncn_program_id handler) ncn in
  let* vault_account := get_vault handler vault in
  send_and_log_transaction handler
    [AdminRegisterStMint.instruction
       (AdminRegisterStMint.mk config ncn (supported_mint vault_account) vault_registry keypair) weight] [].

Definition admin_set_weight_with_st_mint handler (st_mint : Pubkey) epoch (weight : u128) : M W CliError.t unit :=
  let* keypair := lift (keypair handler) in
  let* ncn := lift (ncn handler) in
  let '(weight_table, _, _) := WeightTableAccount.find_program_address (ncn_program_id handler) ncn epoch in
  let '(epoch_state, _, _) := EpochStateAccount.find_program_address (ncn_program_id handler) ncn epoch in
  send_and_log_transaction handler
    [AdminSetWeight.instruction
       (AdminSetWeight.mk epoch_state ncn weight_table keypair) st_mint weight epoch] [].
Definition admin_set_weight handler vault epoch (weight : u128) : M W CliError.t unit :=
  let* vault_account := get_vault handler vault in
  admin_set_weight_with_st_mint handler (supported_mint vault_account) epoch weight.

Definition admin_set_tie_breaker handler epoch (weather_status : u8) : M W CliError.t unit :=
  let* keypair := lift (keypair handler) in
  let* ncn := lift (ncn handler) in
  let '(epoch_state, _, _) := EpochStateAccount.find_program_address (ncn_program_id handler) ncn epoch in
  let '(ncn_config, _, _) := ConfigAccount.find_program_address (ncn_program_id handler) ncn in
  let '(ballot_box, _, _) := BallotBoxAccount.find_program_address (ncn_program_id handler) ncn epoch in
  send_and_log_transaction handler
    [AdminSetTieBreaker.instruction
       (AdminSetTieBreaker.mk epoch_state ncn_config ballot_box ncn keypair) weather_status epoch] [].

Definition admin_set_new_admin handler (new_admin : Pubkey) (set_tie_breaker_admin : bool) : M W CliError.t unit :=
  let* keypair := lift (keypair handler) in
  let* ncn := lift (ncn handler) in
  let '(config_pda, _, _) := ConfigAccount.find_program_address (ncn_program_id handler) ncn in
  let roles := [(set_tie_breaker_admin, ConfigAdminRole.TieBreakerAdmin)] in
  for_all roles (fun '(should_set, role) =>
    if negb should_set then ret tt
    else
      send_and_log_transaction handler
        [AdminSetNewAdmin.instruction
           (AdminSetNewAdmin.mk config_pda ncn keypair new_admin) role] []).

Definition admin_set_parameters handler (epochs_before_stall epochs_after_consensus_before_close
    valid_slots_after_consensus starting_valid_epoch : option u64) : M W CliError.t unit :=
  let* keypair := lift (keypair handler) in
  let* ncn := lift (ncn handler) in
  let '(config_pda, _, _) := ConfigAccount.find_program_address (ncn_program_id handler) ncn in
  send_and_log_transaction handler
    [AdminSetParameters.instruction
       (AdminSetParameters.mk config_pda ncn keypair) starting_valid_epoch epochs_before_stall
          epochs_after_consensus_before_close valid_slots_after_consensus] [].

(** ** Getting or creating *)

(** Whether an account is missing or has not grown to its size. *)
Definition too_short (size : usize) (account : option (Account.t D)) : bool :=
  match account with None => true | Some account => data_len (Account.data account) <? size end.

Definition get_or_create_weight_table handler epoch : M W CliError.t WeightTable.t :=
  let* ncn := lift (ncn handler) in
  let '(weight_table, _, _) := WeightTableAccount.find_program_address (ncn_program_id handler) ncn epoch in
  let* account := get_account handler weight_table in
  let* _ :=
    if too_short Size.WeightTable account then
      let* _ := create_weight_table handler epoch in check_created handler weight_table
    else ret tt in
  get_weight_table handler epoch.

Definition get_or_create_epoch_snapshot handler epoch : M W CliError.t EpochSnapshot.t :=
  let* ncn := lift (ncn handler) in
  let '(epoch_snapshot, _, _) := EpochSnapshotAccount.find_program_address (ncn_program_id handler) ncn epoch in
  let* account := get_account handler epoch_snapshot in
  let* _ :=
    if too_short Size.EpochSnapshot account then
      let* _ := create_epoch_snapshot handler epoch in check_created handler epoch_snapshot
    else ret tt in
  get_epoch_snapshot handler epoch.

Definition get_or_create_operator_snapshot handler operator epoch : M W CliError.t OperatorSnapshot.t :=
  let* ncn := lift (ncn handler) in
  let '(operator_snapshot, _, _) :=
    OperatorSnapshotAccount.find_program_address (ncn_program_id handler) operator ncn epoch in
  let* account := get_account handler operator_snapshot in
  let* _ :=
    if too_short Size.OperatorSnapshot account then
      let* _ := create_operator_snapshot handler operator epoch in check_created handler operator_snapshot
    else ret tt in
  get_operator_snapshot handler operator epoch.

Definition get_or_create_ballot_box handler epoch : M W CliError.t BallotBox.t :=
  let* ncn := lift (ncn handler) in
  let '(ballot_box, _, _) := BallotBoxAccount.find_program_address (ncn_program_id handler) ncn epoch in
  let* account := get_account handler ballot_box in
  let* _ :=
    if too_short Size.BallotBox account then
      let* _ := create_ballot_box handler epoch in check_created handler ballot_box
    else ret tt in
  get_ballot_box handler epoch.

(** ** Updating a vault *)

(** [for index in 0..all_operators.len()]: one crank per operator, in a circle. *)
Definition crank_operators handler (payer vault vault_config vault_update_state_tracker : Pubkey)
    (all_operators : list Pubkey) (starting_index : u64) : M W CliError.t unit :=
  for_all (seq 0 (List.length all_operators)) (fun index =>
    let current_index := (starting_index + Z.of_nat index) mod Z.of_nat (List.length all_operators) in
    match all_operators !! Z.to_nat current_index with
    | None => lift Panic
    | Some operator =>
        let vault_operator_delegation := vault_operator_delegation_address (vault_program_id handler) vault operator in
        let* _ := attempt (send_and_log_transaction handler
          [CrankVaultUpdateStateTracker vault operator vault_config vault_operator_delegation
             vault_update_state_tracker] [payer]) in
        ret tt
    end).

Definition full_vault_update handler vault : M W CliError.t unit :=
  let* payer := lift (keypair handler) in
  let* current_slot := get_current_slot handler in
  let* vault_config := get_vault_config handler in
  let* ncn_epoch := lift (program_error (get_epoch_from_slot vault_config current_slot)) in
  let epoch_length := epoch_length vault_config in
  let* vault_account := get_vault handler vault in
  let* current_slot := get_current_slot handler in
  let* needed := lift (program_error (is_update_needed vault_account current_slot epoch_length)) in
  if negb needed then ret tt
  else
    let vault_config := vault_config_address (vault_program_id handler) in
    let vault_update_state_tracker := vault_update_state_tracker_address (vault_program_id handler) vault ncn_epoch in
    let* vault_update_state_tracker_account := get_account handler vault_update_state_tracker in
    let* _ :=
      match vault_update_state_tracker_account with
      | None =>
          let* _ := attempt (send_and_log_transaction handler
            [InitializeVaultUpdateStateTracker vault vault_update_state_tracker payer vault_config] [payer]) in
          ret tt
      | Some _ => ret tt
      end in
    let* all_operators := get_all_sorted_operators_for_vault handler vault in
    let n := Z.of_nat (List.length all_operators) in
    let* _ :=
      if n =? 0 then ret tt
      else
        let* tracker := get_vault_update_state_tracker handler vault ncn_epoch in
        let* starting_index :=
          if last_updated_index tracker =? u64_MAX then ret (ncn_epoch mod n)
          else let* next := lift (add_u64 (last_updated_index tracker) 1) in ret (next mod n) in
        crank_operators handler payer vault vault_config vault_update_state_tracker all_operators starting_index in
    let* vault_update_state_tracker_account := get_account handler vault_update_state_tracker in
    match vault_update_state_tracker_account with
    | Some _ =>
        let* _ := attempt (send_and_log_transaction handler
          [CloseVaultUpdateStateTracker vault vault_update_state_tracker payer vault_config ncn_epoch] [payer]) in
        ret tt
    | None => ret tt
    end.

(** ** Rewards *)

Definition create_ncn_reward_router handler epoch : M W CliError.t unit :=
  let* ncn := lift (ncn handler) in
  let '(epoch_state, _, _) := EpochStateAccount.find_program_address (ncn_program_id handler) ncn epoch in
  let '(ncn_reward_router, _, _) := NCNRewardRouterAccount.find_program_address (ncn_program_id handler) ncn epoch in
  let '(ncn_reward_receiver, _, _) := NCNRewardReceiver.find_program_address (ncn_program_id handler) ncn epoch in
  let '(account_payer, _, _) := AccountPayer.find_program_address (ncn_program_id handler) ncn in
  let '(epoch_marker, _, _) := EpochMarker.find_program_address id ncn epoch in
  let* ncn_reward_router_account := get_account handler ncn_reward_router in
  let* _ :=
    match ncn_reward_router_account with
    | None =>
        send_and_log_transaction handler
          [InitializeNCNRewardRouter.instruction
             (InitializeNCNRewardRouter.mk epoch_marker epoch_state ncn ncn_reward_router ncn_reward_receiver
                account_payer system_program_id) epoch] []
    | Some _ => ret tt
    end in
  let num_reallocs := num_reallocs Size.NCNRewardRouter in
  let '(config, _, _) := ConfigAccount.find_program_address (ncn_program_id handler) ncn in
  let realloc_ncn_reward_router_ix :=
    ReallocNCNRewardRouter.instruction
      (ReallocNCNRewardRouter.mk epoch_state config ncn_reward_router ncn account_payer system_program_id)
         epoch in
  send_and_log_transaction handler (repeated num_reallocs realloc_ncn_reward_router_ix) [].

Definition create_operator_vault_reward_router handler operator epoch : M W CliError.t unit :=
  let* ncn := lift (ncn handler) in
  let '(operator_snapshot, _, _) :=
    OperatorSnapshotAccount.find_program_address (ncn_program_id handler) operator ncn epoch in
  let '(operator_vault_reward_router, _, _) :=
    OperatorVaultRewardRouterAccount.find_program_address (ncn_program_id handler) operator ncn epoch in
  let '(account_payer, _, _) := AccountPayer.find_program_address (ncn_program_id handler) ncn in
  let '(epoch_marker, _, _) := EpochMarker.find_program_address id ncn epoch in
  let* operator_vault_reward_router_account := get_account handler operator_vault_reward_router in
  let '(epoch_state, _, _) := EpochStateAccount.find_program_address (ncn_program_id handler) ncn epoch in
  let '(operator_vault_reward_receiver, _, _) :=
    OperatorVaultRewardReceiver.find_program_address (ncn_program_id handler) operator ncn epoch in
  match operator_vault_reward_router_account with
  | None =>
      send_and_log_transaction handler
        [InitializeOperatorVaultRewardRouter.instruction
           (InitializeOperatorVaultRewardRouter.mk epoch_marker epoch_state ncn operator operator_snapshot
              operator_vault_reward_router operator_vault_reward_receiver account_payer system_program_id)
              epoch] []
  | Some _ => ret tt
  end.

Definition get_or_create_ncn_reward_router handler epoch : M W CliError.t NCNRewardRouter.t :=
  let* ncn := lift (ncn handler) in
  let '(ncn_reward_router, _, _) := NCNRewardRouterAccount.find_program_address (ncn_program_id handler) ncn epoch in
  let* account := get_account handler ncn_reward_router in
  let* _ :=
    if too_short Size.NCNRewardRouter account then
      let* _ := create_ncn_reward_router handler epoch in check_created handler ncn_reward_router
    else ret tt in
  get_ncn_reward_router handler epoch.

Definition get_or_create_operator_vault_reward_router handler operator epoch
    : M W CliError.t OperatorVaultRewardRouter.t :=
  let* ncn := lift (ncn handler) in
  let '(operator_snapshot, _, _) :=
    OperatorSnapshotAccount.find_program_address (ncn_program_id handler) operator ncn epoch in
  let '(operator_vault_reward_router, _, _) :=
    OperatorVaultRewardRouterAccount.find_program_address (ncn_program_id handler) operator ncn epoch in
  let* snapshot := get_account handler operator_snapshot in
  match snapshot with
  | None => throw (CliError.Message "Invalid Route")
  | Some _ =>
      let* account := get_account handler operator_vault_reward_router in
      let* _ :=
        if too_short Size.OperatorVaultRewardRouter account then
          let* _ := create_operator_vault_reward_router handler operator epoch in
          check_created handler operator_vault_reward_router
        else ret tt in
      get_operator_vault_reward_router handler operator epoch
  end.

Definition process_route_ncn_rewards handler epoch : M W CliError.t unit :=
  let* ncn := lift (ncn handler) in
  let '(config, _, _) := ConfigAccount.find_program_address (ncn_program_id handler) ncn in
  let '(epoch_state, _, _) := EpochStateAccount.find_program_address (ncn_program_id handler) ncn epoch in
  let '(ncn_reward_router, _, _) := NCNRewardRouterAccount.find_program_address (ncn_program_id handler) ncn epoch in
  let '(ncn_reward_receiver, _, _) := NCNRewardReceiver.find_program_address (ncn_program_id handler) ncn epoch in
  let '(ballot_box, _, _) := BallotBoxAccount.find_program_address (ncn_program_id handler) ncn epoch in
  let '(epoch_snapshot, _, _) := EpochSnapshotAccount.find_program_address (ncn_program_id handler) ncn epoch in
  send_and_log_transaction handler
    [SetComputeUnitLimit 1400000;
     RouteNCNRewards.instruction
       (RouteNCNRewards.mk epoch_state config ncn epoch_snapshot ballot_box ncn_reward_router
          ncn_reward_receiver) (NCNRewardRouter.MAX_ROUTE_BASE_ITERATIONS) epoch] [].

Definition process_route_operator_vault_rewards handler operator epoch : M W CliError.t unit :=
  let* ncn := lift (ncn handler) in
  let '(operator_snapshot, _, _) :=
    OperatorSnapshotAccount.find_program_address (ncn_program_id handler) operator ncn epoch in
  let '(operator_vault_reward_router, _, _) :=
    OperatorVaultRewardRouterAccount.find_program_address (ncn_program_id handler) operator ncn epoch in
  let '(operator_vault_reward_receiver, _, _) :=
    OperatorVaultRewardReceiver.find_program_address (ncn_program_id handler) operator ncn epoch in
  let '(epoch_state, _, _) := EpochStateAccount.find_program_address (ncn_program_id handler) ncn epoch in
  send_and_log_transaction handler
    [SetComputeUnitLimit 1400000;
     RouteOperatorVaultRewards.instruction
       (RouteOperatorVaultRewards.mk epoch_state ncn operator operator_snapshot operator_vault_reward_router
          operator_vault_reward_receiver) (OperatorVaultRewardRouter.MAX_ROUTE_NCN_ITERATIONS) epoch] [].

(** [while still_routing], for at most [fuel] rounds; without fuel left it is the
    loop that does not end. *)
Fixpoint while_routing (round : M W CliError.t bool) (fuel : nat) : M W CliError.t unit :=
  match fuel with
  | O => lift Panic
  | S fuel => let* still_routing := round in if still_routing then while_routing round fuel else ret tt
  end.
Context (fuel : nat).

Definition route_ncn_rewards handler epoch : M W CliError.t unit :=
  while_routing (
    let* _ := process_route_ncn_rewards handler epoch in
    let* ncn_reward_router_account := get_ncn_reward_router handler epoch in
    ret (NCNRewardRouter.still_routing ncn_reward_router_account)) fuel.
Definition route_operator_vault_rewards handler operator epoch : M W CliError.t unit :=
  while_routing (
    let* _ := process_route_operator_vault_rewards handler operator epoch in
    let* ncn_reward_router_account := get_operator_vault_reward_router handler operator epoch in
    ret (OperatorVaultRewardRouter.still_routing ncn_reward_router_account)) fuel.

Definition distribute_ncn_rewards handler epoch : M W CliError.t unit :=
  let* ncn := lift (ncn handler) in
  let '(ncn_config_address, _, _) := ConfigAccount.find_program_address (ncn_program_id handler) ncn in
  let '(epoch_state, _, _) := EpochStateAccount.find_program_address (ncn_program_id handler) ncn epoch in
  let '(ncn_reward_router, _, _) := NCNRewardRouterAccount.find_program_address (ncn_program_id handler) ncn epoch in
  let '(ncn_reward_receiver, _, _) := NCNRewardReceiver.find_program_address (ncn_program_id handler) ncn epoch in
  let* ncn_config := get_ncn_program_config handler in
  send_and_log_transaction handler
    [DistributeNCNRewards.instruction
       (DistributeNCNRewards.mk epoch_state ncn_config_address ncn ncn_reward_router ncn_reward_receiver
          (FeeConfig.ncn_fee_wallet (Config.fee_config ncn_config)) system_program_id) epoch] [].

Definition distribute_protocol_rewards handler epoch : M W CliError.t unit :=
  let* ncn := lift (ncn handler) in
  let '(ncn_config_address, _, _) := ConfigAccount.find_program_address (ncn_program_id handler) ncn in
  let '(epoch_state, _, _) := EpochStateAccount.find_program_address (ncn_program_id handler) ncn epoch in
  let '(ncn_reward_router, _, _) := NCNRewardRouterAccount.find_program_address (ncn_program_id handler) ncn epoch in
  let '(ncn_reward_receiver, _, _) := NCNRewardReceiver.find_program_address (ncn_program_id handler) ncn epoch in
  let* ncn_config := get_ncn_program_config handler in
  send_and_log_transaction handler
    [DistributeProtocolRewards.instruction
       (DistributeProtocolRewards.mk epoch_state ncn_config_address ncn ncn_reward_router ncn_reward_receiver
          (FeeConfig.protocol_fee_wallet (Config.fee_config ncn_config)) system_program_id) epoch] [].

Definition distribute_operator_vault_rewards handler operator epoch : M W CliError.t unit :=
  let* ncn := lift (ncn handler) in
  let '(epoch_state, _, _) := EpochStateAccount.find_program_address (ncn_program_id handler) ncn epoch in
  let '(config, _, _) := ConfigAccount.find_program_address (ncn_program_id handler) ncn in
  let '(ncn_reward_router, _, _) := NCNRewardRouterAccount.find_program_address (ncn_program_id handler) ncn epoch in
  let '(ncn_reward_receiver, _, _) := NCNRewardReceiver.find_program_address (ncn_program_id handler) ncn epoch in
  let '(operator_vault_reward_router, _, _) :=
    OperatorVaultRewardRouterAccount.find_program_address (ncn_program_id handler) operator ncn epoch in
  let '(operator_vault_reward_receiver, _, _) :=
    OperatorVaultRewardReceiver.find_program_address (ncn_program_id handler) operator ncn epoch in
  send_and_log_transaction handler
    [DistributeOperatorVaultRewardRoute.instruction
       (DistributeOperatorVaultRewardRoute.mk epoch_state config ncn operator ncn_reward_router
          ncn_reward_receiver operator_vault_reward_router operator_vault_reward_receiver system_program_id)
          epoch] [].

Definition distribute_ncn_operator_rewards handler operator epoch : M W CliError.t unit :=
  let* ncn := lift (ncn handler) in
  let '(config, _, _) := ConfigAccount.find_program_address (ncn_program_id handler) ncn in
  let '(epoch_state, _, _) := EpochStateAccount.find_program_address (ncn_program_id handler) ncn epoch in
  let '(operator_snapshot, _, _) :=
    OperatorSnapshotAccount.find_program_address (ncn_program_id handler) operator ncn epoch in
  let '(operator_vault_reward_router, _, _) :=
    OperatorVaultRewardRouterAccount.find_program_address (ncn_program_id handler) operator ncn epoch in
  let '(operator_vault_reward_receiver, _, _) :=
    OperatorVaultRewardReceiver.find_program_address (ncn_program_id handler) operator ncn epoch in
  send_and_log_transaction handler
    [DistributeOperatorRewards.instruction
       (DistributeOperatorRewards.mk epoch_state config ncn operator operator_snapshot
          operator_vault_reward_router operator_vault_reward_receiver system_program_id) epoch] [].

Definition distribute_ncn_vault_rewards handler vault operator epoch : M W CliError.t unit :=
  let* ncn := lift (ncn handler) in
  let '(config, _, _) := ConfigAccount.find_program_address (ncn_program_id handler) ncn in
  let '(epoch_state, _, _) := EpochStateAccount.find_program_address (ncn_program_id handler) ncn epoch in
  let '(operator_snapshot, _, _) :=
    OperatorSnapshotAccount.find_program_address (ncn_program_id handler) operator ncn epoch in
  let '(operator_vault_reward_router, _, _) :=
    OperatorVaultRewardRouterAccount.find_program_address (ncn_program_id handler) operator ncn epoch in
  let '(operator_vault_reward_receiver, _, _) :=
    OperatorVaultRewardReceiver.find_program_address (ncn_program_id handler) operator ncn epoch in
  send_and_log_transaction handler
    [DistributeVaultRewards.instruction
       (DistributeVaultRewards.mk epoch_state config ncn operator vault operator_snapshot
          operator_vault_reward_router operator_vault_reward_receiver system_program_id) epoch] [].

(** ** Cranks

    An error of one step is logged and the crank goes on with the next, where
    the code does so: [logged]. *)
Definition logged {A} (m : M W CliError.t A) : M W CliError.t unit := let* _ := attempt m in ret tt.

Definition crank_register_vaults handler : M W CliError.t unit :=
  let* all_ncn_vaults := get_all_vaults_in_ncn handler in
  let* vault_registry := get_or_create_vault_registry handler in
  let all_registered_vaults := map VaultEntry.vault (VaultRegistry.get_valid_vault_entries vault_registry) in
  let vaults_to_register := List.filter (fun vault => negb (any (Z.eqb vault) all_registered_vaults)) all_ncn_vaults in
  for_all vaults_to_register (fun vault => logged (register_vault handler vault)).

Definition crank_set_weight handler epoch : M W CliError.t unit :=
  let* _ := create_weight_table handler epoch in
  set_epoch_weights handler epoch.

Definition crank_snapshot handler epoch : M W CliError.t unit :=
  let* vault_registry := get_vault_registry handler in
  let* operators := get_all_operators_in_ncn handler in
  let all_vaults := map VaultEntry.vault (VaultRegistry.get_valid_vault_entries vault_registry) in
  let* epoch_snapshot := get_or_create_epoch_snapshot handler epoch in
  let* _ :=
    if EpochSnapshot.finalized epoch_snapshot then ret tt
    else
      for_all operators (fun operator =>
        let* result := attempt (get_or_create_operator_snapshot handler operator epoch) in
        match result with
        | Ok operator_snapshot =>
            let vaults_to_run :=
              List.filter (fun vault => negb (OperatorSnapshot.contains_vault vault operator_snapshot)) all_vaults in
            for_all vaults_to_run (fun vault =>
              let* _ := logged (full_vault_update handler vault) in
              logged (snapshot_vault_operator_delegation handler vault operator epoch))
        | _ => ret tt
        end) in
  logged (get_or_create_ballot_box handler epoch).

(** The operators of the NCN whose voter is the client's key vote for sun. *)
Definition crank_test_vote handler epoch : M W CliError.t unit :=
  let* voter' := lift (keypair handler) in
  let weather_status := 0 in
  let* operators := get_all_operators_in_ncn handler in
  for_all operators (fun operator =>
    let* operator_account := get_operator handler operator in
    if negb (voter operator_account =? voter') then ret tt
    else logged (operator_cast_vote handler operator epoch weather_status)).

Definition get_weather_status (api_key city_name : string) : M W CliError.t u8 :=
  let* weather := weather_conditions api_key city_name in
  ret match weather with
      | main :: _ =>
          if bool_decide (main = "Clear") then 0
          else if bool_decide (main ∈ ["Rain"; "Snow"; "Drizzle"; "Thunderstorm"]) then 2
          else 1
      | [] => 1
      end.
Definition operator_crank_vote handler epoch operator : M W CliError.t u8 :=
  let* api_key := lift (open_weather_api_key handler) in
  let* weather_value := get_weather_status api_key "Solana Beach" in
  let* _ := operator_cast_vote handler operator epoch weather_value in
  ret weather_value.

(** What it looks at for its log: the tally of the operator's vote, by index, and
    the winning ballot. *)
Definition operator_crank_post_vote handler epoch operator : M W CliError.t unit :=
  let* ballot_box := get_ballot_box handler epoch in
  let operator_vote :=
    if BallotBox.did_operator_vote operator ballot_box then
      List.find (fun v => OperatorVote.operator v =? operator) (BallotBox.operator_votes ballot_box)
    else None in
  let* _ :=
    match operator_vote with
    | Some vote =>
        match BallotBox.ballot_tallies ballot_box !! Z.to_nat (OperatorVote.ballot_index vote) with
        | Some operator_ballot => ret tt
        | None => lift Panic
        end
    | None => ret tt
    end in
  if BallotBox.is_consensus_reached ballot_box then
    let* _ := lift (program_error (into (BallotBox.get_winning_ballot ballot_box))) in ret tt
  else ret tt.

Definition crank_post_vote_cooldown handler epoch : M W CliError.t unit :=
  let* result := get_consensus_result handler epoch in ret tt.

Definition distribute_to_operator handler epoch (ncn_reward_router : NCNRewardRouter.t) operator
    : M W CliError.t unit :=
  let* result := attempt (get_or_create_operator_vault_reward_router handler operator epoch) in
  match result, NCNRewardRouter.oprtator_vault_reward_route operator ncn_reward_router with
  | Ok _, Ok operator_route =>
      let has_rewards :=
        match OperatorVaultRewardRoute.has_rewards operator_route with Ok b => b | _ => false end in
      let* result :=
        if has_rewards then attempt (distribute_operator_vault_rewards handler operator epoch) else ret (Ok tt) in
      match result with
      | Ok _ =>
          let* operator_vault_reward_receiver_rewards :=
            get_operator_vault_reward_receiver_rewards handler operator epoch in
          let* result :=
            if 0 <? operator_vault_reward_receiver_rewards
            then attempt (route_operator_vault_rewards handler operator epoch) else ret (Ok tt) in
          match result with
          | Ok _ =>
              let* result := attempt (get_or_create_operator_vault_reward_router handler operator epoch) in
              match result with
              | Ok operator_vault_reward_router =>
                  let* result :=
                    if negb (OperatorVaultRewardRouter.operator_rewards operator_vault_reward_router =? 0)
                    then attempt (distribute_ncn_operator_rewards handler operator epoch) else ret (Ok tt) in
                  match result with
                  | Ok _ =>
                      let vaults_to_route :=
                        map VaultRewardRoute.vault
                          (List.filter (fun route => negb (VaultRewardRoute.is_empty route)
                                                     && VaultRewardRoute.has_rewards route)
                             (OperatorVaultRewardRouter.vault_reward_routes operator_vault_reward_router)) in
                      for_all vaults_to_route (fun vault =>
                        logged (distribute_ncn_vault_rewards handler vault operator epoch))
                  | _ => ret tt
                  end
              | _ => ret tt
              end
          | _ => ret tt
          end
      | _ => ret tt
      end
  | _, _ => ret tt
  end.
Definition crank_distribute handler epoch : M W CliError.t unit :=
  let* operators := get_all_operators_in_ncn handler in
  let* ncn_reward_router := get_or_create_ncn_reward_router handler epoch in
  let* ncn_reward_receiver_rewards := get_ncn_reward_receiver_rewards handler epoch in
  let* _ := if 0 <? ncn_reward_receiver_rewards then route_ncn_rewards handler epoch else ret tt in
  let* _ := logged (distribute_ncn_rewards handler epoch) in
  let* _ := logged (distribute_protocol_rewards handler epoch) in
  for_all operators (fun operator => distribute_to_operator handler epoch ncn_reward_router operator).

(** The ballot box, the operators' snapshots, the epoch's snapshot, the weight
    table and the epoch's state. *)
Definition crank_close_epoch_accounts handler epoch : M W CliError.t unit :=
  let* ncn := lift (ncn handler) in
  let* operators := get_all_operators_in_ncn handler in
  let '(ballot_box, _, _) := BallotBoxAccount.find_program_address (ncn_program_id handler) ncn epoch in
  let* _ := logged (close_epoch_account handler ncn epoch ballot_box) in
  let* _ := for_all operators (fun operator =>
    let '(operator_snapshot, _, _) :=
      OperatorSnapshotAccount.find_program_address (ncn_program_id handler) operator ncn epoch in
    logged (close_epoch_account handler ncn epoch operator_snapshot)) in
  let '(epoch_snapshot, _, _) := EpochSnapshotAccount.find_program_address (ncn_program_id handler) ncn epoch in
  let* _ := logged (close_epoch_account handler ncn epoch epoch_snapshot) in
  let '(weight_table, _, _) := WeightTableAccount.find_program_address (ncn_program_id handler) ncn epoch in
  let* _ := logged (close_epoch_account handler ncn epoch weight_table) in
  let '(epoch_state, _, _) := EpochStateAccount.find_program_address (ncn_program_id handler) ncn epoch in
  logged (close_epoch_account handler ncn epoch epoch_state).
End commands.
