(* ===== verification/Tickets.v ===== *)
(** The rest of [cli/src/getters.rs]: the accounts of the restaking and vault
    programs that tie an NCN, its operators and its vaults together, the
    [NcnTickets] of an operator and a vault, and the cost of an epoch. *)
From stdpp Require Import strings.
From S2P Require Import Prelude Errors Precise Stake Registry Weights Fees Snapshots Voting EpochStates.
From S2P Require Import NcnRouter OperatorRouter Consensus Accounts Machine Lamports Program Client Getters.

(** The structs of the restaking and vault programs, as far as the client reads
    them. The state of a [SlotToggle] at a slot is its number. *)
Class Tickets (D : Type) {partners : Partners D} := mk_tickets_of {
  DEFAULT_SLOTS_PER_EPOCH : u64;
  SlotToggle : Type;
  toggle_state : SlotToggle -> u64 -> u64 -> result ProgramError.t u8;
  toggle_active : u8;
  DelegationState : Type;
  staked_amount : DelegationState -> u64;
  cooling_down_amount : DelegationState -> u64;
  total_security : DelegationState -> result ProgramError.t u64;
  Ncn' : Type;
  read_Ncn : D -> result ProgramError.t Ncn';
  RestakingConfig : Type;
  read_RestakingConfig : D -> result ProgramError.t RestakingConfig;
  config_epoch_length : RestakingConfig -> u64;
  NcnOperatorState : Type;
  read_NcnOperatorState : D -> result ProgramError.t NcnOperatorState;
  ncn_opt_in_state : NcnOperatorState -> SlotToggle;
  operator_opt_in_state : NcnOperatorState -> SlotToggle;
  NcnVaultTicket : Type;
  read_NcnVaultTicket : D -> result ProgramError.t NcnVaultTicket;
  ncn_vault_state : NcnVaultTicket -> SlotToggle;
  VaultNcnTicket : Type;
  read_VaultNcnTicket : D -> result ProgramError.t VaultNcnTicket;
  vault_ncn_state : VaultNcnTicket -> SlotToggle;
  OperatorVaultTicket : Type;
  read_OperatorVaultTicket : D -> result ProgramError.t OperatorVaultTicket;
  operator_vault_state : OperatorVaultTicket -> SlotToggle;
  operator_vault_ticket_address : Pubkey -> Pubkey -> Pubkey -> Pubkey;
  VaultOperatorDelegation : Type;
  read_VaultOperatorDelegation : D -> result ProgramError.t VaultOperatorDelegation;
  delegation_state : VaultOperatorDelegation -> DelegationState;
  size_of_Vault : usize;
  Vault_DISCRIMINATOR : u8;
  vault_delegation_state : Vault -> DelegationState;
  tokens_deposited : Vault -> u64;
  vrt_supply : Vault -> u64;
  vrt_cooling_down_amount : Vault -> u64;
  vrt_enqueued_for_cooldown_amount : Vault -> u64;
  vrt_ready_to_claim_amount : Vault -> u64;
  vault_operator_count : Vault -> u64;
  vault_ncn_count : Vault -> u64;
  operator_fee_bps_of : Operator -> u16;
  operator_vault_count : Operator -> u64;
  operator_ncn_count : Operator -> u64;
}.

(** [a * b] and [a + b] out of range panic. *)
Definition mul_u64 (a b : u64) : result CliError.t u64 := if a * b <=? u64_MAX then Ok (a * b) else Panic.
Definition add_u8 (a b : u8) : result CliError.t u8 := if a + b <=? 255 then Ok (a + b) else Panic.
(** [Result::ok] and [Result::unwrap]. *)
Definition ok {E A} (r : result E A) : option A := match r with Ok a => Some a | _ => None end.
Definition unwrap {E A} (r : result E A) : result CliError.t A := match r with Ok a => Ok a | _ => Panic end.

Section tickets.
Context {D W : Type} {data : AccountData D} {runtime : Runtime} {rpc : Rpc D W} {partners : Partners D}
  {tickets : Tickets D}.
Context {s_marker : Stored D EpochMarker.t}.
Import CliHandler.
Implicit Types (handler : CliHandler.t) (epoch : u64) (operator vault : Pubkey).

Definition get_account_payer handler : M W CliError.t (Account.t D) :=
  let* ncn := lift (ncn handler) in
  let '(address, _, _) := AccountPayer.find_program_address (ncn_program_id handler) ncn in
  found (fun a => Ok a) handler address.
Definition get_epoch_marker handler epoch : M W CliError.t EpochMarker.t :=
  let* ncn := lift (ncn handler) in
  let '(address, _, _) := EpochMarker.find_program_address (ncn_program_id handler) ncn epoch in
  found try_from_slice_unchecked handler address.

Definition get_restaking_config handler : M W CliError.t RestakingConfig :=
  found (fun a => read_RestakingConfig (Account.data a)) handler (restaking_config_address (restaking_program_id handler)).
Definition get_ncn handler : M W CliError.t Ncn' :=
  let* ncn := lift (ncn handler) in
  found (fun a => read_Ncn (Account.data a)) handler ncn.
Definition get_ncn_operator_state handler operator : M W CliError.t NcnOperatorState :=
  let* ncn := lift (ncn handler) in
  found (fun a => read_NcnOperatorState (Account.data a)) handler
    (ncn_operator_state_address (restaking_program_id handler) ncn operator).
Definition get_vault_ncn_ticket handler vault : M W CliError.t VaultNcnTicket :=
  let* ncn := lift (ncn handler) in
  found (fun a => read_VaultNcnTicket (Account.data a)) handler
    (vault_ncn_ticket_address (vault_program_id handler) vault ncn).
Definition get_ncn_vault_ticket handler vault : M W CliError.t NcnVaultTicket :=
  let* ncn := lift (ncn handler) in
  found (fun a => read_NcnVaultTicket (Account.data a)) handler
    (ncn_vault_ticket_address (restaking_program_id handler) ncn vault).
Definition get_vault_operator_delegation handler vault operator : M W CliError.t VaultOperatorDelegation :=
  found (fun a => read_VaultOperatorDelegation (Account.data a)) handler
    (vault_operator_delegation_address (vault_program_id handler) vault operator).
Definition get_operator_vault_ticket handler vault operator : M W CliError.t OperatorVaultTicket :=
  found (fun a => read_OperatorVaultTicket (Account.data a)) handler
    (operator_vault_ticket_address (restaking_program_id handler) operator vault).

(** The vaults of the vault program, by the size and the first byte of their
    accounts, whose data are not asked for. *)
Definition get_all_vaults handler : M W CliError.t (list Pubkey) :=
  let vault_size := size_of_Vault + 8 in
  let* results := get_program_accounts_with_config (vault_program_id handler)
    {| data_size := vault_size; memcmp := BytesAt 0 [Vault_DISCRIMINATOR]; slice_length := 0 |} in
  ret results.*1.

(** The operators that the NCN has opted in, at a slot of the epoch. *)
Fixpoint filter_active handler (active_slot : u64) (operators : list Pubkey) : M W CliError.t (list Pubkey) :=
  match operators with
  | [] => ret []
  | operator :: operators =>
      let* result := attempt (get_ncn_operator_state handler operator) in
      match result with
      | Ok ncn_operator_state =>
          let* state := lift (unwrap (toggle_state (ncn_opt_in_state ncn_operator_state) active_slot
                                        DEFAULT_SLOTS_PER_EPOCH)) in
          let* active_operators := filter_active handler active_slot operators in
          ret (if state =? toggle_active then operator :: active_operators else active_operators)
      | _ => filter_active handler active_slot operators
      end
  end.
Definition get_all_active_operators_in_ncn handler epoch : M W CliError.t (list Pubkey) :=
  let* first := lift (mul_u64 epoch DEFAULT_SLOTS_PER_EPOCH) in
  let* active_slot := lift (add_u64 first 1) in
  let* operators := get_all_operators_in_ncn handler in
  filter_active handler active_slot operators.

Definition get_total_epoch_rent_cost handler : M W CliError.t u64 :=
  let* all_operators := get_all_operators_in_ncn handler in
  let operator_count := Z.of_nat (List.length all_operators) in
  let* rent := get_minimum_balance_for_rent_exemption Size.EpochState in
  let* rent_cost := lift (add_u64 0 rent) in
  let* rent := get_minimum_balance_for_rent_exemption Size.WeightTable in
  let* rent_cost := lift (add_u64 rent_cost rent) in
  let* rent := get_minimum_balance_for_rent_exemption Size.EpochSnapshot in
  let* rent_cost := lift (add_u64 rent_cost rent) in
  let* rent := get_minimum_balance_for_rent_exemption Size.OperatorSnapshot in
  let* rents := lift (mul_u64 rent operator_count) in
  let* rent_cost := lift (add_u64 rent_cost rents) in
  let* rent := get_minimum_balance_for_rent_exemption Size.BallotBox in
  let* rent_cost := lift (add_u64 rent_cost rent) in
  let* rent := get_minimum_balance_for_rent_exemption 0 in
  let* rent_cost := lift (add_u64 rent_cost rent) in
  let* rent := get_minimum_balance_for_rent_exemption 0 in
  let* rents := lift (mul_u64 rent operator_count) in
  lift (add_u64 rent_cost rents).
End tickets.

(** What ties an operator and a vault to the NCN. *)
Module NcnTickets.
Section ncn_tickets.
Context {D W : Type} {rpc : Rpc D W} {partners : Partners D} {tickets : Tickets D}.
Record t := mk {
  slot : u64;
  epoch_length : u64;
  ncn : Pubkey;
  vault : Pubkey;
  vault_account : Vault;
  operator : Pubkey;
  ncn_vault_ticket_address : Pubkey;
  ncn_vault_ticket : option NcnVaultTicket;
  vault_ncn_ticket_address : Pubkey;
  vault_ncn_ticket : option VaultNcnTicket;
  vault_operator_delegation_address : Pubkey;
  vault_operator_delegation : option VaultOperatorDelegation;
  operator_vault_ticket_address : Pubkey;
  operator_vault_ticket : option OperatorVaultTicket;
  ncn_operator_state_address : Pubkey;
  ncn_operator_state : option NcnOperatorState;
}.

Definition DNE : u8 := 0.
Definition STAKE : u8 := 10.
Definition NO_STAKE : u8 := 11.
Definition STATE_OFFSET : u8 := 100.
Definition INACTIVE : u8 := STATE_OFFSET.
Definition WARM_UP : u8 := STATE_OFFSET + 1.
Definition ACTIVE : u8 := STATE_OFFSET + 2.
Definition COOLDOWN : u8 := STATE_OFFSET + 3.

Definition fetch handler (operator vault : Pubkey) (slot epoch_length : u64) : M W CliError.t t :=
  let* ncn := lift (CliHandler.ncn handler) in
  let* vault_account := get_vault handler vault in
  let ncn_vault_ticket_address :=
    Getters.ncn_vault_ticket_address (CliHandler.restaking_program_id handler) ncn vault in
  let* ncn_vault_ticket := attempt (get_ncn_vault_ticket handler vault) in
  let vault_ncn_ticket_address :=
    Getters.vault_ncn_ticket_address (CliHandler.vault_program_id handler) vault ncn in
  let* vault_ncn_ticket := attempt (get_vault_ncn_ticket handler vault) in
  let vault_operator_delegation_address :=
    Getters.vault_operator_delegation_address (CliHandler.vault_program_id handler) vault operator in
  let* vault_operator_delegation := attempt (get_vault_operator_delegation handler vault operator) in
  let operator_vault_ticket_address :=
    Tickets.operator_vault_ticket_address (CliHandler.restaking_program_id handler) operator vault in
  let* operator_vault_ticket := attempt (get_operator_vault_ticket handler vault operator) in
  let ncn_operator_state_address :=
    Getters.ncn_operator_state_address (CliHandler.restaking_program_id handler) ncn operator in
  let* ncn_operator_state := attempt (get_ncn_operator_state handler operator) in
  ret {| slot := slot; epoch_length := epoch_length; ncn := ncn; vault := vault; vault_account := vault_account;
         operator := operator; ncn_vault_ticket := ok ncn_vault_ticket; vault_ncn_ticket := ok vault_ncn_ticket;
         vault_operator_delegation := ok vault_operator_delegation;
         operator_vault_ticket := ok operator_vault_ticket; ncn_operator_state := ok ncn_operator_state;
         ncn_vault_ticket_address := ncn_vault_ticket_address;
         vault_ncn_ticket_address := vault_ncn_ticket_address;
         vault_operator_delegation_address := vault_operator_delegation_address;
         operator_vault_ticket_address := operator_vault_ticket_address;
         ncn_operator_state_address := ncn_operator_state_address |}.

Definition st_mint (self : t) : Pubkey := supported_mint (vault_account self).

(** Staked, cooling down and in total; [unwrap] panics. *)
Definition delegation (self : t) : result CliError.t (u64 * u64 * u64) :=
  match vault_operator_delegation self with
  | None => Ok (0, 0, 0)
  | Some d =>
      let? total := unwrap (total_security (delegation_state d)) in
      Ok (staked_amount (delegation_state d), cooling_down_amount (delegation_state d), total)
  end.

(** What the five opt-ins have in common. *)
Definition opt_in (toggle : option SlotToggle) (self : t) : result CliError.t u8 :=
  match toggle with
  | None => Ok DNE
  | Some toggle =>
      match toggle_state toggle (slot self) (epoch_length self) with
      | Ok state => add_u8 state STATE_OFFSET
      | Err _ => Ok DNE
      | Panic => Panic
      end
  end.
Definition ncn_operator (self : t) := opt_in (ncn_opt_in_state <$> ncn_operator_state self) self.
Definition operator_ncn (self : t) := opt_in (operator_opt_in_state <$> ncn_operator_state self) self.
Definition ncn_vault (self : t) := opt_in (ncn_vault_state <$> ncn_vault_ticket self) self.
Definition vault_ncn (self : t) := opt_in (vault_ncn_state <$> vault_ncn_ticket self) self.
Definition operator_vault (self : t) := opt_in (operator_vault_state <$> operator_vault_ticket self) self.
Definition vault_operator (self : t) : result CliError.t u8 :=
  match vault_operator_delegation self with
  | None => Ok DNE
  | Some d =>
      match total_security (delegation_state d) with
      | Ok total_security => Ok (if 0 <? total_security then STAKE else NO_STAKE)
      | Err _ => Ok NO_STAKE
      | Panic => Panic
      end
  end.
End ncn_tickets.
Arguments t D {partners tickets}.
End NcnTickets.

Section all_tickets.
Context {D W : Type} {data : AccountData D} {runtime : Runtime} {rpc : Rpc D W} {partners : Partners D}
  {tickets : Tickets D}.

(** A loop that collects; its first error ends it. *)
Fixpoint collect {A B} (body : A -> M W CliError.t B) (l : list A) : M W CliError.t (list B) :=
  match l with
  | [] => ret []
  | a :: l => let* b := body a in let* bs := collect body l in ret (b :: bs)
  end.
Definition get_all_tickets handler : M W CliError.t (list (NcnTickets.t D)) :=
  let* all_vaults := get_all_vaults_in_ncn handler in
  let* all_operators := get_all_operators_in_ncn handler in
  let* restaking_config := get_restaking_config handler in
  let* info := get_epoch_info in
  let slot := absolute_slot info in
  let epoch_length := config_epoch_length restaking_config in
  collect (fun '(operator, vault) => NcnTickets.fetch handler operator vault slot epoch_length)
    (list_prod all_operators all_vaults).
End all_tickets.
