(* ===== verification/Metrics.v ===== *)
(** The telemetry of the client ([cli/src/keeper/keeper_metrics.rs],
    [cli/src/operator/operator_metrics.rs]): what the loops read and report. The
    log level is such that the points are written. *)
From stdpp Require Import strings.
From S2P Require Import Prelude Errors Precise Stake Registry Weights Fees Snapshots Voting EpochStates.
From S2P Require Import NcnRouter OperatorRouter Consensus Accounts Machine Lamports Program Client Getters Tickets.

(** A value of a point: an integer; an integer, or an amount of lamports in SOL,
    as a floating-point number; a quotient of two integers; text, as digits too. *)
Inductive Value :=
| Int (n : Z)
| Float (n : Z)
| Sol (lamports : u64)
| Quotient (a b : Z)
| Flag (b : bool)
| Key (k : Pubkey)
| Keys (l : list Pubkey)
| Status (s : option string)
| Phase (s : State.t)
| Digits (n : Z)
| Text (s : string).

(** [v as i64] of a [u64]. *)
Definition as_i64 (v : u64) : Z := if v <? 2 ^ 63 then v else v - 2 ^ 64.
Definition int (v : u64) : Value := Int (as_i64 v).
Definition flag (b : bool) : Value := Int (if b then 1 else 0).

Class Telemetry (W : Type) := { datapoint_info : string -> list (string * Value) -> W -> W }.

Section metrics.
Context {D W : Type} {data : AccountData D} {runtime : Runtime} {rpc : Rpc D W} {partners : Partners D}
  {tickets : Tickets D} {telemetry : Telemetry W}.
Context {s_config : Stored D Config.t} {s_registry : Stored D VaultRegistry.t}
  {s_table : Stored D WeightTable.t} {s_epoch : Stored D EpochSnapshot.t}
  {s_operator : Stored D OperatorSnapshot.t} {s_box : Stored D BallotBox.t}
  {s_state : Stored D EpochState.t}.
Implicit Types (handler : CliHandler.t) (epoch : u64) (operator vault : Pubkey).
Local Open Scope string_scope.
Local Open Scope Z_scope.

Definition point (name : string) (fields : list (string * Value)) : M W CliError.t unit :=
  modify (datapoint_info name fields).
(** [emit_epoch_datapoint!]: once more for the current epoch. *)
Definition emit_epoch_datapoint (name : string) (is_current_epoch : bool) (fields : list (string * Value))
    : M W CliError.t unit :=
  let* _ := point name fields in
  if is_current_epoch then point (String.append name "-current") fields else ret tt.

(** ** The NCN *)

Definition emit_ncn_metrics_epoch_slot handler : M W CliError.t unit :=
  let* ncn := lift (CliHandler.ncn handler) in
  let* (current_epoch, current_slot) := get_current_epoch_and_slot handler in
  point "ncn-program-keeper-em-epoch-slot"
    [("current-epoch", int current_epoch); ("current-slot", int current_slot);
     ("epoch-percentage", Quotient (current_slot mod DEFAULT_SLOTS_PER_EPOCH) DEFAULT_SLOTS_PER_EPOCH);
     ("ncn", Key ncn)].

Definition emit_ncn_metrics_account_payer handler : M W CliError.t unit :=
  let* (current_epoch, current_slot) := get_current_epoch_and_slot handler in
  let* ncn := lift (CliHandler.ncn handler) in
  let '(account_payer_address, _, _) :=
    AccountPayer.find_program_address (CliHandler.ncn_program_id handler) ncn in
  let* account_payer := get_account_payer handler in
  point "ncn-program-keeper-em-account-payer"
    [("current-epoch", int current_epoch); ("current-slot", int current_slot);
     ("account-payer", Key account_payer_address); ("balance", int (Account.lamports account_payer));
     ("balance-sol", Sol (Account.lamports account_payer))].

Definition emit_ticket (current_epoch current_slot vault_epoch_length : u64) (ticket : NcnTickets.t D)
    : M W CliError.t unit :=
  let* delegation := lift (NcnTickets.delegation ticket) in
  let '(staked, cooling_down, total) := delegation in
  let vault_account := NcnTickets.vault_account ticket in
  let vault_delegation_state := vault_delegation_state vault_account in
  let* ncn_vault := lift (NcnTickets.ncn_vault ticket) in
  let* vault_ncn := lift (NcnTickets.vault_ncn ticket) in
  let* ncn_operator := lift (NcnTickets.ncn_operator ticket) in
  let* operator_ncn := lift (NcnTickets.operator_ncn ticket) in
  let* operator_vault := lift (NcnTickets.operator_vault ticket) in
  let* vault_operator := lift (NcnTickets.vault_operator ticket) in
  let* update_needed := lift (program_error (is_update_needed vault_account current_slot vault_epoch_length)) in
  let* vault_total_security := lift (program_error (total_security vault_delegation_state)) in
  point "ncn-program-keeper-em-ticket"
    [("current-epoch", int current_epoch); ("current-slot", int current_slot);
     ("operator", Key (NcnTickets.operator ticket)); ("vault", Key (NcnTickets.vault ticket));
     ("ticket-id", Keys [NcnTickets.ncn ticket; NcnTickets.vault ticket; NcnTickets.operator ticket]);
     ("ncn-vault", Int ncn_vault); ("vault-ncn", Int vault_ncn); ("ncn-operator", Int ncn_operator);
     ("operator-ncn", Int operator_ncn); ("operator-vault", Int operator_vault);
     ("vault-operator", Int vault_operator);
     ("vod-staked-amount", Sol staked); ("vod-cooling-down-amount", Sol cooling_down);
     ("vod-total-security", Sol total);
     ("vault-st-mint", Key (supported_mint vault_account));
     ("vault-tokens-deposited", Sol (tokens_deposited vault_account));
     ("vault-vrt-supply", int (vrt_supply vault_account));
     ("vault-vrt-cooling-down-amount", Sol (vrt_cooling_down_amount vault_account));
     ("vault-vrt-enqueued-for-cooldown-amount", Sol (vrt_enqueued_for_cooldown_amount vault_account));
     ("vault-vrt-ready-to-claim-amount", Sol (vrt_ready_to_claim_amount vault_account));
     ("vault-is-update-needed", Flag update_needed);
     ("vault-operator-count", int (vault_operator_count vault_account));
     ("vault-ncn-count", int (vault_ncn_count vault_account));
     ("vault-config-epoch-length", int vault_epoch_length);
     ("vault-total-staked-amount", Sol (staked_amount vault_delegation_state));
     ("vod-total-cooling-down-amount", Sol (cooling_down_amount vault_delegation_state));
     ("vod-total-total-security", Sol vault_total_security)].
Definition emit_ncn_metrics_tickets handler : M W CliError.t unit :=
  let* (current_epoch, current_slot) := get_current_epoch_and_slot handler in
  let* vault_config := get_vault_config handler in
  let vault_epoch_length := epoch_length vault_config in
  let* all_tickets := get_all_tickets handler in
  for_all all_tickets (emit_ticket current_epoch current_slot vault_epoch_length).

Definition emit_ncn_metrics_vault_operator_delegation handler : M W CliError.t unit :=
  let* (current_epoch, current_slot) := get_current_epoch_and_slot handler in
  let* all_operators := get_all_operators_in_ncn handler in
  let* all_vaults := get_all_vaults_in_ncn handler in
  for_all all_operators (fun operator =>
    for_all all_vaults (fun vault =>
      let* result := attempt (get_vault_operator_delegation handler vault operator) in
      match result with
      | Ok vault_operator_delegation =>
          let* delegation := lift (program_error (total_security (delegation_state vault_operator_delegation))) in
          point "ncn-program-keeper-em-vault-operator-delegation"
            [("current-epoch", int current_epoch); ("current-slot", int current_slot);
             ("vault", Key vault); ("operator", Key operator); ("delegation", Sol delegation)]
      | _ => ret tt
      end)).

Definition emit_ncn_metrics_operators handler : M W CliError.t unit :=
  let* (current_epoch, current_slot) := get_current_epoch_and_slot handler in
  let* all_operators := get_all_operators_in_ncn handler in
  let* ballot_box_result := attempt (get_ballot_box handler current_epoch) in
  for_all all_operators (fun operator =>
    let* operator_account := get_operator handler operator in
    let operator_has_voted :=
      match ballot_box_result with
      | Ok ballot_box =>
          any (fun operator_vote => (OperatorVote.operator operator_vote =? operator)
                                    && negb (OperatorVote.is_empty operator_vote))
            (BallotBox.operator_votes ballot_box)
      | _ => false
      end in
    point "ncn-program-keeper-em-operator"
      [("current-epoch", int current_epoch); ("current-slot", int current_slot); ("operator", Key operator);
       ("fee", Int (operator_fee_bps_of operator_account));
       ("vault-count", int (operator_vault_count operator_account));
       ("ncn-count", int (operator_ncn_count operator_account)); ("has-voted", flag operator_has_voted)]).

Definition emit_ncn_metrics_vault_registry handler : M W CliError.t unit :=
  let* (current_epoch, current_slot) := get_current_epoch_and_slot handler in
  let* vault_registry := get_vault_registry handler in
  let* _ := point "ncn-program-keeper-em-vault-registry"
    [("current-epoch", int current_epoch); ("current-slot", int current_slot);
     ("st-mints", int (VaultRegistry.st_mint_count vault_registry));
     ("vaults", int (VaultRegistry.vault_count vault_registry))] in
  let* _ :=
    for_all (VaultRegistry.vault_list vault_registry) (fun entry =>
      if VaultEntry.is_empty entry then ret tt
      else
        let* vault_account := get_vault handler (VaultEntry.vault entry) in
        point "ncn-program-keeper-em-vault-registry-vault"
          [("current-epoch", int current_epoch); ("current-slot", int current_slot);
           ("vault", Key (VaultEntry.vault entry)); ("st-mint", Key (VaultEntry.st_mint entry));
           ("index", int (VaultEntry.vault_index entry));
           ("tokens-deposited", Sol (tokens_deposited vault_account));
           ("vrt-supply", Sol (vrt_supply vault_account));
           ("operator-count", int (vault_operator_count vault_account));
           ("ncn-count", int (vault_ncn_count vault_account))]) in
  for_all (VaultRegistry.st_mint_list vault_registry) (fun st_mint =>
    point "ncn-program-keeper-em-vault-registry-st-mint"
      [("current-epoch", int current_epoch); ("current-slot", int current_slot);
       ("st-mint", Key (StMintEntry.st_mint st_mint)); ("weight", Digits (StMintEntry.weight st_mint))]).

Definition emit_ncn_metrics_config handler : M W CliError.t unit :=
  let* (current_epoch, current_slot) := get_current_epoch_and_slot handler in
  let* config := get_ncn_program_config handler in
  point "ncn-program-keeper-em-config"
    [("current-epoch", int current_epoch); ("current-slot", int current_slot);
     ("epochs-after-consensus-before-close", int (Config.epochs_after_consensus_before_close config));
     ("epochs-before-stall", int (Config.epochs_before_stall config));
     ("starting-valid-epoch", int (Config.starting_valid_epoch config));
     ("valid-slots-after-consensus", int (Config.valid_slots_after_consensus config));
     ("tie-breaker-admin", Key (Config.tie_breaker_admin config))].

Definition emit_ncn_metrics handler (start_of_loop : bool) : M W CliError.t unit :=
  let* _ := emit_ncn_metrics_epoch_slot handler in
  if start_of_loop then
    let* _ := emit_ncn_metrics_tickets handler in
    let* _ := emit_ncn_metrics_vault_operator_delegation handler in
    let* _ := emit_ncn_metrics_operators handler in
    let* _ := emit_ncn_metrics_vault_registry handler in
    let* _ := emit_ncn_metrics_config handler in
    emit_ncn_metrics_account_payer handler
  else ret tt.

(** ** An epoch *)

(** An index out of range panics. *)
Definition tally_at (ballot_box : BallotBox.t) (ballot_index : u16) : result CliError.t BallotTally.t :=
  match BallotBox.ballot_tallies ballot_box !! Z.to_nat ballot_index with
  | Some tally => Ok tally
  | None => Panic
  end.

Definition emit_vote (current_epoch current_slot epoch : u64) (ballot_box : BallotBox.t)
    (total_stake_weight : u128) (operator_vote : OperatorVote.t) : M W CliError.t unit :=
  if OperatorVote.is_empty operator_vote then ret tt
  else
    let ballot_index := OperatorVote.ballot_index operator_vote in
    let* ballot_tally := lift (tally_at ballot_box ballot_index) in
    let vote := Ballot.status (BallotTally.ballot ballot_tally) in
    emit_epoch_datapoint "ncn-program-keeper-ee-ballot-box-votes" (current_epoch =? epoch)
      [("current-epoch", int current_epoch); ("current-slot", int current_slot); ("keeper-epoch", int epoch);
       ("operator", Key (OperatorVote.operator operator_vote));
       ("slot-voted", int (OperatorVote.slot_voted operator_vote)); ("ballot-index", Int ballot_index);
       ("operator-stake-weight", Float (StakeWeights.stake_weight (OperatorVote.stake_weights operator_vote)));
       ("ballot-stake-weight", Float (StakeWeights.stake_weight (BallotTally.stake_weights ballot_tally)));
       ("total-stake-weight", Float total_stake_weight); ("vote", Status vote)].

Definition emit_tally (current_epoch current_slot epoch : u64) (total_stake_weight : u128)
    (tally : BallotTally.t) : M W CliError.t unit :=
  if negb (BallotTally.is_valid tally) then ret tt
  else
    let vote := Ballot.status (BallotTally.ballot tally) in
    emit_epoch_datapoint "ncn-program-keeper-ee-ballot-box-tally" (current_epoch =? epoch)
      [("current-epoch", int current_epoch); ("current-slot", int current_slot); ("keeper-epoch", int epoch);
       ("ballot-index", Int (BallotTally.index tally)); ("tally", int (BallotTally.tally tally));
       ("stake-weight", Float (StakeWeights.stake_weight (BallotTally.stake_weights tally)));
       ("total-stake-weight", Float total_stake_weight); ("vote", Status vote)].

Definition winning (ballot_box : BallotBox.t) : result CliError.t (option (option string) * u128 * u64) :=
  if BallotBox.has_winning_ballot ballot_box then
    let? ballot_tally := unwrap (BallotBox.get_winning_ballot_tally ballot_box) in
    Ok (Some (Ballot.status (BallotTally.ballot ballot_tally)),
        StakeWeights.stake_weight (BallotTally.stake_weights ballot_tally), BallotTally.tally ballot_tally)
  else Ok (None, 0, 0).

Definition emit_box (current_epoch current_slot epoch valid_slots_after_consensus : u64)
    (ballot_box : BallotBox.t) (epoch_snapshot : EpochSnapshot.t) : M W CliError.t unit :=
  let total_stake_weight := StakeWeights.stake_weight (EpochSnapshot.stake_weights epoch_snapshot) in
  let* _ := for_all (BallotBox.operator_votes ballot_box)
              (emit_vote current_epoch current_slot epoch ballot_box total_stake_weight) in
  let* _ := for_all (BallotBox.ballot_tallies ballot_box)
              (emit_tally current_epoch current_slot epoch total_stake_weight) in
  let* won := lift (winning ballot_box) in
  let '(winning_ballot, winning_stake_weight, winning_tally) := won in
  let* is_voting_valid := lift (program_error (into (BallotBox.is_voting_valid current_slot
                                                       valid_slots_after_consensus ballot_box))) in
  emit_epoch_datapoint "ncn-program-keeper-ee-ballot-box" (current_epoch =? epoch)
    [("current-epoch", int current_epoch); ("current-slot", int current_slot); ("keeper-epoch", int epoch);
     ("unique-ballots", int (BallotBox.unique_ballots ballot_box));
     ("operators-voted", int (BallotBox.operators_voted ballot_box));
     ("has-winning-ballot", Flag (BallotBox.has_winning_ballot ballot_box));
     ("winning-ballot", match winning_ballot with Some s => Status s | None => Text "None" end);
     ("winning-stake-weight", Float winning_stake_weight); ("winning-tally", int winning_tally);
     ("total-stake-weight", Float total_stake_weight); ("is-voting-valid", Flag is_voting_valid)].

Definition emit_epoch_metrics_ballot_box handler epoch : M W CliError.t unit :=
  let* (current_epoch, current_slot) := get_current_epoch_and_slot handler in
  let* config := get_ncn_program_config handler in
  let valid_slots_after_consensus := Config.valid_slots_after_consensus config in
  let* ballot_box_result := attempt (get_ballot_box handler epoch) in
  let* epoch_snapshot_result := attempt (get_epoch_snapshot handler epoch) in
  match ballot_box_result, epoch_snapshot_result with
  | Ok ballot_box, Ok epoch_snapshot =>
      emit_box current_epoch current_slot epoch valid_slots_after_consensus ballot_box epoch_snapshot
  | _, _ => ret tt
  end.

Definition emit_epoch_metrics_operator_snapshot handler epoch : M W CliError.t unit :=
  let* (current_epoch, current_slot) := get_current_epoch_and_slot handler in
  let* all_operators := get_all_operators_in_ncn handler in
  for_all all_operators (fun operator =>
    let* result := attempt (get_operator_snapshot handler operator epoch) in
    match result with
    | Ok operator_snapshot =>
        emit_epoch_datapoint "ncn-program-keeper-ee-operator-snapshot" (current_epoch =? epoch)
          [("current-epoch", int current_epoch); ("current-slot", int current_slot); ("keeper-epoch", int epoch);
           ("operator", Key operator); ("is-finalized", Flag (OperatorSnapshot.finalized operator_snapshot));
           ("is-active", Flag (OperatorSnapshot.is_active operator_snapshot));
           ("ncn-operator-index", int (OperatorSnapshot.ncn_operator_index operator_snapshot));
           ("operator-fee-bps", Int (OperatorSnapshot.operator_fee_bps operator_snapshot));
           ("valid-operator-vault-delegations",
              int (OperatorSnapshot.valid_operator_vault_delegations operator_snapshot));
           ("vault-operator-delegation-count",
              int (OperatorSnapshot.vault_operator_delegation_count operator_snapshot));
           ("vault-operator-delegations-registered",
              int (OperatorSnapshot.vault_operator_delegations_registered operator_snapshot));
           ("stake-weight", Float (StakeWeights.stake_weight (OperatorSnapshot.stake_weights operator_snapshot)));
           ("slot-finalized", int (OperatorSnapshot.slot_finalized operator_snapshot))]
    | _ => ret tt
    end).

Definition emit_epoch_metrics_epoch_snapshot handler epoch : M W CliError.t unit :=
  let* (current_epoch, current_slot) := get_current_epoch_and_slot handler in
  let* result := attempt (get_epoch_snapshot handler epoch) in
  match result with
  | Ok epoch_snapshot =>
      emit_epoch_datapoint "ncn-program-keeper-ee-epoch-snapshot" (current_epoch =? epoch)
        [("current-epoch", int current_epoch); ("current-slot", int current_slot); ("keeper-epoch", int epoch);
         ("total-stake-weight", Float (StakeWeights.stake_weight (EpochSnapshot.stake_weights epoch_snapshot)));
         ("valid-operator-vault-delegations", int (EpochSnapshot.valid_operator_vault_delegations epoch_snapshot));
         ("operators-registered", int (EpochSnapshot.operators_registered epoch_snapshot));
         ("operator-count", int (EpochSnapshot.operator_count epoch_snapshot));
         ("vault-count", int (EpochSnapshot.vault_count epoch_snapshot))]
  | _ => ret tt
  end.

Definition emit_epoch_metrics_weight_table handler epoch : M W CliError.t unit :=
  let* (current_epoch, current_slot) := get_current_epoch_and_slot handler in
  let* result := attempt (get_weight_table handler epoch) in
  match result with
  | Ok weight_table =>
      let* _ :=
        for_all (WeightTable.table weight_table) (fun entry =>
          if WeightEntry.is_empty entry then ret tt
          else
            emit_epoch_datapoint "ncn-program-keeper-ee-weight-table-entry" (current_epoch =? epoch)
              [("current-epoch", int current_epoch); ("current-slot", int current_slot);
               ("keeper-epoch", int epoch);
               ("st-mint", Key (StMintEntry.st_mint (WeightEntry.st_mint_entry entry)));
               ("weight", Float (WeightEntry.weight entry))]) in
      emit_epoch_datapoint "ncn-program-keeper-ee-weight-table" (current_epoch =? epoch)
        [("current-epoch", int current_epoch); ("current-slot", int current_slot); ("keeper-epoch", int epoch);
         ("weight-count", int (WeightTable.mint_count weight_table));
         ("vault-count", int (WeightTable.vault_count weight_table));
         ("weight-count", int (WeightTable.weight_count weight_table))]
  | _ => ret tt
  end.

(** The phase, with the number of mints of the weight table once it is there. *)
Definition patched_state handler epoch (current_slot : u64) (state : EpochState.t)
    : M W CliError.t (result ProgramError.t State.t) :=
  let* config := get_ncn_program_config handler in
  let valid := Config.valid_slots_after_consensus config in
  let close := Config.epochs_after_consensus_before_close config in
  let* epoch_schedule := get_epoch_schedule in
  if 0 <? Progress.tally (EpochState.set_weight_progress state) then
    let* weight_table := get_weight_table handler epoch in
    ret (EpochState.current_state_patched epoch_schedule valid close (WeightTable.st_mint_count weight_table)
           current_slot state)
  else ret (EpochState.current_state epoch_schedule valid close current_slot state).

(** How many of the operators' snapshots do not exist, are open, are closed. *)
Fixpoint count_statuses (status : EpochAccountStatus.t) (l : list nat) (dne opened closed : Z)
    : result CliError.t (Z * Z * Z) :=
  match l with
  | [] => Ok (dne, opened, closed)
  | i :: l =>
      let? operator_snapshot_status :=
        program_error (into (EpochAccountStatus.operator_snapshot (Z.of_nat i) status)) in
      match operator_snapshot_status with
      | AccountStatus.DNE => count_statuses status l (dne + 1) opened closed
      | AccountStatus.Closed => count_statuses status l dne opened (closed + 1)
      | _ => count_statuses status l dne (opened + 1) closed
      end
  end.

Definition state_as_u8 (s : State.t) : u8 :=
  match s with
  | State.SetWeight => 0 | State.Snapshot => 1 | State.Vote => 2
  | State.PostVoteCooldown => 3 | State.Distribute => 4 | State.Close => 5
  end.

Definition emit_epoch_metrics_state handler epoch : M W CliError.t unit :=
  let* (current_epoch, current_slot) := get_current_epoch_and_slot handler in
  let is_current_epoch := current_epoch =? epoch in
  let* is_epoch_completed := get_is_epoch_completed handler epoch in
  if is_epoch_completed then
    emit_epoch_datapoint "ncn-program-keeper-ee-state" is_current_epoch
      [("current-epoch", int current_epoch); ("current-slot", int current_slot); ("keeper-epoch", int epoch);
       ("current-state-string", Text "Complete"); ("current-state", Int (-1)); ("is-complete", Flag true)]
  else
    let* state := get_epoch_state handler epoch in
    let* current_state := patched_state handler epoch current_slot state in
    let* current_state := lift (program_error current_state) in
    let account_status := EpochState.account_status state in
    let* counts := lift (count_statuses account_status (seq 0 (Z.to_nat MAX_OPERATORS)) 0 0 0) in
    let '(operator_snapshot_dne, operator_snapshot_open, operator_snapshot_closed) := counts in
    let status r := lift (program_error (into (let? s := r in Ok (AccountStatus.as_u8 s)))) in
    let* epoch_state_status := status (EpochAccountStatus.epoch_state account_status) in
    let* weight_table_status := status (EpochAccountStatus.weight_table account_status) in
    let* epoch_snapshot_status := status (EpochAccountStatus.epoch_snapshot account_status) in
    let* ballot_box_status := status (EpochAccountStatus.ballot_box account_status) in
    emit_epoch_datapoint "ncn-program-keeper-ee-state" is_current_epoch
      [("current-epoch", int current_epoch); ("current-slot", int current_slot); ("keeper-epoch", int epoch);
       ("is-complete", Flag false); ("current-state-string", Phase current_state);
       ("current-state", Int (state_as_u8 current_state));
       ("operator-count", int (EpochState.operator_count state));
       ("vault-count", int (EpochState.vault_count state));
       ("slot-consensus-reached", int (EpochState.slot_consensus_reached state));
       ("set-weight-progress-tally", int (Progress.tally (EpochState.set_weight_progress state)));
       ("set-weight-progress-total", int (Progress.total (EpochState.set_weight_progress state)));
       ("epoch-snapshot-progress-tally", int (Progress.tally (EpochState.epoch_snapshot_progress state)));
       ("epoch-snapshot-progress-total", int (Progress.total (EpochState.epoch_snapshot_progress state)));
       ("voting-progress-tally", int (Progress.tally (EpochState.voting_progress state)));
       ("voting-progress-total", int (Progress.total (EpochState.voting_progress state)));
       ("epoch-state-account-status", Int epoch_state_status);
       ("weight-table-account-status", Int weight_table_status);
       ("epoch-snapshot-account-status", Int epoch_snapshot_status);
       ("ballot-box-account-status", Int ballot_box_status);
       ("operator-snapshot-account-dne", Int operator_snapshot_dne);
       ("operator-snapshot-account-open", Int operator_snapshot_open);
       ("operator-snapshot-account-closed", Int operator_snapshot_closed)].

Definition emit_epoch_metrics handler epoch : M W CliError.t unit :=
  let* _ := emit_epoch_metrics_state handler epoch in
  let* _ := emit_epoch_metrics_weight_table handler epoch in
  let* _ := emit_epoch_metrics_epoch_snapshot handler epoch in
  let* _ := emit_epoch_metrics_operator_snapshot handler epoch in
  emit_epoch_metrics_ballot_box handler epoch.

(** ** The operator's loop *)

Definition emit_ncn_metrics_operator_vote handler (vote : u8) epoch operator : M W CliError.t unit :=
  let* (current_epoch, current_slot) := get_current_epoch_and_slot handler in
  emit_epoch_datapoint "ncn-operator-keeper-operator-vote" (current_epoch =? epoch)
    [("current-epoch", int current_epoch); ("current-slot", int current_slot); ("keeper-epoch", int epoch);
     ("operator", Key operator); ("vote", Int vote)].

Definition emit_ncn_metrics_operator_post_vote handler epoch operator : M W CliError.t unit :=
  let* (current_epoch, current_slot) := get_current_epoch_and_slot handler in
  let* ballot_box := get_ballot_box handler epoch in
  let did_operator_vote := BallotBox.did_operator_vote operator ballot_box in
  let operator_vote :=
    if did_operator_vote then
      List.find (fun v => OperatorVote.operator v =? operator) (BallotBox.operator_votes ballot_box)
    else None in
  let* ballot :=
    lift (match operator_vote with
          | Some v => let? ballot := tally_at ballot_box (OperatorVote.ballot_index v) in Ok (Some ballot)
          | None => Ok None
          end) in
  let winning_ballot := match BallotBox.get_winning_ballot ballot_box with Ok b => b | _ => Ballot.default end in
  emit_epoch_datapoint "ncn-operator-keeper-vote" (current_epoch =? epoch)
    [("current-epoch", int current_epoch); ("current-slot", int current_slot); ("keeper-epoch", int epoch);
     ("operator", Key operator); ("has-voted", flag did_operator_vote);
     ("slot-voted", from_option (fun v => int (OperatorVote.slot_voted v)) (Int (-1)) operator_vote);
     ("ballot-index", from_option (fun v => Int (OperatorVote.ballot_index v)) (Int (-1)) operator_vote);
     ("operator-weight",
        from_option (fun v => Float (StakeWeights.stake_weight (OperatorVote.stake_weights v))) (Float (-1))
          operator_vote);
     ("ballot-weight",
        from_option (fun b => Float (StakeWeights.stake_weight (BallotTally.stake_weights b))) (Float (-1)) ballot);
     ("ballot-value",
        from_option (fun b => Int (Ballot.weather_status (BallotTally.ballot b))) (Int (-1)) ballot);
     ("consensus-reached", flag (BallotBox.is_consensus_reached ballot_box));
     ("winning-ballot", Int (Ballot.weather_status winning_ballot))].
End metrics.
