(* ===== verification/Keeper.v ===== *)
(** The two loops of the client: the keeper that drives every epoch through its
    phases ([cli/src/keeper/keeper_state.rs], [cli/src/keeper/keeper_loop.rs]) and
    the operator's that votes ([cli/src/operator/operator_state.rs],
    [cli/src/operator/operator_loop.rs]). *)
From stdpp Require Import strings.
From S2P Require Import Prelude Errors Precise Stake Registry Weights Fees Snapshots Voting EpochStates.
From S2P Require Import NcnRouter OperatorRouter Consensus Accounts Machine Lamports Program Client Getters Commands.

(** What a loop knows of the epoch it works on. *)
Module KeeperState.
Record t := mk {
  epoch : u64;
  epoch_state_address : Pubkey;
  epoch_state' : option EpochState.t;
  current_state' : option State.t;
  is_epoch_completed : bool;
}.
#[global] Instance eta_t : Eta t := fun r =>
  mk (epoch r) (epoch_state_address r) (epoch_state' r) (current_state' r) (is_epoch_completed r).
Definition default : t := mk 0 Pubkey_default None None false.

Definition epoch_state (self : t) : result CliError.t EpochState.t :=
  ok_or (epoch_state' self) (CliError.Message "Epoch state does not exist").
Definition current_state (self : t) : result CliError.t State.t :=
  ok_or (current_state' self) (CliError.Message "Current state does not exist").

Section state.
Context {D W : Type} {data : AccountData D} {runtime : Runtime} {rpc : Rpc D W}.
Context {s_config : Stored D Config.t} {s_box : Stored D BallotBox.t} {s_state : Stored D EpochState.t}.
Implicit Types (handler : CliHandler.t).
Abbreviation Method A := (M (t * W) CliError.t A).

(** What is outside the keeper, and an assignment to its fields. *)
Definition outside {A} (m : M W CliError.t A) : Method A := zoom snd (fun w s => (s.1, w)) m.
Definition assign (f : t -> t) : Method unit := modify (fun s => (f s.1, s.2)).
Definition this : Method t := gets fst.

Definition update_current_state handler : Method unit :=
  let* info := outside get_epoch_info in
  let current_slot := absolute_slot info in
  let* epoch_schedule := outside get_epoch_schedule in
  let* config := outside (get_ncn_program_config handler) in
  let* self := this in
  let* epoch_state := lift (epoch_state self) in
  let state :=
    EpochState.current_state epoch_schedule (Config.valid_slots_after_consensus config)
      (Config.epochs_after_consensus_before_close config) current_slot epoch_state in
  let* state := lift (program_error state) in
  assign (put current_state' (Some state)).

(** The account at the address of the epoch's state, when it has its size. *)
Definition read_epoch_state handler : Method unit :=
  let* self := this in
  let* raw_account := outside (get_account handler (epoch_state_address self)) in
  match raw_account with
  | None => assign (put epoch_state' None)
  | Some raw_account =>
      if data_len (Account.data raw_account) <? Size.EpochState then assign (put epoch_state' None)
      else
        let* account := lift (program_error (try_from_slice_unchecked raw_account)) in
        let* _ := assign (put epoch_state' (Some account)) in
        update_current_state handler
  end.

(** A completed epoch keeps what was read of it before. *)
Definition update_epoch_state handler : Method unit :=
  let* self := this in
  let* completed := outside (get_is_epoch_completed handler (epoch self)) in
  let* _ := assign (put is_epoch_completed completed) in
  if completed then ret tt else read_epoch_state handler.

(** The operator's loop reads it all the same. *)
Definition update_operator_epoch_state handler : Method unit :=
  let* self := this in
  let* completed := outside (get_is_epoch_completed handler (epoch self)) in
  let* _ := assign (put is_epoch_completed completed) in
  read_epoch_state handler.

Definition fetch_with (update : Method unit) handler (epoch' : u64) : Method unit :=
  let* ncn := lift (CliHandler.ncn handler) in
  let '(address, _, _) :=
    EpochStateAccount.find_program_address (CliHandler.ncn_program_id handler) ncn epoch' in
  let* _ := assign (put epoch_state_address address) in
  let* _ := assign (put epoch epoch') in
  update.
Definition fetch handler (epoch' : u64) : Method unit := fetch_with (update_epoch_state handler) handler epoch'.
Definition fetch_operator handler (epoch' : u64) : Method unit :=
  fetch_with (update_operator_epoch_state handler) handler epoch'.

Definition detect_stall handler : Method bool :=
  let* self := this in
  if is_epoch_completed self then ret true
  else
    let* current_state := lift (current_state self) in
    if bool_decide (current_state = State.Vote) || bool_decide (current_state = State.PostVoteCooldown)
    then ret true
    else if bool_decide (current_state = State.Distribute) then
      let* total_rewards_to_be_distributed :=
        outside (get_total_rewards_to_be_distributed handler (epoch self)) in
      ret (total_rewards_to_be_distributed <? 10000)
    else ret false.
End state.
End KeeperState.

(** [keeper_epoch + 1] panics at the end of the range. *)
Definition progress_epoch (is_epoch_completed : bool) (current_epoch starting_epoch keeper_epoch : u64)
    (epoch_stall : bool) : result CliError.t u64 :=
  if is_epoch_completed || epoch_stall then
    if keeper_epoch =? current_epoch then Ok starting_epoch else add_u64 keeper_epoch 1
  else Ok keeper_epoch.
Definition progress_operator_epoch (is_epoch_completed : bool) (current_epoch starting_epoch keeper_epoch : u64)
    : result CliError.t u64 :=
  if is_epoch_completed then
    if keeper_epoch =? current_epoch then Ok starting_epoch else add_u64 keeper_epoch 1
  else Ok keeper_epoch.
Definition is_err {E A} (r : result E A) : bool := match r with Ok _ => false | _ => true end.

(** The variables that a loop carries from one round to the next. *)
Module Keeper.
Record t := mk { state : KeeperState.t; epoch_stall : bool; current_keeper_epoch : u64 }.
#[global] Instance eta_t : Eta t := fun r => mk (state r) (epoch_stall r) (current_keeper_epoch r).
Definition start (handler : CliHandler.t) : t := mk KeeperState.default false (CliHandler.epoch handler).

Section loops.
Context {D W : Type} {data : AccountData D} {runtime : Runtime} {rpc : Rpc D W} {partners : Partners D}.
Context {s_config : Stored D Config.t} {s_registry : Stored D VaultRegistry.t}
  {s_table : Stored D WeightTable.t} {s_epoch : Stored D EpochSnapshot.t}
  {s_operator : Stored D OperatorSnapshot.t} {s_box : Stored D BallotBox.t}
  {s_result : Stored D ConsensusResult.t} {s_router : Stored D NCNRewardRouter.t}
  {s_op_router : Stored D OperatorVaultRewardRouter.t} {s_state : Stored D EpochState.t}.
Implicit Types (handler : CliHandler.t).
Abbreviation Loop A := (M (t * W) CliError.t A).

Definition outside {A} (m : M W CliError.t A) : Loop A := zoom snd (fun w s => (s.1, w)) m.
Definition assign (f : t -> t) : Loop unit := modify (fun s => (f s.1, s.2)).
Definition this : Loop t := gets fst.
Definition on_state {A} (m : M (KeeperState.t * W) CliError.t A) : Loop A :=
  zoom (fun s => (state s.1, s.2)) (fun p s => (s.1 <| state := p.1 |>, p.2)) m.

(** [check_and_timeout_error]: the error is logged and reported, and the loop
    waits. *)
Definition check_and_timeout_error {A} (result : result CliError.t A) : Loop bool := ret (is_err result).

(** The telemetry: it reads and reports, and its errors are only logged. *)
Context (fuel : nat) (emit_ncn_metrics : CliHandler.t -> bool -> M W CliError.t unit)
  (emit_epoch_metrics : CliHandler.t -> u64 -> M W CliError.t unit).

(** Phase 0.1. *)
Definition progress handler : Loop u64 :=
  let starting_epoch := CliHandler.epoch handler in
  let* (current_epoch, _) := outside (get_guaranteed_epoch_and_slot handler) in
  let* self := this in
  let* result :=
    lift (progress_epoch (KeeperState.is_epoch_completed (state self)) current_epoch starting_epoch
            (current_keeper_epoch self) (epoch_stall self)) in
  let* _ := assign (put current_keeper_epoch result) in
  let* _ := assign (put epoch_stall false) in
  ret current_epoch.

(** Phase 0.4: another epoch is fetched, the same one is updated. *)
Definition fetch_or_update handler : Loop unit :=
  let* self := this in
  if negb (KeeperState.epoch (state self) =? current_keeper_epoch self)
  then on_state (KeeperState.fetch handler (current_keeper_epoch self))
  else on_state (KeeperState.update_epoch_state handler).

(** Phase 3. *)
Definition crank handler (current_state : State.t) (epoch : u64) : M W CliError.t unit :=
  match current_state with
  | State.SetWeight => crank_set_weight handler epoch
  | State.Snapshot => crank_snapshot handler epoch
  | State.Vote => ret tt
  | State.PostVoteCooldown => crank_post_vote_cooldown handler epoch
  | State.Distribute => crank_distribute fuel handler epoch
  | State.Close => crank_close_epoch_accounts handler epoch
  end.

(** Phases 3 to 5, when there is an epoch's state. [expect] panics. *)
Definition crank_epoch handler : Loop unit :=
  let* self := this in
  let epoch := KeeperState.epoch (state self) in
  let* current_state :=
    lift (match KeeperState.current_state (state self) with Ok s => Ok s | _ => Panic end) in
  let* result := attempt (outside (crank handler current_state epoch)) in
  let* failed := check_and_timeout_error result in
  if failed then ret tt
  else
    let* result := attempt (outside (emit_epoch_metrics handler epoch)) in
    let* _ := check_and_timeout_error result in
    let* result := attempt (on_state (KeeperState.detect_stall handler)) in
    match result with
    | Ok stall => assign (put epoch_stall stall)
    | _ => ret tt
    end.

(** One round of [startup_ncn_keeper]. *)
Definition round handler : Loop unit :=
  let* _ := progress handler in
  let* self := this in
  let start_of_loop := current_keeper_epoch self =? CliHandler.epoch handler in
  let* result := attempt (outside (emit_ncn_metrics handler start_of_loop)) in
  let* _ := check_and_timeout_error result in
  let* result := attempt (outside (crank_register_vaults handler)) in
  let* failed := check_and_timeout_error result in
  if failed then ret tt
  else
    let* result := attempt (fetch_or_update handler) in
    let* failed := check_and_timeout_error result in
    if failed then ret tt
    else
      let* self := this in
      if KeeperState.is_epoch_completed (state self) then ret tt
      else
        match KeeperState.epoch_state' (state self) with
        | None =>
            let* result := attempt (outside (create_epoch_state handler (KeeperState.epoch (state self)))) in
            let* _ := check_and_timeout_error result in
            ret tt
        | Some _ => crank_epoch handler
        end.

(** ** The operator's loop *)

Context (emit_ncn_metrics_operator_vote : CliHandler.t -> u8 -> u64 -> Pubkey -> M W CliError.t unit)
  (emit_ncn_metrics_operator_post_vote : CliHandler.t -> u64 -> Pubkey -> M W CliError.t unit).

Definition operator_progress handler : Loop u64 :=
  let starting_epoch := CliHandler.epoch handler in
  let* (current_epoch, _) := outside (get_guaranteed_epoch_and_slot handler) in
  let* self := this in
  let* result :=
    lift (progress_operator_epoch (KeeperState.is_epoch_completed (state self)) current_epoch starting_epoch
            (current_keeper_epoch self)) in
  let* _ := assign (put current_keeper_epoch result) in
  ret current_epoch.

Definition operator_fetch_or_update handler : Loop unit :=
  let* self := this in
  if negb (KeeperState.epoch (state self) =? current_keeper_epoch self)
  then on_state (KeeperState.fetch_operator handler (current_keeper_epoch self))
  else on_state (KeeperState.update_operator_epoch_state handler).

Definition complete_epoch : Loop unit :=
  assign (fun self => self <| state := (state self) <| KeeperState.is_epoch_completed := true |> |>).
(** What is reported after a vote; an error of the first step ends the loop. *)
Definition post_vote handler (operator : Pubkey) : Loop unit :=
  let* self := this in
  let epoch := KeeperState.epoch (state self) in
  let* _ := outside (operator_crank_post_vote handler epoch operator) in
  let* result := attempt (outside (emit_ncn_metrics_operator_post_vote handler epoch operator)) in
  let* _ := check_and_timeout_error result in
  complete_epoch.

Definition vote handler (operator : Pubkey) : Loop unit :=
  let* self := this in
  let epoch := KeeperState.epoch (state self) in
  let* ballot_box := outside (get_ballot_box handler epoch) in
  let* operator_snapshot := outside (get_operator_snapshot handler operator epoch) in
  if can_operator_vote ballot_box operator_snapshot operator then
    let* result := attempt (outside (operator_crank_vote handler epoch operator)) in
    let* _ := check_and_timeout_error result in
    let vote := match result with Ok v => v | _ => 3 end in
    let* result := attempt (outside (emit_ncn_metrics_operator_vote handler vote epoch operator)) in
    let* _ := check_and_timeout_error result in
    ret tt
  else post_vote handler operator.

(** One round of [startup_operator_loop]; its error is the loop's. *)
Definition operator_round handler (operator : Pubkey) : Loop unit :=
  let* _ := operator_progress handler in
  let* result := attempt (operator_fetch_or_update handler) in
  let* failed := check_and_timeout_error result in
  if failed then ret tt
  else
    let* self := this in
    match KeeperState.epoch_state' (state self) with
    | None => complete_epoch
    | Some _ =>
        let* current_crank_state :=
          lift (match KeeperState.current_state (state self) with Ok s => Ok s | _ => Panic end) in
        match current_crank_state with
        | State.SetWeight | State.Snapshot => ret tt
        | State.Vote => vote handler operator
        | State.PostVoteCooldown | State.Close | State.Distribute => post_vote handler operator
        end
    end.
End loops.

(** A number of rounds of the keeper. *)
Fixpoint rounds {S E} (round : M S E unit) (n : nat) : M S E unit :=
  match n with O => ret tt | S n => let* _ := round in rounds round n end.
End Keeper.
