(* ===== verification/Handler.v ===== *)
(** The command line ([cli/src/args.rs], [cli/src/handler.rs]): the settings
    that are read from it, the commands, and what each of them runs. *)
From stdpp Require Import gmap strings.
From S2P Require Import Prelude Errors Precise Stake Registry Weights Fees Snapshots Voting EpochStates.
From S2P Require Import NcnRouter OperatorRouter Consensus Accounts Machine Lamports Program Client Getters.
From S2P Require Import Commands Tickets Metrics Keeper.

(** What the command line needs of the libraries: [Pubkey::from_str],
    [CommitmentConfig::from_str], [read_keypair_file], of which the public key
    remains, and [sol_to_lamports]. *)
Class Libraries (W : Type) := {
  Pubkey_from_str : string -> result CliError.t Pubkey;
  CommitmentConfig_from_str : string -> result CliError.t unit;
  read_keypair_file : string -> M W CliError.t Pubkey;
  f64 : Type;
  sol_to_lamports : f64 -> u64;
}.

Module Args.
Record t := mk {
  rpc_url : string;
  commitment : string;
  priority_fee_micro_lamports : u64;
  transaction_retries : u64;
  ncn_program_id : string;
  restaking_program_id : string;
  vault_program_id : string;
  token_program_id : string;
  ncn : option string;
  epoch : option u64;
  keypair_path : option string;
  verbose : bool;
  markdown_help : bool;
  open_weather_api_key : option string;
}.
End Args.

Module ProgramCommand.
Section commands.
Context {W : Type} {libraries : Libraries W}.
Inductive t :=
| RunKeeper (loop_timeout_ms error_timeout_ms : u64)
| RunOperator (operator : string) (loop_timeout_ms error_timeout_ms : u64)
| CrankUpdateAllVaults
| CrankRegisterVaults
| CrankSnapshot
| CrankDistribute
| CrankCloseEpochAccounts
| SetEpochWeights
| AdminCreateConfig (ncn_fee_wallet : string) (ncn_fee_bps epochs_before_stall valid_slots_after_consensus
    epochs_after_consensus_before_close : u64) (tie_breaker_admin : option string)
| AdminRegisterStMint (vault : string) (weight : option u128)
| AdminSetWeight (vault : string) (weight : u128)
| AdminSetTieBreaker (weather_status : u8)
| AdminSetParameters (epochs_before_stall epochs_after_consensus_before_close valid_slots_after_consensus
    starting_valid_epoch : option u64)
| AdminSetNewAdmin (new_admin : string) (set_tie_breaker_admin : bool)
| AdminFundAccountPayer (amount_in_sol : f64)
| CreateVaultRegistry
| RegisterVault (vault : string)
| CreateEpochState
| CreateWeightTable
| CreateEpochSnapshot
| CreateOperatorSnapshot (operator : string)
| SnapshotVaultOperatorDelegation (vault operator : string)
| CreateBallotBox
| OperatorCastVote (operator : string) (weather_status : u8)
| CreateNCNRewardRouter
| CreateOperatorVaultRewardRouter (operator : string)
| RouteNCNRewards
| RouteOperatorVaultRewards (operator : string)
| DistributeBaseOperatorVaultRewards (operator : string)
| GetNcn
| GetNcnOperatorState (operator : string)
| GetVaultNcnTicket (vault : string)
| GetNcnVaultTicket (vault : string)
| GetVaultOperatorDelegation (vault operator : string)
| GetAllTickets
| GetAllOperatorsInNcn
| GetAllVaultsInNcn
| GetNCNProgramConfig
| GetVaultRegistry
| GetWeightTable
| GetEpochState
| GetEpochSnapshot
| GetOperatorSnapshot (operator : string)
| GetBallotBox
| GetAccountPayer
| GetTotalEpochRentCost
| GetConsensusResult
| GetOperatorStakes
| GetVaultStakes
| GetVaultOperatorStakes
| GetNCNRewardRouter
| GetNCNRewardReceiverAddress
| GetOperatorVaultRewardRouter (operator : string)
| GetAllOperatorVaultRewardRouters
| FullUpdateVaults (vault : option string).
End commands.
Arguments t W {libraries}.
End ProgramCommand.
Import ProgramCommand.

(** Products and sums of [u128] out of range panic, and so does a division by
    zero. *)
Definition mul_u128 (a b : u128) : result CliError.t u128 := if a * b <=? u128_MAX then Ok (a * b) else Panic.
Definition add_u128 (a b : u128) : result CliError.t u128 := if a + b <=? u128_MAX then Ok (a + b) else Panic.
Definition div_u128 (a b : u128) : result CliError.t u128 := if b =? 0 then Panic else Ok (a / b).

(** A percentage with two decimals, as it is printed: [a * 10000 / b / 100] and
    [a * 10000 / b % 100]. *)
Definition percentage (a b : u128) : result CliError.t (u128 * u128) :=
  let? scaled := mul_u128 a 10000 in
  let? q := div_u128 scaled b in
  Ok (q / 100, q mod 100).

(** [sort_by(|(_, a), (_, b)| b.cmp(a))]: stable, the largest first. *)
Fixpoint insert_stake {A} (x : A * u128) (l : list (A * u128)) : list (A * u128) :=
  match l with
  | [] => [x]
  | y :: l => if y.2 <=? x.2 then x :: y :: l else y :: insert_stake x l
  end.
Definition sort_stakes {A} (l : list (A * u128)) : list (A * u128) := foldr insert_stake [] l.

(** Every line of a table, or the first panic. *)
Fixpoint lines {A B} (line : A -> result CliError.t B) (l : list A) : result CliError.t (list B) :=
  match l with
  | [] => Ok []
  | a :: l => let? b := line a in let? bs := lines line l in Ok (b :: bs)
  end.
Fixpoint sum_u128 (l : list u128) (total : u128) : result CliError.t u128 :=
  match l with
  | [] => Ok total
  | a :: l => let? total := add_u128 total a in sum_u128 l total
  end.

(** [vault_stakes], with the stake of one more snapshot, and
    [vault_operator_stakes]. *)
Fixpoint add_vault_stakes (weights : list VaultOperatorStakeWeight.t) (vault_stakes : gmap Z u128)
    : result CliError.t (gmap Z u128) :=
  match weights with
  | [] => Ok vault_stakes
  | w :: weights =>
      let vault := VaultOperatorStakeWeight.vault w in
      if vault =? Pubkey_default then add_vault_stakes weights vault_stakes
      else
        let stake_weight := StakeWeights.stake_weight (VaultOperatorStakeWeight.stake_weights w) in
        let? total := match vault_stakes !! vault with
                      | Some w => add_u128 w stake_weight
                      | None => Ok stake_weight
                      end in
        add_vault_stakes weights (<[vault := total]> vault_stakes)
  end.
Fixpoint add_vault_operator_stakes (operator : Pubkey) (weights : list VaultOperatorStakeWeight.t)
    (stakes : gmap Z (gmap Z u128)) : gmap Z (gmap Z u128) :=
  match weights with
  | [] => stakes
  | w :: weights =>
      let vault := VaultOperatorStakeWeight.vault w in
      if vault =? Pubkey_default then add_vault_operator_stakes operator weights stakes
      else
        let stake_weight := StakeWeights.stake_weight (VaultOperatorStakeWeight.stake_weights w) in
        add_vault_operator_stakes operator weights
          (<[vault := <[operator := stake_weight]> (default ∅ (stakes !! vault))]> stakes)
  end.

(** A vault's line, and those of its operators. *)
Definition vault_line (total_stake_weight : u128) (x : Pubkey * gmap Z u128)
    : result CliError.t (list (Pubkey * (u128 * u128))) :=
  let? vault_total := sum_u128 (map_to_list x.2).*2 0 in
  if vault_total =? 0 then Ok []
  else
    let? line := percentage vault_total total_stake_weight in
    let operators := List.filter (fun y => negb (y.2 =? 0)) (sort_stakes (map_to_list x.2)) in
    let? operator_lines := lines (fun y => let? p := percentage y.2 vault_total in Ok (y.1, p)) operators in
    Ok ((x.1, line) :: operator_lines).

Section handler.
Context {D W : Type} {data : AccountData D} {runtime : Runtime} {rpc : Rpc D W} {partners : Partners D}
  {tickets : Tickets D} {telemetry : Telemetry W} {libraries : Libraries W}.
Context {s_config : Stored D Config.t} {s_registry : Stored D VaultRegistry.t}
  {s_table : Stored D WeightTable.t} {s_epoch : Stored D EpochSnapshot.t}
  {s_operator : Stored D OperatorSnapshot.t} {s_box : Stored D BallotBox.t}
  {s_result : Stored D ConsensusResult.t} {s_router : Stored D NCNRewardRouter.t}
  {s_op_router : Stored D OperatorVaultRewardRouter.t} {s_state : Stored D EpochState.t}.
Implicit Types (handler : CliHandler.t).

(** [CliHandler::from_args]. *)
Definition from_args (args : Args.t) : M W CliError.t CliHandler.t :=
  let* _ := lift (CommitmentConfig_from_str (Args.commitment args)) in
  let* keypair :=
    match Args.keypair_path args with
    | Some path => let* keypair := read_keypair_file path in ret (Some keypair)
    | None => ret None
    end in
  let* restaking_program_id := lift (Pubkey_from_str (Args.restaking_program_id args)) in
  let* vault_program_id := lift (Pubkey_from_str (Args.vault_program_id args)) in
  let* ncn_program_id := lift (Pubkey_from_str (Args.ncn_program_id args)) in
  let* token_program_id := lift (Pubkey_from_str (Args.token_program_id args)) in
  let* ncn :=
    match Args.ncn args with
    | Some ncn => let* ncn := lift (Pubkey_from_str ncn) in ret (Some ncn)
    | None => ret None
    end in
  let* epoch :=
    match Args.epoch args with
    | Some epoch => ret epoch
    | None => let* epoch_info := get_epoch_info in ret (info_epoch epoch_info)
    end in
  ret (CliHandler.mk keypair restaking_program_id vault_program_id ncn_program_id ncn epoch
         (Args.transaction_retries args) (Args.priority_fee_micro_lamports args)
         (Args.open_weather_api_key args)).

(** ** The commands that are not cranks *)

Definition admin_fund_account_payer handler (amount : f64) : M W CliError.t unit :=
  let* keypair := lift (CliHandler.keypair handler) in
  let* ncn := lift (CliHandler.ncn handler) in
  let '(account_payer, _, _) :=
    AccountPayer.find_program_address (CliHandler.ncn_program_id handler) ncn in
  send_and_log_transaction handler [Transfer keypair account_payer (sol_to_lamports amount)] [].

Definition update_all_vaults_in_network handler : M W CliError.t unit :=
  let* vaults := get_all_vaults handler in
  for_all vaults (full_vault_update handler).

(** The snapshots that there are of the operators. *)
Fixpoint operator_snapshots handler epoch (operators : list Pubkey)
    : M W CliError.t (list (Pubkey * OperatorSnapshot.t)) :=
  match operators with
  | [] => ret []
  | operator :: operators =>
      let* operator_snapshot := attempt (get_operator_snapshot handler operator epoch) in
      let* snapshots := operator_snapshots handler epoch operators in
      ret (match operator_snapshot with Ok s => (operator, s) :: snapshots | _ => snapshots end)
  end.

Definition get_operator_stakes handler : M W CliError.t (list (Pubkey * (u128 * u128))) :=
  let epoch := CliHandler.epoch handler in
  let* epoch_snapshot := get_epoch_snapshot handler epoch in
  let* operators := get_all_operators_in_ncn handler in
  let* snapshots := operator_snapshots handler epoch operators in
  let operator_stakes :=
    map (fun x => (x.1, StakeWeights.stake_weight (OperatorSnapshot.stake_weights x.2))) snapshots in
  let total := StakeWeights.stake_weight (EpochSnapshot.stake_weights epoch_snapshot) in
  lift (lines (fun x => let? p := percentage x.2 total in Ok (x.1, p)) (sort_stakes operator_stakes)).

Definition get_vault_stakes handler : M W CliError.t (list (Pubkey * (u128 * u128))) :=
  let epoch := CliHandler.epoch handler in
  let* operators := get_all_operators_in_ncn handler in
  let* epoch_snapshot := get_epoch_snapshot handler epoch in
  let* snapshots := operator_snapshots handler epoch operators in
  let* vault_stakes :=
    lift (add_vault_stakes (concat (map (fun x => OperatorSnapshot.vault_operator_stake_weight x.2) snapshots)) ∅) in
  let total := StakeWeights.stake_weight (EpochSnapshot.stake_weights epoch_snapshot) in
  lift (lines (fun x => let? p := percentage x.2 total in Ok (x.1, p)) (sort_stakes (map_to_list vault_stakes))).

Definition get_vault_operator_stakes handler : M W CliError.t (list (list (Pubkey * (u128 * u128)))) :=
  let epoch := CliHandler.epoch handler in
  let* operators := get_all_operators_in_ncn handler in
  let* epoch_snapshot := get_epoch_snapshot handler epoch in
  let* snapshots := operator_snapshots handler epoch operators in
  let vault_operator_stakes :=
    foldl (fun stakes x => add_vault_operator_stakes x.1 (OperatorSnapshot.vault_operator_stake_weight x.2) stakes)
      ∅ snapshots in
  let total_stake_weight := StakeWeights.stake_weight (EpochSnapshot.stake_weights epoch_snapshot) in
  let* totals :=
    lift (lines (fun x => let? total := sum_u128 (map_to_list x.2).*2 0 in Ok (x, total))
            (map_to_list vault_operator_stakes)) in
  lift (lines (vault_line total_stake_weight) (sort_stakes totals).*1).

Definition get_state handler : M W CliError.t unit :=
  let epoch := CliHandler.epoch handler in
  let* is_epoch_complete := get_is_epoch_completed handler epoch in
  if is_epoch_complete then ret tt
  else
    let* epoch_state := get_epoch_state handler epoch in
    let* current_slot := get_current_slot handler in
    let* current_state := patched_state handler epoch current_slot epoch_state in
    ret tt.

(** ** The loops that do not end

    For a number of rounds; what comes after them is not reached. *)
Fixpoint forever {S} (round : M S CliError.t unit) (rounds : nat) : M S CliError.t unit :=
  match rounds with
  | O => lift Panic
  | S rounds => let* _ := round in forever round rounds
  end.
Context (fuel : nat).

Definition startup_ncn_keeper handler : M W CliError.t unit :=
  zoom (fun w => (Keeper.start handler, w)) (fun p _ => p.2)
    (forever (Keeper.round fuel emit_ncn_metrics emit_epoch_metrics handler) fuel).
Definition startup_operator_loop handler operator : M W CliError.t unit :=
  zoom (fun w => (Keeper.start handler, w)) (fun p _ => p.2)
    (forever (Keeper.operator_round emit_ncn_metrics_operator_vote emit_ncn_metrics_operator_post_vote
                handler operator) fuel).

(** What is printed has no effect. *)
Definition shown {A} (m : M W CliError.t A) : M W CliError.t unit := let* _ := m in ret tt.
Definition parse (s : string) : M W CliError.t Pubkey := lift (Pubkey_from_str s).
Definition parse_option (s : option string) : M W CliError.t (option Pubkey) :=
  match s with Some s => let* k := parse s in ret (Some k) | None => ret None end.
Definition as_fee_bps (bps : u64) : result CliError.t u16 :=
  if bps <=? u16_MAX then Ok bps else Err (CliError.Message "out of range integral type conversion attempted").

(** [CliHandler::handle]. *)
Definition handle (self : CliHandler.t) (action : ProgramCommand.t W) : M W CliError.t unit :=
  let epoch := CliHandler.epoch self in
  match action with
  | RunKeeper _ _ => startup_ncn_keeper self
  | RunOperator operator _ _ => let* operator := parse operator in startup_operator_loop self operator
  | CrankRegisterVaults => crank_register_vaults self
  | CrankUpdateAllVaults => update_all_vaults_in_network self
  | CrankDistribute => crank_distribute fuel self epoch
  | CrankSnapshot => crank_snapshot self epoch
  | CrankCloseEpochAccounts => crank_close_epoch_accounts self epoch
  | SetEpochWeights => set_epoch_weights self epoch
  | AdminCreateConfig ncn_fee_wallet ncn_fee_bps epochs_before_stall valid_slots_after_consensus
      epochs_after_consensus_before_close tie_breaker_admin =>
      let* tie_breaker := parse_option tie_breaker_admin in
      let* ncn_fee_wallet := parse ncn_fee_wallet in
      let* ncn_fee_bps := lift (as_fee_bps ncn_fee_bps) in
      admin_create_config self ncn_fee_wallet ncn_fee_bps tie_breaker epochs_before_stall
        valid_slots_after_consensus epochs_after_consensus_before_close
  | AdminRegisterStMint vault weight => let* vault := parse vault in admin_register_st_mint self vault weight
  | AdminSetWeight vault weight => let* vault := parse vault in admin_set_weight self vault epoch weight
  | AdminSetTieBreaker weather_status => admin_set_tie_breaker self epoch weather_status
  | AdminSetParameters epochs_before_stall epochs_after_consensus_before_close valid_slots_after_consensus
      starting_valid_epoch =>
      let* _ := admin_set_parameters self epochs_before_stall epochs_after_consensus_before_close
                  valid_slots_after_consensus starting_valid_epoch in
      shown (get_ncn_program_config self)
  | AdminSetNewAdmin new_admin set_tie_breaker_admin =>
      let* new_admin := parse new_admin in admin_set_new_admin self new_admin set_tie_breaker_admin
  | AdminFundAccountPayer amount_in_sol => admin_fund_account_payer self amount_in_sol
  | CreateVaultRegistry => create_vault_registry self
  | RegisterVault vault => let* vault := parse vault in register_vault self vault
  | CreateEpochState => create_epoch_state self epoch
  | CreateWeightTable => create_weight_table self epoch
  | CreateEpochSnapshot => create_epoch_snapshot self epoch
  | CreateOperatorSnapshot operator =>
      let* operator := parse operator in create_operator_snapshot self operator epoch
  | SnapshotVaultOperatorDelegation vault operator =>
      let* vault := parse vault in
      let* operator := parse operator in
      snapshot_vault_operator_delegation self vault operator epoch
  | CreateBallotBox => create_ballot_box self epoch
  | OperatorCastVote operator weather_status =>
      let* operator := parse operator in operator_cast_vote self operator epoch weather_status
  | GetNcn => shown (get_ncn self)
  | GetNcnOperatorState operator =>
      let* operator := parse operator in shown (get_ncn_operator_state self operator)
  | GetVaultNcnTicket vault => let* vault := parse vault in shown (get_vault_ncn_ticket self vault)
  | GetNcnVaultTicket vault => let* vault := parse vault in shown (get_ncn_vault_ticket self vault)
  | GetVaultOperatorDelegation vault operator =>
      let* vault := parse vault in
      let* operator := parse operator in
      shown (get_vault_operator_delegation self vault operator)
  | GetAllOperatorsInNcn => shown (get_all_operators_in_ncn self)
  | GetAllVaultsInNcn => shown (get_all_vaults_in_ncn self)
  | GetAllTickets =>
      let* all_tickets := get_all_tickets self in
      for_all all_tickets (fun ticket =>
        let* _ := lift (NcnTickets.ncn_operator ticket) in
        let* _ := lift (NcnTickets.operator_ncn ticket) in
        let* _ := lift (NcnTickets.ncn_vault ticket) in
        let* _ := lift (NcnTickets.vault_ncn ticket) in
        let* _ := lift (NcnTickets.operator_vault ticket) in
        let* _ := lift (NcnTickets.vault_operator ticket) in
        shown (lift (NcnTickets.delegation ticket)))
  | GetNCNProgramConfig => shown (get_ncn_program_config self)
  | GetVaultRegistry => shown (get_vault_registry self)
  | GetWeightTable => shown (get_weight_table self epoch)
  | GetEpochState => get_state self
  | GetEpochSnapshot => shown (get_epoch_snapshot self epoch)
  | GetOperatorSnapshot operator =>
      let* operator := parse operator in shown (get_operator_snapshot self operator epoch)
  | GetBallotBox => shown (get_ballot_box self epoch)
  | GetAccountPayer =>
      let* _ := get_account_payer self in shown (lift (CliHandler.ncn self))
  | GetTotalEpochRentCost => shown (get_total_epoch_rent_cost self)
  | GetConsensusResult => shown (get_consensus_result self epoch)
  | GetOperatorStakes => shown (get_operator_stakes self)
  | GetVaultStakes => shown (get_vault_stakes self)
  | GetVaultOperatorStakes => shown (get_vault_operator_stakes self)
  | FullUpdateVaults vault =>
      let* vaults_to_update :=
        match vault with
        | Some vault => let* vault := parse vault in ret [vault]
        | None => get_all_vaults self
        end in
      for_all vaults_to_update (full_vault_update self)
  | CreateNCNRewardRouter => create_ncn_reward_router self epoch
  | CreateOperatorVaultRewardRouter operator =>
      let* operator := parse operator in create_operator_vault_reward_router self operator epoch
  | RouteNCNRewards => route_ncn_rewards fuel self epoch
  | RouteOperatorVaultRewards operator =>
      let* operator := parse operator in route_operator_vault_rewards fuel self operator epoch
  | DistributeBaseOperatorVaultRewards operator =>
      let* operator := parse operator in distribute_operator_vault_rewards self operator epoch
  | GetNCNRewardRouter => shown (get_ncn_reward_router self epoch)
  | GetNCNRewardReceiverAddress => shown (get_ncn_reward_receiver self epoch)
  | GetOperatorVaultRewardRouter operator =>
      let* operator := parse operator in shown (get_operator_vault_reward_router self operator epoch)
  | GetAllOperatorVaultRewardRouters =>
      let* operators := get_all_operators_in_ncn self in
      for_all operators (fun operator => logged (get_operator_vault_reward_router self operator epoch))
  end.

(** [main]: the settings, and then the command. *)
Definition main (args : Args.t) (command : ProgramCommand.t W) : M W CliError.t unit :=
  if Args.markdown_help args then ret tt
  else
    let* handler := from_args args in
    handle handler command.
End handler.

(** Without stake in the epoch's snapshot the first line of a table divides by
    zero. *)
Lemma no_stake_panics {A} (x : A * u128) (l : list (A * u128)) :
  lines (fun x => let? p := percentage x.2 0 in Ok (x.1, p)) (x :: l) = Panic.
Proof. cbn. unfold percentage, mul_u128. by destruct (_ <=? _). Qed.
