(* ===== verification/Sends.v ===== *)
(** What the client does to the ledger: whatever it reads and computes, the
    ledger moves only by the instructions it sends, any number of times and in
    any order, and by the steps of others. The rules follow the structure of the
    client's code. *)
From stdpp Require Import relations strings.
From S2P Require Import Prelude Errors Precise Stake Registry Weights Fees Snapshots Voting EpochStates.
From S2P Require Import NcnRouter OperatorRouter Consensus Accounts Machine Lamports Frames VoteHandlers.
From S2P Require Import AdminHandlers SnapshotHandlers RewardHandlers CloseHandlers Program Authority.
From S2P Require Import Client Getters Commands Keeper.

(** The instruction enum's variants by number, which is the first byte of the
    data of an instruction. *)
Definition variant (ix : NCNProgramInstruction.t) : u8 :=
  match ix with
  | NCNProgramInstruction.InitializeConfig _ _ _ _ => 0
  | NCNProgramInstruction.InitializeVaultRegistry => 1
  | NCNProgramInstruction.ReallocVaultRegistry => 2
  | NCNProgramInstruction.RegisterVault => 3
  | NCNProgramInstruction.InitializeEpochState _ => 4
  | NCNProgramInstruction.InitializeWeightTable _ => 5
  | NCNProgramInstruction.SetEpochWeights _ => 6
  | NCNProgramInstruction.ReallocWeightTable _ => 7
  | NCNProgramInstruction.InitializeEpochSnapshot _ => 8
  | NCNProgramInstruction.InitializeOperatorSnapshot _ => 9
  | NCNProgramInstruction.SnapshotVaultOperatorDelegation _ => 10
  | NCNProgramInstruction.InitializeBallotBox _ => 11
  | NCNProgramInstruction.ReallocBallotBox _ => 12
  | NCNProgramInstruction.CastVote _ _ => 13
  | NCNProgramInstruction.InitializeNCNRewardRouter _ => 14
  | NCNProgramInstruction.ReallocNCNRewardRouter _ => 15
  | NCNProgramInstruction.RouteNCNRewards _ _ => 16
  | NCNProgramInstruction.DistributeProtocolRewards _ => 17
  | NCNProgramInstruction.DistributeNCNRewards _ => 18
  | NCNProgramInstruction.InitializeOperatorVaultRewardRouter _ => 19
  | NCNProgramInstruction.DistributeOperatorVaultRewardRoute _ => 20
  | NCNProgramInstruction.RouteOperatorVaultRewards _ _ => 21
  | NCNProgramInstruction.CloseEpochAccount _ => 22
  | NCNProgramInstruction.DistributeOperatorRewards _ => 23
  | NCNProgramInstruction.DistributeVaultRewards _ => 24
  | NCNProgramInstruction.AdminSetParameters _ _ _ _ => 25
  | NCNProgramInstruction.AdminSetNewAdmin _ => 26
  | NCNProgramInstruction.AdminSetTieBreaker _ _ => 27
  | NCNProgramInstruction.AdminSetWeight _ _ _ => 28
  | NCNProgramInstruction.AdminRegisterStMint _ => 29
  | NCNProgramInstruction.AdminSetStMint _ _ => 30
  end.

(** ** The ledger behind the node *)
Section network.
Context {D W : Type} {data : AccountData D} {bytes : AccountBytes D} {runtime : Runtime}
  {at_clock : Clock -> Externals D} {system : System D} {P : PreciseNumber}.
Context {s_config : Stored D Config.t} {s_registry : Stored D VaultRegistry.t}
  {s_table : Stored D WeightTable.t} {s_epoch : Stored D EpochSnapshot.t}
  {s_operator : Stored D OperatorSnapshot.t} {s_box : Stored D BallotBox.t}
  {s_result : Stored D ConsensusResult.t} {s_router : Stored D NCNRewardRouter.t}
  {s_op_router : Stored D OperatorVaultRewardRouter.t} {s_marker : Stored D EpochMarker.t}
  {s_state : Stored D EpochState.t}.

(** An instruction of a transaction: the program's runs when its data decode;
    another program's cannot touch an account of this one. *)
Inductive executes : Instruction -> Store D -> Store D -> Prop :=
| executes_ncn clock accounts args s s' :
    process_instruction (ext := at_clock clock) id accounts (Ok args) s = (Ok tt, s') ->
    executes (Ncn id accounts (variant args) args) s s'
| executes_other ix s s' :
    match ix with Ncn program_id _ _ _ => program_id <> id | _ => True end ->
    (forall k, Account.owner (s k) = id -> same_data (s' k) (s k)) -> executes ix s s'.

(** A transaction, when it goes through. *)
Inductive executes_all : list Instruction -> Store D -> Store D -> Prop :=
| executes_nil s : executes_all [] s s
| executes_cons ix l s s1 s' : executes ix s s1 -> executes_all l s1 s' -> executes_all (ix :: l) s s'.

(** The steps of others, and the ledger that is part of the world. *)
Context (others : Store D -> Store D -> Prop) (ledger : W -> Store D).

Definition moves (allowed : Instruction -> Prop) : Store D -> Store D -> Prop :=
  rtc (fun s s' => others s s' \/ exists ix, allowed ix /\ executes ix s s').

(** A program of the client, over a state that contains the world. *)
Definition sends {S E A} (world : S -> W) (allowed : Instruction -> Prop) (m : M S E A) : Prop :=
  forall s r s', m s = (r, s') -> moves allowed (ledger (world s)) (ledger (world s')).

Section rules.
Context {S : Type} (world : S -> W) (allowed : Instruction -> Prop).

Lemma sends_bind {E A B} (m : M S E A) (f : A -> M S E B) :
  sends world allowed m -> (forall a, sends world allowed (f a)) -> sends world allowed (mbind m f).
Proof.
  intros Hm Hf s r s' H. unfold mbind in H. destruct (m s) as [[a|e|] s1] eqn:E1.
  - etrans; [by eapply Hm|by eapply Hf].
  - injection H as _ <-. by eapply Hm.
  - injection H as _ <-. by eapply Hm.
Qed.
Lemma sends_still {E A} (m : M S E A) : (forall s, world (snd (m s)) = world s) -> sends world allowed m.
Proof. intros Hm s r s' H. specialize (Hm s). rewrite H in Hm. cbn in Hm. rewrite Hm. apply rtc_refl. Qed.
Lemma sends_mono {E A} (allowed' : Instruction -> Prop) (m : M S E A) :
  (forall ix, allowed ix -> allowed' ix) -> sends world allowed m -> sends world allowed' m.
Proof.
  intros Ha Hm s r s' H. specialize (Hm _ _ _ H). revert Hm. apply rtc_subrel.
  intros t t' [Ho|(ix & Hi & Hx)]; [by left|right]. eauto.
Qed.
Lemma sends_ret {E A} (a : A) : sends world allowed (ret a : M S E A).
Proof. by apply sends_still. Qed.
Lemma sends_throw {E A} (e : E) : sends world allowed (throw e : M S E A).
Proof. by apply sends_still. Qed.
Lemma sends_lift {E A} (r : result E A) : sends world allowed (lift r : M S E A).
Proof. by apply sends_still. Qed.
Lemma sends_gets {E A} (f : S -> A) : sends world allowed (gets f : M S E A).
Proof. by apply sends_still. Qed.
Lemma sends_modify {E} f : (forall s, world (f s) = world s) -> sends world allowed (modify f : M S E unit).
Proof. intros Hf. by apply sends_still. Qed.
Lemma sends_attempt {E A} (m : M S E A) : sends world allowed m -> sends world allowed (attempt m).
Proof.
  intros Hm s r s' H. unfold attempt in H. destruct (m s) as [[a|e|] s1] eqn:E1; injection H as _ <-; by eapply Hm.
Qed.
Lemma sends_for_all {E A} (l : list A) (body : A -> M S E unit) :
  (forall a, sends world allowed (body a)) -> sends world allowed (for_all l body).
Proof. intros Hb. induction l as [|a l IH]; [apply sends_ret|]. apply sends_bind; [apply Hb|by intros _]. Qed.
Lemma sends_rounds (m : M S CliError.t unit) n : sends world allowed m -> sends world allowed (Keeper.rounds m n).
Proof. intros Hm. induction n as [|n IH]; [apply sends_ret|]. apply sends_bind; [done|by intros _]. Qed.
Lemma sends_zoom {T E A} (world' : T -> W) (get : S -> T) upd (m : M T E A) :
  (forall s, world' (get s) = world s) -> (forall t s, world (upd t s) = world' t) ->
  sends world' allowed m -> sends world allowed (zoom get upd m).
Proof.
  intros Hg Hu Hm s r s' H. unfold zoom in H. destruct (m (get s)) as [r1 t] eqn:E1. injection H as _ <-.
  rewrite Hu, <-Hg. by eapply Hm.
Qed.
End rules.

(** The node: reading changes nothing itself, and what is sent may or may not be
    executed. *)
Context {rpc : Rpc D W} {partners : Partners D}.
Class NodeLaws : Prop := {
  reads_account allowed k : sends (fun w => w) allowed (get_account_with_commitment k);
  reads_epoch_info allowed : sends (fun w => w) allowed (get_epoch_info (D := D));
  reads_slot allowed : sends (fun w => w) allowed (get_slot (D := D));
  reads_schedule allowed : sends (fun w => w) allowed (get_epoch_schedule (D := D));
  reads_rent allowed n : sends (fun w => w) allowed (get_minimum_balance_for_rent_exemption (D := D) n);
  reads_accounts allowed p c : sends (fun w => w) allowed (get_program_accounts_with_config p c);
  reads_blockhash allowed : sends (fun w => w) allowed (get_latest_blockhash (D := D));
  reads_weather allowed a c : sends (fun w => w) allowed (weather_conditions (D := D) a c);
  sends_with_config (allowed : Instruction -> Prop) tx : Forall allowed (instructions tx) ->
    sends (fun w => w) allowed (send_and_confirm_transaction_with_config (D := D) tx);
  sends_transaction (allowed : Instruction -> Prop) tx : Forall allowed (instructions tx) ->
    sends (fun w => w) allowed (send_and_confirm_transaction (D := D) tx);
}.
End network.
