(* ===== verification/Idl.v ===== *)
(** The accounts that the instruction enum announces ([core/src/instruction.rs],
    the [#[account(...)]] attributes, from which the client is generated): the
    client passes exactly these with these flags, and the program changes no
    account but those announced as writable. *)
From Stdlib Require Import Strings.String.
From S2P Require Import Prelude Errors Precise Stake Registry Weights Fees Snapshots Voting EpochStates.
From S2P Require Import NcnRouter OperatorRouter Consensus Accounts Machine Lamports Frames VoteHandlers.
From S2P Require Import AdminHandlers SnapshotHandlers RewardHandlers CloseHandlers Program Authority.
From S2P Require Import Interface Client Getters Commands Keeper Sends Builders.

(** ** The attributes *)

Inductive attribute := signer | writable | optional.
(** [#[account(index, attributes, name = "...")]] *)
Record annotation := account { index : nat; attributes : list attribute; name : string }.
Arguments account (index attributes)%_nat_scope name%_string_scope.

Definition is_attribute (x y : attribute) : bool :=
  match x, y with signer, signer | writable, writable | optional, optional => true | _, _ => false end.
Definition has (x : attribute) (a : annotation) : bool := existsb (is_attribute x) (attributes a).

Module Variants.
Definition InitializeConfig : list annotation := [
  account 0 [writable] "config";
  account 1 [] "ncn";
  account 2 [] "ncn_fee_wallet";
  account 3 [signer] "ncn_admin";
  account 4 [] "tie_breaker_admin";
  account 5 [writable] "account_payer";
  account 6 [] "system_program"].
Definition InitializeVaultRegistry : list annotation := [
  account 0 [] "config";
  account 1 [writable] "vault_registry";
  account 2 [] "ncn";
  account 3 [writable] "account_payer";
  account 4 [] "system_program"].
Definition ReallocVaultRegistry : list annotation := [
  account 0 [] "config";
  account 1 [writable] "vault_registry";
  account 2 [] "ncn";
  account 3 [writable] "account_payer";
  account 4 [] "system_program"].
Definition RegisterVault : list annotation := [
  account 0 [] "config";
  account 1 [writable] "vault_registry";
  account 2 [] "ncn";
  account 3 [] "vault";
  account 4 [] "ncn_vault_ticket"].
Definition InitializeEpochState : list annotation := [
  account 0 [] "epoch_marker";
  account 1 [writable] "epoch_state";
  account 2 [] "config";
  account 3 [] "ncn";
  account 4 [writable] "account_payer";
  account 5 [] "system_program"].
Definition InitializeWeightTable : list annotation := [
  account 0 [] "epoch_marker";
  account 1 [] "epoch_state";
  account 2 [] "vault_registry";
  account 3 [] "ncn";
  account 4 [writable] "weight_table";
  account 5 [writable] "account_payer";
  account 6 [] "system_program"].
Definition SetEpochWeights : list annotation := [
  account 0 [writable] "epoch_state";
  account 1 [] "ncn";
  account 2 [] "vault_registry";
  account 3 [writable] "weight_table"].
Definition ReallocWeightTable : list annotation := [
  account 0 [writable] "epoch_state";
  account 1 [] "config";
  account 2 [writable] "weight_table";
  account 3 [] "ncn";
  account 4 [] "vault_registry";
  account 5 [writable] "account_payer";
  account 6 [] "system_program"].
Definition InitializeEpochSnapshot : list annotation := [
  account 0 [] "epoch_marker";
  account 1 [writable] "epoch_state";
  account 2 [] "config";
  account 3 [] "ncn";
  account 4 [] "weight_table";
  account 5 [writable] "epoch_snapshot";
  account 6 [writable] "account_payer";
  account 7 [] "system_program"].
Definition InitializeOperatorSnapshot : list annotation := [
  account 0 [] "epoch_marker";
  account 1 [writable] "epoch_state";
  account 2 [] "config";
  account 3 [] "restaking_config";
  account 4 [] "ncn";
  account 5 [] "operator";
  account 6 [] "ncn_operator_state";
  account 7 [writable] "epoch_snapshot";
  account 8 [writable] "operator_snapshot";
  account 9 [writable] "account_payer";
  account 10 [] "system_program"].
Definition SnapshotVaultOperatorDelegation : list annotation := [
  account 0 [writable] "epoch_state";
  account 1 [] "config";
  account 2 [] "restaking_config";
  account 3 [] "ncn";
  account 4 [] "operator";
  account 5 [] "vault";
  account 6 [] "vault_ncn_ticket";
  account 7 [] "ncn_vault_ticket";
  account 8 [] "vault_operator_delegation";
  account 9 [] "weight_table";
  account 10 [writable] "epoch_snapshot";
  account 11 [writable] "operator_snapshot"].
Definition InitializeBallotBox : list annotation := [
  account 0 [] "epoch_marker";
  account 1 [] "epoch_state";
  account 2 [] "config";
  account 3 [writable] "ballot_box";
  account 4 [] "ncn";
  account 5 [writable] "account_payer";
  account 6 [] "system_program";
  account 7 [writable] "consensus_result"].
Definition ReallocBallotBox : list annotation := [
  account 0 [writable] "epoch_state";
  account 1 [] "config";
  account 2 [writable] "ballot_box";
  account 3 [] "ncn";
  account 4 [writable] "account_payer";
  account 5 [] "system_program"].
Definition CastVote : list annotation := [
  account 0 [writable] "epoch_state";
  account 1 [] "config";
  account 2 [writable] "ballot_box";
  account 3 [] "ncn";
  account 4 [] "epoch_snapshot";
  account 5 [] "operator_snapshot";
  account 6 [] "operator";
  account 7 [signer] "operator_voter";
  account 8 [writable] "consensus_result"].
Definition InitializeNCNRewardRouter : list annotation := [
  account 0 [] "epoch_marker";
  account 1 [] "epoch_state";
  account 2 [] "ncn";
  account 3 [writable] "ncn_reward_router";
  account 4 [writable] "ncn_reward_receiver";
  account 5 [writable] "account_payer";
  account 6 [] "system_program"].
Definition ReallocNCNRewardRouter : list annotation := [
  account 0 [writable] "epoch_state";
  account 1 [] "config";
  account 2 [writable] "ncn_reward_router";
  account 3 [] "ncn";
  account 4 [writable] "account_payer";
  account 5 [] "system_program"].
Definition RouteNCNRewards : list annotation := [
  account 0 [writable] "epoch_state";
  account 1 [] "config";
  account 2 [] "ncn";
  account 3 [] "epoch_snapshot";
  account 4 [] "ballot_box";
  account 5 [writable] "ncn_reward_router";
  account 6 [writable] "ncn_reward_receiver"].
Definition DistributeProtocolRewards : list annotation := [
  account 0 [writable] "epoch_state";
  account 1 [] "config";
  account 2 [] "ncn";
  account 3 [writable] "ncn_reward_router";
  account 4 [writable] "ncn_reward_receiver";
  account 5 [writable] "protocol_fee_wallet";
  account 6 [] "system_program"].
Definition DistributeNCNRewards : list annotation := [
  account 0 [writable] "epoch_state";
  account 1 [] "config";
  account 2 [] "ncn";
  account 3 [writable] "ncn_reward_router";
  account 4 [writable] "ncn_reward_receiver";
  account 5 [writable] "ncn_fee_wallet";
  account 6 [] "system_program"].
Definition InitializeOperatorVaultRewardRouter : list annotation := [
  account 0 [] "epoch_marker";
  account 1 [writable] "epoch_state";
  account 2 [] "ncn";
  account 3 [] "operator";
  account 4 [] "operator_snapshot";
  account 5 [writable] "operator_vault_reward_router";
  account 6 [writable] "operator_vault_reward_receiver";
  account 7 [writable] "account_payer";
  account 8 [] "system_program"].
Definition DistributeOperatorVaultRewardRoute : list annotation := [
  account 0 [writable] "epoch_state";
  account 1 [] "config";
  account 2 [] "ncn";
  account 3 [] "operator";
  account 4 [writable] "ncn_reward_router";
  account 5 [writable] "ncn_reward_receiver";
  account 6 [] "operator_vault_reward_router";
  account 7 [writable] "operator_vault_reward_receiver";
  account 8 [] "system_program"].
Definition RouteOperatorVaultRewards : list annotation := [
  account 0 [writable] "epoch_state";
  account 1 [] "ncn";
  account 2 [] "operator";
  account 3 [] "operator_snapshot";
  account 4 [writable] "operator_vault_reward_router";
  account 5 [writable] "operator_vault_reward_receiver"].
Definition CloseEpochAccount : list annotation := [
  account 0 [writable] "epoch_marker";
  account 1 [writable] "epoch_state";
  account 2 [] "config";
  account 3 [] "ncn";
  account 4 [writable] "account_to_close";
  account 5 [writable] "account_payer";
  account 6 [] "system_program";
  account 7 [writable; optional] "ncn_fee_wallet";
  account 8 [writable; optional] "receiver_to_close"].
Definition DistributeOperatorRewards : list annotation := [
  account 0 [writable] "epoch_state";
  account 1 [] "config";
  account 2 [] "ncn";
  account 3 [writable] "operator";
  account 4 [writable] "operator_snapshot";
  account 5 [writable] "operator_vault_reward_router";
  account 6 [writable] "operator_vault_reward_receiver";
  account 7 [] "system_program"].
Definition DistributeVaultRewards : list annotation := [
  account 0 [writable] "epoch_state";
  account 1 [] "config";
  account 2 [] "ncn";
  account 3 [] "operator";
  account 4 [writable] "vault";
  account 5 [writable] "operator_snapshot";
  account 6 [writable] "operator_vault_reward_router";
  account 7 [writable] "operator_vault_reward_receiver";
  account 8 [] "system_program"].
Definition AdminSetParameters : list annotation := [
  account 0 [writable] "config";
  account 1 [] "ncn";
  account 2 [signer] "ncn_admin"].
Definition AdminSetNewAdmin : list annotation := [
  account 0 [writable] "config";
  account 1 [] "ncn";
  account 2 [signer] "ncn_admin";
  account 3 [] "new_admin"].
Definition AdminSetTieBreaker : list annotation := [
  account 0 [writable] "epoch_state";
  account 1 [] "config";
  account 2 [writable] "ballot_box";
  account 3 [] "ncn";
  account 4 [signer] "tie_breaker_admin"].
Definition AdminSetWeight : list annotation := [
  account 0 [writable] "epoch_state";
  account 1 [] "ncn";
  account 2 [writable] "weight_table";
  account 3 [signer] "weight_table_admin"].
Definition AdminRegisterStMint : list annotation := [
  account 0 [] "config";
  account 1 [] "ncn";
  account 2 [] "st_mint";
  account 3 [writable] "vault_registry";
  account 4 [signer; writable] "admin"].
Definition AdminSetStMint : list annotation := [
  account 0 [] "config";
  account 1 [] "ncn";
  account 2 [writable] "vault_registry";
  account 3 [signer; writable] "admin"].
End Variants.

Definition announced (ix : NCNProgramInstruction.t) : list annotation :=
  match ix with
  | NCNProgramInstruction.InitializeConfig _ _ _ _ => Variants.InitializeConfig
  | NCNProgramInstruction.InitializeVaultRegistry => Variants.InitializeVaultRegistry
  | NCNProgramInstruction.ReallocVaultRegistry => Variants.ReallocVaultRegistry
  | NCNProgramInstruction.RegisterVault => Variants.RegisterVault
  | NCNProgramInstruction.InitializeEpochState _ => Variants.InitializeEpochState
  | NCNProgramInstruction.InitializeWeightTable _ => Variants.InitializeWeightTable
  | NCNProgramInstruction.SetEpochWeights _ => Variants.SetEpochWeights
  | NCNProgramInstruction.ReallocWeightTable _ => Variants.ReallocWeightTable
  | NCNProgramInstruction.InitializeEpochSnapshot _ => Variants.InitializeEpochSnapshot
  | NCNProgramInstruction.InitializeOperatorSnapshot _ => Variants.InitializeOperatorSnapshot
  | NCNProgramInstruction.SnapshotVaultOperatorDelegation _ => Variants.SnapshotVaultOperatorDelegation
  | NCNProgramInstruction.InitializeBallotBox _ => Variants.InitializeBallotBox
  | NCNProgramInstruction.ReallocBallotBox _ => Variants.ReallocBallotBox
  | NCNProgramInstruction.CastVote _ _ => Variants.CastVote
  | NCNProgramInstruction.InitializeNCNRewardRouter _ => Variants.InitializeNCNRewardRouter
  | NCNProgramInstruction.ReallocNCNRewardRouter _ => Variants.ReallocNCNRewardRouter
  | NCNProgramInstruction.RouteNCNRewards _ _ => Variants.RouteNCNRewards
  | NCNProgramInstruction.DistributeProtocolRewards _ => Variants.DistributeProtocolRewards
  | NCNProgramInstruction.DistributeNCNRewards _ => Variants.DistributeNCNRewards
  | NCNProgramInstruction.InitializeOperatorVaultRewardRouter _ => Variants.InitializeOperatorVaultRewardRouter
  | NCNProgramInstruction.DistributeOperatorVaultRewardRoute _ => Variants.DistributeOperatorVaultRewardRoute
  | NCNProgramInstruction.RouteOperatorVaultRewards _ _ => Variants.RouteOperatorVaultRewards
  | NCNProgramInstruction.CloseEpochAccount _ => Variants.CloseEpochAccount
  | NCNProgramInstruction.DistributeOperatorRewards _ => Variants.DistributeOperatorRewards
  | NCNProgramInstruction.DistributeVaultRewards _ => Variants.DistributeVaultRewards
  | NCNProgramInstruction.AdminSetParameters _ _ _ _ => Variants.AdminSetParameters
  | NCNProgramInstruction.AdminSetNewAdmin _ => Variants.AdminSetNewAdmin
  | NCNProgramInstruction.AdminSetTieBreaker _ _ => Variants.AdminSetTieBreaker
  | NCNProgramInstruction.AdminSetWeight _ _ _ => Variants.AdminSetWeight
  | NCNProgramInstruction.AdminRegisterStMint _ => Variants.AdminRegisterStMint
  | NCNProgramInstruction.AdminSetStMint _ _ => Variants.AdminSetStMint
  end.

(** ** The client *)

(** The accounts of the client's records by the names of their fields. *)
Definition fields (c : call) : list (string * option Pubkey) :=
  match c with
  | CInitializeConfig a _ _ _ _ => [("config", Some (InitializeConfig.config a));
      ("ncn", Some (InitializeConfig.ncn a)); ("ncn_fee_wallet", Some (InitializeConfig.ncn_fee_wallet a));
      ("ncn_admin", Some (InitializeConfig.ncn_admin a));
      ("tie_breaker_admin", Some (InitializeConfig.tie_breaker_admin a));
      ("account_payer", Some (InitializeConfig.account_payer a));
      ("system_program", Some (InitializeConfig.system_program a))]
  | CInitializeVaultRegistry a => [("config", Some (InitializeVaultRegistry.config a));
      ("vault_registry", Some (InitializeVaultRegistry.vault_registry a));
      ("ncn", Some (InitializeVaultRegistry.ncn a));
      ("account_payer", Some (InitializeVaultRegistry.account_payer a));
      ("system_program", Some (InitializeVaultRegistry.system_program a))]
  | CReallocVaultRegistry a => [("config", Some (ReallocVaultRegistry.config a));
      ("vault_registry", Some (ReallocVaultRegistry.vault_registry a));
      ("ncn", Some (ReallocVaultRegistry.ncn a));
      ("account_payer", Some (ReallocVaultRegistry.account_payer a));
      ("system_program", Some (ReallocVaultRegistry.system_program a))]
  | CRegisterVault a => [("config", Some (RegisterVault.config a));
      ("vault_registry", Some (RegisterVault.vault_registry a)); ("ncn", Some (RegisterVault.ncn a));
      ("vault", Some (RegisterVault.vault a));
      ("ncn_vault_ticket", Some (RegisterVault.ncn_vault_ticket a))]
  | CInitializeEpochState a _ => [("epoch_marker", Some (InitializeEpochState.epoch_marker a));
      ("epoch_state", Some (InitializeEpochState.epoch_state a));
      ("config", Some (InitializeEpochState.config a)); ("ncn", Some (InitializeEpochState.ncn a));
      ("account_payer", Some (InitializeEpochState.account_payer a));
      ("system_program", Some (InitializeEpochState.system_program a))]
  | CInitializeWeightTable a _ => [("epoch_marker", Some (InitializeWeightTable.epoch_marker a));
      ("epoch_state", Some (InitializeWeightTable.epoch_state a));
      ("vault_registry", Some (InitializeWeightTable.vault_registry a));
      ("ncn", Some (InitializeWeightTable.ncn a));
      ("weight_table", Some (InitializeWeightTable.weight_table a));
      ("account_payer", Some (InitializeWeightTable.account_payer a));
      ("system_program", Some (InitializeWeightTable.system_program a))]
  | CSetEpochWeights a _ => [("epoch_state", Some (SetEpochWeights.epoch_state a));
      ("ncn", Some (SetEpochWeights.ncn a)); ("vault_registry", Some (SetEpochWeights.vault_registry a));
      ("weight_table", Some (SetEpochWeights.weight_table a))]
  | CReallocWeightTable a _ => [("epoch_state", Some (ReallocWeightTable.epoch_state a));
      ("config", Some (ReallocWeightTable.config a));
      ("weight_table", Some (ReallocWeightTable.weight_table a)); ("ncn", Some (ReallocWeightTable.ncn a));
      ("vault_registry", Some (ReallocWeightTable.vault_registry a));
      ("account_payer", Some (ReallocWeightTable.account_payer a));
      ("system_program", Some (ReallocWeightTable.system_program a))]
  | CInitializeEpochSnapshot a _ => [("epoch_marker", Some (InitializeEpochSnapshot.epoch_marker a));
      ("epoch_state", Some (InitializeEpochSnapshot.epoch_state a));
      ("config", Some (InitializeEpochSnapshot.config a)); ("ncn", Some (InitializeEpochSnapshot.ncn a));
      ("weight_table", Some (InitializeEpochSnapshot.weight_table a));
      ("epoch_snapshot", Some (InitializeEpochSnapshot.epoch_snapshot a));
      ("account_payer", Some (InitializeEpochSnapshot.account_payer a));
      ("system_program", Some (InitializeEpochSnapshot.system_program a))]
  | CInitializeOperatorSnapshot a _ => [("epoch_marker", Some (InitializeOperatorSnapshot.epoch_marker a));
      ("epoch_state", Some (InitializeOperatorSnapshot.epoch_state a));
      ("config", Some (InitializeOperatorSnapshot.config a));
      ("restaking_config", Some (InitializeOperatorSnapshot.restaking_config a));
      ("ncn", Some (InitializeOperatorSnapshot.ncn a));
      ("operator", Some (InitializeOperatorSnapshot.operator a));
      ("ncn_operator_state", Some (InitializeOperatorSnapshot.ncn_operator_state a));
      ("epoch_snapshot", Some (InitializeOperatorSnapshot.epoch_snapshot a));
      ("operator_snapshot", Some (InitializeOperatorSnapshot.operator_snapshot a));
      ("account_payer", Some (InitializeOperatorSnapshot.account_payer a));
      ("system_program", Some (InitializeOperatorSnapshot.system_program a))]
  | CSnapshotVaultOperatorDelegation a _ =>
      [("epoch_state", Some (SnapshotVaultOperatorDelegation.epoch_state a));
      ("config", Some (SnapshotVaultOperatorDelegation.config a));
      ("restaking_config", Some (SnapshotVaultOperatorDelegation.restaking_config a));
      ("ncn", Some (SnapshotVaultOperatorDelegation.ncn a));
      ("operator", Some (SnapshotVaultOperatorDelegation.operator a));
      ("vault", Some (SnapshotVaultOperatorDelegation.vault a));
      ("vault_ncn_ticket", Some (SnapshotVaultOperatorDelegation.vault_ncn_ticket a));
      ("ncn_vault_ticket", Some (SnapshotVaultOperatorDelegation.ncn_vault_ticket a));
      ("vault_operator_delegation", Some (SnapshotVaultOperatorDelegation.vault_operator_delegation a));
      ("weight_table", Some (SnapshotVaultOperatorDelegation.weight_table a));
      ("epoch_snapshot", Some (SnapshotVaultOperatorDelegation.epoch_snapshot a));
      ("operator_snapshot", Some (SnapshotVaultOperatorDelegation.operator_snapshot a))]
  | CInitializeBallotBox a _ => [("epoch_marker", Some (InitializeBallotBox.epoch_marker a));
      ("epoch_state", Some (InitializeBallotBox.epoch_state a));
      ("config", Some (InitializeBallotBox.config a));
      ("ballot_box", Some (InitializeBallotBox.ballot_box a)); ("ncn", Some (InitializeBallotBox.ncn a));
      ("account_payer", Some (InitializeBallotBox.account_payer a));
      ("system_program", Some (InitializeBallotBox.system_program a));
      ("consensus_result", Some (InitializeBallotBox.consensus_result a))]
  | CReallocBallotBox a _ => [("epoch_state", Some (ReallocBallotBox.epoch_state a));
      ("config", Some (ReallocBallotBox.config a)); ("ballot_box", Some (ReallocBallotBox.ballot_box a));
      ("ncn", Some (ReallocBallotBox.ncn a)); ("account_payer", Some (ReallocBallotBox.account_payer a));
      ("system_program", Some (ReallocBallotBox.system_program a))]
  | CCastVote a _ _ => [("epoch_state", Some (CastVote.epoch_state a));
      ("config", Some (CastVote.config a)); ("ballot_box", Some (CastVote.ballot_box a));
      ("ncn", Some (CastVote.ncn a)); ("epoch_snapshot", Some (CastVote.epoch_snapshot a));
      ("operator_snapshot", Some (CastVote.operator_snapshot a)); ("operator", Some (CastVote.operator a));
      ("operator_voter", Some (CastVote.operator_voter a));
      ("consensus_result", Some (CastVote.consensus_result a))]
  | CInitializeNCNRewardRouter a _ => [("epoch_marker", Some (InitializeNCNRewardRouter.epoch_marker a));
      ("epoch_state", Some (InitializeNCNRewardRouter.epoch_state a));
      ("ncn", Some (InitializeNCNRewardRouter.ncn a));
      ("ncn_reward_router", Some (InitializeNCNRewardRouter.ncn_reward_router a));
      ("ncn_reward_receiver", Some (InitializeNCNRewardRouter.ncn_reward_receiver a));
      ("account_payer", Some (InitializeNCNRewardRouter.account_payer a));
      ("system_program", Some (InitializeNCNRewardRouter.system_program a))]
  | CReallocNCNRewardRouter a _ => [("epoch_state", Some (ReallocNCNRewardRouter.epoch_state a));
      ("config", Some (ReallocNCNRewardRouter.config a));
      ("ncn_reward_router", Some (ReallocNCNRewardRouter.ncn_reward_router a));
      ("ncn", Some (ReallocNCNRewardRouter.ncn a));
      ("account_payer", Some (ReallocNCNRewardRouter.account_payer a));
      ("system_program", Some (ReallocNCNRewardRouter.system_program a))]
  | CRouteNCNRewards a _ _ => [("epoch_state", Some (RouteNCNRewards.epoch_state a));
      ("config", Some (RouteNCNRewards.config a)); ("ncn", Some (RouteNCNRewards.ncn a));
      ("epoch_snapshot", Some (RouteNCNRewards.epoch_snapshot a));
      ("ballot_box", Some (RouteNCNRewards.ballot_box a));
      ("ncn_reward_router", Some (RouteNCNRewards.ncn_reward_router a));
      ("ncn_reward_receiver", Some (RouteNCNRewards.ncn_reward_receiver a))]
  | CDistributeProtocolRewards a _ => [("epoch_state", Some (DistributeProtocolRewards.epoch_state a));
      ("config", Some (DistributeProtocolRewards.config a));
      ("ncn", Some (DistributeProtocolRewards.ncn a));
      ("ncn_reward_router", Some (DistributeProtocolRewards.ncn_reward_router a));
      ("ncn_reward_receiver", Some (DistributeProtocolRewards.ncn_reward_receiver a));
      ("protocol_fee_wallet", Some (DistributeProtocolRewards.protocol_fee_wallet a));
      ("system_program", Some (DistributeProtocolRewards.system_program a))]
  | CDistributeNCNRewards a _ => [("epoch_state", Some (DistributeNCNRewards.epoch_state a));
      ("config", Some (DistributeNCNRewards.config a)); ("ncn", Some (DistributeNCNRewards.ncn a));
      ("ncn_reward_router", Some (DistributeNCNRewards.ncn_reward_router a));
      ("ncn_reward_receiver", Some (DistributeNCNRewards.ncn_reward_receiver a));
      ("ncn_fee_wallet", Some (DistributeNCNRewards.ncn_fee_wallet a));
      ("system_program", Some (DistributeNCNRewards.system_program a))]
  | CInitializeOperatorVaultRewardRouter a _ =>
      [("epoch_marker", Some (InitializeOperatorVaultRewardRouter.epoch_marker a));
      ("epoch_state", Some (InitializeOperatorVaultRewardRouter.epoch_state a));
      ("ncn", Some (InitializeOperatorVaultRewardRouter.ncn a));
      ("operator", Some (InitializeOperatorVaultRewardRouter.operator a));
      ("operator_snapshot", Some (InitializeOperatorVaultRewardRouter.operator_snapshot a));
      ("operator_vault_reward_router", Some (InitializeOperatorVaultRewardRouter.operator_vault_reward_router a));
      ("operator_vault_reward_receiver", Some (InitializeOperatorVaultRewardRouter.operator_vault_reward_receiver a));
      ("account_payer", Some (InitializeOperatorVaultRewardRouter.account_payer a));
      ("system_program", Some (InitializeOperatorVaultRewardRouter.system_program a))]
  | CDistributeOperatorVaultRewardRoute a _ =>
      [("epoch_state", Some (DistributeOperatorVaultRewardRoute.epoch_state a));
      ("config", Some (DistributeOperatorVaultRewardRoute.config a));
      ("ncn", Some (DistributeOperatorVaultRewardRoute.ncn a));
      ("operator", Some (DistributeOperatorVaultRewardRoute.operator a));
      ("ncn_reward_router", Some (DistributeOperatorVaultRewardRoute.ncn_reward_router a));
      ("ncn_reward_receiver", Some (DistributeOperatorVaultRewardRoute.ncn_reward_receiver a));
      ("operator_vault_reward_router", Some (DistributeOperatorVaultRewardRoute.operator_vault_reward_router a));
      ("operator_vault_reward_receiver", Some (DistributeOperatorVaultRewardRoute.operator_vault_reward_receiver a));
      ("system_program", Some (DistributeOperatorVaultRewardRoute.system_program a))]
  | CRouteOperatorVaultRewards a _ _ => [("epoch_state", Some (RouteOperatorVaultRewards.epoch_state a));
      ("ncn", Some (RouteOperatorVaultRewards.ncn a));
      ("operator", Some (RouteOperatorVaultRewards.operator a));
      ("operator_snapshot", Some (RouteOperatorVaultRewards.operator_snapshot a));
      ("operator_vault_reward_router", Some (RouteOperatorVaultRewards.operator_vault_reward_router a));
      ("operator_vault_reward_receiver", Some (RouteOperatorVaultRewards.operator_vault_reward_receiver a))]
  | CCloseEpochAccount a _ => [("epoch_marker", Some (CloseEpochAccount.epoch_marker a));
      ("epoch_state", Some (CloseEpochAccount.epoch_state a));
      ("config", Some (CloseEpochAccount.config a)); ("ncn", Some (CloseEpochAccount.ncn a));
      ("account_to_close", Some (CloseEpochAccount.account_to_close a));
      ("account_payer", Some (CloseEpochAccount.account_payer a));
      ("system_program", Some (CloseEpochAccount.system_program a));
      ("ncn_fee_wallet", (CloseEpochAccount.ncn_fee_wallet a));
      ("receiver_to_close", (CloseEpochAccount.receiver_to_close a))]
  | CDistributeOperatorRewards a _ => [("epoch_state", Some (DistributeOperatorRewards.epoch_state a));
      ("config", Some (DistributeOperatorRewards.config a));
      ("ncn", Some (DistributeOperatorRewards.ncn a));
      ("operator", Some (DistributeOperatorRewards.operator a));
      ("operator_snapshot", Some (DistributeOperatorRewards.operator_snapshot a));
      ("operator_vault_reward_router", Some (DistributeOperatorRewards.operator_vault_reward_router a));
      ("operator_vault_reward_receiver", Some (DistributeOperatorRewards.operator_vault_reward_receiver a));
      ("system_program", Some (DistributeOperatorRewards.system_program a))]
  | CDistributeVaultRewards a _ => [("epoch_state", Some (DistributeVaultRewards.epoch_state a));
      ("config", Some (DistributeVaultRewards.config a)); ("ncn", Some (DistributeVaultRewards.ncn a));
      ("operator", Some (DistributeVaultRewards.operator a));
      ("vault", Some (DistributeVaultRewards.vault a));
      ("operator_snapshot", Some (DistributeVaultRewards.operator_snapshot a));
      ("operator_vault_reward_router", Some (DistributeVaultRewards.operator_vault_reward_router a));
      ("operator_vault_reward_receiver", Some (DistributeVaultRewards.operator_vault_reward_receiver a));
      ("system_program", Some (DistributeVaultRewards.system_program a))]
  | CAdminSetParameters a _ _ _ _ => [("config", Some (AdminSetParameters.config a));
      ("ncn", Some (AdminSetParameters.ncn a)); ("ncn_admin", Some (AdminSetParameters.ncn_admin a))]
  | CAdminSetNewAdmin a _ => [("config", Some (AdminSetNewAdmin.config a));
      ("ncn", Some (AdminSetNewAdmin.ncn a)); ("ncn_admin", Some (AdminSetNewAdmin.ncn_admin a));
      ("new_admin", Some (AdminSetNewAdmin.new_admin a))]
  | CAdminSetTieBreaker a _ _ => [("epoch_state", Some (AdminSetTieBreaker.epoch_state a));
      ("config", Some (AdminSetTieBreaker.config a));
      ("ballot_box", Some (AdminSetTieBreaker.ballot_box a)); ("ncn", Some (AdminSetTieBreaker.ncn a));
      ("tie_breaker_admin", Some (AdminSetTieBreaker.tie_breaker_admin a))]
  | CAdminSetWeight a _ _ _ => [("epoch_state", Some (AdminSetWeight.epoch_state a));
      ("ncn", Some (AdminSetWeight.ncn a)); ("weight_table", Some (AdminSetWeight.weight_table a));
      ("weight_table_admin", Some (AdminSetWeight.weight_table_admin a))]
  | CAdminRegisterStMint a _ => [("config", Some (AdminRegisterStMint.config a));
      ("ncn", Some (AdminRegisterStMint.ncn a)); ("st_mint", Some (AdminRegisterStMint.st_mint a));
      ("vault_registry", Some (AdminRegisterStMint.vault_registry a));
      ("admin", Some (AdminRegisterStMint.admin a))]
  | CAdminSetStMint a _ _ => [("config", Some (AdminSetStMint.config a));
      ("ncn", Some (AdminSetStMint.ncn a)); ("vault_registry", Some (AdminSetStMint.vault_registry a));
      ("admin", Some (AdminSetStMint.admin a))]
  end%string.

Definition field (l : list (string * option Pubkey)) (n : string) : option Pubkey :=
  match List.find (fun f => String.eqb f.1 n) l with Some (_, k) => k | None => None end.

(** The account that an attribute announces, out of the client's record; an
    optional one that is not given is the program itself, read-only. *)
Definition announce (l : list (string * option Pubkey)) (a : annotation) : option Meta :=
  match field l (name a) with
  | Some k => Some (meta k (has signer a) (has writable a))
  | None => if has optional a then Some (new_readonly NCN_PROGRAM_ID false) else None
  end.

(** C18: the client passes what is announced. Every instruction the client can
    build has the announced accounts in their order, each at the address in the
    record's field of that name and with the announced flags; then the remaining
    accounts; and the variant's number as its discriminator. *)
Theorem client_passes_what_is_announced c remaining_accounts :
  exists ix discriminator named, instruction_of c remaining_accounts =
    Ncn NCN_PROGRAM_ID (named ++ remaining_accounts) discriminator ix /\
    discriminator = Sends.variant ix /\
    mapM (announce (fields c)) (announced ix) = Some named.
Proof.
  destruct c as [| | | | | | | | | | | | | | | | | | | | | |[? ? ? ? ? ? ? [] []] ?| | | | | | | |];
    do 3 eexists; (split; [reflexivity|split; reflexivity]).
Qed.

(** ** The program *)

Section spending.
Context {D : Type} (U : list Pubkey).

(** A run that goes through changes the lamports of no account outside [U]. *)
Definition spends {E A} (m : M (Store D) E A) : Prop :=
  forall s a s', m s = (Ok a, s') -> forall k, k ∉ U -> Account.lamports (s' k) = Account.lamports (s k).

Lemma spends_bind {E A B} (m : M (Store D) E A) (f : A -> M (Store D) E B) :
  spends m -> (forall a, spends (f a)) -> spends (mbind m f).
Proof. intros Hm Hf s b s' (a & s1 & H1 & H2)%mbind_ok k Hk. etrans; [by eapply Hf|by eapply Hm]. Qed.
Lemma spends_reads {E A} (m : M (Store D) E A) : reads m -> spends m.
Proof. intros Hm s a s' ->%Hm k _. done. Qed.
Lemma spends_gets {E A} (f : Store D -> A) : spends (gets f : M (Store D) E A).
Proof. by intros s a s' [= _ <-]. Qed.
Lemma spends_update {E} x f : x ∈ U \/ (forall a : Account.t D, Account.lamports (f a) = Account.lamports a) ->
  spends (modify (update x f) : M (Store D) E unit).
Proof.
  intros Hf s a s' [= _ <-] k Hk. destruct (decide (k = x)) as [->|Hx]; [|by rewrite update_other].
  rewrite update_same. destruct Hf as [Hf|Hf]; [done|apply Hf].
Qed.

Context {data : AccountData D} {bytes : AccountBytes D} {runtime : Runtime} {ext : Externals D}
  {system : System D} {l_system : SystemLaws D} {s_state : Stored D EpochState.t}.

Lemma spends_try_borrow held k : spends (try_borrow held k).
Proof. apply spends_reads. unfold try_borrow. destruct (any _ _); [apply reads_throw|apply reads_ret]. Qed.
Lemma spends_borrow held k : spends (borrow held k).
Proof. apply spends_reads. unfold borrow. destruct (any _ _); [apply reads_lift|apply reads_ret]. Qed.
Lemma spends_on_account {T E A} {st : Stored D T} {to : Into E} x (m : M T E A) : spends (on_account x m).
Proof.
  intros s a s' (t & t' & _ & _ & ->)%on_account_ok k _. unfold write, update.
  destruct (k =? x) eqn:E1; [|done]. by apply Z.eqb_eq in E1 as ->.
Qed.
Lemma spends_set_discriminator k d : spends (set_discriminator k d).
Proof.
  apply spends_bind; [apply spends_reads, reads_get_self|]. intros s.
  destruct (_ =? 0); [apply spends_reads, reads_lift|by apply spends_update; right].
Qed.
Lemma spends_realloc held k n : spends (realloc held k n).
Proof.
  apply spends_bind; [apply spends_try_borrow|]. intros _.
  apply spends_bind; [apply spends_reads, reads_peek|]. intros d. by apply spends_update; right.
Qed.
Lemma spends_load_and_check_is_closing program_id m ncn e w :
  spends (load_and_check_is_closing program_id m ncn e w).
Proof.
  apply spends_bind; [apply spends_reads, reads_read|]. intros st.
  apply spends_reads. destruct (EpochState.is_closing st); [apply reads_throw|apply reads_check].
Qed.
Lemma spends_transfer held from to n seeds : from ∈ U -> to ∈ U -> spends (invoke_transfer held from to n seeds).
Proof.
  intros Hf Ht s [] s' [_ ->]%transfer_moves k Hk. unfold moved. rewrite !update_other; [done|by intros ->..].
Qed.
Lemma spends_allocate held k n seeds : spends (invoke_allocate held k n seeds).
Proof. intros s [] s' (_ & _ & ->)%allocate_zeros. by eapply (spends_update (E := unit) k (set_data (zeros n))); [right|]. Qed.
Lemma spends_assign held k o seeds : spends (invoke_assign held k o seeds).
Proof. intros s [] s' (_ & ->)%assign_owner. by eapply (spends_update (E := unit) k (set_owner o)); [right|]. Qed.

(** The account that pays is the one at the derived address. *)
Lemma spends_payer_transfer held program_id ncn payer to n : payer ∈ U -> to ∈ U ->
  spends (Payer.transfer held program_id ncn payer to n).
Proof.
  intros Hp Ht. unfold Payer.transfer. destruct (AccountPayer.find_program_address _ _) as [[pda b] l].
  destruct (pda =? payer) eqn:E1; cbn [negb]; [|by apply spends_reads].
  apply Z.eqb_eq in E1 as ->. by apply spends_transfer.
Qed.
Lemma spends_create held program_id ncn payer k o n seeds : payer ∈ U -> k ∈ U ->
  spends (Payer.pay_and_create_account held program_id ncn payer k o n seeds).
Proof.
  intros Hp Hk. unfold Payer.pay_and_create_account.
  apply spends_bind; [apply spends_reads, reads_lift|]. intros rent.
  apply spends_bind; [apply spends_gets|]. intros x. cbv zeta.
  apply spends_bind; [destruct (0 <? _); [by apply spends_payer_transfer|apply spends_reads, reads_ret]|].
  intros _. apply spends_bind; [apply spends_allocate|]. intros _. apply spends_assign.
Qed.
Lemma spends_pay_and_realloc held program_id ncn payer k n : payer ∈ U -> k ∈ U ->
  spends (Payer.pay_and_realloc held program_id ncn payer k n).
Proof.
  intros Hp Hk. unfold Payer.pay_and_realloc.
  apply spends_bind; [apply spends_reads, reads_lift|]. intros rent.
  apply spends_bind; [apply spends_gets|]. intros x. cbv zeta.
  apply spends_bind; [destruct (0 <? _); [by apply spends_payer_transfer|apply spends_reads, reads_ret]|].
  intros _. apply spends_realloc.
Qed.
Lemma spends_ncn_close held program_id ncn e r w p : r ∈ U -> w ∈ U -> p ∈ U ->
  spends (NcnReceiver.close held program_id ncn e r w p).
Proof.
  intros Hr Hw Hp. unfold NcnReceiver.close, NcnReceiver.transfer.
  destruct (NCNRewardReceiver.find_program_address _ _ _) as [[pda b] l].
  apply spends_bind; [apply spends_reads, reads_lift|]. intros rent.
  apply spends_bind; [apply spends_gets|]. intros x. cbv zeta.
  destruct (pda =? r) eqn:E1; cbn [negb].
  - apply Z.eqb_eq in E1 as ->. apply spends_bind; [|intros _; by apply spends_transfer].
    destruct (0 <? _); [by apply spends_transfer|apply spends_reads, reads_ret].
  - apply spends_bind; [|intros _; by apply spends_reads].
    destruct (0 <? _); [by apply spends_reads|apply spends_reads, reads_ret].
Qed.
Lemma spends_operator_close held program_id o ncn e r w p : r ∈ U -> w ∈ U -> p ∈ U ->
  spends (OperatorReceiver.close held program_id o ncn e r w p).
Proof.
  intros Hr Hw Hp. unfold OperatorReceiver.close, OperatorReceiver.transfer.
  destruct (OperatorVaultRewardReceiver.find_program_address _ _ _ _) as [[pda b] l].
  apply spends_bind; [apply spends_reads, reads_lift|]. intros rent.
  apply spends_bind; [apply spends_gets|]. intros x. cbv zeta.
  destruct (pda =? r) eqn:E1; cbn [negb].
  - apply Z.eqb_eq in E1 as ->. apply spends_bind; [|intros _; by apply spends_transfer].
    destruct (0 <? _); [by apply spends_transfer|apply spends_reads, reads_ret].
  - apply spends_bind; [|intros _; by apply spends_reads].
    destruct (0 <? _); [by apply spends_reads|apply spends_reads, reads_ret].
Qed.
Lemma spends_update_state k f : spends (update_state k f).
Proof. apply spends_on_account. Qed.
Lemma spends_close_account program_id payer k : payer ∈ U -> k ∈ U -> spends (Payer.close_account program_id payer k).
Proof.
  intros Hp Hk. unfold Payer.close_account. apply spends_bind; [apply spends_reads, reads_get_self|]. intros s.
  destruct (negb _); [apply spends_reads, reads_throw|].
  apply spends_bind; [apply spends_reads, reads_lift|]. intros n.
  do 3 (apply spends_bind; [by apply spends_update; left|]; intros _). apply spends_realloc.
Qed.
End spending.

(** The accounts announced as writable. *)
Fixpoint granted (l : list annotation) (accounts : list Meta) : list Pubkey :=
  match l, accounts with
  | a :: l, m :: accounts => if has writable a then key m :: granted l accounts else granted l accounts
  | _, _ => []
  end.

(** [spending]: the rules, the tests and the matches of the code. *)
Ltac side := first [assumption | exact _ | solve [cbn; in_list]].
Ltac spending :=
  repeat (cbv beta zeta iota;
    lazymatch goal with
    | |- forall _, _ => intros
    | |- spends _ (Payer.transfer _ _ _ _ _ _) => eapply spends_payer_transfer; side
    | |- spends _ (Payer.pay_and_create_account _ _ _ _ _ _ _ _) =>
        eapply spends_create; side
    | |- spends _ (Payer.pay_and_realloc _ _ _ _ _ _) => eapply spends_pay_and_realloc; side
    | |- spends _ (NcnReceiver.close _ _ _ _ _ _ _) => eapply spends_ncn_close; side
    | |- spends _ (OperatorReceiver.close _ _ _ _ _ _ _ _) =>
        eapply spends_operator_close; side
    | |- spends _ (Payer.close_account _ _ _) => eapply spends_close_account; side
    | |- spends _ (invoke_transfer _ _ _ _ _) => eapply spends_transfer; side
    | |- spends _ (on_account _ _) => apply spends_on_account
    | |- spends _ (update_state _ _) => apply spends_update_state
    | |- spends _ (set_discriminator _ _) => apply spends_set_discriminator
    | |- spends _ (load_and_check_is_closing _ _ _ _ _) => apply spends_load_and_check_is_closing
    | |- spends _ (try_borrow _ _) => apply spends_try_borrow
    | |- spends _ (borrow _ _) => apply spends_borrow
    | |- spends _ (gets _) => apply spends_gets
    | |- spends _ (lamports_of _) => apply spends_gets
    | |- spends _ (data_len_of _) => apply spends_gets
    | |- spends _ (mbind _ _) => apply spends_bind
    | |- spends _ (match ?x with _ => _ end) => destruct x
    | |- spends _ _ => solve [apply spends_reads; eauto 2 with frame nocore | eauto with nocore spend]
    end).
Create HintDb spend.

Section instructions.
Context {D : Type} {data : AccountData D} {bytes : AccountBytes D} {runtime : Runtime}
  {ext : Externals D} {system : System D} {P : PreciseNumber}.
Context {s_config : Stored D Config.t} {s_registry : Stored D VaultRegistry.t}
  {s_table : Stored D WeightTable.t} {s_epoch : Stored D EpochSnapshot.t}
  {s_operator : Stored D OperatorSnapshot.t} {s_box : Stored D BallotBox.t}
  {s_result : Stored D ConsensusResult.t} {s_router : Stored D NCNRewardRouter.t}
  {s_op_router : Stored D OperatorVaultRewardRouter.t} {s_marker : Stored D EpochMarker.t}
  {s_state : Stored D EpochState.t} {l_system : SystemLaws D}.
Context (program_id : Pubkey).

Lemma spends_set_weights U table l : spends U (set_weights table l).
Proof.
  induction l as [|m l IH]; cbn [set_weights]; [by apply spends_reads, reads_ret|].
  destruct (_ =? 0); [by apply spends_reads|].
  apply spends_bind; [apply spends_reads, reads_lift|]. intros c.
  apply spends_bind; [apply spends_on_account|done].
Qed.

#[local] Hint Resolve spends_set_weights : spend.

Lemma spends_dispatch {A E B} U (x : A) (f : A -> M (Store D) E B) :
  spends U (f x) -> spends U (mbind (lift (Ok x)) f).
Proof. intros Hf s b s'. rewrite run_lift_Ok. apply Hf. Qed.

Lemma handler_spends ix accounts :
  spends (granted (announced ix) accounts) (process_instruction program_id accounts (Ok ix)).
Proof.
  unfold process_instruction. destruct (negb _); [by apply spends_reads|].
  apply spends_dispatch. destruct ix.
  - unfold process_admin_initialize_config. spending.
  - unfold process_initialize_vault_registry. spending.
  - unfold process_realloc_vault_registry. spending.
  - unfold process_register_vault. spending.
  - unfold process_initialize_epoch_state. spending.
  - unfold process_initialize_weight_table. spending.
  - unfold process_realloc_weight_table. spending.
  - unfold process_set_epoch_weights. spending.
  - unfold process_initialize_epoch_snapshot. spending.
  - unfold process_initialize_operator_snapshot, take_operator_snapshot, ncn_epoch_length_of, operator_is_active.
    spending.
  - unfold process_snapshot_vault_operator_delegation.
    destruct (next_delegation_accounts accounts) as [a|]; [|by apply spends_reads].
    unfold load_delegation_accounts, load_snapshot_accounts, delegation_is_active, delegation_stake_weight,
      record_delegation, ncn_epoch_length_of. spending.
  - unfold process_initialize_ballot_box. spending.
  - unfold process_realloc_ballot_box. spending.
  - unfold process_cast_vote.
    destruct (next_vote_accounts accounts) as [a|]; [|by apply spends_reads].
    unfold load_vote_accounts, publish_vote. spending.
  - unfold process_close_epoch_account. do 7 (destruct accounts as [|? accounts]; [by apply spends_reads|]).
    cbn [split_close_accounts].
    unfold load_close_accounts, mark_closed, mark_epoch_state, mark_operator_snapshot, mark_ncn_reward_router,
      mark_operator_vault_reward_router, create_epoch_marker.
    cbn [CloseHandlers.optional_accounts CloseHandlers.account_payer CloseHandlers.epoch_marker
      CloseHandlers.account_to_close CloseHandlers.epoch_state CloseHandlers.config CloseHandlers.ncn].
    spending.
  - unfold process_admin_set_parameters. spending.
  - unfold process_admin_set_new_admin. spending.
  - unfold process_admin_set_tie_breaker. spending.
  - unfold process_admin_set_weight. spending.
  - unfold process_admin_register_st_mint. spending.
  - unfold process_admin_set_st_mint. spending.
  - unfold process_initialize_ncn_reward_router. spending.
  - unfold process_realloc_ncn_reward_router. spending.
  - unfold RewardHandlers.process_route_ncn_rewards. spending.
  - unfold process_distribute_protocol_rewards, take_rewards. spending.
  - unfold process_distribute_ncn_rewards, take_rewards. spending.
  - unfold process_initialize_operator_vault_reward_router. spending.
  - unfold process_distribute_operator_vault_reward_route, take_rewards. spending.
  - unfold RewardHandlers.process_route_operator_vault_rewards. spending.
  - unfold process_distribute_operator_rewards, take_rewards. spending.
  - unfold process_distribute_vault_rewards, take_rewards. spending.
Qed.

End instructions.

(** Every position that is written is announced as writable. *)
Fixpoint covered (l : list position) (l' : list annotation) : bool :=
  match l, l' with
  | p :: l, a :: l' => implb (is_written p) (has writable a) && covered l l'
  | [], _ => true
  | _, [] => false
  end.

Lemma layout_covered n o ix : covered (layout n o ix) (announced ix) = true.
Proof. by destruct ix. Qed.

Lemma written_granted l l' accounts k : covered l l' = true -> k ∈ written l accounts -> k ∈ granted l' accounts.
Proof.
  revert l' accounts. induction l as [|p l IH]; intros [|a l'] [|m accounts]; try done; cbn;
    try by intros _ ?%elem_of_nil.
  intros [Hp Hl]%andb_prop. destruct (is_written p), (has writable a); try done; cbn; rewrite ?elem_of_cons; naive_solver.
Qed.

Section program.
Context {D : Type} {data : AccountData D} {bytes : AccountBytes D} {runtime : Runtime}
  {ext : Externals D} {system : System D} {P : PreciseNumber}.
Context {s_config : Stored D Config.t} {s_registry : Stored D VaultRegistry.t}
  {s_table : Stored D WeightTable.t} {s_epoch : Stored D EpochSnapshot.t}
  {s_operator : Stored D OperatorSnapshot.t} {s_box : Stored D BallotBox.t}
  {s_result : Stored D ConsensusResult.t} {s_router : Stored D NCNRewardRouter.t}
  {s_op_router : Stored D OperatorVaultRewardRouter.t} {s_marker : Stored D EpochMarker.t}
  {s_state : Stored D EpochState.t} {l_system : SystemLaws D}.

(** C17: nothing changes that was not announced. An instruction that goes through
    leaves every account that is not among those announced as writable exactly
    as it was: its owner, its lamports and its data. So no instruction of the
    client fails because the program writes an account that was passed to be
    read. *)
Theorem only_announced_accounts_change ix accounts (s s' : Store D) k :
  process_instruction id accounts (Ok ix) s = (Ok tt, s') ->
  k ∈ granted (announced ix) accounts \/ s' k = s k.
Proof.
  intros H. destruct (decide (k ∈ granted (announced ix) accounts)) as [|Hk]; [by left|right].
  pose proof (handler_spends id ix accounts _ _ _ H k Hk) as Hl.
  apply instruction_accepted in H as (n & o & _ & Hw).
  destruct (Hw k) as [Hin|[Ho Hd]].
  - destruct Hk. eapply written_granted; [apply layout_covered|exact Hin].
  - destruct (s' k), (s k). cbn in *. by subst.
Qed.
End program.
