(* ===== verification/Cranks.v ===== *)
(** What the keeper sends: every instruction but a few closings, whatever it
    reads; so the epochs it works on are never completed. *)
From stdpp Require Import relations strings.
From S2P Require Import Prelude Errors Precise Stake Registry Weights Fees Snapshots Voting EpochStates.
From S2P Require Import NcnRouter OperatorRouter Consensus Accounts Machine Lamports Frames VoteHandlers.
From S2P Require Import AdminHandlers SnapshotHandlers RewardHandlers CloseHandlers Program Authority Chain Elections.
From S2P Require Import Frozen Lingering Interface Client Getters Commands Tickets Metrics Keeper Handler Sends.

(** ** The instructions of the client *)

Definition is_close (ix : Instruction) : bool :=
  match ix with Ncn _ _ _ (NCNProgramInstruction.CloseEpochAccount _) => true | _ => false end.

Definition is_foreign (ix : Instruction) : bool := match ix with Ncn _ _ _ _ => false | _ => true end.

(** The client's side of the vault program builds no instruction of this one. *)
Class PartnersLaws {D : Type} (partners : Partners D) : Prop := {
  initialize_tracker_foreign v t p c : is_foreign (InitializeVaultUpdateStateTracker v t p c) = true;
  crank_tracker_foreign v o c d t : is_foreign (CrankVaultUpdateStateTracker v o c d t) = true;
  close_tracker_foreign v t p c e : is_foreign (CloseVaultUpdateStateTracker v t p c e) = true;
}.

Create HintDb sends.
Section cranks.
Context {D W : Type} {data : AccountData D} {bytes : AccountBytes D} {runtime : Runtime}
  {at_clock : Clock -> Externals D} {system : System D} {P : PreciseNumber}.
Context {s_config : Stored D Config.t} {s_registry : Stored D VaultRegistry.t}
  {s_table : Stored D WeightTable.t} {s_epoch : Stored D EpochSnapshot.t}
  {s_operator : Stored D OperatorSnapshot.t} {s_box : Stored D BallotBox.t}
  {s_result : Stored D ConsensusResult.t} {s_router : Stored D NCNRewardRouter.t}
  {s_op_router : Stored D OperatorVaultRewardRouter.t} {s_marker : Stored D EpochMarker.t}
  {s_state : Stored D EpochState.t}.
Context {rpc : Rpc D W} {partners : Partners D} {p_laws : PartnersLaws partners}.
Context (others : Store D -> Store D -> Prop) (ledger : W -> Store D)
  {node : NodeLaws (at_clock := at_clock) others ledger}.
Import CliHandler.

(** An instruction as the program expects it: to the program, with the number
    of its variant, its accounts where they belong, and those the program
    changes marked as writable. *)
Definition fits (ix : Instruction) : Prop :=
  match ix with
  | Ncn program_id accounts discriminator args =>
      program_id = id /\ discriminator = variant args
      /\ exists n o, laid_out id n o (layout n o args) accounts
           /\ Forall2 (fun p m => is_written p = true -> is_writable m = true) (layout n o args)
                (take (List.length (layout n o args)) accounts)
  | _ => True
  end.

(** The accounts the keeper closes, of an epoch of an NCN. *)
Definition closed_by_keeper (n : Pubkey) (e : u64) (a : address) : Prop :=
  a = ABallotBox n e \/ a = AEpochSnapshot n e \/ a = AWeightTable n e \/ a = AEpochState n e
  \/ exists o, a = AOperatorSnapshot o n e.
Definition close_of (n : Pubkey) (e : u64) (a : address) : Instruction :=
  CloseEpochAccount.instruction
    (CloseEpochAccount.mk (address_of id (AEpochMarker n e)) (address_of id (AEpochState n e))
       (address_of id (AConfig n)) n (address_of id a) (address_of id (AAccountPayer n)) system_program_id None None) e.
Inductive issued : Instruction -> Prop :=
| issued_other ix : is_close ix = false -> fits ix -> issued ix
| issued_close n e a : closed_by_keeper n e a -> issued (close_of n e a).

Lemma issued_foreign ix : is_foreign ix = true -> issued ix.
Proof. destruct ix; try discriminate; intros _; by apply issued_other. Qed.

Context (handler : CliHandler.t) (deployed : ncn_program_id handler = id).
Abbreviation issues := (sends (at_clock := at_clock) others ledger (fun w : W => w) issued).

#[local] Hint Resolve sends_ret sends_throw sends_lift sends_gets : sends.
#[local] Hint Extern 1 (sends _ _ _ _ _) =>
  first [ refine (reads_account _ _ _ _) | refine (reads_epoch_info _ _ _)
        | refine (reads_slot _ _ _) | refine (reads_schedule _ _ _)
        | refine (reads_rent _ _ _ _) | refine (reads_accounts _ _ _ _ _)
        | refine (reads_blockhash _ _ _) | refine (reads_weather _ _ _ _ _) ] : sends.

Lemma issues_send keypair l signers retries : Forall issued l ->
  issues (send_retries (D := D) keypair l signers retries).
Proof.
  intros Hl. induction retries as [|n IH]; cbn [send_retries]; [eauto with sends|].
  apply sends_bind; [eauto with sends|]. intros b. cbv zeta. apply sends_bind.
  - by apply sends_attempt, (sends_with_config _ _).
  - intros []; [eauto with sends|exact IH..].
Qed.

Lemma issues_transaction l signers : Forall issued l ->
  issues (send_and_log_transaction (D := D) handler l signers).
Proof.
  intros Hl. unfold send_and_log_transaction, send_transactions.
  apply sends_bind; [eauto with sends|]. intros k. cbv zeta. apply sends_bind.
  - apply issues_send. constructor; [|exact Hl]. by apply issued_foreign.
  - intros []; [eauto with sends|]. apply sends_bind; [eauto with sends|]. intros b.
    by apply (sends_transaction _ _).
Qed.

Lemma issued_repeated n ix : issued ix -> Forall issued (repeated n ix).
Proof.
  intros Hix. constructor; [by apply issued_foreign|]. induction (Z.to_nat n); constructor; [exact Hix|done].
Qed.

Lemma derived seeds program_id k b (l : list (list u8)) :
  (let '(p, b) := find_pda seeds program_id in (p, b, seeds)) = (k, b, l) -> k = (find_pda seeds program_id).1.
Proof. destruct (find_pda _ _). by intros [= -> _ _]. Qed.

(** The accounts one by one, with the addresses as they were derived. *)
Ltac each_position :=
  repeat apply Forall2_cons_2; try apply Forall2_nil_2; cbn; rewrite ?deployed; first [exact I|reflexivity|discriminate].
Ltac fitting :=
  split; [reflexivity|]; split; [reflexivity|];
  first [ eexists _, 0; split; solve [each_position] | eexists _, _; split; solve [each_position] ].
Ltac each_issued :=
  first [ apply issued_foreign; first
            [ reflexivity | apply initialize_tracker_foreign | apply crank_tracker_foreign
            | apply close_tracker_foreign ]
        | apply issued_other; [reflexivity|fitting] ].
Ltac each_sent :=
  first [ apply issued_repeated; each_issued
        | repeat first [ apply Forall_nil_2 | apply Forall_cons_2; [solve [each_issued]|] ] ].
(** [issuing]: through the client's code, into the functions it calls. *)
Ltac issuing :=
  repeat first
    [ progress intros
    | solve [eauto 1 with sends nocore]
    | apply issues_transaction; solve [each_sent]
    | apply sends_bind
    | apply sends_attempt
    | apply sends_for_all
    | progress cbv beta zeta iota
    | match goal with
      | |- sends _ _ _ _ (match ?x with _ => _ end) =>
          lazymatch type of x with
          | (_ * _ * list (list _))%type =>
              let H := fresh in destruct x as [[? ?] ?] eqn:H; apply derived in H; subst
          | _ => destruct x
          end
      | |- sends _ _ _ _ (if ?b then _ else _) => destruct b
      end
    | match goal with
      | |- sends _ _ _ _ ?m =>
          let rec head t := lazymatch t with ?f _ => head f | _ => t end in
          let h := head m in is_const h; unfold h
      end ].

Lemma issues_register_vaults : issues (crank_register_vaults handler).
Proof. issuing. Qed.
Lemma issues_create_epoch_state e : issues (create_epoch_state handler e).
Proof. issuing. Qed.
Lemma issues_set_weight e : issues (crank_set_weight handler e).
Proof. issuing. Qed.
Lemma issues_vault_update vault : issues (full_vault_update handler vault).
Proof. issuing. Qed.
#[local] Hint Resolve issues_vault_update : sends.
Lemma issues_snapshot e : issues (crank_snapshot handler e).
Proof. issuing. Qed.
Lemma issues_post_vote_cooldown e : issues (crank_post_vote_cooldown handler e).
Proof. issuing. Qed.

Lemma issues_routing round fuel : issues round -> issues (while_routing round fuel).
Proof.
  intros Hr. induction fuel as [|fuel IH]; cbn [while_routing]; [eauto with sends|].
  apply sends_bind; [exact Hr|]. intros []; [exact IH|eauto with sends].
Qed.
Lemma issues_route_ncn fuel e : issues (route_ncn_rewards fuel handler e).
Proof. apply issues_routing. issuing. Qed.
Lemma issues_route_operator fuel o e : issues (route_operator_vault_rewards fuel handler o e).
Proof. apply issues_routing. issuing. Qed.
#[local] Hint Resolve issues_route_ncn issues_route_operator : sends.
Lemma issues_operator_rewards rewards e l : issues (add_operator_rewards handler e l rewards).
Proof. revert rewards. induction l as [|o l IH]; intros rewards; cbn [add_operator_rewards]; issuing; apply IH. Qed.
Lemma issues_total_rewards e : issues (get_total_rewards_to_be_distributed handler e).
Proof. pose proof issues_operator_rewards. issuing. Qed.
Lemma issues_distribute fuel e : issues (crank_distribute fuel handler e).
Proof. issuing. Qed.

(** ** Closing *)

Lemma issues_close n e a : closed_by_keeper n e a -> issues (close_epoch_account handler n e (address_of id a)).
Proof.
  intros Ha. unfold close_epoch_account. rewrite deployed.
  repeat match goal with
  | |- sends _ _ _ _ (match ?x with _ => _ end) =>
      let H := fresh in destruct x as [[? ?] ?] eqn:H; apply derived in H; subst
  end.
  apply sends_bind; [issuing|]. intros account. cbv zeta.
  match goal with |- sends _ _ _ _ (if ?b then _ else _) => destruct b end; [issuing|].
  apply issues_transaction. constructor; [|constructor]. exact (issued_close n e a Ha).
Qed.

Lemma issues_crank_close e : issues (crank_close_epoch_accounts handler e).
Proof.
  unfold crank_close_epoch_accounts. rewrite deployed. apply sends_bind; [issuing|]. intros n.
  apply sends_bind; [issuing|]. intros operators.
  assert (forall a, closed_by_keeper n e a -> issues (logged (close_epoch_account handler n e (address_of id a))))
    as Hclose.
  { intros a Ha. apply sends_bind; [|issuing]. apply sends_attempt. by apply issues_close. }
  repeat first
    [ match goal with |- sends _ _ _ _ (match ?x with _ => _ end) =>
        let H := fresh in destruct x as [[? ?] ?] eqn:H; apply derived in H; subst end
    | solve [apply (Hclose (ABallotBox n e)); by left]
    | solve [apply (Hclose (AOperatorSnapshot _ n e)); unfold closed_by_keeper; eauto 8]
    | solve [apply (Hclose (AEpochSnapshot n e)); by right; left]
    | solve [apply (Hclose (AWeightTable n e)); by right; right; left]
    | solve [apply (Hclose (AEpochState n e)); by right; right; right; left]
    | apply sends_for_all; intros o
    | apply sends_bind; [|intros _] ].
Qed.

(** ** A round of the keeper *)

#[local] Hint Resolve issues_register_vaults issues_create_epoch_state issues_set_weight issues_snapshot
  issues_post_vote_cooldown issues_distribute issues_crank_close issues_total_rewards : sends.

(** A piece of the client that only reads and reports. *)
Context {tickets : Tickets D} {telemetry : Telemetry W}
  (reports : forall name fields w, ledger (datapoint_info name fields w) = ledger w).
Abbreviation silent := (sends (at_clock := at_clock) others ledger (fun w : W => w) (fun _ => False)).
Lemma silent_issues {A} (m : M W CliError.t A) : silent m -> issues m.
Proof. by apply sends_mono. Qed.
Lemma sends_point allowed name fields :
  sends (at_clock := at_clock) others ledger (fun w : W => w) allowed (point name fields).
Proof. intros w r w' [= _ <-]. rewrite reports. apply rtc_refl. Qed.
#[local] Hint Resolve sends_point : sends.
Lemma silent_collect {A B} (body : A -> M W CliError.t B) l : (forall a, silent (body a)) -> silent (collect body l).
Proof.
  intros Hb. induction l as [|a l IH]; cbn [collect]; [eauto with sends|]. apply sends_bind; [apply Hb|]. intros b.
  apply sends_bind; [exact IH|]. eauto with sends.
Qed.
Lemma silent_tickets : silent (get_all_tickets handler).
Proof. issuing. apply silent_collect. intros [operator vault]. issuing. Qed.
#[local] Hint Resolve silent_tickets : sends.
Lemma silent_ncn_metrics b : silent (emit_ncn_metrics handler b).
Proof. issuing. Qed.
Lemma silent_epoch_metrics e : silent (emit_epoch_metrics handler e).
Proof. issuing. Qed.
Lemma silent_vote_metrics v e o : silent (emit_ncn_metrics_operator_vote handler v e o).
Proof. issuing. Qed.
Lemma silent_post_vote_metrics e o : silent (emit_ncn_metrics_operator_post_vote handler e o).
Proof. issuing. Qed.
#[local] Hint Extern 2 (sends _ _ _ issued _) =>
  apply silent_issues; solve [ apply silent_ncn_metrics | apply silent_epoch_metrics
                             | apply silent_vote_metrics | apply silent_post_vote_metrics ] : sends.
Context (fuel : nat).

Lemma issues_crank st e : issues (Keeper.crank fuel handler st e).
Proof. destruct st; cbn [Keeper.crank]; eauto with sends. Qed.
Lemma issues_epoch_and_slot n : issues (get_epoch_and_slot handler n).
Proof. induction n as [|n IH]; cbn [get_epoch_and_slot]; issuing. Qed.
#[local] Hint Resolve issues_crank issues_epoch_and_slot : sends.

Abbreviation round_issues world := (sends (at_clock := at_clock) others ledger world issued).

Lemma state_outside {A} (m : M W CliError.t A) : issues m -> round_issues snd (KeeperState.outside m).
Proof. by apply sends_zoom. Qed.
Lemma loop_outside {A} (m : M W CliError.t A) : issues m -> round_issues snd (Keeper.outside m).
Proof. by apply sends_zoom. Qed.
Lemma state_assigns f : round_issues snd (KeeperState.assign (W := W) f).
Proof. by apply sends_modify. Qed.
Lemma loop_assigns f : round_issues snd (Keeper.assign (W := W) f).
Proof. by apply sends_modify. Qed.
Lemma loop_on_state {A} (m : M (KeeperState.t * W) CliError.t A) :
  round_issues snd m -> round_issues snd (Keeper.on_state m).
Proof. by apply sends_zoom. Qed.
#[local] Hint Resolve state_assigns loop_assigns : sends.
#[local] Hint Extern 1 (sends _ _ snd _ _) =>
  first [ apply state_outside | apply loop_outside ]; solve [eauto 1 with sends nocore|issuing] : sends.
#[local] Hint Extern 1 (sends _ _ snd _ (Keeper.on_state _)) => apply loop_on_state; solve [issuing] : sends.

Lemma issues_round : round_issues snd (Keeper.round fuel emit_ncn_metrics emit_epoch_metrics handler).
Proof. issuing. Qed.

(** ** The operator's loop, and the administrator *)

Abbreviation operator_round := (Keeper.operator_round emit_ncn_metrics_operator_vote emit_ncn_metrics_operator_post_vote handler).
Lemma issues_operator_round o : round_issues snd (operator_round o).
Proof. issuing. Qed.

Lemma issued_fits ix : issued ix -> fits ix.
Proof.
  intros [ix' _ H|n e a Ha]; [exact H|]. split; [reflexivity|]. split; [reflexivity|].
  exists n, 0. split; each_position.
Qed.

Definition only_fitting {S E A} (world : S -> W) (m : M S E A) : Prop :=
  sends (at_clock := at_clock) others ledger world fits m.

(** ** Every command *)

Context {libraries : Libraries W} (reads_keypair : forall allowed path,
  sends (at_clock := at_clock) others ledger (fun w : W => w) allowed (read_keypair_file path)).

Import ProgramCommand.

(** The commands that only display. *)
Definition displays (c : ProgramCommand.t W) : bool :=
  match c with
  | GetNcn | GetNcnOperatorState _ | GetVaultNcnTicket _ | GetNcnVaultTicket _
  | GetVaultOperatorDelegation _ _ | GetAllTickets | GetAllOperatorsInNcn | GetAllVaultsInNcn
  | GetNCNProgramConfig | GetVaultRegistry | GetWeightTable | GetEpochState | GetEpochSnapshot
  | GetOperatorSnapshot _ | GetBallotBox | GetAccountPayer | GetTotalEpochRentCost | GetConsensusResult
  | GetOperatorStakes | GetVaultStakes | GetVaultOperatorStakes | GetNCNRewardRouter
  | GetNCNRewardReceiverAddress | GetOperatorVaultRewardRouter _ | GetAllOperatorVaultRewardRouters => true
  | _ => false
  end.

Lemma silent_snapshots e l : silent (operator_snapshots handler e l).
Proof. induction l as [|o l IH]; cbn [operator_snapshots]; issuing; exact IH. Qed.
#[local] Hint Resolve silent_snapshots : sends.
Lemma silent_displays c : displays c = true -> silent (handle fuel handler c).
Proof. destruct c; try discriminate; intros _; cbn [handle]; issuing. Qed.

Lemma sends_forever {S} (world : S -> W) allowed (m : M S CliError.t unit) n :
  sends (at_clock := at_clock) others ledger world allowed m ->
  sends (at_clock := at_clock) others ledger world allowed (forever m n).
Proof. intros Hm. induction n as [|n IH]; [apply sends_lift|]. apply sends_bind; [done|by intros _]. Qed.
Lemma issues_keeper : issues (startup_ncn_keeper fuel handler).
Proof. eapply sends_zoom; [..|apply sends_forever, issues_round]; done. Qed.
Lemma issues_operator o : issues (startup_operator_loop fuel handler o).
Proof. eapply sends_zoom; [..|apply sends_forever, (issues_operator_round o)]; done. Qed.
#[local] Hint Resolve issues_keeper issues_operator : sends.
Lemma issues_handle c : issues (handle fuel handler c).
Proof.
  destruct (displays c) eqn:Hc; [by apply silent_issues, silent_displays|].
  destruct c; try discriminate Hc; cbn [handle]; issuing.
Qed.

(** ** No epoch is completed *)

Context {l_system : SystemLaws D} {l_ext : forall c, ExternalsLaws D (ext := at_clock c)}
  {l_bytes : AccountBytesLaws D} {l_state : StoredLaws D EpochState.t}.
Context (collision_free : forall l l', (find_pda l id).1 = (find_pda l' id).1 -> concat l = concat l').
Context (not_system : id <> system_program_id).

(** The keeper closes tidily: never a router, and the state only as itself. *)
Lemma keeper_is_tidy n e n' e' a c args accounts : closed_by_keeper n' e' a ->
  Ncn id accounts (variant args) args = close_of n' e' a -> split_close_accounts accounts = Some c -> tidy n e c.
Proof.
  intros Ha [= -> _ _] [= <-]. split; cbn.
  - intros _ n1 e1. destruct Ha as [->|[->|[->|[->|[o ->]]]]]; by apply (addresses_apart collision_free).
  - destruct Ha as [->|[->|[->|[->|[o ->]]]]]; try done; intros Hk; exfalso; revert Hk;
      by apply (addresses_apart collision_free).
Qed.

Lemma executed_tidily n e ix s s' : issued ix -> executes (at_clock := at_clock) ix s s' ->
  tidy_step (at_clock := at_clock) n e s s'.
Proof.
  intros Hi Hx. destruct Hx as [clock accounts args s s' H|ix s s' _ Hsame]; [|by apply tidy_outside].
  eapply tidy_instruction; [|exact H]. intros e' c -> Hc.
  match type of Hi with issued ?ix => remember ix as sent eqn:Hsent end.
  destruct Hi as [sent Hn _|n' e1 a Ha]; [by subst; discriminate Hn|].
  eapply keeper_is_tidy; [exact Ha|symmetry; exact Hsent|exact Hc].
Qed.

(** C10: the keeper completes no epoch. Whatever the node answers, after any
    number of rounds, the state of an epoch whose reward router nobody else
    closes is still there, with the router counted as open: the keeper closes
    every other account of the epoch but never its routers, without which the
    program refuses to close the state and to write the marker that the keeper
    waits for. *)
Theorem keeper_completes_no_epoch n e k s r s' :
  (forall t t', others t t' -> tidy_step (at_clock := at_clock) n e t t') ->
  Keeper.rounds (Keeper.round fuel emit_ncn_metrics emit_epoch_metrics handler) k s = (r, s') ->
  lingers (ledger s.2 (address_of id (AEpochState n e))) ->
  lingers (ledger s'.2 (address_of id (AEpochState n e)))
  /\ forall clock accounts e' a t, split_close_accounts accounts = Some a ->
       key (account_to_close a) = key (CloseHandlers.epoch_state a) ->
       key (CloseHandlers.epoch_state a) = address_of id (AEpochState n e) ->
       process_close_epoch_account (ext := at_clock clock) id accounts e' (ledger s'.2) <> (Ok tt, t).
Proof.
  intros Hothers Hrun Hl. assert (rtc (tidy_step (at_clock := at_clock) n e) (ledger s.2) (ledger s'.2)) as Hr.
  { pose proof (sends_rounds others ledger snd issued _ k issues_round _ _ _ Hrun) as Hm.
    revert Hm. apply rtc_subrel. intros t t' [Ho|(ix & Hi & Hx)]; [by apply Hothers|].
    by eapply executed_tidily. }
  split; [by eapply tidy_life|]. intros clock accounts e' a t Ha Hk Hst.
  eapply open_state_refused; [..|exact Ha|exact Hk|exact Hst]; [done..|by eapply tidy_life].
Qed.
End cranks.

(** ** The command line *)

Section command_line.
Context {D W : Type} {data : AccountData D} {bytes : AccountBytes D} {runtime : Runtime}
  {at_clock : Clock -> Externals D} {system : System D} {P : PreciseNumber}.
Context {s_config : Stored D Config.t} {s_registry : Stored D VaultRegistry.t}
  {s_table : Stored D WeightTable.t} {s_epoch : Stored D EpochSnapshot.t}
  {s_operator : Stored D OperatorSnapshot.t} {s_box : Stored D BallotBox.t}
  {s_result : Stored D ConsensusResult.t} {s_router : Stored D NCNRewardRouter.t}
  {s_op_router : Stored D OperatorVaultRewardRouter.t} {s_marker : Stored D EpochMarker.t}
  {s_state : Stored D EpochState.t}.
Context {rpc : Rpc D W} {partners : Partners D} {p_laws : PartnersLaws partners} {tickets : Tickets D}
  {telemetry : Telemetry W} {libraries : Libraries W}.
Context (others : Store D -> Store D -> Prop) (ledger : W -> Store D)
  {node : NodeLaws (at_clock := at_clock) others ledger}.
Context (reports : forall name fields w, ledger (datapoint_info name fields w) = ledger w)
  (reads_keypair : forall allowed path,
     sends (at_clock := at_clock) others ledger (fun w : W => w) allowed (read_keypair_file path)).
Abbreviation sending := (sends (at_clock := at_clock) others ledger (fun w : W => w)).

Lemma sends_bind_result {A B} allowed (m : M W CliError.t A) (f : A -> M W CliError.t B) :
  sending allowed m -> (forall w a w', m w = (Ok a, w') -> sending allowed (f a)) -> sending allowed (mbind m f).
Proof.
  intros Hm Hf s r s' H. unfold mbind in H. destruct (m s) as [[a|e|] s1] eqn:E1.
  - etrans; [by eapply Hm|by eapply Hf].
  - injection H as _ <-. by eapply Hm.
  - injection H as _ <-. by eapply Hm.
Qed.

Lemma sends_from_args allowed args : sending allowed (from_args args).
Proof.
  unfold from_args.
  repeat first
    [ apply sends_bind; [|intros ?] | apply sends_lift | apply sends_ret | apply reads_keypair
    | refine (reads_epoch_info _ _ _)
    | match goal with |- sends _ _ _ _ (match ?x with _ => _ end) => destruct x end ].
Qed.
Lemma from_args_program args w handler w' : from_args args w = (Ok handler, w') ->
  Pubkey_from_str (Args.ncn_program_id args) = Ok (CliHandler.ncn_program_id handler).
Proof.
  unfold from_args. intros H. repeat (apply mbind_ok in H as (? & ? & ? & H)).
  injection H as <- _. cbn [CliHandler.ncn_program_id].
  match goal with Hx : lift (Pubkey_from_str (Args.ncn_program_id args)) _ = _ |- _ => by injection Hx as -> _ end.
Qed.

(** C15: the client sends what the program expects. Whatever the node answers, and
    whichever command it is called with, the client moves the ledger only by
    instructions of the program that have the number of their variant, every
    account at the position and the address where the program looks for it, and
    the accounts the program changes marked as writable; and the commands that
    display something do not move it at all. *)
Theorem client_fits_the_program fuel args command :
  Pubkey_from_str (Args.ncn_program_id args) = Ok id ->
  sending fits (main fuel args command)
  /\ (displays command = true -> sending (fun _ => False) (main fuel args command)).
Proof.
  intros Hid. unfold main.
  split; [|intros Hd]; (destruct (Args.markdown_help args); [apply sends_ret|]);
    (apply sends_bind_result; [apply sends_from_args|]); intros w handler w' H%from_args_program;
    assert (CliHandler.ncn_program_id handler = id) as Hdeployed by congruence.
  - apply (sends_mono _ _ _ issued); [exact issued_fits|]. by apply issues_handle.
  - by apply silent_displays.
Qed.
End command_line.
