(* ===== verification/KeeperRuns.v ===== *)
(** The keeper from round to round: which epoch it works on, when it leaves it,
    and what it knows of it. *)
From Stdlib Require Import Sorting.Sorted.
From stdpp Require Import strings.
From S2P Require Import Prelude Errors Precise Stake Registry Weights Fees Snapshots Voting EpochStates.
From S2P Require Import NcnRouter OperatorRouter Consensus Accounts Machine Lamports Program Client Getters Commands.
From S2P Require Import Keeper.

(** ** Reading a successful run of the loop *)
Section inversion.
Context {W : Type}.

Lemma attempt_ok {S E A} (m : M S E A) s r s' : attempt m s = (Ok r, s') -> m s = (r, s').
Proof. unfold attempt. destruct (m s) as [[a|e|] t]; by intros [= <- <-]. Qed.
Lemma outside_ok {A} (m : M W CliError.t A) s r s' : Keeper.outside m s = (r, s') -> s'.1 = s.1 /\ m s.2 = (r, s'.2).
Proof. unfold Keeper.outside, zoom. destruct (m s.2) as [r1 w]. by intros [= <- <-]. Qed.
Lemma state_outside_ok {A} (m : M W CliError.t A) s r s' :
  KeeperState.outside m s = (r, s') -> s'.1 = s.1 /\ m s.2 = (r, s'.2).
Proof. unfold KeeperState.outside, zoom. destruct (m s.2) as [r1 w]. by intros [= <- <-]. Qed.
Lemma on_state_ok {A} (m : M (KeeperState.t * W) CliError.t A) s r s' : Keeper.on_state m s = (r, s') ->
  exists st, m (Keeper.state s.1, s.2) = (r, (st, s'.2)) /\ s'.1 = s.1 <| Keeper.state := st |>.
Proof.
  unfold Keeper.on_state, zoom. destruct (m _) as [r1 [st w]]. intros [= <- <-]. by exists st.
Qed.
End inversion.

(** [kinv H]: like [hinv], for the loop: what its fragments leave of the
    keeper. *)
Ltac kinv H :=
  repeat (cbv beta zeta in H;
    lazymatch type of H with
    | mbind Keeper.this _ _ = _ => unfold mbind at 1, Keeper.this at 1, gets at 1 in H
    | mbind KeeperState.this _ _ = _ => unfold mbind at 1, KeeperState.this at 1, gets at 1 in H
    | mbind (Keeper.check_and_timeout_error _) _ _ = _ =>
        unfold mbind at 1, Keeper.check_and_timeout_error at 1, ret at 1 in H
    | mbind (Keeper.assign _) _ _ = _ => unfold mbind at 1, Keeper.assign at 1, modify at 1 in H
    | mbind (KeeperState.assign _) _ _ = _ => unfold mbind at 1, KeeperState.assign at 1, modify at 1 in H
    | mbind (attempt (Keeper.outside _)) _ _ = _ =>
        let Ho := fresh "Ho" in apply mbind_ok in H as (? & ? & Ho & H); apply attempt_ok, outside_ok in Ho as [? ?]
    | mbind (KeeperState.outside _) _ _ = _ =>
        let Ho := fresh "Ho" in apply mbind_ok in H as (? & ? & Ho & H); apply state_outside_ok in Ho as [? ?]
    | mbind (lift _) _ _ = (Ok _, _) => let E := fresh "E" in apply mbind_ok in H as (? & ? & E & H); injection E as E <-
    | ret _ _ = (Ok _, _) => first [injection H as <- <-|injection H as <-]
    | Keeper.assign _ _ = (Ok _, _) => unfold Keeper.assign, modify in H; injection H as <-
    | (if is_err ?r then _ else _) _ = _ => destruct (is_err r) eqn:?
    end; cbn [fst snd] in H).

Section runs.
Context {D W : Type} {data : AccountData D} {runtime : Runtime} {rpc : Rpc D W} {partners : Partners D}.
Context {s_config : Stored D Config.t} {s_registry : Stored D VaultRegistry.t}
  {s_table : Stored D WeightTable.t} {s_epoch : Stored D EpochSnapshot.t}
  {s_operator : Stored D OperatorSnapshot.t} {s_box : Stored D BallotBox.t}
  {s_result : Stored D ConsensusResult.t} {s_router : Stored D NCNRewardRouter.t}
  {s_op_router : Stored D OperatorVaultRewardRouter.t} {s_state : Stored D EpochState.t}.
Context (fuel : nat) (emit_ncn_metrics : CliHandler.t -> bool -> M W CliError.t unit)
  (emit_epoch_metrics : CliHandler.t -> u64 -> M W CliError.t unit) (handler : CliHandler.t).
Abbreviation round := (Keeper.round fuel emit_ncn_metrics emit_epoch_metrics handler).

(** ** What it knows of the epoch *)

Lemma update_current_ok s s' : KeeperState.update_current_state (D := D) handler s = (Ok tt, s') ->
  exists c, s'.1 = s.1 <| KeeperState.current_state' := Some c |>.
Proof.
  intros H. unfold KeeperState.update_current_state in H. kinv H. unfold KeeperState.assign, modify in H.
  injection H as <-. exists x6. by rewrite <-H0, <-H2, <-H4.
Qed.

Lemma read_state_ok s s' : KeeperState.read_epoch_state handler s = (Ok tt, s') ->
  KeeperState.epoch s'.1 = KeeperState.epoch s.1
  /\ KeeperState.is_epoch_completed s'.1 = KeeperState.is_epoch_completed s.1
  /\ (KeeperState.epoch_state' s'.1 = None
      \/ exists t c, KeeperState.epoch_state' s'.1 = Some t /\ KeeperState.current_state' s'.1 = Some c).
Proof.
  intros H. unfold KeeperState.read_epoch_state in H. kinv H. destruct x as [a|].
  - destruct (data_len (Account.data a) <? Size.EpochState).
    + unfold KeeperState.assign, modify in H. injection H as <-. cbn. rewrite H0. auto.
    + kinv H. apply update_current_ok in H as [c ->]. cbn. rewrite H0. split_and!; [done..|]. right. eauto.
  - unfold KeeperState.assign, modify in H. injection H as <-. cbn. rewrite H0. auto.
Qed.

(** After the epoch was fetched or updated, and unless it is completed or has no
    state, its phase is known. *)
Lemma fetched s s' : Keeper.fetch_or_update handler s = (Ok tt, s') ->
  Keeper.current_keeper_epoch s'.1 = Keeper.current_keeper_epoch s.1
  /\ Keeper.epoch_stall s'.1 = Keeper.epoch_stall s.1
  /\ let st := Keeper.state s'.1 in
     KeeperState.epoch st = Keeper.current_keeper_epoch s.1
     /\ (KeeperState.is_epoch_completed st = true \/ KeeperState.epoch_state' st = None
         \/ exists t c, KeeperState.epoch_state' st = Some t /\ KeeperState.current_state' st = Some c).
Proof.
  assert (forall p p', KeeperState.update_epoch_state handler p = (Ok tt, p') ->
    KeeperState.epoch p'.1 = KeeperState.epoch p.1
    /\ (KeeperState.is_epoch_completed p'.1 = true \/ KeeperState.epoch_state' p'.1 = None
         \/ exists t c, KeeperState.epoch_state' p'.1 = Some t /\ KeeperState.current_state' p'.1 = Some c)) as Hup.
  { intros p p' H. unfold KeeperState.update_epoch_state in H. kinv H. destruct x.
    - kinv H. cbn. rewrite H0. auto.
    - apply read_state_ok in H as (He & _ & Hs). cbn in He. rewrite H0 in He. auto. }
  intros H. unfold Keeper.fetch_or_update in H. kinv H.
  destruct (KeeperState.epoch (Keeper.state s.1) =? Keeper.current_keeper_epoch s.1) eqn:E; cbn [negb] in H.
  - apply on_state_ok in H as (st & H & ->). apply Hup in H as [He Hs]. cbn in *. split_and!; try done. lia.
  - apply on_state_ok in H as (st & H & ->). unfold KeeperState.fetch, KeeperState.fetch_with in H. kinv H.
    destruct (EpochStateAccount.find_program_address _ _ _) as [[k b] l]. kinv H.
    apply Hup in H as [He Hs]. cbn in *. split_and!; done.
Qed.

Lemma fetch_keeps s r s' : Keeper.fetch_or_update handler s = (r, s') ->
  Keeper.current_keeper_epoch s'.1 = Keeper.current_keeper_epoch s.1
  /\ Keeper.epoch_stall s'.1 = Keeper.epoch_stall s.1.
Proof.
  intros H. unfold Keeper.fetch_or_update in H. kinv H.
  destruct (negb _); apply on_state_ok in H as (st & _ & ->); done.
Qed.

(** ** A round *)

Definition waiting (st : KeeperState.t) : Prop :=
  KeeperState.is_epoch_completed st = false
  /\ exists c, KeeperState.current_state' st = Some c
       /\ (c = State.Vote \/ c = State.PostVoteCooldown \/ c = State.Distribute).

Lemma progress_ok s cur s' : Keeper.progress (D := D) handler s = (Ok cur, s') ->
  Keeper.state s'.1 = Keeper.state s.1 /\ Keeper.epoch_stall s'.1 = false
  /\ progress_epoch (KeeperState.is_epoch_completed (Keeper.state s.1)) cur (CliHandler.epoch handler)
       (Keeper.current_keeper_epoch s.1) (Keeper.epoch_stall s.1) = Ok (Keeper.current_keeper_epoch s'.1)
  /\ exists slot, get_guaranteed_epoch_and_slot handler s.2 = (Ok (cur, slot), s'.2).
Proof.
  intros H. unfold Keeper.progress in H. cbv zeta in H.
  apply mbind_ok in H as ([cur' slot] & s1 & [Hs Hg]%outside_ok & H). kinv H. rewrite Hs in *.
  split_and!; [done..|]. by exists slot.
Qed.

Lemma detect_stall_ok p b p' : KeeperState.detect_stall handler p = (Ok b, p') ->
  p'.1 = p.1 /\ (b = true -> KeeperState.is_epoch_completed p.1 = true \/ waiting p.1).
Proof.
  intros H. unfold KeeperState.detect_stall in H. kinv H.
  destruct (KeeperState.is_epoch_completed p.1) eqn:Hc; [kinv H; by auto|]. kinv H.
  unfold KeeperState.current_state, ok_or in E.
  destruct (KeeperState.current_state' p.1) as [c|] eqn:Ec; [|done]. injection E as ->.
  destruct (bool_decide (x = State.Vote)) eqn:E1; [|destruct (bool_decide (x = State.PostVoteCooldown)) eqn:E2].
  - apply bool_decide_eq_true_1 in E1. cbn [orb] in H. kinv H. split; [done|]. intros _. right. split; [done|]. eauto.
  - apply bool_decide_eq_true_1 in E2. cbn [orb] in H. kinv H. split; [done|]. intros _. right. split; [done|]. eauto.
  - cbn [orb] in H. destruct (bool_decide (x = State.Distribute)) eqn:E3; kinv H; [|done].
    apply bool_decide_eq_true_1 in E3. split; [done|]. intros _. right. split; [done|]. eauto.
Qed.

Lemma detect_stall_still p r p' : KeeperState.detect_stall handler p = (r, p') -> p'.1 = p.1.
Proof.
  unfold KeeperState.detect_stall, mbind, KeeperState.this, gets, ret, lift, KeeperState.outside, zoom.
  repeat match goal with
  | |- (if ?b then _ else _) _ = _ -> _ => destruct b
  | |- (match ?x with _ => _ end) = _ -> _ => destruct x eqn:?
  | H : (let '(_, _) := ?x in _) = _ |- _ => destruct x eqn:?
  end; intros [= <- <-]; try done; match goal with H : (_, (p.1, _)) = _ |- _ => by injection H as _ <- end.
Qed.

Lemma crank_epoch_ok s s' : Keeper.crank_epoch fuel emit_epoch_metrics handler s = (Ok tt, s') ->
  Keeper.state s'.1 = Keeper.state s.1 /\ Keeper.current_keeper_epoch s'.1 = Keeper.current_keeper_epoch s.1
  /\ (Keeper.epoch_stall s.1 = false -> KeeperState.is_epoch_completed (Keeper.state s.1) = false ->
      Keeper.epoch_stall s'.1 = true -> waiting (Keeper.state s.1)).
Proof.
  intros H. unfold Keeper.crank_epoch in H. kinv H.
  - rewrite H0. split_and!; congruence.
  - apply mbind_ok in H as (stall & s3 & Hd%attempt_ok%on_state_ok & H). destruct Hd as (st & Hd & Hs3).
    rewrite H2, H0 in *. destruct stall as [stall|e|]; kinv H; rewrite ?Hs3; cbn.
    + apply detect_stall_ok in Hd as [Hst Hb]. cbn in Hst, Hb. rewrite Hst. split_and!; try done.
      intros _ Hc ->. destruct (Hb eq_refl); [congruence|done].
    + apply detect_stall_still in Hd. cbn in Hd. rewrite Hd. split_and!; [done..|cbn; congruence].
    + apply detect_stall_still in Hd. cbn in Hd. rewrite Hd. split_and!; [done..|cbn; congruence].
Qed.

(** A round moves to the epoch that [progress_epoch] says, and stalls only on an
    epoch that it knows to be in one of the phases that wait. *)
Lemma round_ok s s' : round s = (Ok tt, s') ->
  (exists cur slot w, get_guaranteed_epoch_and_slot handler s.2 = (Ok (cur, slot), w)
     /\ progress_epoch (KeeperState.is_epoch_completed (Keeper.state s.1)) cur (CliHandler.epoch handler)
          (Keeper.current_keeper_epoch s.1) (Keeper.epoch_stall s.1) = Ok (Keeper.current_keeper_epoch s'.1))
  /\ (Keeper.epoch_stall s'.1 = true ->
        KeeperState.epoch (Keeper.state s'.1) = Keeper.current_keeper_epoch s'.1 /\ waiting (Keeper.state s'.1)).
Proof.
  intros H. unfold Keeper.round in H. apply mbind_ok in H as (cur & s1 & Hp & H).
  apply progress_ok in Hp as (_ & Hstall & Hp & slot & Hg).
  assert (forall e : u64, e = Keeper.current_keeper_epoch s1.1 ->
    exists cur slot w, get_guaranteed_epoch_and_slot handler s.2 = (Ok (cur, slot), w)
     /\ progress_epoch (KeeperState.is_epoch_completed (Keeper.state s.1)) cur (CliHandler.epoch handler)
          (Keeper.current_keeper_epoch s.1) (Keeper.epoch_stall s.1) = Ok e) as Hmoved
    by (intros e ->; eauto 6).
  kinv H; rewrite ?H0, ?H2 in *; [split; [by apply Hmoved|congruence]|].
  apply mbind_ok in H as (fetched_ & s3 & Hf%attempt_ok & H). kinv H.
  { apply fetch_keeps in Hf as [He Hs]. rewrite H2 in *. split; [by apply Hmoved|congruence]. }
  destruct fetched_ as [[]|e|]; [|done..]. apply fetched in Hf as (He & Hs & Hst & Hknown). rewrite H2 in *.
  destruct (KeeperState.is_epoch_completed (Keeper.state s3.1)) eqn:Hc;
    [kinv H; split; [by apply Hmoved|congruence]|].
  destruct (KeeperState.epoch_state' (Keeper.state s3.1)) eqn:Ht.
  - apply crank_epoch_ok in H as (Hst' & He' & Hw). split; [apply Hmoved; congruence|]. intros Hstalled.
    rewrite Hst', He', He. split; [done|]. apply Hw; congruence.
  - kinv H. split; [apply Hmoved; congruence|congruence].
Qed.

(** What leaves the number of the epoch alone, whether it goes through or not. *)
Definition keeps_epoch {A} (m : M (KeeperState.t * W) CliError.t A) : Prop :=
  forall p r p', m p = (r, p') -> KeeperState.epoch p'.1 = KeeperState.epoch p.1.

Lemma keeps_epoch_bind {A B} (m : M (KeeperState.t * W) CliError.t A) (k : A -> M (KeeperState.t * W) CliError.t B) :
  keeps_epoch m -> (forall a, keeps_epoch (k a)) -> keeps_epoch (mbind m k).
Proof.
  intros Hm Hk p r p' H. unfold mbind in H. destruct (m p) as [[a|e|] q] eqn:E.
  - rewrite (Hk _ _ _ _ H). by apply (Hm _ _ _ E).
  - injection H as _ <-. by apply (Hm _ _ _ E).
  - injection H as _ <-. by apply (Hm _ _ _ E).
Qed.
Lemma keeps_epoch_outside {A} (m : M W CliError.t A) : keeps_epoch (KeeperState.outside m).
Proof. intros p r p' H%state_outside_ok. by destruct H as [-> _]. Qed.
Lemma keeps_epoch_lift {A} (r : result CliError.t A) : keeps_epoch (lift r).
Proof. intros p r' p' [= _ <-]. done. Qed.
Lemma keeps_epoch_this : keeps_epoch KeeperState.this.
Proof. intros p r p' [= _ <-]. done. Qed.
Lemma keeps_epoch_ret {A} (a : A) : keeps_epoch (ret a).
Proof. intros p r p' [= _ <-]. done. Qed.
Lemma keeps_epoch_assign f : (forall st, KeeperState.epoch (f st) = KeeperState.epoch st) ->
  keeps_epoch (KeeperState.assign f).
Proof. intros Hf p r p' [= _ <-]. apply Hf. Qed.
Create HintDb epoch.
#[local] Hint Resolve keeps_epoch_bind keeps_epoch_outside keeps_epoch_lift keeps_epoch_this keeps_epoch_ret : epoch.
#[local] Hint Extern 1 (keeps_epoch (KeeperState.assign _)) => by apply keeps_epoch_assign : epoch.
#[local] Hint Extern 1 (keeps_epoch (if ?b then _ else _)) => destruct b : epoch.
#[local] Hint Extern 1 (keeps_epoch (match ?x with Some _ => _ | None => _ end)) => destruct x : epoch.

Lemma update_keeps_epoch : keeps_epoch (KeeperState.update_epoch_state handler).
Proof.
  unfold KeeperState.update_epoch_state, KeeperState.read_epoch_state, KeeperState.update_current_state.
  eauto 30 with epoch.
Qed.

Lemma fetch_reads s r s' : Keeper.fetch_or_update handler s = (r, s') ->
  KeeperState.epoch (Keeper.state s'.1) = Keeper.current_keeper_epoch s'.1 \/ Keeper.state s'.1 = Keeper.state s.1.
Proof.
  intros H. pose proof (fetch_keeps _ _ _ H) as [-> _]. unfold Keeper.fetch_or_update in H. kinv H.
  destruct (KeeperState.epoch (Keeper.state s.1) =? Keeper.current_keeper_epoch s.1) eqn:E; cbn [negb] in H;
    apply on_state_ok in H as (st & H & ->).
  - left. apply update_keeps_epoch in H. cbn in *. lia.
  - unfold KeeperState.fetch, KeeperState.fetch_with in H. unfold mbind at 1, lift at 1 in H.
    destruct (CliHandler.ncn handler) as [n|e|]; [left|right; by injection H as _ <- _..].
    destruct (EpochStateAccount.find_program_address _ _ _) as [[k b] l]. kinv H.
    by apply update_keeps_epoch in H.
Qed.

(** A round after which the state is not that of the keeper's epoch has not read
    anything. *)
Lemma unread_state s s' : round s = (Ok tt, s') ->
  KeeperState.epoch (Keeper.state s'.1) <> Keeper.current_keeper_epoch s'.1 -> Keeper.state s'.1 = Keeper.state s.1.
Proof.
  intros H Hne. unfold Keeper.round in H. apply mbind_ok in H as (cur & s1 & Hp & H).
  apply progress_ok in Hp as (Hs & _ & _ & _). kinv H; rewrite ?H0, ?H2 in *; [done|].
  apply mbind_ok in H as (fetched_ & s3 & Hf%attempt_ok & H). kinv H.
  { apply fetch_reads in Hf as [Hf|Hf]; [done|]. by rewrite Hf, H2. }
  destruct fetched_ as [[]|e|]; [|done..]. pose proof Hf as (_ & _ & Hst & _)%fetched.
  pose proof Hf as [Hcur _]%fetch_keeps.
  destruct (KeeperState.is_epoch_completed (Keeper.state s3.1)); [kinv H; congruence|].
  destruct (KeeperState.epoch_state' (Keeper.state s3.1)).
  - apply crank_epoch_ok in H as (Hst' & He' & _). destruct Hne. rewrite Hst', He', Hcur. exact Hst.
  - kinv H; congruence.
Qed.

(** The keeper leaves an epoch only when it is completed or waits for others.
    A round moves on from the epoch it worked on in the round before only if
    that epoch was seen to be completed, or if it is in the phase of the vote,
    of the cooldown after it or of the distribution; with the weights, the
    snapshots and the closing it stays. *)
Theorem keeper_leaves_waiting_epochs s s1 s2 :
  round s = (Ok tt, s1) -> round s1 = (Ok tt, s2) ->
  Keeper.current_keeper_epoch s2.1 <> Keeper.current_keeper_epoch s1.1 ->
  KeeperState.is_epoch_completed (Keeper.state s1.1) = true
  \/ KeeperState.epoch (Keeper.state s1.1) = Keeper.current_keeper_epoch s1.1
     /\ exists c, KeeperState.current_state' (Keeper.state s1.1) = Some c
          /\ (c = State.Vote \/ c = State.PostVoteCooldown \/ c = State.Distribute).
Proof.
  intros [_ H1]%round_ok [(cur & slot & w & _ & Hp) _]%round_ok Hne. unfold progress_epoch in Hp.
  destruct (KeeperState.is_epoch_completed (Keeper.state s1.1)); [by left|right]. cbn [orb] in Hp.
  destruct (Keeper.epoch_stall s1.1); [|congruence]. by destruct (H1 eq_refl) as [He [_ Hc]].
Qed.

(** ** The epochs that are visited *)

(** A number of rounds that go through: for each the epoch that the node gave as
    the current one and the epoch that the keeper then worked on. *)
Inductive visits : Keeper.t * W -> list (u64 * u64) -> Prop :=
| visits_nil s : visits s []
| visits_round s s1 cur slot w l :
    round s = (Ok tt, s1) -> get_guaranteed_epoch_and_slot handler s.2 = (Ok (cur, slot), w) -> visits s1 l ->
    visits s ((cur, Keeper.current_keeper_epoch s1.1) :: l).

Lemma visits_moves s cur e l : visits s ((cur, e) :: l) ->
  progress_epoch (KeeperState.is_epoch_completed (Keeper.state s.1)) cur (CliHandler.epoch handler)
    (Keeper.current_keeper_epoch s.1) (Keeper.epoch_stall s.1) = Ok e.
Proof.
  inversion 1 as [|? s1 ? slot w ? Hr Hg Hv]; subst.
  apply round_ok in Hr as [(cur' & slot' & w' & Hg' & Hp) _]. congruence.
Qed.

Lemma progress_between completed stall cur start e e' :
  start <= e <= cur -> progress_epoch completed cur start e stall = Ok e' -> start <= e' <= cur.
Proof.
  intros He. unfold progress_epoch, add_u64. destruct (completed || stall); [|intros [= <-]; lia].
  destruct (Z.eqb_spec e cur); [intros [= <-]; lia|]. destruct (e + 1 <=? u64_MAX); intros [= <-]; lia.
Qed.

Lemma visits_between s l : visits s l -> CliHandler.epoch handler <= Keeper.current_keeper_epoch s.1 ->
  StronglySorted Z.le (Keeper.current_keeper_epoch s.1 :: map fst l) ->
  List.Forall (fun v => CliHandler.epoch handler <= v.2 <= v.1) l.
Proof.
  induction 1 as [|s s1 cur slot w l Hr Hg Hv IH]; intros Hs [Hl Hle]%StronglySorted_inv; [done|].
  cbn [map] in Hl, Hle. apply StronglySorted_inv in Hl as [Hl Hall]. apply List.Forall_cons_iff in Hle as [Hle _]. cbn in Hle.
  assert (CliHandler.epoch handler <= Keeper.current_keeper_epoch s1.1 <= cur) as Hb.
  { eapply progress_between; [split; [exact Hs|exact Hle]|]. eapply visits_moves. by econstructor. }
  constructor; [exact Hb|]. apply IH; [apply Hb|]. constructor; [done|].
  eapply List.Forall_impl; [|exact Hall]. cbn. intros c Hc. lia.
Qed.

(** C30: the keeper moves in order. After any round it stays on its epoch as long
    as it has neither seen it completed nor found it stalled, and it finds it
    stalled only after it has read that this epoch, not completed, is in the phase
    of the vote, of the cooldown or of the distribution. When it leaves the epoch it
    goes on to the next one, or to its starting epoch if the node says that the
    epoch is the current one. So while the current epoch of the node never goes back
    and is not before the epoch of the keeper, every epoch that it works on is
    between its starting epoch and the current one. *)
Theorem keeper_moves_in_order s s1 l : round s = (Ok tt, s1) -> visits s1 l ->
  let start := CliHandler.epoch handler in
  let e := Keeper.current_keeper_epoch s1.1 in
  let st := Keeper.state s1.1 in
  let leaves := KeeperState.is_epoch_completed st = true \/ Keeper.epoch_stall s1.1 = true in
  (Keeper.epoch_stall s1.1 = true -> KeeperState.epoch st = e /\ KeeperState.is_epoch_completed st = false
     /\ exists c, KeeperState.current_state' st = Some c
          /\ (c = State.Vote \/ c = State.PostVoteCooldown \/ c = State.Distribute))
  /\ (forall cur e' l', l = (cur, e') :: l' ->
        (leaves -> e' = if e =? cur then start else e + 1) /\ (~ leaves -> e' = e))
  /\ (start <= e -> StronglySorted Z.le (e :: map fst l) -> List.Forall (fun v => start <= v.2 <= v.1) l).
Proof.
  intros [_ Hstall]%round_ok Hv. cbv zeta. split; [exact Hstall|]. split; [|by apply visits_between].
  intros cur e' l' ->. apply visits_moves in Hv. unfold progress_epoch, add_u64 in Hv.
  destruct (KeeperState.is_epoch_completed _), (Keeper.epoch_stall _); cbn [orb] in Hv;
    (split; [|by try (intros []; auto; fail); congruence]); try (intros [[=]|[=]]; fail);
    intros _; destruct (_ =? cur); try congruence; destruct (_ <=? u64_MAX); congruence.
Qed.

(** The flag that an epoch is completed outlives the epoch: when the keeper has
    moved on and then cannot register the vaults, it leaves the new epoch in the
    next round although it has read nothing of it. *)
Theorem unread_epochs_are_left s s1 cur e l : round s = (Ok tt, s1) -> visits s1 ((cur, e) :: l) ->
  KeeperState.is_epoch_completed (Keeper.state s.1) = true ->
  KeeperState.epoch (Keeper.state s1.1) <> Keeper.current_keeper_epoch s1.1 ->
  Keeper.state s1.1 = Keeper.state s.1
  /\ e = if Keeper.current_keeper_epoch s1.1 =? cur then CliHandler.epoch handler
          else Keeper.current_keeper_epoch s1.1 + 1.
Proof.
  intros Hr Hv Hc Hne. assert (Keeper.state s1.1 = Keeper.state s.1) as Hst by by apply unread_state.
  split; [done|]. apply visits_moves in Hv. unfold progress_epoch, add_u64 in Hv. rewrite Hst, Hc in Hv. cbn [orb] in Hv.
  destruct (_ =? cur); [congruence|]. destruct (_ <=? u64_MAX); congruence.
Qed.
End runs.
