(* ===== verification/Routing.v ===== *)
(** The client's routing loops end ([route_ncn_rewards],
    [route_operator_vault_rewards] in [cli/src/instructions.rs]): every call of
    the instruction that does not finish the routing moves its saved position
    on, and there are only so many votes and vaults. *)
From stdpp Require Import relations strings.
From S2P Require Import Prelude Errors Precise Stake Registry Weights Fees Snapshots Voting EpochStates.
From S2P Require Import Routes NcnRouter OperatorRouter Consensus Accounts Machine Lamports Frames VoteHandlers.
From S2P Require Import AdminHandlers SnapshotHandlers RewardHandlers CloseHandlers Program Authority Backing Chain.
From S2P Require Import Elections Solvency Client Getters Commands Keeper Sends Cranks.

(** ** A routing with a saved position *)

(** [saved] is the index to go on from and the rewards that are being divided. *)
Class Routing (R : Type) `{Router R} := {
  still : R -> bool;
  saved : R -> Z * Z;
  still_saved : forall r r', saved r' = saved r -> still r' = still r;
  resumable : forall r, amounts r -> still r = true -> 0 <= (saved r).1 /\ 0 < (saved r).2;
}.

Section positions.
Context {R : Type} {rt : Router R} {routing : Routing R}.

(** How far the routing is. *)
Definition position (r : R) : Z := if still r then (saved r).1 else 0.

(** A calculation that is no routing, and a call of the routing over [count]
    entries. *)
Definition rests {E A} (m : M R E A) : Prop := forall r a r', m r = (Ok a, r') -> saved r' = saved r.
Definition advances {E A} (count : Z) (m : M R E A) : Prop := forall r a r', m r = (Ok a, r') ->
  amounts r -> still r' = true -> position r < position r' < count.

Lemma rests_bind {E A B} (m : M R E A) (k : A -> M R E B) : rests m -> (forall a, rests (k a)) -> rests (mbind m k).
Proof. intros Hm Hk r b r' (a & r1 & H1 & H2)%mbind_ok. etrans; [by eapply Hk|by eapply Hm]. Qed.
Lemma rests_ret {E A} (a : A) : rests (ret a : M R E A).
Proof. by intros r b r' [= _ <-]. Qed.
Lemma rests_throw {E A} (e : E) : rests (throw e : M R E A).
Proof. done. Qed.
Lemma rests_lift {E A} (x : result E A) : rests (lift x : M R E A).
Proof. intros r b r' H. unfold lift in H. destruct x; [by injection H as _ <-|done..]. Qed.
Lemma rests_get {E} : rests (get_self : M R E R).
Proof. by intros r b r' [= _ <-]. Qed.
Lemma rests_modify {E} f : (forall r, saved (f r) = saved r) -> rests (modify f : M R E unit).
Proof. by intros Hf r b r' [= _ <-]. Qed.
Lemma rests_add (get : R -> Z) set n : (forall v r, saved (set v r) = saved r) -> rests (add_to get set n).
Proof. by intros Hs r a r' ->%add_to_ok. Qed.
Lemma rests_take (get : R -> Z) set n : (forall v r, saved (set v r) = saved r) -> rests (take_from get set n).
Proof. by intros Hs r a r' [_ ->]%take_from_ok. Qed.
Lemma rests_zoom_at {A E B} (get : R -> list A) set i (m : M A E B) :
  (forall l r, saved (set l r) = saved r) -> rests (zoom_at get set i m).
Proof. by intros Hs r b r' (y & y' & _ & _ & ->)%zoom_at_ok. Qed.

Lemma stopped_at count r r' j n : saved r' = (j, n) -> position r < j < count ->
  still r' = true -> position r < position r' < count.
Proof. intros Hs Hj E. unfold position at 2 3. by rewrite E, Hs. Qed.
End positions.

(** [resting]: through a calculation, into the functions it calls. *)
Ltac resting :=
  repeat first
    [ progress intros
    | apply rests_bind | apply rests_ret | apply rests_throw | apply rests_lift | apply rests_get
    | apply rests_modify; reflexivity | apply rests_add; reflexivity | apply rests_take; reflexivity
    | apply rests_zoom_at; reflexivity
    | progress cbv beta zeta iota
    | match goal with
      | |- rests (if ?b then _ else _) => destruct b
      | |- rests (match ?x with _ => _ end) => destruct x
      end
    | match goal with
      | |- rests ?m =>
          let rec head t := lazymatch t with ?f _ => head f | _ => t end in
          let h := head m in is_const h; unfold h
      end ].

(** ** The NCN's router *)
Module NcnRouting.
Import NCNRewardRouter.

Definition routing_state (r : t) : Z * Z := (last_vote_index r, last_rewards_to_process r).
Lemma still_routing_state r r' : routing_state r' = routing_state r -> still_routing r' = still_routing r.
Proof. intros [= E1 E2]. unfold still_routing. by rewrite E1, E2. Qed.
#[global] Instance routing : Routing t :=
  {| still := still_routing; saved := routing_state; still_saved := still_routing_state;
     resumable := NcnBacking.b_resumable |}.

Section calculations.
Context {P : PreciseNumber} {L : PreciseNumberLaws P}.

Lemma rests_from_rewards x : rests (route_from_operator_vault_rewards x).
Proof. resting. Qed.
Lemma rests_to_route o x : rests (route_to_operator_vault_reward_route o x).
Proof. resting. Qed.
Lemma rests_incoming rent bal : rests (route_incoming_rewards rent bal).
Proof. resting. Qed.
Lemma rests_pool fees : rests (route_reward_pool fees).
Proof. resting. Qed.
Lemma rests_to_ncn x : rests (route_to_ncn x).
Proof. resting. Qed.

(** The loop over the votes stops after the position it started from. *)
Lemma votes_advance wi w n m l : forall i it r b r', route_votes wi w n m l i it r = (Ok b, r') ->
  0 <= i -> (l <> [] -> i + Z.of_nat (List.length l) <= u16_MAX) ->
  if b : bool then exists j, saved r' = (j, n) /\ i + (if it <? m then 1 else 0) <= j < i + Z.of_nat (List.length l)
  else saved r' = saved r.
Proof.
  induction l as [|v l IH]; intros i it r b r' H Hi Hl; cbn [route_votes List.length] in *; [by injection H as <- <-|].
  specialize (Hl ltac:(done)).
  destruct (OperatorVote.ballot_index v =? wi).
  - apply mbind_ok in H as (k & r1 & Hk & H). unfold lift in Hk.
    destruct (checked_add u16_MAX it 1) as [k'|] eqn:E; [|discriminate Hk]. injection Hk as <- <-.
    apply checked_add_Some in E as [-> _].
    destruct (Z.ltb_spec m (it + 1)).
    + injection H as <- <-. exists i. split; [|destruct (Z.ltb_spec it m); lia].
      cbn. unfold routing_state. cbn. f_equal. apply Z.mod_small. unfold u16_MAX in Hl. lia.
    + apply mbind_ok in H as (x & r2 & Hx & H). apply mbind_ok in H as (u1 & r3 & H1 & H).
      apply mbind_ok in H as (u2 & r4 & H2 & H). apply rests_lift in Hx.
      apply rests_from_rewards in H1. apply rests_to_route in H2.
      apply IH in H; [|lia..]. destruct b; [|congruence]. destruct H as (j & Hj & Hb). exists j. split; [done|].
      destruct (it <? m), (it + 1 <? m); lia.
  - apply IH in H; [|lia..]. destruct b; [|done]. destruct H as (j & Hj & Hb). exists j. split; [done|].
    destruct (it <? m); lia.
Qed.

(** A call of the routing finishes it, or moves the position on. *)
Lemma routing_advances box m : Z.of_nat (List.length (BallotBox.operator_votes box)) < u16_MAX ->
  advances (Z.of_nat (List.length (BallotBox.operator_votes box))) (route_operator_vault_rewards box m).
Proof.
  intros Hc r u r' H Hr. pose proof (resumable r Hr) as Hres. unfold route_operator_vault_rewards in H. apply mbind_ok in H as (winner & r0 & H0 & H).
  apply rests_lift in H0 as H0'. unfold lift in H0. destruct (BallotBox.get_winning_ballot_tally box); [|done..].
  injection H0 as <- <-. rewrite run_get_self in H. clear H0'.
  destruct (resume_routing_state r) as [i n0] eqn:Er. cbv zeta in H.
  set (n := if 0 <? n0 then n0 else operator_vault_rewards r) in H.
  assert (0 <= i /\ position r = i /\ (still r = true -> n <> 0)) as (Hi & Hp & Hn).
  { unfold resume_routing_state in Er. unfold position, still, saved, routing, routing_state in *.
    destruct (still_routing r); injection Er as <- <-; [|done]. destruct (Hres eq_refl) as [H1 H2]. cbn in H1, H2.
    split; [done|]. split; [done|]. intros _. unfold n. destruct (Z.ltb_spec 0 (last_rewards_to_process r)); lia. }
  assert (0 <= n) as Hn0.
  { pose proof (NcnBacking.b_operator_vault _ Hr). unfold n. destruct (Z.ltb_spec 0 n0); lia. }
  destruct (Z.eqb_spec n 0) as [E0|E0].
  { injection H as _ <-. intros E. by destruct Hn. }
  apply mbind_ok in H as (b & r1 & H1 & H). pose proof (length_drop (BallotBox.operator_votes box) (Z.to_nat i)) as Hlen.
  apply votes_advance in H1; [|done|intros Hne; destruct (drop _ _); [done|cbn in *; lia]].
  destruct b.
  - injection H as _ <-. destruct H1 as (j & Hj & Hb). destruct (Z.ltb_spec 0 (Z.max m 1)); [|lia].
    eapply (stopped_at _ r); [exact Hj|lia].
  - rewrite run_get_self in H. apply mbind_ok in H as (u1 & r2 & _ & H). apply mbind_ok in H as (u2 & r3 & _ & H).
    by injection H as _ <-.
Qed.
End calculations.
End NcnRouting.

(** ** An operator's router *)
Module OperatorRouting.
Import OperatorVaultRewardRouter.

Definition routing_state (r : t) : Z * Z := (last_vault_operator_delegation_index r, last_rewards_to_process r).
Lemma operator_still_routing r r' : routing_state r' = routing_state r -> still_routing r' = still_routing r.
Proof. intros [= E1 E2]. unfold still_routing. by rewrite E1, E2. Qed.
#[global] Instance routing : Routing t :=
  {| still := still_routing; saved := routing_state; still_saved := operator_still_routing;
     resumable := OperatorBacking.b_resumable |}.

Section calculations.
Context {P : PreciseNumber} {L : PreciseNumberLaws P}.

Lemma rests_from_pool x : rests (route_from_reward_pool x).
Proof. resting. Qed.
Lemma rests_to_vault v x : rests (route_to_vault_reward_route v x).
Proof. resting. Qed.
Lemma operator_rests_incoming rent bal : rests (route_incoming_rewards rent bal).
Proof. resting. Qed.
Lemma rests_operator_rewards max snapshot : rests (route_operator_rewards max snapshot).
Proof. resting. Qed.
Lemma rests_to_operator x : rests (route_to_operator_rewards x).
Proof. resting. Qed.

(** The loop over the vaults stops after the position it started from. *)
Lemma vaults_advance w n m l : forall i it r b r', route_vaults w n m l i it r = (Ok b, r') ->
  0 <= i -> (l <> [] -> i + Z.of_nat (List.length l) <= u16_MAX) ->
  if b : bool then exists j, saved r' = (j, n) /\ i + (if it <? m then 1 else 0) <= j < i + Z.of_nat (List.length l)
  else saved r' = saved r.
Proof.
  induction l as [|v l IH]; intros i it r b r' H Hi Hl; cbn [route_vaults List.length] in *; [by injection H as <- <-|].
  specialize (Hl ltac:(done)). apply mbind_ok in H as (k & r1 & Hk & H). unfold lift in Hk.
  destruct (checked_add u16_MAX it 1) as [k'|] eqn:E; [|discriminate Hk]. injection Hk as <- <-.
  apply checked_add_Some in E as [-> _].
  destruct (Z.ltb_spec m (it + 1)).
  - injection H as <- <-. exists i. split; [|destruct (Z.ltb_spec it m); lia].
    cbn. unfold routing_state. cbn. f_equal. apply Z.mod_small. unfold u16_MAX in Hl. lia.
  - apply mbind_ok in H as (x & r2 & Hx & H). apply mbind_ok in H as (u1 & r3 & H1 & H).
    apply mbind_ok in H as (u2 & r4 & H2 & H). apply rests_lift in Hx.
    apply rests_from_pool in H1. apply rests_to_vault in H2.
    apply IH in H; [|lia..]. destruct b; [|congruence]. destruct H as (j & Hj & Hb). exists j. split; [done|].
    destruct (it <? m), (it + 1 <? m); lia.
Qed.

Lemma pool_advances snapshot m :
  Z.of_nat (List.length (OperatorSnapshot.vault_operator_stake_weight snapshot)) < u16_MAX ->
  advances (Z.of_nat (List.length (OperatorSnapshot.vault_operator_stake_weight snapshot)))
    (route_reward_pool snapshot m).
Proof.
  intros Hc r u r' H Hr. pose proof (resumable r Hr) as Hres. unfold route_reward_pool in H. rewrite run_get_self in H. cbv zeta in H.
  destruct (resume_routing_state (reward_pool r) r) as [n i] eqn:Er.
  assert (0 <= i /\ position r = i /\ 0 <= n /\ (still r = true -> n <> 0)) as (Hi & Hp & Hn0 & Hn).
  { unfold resume_routing_state in Er. unfold position, still, saved, routing, routing_state in *.
    pose proof (OperatorBacking.b_pool _ Hr).
    destruct (still_routing r); injection Er as <- <-; [|done]. destruct (Hres eq_refl) as [H1 H2]. cbn in H1, H2.
    split_and!; [done..|lia|]. intros _. lia. }
  destruct (Z.eqb_spec n 0) as [E0|E0].
  { injection H as _ <-. intros E. by destruct Hn. }
  apply mbind_ok in H as (b & r1 & H1 & H).
  pose proof (length_drop (OperatorSnapshot.vault_operator_stake_weight snapshot) (Z.to_nat i)) as Hlen.
  apply vaults_advance in H1; [|done|intros Hne; destruct (drop _ _); [done|cbn in *; lia]].
  destruct b.
  - injection H as _ <-. destruct H1 as (j & Hj & Hb). destruct (Z.ltb_spec 0 (Z.max m 1)); [|lia].
    eapply (stopped_at _ r); [exact Hj|lia].
  - rewrite run_modify, run_get_self in H. apply mbind_ok in H as (u1 & r2 & H2 & H).
    apply mbind_ok in H as (u2 & r3 & H3 & H). injection H as _ <-.
    apply rests_from_pool in H2. apply rests_to_operator in H3.
    assert (still r3 = still (reset_routing_state r1)) as -> by (apply still_saved; by rewrite H3). done.
Qed.
End calculations.
End OperatorRouting.

(** ** On the ledger *)
Section ledger.
Context {D : Type} {data : AccountData D} {bytes : AccountBytes D} {runtime : Runtime}
  {at_clock : Clock -> Externals D} {system : System D} {P : PreciseNumber} {L : PreciseNumberLaws P}.
Context {s_config : Stored D Config.t} {s_registry : Stored D VaultRegistry.t}
  {s_table : Stored D WeightTable.t} {s_epoch : Stored D EpochSnapshot.t}
  {s_operator : Stored D OperatorSnapshot.t} {s_box : Stored D BallotBox.t}
  {s_result : Stored D ConsensusResult.t} {s_router : Stored D NCNRewardRouter.t}
  {s_op_router : Stored D OperatorVaultRewardRouter.t} {s_marker : Stored D EpochMarker.t}
  {s_state : Stored D EpochState.t}.
Context {l_system : SystemLaws D} {l_ext : forall c, ExternalsLaws D (ext := at_clock c)}
  {l_bytes : AccountBytesLaws D} {l_state : StoredLaws D EpochState.t}
  {l_router : StoredLaws D NCNRewardRouter.t} {l_op_router : StoredLaws D OperatorVaultRewardRouter.t}.
Context (collision_free : forall l l', (find_pda l id).1 = (find_pda l' id).1 -> concat l = concat l').
Abbreviation at_ a := (address_of (runtime := runtime) id a).
Abbreviation stored s k r := (try_from_slice (Account.data (s k)) = Ok r).

(** A router in an account of the program, and calculations on it. *)
Definition router_at {R} {st : Stored D R} {rt : Router R} (s : Store D) (k : Pubkey) (r : R) : Prop :=
  Account.owner (s k) = id /\ stored s k r /\ amounts r.

Lemma router_at_same {R} {st : Stored D R} {rt : Router R} (s s' : Store D) k (r : R) :
  router_at s k r -> same_data (s' k) (s k) -> router_at s' k r.
Proof. unfold router_at. by intros ? [-> ->]. Qed.
Lemma rests_on_account {R} {st : Stored D R} {l_st : StoredLaws D R} {rt : Router R} {routing : Routing R}
    {A} (m : M R NCNProgramError.t A) k (s s' : Store D) u r :
  rests m -> (forall r b r', m r = (Ok b, r') -> amounts r -> amounts r') ->
  on_account k m s = (Ok u, s') -> router_at s k r -> exists r', router_at s' k r' /\ saved r' = saved r.
Proof.
  intros Hrest Hm (r0 & r' & Hr0 & Hrun & ->)%on_account_ok (Ho & Hr & Ha). rewrite Hr in Hr0. injection Hr0 as <-.
  exists r'. split; [|by eapply Hrest]. destruct (write_keeps k k r' s) as [Ho' _].
  split; [congruence|]. split; [by eapply read_write|by eapply Hm].
Qed.
Lemma advances_on_account {R} {st : Stored D R} {l_st : StoredLaws D R} {rt : Router R} {routing : Routing R}
    {A} (m : M R NCNProgramError.t A) count t d k (s s' : Store D) u r :
  advances count m -> Backing.moves t d m -> on_account k m s = (Ok u, s') -> router_at s k r ->
  exists r', router_at s' k r' /\ (still r' = true -> position r < position r' < count).
Proof.
  intros Hadv Hm (r0 & r' & Hr0 & Hrun & ->)%on_account_ok (Ho & Hr & Ha). rewrite Hr in Hr0. injection Hr0 as <-.
  exists r'. split; [|by eapply Hadv]. destruct (write_keeps k k r' s) as [Ho' _].
  split; [congruence|]. split; [by eapply read_write|by eapply Hm].
Qed.
Lemma same_position {R} {rt : Router R} {routing : Routing R} (r r' : R) : saved r' = saved r -> position r' = position r.
Proof. intros H. unfold position. by rewrite (still_saved _ _ H), H. Qed.

(** The two instructions. *)
Lemma route_advances clock st cfg ncn es box rt rc m e (s s' : Store D) b (r : NCNRewardRouter.t) :
  RewardHandlers.process_route_ncn_rewards (ext := at_clock clock) id [st; cfg; ncn; es; box; rt; rc] m e s
    = (Ok tt, s') ->
  stored s (key box) b -> Z.of_nat (List.length (BallotBox.operator_votes b)) < u16_MAX -> router_at s (key rt) r ->
  (exists r' : NCNRewardRouter.t, router_at s' (key rt) r'
     /\ (still r' = true -> position r < position r' < Z.of_nat (List.length (BallotBox.operator_votes b))))
  /\ same_data (s' (key box)) (s (key box)).
Proof.
  intros H Hb Hlen Hr. unfold RewardHandlers.process_route_ncn_rewards in H.
  match type of H with ?run _ = _ => assert (touches [key rt; key st] run) as T by touching end.
  specialize (T _ _ _ H (key box)). hinv H.
  assert (key rt = at_ (ANCNRewardRouter (key ncn) e)) as Krt by located.
  assert (key st = at_ (AEpochState (key ncn) e)) as Kst by located.
  assert (key box = at_ (ABallotBox (key ncn) e)) as Kbox by located.
  assert (key st <> key rt) as Hne by (rewrite Krt, Kst; by apply (addresses_apart collision_free)).
  split; [|apply T; rewrite Krt, Kst, Kbox; apply not_elem_of_cons; split;
            [|apply not_elem_of_cons; split; [|apply not_elem_of_nil]]; by apply (addresses_apart collision_free)].
  clear T. assert (x0 = b) as -> by congruence.
  apply mbind_ok in H as (u1 & s1 & Hin & H).
  assert (exists r1 : NCNRewardRouter.t, router_at s1 (key rt) r1 /\ saved r1 = saved r) as (r1 & Hr1 & Hs1).
  { match type of Hin with (if ?b then _ else _) _ = _ => destruct b end; [|injection Hin as _ <-; by exists r].
    apply mbind_ok in Hin as (u2 & s2 & Hin & Hpool).
    eapply rests_on_account in Hin as (r2 & Hr2 & <-); [| |intros ??? Hx Hy; by eapply NcnBacking.incoming|exact Hr];
      [|apply NcnRouting.rests_incoming].
    eapply rests_on_account in Hpool; [exact Hpool| | |exact Hr2]; [apply NcnRouting.rests_pool|].
    intros ??? Hx Hy. by eapply NcnBacking.moves_route_pool. }
  apply mbind_ok in H as (u3 & s3 & Hroute & H).
  eapply advances_on_account in Hroute as (r3 & Hr3 & Hp3);
    [|by apply NcnRouting.routing_advances|apply NcnBacking.moves_route_operator_vault|exact Hr1].
  rewrite (same_position r r1 Hs1) in Hp3. exists r3. split; [|exact Hp3]. eapply router_at_same; [exact Hr3|].
  hinv H. match type of H with ?run _ = _ => assert (touches [key st] run) as T by touching end.
  by eapply touched_apart; [exact T|exact H|].
Qed.

Lemma operator_route_advances clock st ncn op os rt rc m e (s s' : Store D) o (r : OperatorVaultRewardRouter.t) :
  RewardHandlers.process_route_operator_vault_rewards (ext := at_clock clock) id [st; ncn; op; os; rt; rc] m e s
    = (Ok tt, s') ->
  stored s (key os) o -> Z.of_nat (List.length (OperatorSnapshot.vault_operator_stake_weight o)) < u16_MAX ->
  router_at s (key rt) r ->
  (exists r' : OperatorVaultRewardRouter.t, router_at s' (key rt) r' /\ (still r' = true ->
     position r < position r' < Z.of_nat (List.length (OperatorSnapshot.vault_operator_stake_weight o))))
  /\ same_data (s' (key os)) (s (key os)).
Proof.
  intros H Ho Hlen Hr. unfold RewardHandlers.process_route_operator_vault_rewards in H.
  match type of H with ?run _ = _ => assert (touches [key rt; key st] run) as T by touching end.
  specialize (T _ _ _ H (key os)). hinv H.
  assert (key rt = at_ (AOperatorVaultRewardRouter (key op) (key ncn) e)) as Krt by located.
  assert (key st = at_ (AEpochState (key ncn) e)) as Kst by located.
  assert (key os = at_ (AOperatorSnapshot (key op) (key ncn) e)) as Kos by located.
  assert (key st <> key rt) as Hne by (rewrite Krt, Kst; by apply (addresses_apart collision_free)).
  split; [|apply T; rewrite Krt, Kst, Kos; apply not_elem_of_cons; split;
            [|apply not_elem_of_cons; split; [|apply not_elem_of_nil]]; by apply (addresses_apart collision_free)].
  clear T. assert (x = o) as -> by congruence.
  apply mbind_ok in H as (u1 & s1 & Hin & H).
  assert (exists r1 : OperatorVaultRewardRouter.t, router_at s1 (key rt) r1 /\ saved r1 = saved r) as (r1 & Hr1 & Hs1).
  { match type of Hin with (if ?b then _ else _) _ = _ => destruct b end; [|injection Hin as _ <-; by exists r].
    apply mbind_ok in Hin as (u2 & s2 & Hin & Hpool).
    eapply rests_on_account in Hin as (r2 & Hr2 & <-); [| |intros ??? Hx Hy; by eapply OperatorBacking.operator_incoming|exact Hr];
      [|apply OperatorRouting.operator_rests_incoming].
    eapply rests_on_account in Hpool; [exact Hpool| | |exact Hr2]; [apply OperatorRouting.rests_operator_rewards|].
    intros ??? Hx Hy. by eapply OperatorBacking.moves_route_operator. }
  apply mbind_ok in H as (u3 & s3 & Hroute & H).
  eapply advances_on_account in Hroute as (r3 & Hr3 & Hp3);
    [|by apply OperatorRouting.pool_advances|apply OperatorBacking.operator_moves_route_pool|exact Hr1].
  rewrite (same_position r r1 Hs1) in Hp3. exists r3. split; [|exact Hp3]. eapply router_at_same; [exact Hr3|].
  hinv H. match type of H with ?run _ = _ => assert (touches [key st] run) as T by touching end.
  by eapply touched_apart; [exact T|exact H|].
Qed.

(** ** The client *)

(** What a request of the client does on the ledger: from one where [pre] holds,
    an answer comes with [post], an error with [error], and nothing else comes. *)
Context {W : Type} (ledger : W -> Store D).
Definition ends {A} (pre : Store D -> Prop) (m : M W CliError.t A) (post : A -> Store D -> Prop)
    (error : Store D -> Prop) : Prop :=
  forall w, pre (ledger w) ->
    match m w with
    | (Ok a, w') => post a (ledger w')
    | (Err _, w') => error (ledger w')
    | (Panic, _) => False
    end.

Lemma ends_bind {A B} pre (m : M W CliError.t A) mid (k : A -> M W CliError.t B) post error :
  ends pre m mid error -> (forall a, ends (mid a) (k a) post error) -> ends pre (mbind m k) post error.
Proof.
  intros Hm Hk w Hw. specialize (Hm w Hw). unfold mbind. destruct (m w) as [[a|e|] w']; [|done..].
  by apply (Hk a w').
Qed.
Lemma ends_ret {A} (a : A) (post : A -> Store D -> Prop) error : ends (post a) (ret a) post error.
Proof. by intros w Hw. Qed.
Lemma ends_throw {A} e (post : A -> Store D -> Prop) error : ends error (throw e) post error.
Proof. by intros w Hw. Qed.
Lemma ends_weaken {A} (pre pre' : Store D -> Prop) (m : M W CliError.t A) (post post' : A -> Store D -> Prop)
    (error error' : Store D -> Prop) :
  ends pre m post error -> (forall s, pre' s -> pre s) -> (forall a s, post a s -> post' a s) ->
  (forall s, error s -> error' s) -> ends pre' m post' error'.
Proof.
  intros Hm Hpre Hpost He w Hw. specialize (Hm w (Hpre _ Hw)). destruct (m w) as [[a|e|] w']; auto.
Qed.
Lemma ends_attempt {A} pre (m : M W CliError.t A) post error : ends pre m post error ->
  ends pre (attempt m) (fun r s => match r with Ok a => post a s | _ => error s end) (fun _ => False).
Proof.
  intros Hm w Hw. specialize (Hm w Hw). unfold attempt. by destruct (m w) as [[a|e|] w'].
Qed.

Lemma ends_ok {A} pre (m : M W CliError.t A) post error w a :
  ends pre m post error -> pre (ledger w) -> fst (m w) = Ok a -> post a (ledger (snd (m w))).
Proof. intros Hm Hw Ha. specialize (Hm w Hw). destruct (m w) as [r w']. cbn in Ha. by subst r. Qed.
Lemma ends_known {A B} pre (x : result CliError.t A) a (k : A -> M W CliError.t B) post error :
  x = Ok a -> ends pre (k a) post error -> ends pre (mbind (lift x) k) post error.
Proof. by intros ->. Qed.

(** A node that tells the truth, with nobody else on the ledger meanwhile: it
    answers with the account, and executes a transaction once when it says so
    and else not at all. *)
Context {rpc : Rpc D W} {partners : Partners D}.
Abbreviation runs_all := (executes_all (at_clock := at_clock)).
Class ReliableNode : Prop := {
  reliable_account k s : ends (eq s) (get_account_with_commitment k)
    (fun a s' => s = s' /\ forall x, a = Some x -> x = s k) (eq s);
  reliable_blockhash s : ends (eq s) (get_latest_blockhash (D := D)) (fun _ => eq s) (eq s);
  reliable_with_config tx s : ends (eq s) (send_and_confirm_transaction_with_config (D := D) tx)
    (fun _ => runs_all (instructions tx) s) (eq s);
  reliable_send tx s : ends (eq s) (send_and_confirm_transaction (D := D) tx)
    (fun _ => runs_all (instructions tx) s) (eq s);
}.
Context {reliable : ReliableNode}.

Lemma ends_retries keypair l signers n s :
  ends (eq s) (send_retries (D := D) keypair l signers n)
    (fun sent s' => if sent : bool then runs_all l s s' else s = s') (eq s).
Proof.
  induction n as [|n IH]; cbn [send_retries]; [by intros w Hw|].
  eapply ends_bind; [apply reliable_blockhash|]. intros b. cbv zeta. eapply ends_bind.
  - eapply ends_weaken; [apply ends_attempt, reliable_with_config|done| |done]. intros a s' H. exact H.
  - intros [u|e|]; [by intros w Hw|exact IH..].
Qed.

(** The transaction with a price, or the one without. *)
Lemma ends_transaction handler l signers s :
  ends (eq s) (send_and_log_transaction (D := D) handler l signers)
    (fun _ s' => runs_all (SetComputeUnitPrice (CliHandler.priority_fee_micro_lamports handler) :: l) s s'
                 \/ runs_all l s s') (eq s).
Proof.
  unfold send_and_log_transaction, send_transactions. apply (ends_bind _ _ (fun _ => eq s)).
  { intros w Hw. unfold lift, CliHandler.keypair. by destruct (CliHandler.keypair' handler). }
  intros k. eapply ends_bind; [apply ends_retries|]. intros [].
  - intros w Hw. by left.
  - eapply ends_bind; [apply reliable_blockhash|]. intros b. eapply ends_weaken; [apply reliable_send|done| |done].
    intros a s' H. by right.
Qed.

Lemma ends_get_account handler k s : ends (eq s) (get_account (D := D) handler k)
  (fun a s' => s = s' /\ forall x, a = Some x -> x = s k) (eq s).
Proof.
  intros w Hw. pose proof (reliable_account k s w Hw) as H. unfold get_account, mbind.
  by destruct (get_account_with_commitment k w) as [[a|err|] w'].
Qed.

(** The loop: [Inv p] holds while the routing is at [p], and a round moves it on
    below [count]. *)
Lemma while_ends (round : M W CliError.t bool) (Inv : Z -> Store D -> Prop) (routed : Store D -> Prop) error count :
  (forall p s, Inv p s -> ends (eq s) round
     (fun b s' => if b : bool then exists p', p < p' < count /\ Inv p' s' else routed s') error) ->
  forall fuel p, 0 < Z.of_nat fuel -> count - p < Z.of_nat fuel ->
  ends (Inv p) (while_routing round fuel) (fun _ => routed) error.
Proof.
  intros Hround. induction fuel as [|fuel IH]; intros p Hf Hp; [lia|]. cbn [while_routing].
  apply (ends_bind _ _ (fun b s' => if b : bool then exists p', p < p' < count /\ Inv p' s' else routed s')).
  { intros w Hw. exact (Hround p _ Hw w eq_refl). }
  intros [|]; [|by intros w Hw]. intros w (p' & Hp' & Hi). apply (IH p'); [lia..|exact Hi].
Qed.

Lemma compute_budget ix (s s' : Store D) : executes (at_clock := at_clock) ix s s' ->
  match ix with SetComputeUnitPrice _ | SetComputeUnitLimit _ => True | _ => False end ->
  forall k, Account.owner (s k) = id -> same_data (s' k) (s k).
Proof. by intros []. Qed.

(** *** The rounds

    A router at [kr] is routed over the [count] entries of the struct at [kc] by
    the instruction [ix]. *)
Section rounds.
Context {R C : Type} {s_r : Stored D R} {s_c : Stored D C} {rt : Router R} {routing : Routing R}.
Context (kr kc : Pubkey) (entries : C -> nat) (count : nat) (ix : Instruction).

Definition routing_at (p : Z) (s : Store D) : Prop :=
  (exists c, Account.owner (s kc) = id /\ stored s kc c /\ entries c = count)
  /\ exists r : R, router_at s kr r /\ position r = p.
Definition routed (s : Store D) : Prop := exists r : R, router_at s kr r /\ still r = false.

Lemma routing_at_same p (s s' : Store D) :
  (forall k, Account.owner (s k) = id -> same_data (s' k) (s k)) -> routing_at p s -> routing_at p s'.
Proof.
  intros Hs [(c & Ho & Hc & Hl) (r & Hr & Hp)]. split.
  - exists c. destruct (Hs _ Ho) as [-> ->]. done.
  - exists r. split; [|done]. eapply router_at_same; [exact Hr|]. apply Hs, Hr.
Qed.

Context (moves_on : forall p s s', executes (at_clock := at_clock) ix s s' -> routing_at p s ->
  exists r : R, router_at s' kr r /\ (still r = true -> p < position r < Z.of_nat count) /\ routing_at (position r) s').
Context (handler : CliHandler.t).

Lemma instruction_ends signers limit p s : routing_at p s ->
  ends (eq s) (send_and_log_transaction (D := D) handler [SetComputeUnitLimit limit; ix] signers)
    (fun _ s' => exists r : R, router_at s' kr r /\ (still r = true -> p < position r < Z.of_nat count)
                 /\ routing_at (position r) s') (eq s).
Proof.
  intros Hi. eapply ends_weaken; [apply ends_transaction|done| |done]. cbv beta. intros _ s' H.
  assert (exists s1, routing_at p s1 /\ runs_all [SetComputeUnitLimit limit; ix] s1 s') as (s1 & H1 & Hx).
  { destruct H as [H|H]; [|by exists s]. inversion H as [|a l t s1 t' Hx Hl]; subst.
    exists s1. split; [|exact Hl]. eapply routing_at_same; [by eapply compute_budget|exact Hi]. }
  inversion Hx as [|a l t s2 t' Hb Hl]; subst. inversion Hl as [|a l t s3 t' Hr Hn]; subst.
  inversion Hn; subst. eapply moves_on; [exact Hr|]. eapply routing_at_same; [by eapply compute_budget|exact H1].
Qed.

(** The answer to the question how far the router is. *)
Lemma found_ends (r : R) s : router_at s kr r ->
  ends (eq s) (found (A := R) try_from_slice_unchecked handler kr) (fun r' s' => s = s' /\ r' = r) (eq s).
Proof.
  intros (_ & Hr & _). unfold found. eapply ends_bind; [apply ends_get_account|].
  intros [x|]; intros w [Hw Hx]; [|exact Hw]. rewrite (Hx x eq_refl). unfold try_from_slice_unchecked. by rewrite Hr.
Qed.

Lemma position_nonneg p s : routing_at p s -> 0 <= p.
Proof.
  intros [_ (r & (_ & _ & Ha) & <-)]. unfold position. destruct (still r) eqn:E; [|done]. by apply resumable.
Qed.

Lemma loop_ends (m : M W CliError.t unit) (get : M W CliError.t R) fuel :
  (forall p s, routing_at p s -> ends (eq s) m
     (fun _ s' => exists r : R, router_at s' kr r /\ (still r = true -> p < position r < Z.of_nat count)
                  /\ routing_at (position r) s') (eq s)) ->
  (forall r s, router_at s kr r -> ends (eq s) get (fun r' s' => s = s' /\ r' = r) (eq s)) ->
  (count < fuel)%nat ->
  ends (fun s => exists p, routing_at p s) (while_routing (let* _ := m in let* r := get in ret (still r)) fuel)
    (fun _ => routed) (fun s' => exists p', routing_at p' s').
Proof.
  intros Hm Hget Hf w (p & Hp). pose proof (position_nonneg _ _ Hp).
  refine (while_ends _ routing_at routed (fun s' => exists p', routing_at p' s') (Z.of_nat count) _ fuel p _ _ w Hp); [|lia|lia].
  clear w p Hp H. intros p0 s Hi.
  eapply ends_bind; [eapply ends_weaken; [by apply Hm|done..|]|].
  { intros s' Hs. exists p0. by rewrite <-Hs. }
  intros u w (r & Hr & Hstill & Hat).
  pose proof (Hget r _ Hr w eq_refl) as Hg. unfold mbind. destruct (get w) as [[r'|err|] w']; [|rewrite <-Hg; by eexists|done].
  destruct Hg as [Hg ->]. destruct (still r) eqn:E; cbn; rewrite <-Hg; [exists (position r); auto|by exists r].
Qed.
End rounds.

(** *** The two loops *)
Context (handler : CliHandler.t) (n : Pubkey) (e : u64).
Context (deployed : CliHandler.ncn_program_id handler = id) (known : CliHandler.ncn handler = Ok n).

(** The addresses as they were derived. *)
Ltac derive :=
  repeat match goal with
  | |- ends _ (match ?x with _ => _ end) _ _ =>
      let H := fresh in destruct x as [[? ?] ?] eqn:H; apply derived in H; rewrite deployed in H; subst
  end.

(** The ledger has the epoch's router, as it is on every ledger that comes about
    ([Solvency.receivers_are_solvent]), and the struct with all its entries. *)
Definition ncn_at : Z -> Store D -> Prop :=
  routing_at (R := NCNRewardRouter.t) (at_ (ANCNRewardRouter n e)) (at_ (ABallotBox n e))
    (fun b : BallotBox.t => List.length (BallotBox.operator_votes b)) 256.
Definition operator_at (o : Pubkey) : Z -> Store D -> Prop :=
  routing_at (R := OperatorVaultRewardRouter.t) (at_ (AOperatorVaultRewardRouter o n e)) (at_ (AOperatorSnapshot o n e))
    (fun s : OperatorSnapshot.t => List.length (OperatorSnapshot.vault_operator_stake_weight s)) 64.

Lemma ncn_moves_on st cfg es rc m p (s s' : Store D) :
  executes (at_clock := at_clock) (RouteNCNRewards.instruction
    (RouteNCNRewards.mk st cfg n es (at_ (ABallotBox n e)) (at_ (ANCNRewardRouter n e)) rc) m e) s s' ->
  ncn_at p s ->
  exists r : NCNRewardRouter.t, router_at s' (at_ (ANCNRewardRouter n e)) r
    /\ (still r = true -> p < position r < 256) /\ ncn_at (position r) s'.
Proof.
  intros H [(b & Hob & Hb & Hl) (r & Hr & <-)]. inversion H as [clock a args t t' Hrun|a t t' Hne]; subst; [|done].
  unfold process_instruction in Hrun. rewrite Z.eqb_refl in Hrun.
  unfold mbind at 1, lift at 1 in Hrun. cbn [negb] in Hrun.
  eapply route_advances in Hrun as [(r' & Hr' & Hp) Hbox]; [|exact Hb|by rewrite Hl|exact Hr].
  rewrite Hl in Hp. exists r'. split; [exact Hr'|]. split; [exact Hp|]. split; [|by exists r'].
  exists b. cbn [key new_readonly] in Hbox. destruct Hbox as [-> ->]. done.
Qed.
Lemma operator_moves_on o st rc m p (s s' : Store D) :
  executes (at_clock := at_clock) (RouteOperatorVaultRewards.instruction
    (RouteOperatorVaultRewards.mk st n o (at_ (AOperatorSnapshot o n e)) (at_ (AOperatorVaultRewardRouter o n e)) rc) m e)
    s s' ->
  operator_at o p s ->
  exists r : OperatorVaultRewardRouter.t, router_at s' (at_ (AOperatorVaultRewardRouter o n e)) r
    /\ (still r = true -> p < position r < 64) /\ operator_at o (position r) s'.
Proof.
  intros H [(b & Hob & Hb & Hl) (r & Hr & <-)]. inversion H as [clock a args t t' Hrun|a t t' Hne]; subst; [|done].
  unfold process_instruction in Hrun. rewrite Z.eqb_refl in Hrun.
  unfold mbind at 1, lift at 1 in Hrun. cbn [negb] in Hrun.
  eapply operator_route_advances in Hrun as [(r' & Hr' & Hp) Hbox]; [|exact Hb|by rewrite Hl|exact Hr].
  rewrite Hl in Hp. exists r'. split; [exact Hr'|]. split; [exact Hp|]. split; [|by exists r'].
  exists b. cbn [key new_readonly] in Hbox. destruct Hbox as [-> ->]. done.
Qed.

(** C29: the client's routing loops end. On a node that tells the truth and with
    nobody else moving the ledger, at most 257 rounds, whatever the rewards, the
    votes and the delegations: neither loop ever runs out of fuel or panics, each
    returns with its router no longer routing, and when a request fails on the
    way, the ledger is one that the loop can be started on again. *)
Theorem client_routing_ends fuel o :
  (256 < fuel)%nat ->
  ends (fun s => exists p, ncn_at p s) (route_ncn_rewards fuel handler e)
    (fun _ s => exists r : NCNRewardRouter.t, router_at s (at_ (ANCNRewardRouter n e)) r
                /\ NCNRewardRouter.still_routing r = false)
    (fun s => exists p, ncn_at p s)
  /\ ends (fun s => exists p, operator_at o p s) (route_operator_vault_rewards fuel handler o e)
    (fun _ s => exists r : OperatorVaultRewardRouter.t, router_at s (at_ (AOperatorVaultRewardRouter o n e)) r
                /\ OperatorVaultRewardRouter.still_routing r = false)
    (fun s => exists p, operator_at o p s).
Proof.
  intros Hf. split.
  - unfold route_ncn_rewards. apply (loop_ends (routing := NcnRouting.routing) (at_ (ANCNRewardRouter n e)) (at_ (ABallotBox n e))
      (fun b : BallotBox.t => List.length (BallotBox.operator_votes b)) 256 (process_route_ncn_rewards handler e)
      (get_ncn_reward_router handler e)); [| |lia].
    + intros p s Hp. unfold process_route_ncn_rewards. eapply ends_known; [exact known|]. derive.
      apply instruction_ends; [|done]. intros p' s1 s2. apply ncn_moves_on.
    + intros r s Hr. unfold get_ncn_reward_router. eapply ends_known; [exact known|]. derive. by apply found_ends.
  - unfold route_operator_vault_rewards. apply (loop_ends (routing := OperatorRouting.routing)
      (at_ (AOperatorVaultRewardRouter o n e)) (at_ (AOperatorSnapshot o n e))
      (fun s : OperatorSnapshot.t => List.length (OperatorSnapshot.vault_operator_stake_weight s)) 64
      (process_route_operator_vault_rewards handler o e) (get_operator_vault_reward_router handler o e)); [| |lia].
    + intros p s Hp. unfold process_route_operator_vault_rewards. eapply ends_known; [exact known|]. derive.
      apply instruction_ends; [|done]. intros p' s1 s2. apply operator_moves_on.
    + intros r s Hr. unfold get_operator_vault_reward_router. eapply ends_known; [exact known|]. derive.
      by apply found_ends.
Qed.
End ledger.
