(* ===== verification/Creation.v ===== *)
(** The client's creation of a ballot box ([create_ballot_box] in
    [cli/src/instructions.rs]): the transaction that initializes it, if there is no
    account yet, and the one that grows it to its size. *)
From stdpp Require Import relations strings.
From S2P Require Import Prelude Errors Precise Stake Registry Weights Fees Snapshots Voting EpochStates.
From S2P Require Import NcnRouter OperatorRouter Consensus Accounts Machine Lamports Frames VoteHandlers.
From S2P Require Import AdminHandlers SnapshotHandlers RewardHandlers CloseHandlers Program Authority Chain Elections.
From S2P Require Import Client Getters Commands Keeper Sends Cranks Routing.

(** [num_reallocs] calls after the creation reach the size, and one less does
    not, for the accounts that the client grows. *)
Lemma num_reallocs_enough size : size ∈ [Size.VaultRegistry; Size.WeightTable; Size.BallotBox; Size.NCNRewardRouter] ->
  MAX_REALLOC_BYTES * num_reallocs size < size <= MAX_REALLOC_BYTES * (num_reallocs size + 1).
Proof.
  revert size. apply list.Forall_forall. repeat constructor; vm_compute; done.
Qed.

(** It is not so for any size: the quotient of [f64] is rounded down to an integer
    here, and the [ceil] then gives one too few. *)
Example num_reallocs_rounds :
  let size := 9007199254743041 in
  num_reallocs size = 879609302220 /\ MAX_REALLOC_BYTES * (num_reallocs size + 1) < size.
Proof. vm_compute. split; reflexivity. Qed.

Section creation.
Context {D W : Type} {data : AccountData D} {bytes : AccountBytes D} {runtime : Runtime}
  {at_clock : Clock -> Externals D} {system : System D} {P : PreciseNumber}.
Context {s_config : Stored D Config.t} {s_registry : Stored D VaultRegistry.t}
  {s_table : Stored D WeightTable.t} {s_epoch : Stored D EpochSnapshot.t}
  {s_operator : Stored D OperatorSnapshot.t} {s_box : Stored D BallotBox.t}
  {s_result : Stored D ConsensusResult.t} {s_router : Stored D NCNRewardRouter.t}
  {s_op_router : Stored D OperatorVaultRewardRouter.t} {s_marker : Stored D EpochMarker.t}
  {s_state : Stored D EpochState.t}.
Context {l_system : SystemLaws D} {l_ext : forall c, ExternalsLaws D (ext := at_clock c)}
  {l_bytes : AccountBytesLaws D} {l_box : StoredLaws D BallotBox.t} {l_state : StoredLaws D EpochState.t}.
Context (collision_free : forall l l', (find_pda l id).1 = (find_pda l' id).1 -> concat l = concat l').
Context (clock_read : forall c, get_clock (Externals := at_clock c) = Ok c).
Abbreviation at_ a := (address_of (runtime := runtime) id a).
Abbreviation runs := (executes (at_clock := at_clock)).
Abbreviation runs_all := (executes_all (at_clock := at_clock)).

Lemma executed program_id accounts d args s s' : runs (Ncn program_id accounts d args) s s' -> program_id = id ->
  exists clock, process_instruction (ext := at_clock clock) id accounts (Ok args) s = (Ok tt, s').
Proof.
  intros H He. inversion H as [clock a args' t t' Hrun|ix t t' Hne]; subst; [by exists clock|done].
Qed.

Lemma reallocs_of epoch_state config ballot_box ncn payer system_program e k s s' :
  runs_all (replicate k (ReallocBallotBox.instruction
    (ReallocBallotBox.mk epoch_state config ballot_box ncn payer system_program) e)) s s' ->
  exists l, List.length l = k
  /\ reallocs (at_clock := at_clock) [new epoch_state false; new_readonly config false; new ballot_box false;
       new_readonly ncn false; new payer false; new_readonly system_program false] e l s = (Ok tt, s').
Proof.
  revert s. induction k as [|k IH]; intros s H; inversion H as [|ix l t s1 t' Hx Hl]; subst; [by exists []|].
  destruct (executed _ _ _ _ _ _ Hx eq_refl) as [clock Hrun]. destruct (IH _ Hl) as (l & <- & Hr).
  exists (clock :: l). split; [done|]. unfold process_instruction in Hrun. rewrite Z.eqb_refl in Hrun.
  unfold mbind at 1, lift at 1 in Hrun. cbn [negb] in Hrun. 
  apply mbind_ok. exists tt, s1. split; [exact Hrun|exact Hr].
Qed.

(** What the first transaction leaves. *)
Lemma box_initialized marker epoch_state config ballot_box ncn payer system_program result e s s' :
  runs (InitializeBallotBox.instruction
    (InitializeBallotBox.mk marker epoch_state config ballot_box ncn payer system_program result) e) s s' ->
  ballot_box = at_ (ABallotBox ncn e) /\ epoch_state = at_ (AEpochState ncn e)
  /\ Account.owner (s' ballot_box) = id /\ Account.data (s' ballot_box) = zeros MAX_REALLOC_BYTES.
Proof.
  intros [clock H]%executed; [|done]. unfold process_instruction in H. rewrite Z.eqb_refl in H.
  unfold mbind at 1, lift at 1 in H. cbn [negb] in H. unfold process_initialize_ballot_box in H. cbn [app] in H. hinv H.
  apply mbind_ok in H as (u1 & s1 & Hc & H). apply create_ok in Hc as (_ & _ & Ho & Hd). hinv H.
  match type of H with ?m _ = _ => assert (touches [result] m) as T by touching end.
  assert (ballot_box = at_ (ABallotBox ncn e)) as Hbox
    by (eapply (at_pda id (seeds_of (ABallotBox ncn e))); eassumption).
  assert (result = at_ (AConsensusResult ncn e)) as Hres
    by (eapply (at_pda id (seeds_of (AConsensusResult ncn e))); eassumption).
  assert (epoch_state = at_ (AEpochState ncn e)) as Hst
    by (match goal with H : EpochStateAccount.load _ (info _ ?m) _ _ ?w = Ok tt |- _ =>
          exact (at_address id _ m w (AEpochState ncn e) H) end).
  assert (ballot_box ∉ [result]) as Hne.
  { rewrite Hbox, Hres. apply not_elem_of_cons. split; [by apply (addresses_apart collision_free)|apply not_elem_of_nil]. }
  destruct (T _ _ _ H ballot_box Hne) as [Ho1 Hd1]. rewrite Ho1, Hd1. split_and!; [done..|exact Ho|exact Hd].
Qed.

(** The account of a box that is blank, of a length between that of its creation
    and its full size. *)
Definition blank (a : Account.t D) : Prop :=
  Account.owner a = id /\ exists len, MAX_REALLOC_BYTES <= len < Size.BallotBox /\ Account.data a = zeros len.

Lemma two_reallocs : num_reallocs Size.BallotBox = 2.
Proof. by vm_compute. Qed.

(** What the second transaction does to it. *)
Lemma box_grows epoch_state config ballot_box ncn payer system_program e s s' :
  runs_all (repeated (num_reallocs Size.BallotBox) (ReallocBallotBox.instruction
    (ReallocBallotBox.mk epoch_state config ballot_box ncn payer system_program) e)) s s' ->
  epoch_state <> ballot_box ->
  (blank (s ballot_box) -> exists bump slot, in_phase (s' ballot_box) (Open (BallotBox.new ncn e bump slot)))
  /\ (forall b, in_phase (s ballot_box) (Open b) -> in_phase (s' ballot_box) (Open b)).
Proof.
  rewrite two_reallocs. intros Hr Hne. inversion Hr as [|ix l t s1 t' Hx Hl]; subst ix l t t'.
  assert (Account.owner (s ballot_box) = id -> same_data (s1 ballot_box) (s ballot_box)) as Hsame
    by (intros Ho; by apply (compute_budget _ _ _ Hx I)).
  destruct (reallocs_of _ _ _ _ _ _ _ 2 _ _ Hl) as (l & Hlen & Hrun). split.
  - intros (Ho & len & Hb & Hd). destruct (Hsame Ho) as [Ho1 Hd1].
    pose proof (reallocs_grow clock_read (new epoch_state false) (new_readonly config false) (new ballot_box false)
      (new_readonly ncn false) (new payer false) (new_readonly system_program false) e Hne l len s1 s') as Hg.
    cbn [key new new_readonly] in Hg. rewrite Ho1, Hd1, Hlen in Hg. unfold MAX_REALLOC_BYTES in *.
    specialize (Hg ltac:(lia) Ho Hd Hrun). cbv zeta in Hg.
    destruct (Z.leb_spec Size.BallotBox (len + 10240 * Z.of_nat 2)) as [_|Hlt]; [exact Hg|].
    exfalso. revert Hlt. change Size.BallotBox with 22099. lia.
  - intros b Hb. eapply (reallocs_full clock_read (new epoch_state false) (new_readonly config false)
      (new ballot_box false) (new_readonly ncn false) (new payer false) (new_readonly system_program false) e Hne);
      [exact Hrun|]. cbn [key new]. eapply in_phase_same; [exact Hb|]. apply Hsame, Hb.
Qed.

(** ** The client *)
Context (not_system : id <> system_program_id).
Context (ledger : W -> Store D).
Context {rpc : Rpc D W} {partners : Partners D}.
Context {reliable : ReliableNode (at_clock := at_clock) (P := P) ledger}.
Context (handler : CliHandler.t) (n : Pubkey) (e : u64).
Context (deployed : CliHandler.ncn_program_id handler = id) (known : CliHandler.ncn handler = Ok n).
Abbreviation box := (at_ (ABallotBox n e)).

(** The node says that there is no account where there are no lamports. *)
Context (missing : forall k s, Account.lamports (s k) = 0 ->
  ends ledger (eq s) (get_account_with_commitment k) (fun a s' => s = s' /\ a = None) (eq s)).

Lemma ends_from {A} (pre : Store D -> Prop) (m : M W CliError.t A) post error :
  (forall s, pre s -> ends ledger (eq s) m post error) -> ends ledger pre m post error.
Proof. intros H w Hw. exact (H _ Hw w eq_refl). Qed.

(** A transaction, with what is sent for its price left aside. *)
Lemma ends_sent l signers s post error :
  (forall s0 s', (forall k, Account.owner (s k) = id -> same_data (s0 k) (s k)) -> runs_all l s0 s' -> post tt s') ->
  error s -> ends ledger (eq s) (send_and_log_transaction (D := D) handler l signers) post error.
Proof.
  intros Hpost He. eapply ends_weaken; [apply (ends_transaction (P := P) ledger)|done| |by intros ? <-].
  intros [] s' [H|H]; [|by eapply Hpost; [|exact H]].
  inversion H as [|ix l' t s0 t' Hx Hl]; subst ix l' t t'. eapply Hpost; [|exact Hl]. by apply (compute_budget _ _ _ Hx).
Qed.

(** No account, or one that was created and not grown to its size. *)
Definition unopened (s : Store D) : Prop := Account.lamports (s box) = 0 \/ blank (s box).

Lemma ends_box_account s : unopened s ->
  ends ledger (eq s) (get_account (D := D) handler box)
    (fun a s' => s = s' /\ match a with Some _ => blank (s box) | None => True end) (eq s).
Proof.
  intros [H0|Hb].
  - intros w Hw. pose proof (missing _ _ H0 w Hw) as H. unfold get_account, mbind.
    destruct (get_account_with_commitment box w) as [[a|err|] w']; [|done..]. by destruct H as [-> ->].
  - eapply ends_weaken; [by apply (ends_get_account (P := P))|done| |done]. intros [a|] s' [-> _]; done.
Qed.

(** The addresses as they were derived. *)
Ltac derive_all :=
  repeat match goal with
  | |- ends _ _ (match ?x with _ => _ end) _ _ =>
      let H := fresh in destruct x as [[? ?] ?] eqn:H; apply derived in H; rewrite ?deployed in H; subst
  end.

Definition initialize_box : Instruction :=
  InitializeBallotBox.instruction (InitializeBallotBox.mk (at_ (AEpochMarker n e)) (at_ (AEpochState n e))
    (at_ (AConfig n)) box n (at_ (AAccountPayer n)) system_program_id (at_ (AConsensusResult n e))) e.
Definition grow_box : Instruction :=
  ReallocBallotBox.instruction (ReallocBallotBox.mk (at_ (AEpochState n e)) (at_ (AConfig n)) box n
    (at_ (AAccountPayer n)) system_program_id) e.

(** What the call does to the ledger, from what its two transactions do. *)
Lemma creation_ends s (created opened bad : Store D -> Prop) :
  ends ledger (eq s) (get_account (D := D) handler box)
    (fun a s' => s = s' /\ match a with Some _ => created s | None => True end) (eq s) ->
  (forall s0 s', (forall k, Account.owner (s k) = id -> same_data (s0 k) (s k)) -> runs initialize_box s0 s' ->
     created s') ->
  (forall s1 s0 s', created s1 -> (forall k, Account.owner (s1 k) = id -> same_data (s0 k) (s1 k)) ->
     runs_all (repeated (num_reallocs Size.BallotBox) grow_box) s0 s' -> opened s') ->
  bad s -> (forall s', created s' -> bad s') ->
  ends ledger (eq s) (create_ballot_box handler e) (fun _ => opened) bad.
Proof.
  intros Hask Hinit Hgrow Hb Hcb. unfold create_ballot_box. eapply ends_known; [exact known|]. derive_all.
  eapply ends_bind; [eapply ends_weaken; [exact Hask|done| |by intros ? <-]; intros a s' H; exact H|].
  intros a. apply ends_from. intros s1 [<- Ha]. eapply (ends_bind ledger _ _ (fun _ => created)).
  - destruct a as [a|]; [intros w Hw; cbn; by rewrite <-Hw|]. apply ends_sent; [|done]. intros s0 s' Hs H.
    eapply Hinit; [exact Hs|]. inversion H as [|ix l' t s1 t' Hx Hl']; subst ix l' t t'. by inversion Hl'; subst.
  - intros _. apply ends_from. intros s1 Hs1. apply ends_sent; [|by apply Hcb]. intros s0 s' Hs H. by eapply Hgrow.
Qed.

Lemma state_apart : at_ (AEpochState n e) <> box.
Proof. by apply (addresses_apart collision_free). Qed.

(** C28: the client creates the ballot box. On a node that tells the truth and with
    nobody else moving the ledger: from a ledger without the account of the box, or
    where it was created and not grown to its size, [create_ballot_box] leaves, when
    it returns, the empty ballot box of the NCN and the epoch; when a request fails
    on the way the ledger is one that it can be called on again; and from a ledger
    where the box is open it leaves the box as it is. The number of reallocations
    that the client computes in [f64] is just enough for each of the four accounts
    that it grows. *)
Theorem client_creates_the_box :
  ends ledger unopened (create_ballot_box handler e)
    (fun _ s => exists bump slot, in_phase (s box) (Open (BallotBox.new n e bump slot)))
    unopened
  /\ (forall b, ends ledger (fun s => in_phase (s box) (Open b)) (create_ballot_box handler e)
        (fun _ s => in_phase (s box) (Open b)) (fun s => in_phase (s box) (Open b)))
  /\ forall size, size ∈ [Size.VaultRegistry; Size.WeightTable; Size.BallotBox; Size.NCNRewardRouter] ->
       MAX_REALLOC_BYTES * num_reallocs size < size <= MAX_REALLOC_BYTES * (num_reallocs size + 1).
Proof.
  split; [|split; [|exact num_reallocs_enough]].
  - apply ends_from. intros s Hs. apply (creation_ends s (fun s' => blank (s' box))).
    + by apply ends_box_account.
    + intros s0 s' _ H. apply box_initialized in H as (_ & _ & Ho & Hd). split; [done|].
      exists MAX_REALLOC_BYTES. split; [by vm_compute|done].
    + intros s1 s0 s' (Ho & len & Hl & Hd) Hsame Hr. eapply box_grows; [exact Hr|exact state_apart|].
      destruct (Hsame _ Ho) as [Ho' Hd']. split; [congruence|]. exists len. split; [done|congruence].
    + done.
    + intros s' Hs'. by right.
  - intros b. apply ends_from. intros s Hs. apply (creation_ends s (fun s' => in_phase (s' box) (Open b))).
    + eapply ends_weaken; [by apply (ends_get_account (P := P))|done| |done]. intros [a|] s' [-> _]; done.
    + intros s0 s' Hsame H. pose proof (Hsame _ (proj1 Hs)) as Hs0. apply executed in H as [clock H]; [|done].
      unfold process_instruction in H. rewrite Z.eqb_refl in H. unfold mbind at 1, lift at 1 in H. cbn [negb] in H.
      eapply in_phase_same; [exact Hs|]. etrans; [|exact Hs0]. eapply initialize_box_spares; [exact not_system|exact H|].
      destruct Hs0 as [-> _]. apply Hs.
    + intros s1 s0 s' Hs1 Hsame Hr. eapply box_grows; [exact Hr|exact state_apart|].
      eapply in_phase_same; [exact Hs1|]. apply Hsame, Hs1.
    + done.
    + done.
Qed.
End creation.
