(* ===== verification/Scenario.v ===== *)
(** One epoch of one NCN, instruction by instruction, on the concrete memory:
    the NCN is configured, the weights are set, the stake is counted, the vote
    is cast, the rewards are routed and paid, and every account of the epoch is
    closed. *)
From S2P Require Import Prelude Errors Precise Stake Registry Weights Fees Snapshots Voting EpochStates.
From S2P Require Import NcnRouter OperatorRouter Consensus Accounts Machine Lamports Cells VoteHandlers.
From S2P Require Import AdminHandlers SnapshotHandlers RewardHandlers CloseHandlers Program.
Import NCNProgramInstruction.

Definition run {E A} (m : M (Store cell) E A) (s : Store cell) : result E A := fst (m s).

(** A transaction: the clock it runs at, its accounts and its instruction. *)
Record transaction := tx { at_clock : Clock; accounts : list Meta; instruction : NCNProgramInstruction.t }.
Definition execute (t : transaction) : M (Store cell) ProgramError.t unit :=
  process_instruction (ext := externals (at_clock t)) (P := fixed_point) id (accounts t) (Ok (instruction t)).
Definition execute_all (l : list transaction) : M (Store cell) ProgramError.t unit :=
  foldr (fun t k => let* _ := execute t in k) (ret tt) l.

(** ** The accounts *)
Definition r (k : Pubkey) : Meta := meta k false false.
Definition w (k : Pubkey) : Meta := meta k false true.
Definition signer (k : Pubkey) : Meta := meta k true true.

Definition ncn : Pubkey := 7.
Definition epoch : u64 := 5.
Definition operator : Pubkey := 31.
Definition vault : Pubkey := 51.
Definition mint : Pubkey := 81.
Definition system_program : Pubkey := 0.
Definition restaking_config : Pubkey := 71.
Definition ncn_operator_state : Pubkey := 72.
Definition ncn_vault_ticket : Pubkey := 73.
Definition vault_ncn_ticket : Pubkey := 74.
Definition vault_operator_delegation : Pubkey := 75.
Definition admin : Pubkey := 61.
Definition weight_table_admin : Pubkey := 62.
Definition program_admin : Pubkey := 63.
Definition voter : Pubkey := 41.
Definition tie_breaker_admin : Pubkey := 42.
Definition fee_wallet : Pubkey := 91.

Definition config : Pubkey := pda (ConfigAccount.seeds ncn).
Definition registry : Pubkey := pda (VaultRegistryAccount.seeds ncn).
Definition payer : Pubkey := pda (AccountPayer.seeds ncn).
Definition state : Pubkey := pda (EpochStateAccount.seeds ncn epoch).
Definition marker : Pubkey := pda (EpochMarker.seeds ncn epoch).
Definition table : Pubkey := pda (WeightTableAccount.seeds ncn epoch).
Definition epoch_snapshot : Pubkey := pda (EpochSnapshotAccount.seeds ncn epoch).
Definition operator_snapshot : Pubkey := pda (OperatorSnapshotAccount.seeds operator ncn epoch).
Definition box : Pubkey := pda (BallotBoxAccount.seeds ncn epoch).
Definition result_account : Pubkey := pda (ConsensusResultAccount.seeds ncn epoch).
Definition router : Pubkey := pda (NCNRewardRouterAccount.seeds ncn epoch).
Definition receiver : Pubkey := pda (NCNRewardReceiver.seeds ncn epoch).
Definition operator_router : Pubkey := pda (OperatorVaultRewardRouterAccount.seeds operator ncn epoch).
Definition operator_receiver : Pubkey := pda (OperatorVaultRewardReceiver.seeds operator ncn epoch).

(** What exists before: the accounts of the other programs, and a payer with
    lamports. *)
Definition outside (owner : Pubkey) (c : content) : Account.t cell := Account.mk owner 1000 (Cell 100 9 c).
Definition genesis : Store cell := store_of
  [(ncn, outside 1 (CNcn admin weight_table_admin program_admin 1 1));
   (operator, outside 1 (COperator voter 500 0));
   (vault, outside 2 (CVault 0 mint 50));
   (restaking_config, outside 1 (CRestakingConfig 10));
   (ncn_operator_state, outside 1 (COperatorState 0 20));
   (ncn_vault_ticket, outside 1 (CTicket 20));
   (vault_ncn_ticket, outside 2 (CTicket 20));
   (vault_operator_delegation, outside 2 (CDelegation 1000));
   (payer, Account.mk 0 100000000 (zeros 0))].

(** ** The transactions *)
Definition early := mk_clock 52 5.
Definition voting := mk_clock 55 5.
Definition routing := mk_clock 1100 6.

Definition set_up : list transaction :=
  [tx early [w config; r ncn; r fee_wallet; signer admin; r tie_breaker_admin; w payer; r system_program]
     (InitializeConfig 2 10 1000 300);
   tx early [r config; w registry; r ncn; w payer; r system_program] InitializeVaultRegistry;
   tx early [r config; w registry; r ncn; w payer; r system_program] ReallocVaultRegistry;
   tx early [r config; r ncn; r mint; w registry; signer program_admin] (AdminRegisterStMint (Some 3));
   tx early [r config; w registry; r ncn; r vault; r ncn_vault_ticket] RegisterVault].

Definition weigh : list transaction :=
  [tx early [r marker; w state; r config; r ncn; w payer; r system_program] (InitializeEpochState epoch);
   tx early [r marker; w state; r registry; r ncn; w table; w payer; r system_program] (InitializeWeightTable epoch);
   tx early [w state; r config; w table; r ncn; r registry; w payer; r system_program] (ReallocWeightTable epoch);
   tx early [w state; r ncn; r registry; w table] (SetEpochWeights epoch)].

Definition count : list transaction :=
  [tx early [r marker; w state; r config; r ncn; r table; w epoch_snapshot; w payer; r system_program]
     (InitializeEpochSnapshot epoch);
   tx early [r marker; w state; r config; r restaking_config; r ncn; r operator; r ncn_operator_state;
             w epoch_snapshot; w operator_snapshot; w payer; r system_program] (InitializeOperatorSnapshot epoch);
   tx early [w state; r config; r restaking_config; r ncn; r operator; r vault; r vault_ncn_ticket;
             r ncn_vault_ticket; r vault_operator_delegation; r table; w epoch_snapshot; w operator_snapshot]
     (SnapshotVaultOperatorDelegation epoch)].

Definition open_box : list transaction :=
  [tx early [r marker; w state; r config; w box; r ncn; w payer; r system_program; w result_account]
     (InitializeBallotBox epoch);
   tx early [w state; r config; w box; r ncn; w payer; r system_program] (ReallocBallotBox epoch);
   tx early [w state; r config; w box; r ncn; w payer; r system_program] (ReallocBallotBox epoch)].

Definition vote_metas' : list Meta :=
  [w state; r config; w box; r ncn; r epoch_snapshot; r operator_snapshot; r operator; signer voter; w result_account].
Definition vote : list transaction := [tx voting vote_metas' (CastVote 1 epoch)].

Definition open_routers : list transaction :=
  [tx routing [r marker; w state; r ncn; w router; w receiver; w payer; r system_program]
     (InitializeNCNRewardRouter epoch);
   tx routing [w state; r config; w router; r ncn; w payer; r system_program] (ReallocNCNRewardRouter epoch);
   tx routing [r marker; w state; r ncn; r operator; r operator_snapshot; w operator_router; w operator_receiver;
               w payer; r system_program] (InitializeOperatorVaultRewardRouter epoch)].

(** The rewards arrive as a plain transfer of lamports. *)
Definition rewards : u64 := 100000.
Definition fund (s : Store cell) : Store cell :=
  update receiver (fun a => set_lamports (Account.lamports a + rewards) a) s.

(** Routing to the vaults takes two instalments. *)
Definition pay : list transaction :=
  [tx routing [w state; r config; r ncn; r epoch_snapshot; r box; w router; w receiver] (RouteNCNRewards 5 epoch);
   tx routing [w state; r config; r ncn; w router; w receiver; w fee_wallet; r system_program]
     (DistributeNCNRewards epoch);
   tx routing [w state; r config; r ncn; w router; w receiver; w FeeConfig.PROTOCOL_FEE_WALLET; r system_program]
     (DistributeProtocolRewards epoch);
   tx routing [w state; r config; r ncn; r operator; w router; w receiver; w operator_router; w operator_receiver;
               r system_program] (DistributeOperatorVaultRewardRoute epoch);
   tx routing [w state; r ncn; r operator; r operator_snapshot; w operator_router; w operator_receiver]
     (RouteOperatorVaultRewards 5 epoch);
   tx routing [w state; r ncn; r operator; r operator_snapshot; w operator_router; w operator_receiver]
     (RouteOperatorVaultRewards 100 epoch);
   tx routing [w state; r config; r ncn; w operator; w operator_snapshot; w operator_router; w operator_receiver;
               r system_program] (DistributeOperatorRewards epoch);
   tx routing [w state; r config; r ncn; r operator; w vault; w operator_snapshot; w operator_router;
               w operator_receiver; r system_program] (DistributeVaultRewards epoch)].

Definition closing (k : Pubkey) (optional : list Meta) : transaction :=
  tx routing ([w marker; w state; r config; r ncn; w k; w payer; r system_program] ++ optional)
    (CloseEpochAccount epoch).
Definition close_all : list transaction :=
  [closing table []; closing epoch_snapshot []; closing operator_snapshot []; closing box [];
   closing router [w fee_wallet; w receiver]; closing operator_router [w fee_wallet; w operator_receiver];
   closing state []].

Definition after (l : list transaction) (s : Store cell) : Store cell := snd (execute_all l s).
Definition weighed : Store cell := after (set_up ++ weigh) genesis.
Definition counted : Store cell := after (count ++ open_box) weighed.
Definition voted : Store cell := after vote counted.
Definition paid : Store cell := after pay (fund (after open_routers voted)).
