(* ===== verification/Deviations.v ===== *)
(** Where the code does something else than it says: concrete runs. *)
From S2P Require Import Prelude Errors Precise Stake Registry Weights Fees Snapshots Voting EpochStates.
From S2P Require Import NcnRouter OperatorRouter Consensus Accounts Machine Lamports Cells VoteHandlers.
From S2P Require Import AdminHandlers SnapshotHandlers RewardHandlers CloseHandlers Program Scenario.
Import NCNProgramInstruction.

(** ** Closing the epoch state of another NCN

    NCN 8 is in the middle of its epoch; NCN 7 has closed everything of its own
    epoch but the state. *)
Definition other_ncn : Pubkey := 8.
Definition other_state : Pubkey := pda (EpochStateAccount.seeds other_ncn epoch).
Definition other_marker : Pubkey := pda (EpochMarker.seeds other_ncn epoch).
Definition almost_closed : Store cell := after (removelast close_all) paid.
Definition other_running : Account.t cell :=
  Account.mk id 5000 (Cell Size.EpochState 0x50 (CState (EpochState.new other_ncn epoch 255 52))).
Definition two_ncns : Store cell := update other_state (fun _ => other_running) almost_closed.

(** The instruction names NCN 7 and its accounts, and goes through with the other
    NCN's state as the account to close: the state is gone, its lamports are
    NCN 7's, and there is no marker, so that the epoch can be started anew. *)
Lemma foreign_epoch_state_is_closed :
  let '(r, s) := execute (closing other_state []) two_ncns in
  r = Ok tt /\ Account.owner (s other_state) = 0 /\ data_len (Account.data (s other_state)) = 0
  /\ Account.lamports (s payer) = Account.lamports (two_ncns payer) + 5000
  /\ data_len (Account.data (s other_marker)) = 0.
Proof. vm_compute. split_and!; reflexivity. Qed.

(** ** A restaking configuration of one's own

    The snapshot of an operator reads the length of an epoch from whatever
    account is passed; the operator is active with the real configuration, and
    left out with an account of somebody else's. *)
Definition fake_config : Pubkey := 666.
Definition with_fake : Store cell :=
  update fake_config (fun _ => Account.mk 667 1 (Cell 100 9 (CRestakingConfig 1000000)))
    (after (firstn 1 count) weighed).
Definition snapshot_with (c : Pubkey) : transaction :=
  tx early [r marker; w state; r config; r c; r ncn; r operator; r ncn_operator_state;
            w epoch_snapshot; w operator_snapshot; w payer; r system_program] (InitializeOperatorSnapshot epoch).
Definition operator_active (s : Store cell) : option bool :=
  match try_from_slice (T := OperatorSnapshot.t) (Account.data (s operator_snapshot)) with
  | Ok o => Some (OperatorSnapshot.is_active o)
  | _ => None
  end.

Lemma restaking_config_is_not_checked :
  (let '(r, s) := execute (snapshot_with restaking_config) with_fake in r = Ok tt /\ operator_active s = Some true)
  /\ (let '(r, s) := execute (snapshot_with fake_config) with_fake in r = Ok tt /\ operator_active s = Some false).
Proof. vm_compute. split_and!; reflexivity. Qed.

(** ** Too few accounts to close

    [split_at] panics before the arm that returns [NotEnoughAccountKeys]. *)
Lemma closing_with_few_accounts_panics {D : Type} {data : AccountData D} {bytes : AccountBytes D} {runtime : Runtime}
    {ext : Externals D} {system : System D} {s_config : Stored D Config.t} {s_operator : Stored D OperatorSnapshot.t}
    {s_op_router : Stored D OperatorVaultRewardRouter.t} {s_marker : Stored D EpochMarker.t}
    {s_state : Stored D EpochState.t} program_id accounts e (s : Store D) :
  (List.length accounts < 7)%nat -> process_close_epoch_account program_id accounts e s = (Panic, s).
Proof. intros H. do 7 (destruct accounts as [|? accounts]; [done|]). cbn in H. lia. Qed.
