(* ===== verification/Examples.v ===== *)
(** The theorems about the ledger at the ledger of [Scenario]. *)
From stdpp Require Import relations countable.
From S2P Require Import Prelude Errors Precise Stake Registry Weights Fees Snapshots Voting EpochStates.
From S2P Require Import Electorate Polls NcnRouter OperatorRouter Consensus Accounts Machine Lamports Cells VoteHandlers.
From S2P Require Import AdminHandlers SnapshotHandlers RewardHandlers CloseHandlers Program Frames Authority.
From S2P Require Import Backing Scenario Chain Elections Frozen Majority Turnout Payouts Conservation Gains Solvency.
Import NCNProgramInstruction.

(** ** What the theorems assume *)

Lemma no_collisions l l' : (find_pda l id).1 = (find_pda l' id).1 -> concat l = concat l'.
Proof. intros H. apply (encode_inj (concat l)). injection H as H. exact H. Qed.
Lemma id_not_system : id <> system_program_id.
Proof. discriminate. Qed.
Lemma id_not_restaking c : restaking_program_id (Externals := externals c) <> id.
Proof. discriminate. Qed.

(** ** The handlers *)

Definition ballot_accounts : vote_accounts :=
  Build_vote_accounts (w state) (r config) (w box) (r ncn) (r epoch_snapshot) (r operator_snapshot) (r operator)
    (signer voter) (w result_account).

(** The operator's weight is all there is: its vote decides. *)
Lemma cast_vote_handler_spec_witness :
  id <> restaking_program_id (Externals := externals voting)
  /\ exists v s', process_cast_vote (ext := externals voting) (P := fixed_point) id
       (vote_metas ballot_accounts ++ []) 1 epoch counted = (Ok tt, s')
     /\ vote_accepted (ext := externals voting) (P := fixed_point) id ballot_accounts 1 epoch counted v
     /\ vote_effect ballot_accounts counted v s'.
Proof.
  assert (id <> restaking_program_id (Externals := externals voting)) as Hne by discriminate.
  split; [exact Hne|].
  pose proof (cast_vote_handler_spec (ext := externals voting) (P := fixed_point) id ballot_accounts [] 1 epoch
    counted Hne) as H.
  assert (fst (process_cast_vote (ext := externals voting) (P := fixed_point) id
    (vote_metas ballot_accounts ++ []) 1 epoch counted) = Ok tt) as Hf by (vm_compute; reflexivity).
  destruct (process_cast_vote id (vote_metas ballot_accounts ++ []) 1 epoch counted) as [res s'].
  cbn [fst] in Hf. subst res. destruct H as (v & Ha & He). exists v, s'. split; [reflexivity|]. split; [exact Ha|exact He].
Defined.

(** With three times the weight in the snapshot the vote does not decide, and the
    epoch stalls. *)
Definition with_total (total : u128) (s : Store cell) : Store cell :=
  match try_from_slice (T := EpochSnapshot.t) (Account.data (s epoch_snapshot)) with
  | Ok snapshot => write epoch_snapshot (snapshot <| EpochSnapshot.stake_weights := StakeWeights.mk total |>) s
  | _ => s
  end.
Definition stalled : Store cell := after vote (with_total 9000 counted).
Definition late := mk_clock 70 7.
Definition tie_metas : list Meta := [w state; r config; w box; r ncn; signer tie_breaker_admin].

Lemma tie_breaker_handler_spec_witness :
  0 <= 1 /\ exists s', process_admin_set_tie_breaker (ext := externals late) id tie_metas 1 epoch stalled = (Ok tt, s')
    /\ exists b : BallotBox.t, try_from_slice (Account.data (s' box)) = Ok b.
Proof.
  assert (0 <= 1) as H0 by lia. split; [exact H0|].
  pose proof (tie_breaker_handler_spec (ext := externals late) id (w state) (r config) (w box) (r ncn)
    (signer tie_breaker_admin) epoch stalled 1 H0) as H.
  assert (fst (process_admin_set_tie_breaker (ext := externals late) id
    [w state; r config; w box; r ncn; signer tie_breaker_admin] 1 epoch stalled) = Ok tt) as Hf by (vm_compute; reflexivity).
  unfold tie_metas. destruct (process_admin_set_tie_breaker id [_; _; _; _; _] 1 epoch stalled) as [res s'].
  cbn [fst] in Hf. subst res. destruct H as (_ & _ & _ & b & _ & _ & Hb & _).
  exists s'. split; [reflexivity|]. exists b. exact Hb.
Defined.

(** ** The ledger *)


(** ** Runs *)

Abbreviation ledger_step :=
  (step (D := cell) (at_clock := externals) (P := fixed_point)).

Definition weights_ok (s : Store cell) (m : Meta) : bool :=
  match try_from_slice (T := OperatorSnapshot.t) (Account.data (s (key m))) with
  | Ok o => let x := StakeWeights.stake_weight (OperatorSnapshot.stake_weights o) in (0 <=? x) && (x <=? u128_MAX)
  | _ => true
  end
  && match try_from_slice (T := EpochSnapshot.t) (Account.data (s (key m))) with
     | Ok e => let x := StakeWeights.stake_weight (EpochSnapshot.stake_weights e) in (0 <=? x) && (x <=? u128_MAX)
     | _ => true
     end.
Definition status_ok (ix : NCNProgramInstruction.t) : bool :=
  match ix with CastVote status _ | AdminSetTieBreaker status _ => 0 <=? status | _ => true end.
(** An account that may be an operator's: it is owned by the restaking program. *)
Definition key_ok (s : Store cell) (m : Meta) : bool :=
  negb (Account.owner (s (key m)) =? 1) || ((0 <=? key m) && (key m <? 2 ^ 256)).
Definition transaction_ok (t : transaction) (s : Store cell) : bool :=
  (0 <=? slot (at_clock t)) && (slot (at_clock t) <? u64_MAX) && status_ok (instruction t)
  && forallb (weights_ok s) (accounts t) && forallb (key_ok s) (accounts t).
(** Every transaction is well typed and goes through. *)
Fixpoint all_ok (l : list transaction) (s : Store cell) : bool :=
  match l with
  | [] => true
  | t :: l =>
      transaction_ok t s && match execute t s with (Ok _, s') => all_ok l s' | _ => false end
  end.

Lemma transaction_ok_typed t s : transaction_ok t s = true ->
  well_typed (at_clock := externals) (at_clock t) (accounts t) (instruction t) s.
Proof.
  unfold transaction_ok. rewrite !andb_true_iff, !forallb_forall. intros ((((H1 & H2) & H3) & H4) & H5).
  split; [lia|destruct (instruction t); try done; cbn in H3; lia|..].
  - intros m w Hm%list_elem_of_In%H5 Ho%(load_operator_owner (ExternalsLaws := externals_laws (at_clock t))).
    unfold key_ok in Hm. cbn in Ho. rewrite Ho in Hm. cbn in Hm. unfold is_pubkey. lia.
  - intros m o Hm%list_elem_of_In%H4 Ho. unfold weights_ok, stored_at in *. rewrite Ho in Hm.
    apply andb_true_iff in Hm as [Hm _]. unfold StakeWeights.wf, in_range. lia.
  - intros m o Hm%list_elem_of_In%H4 Ho. unfold weights_ok, stored_at in *. rewrite Ho in Hm.
    apply andb_true_iff in Hm as [_ Hm]. unfold StakeWeights.wf, in_range. lia.
Qed.

Lemma execute_step t s : transaction_ok t s = true -> fst (execute t s) = Ok tt -> ledger_step s (snd (execute t s)).
Proof.
  intros Ht%transaction_ok_typed Hx. eapply step_instruction; [exact Ht|].
  change (execute t s = (Ok tt, snd (execute t s))). destruct (execute t s) as [x s']. cbn in *. by subst x.
Qed.

Lemma run_all l s : all_ok l s = true -> rtc ledger_step s (after l s).
Proof.
  revert s. induction l as [|t l IH]; intros s H; [apply rtc_refl|].
  cbn [all_ok] in H. apply andb_true_iff in H as [Ht H].
  pose proof (execute_step t s Ht) as Hs. unfold after. cbn [execute_all foldr]. unfold mbind at 1.
  destruct (execute t s) as [[[]|e|] s1]; [|done..]. eapply rtc_l; [by apply Hs|by apply IH].
Qed.

Lemma run_to_weighed : rtc ledger_step genesis weighed.
Proof. apply run_all. vm_compute. reflexivity. Qed.
Lemma run_to_counted : rtc ledger_step weighed counted.
Proof. apply run_all. vm_compute. reflexivity. Qed.
Lemma run_to_voted : rtc ledger_step counted voted.
Proof. apply run_all. vm_compute. reflexivity. Qed.
Lemma run_routers : rtc ledger_step voted (after open_routers voted).
Proof. apply run_all. vm_compute. reflexivity. Qed.

(** The vote is recorded, and stays so while the routers are opened. *)
Lemma outcome_is_final_witness :
  exists res, recorded voted ncn epoch res /\ ConsensusResult.weather_status res = 1
  /\ exists res', recorded (after open_routers voted) ncn epoch res' /\ ConsensusResult.weather_status res' = 1.
Proof.
  set (res := ConsensusResult.mk 7 5 3000 3000 55 255 1). exists res.
  assert (recorded voted ncn epoch res) as Hr by (vm_compute; split_and!; reflexivity).
  split; [exact Hr|]. split; [reflexivity|].
  destruct (outcome_is_final no_collisions id_not_system id_not_restaking _ _ _ _ _ Hr run_routers)
    as (res' & Hr' & Hs & _).
  exists res'. split; [exact Hr'|]. rewrite Hs. reflexivity.
Defined.

Definition voted_box : BallotBox.t :=
  match try_from_slice (T := BallotBox.t) (Account.data (voted box)) with Ok b => b | _ => zero_box end.
Lemma voted_open : in_phase (voted (address_of id (ABallotBox ncn epoch))) (Open voted_box).
Proof. vm_compute. split_and!; [reflexivity|reflexivity|discriminate|reflexivity]. Qed.

Lemma ballot_boxes_are_well_formed_witness :
  Account.owner (genesis (address_of id (ABallotBox ncn epoch))) <> id
  /\ exists b, try_from_slice (Account.data (voted box)) = Ok b /\ BallotBox.wf b
     /\ to_bytes (BallotBox.ncn b) = to_bytes ncn /\ to_le_bytes 8 (BallotBox.epoch b) = to_le_bytes 8 epoch.
Proof.
  assert (Account.owner (genesis (address_of id (ABallotBox ncn epoch))) <> id) as H0 by (vm_compute; discriminate).
  split; [exact H0|].
  destruct (ballot_boxes_are_well_formed (P := fixed_point) no_collisions id_not_system id_not_restaking (fun c => eq_refl)
    genesis voted ncn epoch H0) as [(n & Hn & Hz)|(_ & _ & Hb)].
  - eapply rtc_trans; [exact run_to_weighed|]. eapply rtc_trans; [exact run_to_counted|exact run_to_voted].
  - apply voted_open.
  - exfalso. pose proof (proj1 (proj2 voted_open)) as Hd. rewrite Hz in Hd. discriminate Hd.
  - exact Hb.
Defined.

Lemma votes_on_the_ledger_are_final_witness :
  in_phase (voted (address_of id (ABallotBox ncn epoch))) (Open voted_box)
  /\ BallotBox.winning_ballot voted_box = Ballot.mk 1 true
  /\ ((exists t, rtc ledger_step voted t /\ rtc ledger_step t (after open_routers voted)
         /\ Account.owner (t (address_of id (ABallotBox ncn epoch))) <> id)
      \/ exists b', in_phase (after open_routers voted (address_of id (ABallotBox ncn epoch))) (Open b')
         /\ BallotBox.winning_ballot b' = Ballot.mk 1 true).
Proof.
  split; [exact voted_open|].
  assert (BallotBox.winning_ballot voted_box = Ballot.mk 1 true) as Hw by (vm_compute; reflexivity).
  split; [exact Hw|].
  destruct (votes_on_the_ledger_are_final (P := fixed_point) no_collisions id_not_system id_not_restaking
    (fun c => eq_refl) genesis voted (after open_routers voted) ncn epoch voted_box) as [Hg|(b' & Hb & _ & Hk & _)].
  - vm_compute. discriminate.
  - eapply rtc_trans; [exact run_to_weighed|]. eapply rtc_trans; [exact run_to_counted|exact run_to_voted].
  - exact voted_open.
  - exact run_routers.
  - left. exact Hg.
  - right. exists b'. split; [exact Hb|]. destruct Hk as [Hk _].
    + unfold BallotBox.has_winning_ballot. rewrite Hw. reflexivity.
    + rewrite Hk. exact Hw.
Defined.

Lemma ballot_box_refines_automaton_witness :
  exists p, phase_step (P := fixed_point) (address_of id (ABallotBox ncn epoch)) (Open voted_box) p
  /\ in_phase (snd (execute (closing table []) (after open_routers voted)) (address_of id (ABallotBox ncn epoch))) p.
Proof.
  assert (transaction_ok (closing table []) (after open_routers voted) = true) as Hok by (vm_compute; reflexivity).
  assert (in_phase (after open_routers voted (address_of id (ABallotBox ncn epoch))) (Open voted_box)) as Hp
    by (vm_compute; split_and!; [reflexivity|reflexivity|discriminate|reflexivity]).
  apply (ballot_box_refines_automaton (P := fixed_point) no_collisions id_not_system id_not_restaking
    (fun c => eq_refl) (after open_routers voted) _ ncn epoch (Open voted_box)); [|exact Hp].
  apply execute_step; [exact Hok|]. vm_compute. reflexivity.
Defined.

Definition whole_epoch : list transaction := set_up ++ weigh ++ count ++ open_box ++ vote ++ open_routers.

(** An epoch runs from the first instruction to the last. On the ledger of
    the scenario every instruction goes through, the vote is recorded, the
    [100000] lamports of rewards reach the two wallets, the operator and the
    vault to the last lamport, every account of the epoch is closed in the end,
    the marker is there, and the outcome still is. *)
Theorem an_epoch_completes :
  let funded := fund (after whole_epoch genesis) in
  let final := after close_all (after pay funded) in
  run (execute_all whole_epoch) genesis = Ok tt
  /\ run (execute_all pay) funded = Ok tt /\ run (execute_all close_all) (after pay funded) = Ok tt
  /\ map (fun k => Account.lamports (final k) - Account.lamports (genesis k))
       [fee_wallet; FeeConfig.PROTOCOL_FEE_WALLET; operator; vault] = [3000; 4000; 4650; 88350]
  /\ map (fun k => (Account.lamports (final k), data_len (Account.data (final k))))
       [table; epoch_snapshot; operator_snapshot; box; router; receiver; operator_router; operator_receiver; state]
     = replicate 9 (0, 0)
  /\ closed final ncn epoch
  /\ recorded final ncn epoch (ConsensusResult.mk ncn epoch 3000 3000 55 255 1).
Proof. vm_compute. split_and!; reflexivity. Qed.

(** With the marker there, the state cannot be opened again. *)
Definition ended : Store cell := after close_all paid.
Lemma closed_epochs_stay_closed_witness :
  closed ended ncn epoch
  /\ fst (process_instruction (ext := externals routing) (P := fixed_point) id
            [r marker; w state; r config; r ncn; w payer; r system_program] (Ok (InitializeEpochState epoch)) ended)
     <> Ok tt.
Proof.
  assert (closed ended ncn epoch) as Hc by (vm_compute; split_and!; reflexivity). split; [exact Hc|].
  destruct (closed_epochs_stay_closed (at_clock := externals) (P := fixed_point) no_collisions) as [_ H].
  destruct (H ended ended ncn epoch Hc (rtc_refl _ _)) as [_ Hno].
  apply (Hno routing _ (InitializeEpochState epoch) 3%nat (r ncn)); reflexivity.
Defined.

(** The box after the vote that does not decide. *)
Definition stalled_box : BallotBox.t :=
  snd (@BallotBox.tally_votes fixed_point 9000 55
    (snd (BallotBox.cast_vote operator (Ballot.new 1) (StakeWeights.mk 3000) 55 1000 (BallotBox.new ncn epoch 255 52)))).
Lemma stalled_box_wf : BallotBox.wf stalled_box.
Proof.
  eapply (BallotBox.step_keeps (P := fixed_point) 9000 1000 2); [done|apply (BallotBox.ballot_box_new_wf ncn epoch 255 52)|].
  eapply (BallotBox.step_vote (P := fixed_point) _ _ _ _ operator (Ballot.new 1) (StakeWeights.mk 3000) 55);
    [by vm_compute|by vm_compute|by vm_compute|vm_compute; reflexivity|vm_compute; reflexivity].
Qed.

Lemma stalled_votes_can_be_ended_witness :
  exists s', process_admin_set_tie_breaker (ext := externals late) id
    [w state; r config; w box; r ncn; signer tie_breaker_admin] 1 epoch stalled = (Ok tt, s')
  /\ stored_at s' (w box) (stalled_box <| BallotBox.winning_ballot := Ballot.new 1 |>)
  /\ BallotBox.has_winning_ballot (stalled_box <| BallotBox.winning_ballot := Ballot.new 1 |>) = true.
Proof.
  set (c := match try_from_slice (T := Config.t) (Account.data (stalled config)) with Ok c => c | _ => zero_config end).
  set (e := match try_from_slice (T := EpochState.t) (Account.data (stalled state)) with
            | Ok e => e | _ => EpochState.zeroed end).
  assert (exists v, BallotBox.voted_for v (Ballot.new 1) stalled_box) as [v Hv].
  { do 4 eexists. split_and!; [by instantiate (2 := 0%nat); vm_compute|by vm_compute|
      by instantiate (1 := 0%nat); vm_compute|by vm_compute|by vm_compute]. }
  assert (BallotBox.epoch stalled_box + Config.epochs_before_stall c <= clock_epoch late <= u64_MAX) as Ht
    by (vm_compute; split; discriminate).
  refine (proj2 (stalled_votes_can_be_ended (ext := externals late) id (w state) (r config) (w box) (r ncn)
    (signer tie_breaker_admin) epoch stalled c late stalled_box e stalled_box_wf _ _ _ _ _ _ _ _ _ _ _ _ Ht)
    v (Ballot.new 1) Hv); vm_compute; reflexivity.
Defined.

(** From creation the box opens with the second reallocation. *)
Definition box_created : Store cell := after (count ++ firstn 1 open_box) weighed.
Lemma reallocs_open_the_box_witness :
  exists bump slot, in_phase (snd (reallocs (at_clock := externals)
      [w state; r config; w box; r ncn; w payer; r system_program] epoch [early; early] box_created) box)
    (Open (BallotBox.new ncn epoch bump slot)).
Proof.
  assert (fst (reallocs (at_clock := externals) [w state; r config; w box; r ncn; w payer; r system_program] epoch
    [early; early] box_created) = Ok tt) as Hf by (vm_compute; reflexivity).
  pose proof (fun s' => reallocs_open_the_box (at_clock := externals) (fun c => eq_refl) (w state) (r config) (w box)
    (r ncn) (w payer) (r system_program) epoch ltac:(vm_compute; discriminate) [early; early] MAX_REALLOC_BYTES
    box_created s' ltac:(vm_compute; split; [discriminate|reflexivity]) eq_refl eq_refl) as H.
  destruct (reallocs [w state; r config; w box; r ncn; w payer; r system_program] epoch [early; early] box_created)
    as [x s']. cbn [fst] in Hf. subst x. exact (proj1 (H s' eq_refl)).
Defined.

(** The NCN's fee and the vault's share. *)
Definition routed : Store cell := after (firstn 1 pay) (fund (after open_routers voted)).
Definition ready_for_vaults : Store cell := after (firstn 6 pay) (fund (after open_routers voted)).

Lemma payouts_move_what_is_owed_witness :
  (exists s', process_distribute_ncn_rewards (ext := externals routing) id
      [w state; r config; r ncn; w router; w receiver; w fee_wallet; r system_program] epoch routed = (Ok tt, s')
    /\ pays NCNRewardRouter.still_routing NCNRewardRouter.distribute_ncn_fee_rewards (w state) (w router)
         (w receiver) (w fee_wallet) routed s')
  /\ exists s', process_distribute_vault_rewards (ext := externals routing) id
       [w state; r config; r ncn; r operator; w vault; w operator_snapshot; w operator_router; w operator_receiver;
        r system_program] epoch ready_for_vaults = (Ok tt, s')
     /\ pays OperatorVaultRewardRouter.still_routing
          (OperatorVaultRewardRouter.distribute_vault_reward_route vault) (w state) (w operator_router)
          (w operator_receiver) (w vault) ready_for_vaults s'.
Proof.
  split.
  - pose proof (fun s' => payouts_move_what_is_owed (ext := externals routing) id epoch routed s' (w state) (r config)
      (r ncn) (r operator) (w vault) (w operator_snapshot) (w router) (w receiver) (w operator_router)
      (w operator_receiver) (w fee_wallet) (r system_program)) as H.
    assert (fst (process_distribute_ncn_rewards (ext := externals routing) id
      [w state; r config; r ncn; w router; w receiver; w fee_wallet; r system_program] epoch routed) = Ok tt) as Hf
      by (vm_compute; reflexivity).
    destruct (process_distribute_ncn_rewards id [_; _; _; _; _; _; _] epoch routed) as [x s'].
    cbn [fst] in Hf. subst x. exists s'. split; [reflexivity|]. destruct (H s') as [H1 _]. destruct (H1 eq_refl) as (_ & _ & _ & _ & Hp).
    exact Hp.
  - pose proof (fun s' => payouts_move_what_is_owed (ext := externals routing) id epoch ready_for_vaults s' (w state)
      (r config) (r ncn) (r operator) (w vault) (w operator_snapshot) (w router) (w receiver) (w operator_router)
      (w operator_receiver) (w fee_wallet) (r system_program)) as H.
    assert (fst (process_distribute_vault_rewards (ext := externals routing) id
      [w state; r config; r ncn; r operator; w vault; w operator_snapshot; w operator_router; w operator_receiver;
       r system_program] epoch ready_for_vaults) = Ok tt) as Hf by (vm_compute; reflexivity).
    destruct (process_distribute_vault_rewards id [_; _; _; _; _; _; _; _; _] epoch ready_for_vaults) as [x s'].
    cbn [fst] in Hf. subst x. exists s'. split; [reflexivity|].
    destruct (H s') as (_ & _ & _ & _ & H5). destruct (H5 eq_refl) as (_ & _ & _ & Hp).
    exact Hp.
Defined.

(** Creating the epoch state takes its rent from the payer. *)
Definition state_metas : list Meta := [r marker; w state; r config; r ncn; w payer; r system_program].
Definition configured : Store cell := after set_up genesis.
Lemma lamports_are_conserved_witness :
  exists s', process_instruction (ext := externals early) (P := fixed_point) id state_metas
    (Ok (InitializeEpochState epoch)) configured = (Ok tt, s')
  /\ total (map key state_metas) s' = total (map key state_metas) configured.
Proof.
  assert (NoDup (map key state_metas)) as Hnd by (apply (bool_decide_eq_true_1 _); vm_compute; reflexivity).
  pose proof (fun s' => lamports_are_conserved (ext := externals early) (P := fixed_point) (map key state_metas) Hnd id
    id_not_system (InitializeEpochState epoch) state_metas configured s') as H.
  assert (fst (process_instruction (ext := externals early) (P := fixed_point) id state_metas
    (Ok (InitializeEpochState epoch)) configured) = Ok tt) as Hf by (vm_compute; reflexivity).
  destruct (process_instruction id state_metas (Ok (InitializeEpochState epoch)) configured) as [x s'].
  cbn [fst] in Hf. subst x. exists s'. split; [reflexivity|]. apply H; [|reflexivity].
  intros m Hm. apply list_elem_of_In, in_map, list_elem_of_In. exact Hm.
Defined.

(** ** Frozen stake *)

Lemma frozen_counted :
  frozen WeightTableAccount.DISCRIMINATOR Size.WeightTable WeightTable.finalized
    (counted (address_of id (AWeightTable ncn epoch)))
  /\ frozen OperatorSnapshotAccount.DISCRIMINATOR Size.OperatorSnapshot OperatorSnapshot.finalized
       (counted (address_of id (AOperatorSnapshot operator ncn epoch)))
  /\ frozen EpochSnapshotAccount.DISCRIMINATOR Size.EpochSnapshot EpochSnapshot.finalized
       (counted (address_of id (AEpochSnapshot ncn epoch))).
Proof.
  split_and!; (split; [vm_compute; reflexivity|]; split; [vm_compute; reflexivity|];
    split; [vm_compute; discriminate|]; eexists; split; [vm_compute; reflexivity|vm_compute; reflexivity]).
Qed.

Lemma final_snapshots_are_frozen_witness :
  frozen EpochSnapshotAccount.DISCRIMINATOR Size.EpochSnapshot EpochSnapshot.finalized
    (counted (address_of id (AEpochSnapshot ncn epoch)))
  /\ (closed_between (at_clock := externals) (P := fixed_point) counted voted (address_of id (AWeightTable ncn epoch))
      \/ same_data (voted (address_of id (AWeightTable ncn epoch))) (counted (address_of id (AWeightTable ncn epoch)))).
Proof.
  destruct frozen_counted as (Ht & Ho & He). split; [exact He|].
  destruct (final_snapshots_are_frozen (P := fixed_point) no_collisions id_not_system counted voted operator ncn epoch
    run_to_voted) as (H & _ & _).
  exact (H Ht).
Defined.

Definition counted_snapshot : EpochSnapshot.t :=
  match try_from_slice (T := EpochSnapshot.t) (Account.data (counted epoch_snapshot)) with
  | Ok x => x | _ => zero_epoch
  end.
Lemma winners_have_the_majority_witness :
  StakeWeights.stake_weight (EpochSnapshot.stake_weights counted_snapshot) = 3000
  /\ in_phase (voted (address_of id (ABallotBox ncn epoch))) (Open voted_box)
  /\ (closed_between (at_clock := externals) (P := fixed_point) counted voted (address_of id (AEpochSnapshot ncn epoch))
      \/ 2 * 3000 <= 3 * BallotBox.ballot_weight (Ballot.mk 1 true) voted_box).
Proof.
  assert (StakeWeights.stake_weight (EpochSnapshot.stake_weights counted_snapshot) = 3000) as Ht by (vm_compute; reflexivity).
  split; [exact Ht|]. split; [exact voted_open|].
  assert (BallotBox.winning_ballot voted_box = Ballot.mk 1 true) as Hw by (vm_compute; reflexivity).
  assert (BallotBox.tie_breaker_set voted_box = false) as Hn by (vm_compute; reflexivity).
  assert (0 < StakeWeights.stake_weight (EpochSnapshot.stake_weights counted_snapshot) <= u128_MAX) as Hr
    by (rewrite Ht; split; vm_compute; [reflexivity|discriminate]).
  destruct (winners_have_the_majority (P := fixed_point) no_collisions id_not_system id_not_restaking (fun c => eq_refl)
    ncn epoch counted_snapshot Hr counted voted (Open (BallotBox.new ncn epoch 255 52)) voted_box) as [Hc|[_ H]].
  - apply frozen_counted.
  - vm_compute. reflexivity.
  - vm_compute. split_and!; [reflexivity|reflexivity|discriminate|reflexivity].
  - intros b0 Hb. injection Hb as <-. exists ncn, epoch, 255, 52. reflexivity.
  - exact run_to_voted.
  - exact voted_open.
  - left. exact Hc.
  - right. destruct H as [H|(_ & H & _)].
    + unfold BallotBox.has_winning_ballot. rewrite Hw. reflexivity.
    + rewrite Hn in H. discriminate H.
    + rewrite Ht, Hw in H. apply H. reflexivity.
Defined.

(** ** Lamports *)

Lemma others_lose_no_lamports_witness :
  exists s', process_instruction (ext := externals early) (P := fixed_point) id state_metas
    (Ok (InitializeEpochState epoch)) configured = (Ok tt, s')
  /\ Account.lamports (configured (address_of id (ANCNRewardReceiver ncn epoch)))
     <= Account.lamports (s' (address_of id (ANCNRewardReceiver ncn epoch))).
Proof.
  set (k := address_of id (ANCNRewardReceiver ncn epoch)).
  assert (forall n, k <> address_of id (AAccountPayer n)) as Hp
    by (intros n; apply (addresses_apart no_collisions); discriminate).
  pose proof (fun s' => others_lose_no_lamports (ext := externals early) (P := fixed_point) k id Hp
    (InitializeEpochState epoch) state_metas configured s') as H.
  assert (fst (process_instruction (ext := externals early) (P := fixed_point) id state_metas
    (Ok (InitializeEpochState epoch)) configured) = Ok tt) as Hf by (vm_compute; reflexivity).
  destruct (process_instruction id state_metas (Ok (InitializeEpochState epoch)) configured) as [x s'].
  cbn [fst] in Hf. subst x. exists s'. split; [reflexivity|]. apply H; [reflexivity|vm_compute; discriminate|..].
  - intros b _ Hb. discriminate Hb.
  - intros e He. discriminate He.
Defined.

Abbreviation fair := (fair_step (at_clock := externals) (P := fixed_point)).

Lemma run_fair l s : run (execute_all l) s = Ok tt -> rtc fair s (after l s).
Proof.
  revert s. induction l as [|t l IH]; intros s H; [apply rtc_refl|].
  unfold run, after in *. cbn [execute_all foldr] in *. unfold mbind at 1 in H. unfold mbind at 1.
  destruct (execute t s) as [[[]|e|] s1] eqn:Hx; [|done..].
  eapply rtc_l; [|by apply IH]. eapply fair_instruction. exact Hx.
Qed.

Lemma fund_fair s : fair s (fund s).
Proof.
  assert (forall k, same_data (fund s k) (s k) /\ Account.lamports (s k) <= Account.lamports (fund s k)) as H.
  { intros k. unfold fund, update. destruct (k =? receiver) eqn:E; [|done]. apply Z.eqb_eq in E as ->.
    split; [done|]. cbn. unfold rewards. lia. }
  apply fair_outside.
  - intros k _. apply H.
  - intros k Hk Hk'. destruct (H k) as [[Ho _] _]. congruence.
  - intros a Ha. destruct (H (address_of id a)) as [[Ho _] Hl]. split; [congruence|exact Hl].
Qed.

Lemma run_fair_routers : rtc fair voted (after open_routers voted).
Proof. apply (run_fair open_routers). vm_compute. reflexivity. Qed.
Lemma run_fair_route : rtc fair (fund (after open_routers voted)) routed.
Proof. unfold routed. apply (run_fair (firstn 1 pay)). vm_compute. reflexivity. Qed.

(** The rewards were split and routed, and nothing is paid yet. *)
Definition routed_router : NCNRewardRouter.t :=
  match try_from_slice (T := NCNRewardRouter.t) (Account.data (routed router)) with Ok x => x | _ => zero_router end.
Lemma receivers_are_solvent_witness :
  NCNRewardRouter.rewards_processed routed_router = 100000
  /\ NCNRewardRouter.reward_pool routed_router + NCNRewardRouter.rewards_processed routed_router
     <= Account.lamports (routed (address_of id (ANCNRewardReceiver ncn epoch))).
Proof.
  split; [vm_compute; reflexivity|].
  destruct (receivers_are_solvent (at_clock := externals) (P := fixed_point) no_collisions id_not_system voted routed ncn epoch) as [H _].
  - exact (rtc_trans _ _ _ run_fair_routers (rtc_l _ _ _ _ (fund_fair _) run_fair_route)).
  - destruct (H routed_router) as (_ & _ & Hl); [vm_compute; split_and!; (reflexivity || discriminate)..|exact Hl].
Defined.

(** ** The votes and the stake *)

(** The account that says an operator's index is that operator's. *)
Lemma states_are_numbered s : numbered (at_clock := externals) ncn operator_number s.
Proof.
  intros clock nc op st i H _ Hi. cbn in H, Hi. unfold load_owned in H. destruct (negb _) in H; [discriminate H|].
  destruct (_ && _) in H; [discriminate H|]. cbn in H. unfold read_cell in Hi.
  destruct (body (Account.data (s (key st)))) in H, Hi; try discriminate. injection Hi as <-.
  destruct (Z.eqb_spec index (operator_number (key op))) as [->|]; [reflexivity|discriminate H].
Qed.

Lemma operator_number_nonneg o : 0 <= operator_number o.
Proof. unfold operator_number. destruct (o =? 31); lia. Qed.
Lemma operator_number_inj o o' : is_pubkey o -> is_pubkey o' -> operator_number o = operator_number o' -> o = o'.
Proof. unfold operator_number, is_pubkey. destruct (Z.eqb_spec o 31), (Z.eqb_spec o' 31); lia. Qed.

Abbreviation open_step := (Turnout.open_step (at_clock := externals) (P := fixed_point) ncn epoch operator_number).
Definition leaves_open (t : transaction) : bool :=
  match instruction t with CloseEpochAccount _ => false | _ => true end.

Lemma run_one t s s1 : transaction_ok t s = true -> leaves_open t = true -> execute t s = (Ok tt, s1) -> open_step s s1.
Proof.
  intros Ht Ho Hx.
  apply (open_step_intro (P := fixed_point) no_collisions ncn epoch operator_number (Scenario.at_clock t) (accounts t)
    (instruction t)); [by apply transaction_ok_typed|exact Hx| |apply states_are_numbered].
  intros e' He. unfold leaves_open in Ho. by rewrite He in Ho.
Qed.

Lemma run_open l s : all_ok l s = true -> forallb leaves_open l = true -> rtc open_step s (after l s).
Proof.
  revert s. induction l as [|t l IH]; intros s H Ho; [apply rtc_refl|].
  cbn [all_ok] in H. apply andb_true_iff in H as [Ht H]. cbn [forallb] in Ho. apply andb_true_iff in Ho as [Ho1 Ho].
  unfold after. cbn [execute_all foldr]. unfold mbind at 1.
  destruct (execute t s) as [[[]|e|] s1] eqn:Hx; [|done..]. eapply rtc_l; [|by apply IH]. by eapply run_one.
Qed.

Lemma genesis_foreign k : Account.owner (genesis k) <> id.
Proof.
  unfold genesis, store_of. match goal with |- context [find_index ?p ?l] => destruct (find_index p l) as [[i [x a]]|] eqn:E end;
    [|done].
  apply find_index_Some in E as (Hi & _). apply list_elem_of_lookup_2 in Hi.
  repeat (apply elem_of_cons in Hi as [[= _ ->]|Hi]; [done|]). by apply elem_of_nil in Hi.
Qed.
Lemma genesis_unused : unused ncn epoch genesis.
Proof. split_and!; intros; apply genesis_foreign. Qed.
Lemma open_to_weighed : rtc open_step genesis weighed.
Proof. apply run_open; vm_compute; reflexivity. Qed.
Lemma open_to_counted : rtc open_step weighed counted.
Proof. apply run_open; vm_compute; reflexivity. Qed.
Lemma open_to_voted : rtc open_step counted voted.
Proof. apply run_open; vm_compute; reflexivity. Qed.
Lemma run_open_to_voted : rtc open_step genesis voted.
Proof. exact (rtc_trans _ _ _ open_to_weighed (rtc_trans _ _ _ open_to_counted open_to_voted)). Qed.

Definition voted_snapshot : EpochSnapshot.t :=
  match try_from_slice (T := EpochSnapshot.t) (Account.data (voted epoch_snapshot)) with Ok t => t | _ => zero_epoch end.
Lemma voted_snapshot_held :
  held EpochSnapshotAccount.DISCRIMINATOR (voted (address_of id (AEpochSnapshot ncn epoch))) = Some voted_snapshot.
Proof. vm_compute. reflexivity. Qed.

Lemma every_operator_counts_once_witness :
  total_of voted_snapshot = 3000
  /\ exists os, List.length os = 1%nat /\ total_of voted_snapshot = sum_by (stake_in (census_of ncn epoch voted)) os.
Proof.
  split; [reflexivity|].
  destruct (every_operator_counts_once (P := fixed_point) no_collisions id_not_system id_not_restaking (fun c => eq_refl)
    ncn epoch operator_number operator_number_nonneg operator_number_inj genesis voted voted_snapshot genesis_unused
    run_open_to_voted voted_snapshot_held) as (os & _ & Hn & Ht & _).
  exists os. split; [|exact Ht]. change (EpochSnapshot.operators_registered voted_snapshot) with 1 in Hn. lia.
Defined.

Lemma votes_never_outweigh_the_stake_witness :
  BallotBox.has_winning_ballot voted_box = true /\ BallotBox.tie_breaker_set voted_box = false
  /\ 2 * total_of voted_snapshot <= 3 * BallotBox.ballot_weight (BallotBox.winning_ballot voted_box) voted_box.
Proof.
  assert (BallotBox.has_winning_ballot voted_box = true) as Hw by (vm_compute; reflexivity).
  assert (BallotBox.tie_breaker_set voted_box = false) as Hb by (vm_compute; reflexivity).
  split; [exact Hw|]. split; [exact Hb|].
  destruct (votes_never_outweigh_the_stake (P := fixed_point) no_collisions id_not_system id_not_restaking (fun c => eq_refl)
    ncn epoch operator_number operator_number_nonneg operator_number_inj genesis voted voted_box genesis_unused
    run_open_to_voted voted_open) as [(_ & Hno & _)|(es & Hes & _ & _ & _ & Hwin)].
  - exfalso. rewrite Hno in Hw. discriminate Hw.
  - assert (es = voted_snapshot) as -> by (pose proof voted_snapshot_held; congruence).
    destruct (Hwin Hw) as [Ht|(_ & H2 & _)]; [rewrite Hb in Ht; discriminate Ht|]. apply H2. reflexivity.
Defined.

Lemma ledger_refines_electorate_witness :
  Electorate.step operator_number (census_of ncn epoch weighed)
    (census_of ncn epoch (after (firstn 1 count) weighed)).
Proof.
  apply (ledger_refines_electorate (at_clock := externals) (P := fixed_point) no_collisions id_not_system ncn epoch
    operator_number operator_number_nonneg).
  apply (run_one (hd (closing table []) count)); vm_compute; reflexivity.
Defined.
