(* ===== verification/Node.v ===== *)
(** A concrete node, for running the client: a ledger in the memory of [Cells],
    a clock, and a client of the restaking and vault programs that lists the
    accounts of [Scenario]. A transaction is executed as a whole or not at all. *)
From stdpp Require Import relations strings.
From S2P Require Import Prelude Errors Precise Stake Registry Weights Fees Snapshots Voting EpochStates.
From S2P Require Import NcnRouter OperatorRouter Consensus Accounts Machine Lamports Cells VoteHandlers.
From S2P Require Import AdminHandlers SnapshotHandlers RewardHandlers CloseHandlers Program Frames Authority.
From S2P Require Import Scenario Client Getters Commands Tickets Metrics Keeper Handler Sends.

(** The world of the client: [up] is false when the node does not answer;
    [points] is what was reported, the last point first. *)
Record World := { store : Store cell; now : Clock; up : bool; points : list (string * list (string * Value)) }.
#[global] Instance eta_world : Eta World := fun w => Build_World (store w) (now w) (up w) (points w).

Definition answer {A} (f : World -> A) : M World CliError.t A := fun w =>
  if up w then (Ok (f w), w) else (Err (CliError.Rpc 503), w).

Fixpoint run_instructions (clock : Clock) (l : list Instruction) : M (Store cell) ProgramError.t unit :=
  match l with
  | [] => ret tt
  | Ncn program_id accounts discriminator args :: l =>
      let* _ :=
        if (program_id =? id) && (discriminator =? variant args)
        then process_instruction (ext := externals clock) (P := fixed_point) id accounts (Ok args)
        else throw ProgramError.InvalidArgument in
      run_instructions clock l
  | _ :: l => run_instructions clock l
  end.
Definition send (tx : Transaction) : M World CliError.t unit := fun w =>
  if up w then
    match run_instructions (now w) (instructions tx) (store w) with
    | (Ok _, s) => (Ok tt, w <| store := s |>)
    | (Err e, _) => (Err (CliError.Program e), w)
    | (Panic, _) => (Err (CliError.Message "panicked"), w)
    end
  else (Err (CliError.Rpc 503), w).

#[global] Instance node : Rpc cell World := {|
  get_account_with_commitment k :=
    answer (fun w => if Account.lamports (store w k) =? 0 then None else Some (store w k));
  get_epoch_info := answer (fun w => {| info_epoch := clock_epoch (now w); absolute_slot := slot (now w) |});
  get_slot := answer (fun w => slot (now w));
  get_epoch_schedule := answer (fun _ s => s / 10);
  get_minimum_balance_for_rent_exemption n := answer (fun _ => (128 + n) * 10);
  get_program_accounts_with_config program_id config :=
    answer (fun w =>
      if CliHandler.data_size config =? 11 + 8 then [(ncn_operator_state, store w ncn_operator_state)]
      else if CliHandler.data_size config =? 12 + 8 then [(ncn_vault_ticket, store w ncn_vault_ticket)]
      else [(vault_operator_delegation, store w vault_operator_delegation)]);
  get_latest_blockhash := answer (fun _ => 0);
  send_and_confirm_transaction_with_config := send;
  send_and_confirm_transaction := send;
  weather_conditions _ _ := answer (fun _ => ["Clouds"%string]);
|}.

(** The client of the other programs: the accounts of the scenario; its vault
    needs no update. *)
#[global] Instance example_partners : Partners cell := {|
  restaking_config_address _ := restaking_config;
  ncn_operator_state_address _ _ _ := ncn_operator_state;
  ncn_vault_ticket_address _ _ _ := ncn_vault_ticket;
  vault_ncn_ticket_address _ _ _ := vault_ncn_ticket;
  vault_operator_delegation_address _ _ _ := vault_operator_delegation;
  vault_config_address _ := restaking_config;
  vault_update_state_tracker_address _ _ _ := 79;
  size_of_NcnOperatorState := 11;
  size_of_NcnVaultTicket := 12;
  size_of_VaultOperatorDelegation := 13;
  NcnOperatorState_operator _ := Ok operator;
  NcnVaultTicket_vault _ := Ok vault;
  VaultOperatorDelegation_index_operator _ := Ok (0, operator);
  VaultConfig := u64;
  read_VaultConfig := read_cell (fun c => match c with CRestakingConfig n => Some n | _ => None end);
  get_epoch_from_slot n slot := Ok (slot / n);
  epoch_length n := n;
  Vault := Pubkey;
  read_Vault := read_cell (fun c => match c with CVault _ m _ => Some m | _ => None end);
  is_update_needed _ _ _ := Ok false;
  supported_mint m := m;
  Operator := Pubkey;
  read_Operator := read_cell (fun c => match c with COperator v _ _ => Some v | _ => None end);
  Getters.voter v := v;
  VaultUpdateStateTracker := unit;
  read_VaultUpdateStateTracker _ := Ok tt;
  last_updated_index _ := u64_MAX;
  InitializeVaultUpdateStateTracker _ _ _ _ := Foreign 2 [] [];
  CrankVaultUpdateStateTracker _ _ _ _ _ := Foreign 2 [] [];
  CloseVaultUpdateStateTracker _ _ _ _ _ := Foreign 2 [] [];
|}.

(** Every relation between them is active, every delegation is of 1000. *)
#[global] Instance example_tickets : Tickets cell := {|
  DEFAULT_SLOTS_PER_EPOCH := 432000;
  SlotToggle := unit;
  toggle_state _ _ _ := Ok 2;
  toggle_active := 2;
  DelegationState := u64;
  staked_amount n := n;
  cooling_down_amount _ := 0;
  total_security n := Ok n;
  Ncn' := unit;
  read_Ncn := read_cell (fun c => match c with CNcn _ _ _ _ _ => Some tt | _ => None end);
  RestakingConfig := u64;
  read_RestakingConfig := read_cell (fun c => match c with CRestakingConfig n => Some n | _ => None end);
  config_epoch_length n := n;
  NcnOperatorState := unit;
  read_NcnOperatorState _ := Ok tt;
  ncn_opt_in_state _ := tt;
  operator_opt_in_state _ := tt;
  NcnVaultTicket := unit;
  read_NcnVaultTicket _ := Ok tt;
  ncn_vault_state _ := tt;
  VaultNcnTicket := unit;
  read_VaultNcnTicket _ := Ok tt;
  vault_ncn_state _ := tt;
  OperatorVaultTicket := unit;
  read_OperatorVaultTicket _ := Ok tt;
  operator_vault_state _ := tt;
  operator_vault_ticket_address _ _ _ := ncn_vault_ticket;
  VaultOperatorDelegation := unit;
  read_VaultOperatorDelegation _ := Ok tt;
  delegation_state _ := 1000;
  size_of_Vault := 14;
  Vault_DISCRIMINATOR := 2;
  vault_delegation_state _ := 1000;
  tokens_deposited _ := 1000;
  vrt_supply _ := 1000;
  vrt_cooling_down_amount _ := 0;
  vrt_enqueued_for_cooldown_amount _ := 0;
  vrt_ready_to_claim_amount _ := 0;
  vault_operator_count _ := 1;
  vault_ncn_count _ := 1;
  operator_fee_bps_of _ := 0;
  operator_vault_count _ := 1;
  operator_ncn_count _ := 1;
|}.
#[global] Instance recorder : Telemetry World :=
  {| datapoint_info name fields w := w <| points := (name, fields) :: points w |> |}.

(** The command line, with a few names for keys. *)
#[global] Instance example_libraries : Libraries World := {|
  Pubkey_from_str s :=
    if bool_decide (s = "program") then Ok id else if bool_decide (s = "ncn") then Ok ncn
    else if bool_decide (s = "operator") then Ok operator else if bool_decide (s = "other") then Ok 1
    else Err (CliError.Message "Invalid");
  CommitmentConfig_from_str _ := Ok tt;
  read_keypair_file _ := answer (fun _ => Scenario.voter);
  f64 := unit;
  sol_to_lamports _ := 1000000000;
|}.
Definition operator_args : Args.t :=
  Args.mk "url" "confirmed" 1000 1 "program" "other" "other" "other" (Some "ncn"%string) (Some epoch)
    (Some "id.json"%string) false false None.

Definition keeper_handler : CliHandler.t :=
  CliHandler.mk (Some 99) 1 2 id (Some ncn) epoch 1 1000 None.
Definition operator_handler : CliHandler.t :=
  CliHandler.mk (Some Scenario.voter) 1 2 id (Some ncn) epoch 1 1000 (Some "key"%string).

Definition keeper_round : M (Keeper.t * World) CliError.t unit :=
  Keeper.round 10 emit_ncn_metrics emit_epoch_metrics keeper_handler.
Definition operator_round : M (Keeper.t * World) CliError.t unit :=
  Keeper.operator_round emit_ncn_metrics_operator_vote emit_ncn_metrics_operator_post_vote operator_handler operator.

(** An NCN that is configured, and the keeper's rounds in it. *)
Definition configured_world : World := Build_World (after set_up genesis) early true [].
Definition keep (n : nat) (w : World) : Keeper.t * World :=
  snd (Keeper.rounds keeper_round n (Keeper.start keeper_handler, w)).
Definition status (p : Keeper.t * World) :=
  let k := p.1 in
  (Keeper.current_keeper_epoch k, KeeperState.current_state' (Keeper.state k),
   KeeperState.is_epoch_completed (Keeper.state k), Keeper.epoch_stall k).
