(* ===== verification/Walkthrough.v ===== *)
(** The client on the concrete node: the keeper prepares an epoch, the operator
    votes, and the keeper's closing gets stuck; and the theorems about the client
    there. *)
From stdpp Require Import relations strings.
From S2P Require Import Builders Idl.
From S2P Require Import Prelude Errors Precise Stake Registry Weights Fees Snapshots Voting EpochStates.
From S2P Require Import NcnRouter OperatorRouter Consensus Accounts Machine Lamports Cells VoteHandlers.
From S2P Require Import AdminHandlers SnapshotHandlers RewardHandlers CloseHandlers Program Frames Authority.
From S2P Require Import Chain Elections Frozen Lingering Interface Client Getters Commands Tickets Metrics Keeper.
From S2P Require Import Backing Handler Sends Cranks KeeperRuns Creation Routing Scenario Examples Node.
Import NCNProgramInstruction.

(** ** The node keeps the laws, with nobody else on the chain *)

Definition nobody (_ _ : Store cell) : Prop := False.

Lemma run_instructions_moves clock allowed l (s s' : Store cell) : Forall allowed l -> run_instructions clock l s = (Ok tt, s') ->
  moves (at_clock := externals) (P := fixed_point) nobody allowed s s'.
Proof.
  intros Hl. revert s. induction Hl as [|ix l Hix Hl IH]; intros s H; [injection H as <-; apply rtc_refl|].
  destruct ix as [program_id accounts d args| | | |]; try (by apply IH). cbn [run_instructions] in H.
  destruct ((program_id =? id) && (d =? variant args)) eqn:E; [|discriminate H].
  apply andb_true_iff in E as [->%Z.eqb_eq ->%Z.eqb_eq]. apply mbind_ok in H as ([] & s1 & H1 & H).
  eapply rtc_l; [right; exists (Ncn id accounts (variant args) args); split; [exact Hix|by eapply executes_ncn]|].
  by apply IH.
Qed.

#[global] Instance node_laws : NodeLaws (at_clock := externals) (P := fixed_point) (rpc := node) nobody store.
Proof.
  assert (forall A (f : World -> A) allowed, sends (at_clock := externals) (P := fixed_point) nobody store (fun w => w)
    allowed (answer f)) as Hread.
  { intros A f allowed. apply sends_still. intros w. unfold answer. by destruct (up w). }
  assert (forall allowed tx, Forall allowed (instructions tx) ->
    sends (at_clock := externals) (P := fixed_point) nobody store (fun w => w) allowed (send tx)) as Hsend.
  { intros allowed tx Hl w r w' H. unfold send in H. destruct (up w); [|injection H as _ <-; apply rtc_refl].
    destruct (run_instructions (now w) (instructions tx) (store w)) as [[[]|e|] s] eqn:E; injection H as _ <-;
      [|apply rtc_refl..]. by eapply run_instructions_moves. }
  split; intros; first [by apply Hread|by apply Hsend].
Qed.
#[global] Instance example_partners_laws : PartnersLaws example_partners.
Proof. split; done. Qed.

(** ** What happens *)

Definition at_time (c : Clock) (w : World) : World := w <| now := c |>.
Definition prepared : Keeper.t * World := keep 4 configured_world.
(** The operator votes. *)
Definition operated : World := (Keeper.rounds operator_round 1 (Keeper.start operator_handler, at_time voting prepared.2)).2.2.
(** Long after the vote. *)
Definition much_later : Clock := mk_clock 1060 106.
Definition closing_down : Keeper.t * World := keep 6 (at_time much_later operated).

(** Four rounds create everything that the vote needs; after the vote and the
    time to close, the keeper closes what it closes and stays on the epoch. *)
Example keeper_walks_through :
  status (keep 1 configured_world) = (epoch, None, false, false)
  /\ status (keep 2 configured_world) = (epoch, Some State.SetWeight, false, false)
  /\ status (keep 3 configured_world) = (epoch, Some State.Snapshot, false, false)
  /\ status prepared = (epoch, Some State.Vote, false, true)
  /\ status (keep 1 operated) = (epoch, Some State.PostVoteCooldown, false, true)
  /\ status (keep 1 (at_time much_later operated)) = (epoch, Some State.Close, false, false)
  /\ status closing_down = (epoch, Some State.Close, false, false)
  /\ Account.owner (store closing_down.2 box) = 0 /\ Account.owner (store closing_down.2 state) = id.
Proof. vm_compute. auto 10. Qed.

(** ** The theorems there *)

Definition not_close (t : transaction) : bool :=
  match instruction t with CloseEpochAccount _ => false | _ => true end.
Lemma tidy_run l n e (s : Store cell) : forallb not_close l = true -> run (execute_all l) s = Ok tt ->
  rtc (tidy_step (at_clock := externals) (P := fixed_point) n e) s (after l s).
Proof.
  revert s. induction l as [|t l IH]; intros s Ht H; [apply rtc_refl|]. cbn [forallb] in Ht.
  apply andb_true_iff in Ht as [Ht Hl]. unfold run, after in *. cbn [execute_all foldr] in *.
  unfold mbind at 1 in H. unfold mbind at 1. destruct (execute t s) as [[[]|x|] s1] eqn:E; try discriminate H.
  eapply rtc_l; [|by apply IH]. eapply tidy_instruction; [|exact E]. intros e' a Hi. unfold not_close in Ht.
  rewrite Hi in Ht. discriminate Ht.
Qed.

Definition state_created : Store cell := snd (process_initialize_epoch_state (ext := externals early) id state_metas epoch Examples.configured).
Definition until_the_vote : list transaction := skipn 1 weigh ++ count ++ open_box ++ vote.
Lemma open_router_keeps_the_epoch_witness :
  process_initialize_epoch_state (ext := externals early) id state_metas epoch Examples.configured = (Ok tt, state_created)
  /\ rtc (tidy_step (at_clock := externals) (P := fixed_point) ncn epoch) state_created (after until_the_vote state_created)
  /\ Account.owner (after until_the_vote state_created state) = id.
Proof.
  assert (process_initialize_epoch_state (ext := externals early) id state_metas epoch Examples.configured
    = (Ok tt, state_created)) as H.
  { unfold state_created. assert (fst (process_initialize_epoch_state (ext := externals early) id state_metas epoch
      Examples.configured) = Ok tt) as Hf by (vm_compute; reflexivity).
    destruct (process_initialize_epoch_state id state_metas epoch Examples.configured) as [res t]. cbn in Hf |- *. by subst. }
  assert (rtc (tidy_step (at_clock := externals) (P := fixed_point) ncn epoch) state_created
    (after until_the_vote state_created)) as Hr by (apply tidy_run; vm_compute; reflexivity).
  split; [exact H|]. split; [exact Hr|].
  pose proof (open_router_keeps_the_epoch (at_clock := externals) (P := fixed_point) no_collisions id_not_system
    early state_metas ncn epoch (r ncn) Examples.configured state_created _ H eq_refl eq_refl Hr) as [(st & _ & Ho & _) _].
  exact Ho.
Defined.

Lemma read_keypair_sends allowed path :
  sends (at_clock := externals) (P := fixed_point) nobody store (fun w => w) allowed (read_keypair_file path).
Proof. apply sends_still. intros w. cbn. unfold answer. by destruct (up w). Qed.
Lemma recorder_reports name fields w : store (datapoint_info name fields w) = store w.
Proof. done. Qed.

Lemma prepared_lingers : lingers (store prepared.2 (address_of id (AEpochState ncn epoch))).
Proof.
  assert (match try_from_slice (T := EpochState.t) (Account.data (store prepared.2 state)) with
          | Ok t => (Account.owner (store prepared.2 state) =? id)
              && (data_byte0 (Account.data (store prepared.2 state)) =? EpochStateAccount.DISCRIMINATOR)
              && (0 <? data_len (Account.data (store prepared.2 state)))
              && negb (EpochAccountStatus.ncn_reward_router' (EpochState.account_status t) =? 3)
          | _ => false
          end = true) as H by (vm_compute; reflexivity).
  change (address_of id (AEpochState ncn epoch)) with state. unfold lingers.
  destruct (try_from_slice _) as [t|e|]; [|discriminate H..].
  apply andb_true_iff in H as [[[H1%Z.eqb_eq H2%Z.eqb_eq]%andb_true_iff H3%Z.ltb_lt]%andb_true_iff H4].
  split; [exact H1|]. split; [exact H2|]. split; [exact H3|]. exists t. split; [reflexivity|].
  intros Hc. unfold AccountStatus.as_u8 in Hc. rewrite Hc in H4. discriminate H4.
Qed.

(** Six more rounds of the keeper. *)
Lemma keeper_completes_no_epoch_witness :
  lingers (store prepared.2 (address_of id (AEpochState ncn epoch)))
  /\ lingers (store (snd (Keeper.rounds keeper_round 6 prepared)).2 (address_of id (AEpochState ncn epoch))).
Proof.
  split; [exact prepared_lingers|].
  destruct (keeper_completes_no_epoch (at_clock := externals) (P := fixed_point) nobody store
    keeper_handler eq_refl recorder_reports 10 no_collisions id_not_system ncn epoch 6 prepared
    (fst (Keeper.rounds keeper_round 6 prepared)) (snd (Keeper.rounds keeper_round 6 prepared))
    ltac:(by intros t t' []) (surjective_pairing _) prepared_lingers) as [H _].
  exact H.
Defined.

(** The operator's vote, from the command line. *)
Lemma client_fits_the_program_witness :
  Pubkey_from_str (Args.ncn_program_id operator_args) = Ok id
  /\ sends (at_clock := externals) (P := fixed_point) nobody store (fun w => w) fits
       (main 10 operator_args (ProgramCommand.OperatorCastVote "operator" 1)).
Proof.
  split; [reflexivity|].
  destruct (client_fits_the_program (at_clock := externals) (P := fixed_point) nobody store recorder_reports
    read_keypair_sends 10 operator_args (ProgramCommand.OperatorCastVote "operator" 1) eq_refl) as [H _].
  exact H.
Defined.

(** The keeper finds that the votes are missing, and goes on to the next epoch. *)
Definition counted_late : Keeper.t * World :=
  let p := keep 3 configured_world in (p.1, at_time (mk_clock 60 6) p.2).
Lemma two_rounds (f : Keeper.t * World -> result CliError.t unit * (Keeper.t * World)) s (e1 e2 : u64) :
  (let r1 := f s in let r2 := f r1.2 in (r1.1, r2.1, Keeper.current_keeper_epoch r1.2.1,
    Keeper.current_keeper_epoch r2.2.1)) = (Ok tt, Ok tt, e1, e2) ->
  exists s1 s2, f s = (Ok tt, s1) /\ f s1 = (Ok tt, s2)
    /\ Keeper.current_keeper_epoch s1.1 = e1 /\ Keeper.current_keeper_epoch s2.1 = e2.
Proof.
  destruct (f s) as [r1 s1] eqn:E1. cbn [fst snd]. destruct (f s1) as [r2 s2] eqn:E2. intros [= -> -> <- <-].
  by exists s1, s2.
Qed.
Abbreviation counting_round := (Keeper.round 10 emit_ncn_metrics emit_epoch_metrics keeper_handler).
Lemma moves_on : exists s1 s2, counting_round counted_late = (Ok tt, s1) /\ counting_round s1 = (Ok tt, s2)
  /\ Keeper.current_keeper_epoch s1.1 = epoch /\ Keeper.current_keeper_epoch s2.1 = epoch + 1.
Proof. apply two_rounds. vm_compute. reflexivity. Qed.
Lemma keeper_leaves_waiting_epochs_witness : exists s1 s2,
  counting_round counted_late = (Ok tt, s1) /\ counting_round s1 = (Ok tt, s2)
  /\ Keeper.current_keeper_epoch s1.1 = epoch /\ Keeper.current_keeper_epoch s2.1 = epoch + 1
  /\ (KeeperState.is_epoch_completed (Keeper.state s1.1) = true
      \/ KeeperState.epoch (Keeper.state s1.1) = Keeper.current_keeper_epoch s1.1
         /\ exists c, KeeperState.current_state' (Keeper.state s1.1) = Some c
              /\ (c = State.Vote \/ c = State.PostVoteCooldown \/ c = State.Distribute)).
Proof.
  destruct moves_on as (s1 & s2 & H1 & H2 & E1 & E2). exists s1, s2.
  split; [exact H1|]. split; [exact H2|]. split; [exact E1|]. split; [exact E2|].
  apply (keeper_leaves_waiting_epochs 10 emit_ncn_metrics emit_epoch_metrics keeper_handler counted_late s1 s2 H1 H2).
  rewrite E1, E2. discriminate.
Defined.

(** It does so in epoch 6 of the chain. *)
Lemma round_answered {S W} (f : M S CliError.t unit) (g : S -> result CliError.t (u64 * u64) * W) (e : S -> u64)
    (stall : S -> bool) s c e1 e2 b :
  (let r1 := f s in let r2 := f r1.2 in (r1.1, r2.1, (g r1.2).1, e r1.2, e r2.2, stall r1.2))
    = (Ok tt, Ok tt, Ok c, e1, e2, b) ->
  exists s1 s2 w, f s = (Ok tt, s1) /\ f s1 = (Ok tt, s2) /\ g s1 = (Ok c, w) /\ e s1 = e1 /\ e s2 = e2 /\ stall s1 = b.
Proof.
  destruct (f s) as [r1 s1] eqn:E1. cbn [fst snd]. destruct (f s1) as [r2 s2] eqn:E2. cbn [fst snd].
  destruct (g s1) as [r3 w] eqn:E3. cbn [fst]. intros [= -> -> -> <- <- <-]. by exists s1, s2, w.
Qed.
Lemma keeper_moves_in_order_witness : exists s1,
  counting_round counted_late = (Ok tt, s1)
  /\ visits 10 emit_ncn_metrics emit_epoch_metrics keeper_handler s1 [(6, 6)]
  /\ Keeper.current_keeper_epoch s1.1 = 5 /\ Keeper.epoch_stall s1.1 = true
  /\ (exists c, KeeperState.current_state' (Keeper.state s1.1) = Some c
        /\ (c = State.Vote \/ c = State.PostVoteCooldown \/ c = State.Distribute))
  /\ 6 = (if 5 =? 6 then 5 else 5 + 1) /\ 5 <= 6 <= 6.
Proof.
  destruct (round_answered counting_round (fun s => get_guaranteed_epoch_and_slot keeper_handler s.2)
    (fun s => Keeper.current_keeper_epoch s.1) (fun s => Keeper.epoch_stall s.1) counted_late (6, 60) 5 6 true)
    as (s1 & s2 & w & H1 & H2 & Hg & E1 & E2 & Hb); [vm_compute; reflexivity|]. cbv beta in Hg, E1, E2, Hb.
  assert (visits 10 emit_ncn_metrics emit_epoch_metrics keeper_handler s1 [(6, 6)]) as Hv.
  { assert ([(6, 6)] = [(6, Keeper.current_keeper_epoch s2.1)]) as -> by (rewrite E2; reflexivity).
    eapply visits_round; [exact H2|exact Hg|apply visits_nil]. }
  exists s1. split; [exact H1|]. split; [exact Hv|]. split; [exact E1|]. split; [exact Hb|].
  destruct (keeper_moves_in_order 10 emit_ncn_metrics emit_epoch_metrics keeper_handler counted_late s1 [(6, 6)] H1 Hv)
    as (Hstall & Hnext & Hall). split; [exact (proj2 (proj2 (Hstall Hb)))|]. rewrite E1 in Hnext, Hall. split.
  - exact (proj1 (Hnext 6 6 [] eq_refl) (or_intror Hb)).
  - specialize (Hall ltac:(vm_compute; discriminate)). apply List.Forall_inv in Hall; [exact Hall|].
    repeat constructor; discriminate.
Defined.

Lemma program_expects_its_accounts_witness : exists s',
  process_instruction (ext := externals voting) (P := fixed_point) id vote_metas' (Ok (CastVote 1 epoch)) counted
    = (Ok tt, s')
  /\ exists n o, laid_out id n o (layout n o (CastVote 1 epoch)) vote_metas'
     /\ forall k, k ∈ written (layout n o (CastVote 1 epoch)) vote_metas' \/ same_data (s' k) (counted k).
Proof.
  pose proof (fun s' => program_expects_its_accounts (ext := externals voting) (P := fixed_point) (CastVote 1 epoch)
    vote_metas' counted s') as H.
  assert (fst (process_instruction (ext := externals voting) (P := fixed_point) id vote_metas'
    (Ok (CastVote 1 epoch)) counted) = Ok tt) as Hf by (vm_compute; reflexivity).
  destruct (process_instruction id vote_metas' (Ok (CastVote 1 epoch)) counted) as [res s'].
  cbn [fst] in Hf. subst res. exists s'. split; [reflexivity|]. apply H. reflexivity.
Defined.

(** The same vote, on the ledger where everything is prepared: the box has it. *)
Example command_line_votes :
  let w := snd (main 10 operator_args (ProgramCommand.OperatorCastVote "operator" 1) (at_time voting prepared.2)) in
  match try_from_slice (T := BallotBox.t) (Account.data (store w box)) with
  | Ok b => (BallotBox.operators_voted b, Ballot.weather_status (BallotBox.winning_ballot b))
  | _ => (0, 0)
  end = (1, 1)
  /\ List.length (points w) = List.length (points prepared.2).
Proof. vm_compute. split; reflexivity. Qed.

(** ** The routing loops *)

Lemma run_instructions_all clock l (s s' : Store cell) : run_instructions clock l s = (Ok tt, s') ->
  executes_all (at_clock := externals) (P := fixed_point) l s s'.
Proof.
  revert s. induction l as [|ix l IH]; intros s H; [injection H as <-; apply executes_nil|].
  destruct ix as [program_id accounts d args| | | |];
    try (by apply (executes_cons _ _ _ s); [by apply executes_other|apply IH]). cbn [run_instructions] in H.
  destruct ((program_id =? id) && (d =? variant args)) eqn:E; [|discriminate H].
  apply andb_true_iff in E as [->%Z.eqb_eq ->%Z.eqb_eq]. apply mbind_ok in H as ([] & s1 & H1 & H).
  eapply executes_cons; [by eapply executes_ncn|by apply IH].
Qed.
#[global] Instance node_reliable : ReliableNode (at_clock := externals) (P := fixed_point) (rpc := node) store.
Proof.
  assert (forall A (f : World -> A) (good : A -> Store cell -> Prop) s, (forall w, s = store w -> good (f w) s) ->
    ends store (eq s) (answer f) (fun a s' => s = s' /\ good a s) (eq s)) as Hread.
  { intros A f good s Hg w Hw. unfold answer. destruct (up w); [|done]. split; [done|by apply Hg]. }
  assert (forall tx s, ends store (eq s) (send tx)
    (fun _ => executes_all (at_clock := externals) (P := fixed_point) (instructions tx) s) (eq s)) as Hsend.
  { intros tx s w ->. unfold send. destruct (up w); [|done].
    destruct (run_instructions (now w) (instructions tx) (store w)) as [[[]|e|] s'] eqn:E; [|done..].
    by apply run_instructions_all in E. }
  split; [| |exact Hsend..].
  - intros k s. apply (Hread _ _ (fun a s => forall x, a = Some x -> x = s k)). intros w -> x.
    by destruct (_ =? 0); [|intros [= <-]].
  - intros s w Hw. cbn. unfold answer. by destruct (up w).
Qed.

(** The node knows no account without lamports. *)
Lemma node_missing k (s : Store cell) : Account.lamports (s k) = 0 ->
  ends store (eq s) (get_account_with_commitment k) (fun a s' => s = s' /\ a = None) (eq s).
Proof.
  intros H0 w ->. cbn. unfold answer. destruct (up w); [|done]. cbn. split; [done|]. by rewrite H0.
Qed.

(** The client creates the ballot box where the stake was counted. *)
Definition counted_world : World := Build_World (after count weighed) early true [].
Lemma box_is_created : fst (create_ballot_box keeper_handler epoch counted_world) = Ok tt.
Proof. vm_compute. reflexivity. Qed.
Lemma client_creates_the_box_witness :
  unopened ncn epoch (store counted_world)
  /\ exists bump slot, in_phase (store (snd (create_ballot_box keeper_handler epoch counted_world)) box)
       (Open (BallotBox.new ncn epoch bump slot)).
Proof.
  assert (unopened ncn epoch (store counted_world)) as Hu by (left; vm_compute; reflexivity).
  split; [exact Hu|].
  destruct (client_creates_the_box (at_clock := externals) (P := fixed_point) no_collisions (fun _ => eq_refl)
    id_not_system store keeper_handler ncn epoch eq_refl eq_refl node_missing) as [H _].
  exact (ends_ok store _ _ _ _ _ _ H Hu box_is_created).
Defined.

(** The rewards have arrived, and the vote is over. *)
Definition rewarded : World := Build_World (fund (after open_routers voted)) Scenario.routing true [].

(** A router without rewards, in an account of the program. *)
Definition unrouted (s : Store cell) : bool :=
  match try_from_slice (T := NCNRewardRouter.t) (Account.data (s router)),
        try_from_slice (T := BallotBox.t) (Account.data (s box)) with
  | Ok r, Ok b =>
      (Account.owner (s router) =? id) && (Account.owner (s box) =? id)
      && (List.length (BallotBox.operator_votes b) =? 256)%nat && negb (NCNRewardRouter.still_routing r)
      && (0 <=? NCNRewardRouter.reward_pool r) && (0 <=? NCNRewardRouter.protocol_rewards r)
      && (0 <=? NCNRewardRouter.ncn_rewards r) && (0 <=? NCNRewardRouter.operator_vault_rewards r)
      && forallb (fun x => 0 <=? OperatorVaultRewardRoute.rewards' x) (NCNRewardRouter.operator_vault_reward_routes r)
  | _, _ => false
  end.
Definition operator_unrouted (s : Store cell) : bool :=
  match try_from_slice (T := OperatorVaultRewardRouter.t) (Account.data (s operator_router)),
        try_from_slice (T := OperatorSnapshot.t) (Account.data (s operator_snapshot)) with
  | Ok r, Ok o =>
      (Account.owner (s operator_router) =? id) && (Account.owner (s operator_snapshot) =? id)
      && (List.length (OperatorSnapshot.vault_operator_stake_weight o) =? 64)%nat
      && negb (OperatorVaultRewardRouter.still_routing r)
      && (0 <=? OperatorVaultRewardRouter.reward_pool r) && (0 <=? OperatorVaultRewardRouter.operator_rewards r)
      && forallb (fun x => 0 <=? VaultRewardRoute.rewards x) (OperatorVaultRewardRouter.vault_reward_routes r)
  | _, _ => false
  end.
Lemma forallb_nonneg {A} (f : A -> Z) l : forallb (fun x => 0 <=? f x) l = true -> Forall (fun x => 0 <= f x) l.
Proof. induction l as [|x l IH]; cbn; [constructor|]. intros [Hx%Z.leb_le Hl]%andb_true_iff. auto. Qed.
Ltac checked H := repeat (apply andb_true_iff in H as [H ?]); repeat match goal with
  | H : (_ <=? _) = true |- _ => apply Z.leb_le in H
  | H : (_ =? _)%nat = true |- _ => apply Nat.eqb_eq in H
  | H : (_ =? _) = true |- _ => apply Z.eqb_eq in H
  | H : forallb _ _ = true |- _ => apply forallb_nonneg in H
  | H : negb _ = true |- _ => apply negb_true_iff in H
  end.

Lemma unrouted_at s : unrouted s = true -> ncn_at ncn epoch 0 s.
Proof.
  unfold unrouted. intros H. destruct (try_from_slice (Account.data (s router))) as [r|e|] eqn:Er; [|discriminate H..].
  destruct (try_from_slice (Account.data (s box))) as [b|e|] eqn:Eb; [|discriminate H..]. checked H.
  split; [by exists b|]. exists r. split; [split; [done|]; split; [exact Er|]|].
  - split; [done..|]. intros Hs. congruence.
  - unfold position. change (still r) with (NCNRewardRouter.still_routing r).
    by match goal with H : NCNRewardRouter.still_routing r = false |- _ => rewrite H end.
Qed.
Lemma operator_unrouted_at s : operator_unrouted s = true -> operator_at ncn epoch operator 0 s.
Proof.
  unfold operator_unrouted. intros H.
  destruct (try_from_slice (Account.data (s operator_router))) as [r|e|] eqn:Er; [|discriminate H..].
  destruct (try_from_slice (Account.data (s operator_snapshot))) as [o|e|] eqn:Eo; [|discriminate H..]. checked H.
  split; [by exists o|]. exists r. split; [split; [done|]; split; [exact Er|]|].
  - split; [done..|]. intros Hs. congruence.
  - unfold position. change (still r) with (OperatorVaultRewardRouter.still_routing r).
    by match goal with H : OperatorVaultRewardRouter.still_routing r = false |- _ => rewrite H end.
Qed.
Lemma rewarded_unrouted : unrouted (store rewarded) = true /\ operator_unrouted (store rewarded) = true.
Proof. vm_compute. split; reflexivity. Qed.

Abbreviation ncn_loop := (route_ncn_rewards 257 keeper_handler epoch).
Abbreviation operator_loop := (route_operator_vault_rewards 257 keeper_handler operator epoch).
Lemma loops_return : fst (ncn_loop rewarded) = Ok tt /\ fst (operator_loop rewarded) = Ok tt.
Proof. vm_compute. split; reflexivity. Qed.
Lemma client_routing_ends_witness :
  ncn_at ncn epoch 0 (store rewarded) /\ operator_at ncn epoch operator 0 (store rewarded)
  /\ (exists r : NCNRewardRouter.t, router_at (store (snd (ncn_loop rewarded))) router r
        /\ NCNRewardRouter.still_routing r = false)
  /\ (exists r : OperatorVaultRewardRouter.t, router_at (store (snd (operator_loop rewarded))) operator_router r
        /\ OperatorVaultRewardRouter.still_routing r = false).
Proof.
  destruct rewarded_unrouted as [H1%unrouted_at H2%operator_unrouted_at]. destruct loops_return as [E1 E2].
  destruct (client_routing_ends (at_clock := externals) (P := fixed_point) no_collisions store
    keeper_handler ncn epoch eq_refl eq_refl 257 operator ltac:(lia)) as [Hn Ho].
  split; [exact H1|]. split; [exact H2|]. split.
  - exact (ends_ok store _ _ _ _ _ _ Hn (ex_intro _ 0 H1) E1).
  - exact (ends_ok store _ _ _ _ _ _ Ho (ex_intro _ 0 H2) E2).
Defined.

(** Creating the epoch state leaves the configuration exactly as it was. *)
Lemma only_announced_accounts_change_witness : exists s',
  process_instruction (ext := externals early) (P := fixed_point) id state_metas (Ok (InitializeEpochState epoch))
    configured = (Ok tt, s')
  /\ s' config = configured config.
Proof.
  pose proof (fun s' => only_announced_accounts_change (ext := externals early) (P := fixed_point)
    (InitializeEpochState epoch) state_metas configured s' config) as H.
  assert (fst (process_instruction (ext := externals early) (P := fixed_point) id state_metas
    (Ok (InitializeEpochState epoch)) configured) = Ok tt) as Hf by (vm_compute; reflexivity).
  destruct (process_instruction id state_metas (Ok (InitializeEpochState epoch)) configured) as [res s'].
  cbn [fst] in Hf. subst res. exists s'. split; [reflexivity|].
  destruct (H s' eq_refl) as [Hin|He]; [|exact He]. exfalso. revert Hin.
  apply (bool_decide_eq_false_1 _). vm_compute. reflexivity.
Defined.
